(* ===== verification/_CoqProject ===== *)
-Q . S2P
Prelude.v
Words.v
Consts.v
Structs.v
Jhash.v
Csum.v
Headers.v
FlowDebug.v
Encap.v
Parsing.v
Icmp.v
Frame.v
SafetyLib.v
Balancer.v
Safety.v
Decap.v
Healthcheck.v
Root.v
RefKernel.v
Recirculation.v
Tunnels.v
RoundTrip.v
TunnelSpec.v
HeaderSpec.v
Flood.v
Routing.v
Delivery.v
Records.v
LoxiDefs.v
LoxiTables.v
LoxiState.v
LoxiSkb.v
LoxiRef.v
LoxiCt.v
LoxiCtFrame.v
LoxiCtSpec.v
LoxiCtUnion.v
LoxiTcp.v
LoxiNat.v
LoxiReply.v
LoxiPolicer.v
LoxiFw.v
LoxiParse.v
LoxiParseSpec.v
LoxiParseSafe.v
LoxiNatRw.v
LoxiDeparse.v
LoxiNatSpec.v
LoxiTunSpec.v
LoxiFwd.v
LoxiSum.v
LoxiMain.v
LoxiMainSpec.v
LoxiFlow.v
LoxiCrc.v
RateLimit.v
IngressFw.v
Netobserv.v
Suricata.v
SuricataSpec.v
SuricataBypass.v
SkAccel.v
SkAccelSpec.v
HxdpFw.v
BpfFilter.v
Kpng.v
