(* ===== verification/Prelude.v ===== *)
(** * Verified models of the packet programs of the repository

    The repository collects eBPF packet programs, on which its extraction tool
    works.  This library models ten of them as functions of the packet, the
    maps and the kernel helpers, translated statement by statement from the C
    sources, and proves what makes them correct: the load balancers katran and
    loxilb, a connection rate limiter, an ingress firewall, a flow monitor, the
    filters of an intrusion detection system, and four small programs.
    Source paths below are relative to [src/examples/].

    ** How C is modelled

    [Prelude] has the statement monad: a statement falls through ([Next]),
    executes a [return] ([Return]) or accesses memory outside its object
    ([Fault]); [run] makes a function of a body, [None] being a fault.
    Integers are [Z] with the wrap-around of their C width written out, and
    packet memory is a list of bytes with bounds-checked loads and stores
    ([Words]).  Map values reached by pointer are keys of the map, so two
    pointers to the same entry alias ([Records] updates nested fields).
    Kernel helpers are the methods of a type class over an unknown kernel
    state: [Structs.BpfEnv] and [Healthcheck.HcEnv] for katran,
    [LoxiState.LoxiEnv] and [LoxiSkb.SkbEnv] for loxilb, [RateLimit.RlEnv],
    [Netobserv.NbEnv], [Suricata.SuEnv], [SkAccel.SkEnv], [HxdpFw.HxEnv],
    [Kpng.KpEnv]; [IngressFw] takes the kernel's prefix tries as a class
    [LpmTrie].  What the programs rely on is stated as laws ([BpfEnvLaws],
    [LoxiEnvLaws], [SkbEnvLaws], ...): the documented behaviour of the helpers.
    [RefKernel] and [LoxiRef] are instances that satisfy the laws, on which
    every theorem with hypotheses is run on a concrete packet.

    ** Katran ([katran/])

    An L4 load balancer in XDP.  [balancer_ingress] parses a packet, looks up
    the VIP it is for, chooses a real server (QUIC connection id, TCP server
    id, connection table, consistent hashing, in this order) and transmits the
    packet to the real in an IPIP or GUE tunnel; a packet tunnelled to this
    host is decapsulated and sent through the program again by a tail call.
    The real runs [xdpdecap]; [healthchecker_kern] tunnels the probes of the
    host itself; [xdp_root] chains programs.  The programs share packets and
    control maps, and no code runs concurrently on the per-CPU state.

    - [Consts]: [balancer_consts.h], event ids, header offsets.  Build options
      are the fields of [BuildConfig]: theorems hold for all builds.
    - [Structs]: the structs and maps; [control_maps] are written by user
      space only, [xstate] is everything a program may change.
    - [Jhash], [Csum], [Headers], [FlowDebug], [Encap], [Parsing], [Icmp]: the
      headers [jhash.h], [csum_helpers.h], [encap_helpers.h],
      [flow_debug_helpers.h], [pckt_encap.h], [pckt_parsing.h],
      [handle_icmp.h].
    - [Balancer]: [balancer_kern.c], [balancer_helpers.h]; [katran n] is the
      program when the kernel allows [n] tail calls.
    - [Decap], [Healthcheck], [Root]: [decap_kern.c], the two health-check
      programs, [xdp_root.c] and [xdp_pktcntr.c].

    Theorems: [Frame] is the interface between routines and callers (what a
    call may change), on which [SafetyLib] and [Safety] prove that the balancer
    never accesses memory out of bounds.  [Tunnels], [TunnelSpec], [RoundTrip]:
    the exact bytes of the tunnels, and that [xdpdecap] inverts them.
    [Routing]: [get_packet_dst] refines a pure choice; consistent hashing and
    session affinity.  [Flood]: the connection-rate limiter over any trace.
    [Recirculation]: the tail-call loop terminates.  [HeaderSpec]: checksum
    folding against the one's-complement sum, TTL.  [Delivery]: the whole
    balancer on TCP packets against a specification (to which real, in which
    tunnel, counted how, when dropped), composed with the decapsulator of the
    real.

    ** Loxilb ([loxilb-ebpf-main/])

    A load balancer and stateful router on the tc hook.  [tc_packet_func_fast]
    parses a packet into the metadata [struct xfi] and looks it up in the flow
    cache; a hit is rewritten and sent.  On a miss it tail-calls
    [tc_packet_func]: interface, L2, connection table, sessions, routes, next
    hop; the actions met are collected into a new cache entry.  Packets without
    an established connection tail-call the firewall, the NAT/LB stage and the
    tracker ([dp_ing_ct_main]).  [dp_pipe_check_res] carries out the verdict:
    the packet is translated, tunnelled or unwrapped, tagged and redirected.
    The stages communicate through the metadata and the maps, all in
    [LoxiState.lstate].

    - [LoxiDefs], [LoxiTables]: constants, metadata, structs of the maps
      ([common/llb_dpapi.h], [common/llb_dp_mdi.h], [common/common_pdi.h]).
      [LoxiState]: the state and the helpers all stages use.  [LoxiSkb]: the
      socket buffer helpers and tail calls.  [LoxiRef]: a reference kernel.
    - [LoxiParse]: the parser of [kernel/llb_kern_compose.c], tunnels included.
    - [LoxiCt]: [kernel/llb_kern_ct.c], the tracker [dp_ct_in] and its protocol
      state machines.
    - [LoxiNat]: [kernel/llb_kern_natlbfwd.c] and [dp_pipe_set_nat] of
      [kernel/llb_kern_l3fwd.c].
    - [LoxiPolicer]: [kernel/llb_kern_policer.c].
    - [LoxiFw]: [kernel/llb_kern_fw.c], [dp_do_map_stats], and the firewall
      part of [dp_ing_ct_main] ([kernel/llb_kern_devif.c]).
    - [LoxiNatRw], [LoxiDeparse]: packet rewriting of
      [kernel/llb_kern_cdefs.h] (the setters [dp_set_...], NAT between and
      within the IP versions, VLAN tags, IPIP, VXLAN and GTP tunnels) and the
      deparser of [kernel/llb_kern_compose.c].
    - [LoxiFwd]: [kernel/llb_kern_sessfwd.c], [llb_kern_l3fwd.c],
      [llb_kern_l2fwd.c].  [LoxiSum]: [kernel/llb_kern_sum.c] and the CRC table
      of [kernel/loxilb_libdp.c].  [LoxiMain]: [kernel/llb_kern_devif.c],
      [llb_kern_fcfwd.c], [llb_kern_entry.c].

    The build: [HAVE_DP_FC], [HAVE_DP_EXTCT] and [HAVE_DP_SCTP_SUM] are on,
    [HAVE_DP_EGR_HOOK], [HAVE_OOB_CH], [HAVE_LLB_DISAGGR] and
    [LLB_DP_IF_STATS] are off; [xf] is always the entry of [xfis].

    Theorems: [LoxiCtFrame], [LoxiCtSpec]: the two entries of a flow are
    created and deleted together unless the kernel refuses one, other flows are
    left alone.  [LoxiCtUnion]: the union of protocol data is written and read
    at the member of the flow's protocol only, so that modelling it by fields
    side by side loses nothing; for this the kernel must find room for an
    update by its key ([CtUpdateByKey]).
    [LoxiTcp]: when a flow is reported established, a handshake establishes it,
    a close removes it, unexpected segments in a closing state.  [LoxiReply]:
    replies of a translated flow find the entries of the flow.  [LoxiNat]: what
    each selection picks, no end-point starves.  [LoxiPolicer]: conformance to
    the two rates over any interval.  [LoxiFw]: the search by chunks and tail
    calls is first match.  [LoxiParseSpec]: the parser inverts the encoding of
    headers, and a VXLAN tunnel is transparent to it; [LoxiParseSafe]: its
    memory safety, except on packets that end at an offset where it expects an
    IPv4 header ([ipv4_due]).  [LoxiNatSpec]: what translation changes in a packet, with
    valid checksums.  [LoxiTunSpec]: a packet's hop through a VXLAN tunnel, and
    when the checksum of the outer header is right.  [LoxiMainSpec] has a lemma
    per stage of the slow path; on these [LoxiFlow] proves the composition of
    the programs for the packets of an established connection: all of them
    leave by its path, through slow path and flow cache alike.  [LoxiCrc]: the
    checksum programs compute the CRC32c of an SCTP packet.

    ** Rate limiter ([ebpf-ratelimiter-main/])

    [RateLimit]: the XDP program [ratelimiting_kern.c] (Module [Xdp]), the tc
    program a transformation made of it (Module [Tc]), and the sweep of old
    counters in [ratelimiting_user.c].  Theorems: how many connections a second
    admits, over any run of packets and sweeps; the exact step of either
    program, and that they differ between their two limits only; what the sweep removes and that it ends.

    ** Ingress firewall ([ingress-node-firewall-master/])

    [IngressFw]: the whole program.  Theorems: the decision is that of the
    first matching rule of the longest prefix; memory safety up to one access;
    packets without a usable transport header.

    ** Flow monitor ([netobserv-bpf-main/])

    [Netobserv]: the whole program.  Theorem: no packet or byte of a flow is
    lost or counted twice, in any interleaving with evictions.

    ** Suricata's filters ([suricata-master/ebpf/])

    [Suricata], a Module per program: [xdp_filter.c] ([Filter], its build
    options the fields of [FilterBuild]), [xdp_lb.c] ([Lb]), and the socket
    filters [lb.c] ([Fanout]), [bypass_filter.c] ([Bypass]), [filter.c]
    ([Drop]) and [vlan_filter.c] ([Vlan]), with the hash of [hash_func01.h].
    Per-CPU tables are those of the running CPU.  Theorems: [SuricataSpec]: the
    packets of two hosts all reach one CPU, in a tunnel or not, and the XDP
    programs are memory safe; [SuricataBypass]: what is counted and done with
    packets of bypassed flows, over any sequence of packets, and that the
    socket filter and the XDP filter agree.

    ** Four small programs

    - [SkAccel]: [sk-accelerate-main/src/], which joins the sockets of local
      connections.  [SkAccelSpec]: connections and their events as a step
      relation; after any run the table of services has exactly the entries of
      the open connections, and messages reach the other end.
    - [HxdpFw]: the stateful firewall [hxdp_xdp_progs/xdp_fw_kern.c], and what
      it lets in over any sequence of packets.
    - [BpfFilter]: [bpf-filter-master/ebpf/drop.c]; which packets pass.
    - [Kpng]: [kpng-master/backends/ebpf/bpf/cgroup_connect4.c]; where a connect
      is sent.

    ** Fuel and bounds

    - [katran n] recurses on the number of tail calls left.
      [Recirculation.recirculation_terminates]: every pass removes at least 20
      bytes, so from a number of calls that depends on the packet length only
      the limit makes no difference.
    - [LoxiFw.ct_main_fw calls] recurses on tail calls.  The number of rules is
      an 8-bit field, so one chunk of 400 rules ([fw_loop]) always finishes the
      search, and two calls are enough ([LoxiFw.firewall_first_match]).
    - [LoxiMain.tail_calls calls]: the kernel allows 33 tail calls in a row,
      the 34th falls through.  [LoxiSum.crc_loop] is the loop over 256 bytes of
      one call; [LoxiCrc.passes] calls are needed and enough.
    - [RateLimit.delete_stale_loop]: every removal starts the walk over the
      counters again; [sweep_fuel], a walk per removal and one more, is enough
      ([RateLimit.sweep_removes]).
    - All other loops have the constant bounds of the source, as recursion on
      that constant: four folding steps, fifteen TCP options, sixteen
      end-points, 100 firewall rules, two GTP extension headers.

    ** Not modelled, and why

    - Parallel runs on other CPUs: a program runs to completion on its own
      per-CPU maps; where loxilb shares a map under a spin lock the locked
      section is one step.  Statements about several packets hold for packets
      that the same maps see one after the other.
    - The eviction policy of LRU maps: [lru_hash_update] may drop any other
      entry, or refuse the new one.
    - The kernel API headers, [bpf_csum_diff], [bpf_xdp_adjust_head] and the
      other helpers: parameters with their documented behaviour.
    - loxilb: [dp_do_fcv4_ct_helper], the XDP variants in [llb_kern_cdefs.h]
      and [dp_trap_packet], which the modelled build does not call; the route
      keys are values, not overlaid on the scratch space [km]; the monitor
      program [llb_kern_mon.c]; the user-space library but for the CRC table.
    - Suricata: [USE_GLOBAL_BYPASS], fixed to 0 in the source.
    - The other programs under [examples/]: xdp-mptm is built on headers of the
      xdp tutorial that are not in the repository; the two benchmarks beside
      the firewall of [hxdp_xdp_progs/], the prototypes of [tpc-ebpf/] for a
      patched kernel and the verifier tests of [vpf-ebpf-src/] have no contract
      of their own; cilium needs generated configuration headers that are not
      in the repository; the bcc and libbpf
      tools are one-line probes with user-space printing, over generated kernel
      headers; the extraction tool itself is Python and shell around external
      programs. *)
From Stdlib Require Export ZArith Lia.
From stdpp Require Export base tactics option list gmap.

#[global] Open Scope Z_scope.

(** ** Outcomes of C statements

    A statement of a C function with return type [R], run in program state
    [S], either performs an access outside the object it points into
    ([Fault]), executes a [return] ([Return]), or falls through to the next
    statement with a value ([Next]). *)
Inductive outcome (S R A : Type) : Type :=
| Fault
| Return (r : R) (s : S)
| Next (a : A) (s : S).
Arguments Fault {S R A}.
Arguments Return {S R A} r s.
Arguments Next {S R A} a s.

Definition body (S R A : Type) : Type := S → outcome S R A.

(** A whole C function: [None] is a fault, [Some (r, s')] a call that returns
    [r] in state [s']. *)
Definition func (S R : Type) : Type := S → option (R * S).

Declare Scope c_scope.
Delimit Scope c_scope with c.

Section statements.
Context {S R : Type}.

Definition ret {A} (a : A) : body S R A := λ s, Next a s.

Definition bind {A B} (m : body S R A) (k : A → body S R B) : body S R B :=
  λ s, match m s with
       | Fault => Fault
       | Return r s' => Return r s'
       | Next a s' => k a s'
       end.

(** [return r;] *)
Definition return_ {A} (r : R) : body S R A := λ s, Return r s.

(** [if (c) return r;] *)
Definition return_if (c : bool) (r : R) : body S R unit :=
  if c then return_ r else ret tt.

(** [if (c) { m }] *)
Definition when (c : bool) (m : body S R unit) : body S R unit :=
  if c then m else ret tt.

Definition fault {A} : body S R A := λ _, Fault.

Definition gets {A} (f : S → A) : body S R A := λ s, Next (f s) s.

Definition modify (f : S → S) : body S R unit := λ s, Next tt (f s).

(** A pointer that the code checks for NULL before use: [if (!p) return r;]
    followed by uses of [*p]. *)
Definition or_return {A} (o : option A) (r : R) : body S R A :=
  match o with Some a => ret a | None => return_ r end.

(** A value the code uses without a check: undefined when it is missing. *)
Definition or_fault {A} (o : option A) : body S R A :=
  match o with Some a => ret a | None => fault end.

(** A call. *)
Definition call {T} (f : func S T) : body S R T :=
  λ s, match f s with
       | None => Fault
       | Some (t, s') => Next t s'
       end.

(** The body of a function: falling off the end with a value is returning
    that value. *)
Definition run (m : body S R R) : func S R :=
  λ s, match m s with
       | Fault => None
       | Return r s' => Some (r, s')
       | Next r s' => Some (r, s')
       end.
End statements.

Notation "'let!' x ':=' m 'in' k" := (bind m (fun x => k))
  (at level 10, x pattern, m at level 200, k at level 200,
   format "'[v' 'let!'  x  ':='  m  'in' '/' k ']'") : c_scope.
Notation "m ;; k" := (bind m (fun _ => k))
  (at level 100, k at level 200, right associativity, only parsing) : c_scope.

(** ** Weakest preconditions

    [wpb m QR QN s]: statement [m] does not fault in [s]; if it returns, [QR]
    holds of the returned value and state, if it falls through, [QN] does.
    [wpf f Q s] is the same for a whole function.  Both are total: a function
    satisfying any [wpf] has a result. *)
Definition wpb {S R A} (m : body S R A) (QR : R → S → Prop) (QN : A → S → Prop)
    (s : S) : Prop :=
  match m s with
  | Fault => False
  | Return r s' => QR r s'
  | Next a s' => QN a s'
  end.

Definition wpf {S R} (f : func S R) (Q : R → S → Prop) (s : S) : Prop :=
  match f s with
  | None => False
  | Some (r, s') => Q r s'
  end.

Section wp.
Context {S R : Type}.
Implicit Types (s : S) (QR : R → S → Prop).

Lemma wp_ret {A} (a : A) QR (QN : A → S → Prop) s :
  QN a s → wpb (ret a) QR QN s.
Proof. done. Qed.

Lemma wp_return {A} (r : R) QR (QN : A → S → Prop) s :
  QR r s → wpb (return_ r) QR QN s.
Proof. done. Qed.

Lemma wp_bind {A B} (m : body S R A) (k : A → body S R B) QR QN s :
  wpb m QR (λ a s', wpb (k a) QR QN s') s → wpb (bind m k) QR QN s.
Proof. unfold wpb, bind. by destruct (m s). Qed.

Lemma wp_return_if c (r : R) QR (QN : unit → S → Prop) s :
  (c = true → QR r s) → (c = false → QN tt s) →
  wpb (return_if c r) QR QN s.
Proof. destruct c; unfold wpb, return_if; simpl; auto. Qed.

Lemma wp_when c (m : body S R unit) QR QN s :
  (c = true → wpb m QR QN s) → (c = false → QN tt s) →
  wpb (when c m) QR QN s.
Proof. intros H1 H2. destruct c; [by apply H1|]. apply wp_ret. by apply H2. Qed.

Lemma wp_if {A} (c : bool) (m1 m2 : body S R A) QR QN s :
  (c = true → wpb m1 QR QN s) → (c = false → wpb m2 QR QN s) →
  wpb (if c then m1 else m2) QR QN s.
Proof. destruct c; auto. Qed.

Lemma wp_gets {A} (f : S → A) QR (QN : A → S → Prop) s :
  QN (f s) s → wpb (gets f) QR QN s.
Proof. done. Qed.

Lemma wp_modify (f : S → S) QR (QN : unit → S → Prop) s :
  QN tt (f s) → wpb (modify f) QR QN s.
Proof. done. Qed.

Lemma wp_or_return {A} (o : option A) (r : R) QR (QN : A → S → Prop) s :
  (o = None → QR r s) → (∀ a, o = Some a → QN a s) →
  wpb (or_return o r) QR QN s.
Proof. destruct o; unfold wpb; simpl; auto. Qed.

Lemma wp_or_fault {A} (o : option A) a QR (QN : A → S → Prop) s :
  o = Some a → QN a s → wpb (or_fault o) QR QN s.
Proof. by intros ->. Qed.

Lemma wp_call {T} (f : func S T) QR (QN : T → S → Prop) s :
  wpf f QN s → wpb (call f) QR QN s.
Proof. unfold wpb, wpf, call. by destruct (f s) as [[? ?]|]. Qed.

Lemma wp_run (m : body S R R) (Q : R → S → Prop) s :
  wpb m Q Q s → wpf (run m) Q s.
Proof. unfold wpb, wpf, run. by destruct (m s). Qed.

Lemma wpf_mono (f : func S R) (P Q : R → S → Prop) s :
  wpf f P s → (∀ r s', P r s' → Q r s') → wpf f Q s.
Proof. unfold wpf. destruct (f s) as [[? ?]|]; auto. Qed.

Lemma wpf_and (f : func S R) (P Q : R → S → Prop) s :
  wpf f P s → wpf f Q s → wpf f (λ r s', P r s' ∧ Q r s') s.
Proof. unfold wpf. by destruct (f s) as [[??]|]. Qed.

Lemma wpb_mono {A} (m : body S R A) (PR QR : R → S → Prop)
    (PN QN : A → S → Prop) s :
  wpb m PR PN s → (∀ r s', PR r s' → QR r s') →
  (∀ a s', PN a s' → QN a s') → wpb m QR QN s.
Proof. unfold wpb. destruct (m s); auto. Qed.

(** A function that satisfies some [wpf] has a result, and the
    postcondition holds of it. *)
Lemma wpf_elim (f : func S R) (Q : R → S → Prop) s :
  wpf f Q s → ∃ r s', f s = Some (r, s') ∧ Q r s'.
Proof. unfold wpf. destruct (f s) as [[r s']|]; [eauto|done]. Qed.

Lemma wpf_intro (f : func S R) (Q : R → S → Prop) s r s' :
  f s = Some (r, s') → Q r s' → wpf f Q s.
Proof. unfold wpf. by intros ->. Qed.

Lemma wpf_result (f : func S R) (Q : R → S → Prop) s r s' :
  f s = Some (r, s') → wpf f Q s → Q r s'.
Proof. unfold wpf. by intros ->. Qed.
End wp.

(** One symbolic execution step on a [wpb]/[wpf] goal. *)
Ltac wp_step :=
  lazymatch goal with
  | |- wpf (run _) _ _ => apply wp_run
  | |- wpb (bind _ _) _ _ _ => apply wp_bind
  | |- wpb (ret _) _ _ _ => apply wp_ret; cbv beta
  | |- wpb (return_ _) _ _ _ => apply wp_return; cbv beta
  | |- wpb (return_if _ _) _ _ _ => apply wp_return_if; intros ?; cbv beta
  | |- wpb (when _ _) _ _ _ => apply wp_when; intros ?; cbv beta
  | |- wpb (gets _) _ _ _ => apply wp_gets; cbv beta
  | |- wpb (modify _) _ _ _ => apply wp_modify; cbv beta
  | |- wpb (or_return _ _) _ _ _ => apply wp_or_return; [intros ? | intros ? ?]; cbv beta
  | |- wpb (if _ then _ else _) _ _ _ => apply wp_if; intros ?
  | |- wpb (call _) _ _ _ => apply wp_call
  | |- wpb (let _ := _ in _) _ _ _ => cbv zeta
  end.
Ltac wp_steps := repeat wp_step.

(** Every branch of the conditionals of the goal. *)
Ltac split_ifs :=
  repeat match goal with |- context [if ?b then _ else _] => destruct b end.

Arguments ret : simpl never.
Arguments bind : simpl never.
Arguments call : simpl never.
Arguments run : simpl never.
Arguments gets : simpl never.
Arguments modify : simpl never.
