(* ===== verification/Words.v ===== *)
(** * Machine words, little-endian byte strings and packet memory

    Unsigned integers are [Z] with the wrap-around of their width written out
    ([u8], [u16], [u32], [u64]); packet memory is a list of bytes, addressed
    by the offset from [xdp->data].  A state that owns a packet implements
    [PktState]; the loads and stores below are generic in it, so the header
    routines shared by the XDP programs and the tc health checker are
    translated once.  A load or store outside [data, data_end) is a [Fault]. *)
From S2P Require Import Prelude.
Open Scope c_scope.

(** ** Fixed-width integers *)

Definition u8 (x : Z) : Z := x mod 2 ^ 8.
Definition u16 (x : Z) : Z := x mod 2 ^ 16.
Definition u32 (x : Z) : Z := x mod 2 ^ 32.
Definition u64 (x : Z) : Z := x mod 2 ^ 64.

(** Conversion to a signed type of [w] bits (two's complement). *)
Definition signed (w : Z) (x : Z) : Z :=
  let y := x mod 2 ^ w in if y <? 2 ^ (w - 1) then y else y - 2 ^ w.
Definition s32 (x : Z) : Z := signed 32 x.
Definition s64 (x : Z) : Z := signed 64 x.

(** [if (x & mask)] *)
Definition has_flag (x mask : Z) : bool := negb (Z.land x mask =? 0).

Lemma u8_range x : 0 ≤ u8 x < 2 ^ 8.
Proof. apply Z.mod_pos_bound. lia. Qed.
Lemma u16_range x : 0 ≤ u16 x < 2 ^ 16.
Proof. apply Z.mod_pos_bound. lia. Qed.
Lemma u32_range x : 0 ≤ u32 x < 2 ^ 32.
Proof. apply Z.mod_pos_bound. lia. Qed.
Lemma u64_range x : 0 ≤ u64 x < 2 ^ 64.
Proof. apply Z.mod_pos_bound. lia. Qed.

Lemma u8_id x : 0 ≤ x < 2 ^ 8 → u8 x = x.
Proof. intros. by apply Z.mod_small. Qed.
Lemma u16_id x : 0 ≤ x < 2 ^ 16 → u16 x = x.
Proof. intros. by apply Z.mod_small. Qed.
Lemma u32_id x : 0 ≤ x < 2 ^ 32 → u32 x = x.
Proof. intros. by apply Z.mod_small. Qed.
Lemma u64_id x : 0 ≤ x < 2 ^ 64 → u64 x = x.
Proof. intros. by apply Z.mod_small. Qed.

(** ** Bytes and little-endian words *)

Definition is_byte (b : Z) : Prop := 0 ≤ b < 256.
Definition bytes_ok (bs : list Z) : Prop := Forall is_byte bs.

#[export] Instance is_byte_dec b : Decision (is_byte b).
Proof. unfold is_byte. apply _. Defined.
#[export] Instance bytes_ok_dec bs : Decision (bytes_ok bs).
Proof. unfold bytes_ok. apply _. Defined.

Lemma u8_pred t : is_byte t → u8 (t - 1) = if t =? 0 then 255 else t - 1.
Proof.
  unfold is_byte. intros Ht. destruct (Z.eqb_spec t 0) as [->|]; [done|].
  apply u8_id. lia.
Qed.

Fixpoint le_val (bs : list Z) : Z :=
  match bs with
  | [] => 0
  | b :: bs => b + 256 * le_val bs
  end.

Fixpoint le_bytes (n : nat) (v : Z) : list Z :=
  match n with
  | O => []
  | S n => v mod 256 :: le_bytes n (v / 256)
  end.

Lemma length_le_bytes n v : length (le_bytes n v) = n.
Proof. revert v; induction n; intros; simpl; auto. Qed.

Lemma le_bytes_ok n v : bytes_ok (le_bytes n v).
Proof.
  revert v; induction n; intros v; simpl; constructor; [|apply IHn].
  apply Z.mod_pos_bound; lia.
Qed.

Lemma le_val_bytes n v : le_val (le_bytes n v) = v mod 256 ^ Z.of_nat n.
Proof.
  revert v; induction n as [|n IH]; intros v; simpl le_bytes; simpl le_val.
  { by rewrite Z.mod_1_r. }
  rewrite IH, Nat2Z.inj_succ, Z.pow_succ_r by lia.
  rewrite Z.rem_mul_r by lia. lia.
Qed.

Lemma le_val_range bs :
  bytes_ok bs → 0 ≤ le_val bs < 256 ^ Z.of_nat (length bs).
Proof.
  induction 1 as [|b bs Hb _ IH]; simpl le_val; simpl length; [lia|].
  rewrite Nat2Z.inj_succ, Z.pow_succ_r by lia. unfold is_byte in *. lia.
Qed.

Lemma le_bytes_val bs : bytes_ok bs → le_bytes (length bs) (le_val bs) = bs.
Proof.
  induction 1 as [|b bs Hb _ IH]; simpl; [done|].
  unfold is_byte in Hb. rewrite (Z.mul_comm 256).
  by rewrite Z.mod_add, Z.div_add, Z.mod_small, Z.div_small, Z.add_0_l, IH by lia.
Qed.

Lemma le_bytes_mod n v : le_bytes n v = le_bytes n (v mod 256 ^ Z.of_nat n).
Proof.
  rewrite <-le_val_bytes. symmetry.
  pose proof (le_bytes_val (le_bytes n v) (le_bytes_ok n v)) as H.
  by rewrite length_le_bytes in H.
Qed.

Lemma le_bytes_app n m v :
  le_bytes (n + m) v = le_bytes n v ++ le_bytes m (v / 256 ^ Z.of_nat n).
Proof.
  revert v. induction n as [|n IH]; intros v; simpl.
  { by rewrite Z.div_1_r. }
  rewrite IH. do 3 f_equal. rewrite Z.div_div by lia.
  by rewrite Nat2Z.inj_succ, Z.pow_succ_r by lia.
Qed.

Lemma le_val_app bs1 bs2 :
  le_val (bs1 ++ bs2) = le_val bs1 + 256 ^ Z.of_nat (length bs1) * le_val bs2.
Proof.
  induction bs1 as [|b bs1 IH]; simpl le_val; simpl length; [lia|].
  rewrite IH, Nat2Z.inj_succ, Z.pow_succ_r by lia. lia.
Qed.

(** A boolean property of small integers, decided by enumeration. *)
Lemma forall_range (n : nat) (P : Z → bool) :
  forallb (λ i, P (Z.of_nat i)) (seq 0 n) = true →
  ∀ x, 0 ≤ x < Z.of_nat n → P x = true.
Proof.
  intros H x Hx. rewrite List.forallb_forall in H.
  specialize (H (Z.to_nat x)). rewrite Z2Nat.id in H by lia.
  apply H, List.in_seq. lia.
Qed.

(** Assigning the high and then the low 4-bit field of a byte. *)
Definition set_hi4 (b v : Z) : Z := Z.lor (Z.land b 15) (Z.shiftl (Z.land v 15) 4).
Definition set_lo4 (b v : Z) : Z := Z.lor (Z.land b 240) (Z.land v 15).

Lemma set_nibbles b hi lo :
  is_byte b → 0 ≤ hi < 16 → 0 ≤ lo < 16 →
  set_lo4 (set_hi4 b hi mod 256) lo mod 256 = 16 * hi + lo.
Proof.
  intros Hb Hhi Hlo.
  assert (forallb (λ b, forallb (λ hi, forallb (λ lo,
    set_lo4 (set_hi4 (Z.of_nat b) (Z.of_nat hi) mod 256) (Z.of_nat lo) mod 256
      =? 16 * Z.of_nat hi + Z.of_nat lo) (seq 0 16)) (seq 0 16)) (seq 0 256) = true) as H
    by (vm_compute; done).
  pose proof (forall_range 256 (λ b, forallb (λ hi, forallb (λ lo,
    set_lo4 (set_hi4 b (Z.of_nat hi) mod 256) (Z.of_nat lo) mod 256
      =? 16 * Z.of_nat hi + Z.of_nat lo) (seq 0 16)) (seq 0 16)) H b Hb) as H1.
  pose proof (forall_range 16 (λ hi, forallb (λ lo,
    set_lo4 (set_hi4 b hi mod 256) (Z.of_nat lo) mod 256
      =? 16 * hi + Z.of_nat lo) (seq 0 16)) H1 hi Hhi) as H2.
  pose proof (forall_range 16 (λ lo,
    set_lo4 (set_hi4 b hi mod 256) lo mod 256 =? 16 * hi + lo) H2 lo Hlo) as H3.
  by apply Z.eqb_eq.
Qed.

Lemma le_bytes1 v : le_bytes 1 v = [v mod 256].
Proof. done. Qed.

(** [__builtin_bswap16] and [__builtin_bswap32]. *)
Definition bswap (n : nat) (x : Z) : Z := le_val (reverse (le_bytes n x)).
Definition bswap16 (x : Z) : Z := bswap 2 x.
Definition bswap32 (x : Z) : Z := bswap 4 x.

(** The BPF target is little-endian: [bpf_endian.h] selects the byte swaps. *)
Definition bpf_htons (x : Z) : Z := bswap16 (u16 x).
Definition bpf_ntohs (x : Z) : Z := bswap16 (u16 x).
Definition bpf_htonl (x : Z) : Z := bswap32 (u32 x).
Definition bpf_ntohl (x : Z) : Z := bswap32 (u32 x).

Lemma reverse_bytes_ok bs : bytes_ok bs → bytes_ok (reverse bs).
Proof. apply Forall_reverse. Qed.

Lemma le_bytes_bswap n x : le_bytes n (bswap n x) = reverse (le_bytes n x).
Proof.
  unfold bswap.
  pose proof (le_bytes_val (reverse (le_bytes n x))) as H.
  rewrite length_reverse, length_le_bytes in H.
  apply H, reverse_bytes_ok, le_bytes_ok.
Qed.

Lemma bswap_range n x : 0 ≤ bswap n x < 256 ^ Z.of_nat n.
Proof.
  unfold bswap. pose proof (le_val_range (reverse (le_bytes n x))) as H.
  rewrite length_reverse, length_le_bytes in H.
  apply H, reverse_bytes_ok, le_bytes_ok.
Qed.

Lemma bswap_bswap n x : bswap n (bswap n x) = x mod 256 ^ Z.of_nat n.
Proof.
  unfold bswap at 1. by rewrite le_bytes_bswap, reverse_involutive, le_val_bytes.
Qed.

Lemma bpf_ntohs_htons x : bpf_ntohs (bpf_htons x) = u16 x.
Proof.
  unfold bpf_ntohs, bpf_htons, bswap16.
  rewrite (u16_id (bswap _ _)) by apply (bswap_range 2).
  rewrite bswap_bswap. by rewrite Z.mod_small by apply (u16_range x).
Qed.

Lemma le_bytes2_htons x : le_bytes 2 (bpf_htons x) = reverse (le_bytes 2 x).
Proof.
  unfold bpf_htons, bswap16. rewrite le_bytes_bswap. f_equal. symmetry.
  apply (le_bytes_mod 2 x).
Qed.

Lemma bpf_htons_range x : 0 ≤ bpf_htons x < 2 ^ 16.
Proof. apply (bswap_range 2). Qed.
Lemma bpf_ntohs_range x : 0 ≤ bpf_ntohs x < 2 ^ 16.
Proof. apply (bswap_range 2). Qed.

(** ** Packet memory *)

Abbreviation mem := (list Z) (only parsing).

Definition slice (off n : nat) (m : mem) : list Z := take n (drop off m).
(** Overwrites [length bs] bytes at [off]; never changes the length. *)
Definition splice (off : nat) (bs m : mem) : mem :=
  if (off + length bs <=? length m)%nat
  then take off m ++ bs ++ drop (off + length bs) m else m.

(** The byte and the 16-bit word at [off]. *)
Definition byte_at (off : nat) (m : mem) : Z := le_val (slice off 1 m).
Definition half_at (off : nat) (m : mem) : Z := le_val (slice off 2 m).

(** [n] bytes at offset [off], [None] outside the buffer. *)
Definition peek (off : Z) (n : nat) (m : mem) : option (list Z) :=
  if (off <? 0) || (Z.of_nat (length m) <? off + Z.of_nat n) then None
  else Some (slice (Z.to_nat off) n m).

Definition poke (off : Z) (bs m : mem) : option mem :=
  if (off <? 0) || (Z.of_nat (length m) <? off + Z.of_nat (length bs)) then None
  else Some (splice (Z.to_nat off) bs m).

Lemma length_slice off n m :
  (off + n ≤ length m)%nat → length (slice off n m) = n.
Proof. intros. unfold slice. rewrite length_take, length_drop. lia. Qed.

Lemma splice_eq off bs m :
  (off + length bs ≤ length m)%nat →
  splice off bs m = take off m ++ bs ++ drop (off + length bs) m.
Proof. intros Hl. unfold splice. by rewrite (proj2 (Nat.leb_le _ _)). Qed.

Lemma length_splice off bs m : length (splice off bs m) = length m.
Proof.
  unfold splice. destruct (Nat.leb_spec (off + length bs) (length m)); [|done].
  rewrite !length_app, length_take, length_drop. lia.
Qed.

Lemma slice_ok off n m : bytes_ok m → bytes_ok (slice off n m).
Proof. intros. by apply Forall_take, Forall_drop. Qed.

Lemma splice_ok off bs m :
  bytes_ok m → bytes_ok bs → bytes_ok (splice off bs m).
Proof.
  intros. unfold splice. destruct (_ <=? _)%nat; [|done].
  apply Forall_app; split; [by apply Forall_take|].
  apply Forall_app; split; [done|by apply Forall_drop].
Qed.

Lemma slice_splice_eq off bs m :
  (off + length bs ≤ length m)%nat → slice off (length bs) (splice off bs m) = bs.
Proof.
  intros. rewrite splice_eq by done. unfold slice.
  rewrite drop_app_length' by (rewrite length_take; lia).
  by rewrite take_app_length.
Qed.

Lemma slice_lookup off n m i :
  (i < n)%nat → slice off n m !! i = m !! (off + i)%nat.
Proof. intros. unfold slice. by rewrite lookup_take_lt, lookup_drop. Qed.

Lemma slice_one n m b : m !! n = Some b → slice n 1 m = [b].
Proof. intros Hb. unfold slice. by rewrite (drop_S m b n Hb). Qed.

Lemma splice_lookup_out off bs m i :
  (off + length bs ≤ length m)%nat →
  (i < off ∨ off + length bs ≤ i)%nat → splice off bs m !! i = m !! i.
Proof.
  intros Hl [?|?]; rewrite splice_eq by done.
  - rewrite lookup_app_l by (rewrite length_take; lia).
    by rewrite lookup_take_lt.
  - rewrite lookup_app_r by (rewrite length_take; lia).
    rewrite lookup_app_r by (rewrite length_take; lia).
    rewrite lookup_drop, length_take. f_equal. lia.
Qed.

Lemma slice_splice_ne off n off' bs m :
  (off' + length bs ≤ length m)%nat →
  (off + n ≤ off' ∨ off' + length bs ≤ off)%nat →
  slice off n (splice off' bs m) = slice off n m.
Proof.
  intros Hl Hne. apply list_eq. intros i.
  destruct (decide (i < n)%nat) as [Hi|Hi].
  - rewrite !slice_lookup, splice_lookup_out by lia. done.
  - rewrite !lookup_ge_None_2; [done| |]; unfold slice; rewrite length_take; lia.
Qed.

(** Memory split into a prefix, a region and a suffix: accesses inside the
    region only see the region. *)
Lemma slice_region pre h post k n :
  (k + n ≤ length h)%nat →
  slice (length pre + k) n (pre ++ h ++ post) = slice k n h.
Proof.
  intros Hk. unfold slice. rewrite <-drop_drop, drop_app_length.
  rewrite drop_app_le, take_app_le by (rewrite ?length_drop; lia). done.
Qed.

Lemma splice_region pre h post k bs :
  (k + length bs ≤ length h)%nat →
  splice (length pre + k) bs (pre ++ h ++ post) = pre ++ splice k bs h ++ post.
Proof.
  intros Hk. rewrite !splice_eq by (rewrite ?length_app; lia).
  rewrite take_app_add, take_app_le by lia.
  rewrite <-Nat.add_assoc, drop_app_add.
  rewrite drop_app_le by lia. by rewrite <-!app_assoc.
Qed.

Lemma region_split off n m :
  (off + n ≤ length m)%nat →
  m = take off m ++ slice off n m ++ drop (off + n) m.
Proof.
  intros Hl. unfold slice. rewrite <-drop_drop, take_drop. by rewrite take_drop.
Qed.

(** Overwriting right behind a known prefix. *)
Lemma splice_app a bs m :
  (length bs ≤ length m)%nat → splice (length a) bs (a ++ m) = a ++ bs ++ drop (length bs) m.
Proof.
  intros Hl. rewrite splice_eq by (rewrite length_app; lia).
  by rewrite take_app_length, drop_app_add.
Qed.

(** A state that contains a packet. *)
Class PktState (S : Type) : Type := {
  get_pkt : S → mem;
  set_pkt : mem → S → S
}.
Class PktStateLaws (S : Type) `{PktState S} : Prop := {
  get_set_pkt m s : get_pkt (set_pkt m s) = m;
  set_set_pkt m m' s : set_pkt m (set_pkt m' s) = set_pkt m s;
  set_get_pkt s : set_pkt (get_pkt s) s = s
}.

(** The packet on its own is such a state. *)
#[export] Instance mem_pkt_state : PktState mem :=
  {| get_pkt m := m; set_pkt m _ := m |}.
#[export] Instance mem_pkt_laws : PktStateLaws mem.
Proof. by split. Qed.

Section memory.
Context {S : Type} `{PktState S} {R : Type}.

(** [data_end - data] *)
Definition pkt_len (s : S) : Z := Z.of_nat (length (get_pkt s)).

(** The bounds test [data + e > data_end]. *)
Definition past_end (e : Z) : body S R bool := gets (λ s, pkt_len s <? e).

Definition load_bytes (off : Z) (n : nat) : body S R (list Z) :=
  λ s, match peek off n (get_pkt s) with
       | Some bs => Next bs s
       | None => Fault
       end.

Definition store_bytes (off : Z) (bs : list Z) : body S R unit :=
  λ s, match poke off bs (get_pkt s) with
       | Some m => Next tt (set_pkt m s)
       | None => Fault
       end.

Definition load (n : nat) (off : Z) : body S R Z :=
  let! bs := load_bytes off n in ret (le_val bs).
Definition store (n : nat) (off v : Z) : body S R unit :=
  store_bytes off (le_bytes n v).

Definition load8 := load 1.
Definition load16 := load 2.
Definition load32 := load 4.
Definition store8 := store 1.
Definition store16 := store 2.
Definition store32 := store 4.

(** [memcpy(data + dst, data + src, n)] *)
Definition copy_bytes (dst src : Z) (n : nat) : body S R unit :=
  let! bs := load_bytes src n in store_bytes dst bs.

Implicit Types (s : S) (QR : R → S → Prop).

Lemma wp_past_end e QR (QN : bool → S → Prop) s :
  QN (pkt_len s <? e) s → wpb (past_end e) QR QN s.
Proof. done. Qed.

Lemma wp_load_bytes off n QR (QN : list Z → S → Prop) s :
  0 ≤ off → off + Z.of_nat n ≤ pkt_len s →
  QN (slice (Z.to_nat off) n (get_pkt s)) s →
  wpb (load_bytes off n) QR QN s.
Proof.
  unfold wpb, load_bytes, peek, pkt_len. intros H0 Hn HQ.
  by rewrite (proj2 (Z.ltb_ge off 0)), (proj2 (Z.ltb_ge _ _)) by lia.
Qed.

Lemma wp_store_bytes off bs QR (QN : unit → S → Prop) s :
  0 ≤ off → off + Z.of_nat (length bs) ≤ pkt_len s →
  QN tt (set_pkt (splice (Z.to_nat off) bs (get_pkt s)) s) →
  wpb (store_bytes off bs) QR QN s.
Proof.
  unfold wpb, store_bytes, poke, pkt_len. intros H0 Hn HQ.
  by rewrite (proj2 (Z.ltb_ge off 0)), (proj2 (Z.ltb_ge _ _)) by lia.
Qed.

Lemma wp_load n off QR (QN : Z → S → Prop) s :
  0 ≤ off → off + Z.of_nat n ≤ pkt_len s →
  QN (le_val (slice (Z.to_nat off) n (get_pkt s))) s →
  wpb (load n off) QR QN s.
Proof. intros. apply wp_bind. by apply wp_load_bytes. Qed.

Lemma wp_store n off v QR (QN : unit → S → Prop) s :
  0 ≤ off → off + Z.of_nat n ≤ pkt_len s →
  QN tt (set_pkt (splice (Z.to_nat off) (le_bytes n v) (get_pkt s)) s) →
  wpb (store n off v) QR QN s.
Proof. intros. apply wp_store_bytes; rewrite ?length_le_bytes; done. Qed.

Lemma wp_copy_bytes dst src n QR (QN : unit → S → Prop) s :
  0 ≤ src → src + Z.of_nat n ≤ pkt_len s →
  0 ≤ dst → dst + Z.of_nat n ≤ pkt_len s →
  QN tt (set_pkt (splice (Z.to_nat dst)
           (slice (Z.to_nat src) n (get_pkt s)) (get_pkt s)) s) →
  wpb (copy_bytes dst src n) QR QN s.
Proof.
  intros Hs Hsn Hd Hdn HQ. apply wp_bind, wp_load_bytes; [done..|].
  apply wp_store_bytes; [done| |done].
  unfold pkt_len in *. rewrite length_slice; lia.
Qed.

Lemma pkt_len_set `{!PktStateLaws S} m s :
  pkt_len (set_pkt m s) = Z.of_nat (length m).
Proof. unfold pkt_len. by rewrite get_set_pkt. Qed.

Lemma pkt_len_splice `{!PktStateLaws S} off bs s :
  pkt_len (set_pkt (splice off bs (get_pkt s)) s) = pkt_len s.
Proof. rewrite pkt_len_set. unfold pkt_len. by rewrite length_splice. Qed.

Lemma pkt_len_nonneg s : 0 ≤ pkt_len s.
Proof. unfold pkt_len. lia. Qed.
End memory.

Section regions.
Context {S : Type} `{PktStateLaws S} {R : Type}.
Implicit Types (QR : R → S → Prop).

(** Accesses inside a region of known contents. *)
Lemma wp_load_bytes_region pre h post k n off QR (QN : list Z → S → Prop) s0 :
  off = Z.of_nat (length pre + k) → (k + n ≤ length h)%nat →
  QN (slice k n h) (set_pkt (pre ++ h ++ post) s0) →
  wpb (load_bytes off n) QR QN (set_pkt (pre ++ h ++ post) s0).
Proof.
  intros -> Hk HQ. apply wp_load_bytes; [lia|unfold pkt_len|];
    rewrite get_set_pkt; [rewrite !length_app; lia|].
  by rewrite Nat2Z.id, slice_region.
Qed.

Lemma wp_store_bytes_region pre h post k bs off QR (QN : unit → S → Prop) s0 :
  off = Z.of_nat (length pre + k) → (k + length bs ≤ length h)%nat →
  QN tt (set_pkt (pre ++ splice k bs h ++ post) s0) →
  wpb (store_bytes off bs) QR QN (set_pkt (pre ++ h ++ post) s0).
Proof.
  intros -> Hk HQ. apply wp_store_bytes; [lia|unfold pkt_len|];
    rewrite get_set_pkt; [rewrite !length_app; lia|].
  by rewrite Nat2Z.id, splice_region, set_set_pkt.
Qed.
End regions.

(** ** Packets given as a concatenation of fields *)
Section fields.
Context {S : Type} `{PktState S} {R : Type}.
Implicit Types (QR : R → S → Prop) (fs : list (list Z)).

Lemma slice_field pre fs post i bs :
  fs !! i = Some bs →
  slice (length pre + length (concat (take i fs))) (length bs) (pre ++ concat fs ++ post) = bs.
Proof.
  intros Hi. rewrite <-(take_drop_middle fs i bs Hi) at 2.
  rewrite concat_app. simpl. unfold slice.
  rewrite <-drop_drop, drop_app_length, <-!app_assoc, drop_app_length.
  by rewrite take_app_length.
Qed.

Lemma length_field fs i bs :
  fs !! i = Some bs → (length (concat (take i fs)) + length bs ≤ length (concat fs))%nat.
Proof.
  intros Hi. rewrite <-(take_drop_middle fs i bs Hi) at 2.
  rewrite concat_app, length_app. simpl. rewrite length_app. lia.
Qed.

(** A load of field [i] of the region behind [pre]. *)
Lemma wp_load_bytes_field pre fs post i bs off n QR (QN : list Z → S → Prop) s :
  get_pkt s = pre ++ concat fs ++ post → fs !! i = Some bs → length bs = n →
  off = Z.of_nat (length pre + length (concat (take i fs))) →
  QN bs s → wpb (load_bytes off n) QR QN s.
Proof.
  intros E Hi <- -> HQ. pose proof (length_field fs i bs Hi).
  apply wp_load_bytes; [lia|unfold pkt_len; rewrite E, !length_app; lia|].
  by rewrite Nat2Z.id, E, slice_field.
Qed.

Lemma wp_load_field pre fs post i bs off n QR (QN : Z → S → Prop) s :
  get_pkt s = pre ++ concat fs ++ post → fs !! i = Some bs → length bs = n →
  off = Z.of_nat (length pre + length (concat (take i fs))) →
  QN (le_val bs) s → wpb (load n off) QR QN s.
Proof. intros. apply wp_bind. by eapply wp_load_bytes_field. Qed.

Lemma splice_field pre fs post i old new :
  fs !! i = Some old → length new = length old →
  splice (length pre + length (concat (take i fs))) new (pre ++ concat fs ++ post) =
    pre ++ concat (<[i := new]> fs) ++ post.
Proof.
  intros Hi Hl. pose proof (lookup_lt_Some _ _ _ Hi) as Hlt.
  rewrite insert_take_drop by done. rewrite <-(take_drop_middle fs i old Hi) at 2.
  rewrite !concat_app. cbn [concat]. rewrite <-!app_assoc.
  rewrite <-length_app, app_assoc, splice_app by (rewrite !length_app; lia).
  rewrite Hl, drop_app_length. by rewrite <-!app_assoc.
Qed.

(** A store to field [i]. *)
Lemma wp_store_bytes_field pre fs post i old new off QR (QN : unit → S → Prop) s :
  get_pkt s = pre ++ concat fs ++ post → fs !! i = Some old → length new = length old →
  off = Z.of_nat (length pre + length (concat (take i fs))) →
  QN tt (set_pkt (pre ++ concat (<[i := new]> fs) ++ post) s) →
  wpb (store_bytes off new) QR QN s.
Proof.
  intros E Hi Hl -> HQ. pose proof (length_field fs i old Hi).
  apply wp_store_bytes; [lia|unfold pkt_len; rewrite E, !length_app; lia|].
  rewrite Nat2Z.id, E. by rewrite (splice_field _ _ _ _ old).
Qed.

Lemma wp_store_field pre fs post i old n v off QR (QN : unit → S → Prop) s :
  get_pkt s = pre ++ concat fs ++ post → fs !! i = Some old → length old = n →
  off = Z.of_nat (length pre + length (concat (take i fs))) →
  QN tt (set_pkt (pre ++ concat (<[i := le_bytes n v]> fs) ++ post) s) →
  wpb (store n off v) QR QN s.
Proof. intros E Hi Hl -> HQ. eapply wp_store_bytes_field; [done..| |done|done]. by rewrite length_le_bytes. Qed.

(** A region cut into fields of the widths [ws]. *)
Fixpoint cut (ws : list nat) (m : list Z) : list (list Z) :=
  match ws with
  | [] => []
  | n :: ws => take n m :: cut ws (drop n m)
  end.

Lemma concat_cut ws m : length m = sum_list ws → concat (cut ws m) = m.
Proof.
  revert m. induction ws as [|n ws IH]; intros m Hl; simpl in *; [by destruct m|].
  rewrite IH by (rewrite length_drop; lia). apply take_drop.
Qed.

Lemma length_cut ws m : length m = sum_list ws → map length (cut ws m) = ws.
Proof.
  revert m. induction ws as [|n ws IH]; intros m Hl; simpl in *; [done|].
  rewrite length_take, IH by (rewrite length_drop; lia). f_equal. lia.
Qed.

Lemma cut_ok ws m : bytes_ok m → Forall bytes_ok (cut ws m).
Proof.
  revert m. induction ws as [|n ws IH]; intros m Hm; simpl; constructor.
  - by apply Forall_take.
  - by apply IH, Forall_drop.
Qed.
End fields.

Arguments pkt_len : simpl never.
Arguments load : simpl never.
Arguments store : simpl never.
Arguments load_bytes : simpl never.
Arguments store_bytes : simpl never.

Create Rewrite HintDb pkt.
#[export] Hint Rewrite @get_set_pkt @set_set_pkt @pkt_len_set @length_splice
  using typeclasses eauto : pkt.

(** Bounds of an access after the stores made so far. *)
Ltac pkt_bounds :=
  autorewrite with pkt; rewrite ?length_app; unfold pkt_len in *; lia.

(** Execution of a routine that only touches packet memory. *)
Ltac mem_step :=
  first
    [ wp_step
    | apply wp_past_end; cbv beta
    | apply wp_load_bytes; [pkt_bounds|pkt_bounds|cbv beta]
    | apply wp_store_bytes; [pkt_bounds|simpl length; pkt_bounds|cbv beta]
    | apply wp_load; [pkt_bounds|pkt_bounds|cbv beta]
    | apply wp_store; [pkt_bounds|pkt_bounds|cbv beta]
    | apply wp_copy_bytes; [pkt_bounds..|cbv beta] ];
  rewrite ?get_set_pkt, ?set_set_pkt.

(** Names the [n] bytes at [off] of the packet in state [s]: the goal is then
    about the state [set_pkt (pre ++ h ++ post) s]. *)
Lemma region_exists {S} `{PktStateLaws S} (s : S) off n :
  (off + n ≤ length (get_pkt s))%nat →
  ∃ pre h post, get_pkt s = pre ++ h ++ post ∧ length pre = off ∧ length h = n ∧
    s = set_pkt (pre ++ h ++ post) s ∧
    h = slice off n (get_pkt s) ∧
    (∀ h', length h' = n → splice off h' (get_pkt s) = pre ++ h' ++ post).
Proof.
  intros Hl. exists (take off (get_pkt s)), (slice off n (get_pkt s)),
    (drop (off + n) (get_pkt s)).
  rewrite <-region_split by done. split; [done|].
  split; [rewrite length_take; lia|]. split; [by apply length_slice|].
  split; [by rewrite set_get_pkt|]. split; [done|].
  intros h' Hh'. by rewrite splice_eq, Hh' by lia.
Qed.

Lemma list_S {A} n (l : list A) :
  length l = Datatypes.S n → ∃ x l', l = x :: l' ∧ length l' = n.
Proof. destruct l as [|x l']; [done|]. intros [=]. eauto. Qed.
Lemma list_O {A} (l : list A) : length l = O → l = [].
Proof. by destruct l. Qed.

(** Replaces a list of known literal length by its elements. *)
Ltac list_explicit h :=
  repeat match goal with
  | H : length h = Datatypes.S _ |- _ =>
      let x := fresh "b" in let l := fresh h in
      apply list_S in H as (x & l & -> & H); list_explicit l
  | H : length h = O |- _ => apply list_O in H as ->
  end.

Ltac region_offset base off :=
  lazymatch off with
  | base + ?z => eval vm_compute in (Z.to_nat z)
  | base => constr:(O)
  | _ => eval vm_compute in (Z.to_nat off)
  end.
Ltac region_reduce t :=
  let r := eval cbv [splice slice take drop app length Nat.leb Nat.add reverse rev_append
                     le_bytes le_val] in t in
  change t with r.
(** One memory access at [base + constant] in the region. *)
Ltac region_step base :=
  lazymatch goal with
  | |- wpb (store_bytes ?off ?bs) _ _ (set_pkt (?pre ++ ?h ++ ?post) _) =>
      let k := region_offset base off in
      apply (wp_store_bytes_region pre h post k bs off); [lia|simpl; lia|];
      rewrite ?le_bytes1, ?le_bytes2_htons;
      match goal with |- context [splice k ?bs' h] => region_reduce (splice k bs' h) end;
      cbv beta
  | |- wpb (load_bytes ?off ?n) _ _ (set_pkt (?pre ++ ?h ++ ?post) _) =>
      let k := region_offset base off in
      apply (wp_load_bytes_region pre h post k n off); [lia|simpl; lia|];
      region_reduce (slice k n h); cbv beta
  | |- wpb (load ?n _) _ _ _ => unfold load
  | |- wpb (store ?n _ _) _ _ _ => unfold store
  | |- wpb (load8 _) _ _ _ => unfold load8
  | |- wpb (load16 _) _ _ _ => unfold load16
  | |- wpb (load32 _) _ _ _ => unfold load32
  | |- wpb (store8 _ _) _ _ _ => unfold store8
  | |- wpb (store16 _ _) _ _ _ => unfold store16
  | |- wpb (store32 _ _) _ _ _ => unfold store32
  | |- _ => wp_step
  end.

(** Closes [bytes_ok] of an explicit byte list. *)
Ltac bytes_solve :=
  repeat first
    [ apply Forall_nil_2
    | apply Forall_cons_2
    | assumption
    | apply Z.mod_pos_bound; lia
    | unfold is_byte; lia ].

(** Splits [bytes_ok] of concatenated and explicit lists into its parts. *)
Ltac bytes_split Hb :=
  unfold bytes_ok in Hb;
  repeat match goal with
  | H : Forall is_byte (_ ++ _) |- _ =>
      let H1 := fresh H in apply Forall_app in H as [H1 H]
  | H : Forall is_byte (_ :: _) |- _ =>
      let H1 := fresh H in apply Forall_cons in H as [H1 H]
  end.
