(* ===== verification/Consts.v ===== *)
(** * Constants, build options and header layouts

    [balancer_consts.h] with its [#define]s at their default values, the
    event ids of [introspection.h], and the byte offsets of the kernel header
    structures the programs overlay on the packet.  The [-D] build options
    are the fields of [BuildConfig]: a theorem stated over a [BuildConfig]
    holds for every build of the programs. *)
From S2P Require Import Prelude.

(** ** Verdicts: [enum xdp_action] and the internal code *)
Definition XDP_DROP : Z := 1.
Definition XDP_PASS : Z := 2.
Definition XDP_TX : Z := 3.
Definition FURTHER_PROCESSING : Z := -1.
(** Verdicts and helper flags of the traffic control hooks. *)
Definition TC_ACT_UNSPEC : Z := -1.
Definition TC_ACT_OK : Z := 0.
Definition TC_ACT_SHOT : Z := 2.
Definition BPF_F_ADJ_ROOM_FIXED_GSO : Z := 1.
Definition BPF_F_ADJ_ROOM_ENCAP_L3_IPV4 : Z := 2.
Definition BPF_F_ADJ_ROOM_ENCAP_L3_IPV6 : Z := 4.
Definition BPF_F_ADJ_ROOM_ENCAP_L4_UDP : Z := 16.

(** ** Protocol numbers *)
Definition BE_ETH_P_IP : Z := 8.
Definition BE_ETH_P_IPV6 : Z := 56710.
Definition IPPROTO_ICMP : Z := 1.
Definition IPPROTO_IPIP : Z := 4.
Definition IPPROTO_TCP : Z := 6.
Definition IPPROTO_UDP : Z := 17.
Definition IPPROTO_IPV6 : Z := 41.
Definition IPPROTO_FRAGMENT : Z := 44.
Definition IPPROTO_ICMPV6 : Z := 58.
Definition IPPROTO_SCTP : Z := 132.
Definition ETH_P_IP : Z := 0x0800.
Definition ETH_P_IPV6 : Z := 0x86DD.
Definition ICMP_ECHOREPLY : Z := 0.
Definition ICMP_DEST_UNREACH : Z := 3.
Definition ICMP_FRAG_NEEDED : Z := 4.
Definition ICMP_ECHO : Z := 8.
Definition ICMPV6_DEST_UNREACH : Z := 1.
Definition ICMPV6_PKT_TOOBIG : Z := 2.
Definition ICMPV6_ECHO_REQUEST : Z := 128.
Definition ICMPV6_ECHO_REPLY : Z := 129.

(** ** [balancer_consts.h] *)
Definition GUEV1_IPV6MASK : Z := 48.
Definition PCKT_FRAGMENTED : Z := 65343.
Definition IPV4_HDR_LEN_NO_OPT : Z := 20.
Definition RING_SIZE : Z := 65537.
Definition MAX_VIPS : Z := 512.
Definition MAX_REALS : Z := 4096.
Definition MAX_QUIC_REALS : Z := 16777214.
Definition CTL_MAP_SIZE : Z := 16.
Definition RECIRCULATION_INDEX : Z := 0.
Definition CH_RINGS_SIZE : Z := MAX_VIPS * RING_SIZE.
Definition STATS_MAP_SIZE : Z := MAX_VIPS * 2.
Definition ONE_SEC : Z := 1000000000.
Definition LRU_UDP_TIMEOUT : Z := 30000000000.
Definition F_IPV6 : Z := 1.
Definition F_LOCAL_REAL : Z := 2.
Definition F_HASH_NO_SRC_PORT : Z := 1.
Definition F_LRU_BYPASS : Z := 2.
Definition F_QUIC_VIP : Z := 4.
Definition F_HASH_DPORT_ONLY : Z := 8.
Definition F_SRC_ROUTING : Z := 16.
Definition F_LOCAL_VIP : Z := 32.
Definition F_GLOBAL_LRU : Z := 64.
Definition F_ICMP : Z := 1.
Definition F_SYN_SET : Z := 2.
Definition DEFAULT_TTL : Z := 64.
Definition QUIC_LONG_HEADER : Z := 128.
Definition QUIC_HANDSHAKE : Z := 32.
Definition QUIC_PACKET_TYPE_MASK : Z := 48.
Definition QUIC_MIN_CONNID_LEN : Z := 8.
Definition QUIC_CONNID_VERSION_V1 : Z := 1.
Definition QUIC_CONNID_VERSION_V2 : Z := 2.
Definition QUIC_CONNID_VERSION_V1_MAX_VAL : Z := 65535.
Definition TCP_HDR_OPT_KIND_TPR : Z := 183.
Definition TCP_HDR_OPT_LEN_TPR : Z := 6.
Definition TCP_HDR_OPT_MAX_OPT_CHECKS : nat := 15.
Definition TCP_OPT_EOL : Z := 0.
Definition TCP_OPT_NOP : Z := 1.
Definition MAX_PCKT_SIZE : Z := 1514.
Definition ICMP_TOOBIG_SIZE : Z := 98.
Definition ICMP6_TOOBIG_SIZE : Z := 262.
Definition ICMP6_TOOBIG_PAYLOAD_SIZE : Z := ICMP6_TOOBIG_SIZE - 6.
Definition ICMP_TOOBIG_PAYLOAD_SIZE : Z := ICMP_TOOBIG_SIZE - 6.
Definition LRU_CNTRS : Z := 0.
Definition LRU_MISS_CNTR : Z := 1.
Definition NEW_CONN_RATE_CNTR : Z := 2.
Definition FALLBACK_LRU_CNTR : Z := 3.
Definition ICMP_TOOBIG_CNTRS : Z := 4.
Definition LPM_SRC_CNTRS : Z := 5.
Definition REMOTE_ENCAP_CNTRS : Z := 6.
Definition QUIC_ROUTE_STATS : Z := 7.
Definition QUIC_CID_VERSION_STATS : Z := 8.
Definition QUIC_CID_DROP_STATS : Z := 9.
Definition TCP_SERVER_ID_ROUTE_STATS : Z := 10.
Definition GLOBAL_LRU_CNTR : Z := 11.
Definition GLOBAL_LRU_MISMATCH_CNTR : Z := 12.
Definition MAX_CONN_RATE : Z := 125000.
Definition IPIP_V4_PREFIX : Z := 4268.
Definition IPIP_V6_PREFIX1 : Z := 1.
Definition IPIP_V6_PREFIX2 : Z := 0.
Definition IPIP_V6_PREFIX3 : Z := 0.
Definition DEFAULT_TOS : Z := 0.
Definition GUE_DPORT : Z := 6080.
Definition GUE_CSUM : Z := 0.
Definition INIT_JHASH_SEED : Z := CH_RINGS_SIZE.
Definition INIT_JHASH_SEED_V6 : Z := MAX_VIPS.
Definition V4_SRC_INDEX : Z := 0.
Definition V6_SRC_INDEX : Z := 1.

(** ** [introspection.h] *)
Definition MAX_EVENT_SIZE : Z := 128.
Definition TCP_NONSYN_LRUMISS : Z := 0.
Definition PACKET_TOOBIG : Z := 1.
Definition QUIC_PACKET_DROP_NO_REAL : Z := 2.

(** ** Build options

    One field per optional [-D] flag.  [D_LPM_SRC_LOOKUP] and the inline
    decapsulation flags are what is passed on the command line; the
    [INLINE_DECAP*] definitions below are their values after the
    preprocessor conditionals at the end of [balancer_consts.h]. *)
Class BuildConfig : Type := {
  LPM_SRC_LOOKUP : bool;
  D_INLINE_DECAP : bool;
  D_INLINE_DECAP_IPIP : bool;
  D_INLINE_DECAP_GENERIC : bool;
  INLINE_DECAP_GUE : bool;
  ICMP_TOOBIG_GENERATION : bool;
  GUE_ENCAP : bool;
  KATRAN_INTROSPECTION : bool;
  LOCAL_DELIVERY_OPTIMIZATION : bool;
  TCP_SERVER_ID_ROUTING : bool;
  GLOBAL_LRU_LOOKUP : bool;
  RECORD_FLOW_INFO : bool
}.

Definition INLINE_DECAP `{BuildConfig} : bool :=
  D_INLINE_DECAP || (LPM_SRC_LOOKUP && negb INLINE_DECAP_GUE).
Definition INLINE_DECAP_IPIP `{BuildConfig} : bool :=
  D_INLINE_DECAP_IPIP || INLINE_DECAP.
Definition INLINE_DECAP_GENERIC `{BuildConfig} : bool :=
  D_INLINE_DECAP_GENERIC || INLINE_DECAP_IPIP || INLINE_DECAP_GUE.

(** ** Header layouts (offsets and sizes in bytes) *)
Definition sizeof_ethhdr : Z := 14.
Definition eth_h_dest : Z := 0.
Definition eth_h_source : Z := 6.
Definition eth_h_proto : Z := 12.
Definition ETH_ALEN : nat := 6.

(** [struct iphdr]: byte 0 is [version:4 | ihl:4], [ihl] in the low nibble. *)
Definition sizeof_iphdr : Z := 20.
Definition ip_verihl : Z := 0.
Definition ip_tos : Z := 1.
Definition ip_tot_len : Z := 2.
Definition ip_frag_off : Z := 6.
Definition ip_ttl : Z := 8.
Definition ip_protocol : Z := 9.
Definition ip_check : Z := 10.
Definition ip_saddr : Z := 12.
Definition ip_daddr : Z := 16.

(** [struct ipv6hdr]: byte 0 is [version:4 | priority:4], [priority] in the
    low nibble. *)
Definition sizeof_ipv6hdr : Z := 40.
Definition ip6_verprio : Z := 0.
Definition ip6_flow_lbl : Z := 1.
Definition ip6_payload_len : Z := 4.
Definition ip6_nexthdr : Z := 6.
Definition ip6_hop_limit : Z := 7.
Definition ip6_saddr : Z := 8.
Definition ip6_daddr : Z := 24.

Definition sizeof_udphdr : Z := 8.
Definition udp_source : Z := 0.
Definition udp_dest : Z := 2.
Definition udp_len : Z := 4.
Definition udp_check : Z := 6.

(** [struct tcphdr]: [doff] is the high nibble of byte 12, [syn] bit 1 of
    byte 13. *)
Definition sizeof_tcphdr : Z := 20.
Definition tcp_source : Z := 0.
Definition tcp_dest : Z := 2.
Definition tcp_doff : Z := 12.
Definition tcp_flags : Z := 13.
Definition tcp_check : Z := 16.

Definition sizeof_icmphdr : Z := 8.
Definition icmp_type : Z := 0.
Definition icmp_code : Z := 1.
Definition icmp_checksum : Z := 2.
Definition icmp_un_frag_mtu : Z := 6.

Definition sizeof_icmp6hdr : Z := 8.
Definition icmp6_type : Z := 0.
Definition icmp6_code : Z := 1.
Definition icmp6_cksum : Z := 2.
Definition icmp6_mtu : Z := 4.

Create HintDb katran.
#[export] Hint Unfold
  XDP_DROP XDP_PASS XDP_TX FURTHER_PROCESSING
  sizeof_ethhdr eth_h_dest eth_h_source eth_h_proto ETH_ALEN
  sizeof_iphdr ip_verihl ip_tos ip_tot_len ip_frag_off ip_ttl ip_protocol
  ip_check ip_saddr ip_daddr
  sizeof_ipv6hdr ip6_verprio ip6_flow_lbl ip6_payload_len ip6_nexthdr
  ip6_hop_limit ip6_saddr ip6_daddr
  sizeof_udphdr udp_source udp_dest udp_len udp_check
  sizeof_tcphdr tcp_source tcp_dest tcp_doff tcp_flags tcp_check
  sizeof_icmphdr icmp_type icmp_code icmp_checksum icmp_un_frag_mtu
  sizeof_icmp6hdr icmp6_type icmp6_code icmp6_cksum icmp6_mtu
  IPV4_HDR_LEN_NO_OPT TCP_HDR_OPT_LEN_TPR QUIC_MIN_CONNID_LEN
  ICMP_TOOBIG_SIZE ICMP6_TOOBIG_SIZE ICMP_TOOBIG_PAYLOAD_SIZE
  ICMP6_TOOBIG_PAYLOAD_SIZE : katran.

(** Arithmetic over offsets and sizes. *)
Ltac katran_lia := autounfold with katran in *; lia.

(** Turns the natural-number offsets of [slice] and [splice] that come from
    [Z] offsets into the form [Z.to_nat base + constant]. *)
Ltac nat_const p :=
  let n := eval vm_compute in (Z.to_nat (Zpos p)) in
  change (Z.to_nat (Zpos p)) with n in *.
Ltac nat_offsets :=
  autounfold with katran in *;
  repeat match goal with
  | |- context [Z.to_nat (?a + ?b)] => rewrite (Z2Nat.inj_add a b) by lia
  | H : context [Z.to_nat (?a + ?b)] |- _ => rewrite (Z2Nat.inj_add a b) in H by lia
  end;
  repeat match goal with
  | |- context [Z.to_nat (Zpos ?p)] => nat_const p
  | H : context [Z.to_nat (Zpos ?p)] |- _ => nat_const p
  end;
  change (Z.to_nat 0) with 0%nat in *.
