(* ===== verification/Structs.v ===== *)
(** * Data structures, maps and program state

    The structs of [balancer_structs.h], the eBPF maps of [balancer_maps.h],
    [control_data_maps.h] and [decap_maps.h], and the kernel helpers the XDP
    programs call.  Control-plane maps (written by user space only) are the
    fields of [control_maps]; what the programs write is in [xstate]. *)
From S2P Require Import Prelude Words Consts.
Open Scope c_scope.

(** ** Structs *)

(** The union of a [__be32] and a [__be32[4]]: four 32-bit words as stored in
    memory, the IPv4 view being word 0. *)
Record addr : Type := Addr { w0 : Z; w1 : Z; w2 : Z; w3 : Z }.

Definition addr_zero : addr := Addr 0 0 0 0.
Definition set_w0 (x : Z) (a : addr) : addr := Addr x (w1 a) (w2 a) (w3 a).

(** The 16 bytes of the union, and back ([memcpy] of 16 bytes). *)
Definition addr_bytes (a : addr) : list Z :=
  le_bytes 4 (w0 a) ++ le_bytes 4 (w1 a) ++ le_bytes 4 (w2 a) ++ le_bytes 4 (w3 a).
Definition addr_of_bytes (bs : list Z) : addr :=
  Addr (le_val (slice 0 4 bs)) (le_val (slice 4 4 bs))
       (le_val (slice 8 4 bs)) (le_val (slice 12 4 bs)).

#[export] Instance addr_eq_dec : EqDecision addr.
Proof. solve_decision. Defined.
#[export] Instance addr_countable : Countable addr.
Proof.
  apply (inj_countable' (λ a, (w0 a, w1 a, w2 a, w3 a))
           (λ '(a, b, c, d), Addr a b c d)). by intros [].
Defined.

(** [port16[0]] is the source port, [port16[1]] the destination port, both in
    network order as loaded from the packet. *)
Record flow_key : Type := FlowKey {
  srcv6 : addr;
  dstv6 : addr;
  port16_0 : Z;
  port16_1 : Z;
  proto : Z
}.

(** The [ports] view of the union. *)
Definition ports (f : flow_key) : Z := port16_0 f + 2 ^ 16 * port16_1 f.

#[export] Instance flow_key_eq_dec : EqDecision flow_key.
Proof. solve_decision. Defined.
#[export] Instance flow_key_countable : Countable flow_key.
Proof.
  apply (inj_countable'
           (λ f, (srcv6 f, dstv6 f, port16_0 f, port16_1 f, proto f))
           (λ '(a, b, c, d, e), FlowKey a b c d e)). by intros [].
Defined.

Record packet_description : Type := PacketDescription {
  flow : flow_key;
  real_index : Z;
  pflags : Z;
  tos : Z
}.

(** [struct packet_description pckt = {};] *)
Definition pckt_zero : packet_description :=
  PacketDescription (FlowKey addr_zero addr_zero 0 0 0) 0 0 0.

(** A union of [__u64 value], [__u32 ifindex] and [__u8 mac[6]]. *)
Record ctl_value : Type := CtlValue { ctl_u64 : Z }.
Definition ctl_mac (c : ctl_value) : list Z := le_bytes 6 (ctl_u64 c).

Record vip_definition : Type := VipDefinition {
  vipv6 : addr; vip_port : Z; vip_proto : Z
}.
#[export] Instance vip_definition_eq_dec : EqDecision vip_definition.
Proof. solve_decision. Defined.
#[export] Instance vip_definition_countable : Countable vip_definition.
Proof.
  apply (inj_countable' (λ v, (vipv6 v, vip_port v, vip_proto v))
           (λ '(a, b, c), VipDefinition a b c)). by intros [].
Defined.

Record vip_meta : Type := VipMeta { vip_flags : Z; vip_num : Z }.
Record real_pos_lru : Type := RealPosLru { pos : Z; atime : Z }.
Record real_definition : Type := RealDefinition { real_dst : addr; real_flags : Z }.
#[export] Instance real_definition_eq_dec : EqDecision real_definition.
Proof. solve_decision. Defined.
Record lb_stats : Type := LbStats { v1 : Z; v2 : Z }.

Record v4_lpm_key : Type := V4LpmKey { lpm4_prefixlen : Z; lpm4_addr : Z }.
#[export] Instance v4_lpm_key_eq_dec : EqDecision v4_lpm_key.
Proof. solve_decision. Defined.
#[export] Instance v4_lpm_key_countable : Countable v4_lpm_key.
Proof.
  apply (inj_countable' (λ k, (lpm4_prefixlen k, lpm4_addr k))
           (λ '(a, b), V4LpmKey a b)). by intros [].
Defined.
Record v6_lpm_key : Type := V6LpmKey { lpm6_prefixlen : Z; lpm6_addr : addr }.
#[export] Instance v6_lpm_key_eq_dec : EqDecision v6_lpm_key.
Proof. solve_decision. Defined.
#[export] Instance v6_lpm_key_countable : Countable v6_lpm_key.
Proof.
  apply (inj_countable' (λ k, (lpm6_prefixlen k, lpm6_addr k))
           (λ '(a, b), V6LpmKey a b)). by intros [].
Defined.

Record event_metadata : Type := EventMetadata {
  event : Z; pkt_size : Z; data_len : Z
}.

Record flow_debug_info : Type := FlowDebugInfo {
  l4_hop : addr; this_hop : addr
}.

Record decap_stats : Type := DecapStats {
  decap_v4_cnt : Z; decap_v6_cnt : Z; total : Z
}.

(** Counters are [__u64]. *)
Definition add_v1 (n : Z) (d : lb_stats) : lb_stats := LbStats (u64 (v1 d + n)) (v2 d).
Definition add_v2 (n : Z) (d : lb_stats) : lb_stats := LbStats (v1 d) (u64 (v2 d + n)).

(** ** Maps *)

Abbreviation lru_table := (gmap flow_key real_pos_lru) (only parsing).
(** Values of the global LRU tables are bare real indices: [fallback_glru]
    declares [__u32] values. *)
Abbreviation glru_table := (gmap flow_key Z) (only parsing).

Record control_maps : Type := ControlMaps {
  vip_map : gmap vip_definition vip_meta;
  ch_rings : gmap Z Z;
  reals : gmap Z real_definition;
  server_id_map : gmap Z Z;
  lpm_src_v4 : gmap v4_lpm_key Z;
  lpm_src_v6 : gmap v6_lpm_key Z;
  ctl_array : gmap Z ctl_value;
  decap_dst : gmap addr Z;
  pckt_srcs : gmap Z real_definition
}.

(** Program state: the packet, the caller's [packet_description] (passed by
    address through every parsing routine), the maps, the events sent through
    [event_pipe], and [kern], the kernel state the helpers depend on.  Per-CPU
    arrays are the slice of the CPU the program runs on. *)
Record xstate (K : Type) : Type := XState {
  pkt : mem;
  pckt : packet_description;
  ctl : control_maps;
  stats : gmap Z lb_stats;
  reals_stats : gmap Z lb_stats;
  lru_mapping : gmap Z lru_table;
  fallback_cache : lru_table;
  global_lru_maps : gmap Z glru_table;
  fallback_glru : glru_table;
  decap_counters : gmap Z decap_stats;
  event_pipe : list (event_metadata * Z);
  kern : K
}.
Arguments XState {K}.
Arguments pkt {K}. Arguments pckt {K}. Arguments ctl {K}. Arguments stats {K}.
Arguments reals_stats {K}. Arguments lru_mapping {K}. Arguments fallback_cache {K}.
Arguments global_lru_maps {K}. Arguments fallback_glru {K}.
Arguments decap_counters {K}. Arguments event_pipe {K}. Arguments kern {K}.

Section updates.
Context {K : Type}.
Implicit Types s : xstate K.

Definition with_pkt (x : mem) s : xstate K :=
  XState x (pckt s) (ctl s) (stats s) (reals_stats s) (lru_mapping s)
    (fallback_cache s) (global_lru_maps s) (fallback_glru s)
    (decap_counters s) (event_pipe s) (kern s).
Definition with_pckt (x : packet_description) s : xstate K :=
  XState (pkt s) x (ctl s) (stats s) (reals_stats s) (lru_mapping s)
    (fallback_cache s) (global_lru_maps s) (fallback_glru s)
    (decap_counters s) (event_pipe s) (kern s).
Definition with_stats (x : gmap Z lb_stats) s : xstate K :=
  XState (pkt s) (pckt s) (ctl s) x (reals_stats s) (lru_mapping s)
    (fallback_cache s) (global_lru_maps s) (fallback_glru s)
    (decap_counters s) (event_pipe s) (kern s).
Definition with_reals_stats (x : gmap Z lb_stats) s : xstate K :=
  XState (pkt s) (pckt s) (ctl s) (stats s) x (lru_mapping s)
    (fallback_cache s) (global_lru_maps s) (fallback_glru s)
    (decap_counters s) (event_pipe s) (kern s).
Definition with_lru_mapping (x : gmap Z lru_table) s : xstate K :=
  XState (pkt s) (pckt s) (ctl s) (stats s) (reals_stats s) x
    (fallback_cache s) (global_lru_maps s) (fallback_glru s)
    (decap_counters s) (event_pipe s) (kern s).
Definition with_fallback_cache (x : lru_table) s : xstate K :=
  XState (pkt s) (pckt s) (ctl s) (stats s) (reals_stats s) (lru_mapping s)
    x (global_lru_maps s) (fallback_glru s)
    (decap_counters s) (event_pipe s) (kern s).
Definition with_decap_counters (x : gmap Z decap_stats) s : xstate K :=
  XState (pkt s) (pckt s) (ctl s) (stats s) (reals_stats s) (lru_mapping s)
    (fallback_cache s) (global_lru_maps s) (fallback_glru s)
    x (event_pipe s) (kern s).
Definition with_event_pipe (x : list (event_metadata * Z)) s : xstate K :=
  XState (pkt s) (pckt s) (ctl s) (stats s) (reals_stats s) (lru_mapping s)
    (fallback_cache s) (global_lru_maps s) (fallback_glru s)
    (decap_counters s) x (kern s).
Definition with_kern (x : K) s : xstate K :=
  XState (pkt s) (pckt s) (ctl s) (stats s) (reals_stats s) (lru_mapping s)
    (fallback_cache s) (global_lru_maps s) (fallback_glru s)
    (decap_counters s) (event_pipe s) x.
End updates.

#[export] Instance xstate_pkt_state K : PktState (xstate K) :=
  {| get_pkt := pkt; set_pkt := with_pkt |}.
#[export] Instance xstate_pkt_laws K : PktStateLaws (xstate K).
Proof. split; [done..|]. by intros []. Qed.

(** Field updates of the caller's [packet_description]. *)
Definition set_flow (f : flow_key) (p : packet_description) : packet_description :=
  PacketDescription f (real_index p) (pflags p) (tos p).
Definition set_real_index (i : Z) (p : packet_description) : packet_description :=
  PacketDescription (flow p) i (pflags p) (tos p).
Definition set_pflags (x : Z) (p : packet_description) : packet_description :=
  PacketDescription (flow p) (real_index p) x (tos p).
Definition set_tos (x : Z) (p : packet_description) : packet_description :=
  PacketDescription (flow p) (real_index p) (pflags p) x.
Definition set_src (x : addr) (f : flow_key) : flow_key :=
  FlowKey x (dstv6 f) (port16_0 f) (port16_1 f) (proto f).
Definition set_dst (x : addr) (f : flow_key) : flow_key :=
  FlowKey (srcv6 f) x (port16_0 f) (port16_1 f) (proto f).
Definition set_sport (x : Z) (f : flow_key) : flow_key :=
  FlowKey (srcv6 f) (dstv6 f) x (port16_1 f) (proto f).
Definition set_dport (x : Z) (f : flow_key) : flow_key :=
  FlowKey (srcv6 f) (dstv6 f) (port16_0 f) x (proto f).
Definition set_proto (x : Z) (f : flow_key) : flow_key :=
  FlowKey (srcv6 f) (dstv6 f) (port16_0 f) (port16_1 f) x.

(** ** Kernel helpers

    The helpers are kernel code: a [BpfEnv] is any implementation of them
    over some hidden kernel state [K].  [bpf_xdp_adjust_head] and
    [bpf_xdp_adjust_tail] give [None] for an error return.  [lru_hash_update]
    is [bpf_map_update_elem] with [BPF_ANY] on a [BPF_MAP_TYPE_LRU_HASH]: it
    may evict any other entries.  [lpm_lookup_*] is [bpf_map_lookup_elem] on a
    [BPF_MAP_TYPE_LPM_TRIE].  Arrays and hashes are looked up with [!!]. *)
Class BpfEnv (K : Type) : Type := {
  bpf_ktime_get_ns : K → Z * K;
  bpf_get_smp_processor_id : K → Z;
  bpf_xdp_adjust_head : Z → mem → K → option mem * K;
  bpf_xdp_adjust_tail : Z → mem → K → option mem * K;
  bpf_csum_diff : list Z → list Z → Z → Z;
  lru_hash_update : flow_key → real_pos_lru → lru_table → K → lru_table * K;
  lpm_lookup_v4 : gmap v4_lpm_key Z → v4_lpm_key → option Z;
  lpm_lookup_v6 : gmap v6_lpm_key Z → v6_lpm_key → option Z
}.

(** Sum of the little-endian 16-bit words of a buffer, an odd last byte padded
    with zero: what the internet checksum sums. *)
Fixpoint sum16 (bs : list Z) : Z :=
  match bs with
  | [] => 0
  | [b] => b
  | b0 :: b1 :: bs => b0 + 256 * b1 + sum16 bs
  end.

(** The documented behaviour of the helpers (the comments in [bpf.h]). *)
Class BpfEnvLaws (K : Type) `{BpfEnv K} : Prop := {
  ktime_range k : 0 ≤ fst (bpf_ktime_get_ns k) < 2 ^ 64;
  adjust_head_push n m k m' k' :
    0 < n → bpf_xdp_adjust_head (- n) m k = (Some m', k') →
    ∃ hr, m' = hr ++ m ∧ Z.of_nat (length hr) = n ∧ bytes_ok hr;
  adjust_head_pop n m k m' k' :
    0 < n → bpf_xdp_adjust_head n m k = (Some m', k') →
    n ≤ Z.of_nat (length m) ∧ m' = drop (Z.to_nat n) m;
  adjust_tail_shrink n m k m' k' :
    0 < n → bpf_xdp_adjust_tail (- n) m k = (Some m', k') →
    n ≤ Z.of_nat (length m) ∧ m' = take (length m - Z.to_nat n) m;
  csum_diff_sum from to seed :
    (length from `mod` 4 = 0)%nat → (length to `mod` 4 = 0)%nat →
    (length from + length to ≤ 512)%nat →
    bytes_ok from → bytes_ok to → 0 ≤ seed < 2 ^ 32 →
    0 ≤ bpf_csum_diff from to seed < 2 ^ 32 ∧
    (bpf_csum_diff from to seed) mod 65535
      = (seed + sum16 to - sum16 from) mod 65535;
  lru_update_self k v t κ :
    fst (lru_hash_update k v t κ) !! k = Some v ∨
    fst (lru_hash_update k v t κ) = t;
  lru_update_other k v t κ k' v' :
    k' ≠ k → fst (lru_hash_update k v t κ) !! k' = Some v' → t !! k' = Some v'
}.

Section helpers.
Context {K : Type} `{BpfEnv K} {R : Type}.
Implicit Types s : xstate K.

Definition ktime_get_ns : body (xstate K) R Z :=
  λ s, let '(t, k) := bpf_ktime_get_ns (kern s) in Next t (with_kern k s).
Definition get_smp_processor_id : body (xstate K) R Z :=
  gets (λ s, bpf_get_smp_processor_id (kern s)).

(** [true] is the error return; the packet is then unchanged. *)
Definition xdp_adjust_head (delta : Z) : body (xstate K) R bool :=
  λ s, match bpf_xdp_adjust_head delta (pkt s) (kern s) with
       | (Some m, k) => Next false (with_pkt m (with_kern k s))
       | (None, k) => Next true (with_kern k s)
       end.
Definition xdp_adjust_tail (delta : Z) : body (xstate K) R bool :=
  λ s, match bpf_xdp_adjust_tail delta (pkt s) (kern s) with
       | (Some m, k) => Next false (with_pkt m (with_kern k s))
       | (None, k) => Next true (with_kern k s)
       end.

(** Updates of the caller's packet description and of the counters. *)
Definition upd_pckt (f : packet_description → packet_description) :
  body (xstate K) R unit := modify (λ s, with_pckt (f (pckt s)) s).
Definition upd_flow (f : flow_key → flow_key) : body (xstate K) R unit :=
  upd_pckt (λ p, set_flow (f (flow p)) p).

(** [p = bpf_map_lookup_elem(&stats, &key)] gives a pointer into the array
    element; [p->v1 += n] and [p->v2 += n] write through it. *)
Definition lookup_stats (key : Z) : body (xstate K) R (option lb_stats) :=
  gets (λ s, stats s !! key).
Definition upd_stats (key : Z) (f : lb_stats → lb_stats) : body (xstate K) R unit :=
  modify (λ s, with_stats (alter f key (stats s)) s).
Definition upd_reals_stats (key : Z) (f : lb_stats → lb_stats) :
  body (xstate K) R unit :=
  modify (λ s, with_reals_stats (alter f key (reals_stats s)) s).
End helpers.
