(* ===== verification/Jhash.v ===== *)
(** * Jenkins hash ([jhash.h])

    The 32-bit hash that spreads flows over the consistent-hashing ring.
    [jhash] reads its key through a pointer: a key shorter than [length] is an
    out-of-bounds read ([None]). *)
From S2P Require Import Prelude Words.

Definition rol32 (word shift : Z) : Z :=
  Z.lor (u32 (Z.shiftl word shift)) (Z.shiftr word (Z.land (- shift) 31)).

Definition jhash_state : Type := Z * Z * Z.

Definition jhash_mix (st : jhash_state) : jhash_state :=
  let '(a, b, c) := st in
  let a := u32 (a - c) in let a := Z.lxor a (rol32 c 4) in let c := u32 (c + b) in
  let b := u32 (b - a) in let b := Z.lxor b (rol32 a 6) in let a := u32 (a + c) in
  let c := u32 (c - b) in let c := Z.lxor c (rol32 b 8) in let b := u32 (b + a) in
  let a := u32 (a - c) in let a := Z.lxor a (rol32 c 16) in let c := u32 (c + b) in
  let b := u32 (b - a) in let b := Z.lxor b (rol32 a 19) in let a := u32 (a + c) in
  let c := u32 (c - b) in let c := Z.lxor c (rol32 b 4) in let b := u32 (b + a) in
  (a, b, c).

Definition jhash_final (st : jhash_state) : jhash_state :=
  let '(a, b, c) := st in
  let c := Z.lxor c b in let c := u32 (c - rol32 b 14) in
  let a := Z.lxor a c in let a := u32 (a - rol32 c 11) in
  let b := Z.lxor b a in let b := u32 (b - rol32 a 25) in
  let c := Z.lxor c b in let c := u32 (c - rol32 b 16) in
  let a := Z.lxor a c in let a := u32 (a - rol32 c 4) in
  let b := Z.lxor b a in let b := u32 (b - rol32 a 14) in
  let c := Z.lxor c b in let c := u32 (c - rol32 b 24) in
  (a, b, c).

Definition JHASH_INITVAL : Z := 3735928559.

(** The 32-bit word at [k + i]. *)
Definition key32 (k : list Z) (i : Z) : option Z := le_val <$> peek i 4 k.

(** The [while (length > 12)] loop, [k] advancing by 12; every iteration
    consumes 12 bytes of [length], which is the fuel. *)
Fixpoint jhash_loop (fuel : nat) (k : list Z) (length : Z) (st : jhash_state) :
    option (list Z * Z * jhash_state) :=
  if length <=? 12 then Some (k, length, st) else
  match fuel with
  | O => None
  | S fuel =>
      let '(a, b, c) := st in
      k0 ← key32 k 0; k1 ← key32 k 4; k2 ← key32 k 8;
      jhash_loop fuel (drop 12 k) (length - 12)
        (jhash_mix (u32 (a + k0), u32 (b + k1), u32 (c + k2)))
  end.

(** [case n: x += (u32)k[n-1] << shift;], reached by fall-through from every
    case above it, that is when [n ≤ length]. *)
Definition jhash_case (k : list Z) (length : Z) (n : nat) (shift x : Z) : option Z :=
  if Z.of_nat n <=? length
  then b ← k !! (n - 1)%nat; Some (u32 (x + Z.shiftl b shift))
  else Some x.

Definition jhash_tail (k : list Z) (length : Z) (st : jhash_state) : option Z :=
  let '(a, b, c) := st in
  c ← jhash_case k length 12 24 c;
  c ← jhash_case k length 11 16 c;
  c ← jhash_case k length 10 8 c;
  c ← jhash_case k length 9 0 c;
  b ← jhash_case k length 8 24 b;
  b ← jhash_case k length 7 16 b;
  b ← jhash_case k length 6 8 b;
  b ← jhash_case k length 5 0 b;
  a ← jhash_case k length 4 24 a;
  a ← jhash_case k length 3 16 a;
  a ← jhash_case k length 2 8 a;
  a ← jhash_case k length 1 0 a;
  let '(_, _, c) := if 1 <=? length then jhash_final (a, b, c) else (a, b, c) in
  Some c.

Definition jhash (key : list Z) (length initval : Z) : option Z :=
  let i := u32 (JHASH_INITVAL + length + initval) in
  '(k, len, st) ← jhash_loop (Z.to_nat length) key length (i, i, i);
  jhash_tail k len st.

Definition jhash_nwords (a b c initval : Z) : Z :=
  let '(_, _, c) :=
    jhash_final (u32 (a + initval), u32 (b + initval), u32 (c + initval)) in c.

Definition jhash_2words (a b initval : Z) : Z :=
  jhash_nwords a b 0 (u32 (initval + JHASH_INITVAL + Z.shiftl 2 2)).

Definition jhash_1word (a initval : Z) : Z :=
  jhash_nwords a 0 0 (u32 (initval + JHASH_INITVAL + Z.shiftl 1 2)).

(** ** Termination, safety and range *)

Lemma jhash_final_range st : let '(_, _, c) := jhash_final st in 0 ≤ c < 2 ^ 32.
Proof. destruct st as [[a b] c]. apply u32_range. Qed.

Lemma jhash_2words_range a b i : 0 ≤ jhash_2words a b i < 2 ^ 32.
Proof. apply u32_range. Qed.

Lemma jhash_loop_total fuel k len st :
  len ≤ 12 + 12 * Z.of_nat fuel → len ≤ Z.of_nat (length k) →
  ∃ k' len' st', jhash_loop fuel k len st = Some (k', len', st') ∧
    len' ≤ 12 ∧ len' ≤ Z.of_nat (length k') ∧
    (0 ≤ len → 0 ≤ len').
Proof.
  revert k len st. induction fuel as [|fuel IH]; intros k len [[a b] c] Hf Hk;
    simpl; destruct (Z.leb_spec len 12); [by eauto 10|lia|by eauto 10|].
  unfold key32, peek.
  rewrite !(proj2 (Z.ltb_ge _ _)) by lia. simpl.
  edestruct IH as (k' & len' & st' & E & ? & ? & ?);
    [..|exists k', len', st'; split; [exact E|]]; rewrite ?length_drop; lia.
Qed.

Lemma jhash_case_total k len n shift x :
  (1 ≤ n)%nat → len ≤ Z.of_nat (length k) →
  is_Some (jhash_case k len n shift x).
Proof.
  intros Hn Hk. unfold jhash_case. destruct (Z.leb_spec (Z.of_nat n) len); [|eauto].
  destruct (lookup_lt_is_Some_2 k (n - 1)) as [b ->]; [lia|]. simpl. eauto.
Qed.

Lemma jhash_tail_total k len st :
  len ≤ Z.of_nat (length k) → is_Some (jhash_tail k len st).
Proof.
  intros Hk. destruct st as [[a b] c]. unfold jhash_tail.
  repeat match goal with
  | |- context [jhash_case k len ?n ?s ?x ≫= _] =>
      destruct (jhash_case_total k len n s x) as [? ->]; [lia|done|]; simpl
  end.
  destruct (if _ : bool then _ else _) as [[? ?] ?]. eauto.
Qed.

(** The hash of a key that is at least [length] bytes long always exists. *)
Lemma jhash_total key len initval :
  len ≤ Z.of_nat (length key) → is_Some (jhash key len initval).
Proof.
  intros Hk. unfold jhash.
  destruct (jhash_loop_total (Z.to_nat len) key len
    (let i := u32 (JHASH_INITVAL + len + initval) in (i, i, i)))
    as (k' & len' & st' & E & _ & Hk' & _); [lia|done|].
  cbv zeta in E. rewrite E. simpl. by apply jhash_tail_total.
Qed.
