(* ===== verification/Csum.v ===== *)
(** * Internet checksums ([csum_helpers.h])

    Folding, the checksum of a header computed by the program itself
    ([ipv4_csum_inline]), and the checksums computed through the
    [bpf_csum_diff] helper, including the RFC 1624 style update that gives the
    outer UDP checksum of a GUE packet from the inner transport checksum. *)
From S2P Require Import Prelude Words Consts Structs.
Open Scope c_scope.

(** One iteration of the folding loop. *)
Definition csum_fold_step (csum : Z) : Z :=
  if negb (Z.shiftr csum 16 =? 0)
  then u64 (Z.land csum 65535 + Z.shiftr csum 16) else csum.

Definition csum_fold_helper (csum : Z) : Z :=
  u16 (Z.lnot (Nat.iter 4 csum_fold_step csum)).

Definition min_helper (a b : Z) : Z := if a <? b then a else b.

Section csum.
Context {S : Type} `{PktState S} {K : Type} `{BpfEnv K}.

(** The loop of [ipv4_csum_inline]: [n] 16-bit words at [off]. *)
Fixpoint csum_words (n : nat) (off csum : Z) : body S Z Z :=
  match n with
  | O => ret csum
  | Datatypes.S n =>
      let! w := load16 off in
      csum_words n (off + 2) (u64 (csum + w))
  end.

(** [sizeof(struct iphdr) >> 1] words. *)
Definition ipv4_csum_inline (iph csum : Z) : func S Z := run (
  let! csum := csum_words (Z.to_nat (Z.shiftr sizeof_iphdr 1)) iph csum in
  ret (csum_fold_helper csum)).

(** [*csum = bpf_csum_diff(from, to, *csum)], the seed being a [__wsum]. *)
Definition csum_diff (from to : list Z) (csum : Z) : Z :=
  u64 (bpf_csum_diff from to (u32 csum)).

Definition ipv4_csum (data_start data_size csum : Z) : func S Z := run (
  let! data := load_bytes data_start (Z.to_nat data_size) in
  let csum := csum_diff [] data csum in
  ret (csum_fold_helper csum)).

Definition ipv4_l4_csum (data_start data_size csum iph : Z) : func S Z := run (
  let! saddr := load_bytes (iph + ip_saddr) 4 in
  let csum := csum_diff [] saddr csum in
  let! daddr := load_bytes (iph + ip_daddr) 4 in
  let csum := csum_diff [] daddr csum in
  let! protocol := load8 (iph + ip_protocol) in
  let tmp := bswap32 protocol in
  let csum := csum_diff [] (le_bytes 4 tmp) csum in
  let tmp := bswap32 (u32 data_size) in
  let csum := csum_diff [] (le_bytes 4 tmp) csum in
  let! data := load_bytes data_start (Z.to_nat data_size) in
  let csum := csum_diff [] data csum in
  ret (csum_fold_helper csum)).

Definition ipv6_csum (data_start data_size csum ip6h : Z) : func S Z := run (
  let! saddr := load_bytes (ip6h + ip6_saddr) 16 in
  let csum := csum_diff [] saddr csum in
  let! daddr := load_bytes (ip6h + ip6_daddr) 16 in
  let csum := csum_diff [] daddr csum in
  let tmp := bswap32 (u32 data_size) in
  let csum := csum_diff [] (le_bytes 4 tmp) csum in
  let! nexthdr := load8 (ip6h + ip6_nexthdr) in
  let tmp := bswap32 nexthdr in
  let csum := csum_diff [] (le_bytes 4 tmp) csum in
  let! data := load_bytes data_start (Z.to_nat data_size) in
  let csum := csum_diff [] data csum in
  ret (csum_fold_helper csum)).

(** The functions below return their result together with the final value of
    [*csum], which they also update on the error paths. *)

(** [ret = bpf_csum_diff(..., *csum); if (ret < 0) return err; *csum = ret;] *)
Definition csum_diff_or {E} (err : Z → E) (from to : list Z) (csum : Z) :
    body S (E * Z) Z :=
  let r := bpf_csum_diff from to (u32 csum) in
  return_if (r <? 0) (err r, csum) ;;
  ret (u64 r).

Definition add_pseudo_ipv6_header (ip6h csum : Z) : func S (Z * Z) := run (
  let! saddr := load_bytes (ip6h + ip6_saddr) 16 in
  let! csum := csum_diff_or id [] saddr csum in
  let! daddr := load_bytes (ip6h + ip6_daddr) 16 in
  let! csum := csum_diff_or id [] daddr csum in
  let! payload_len := load16 (ip6h + ip6_payload_len) in
  let tmp := bpf_htonl (bpf_ntohs payload_len) in
  let! csum := csum_diff_or id [] (le_bytes 4 tmp) csum in
  let! nexthdr := load8 (ip6h + ip6_nexthdr) in
  let tmp := bswap32 nexthdr in
  let! csum := csum_diff_or id [] (le_bytes 4 tmp) csum in
  ret (0, csum)).

Definition rem_pseudo_ipv6_header (ip6h csum : Z) : func S (Z * Z) := run (
  let! saddr := load_bytes (ip6h + ip6_saddr) 16 in
  let! csum := csum_diff_or id saddr [] csum in
  let! daddr := load_bytes (ip6h + ip6_daddr) 16 in
  let! csum := csum_diff_or id daddr [] csum in
  let! payload_len := load16 (ip6h + ip6_payload_len) in
  let tmp := bpf_htonl (bpf_ntohs payload_len) in
  let! csum := csum_diff_or id (le_bytes 4 tmp) [] csum in
  let! nexthdr := load8 (ip6h + ip6_nexthdr) in
  let tmp := bswap32 nexthdr in
  let! csum := csum_diff_or id (le_bytes 4 tmp) [] csum in
  ret (0, csum)).

Definition add_pseudo_ipv4_header (iph csum : Z) : func S (Z * Z) := run (
  let! saddr := load_bytes (iph + ip_saddr) 4 in
  let! csum := csum_diff_or id [] saddr csum in
  let! daddr := load_bytes (iph + ip_daddr) 4 in
  let! csum := csum_diff_or id [] daddr csum in
  let! tot_len := load16 (iph + ip_tot_len) in
  let tmp := bpf_htonl (u32 (bpf_ntohs tot_len - sizeof_iphdr)) in
  let! csum := csum_diff_or id [] (le_bytes 4 tmp) csum in
  let! protocol := load8 (iph + ip_protocol) in
  let tmp := bswap32 protocol in
  let! csum := csum_diff_or id [] (le_bytes 4 tmp) csum in
  ret (0, csum)).

Definition rem_pseudo_ipv4_header (iph csum : Z) : func S (Z * Z) := run (
  let! saddr := load_bytes (iph + ip_saddr) 4 in
  let! csum := csum_diff_or id saddr [] csum in
  let! daddr := load_bytes (iph + ip_daddr) 4 in
  let! csum := csum_diff_or id daddr [] csum in
  let! tot_len := load16 (iph + ip_tot_len) in
  let tmp := bpf_htonl (u32 (bpf_ntohs tot_len - sizeof_iphdr)) in
  let! csum := csum_diff_or id (le_bytes 4 tmp) [] csum in
  let! protocol := load8 (iph + ip_protocol) in
  let tmp := bswap32 protocol in
  let! csum := csum_diff_or id (le_bytes 4 tmp) [] csum in
  ret (0, csum)).

Definition gue_csum_v6 (outer_ip6h udph inner_ip6h csum_in_hdr : Z) :
    func S (bool * Z) := run (
  let seed := Z.land (Z.lnot csum_in_hdr) 65535 in
  let orig_csum := u32 csum_in_hdr in
  let r := bpf_csum_diff [] (le_bytes 4 orig_csum) seed in
  return_if (r <? 0) (false, csum_in_hdr) ;;
  let csum_in_hdr := u64 r in
  let! (rc, csum_in_hdr) := call (rem_pseudo_ipv6_header inner_ip6h csum_in_hdr) in
  return_if (rc <? 0) (false, csum_in_hdr) ;;
  let! inner := load_bytes inner_ip6h (Z.to_nat sizeof_ipv6hdr) in
  let! csum_in_hdr := csum_diff_or (λ _, false) [] inner csum_in_hdr in
  let! udp := load_bytes udph (Z.to_nat sizeof_udphdr) in
  let! csum_in_hdr := csum_diff_or (λ _, false) [] udp csum_in_hdr in
  let! (rc, csum_in_hdr) := call (add_pseudo_ipv6_header outer_ip6h csum_in_hdr) in
  return_if (rc <? 0) (false, csum_in_hdr) ;;
  ret (true, csum_fold_helper csum_in_hdr)).

Definition gue_csum_v4 (outer_iph udph inner_iph csum_in_hdr : Z) :
    func S (bool * Z) := run (
  let seed := Z.land (Z.lnot csum_in_hdr) 65535 in
  let orig_csum := u32 csum_in_hdr in
  let r := bpf_csum_diff [] (le_bytes 4 orig_csum) seed in
  return_if (r <? 0) (false, csum_in_hdr) ;;
  let csum_in_hdr := u64 r in
  let! (rc, csum_in_hdr) := call (rem_pseudo_ipv4_header inner_iph csum_in_hdr) in
  return_if (rc <? 0) (false, csum_in_hdr) ;;
  let! inner := load_bytes inner_iph (Z.to_nat sizeof_iphdr) in
  let! csum_in_hdr := csum_diff_or (λ _, false) [] inner csum_in_hdr in
  let! udp := load_bytes udph (Z.to_nat sizeof_udphdr) in
  let! csum_in_hdr := csum_diff_or (λ _, false) [] udp csum_in_hdr in
  let! (rc, csum_in_hdr) := call (add_pseudo_ipv4_header outer_iph csum_in_hdr) in
  return_if (rc <? 0) (false, csum_in_hdr) ;;
  ret (true, csum_fold_helper csum_in_hdr)).

Definition gue_csum_v4_in_v6 (outer_ip6h udph inner_iph csum_in_hdr : Z) :
    func S (bool * Z) := run (
  let seed := Z.land (Z.lnot csum_in_hdr) 65535 in
  let orig_csum := u32 csum_in_hdr in
  let r := bpf_csum_diff [] (le_bytes 4 orig_csum) seed in
  return_if (r <? 0) (false, csum_in_hdr) ;;
  let csum_in_hdr := u64 r in
  let! (rc, csum_in_hdr) := call (rem_pseudo_ipv4_header inner_iph csum_in_hdr) in
  return_if (rc <? 0) (false, csum_in_hdr) ;;
  let! inner := load_bytes inner_iph (Z.to_nat sizeof_iphdr) in
  let! csum_in_hdr := csum_diff_or (λ _, false) [] inner csum_in_hdr in
  let! udp := load_bytes udph (Z.to_nat sizeof_udphdr) in
  let! csum_in_hdr := csum_diff_or (λ _, false) [] udp csum_in_hdr in
  let! (rc, csum_in_hdr) := call (add_pseudo_ipv6_header outer_ip6h csum_in_hdr) in
  return_if (rc <? 0) (false, csum_in_hdr) ;;
  ret (true, csum_fold_helper csum_in_hdr)).
End csum.

(** ** One's-complement sums *)

(** Equality of one's-complement sums: congruence modulo [2^16 - 1]. *)
Definition eqm (a b : Z) : Prop := a mod 65535 = b mod 65535.
Infix "≅" := eqm (at level 70).

#[export] Instance eqm_equiv : Equivalence eqm.
Proof. unfold eqm. split; red; congruence. Qed.
#[export] Instance eqm_add : Proper (eqm ==> eqm ==> eqm) Z.add.
Proof. unfold eqm. intros a b H c d H'. by rewrite Z.add_mod, H, H', <-Z.add_mod by lia. Qed.
#[export] Instance eqm_sub : Proper (eqm ==> eqm ==> eqm) Z.sub.
Proof. unfold eqm. intros a b H c d H'. by rewrite Zminus_mod, H, H', <-Zminus_mod. Qed.
#[export] Instance eqm_opp : Proper (eqm ==> eqm) Z.opp.
Proof. intros a b H. rewrite <-!Z.sub_0_l. by rewrite H. Qed.
#[export] Instance eqm_mul : Proper (eqm ==> eqm ==> eqm) Z.mul.
Proof. unfold eqm. intros a b H c d H'. by rewrite Z.mul_mod, H, H', <-Z.mul_mod by lia. Qed.

Lemma eqm_mult k a b : a = b + k * 65535 → a ≅ b.
Proof. intros ->. unfold eqm. apply Z.mod_add. lia. Qed.
Lemma eqm_eq a b : a = b → a ≅ b.
Proof. by intros ->. Qed.


(** The one's-complement sum of 16-bit words that add up to [c]: zero for no
    data, otherwise the representative of [c] modulo [2^16 - 1] in
    [1 .. 65535] (RFC 1071). *)
Definition ones_fold (c : Z) : Z := if c =? 0 then 0 else (c - 1) mod 65535 + 1.

(** A buffer whose words, checksum field included, sum to [0xffff]. *)
Definition csum_ok (bs : list Z) : Prop := sum16 bs ≅ 0.

Lemma list_pair_ind {A} (P : list A → Prop) :
  P [] → (∀ a, P [a]) → (∀ a b l, P l → P (a :: b :: l)) → ∀ l, P l.
Proof.
  intros H0 H1 H2 l. enough (P l ∧ ∀ a, P (a :: l)) as [? _] by done.
  induction l as [|a l [IH1 IH2]]; split; auto.
Qed.

Lemma sum16_app bs1 bs2 :
  Nat.even (length bs1) = true → sum16 (bs1 ++ bs2) = sum16 bs1 + sum16 bs2.
Proof.
  revert bs1. apply (list_pair_ind (λ bs1, Nat.even (length bs1) = true → _)).
  - intros _. done.
  - done.
  - intros a b l IH Hev. simpl in Hev. change (sum16 ((a :: b :: l) ++ bs2))
      with (a + 256 * b + sum16 (l ++ bs2)). simpl (sum16 (a :: b :: l)).
    rewrite IH by done. lia.
Qed.

Lemma sum16_nonneg bs : bytes_ok bs → 0 ≤ sum16 bs.
Proof.
  revert bs. apply (list_pair_ind (λ bs, bytes_ok bs → _)); [done| |].
  - intros a [Ha _]%Forall_cons. simpl. unfold is_byte in *. lia.
  - intros a b l IH [Ha [Hb Hl]%Forall_cons]%Forall_cons. simpl.
    specialize (IH Hl). unfold is_byte in *. lia.
Qed.

Lemma sum16_bound bs : bytes_ok bs → sum16 bs ≤ 65535 * Z.of_nat (length bs).
Proof.
  revert bs. apply (list_pair_ind (λ bs, bytes_ok bs → _)); [done| |].
  - intros a [Ha _]%Forall_cons. simpl. unfold is_byte in *. lia.
  - intros a b l IH [Ha [Hb Hl]%Forall_cons]%Forall_cons. simpl length. simpl sum16.
    specialize (IH Hl). unfold is_byte in *. lia.
Qed.

(** A word loaded from memory is congruent to the sum of its halves. *)
Lemma le_val_sum16 bs : (le_val bs) mod 65535 = (sum16 bs) mod 65535.
Proof.
  revert bs. apply list_pair_ind.
  - done.
  - intros a. simpl. f_equal. lia.
  - intros a b l IH. simpl.
    replace (a + 256 * (b + 256 * le_val l))
      with (a + 256 * b + le_val l + le_val l * 65535) by lia.
    rewrite Z.mod_add by lia. rewrite Z.add_mod, IH, <-Z.add_mod by lia. done.
Qed.

Lemma sum16_le_bytes2 v : sum16 (le_bytes 2 v) = u16 v.
Proof.
  pose proof (le_val_bytes 2 v) as H. simpl in H. simpl. rewrite Z.mul_0_r, Z.add_0_r in H.
  rewrite Z.add_0_r. exact H.
Qed.

Lemma sum16_le_bytes4 v : sum16 (le_bytes 4 v) mod 65535 = (u32 v) mod 65535.
Proof. rewrite <-le_val_sum16, le_val_bytes. done. Qed.

Lemma sum16_bytes4_le bs :
  length bs = 4%nat → sum16 bs mod 65535 = le_val bs mod 65535.
Proof. intros _. by rewrite le_val_sum16. Qed.

(** Storing the negated sum of the other words makes a buffer valid. *)
Lemma csum_ok_intro bs c rest : sum16 bs = c + rest → c ≅ - rest → csum_ok bs.
Proof.
  unfold csum_ok. intros -> Hc. rewrite Hc. apply eqm_eq. lia.
Qed.

(** One end-around carry. *)
Lemma fold_once x : 0 ≤ x ≤ 65536 →
  0 ≤ Z.land x 65535 + Z.shiftr x 16 < 2 ^ 16 ∧
  Z.land x 65535 + Z.shiftr x 16 ≅ x.
Proof.
  intros Hx. change 65535 with (Z.ones 16). rewrite Z.land_ones, Z.shiftr_div_pow2 by lia.
  destruct (decide (x = 65536)) as [->|]; [done|].
  rewrite Z.mod_small, Z.div_small by lia. split; [lia|]. apply eqm_eq. lia.
Qed.

(** ** Folding *)

Lemma csum_fold_step_eq c :
  0 ≤ c < 2 ^ 64 → csum_fold_step c = if c <? 65536 then c else c mod 65536 + c / 65536.
Proof.
  intros Hc. unfold csum_fold_step.
  change 65535 with (Z.ones 16). rewrite Z.land_ones, Z.shiftr_div_pow2 by lia.
  change (2 ^ 16) with 65536 in *.
  destruct (Z.eqb_spec (c / 65536) 0) as [E|E], (Z.ltb_spec c 65536) as [L|L]; simpl.
  - done.
  - apply Z.div_small_iff in E; lia.
  - by rewrite Z.div_small in E by lia.
  - apply u64_id. pose proof (Z.mod_pos_bound c 65536).
    pose proof (Z.div_le_upper_bound c 65536 (2 ^ 48)).
    pose proof (Z.div_pos c 65536). lia.
Qed.

(** A folding step keeps the residue and stays positive. *)
Lemma csum_fold_step_mod c :
  0 ≤ c < 2 ^ 64 → (csum_fold_step c) mod 65535 = c mod 65535.
Proof.
  intros Hc. rewrite csum_fold_step_eq by done. destruct (c <? 65536); [done|].
  rewrite (Z.div_mod c 65536) at 3 by lia.
  replace (65536 * (c / 65536) + c mod 65536)
    with (c mod 65536 + c / 65536 + (c / 65536) * 65535) by lia.
  by rewrite Z.mod_add by lia.
Qed.

Lemma csum_fold_step_bound c b :
  0 ≤ c ≤ b → b < 2 ^ 64 → 65535 ≤ b →
  0 ≤ csum_fold_step c ≤ Z.max 65535 (65535 + b / 65536) ∧
  (0 < c → 0 < csum_fold_step c).
Proof.
  intros Hc Hb Hb'. rewrite csum_fold_step_eq by lia.
  destruct (Z.ltb_spec c 65536); [lia|].
  pose proof (Z.mod_pos_bound c 65536). pose proof (Z.div_le_mono c b 65536).
  pose proof (Z.div_le_lower_bound c 65536 1). lia.
Qed.

(** The bound after each step is one less than the generic one: a sum whose
    high half is maximal has a smaller low half. *)
Lemma csum_fold_step_small c h :
  0 ≤ h → 0 ≤ c ≤ 65536 * h + 65534 →
  c < 2 ^ 64 → 0 ≤ csum_fold_step c ≤ Z.max 65535 (h + 65534).
Proof.
  intros Hh Hc Hc'. rewrite csum_fold_step_eq by lia.
  destruct (Z.ltb_spec c 65536); [lia|].
  pose proof (Z.div_mod c 65536). pose proof (Z.mod_pos_bound c 65536).
  assert (c / 65536 < h + 1) by (apply Z.div_lt_upper_bound; lia).
  lia.
Qed.

Lemma csum_fold_iter c :
  0 ≤ c < 2 ^ 64 →
  let x := Nat.iter 4 csum_fold_step c in
  0 ≤ x ≤ 65535 ∧ x mod 65535 = c mod 65535 ∧ (0 < c → 0 < x).
Proof.
  intros Hc x. subst x. simpl Nat.iter.
  set (c1 := csum_fold_step c). set (c2 := csum_fold_step c1).
  set (c3 := csum_fold_step c2).
  destruct (csum_fold_step_bound c (2 ^ 64 - 1)) as [B1 P1]; [lia..|].
  change (Z.max _ _) with (2 ^ 48 + 65534) in B1. fold c1 in B1, P1.
  destruct (csum_fold_step_bound c1 (2 ^ 48 + 65534)) as [_ P2]; [lia..|].
  assert (0 ≤ c2 ≤ 2 ^ 32 + 65534) as B2.
  { pose proof (csum_fold_step_small c1 (2 ^ 32)) as B. fold c2 in B. lia. }
  destruct (csum_fold_step_bound c2 (2 ^ 32 + 65534)) as [_ P3]; [lia..|].
  assert (0 ≤ c3 ≤ 131070) as B3.
  { pose proof (csum_fold_step_small c2 65536) as B. fold c3 in B. lia. }
  destruct (csum_fold_step_bound c3 131070) as [_ P4]; [lia..|].
  assert (0 ≤ csum_fold_step c3 ≤ 65535) as B4.
  { pose proof (csum_fold_step_small c3 1). lia. }
  fold c2 in P2. fold c3 in P3.
  split; [lia|]. split; [|lia].
  rewrite csum_fold_step_mod by lia. unfold c3. rewrite csum_fold_step_mod by lia.
  unfold c2. rewrite csum_fold_step_mod by lia. unfold c1.
  by rewrite csum_fold_step_mod by lia.
Qed.

Lemma ones_fold_unique c x :
  0 ≤ c → 0 ≤ x ≤ 65535 → x mod 65535 = c mod 65535 → (0 < c → 0 < x) →
  (c = 0 → x = 0) → x = ones_fold c.
Proof.
  intros Hc Hx Hm Hp Hz. unfold ones_fold.
  destruct (Z.eqb_spec c 0) as [->|Hne]; [by apply Hz|].
  specialize (Hp ltac:(lia)).
  assert ((x - 1) mod 65535 = (c - 1) mod 65535) as <-.
  { by rewrite Zminus_mod, Hm, <-Zminus_mod. }
  rewrite Z.mod_small; lia.
Qed.

Lemma csum_fold_helper_eq c :
  0 ≤ c < 2 ^ 64 → csum_fold_helper c = 65535 - ones_fold c.
Proof.
  intros Hc. destruct (csum_fold_iter c Hc) as (Hb & Hm & Hp).
  rewrite <-(ones_fold_unique c (Nat.iter 4 csum_fold_step c)); [|lia..|].
  - unfold csum_fold_helper, u16, Z.lnot.
    set (x := Nat.iter _ _ _) in *.
    symmetry. apply (Z.mod_unique _ _ (-1)); lia.
  - by intros ->.
Qed.

(** The folded checksum completes a sum to a multiple of [0xffff]. *)
Lemma csum_fold_helper_completes c :
  0 ≤ c < 2 ^ 64 →
  0 ≤ csum_fold_helper c < 2 ^ 16 ∧ (csum_fold_helper c + c) mod 65535 = 0.
Proof.
  intros Hc. destruct (csum_fold_iter c Hc) as (Hb & Hm & Hp).
  assert (csum_fold_helper c = 65535 - Nat.iter 4 csum_fold_step c) as E.
  { unfold csum_fold_helper, u16, Z.lnot. set (x := Nat.iter _ _ _) in *.
    symmetry. apply (Z.mod_unique _ _ (-1)); lia. }
  rewrite E. split; [lia|].
  rewrite Z.add_mod, <-Hm, <-Z.add_mod by lia.
  rewrite Z.sub_add. done.
Qed.

Lemma csum_fold_helper_eqm c :
  0 ≤ c < 2 ^ 64 → csum_fold_helper c ≅ - c.
Proof.
  intros Hc. destruct (csum_fold_helper_completes c Hc) as [_ Hm].
  rewrite <-(Z.add_simpl_r (csum_fold_helper c) c).
  assert (csum_fold_helper c + c ≅ 0) as -> by done. apply eqm_eq. lia.
Qed.

Lemma sum16_le_val bs : le_val bs ≅ sum16 bs.
Proof. apply le_val_sum16. Qed.

(** A big-endian 16-bit field, as the program builds it in a [__u32]. *)
Lemma sum16_htonl x : 0 ≤ x < 2 ^ 32 →
  sum16 (le_bytes 4 (bpf_htonl x)) ≅ sum16 (reverse (le_bytes 2 (u16 x))) +
    sum16 (reverse (le_bytes 2 (x / 2 ^ 16))).
Proof.
  intros Hx. unfold bpf_htonl, bswap32. rewrite le_bytes_bswap, u32_id by done.
  rewrite (le_bytes_app 2 2), reverse_app, sum16_app
    by (by rewrite length_reverse, length_le_bytes).
  replace (le_bytes 2 (u16 x)) with (le_bytes 2 x) by apply (le_bytes_mod 2 x).
  apply eqm_eq. change (256 ^ Z.of_nat 2) with (2 ^ 16). lia.
Qed.

(** ** Checksums of packet headers *)

(** The IPv4 pseudo-header of a transport segment carried by the IP header at
    [iph] (RFC 793): addresses, zero, protocol, segment length. *)
Definition pseudo_v4 (iph : nat) (m : mem) : list Z :=
  slice (iph + 12) 4 m ++ slice (iph + 16) 4 m ++
  0 :: slice (iph + 9) 1 m ++
  reverse (le_bytes 2 (u16 (bpf_ntohs (le_val (slice (iph + 2) 2 m)) - 20))).

(** The IPv6 pseudo-header (RFC 8200): addresses, 32-bit length, three zero
    bytes and the next header. *)
Definition pseudo_v6 (ip6h : nat) (m : mem) : list Z :=
  slice (ip6h + 8) 16 m ++ slice (ip6h + 24) 16 m ++
  [0; 0] ++ slice (ip6h + 4) 2 m ++ [0; 0; 0] ++ slice (ip6h + 6) 1 m.

Section csum_theory.
Context {S : Type} `{PktStateLaws S} {K : Type} `{BpfEnvLaws K} {R : Type}.
Implicit Types (s : S).

Lemma sum16_slice_succ n off m :
  0 ≤ off → off + 2 * Z.of_nat (Datatypes.S n) ≤ Z.of_nat (length m) → bytes_ok m →
  let w := le_val (slice (Z.to_nat off) 2 m) in
  0 ≤ w < 2 ^ 16 ∧
  sum16 (slice (Z.to_nat off) (2 * Datatypes.S n) m) =
    w + sum16 (slice (Z.to_nat (off + 2)) (2 * n) m).
Proof.
  intros Ho Hl Hb. cbn zeta. set (w := slice (Z.to_nat off) 2 m).
  assert (length w = 2%nat) as Hw by (apply length_slice; lia).
  pose proof (le_val_range w (slice_ok _ _ _ Hb)) as Hr. rewrite Hw in Hr. split; [exact Hr|].
  replace (slice (Z.to_nat off) (2 * Datatypes.S n) m)
    with (w ++ slice (Z.to_nat (off + 2)) (2 * n) m).
  - rewrite sum16_app by by rewrite Hw. f_equal.
    destruct w as [|a [|b [|]]]; try discriminate. simpl. lia.
  - unfold w, slice. rewrite Z2Nat.inj_add, <-drop_drop by lia.
    change (Z.to_nat 2) with 2%nat.
    replace (2 * Datatypes.S n)%nat with (2 + 2 * n)%nat by lia.
    by rewrite <-(take_take_drop _ 2 (2 * n)).
Qed.

Lemma wp_csum_words n off csum (QR : Z → S → Prop) (QN : Z → S → Prop) s :
  0 ≤ off → off + 2 * Z.of_nat n ≤ pkt_len s → bytes_ok (get_pkt s) →
  0 ≤ csum → csum + 65536 * Z.of_nat n < 2 ^ 64 →
  QN (csum + sum16 (slice (Z.to_nat off) (2 * n) (get_pkt s))) s →
  wpb (csum_words n off csum) QR QN s.
Proof.
  revert off csum. induction n as [|n IH]; intros off csum Ho Hl Hb Hc Hc' HQ.
  { apply wp_ret. unfold slice in HQ. simpl in HQ. by rewrite Z.add_0_r in HQ. }
  destruct (sum16_slice_succ n off (get_pkt s)) as [Hr E]; [done|unfold pkt_len in *; lia|done|].
  simpl. apply wp_bind, wp_load; [lia..|]. rewrite u64_id by lia.
  apply IH; [lia..|done|lia|lia|]. by rewrite E, Z.add_assoc in HQ.
Qed.

Lemma wp_ipv4_csum_inline iph (Q : Z → S → Prop) s :
  0 ≤ iph → iph + 20 ≤ pkt_len s → bytes_ok (get_pkt s) →
  (∀ c, 0 ≤ c < 2 ^ 16 →
     c ≅ - sum16 (slice (Z.to_nat iph) 20 (get_pkt s)) → Q c s) →
  wpf (ipv4_csum_inline iph 0) Q s.
Proof.
  intros Hi Hl Hb HQ. apply wp_run, wp_bind.
  apply wp_csum_words; [done|change (Z.to_nat _) with 10%nat; lia|done|lia|done|].
  change (2 * Z.to_nat _)%nat with 20%nat. rewrite Z.add_0_l. apply wp_ret.
  set (h := slice _ _ _). assert (bytes_ok h) as Hh by by apply slice_ok.
  assert (length h = 20%nat) as Hlen by (apply length_slice; unfold pkt_len in *; lia).
  pose proof (sum16_nonneg h Hh). pose proof (sum16_bound h Hh) as Hbd.
  rewrite Hlen in Hbd.
  apply HQ; [apply csum_fold_helper_completes|apply csum_fold_helper_eqm];
    fold h; lia.
Qed.

(** ** The checksum helper *)

Definition words32 (bs : list Z) : Prop :=
  bytes_ok bs ∧ (length bs `mod` 4 = 0)%nat ∧ (length bs ≤ 256)%nat.

Lemma csum_diff_spec from to csum :
  words32 from → words32 to → 0 ≤ csum < 2 ^ 32 →
  0 ≤ bpf_csum_diff from to (u32 csum) < 2 ^ 32 ∧
  bpf_csum_diff from to (u32 csum) ≅ csum + sum16 to - sum16 from.
Proof.
  intros (?&?&?) (?&?&?) ?. rewrite u32_id by done.
  apply csum_diff_sum; (done || lia).
Qed.

Lemma wp_csum_diff_or {E} (err : Z → E) from to csum QR (QN : Z → S → Prop) s :
  words32 from → words32 to → 0 ≤ csum < 2 ^ 32 →
  (∀ c, 0 ≤ c < 2 ^ 32 → c ≅ csum + sum16 to - sum16 from → QN c s) →
  wpb (csum_diff_or err from to csum) QR QN s.
Proof.
  intros Hf Ht Hc HQ. destruct (csum_diff_spec from to csum) as [Hr Hm]; [done..|].
  unfold csum_diff_or. apply wp_bind, wp_return_if; intros Hlt.
  { apply Z.ltb_lt in Hlt. lia. }
  apply wp_ret. rewrite u64_id by lia. by apply HQ.
Qed.

Lemma words32_nil : words32 [].
Proof. repeat split; [constructor|simpl; lia]. Qed.
Lemma words32_le v : words32 (le_bytes 4 v).
Proof. repeat split; [apply le_bytes_ok|simpl; lia]. Qed.
Lemma words32_slice off n s :
  bytes_ok (get_pkt s) → (Z.of_nat off + Z.of_nat n ≤ pkt_len s) →
  (n `mod` 4 = 0)%nat → (n ≤ 256)%nat → words32 (slice off n (get_pkt s)).
Proof.
  intros. unfold words32, pkt_len in *. rewrite length_slice by lia.
  split; [by apply slice_ok|done].
Qed.

Lemma slice_1 i m : (i < length m)%nat → slice i 1 m = [le_val (slice i 1 m)].
Proof.
  intros Hi. pose proof (length_slice i 1 m) as Hl.
  destruct (slice i 1 m) as [|a [|]]; simpl in *; try lia. by rewrite Z.add_0_r.
Qed.

Lemma sum16_proto p : 0 ≤ p < 256 → sum16 (le_bytes 4 (bswap32 p)) = 256 * p.
Proof.
  intros Hp. unfold bswap32. rewrite le_bytes_bswap. unfold reverse. simpl.
  rewrite (Z.div_small p 256) by done. rewrite (Z.mod_small p 256) by done.
  rewrite ?Z.div_0_l, ?Z.mod_0_l by lia. lia.
Qed.

Lemma sum16_len_v4 x : 0 ≤ x < 2 ^ 16 →
  sum16 (le_bytes 4 (bpf_htonl (u32 (x - 20)))) ≅
  sum16 (reverse (le_bytes 2 (u16 (x - 20)))).
Proof.
  intros Hx. rewrite sum16_htonl by apply u32_range.
  assert (u16 (u32 (x - 20)) = u16 (x - 20)) as ->
    by (unfold u16, u32; apply Z.mod_mod_divide; by exists (2 ^ 16)).
  assert (sum16 (reverse (le_bytes 2 (u32 (x - 20) / 2 ^ 16))) ≅ 0) as ->.
  { unfold u32. destruct (Z.lt_ge_cases x 20).
    - replace ((x - 20) mod 2 ^ 32) with (2 ^ 32 + (x - 20))
        by (apply Z.mod_unique with (-1); lia).
      replace ((2 ^ 32 + (x - 20)) / 2 ^ 16) with 65535
        by (apply Z.div_unique with (x - 20 + 2 ^ 16); lia). done.
    - rewrite Z.mod_small, Z.div_small by lia. done. }
  apply eqm_eq. lia.
Qed.

Lemma sum16_pseudo_v4 iph m :
  (iph + 20 ≤ length m)%nat →
  sum16 (pseudo_v4 iph m) =
    sum16 (slice (iph + 12) 4 m) + sum16 (slice (iph + 16) 4 m) +
    256 * le_val (slice (iph + 9) 1 m) +
    sum16 (reverse (le_bytes 2 (u16 (bpf_ntohs (le_val (slice (iph + 2) 2 m)) - 20)))).
Proof.
  intros Hl. unfold pseudo_v4. rewrite !sum16_app by by rewrite length_slice by lia.
  rewrite (slice_1 (iph + 9)) by lia. simpl (0 :: [_] ++ _).
  set (x := reverse _). set (p := le_val _). simpl. lia.
Qed.

Lemma sum16_pseudo_v6 ip6h m :
  (ip6h + 40 ≤ length m)%nat →
  sum16 (pseudo_v6 ip6h m) =
    sum16 (slice (ip6h + 8) 16 m) + sum16 (slice (ip6h + 24) 16 m) +
    sum16 (slice (ip6h + 4) 2 m) + 256 * le_val (slice (ip6h + 6) 1 m).
Proof.
  intros Hl. unfold pseudo_v6. rewrite !sum16_app by by rewrite length_slice by lia.
  rewrite (slice_1 (ip6h + 6)) by lia.
  pose proof (length_slice (ip6h + 4) 2 m) as H2'.
  destruct (slice (ip6h + 4) 2 m) as [|a [|b [|]]]; simpl in *; lia.
Qed.

(** Execution of the pseudo-header routines. *)
Ltac csum_step :=
  first
    [ wp_step
    | apply wp_load_bytes; [katran_lia|katran_lia|cbv beta]
    | apply wp_load; [katran_lia|katran_lia|cbv beta]
    | apply wp_csum_diff_or;
      [ first [ apply words32_nil | apply words32_le
              | apply words32_slice; [done|katran_lia|vm_compute; done|katran_lia] ]
      | first [ apply words32_nil | apply words32_le
              | apply words32_slice; [done|katran_lia|vm_compute; done|katran_lia] ]
      | done | intros ? ? ?; cbv beta ] ].
Lemma le_val_slice_range i n s :
  bytes_ok (get_pkt s) → (Z.of_nat i + Z.of_nat n ≤ pkt_len s) →
  0 ≤ le_val (slice i n (get_pkt s)) < 256 ^ Z.of_nat n.
Proof.
  intros Hb Hl. pose proof (le_val_range _ (slice_ok i n _ Hb)) as Hr.
  rewrite length_slice in Hr; [done|unfold pkt_len in *; lia].
Qed.

Lemma sum16_len_v6 bs : length bs = 2%nat → bytes_ok bs →
  sum16 (le_bytes 4 (bpf_htonl (bpf_ntohs (le_val bs)))) ≅ sum16 bs.
Proof.
  intros Hl Hb. pose proof (le_val_range bs Hb) as Hr. rewrite Hl in Hr.
  pose proof (bpf_ntohs_range (le_val bs)). rewrite sum16_htonl by lia.
  rewrite u16_id, (Z.div_small _ (2 ^ 16)) by done.
  unfold bpf_ntohs, bswap16. rewrite le_bytes_bswap, reverse_involutive.
  rewrite u16_id by done. rewrite <-Hl, le_bytes_val by done. by rewrite Hl, Z.add_0_r.
Qed.

(** Substitutes the value of every intermediate checksum and compares the
    sums. *)
Ltac csum_finish :=
  nat_offsets;
  repeat match goal with H : ?c ≅ _ |- context [?c] => is_var c; rewrite H; clear H end;
  rewrite ?sum16_pseudo_v4, ?sum16_pseudo_v6 by (unfold pkt_len in *; lia);
  rewrite ?sum16_proto by (by apply (le_val_slice_range _ 1); [|lia]);
  rewrite ?sum16_len_v4 by apply bpf_ntohs_range;
  rewrite ?sum16_len_v6 by
    (first [apply length_slice; unfold pkt_len in *; lia | by apply slice_ok]);
  apply eqm_eq; simpl (sum16 []); try lia.

Lemma wp_rem_pseudo_ipv4 iph csum (Q : Z * Z → S → Prop) s :
  0 ≤ iph → iph + 20 ≤ pkt_len s → bytes_ok (get_pkt s) → 0 ≤ csum < 2 ^ 32 →
  (∀ c, 0 ≤ c < 2 ^ 32 →
     c ≅ csum - sum16 (pseudo_v4 (Z.to_nat iph) (get_pkt s)) → Q (0, c) s) →
  wpf (rem_pseudo_ipv4_header iph csum) Q s.
Proof.
  intros Hi Hl Hb Hc HQ. unfold rem_pseudo_ipv4_header.
  repeat csum_step. apply HQ; [done|]. csum_finish.
Qed.

Lemma wp_add_pseudo_ipv4 iph csum (Q : Z * Z → S → Prop) s :
  0 ≤ iph → iph + 20 ≤ pkt_len s → bytes_ok (get_pkt s) → 0 ≤ csum < 2 ^ 32 →
  (∀ c, 0 ≤ c < 2 ^ 32 →
     c ≅ csum + sum16 (pseudo_v4 (Z.to_nat iph) (get_pkt s)) → Q (0, c) s) →
  wpf (add_pseudo_ipv4_header iph csum) Q s.
Proof.
  intros Hi Hl Hb Hc HQ. unfold add_pseudo_ipv4_header.
  repeat csum_step. apply HQ; [done|]. csum_finish.
Qed.

Lemma wp_rem_pseudo_ipv6 ip6h csum (Q : Z * Z → S → Prop) s :
  0 ≤ ip6h → ip6h + 40 ≤ pkt_len s → bytes_ok (get_pkt s) → 0 ≤ csum < 2 ^ 32 →
  (∀ c, 0 ≤ c < 2 ^ 32 →
     c ≅ csum - sum16 (pseudo_v6 (Z.to_nat ip6h) (get_pkt s)) → Q (0, c) s) →
  wpf (rem_pseudo_ipv6_header ip6h csum) Q s.
Proof.
  intros Hi Hl Hb Hc HQ. unfold rem_pseudo_ipv6_header.
  repeat csum_step. apply HQ; [done|]. csum_finish.
Qed.

Lemma wp_add_pseudo_ipv6 ip6h csum (Q : Z * Z → S → Prop) s :
  0 ≤ ip6h → ip6h + 40 ≤ pkt_len s → bytes_ok (get_pkt s) → 0 ≤ csum < 2 ^ 32 →
  (∀ c, 0 ≤ c < 2 ^ 32 →
     c ≅ csum + sum16 (pseudo_v6 (Z.to_nat ip6h) (get_pkt s)) → Q (0, c) s) →
  wpf (add_pseudo_ipv6_header ip6h csum) Q s.
Proof.
  intros Hi Hl Hb Hc HQ. unfold add_pseudo_ipv6_header.
  repeat csum_step. apply HQ; [done|]. csum_finish.
Qed.

(** [~csum + csum] is a one's-complement zero: the seed of the update. *)
Lemma gue_csum_seed csum :
  0 ≤ csum < 2 ^ 16 →
  let r := bpf_csum_diff [] (le_bytes 4 (u32 csum)) (Z.land (Z.lnot csum) 65535) in
  0 ≤ r < 2 ^ 32 ∧ r ≅ 0.
Proof.
  intros Hc r. subst r.
  assert (Z.land (Z.lnot csum) 65535 = 65535 - csum) as ->.
  { change 65535 with (Z.ones 16) at 1. rewrite Z.land_ones by lia. unfold Z.lnot.
    symmetry. apply Z.mod_unique with (-1); lia. }
  destruct (words32_le (u32 csum)) as (?&?&?).
  destruct (csum_diff_sum [] (le_bytes 4 (u32 csum)) (65535 - csum)) as [Hr Hm];
    [done|done|simpl; lia|constructor|done|lia|].
  split; [done|]. fold (eqm (bpf_csum_diff [] (le_bytes 4 (u32 csum)) (65535 - csum))
    (65535 - csum + sum16 (le_bytes 4 (u32 csum)) - sum16 [])) in Hm. rewrite Hm.
  rewrite (sum16_le_bytes4 (u32 csum) : _ ≅ _). unfold u32.
  rewrite Z.mod_mod, Z.mod_small by lia.
  apply eqm_mult with 1. simpl (sum16 []). lia.
Qed.

(** The outer checksum of each of the three encapsulations, as a function of
    the packet: minus the outer pseudo-header, the UDP header and the inner
    IP header, plus the inner pseudo-header. *)
Definition gue_sum (outer_pseudo inner_pseudo : list Z) (udph inner n : nat)
    (m : mem) : Z :=
  sum16 outer_pseudo + sum16 (slice udph 8 m) + sum16 (slice inner n m) -
  sum16 inner_pseudo.

Ltac gue_start :=
  match goal with
  | Hc : 0 ≤ ?csum < 2 ^ 16 |- _ =>
      let r := fresh "r" in let Hr := fresh "Hr" in let Hm := fresh "Hm" in
      destruct (gue_csum_seed csum Hc) as [Hr Hm];
      set (r := bpf_csum_diff _ _ _) in *; clearbody r;
      apply wp_run; apply wp_bind, wp_return_if; intros Hneg;
        [apply Z.ltb_lt in Hneg; lia|]; rewrite (u64_id r) by lia
  end.
Ltac gue_step :=
  first
    [ csum_step
    | apply wp_rem_pseudo_ipv4; [katran_lia|katran_lia|done|done|intros ? ? ?]
    | apply wp_rem_pseudo_ipv6; [katran_lia|katran_lia|done|done|intros ? ? ?]
    | apply wp_add_pseudo_ipv4; [katran_lia|katran_lia|done|done|intros ? ? ?]
    | apply wp_add_pseudo_ipv6; [katran_lia|katran_lia|done|done|intros ? ? ?]
    | progress cbv beta iota ].
Ltac gue_finish HQ :=
  match goal with
  | H : (0 <? 0) = true |- _ => discriminate H
  | |- _ => apply HQ; [apply csum_fold_helper_completes; lia|];
      rewrite csum_fold_helper_eqm by lia; unfold gue_sum; nat_offsets;
      repeat match goal with H : ?c ≅ _ |- context [?c] => is_var c; rewrite H; clear H end;
      apply eqm_eq; simpl (sum16 []); try lia
  end.

Lemma wp_gue_csum_v4 outer udph inner csum (Q : bool * Z → S → Prop) s :
  0 ≤ outer → outer + 20 ≤ pkt_len s → 0 ≤ udph → udph + 8 ≤ pkt_len s →
  0 ≤ inner → inner + 20 ≤ pkt_len s → bytes_ok (get_pkt s) → 0 ≤ csum < 2 ^ 16 →
  (∀ c, 0 ≤ c < 2 ^ 16 →
     c ≅ - gue_sum (pseudo_v4 (Z.to_nat outer) (get_pkt s))
             (pseudo_v4 (Z.to_nat inner) (get_pkt s))
             (Z.to_nat udph) (Z.to_nat inner) 20 (get_pkt s) → Q (true, c) s) →
  wpf (gue_csum_v4 outer udph inner csum) Q s.
Proof.
  intros ??????? Hc HQ. unfold gue_csum_v4. cbv zeta. gue_start.
  repeat gue_step. all: gue_finish HQ.
Qed.

Lemma wp_gue_csum_v4_in_v6 outer udph inner csum (Q : bool * Z → S → Prop) s :
  0 ≤ outer → outer + 40 ≤ pkt_len s → 0 ≤ udph → udph + 8 ≤ pkt_len s →
  0 ≤ inner → inner + 20 ≤ pkt_len s → bytes_ok (get_pkt s) → 0 ≤ csum < 2 ^ 16 →
  (∀ c, 0 ≤ c < 2 ^ 16 →
     c ≅ - gue_sum (pseudo_v6 (Z.to_nat outer) (get_pkt s))
             (pseudo_v4 (Z.to_nat inner) (get_pkt s))
             (Z.to_nat udph) (Z.to_nat inner) 20 (get_pkt s) → Q (true, c) s) →
  wpf (gue_csum_v4_in_v6 outer udph inner csum) Q s.
Proof.
  intros ??????? Hc HQ. unfold gue_csum_v4_in_v6. cbv zeta. gue_start.
  repeat gue_step. all: gue_finish HQ.
Qed.

Lemma wp_gue_csum_v6 outer udph inner csum (Q : bool * Z → S → Prop) s :
  0 ≤ outer → outer + 40 ≤ pkt_len s → 0 ≤ udph → udph + 8 ≤ pkt_len s →
  0 ≤ inner → inner + 40 ≤ pkt_len s → bytes_ok (get_pkt s) → 0 ≤ csum < 2 ^ 16 →
  (∀ c, 0 ≤ c < 2 ^ 16 →
     c ≅ - gue_sum (pseudo_v6 (Z.to_nat outer) (get_pkt s))
             (pseudo_v6 (Z.to_nat inner) (get_pkt s))
             (Z.to_nat udph) (Z.to_nat inner) 40 (get_pkt s) → Q (true, c) s) →
  wpf (gue_csum_v6 outer udph inner csum) Q s.
Proof.
  intros ??????? Hc HQ. unfold gue_csum_v6. cbv zeta. gue_start.
  repeat gue_step. all: gue_finish HQ.
Qed.

Lemma wp_ipv4_csum data size (Q : Z → S → Prop) s :
  0 ≤ data → 0 ≤ size ≤ 256 → data + size ≤ pkt_len s →
  (Z.to_nat size `mod` 4 = 0)%nat → bytes_ok (get_pkt s) →
  (∀ c, 0 ≤ c < 2 ^ 16 →
     c ≅ - sum16 (slice (Z.to_nat data) (Z.to_nat size) (get_pkt s)) → Q c s) →
  wpf (ipv4_csum data size 0) Q s.
Proof.
  intros Hd Hs Hl H4 Hb HQ. apply wp_run, wp_bind, wp_load_bytes; [done|lia|].
  set (bs := slice _ _ _).
  assert (words32 bs) as Hw by (apply words32_slice; (done || lia)).
  destruct (csum_diff_spec [] bs 0) as [Hr Hm]; [apply words32_nil|done|done|].
  cbv zeta. unfold csum_diff. rewrite u64_id by lia. apply wp_ret, HQ.
  - apply csum_fold_helper_completes. lia.
  - rewrite csum_fold_helper_eqm, Hm by lia. apply eqm_eq. simpl (sum16 []).
    fold bs. lia.
Qed.

Lemma csum_diff_eqm to csum :
  words32 to → 0 ≤ csum < 2 ^ 32 →
  0 ≤ csum_diff [] to csum < 2 ^ 32 ∧ csum_diff [] to csum ≅ csum + sum16 to.
Proof.
  intros Ht Hc. destruct (csum_diff_spec [] to csum) as [Hr Hm];
    [apply words32_nil|done|done|]. unfold csum_diff. rewrite u64_id by lia.
  split; [done|]. rewrite Hm. apply eqm_eq. simpl (sum16 []). lia.
Qed.

(** Names the innermost checksum steps of the goal, from the inside out. *)
Ltac csum_diff_vars :=
  repeat match goal with
  | |- context [csum_diff [] ?to ?c] =>
      first [is_var c | unify c 0];
      let Hr := fresh "Hr" in let Hm := fresh "Hm" in
      destruct (csum_diff_eqm to c) as [Hr Hm];
      [ first [ apply words32_le
              | apply words32_slice; [done|katran_lia|vm_compute; done|katran_lia]
              | apply words32_slice; (done || lia) ]
      | done
      | let x := fresh "c" in set (x := csum_diff [] to c) in *; clearbody x ]
  end.

(** The pseudo-header of an ICMPv6 message of [size] bytes. *)
Definition pseudo_icmp6 (ip6h : nat) (size : Z) (m : mem) : list Z :=
  slice (ip6h + 8) 16 m ++ slice (ip6h + 24) 16 m ++
  reverse (le_bytes 4 size) ++ [0; 0; 0] ++ slice (ip6h + 6) 1 m.

Lemma sum16_pseudo_icmp6 ip6h size m :
  (ip6h + 40 ≤ length m)%nat →
  sum16 (pseudo_icmp6 ip6h size m) =
    sum16 (slice (ip6h + 8) 16 m) + sum16 (slice (ip6h + 24) 16 m) +
    sum16 (reverse (le_bytes 4 size)) + 256 * le_val (slice (ip6h + 6) 1 m).
Proof.
  intros Hl. unfold pseudo_icmp6.
  rewrite !sum16_app by (rewrite ?length_slice by lia; done).
  rewrite (slice_1 (ip6h + 6)) by lia. simpl ([0; 0; 0] ++ _).
  set (x := reverse _). set (p := le_val _). simpl. lia.
Qed.

Lemma wp_ipv6_csum data size ip6h (Q : Z → S → Prop) s :
  0 ≤ data → 0 ≤ size ≤ 256 → data + size ≤ pkt_len s →
  (Z.to_nat size `mod` 4 = 0)%nat → 0 ≤ ip6h → ip6h + 40 ≤ pkt_len s →
  bytes_ok (get_pkt s) →
  (∀ c, 0 ≤ c < 2 ^ 16 →
     c ≅ - (sum16 (pseudo_icmp6 (Z.to_nat ip6h) size (get_pkt s)) +
            sum16 (slice (Z.to_nat data) (Z.to_nat size) (get_pkt s))) → Q c s) →
  wpf (ipv6_csum data size 0 ip6h) Q s.
Proof.
  intros Hd Hs Hl H4 Hi Hil Hb HQ. unfold ipv6_csum.
  repeat first [csum_step | progress cbv zeta]. nat_offsets.
  csum_diff_vars.
  apply HQ; [apply csum_fold_helper_completes; lia|].
  rewrite csum_fold_helper_eqm by lia.
  repeat match goal with H : ?c ≅ _ |- context [?c] => is_var c; rewrite H; clear H end.
  rewrite sum16_pseudo_icmp6 by (unfold pkt_len in *; lia).
  rewrite (sum16_proto (le_val _)) by (by apply (le_val_slice_range _ 1); [|lia]).
  unfold bswap32. rewrite le_bytes_bswap, u32_id by lia. apply eqm_eq. lia.
Qed.
End csum_theory.
