(* ===== verification/Headers.v ===== *)
(** * Outer header construction and TTL handling

    [encap_helpers.h] and the TTL helper of [balancer_helpers.h]: routines
    that only write packet memory, generic in the state that holds it. *)
From S2P Require Import Prelude Words Consts Structs Csum.
Open Scope c_scope.

Section headers.
Context {S : Type} `{PktState S}.

(** Assignment to the high or low 4-bit field of a byte. *)
Definition store_hi4 {R} (off v : Z) : body S R unit :=
  let! b := load8 off in
  store8 off (set_hi4 b v).
Definition store_lo4 {R} (off v : Z) : body S R unit :=
  let! b := load8 off in
  store8 off (set_lo4 b v).

Definition create_v4_hdr (iph tos saddr daddr pkt_bytes proto : Z) : func S unit :=
  run (
  store_hi4 (iph + ip_verihl) 4 ;;
  store_lo4 (iph + ip_verihl) 5 ;;
  store16 (iph + ip_frag_off) 0 ;;
  store8 (iph + ip_protocol) proto ;;
  store16 (iph + ip_check) 0 ;;
  store8 (iph + ip_tos) tos ;;
  store16 (iph + ip_tot_len) (bpf_htons (pkt_bytes + sizeof_iphdr)) ;;
  store32 (iph + ip_daddr) daddr ;;
  store32 (iph + ip_saddr) saddr ;;
  store8 (iph + ip_ttl) DEFAULT_TTL ;;
  let! csum := call (ipv4_csum_inline iph 0) in
  store16 (iph + ip_check) csum).

Definition create_v6_hdr (ip6h tc : Z) (saddr daddr : addr)
    (payload_len proto : Z) : func S unit := run (
  store_hi4 (ip6h + ip6_verprio) 6 ;;
  store_bytes (ip6h + ip6_flow_lbl) [0; 0; 0] ;;
  store_lo4 (ip6h + ip6_verprio) (Z.shiftr (Z.land tc 240) 4) ;;
  store8 (ip6h + ip6_flow_lbl) (Z.shiftl (Z.land tc 15) 4) ;;
  store8 (ip6h + ip6_nexthdr) proto ;;
  store16 (ip6h + ip6_payload_len) (bpf_htons payload_len) ;;
  store8 (ip6h + ip6_hop_limit) DEFAULT_TTL ;;
  store_bytes (ip6h + ip6_saddr) (addr_bytes saddr) ;;
  store_bytes (ip6h + ip6_daddr) (addr_bytes daddr)).

Definition create_udp_hdr (udph sport dport len csum : Z) : func S unit := run (
  store16 (udph + udp_source) sport ;;
  store16 (udph + udp_dest) (bpf_htons dport) ;;
  store16 (udph + udp_len) (bpf_htons len) ;;
  store16 (udph + udp_check) csum).

Definition decrement_ttl (offset : Z) (is_ipv6 : bool) : func S Z := run (
  if is_ipv6 then
    let! oob := past_end (offset + sizeof_ipv6hdr) in
    return_if oob XDP_DROP ;;
    let! hop_limit := load8 (offset + ip6_hop_limit) in
    let hop_limit := u8 (hop_limit - 1) in
    store8 (offset + ip6_hop_limit) hop_limit ;;
    return_if (hop_limit =? 0) XDP_DROP ;;
    ret FURTHER_PROCESSING
  else
    let! oob := past_end (offset + sizeof_iphdr) in
    return_if oob XDP_DROP ;;
    let! ttl := load8 (offset + ip_ttl) in
    let ttl := u8 (ttl - 1) in
    store8 (offset + ip_ttl) ttl ;;
    return_if (ttl =? 0) XDP_DROP ;;
    let! check := load16 (offset + ip_check) in
    let csum := u32 (check + 1) in
    store16 (offset + ip_check) (Z.land csum 65535 + Z.shiftr csum 16) ;;
    ret FURTHER_PROCESSING).
End headers.

(** ** What the routines build *)

(** An IPv4 header without options, [id] being the two bytes the code leaves
    as they are. *)
Definition v4_hdr (id : list Z) (tos saddr daddr tot_len proto check : Z) : list Z :=
  69 :: u8 tos :: reverse (le_bytes 2 tot_len) ++ id ++ [0; 0; DEFAULT_TTL; u8 proto] ++
  le_bytes 2 check ++ le_bytes 4 saddr ++ le_bytes 4 daddr.

(** An IPv6 header with the traffic class [tc] and a zero flow label. *)
Definition v6_hdr (tc : Z) (saddr daddr : addr) (payload_len proto : Z) : list Z :=
  [96 + Z.shiftr (Z.land tc 240) 4; Z.shiftl (Z.land tc 15) 4; 0; 0] ++
  reverse (le_bytes 2 payload_len) ++ [u8 proto; DEFAULT_TTL] ++
  addr_bytes saddr ++ addr_bytes daddr.

Definition udp_hdr (sport dport len csum : Z) : list Z :=
  le_bytes 2 sport ++ reverse (le_bytes 2 dport) ++ reverse (le_bytes 2 len) ++
  le_bytes 2 csum.

Section headers_theory.
Context {S : Type} `{PktStateLaws S}.
Implicit Types (s : S).

(** The byte list of a header of known length, one variable per byte. *)
Lemma v4_hdr_length id tos saddr daddr len proto check :
  length id = 2%nat → length (v4_hdr id tos saddr daddr len proto check) = 20%nat.
Proof. intros Hid. unfold v4_hdr. simpl. rewrite length_app, Hid. done. Qed.

Lemma wp_create_v4_hdr iph tos saddr daddr pkt_bytes proto (Q : unit → S → Prop) s :
  0 ≤ iph → iph + 20 ≤ pkt_len s → bytes_ok (get_pkt s) →
  (∀ check, 0 ≤ check < 2 ^ 16 →
     let h := v4_hdr (slice (Z.to_nat iph + 4) 2 (get_pkt s)) tos saddr daddr
                (pkt_bytes + 20) proto check in
     csum_ok h → Q tt (set_pkt (splice (Z.to_nat iph) h (get_pkt s)) s)) →
  wpf (create_v4_hdr iph tos saddr daddr pkt_bytes proto) Q s.
Proof.
  intros Hi Hl Hb HQ. unfold create_v4_hdr, store_hi4, store_lo4.
  destruct (region_exists s (Z.to_nat iph) 20) as (pre&h&post&Hm&Hpre&Hh&Hs&Hsl&Hsp);
    [unfold pkt_len in *; lia|].
  rewrite Hs. list_explicit h.
  autounfold with katran. repeat region_step iph.
  rewrite Hm in Hb. bytes_split Hb. rewrite !Z.mul_0_r, !Z.add_0_r.
  rewrite set_nibbles by (done || lia).
  match goal with |- wpf _ _ (set_pkt (_ ++ ?h ++ _) _) => set (h0 := h) end.
  assert (bytes_ok h0) as Hh0 by (subst h0; bytes_solve).
  assert (length h0 = 20%nat) as Hl0 by done.
  apply wp_ipv4_csum_inline; [done|pkt_bounds|..].
  { rewrite get_set_pkt. by repeat apply Forall_app_2. }
  rewrite get_set_pkt. rewrite <-Hpre, <-(Nat.add_0_r (length pre)), slice_region by done.
  change (slice 0 20 h0) with h0.
  intros c Hc Hsum. subst h0. region_step iph.
  specialize (HQ c Hc). cbv zeta in HQ.
  replace (slice (Z.to_nat iph + 4) 2 (get_pkt s)) with [b3; b4] in HQ
    by by rewrite Hm, <-Hpre, slice_region by (simpl; lia).
  rewrite Hsp in HQ by done. apply HQ.
  pose proof (le_val_bytes 2 c) as Hc2. rewrite Z.mod_small in Hc2 by done.
  simpl in Hc2.
  eapply (csum_ok_intro _ c); [|exact Hsum].
  unfold v4_hdr, u8, DEFAULT_TTL, reverse. change (2 ^ 8) with 256. simpl.
  change (0 / 256) with 0. change (0 mod 256) with 0. change (64 mod 256) with 64.
  revert Hc2. generalize (c mod 256) ((c / 256) mod 256). intros; subst c. ring.
Qed.

Lemma tc_nibbles tc : is_byte tc →
  0 ≤ Z.shiftr (Z.land tc 240) 4 < 16 ∧ is_byte (Z.shiftl (Z.land tc 15) 4).
Proof.
  intros Htc. pose proof (forall_range 256 (λ tc,
    (0 <=? Z.shiftr (Z.land tc 240) 4) && (Z.shiftr (Z.land tc 240) 4 <? 16) &&
    (0 <=? Z.shiftl (Z.land tc 15) 4) && (Z.shiftl (Z.land tc 15) 4 <? 256))
    ltac:(vm_compute; done) tc Htc) as H'. cbv beta in H'.
  rewrite !andb_true_iff, !Z.leb_le, !Z.ltb_lt in H'. unfold is_byte. lia.
Qed.

Lemma wp_create_v6_hdr ip6h tc saddr daddr payload_len proto (Q : unit → S → Prop) s :
  0 ≤ ip6h → ip6h + 40 ≤ pkt_len s → bytes_ok (get_pkt s) → is_byte tc →
  Q tt (set_pkt (splice (Z.to_nat ip6h)
    (v6_hdr tc saddr daddr payload_len proto) (get_pkt s)) s) →
  wpf (create_v6_hdr ip6h tc saddr daddr payload_len proto) Q s.
Proof.
  intros Hi Hl Hb Htc HQ. unfold create_v6_hdr, store_hi4, store_lo4.
  destruct (region_exists s (Z.to_nat ip6h) 40) as (pre&h&post&Hm&Hpre&Hh&Hs&Hsl&Hsp);
    [unfold pkt_len in *; lia|].
  rewrite Hsp in HQ by done. rewrite Hs. clear Hs Hsl Hsp. list_explicit h.
  autounfold with katran. cbv [addr_bytes].
  repeat region_step ip6h. rewrite Hm in Hb. bytes_split Hb.
  destruct (tc_nibbles tc Htc) as [Hn Hn'].
  rewrite !Z.mul_0_r, !Z.add_0_r, set_nibbles by (done || lia).
  rewrite (Z.mod_small _ 256 Hn'). exact HQ.
Qed.

Lemma wp_create_udp_hdr udph sport dport len csum (Q : unit → S → Prop) s :
  0 ≤ udph → udph + 8 ≤ pkt_len s →
  Q tt (set_pkt (splice (Z.to_nat udph) (udp_hdr sport dport len csum) (get_pkt s)) s) →
  wpf (create_udp_hdr udph sport dport len csum) Q s.
Proof.
  intros Hi Hl HQ. unfold create_udp_hdr.
  destruct (region_exists s (Z.to_nat udph) 8) as (pre&h&post&Hm&Hpre&Hh&Hs&Hsl&Hsp);
    [unfold pkt_len in *; lia|].
  rewrite Hsp in HQ by done. rewrite Hs. list_explicit h.
  autounfold with katran. repeat region_step udph. exact HQ.
Qed.

(** What [decrement_ttl] does to an IPv4 header of [h] bytes. *)
Lemma wp_decrement_ttl_v4 off (Q : Z → S → Prop) s h :
  0 ≤ off → off + 20 ≤ pkt_len s → bytes_ok (get_pkt s) →
  slice (Z.to_nat off) 20 (get_pkt s) = h →
  (h !! 8%nat = Some 1 → ∀ h', length h' = 20%nat →
     Q XDP_DROP (set_pkt (splice (Z.to_nat off) h' (get_pkt s)) s)) →
  (∀ t check, h !! 8%nat = Some t → t ≠ 1 →
     0 ≤ check < 2 ^ 16 → check ≅ le_val (slice 10 2 h) + 1 →
     let h' := splice 10 (le_bytes 2 check) (splice 8 [u8 (t - 1)] h) in
     sum16 h' ≅ sum16 h + (if t =? 0 then 256 else 0) →
     Q FURTHER_PROCESSING (set_pkt (splice (Z.to_nat off) h' (get_pkt s)) s)) →
  wpf (decrement_ttl off false) Q s.
Proof.
  intros Hi Hl Hb Heq Hdrop Hgo. unfold decrement_ttl.
  destruct (region_exists s (Z.to_nat off) 20) as (pre&h0&post&Hm&Hpre&Hh&Hs&Hsl&Hsp);
    [unfold pkt_len in *; lia|].
  rewrite Heq in Hsl. subst h0. rewrite Hs. clear Heq.
  list_explicit h. autounfold with katran. wp_step. apply wp_bind, wp_past_end.
  apply wp_bind, wp_return_if.
  { intros Hlt%Z.ltb_lt. rewrite <-Hs in Hlt. lia. }
  intros _. rewrite Hm in Hb. bytes_split Hb.
  assert (is_byte b7) as Ht by done.
  repeat region_step off; rewrite ?Z.mul_0_r, ?Z.add_0_r in *.
  - rewrite <-Hsp by done. apply Hdrop; [|done]. simpl in *. rewrite Z.add_0_r in H1.
    rewrite u8_pred in H1 by done. f_equal. unfold is_byte in Ht.
    destruct (Z.eqb_spec b7 0); lia.
  - assert (u32 (b9 + 256 * b10 + 1) = b9 + 256 * b10 + 1) as ->
      by (apply u32_id; unfold is_byte in *; lia).
    destruct (fold_once (b9 + 256 * b10 + 1)) as [Hr He]; [unfold is_byte in *; lia|].
    set (check := Z.land _ _ + _) in *. clearbody check.
    specialize (Hgo b7 check eq_refl). cbv zeta in Hgo. rewrite Hsp in Hgo by done.
    simpl in H1. rewrite Z.add_0_r in H1.
    assert (u8 (b7 - 1) mod 256 = u8 (b7 - 1)) as Hu by (apply Z.mod_small, u8_range).
    rewrite Hu. apply Hgo; [by intros ->|done| |].
    + simpl. by rewrite Z.mul_0_r, Z.add_0_r.
    + rewrite u8_pred by done. pose proof (le_val_bytes 2 check) as Hc.
      rewrite Z.mod_small in Hc by done. simpl in Hc.
      cbv [splice slice take drop app length Nat.leb Nat.add le_bytes].
      transitivity (check + (b + 256 * b0 + b1 + 256 * b2 + b3 + 256 * b4 + b5 + 256 * b6
        + (if b7 =? 0 then 255 else b7 - 1) + 256 * b8 + b11 + 256 * b12 + b13 + 256 * b14
        + b15 + 256 * b16 + b17 + 256 * b18)).
      { apply eqm_eq. simpl. rewrite <-Hc at 3. ring. }
      rewrite He. apply eqm_eq. simpl. destruct (b7 =? 0) eqn:E; [|lia].
      apply Z.eqb_eq in E. lia.
Qed.
End headers_theory.
