(* ===== verification/FlowDebug.v ===== *)
(** * Flow debugging ([flow_debug_helpers.h])

    Under [RECORD_FLOW_INFO] the GUE decapsulation reads the addresses of the
    outer and inner headers.  The lookup of the per-CPU debug map and the
    update that would store the record are commented out in the source, so the
    record is computed and discarded: [gue_route] is the record,
    [gue_record_route] the function. *)
From S2P Require Import Prelude Words Consts Structs.
Open Scope c_scope.

Section flow_debug.
Context {S : Type} `{PktState S}.

Definition load_addr {R} (off : Z) : body S R addr :=
  let! bs := load_bytes off 16 in ret (addr_of_bytes bs).

Definition get_next_ports (transport_hdr proto : Z) : func S Z := run (
  if proto =? IPPROTO_UDP then
    let! oob := past_end (transport_hdr + sizeof_udphdr) in
    if oob then ret 0 else
    let! dest := load16 (transport_hdr + udp_dest) in
    let! source := load16 (transport_hdr + udp_source) in
    ret (Z.lor (u32 (Z.shiftl (bpf_ntohs dest) 16)) (bpf_ntohs source))
  else if proto =? IPPROTO_TCP then
    let! oob := past_end (transport_hdr + sizeof_tcphdr) in
    if oob then ret 0 else
    let! dest := load16 (transport_hdr + tcp_dest) in
    let! source := load16 (transport_hdr + tcp_source) in
    ret (Z.lor (u32 (Z.shiftl (bpf_ntohs dest) 16)) (bpf_ntohs source))
  else ret 0).

(** [flow.ports = ports], through the union. *)
Definition set_ports (x : Z) (f : flow_key) : flow_key :=
  FlowKey (srcv6 f) (dstv6 f) (x mod 2 ^ 16) (x / 2 ^ 16) (proto f).

Definition gue_route (outer_eth inner_eth : Z) (outer_v4 inner_v4 : bool) :
    func S (option (flow_key * flow_debug_info)) := run (
  let! debug_info :=
    if outer_v4 then
      let! oob := past_end (outer_eth + sizeof_ethhdr + sizeof_iphdr) in
      return_if oob None ;;
      let ip4h := outer_eth + sizeof_ethhdr in
      let! saddr := load32 (ip4h + ip_saddr) in
      let! daddr := load32 (ip4h + ip_daddr) in
      ret (FlowDebugInfo (set_w0 saddr addr_zero) (set_w0 daddr addr_zero))
    else
      let! oob := past_end (outer_eth + sizeof_ethhdr + sizeof_ipv6hdr) in
      return_if oob None ;;
      let ip6h := outer_eth + sizeof_ethhdr in
      let! saddr := load_addr (ip6h + ip6_saddr) in
      let! daddr := load_addr (ip6h + ip6_daddr) in
      ret (FlowDebugInfo saddr daddr) in
  if inner_v4 then
    let! oob := past_end (inner_eth + sizeof_ethhdr + sizeof_iphdr) in
    return_if oob None ;;
    let ip4h := inner_eth + sizeof_ethhdr in
    let transport_header := inner_eth + sizeof_ethhdr + sizeof_iphdr in
    let! saddr := load32 (ip4h + ip_saddr) in
    let! daddr := load32 (ip4h + ip_daddr) in
    let! protocol := load8 (ip4h + ip_protocol) in
    let! ports := call (get_next_ports transport_header protocol) in
    ret (Some (set_ports ports (FlowKey (set_w0 saddr addr_zero)
      (set_w0 daddr addr_zero) 0 0 protocol), debug_info))
  else
    let! oob := past_end (inner_eth + sizeof_ethhdr + sizeof_ipv6hdr) in
    return_if oob None ;;
    let ip6h := inner_eth + sizeof_ethhdr in
    let transport_header := inner_eth + sizeof_ethhdr + sizeof_ipv6hdr in
    let! saddr := load_addr (ip6h + ip6_saddr) in
    let! daddr := load_addr (ip6h + ip6_daddr) in
    let! nexthdr := load8 (ip6h + ip6_nexthdr) in
    let! ports := call (get_next_ports transport_header nexthdr) in
    ret (Some (set_ports ports (FlowKey saddr daddr 0 0 nexthdr), debug_info))).

Definition gue_record_route (outer_eth inner_eth : Z) (outer_v4 inner_v4 : bool) :
    func S unit := run (
  let! _ := call (gue_route outer_eth inner_eth outer_v4 inner_v4) in
  ret tt).
End flow_debug.

Section flow_debug_theory.
Context {S : Type} `{PktStateLaws S}.

Lemma wp_load_addr {R} off (QR : R → S → Prop) (QN : addr → S → Prop) s :
  0 ≤ off → off + 16 ≤ pkt_len s →
  QN (addr_of_bytes (slice (Z.to_nat off) 16 (get_pkt s))) s →
  wpb (load_addr off) QR QN s.
Proof. intros. apply wp_bind, wp_load_bytes; [done|lia|]. by apply wp_ret. Qed.

Ltac ro_step :=
  first
    [ wp_step
    | apply wp_past_end; cbv beta
    | apply wp_load_addr; [lia|lia|cbv beta]
    | apply wp_load; [lia|lia|cbv beta] ].

Lemma wp_get_next_ports th proto (Q : Z → S → Prop) s :
  0 ≤ th → (∀ x, Q x s) → wpf (get_next_ports th proto) Q s.
Proof.
  intros Hth HQ. unfold get_next_ports. autounfold with katran.
  repeat (ro_step || rewrite ?Z.ltb_ge in *); apply HQ.
Qed.

(** Recording a route reads the packet inside its bounds and changes
    nothing. *)
Lemma wp_gue_record_route outer inner o4 i4 (Q : unit → S → Prop) s :
  0 ≤ outer → 0 ≤ inner → Q tt s →
  wpf (gue_record_route outer inner o4 i4) Q s.
Proof.
  intros Ho Hi HQ. unfold gue_record_route, gue_route. autounfold with katran.
  destruct o4, i4;
    repeat (ro_step || (apply wp_get_next_ports; [lia|intros ?; cbv beta])
            || rewrite ?Z.ltb_ge in *); exact HQ.
Qed.
End flow_debug_theory.
