(* ===== verification/Encap.v ===== *)
(** * Encapsulation and decapsulation ([pckt_encap.h])

    IPIP and GUE tunnels: [encap_*] push outer headers in front of the
    client's IP packet, [decap_*] remove them.  All work on the packet of
    [xstate] through [bpf_xdp_adjust_head] and repeat the bounds checks after
    every move of [xdp->data]. *)
From S2P Require Import Prelude Words Consts Structs Csum Headers FlowDebug.
Open Scope c_scope.

Section encap.
Context {K : Type} `{BpfEnv K} `{BuildConfig}.

Definition encap_v6 (cval : ctl_value) (is_ipv6 : bool) (dst : real_definition)
    (pkt_bytes : Z) : func (xstate K) bool := run (
  let! err := xdp_adjust_head (0 - sizeof_ipv6hdr) in
  return_if err false ;;
  let new_eth := 0 in
  let ip6h := sizeof_ethhdr in
  let old_eth := sizeof_ipv6hdr in
  let! oob1 := past_end (new_eth + sizeof_ethhdr) in
  let! oob2 := past_end (old_eth + sizeof_ethhdr) in
  let! oob3 := past_end (ip6h + sizeof_ipv6hdr) in
  return_if (oob1 || oob2 || oob3) false ;;
  store_bytes (new_eth + eth_h_dest) (ctl_mac cval) ;;
  copy_bytes (new_eth + eth_h_source) (old_eth + eth_h_dest) 6 ;;
  store16 (new_eth + eth_h_proto) BE_ETH_P_IPV6 ;;
  let! p := gets pckt in
  let '(proto, ip_suffix, payload_len) :=
    if is_ipv6 then
      (IPPROTO_IPV6, Z.lxor (w3 (srcv6 (flow p))) (port16_0 (flow p)),
       u16 (pkt_bytes + sizeof_ipv6hdr))
    else
      (IPPROTO_IPIP, Z.lxor (w0 (srcv6 (flow p))) (port16_0 (flow p)),
       u16 pkt_bytes) in
  let saddr := Addr IPIP_V6_PREFIX1 IPIP_V6_PREFIX2 IPIP_V6_PREFIX3 ip_suffix in
  call (create_v6_hdr ip6h (tos p) saddr (real_dst dst) payload_len proto) ;;
  ret true).

(** [ip_suffix = bpf_htons(port16[0]); ip_suffix <<= 16; ip_suffix ^= src],
    and the outer source address made from it. *)
Definition ipip_v4_suffix (f : flow_key) : Z :=
  Z.lxor (u32 (Z.shiftl (bpf_htons (port16_0 f)) 16)) (w0 (srcv6 f)).
Definition ipip_v4_saddr (f : flow_key) : Z :=
  Z.lor (Z.land 4294901760 (ipip_v4_suffix f)) IPIP_V4_PREFIX.

Definition encap_v4 (cval : ctl_value) (dst : real_definition)
    (pkt_bytes : Z) : func (xstate K) bool := run (
  let! p := gets pckt in
  let! err := xdp_adjust_head (0 - sizeof_iphdr) in
  return_if err false ;;
  let new_eth := 0 in
  let iph := sizeof_ethhdr in
  let old_eth := sizeof_iphdr in
  let! oob1 := past_end (new_eth + sizeof_ethhdr) in
  let! oob2 := past_end (old_eth + sizeof_ethhdr) in
  let! oob3 := past_end (iph + sizeof_iphdr) in
  return_if (oob1 || oob2 || oob3) false ;;
  store_bytes (new_eth + eth_h_dest) (ctl_mac cval) ;;
  copy_bytes (new_eth + eth_h_source) (old_eth + eth_h_dest) 6 ;;
  store16 (new_eth + eth_h_proto) BE_ETH_P_IP ;;
  call (create_v4_hdr iph (tos p) (ipip_v4_saddr (flow p)) (w0 (real_dst dst))
          (u16 pkt_bytes) IPPROTO_IPIP) ;;
  ret true).

Definition decap_v6 (inner_v4 : bool) : func (xstate K) bool := run (
  let old_eth := 0 in
  let new_eth := sizeof_ipv6hdr in
  copy_bytes (new_eth + eth_h_source) (old_eth + eth_h_source) 6 ;;
  copy_bytes (new_eth + eth_h_dest) (old_eth + eth_h_dest) 6 ;;
  store16 (new_eth + eth_h_proto) (if inner_v4 then BE_ETH_P_IP else BE_ETH_P_IPV6) ;;
  let! err := xdp_adjust_head sizeof_ipv6hdr in
  return_if err false ;;
  ret true).

Definition decap_v4 : func (xstate K) bool := run (
  let old_eth := 0 in
  let new_eth := sizeof_iphdr in
  copy_bytes (new_eth + eth_h_source) (old_eth + eth_h_source) 6 ;;
  copy_bytes (new_eth + eth_h_dest) (old_eth + eth_h_dest) 6 ;;
  store16 (new_eth + eth_h_proto) BE_ETH_P_IP ;;
  let! err := xdp_adjust_head sizeof_iphdr in
  return_if err false ;;
  ret true).

(** The outer UDP checksum from the inner transport checksum: the result
    and the final value of [*csum] (0 when it is not computed). *)
Definition gue_csum (outer_v6 inner_v6 : bool) : func (xstate K) (bool * Z) := run (
  let outer_ip_off := sizeof_ethhdr in
  let udp_hdr_off :=
    if outer_v6 then outer_ip_off + sizeof_ipv6hdr else outer_ip_off + sizeof_iphdr in
  let inner_ip_off := udp_hdr_off + sizeof_udphdr in
  let inner_transport_off :=
    if inner_v6 then inner_ip_off + sizeof_ipv6hdr else inner_ip_off + sizeof_iphdr in
  let! oob := past_end inner_transport_off in
  return_if oob (false, 0) ;;
  let! p := gets pckt in
  let! csum :=
    if proto (flow p) =? IPPROTO_UDP then
      let! oob := past_end (inner_transport_off + sizeof_udphdr) in
      return_if oob (false, 0) ;;
      load16 (inner_transport_off + udp_check)
    else if proto (flow p) =? IPPROTO_TCP then
      let! oob := past_end (inner_transport_off + sizeof_tcphdr) in
      return_if oob (false, 0) ;;
      load16 (inner_transport_off + tcp_check)
    else return_ (false, 0) in
  if inner_v6 then
    let! oob1 := past_end (outer_ip_off + sizeof_ipv6hdr) in
    let! oob2 := past_end (udp_hdr_off + sizeof_udphdr) in
    let! oob3 := past_end (inner_ip_off + sizeof_ipv6hdr) in
    return_if (oob1 || oob2 || oob3) (false, csum) ;;
    call (gue_csum_v6 outer_ip_off udp_hdr_off inner_ip_off csum)
  else if outer_v6 then
    let! oob1 := past_end (outer_ip_off + sizeof_ipv6hdr) in
    let! oob2 := past_end (udp_hdr_off + sizeof_udphdr) in
    let! oob3 := past_end (inner_ip_off + sizeof_iphdr) in
    return_if (oob1 || oob2 || oob3) (false, csum) ;;
    call (gue_csum_v4_in_v6 outer_ip_off udp_hdr_off inner_ip_off csum)
  else
    let! oob1 := past_end (outer_ip_off + sizeof_iphdr) in
    let! oob2 := past_end (udp_hdr_off + sizeof_udphdr) in
    let! oob3 := past_end (inner_ip_off + sizeof_iphdr) in
    return_if (oob1 || oob2 || oob3) (false, csum) ;;
    call (gue_csum_v4 outer_ip_off udp_hdr_off inner_ip_off csum)).

Definition gue_encap_v4 (cval : ctl_value) (dst : real_definition)
    (pkt_bytes : Z) : func (xstate K) bool := run (
  let! p := gets pckt in
  let sport := bpf_htons (port16_0 (flow p)) in
  let! src := gets (λ s, pckt_srcs (ctl s) !! V4_SRC_INDEX) in
  let! src := or_return src false in
  let ipv4_src := w0 (real_dst src) in
  let sport := Z.lxor sport (Z.land (Z.shiftr (w0 (srcv6 (flow p))) 16) 65535) in
  let! err := xdp_adjust_head (0 - (sizeof_iphdr + sizeof_udphdr)) in
  return_if err false ;;
  let new_eth := 0 in
  let iph := sizeof_ethhdr in
  let udph := iph + sizeof_iphdr in
  let old_eth := sizeof_iphdr + sizeof_udphdr in
  let! oob1 := past_end (new_eth + sizeof_ethhdr) in
  let! oob2 := past_end (old_eth + sizeof_ethhdr) in
  let! oob3 := past_end (iph + sizeof_iphdr) in
  let! oob4 := past_end (udph + sizeof_udphdr) in
  return_if (oob1 || oob2 || oob3 || oob4) false ;;
  store_bytes (new_eth + eth_h_dest) (ctl_mac cval) ;;
  copy_bytes (new_eth + eth_h_source) (old_eth + eth_h_dest) 6 ;;
  store16 (new_eth + eth_h_proto) BE_ETH_P_IP ;;
  call (create_udp_hdr udph sport GUE_DPORT (u16 (pkt_bytes + sizeof_udphdr)) 0) ;;
  call (create_v4_hdr iph (tos p) ipv4_src (w0 (real_dst dst))
          (u16 (pkt_bytes + sizeof_udphdr)) IPPROTO_UDP) ;;
  let! (ok, csum) := call (gue_csum false false) in
  when ok (store16 (udph + udp_check) (Z.land csum 65535)) ;;
  ret true).

Definition gue_encap_v6 (cval : ctl_value) (is_ipv6 : bool) (dst : real_definition)
    (pkt_bytes : Z) : func (xstate K) bool := run (
  let! src := gets (λ s, pckt_srcs (ctl s) !! V6_SRC_INDEX) in
  let! src := or_return src false in
  let! err := xdp_adjust_head (0 - (sizeof_ipv6hdr + sizeof_udphdr)) in
  return_if err false ;;
  let new_eth := 0 in
  let ip6h := sizeof_ethhdr in
  let udph := ip6h + sizeof_ipv6hdr in
  let old_eth := sizeof_ipv6hdr + sizeof_udphdr in
  let! oob1 := past_end (new_eth + sizeof_ethhdr) in
  let! oob2 := past_end (old_eth + sizeof_ethhdr) in
  let! oob3 := past_end (ip6h + sizeof_ipv6hdr) in
  let! oob4 := past_end (udph + sizeof_udphdr) in
  return_if (oob1 || oob2 || oob3 || oob4) false ;;
  store_bytes (new_eth + eth_h_dest) (ctl_mac cval) ;;
  copy_bytes (new_eth + eth_h_source) (old_eth + eth_h_dest) 6 ;;
  store16 (new_eth + eth_h_proto) BE_ETH_P_IPV6 ;;
  let! p := gets pckt in
  let '(sport, pkt_bytes) :=
    if is_ipv6 then
      (Z.lxor (Z.land (w3 (srcv6 (flow p))) 65535) (port16_0 (flow p)),
       u32 (pkt_bytes + (sizeof_ipv6hdr + sizeof_udphdr)))
    else
      (Z.lxor (Z.land (Z.shiftr (w0 (srcv6 (flow p))) 16) 65535) (port16_0 (flow p)),
       u32 (pkt_bytes + sizeof_udphdr)) in
  call (create_udp_hdr udph sport GUE_DPORT (u16 pkt_bytes) 0) ;;
  call (create_v6_hdr ip6h (tos p) (real_dst src) (real_dst dst)
          (u16 pkt_bytes) IPPROTO_UDP) ;;
  let! (ok, csum) := call (gue_csum true is_ipv6) in
  when ok (store16 (udph + udp_check) (Z.land csum 65535)) ;;
  ret true).

(** [RECORD_GUE_ROUTE]: a no-op unless flow recording is compiled in. *)
Definition RECORD_GUE_ROUTE (old_eth new_eth : Z) (outer_v4 inner_v4 : bool) :
    func (xstate K) unit := run (
  when RECORD_FLOW_INFO (call (gue_record_route old_eth new_eth outer_v4 inner_v4))).

Definition gue_decap_v4 : func (xstate K) bool := run (
  let old_eth := 0 in
  let new_eth := sizeof_iphdr + sizeof_udphdr in
  call (RECORD_GUE_ROUTE old_eth new_eth true true) ;;
  copy_bytes (new_eth + eth_h_source) (old_eth + eth_h_source) 6 ;;
  copy_bytes (new_eth + eth_h_dest) (old_eth + eth_h_dest) 6 ;;
  store16 (new_eth + eth_h_proto) BE_ETH_P_IP ;;
  let! err := xdp_adjust_head (sizeof_iphdr + sizeof_udphdr) in
  return_if err false ;;
  ret true).

Definition gue_decap_v6 (inner_v4 : bool) : func (xstate K) bool := run (
  let old_eth := 0 in
  let new_eth := sizeof_ipv6hdr + sizeof_udphdr in
  call (RECORD_GUE_ROUTE old_eth new_eth false inner_v4) ;;
  copy_bytes (new_eth + eth_h_source) (old_eth + eth_h_source) 6 ;;
  copy_bytes (new_eth + eth_h_dest) (old_eth + eth_h_dest) 6 ;;
  store16 (new_eth + eth_h_proto) (if inner_v4 then BE_ETH_P_IP else BE_ETH_P_IPV6) ;;
  let! err := xdp_adjust_head (sizeof_ipv6hdr + sizeof_udphdr) in
  return_if err false ;;
  ret true).
End encap.
