(* ===== verification/Parsing.v ===== *)
(** * Packet parsing ([pckt_parsing.h])

    Transport-header parsing into the caller's [packet_description], the
    search for a server id in the TCP options, and the routing id of a QUIC
    connection id.  Also the LRU connection tables, which the server-id lookup
    updates. *)
From S2P Require Import Prelude Words Consts Structs.
Open Scope c_scope.

(** ** Connection tables

    The [lru_map] pointers of the code: the per-CPU table found in
    [lru_mapping], or [fallback_cache]. *)
Inductive lru_ref : Type :=
| LruCpu (cpu : Z)
| LruFallback.

Section lru.
Context {K : Type} `{BpfEnv K}.
Implicit Types s : xstate K.

Definition get_lru (r : lru_ref) s : lru_table :=
  match r with
  | LruCpu cpu => default ∅ (lru_mapping s !! cpu)
  | LruFallback => fallback_cache s
  end.
Definition set_lru (r : lru_ref) (t : lru_table) s : xstate K :=
  match r with
  | LruCpu cpu => with_lru_mapping (<[cpu := t]> (lru_mapping s)) s
  | LruFallback => with_fallback_cache t s
  end.

(** [bpf_map_lookup_elem(lru_map, &pckt->flow)] *)
Definition lru_lookup {R} (r : lru_ref) (f : flow_key) :
    body (xstate K) R (option real_pos_lru) := gets (λ s, get_lru r s !! f).
(** A store through the pointer a lookup returned. *)
Definition lru_write {R} (r : lru_ref) (f : flow_key)
    (g : real_pos_lru → real_pos_lru) : body (xstate K) R unit :=
  modify (λ s, set_lru r (alter g f (get_lru r s)) s).
(** [bpf_map_update_elem(lru_map, &pckt->flow, &v, BPF_ANY)] *)
Definition lru_update {R} (r : lru_ref) (f : flow_key) (v : real_pos_lru) :
    body (xstate K) R unit :=
  λ s, let '(t, k) := lru_hash_update f v (get_lru r s) (kern s) in
       Next tt (set_lru r t (with_kern k s)).
End lru.

Definition set_pos (i : Z) (v : real_pos_lru) : real_pos_lru := RealPosLru i (atime v).
Definition set_atime (t : Z) (v : real_pos_lru) : real_pos_lru := RealPosLru (pos v) t.

(** ** Header layouts and parser state *)

(** [struct quic_long_header] and [struct quic_short_header], packed. *)
Definition sizeof_quic_long_header : Z := 6 + QUIC_MIN_CONNID_LEN.
Definition quic_long_conn_id_lens : Z := 5.
Definition quic_long_dst_connection_id : Z := 6.
Definition sizeof_quic_short_header : Z := 1 + QUIC_MIN_CONNID_LEN.
Definition quic_short_connection_id : Z := 1.

Record hdr_opt_state : Type := HdrOptState {
  server_id : Z; byte_offset : Z; hdr_bytes_remaining : Z
}.

Definition calc_offset (is_ipv6 is_icmp : bool) : Z :=
  let off := sizeof_ethhdr in
  if is_ipv6 then
    let off := off + sizeof_ipv6hdr in
    if is_icmp then off + (sizeof_icmp6hdr + sizeof_ipv6hdr) else off
  else
    let off := off + sizeof_iphdr in
    if is_icmp then off + (sizeof_icmphdr + sizeof_iphdr) else off.

Section parsing.
Context {K : Type} `{BpfEnv K}.

Definition parse_udp (is_ipv6 : bool) : func (xstate K) bool := run (
  let! p := gets pckt in
  let is_icmp := has_flag (pflags p) F_ICMP in
  let off := calc_offset is_ipv6 is_icmp in
  let! oob := past_end (off + sizeof_udphdr) in
  return_if oob false ;;
  let! source := load16 (off + udp_source) in
  let! dest := load16 (off + udp_dest) in
  (if negb is_icmp then
     upd_flow (set_sport source) ;;
     upd_flow (set_dport dest)
   else
     upd_flow (set_sport dest) ;;
     upd_flow (set_dport source)) ;;
  ret true).

Definition parse_tcp (is_ipv6 : bool) : func (xstate K) bool := run (
  let! p := gets pckt in
  let is_icmp := has_flag (pflags p) F_ICMP in
  let off := calc_offset is_ipv6 is_icmp in
  let! oob := past_end (off + sizeof_tcphdr) in
  return_if oob false ;;
  let! flags := load8 (off + tcp_flags) in
  when (Z.testbit flags 1)
    (upd_pckt (λ p, set_pflags (Z.lor (pflags p) F_SYN_SET) p)) ;;
  let! source := load16 (off + tcp_source) in
  let! dest := load16 (off + tcp_dest) in
  (if negb is_icmp then
     upd_flow (set_sport source) ;;
     upd_flow (set_dport dest)
   else
     upd_flow (set_sport dest) ;;
     upd_flow (set_dport source)) ;;
  ret true).

(** The option at [byte_offset]: 1 found, 0 go on, -1 stop, with the updated
    [*state].  The fields are [__u8]. *)
Definition parse_hdr_opt (st : hdr_opt_state) :
    func (xstate K) (Z * hdr_opt_state) := run (
  let tcp_opt := byte_offset st in
  let! oob := past_end (tcp_opt + 1) in
  return_if oob (-1, st) ;;
  let! kind := load8 tcp_opt in
  return_if (kind =? TCP_OPT_EOL) (-1, st) ;;
  return_if (kind =? TCP_OPT_NOP)
    (0, HdrOptState (server_id st) (u8 (byte_offset st + 1))
          (u8 (hdr_bytes_remaining st - 1))) ;;
  let! oob := past_end (tcp_opt + 1 + 1) in
  return_if ((hdr_bytes_remaining st <? 2) || oob) (-1, st) ;;
  let! hdr_len := load8 (tcp_opt + 1) in
  return_if (hdr_bytes_remaining st <? hdr_len) (-1, st) ;;
  if kind =? TCP_HDR_OPT_KIND_TPR then
    return_if (negb (hdr_len =? TCP_HDR_OPT_LEN_TPR)) (-1, st) ;;
    let! oob := past_end (tcp_opt + TCP_HDR_OPT_LEN_TPR) in
    return_if oob (-1, st) ;;
    let! id := load32 (tcp_opt + 2) in
    ret (1, HdrOptState id (byte_offset st) (hdr_bytes_remaining st))
  else
    ret (0, HdrOptState (server_id st) (u8 (byte_offset st + hdr_len))
              (u8 (hdr_bytes_remaining st - hdr_len)))).

(** The [for] loop over the options: stops on an error, a match, or when the
    header is exhausted. *)
Fixpoint parse_hdr_opts (n : nat) (st : hdr_opt_state) :
    func (xstate K) hdr_opt_state :=
  match n with
  | O => run (ret st)
  | S n => run (
      let! (err, st) := call (parse_hdr_opt st) in
      return_if (negb (err =? 0) || (hdr_bytes_remaining st =? 0)) st ;;
      call (parse_hdr_opts n st))
  end.

(** The result and the final value of [*real] (NULL on entry). *)
Definition tcp_hdr_opt_lookup (is_ipv6 bypass_lru : bool) (lru_map : lru_ref) :
    func (xstate K) (Z * option real_definition) := run (
  let tcp_offset := calc_offset is_ipv6 false in
  let! oob := past_end (tcp_offset + sizeof_tcphdr) in
  return_if oob (FURTHER_PROCESSING, None) ;;
  let! doff_byte := load8 (tcp_offset + tcp_doff) in
  let doff := Z.shiftr doff_byte 4 in
  let tcp_hdr_opt_len := u8 (doff * 4 - sizeof_tcphdr) in
  return_if (tcp_hdr_opt_len <? TCP_HDR_OPT_LEN_TPR) (FURTHER_PROCESSING, None) ;;
  let opt_state := HdrOptState 0 (u8 (sizeof_tcphdr + tcp_offset)) tcp_hdr_opt_len in
  let! opt_state := call (parse_hdr_opts TCP_HDR_OPT_MAX_OPT_CHECKS opt_state) in
  return_if (server_id opt_state =? 0) (FURTHER_PROCESSING, None) ;;
  let! real_pos := gets (λ s, server_id_map (ctl s) !! server_id opt_state) in
  let! key := or_return real_pos (FURTHER_PROCESSING, None) in
  return_if (key =? 0) (FURTHER_PROCESSING, None) ;;
  upd_pckt (set_real_index key) ;;
  let! real := gets (λ s, reals (ctl s) !! key) in
  return_if (bool_decide (real = None)) (FURTHER_PROCESSING, None) ;;
  return_if bypass_lru (0, real) ;;
  let! p := gets pckt in
  let! dst_lru := lru_lookup lru_map (flow p) in
  match dst_lru with
  | Some _ =>
      lru_write lru_map (flow p) (set_pos key) ;;
      return_ (0, real)
  | None =>
      lru_update lru_map (flow p) (RealPosLru key 0) ;;
      ret (0, real)
  end).

Definition parse_quic (is_ipv6 : bool) : func (xstate K) Z := run (
  let! p := gets pckt in
  let is_icmp := has_flag (pflags p) F_ICMP in
  let off := calc_offset is_ipv6 is_icmp in
  let! oob := past_end (off + sizeof_udphdr + 1) in
  return_if oob FURTHER_PROCESSING ;;
  let quic_data := off + sizeof_udphdr in
  let! pkt_type := load8 quic_data in
  let! connId :=
    if Z.land pkt_type QUIC_LONG_HEADER =? QUIC_LONG_HEADER then
      let! oob := past_end (quic_data + sizeof_quic_long_header) in
      return_if oob FURTHER_PROCESSING ;;
      return_if (Z.land pkt_type QUIC_PACKET_TYPE_MASK <? QUIC_HANDSHAKE)
        FURTHER_PROCESSING ;;
      let! conn_id_lens := load8 (quic_data + quic_long_conn_id_lens) in
      return_if (conn_id_lens <? QUIC_MIN_CONNID_LEN) FURTHER_PROCESSING ;;
      ret (quic_data + quic_long_dst_connection_id)
    else
      let! oob := past_end (quic_data + sizeof_quic_short_header) in
      return_if oob FURTHER_PROCESSING ;;
      ret (quic_data + quic_short_connection_id) in
  let! c0 := load8 connId in
  let connIdVersion := Z.shiftr c0 6 in
  if connIdVersion =? QUIC_CONNID_VERSION_V1 then
    let! c1 := load8 (connId + 1) in
    let! c2 := load8 (connId + 2) in
    ret (Z.lor (Z.lor (Z.shiftl (Z.land c0 63) 10) (Z.shiftl c1 2)) (Z.shiftr c2 6))
  else if connIdVersion =? QUIC_CONNID_VERSION_V2 then
    let! c1 := load8 (connId + 1) in
    let! c2 := load8 (connId + 2) in
    let! c3 := load8 (connId + 3) in
    ret (Z.lor (Z.lor (Z.shiftl c1 16) (Z.shiftl c2 8)) c3)
  else ret FURTHER_PROCESSING).
End parsing.

#[export] Hint Unfold sizeof_quic_long_header quic_long_conn_id_lens
  quic_long_dst_connection_id sizeof_quic_short_header quic_short_connection_id
  : katran.
