(* ===== verification/Icmp.v ===== *)
(** * ICMP ([handle_icmp.h])

    Echo replies, generation of "packet too big" messages, and parsing of
    ICMP errors, whose payload is the packet of the flow they are about.
    Routines that only touch packet memory are generic in the state. *)
From S2P Require Import Prelude Words Consts Structs Csum FlowDebug.
Open Scope c_scope.

Section icmp_memory.
Context {S : Type} `{PktState S} {K : Type} `{BpfEnv K}.

Definition swap_mac_and_send : func S Z := run (
  let eth := 0 in
  let! tmp_mac := load_bytes (eth + eth_h_source) ETH_ALEN in
  copy_bytes (eth + eth_h_source) (eth + eth_h_dest) ETH_ALEN ;;
  store_bytes (eth + eth_h_dest) tmp_mac ;;
  ret XDP_TX).

Definition swap_mac (orig_eth : Z) : func S unit := run (
  let eth := 0 in
  copy_bytes (eth + eth_h_source) (orig_eth + eth_h_dest) ETH_ALEN ;;
  copy_bytes (eth + eth_h_dest) (orig_eth + eth_h_source) ETH_ALEN ;;
  copy_bytes (eth + eth_h_proto) (orig_eth + eth_h_proto) 2).

Definition send_icmp_reply : func S Z := run (
  let! oob := past_end (sizeof_ethhdr + sizeof_iphdr + sizeof_icmphdr) in
  return_if oob XDP_DROP ;;
  let off := sizeof_ethhdr in
  let iph := off in
  let off := off + sizeof_iphdr in
  let icmp_hdr := off in
  store8 (icmp_hdr + icmp_type) ICMP_ECHOREPLY ;;
  let! checksum := load16 (icmp_hdr + icmp_checksum) in
  store16 (icmp_hdr + icmp_checksum) (u16 (checksum + 8)) ;;
  store8 (iph + ip_ttl) DEFAULT_TTL ;;
  let! tmp_addr := load32 (iph + ip_daddr) in
  copy_bytes (iph + ip_daddr) (iph + ip_saddr) 4 ;;
  store32 (iph + ip_saddr) tmp_addr ;;
  store16 (iph + ip_check) 0 ;;
  let! csum := call (ipv4_csum_inline iph 0) in
  store16 (iph + ip_check) csum ;;
  call swap_mac_and_send).

Definition send_icmp6_reply : func S Z := run (
  let! oob := past_end (sizeof_ethhdr + sizeof_ipv6hdr + sizeof_icmp6hdr) in
  return_if oob XDP_DROP ;;
  let off := sizeof_ethhdr in
  let ip6h := off in
  let off := off + sizeof_ipv6hdr in
  let icmp_hdr := off in
  store8 (icmp_hdr + icmp6_type) ICMPV6_ECHO_REPLY ;;
  let! cksum := load16 (icmp_hdr + icmp6_cksum) in
  store16 (icmp_hdr + icmp6_cksum) (u16 (cksum - 1)) ;;
  store8 (ip6h + ip6_hop_limit) DEFAULT_TTL ;;
  let! tmp_addr := load_bytes (ip6h + ip6_saddr) 16 in
  copy_bytes (ip6h + ip6_saddr) (ip6h + ip6_daddr) 16 ;;
  store_bytes (ip6h + ip6_daddr) tmp_addr ;;
  call swap_mac_and_send).
End icmp_memory.

(** The two headers pushed in front of a truncated packet. *)
Definition icmp4_headroom : Z := sizeof_iphdr + sizeof_icmphdr.
Definition icmp6_headroom : Z := sizeof_ipv6hdr + sizeof_icmp6hdr.

Section icmp.
Context {K : Type} `{BpfEnv K}.

Definition send_icmp4_too_big : func (xstate K) Z := run (
  let headroom := icmp4_headroom in
  let! err := xdp_adjust_head (0 - headroom) in
  return_if err XDP_DROP ;;
  let! oob := past_end (ICMP_TOOBIG_SIZE + headroom) in
  return_if oob XDP_DROP ;;
  let orig_eth := headroom in
  call (swap_mac orig_eth) ;;
  let off := sizeof_ethhdr in
  let iph := off in
  let off := off + sizeof_iphdr in
  let icmp_hdr := off in
  let off := off + sizeof_icmphdr in
  let orig_iph := off in
  store8 (icmp_hdr + icmp_type) ICMP_DEST_UNREACH ;;
  store8 (icmp_hdr + icmp_code) ICMP_FRAG_NEEDED ;;
  store16 (icmp_hdr + icmp_un_frag_mtu) (bpf_htons (MAX_PCKT_SIZE - sizeof_ethhdr)) ;;
  store16 (icmp_hdr + icmp_checksum) 0 ;;
  let! csum := call (ipv4_csum icmp_hdr ICMP_TOOBIG_PAYLOAD_SIZE 0) in
  store16 (icmp_hdr + icmp_checksum) csum ;;
  store8 (iph + ip_ttl) DEFAULT_TTL ;;
  copy_bytes (iph + ip_daddr) (orig_iph + ip_saddr) 4 ;;
  copy_bytes (iph + ip_saddr) (orig_iph + ip_daddr) 4 ;;
  let! b := load8 (iph + ip_verihl) in
  store8 (iph + ip_verihl) (set_hi4 b 4) ;;
  let! b := load8 (iph + ip_verihl) in
  store8 (iph + ip_verihl) (set_lo4 b 5) ;;
  store8 (iph + ip_protocol) IPPROTO_ICMP ;;
  store8 (iph + ip_tos) 0 ;;
  store16 (iph + ip_tot_len) (bpf_htons (ICMP_TOOBIG_SIZE + headroom - sizeof_ethhdr)) ;;
  store16 (iph + ip_check) 0 ;;
  let! csum := call (ipv4_csum iph sizeof_iphdr 0) in
  store16 (iph + ip_check) csum ;;
  ret XDP_TX).

Definition send_icmp6_too_big : func (xstate K) Z := run (
  let headroom := icmp6_headroom in
  let! err := xdp_adjust_head (0 - headroom) in
  return_if err XDP_DROP ;;
  let! oob := past_end (ICMP6_TOOBIG_SIZE + headroom) in
  return_if oob XDP_DROP ;;
  let orig_eth := headroom in
  call (swap_mac orig_eth) ;;
  let off := sizeof_ethhdr in
  let ip6h := off in
  let off := off + sizeof_ipv6hdr in
  let icmp6_hdr := off in
  let off := off + sizeof_icmp6hdr in
  let orig_ip6h := off in
  let! b := load8 (ip6h + ip6_verprio) in
  store8 (ip6h + ip6_verprio) (set_hi4 b 6) ;;
  let! b := load8 (ip6h + ip6_verprio) in
  store8 (ip6h + ip6_verprio) (set_lo4 b 0) ;;
  store8 (ip6h + ip6_nexthdr) IPPROTO_ICMPV6 ;;
  store8 (ip6h + ip6_hop_limit) DEFAULT_TTL ;;
  store16 (ip6h + ip6_payload_len) (bpf_htons ICMP6_TOOBIG_PAYLOAD_SIZE) ;;
  store_bytes (ip6h + ip6_flow_lbl) [0; 0; 0] ;;
  copy_bytes (ip6h + ip6_daddr) (orig_ip6h + ip6_saddr) 16 ;;
  copy_bytes (ip6h + ip6_saddr) (orig_ip6h + ip6_daddr) 16 ;;
  store8 (icmp6_hdr + icmp6_type) ICMPV6_PKT_TOOBIG ;;
  store8 (icmp6_hdr + icmp6_code) 0 ;;
  store32 (icmp6_hdr + icmp6_mtu) (bpf_htonl (MAX_PCKT_SIZE - sizeof_ethhdr)) ;;
  store16 (icmp6_hdr + icmp6_cksum) 0 ;;
  let! csum := call (ipv6_csum icmp6_hdr ICMP6_TOOBIG_PAYLOAD_SIZE 0 ip6h) in
  store16 (icmp6_hdr + icmp6_cksum) csum ;;
  ret XDP_TX).

Definition send_icmp_too_big (is_ipv6 : bool) (pckt_size : Z) :
    func (xstate K) Z := run (
  let offset :=
    if is_ipv6 then pckt_size - ICMP6_TOOBIG_SIZE else pckt_size - ICMP_TOOBIG_SIZE in
  let! err := xdp_adjust_tail (0 - offset) in
  return_if err XDP_DROP ;;
  if is_ipv6 then call send_icmp6_too_big else call send_icmp4_too_big).

Definition parse_icmpv6 (off : Z) : func (xstate K) Z := run (
  let icmp_hdr := off in
  let! oob := past_end (icmp_hdr + sizeof_icmp6hdr) in
  return_if oob XDP_DROP ;;
  let! type := load8 (icmp_hdr + icmp6_type) in
  if type =? ICMPV6_ECHO_REQUEST then call send_icmp6_reply else
  return_if (negb (type =? ICMPV6_PKT_TOOBIG) && negb (type =? ICMPV6_DEST_UNREACH))
    XDP_PASS ;;
  let off := off + sizeof_icmp6hdr in
  let ip6h := off in
  let! oob := past_end (ip6h + sizeof_ipv6hdr) in
  return_if oob XDP_DROP ;;
  let! nexthdr := load8 (ip6h + ip6_nexthdr) in
  upd_flow (set_proto nexthdr) ;;
  upd_pckt (λ p, set_pflags (Z.lor (pflags p) F_ICMP) p) ;;
  let! daddr := load_addr (ip6h + ip6_daddr) in
  upd_flow (set_src daddr) ;;
  let! saddr := load_addr (ip6h + ip6_saddr) in
  upd_flow (set_dst saddr) ;;
  ret FURTHER_PROCESSING).

Definition parse_icmp (off : Z) : func (xstate K) Z := run (
  let icmp_hdr := off in
  let! oob := past_end (icmp_hdr + sizeof_icmphdr) in
  return_if oob XDP_DROP ;;
  let! type := load8 (icmp_hdr + icmp_type) in
  if type =? ICMP_ECHO then call send_icmp_reply else
  return_if (negb (type =? ICMP_DEST_UNREACH)) XDP_PASS ;;
  let off := off + sizeof_icmphdr in
  let iph := off in
  let! oob := past_end (iph + sizeof_iphdr) in
  return_if oob XDP_DROP ;;
  let! verihl := load8 (iph + ip_verihl) in
  return_if (negb (Z.land verihl 15 =? 5)) XDP_DROP ;;
  let! protocol := load8 (iph + ip_protocol) in
  upd_flow (set_proto protocol) ;;
  upd_pckt (λ p, set_pflags (Z.lor (pflags p) F_ICMP) p) ;;
  let! daddr := load32 (iph + ip_daddr) in
  upd_flow (λ f, set_src (set_w0 daddr (srcv6 f)) f) ;;
  let! saddr := load32 (iph + ip_saddr) in
  upd_flow (λ f, set_dst (set_w0 saddr (dstv6 f)) f) ;;
  ret FURTHER_PROCESSING).
End icmp.
