(* ===== verification/Frame.v ===== *)
(** * Frames: what a call may change

    [MemFrame S] is the interface between the routines that write packets and
    the programs that call them: a preorder [frame] on program states that
    every change of packet contents respects.  [keeps f P s] and
    [safe f P s] say that a call of [f] in [s] has a result ([f] reads and
    writes inside its objects), stays in the frame and returns a value
    satisfying [P]; [keeps] also that the packet keeps its length.  The tactic
    [safe_steps] symbolically executes a routine with the lemmas of the hint
    database [safe]. *)
From S2P Require Import Prelude Words Consts Structs.
Open Scope c_scope.

Class MemFrame (S : Type) `{PktState S} : Type := {
  frame : S → S → Prop;
  frame_preorder : PreOrder frame;
  frame_set_pkt m s : frame s (set_pkt m s)
}.
#[export] Existing Instance frame_preorder.

Section frame.
Context {S : Type} `{PktStateLaws S} `{!MemFrame S}.

Definition keeps {R} (f : func S R) (P : R → Prop) (s : S) : Prop :=
  wpf f (λ r s', frame s s' ∧ pkt_len s' = pkt_len s ∧ P r) s.
Definition safe {R} (f : func S R) (P : R → Prop) (s : S) : Prop :=
  wpf f (λ r s', frame s s' ∧ P r) s.

Lemma keeps_safe {R} (f : func S R) P s : keeps f P s → safe f P s.
Proof. intros Hk. eapply wpf_mono; [exact Hk|]. simpl. intuition. Qed.
Lemma keeps_mono {R} (f : func S R) (P Q : R → Prop) s :
  keeps f P s → (∀ r, P r → Q r) → keeps f Q s.
Proof. intros Hk HPQ. eapply wpf_mono; [exact Hk|]. simpl. intuition. Qed.
Lemma safe_mono {R} (f : func S R) (P Q : R → Prop) s :
  safe f P s → (∀ r, P r → Q r) → safe f Q s.
Proof. intros Hk HPQ. eapply wpf_mono; [exact Hk|]. simpl. intuition. Qed.

Section steps.
Context {R : Type}.
Implicit Types (QR : R → S → Prop).

Lemma fr_call_keeps {T} (f : func S T) P QR (QN : T → S → Prop) s :
  keeps f P s →
  (∀ r s', frame s s' → pkt_len s' = pkt_len s → P r → QN r s') →
  wpb (call f) QR QN s.
Proof. intros Hk HQ. apply wp_call. eapply wpf_mono; [exact Hk|]. simpl. intuition. Qed.

Lemma fr_call_safe {T} (f : func S T) P QR (QN : T → S → Prop) s :
  safe f P s → (∀ r s', frame s s' → P r → QN r s') → wpb (call f) QR QN s.
Proof. intros Hk HQ. apply wp_call. eapply wpf_mono; [exact Hk|]. simpl. intuition. Qed.

Lemma fr_load_bytes off n QR (QN : list Z → S → Prop) s :
  0 ≤ off → off + Z.of_nat n ≤ pkt_len s →
  (∀ bs, length bs = n → QN bs s) → wpb (load_bytes off n) QR QN s.
Proof.
  intros ? Hn HQ. apply wp_load_bytes; [done..|]. apply HQ, length_slice.
  unfold pkt_len in Hn. lia.
Qed.
Lemma fr_load n off QR (QN : Z → S → Prop) s :
  0 ≤ off → off + Z.of_nat n ≤ pkt_len s →
  (∀ v, QN v s) → wpb (load n off) QR QN s.
Proof. intros. by apply wp_load. Qed.
Lemma fr_store_bytes off bs QR (QN : unit → S → Prop) s :
  0 ≤ off → off + Z.of_nat (length bs) ≤ pkt_len s →
  (∀ s', frame s s' → pkt_len s' = pkt_len s → QN tt s') →
  wpb (store_bytes off bs) QR QN s.
Proof.
  intros ?? HQ. apply wp_store_bytes; [done..|].
  apply HQ; [apply frame_set_pkt|]. by rewrite pkt_len_splice.
Qed.
Lemma fr_store n off v QR (QN : unit → S → Prop) s :
  0 ≤ off → off + Z.of_nat n ≤ pkt_len s →
  (∀ s', frame s s' → pkt_len s' = pkt_len s → QN tt s') →
  wpb (store n off v) QR QN s.
Proof. intros. apply fr_store_bytes; rewrite ?length_le_bytes; done. Qed.
Lemma fr_copy_bytes dst src n QR (QN : unit → S → Prop) s :
  0 ≤ src → src + Z.of_nat n ≤ pkt_len s →
  0 ≤ dst → dst + Z.of_nat n ≤ pkt_len s →
  (∀ s', frame s s' → pkt_len s' = pkt_len s → QN tt s') →
  wpb (copy_bytes dst src n) QR QN s.
Proof.
  intros ???? HQ. apply wp_bind, fr_load_bytes; [done..|]. intros bs Hbs.
  apply fr_store_bytes; rewrite ?Hbs; done.
Qed.
End steps.
End frame.

Arguments frame : simpl never.

(** Hypotheses about bounds tests, as inequalities. *)
Ltac bool_hyps :=
  repeat match goal with
  | H : negb _ = true |- _ => apply negb_true_iff in H
  | H : negb _ = false |- _ => apply negb_false_iff in H
  | H : _ || _ = false |- _ => apply orb_false_iff in H as [? ?]
  | H : _ && _ = true |- _ => apply andb_true_iff in H as [? ?]
  | H : (_ <? _) = false |- _ => apply Z.ltb_ge in H
  | H : (_ <? _) = true |- _ => apply Z.ltb_lt in H
  | H : (_ <=? _) = false |- _ => apply Z.leb_gt in H
  | H : (_ <=? _) = true |- _ => apply Z.leb_le in H
  | H : (_ =? _) = true |- _ => apply Z.eqb_eq in H
  | H : (_ =? _) = false |- _ => apply Z.eqb_neq in H
  | H : bool_decide _ = true |- _ => apply bool_decide_eq_true in H
  | H : bool_decide _ = false |- _ => apply bool_decide_eq_false in H
  end.

Ltac fr_bounds := bool_hyps; simpl length; autounfold with katran in *; lia.

(** Refutes a failed bounds test. *)
Ltac in_bounds :=
  exfalso;
  repeat match goal with H : _ || _ = true |- _ => apply orb_true_iff in H as [H|H] end;
  fr_bounds.

Create HintDb safe.
#[export] Hint Constants Opaque : safe.
#[export] Hint Resolve keeps_safe : safe.

(** Enters the state after a step, composing the frames. *)
Ltac fr_next s' Hf :=
  lazymatch type of Hf with
  | frame ?s s' =>
      match goal with
      | Hf0 : frame ?s0 s |- _ =>
          let H := fresh "Hfr" in
          assert (frame s0 s') as H by (etransitivity; eassumption); clear Hf0 Hf
      | _ => idtac
      end
  end.
Ltac fr_intro :=
  let s' := fresh "s" in let Hf := fresh "Hfr" in let Hl := fresh "Hlen" in
  intros s' Hf Hl; cbv beta; fr_next s' Hf.

Ltac safe_step :=
  lazymatch goal with
  | |- keeps _ _ _ => unfold keeps
  | |- safe _ _ _ => unfold safe
  | |- wpb (past_end _) _ _ _ => apply wp_past_end; cbv beta
  | |- wpb (load8 _) _ _ _ => unfold load8
  | |- wpb (load16 _) _ _ _ => unfold load16
  | |- wpb (load32 _) _ _ _ => unfold load32
  | |- wpb (store8 _ _) _ _ _ => unfold store8
  | |- wpb (store16 _ _) _ _ _ => unfold store16
  | |- wpb (store32 _ _) _ _ _ => unfold store32
  | |- wpb (load_bytes _ _) _ _ _ =>
      apply fr_load_bytes; [fr_bounds|fr_bounds|intros ? ?; cbv beta]
  | |- wpb (load _ _) _ _ _ =>
      apply fr_load; [fr_bounds|fr_bounds|intros ?; cbv beta]
  | |- wpb (store_bytes _ _) _ _ _ =>
      apply fr_store_bytes; [fr_bounds|fr_bounds|fr_intro]
  | |- wpb (store _ _ _) _ _ _ =>
      apply fr_store; [fr_bounds|fr_bounds|fr_intro]
  | |- wpb (copy_bytes _ _ _) _ _ _ =>
      apply fr_copy_bytes; [fr_bounds..|fr_intro]
  | |- wpb (call _) _ _ _ =>
      first
        [ eapply fr_call_keeps; [solve [eauto with safe]|];
          let r := fresh "r" in intros r; fr_intro; intros ?
        | eapply fr_call_safe; [solve [eauto with safe]|];
          let r := fresh "r" in let s' := fresh "s" in let Hf := fresh "Hfr" in
          intros r s' Hf ?; cbv beta; fr_next s' Hf ]
  | |- wpb (match ?x with _ => _ end) _ _ _ => destruct x eqn:?
  | |- _ => wp_step
  end.

(** Closes the postcondition. *)
Ltac safe_done :=
  lazymatch goal with
  | |- _ ∧ _ => split; safe_done
  | |- frame ?s ?s => reflexivity
  | |- frame _ _ => assumption
  | |- pkt_len _ = pkt_len _ => lia
  | |- True => exact I
  | |- _ => solve [eauto with safe | lia]
  end.
Ltac safe_steps := repeat safe_step; try safe_done.

(** The side conditions of [safe] lemmas are bounds. *)
#[export] Hint Extern 5 (_ ≤ _) => fr_bounds : safe.
#[export] Hint Extern 5 (_ < _) => fr_bounds : safe.
#[export] Hint Extern 1 True => exact I : safe.
#[export] Hint Extern 1 (PktStateLaws _) => typeclasses eauto : safe.

(** ** The state of the XDP programs *)

(** Control maps are written by user space only; counters live in arrays,
    whose set of keys is fixed. *)
Record xframe {K} (s s' : xstate K) : Prop := {
  xf_ctl : ctl s' = ctl s;
  xf_stats : dom (stats s') = dom (stats s);
  xf_reals_stats : dom (reals_stats s') = dom (reals_stats s);
  xf_decap : dom (decap_counters s') = dom (decap_counters s)
}.

#[export] Instance xstate_frame K : MemFrame (xstate K).
Proof.
  refine {| frame := xframe |}; [split|].
  - by intros s.
  - intros s1 s2 s3 [] []. split; congruence.
  - by intros m [].
Defined.

Section xstate_steps.
Context {K : Type} {R : Type}.
Implicit Types (s : xstate K) (QR : R → xstate K → Prop).

Lemma xframe_unfold s s' : xframe s s' → frame s s'.
Proof. done. Qed.

Lemma fr_upd_stats key f QR (QN : unit → xstate K → Prop) s :
  (∀ s', frame s s' → pkt_len s' = pkt_len s → QN tt s') →
  wpb (upd_stats key f) QR QN s.
Proof. intros HQ. apply wp_modify, HQ; [|done]. split; try done. apply dom_alter_L. Qed.

Lemma fr_upd_reals_stats key f QR (QN : unit → xstate K → Prop) s :
  (∀ s', frame s s' → pkt_len s' = pkt_len s → QN tt s') →
  wpb (upd_reals_stats key f) QR QN s.
Proof. intros HQ. apply wp_modify, HQ; [|done]. split; try done. apply dom_alter_L. Qed.

Lemma fr_upd_pckt f QR (QN : unit → xstate K → Prop) s :
  (∀ s', frame s s' → pkt_len s' = pkt_len s → QN tt s') →
  wpb (upd_pckt f) QR QN s.
Proof. intros HQ. apply wp_modify, HQ; by destruct s. Qed.

Lemma fr_upd_flow f QR (QN : unit → xstate K → Prop) s :
  (∀ s', frame s s' → pkt_len s' = pkt_len s → QN tt s') →
  wpb (upd_flow f) QR QN s.
Proof. apply fr_upd_pckt. Qed.

Lemma fr_lookup_stats key QR (QN : option lb_stats → xstate K → Prop) s :
  (∀ o, QN o s) → wpb (lookup_stats key) QR QN s.
Proof. intros HQ. apply wp_gets, HQ. Qed.

Context `{BpfEnv K}.

Lemma fr_ktime QR (QN : Z → xstate K → Prop) s :
  (∀ t s', frame s s' → pkt_len s' = pkt_len s → QN t s') →
  wpb ktime_get_ns QR QN s.
Proof.
  intros HQ. unfold wpb, ktime_get_ns. destruct (bpf_ktime_get_ns _).
  by apply HQ; destruct s.
Qed.

Lemma fr_smp_id QR (QN : Z → xstate K → Prop) s :
  (∀ n, QN n s) → wpb get_smp_processor_id QR QN s.
Proof. intros HQ. apply wp_gets, HQ. Qed.

Lemma fr_adjust_head n QR (QN : bool → xstate K → Prop) s :
  (∀ b s', frame s s' → QN b s') → wpb (xdp_adjust_head n) QR QN s.
Proof.
  intros HQ. unfold wpb, xdp_adjust_head.
  destruct (bpf_xdp_adjust_head _ _ _) as [[m|] k]; by apply HQ; destruct s.
Qed.
Lemma fr_adjust_tail n QR (QN : bool → xstate K → Prop) s :
  (∀ b s', frame s s' → QN b s') → wpb (xdp_adjust_tail n) QR QN s.
Proof.
  intros HQ. unfold wpb, xdp_adjust_tail.
  destruct (bpf_xdp_adjust_tail _ _ _) as [[m|] k]; by apply HQ; destruct s.
Qed.
End xstate_steps.

Ltac fr_intro_any :=
  let b := fresh "b" in let s' := fresh "s" in let Hf := fresh "Hfr" in
  intros b s' Hf; cbv beta; fr_next s' Hf.

(** [safe_step] for the statements of the XDP programs. *)
Ltac xdp_step :=
  lazymatch goal with
  | |- wpb (upd_stats _ _) _ _ _ => apply fr_upd_stats; fr_intro
  | |- wpb (upd_reals_stats _ _) _ _ _ => apply fr_upd_reals_stats; fr_intro
  | |- wpb (upd_pckt _) _ _ _ => apply fr_upd_pckt; fr_intro
  | |- wpb (upd_flow _) _ _ _ => apply fr_upd_flow; fr_intro
  | |- wpb (lookup_stats _) _ _ _ => apply fr_lookup_stats; intros ?; cbv beta
  | |- wpb ktime_get_ns _ _ _ => apply fr_ktime; intros ?; fr_intro
  | |- wpb get_smp_processor_id _ _ _ => apply fr_smp_id; intros ?; cbv beta
  | |- wpb (xdp_adjust_head _) _ _ _ => apply fr_adjust_head; fr_intro_any
  | |- wpb (xdp_adjust_tail _) _ _ _ => apply fr_adjust_tail; fr_intro_any
  | |- _ => safe_step
  end.
Ltac xdp_steps := repeat xdp_step; try safe_done.
