(* ===== verification/SafetyLib.v ===== *)
(** * Memory safety of the shared routines

    Checksums, header construction, tunnels, ICMP and parsing: every routine,
    called under the bounds its callers establish, has a result and stays in
    its frame, for every build configuration and every implementation of the
    kernel helpers. *)
From S2P Require Import Prelude Words Consts Structs Jhash Csum Headers FlowDebug Encap Parsing Icmp Frame.
Open Scope c_scope.

(** Verdicts a program may return to the driver, and what the routines of the
    balancer may return to it. *)
Definition verdict (r : Z) : Prop := r = XDP_DROP ∨ r = XDP_PASS ∨ r = XDP_TX.
Definition action (r : Z) : Prop := verdict r ∨ r = FURTHER_PROCESSING.

Lemma verdict_action r : verdict r → action r.
Proof. by left. Qed.
Lemma action_verdict r : action r → 0 ≤ r → verdict r.
Proof. unfold action, FURTHER_PROCESSING. intros [?| ->]; [done|lia]. Qed.
#[export] Hint Resolve verdict_action : safe.
#[export] Hint Extern 1 (verdict _) => unfold verdict; tauto : safe.
#[export] Hint Extern 2 (verdict _) => eapply action_verdict; [eassumption|fr_bounds] : safe.
#[export] Hint Extern 1 (action _) => unfold action, verdict; tauto : safe.

Section memory.
Context {S : Type} `{PktStateLaws S} `{!MemFrame S}.
Implicit Types (s : S).

Section checksums.
Context {K : Type} `{BpfEnv K}.

Lemma fr_csum_words n off csum QR (QN : Z → S → Prop) s :
  0 ≤ off → off + 2 * Z.of_nat n ≤ pkt_len s → (∀ c, QN c s) →
  wpb (csum_words n off csum) QR QN s.
Proof.
  revert off csum. induction n as [|n IH]; intros off csum Ho Hl HQ;
    simpl csum_words; [by apply wp_ret|].
  apply wp_bind. unfold load16. apply fr_load; [lia|lia|]. intros w.
  apply IH; [lia|lia|done].
Qed.

Lemma fr_csum_diff_or {E} (err : Z → E) from to csum QR (QN : Z → S → Prop) s :
  (∀ r, QR r s) → (∀ c, QN c s) → wpb (csum_diff_or err from to csum) QR QN s.
Proof. intros HR HN. unfold csum_diff_or. wp_steps; [apply HR|apply HN]. Qed.

Lemma keeps_ipv4_csum_inline iph csum s :
  0 ≤ iph → iph + 20 ≤ pkt_len s → keeps (ipv4_csum_inline iph csum) (λ _, True) s.
Proof.
  intros. apply wp_run, wp_bind, fr_csum_words; [done|vm_compute (Z.of_nat _); lia|].
  intros c. by apply wp_ret.
Qed.

Ltac csum_step :=
  lazymatch goal with
  | |- wpb (csum_diff_or _ _ _ _) _ _ _ =>
      apply fr_csum_diff_or; intros ?; cbv beta
  | |- _ => safe_step
  end.
Ltac csum_steps := repeat csum_step; try safe_done.

Lemma keeps_ipv4_csum data size csum s :
  0 ≤ data → 0 ≤ size → data + size ≤ pkt_len s →
  keeps (ipv4_csum data size csum) (λ _, True) s.
Proof. intros. unfold ipv4_csum. csum_steps. Qed.

Lemma keeps_ipv4_l4_csum data size csum iph s :
  0 ≤ data → 0 ≤ size → data + size ≤ pkt_len s → 0 ≤ iph → iph + 20 ≤ pkt_len s →
  keeps (ipv4_l4_csum data size csum iph) (λ _, True) s.
Proof. intros. unfold ipv4_l4_csum. csum_steps. Qed.

Lemma keeps_ipv6_csum data size csum ip6h s :
  0 ≤ data → 0 ≤ size → data + size ≤ pkt_len s → 0 ≤ ip6h → ip6h + 40 ≤ pkt_len s →
  keeps (ipv6_csum data size csum ip6h) (λ _, True) s.
Proof. intros. unfold ipv6_csum. csum_steps. Qed.

Lemma keeps_add_pseudo_ipv4 iph csum s : 0 ≤ iph → iph + 20 ≤ pkt_len s →
  keeps (add_pseudo_ipv4_header iph csum) (λ _, True) s.
Proof. intros. unfold add_pseudo_ipv4_header. csum_steps. Qed.
Lemma keeps_rem_pseudo_ipv4 iph csum s : 0 ≤ iph → iph + 20 ≤ pkt_len s →
  keeps (rem_pseudo_ipv4_header iph csum) (λ _, True) s.
Proof. intros. unfold rem_pseudo_ipv4_header. csum_steps. Qed.
Lemma keeps_add_pseudo_ipv6 ip6h csum s : 0 ≤ ip6h → ip6h + 40 ≤ pkt_len s →
  keeps (add_pseudo_ipv6_header ip6h csum) (λ _, True) s.
Proof. intros. unfold add_pseudo_ipv6_header. csum_steps. Qed.
Lemma keeps_rem_pseudo_ipv6 ip6h csum s : 0 ≤ ip6h → ip6h + 40 ≤ pkt_len s →
  keeps (rem_pseudo_ipv6_header ip6h csum) (λ _, True) s.
Proof. intros. unfold rem_pseudo_ipv6_header. csum_steps. Qed.

#[local] Hint Resolve keeps_add_pseudo_ipv4 keeps_rem_pseudo_ipv4
  keeps_add_pseudo_ipv6 keeps_rem_pseudo_ipv6 : safe.

Lemma keeps_gue_csum_v4 outer udph inner csum s :
  0 ≤ outer → outer + 20 ≤ pkt_len s → 0 ≤ udph → udph + 8 ≤ pkt_len s →
  0 ≤ inner → inner + 20 ≤ pkt_len s →
  keeps (gue_csum_v4 outer udph inner csum) (λ _, True) s.
Proof. intros. unfold gue_csum_v4. csum_steps. Qed.
Lemma keeps_gue_csum_v6 outer udph inner csum s :
  0 ≤ outer → outer + 40 ≤ pkt_len s → 0 ≤ udph → udph + 8 ≤ pkt_len s →
  0 ≤ inner → inner + 40 ≤ pkt_len s →
  keeps (gue_csum_v6 outer udph inner csum) (λ _, True) s.
Proof. intros. unfold gue_csum_v6. csum_steps. Qed.
Lemma keeps_gue_csum_v4_in_v6 outer udph inner csum s :
  0 ≤ outer → outer + 40 ≤ pkt_len s → 0 ≤ udph → udph + 8 ≤ pkt_len s →
  0 ≤ inner → inner + 20 ≤ pkt_len s →
  keeps (gue_csum_v4_in_v6 outer udph inner csum) (λ _, True) s.
Proof. intros. unfold gue_csum_v4_in_v6. csum_steps. Qed.
End checksums.

#[local] Hint Resolve keeps_ipv4_csum_inline : safe.

Lemma keeps_create_v4_hdr iph tos saddr daddr n proto s :
  0 ≤ iph → iph + 20 ≤ pkt_len s →
  keeps (create_v4_hdr iph tos saddr daddr n proto) (λ _, True) s.
Proof. intros. unfold create_v4_hdr, store_hi4, store_lo4. safe_steps. Qed.

Lemma keeps_create_v6_hdr ip6h tc saddr daddr n proto s :
  0 ≤ ip6h → ip6h + 40 ≤ pkt_len s →
  keeps (create_v6_hdr ip6h tc saddr daddr n proto) (λ _, True) s.
Proof. intros. unfold create_v6_hdr, store_hi4, store_lo4. safe_steps. Qed.

Lemma keeps_create_udp_hdr udph sport dport n csum s :
  0 ≤ udph → udph + 8 ≤ pkt_len s →
  keeps (create_udp_hdr udph sport dport n csum) (λ _, True) s.
Proof. intros. unfold create_udp_hdr. safe_steps. Qed.

Lemma keeps_decrement_ttl off is_ipv6 s :
  0 ≤ off → keeps (decrement_ttl off is_ipv6) action s.
Proof. intros. unfold decrement_ttl. safe_steps. Qed.

Lemma keeps_swap_mac_and_send s : 14 ≤ pkt_len s → keeps swap_mac_and_send verdict s.
Proof. intros. unfold swap_mac_and_send. safe_steps. Qed.

Lemma keeps_swap_mac orig s : 0 ≤ orig → orig + 14 ≤ pkt_len s →
  keeps (swap_mac orig) (λ _, True) s.
Proof. intros. unfold swap_mac. safe_steps. Qed.

#[local] Hint Resolve keeps_swap_mac_and_send : safe.

Lemma keeps_send_icmp_reply s : keeps send_icmp_reply verdict s.
Proof. unfold send_icmp_reply. safe_steps. Qed.

Lemma keeps_send_icmp6_reply s : keeps send_icmp6_reply verdict s.
Proof. unfold send_icmp6_reply. safe_steps. Qed.

Lemma keeps_gue_record_route outer inner o4 i4 s : 0 ≤ outer → 0 ≤ inner →
  keeps (gue_record_route outer inner o4 i4) (λ _, True) s.
Proof. intros. apply wp_gue_record_route; [done..|]. safe_done. Qed.
End memory.

#[export] Hint Resolve keeps_ipv4_csum keeps_ipv6_csum keeps_gue_csum_v4 keeps_gue_csum_v6
  keeps_gue_csum_v4_in_v6 keeps_create_v4_hdr keeps_create_v6_hdr keeps_create_udp_hdr
  keeps_decrement_ttl keeps_swap_mac keeps_send_icmp_reply keeps_send_icmp6_reply
  keeps_gue_record_route : safe.

Section programs.
Context {K : Type} `{BpfEnv K} `{BuildConfig}.
Implicit Types (s : xstate K).

Lemma safe_encap_v6 cval v6 dst n s : safe (encap_v6 cval v6 dst n) (λ _, True) s.
Proof. unfold encap_v6. xdp_steps. Qed.
Lemma safe_encap_v4 cval dst n s : safe (encap_v4 cval dst n) (λ _, True) s.
Proof. unfold encap_v4. xdp_steps. Qed.
Lemma keeps_gue_csum o6 i6 s : keeps (gue_csum o6 i6) (λ _, True) s.
Proof.
  unfold gue_csum. destruct o6, i6; autounfold with katran; cbv zeta; simpl Z.add; xdp_steps.
Qed.
#[local] Hint Resolve keeps_gue_csum : safe.
Lemma safe_gue_encap_v4 cval dst n s : safe (gue_encap_v4 cval dst n) (λ _, True) s.
Proof. unfold gue_encap_v4. xdp_steps. Qed.
Lemma safe_gue_encap_v6 cval v6 dst n s : safe (gue_encap_v6 cval v6 dst n) (λ _, True) s.
Proof. unfold gue_encap_v6. xdp_steps. Qed.

Lemma safe_decap_v4 s : 34 ≤ pkt_len s → safe decap_v4 (λ _, True) s.
Proof. intros. unfold decap_v4. xdp_steps. Qed.
Lemma safe_decap_v6 i4 s : 54 ≤ pkt_len s → safe (decap_v6 i4) (λ _, True) s.
Proof. intros. unfold decap_v6. xdp_steps. Qed.
Lemma keeps_RECORD_GUE_ROUTE outer inner o4 i4 s : 0 ≤ outer → 0 ≤ inner →
  keeps (RECORD_GUE_ROUTE outer inner o4 i4) (λ _, True) s.
Proof. intros. unfold RECORD_GUE_ROUTE. xdp_steps. Qed.
#[local] Hint Resolve keeps_RECORD_GUE_ROUTE : safe.
Lemma safe_gue_decap_v4 s : 42 ≤ pkt_len s → safe gue_decap_v4 (λ _, True) s.
Proof. intros. unfold gue_decap_v4. xdp_steps. Qed.
Lemma safe_gue_decap_v6 i4 s : 62 ≤ pkt_len s → safe (gue_decap_v6 i4) (λ _, True) s.
Proof. intros. unfold gue_decap_v6. xdp_steps. Qed.

#[local] Hint Resolve safe_encap_v6 safe_encap_v4 safe_gue_encap_v4 safe_gue_encap_v6
  safe_decap_v4 safe_decap_v6 safe_gue_decap_v4 safe_gue_decap_v6 : safe.

(** *** ICMP *)

Lemma safe_send_icmp4_too_big s : safe send_icmp4_too_big verdict s.
Proof. unfold send_icmp4_too_big, icmp4_headroom. xdp_steps. Qed.
Lemma safe_send_icmp6_too_big s : safe send_icmp6_too_big verdict s.
Proof. unfold send_icmp6_too_big, icmp6_headroom. xdp_steps. Qed.
#[local] Hint Resolve safe_send_icmp4_too_big safe_send_icmp6_too_big : safe.
Lemma safe_send_icmp_too_big v6 n s : safe (send_icmp_too_big v6 n) verdict s.
Proof. unfold send_icmp_too_big. xdp_steps. Qed.

Lemma fr_load_addr {R} off (QR : R → _ → Prop) (QN : addr → _ → Prop) s :
  0 ≤ off → off + 16 ≤ pkt_len s → (∀ a, QN a s) → wpb (load_addr off) QR QN s.
Proof. intros. by apply wp_load_addr. Qed.

Ltac parse_step :=
  lazymatch goal with
  | |- wpb (load_addr _) _ _ _ =>
      apply fr_load_addr; [fr_bounds|fr_bounds|intros ?; cbv beta]
  | |- _ => xdp_step
  end.
Ltac parse_steps := repeat parse_step; try safe_done.

Lemma keeps_parse_icmpv6 off s : 0 ≤ off → keeps (parse_icmpv6 off) action s.
Proof. intros. unfold parse_icmpv6. parse_steps. Qed.
Lemma keeps_parse_icmp off s : 0 ≤ off → keeps (parse_icmp off) action s.
Proof. intros. unfold parse_icmp. parse_steps. Qed.
#[local] Hint Resolve keeps_parse_icmpv6 keeps_parse_icmp : safe.

(** *** Transport headers *)

Lemma calc_offset_range v6 icmp : 14 ≤ calc_offset v6 icmp ≤ 102.
Proof. by destruct v6, icmp. Qed.

Ltac enter_calc_offset :=
  match goal with
  | |- context [calc_offset ?v6 ?icmp] =>
      pose proof (calc_offset_range v6 icmp);
      generalize dependent (calc_offset v6 icmp); intros
  end.

Lemma keeps_parse_udp v6 s : keeps (parse_udp v6) (λ _, True) s.
Proof.
  unfold parse_udp. do 4 safe_step. cbv zeta. enter_calc_offset. parse_steps.
Qed.
Lemma keeps_parse_tcp v6 s : keeps (parse_tcp v6) (λ _, True) s.
Proof.
  unfold parse_tcp. do 4 safe_step. cbv zeta. enter_calc_offset. parse_steps.
Qed.
Lemma keeps_parse_quic v6 s : keeps (parse_quic v6) (λ _, True) s.
Proof.
  unfold parse_quic. do 4 safe_step. cbv zeta. enter_calc_offset. parse_steps.
Qed.

Lemma keeps_parse_hdr_opt st s : 0 ≤ byte_offset st →
  keeps (parse_hdr_opt st) (λ r, 0 ≤ byte_offset r.2) s.
Proof.
  intros. unfold parse_hdr_opt. parse_steps;
    (split; [safe_done|split; [safe_done|]]); first [done|apply u8_range].
Qed.
End programs.

#[export] Hint Resolve safe_encap_v6 safe_encap_v4 safe_gue_encap_v4 safe_gue_encap_v6
  safe_decap_v4 safe_decap_v6 safe_gue_decap_v4 safe_gue_decap_v6 safe_send_icmp_too_big
  keeps_parse_icmpv6 keeps_parse_icmp keeps_parse_udp keeps_parse_tcp keeps_parse_quic
  : safe.

(** [safe_step] with the loads of IPv6 addresses. *)
Ltac parse_step :=
  lazymatch goal with
  | |- wpb (load_addr _) _ _ _ =>
      apply fr_load_addr; [fr_bounds|fr_bounds|intros ?; cbv beta]
  | |- _ => xdp_step
  end.
Ltac parse_steps := repeat parse_step; try safe_done.
