(* ===== verification/Balancer.v ===== *)
(** * The load balancer ([balancer_kern.c], [balancer_helpers.h])

    [balancer_ingress] and the routines it calls, in the order of the source.
    A routine that writes through an out-parameter returns the final value of
    that parameter next to its result.  [subprograms] is the tail-call map:
    what [bpf_tail_call] on it runs, [None] when the call fails and the
    program continues. *)
From S2P Require Import Prelude Words Consts Structs Jhash Csum Headers FlowDebug Encap Parsing Icmp.
Open Scope c_scope.

Section introspection.
Context {K : Type} `{BuildConfig}.

(** [BPF_F_CURRENT_CPU] *)
Definition BPF_F_CURRENT_CPU : Z := 4294967295.

(** [bpf_perf_event_output(ctx, map, flags, &md, sizeof(md))]: the metadata
    and the flags, whose high half is the number of packet bytes the kernel
    appends. *)
Definition submit_event (event_id size : Z) (metadata_only : bool) :
    func (xstate K) unit := run (
  let! gk := gets (λ s, ctl_array (ctl s) !! 5) in
  let! gk := or_return gk tt in
  return_if (ctl_u64 gk =? 0) tt ;;
  let flags := BPF_F_CURRENT_CPU in
  let '(data_len, flags) :=
    if metadata_only then (0, flags)
    else let n := min_helper size MAX_EVENT_SIZE in
         (n, Z.lor flags (Z.shiftl n 32)) in
  modify (λ s, with_event_pipe
    (event_pipe s ++ [(EventMetadata event_id size data_len, flags)]) s)).

(** [REPORT_*(xdp, data, data_end - data, false)]: a no-op unless
    introspection is compiled in. *)
Definition REPORT_EVENT (event_id size : Z) : func (xstate K) unit := run (
  when KATRAN_INTROSPECTION (call (submit_event event_id size false))).
Definition REPORT_TCP_NONSYN_LRUMISS := REPORT_EVENT TCP_NONSYN_LRUMISS.
Definition REPORT_PACKET_TOOBIG := REPORT_EVENT PACKET_TOOBIG.
Definition REPORT_QUIC_PACKET_DROP_NO_REAL := REPORT_EVENT QUIC_PACKET_DROP_NO_REAL.
End introspection.

(** [None] is an out-of-bounds read of the hashed bytes. *)
Definition get_packet_hash (p : packet_description) (hash_16bytes : bool) : option Z :=
  if hash_16bytes then
    h ← jhash (addr_bytes (srcv6 (flow p))) 16 INIT_JHASH_SEED_V6;
    Some (jhash_2words h (ports (flow p)) INIT_JHASH_SEED)
  else Some (jhash_2words (w0 (srcv6 (flow p))) (ports (flow p)) INIT_JHASH_SEED).

(** The tables [connection_table_lookup] is called on. *)
Inductive conn_ref : Type :=
| ConnLocal (r : lru_ref)
| ConnGlobal (cpu : Z)
| ConnGlobalFallback.

Section routing.
Context {K : Type} `{BpfEnv K} `{BuildConfig}.

(** The result, and [*cur_time] (0 on entry). *)
Definition is_under_flood : func (xstate K) (bool * Z) := run (
  let conn_rate_key := MAX_VIPS + NEW_CONN_RATE_CNTR in
  let! conn_rate_stats := lookup_stats conn_rate_key in
  let! conn_rate := or_return conn_rate_stats (true, 0) in
  let! cur_time := ktime_get_ns in
  if ONE_SEC <? u64 (cur_time - v2 conn_rate) then
    upd_stats conn_rate_key (λ _, LbStats 1 cur_time) ;;
    ret (false, cur_time)
  else
    upd_stats conn_rate_key (add_v1 1) ;;
    return_if (MAX_CONN_RATE <? u64 (v1 conn_rate + 1)) (true, cur_time) ;;
    ret (false, cur_time)).

(** The source-routing block under [LPM_SRC_LOOKUP]: the real the source
    address is pinned to, if any. *)
Definition lookup_src_routing (vip_info : vip_meta) (is_ipv6 under_flood : bool) :
    func (xstate K) (option Z) := run (
  if LPM_SRC_LOOKUP && (has_flag (vip_flags vip_info) F_SRC_ROUTING && negb under_flood)
  then
    let! p := gets pckt in
    let! lpm_val :=
      if is_ipv6 then
        gets (λ s, lpm_lookup_v6 (lpm_src_v6 (ctl s))
                     (V6LpmKey 128 (srcv6 (flow p))))
      else
        gets (λ s, lpm_lookup_v4 (lpm_src_v4 (ctl s))
                     (V4LpmKey 32 (w0 (srcv6 (flow p))))) in
    let stats_key := MAX_VIPS + LPM_SRC_CNTRS in
    let! data_stats := lookup_stats stats_key in
    when (bool_decide (is_Some data_stats))
      (upd_stats stats_key
        (if bool_decide (is_Some lpm_val) then add_v2 1 else add_v1 1)) ;;
    ret lpm_val
  else ret None).

(** [key = RING_SIZE * vip_num + hash % RING_SIZE] *)
Definition ring_key (vip_num hash : Z) : Z :=
  u32 (RING_SIZE * vip_num + hash mod RING_SIZE).

(** The result, and [*real] (NULL on entry). *)
Definition get_packet_dst (vip_info : vip_meta) (is_ipv6 : bool)
    (lru_map : option lru_ref) : func (xstate K) (bool * option real_definition) := run (
  let! (under_flood, cur_time) := call is_under_flood in
  let! src_key := call (lookup_src_routing vip_info is_ipv6 under_flood) in
  let! key :=
    match src_key with
    | Some key => ret key
    | None =>
        let hash_16bytes := is_ipv6 in
        when (has_flag (vip_flags vip_info) F_HASH_DPORT_ONLY)
          (upd_flow (λ f, set_src addr_zero (set_sport (port16_1 f) f))) ;;
        let! p := gets pckt in
        let! hash := or_fault (get_packet_hash p hash_16bytes) in
        let key := ring_key (vip_num vip_info) hash in
        let! real_pos := gets (λ s, ch_rings (ctl s) !! key) in
        or_return real_pos (false, None)
    end in
  upd_pckt (set_real_index key) ;;
  let! real := gets (λ s, reals (ctl s) !! key) in
  return_if (bool_decide (real = None)) (false, None) ;;
  match lru_map with
  | Some r =>
      when (negb (has_flag (vip_flags vip_info) F_LRU_BYPASS) && negb under_flood)
        (let! p := gets pckt in
         let atime := if proto (flow p) =? IPPROTO_UDP then cur_time else 0 in
         lru_update r (flow p) (RealPosLru key atime))
  | None => ret tt
  end ;;
  ret (true, real)).

(** [bpf_map_lookup_elem(lru_map, &pckt->flow)].  The entries of the global
    tables are 32-bit indices: there is no [atime] behind them. *)
Definition conn_lookup {R} (r : conn_ref) (f : flow_key) :
    body (xstate K) R (option (Z * option Z)) :=
  let glru := λ t : glru_table, (λ k, (k, None)) <$> t !! f in
  match r with
  | ConnLocal r =>
      let! v := lru_lookup r f in ret ((λ v, (pos v, Some (atime v))) <$> v)
  | ConnGlobal cpu => gets (λ s, t ← global_lru_maps s !! cpu; glru t)
  | ConnGlobalFallback => gets (λ s, glru (fallback_glru s))
  end.
Definition conn_set_atime {R} (r : conn_ref) (f : flow_key) (t : Z) :
    body (xstate K) R unit :=
  match r with ConnLocal r => lru_write r f (set_atime t) | _ => fault end.

(** [*real], which is NULL on entry. *)
Definition connection_table_lookup (lru_map : conn_ref) (isGlobalLru : bool) :
    func (xstate K) (option real_definition) := run (
  let! p := gets pckt in
  let! dst_lru := conn_lookup lru_map (flow p) in
  let! (key, last) := or_return dst_lru None in
  (if negb isGlobalLru && (proto (flow p) =? IPPROTO_UDP) then
     let! cur_time := ktime_get_ns in
     let! last := or_fault last in
     return_if (LRU_UDP_TIMEOUT <? u64 (cur_time - last)) None ;;
     conn_set_atime lru_map (flow p) cur_time
   else ret tt) ;;
  upd_pckt (set_real_index key) ;;
  gets (λ s, reals (ctl s) !! key)).

(** The action, and [*pkt_bytes] (0 where the code returns before it is
    assigned; the caller then returns too). *)
Definition process_l3_headers (off : Z) (is_ipv6 : bool) :
    func (xstate K) (Z * Z) := run (
  if is_ipv6 then
    let ip6h := off in
    let! oob := past_end (ip6h + sizeof_ipv6hdr) in
    return_if oob (XDP_DROP, 0) ;;
    let iph_len := sizeof_ipv6hdr in
    let! protocol := load8 (ip6h + ip6_nexthdr) in
    upd_flow (set_proto protocol) ;;
    let! b0 := load8 (ip6h + ip6_verprio) in
    upd_pckt (set_tos (Z.land (Z.shiftl (Z.land b0 15) 4) 240)) ;;
    let! flow_lbl0 := load8 (ip6h + ip6_flow_lbl) in
    upd_pckt (λ p, set_tos (Z.lor (tos p) (Z.land (Z.shiftr flow_lbl0 4) 15)) p) ;;
    let! payload_len := load16 (ip6h + ip6_payload_len) in
    let pkt_bytes := bpf_ntohs payload_len in
    let off := off + iph_len in
    if protocol =? IPPROTO_FRAGMENT then return_ (XDP_DROP, pkt_bytes)
    else if protocol =? IPPROTO_ICMPV6 then
      let! action := call (parse_icmpv6 off) in
      return_if (0 <=? action) (action, pkt_bytes) ;;
      ret (FURTHER_PROCESSING, pkt_bytes)
    else
      let! saddr := load_addr (ip6h + ip6_saddr) in
      upd_flow (set_src saddr) ;;
      let! daddr := load_addr (ip6h + ip6_daddr) in
      upd_flow (set_dst daddr) ;;
      ret (FURTHER_PROCESSING, pkt_bytes)
  else
    let iph := off in
    let! oob := past_end (iph + sizeof_iphdr) in
    return_if oob (XDP_DROP, 0) ;;
    let! verihl := load8 (iph + ip_verihl) in
    return_if (negb (Z.land verihl 15 =? 5)) (XDP_DROP, 0) ;;
    let! tos := load8 (iph + ip_tos) in
    upd_pckt (set_tos tos) ;;
    let! protocol := load8 (iph + ip_protocol) in
    upd_flow (set_proto protocol) ;;
    let! tot_len := load16 (iph + ip_tot_len) in
    let pkt_bytes := bpf_ntohs tot_len in
    let off := off + IPV4_HDR_LEN_NO_OPT in
    let! frag_off := load16 (iph + ip_frag_off) in
    return_if (has_flag frag_off PCKT_FRAGMENTED) (XDP_DROP, pkt_bytes) ;;
    if protocol =? IPPROTO_ICMP then
      let! action := call (parse_icmp off) in
      return_if (0 <=? action) (action, pkt_bytes) ;;
      ret (FURTHER_PROCESSING, pkt_bytes)
    else
      let! saddr := load32 (iph + ip_saddr) in
      upd_flow (λ f, set_src (set_w0 saddr (srcv6 f)) f) ;;
      let! daddr := load32 (iph + ip_daddr) in
      upd_flow (λ f, set_dst (set_w0 daddr (dstv6 f)) f) ;;
      ret (FURTHER_PROCESSING, pkt_bytes)).

(** The action, and [*pass] (true on entry). *)
Definition check_decap_dst (is_ipv6 : bool) : func (xstate K) (Z * bool) := run (
  let! p := gets pckt in
  let dst_addr :=
    if is_ipv6 then dstv6 (flow p) else set_w0 (w0 (dstv6 (flow p))) addr_zero in
  let! decap_dst_flags := gets (λ s, decap_dst (ctl s) !! dst_addr) in
  if bool_decide (is_Some decap_dst_flags) then
    let stats_key := MAX_VIPS + REMOTE_ENCAP_CNTRS in
    let! data_stats := lookup_stats stats_key in
    return_if (bool_decide (data_stats = None)) (XDP_DROP, false) ;;
    upd_stats stats_key (add_v1 1) ;;
    ret (FURTHER_PROCESSING, false)
  else ret (FURTHER_PROCESSING, true)).

(** The loop over the four words of an IPv6 address returns in its first
    iteration. *)
Definition reals_have_same_addr (a b : real_definition) : bool :=
  if negb (real_flags a =? real_flags b) then false
  else if has_flag (real_flags a) F_IPV6 then
    if negb (w0 (real_dst a) =? w0 (real_dst b)) then false else true
  else w0 (real_dst a) =? w0 (real_dst b).

(** The action, and [*dst] (NULL on entry). *)
Definition perform_global_lru_lookup (cpu_num : Z) (vip_info : vip_meta)
    (is_ipv6 : bool) : func (xstate K) (Z * option real_definition) := run (
  let! g_lru_map := gets (λ s, global_lru_maps s !! cpu_num) in
  let global_lru_stats_key := MAX_VIPS + GLOBAL_LRU_CNTR in
  let! global_lru_stats := lookup_stats global_lru_stats_key in
  return_if (bool_decide (global_lru_stats = None)) (XDP_DROP, None) ;;
  let! g_lru_map :=
    if bool_decide (g_lru_map = None) then
      upd_stats global_lru_stats_key (add_v1 1) ;;
      ret ConnGlobalFallback
    else ret (ConnGlobal cpu_num) in
  let! dst := call (connection_table_lookup g_lru_map true) in
  match dst with
  | None => ret (FURTHER_PROCESSING, None)
  | Some d =>
      upd_stats global_lru_stats_key (add_v2 1) ;;
      let! (ok, dst_consistent_hash) := call (get_packet_dst vip_info is_ipv6 None) in
      when ok
        (let mismatch_key := MAX_VIPS + GLOBAL_LRU_MISMATCH_CNTR in
         let! mismatch_stats := lookup_stats mismatch_key in
         match dst_consistent_hash, mismatch_stats with
         | Some c, Some _ =>
             upd_stats mismatch_key
               (if reals_have_same_addr c d then add_v1 1 else add_v2 1)
         | _, _ => ret tt
         end) ;;
      ret (FURTHER_PROCESSING, dst)
  end).

Definition increment_quic_cid_version_stats (host_id : Z) : func (xstate K) unit := run (
  let key := MAX_VIPS + QUIC_CID_VERSION_STATS in
  let! quic_version := lookup_stats key in
  return_if (bool_decide (quic_version = None)) tt ;;
  if QUIC_CONNID_VERSION_V1_MAX_VAL <? host_id then upd_stats key (add_v2 1)
  else upd_stats key (add_v1 1)).

Definition increment_quic_cid_drop_no_real : func (xstate K) unit := run (
  let key := MAX_VIPS + QUIC_CID_DROP_STATS in
  let! quic_drop := lookup_stats key in
  return_if (bool_decide (quic_drop = None)) tt ;;
  upd_stats key (add_v1 1)).

Definition increment_quic_cid_drop_real_0 : func (xstate K) unit := run (
  let key := MAX_VIPS + QUIC_CID_DROP_STATS in
  let! quic_drop := lookup_stats key in
  return_if (bool_decide (quic_drop = None)) tt ;;
  upd_stats key (add_v2 1)).
End routing.

(** ** [process_packet], block by block

    Each block is a [body] whose [return] is the [return] of
    [process_packet]. *)
Section process_packet.
Context {K : Type} `{BpfEnv K} `{BuildConfig}.

(** The VIP of the packet: its destination, then its destination with
    port 0. *)
Definition lookup_vip (is_ipv6 : bool) : body (xstate K) Z vip_meta :=
  let! p := gets pckt in
  let vip_addr :=
    if is_ipv6 then dstv6 (flow p) else set_w0 (w0 (dstv6 (flow p))) addr_zero in
  let vip := VipDefinition vip_addr (port16_1 (flow p)) (proto (flow p)) in
  let! vip_info := gets (λ s, vip_map (ctl s) !! vip) in
  match vip_info with
  | Some vip_info => ret vip_info
  | None =>
      let vip := VipDefinition vip_addr 0 (proto (flow p)) in
      let! vip_info := gets (λ s, vip_map (ctl s) !! vip) in
      let! vip_info := or_return vip_info XDP_PASS in
      when (negb (has_flag (vip_flags vip_info) F_HASH_DPORT_ONLY))
        (upd_flow (set_dport 0)) ;;
      ret vip_info
  end.

(** Packets over [MAX_PCKT_SIZE] are answered or dropped. *)
Definition check_packet_size (is_ipv6 : bool) : body (xstate K) Z unit :=
  let! size := gets pkt_len in
  when (MAX_PCKT_SIZE <? size)
    (call (REPORT_PACKET_TOOBIG size) ;;
     if ICMP_TOOBIG_GENERATION then
       let stats_key := MAX_VIPS + ICMP_TOOBIG_CNTRS in
       let! data_stats := lookup_stats stats_key in
       return_if (bool_decide (data_stats = None)) XDP_DROP ;;
       upd_stats stats_key (if is_ipv6 then add_v2 1 else add_v1 1) ;;
       let! action := call (send_icmp_too_big is_ipv6 size) in
       return_ action
     else return_ XDP_DROP).

(** Routing by the server id in a QUIC connection id. *)
Definition route_quic (vip_info : vip_meta) (is_ipv6 : bool) :
    body (xstate K) Z (option real_definition) :=
  if has_flag (vip_flags vip_info) F_QUIC_VIP then
    let quic_stats_key := MAX_VIPS + QUIC_ROUTE_STATS in
    let! quic_stats := lookup_stats quic_stats_key in
    return_if (bool_decide (quic_stats = None)) XDP_DROP ;;
    let! real_index := call (parse_quic is_ipv6) in
    if 0 <? real_index then
      call (increment_quic_cid_version_stats real_index) ;;
      let! real_pos := gets (λ s, server_id_map (ctl s) !! real_index) in
      match real_pos with
      | Some key =>
          if key =? 0 then
            call increment_quic_cid_drop_real_0 ;;
            upd_stats quic_stats_key (add_v1 1) ;;
            ret None
          else
            upd_pckt (set_real_index key) ;;
            let! dst := gets (λ s, reals (ctl s) !! key) in
            match dst with
            | None =>
                call increment_quic_cid_drop_no_real ;;
                let! size := gets pkt_len in
                call (REPORT_QUIC_PACKET_DROP_NO_REAL size) ;;
                return_ XDP_DROP
            | Some _ =>
                upd_stats quic_stats_key (add_v2 1) ;;
                ret dst
            end
      | None => upd_stats quic_stats_key (add_v1 1) ;; ret None
      end
    else upd_stats quic_stats_key (add_v1 1) ;; ret None
  else ret None.

(** The LRU table of this CPU. *)
Definition choose_lru (cpu_num : Z) : body (xstate K) Z lru_ref :=
  let! lru_map := gets (λ s, lru_mapping s !! cpu_num) in
  if bool_decide (lru_map = None) then
    let lru_stats_key := MAX_VIPS + FALLBACK_LRU_CNTR in
    let! lru_stats := lookup_stats lru_stats_key in
    return_if (bool_decide (lru_stats = None)) XDP_DROP ;;
    upd_stats lru_stats_key (add_v1 1) ;;
    ret LruFallback
  else ret (LruCpu cpu_num).

(** Routing by the server id in a TCP header option. *)
Definition route_tcp_server_id (vip_info : vip_meta) (is_ipv6 : bool)
    (lru_map : lru_ref) : body (xstate K) Z (option real_definition) :=
  let! p := gets pckt in
  if TCP_SERVER_ID_ROUTING &&
     ((proto (flow p) =? IPPROTO_TCP) && negb (has_flag (pflags p) F_SYN_SET)) then
    let routing_stats_key := MAX_VIPS + TCP_SERVER_ID_ROUTE_STATS in
    let! routing_stats := lookup_stats routing_stats_key in
    return_if (bool_decide (routing_stats = None)) XDP_DROP ;;
    let! (result, dst) := call (tcp_hdr_opt_lookup is_ipv6
      (has_flag (vip_flags vip_info) F_LRU_BYPASS) lru_map) in
    upd_stats routing_stats_key
      (if result =? FURTHER_PROCESSING then add_v1 1 else add_v2 1) ;;
    ret dst
  else ret None.

(** Routing by the local and then the global connection table. *)
Definition route_lru (vip_info : vip_meta) (lru_map : lru_ref)
    (dst : option real_definition) : body (xstate K) Z (option real_definition) :=
  let! p := gets pckt in
  if bool_decide (dst = None) && negb (has_flag (pflags p) F_SYN_SET) &&
     negb (has_flag (vip_flags vip_info) F_LRU_BYPASS)
  then call (connection_table_lookup (ConnLocal lru_map) false)
  else ret dst.

Definition route_global_lru (vip_info : vip_meta) (is_ipv6 : bool) (cpu_num : Z)
    (dst : option real_definition) : body (xstate K) Z (option real_definition) :=
  let! p := gets pckt in
  if GLOBAL_LRU_LOOKUP &&
     (bool_decide (dst = None) && negb (has_flag (pflags p) F_SYN_SET) &&
      has_flag (vip_flags vip_info) F_GLOBAL_LRU)
  then
    let! (result, dst) := call (perform_global_lru_lookup cpu_num vip_info is_ipv6) in
    return_if (0 <=? result) result ;;
    ret dst
  else ret dst.

(** Consistent hashing, for flows found nowhere else. *)
Definition route_ring (vip_info : vip_meta) (is_ipv6 : bool) (lru_map : lru_ref) :
    body (xstate K) Z real_definition :=
  let! p := gets pckt in
  when (proto (flow p) =? IPPROTO_TCP)
    (let lru_stats_key := MAX_VIPS + LRU_MISS_CNTR in
     let! lru_stats := lookup_stats lru_stats_key in
     return_if (bool_decide (lru_stats = None)) XDP_DROP ;;
     if has_flag (pflags p) F_SYN_SET then upd_stats lru_stats_key (add_v1 1)
     else
       let! size := gets pkt_len in
       call (REPORT_TCP_NONSYN_LRUMISS size) ;;
       upd_stats lru_stats_key (add_v2 1)) ;;
  let! (ok, dst) := call (get_packet_dst vip_info is_ipv6 (Some lru_map)) in
  return_if (negb ok) XDP_DROP ;;
  upd_stats (MAX_VIPS + LRU_CNTRS) (add_v2 1) ;;
  or_fault dst.

(** The [if (!dst)] block. *)
Definition select_real (vip_info : vip_meta) (is_ipv6 : bool) :
    body (xstate K) Z real_definition :=
  when (has_flag (vip_flags vip_info) F_HASH_NO_SRC_PORT) (upd_flow (set_sport 0)) ;;
  let! cpu_num := get_smp_processor_id in
  let! lru_map := choose_lru cpu_num in
  let! dst := route_tcp_server_id vip_info is_ipv6 lru_map in
  let! dst := route_lru vip_info lru_map dst in
  let! dst := route_global_lru vip_info is_ipv6 cpu_num dst in
  match dst with
  | Some d => ret d
  | None => route_ring vip_info is_ipv6 lru_map
  end.

Definition PCKT_ENCAP_V4 := if GUE_ENCAP then gue_encap_v4 else encap_v4.
Definition PCKT_ENCAP_V6 := if GUE_ENCAP then gue_encap_v6 else encap_v6.

(** Statistics and encapsulation towards the chosen real. *)
Definition forward (vip_info : vip_meta) (dst : real_definition)
    (original_sport : Z) (is_ipv6 : bool) (pkt_bytes : Z) : body (xstate K) Z Z :=
  let mac_addr_pos := 0 in
  let! cval := gets (λ s, ctl_array (ctl s) !! mac_addr_pos) in
  let! cval := or_return cval XDP_DROP in
  let vip_num := vip_num vip_info in
  let! data_stats := lookup_stats vip_num in
  return_if (bool_decide (data_stats = None)) XDP_DROP ;;
  upd_stats vip_num (λ d, add_v2 pkt_bytes (add_v1 1 d)) ;;
  let! p := gets pckt in
  let! data_stats := gets (λ s, reals_stats s !! real_index p) in
  return_if (bool_decide (data_stats = None)) XDP_DROP ;;
  upd_reals_stats (real_index p) (λ d, add_v2 pkt_bytes (add_v1 1 d)) ;;
  return_if (LOCAL_DELIVERY_OPTIMIZATION &&
    (has_flag (vip_flags vip_info) F_LOCAL_VIP && has_flag (real_flags dst) F_LOCAL_REAL))
    XDP_PASS ;;
  upd_flow (set_sport original_sport) ;;
  let! ok :=
    if has_flag (real_flags dst) F_IPV6
    then call (PCKT_ENCAP_V6 cval is_ipv6 dst pkt_bytes)
    else call (PCKT_ENCAP_V4 cval dst pkt_bytes) in
  return_if (negb ok) XDP_DROP ;;
  ret XDP_TX.
End process_packet.

Section balancer.
Context {K : Type} `{BpfEnv K} `{BuildConfig}.
Variable subprograms : Z → option (func (xstate K) Z).

Definition recirculate : func (xstate K) Z :=
  match subprograms RECIRCULATION_INDEX with
  | Some prog => prog
  | None => run (ret XDP_PASS)
  end.

(** [action] stays uninitialised on the path that matches no protocol. *)
Definition process_encaped_ipip_pckt (is_ipv6 : bool) (protocol : Z) (pass : bool) :
    func (xstate K) Z := run (
  let! action :=
    if protocol =? IPPROTO_IPIP then
      if is_ipv6 then
        let offset := sizeof_ipv6hdr + sizeof_ethhdr in
        let! oob := past_end offset in
        return_if oob XDP_DROP ;;
        let! action := call (decrement_ttl offset false) in
        let! ok := call (decap_v6 true) in
        return_if (negb ok) XDP_DROP ;;
        ret action
      else
        let offset := sizeof_iphdr + sizeof_ethhdr in
        let! oob := past_end offset in
        return_if oob XDP_DROP ;;
        let! action := call (decrement_ttl offset false) in
        let! ok := call decap_v4 in
        return_if (negb ok) XDP_DROP ;;
        ret action
    else if protocol =? IPPROTO_IPV6 then
      let offset := sizeof_ipv6hdr + sizeof_ethhdr in
      let! oob := past_end offset in
      return_if oob XDP_DROP ;;
      let! action := call (decrement_ttl offset true) in
      let! ok := call (decap_v6 false) in
      return_if (negb ok) XDP_DROP ;;
      ret action
    else fault in
  return_if (0 <=? action) action ;;
  return_if pass XDP_PASS ;;
  call recirculate).

Definition process_encaped_gue_pckt (is_ipv6 pass : bool) : func (xstate K) Z := run (
  let! action :=
    if is_ipv6 then
      let offset := sizeof_ipv6hdr + sizeof_ethhdr + sizeof_udphdr in
      let! oob := past_end (offset + 1) in
      return_if oob XDP_DROP ;;
      let! v6 := load8 offset in
      let v6 := Z.land v6 GUEV1_IPV6MASK in
      if negb (v6 =? 0) then
        let! action := call (decrement_ttl offset true) in
        let! ok := call (gue_decap_v6 false) in
        return_if (negb ok) XDP_DROP ;;
        ret action
      else
        let! action := call (decrement_ttl offset false) in
        let! ok := call (gue_decap_v6 true) in
        return_if (negb ok) XDP_DROP ;;
        ret action
    else
      let offset := sizeof_iphdr + sizeof_ethhdr + sizeof_udphdr in
      let! oob := past_end offset in
      return_if oob XDP_DROP ;;
      let! action := call (decrement_ttl offset false) in
      let! ok := call gue_decap_v4 in
      return_if (negb ok) XDP_DROP ;;
      ret action in
  return_if (0 <=? action) action ;;
  return_if pass XDP_PASS ;;
  call recirculate).

(** Decapsulation of IPIP packets sent to this host. *)
Definition inline_decap (is_ipv6 : bool) (protocol : Z) : body (xstate K) Z unit :=
  when (INLINE_DECAP_IPIP && ((protocol =? IPPROTO_IPIP) || (protocol =? IPPROTO_IPV6)))
    (let! (action, pass) := call (check_decap_dst is_ipv6) in
     return_if (0 <=? action) action ;;
     let! action := call (process_encaped_ipip_pckt is_ipv6 protocol pass) in
     return_ action).

(** Transport headers, and decapsulation of GUE packets sent to this host. *)
Definition parse_transport (is_ipv6 : bool) (protocol : Z) : body (xstate K) Z unit :=
  if protocol =? IPPROTO_TCP then
    let! ok := call (parse_tcp is_ipv6) in
    return_if (negb ok) XDP_DROP
  else if protocol =? IPPROTO_UDP then
    let! ok := call (parse_udp is_ipv6) in
    return_if (negb ok) XDP_DROP ;;
    let! p := gets pckt in
    when (INLINE_DECAP_GUE && (port16_1 (flow p) =? bpf_htons GUE_DPORT))
      (let! (action, pass) := call (check_decap_dst is_ipv6) in
       return_if (0 <=? action) action ;;
       let! action := call (process_encaped_gue_pckt is_ipv6 pass) in
       return_ action)
  else return_ XDP_PASS.

Definition process_packet (off : Z) (is_ipv6 : bool) : func (xstate K) Z := run (
  upd_pckt (λ _, pckt_zero) ;;
  let! (action, pkt_bytes) := call (process_l3_headers off is_ipv6) in
  return_if (0 <=? action) action ;;
  let! p := gets pckt in
  let protocol := proto (flow p) in
  inline_decap is_ipv6 protocol ;;
  parse_transport is_ipv6 protocol ;;
  let! vip_info := lookup_vip is_ipv6 in
  check_packet_size is_ipv6 ;;
  let! data_stats := lookup_stats (MAX_VIPS + LRU_CNTRS) in
  return_if (bool_decide (data_stats = None)) XDP_DROP ;;
  upd_stats (MAX_VIPS + LRU_CNTRS) (add_v1 1) ;;
  let! dst := route_quic vip_info is_ipv6 in
  let! p := gets pckt in
  let original_sport := port16_0 (flow p) in
  let! dst :=
    match dst with Some d => ret d | None => select_real vip_info is_ipv6 end in
  forward vip_info dst original_sport is_ipv6 pkt_bytes).

Definition balancer_ingress : func (xstate K) Z := run (
  let eth := 0 in
  let nh_off := sizeof_ethhdr in
  let! oob := past_end nh_off in
  return_if oob XDP_DROP ;;
  let! eth_proto := load16 (eth + eth_h_proto) in
  if eth_proto =? BE_ETH_P_IP then call (process_packet nh_off false)
  else if eth_proto =? BE_ETH_P_IPV6 then call (process_packet nh_off true)
  else ret XDP_PASS).
End balancer.

(** The deployment in which slot [RECIRCULATION_INDEX] of [subprograms] holds
    the balancer itself; [n] is the number of further tail calls the kernel
    allows, after which [bpf_tail_call] fails. *)
Fixpoint katran {K} `{BpfEnv K} `{BuildConfig} (n : nat) : func (xstate K) Z :=
  balancer_ingress (λ i,
    match n with
    | O => None
    | S n => if i =? RECIRCULATION_INDEX then Some (katran n) else None
    end).

(** Sixteen bytes are hashed out of sixteen. *)
Lemma get_packet_hash_total p b : ∃ h, get_packet_hash p b = Some h.
Proof.
  unfold get_packet_hash. destruct b; [|eauto].
  destruct (jhash_total (addr_bytes (srcv6 (flow p))) 16 INIT_JHASH_SEED_V6) as [h ->];
    [done|]. simpl. eauto.
Qed.
