(* ===== verification/Safety.v ===== *)
(** * Memory safety of the balancer

    [balancer_ingress] never faults: every load and store is inside the
    packet, every map value used was found, and the verdict is one of the
    three the driver understands. *)
From S2P Require Import Prelude Words Consts Structs Jhash Csum Headers FlowDebug Encap Parsing Icmp Frame SafetyLib Balancer.
Open Scope c_scope.

Create HintDb block.
#[export] Hint Constants Opaque : block.

(** A call that never faults, whatever the state it starts in: a verdict, in
    a state with the same control maps and the same counters. *)
Definition safe_prog {K} (f : func (xstate K) Z) : Prop := ∀ s, safe f verdict s.

Section safety.
Context {K : Type} `{BpfEnv K} `{BuildConfig}.
Implicit Types (s : xstate K).

(** *** Tables *)

Lemma fr_lru_lookup {R} r f QR (QN : option real_pos_lru → xstate K → Prop) s :
  (∀ o, QN o s) → wpb (R:=R) (lru_lookup r f) QR QN s.
Proof. intros HQ. apply wp_gets, HQ. Qed.

Lemma fr_set_lru r t s : frame s (set_lru r t s) ∧ pkt_len (set_lru r t s) = pkt_len s.
Proof. by destruct r, s. Qed.

Lemma fr_lru_write {R} r f g QR (QN : unit → xstate K → Prop) s :
  (∀ s', frame s s' → pkt_len s' = pkt_len s → QN tt s') →
  wpb (R:=R) (lru_write r f g) QR QN s.
Proof. intros HQ. apply wp_modify, HQ; apply fr_set_lru. Qed.

Lemma fr_lru_update {R} r f v QR (QN : unit → xstate K → Prop) s :
  (∀ s', frame s s' → pkt_len s' = pkt_len s → QN tt s') →
  wpb (R:=R) (lru_update r f v) QR QN s.
Proof.
  intros HQ. unfold wpb, lru_update. destruct (lru_hash_update _ _ _ _) as [t k].
  apply HQ; by destruct r, s.
Qed.

Ltac bal_step :=
  lazymatch goal with
  | |- wpb (lru_lookup _ _) _ _ _ => apply fr_lru_lookup; intros ?; cbv beta
  | |- wpb (lru_write _ _ _) _ _ _ => apply fr_lru_write; fr_intro
  | |- wpb (lru_update _ _ _) _ _ _ => apply fr_lru_update; fr_intro
  | |- _ => parse_step
  end.
Ltac bal_steps := repeat bal_step; try safe_done.

Lemma keeps_parse_hdr_opts n st s : 0 ≤ byte_offset st →
  keeps (parse_hdr_opts n st) (λ _, True) s.
Proof.
  revert st s. induction n as [|n IH]; intros st s Hst; simpl parse_hdr_opts; bal_steps.
  pose proof (keeps_parse_hdr_opt st s Hst) as Hp.
  eapply fr_call_keeps; [exact Hp|]. intros [err st'] s' ?? Hst'. bal_steps.
Qed.
#[local] Hint Resolve keeps_parse_hdr_opts : safe.
#[local] Hint Extern 1 (0 ≤ byte_offset _) => apply u8_range : safe.

Lemma keeps_tcp_hdr_opt_lookup v6 bypass r s :
  keeps (tcp_hdr_opt_lookup v6 bypass r) (λ _, True) s.
Proof.
  pose proof (calc_offset_range v6 false). unfold tcp_hdr_opt_lookup. cbv zeta.
  bal_steps.
Qed.

(** *** Routing *)

Lemma fr_hash {R} p b QR (QN : Z → xstate K → Prop) s :
  (∀ h, QN h s) → wpb (R:=R) (or_fault (get_packet_hash p b)) QR QN s.
Proof.
  intros HQ. destruct (get_packet_hash_total p b) as [h ->]. by apply wp_ret.
Qed.

Ltac route_step :=
  lazymatch goal with
  | |- wpb (or_fault (get_packet_hash _ _)) _ _ _ => apply fr_hash; intros ?; cbv beta
  | |- _ => bal_step
  end.
Ltac route_steps := repeat route_step; try safe_done.

Lemma keeps_is_under_flood s : keeps is_under_flood (λ _, True) s.
Proof. unfold is_under_flood. route_steps. Qed.
#[local] Hint Resolve keeps_is_under_flood : safe.
Lemma keeps_lookup_src_routing v v6 b s : keeps (lookup_src_routing v v6 b) (λ _, True) s.
Proof. unfold lookup_src_routing. route_steps. Qed.
#[local] Hint Resolve keeps_lookup_src_routing : safe.

(** A successful choice comes with a real. *)
Lemma keeps_get_packet_dst v v6 r s :
  keeps (get_packet_dst v v6 r) (λ r, r.1 = true → is_Some r.2) s.
Proof.
  unfold get_packet_dst. route_steps; try (split_and!; [safe_done..|]; done).
  all: (split_and!; [safe_done..|]; bool_hyps; intros _; by apply not_eq_None_Some).
Qed.
#[local] Hint Resolve keeps_get_packet_dst : safe.

Lemma keeps_conn_local r s :
  keeps (connection_table_lookup (ConnLocal r) false) (λ _, True) s.
Proof.
  unfold connection_table_lookup, conn_lookup, conn_set_atime. route_steps.
  destruct o; simplify_eq/=. route_steps.
Qed.
Lemma keeps_conn_global r s :
  keeps (connection_table_lookup r true) (λ _, True) s.
Proof. unfold connection_table_lookup, conn_lookup. destruct r; route_steps. Qed.
#[local] Hint Resolve keeps_conn_local keeps_conn_global : safe.

Lemma keeps_perform_global_lru_lookup cpu v v6 s :
  keeps (perform_global_lru_lookup cpu v v6) (λ r, action r.1) s.
Proof. unfold perform_global_lru_lookup. route_steps. Qed.

Lemma keeps_process_l3_headers off v6 s :
  0 ≤ off → keeps (process_l3_headers off v6) (λ r, action r.1) s.
Proof. intros. unfold process_l3_headers. route_steps. Qed.

Lemma keeps_check_decap_dst v6 s : keeps (check_decap_dst v6) (λ r, action r.1) s.
Proof. unfold check_decap_dst. route_steps. Qed.

Lemma keeps_submit_event id n b s : keeps (submit_event id n b) (λ _, True) s.
Proof. unfold submit_event. destruct b; route_steps; by repeat split. Qed.
#[local] Hint Resolve keeps_submit_event : safe.
Lemma keeps_REPORT_EVENT id n s : keeps (REPORT_EVENT id n) (λ _, True) s.
Proof. unfold REPORT_EVENT. route_steps. Qed.

Lemma keeps_quic_version n s : keeps (increment_quic_cid_version_stats n) (λ _, True) s.
Proof. unfold increment_quic_cid_version_stats. route_steps. Qed.
Lemma keeps_quic_no_real s : keeps increment_quic_cid_drop_no_real (λ _, True) s.
Proof. unfold increment_quic_cid_drop_no_real. route_steps. Qed.
Lemma keeps_quic_real_0 s : keeps increment_quic_cid_drop_real_0 (λ _, True) s.
Proof. unfold increment_quic_cid_drop_real_0. route_steps. Qed.

#[local] Hint Resolve keeps_perform_global_lru_lookup keeps_process_l3_headers
  keeps_check_decap_dst keeps_REPORT_EVENT keeps_quic_version keeps_quic_no_real
  keeps_quic_real_0 keeps_tcp_hdr_opt_lookup : safe.

(** *** The blocks of [process_packet]

    A block either returns a verdict or falls through with a value. *)
Definition safe_block {A} (m : body (xstate K) Z A) : Prop :=
  ∀ s, wpb m (λ r s', frame s s' ∧ verdict r) (λ _ s', frame s s') s.

Lemma fr_block {A} (m : body (xstate K) Z A) s0 (QN : A → xstate K → Prop) s :
  safe_block m → frame s0 s → (∀ a s', frame s0 s' → QN a s') →
  wpb m (λ r s', frame s0 s' ∧ verdict r) QN s.
Proof.
  intros Hm Hs HQ. eapply wpb_mono; [apply Hm|..]; cbv beta.
  - intros r s' [? ?]. split; [by etransitivity|done].
  - intros a s' ?. apply HQ. by etransitivity.
Qed.

Lemma block_lookup_vip v6 : safe_block (lookup_vip v6).
Proof. intros s. unfold lookup_vip. route_steps. Qed.
Lemma block_check_packet_size v6 : safe_block (check_packet_size v6).
Proof. intros s. unfold check_packet_size, REPORT_PACKET_TOOBIG. route_steps. Qed.
Lemma block_route_quic v v6 : safe_block (route_quic v v6).
Proof. intros s. unfold route_quic, REPORT_QUIC_PACKET_DROP_NO_REAL. route_steps. Qed.
Lemma block_choose_lru n : safe_block (choose_lru n).
Proof. intros s. unfold choose_lru. route_steps. Qed.
Lemma block_route_tcp_server_id v v6 r : safe_block (route_tcp_server_id v v6 r).
Proof. intros s. unfold route_tcp_server_id. route_steps. Qed.
Lemma block_route_lru v r d : safe_block (route_lru v r d).
Proof. intros s. unfold route_lru. route_steps. Qed.
Lemma block_route_global_lru v v6 n d : safe_block (route_global_lru v v6 n d).
Proof. intros s. unfold route_global_lru. route_steps. Qed.
Lemma block_route_ring v v6 r : safe_block (route_ring v v6 r).
Proof.
  intros s. unfold route_ring, REPORT_TCP_NONSYN_LRUMISS. route_steps.
  all: bool_hyps; simpl in *; subst;
    match goal with Hs : true = true → is_Some _ |- _ => destruct (Hs eq_refl) as [d ->] end;
    by eapply wp_or_fault.
Qed.
Lemma fr_forward v d sport v6 n s0 s :
  frame s0 s →
  wpb (forward v d sport v6 n) (λ r s', frame s0 s' ∧ verdict r)
    (λ r s', frame s0 s' ∧ verdict r) s.
Proof.
  intros. unfold forward, PCKT_ENCAP_V4, PCKT_ENCAP_V6. destruct GUE_ENCAP; route_steps.
Qed.

(** A block inside a block. *)
Ltac block_step :=
  lazymatch goal with
  | |- wpb ?m _ _ ?s =>
      let Hm := fresh in
      assert (safe_block m) as Hm by solve [eauto with block];
      first [apply (fr_block _ _ _ _ Hm); [first [reflexivity|assumption]|]
            |apply (fr_block _ _ _ _ Hm); [reflexivity|]];
      clear Hm; fr_intro_any
  end.
#[local] Hint Resolve block_lookup_vip block_check_packet_size block_route_quic block_choose_lru
  block_route_tcp_server_id block_route_lru block_route_global_lru block_route_ring
  : block.
Ltac pp_step := first
  [block_step | apply fr_forward; first [reflexivity|assumption] | route_step].
Ltac pp_steps := repeat pp_step; try safe_done.

Lemma block_select_real v v6 : safe_block (select_real v v6).
Proof. intros s. unfold select_real. pp_steps. Qed.
#[local] Hint Resolve block_select_real : block.

(** *** The program, over any contents of the tail-call map *)
Section balancer.
Variable subprograms : Z → option (func (xstate K) Z).
Hypothesis subprograms_safe : ∀ i f, subprograms i = Some f → safe_prog f.

Lemma safe_recirculate s : safe (recirculate subprograms) verdict s.
Proof.
  unfold recirculate. destruct (subprograms _) eqn:Hp.
  - by eapply subprograms_safe.
  - route_steps.
Qed.
#[local] Hint Resolve safe_recirculate : safe.

(** The uninitialised [action] is never read: the callers have checked the
    protocol. *)
Lemma safe_process_encaped_ipip v6 proto pass s :
  proto = IPPROTO_IPIP ∨ proto = IPPROTO_IPV6 →
  safe (process_encaped_ipip_pckt subprograms v6 proto pass) verdict s.
Proof.
  intros Hp. unfold process_encaped_ipip_pckt. route_steps.
Qed.
Lemma safe_process_encaped_gue v6 pass s :
  safe (process_encaped_gue_pckt subprograms v6 pass) verdict s.
Proof. unfold process_encaped_gue_pckt. route_steps. Qed.
#[local] Hint Resolve safe_process_encaped_gue : safe.

Lemma block_inline_decap v6 proto : safe_block (inline_decap subprograms v6 proto).
Proof.
  intros s. unfold inline_decap. wp_step; [|by repeat split].
  assert (proto = IPPROTO_IPIP ∨ proto = IPPROTO_IPV6) as Hp.
  { bool_hyps. apply orb_true_iff in H2. by rewrite !Z.eqb_eq in H2. }
  pose proof (safe_process_encaped_ipip v6 proto). route_steps.
Qed.
Lemma block_parse_transport v6 proto : safe_block (parse_transport subprograms v6 proto).
Proof. intros s. unfold parse_transport. route_steps. Qed.
#[local] Hint Resolve block_inline_decap block_parse_transport : block.

Lemma safe_process_packet off v6 s :
  0 ≤ off → safe (process_packet subprograms off v6) verdict s.
Proof. intros. unfold process_packet. pp_steps. Qed.
#[local] Hint Resolve safe_process_packet : safe.

Lemma safe_balancer : safe_prog (balancer_ingress subprograms).
Proof. intros s. unfold balancer_ingress. route_steps. Qed.
End balancer.

Lemma safe_katran n : safe_prog (katran n).
Proof.
  induction n as [|n IH]; simpl katran; apply safe_balancer; [done|].
  intros i f. by case_match; intros [= <-].
Qed.
End safety.

(** C1: the balancer never faults.  For every build configuration, every
    implementation of the kernel helpers, every state and every bound [n] on
    tail calls, [katran n] has a result: all loads and stores stay inside the
    packet, no map value is used that was not found, and the uninitialised
    [action] of [process_encaped_ipip_pckt] is not read.  The verdict is
    [XDP_DROP], [XDP_PASS] or [XDP_TX], and the control maps and the sets of
    counters are left as they were. *)
Theorem katran_safe {K} `{BpfEnv K} `{BuildConfig} (n : nat) (s : xstate K) :
  ∃ r s', katran n s = Some (r, s') ∧
    (r = XDP_DROP ∨ r = XDP_PASS ∨ r = XDP_TX) ∧
    ctl s' = ctl s ∧ dom (stats s') = dom (stats s) ∧
    dom (reals_stats s') = dom (reals_stats s).
Proof.
  destruct (wpf_elim _ _ _ (safe_katran n s)) as (r & s' & Hrun & [] & Hv). eauto 10.
Qed.
