(* ===== verification/Decap.v ===== *)
(** * The stand-alone decapsulator ([decap_kern.c])

    [xdpdecap] removes one layer of IPIP or GUE encapsulation and passes the
    inner packet to the kernel, counting what it sees. *)
From S2P Require Import Prelude Words Consts Structs Encap Parsing Frame SafetyLib.
Open Scope c_scope.

Definition add_decap_v4 (d : decap_stats) : decap_stats :=
  DecapStats (u64 (decap_v4_cnt d + 1)) (decap_v6_cnt d) (total d).
Definition add_decap_v6 (d : decap_stats) : decap_stats :=
  DecapStats (decap_v4_cnt d) (u64 (decap_v6_cnt d + 1)) (total d).
Definition add_total (d : decap_stats) : decap_stats :=
  DecapStats (decap_v4_cnt d) (decap_v6_cnt d) (u64 (total d + 1)).

Section decap.
Context {K : Type} `{BpfEnv K} `{BuildConfig}.

Definition upd_decap_counters {R} (key : Z) (f : decap_stats → decap_stats) :
    body (xstate K) R unit :=
  modify (λ s, with_decap_counters (alter f key (decap_counters s)) s).

(** The action; the protocol is left in the packet description and
    [*pkt_bytes] is not used by the caller. *)
Definition process_l3_headers (off : Z) (is_ipv6 : bool) : func (xstate K) Z := run (
  if is_ipv6 then
    let ip6h := off in
    let! oob := past_end (ip6h + sizeof_ipv6hdr) in
    return_if oob XDP_DROP ;;
    let! protocol := load8 (ip6h + ip6_nexthdr) in
    upd_flow (set_proto protocol) ;;
    return_if (protocol =? IPPROTO_FRAGMENT) XDP_DROP ;;
    ret FURTHER_PROCESSING
  else
    let iph := off in
    let! oob := past_end (iph + sizeof_iphdr) in
    return_if oob XDP_DROP ;;
    let! verihl := load8 (iph + ip_verihl) in
    return_if (negb (Z.land verihl 15 =? 5)) XDP_DROP ;;
    let! protocol := load8 (iph + ip_protocol) in
    upd_flow (set_proto protocol) ;;
    let! frag_off := load16 (iph + ip_frag_off) in
    return_if (has_flag frag_off PCKT_FRAGMENTED) XDP_DROP ;;
    ret FURTHER_PROCESSING).

Definition process_encaped_ipip_pckt (is_ipv6 : bool) (protocol : Z) :
    func (xstate K) Z := run (
  (if protocol =? IPPROTO_IPIP then
     if is_ipv6 then
       let! oob := past_end (sizeof_ipv6hdr + sizeof_ethhdr) in
       return_if oob XDP_DROP ;;
       let! ok := call (decap_v6 true) in
       return_if (negb ok) XDP_DROP
     else
       let! oob := past_end (sizeof_iphdr + sizeof_ethhdr) in
       return_if oob XDP_DROP ;;
       let! ok := call decap_v4 in
       return_if (negb ok) XDP_DROP
   else when (protocol =? IPPROTO_IPV6)
     (let! oob := past_end (sizeof_ipv6hdr + sizeof_ethhdr) in
      return_if oob XDP_DROP ;;
      let! ok := call (decap_v6 false) in
      return_if (negb ok) XDP_DROP)) ;;
  ret FURTHER_PROCESSING).

Definition process_encaped_gue_pckt (is_ipv6 : bool) : func (xstate K) Z := run (
  (if is_ipv6 then
     let offset := sizeof_ipv6hdr + sizeof_ethhdr + sizeof_udphdr in
     let! oob := past_end (offset + 1) in
     return_if oob XDP_DROP ;;
     let! v6 := load8 offset in
     let v6 := Z.land v6 GUEV1_IPV6MASK in
     if negb (v6 =? 0) then
       let! ok := call (gue_decap_v6 false) in
       return_if (negb ok) XDP_DROP
     else
       let! ok := call (gue_decap_v6 true) in
       return_if (negb ok) XDP_DROP
   else
     let offset := sizeof_iphdr + sizeof_ethhdr + sizeof_udphdr in
     let! oob := past_end offset in
     return_if oob XDP_DROP ;;
     let! ok := call gue_decap_v4 in
     return_if (negb ok) XDP_DROP) ;;
  ret FURTHER_PROCESSING).

Definition process_packet (off : Z) (is_ipv6 : bool) : func (xstate K) Z := run (
  upd_pckt (λ _, pckt_zero) ;;
  let key := 0 in
  let! action := call (process_l3_headers off is_ipv6) in
  return_if (0 <=? action) action ;;
  let! p := gets pckt in
  let protocol := proto (flow p) in
  let! data_stats := gets (λ s, decap_counters s !! key) in
  return_if (bool_decide (data_stats = None)) XDP_PASS ;;
  upd_decap_counters key add_total ;;
  (if (protocol =? IPPROTO_IPIP) || (protocol =? IPPROTO_IPV6) then
     upd_decap_counters key (if is_ipv6 then add_decap_v6 else add_decap_v4) ;;
     let! action := call (process_encaped_ipip_pckt is_ipv6 protocol) in
     return_if (0 <=? action) action
   else when (INLINE_DECAP_GUE && (protocol =? IPPROTO_UDP))
     (let! ok := call (parse_udp is_ipv6) in
      return_if (negb ok) XDP_PASS ;;
      let! p := gets pckt in
      when (port16_1 (flow p) =? bpf_htons GUE_DPORT)
        (upd_decap_counters key (if is_ipv6 then add_decap_v6 else add_decap_v4) ;;
         let! action := call (process_encaped_gue_pckt is_ipv6) in
         return_if (0 <=? action) action))) ;;
  ret XDP_PASS).

Definition xdpdecap : func (xstate K) Z := run (
  let eth := 0 in
  let nh_off := sizeof_ethhdr in
  let! oob := past_end nh_off in
  return_if oob XDP_DROP ;;
  let! eth_proto := load16 (eth + eth_h_proto) in
  if eth_proto =? BE_ETH_P_IP then call (process_packet nh_off false)
  else if eth_proto =? BE_ETH_P_IPV6 then call (process_packet nh_off true)
  else ret XDP_PASS).

(** [x.c]: a wrapper that calls the decapsulator. *)
Definition xdp_prog_simple : func (xstate K) Z := xdpdecap.

(** ** Safety *)

Lemma fr_upd_decap_counters {R} key f (QR : R → _ → Prop) (QN : unit → xstate K → Prop) s :
  (∀ s', frame s s' → pkt_len s' = pkt_len s → QN tt s') →
  wpb (upd_decap_counters key f) QR QN s.
Proof. intros HQ. apply wp_modify, HQ; [|done]. split; try done. apply dom_alter_L. Qed.

Ltac decap_step :=
  lazymatch goal with
  | |- wpb (upd_decap_counters _ _) _ _ _ => apply fr_upd_decap_counters; fr_intro
  | |- _ => parse_step
  end.
Ltac decap_steps := repeat decap_step; try safe_done.

Lemma keeps_decap_l3_headers off v6 s :
  0 ≤ off → keeps (process_l3_headers off v6) action s.
Proof. intros. unfold process_l3_headers. decap_steps. Qed.
Lemma safe_decap_encaped_ipip v6 proto s :
  safe (process_encaped_ipip_pckt v6 proto) action s.
Proof. unfold process_encaped_ipip_pckt. decap_steps. Qed.
Lemma safe_decap_encaped_gue v6 s : safe (process_encaped_gue_pckt v6) action s.
Proof. unfold process_encaped_gue_pckt. decap_steps. Qed.
#[local] Hint Resolve keeps_decap_l3_headers safe_decap_encaped_ipip
  safe_decap_encaped_gue : safe.
Lemma safe_decap_packet off v6 s : 0 ≤ off → safe (process_packet off v6) verdict s.
Proof. intros. unfold process_packet. decap_steps. Qed.
#[local] Hint Resolve safe_decap_packet : safe.

Lemma safe_xdpdecap s : safe xdpdecap verdict s.
Proof. unfold xdpdecap. decap_steps. Qed.
End decap.
