(* ===== verification/Healthcheck.v ===== *)
(** * Health-check encapsulation ([healthchecking_kern.c],
      [healthchecking_helpers.h], [healthchecking_ipip.c])

    The tc programs that tunnel the health checks of the local host to the
    real they probe, selected by the socket mark.  [Encap] is the program that
    builds the outer headers itself, [Ipip] the one that leaves it to a tunnel
    device. *)
From S2P Require Import Prelude Words Consts Structs Csum Headers Frame SafetyLib.
Open Scope c_scope.

(** ** Constants ([healthchecking_consts.h], [bpf.h]) *)
Definition HC_MAIN_INTF_POSITION : Z := 3.
Definition REDIRECT_EGRESS : Z := 0.
Definition HC_MAX_PACKET_SIZE : Z := 1474.
Definition MAX_PACKET_SIZE : Z := 1474.
Definition GENERIC_STATS_INDEX : Z := 0.
Definition V6DADDR : Z := 1.
Definition HC_SRC_MAC_POS : Z := 0.
Definition HC_DST_MAC_POS : Z := 1.
Definition BPF_F_TUNINFO_IPV6 : Z := 1.

(** ** Structs and maps ([healthchecking_structs.h], [healthchecking_maps.h]) *)
Record hc_real_definition : Type := HcRealDefinition {
  hc_daddr : addr; hc_flags : Z
}.
Record hc_stats : Type := HcStats {
  pckts_processed : Z; pckts_dropped : Z; pckts_skipped : Z; pckts_too_big : Z
}.
Record hc_key : Type := HcKey { hck_addr : addr; hck_port : Z; hck_proto : Z }.
#[export] Instance hc_key_eq_dec : EqDecision hc_key.
Proof. solve_decision. Defined.
#[export] Instance hc_key_countable : Countable hc_key.
Proof.
  apply (inj_countable' (λ k, (hck_addr k, hck_port k, hck_proto k))
           (λ '(a, b, c), HcKey a b c)). by intros [].
Defined.
Record hc_mac : Type := HcMac { hc_mac_val : Z }.
Definition hc_mac_bytes (m : hc_mac) : list Z := le_bytes 6 (hc_mac_val m).

(** [struct bpf_tunnel_key], the fields the program sets. *)
Record bpf_tunnel_key : Type := BpfTunnelKey {
  remote : addr; tunnel_ttl : Z
}.

Record hc_control : Type := HcControl {
  hc_ctrl_map : gmap Z Z;
  hc_reals_map : gmap Z hc_real_definition;
  hc_pckt_srcs_map : gmap Z hc_real_definition;
  hc_pckt_macs : gmap Z hc_mac;
  hc_key_map : gmap hc_key Z
}.

(** The socket buffer ([skb_len] counts the whole packet, [skb_pkt] is its
    linear part), the maps, and what was asked of the kernel: the tunnel key
    attached to the packet and the redirections. *)
Record hstate (K : Type) : Type := HState {
  skb_pkt : mem;
  skb_len : Z;
  skb_mark : Z;
  hctl : hc_control;
  hc_stats_map : gmap Z hc_stats;
  per_hckey_stats : gmap Z Z;
  tunnel_key : option (bpf_tunnel_key * Z);
  redirects : list (Z * Z);
  hkern : K
}.
Arguments HState {K}.
Arguments skb_pkt {K}. Arguments skb_len {K}. Arguments skb_mark {K}.
Arguments hctl {K}. Arguments hc_stats_map {K}. Arguments per_hckey_stats {K}.
Arguments tunnel_key {K}. Arguments redirects {K}. Arguments hkern {K}.

Section updates.
Context {K : Type}.
Implicit Types s : hstate K.

Definition with_skb_pkt (x : mem) s : hstate K :=
  HState x (skb_len s) (skb_mark s) (hctl s) (hc_stats_map s) (per_hckey_stats s)
    (tunnel_key s) (redirects s) (hkern s).
Definition with_skb (x : mem) (n : Z) (k : K) s : hstate K :=
  HState x n (skb_mark s) (hctl s) (hc_stats_map s) (per_hckey_stats s)
    (tunnel_key s) (redirects s) k.
Definition with_mark (x : Z) s : hstate K :=
  HState (skb_pkt s) (skb_len s) x (hctl s) (hc_stats_map s) (per_hckey_stats s)
    (tunnel_key s) (redirects s) (hkern s).
Definition with_hc_stats (x : gmap Z hc_stats) s : hstate K :=
  HState (skb_pkt s) (skb_len s) (skb_mark s) (hctl s) x (per_hckey_stats s)
    (tunnel_key s) (redirects s) (hkern s).
Definition with_hckey_stats (x : gmap Z Z) s : hstate K :=
  HState (skb_pkt s) (skb_len s) (skb_mark s) (hctl s) (hc_stats_map s) x
    (tunnel_key s) (redirects s) (hkern s).
Definition with_tunnel (x : option (bpf_tunnel_key * Z)) (k : K) s : hstate K :=
  HState (skb_pkt s) (skb_len s) (skb_mark s) (hctl s) (hc_stats_map s)
    (per_hckey_stats s) x (redirects s) k.
Definition with_redirects (x : list (Z * Z)) (k : K) s : hstate K :=
  HState (skb_pkt s) (skb_len s) (skb_mark s) (hctl s) (hc_stats_map s)
    (per_hckey_stats s) (tunnel_key s) x k.
End updates.

#[export] Instance hstate_pkt_state K : PktState (hstate K) :=
  {| get_pkt := skb_pkt; set_pkt := with_skb_pkt |}.
#[export] Instance hstate_pkt_laws K : PktStateLaws (hstate K).
Proof. split; [done..|]. by intros []. Qed.

(** The kernel helpers of the tc programs; [bpf_skb_adjust_room] gives [None]
    for an error, or the new linear part and length. *)
Class HcEnv (K : Type) : Type := {
  bpf_skb_adjust_room : Z → Z → mem → Z → K → option (mem * Z) * K;
  bpf_skb_set_tunnel_key : bpf_tunnel_key → Z → K → Z * K;
  bpf_redirect : Z → Z → K → Z * K
}.

(** Documented behaviour of [bpf_skb_adjust_room] in mode
    [BPF_ADJ_ROOM_MAC]: the room is added behind the Ethernet header. *)
Class HcEnvLaws (K : Type) `{HcEnv K} : Prop := {
  adjust_room_grow n flags m len k m' len' k' :
    0 < n → 14 ≤ Z.of_nat (length m) → bytes_ok m →
    bpf_skb_adjust_room n flags m len k = (Some (m', len'), k') →
    ∃ room, m' = take 14 m ++ room ++ drop 14 m ∧
      Z.of_nat (length room) = n ∧ bytes_ok room ∧ len' = len + n
}.

Definition add_processed (d : hc_stats) : hc_stats :=
  HcStats (u64 (pckts_processed d + 1)) (pckts_dropped d) (pckts_skipped d) (pckts_too_big d).
Definition add_dropped (d : hc_stats) : hc_stats :=
  HcStats (pckts_processed d) (u64 (pckts_dropped d + 1)) (pckts_skipped d) (pckts_too_big d).
Definition add_skipped (d : hc_stats) : hc_stats :=
  HcStats (pckts_processed d) (pckts_dropped d) (u64 (pckts_skipped d + 1)) (pckts_too_big d).
Definition add_too_big (d : hc_stats) : hc_stats :=
  HcStats (pckts_processed d) (pckts_dropped d) (pckts_skipped d) (u64 (pckts_too_big d + 1)).

(** [*p += 1] through a [__u32 *] that points to a [__u64]: the low word is
    incremented, without carry into the high word. *)
Definition incr_low32 (x : Z) : Z := x - u32 x + u32 (u32 x + 1).

Section healthcheck.
Context {K : Type} `{HcEnv K} {R : Type}.

Definition upd_hc_stats (f : hc_stats → hc_stats) : body (hstate K) R unit :=
  modify (λ s, with_hc_stats (alter f GENERIC_STATS_INDEX (hc_stats_map s)) s).
Definition skb_adjust_room (n flags : Z) : body (hstate K) R bool :=
  λ s, match bpf_skb_adjust_room n flags (skb_pkt s) (skb_len s) (hkern s) with
       | (Some (m, len), k) => Next false (with_skb m len k s)
       | (None, k) => Next true (with_skb (skb_pkt s) (skb_len s) k s)
       end.
Definition skb_set_tunnel_key (t : bpf_tunnel_key) (flags : Z) : body (hstate K) R Z :=
  λ s, let '(r, k) := bpf_skb_set_tunnel_key t flags (hkern s) in
       Next r (with_tunnel (Some (t, flags)) k s).
Definition redirect (ifindex flags : Z) : body (hstate K) R Z :=
  λ s, let '(r, k) := bpf_redirect ifindex flags (hkern s) in
       Next r (with_redirects (redirects s ++ [(ifindex, flags)]) k s).
End healthcheck.

(** ** [healthchecking_helpers.h] and [healthchecking_kern.c] *)
Section encap.
Context {K : Type} `{HcEnv K} `{BuildConfig}.

(** The result and [*hckey] (zero on entry). *)
Definition set_hc_key (is_ipv6 : bool) : func (hstate K) (bool * hc_key) := run (
  let iphdr := sizeof_ethhdr in
  let! (transport_hdr, hckey) :=
    if is_ipv6 then
      let! oob := past_end (iphdr + sizeof_ipv6hdr) in
      return_if oob (false, HcKey addr_zero 0 0) ;;
      let! daddr := load_bytes (iphdr + ip6_daddr) 16 in
      let! nexthdr := load8 (iphdr + ip6_nexthdr) in
      ret (iphdr + sizeof_ipv6hdr, HcKey (addr_of_bytes daddr) 0 nexthdr)
    else
      let! oob := past_end (iphdr + sizeof_iphdr) in
      return_if oob (false, HcKey addr_zero 0 0) ;;
      let! daddr := load32 (iphdr + ip_daddr) in
      let! protocol := load8 (iphdr + ip_protocol) in
      ret (iphdr + sizeof_iphdr, HcKey (set_w0 daddr addr_zero) 0 protocol) in
  if hck_proto hckey =? IPPROTO_TCP then
    let! oob := past_end (transport_hdr + sizeof_tcphdr) in
    return_if oob (false, hckey) ;;
    let! dest := load16 (transport_hdr + tcp_dest) in
    ret (true, HcKey (hck_addr hckey) dest (hck_proto hckey))
  else if hck_proto hckey =? IPPROTO_UDP then
    let! oob := past_end (transport_hdr + sizeof_udphdr) in
    return_if oob (false, hckey) ;;
    let! dest := load16 (transport_hdr + udp_dest) in
    ret (true, HcKey (hck_addr hckey) dest (hck_proto hckey))
  else ret (false, hckey)).

Definition hc_encap_ipip (real : hc_real_definition) (is_ipv6 : bool) :
    func (hstate K) bool := run (
  let! len := gets skb_len in
  let pkt_len := u16 (len - sizeof_ethhdr) in
  if hc_flags real =? V6DADDR then
    let! src := gets (λ s, hc_pckt_srcs_map (hctl s) !! V6_SRC_INDEX) in
    let! src := or_return src false in
    let flags := Z.lor BPF_F_ADJ_ROOM_FIXED_GSO BPF_F_ADJ_ROOM_ENCAP_L3_IPV6 in
    let adjust_len := sizeof_ipv6hdr in
    let! err := skb_adjust_room adjust_len flags in
    return_if err false ;;
    let! oob := past_end (sizeof_ethhdr + sizeof_ipv6hdr) in
    return_if oob false ;;
    store16 eth_h_proto BE_ETH_P_IPV6 ;;
    let ip6h := sizeof_ethhdr in
    let proto := if negb is_ipv6 then IPPROTO_IPIP else IPPROTO_IPV6 in
    call (create_v6_hdr ip6h DEFAULT_TOS (hc_daddr src) (hc_daddr real) pkt_len proto) ;;
    ret true
  else
    let! src := gets (λ s, hc_pckt_srcs_map (hctl s) !! V4_SRC_INDEX) in
    let! src := or_return src false in
    let flags := Z.lor BPF_F_ADJ_ROOM_FIXED_GSO BPF_F_ADJ_ROOM_ENCAP_L3_IPV4 in
    let adjust_len := sizeof_iphdr in
    let! err := skb_adjust_room adjust_len flags in
    return_if err false ;;
    let! oob := past_end (sizeof_ethhdr + sizeof_iphdr) in
    return_if oob false ;;
    let iph := sizeof_ethhdr in
    call (create_v4_hdr iph DEFAULT_TOS (w0 (hc_daddr src)) (w0 (hc_daddr real))
            pkt_len IPPROTO_IPIP) ;;
    ret true).

Definition gue_sport (seed : Z) : Z :=
  u16 (Z.land (Z.lxor seed (Z.shiftr seed 16)) 65535).

Definition hc_encap_gue (real : hc_real_definition) (is_ipv6 : bool) :
    func (hstate K) bool := run (
  let! len := gets skb_len in
  let pkt_len := u16 (len - sizeof_ethhdr) in
  if hc_flags real =? V6DADDR then
    let sport := gue_sport (Z.lor (w0 (hc_daddr real)) (w3 (hc_daddr real))) in
    let! src := gets (λ s, hc_pckt_srcs_map (hctl s) !! V6_SRC_INDEX) in
    let! src := or_return src false in
    let flags := Z.lor (Z.lor BPF_F_ADJ_ROOM_FIXED_GSO BPF_F_ADJ_ROOM_ENCAP_L3_IPV6)
                   BPF_F_ADJ_ROOM_ENCAP_L4_UDP in
    let adjust_len := sizeof_ipv6hdr + sizeof_udphdr in
    let! err := skb_adjust_room adjust_len flags in
    return_if err false ;;
    let! oob := past_end (sizeof_ethhdr + sizeof_ipv6hdr + sizeof_udphdr) in
    return_if oob false ;;
    store16 eth_h_proto BE_ETH_P_IPV6 ;;
    let ip6h := sizeof_ethhdr in
    let udph := ip6h + sizeof_ipv6hdr in
    let pkt_len := u16 (pkt_len + sizeof_udphdr) in
    call (create_udp_hdr udph sport GUE_DPORT pkt_len GUE_CSUM) ;;
    call (create_v6_hdr ip6h DEFAULT_TOS (hc_daddr src) (hc_daddr real) pkt_len
            IPPROTO_UDP) ;;
    ret true
  else
    let sport := gue_sport (w0 (hc_daddr real)) in
    let! src := gets (λ s, hc_pckt_srcs_map (hctl s) !! V4_SRC_INDEX) in
    let! src := or_return src false in
    let flags := Z.lor (Z.lor BPF_F_ADJ_ROOM_FIXED_GSO BPF_F_ADJ_ROOM_ENCAP_L3_IPV4)
                   BPF_F_ADJ_ROOM_ENCAP_L4_UDP in
    let adjust_len := sizeof_iphdr + sizeof_udphdr in
    let! err := skb_adjust_room adjust_len flags in
    return_if err false ;;
    let! oob := past_end (sizeof_ethhdr + sizeof_iphdr + sizeof_udphdr) in
    return_if oob false ;;
    let iph := sizeof_ethhdr in
    let udph := iph + sizeof_iphdr in
    let pkt_len := u16 (pkt_len + sizeof_udphdr) in
    call (create_udp_hdr udph sport GUE_DPORT pkt_len GUE_CSUM) ;;
    call (create_v4_hdr iph DEFAULT_TOS (w0 (hc_daddr src)) (w0 (hc_daddr real))
            pkt_len IPPROTO_UDP) ;;
    ret true).

Definition HC_ENCAP := if GUE_ENCAP then hc_encap_gue else hc_encap_ipip.

(** Counting the packet under its (address, port, protocol) key. *)
Definition count_hc_key (hckey : hc_key) : func (hstate K) unit := run (
  let! index := gets (λ s, hc_key_map (hctl s) !! hckey) in
  let! index := or_return index tt in
  modify (λ s, with_hckey_stats (alter incr_low32 index (per_hckey_stats s)) s)).

Definition drop_packet {A} : body (hstate K) Z A :=
  upd_hc_stats add_dropped ;; return_ TC_ACT_SHOT.

(** [if (!p) { pckts_dropped += 1; return TC_ACT_SHOT; }] *)
Definition or_drop {A} (o : option A) : body (hstate K) Z A :=
  match o with Some a => ret a | None => drop_packet end.

Definition healthcheck_encap : func (hstate K) Z := run (
  let! somark := gets skb_mark in
  let! prog_stats := gets (λ s, hc_stats_map s !! GENERIC_STATS_INDEX) in
  return_if (bool_decide (prog_stats = None)) TC_ACT_UNSPEC ;;
  when (somark =? 0) (upd_hc_stats add_skipped ;; return_ TC_ACT_UNSPEC) ;;
  let! real := gets (λ s, hc_reals_map (hctl s) !! somark) in
  let! real :=
    match real with
    | Some real => ret real
    | None => upd_hc_stats add_skipped ;; return_ TC_ACT_UNSPEC
    end in
  let! len := gets skb_len in
  when ((0 <? HC_MAX_PACKET_SIZE) && (HC_MAX_PACKET_SIZE <? len))
    (upd_hc_stats add_dropped ;; upd_hc_stats add_too_big ;; return_ TC_ACT_SHOT) ;;
  let! intf_ifindex := gets (λ s, hc_ctrl_map (hctl s) !! HC_MAIN_INTF_POSITION) in
  let! intf_ifindex := or_drop intf_ifindex in
  let! esrc := gets (λ s, hc_pckt_macs (hctl s) !! HC_SRC_MAC_POS) in
  let! esrc := or_drop esrc in
  let! edst := gets (λ s, hc_pckt_macs (hctl s) !! HC_DST_MAC_POS) in
  let! edst := or_drop edst in
  let! oob := past_end sizeof_ethhdr in
  when oob drop_packet ;;
  let! h_proto := load16 eth_h_proto in
  let is_ipv6 := h_proto =? BE_ETH_P_IPV6 in
  let! (hc_key_parseable, hckey) := call (set_hc_key is_ipv6) in
  modify (with_mark 0) ;;
  let! ok := call (HC_ENCAP real is_ipv6) in
  when (negb ok) drop_packet ;;
  let! oob := past_end sizeof_ethhdr in
  when oob drop_packet ;;
  store_bytes eth_h_source (hc_mac_bytes esrc) ;;
  store_bytes eth_h_dest (hc_mac_bytes edst) ;;
  upd_hc_stats add_processed ;;
  when hc_key_parseable (call (count_hc_key hckey)) ;;
  redirect intf_ifindex REDIRECT_EGRESS).
End encap.

(** ** [healthchecking_ipip.c] *)
Module Ipip.
Section ipip.
Context {K : Type} `{HcEnv K}.

Definition healthcheck_encap : func (hstate K) Z := run (
let! somark := gets skb_mark in
let v4_intf_pos := 1 in
let v6_intf_pos := 2 in
let! prog_stats := gets (λ s, hc_stats_map s !! GENERIC_STATS_INDEX) in
return_if (bool_decide (prog_stats = None)) TC_ACT_UNSPEC ;;
let! mark := gets skb_mark in
when (mark =? 0) (upd_hc_stats add_skipped ;; return_ TC_ACT_UNSPEC) ;;
let! real := gets (λ s, hc_reals_map (hctl s) !! somark) in
let! real :=
  match real with
  | Some real => ret real
  | None => upd_hc_stats add_skipped ;; return_ TC_ACT_UNSPEC
  end in
let! len := gets skb_len in
when (MAX_PACKET_SIZE <? len)
  (upd_hc_stats add_dropped ;; upd_hc_stats add_too_big ;; return_ TC_ACT_SHOT) ;;
let! v4_intf_ifindex := gets (λ s, hc_ctrl_map (hctl s) !! v4_intf_pos) in
let! v4_intf_ifindex := or_drop v4_intf_ifindex in
let! v6_intf_ifindex := gets (λ s, hc_ctrl_map (hctl s) !! v6_intf_pos) in
let! v6_intf_ifindex := or_drop v6_intf_ifindex in
modify (with_mark 0) ;;
let '(tun_flag, remote, ifindex) :=
  if hc_flags real =? V6DADDR then
    (BPF_F_TUNINFO_IPV6, hc_daddr real, v6_intf_ifindex)
  else (0, set_w0 (w0 (hc_daddr real)) addr_zero, v4_intf_ifindex) in
upd_hc_stats add_processed ;;
let! _ := skb_set_tunnel_key (BpfTunnelKey remote DEFAULT_TTL) tun_flag in
redirect ifindex REDIRECT_EGRESS).
End ipip.
End Ipip.

(** ** Safety

    Building the outer headers changes the packet and nothing else. *)
Record hframe {K} (s s' : hstate K) : Prop := {
  hf_mark : skb_mark s' = skb_mark s;
  hf_ctl : hctl s' = hctl s;
  hf_stats : hc_stats_map s' = hc_stats_map s;
  hf_key_stats : per_hckey_stats s' = per_hckey_stats s;
  hf_tunnel : tunnel_key s' = tunnel_key s;
  hf_redirects : redirects s' = redirects s
}.
#[export] Instance hstate_frame K : MemFrame (hstate K).
Proof.
  refine {| frame := hframe |}; [split|].
  - by intros s.
  - intros s1 s2 s3 [] []. split; congruence.
  - by intros m [].
Defined.

Section safety.
Context {K : Type} `{HcEnv K} `{BuildConfig}.
Implicit Types (s : hstate K).

Lemma fr_skb_adjust_room {R} n flags QR (QN : bool → hstate K → Prop) s :
  (∀ b s', frame s s' → QN b s') → wpb (R:=R) (skb_adjust_room n flags) QR QN s.
Proof.
  intros HQ. unfold wpb, skb_adjust_room.
  destruct (bpf_skb_adjust_room _ _ _ _ _) as [[[m len]|] k]; by apply HQ; destruct s.
Qed.

Ltac hc_step :=
  lazymatch goal with
  | |- wpb (skb_adjust_room _ _) _ _ _ => apply fr_skb_adjust_room; fr_intro_any
  | |- _ => safe_step
  end.
Ltac hc_steps := repeat hc_step; try safe_done.

Lemma keeps_set_hc_key v6 s : keeps (set_hc_key v6) (λ _, True) s.
Proof. unfold set_hc_key. destruct v6; hc_steps. Qed.
Lemma safe_hc_encap_ipip real v6 s : safe (hc_encap_ipip real v6) (λ _, True) s.
Proof. unfold hc_encap_ipip. hc_steps. Qed.
Lemma safe_hc_encap_gue real v6 s : safe (hc_encap_gue real v6) (λ _, True) s.
Proof. unfold hc_encap_gue. hc_steps. Qed.
Lemma safe_HC_ENCAP real v6 s : safe (HC_ENCAP real v6) (λ _, True) s.
Proof.
  unfold HC_ENCAP. destruct GUE_ENCAP; [apply safe_hc_encap_gue|apply safe_hc_encap_ipip].
Qed.
End safety.
