(* ===== verification/Root.v ===== *)
(** * Small XDP programs ([xdp_root.c], [xdp_pktcntr.c])

    The root program that chains up to three programs by tail calls, and the
    packet counter. *)
From S2P Require Import Prelude Words Consts.
Open Scope c_scope.

Definition ROOT_ARRAY_SIZE : nat := 3.

Section root.
Context {S : Type}.
Variable root_array : Z → option (func S Z).

(** The loop from [i] on, [n] iterations to go: a tail call that succeeds
    does not come back. *)
Fixpoint root_loop (n : nat) (i : Z) : func S Z :=
  match n with
  | O => run (ret XDP_PASS)
  | Datatypes.S n =>
      match root_array i with
      | Some prog => prog
      | None => root_loop n (i + 1)
      end
  end.

Definition xdp_root : func S Z := root_loop ROOT_ARRAY_SIZE 0.
Definition xdp_val : func S Z := root_loop ROOT_ARRAY_SIZE 0.

(** The program that runs is the one in the first occupied slot. *)
Lemma root_loop_first n i j prog :
  0 ≤ j < Z.of_nat n → root_array (i + j) = Some prog →
  (∀ k, 0 ≤ k < j → root_array (i + k) = None) → root_loop n i = prog.
Proof.
  revert i j. induction n as [|n IH]; intros i j Hj Hp Hn; [lia|]. simpl.
  destruct (decide (j = 0)) as [->|].
  - rewrite Z.add_0_r in Hp. by rewrite Hp.
  - pose proof (Hn 0 ltac:(lia)) as H0. rewrite Z.add_0_r in H0. rewrite H0.
    apply (IH (i + 1) (j - 1)); [lia|by rewrite <-Hp; f_equal; lia|].
    intros k Hk. rewrite <-(Hn (k + 1)) by lia. f_equal. lia.
Qed.

Lemma root_loop_empty n i :
  (∀ k, 0 ≤ k < Z.of_nat n → root_array (i + k) = None) →
  root_loop n i = run (ret XDP_PASS).
Proof.
  revert i. induction n as [|n IH]; intros i Hn; simpl; [done|].
  pose proof (Hn 0 ltac:(lia)) as H0. rewrite Z.add_0_r in H0. rewrite H0.
  apply IH. intros k Hk. rewrite <-(Hn (k + 1)) by lia. f_equal. lia.
Qed.
End root.

(** ** [xdp_pktcntr.c] *)
Record pktcntr_state : Type := PktcntrState {
  cntr_ctl_array : gmap Z Z;
  cntrs_array : gmap Z Z
}.

Definition pktcntr : func pktcntr_state Z := run (
  let! flag := gets (λ s, cntr_ctl_array s !! 0) in
  let! flag := or_return flag XDP_PASS in
  return_if (flag =? 0) XDP_PASS ;;
  let! cntr_val := gets (λ s, cntrs_array s !! 0) in
  when (bool_decide (is_Some cntr_val))
    (modify (λ s, PktcntrState (cntr_ctl_array s)
       (alter (λ v, u64 (v + 1)) 0 (cntrs_array s)))) ;;
  ret XDP_PASS).
