(* ===== verification/RefKernel.v ===== *)
(** * A reference kernel

    One implementation of the helper interfaces that has the documented
    behaviour: [BpfEnvLaws] and [HcEnvLaws] hold of it, so the theorems that
    assume them are not vacuous, and the programs can be run on it.  Time
    advances by one second per call of [bpf_ktime_get_ns]; a push always finds
    headroom; the tables never evict; only full-length prefixes are looked up
    in the LPM tries. *)
From S2P Require Import Prelude Words Consts Structs Healthcheck.

Record refk : Type := RefK { clock : Z; cpu : Z }.

Definition ref_adjust_head (n : Z) (m : list Z) (k : refk) : option (list Z) * refk :=
  if n <? 0 then (Some (repeat 0 (Z.to_nat (- n)) ++ m), k)
  else if n <=? Z.of_nat (length m) then (Some (drop (Z.to_nat n) m), k)
  else (None, k).
Definition ref_adjust_tail (n : Z) (m : list Z) (k : refk) : option (list Z) * refk :=
  if 0 <? n then (None, k)
  else if - n <=? Z.of_nat (length m)
  then (Some (take (length m - Z.to_nat (- n)) m), k)
  else (None, k).
Definition ref_csum_diff (from to : list Z) (seed : Z) : Z :=
  (seed + sum16 to - sum16 from) mod 65535.

#[export] Instance ref_env : BpfEnv refk := {
  bpf_ktime_get_ns k := (clock k mod 2 ^ 64, RefK (clock k + ONE_SEC) (cpu k));
  bpf_get_smp_processor_id := cpu;
  bpf_xdp_adjust_head := ref_adjust_head;
  bpf_xdp_adjust_tail := ref_adjust_tail;
  bpf_csum_diff := ref_csum_diff;
  lru_hash_update f v t k := (<[f := v]> t, k);
  lpm_lookup_v4 t k := t !! k;
  lpm_lookup_v6 t k := t !! k
}.

Lemma zeros_ok n : bytes_ok (repeat 0 n).
Proof. induction n; simpl; by constructor. Qed.

#[export] Instance ref_env_laws : BpfEnvLaws refk.
Proof.
  split; simpl.
  - intros k. by apply Z.mod_pos_bound.
  - intros n m k m' k' Hn. unfold ref_adjust_head. rewrite (proj2 (Z.ltb_lt _ 0)) by lia.
    intros [= <- <-]. rewrite Z.opp_involutive. eexists. split; [done|].
    rewrite repeat_length. split; [lia|apply zeros_ok].
  - intros n m k m' k' Hn. unfold ref_adjust_head. rewrite (proj2 (Z.ltb_ge _ 0)) by lia.
    destruct (Z.leb_spec n (Z.of_nat (length m))); [|done]. by intros [= <- <-].
  - intros n m k m' k' Hn. unfold ref_adjust_tail. rewrite (proj2 (Z.ltb_ge 0 _)) by lia.
    rewrite Z.opp_involutive.
    destruct (Z.leb_spec n (Z.of_nat (length m))); [|done]. by intros [= <- <-].
  - intros from to seed _ _ _ _ _ _. unfold ref_csum_diff. split.
    + pose proof (Z.mod_pos_bound (seed + sum16 to - sum16 from) 65535). lia.
    + by rewrite Z.mod_mod.
  - intros. left. by rewrite lookup_insert_eq.
  - intros k v t κ k' v' Hne. by rewrite lookup_insert_ne.
Qed.

#[export] Instance ref_hc_env : HcEnv refk := {
  bpf_skb_adjust_room n _ m len k :=
    (Some (take 14 m ++ repeat 0 (Z.to_nat n) ++ drop 14 m, len + n), k);
  bpf_skb_set_tunnel_key _ _ k := (0, k);
  bpf_redirect _ _ k := (7, k)
}.

#[export] Instance ref_hc_env_laws : HcEnvLaws refk.
Proof.
  split. intros n flags m len k m' len' k' Hn _ _ [= <- <- <-].
  eexists. split; [done|]. rewrite repeat_length.
  split_and!; [lia|apply zeros_ok|done].
Qed.

(** Every optional feature compiled out, and every one compiled in. *)
Definition cfg_default : BuildConfig := {|
  LPM_SRC_LOOKUP := false; D_INLINE_DECAP := false; D_INLINE_DECAP_IPIP := false;
  D_INLINE_DECAP_GENERIC := false; INLINE_DECAP_GUE := false;
  ICMP_TOOBIG_GENERATION := false; GUE_ENCAP := false; KATRAN_INTROSPECTION := false;
  LOCAL_DELIVERY_OPTIMIZATION := false; TCP_SERVER_ID_ROUTING := false;
  GLOBAL_LRU_LOOKUP := false; RECORD_FLOW_INFO := false |}.
Definition cfg_full : BuildConfig := {|
  LPM_SRC_LOOKUP := true; D_INLINE_DECAP := true; D_INLINE_DECAP_IPIP := true;
  D_INLINE_DECAP_GENERIC := true; INLINE_DECAP_GUE := true;
  ICMP_TOOBIG_GENERATION := true; GUE_ENCAP := true; KATRAN_INTROSPECTION := true;
  LOCAL_DELIVERY_OPTIMIZATION := true; TCP_SERVER_ID_ROUTING := true;
  GLOBAL_LRU_LOOKUP := true; RECORD_FLOW_INFO := true |}.

(** A state of the XDP programs with the given packet, control maps and
    counters, and empty connection tables. *)
Definition empty_ctl : control_maps := ControlMaps ∅ ∅ ∅ ∅ ∅ ∅ ∅ ∅ ∅.
Definition state_with (m : list Z) (c : control_maps) (counters : list Z)
    (reals_counters : list Z) : xstate refk :=
  XState m pckt_zero c
    (list_to_map ((λ i, (i, LbStats 0 0)) <$> counters))
    (list_to_map ((λ i, (i, LbStats 0 0)) <$> reals_counters))
    ∅ ∅ ∅ ∅ ∅ [] (RefK 1000000000 0).
