(* ===== verification/Recirculation.v ===== *)
(** * Recirculation terminates

    A packet that was decapsulated for this host is sent through the program
    again by a tail call.  Every decapsulation removes at least 20 bytes and
    needs at least 34, so the number of passes is bounded by the length of the
    packet, whatever number of tail calls the kernel allows. *)
From S2P Require Import Prelude Words Consts Structs Csum Headers FlowDebug Encap Parsing Icmp Frame SafetyLib Balancer Safety RefKernel.
Open Scope c_scope.

(** ** Equality of runs *)
Section ext.
Context {S R : Type}.

Lemma run_ext (m1 m2 : body S R R) s : m1 s = m2 s → run m1 s = run m2 s.
Proof. unfold run. by intros ->. Qed.

Lemma bind_ext_l {A B} (m1 m2 : body S R A) (k : A → body S R B) s :
  m1 s = m2 s → bind m1 k s = bind m2 k s.
Proof. unfold bind. by intros ->. Qed.

Lemma bind_ext {A B} (m : body S R A) (k1 k2 : A → body S R B) s :
  wpb m (λ _ _, True) (λ a s', k1 a s' = k2 a s') s → bind m k1 s = bind m k2 s.
Proof. unfold wpb, bind. by destruct (m s). Qed.

Lemma bind_ext_next {A B} (m : body S R A) (k1 k2 : A → body S R B) s :
  (∀ a s', m s = Next a s' → k1 a s' = k2 a s') → bind m k1 s = bind m k2 s.
Proof. unfold bind. destruct (m s) eqn:E; auto. Qed.

Lemma call_ext {T} (f1 f2 : func S T) s :
  f1 s = f2 s → @call S R T f1 s = call f2 s.
Proof. unfold call. by intros ->. Qed.

Lemma bind_next {A B} (m : body S R A) (k : A → body S R B) s b s' :
  bind m k s = Next b s' → ∃ a s1, m s = Next a s1 ∧ k a s1 = Next b s'.
Proof. unfold bind. destruct (m s); naive_solver. Qed.
End ext.

Section shrink.
Context {K : Type} `{BpfEnvLaws K} `{BuildConfig}.
Implicit Types (s : xstate K).

(** A successful decapsulation shortens the packet. *)
Definition shrinks (n : Z) (f : func (xstate K) bool) s : Prop :=
  wpf f (λ ok s', ok = true → pkt_len s' = pkt_len s - n) s.

Lemma wp_adjust_head_pop {R} n (QR : R → xstate K → Prop) (QN : bool → _ → Prop) s :
  0 < n → (∀ k, QN true (with_kern k s)) →
  (∀ k, n ≤ pkt_len s →
    QN false (with_pkt (drop (Z.to_nat n) (pkt s)) (with_kern k s))) →
  wpb (xdp_adjust_head n) QR QN s.
Proof.
  intros Hn Herr Hok. unfold wpb, xdp_adjust_head.
  destruct (bpf_xdp_adjust_head n (pkt s) (kern s)) as [[m|] k] eqn:E; [|apply Herr].
  apply adjust_head_pop in E as [Hl ->]; [|done]. by apply Hok.
Qed.

Lemma pkt_len_drop n k s :
  0 < n → n ≤ pkt_len s →
  pkt_len (with_pkt (drop (Z.to_nat n) (pkt s)) (with_kern k s)) = pkt_len s - n.
Proof. unfold pkt_len. simpl. rewrite length_drop. lia. Qed.

Ltac shrink_step :=
  lazymatch goal with
  | |- wpb (xdp_adjust_head _) _ _ _ =>
      apply wp_adjust_head_pop; [fr_bounds|intros ?; cbv beta|intros ? ?; cbv beta]
  | |- _ => xdp_step
  end.
Ltac shrink_steps :=
  repeat shrink_step; [done..|]; intros _;
  rewrite pkt_len_drop by fr_bounds; fr_bounds.

#[local] Hint Resolve keeps_RECORD_GUE_ROUTE : safe.

Lemma shrinks_decap_v4 s : 34 ≤ pkt_len s → shrinks 20 decap_v4 s.
Proof. intros. unfold shrinks, decap_v4. shrink_steps. Qed.
Lemma shrinks_decap_v6 i4 s : 54 ≤ pkt_len s → shrinks 40 (decap_v6 i4) s.
Proof. intros. unfold shrinks, decap_v6. shrink_steps. Qed.
Lemma shrinks_gue_decap_v4 s : 42 ≤ pkt_len s → shrinks 28 gue_decap_v4 s.
Proof. intros. unfold shrinks, gue_decap_v4. shrink_steps. Qed.
Lemma shrinks_gue_decap_v6 i4 s : 62 ≤ pkt_len s → shrinks 48 (gue_decap_v6 i4) s.
Proof. intros. unfold shrinks, gue_decap_v6. shrink_steps. Qed.
End shrink.

(** ** What the tail-call map holds only matters for shorter packets *)
Section agree.
Context {K : Type} `{BpfEnvLaws K} `{BuildConfig}.
Variables sub1 sub2 : Z → option (func (xstate K) Z).
Implicit Types (s : xstate K).

Definition agree_below s : Prop :=
  34 ≤ pkt_len s → ∀ s', pkt_len s' + 20 ≤ pkt_len s →
  recirculate sub1 s' = recirculate sub2 s'.

(** A block after which the packet is at least 20 bytes shorter. *)
Definition drops20 {A} (m : body (xstate K) Z A) s : Prop :=
  wpb m (λ _ _, True) (λ _ s', 34 ≤ pkt_len s ∧ pkt_len s' + 20 ≤ pkt_len s) s.

Lemma decapped_ext (m : body (xstate K) Z Z) (pass : bool) s :
  drops20 m s → agree_below s →
  bind m (λ action, return_if (0 <=? action) action ;;
    return_if pass XDP_PASS ;; call (recirculate sub1)) s =
  bind m (λ action, return_if (0 <=? action) action ;;
    return_if pass XDP_PASS ;; call (recirculate sub2)) s.
Proof.
  intros Hm Ha. apply bind_ext. eapply wpb_mono; [exact Hm|done|].
  intros a s' [Hl Hs']. cbv beta. apply bind_ext. wp_step; [done|].
  apply bind_ext. wp_step; [done|]. apply call_ext, Ha; [done|lia].
Qed.

#[local] Hint Resolve keeps_decrement_ttl : safe.
Lemma fr_call_shrinks {R} n f (QR : R → xstate K → Prop) (QN : bool → _ → Prop) s :
  shrinks n f s → (∀ s', pkt_len s' = pkt_len s - n → QN true s') → (∀ s', QN false s') →
  wpb (call f) QR QN s.
Proof.
  intros Hf H1' H2'. apply wp_call. eapply wpf_mono; [exact Hf|].
  intros [] s'; cbv beta; auto.
Qed.

Ltac drops_step :=
  lazymatch goal with
  | |- wpb (call ?f) _ _ _ =>
      first
        [ eapply fr_call_shrinks; [solve [eauto with safe]|intros ? ?|intros ?]
        | safe_step ]
  | |- _ => xdp_step
  end.
#[local] Hint Resolve shrinks_decap_v4 shrinks_decap_v6 shrinks_gue_decap_v4
  shrinks_gue_decap_v6 : safe.
Ltac drops_steps := unfold drops20; repeat drops_step; try done; try fr_bounds.

Lemma ipip_ext v6 proto pass s :
  proto = IPPROTO_IPIP ∨ proto = IPPROTO_IPV6 → agree_below s →
  process_encaped_ipip_pckt sub1 v6 proto pass s =
  process_encaped_ipip_pckt sub2 v6 proto pass s.
Proof. intros Hp Ha. apply run_ext, decapped_ext; [|done]. drops_steps. Qed.

Lemma gue_ext v6 pass s :
  agree_below s →
  process_encaped_gue_pckt sub1 v6 pass s = process_encaped_gue_pckt sub2 v6 pass s.
Proof. intros Ha. apply run_ext, decapped_ext; [|done]. drops_steps. Qed.

Lemma agree_below_len s s' : pkt_len s' = pkt_len s → agree_below s → agree_below s'.
Proof. unfold agree_below. by intros ->. Qed.

#[local] Hint Resolve keeps_check_decap_dst keeps_process_l3_headers : safe.

Lemma inline_decap_ext v6 proto s :
  agree_below s → inline_decap sub1 v6 proto s = inline_decap sub2 v6 proto s.
Proof.
  intros Ha. unfold inline_decap, when. destruct (_ && _) eqn:Hc; [|done].
  apply bind_ext. xdp_step. destruct r as [action pass].
  apply bind_ext. wp_step; [done|]. apply bind_ext_l, call_ext, ipip_ext.
  - apply andb_true_iff in Hc as [_ Hc]. apply orb_true_iff in Hc. by rewrite !Z.eqb_eq in Hc.
  - by eapply agree_below_len.
Qed.

(** [inline_decap] returns or does nothing. *)
Lemma inline_decap_next v6 proto s u s' :
  inline_decap sub2 v6 proto s = Next u s' → s' = s.
Proof.
  unfold inline_decap, when. destruct (_ && _); [|by intros [= _ <-]].
  intros ([??] & s1 & _ & E)%bind_next. apply bind_next in E as (? & s2 & _ & E).
  by apply bind_next in E as (? & s3 & _ & E).
Qed.

Lemma parse_transport_ext v6 proto s :
  agree_below s → parse_transport sub1 v6 proto s = parse_transport sub2 v6 proto s.
Proof.
  intros Ha. unfold parse_transport. destruct (_ =? _); [done|].
  destruct (_ =? _); [|done]. apply bind_ext. xdp_step.
  apply bind_ext. wp_step; [done|]. apply bind_ext. wp_step.
  unfold when. destruct (_ && _); [|done].
  apply bind_ext. xdp_step. destruct r0 as [action pass].
  apply bind_ext. wp_step; [done|]. apply bind_ext_l, call_ext, gue_ext.
  eapply agree_below_len; [|exact Ha]. congruence.
Qed.

Lemma process_packet_ext off v6 s :
  0 ≤ off → agree_below s →
  process_packet sub1 off v6 s = process_packet sub2 off v6 s.
Proof.
  intros Hoff Ha. apply run_ext. apply bind_ext. xdp_step. apply bind_ext. xdp_step.
  destruct r as [action n]. apply bind_ext. wp_step; [done|]. apply bind_ext. wp_step.
  assert (agree_below s1) as Ha1 by (eapply agree_below_len; [|exact Ha]; congruence).
  cbv zeta. etransitivity; [by apply bind_ext_l, inline_decap_ext|].
  apply bind_ext_next. intros u s2 ->%inline_decap_next.
  by apply bind_ext_l, parse_transport_ext.
Qed.

Lemma balancer_ext s :
  agree_below s → balancer_ingress sub1 s = balancer_ingress sub2 s.
Proof.
  intros Ha. apply run_ext. cbv zeta. apply bind_ext. apply wp_past_end.
  apply bind_ext. wp_step; [done|]. apply bind_ext. unfold load16.
  apply fr_load; [done|fr_bounds|]. intros v.
  repeat (destruct (_ =? _); [by apply call_ext, process_packet_ext|]). done.
Qed.
End agree.

(** With [n] tail calls enough for the length of the packet, more of them make
    no difference. *)
Lemma katran_enough {K} `{BpfEnvLaws K} `{BuildConfig} n k (s : xstate K) :
  pkt_len s < 34 + 20 * Z.of_nat n → katran (n + k) s = katran n s.
Proof.
  revert s. induction n as [|n IH]; intros s Hl; simpl.
  - destruct k; [done|]. simpl. apply balancer_ext. intros ?. lia.
  - apply balancer_ext. intros _ s' Hs'. unfold recirculate. simpl. apply IH. lia.
Qed.

(** C9: recirculation terminates.  A packet shorter than [34 + 20 * n] bytes
    goes through the balancer at most [n] times more: from [n] tail calls on,
    the kernel's limit on their number makes no difference to the verdict or
    to the final state. *)
Theorem recirculation_terminates {K} `{BpfEnvLaws K} `{BuildConfig} n (s : xstate K) :
  pkt_len s < 34 + 20 * Z.of_nat n →
  ∃ r s', ∀ m, (n ≤ m)%nat → katran m s = Some (r, s').
Proof.
  intros Hl. destruct (wpf_elim _ _ _ (safe_katran n s)) as (r & s' & Hrun & _).
  exists r, s'. intros m Hm. rewrite <-Hrun.
  replace m with (n + (m - n))%nat by lia. by apply katran_enough.
Qed.

(** An Ethernet frame with two nested IPIP headers addressed to this host. *)
Definition ipip_header : list Z := v4_hdr [0; 0] 0 1 2 60 IPPROTO_IPIP 0.
Definition nested_frame : list Z :=
  repeat 0 12 ++ le_bytes 2 BE_ETH_P_IP ++ ipip_header ++ ipip_header ++ repeat 0 20.

Lemma recirculation_terminates_witness :
  ∃ r s', ∀ m, (3 ≤ m)%nat →
    @katran refk ref_env cfg_full m (state_with nested_frame empty_ctl [] []) = Some (r, s').
Proof.
  apply (@recirculation_terminates refk ref_env ref_env_laws cfg_full 3). vm_compute. reflexivity.
Defined.
