(* ===== verification/Tunnels.v ===== *)
(** * What the tunnels put on the wire

    The exact packet each encapsulation builds, and that decapsulation gives
    the client's IP packet back. *)
From S2P Require Import Prelude Words Consts Structs Csum Headers FlowDebug Encap Frame SafetyLib RefKernel.
Open Scope c_scope.

Definition eth_hdr (dst src : list Z) (proto : Z) : list Z := dst ++ src ++ le_bytes 2 proto.

Lemma length_ctl_mac c : length (ctl_mac c) = 6%nat.
Proof. apply length_le_bytes. Qed.

Lemma eth_hdr_length dst src proto :
  length dst = 6%nat → length src = 6%nat → length (eth_hdr dst src proto) = 14%nat.
Proof. intros Hd Hs. unfold eth_hdr. by rewrite !length_app, Hd, Hs. Qed.

Lemma pkt_with_pkt {K} m (s : xstate K) : pkt (with_pkt m s) = m.
Proof. done. Qed.
Lemma pkt_with_kern {K} k (s : xstate K) : pkt (with_kern k s) = pkt s.
Proof. done. Qed.
Lemma with_pkt_pkt {K} m m' (s : xstate K) : with_pkt m (with_pkt m' s) = with_pkt m s.
Proof. done. Qed.
Ltac pkt_simpl := cbn [get_pkt set_pkt xstate_pkt_state];
  rewrite ?with_pkt_pkt, ?pkt_with_pkt, ?pkt_with_kern.

(** ** Moving the start of the packet *)
Section moves.
Context {K : Type} `{BpfEnvLaws K}.
Implicit Types (s : xstate K).

(** The kernel refuses to move the packet start by [d] although an Ethernet
    header fits behind the new start. *)
Definition head_refused (d : Z) : Prop :=
  ∃ (m : list Z) (k : K), 14 + d ≤ Z.of_nat (length m) ∧ fst (bpf_xdp_adjust_head d m k) = None.

Lemma wp_adjust_head_push {R} n (QR : R → xstate K → Prop) (QN : bool → _ → Prop) s :
  14 ≤ n → (head_refused (- n) → ∀ k, QN true (with_kern k s)) →
  (∀ hr k, Z.of_nat (length hr) = n → bytes_ok hr →
     QN false (with_pkt (hr ++ pkt s) (with_kern k s))) →
  wpb (xdp_adjust_head (0 - n)) QR QN s.
Proof.
  intros Hn Herr Hok. unfold wpb, xdp_adjust_head. rewrite Z.sub_0_l.
  destruct (bpf_xdp_adjust_head (- n) (pkt s) (kern s)) as [[m|] k] eqn:E.
  - apply adjust_head_push in E as (hr & -> & Hl & Hb); [|lia]. by apply Hok.
  - apply Herr. exists (pkt s), (kern s). rewrite E. split; [lia|done].
Qed.

(** The three statements that build the new Ethernet header in front of
    [room], the space made for the outer headers. *)
Lemma wp_push_eth {A} (mac hr m : list Z) n proto (k : body (xstate K) bool A)
    QR (QN : A → _ → Prop) s :
  length mac = 6%nat → Z.of_nat (length hr) = n → 14 ≤ n → 14 ≤ Z.of_nat (length m) →
  bytes_ok hr → bytes_ok m →
  (∀ room, Z.of_nat (length room) = n → bytes_ok room →
     wpb k QR QN (with_pkt (eth_hdr mac (take 6 m) proto ++ room ++ drop 14 m) s)) →
  wpb (store_bytes (0 + eth_h_dest) mac ;;
       copy_bytes (0 + eth_h_source) (n + eth_h_dest) 6 ;;
       store16 (0 + eth_h_proto) proto ;; k) QR QN (with_pkt (hr ++ m) s).
Proof.
  intros Hmac Hn Hn14 Hm Hbr Hb HQ. unfold store16, store.
  set (M := hr ++ m).
  assert (length M = length hr + length m)%nat as HM by apply length_app.
  apply wp_bind, wp_store_bytes; unfold pkt_len; pkt_simpl; try katran_lia.
  apply wp_bind, wp_copy_bytes; unfold pkt_len; pkt_simpl; rewrite ?length_splice; try katran_lia.
  replace (slice (Z.to_nat (n + eth_h_dest)) 6 (splice (Z.to_nat (0 + eth_h_dest)) mac M))
    with (take 6 m).
  2:{ rewrite slice_splice_ne by katran_lia.
      unfold slice, M, eth_h_dest. rewrite Z.add_0_r, drop_app_length'; [done|lia]. }
  assert (length (take 6 m) = 6%nat) as Ht by (rewrite length_take; lia).
  apply wp_bind, wp_store_bytes; unfold pkt_len; pkt_simpl;
    rewrite ?length_splice, ?length_le_bytes; try katran_lia.
  change (Z.to_nat (0 + eth_h_dest)) with (@length Z []).
  pose proof (splice_app [] mac M ltac:(lia)) as Hs0. rewrite !app_nil_l in Hs0.
  rewrite Hs0.
  change (Z.to_nat (0 + eth_h_source)) with 6%nat. rewrite <-Hmac at 1.
  rewrite splice_app by (rewrite length_drop; lia).
  rewrite (app_assoc mac). change (Z.to_nat (0 + eth_h_proto)) with 12%nat.
  replace 12%nat with (length (mac ++ take 6 m)) by (rewrite length_app; lia).
  rewrite (splice_app (mac ++ take 6 m) (le_bytes 2 proto))
    by (rewrite !length_drop, length_le_bytes; lia).
  rewrite !drop_drop, Hmac, Ht, length_le_bytes. change (6 + (6 + 2))%nat with 14%nat.
  assert (drop 14 M = drop 14 (hr ++ take 14 m) ++ drop 14 m) as ->.
  { unfold M. rewrite <-(take_drop 14 m) at 1. rewrite app_assoc, drop_app_le; [done|].
    rewrite length_app. lia. }
  replace (_ ++ _) with (eth_hdr mac (take 6 m) proto ++ drop 14 (hr ++ take 14 m) ++ drop 14 m)
    by (unfold eth_hdr; by rewrite <-!app_assoc).
  apply HQ.
  - rewrite length_drop, length_app, length_take. lia.
  - apply Forall_drop, Forall_app_2; [done|by apply Forall_take].
Qed.

(** Writing the three fields of an Ethernet header. *)
Lemma splice_eth (d dst src p : list Z) :
  length d = 14%nat → length dst = 6%nat → length src = 6%nat → length p = 2%nat →
  splice 12 p (splice 0 dst (splice 6 src d)) = dst ++ src ++ p.
Proof.
  intros Hd Hdst Hsrc Hp. list_explicit d. list_explicit dst. list_explicit src.
  list_explicit p. reflexivity.
Qed.

(** The three statements that move the Ethernet header to the inner packet,
    [n] bytes further. *)
Lemma wp_pop_eth {A} n proto (k : body (xstate K) bool A) QR (QN : A → _ → Prop) s :
  14 ≤ n → n + 14 ≤ pkt_len s →
  wpb k QR QN (with_pkt (take (Z.to_nat n) (pkt s) ++
    eth_hdr (slice 0 6 (pkt s)) (slice 6 6 (pkt s)) proto ++
    drop (Z.to_nat n + 14) (pkt s)) s) →
  wpb (copy_bytes (n + eth_h_source) (0 + eth_h_source) 6 ;;
       copy_bytes (n + eth_h_dest) (0 + eth_h_dest) 6 ;;
       store16 (n + eth_h_proto) proto ;; k) QR QN s.
Proof.
  intros Hn Hl HQ. unfold store16, store.
  unfold pkt_len in Hl. change (get_pkt s) with (pkt s) in Hl.
  apply wp_bind, wp_copy_bytes; unfold pkt_len; pkt_simpl; try katran_lia.
  apply wp_bind, wp_copy_bytes; unfold pkt_len; pkt_simpl; rewrite ?length_splice;
    try katran_lia.
  apply wp_bind, wp_store_bytes; unfold pkt_len; pkt_simpl;
    rewrite ?length_splice, ?length_le_bytes; try katran_lia.
  rewrite slice_splice_ne by (rewrite ?length_slice; katran_lia).
  destruct (region_exists s (Z.to_nat n) 14) as (a&d&R&HM&Ha&Hd&_&_&_);
    [simpl; lia|]. simpl in HM.
  set (src := slice (Z.to_nat (0 + eth_h_source)) 6 (pkt s)).
  set (dst := slice (Z.to_nat (0 + eth_h_dest)) 6 (pkt s)).
  assert (length src = 6%nat) as Hsrc by (apply length_slice; katran_lia).
  assert (length dst = 6%nat) as Hdst by (apply length_slice; katran_lia).
  rewrite HM. nat_offsets. rewrite <-Ha.
  do 3 (rewrite splice_region; [|rewrite ?length_splice, ?length_le_bytes; lia]).
  rewrite splice_eth by (done || apply length_le_bytes).
  revert HQ. change (slice 0 6 (pkt s)) with dst. change (slice 6 6 (pkt s)) with src.
  rewrite HM, <-Ha, take_app_length, drop_app_add.
  replace (drop 14 (d ++ R)) with R by by rewrite <-Hd, drop_app_length.
  unfold eth_hdr. by rewrite <-!app_assoc.
Qed.
End moves.

(** ** Encapsulation *)
Section encap.
Context {K : Type} `{BpfEnvLaws K} `{BuildConfig}.
Implicit Types (s : xstate K).

(** The result of a successful encapsulation: a new Ethernet header towards
    the MAC address of [cval], coming from the address the packet was sent to,
    the outer headers [hdrs], and the client's IP packet. *)
Definition encapsulated (cval : ctl_value) (eth_proto : Z) (hdrs m : list Z) : list Z :=
  eth_hdr (ctl_mac cval) (take 6 m) eth_proto ++ hdrs ++ drop 14 m.

Lemma length_encapsulated cval p hdrs m :
  (14 ≤ length m)%nat →
  length (encapsulated cval p hdrs m) = (length hdrs + length m)%nat.
Proof.
  intros Hl. unfold encapsulated. rewrite !length_app, eth_hdr_length, length_drop.
  - lia.
  - apply length_ctl_mac.
  - rewrite length_take. lia.
Qed.

Lemma encapsulated_ok cval p hdrs m :
  bytes_ok m → bytes_ok hdrs → bytes_ok (encapsulated cval p hdrs m).
Proof.
  intros Hm Hh. unfold encapsulated, eth_hdr, ctl_mac.
  repeat apply Forall_app_2; try apply le_bytes_ok; [|done|];
    [by apply Forall_take|by apply Forall_drop].
Qed.

(** Header writes inside the outer headers. *)
Lemma splice_encapsulated cval p hdrs m off h :
  (14 ≤ length m)%nat → (off + length h ≤ length hdrs)%nat →
  splice (14 + off) h (encapsulated cval p hdrs m) =
  encapsulated cval p (splice off h hdrs) m.
Proof.
  intros Hl Ho. unfold encapsulated. rewrite <-splice_region by done.
  rewrite eth_hdr_length; [done|apply length_ctl_mac|rewrite length_take; lia].
Qed.

Lemma slice_encapsulated cval p hdrs m off n :
  (14 ≤ length m)%nat → (off + n ≤ length hdrs)%nat →
  slice (14 + off) n (encapsulated cval p hdrs m) = slice off n hdrs.
Proof.
  intros Hl Ho. unfold encapsulated.
  replace 14%nat with (length (eth_hdr (ctl_mac cval) (take 6 m) p)).
  - by apply slice_region.
  - rewrite eth_hdr_length; [done|apply length_ctl_mac|rewrite length_take; lia].
Qed.

Lemma splice_all (bs m : list Z) :
  length bs = length m → splice 0 bs m = bs.
Proof.
  intros Hl. rewrite splice_eq by lia. simpl. by rewrite Hl, drop_all, app_nil_r.
Qed.

(** Pushing the packet and writing the new Ethernet header. *)
Ltac encap_start :=
  repeat wp_step; apply wp_adjust_head_push;
    [done|intros ? ?; wp_step; wp_step; by auto|];
  let hr := fresh "hr" in let k := fresh "k" in let Hhr := fresh "Hhr" in
  intros hr k Hhr ?; autounfold with katran in Hhr;
  wp_step; wp_step; [done|]; cbv zeta; repeat (apply wp_bind, wp_past_end);
  unfold pkt_len; pkt_simpl; rewrite length_app;
  wp_step; wp_step; [in_bounds|];
  apply wp_push_eth; [apply length_ctl_mac|done|done|done|done|done|];
  let room := fresh "room" in let Hroom := fresh "Hroom" in
  intros room Hroom ?; autounfold with katran in Hroom;
  match goal with
  | |- context [eth_hdr (ctl_mac ?c) (take 6 ?m) ?p ++ room ++ drop 14 ?m] =>
      fold (encapsulated c p room m)
  end.

Lemma wp_encap_v4 cval dst n (Q : bool → xstate K → Prop) s :
  14 ≤ pkt_len s → bytes_ok (pkt s) →
  (head_refused (-20) → ∀ k, Q false (with_kern k s)) →
  (∀ id check k, length id = 2%nat → bytes_ok id → 0 ≤ check < 2 ^ 16 →
     let h := v4_hdr id (tos (pckt s)) (ipip_v4_saddr (flow (pckt s))) (w0 (real_dst dst))
                (u16 n + 20) IPPROTO_IPIP check in
     csum_ok h →
     Q true (with_pkt (encapsulated cval BE_ETH_P_IP h (pkt s)) (with_kern k s))) →
  wpf (encap_v4 cval dst n) Q s.
Proof.
  intros Hl Hb Hf HQ. unfold encap_v4, pkt_len in *. change (get_pkt s) with (pkt s) in Hl.
  encap_start. wp_step. wp_step.
  apply wp_create_v4_hdr; unfold pkt_len; pkt_simpl.
  - done.
  - rewrite length_encapsulated by lia. katran_lia.
  - by apply encapsulated_ok.
  - intros check Hc Hok. wp_step. revert Hok.
    change (Z.to_nat sizeof_ethhdr + 4)%nat with (14 + 4)%nat.
    change (Z.to_nat sizeof_ethhdr) with (14 + 0)%nat.
    rewrite slice_encapsulated by lia.
    assert (length (slice 4 2 room) = 2%nat) as Hid by (apply length_slice; lia).
    rewrite splice_encapsulated, splice_all by (rewrite ?v4_hdr_length by done; lia).
    intros Hok. by apply HQ; [|apply slice_ok|..].
Qed.

(** The outer header of an IPIP packet to an IPv6 real. *)
Definition ipip_v6_hdr (is_ipv6 : bool) (p : packet_description) (dst : real_definition)
    (n : Z) : list Z :=
  let f := flow p in
  if is_ipv6 then
    v6_hdr (tos p) (Addr IPIP_V6_PREFIX1 IPIP_V6_PREFIX2 IPIP_V6_PREFIX3
      (Z.lxor (w3 (srcv6 f)) (port16_0 f))) (real_dst dst) (u16 (n + 40)) IPPROTO_IPV6
  else
    v6_hdr (tos p) (Addr IPIP_V6_PREFIX1 IPIP_V6_PREFIX2 IPIP_V6_PREFIX3
      (Z.lxor (w0 (srcv6 f)) (port16_0 f))) (real_dst dst) (u16 n) IPPROTO_IPIP.

Lemma v6_hdr_length tc saddr daddr n proto :
  length (v6_hdr tc saddr daddr n proto) = 40%nat.
Proof. reflexivity. Qed.

Lemma wp_encap_v6 cval is_ipv6 dst n (Q : bool → xstate K → Prop) s :
  14 ≤ pkt_len s → bytes_ok (pkt s) → is_byte (tos (pckt s)) →
  (head_refused (-40) → ∀ k, Q false (with_kern k s)) →
  (∀ k, Q true (with_pkt (encapsulated cval BE_ETH_P_IPV6
                  (ipip_v6_hdr is_ipv6 (pckt s) dst n) (pkt s)) (with_kern k s))) →
  wpf (encap_v6 cval is_ipv6 dst n) Q s.
Proof.
  intros Hl Hb Htos Hf HQ. unfold encap_v6, pkt_len in *. change (get_pkt s) with (pkt s) in Hl.
  encap_start. wp_step. wp_step. destruct (if is_ipv6 then _ else _) as [[proto suffix] len] eqn:E.
  wp_step. wp_step. apply wp_create_v6_hdr; unfold pkt_len; pkt_simpl.
  - done.
  - rewrite length_encapsulated by lia. katran_lia.
  - by apply encapsulated_ok.
  - done.
  - wp_step. change (Z.to_nat sizeof_ethhdr) with (14 + 0)%nat.
    rewrite splice_encapsulated, splice_all by (rewrite ?v6_hdr_length; lia).
    replace (v6_hdr _ _ _ _ _) with (ipip_v6_hdr is_ipv6 (pckt s) dst n); [apply HQ|].
    unfold ipip_v6_hdr. by destruct is_ipv6; injection E as <- <- <-.
Qed.

(** *** The outer UDP checksum *)

Definition pseudo (v6 : bool) : nat → list Z → list Z := if v6 then pseudo_v6 else pseudo_v4.
Definition ip_hdr_len (v6 : bool) : nat := if v6 then 40 else 20.

(** The inner transport header [gue_csum] needs is TCP or UDP, and there. *)
Definition has_transport (proto off len : Z) : bool :=
  if proto =? IPPROTO_UDP then off + 8 <=? len
  else (proto =? IPPROTO_TCP) && (off + 20 <=? len).

(** The checksum [gue_csum] computes for the packet [m], headers at their
    places behind an Ethernet header: the outer UDP header at [udp], the inner
    IP header at [udp + 8]. *)
Definition gue_csum_of (outer inner : bool) (m : list Z) (c : Z) : Prop :=
  let udp := (14 + ip_hdr_len outer)%nat in
  0 ≤ c < 2 ^ 16 ∧
  c ≅ - gue_sum (pseudo outer 14 m) (pseudo inner (udp + 8) m) udp (udp + 8)
          (ip_hdr_len inner) m.

Lemma le_val2_range off s :
  bytes_ok (pkt s) → (off + 2 ≤ length (pkt s))%nat →
  0 ≤ le_val (slice off 2 (pkt s)) < 2 ^ 16.
Proof.
  intros Hb Hl. pose proof (le_val_range _ (slice_ok off 2 _ Hb)) as Hr.
  by rewrite length_slice in Hr.
Qed.

Ltac gue_csum_bounds :=
  unfold pkt_len in *; cbn [get_pkt xstate_pkt_state] in *; try (by in_bounds); fr_bounds.
Ltac gue_csum_step Hb :=
  lazymatch goal with
  | |- wpb (past_end _) _ _ _ => apply wp_past_end; cbv beta
  | |- wpb (load16 _) _ _ _ => apply wp_load; [lia|gue_csum_bounds|]
  | |- wpb (call (gue_csum_v6 _ _ _ _)) _ _ _ => apply wp_call, wp_gue_csum_v6
  | |- wpb (call (gue_csum_v4_in_v6 _ _ _ _)) _ _ _ => apply wp_call, wp_gue_csum_v4_in_v6
  | |- wpb (call (gue_csum_v4 _ _ _ _)) _ _ _ => apply wp_call, wp_gue_csum_v4
  | |- _ ≤ _ => gue_csum_bounds
  | |- bytes_ok _ => exact Hb
  | |- _ ≤ le_val _ < _ => apply le_val2_range; [exact Hb|gue_csum_bounds]
  | |- _ => wp_step
  end.

Ltac gue_transport :=
  repeat match goal with H : (_ =? _) = _ |- _ => rewrite H; clear H end;
  repeat match goal with |- context [?a =? ?b] => destruct (a =? b) end;
  unfold pkt_len in *; cbn [get_pkt xstate_pkt_state andb] in *; try done; lia.

Lemma wp_gue_csum (outer inner : bool) (Q : bool * Z → xstate K → Prop) s :
  (inner = true → outer = true) → bytes_ok (pkt s) →
  let off := 22 + Z.of_nat (ip_hdr_len outer) + Z.of_nat (ip_hdr_len inner) in
  (has_transport (proto (flow (pckt s))) off (pkt_len s) = false → ∀ c, Q (false, c) s) →
  (has_transport (proto (flow (pckt s))) off (pkt_len s) = true →
     ∀ c, gue_csum_of outer inner (pkt s) c → Q (true, c) s) →
  wpf (gue_csum outer inner) Q s.
Proof.
  intros Hio Hb off. unfold has_transport, gue_csum_of.
  destruct inner, outer; try (by specialize (Hio eq_refl)); subst off;
    change (Z.of_nat (ip_hdr_len true)) with 40; change (Z.of_nat (ip_hdr_len false)) with 20;
    unfold gue_csum; autounfold with katran; cbv zeta; intros Hno Hyes.
  all: repeat gue_csum_step Hb.
  all: try (intros c Hc Heq; apply Hyes; [gue_transport|by split]).
  all: first [by (exfalso; gue_csum_bounds) | apply Hno; gue_transport].
Qed.

(** *** GUE *)

Lemma splice_two (h u room : list Z) :
  length room = (length h + length u)%nat → splice 0 h (splice (length h) u room) = h ++ u.
Proof.
  intros Hl. rewrite (splice_eq (length h)), splice_eq; rewrite ?length_app, ?length_take,
    ?length_drop; try lia.
  simpl. f_equal. rewrite drop_app_length' by (rewrite length_take; lia).
  by rewrite (drop_ge room), app_nil_r by lia.
Qed.

Lemma udp_hdr_length sport dport len csum : length (udp_hdr sport dport len csum) = 8%nat.
Proof. reflexivity. Qed.

Lemma udp_hdr_set_csum h sport dport len c0 c :
  splice (length h + 6) (le_bytes 2 c) (h ++ udp_hdr sport dport len c0) =
  h ++ udp_hdr sport dport len c.
Proof.
  rewrite <-(app_nil_r (udp_hdr sport dport len c0)), splice_region; [|done].
  by rewrite app_nil_r.
Qed.

Lemma udp_hdr_ok sport dport len csum : bytes_ok (udp_hdr sport dport len csum).
Proof.
  unfold udp_hdr. repeat apply Forall_app_2; try apply reverse_bytes_ok; apply le_bytes_ok.
Qed.

Lemma v4_hdr_ok id tos saddr daddr len proto check :
  bytes_ok id → bytes_ok (v4_hdr id tos saddr daddr len proto check).
Proof.
  intros Hid. unfold v4_hdr. apply Forall_cons_2; [done|]. apply Forall_cons_2; [apply u8_range|].
  repeat apply Forall_app_2; try apply reverse_bytes_ok; try apply le_bytes_ok; [done|].
  repeat apply Forall_cons_2; try done; apply u8_range.
Qed.

Lemma v6_hdr_ok tc saddr daddr n proto : is_byte tc → bytes_ok (v6_hdr tc saddr daddr n proto).
Proof.
  intros Htc. destruct (tc_nibbles tc Htc) as [? ?]. unfold v6_hdr, addr_bytes.
  repeat apply Forall_app_2; try apply reverse_bytes_ok; try apply le_bytes_ok.
  - repeat apply Forall_cons_2; try done. unfold is_byte. lia.
  - repeat apply Forall_cons_2; try done; apply u8_range.
Qed.

(** The UDP source port of a GUE packet to an IPv4 real. *)
Definition gue_v4_sport (f : flow_key) : Z :=
  Z.lxor (bpf_htons (port16_0 f)) (Z.land (Z.shiftr (w0 (srcv6 f)) 16) 65535).

(** The outer checksum: computed when the inner transport header is there,
    zero otherwise. *)
Definition gue_outer_csum (outer inner : bool) (proto : Z) (m : list Z) (c : Z) : Prop :=
  if has_transport proto (22 + Z.of_nat (ip_hdr_len outer) + Z.of_nat (ip_hdr_len inner))
       (Z.of_nat (length m))
  then gue_csum_of outer inner m c else c = 0.

(** The last part of both GUE encapsulations. *)
Lemma wp_gue_finish outer inner cval p h sport len m udph (Q : bool → xstate K → Prop) s :
  (inner = true → outer = true) → length h = ip_hdr_len outer →
  udph = 14 + Z.of_nat (ip_hdr_len outer) → bytes_ok h → bytes_ok m → (14 ≤ length m)%nat →
  let m' := λ c, encapsulated cval p (h ++ udp_hdr sport GUE_DPORT len c) m in
  (∀ c, gue_outer_csum outer inner (proto (flow (pckt s))) (m' 0) c →
     Q true (with_pkt (m' c) s)) →
  wpb (let! (ok, csum) := call (gue_csum outer inner) in
       when ok (store16 (udph + udp_check) (Z.land csum 65535)) ;;
       ret true) Q Q (with_pkt (m' 0) s).
Proof.
  intros Hio Hh -> Hbh Hb Hl m' HQ. apply wp_bind, wp_call.
  assert (bytes_ok (m' 0)) as Hm'.
  { apply encapsulated_ok; [done|]. apply Forall_app_2; [done|apply udp_hdr_ok]. }
  unfold gue_outer_csum in HQ. apply wp_gue_csum; [done|done|..];
    unfold pkt_len; pkt_simpl; simpl pckt; intros Htr c.
  - wp_step. wp_step; [done|]. wp_step. apply HQ. by rewrite Htr.
  - intros Hc. wp_step. wp_step; [|done].
    assert (0 ≤ c < 2 ^ 16) as Hr by apply Hc.
    assert (length (m' 0%Z) = length h + 8 + length m)%nat as Hlm.
    { unfold m'. rewrite length_encapsulated, length_app, udp_hdr_length by done. lia. }
    apply wp_store; unfold pkt_len; pkt_simpl; [katran_lia|rewrite Hlm; katran_lia|].
    wp_step. replace (Z.land c 65535) with c.
    2:{ change 65535 with (Z.ones 16). by rewrite Z.land_ones, Z.mod_small. }
    replace (Z.to_nat (14 + Z.of_nat (ip_hdr_len outer) + udp_check))
      with (14 + (length h + 6))%nat by katran_lia.
    unfold m'. rewrite splice_encapsulated, udp_hdr_set_csum;
      [apply HQ; by rewrite Htr|done|].
    rewrite length_app, udp_hdr_length, length_le_bytes. lia.
Qed.

Lemma wp_gue_encap_v4 cval dst src n (Q : bool → xstate K → Prop) s :
  pckt_srcs (ctl s) !! V4_SRC_INDEX = Some src →
  14 ≤ pkt_len s → bytes_ok (pkt s) →
  (head_refused (-28) → ∀ k, Q false (with_kern k s)) →
  (∀ id check c k, length id = 2%nat → bytes_ok id →
     let h := v4_hdr id (tos (pckt s)) (w0 (real_dst src)) (w0 (real_dst dst))
                (u16 (n + 8) + 20) IPPROTO_UDP check in
     let m' := λ c, encapsulated cval BE_ETH_P_IP
       (h ++ udp_hdr (gue_v4_sport (flow (pckt s))) GUE_DPORT (u16 (n + 8)) c) (pkt s) in
     csum_ok h → gue_outer_csum false false (proto (flow (pckt s))) (m' 0) c →
     Q true (with_pkt (m' c) (with_kern k s))) →
  wpf (gue_encap_v4 cval dst n) Q s.
Proof.
  intros Hsrc Hl Hb Hf HQ. unfold gue_encap_v4, pkt_len in *.
  change (get_pkt s) with (pkt s) in Hl.
  do 6 wp_step. wp_step; [congruence|]. replace a with src by congruence.
  encap_start. wp_step. wp_step.
  apply wp_create_udp_hdr; unfold pkt_len; pkt_simpl;
    [done|rewrite length_encapsulated by lia; katran_lia|].
  wp_step. wp_step. change (Z.to_nat (sizeof_ethhdr + sizeof_iphdr)) with (14 + 20)%nat.
  rewrite splice_encapsulated by (rewrite ?udp_hdr_length; lia).
  set (sport := Z.lxor _ _). set (u := udp_hdr _ _ _ _).
  apply wp_create_v4_hdr; unfold pkt_len; pkt_simpl.
  { done. }
  { rewrite length_encapsulated by lia. rewrite length_splice. katran_lia. }
  { apply encapsulated_ok; [done|]. apply splice_ok; [done|apply udp_hdr_ok]. }
  intros check Hc. change (Z.to_nat sizeof_ethhdr) with (14 + 0)%nat.
  rewrite <-Nat.add_assoc. simpl (0 + 4)%nat.
  rewrite slice_encapsulated by (rewrite ?length_splice; lia).
  set (id := slice 4 2 _).
  assert (length id = 2%nat) as Hid by (apply length_slice; rewrite length_splice; lia).
  assert (bytes_ok id) as Hbid by (apply slice_ok, splice_ok; [done|apply udp_hdr_ok]).
  rewrite splice_encapsulated
    by (rewrite ?v4_hdr_length, ?length_splice by done; lia).
  set (h := v4_hdr _ _ _ _ _ _ _). intros Hok.
  assert (length h = 20%nat) as Hh by by apply v4_hdr_length.
  assert (splice 0 h (splice 20 u room) = h ++ u) as ->.
  { rewrite <-Hh. apply splice_two. rewrite Hh. change (length u) with 8%nat. lia. }
  apply (wp_gue_finish false false cval BE_ETH_P_IP h sport (u16 (n + 8)) (pkt s));
    [done|done|done|by apply v4_hdr_ok|done|lia|].
  intros c Hc'. by apply HQ.
Qed.

(** The UDP source port and the payload length of a GUE packet to an IPv6
    real. *)
Definition gue_v6_sport (is_ipv6 : bool) (f : flow_key) : Z :=
  if is_ipv6 then Z.lxor (Z.land (w3 (srcv6 f)) 65535) (port16_0 f)
  else Z.lxor (Z.land (Z.shiftr (w0 (srcv6 f)) 16) 65535) (port16_0 f).
Definition gue_v6_len (is_ipv6 : bool) (n : Z) : Z :=
  u16 (u32 (n + (if is_ipv6 then 48 else 8))).

Lemma wp_gue_encap_v6 cval is_ipv6 dst src n (Q : bool → xstate K → Prop) s :
  pckt_srcs (ctl s) !! V6_SRC_INDEX = Some src →
  14 ≤ pkt_len s → bytes_ok (pkt s) → is_byte (tos (pckt s)) →
  (head_refused (-48) → ∀ k, Q false (with_kern k s)) →
  (∀ c k,
     let len := gue_v6_len is_ipv6 n in
     let h := v6_hdr (tos (pckt s)) (real_dst src) (real_dst dst) len IPPROTO_UDP in
     let m' := λ c, encapsulated cval BE_ETH_P_IPV6
       (h ++ udp_hdr (gue_v6_sport is_ipv6 (flow (pckt s))) GUE_DPORT len c) (pkt s) in
     gue_outer_csum true is_ipv6 (proto (flow (pckt s))) (m' 0) c →
     Q true (with_pkt (m' c) (with_kern k s))) →
  wpf (gue_encap_v6 cval is_ipv6 dst n) Q s.
Proof.
  intros Hsrc Hl Hb Htos Hf HQ. unfold gue_encap_v6, pkt_len in *.
  change (get_pkt s) with (pkt s) in Hl.
  do 4 wp_step. wp_step; [congruence|]. replace a with src by congruence.
  encap_start. wp_step. wp_step. simpl pckt.
  replace (if is_ipv6 then _ else _)
    with (gue_v6_sport is_ipv6 (flow (pckt s)), u32 (n + (if is_ipv6 then 48 else 8)))
    by by destruct is_ipv6.
  wp_step. wp_step. fold (gue_v6_len is_ipv6 n).
  apply wp_create_udp_hdr; unfold pkt_len; pkt_simpl;
    [done|rewrite length_encapsulated by lia; katran_lia|].
  wp_step. wp_step. change (Z.to_nat (sizeof_ethhdr + sizeof_ipv6hdr)) with (14 + 40)%nat.
  rewrite splice_encapsulated by (rewrite ?udp_hdr_length; lia).
  set (u := udp_hdr _ _ _ _).
  apply wp_create_v6_hdr; unfold pkt_len; pkt_simpl.
  { done. }
  { rewrite length_encapsulated by lia. rewrite length_splice. katran_lia. }
  { apply encapsulated_ok; [done|]. apply splice_ok; [done|apply udp_hdr_ok]. }
  { done. }
  change (Z.to_nat sizeof_ethhdr) with (14 + 0)%nat.
  rewrite splice_encapsulated by (rewrite ?v6_hdr_length, ?length_splice by done; lia).
  set (h := v6_hdr _ _ _ _ _).
  assert (splice 0 h (splice 40 u room) = h ++ u) as ->.
  { change 40%nat with (length h). apply splice_two. change (length h) with 40%nat.
    change (length u) with 8%nat. lia. }
  apply (wp_gue_finish true is_ipv6 cval BE_ETH_P_IPV6 h _ (gue_v6_len is_ipv6 n) (pkt s));
    [done|done|done|by apply v6_hdr_ok|done|lia|].
  intros c Hc'. by apply HQ.
Qed.
End encap.

(** ** Decapsulation *)
Section decap.
Context {K : Type} `{BpfEnvLaws K} `{BuildConfig}.
Implicit Types (s : xstate K).

(** The packet without its first [n] bytes of outer headers: the Ethernet
    addresses are kept. *)
Definition decapsulated (n : nat) (eth_proto : Z) (m : list Z) : list Z :=
  eth_hdr (slice 0 6 m) (slice 6 6 m) eth_proto ++ drop (n + 14) m.

Lemma wp_pop n proto (Q : bool → xstate K → Prop) s :
  14 ≤ n → n + 14 ≤ pkt_len s → (head_refused n → ∀ s', Q false s') →
  (∀ k, Q true (with_pkt (decapsulated (Z.to_nat n) proto (pkt s)) (with_kern k s))) →
  wpb (copy_bytes (n + eth_h_source) (0 + eth_h_source) 6 ;;
       copy_bytes (n + eth_h_dest) (0 + eth_h_dest) 6 ;;
       store16 (n + eth_h_proto) proto ;;
       let! err := xdp_adjust_head n in return_if err false ;; ret true) Q Q s.
Proof.
  intros Hn Hl Hf HQ. apply wp_pop_eth; [done|done|].
  unfold pkt_len in Hl. change (get_pkt s) with (pkt s) in Hl.
  wp_step. unfold wpb, xdp_adjust_head.
  destruct (bpf_xdp_adjust_head n _ _) as [[m|] k] eqn:E.
  - apply adjust_head_pop in E as [_ ->]; [|lia]. pkt_simpl.
    rewrite drop_app_length' by (rewrite length_take; lia). apply HQ.
  - apply Hf. eexists _, _. rewrite E. split; [|done]. pkt_simpl.
    rewrite !length_app, length_take, eth_hdr_length, length_drop
      by (apply length_slice; lia). lia.
Qed.

Lemma wp_decap_v4 (Q : bool → xstate K → Prop) s :
  34 ≤ pkt_len s → (head_refused 20 → ∀ s', Q false s') →
  (∀ k, Q true (with_pkt (decapsulated 20 BE_ETH_P_IP (pkt s)) (with_kern k s))) →
  wpf decap_v4 Q s.
Proof. intros. apply wp_run, wp_pop; fr_bounds || done. Qed.

Lemma wp_decap_v6 (inner_v4 : bool) (Q : bool → xstate K → Prop) s :
  54 ≤ pkt_len s → (head_refused 40 → ∀ s', Q false s') →
  (∀ k, Q true (with_pkt (decapsulated 40
     (if inner_v4 then BE_ETH_P_IP else BE_ETH_P_IPV6) (pkt s)) (with_kern k s))) →
  wpf (decap_v6 inner_v4) Q s.
Proof. intros. apply wp_run, wp_pop; fr_bounds || done. Qed.

Lemma wp_RECORD_GUE_ROUTE {R} outer inner o4 i4 (QR : R → xstate K → Prop)
    (QN : unit → xstate K → Prop) s :
  0 ≤ outer → 0 ≤ inner → QN tt s →
  wpb (call (RECORD_GUE_ROUTE outer inner o4 i4)) QR QN s.
Proof.
  intros ?? HQ. apply wp_call, wp_run. unfold when.
  destruct RECORD_FLOW_INFO; [|done]. by apply wp_call, wp_gue_record_route.
Qed.

Lemma wp_gue_decap_v4 (Q : bool → xstate K → Prop) s :
  42 ≤ pkt_len s → (head_refused 28 → ∀ s', Q false s') →
  (∀ k, Q true (with_pkt (decapsulated 28 BE_ETH_P_IP (pkt s)) (with_kern k s))) →
  wpf gue_decap_v4 Q s.
Proof.
  intros. apply wp_run, wp_bind, wp_RECORD_GUE_ROUTE; [done|done|].
  apply wp_pop; fr_bounds || done.
Qed.

Lemma wp_gue_decap_v6 (inner_v4 : bool) (Q : bool → xstate K → Prop) s :
  62 ≤ pkt_len s → (head_refused 48 → ∀ s', Q false s') →
  (∀ k, Q true (with_pkt (decapsulated 48
     (if inner_v4 then BE_ETH_P_IP else BE_ETH_P_IPV6) (pkt s)) (with_kern k s))) →
  wpf (gue_decap_v6 inner_v4) Q s.
Proof.
  intros. apply wp_run, wp_bind, wp_RECORD_GUE_ROUTE; [done|done|].
  apply wp_pop; fr_bounds || done.
Qed.
End decap.
