(* ===== verification/RoundTrip.v ===== *)
(** * The decapsulator inverts the balancer's tunnels

    Packets that [encap_v4], [encap_v6], [gue_encap_v4] and [gue_encap_v6]
    build are taken apart again by [xdpdecap]. *)
From S2P Require Import Prelude Words Consts Structs Csum Headers FlowDebug Encap Parsing Frame SafetyLib Decap RefKernel Tunnels.
Open Scope c_scope.

Lemma decapsulated_encapsulated cval p p' hdrs m :
  (14 ≤ length m)%nat →
  decapsulated (length hdrs) p' (encapsulated cval p hdrs m) =
  encapsulated cval p' [] m.
Proof.
  intros Hl. unfold decapsulated, encapsulated.
  assert (length (take 6 m) = 6%nat) as Ht by (rewrite length_take; lia).
  assert (length (eth_hdr (ctl_mac cval) (take 6 m) p) = 14%nat) as He
    by (apply eth_hdr_length; [apply length_ctl_mac|done]).
  f_equal.
  - f_equal; unfold eth_hdr; rewrite <-!app_assoc.
    replace 6%nat with (length (ctl_mac cval) + 0)%nat at 1 by done.
    rewrite slice_region by lia.
    by apply firstn_all2; rewrite Ht.
  - rewrite app_assoc, Nat.add_comm, <-He. rewrite <-length_app.
    by rewrite drop_app_length.
Qed.

Section reads.
Context {K : Type} `{BpfEnvLaws K} {R : Type}.
Implicit Types (s : xstate K) (QR : R → xstate K → Prop).

(** Loads from the headers of an encapsulated packet. *)
Lemma wp_load_hdr n k cval p hdrs m QR (QN : Z → xstate K → Prop) s :
  pkt s = encapsulated cval p hdrs m → (14 ≤ length m)%nat → (k + n ≤ length hdrs)%nat →
  QN (le_val (slice k n hdrs)) s → wpb (load n (14 + Z.of_nat k)) QR QN s.
Proof.
  intros Hp Hm Hk HQ. apply wp_load; [lia| |].
  - unfold pkt_len. simpl. rewrite Hp, length_encapsulated; lia.
  - simpl. rewrite Hp. replace (Z.to_nat (14 + Z.of_nat k)) with (14 + k)%nat by lia.
    by rewrite slice_encapsulated.
Qed.

(** The first byte of the client's IP packet. *)
Lemma wp_load_inner8 off cval p hdrs m b QR (QN : Z → xstate K → Prop) s :
  pkt s = encapsulated cval p hdrs m → m !! 14%nat = Some b →
  off = 14 + Z.of_nat (length hdrs) → QN b s → wpb (load8 off) QR QN s.
Proof.
  intros Hp Hb -> HQ. pose proof (lookup_lt_Some _ _ _ Hb) as Hm.
  apply wp_load; [lia|unfold pkt_len; simpl; rewrite Hp, length_encapsulated; lia|].
  simpl. rewrite Hp. unfold encapsulated.
  assert (length (take 6 m) = 6%nat) as Ht by (rewrite length_take; lia).
  rewrite (slice_one _ _ b).
  { simpl. by rewrite Z.mul_0_r, Z.add_0_r. }
  rewrite !lookup_app_r; rewrite ?eth_hdr_length by (done || apply length_ctl_mac); try lia.
  rewrite lookup_drop, <-Hb. f_equal. lia.
Qed.

Lemma wp_load_eth_proto cval p hdrs m QR (QN : Z → xstate K → Prop) s :
  pkt s = encapsulated cval p hdrs m → (14 ≤ length m)%nat → 0 ≤ p < 2 ^ 16 →
  QN p s → wpb (load16 (0 + eth_h_proto)) QR QN s.
Proof.
  intros Hp Hm Hr HQ. apply wp_load; [done| |].
  - unfold pkt_len. simpl. rewrite Hp, length_encapsulated; katran_lia.
  - simpl. rewrite Hp. change (Z.to_nat (0 + eth_h_proto)) with (12 + 0)%nat.
    unfold encapsulated, eth_hdr. rewrite <-!app_assoc, (app_assoc (ctl_mac cval)).
    replace 12%nat with (length (ctl_mac cval ++ take 6 m))
      by (rewrite length_app, length_ctl_mac, length_take; lia).
    rewrite slice_region by (rewrite length_le_bytes; lia).
    change (slice 0 2 (le_bytes 2 p)) with (le_bytes 2 p).
    by rewrite le_val_bytes, Z.mod_small.
Qed.

Lemma pkt_len_encapsulated cval p hdrs m s :
  pkt s = encapsulated cval p hdrs m → (14 ≤ length m)%nat →
  pkt_len s = Z.of_nat (length hdrs) + Z.of_nat (length m).
Proof. intros Hp Hm. unfold pkt_len. simpl. rewrite Hp, length_encapsulated; lia. Qed.
End reads.

(** The fields of the outer headers the decapsulator looks at. *)
Lemma v4_hdr_fields id tos saddr daddr len proto check tl :
  length id = 2%nat →
  let h := v4_hdr id tos saddr daddr len proto check ++ tl in
  slice 0 1 h = [69] ∧ slice 9 1 h = [u8 proto] ∧ slice 6 2 h = [0; 0].
Proof. intros Hid. list_explicit id. done. Qed.

Lemma v6_hdr_nexthdr tc saddr daddr len proto tl :
  slice 6 1 (v6_hdr tc saddr daddr len proto ++ tl) = [u8 proto].
Proof. done. Qed.

Section l3.
Context {K : Type} `{BpfEnvLaws K} `{BuildConfig}.
Implicit Types (s : xstate K).

Lemma wp_l3_v4 cval id tos saddr daddr len p check tl m (Q : Z → xstate K → Prop) s :
  pkt s = encapsulated cval BE_ETH_P_IP (v4_hdr id tos saddr daddr len p check ++ tl) m →
  (14 ≤ length m)%nat → length id = 2%nat → is_byte p →
  Q FURTHER_PROCESSING (with_pckt (set_flow (set_proto p (flow (pckt s))) (pckt s)) s) →
  wpf (process_l3_headers sizeof_ethhdr false) Q s.
Proof.
  intros Hp Hm Hid Hb HQ. pose proof (pkt_len_encapsulated _ _ _ _ _ Hp Hm) as Hl.
  destruct (v4_hdr_fields id tos saddr daddr len p check tl Hid) as (F0 & F9 & F6).
  rewrite length_app, v4_hdr_length in Hl by done.
  assert (20 ≤ length (v4_hdr id tos saddr daddr len p check ++ tl))%nat as Hh
    by (rewrite length_app, v4_hdr_length by done; lia).
  unfold process_l3_headers. cbv zeta.
  wp_step. wp_step. apply wp_past_end. wp_step. wp_step; [fr_bounds|].
  wp_step. apply (wp_load_hdr 1 0 _ _ _ _ _ _ _ Hp); [done|lia|]. rewrite F0.
  wp_step. wp_step; [done|].
  wp_step. apply (wp_load_hdr 1 9 _ _ _ _ _ _ _ Hp); [done|lia|]. rewrite F9.
  wp_step. apply wp_modify. wp_step. apply (wp_load_hdr 2 6 cval BE_ETH_P_IP (v4_hdr id tos saddr daddr len p check ++ tl) m); [done|done|lia|]. rewrite F6.
  wp_step. wp_step; [done|]. wp_step.
  simpl le_val. rewrite Z.mul_0_r, Z.add_0_r, (u8_id p) by done. exact HQ.
Qed.

Lemma wp_l3_v6 cval tc saddr daddr len p tl m (Q : Z → xstate K → Prop) s :
  pkt s = encapsulated cval BE_ETH_P_IPV6 (v6_hdr tc saddr daddr len p ++ tl) m →
  (14 ≤ length m)%nat → is_byte p → p ≠ IPPROTO_FRAGMENT →
  Q FURTHER_PROCESSING (with_pckt (set_flow (set_proto p (flow (pckt s))) (pckt s)) s) →
  wpf (process_l3_headers sizeof_ethhdr true) Q s.
Proof.
  intros Hp Hm Hb Hfrag HQ. pose proof (pkt_len_encapsulated _ _ _ _ _ Hp Hm) as Hl.
  rewrite length_app, v6_hdr_length in Hl.
  assert (40 ≤ length (v6_hdr tc saddr daddr len p ++ tl))%nat as Hh
    by (rewrite length_app, v6_hdr_length by done; lia).
  unfold process_l3_headers. cbv zeta.
  wp_step. wp_step. apply wp_past_end. wp_step. wp_step; [fr_bounds|].
  wp_step. apply (wp_load_hdr 1 6 _ _ _ _ _ _ _ Hp); [done|lia|].
  rewrite v6_hdr_nexthdr. simpl le_val. rewrite Z.mul_0_r, Z.add_0_r, (u8_id p) by done.
  wp_step. apply wp_modify. wp_step. wp_step; [by bool_hyps|]. wp_step. exact HQ.
Qed.
End l3.

(** What [xdpdecap] makes of a packet encapsulated behind [n] bytes of outer
    headers: the client's packet comes out behind the new Ethernet header and
    the packet is counted, unless the kernel refuses to move the packet start. *)
Definition decap_result {K} `{BpfEnv K} (cval : ctl_value) (p : Z) (m : list Z)
    (n : Z) (d : decap_stats) (r : Z) (s' : xstate K) : Prop :=
  r = XDP_DROP ∧ head_refused n ∨
  r = XDP_PASS ∧ pkt s' = encapsulated cval p [] m ∧ decap_counters s' !! 0 = Some d.

Section decap.
Context {K : Type} `{BpfEnvLaws K} `{BuildConfig}.
Implicit Types (s : xstate K).

Lemma alter2_lookup (f g : decap_stats → decap_stats) (c : gmap Z decap_stats) d :
  c !! 0 = Some d → alter f 0 (alter g 0 c) !! 0 = Some (f (g d)).
Proof. intros Hd. by rewrite !lookup_alter_eq, Hd. Qed.

(** Up to the dispatch on the protocol. *)
Lemma wp_decap_dispatch off v6 p d (Q : Z → xstate K → Prop) s :
  decap_counters s !! 0 = Some d →
  (∀ Q', (∀ s1, pkt s1 = pkt s → decap_counters s1 = decap_counters s →
            pflags (pckt s1) = 0 → proto (flow (pckt s1)) = p → Q' FURTHER_PROCESSING s1) →
     ∀ s0, pkt s0 = pkt s → decap_counters s0 = decap_counters s → pckt s0 = pckt_zero →
     wpf (process_l3_headers off v6) Q' s0) →
  (∀ s1, pkt s1 = pkt s → decap_counters s1 = alter add_total 0 (decap_counters s) →
     pflags (pckt s1) = 0 → proto (flow (pckt s1)) = p →
     wpb ((if (p =? IPPROTO_IPIP) || (p =? IPPROTO_IPV6) then
             upd_decap_counters 0 (if v6 then add_decap_v6 else add_decap_v4) ;;
             let! action := call (process_encaped_ipip_pckt v6 p) in
             return_if (0 <=? action) action
           else when (INLINE_DECAP_GUE && (p =? IPPROTO_UDP))
             (let! ok := call (parse_udp v6) in
              return_if (negb ok) XDP_PASS ;;
              let! p := gets pckt in
              when (port16_1 (flow p) =? bpf_htons GUE_DPORT)
                (upd_decap_counters 0 (if v6 then add_decap_v6 else add_decap_v4) ;;
                 let! action := call (process_encaped_gue_pckt v6) in
                 return_if (0 <=? action) action))) ;;
          ret XDP_PASS) Q Q s1) →
  wpf (process_packet off v6) Q s.
Proof.
  intros Hd Hl3 HQ. unfold process_packet. cbv zeta.
  wp_step. wp_step. apply wp_modify. wp_step. wp_step. apply Hl3; [|done|done|done].
  intros s1 Hp1 Hd1 Hf1 <-. wp_step. wp_step; [done|]. wp_step. wp_step. wp_step. wp_step.
  rewrite Hd1, Hd. wp_step. wp_step; [done|]. wp_step. apply wp_modify.
  apply HQ; [done| |done|done]. simpl. by rewrite Hd1.
Qed.

Ltac decap_step :=
  lazymatch goal with
  | |- wpb (past_end _) _ _ _ => apply wp_past_end; cbv beta
  | |- wpb (call decap_v4) _ _ _ => apply wp_call, wp_decap_v4
  | |- wpb (call (decap_v6 _)) _ _ _ => apply wp_call, wp_decap_v6
  | |- wpb (call gue_decap_v4) _ _ _ => apply wp_call, wp_gue_decap_v4
  | |- wpb (call (gue_decap_v6 _)) _ _ _ => apply wp_call, wp_gue_decap_v6
  | |- _ ≤ pkt_len _ => fr_bounds
  | |- ∀ _, _ => intros ?
  | |- _ => wp_step
  end.

(** The three kinds of IPIP tunnel: outer header, Ethernet type, protocol and
    length of the outer header, Ethernet type of the inner packet. *)
Definition ipip_case (outer : bool) (p q : Z) (len : nat) (n : Z) : Prop :=
  outer = false ∧ p = BE_ETH_P_IP ∧ q = IPPROTO_IPIP ∧ len = 20%nat ∧ n = BE_ETH_P_IP ∨
  outer = true ∧ p = BE_ETH_P_IPV6 ∧ q = IPPROTO_IPIP ∧ len = 40%nat ∧ n = BE_ETH_P_IP ∨
  outer = true ∧ p = BE_ETH_P_IPV6 ∧ q = IPPROTO_IPV6 ∧ len = 40%nat ∧ n = BE_ETH_P_IPV6.

Lemma wp_ipip v6 p q n cval hdrs m (Q : Z → xstate K → Prop) s :
  pkt s = encapsulated cval p hdrs m → (14 ≤ length m)%nat →
  ipip_case v6 p q (length hdrs) n →
  (head_refused (Z.of_nat (length hdrs)) → ∀ s', Q XDP_DROP s') →
  (∀ s', pkt s' = encapsulated cval n [] m → decap_counters s' = decap_counters s →
     Q FURTHER_PROCESSING s') →
  wpf (process_encaped_ipip_pckt v6 q) Q s.
Proof.
  intros Hp Hm Hcase Hdrop HQ. pose proof (pkt_len_encapsulated _ _ _ _ _ Hp Hm) as Hl.
  pose proof (decapsulated_encapsulated cval p n hdrs m Hm) as Hdec. rewrite <-Hp in Hdec.
  destruct Hcase as [(->&->&->&Hh&->)|[(->&->&->&Hh&->)|(->&->&->&Hh&->)]];
    unfold process_encaped_ipip_pckt; simpl (_ =? _); cbv iota; rewrite Hh in *;
    repeat decap_step; first [by apply Hdrop | discriminate | by apply HQ | in_bounds].
Qed.

Lemma wp_gue (v6 : bool) n cval p hdrs m b0 (Q : Z → xstate K → Prop) s :
  pkt s = encapsulated cval p hdrs m → (14 ≤ length m)%nat →
  length hdrs = (if v6 then 48 else 28)%nat →
  m !! 14%nat = Some b0 →
  n = (if v6 && negb (Z.land b0 GUEV1_IPV6MASK =? 0) then BE_ETH_P_IPV6 else BE_ETH_P_IP) →
  (head_refused (Z.of_nat (length hdrs)) → ∀ s', Q XDP_DROP s') →
  (∀ s', pkt s' = encapsulated cval n [] m → decap_counters s' = decap_counters s →
     Q FURTHER_PROCESSING s') →
  wpf (process_encaped_gue_pckt v6) Q s.
Proof.
  intros Hp Hm Hh Hb0 -> Hdrop HQ. pose proof (pkt_len_encapsulated _ _ _ _ _ Hp Hm) as Hl.
  pose proof (λ n : Z, decapsulated_encapsulated cval p n hdrs m Hm) as Hdec. rewrite <-Hp in Hdec.
  pose proof (lookup_lt_Some _ _ _ Hb0) as Hlm.
  destruct v6; rewrite Hh in *; unfold process_encaped_gue_pckt; cbv zeta iota;
    repeat decap_step; try first [by apply Hdrop | discriminate | in_bounds | apply HQ; [apply Hdec|done]].
  unfold load8. apply (wp_load_inner8 _ cval p hdrs m b0);
    [done|done|by rewrite Hh|].
  simpl andb in HQ. destruct (negb (Z.land b0 GUEV1_IPV6MASK =? 0));
    repeat decap_step; first [by apply Hdrop | discriminate | in_bounds | apply HQ; [apply Hdec|done]].
Qed.

(** The Ethernet type of the client's packet, and the counter of the outer
    protocol. *)
Definition inner_proto (inner : bool) : Z := if inner then BE_ETH_P_IPV6 else BE_ETH_P_IP.
Definition add_decap (outer : bool) : decap_stats → decap_stats :=
  if outer then add_decap_v6 else add_decap_v4.

Lemma wp_xdpdecap_eth cval p hdrs m (Q : Z → xstate K → Prop) s :
  pkt s = encapsulated cval p hdrs m → (14 ≤ length m)%nat → 0 ≤ p < 2 ^ 16 →
  (p = BE_ETH_P_IP → wpf (process_packet sizeof_ethhdr false) Q s) →
  (p = BE_ETH_P_IPV6 → wpf (process_packet sizeof_ethhdr true) Q s) →
  p = BE_ETH_P_IP ∨ p = BE_ETH_P_IPV6 →
  wpf xdpdecap Q s.
Proof.
  intros Hp Hm Hr H4 H6 Hor. pose proof (pkt_len_encapsulated _ _ _ _ _ Hp Hm) as Hl.
  unfold xdpdecap. wp_step. cbv zeta. wp_step. apply wp_past_end. wp_step.
  wp_step; [fr_bounds|]. wp_step. apply (wp_load_eth_proto cval p hdrs m); [done..|].
  destruct Hor as [->| ->]; cbn [Z.eqb]; apply wp_call; [by apply H4|by apply H6].
Qed.

Lemma wp_xdpdecap_ipip outer p q n cval h m d (Q : Z → xstate K → Prop) s :
  ipip_case outer p q (length h) n →
  pkt s = encapsulated cval p h m → (14 ≤ length m)%nat →
  decap_counters s !! 0 = Some d →
  (∀ (Q' : Z → xstate K → Prop) s0, pkt s0 = encapsulated cval p h m →
     Q' FURTHER_PROCESSING
       (with_pckt (set_flow (set_proto q (flow (pckt s0))) (pckt s0)) s0) →
     wpf (process_l3_headers sizeof_ethhdr outer) Q' s0) →
  (∀ r s', decap_result cval n m (Z.of_nat (length h)) (add_decap outer (add_total d)) r s' →
     Q r s') →
  wpf xdpdecap Q s.
Proof.
  intros Hcase Hp Hm Hd Hl3 HQ.
  assert (wpf (process_packet sizeof_ethhdr outer) Q s) as Hgo.
  { apply (wp_decap_dispatch _ _ q d); [done| |].
    - intros Q' HQ' s0 Hp0 Hd0 Hz. apply Hl3; [congruence|]. apply HQ'; simpl; by rewrite ?Hz.
    - intros s1 Hp1 Hd1 _ _. replace ((q =? IPPROTO_IPIP) || (q =? IPPROTO_IPV6)) with true
        by (destruct Hcase as [(_&_&->&_)|[(_&_&->&_)|(_&_&->&_)]]; done).
      wp_step. wp_step. apply wp_modify. wp_step. wp_step.
      eapply (wp_ipip outer p q n cval h m); [simpl; congruence|done|done| |].
      + intros Hr s'. wp_step; [|done]. apply HQ. by left.
      + intros s' Hp' Hd'. wp_step; [done|]. wp_step. apply HQ. right.
        split_and!; [done|done|]. rewrite Hd'. simpl. rewrite Hd1.
        by rewrite (alter2_lookup _ _ _ d); destruct outer. }
  destruct Hcase as [(->&->&_&_&_)|[(->&->&_&_&_)|(->&->&_&_&_)]];
    eapply (wp_xdpdecap_eth cval _ h m); eauto; done.
Qed.
End decap.

(** ** The theorems *)
Section roundtrip.
Context {K : Type} `{BpfEnvLaws K} `{BuildConfig}.
Implicit Types (s : xstate K).

(** The two IPIP encapsulations of [pckt_encap.h]: to an IPv4 or an IPv6 real
    ([outer]), of an IPv4 or IPv6 packet ([inner]). *)
Definition ipip_encap (cval : ctl_value) (outer inner : bool) (dst : real_definition)
    (n : Z) : func (xstate K) bool :=
  if outer then encap_v6 cval inner dst n else encap_v4 cval dst n.
Definition ipip_overhead (outer : bool) : Z := if outer then 40 else 20.

(** [xdpdecap] on the two kinds of IPIP packets. *)
Lemma wp_xdpdecap_v6 cval inner p dst n m d s :
  pkt s = encapsulated cval BE_ETH_P_IPV6 (ipip_v6_hdr inner p dst n) m →
  (14 ≤ length m)%nat → decap_counters s !! 0 = Some d →
  wpf xdpdecap (decap_result cval (inner_proto inner) m 40 (add_decap true (add_total d))) s.
Proof.
  intros Hp Hm Hd. set (h := ipip_v6_hdr inner p dst n) in *.
  apply (wp_xdpdecap_ipip true BE_ETH_P_IPV6 (if inner then IPPROTO_IPV6 else IPPROTO_IPIP)
           (inner_proto inner) cval h m d); [|done|done|done| |].
  - right. destruct inner; [right|left]; done.
  - intros Q' s0 Hp0 HQ'. revert Hp0. subst h. unfold ipip_v6_hdr.
    destruct inner; rewrite <-(app_nil_r (v6_hdr _ _ _ _ _)); intros Hp0;
      (eapply wp_l3_v6; [exact Hp0|done|done|done|exact HQ']).
  - intros r s'. subst h. by destruct inner.
Qed.

Lemma wp_xdpdecap_v4 cval id tos saddr daddr len check m d s :
  pkt s = encapsulated cval BE_ETH_P_IP (v4_hdr id tos saddr daddr len IPPROTO_IPIP check) m →
  length id = 2%nat → (14 ≤ length m)%nat → decap_counters s !! 0 = Some d →
  wpf xdpdecap (decap_result cval BE_ETH_P_IP m 20 (add_decap false (add_total d))) s.
Proof.
  intros Hp Hid Hm Hd. set (h := v4_hdr _ _ _ _ _ _ _) in *.
  assert (length h = 20%nat) as Hlh by by apply v4_hdr_length.
  apply (wp_xdpdecap_ipip false BE_ETH_P_IP IPPROTO_IPIP (inner_proto false) cval h m d);
    [|done|done|done| |].
  - left. by rewrite Hlh.
  - intros Q' s0 Hp0 HQ'. rewrite <-(app_nil_r h) in Hp0.
    eapply wp_l3_v4; [exact Hp0|done|done|done|exact HQ'].
  - intros r s'. by rewrite Hlh.
Qed.

(** C4: IPIP round trip.  [xdpdecap] run on the packet that [encap_v4] or
    [encap_v6] built gives back the client's IP packet, byte for byte, behind
    an Ethernet header with the type of the client's packet, passes it to the
    kernel and counts it under the protocol of the outer header.  Both sides
    have a result; they give up only when the kernel refuses to move the
    packet start. *)
Theorem ipip_roundtrip cval outer inner dst n d s :
  (inner = true → outer = true) →
  14 ≤ pkt_len s → bytes_ok (pkt s) → is_byte (tos (pckt s)) →
  decap_counters s !! 0 = Some d →
  ∃ ok s1, ipip_encap cval outer inner dst n s = Some (ok, s1) ∧
    if ok
    then ∃ r s2, xdpdecap s1 = Some (r, s2) ∧
           decap_result cval (inner_proto inner) (pkt s) (ipip_overhead outer)
             (add_decap outer (add_total d)) r s2
    else head_refused (- ipip_overhead outer).
Proof.
  intros Hio Hl Hb Htos Hd. apply wpf_elim.
  assert (14 ≤ length (pkt s))%nat as Hm by (unfold pkt_len in Hl; simpl in Hl; lia).
  destruct outer; unfold ipip_encap.
  - apply wp_encap_v6; [done..| |].
    + by intros Hr _.
    + intros k. by eapply wpf_elim, wp_xdpdecap_v6.
  - destruct inner; [by specialize (Hio eq_refl)|]. apply wp_encap_v4; [done..| |].
    + by intros Hr _.
    + intros id check k Hid _ _ h _. by eapply wpf_elim, wp_xdpdecap_v4.
Qed.

(** The two GUE encapsulations. *)
Definition gue_encap (cval : ctl_value) (outer inner : bool) (dst : real_definition)
    (n : Z) : func (xstate K) bool :=
  if outer then gue_encap_v6 cval inner dst n else gue_encap_v4 cval dst n.
Definition gue_overhead (outer : bool) : Z := if outer then 48 else 28.

Lemma wp_gue_parse_udp outer cval p h sport len c m (Q : bool → xstate K → Prop) s :
  length h = ip_hdr_len outer → (14 ≤ length m)%nat → pflags (pckt s) = 0 →
  pkt s = encapsulated cval p (h ++ udp_hdr sport GUE_DPORT len c) m →
  (∀ s', pkt s' = pkt s → decap_counters s' = decap_counters s →
     port16_1 (flow (pckt s')) = bpf_htons GUE_DPORT → Q true s') →
  wpf (parse_udp outer) Q s.
Proof.
  intros Hh Hm Hf Hp HQ. pose proof (pkt_len_encapsulated _ _ _ _ _ Hp Hm) as Hl.
  rewrite length_app, udp_hdr_length, Hh in Hl.
  unfold parse_udp. do 2 wp_step. wp_step. rewrite Hf.
  change (has_flag 0 F_ICMP) with false. cbv zeta.
  replace (calc_offset outer false) with (14 + Z.of_nat (ip_hdr_len outer)) by by destruct outer.
  wp_step. apply wp_past_end. wp_step. wp_step; [in_bounds|].
  unfold load16, udp_source, udp_dest. rewrite <-Hh, Z.add_0_r, <-Z.add_assoc.
  wp_step. apply (wp_load_hdr 2 (length h) _ _ _ _ _ _ _ Hp); [done| |].
  { rewrite length_app, udp_hdr_length. lia. }
  change 2 with (Z.of_nat 2) at 1. rewrite <-Nat2Z.inj_add.
  wp_step. apply (wp_load_hdr 2 (length h + 2) _ _ _ _ _ _ _ Hp); [done| |].
  { rewrite length_app, udp_hdr_length. lia. }
  replace (slice (length h + 2) 2 (h ++ udp_hdr sport GUE_DPORT len c))
    with (reverse (le_bytes 2 GUE_DPORT)).
  2:{ rewrite <-(app_nil_r (udp_hdr _ _ _ _)), slice_region; [done|]. rewrite udp_hdr_length. lia. }
  wp_step. wp_step; [|done]. wp_step. apply wp_modify. apply wp_modify. by apply HQ.
Qed.

Lemma wp_xdpdecap_gue outer inner cval p h sport len c m d b0 (Q : Z → xstate K → Prop) s :
  INLINE_DECAP_GUE = true → p = inner_proto outer →
  length h = ip_hdr_len outer → (14 ≤ length m)%nat → m !! 14%nat = Some b0 →
  inner = outer && negb (Z.land b0 GUEV1_IPV6MASK =? 0) →
  pkt s = encapsulated cval p (h ++ udp_hdr sport GUE_DPORT len c) m →
  decap_counters s !! 0 = Some d →
  (∀ (Q' : Z → xstate K → Prop) s0,
     pkt s0 = encapsulated cval p (h ++ udp_hdr sport GUE_DPORT len c) m →
     Q' FURTHER_PROCESSING
       (with_pckt (set_flow (set_proto IPPROTO_UDP (flow (pckt s0))) (pckt s0)) s0) →
     wpf (process_l3_headers sizeof_ethhdr outer) Q' s0) →
  (∀ r s', decap_result cval (inner_proto inner) m (gue_overhead outer)
             (add_decap outer (add_total d)) r s' → Q r s') →
  wpf xdpdecap Q s.
Proof.
  intros Hgue Hpp Hh Hm Hb0 Hinner Hp Hd Hl3 HQ.
  assert (length (h ++ udp_hdr sport GUE_DPORT len c) = if outer then 48 else 28)%nat as Hlen
    by (rewrite length_app, udp_hdr_length, Hh; by destruct outer).
  assert (wpf (process_packet sizeof_ethhdr outer) Q s) as Hgo.
  { apply (wp_decap_dispatch _ _ IPPROTO_UDP d); [done| |].
    - intros Q' HQ' s0 Hp0 Hd0 Hz. apply Hl3; [congruence|]. apply HQ'; simpl; by rewrite ?Hz.
    - intros s1 Hp1 Hd1 Hf1 _. rewrite Hgue. simpl (IPPROTO_UDP =? _). cbn [orb andb when].
      wp_step. wp_step. wp_step.
      apply (wp_gue_parse_udp outer cval p h sport len c m); [done|done|done|congruence|].
      intros s2 Hp2 Hd2 Hdp. wp_step. wp_step; [done|]. wp_step. wp_step. rewrite Hdp.
      change (bpf_htons GUE_DPORT =? bpf_htons GUE_DPORT) with true. cbn [when].
      wp_step. apply wp_modify. wp_step. wp_step.
      apply (wp_gue outer (inner_proto inner) cval p (h ++ udp_hdr sport GUE_DPORT len c) m b0);
        [simpl; congruence|done|done|done| |..].
      + rewrite Hinner. by destruct (_ && _).
      + intros Hr s'. wp_step; [|done]. apply HQ. left. split; [done|].
        rewrite Hlen in Hr. by destruct outer.
      + intros s' Hp' Hd'. wp_step; [done|]. wp_step. apply HQ. right.
        split_and!; [done|done|]. rewrite Hd'. simpl. rewrite Hd2, Hd1.
        by rewrite (alter2_lookup _ _ _ d); destruct outer. }
  destruct outer; subst p; eapply (wp_xdpdecap_eth cval _ _ m); eauto; done.
Qed.

Lemma version_mask b0 (inner : bool) :
  is_byte b0 → Z.shiftr b0 4 = (if inner then 6 else 4) →
  negb (Z.land b0 GUEV1_IPV6MASK =? 0) = inner.
Proof.
  intros Hb Hv. pose proof (forall_range 256 (λ b0,
    if Z.shiftr b0 4 =? 6 then negb (Z.land b0 48 =? 0)
    else if Z.shiftr b0 4 =? 4 then Z.land b0 48 =? 0 else true)
    ltac:(vm_compute; done) b0 Hb) as Hr. cbv beta in Hr. rewrite Hv in Hr.
  unfold GUEV1_IPV6MASK. destruct inner; simpl in Hr; [done|]. by rewrite Hr.
Qed.

(** C5: GUE round trip.  [xdpdecap], built with [INLINE_DECAP_GUE], run on the
    packet that [gue_encap_v4] or [gue_encap_v6] built gives back the client's
    IP packet, byte for byte, behind an Ethernet header with the type of the
    client's packet: it finds the version from the first nibble of the inner
    packet, GUE variant 1 having no header of its own. *)
Theorem gue_roundtrip cval outer inner dst src n d b0 s :
  INLINE_DECAP_GUE = true → (inner = true → outer = true) →
  pckt_srcs (ctl s) !! (if outer then V6_SRC_INDEX else V4_SRC_INDEX) = Some src →
  bytes_ok (pkt s) → is_byte (tos (pckt s)) →
  pkt s !! 14%nat = Some b0 → Z.shiftr b0 4 = (if inner then 6 else 4) →
  decap_counters s !! 0 = Some d →
  ∃ ok s1, gue_encap cval outer inner dst n s = Some (ok, s1) ∧
    if ok
    then ∃ r s2, xdpdecap s1 = Some (r, s2) ∧
           decap_result cval (inner_proto inner) (pkt s) (gue_overhead outer)
             (add_decap outer (add_total d)) r s2
    else head_refused (- gue_overhead outer).
Proof.
  intros Hgue Hio Hsrc Hb Htos Hb0 Hv Hd. apply wpf_elim.
  pose proof (lookup_lt_Some _ _ _ Hb0) as Hm.
  assert (14 ≤ pkt_len s) as Hl by (unfold pkt_len; simpl; lia).
  assert (inner = outer && negb (Z.land b0 GUEV1_IPV6MASK =? 0)) as Hin.
  { rewrite (version_mask b0 inner); [|by apply (Forall_lookup_1 _ _ _ _ Hb Hb0)|done].
    destruct inner; [by rewrite Hio|by destruct outer]. }
  assert (14 ≤ length (pkt s))%nat as Hm14 by lia.
  destruct outer; unfold gue_encap.
  - apply (wp_gue_encap_v6 _ _ _ src); [done..|by intros Hr _|].
    intros c k len h m' _. apply wpf_elim.
    eapply (wp_xdpdecap_gue true inner cval _ h); [done|done|done|done|done|done|done|done| |by auto].
    intros Q' s0 Hp0 HQ'. eapply wp_l3_v6; [exact Hp0|done|done|done|exact HQ'].
  - apply (wp_gue_encap_v4 _ _ src); [done..|by intros Hr _|].
    intros id check c k Hid _ h m' _ _. apply wpf_elim.
    eapply (wp_xdpdecap_gue false inner cval _ h);
      [done|done|by apply v4_hdr_length|done|done|done|done|done| |by auto].
    intros Q' s0 Hp0 HQ'. eapply wp_l3_v4; [exact Hp0|done|done|done|exact HQ'].
Qed.
End roundtrip.

(** *** Concrete tunnels *)

(** A client's IPv4 packet, the MAC address of the default route, a real. *)
Definition client_frame : list Z :=
  repeat 7 12 ++ le_bytes 2 BE_ETH_P_IP ++ v4_hdr [1; 2] 16 167772161 167772162 40 IPPROTO_UDP 0 ++
  repeat 9 20.
Definition route_mac : ctl_value := CtlValue 112233445566.
Definition tunnel_state : xstate refk :=
  with_decap_counters {[0 := DecapStats 5 6 20]}
    (state_with client_frame
       (ControlMaps ∅ ∅ ∅ ∅ ∅ ∅ ∅ ∅ {[0 := RealDefinition (Addr 1 0 0 0) 0]}) [] []).

Lemma ipip_roundtrip_witness :
  ∃ ok s1,
    @ipip_encap refk ref_env route_mac true false (RealDefinition (Addr 1 2 3 4) F_IPV6) 40
      tunnel_state = Some (ok, s1) ∧
    if ok
    then ∃ r s2, @xdpdecap refk ref_env cfg_full s1 = Some (r, s2) ∧
           decap_result route_mac BE_ETH_P_IP client_frame 40 (DecapStats 5 7 21) r s2
    else head_refused (-40).
Proof.
  apply (@ipip_roundtrip refk ref_env ref_env_laws cfg_full route_mac true false
           (RealDefinition (Addr 1 2 3 4) F_IPV6) 40 (DecapStats 5 6 20) tunnel_state).
  - done.
  - vm_compute. discriminate.
  - by repeat constructor.
  - by vm_compute.
  - reflexivity.
Defined.

Lemma gue_roundtrip_witness :
  ∃ ok s1,
    @gue_encap refk ref_env route_mac false false (RealDefinition (Addr 1 0 0 0) 0) 40
      tunnel_state = Some (ok, s1) ∧
    if ok
    then ∃ r s2, @xdpdecap refk ref_env cfg_full s1 = Some (r, s2) ∧
           decap_result route_mac BE_ETH_P_IP client_frame 28 (DecapStats 6 6 21) r s2
    else head_refused (-28).
Proof.
  apply (@gue_roundtrip refk ref_env ref_env_laws cfg_full route_mac false false
           (RealDefinition (Addr 1 0 0 0) 0) (RealDefinition (Addr 1 0 0 0) 0) 40
           (DecapStats 5 6 20) 69 tunnel_state).
  - reflexivity.
  - discriminate.
  - reflexivity.
  - by repeat constructor.
  - by vm_compute.
  - reflexivity.
  - reflexivity.
  - reflexivity.
Defined.
