(* ===== verification/TunnelSpec.v ===== *)
(** * What the tunnels put on the wire

    The packets built by the encapsulations, header by header, and the outer
    UDP checksum of GUE. *)
From S2P Require Import Prelude Words Consts Structs Csum Headers Encap Frame RefKernel Tunnels RoundTrip.
Open Scope c_scope.

Section spec.
Context {K : Type} `{BpfEnvLaws K} `{BuildConfig}.
Implicit Types (s : xstate K).

(** The outer IP header of an IPIP packet.  The two bytes of the IPv4
    identification are whatever the kernel left in the headroom. *)
Definition ipip_header (outer inner : bool) (p : packet_description)
    (dst : real_definition) (n : Z) (h : list Z) : Prop :=
  if outer then h = ipip_v6_hdr inner p dst n
  else ∃ id check, length id = 2%nat ∧ csum_ok h ∧
    h = v4_hdr id (tos p) (ipip_v4_saddr (flow p)) (w0 (real_dst dst)) (u16 n + 20)
          IPPROTO_IPIP check.

Lemma wp_ipip_encap cval outer inner dst n (Q : bool → xstate K → Prop) s :
  (inner = true → outer = true) →
  14 ≤ pkt_len s → bytes_ok (pkt s) → is_byte (tos (pckt s)) →
  (head_refused (- ipip_overhead outer) → ∀ k, Q false (with_kern k s)) →
  (∀ k h, ipip_header outer inner (pckt s) dst n h →
     Q true (with_pkt (encapsulated cval (inner_proto outer) h (pkt s)) (with_kern k s))) →
  wpf (ipip_encap cval outer inner dst n) Q s.
Proof.
  intros Hio Hl Hb Htos Hdrop HQ. destruct outer; unfold ipip_encap.
  - apply wp_encap_v6; [done..|by apply Hdrop|]. intros k. by apply HQ.
  - destruct inner; [by specialize (Hio eq_refl)|].
    apply wp_encap_v4; [done..|by apply Hdrop|].
    intros id check k Hid _ _ h Hok. apply HQ. by exists id, check.
Qed.

(** The packet an IPIP encapsulation builds.  [encap_v4] and [encap_v6]
    change the packet only: in front of the client's IP packet they put an
    Ethernet header towards the configured MAC address, from the address the
    packet was sent to, and an outer IP header with the client's TOS, the
    source address derived from the flow, the real's address, the right length
    and protocol and, for IPv4, a correct header checksum.  They fail only
    when the kernel has no headroom. *)
Theorem ipip_encap_packet cval outer inner dst n s :
  (inner = true → outer = true) →
  14 ≤ pkt_len s → bytes_ok (pkt s) → is_byte (tos (pckt s)) →
  ∃ ok k h,
    ipip_encap cval outer inner dst n s = Some (ok,
      if ok : bool
      then with_pkt (encapsulated cval (inner_proto outer) h (pkt s)) (with_kern k s)
      else with_kern k s) ∧
    if ok then ipip_header outer inner (pckt s) dst n h
    else head_refused (- ipip_overhead outer).
Proof.
  intros Hio Hl Hb Htos.
  enough (wpf (ipip_encap cval outer inner dst n) (λ ok s', ∃ k h,
    s' = (if ok : bool
      then with_pkt (encapsulated cval (inner_proto outer) h (pkt s)) (with_kern k s)
      else with_kern k s) ∧
    if ok then ipip_header outer inner (pckt s) dst n h
    else head_refused (- ipip_overhead outer)) s) as Hw.
  { apply wpf_elim in Hw as (ok & s' & Hrun & k & h & -> & Hh). by exists ok, k, h. }
  apply wp_ipip_encap; [done..| |].
  - intros Hr k. by exists k, [].
  - intros k h Hh. by exists k, h.
Qed.

(** *** The outer checksum of GUE *)

(** The transport checksum of a frame whose IP header follows the Ethernet
    header: over the pseudo-header and a transport segment of [n] bytes. *)
Definition l4_csum_ok (v6 : bool) (n : nat) (m : list Z) : Prop :=
  sum16 (pseudo v6 14 m) + sum16 (slice (14 + ip_hdr_len v6) n m) ≅ 0.

Lemma slice_encapsulated_inner cval p hdrs m k n :
  (14 ≤ length m)%nat →
  slice (14 + length hdrs + k) n (encapsulated cval p hdrs m) = slice (14 + k) n m.
Proof.
  intros Hm. unfold encapsulated, slice. rewrite app_assoc.
  replace (14 + length hdrs + k)%nat
    with (length (eth_hdr (ctl_mac cval) (take 6 m) p ++ hdrs) + k)%nat.
  - rewrite drop_app_add. by rewrite drop_drop.
  - rewrite length_app, eth_hdr_length; [lia|apply length_ctl_mac|].
    rewrite length_take; lia.
Qed.

(** The pseudo-header of the inner packet is that of the client's packet. *)
Lemma pseudo_inner v6 cval p hdrs m :
  (14 ≤ length m)%nat →
  pseudo v6 (14 + length hdrs) (encapsulated cval p hdrs m) = pseudo v6 14 m.
Proof.
  intros Hm. destruct v6; unfold pseudo, pseudo_v4, pseudo_v6;
    by rewrite !slice_encapsulated_inner.
Qed.

(** The pseudo-header of the outer packet depends on the outer IP header. *)
Lemma pseudo_outer v6 cval p h hdrs hdrs' m :
  (14 ≤ length m)%nat → length h = ip_hdr_len v6 →
  pseudo v6 14 (encapsulated cval p (h ++ hdrs) m) =
  pseudo v6 14 (encapsulated cval p (h ++ hdrs') m).
Proof.
  intros Hm Hh.
  assert (∀ k n, (k + n ≤ length h)%nat → ∀ l,
    slice (14 + k) n (encapsulated cval p (h ++ l) m) = slice k n h) as Hs.
  { intros k n Hk l. rewrite slice_encapsulated by (rewrite ?length_app; lia).
    by apply (slice_region [] h l k n). }
  destruct v6; unfold pseudo, pseudo_v4, pseudo_v6; simpl in Hh;
    by rewrite !Hs by lia.
Qed.

Lemma has_transport_shift p off len k :
  has_transport p (off + k) (len + k) = has_transport p off len.
Proof.
  assert (∀ j, (off + k + j <=? len + k) = (off + j <=? len)) as Hj.
  { intros j. apply eq_true_iff_eq. rewrite !Z.leb_le. lia. }
  unfold has_transport. by rewrite !Hj.
Qed.

Lemma sum16_udp_hdr sport dport len c :
  0 ≤ c < 2 ^ 16 →
  sum16 (udp_hdr sport dport len c) = sum16 (udp_hdr sport dport len 0) + c.
Proof.
  intros Hc. unfold udp_hdr. rewrite !sum16_app by by rewrite ?length_reverse, length_le_bytes.
  rewrite !sum16_le_bytes2, (u16_id c) by done. change (u16 0) with 0. lia.
Qed.

Lemma sum16_slice_split off k n m :
  Nat.even k = true → (off + k ≤ length m)%nat →
  sum16 (slice off (k + n) m) = sum16 (slice off k m) + sum16 (slice (off + k) n m).
Proof.
  intros Hk Hl. rewrite <-sum16_app.
  - f_equal. unfold slice. rewrite <-drop_drop. set (l := drop off m).
    rewrite <-(take_drop k (take (k + n) l)). f_equal.
    + rewrite take_take. f_equal. lia.
    + rewrite skipn_firstn_comm. f_equal. lia.
  - by rewrite length_slice.
Qed.

(** If the inner checksum is right, so is the outer one. *)
Lemma gue_outer_csum_ok outer inner cval p h sport len m c n :
  (14 ≤ length m)%nat → length h = ip_hdr_len outer →
  (14 + ip_hdr_len inner + n ≤ length m)%nat →
  let m' := λ c, encapsulated cval p (h ++ udp_hdr sport GUE_DPORT len c) m in
  gue_csum_of outer inner (m' 0) c → l4_csum_ok inner n m →
  l4_csum_ok outer (8 + ip_hdr_len inner + n) (m' c).
Proof.
  intros Hm Hh Hn m' [Hr Hc] Hin. unfold l4_csum_ok in *.
  assert (length (m' c) = length h + 8 + length m)%nat as Hlen.
  { unfold m'. rewrite length_encapsulated, length_app, udp_hdr_length by done. lia. }
  assert (∀ c, (14 + ip_hdr_len outer + 8 = 14 + length (h ++ udp_hdr sport GUE_DPORT len c))%nat)
    as Hoff by (intros; rewrite length_app, udp_hdr_length, Hh; lia).
  assert (∀ k n', slice (14 + ip_hdr_len outer + 8 + k) n' (m' c) = slice (14 + k) n' m) as Hsi.
  { intros k n'. rewrite (Hoff c). by apply slice_encapsulated_inner. }
  assert (∀ c, slice (14 + ip_hdr_len outer) 8 (m' c) = udp_hdr sport GUE_DPORT len c) as Hsu.
  { intros c0. unfold m'. rewrite slice_encapsulated by (rewrite ?length_app, ?udp_hdr_length; lia).
    rewrite <-Hh, <-(app_nil_r (udp_hdr _ _ _ _)), <-(Nat.add_0_r (length h)).
    by rewrite slice_region by (rewrite udp_hdr_length; lia). }
  assert (slice (14 + ip_hdr_len outer + 8) (ip_hdr_len inner) (m' 0)
          = slice 14 (ip_hdr_len inner) m) as Hsh.
  { rewrite (Hoff 0), <-(Nat.add_0_r (_ + length _)). unfold m'.
    rewrite slice_encapsulated_inner by done. by rewrite Nat.add_0_r. }
  rewrite <-Nat.add_assoc, sum16_slice_split, sum16_slice_split by (done || (destruct inner; done) || lia).
  rewrite Hsu, sum16_udp_hdr by done. rewrite Hsi.
  rewrite <-(Nat.add_0_r (14 + _ + 8)) at 1. rewrite Hsi, Nat.add_0_r.
  unfold gue_sum in Hc. rewrite Hsu, Hsh in Hc.
  unfold m' in Hc at 2. rewrite (Hoff 0), pseudo_inner in Hc by done.
  fold (m' 0) in Hc.
  replace (pseudo outer 14 (m' c)) with (pseudo outer 14 (m' 0))
    by (unfold m'; rewrite (pseudo_outer outer cval p h _ (udp_hdr sport GUE_DPORT len c)); done).
  rewrite Hc. etransitivity; [|exact Hin]. apply eqm_eq. lia.
Qed.

(** The outer headers of a GUE packet: the IP header, and the source port and
    length of the UDP header. *)
Definition gue_header (outer : bool) (p : packet_description)
    (src dst : real_definition) (len : Z) (h : list Z) : Prop :=
  if outer then h = v6_hdr (tos p) (real_dst src) (real_dst dst) len IPPROTO_UDP
  else ∃ id check, length id = 2%nat ∧ csum_ok h ∧
    h = v4_hdr id (tos p) (w0 (real_dst src)) (w0 (real_dst dst)) (len + 20) IPPROTO_UDP check.
Definition gue_port (outer inner : bool) (f : flow_key) : Z :=
  if outer then gue_v6_sport inner f else gue_v4_sport f.
Definition gue_len (outer inner : bool) (n : Z) : Z :=
  if outer then gue_v6_len inner n else u16 (n + 8).

(** The outer checksum field: zero when the client's packet is too short to
    have the transport header its protocol promises or has another protocol,
    otherwise right if the client's own transport checksum is. *)
Definition gue_checksum (outer inner : bool) (p : packet_description)
    (m m' : list Z) (c : Z) : Prop :=
  if has_transport (proto (flow p)) (14 + Z.of_nat (ip_hdr_len inner)) (Z.of_nat (length m))
  then ∀ n, (14 + ip_hdr_len inner + n ≤ length m)%nat →
         l4_csum_ok inner n m → l4_csum_ok outer (8 + ip_hdr_len inner + n) m'
  else c = 0.

(** What a GUE encapsulation of [m] gives. *)
Definition gue_result (cval : ctl_value) (outer inner : bool) (src dst : real_definition)
    (n : Z) s (ok : bool) (s' : xstate K) : Prop :=
  if ok then ∃ k h c,
    let m' := encapsulated cval (inner_proto outer)
      (h ++ udp_hdr (gue_port outer inner (flow (pckt s))) GUE_DPORT (gue_len outer inner n) c)
      (pkt s) in
    s' = with_pkt m' (with_kern k s) ∧
    gue_header outer (pckt s) src dst (gue_len outer inner n) h ∧
    gue_checksum outer inner (pckt s) (pkt s) m' c
  else ∃ k, s' = with_kern k s ∧ head_refused (- gue_overhead outer).

Lemma gue_checksum_intro outer inner cval p h sport len m c q :
  (14 ≤ length m)%nat → length h = ip_hdr_len outer →
  let m' := λ c, encapsulated cval p (h ++ udp_hdr sport GUE_DPORT len c) m in
  gue_outer_csum outer inner (proto (flow q)) (m' 0) c →
  gue_checksum outer inner q m (m' c) c.
Proof.
  intros Hm Hh m'. unfold gue_outer_csum, gue_checksum.
  assert (length (m' 0%Z) = length h + 8 + length m)%nat as Hlen.
  { unfold m'. rewrite length_encapsulated, length_app, udp_hdr_length by done. lia. }
  rewrite Hlen, Hh.
  replace (22 + Z.of_nat (ip_hdr_len outer) + Z.of_nat (ip_hdr_len inner))
    with (14 + Z.of_nat (ip_hdr_len inner) + (8 + Z.of_nat (ip_hdr_len outer))) by lia.
  replace (Z.of_nat (ip_hdr_len outer + 8 + length m))
    with (Z.of_nat (length m) + (8 + Z.of_nat (ip_hdr_len outer))) by lia.
  rewrite has_transport_shift. destruct (has_transport _ _ _); [|done].
  intros Hc n Hn Hin. by apply gue_outer_csum_ok.
Qed.

(** the packet a GUE encapsulation builds.  Between the new Ethernet
    header and the client's IP packet come an outer IP header from the host's
    configured address to the real and a UDP header to port 6080 with the
    flow-dependent source port, the same length in both; the outer UDP
    checksum, computed from the inner one without reading the payload, is
    right for the whole packet whenever the client's transport checksum is. *)
Theorem gue_encap_packet cval outer inner src dst n s :
  (inner = true → outer = true) →
  pckt_srcs (ctl s) !! (if outer then V6_SRC_INDEX else V4_SRC_INDEX) = Some src →
  14 ≤ pkt_len s → bytes_ok (pkt s) → is_byte (tos (pckt s)) →
  ∃ ok s', gue_encap cval outer inner dst n s = Some (ok, s') ∧
    gue_result cval outer inner src dst n s ok s'.
Proof.
  intros Hio Hsrc Hl Hb Htos. apply wpf_elim.
  assert (14 ≤ length (pkt s))%nat as Hm by (unfold pkt_len in Hl; simpl in Hl; lia).
  destruct outer; unfold gue_encap.
  - apply (wp_gue_encap_v6 _ _ _ src); [done..|intros Hr k; by exists k|].
    intros c k len h m' Hc. exists k, h, c. split_and!; [done|done|].
    by apply (gue_checksum_intro true inner).
  - destruct inner; [by specialize (Hio eq_refl)|].
    apply (wp_gue_encap_v4 _ _ src); [done..|intros Hr k; by exists k|].
    intros id check c k Hid _ h m' Hok Hc. exists k, h, c. split_and!; [done| |].
    + by exists id, check.
    + apply (gue_checksum_intro false false); [done|by apply v4_hdr_length|done].
Qed.
End spec.

Lemma ipip_encap_packet_witness :
  ∃ ok k h,
    @ipip_encap refk ref_env route_mac false false (RealDefinition (Addr 5 0 0 0) 0) 40
      tunnel_state = Some (ok,
      if ok : bool
      then with_pkt (encapsulated route_mac BE_ETH_P_IP h client_frame) (with_kern k tunnel_state)
      else with_kern k tunnel_state) ∧
    if ok then ipip_header false false pckt_zero (RealDefinition (Addr 5 0 0 0) 0) 40 h
    else head_refused (-20).
Proof.
  apply (@ipip_encap_packet refk ref_env ref_env_laws route_mac false false
           (RealDefinition (Addr 5 0 0 0) 0) 40 tunnel_state).
  - done.
  - vm_compute. discriminate.
  - by repeat constructor.
  - by vm_compute.
Defined.

Lemma gue_encap_packet_witness :
  ∃ ok s', @gue_encap refk ref_env route_mac false false (RealDefinition (Addr 5 0 0 0) 0) 40
      tunnel_state = Some (ok, s') ∧
    @gue_result refk ref_env route_mac false false (RealDefinition (Addr 1 0 0 0) 0)
      (RealDefinition (Addr 5 0 0 0) 0) 40 tunnel_state ok s'.
Proof.
  apply (@gue_encap_packet refk ref_env ref_env_laws route_mac false false).
  - done.
  - reflexivity.
  - vm_compute. discriminate.
  - by repeat constructor.
  - by vm_compute.
Defined.
