(* ===== verification/HeaderSpec.v ===== *)
(** * Folding and TTL handling

    What [csum_fold_helper] computes on every 64-bit sum, and what
    [decrement_ttl] does to a header. *)
From S2P Require Import Prelude Words Consts Structs Csum Headers Frame RefKernel.
Open Scope c_scope.

(** folding.  Four iterations of the loop of [csum_fold_helper] bring every
    64-bit sum down to 16 bits: the result is the complement of the
    one's-complement sum, a checksum that completes the data to [0xffff].
    Three iterations would not be enough. *)
Theorem csum_fold_reference :
  (∀ c, 0 ≤ c < 2 ^ 64 →
     csum_fold_helper c = 65535 - ones_fold c ∧ csum_fold_helper c + c ≅ 0) ∧
  ∃ c, 0 ≤ c < 2 ^ 64 ∧ 2 ^ 16 ≤ Nat.iter 3 csum_fold_step c.
Proof.
  split.
  - intros c Hc. split; [by apply csum_fold_helper_eq|].
    rewrite csum_fold_helper_eqm by done. apply eqm_eq. lia.
  - exists (2 ^ 64 - 1). split; [lia|]. vm_compute. discriminate.
Qed.

Section ttl.
Context {S : Type} `{PktStateLaws S}.
Implicit Types (s : S).

(** The outcome of [decrement_ttl] on the IPv4 header [h] at [off]. *)
Definition ttl_v4_result (off : Z) (h : list Z) (t : Z) s (r : Z) (s' : S) : Prop :=
  if t =? 1 then r = XDP_DROP
  else r = FURTHER_PROCESSING ∧ ∃ h',
    s' = set_pkt (splice (Z.to_nat off) h' (get_pkt s)) s ∧ length h' = 20%nat ∧
    h' !! 8%nat = Some (u8 (t - 1)) ∧
    (∀ i, i ≠ 8%nat → i ≠ 10%nat → i ≠ 11%nat → h' !! i = h !! i) ∧
    (csum_ok h → (csum_ok h' ↔ t ≠ 0)).

(** TTL of IPv4.  A header whose TTL is 1 is dropped.  Otherwise the TTL
    goes down by one, nothing but the TTL and the checksum changes, and the
    incrementally updated checksum is right if it was right before, unless the
    TTL was 0: then it wraps to 255, the packet goes on and its checksum is
    wrong. *)
Theorem decrement_ttl_v4 off s h t :
  0 ≤ off → off + 20 ≤ pkt_len s → bytes_ok (get_pkt s) →
  slice (Z.to_nat off) 20 (get_pkt s) = h → h !! 8%nat = Some t →
  ∃ r s', decrement_ttl off false s = Some (r, s') ∧ ttl_v4_result off h t s r s'.
Proof.
  intros Ho Hl Hb Hh Ht. apply wpf_elim. unfold ttl_v4_result.
  assert (length h = 20%nat) as Hlen
    by (rewrite <-Hh; apply length_slice; unfold pkt_len in Hl; lia).
  apply (wp_decrement_ttl_v4 _ _ _ h); [done..| |].
  - intros H1 h' _. replace t with 1 by congruence. done.
  - intros t' check Ht' Hne _ _ h' Hsum. assert (t' = t) as -> by congruence.
    rewrite (proj2 (Z.eqb_neq _ _) Hne). split; [done|]. exists h'. subst h'.
    list_explicit h. split_and!; [done..| |].
    + intros i H8 H10 H11. do 20 (destruct i as [|i]; [done|]). done.
    + unfold csum_ok. intros Hok. rewrite Hsum, Hok. destruct (Z.eqb_spec t 0); [|done].
      split; [discriminate|done].
Qed.

(** The outcome of [decrement_ttl] on the IPv6 hop limit at [off + 7]. *)
Definition ttl_v6_result (off t : Z) s (r : Z) (s' : S) : Prop :=
  s' = set_pkt (splice (Z.to_nat (off + 7)) [u8 (t - 1)] (get_pkt s)) s ∧
  r = if t =? 1 then XDP_DROP else FURTHER_PROCESSING.

(** Hop limit of IPv6.  The hop limit goes down by one, modulo 256, and
    nothing else changes; the packet is dropped exactly if it reaches 0. *)
Lemma decrement_ttl_v6 off s t :
  0 ≤ off → off + 40 ≤ pkt_len s → bytes_ok (get_pkt s) →
  get_pkt s !! Z.to_nat (off + 7) = Some t →
  ∃ r s', decrement_ttl off true s = Some (r, s') ∧ ttl_v6_result off t s r s'.
Proof.
  intros Ho Hl Hb Ht. apply wpf_elim. unfold decrement_ttl.
  pose proof (Forall_lookup_1 _ _ _ _ Hb Ht) as Hbt.
  wp_step. cbv iota. wp_step. apply wp_past_end. wp_step. wp_step; [in_bounds|].
  wp_step. apply wp_load; [katran_lia|katran_lia|]. autounfold with katran.
  rewrite (slice_one _ _ t) by done. simpl le_val. rewrite Z.mul_0_r, Z.add_0_r.
  wp_step. apply wp_store; [katran_lia|katran_lia|].
  replace (le_bytes 1 (u8 (t - 1))) with [u8 (t - 1)]
    by (simpl; f_equal; symmetry; apply Z.mod_small, u8_range).
  assert ((u8 (t - 1) =? 0) = (t =? 1)) as Heq.
  { rewrite u8_pred by done. unfold is_byte in Hbt.
    destruct (Z.eqb_spec t 0) as [->|]; [done|]. apply eq_true_iff_eq.
    rewrite !Z.eqb_eq. lia. }
  rewrite Heq. wp_step. wp_step; [|wp_step]; rewrite <-Heq, Heq in *;
    split; try done; by rewrite H2.
Qed.
End ttl.

(** A header with TTL 64 and a correct checksum, and one with TTL 0. *)
Definition good_header : list Z := v4_hdr [0; 0] 0 16777226 33554442 40 IPPROTO_UDP 50022.
Definition dead_header : list Z := splice 8 [0] good_header.

Lemma decrement_ttl_v4_witness :
  csum_ok good_header ∧
  (∃ r s', decrement_ttl 0 false (state_with good_header empty_ctl [] []) = Some (r, s') ∧
     ttl_v4_result 0 good_header 64 (state_with good_header empty_ctl [] []) r s') ∧
  ∃ r s', decrement_ttl 0 false (state_with dead_header empty_ctl [] []) = Some (r, s') ∧
     ttl_v4_result 0 dead_header 0 (state_with dead_header empty_ctl [] []) r s'.
Proof.
  split; [reflexivity|]. split; (apply decrement_ttl_v4;
    [done|vm_compute; discriminate|by repeat constructor|reflexivity|reflexivity]).
Defined.

Lemma decrement_ttl_v6_witness :
  ∃ r s', decrement_ttl 2 true (state_with (repeat 1 60) empty_ctl [] []) = Some (r, s') ∧
    ttl_v6_result 2 1 (state_with (repeat 1 60) empty_ctl [] []) r s'.
Proof.
  apply decrement_ttl_v6;
    [done|vm_compute; discriminate|by repeat constructor|reflexivity].
Defined.
