(* ===== verification/Flood.v ===== *)
(** * The connection-rate limiter ([is_under_flood])

    The limiter counts new connections in windows of a second.  Its state is
    one element of the counters array, which nothing else writes; a trace of
    calls, whatever the program does in between, is a sequence of its values. *)
From Stdlib Require Import Sorted.
From S2P Require Import Prelude Words Consts Structs Parsing Balancer Frame RefKernel.
Open Scope c_scope.

Definition conn_rate_key : Z := MAX_VIPS + NEW_CONN_RATE_CNTR.

(** One call at time [t] with the counter at [d]: the answer and the new
    counter. *)
Definition flood_step (d : lb_stats) (t : Z) : bool * lb_stats :=
  if ONE_SEC <? u64 (t - v2 d) then (false, LbStats 1 t)
  else (MAX_CONN_RATE <? u64 (v1 d + 1), add_v1 1 d).

Section flood.
Context {K : Type} `{BpfEnvLaws K}.
Implicit Types (s : xstate K).

Lemma wp_ktime {R} (QR : R → xstate K → Prop) (QN : Z → xstate K → Prop) s :
  (∀ t k, bpf_ktime_get_ns (kern s) = (t, k) → 0 ≤ t < 2 ^ 64 → QN t (with_kern k s)) →
  wpb ktime_get_ns QR QN s.
Proof.
  intros HQ. unfold wpb, ktime_get_ns. pose proof (ktime_range (kern s)) as Hr.
  destruct (bpf_ktime_get_ns (kern s)) as [t k]. by apply HQ.
Qed.

(** The routine is [flood_step] on its counter. *)
Lemma wp_is_under_flood (Q : bool * Z → xstate K → Prop) s d :
  stats s !! conn_rate_key = Some d →
  (∀ t k, bpf_ktime_get_ns (kern s) = (t, k) → 0 ≤ t < 2 ^ 64 →
     Q (fst (flood_step d t), t)
       (with_stats (<[conn_rate_key := snd (flood_step d t)]> (stats s)) (with_kern k s))) →
  wpf is_under_flood Q s.
Proof.
  intros Hd HQ. unfold is_under_flood. fold conn_rate_key. wp_step. cbv zeta.
  wp_step. apply wp_gets. rewrite Hd. wp_step. wp_step; [done|]. replace a with d by congruence.
  wp_step. apply wp_ktime. intros t k Ht Hr. specialize (HQ t k Ht Hr). revert HQ.
  assert (∀ f, alter f conn_rate_key (stats s) = <[conn_rate_key := f d]> (stats s)) as Ha.
  { intros f. apply map_eq. intros i. destruct (decide (i = conn_rate_key)) as [->|].
    - by rewrite lookup_alter_eq, lookup_insert_eq, Hd.
    - by rewrite lookup_alter_ne, lookup_insert_ne. }
  unfold flood_step. intros HQ.
  wp_step; wp_step; apply wp_modify; simpl stats; rewrite Ha;
    match goal with H : _ = _ |- _ => rewrite H in HQ end.
  - wp_step. exact HQ.
  - wp_step. wp_step; [|wp_step];
      match goal with H : (MAX_CONN_RATE <? _) = _ |- _ => rewrite H in HQ end; exact HQ.
Qed.

(** Traces of calls: the times and answers, between two values of the
    counter. *)
Inductive flood_trace : lb_stats → list (Z * bool) → lb_stats → Prop :=
| trace_nil d : flood_trace d [] d
| trace_call d s b t s' d' tr d'' :
    stats s !! conn_rate_key = Some d →
    is_under_flood s = Some ((b, t), s') →
    stats s' !! conn_rate_key = Some d' →
    flood_trace d' tr d'' →
    flood_trace d ((t, b) :: tr) d''.

Lemma flood_trace_inv d t b tr d'' :
  flood_trace d ((t, b) :: tr) d'' →
  0 ≤ t < 2 ^ 64 ∧ b = fst (flood_step d t) ∧ flood_trace (snd (flood_step d t)) tr d''.
Proof.
  intros Htr. inversion Htr as [|? s ? ? s' d' ? ? Hs Hrun Hs' Htr' E1 E2]; subst.
  pose proof (wp_is_under_flood
    (λ r s1, 0 ≤ snd r < 2 ^ 64 ∧ fst r = fst (flood_step d (snd r)) ∧
       stats s1 !! conn_rate_key = Some (snd (flood_step d (snd r)))) s d Hs) as Hw.
  unfold wpf in Hw. rewrite Hrun in Hw.
  destruct Hw as (Hr & Hb & Hd').
  { intros t0 k _ Hr. simpl. by rewrite lookup_insert_eq. }
  simpl in *. split; [done|]. split; [done|].
  by replace (snd (flood_step d t)) with d' by congruence.
Qed.

(** The number of connections let through. *)
Fixpoint accepted (tr : list (Z * bool)) : Z :=
  match tr with
  | [] => 0
  | (_, b) :: tr => (if b : bool then 0 else 1) + accepted tr
  end.

(** The conditions on a trace that starts with the counter at [d]: the clock
    does not run backwards, and the counter does not reach [2^64]. *)
Definition trace_ok (d : lb_stats) (tr : list (Z * bool)) : Prop :=
  0 ≤ v2 d ∧ 0 ≤ v1 d ∧ v1 d + Z.of_nat (length tr) < 2 ^ 64 ∧
  StronglySorted Z.le (v2 d :: tr.*1).

(** One call: a new window, or one more connection in the current one. *)
Lemma flood_step_cases d t b tr :
  trace_ok d ((t, b) :: tr) → 0 ≤ t < 2 ^ 64 →
  trace_ok (snd (flood_step d t)) tr ∧
  (ONE_SEC < t - v2 d ∧ flood_step d t = (false, LbStats 1 t) ∨
   t - v2 d ≤ ONE_SEC ∧
   flood_step d t = (MAX_CONN_RATE <? v1 d + 1, LbStats (v1 d + 1) (v2 d))).
Proof.
  intros (H2 & H1 & Hlen & Hs) Ht. simpl in *.
  apply StronglySorted_inv in Hs as [Hs Hall].
  apply Forall_cons in Hall as [Hle Hall].
  unfold flood_step. rewrite u64_id by lia.
  destruct (Z.ltb_spec ONE_SEC (t - v2 d)).
  - split; [|by left]. unfold trace_ok. simpl. split_and!; [lia..|done].
  - rewrite u64_id by lia. unfold add_v1. rewrite u64_id by lia. split; [|by right].
    unfold trace_ok. simpl. split_and!; [lia..|].
    apply StronglySorted_inv in Hs as [Hs _]. by constructor.
Qed.

(** [n] windows can start after the current one. *)
Lemma accepted_bound n d tr d' :
  flood_trace d tr d' → trace_ok d tr →
  Forall (λ t, t ≤ v2 d + (Z.of_nat n + 1) * ONE_SEC) tr.*1 →
  accepted tr ≤ Z.max 0 (MAX_CONN_RATE - v1 d) + Z.of_nat n * MAX_CONN_RATE.
Proof.
  revert n d. induction tr as [|[t b] tr IH]; intros n d Htr Hok Hin; [unfold MAX_CONN_RATE; simpl accepted; lia|].
  apply flood_trace_inv in Htr as (Hr & -> & Htr).
  destruct (flood_step_cases d t _ tr Hok Hr) as [Hok' Hcase].
  apply Forall_cons in Hin as [Hin Hall]. simpl accepted.
  destruct Hcase as [[Ht E]|[Ht E]]; rewrite E in *; simpl fst in *; simpl snd in *.
  - destruct n as [|n]; [lia|].
    assert (Forall (λ t', t' ≤ t + (Z.of_nat n + 1) * ONE_SEC) tr.*1) as Hall'.
    { eapply Forall_impl; [exact Hall|]. simpl in *. intros. unfold ONE_SEC in *. lia. }
    specialize (IH n _ Htr Hok' Hall'). simpl v1 in IH. unfold MAX_CONN_RATE in *. lia.
  - specialize (IH n _ Htr Hok' Hall). simpl in IH.
    destruct (Z.ltb_spec MAX_CONN_RATE (v1 d + 1)); lia.
Qed.

(** C11: the rate limit.  In every interval of [n] seconds, [is_under_flood]
    lets through at most [(n + 1) * MAX_CONN_RATE] new connections of one CPU,
    however the calls are spaced, whatever the program does between them and
    whatever the counter held before. *)
Theorem flood_rate_bound n a d tr d' :
  flood_trace d tr d' → trace_ok d tr → (1 ≤ n)%nat →
  Forall (λ t, a ≤ t ≤ a + Z.of_nat n * ONE_SEC) tr.*1 →
  accepted tr ≤ (Z.of_nat n + 1) * MAX_CONN_RATE.
Proof.
  intros Htr Hok Hn Hin.
  enough (accepted tr ≤ Z.max 0 (MAX_CONN_RATE - v1 d) + Z.of_nat n * MAX_CONN_RATE) as Hb.
  { destruct Hok as (_ & ? & _). unfold MAX_CONN_RATE in *. lia. }
  revert d Htr Hok. induction tr as [|[t b] tr IH]; intros d Htr Hok; [unfold MAX_CONN_RATE; simpl accepted; lia|].
  apply flood_trace_inv in Htr as (Hr & -> & Htr).
  destruct (flood_step_cases d t _ tr Hok Hr) as [Hok' Hcase].
  apply Forall_cons in Hin as [Hin Hall]. simpl accepted.
  destruct Hcase as [[Ht E]|[Ht E]]; rewrite E in *; simpl fst in *; simpl snd in *.
  - assert (Forall (λ t', t' ≤ t + (Z.of_nat (n - 1) + 1) * ONE_SEC) tr.*1) as Hall'.
    { eapply Forall_impl; [exact Hall|]. simpl in *. intros. unfold ONE_SEC in *. lia. }
    pose proof (accepted_bound (n - 1) _ _ _ Htr Hok' Hall') as Hb. simpl v1 in Hb.
    unfold MAX_CONN_RATE in *. lia.
  - specialize (IH Hall _ Htr Hok'). simpl in IH.
    destruct (Z.ltb_spec MAX_CONN_RATE (v1 d + 1)); lia.
Qed.
End flood.

(** Two calls a second apart. *)
Definition flood_state (d : lb_stats) (now : Z) : xstate refk :=
  with_kern (RefK now 0)
    (with_stats {[conn_rate_key := d]} (state_with [] empty_ctl [] [])).

Lemma flood_rate_bound_witness :
  accepted [(1000000000, false); (2000000001, false)] ≤ 3 * MAX_CONN_RATE.
Proof.
  apply (@flood_rate_bound refk ref_env ref_env_laws 2 1000000000 (LbStats 0 0) _
           (LbStats 1 2000000001)).
  - eapply (trace_call _ (flood_state (LbStats 0 0) 1000000000) _ _ _ (LbStats 1 0));
      [reflexivity|vm_compute; reflexivity|reflexivity|].
    eapply (trace_call _ (flood_state (LbStats 1 0) 2000000001) _ _ _ (LbStats 1 2000000001));
      [reflexivity|vm_compute; reflexivity|reflexivity|]. constructor.
  - unfold trace_ok. simpl. split_and!; [lia..|]. repeat constructor; lia.
  - lia.
  - repeat constructor; simpl; unfold ONE_SEC; lia.
Defined.
