(* ===== verification/Routing.v ===== *)
(** * Choosing a real: consistent hashing and session affinity

    What [get_packet_dst] chooses, as a pure function of the control maps and
    of the flow, what it leaves in the connection table, and what a later
    lookup of the same flow gives. *)
From S2P Require Import Prelude Words Consts Structs Jhash Parsing Balancer Frame RefKernel Flood.
Open Scope c_scope.

Section routing.
Context {K : Type} `{BpfEnvLaws K} `{BuildConfig}.
Implicit Types (s : xstate K).

(** The real a source address is pinned to. *)
Definition src_route (vip : vip_meta) (v6 flood : bool) (c : control_maps)
    (f : flow_key) : option Z :=
  if LPM_SRC_LOOKUP && (has_flag (vip_flags vip) F_SRC_ROUTING && negb flood) then
    if v6 then lpm_lookup_v6 (lpm_src_v6 c) (V6LpmKey 128 (srcv6 f))
    else lpm_lookup_v4 (lpm_src_v4 c) (V4LpmKey 32 (w0 (srcv6 f)))
  else None.

(** The part of the flow that is hashed. *)
Definition hash_flow (vip : vip_meta) (f : flow_key) : flow_key :=
  if has_flag (vip_flags vip) F_HASH_DPORT_ONLY
  then set_src addr_zero (set_sport (port16_1 f) f) else f.

(** The index of the real, and the real. *)
Definition ring_lookup (vip : vip_meta) (v6 : bool) (c : control_maps) (f : flow_key) :
    option Z :=
  h ← get_packet_hash (set_flow (hash_flow vip f) pckt_zero) v6;
  ch_rings c !! ring_key (vip_num vip) h.
Definition dst_key (vip : vip_meta) (v6 flood : bool) (c : control_maps) (f : flow_key) :
    option Z :=
  match src_route vip v6 flood c f with
  | Some k => Some k
  | None => ring_lookup vip v6 c f
  end.
Definition chosen_real (vip : vip_meta) (v6 flood : bool) (c : control_maps)
    (f : flow_key) : option (Z * real_definition) :=
  k ← dst_key vip v6 flood c f; d ← reals c !! k; Some (k, d).
(** The flow left in the packet description. *)
Definition routed_flow (vip : vip_meta) (v6 flood : bool) (c : control_maps)
    (f : flow_key) : flow_key :=
  if bool_decide (src_route vip v6 flood c f = None) then hash_flow vip f else f.

Lemma get_packet_hash_flow p v6 :
  get_packet_hash p v6 = get_packet_hash (set_flow (flow p) pckt_zero) v6.
Proof. done. Qed.


Lemma wp_flood_any (Q : bool * Z → xstate K → Prop) s :
  (∀ b t st k, is_under_flood s = Some (b, t, with_stats st (with_kern k s)) →
     Q (b, t) (with_stats st (with_kern k s))) →
  wpf is_under_flood Q s.
Proof.
  intros HQ. destruct (stats s !! conn_rate_key) as [d|] eqn:Hd.
  - assert (wpf is_under_flood (λ r s', ∃ st k, s' = with_stats st (with_kern k s)) s) as Hw.
    { apply (wp_is_under_flood _ s d Hd). eauto. }
    apply wpf_elim in Hw as ([b t] & s' & Hrun & st & k & ->).
    eapply wpf_intro; [exact Hrun|by apply HQ].
  - assert (is_under_flood s = Some (true, 0, s)) as Hrun.
    { unfold is_under_flood, run, bind, lookup_stats, gets. fold conn_rate_key.
      by rewrite Hd. }
    eapply wpf_intro; [exact Hrun|].
    replace s with (with_stats (stats s) (with_kern (kern s) s)) in * by by destruct s.
    by apply HQ.
Qed.

Lemma wp_src_routing vip v6 flood (Q : option Z → xstate K → Prop) s :
  (∀ st, Q (src_route vip v6 flood (ctl s) (flow (pckt s))) (with_stats st s)) →
  wpf (lookup_src_routing vip v6 flood) Q s.
Proof.
  intros HQ. unfold lookup_src_routing, src_route in *. wp_step.
  pose proof (HQ (stats s)) as HQ0. replace (with_stats (stats s) s) with s in HQ0 by by destruct s.
  wp_step; match goal with E : _ = _ |- _ => rewrite E in HQ, HQ0 end; [|by wp_step].
  wp_step. wp_step. wp_step. apply wp_if; intros ->; wp_step; cbv zeta;
    wp_step; apply wp_gets; wp_step; (wp_step; [apply wp_modify|]); wp_step; first [exact HQ0 | apply HQ].
Qed.

Lemma get_lru_set r t s : get_lru r (set_lru r t s) = t.
Proof. destruct r; [|done]. simpl. by rewrite lookup_insert_eq. Qed.

(** What is left in the connection table of a flow [f] routed to [k] at time
    [t]. *)
Definition lru_effect (vip : vip_meta) (flood : bool) (t : Z) (lru : option lru_ref)
    (f : flow_key) (k : Z) s s' : Prop :=
  match lru with
  | None => lru_mapping s' = lru_mapping s ∧ fallback_cache s' = fallback_cache s
  | Some r =>
      if negb (has_flag (vip_flags vip) F_LRU_BYPASS) && negb flood
      then ∃ κ, get_lru r s' =
             fst (lru_hash_update f (RealPosLru k (if proto f =? IPPROTO_UDP then t else 0))
                    (get_lru r s) κ)
      else get_lru r s' = get_lru r s
  end.

(** The result and the effect of a routing decision. *)
Definition dst_result (vip : vip_meta) (v6 flood : bool) (t : Z) (lru : option lru_ref) s
    (r : bool * option real_definition) (s' : xstate K) : Prop :=
  ctl s' = ctl s ∧
  flow (pckt s') = routed_flow vip v6 flood (ctl s) (flow (pckt s)) ∧
  match chosen_real vip v6 flood (ctl s) (flow (pckt s)) with
  | None => r = (false, None) ∧
      lru_mapping s' = lru_mapping s ∧ fallback_cache s' = fallback_cache s
  | Some (k, d) => r = (true, Some d) ∧ real_index (pckt s') = k ∧
      lru_effect vip flood t lru (flow (pckt s')) k s s'
  end.

Lemma get_lru_tables r s s' :
  lru_mapping s' = lru_mapping s → fallback_cache s' = fallback_cache s →
  get_lru r s' = get_lru r s.
Proof. intros H2 H3. destruct r; simpl; congruence. Qed.

(** The end of the routine, once the real's index is known. *)
Lemma wp_dst_finish vip v6 flood t lru key (Q : bool * option real_definition → xstate K → Prop)
    s s2 :
  ctl s2 = ctl s → lru_mapping s2 = lru_mapping s → fallback_cache s2 = fallback_cache s →
  dst_key vip v6 flood (ctl s) (flow (pckt s)) = Some key →
  flow (pckt s2) = routed_flow vip v6 flood (ctl s) (flow (pckt s)) →
  (∀ r s', dst_result vip v6 flood t lru s r s' → Q r s') →
  wpb (upd_pckt (set_real_index key) ;;
       let! real := gets (λ s, reals (ctl s) !! key) in
       return_if (bool_decide (real = None)) (false, None) ;;
       match lru with
       | Some r =>
           when (negb (has_flag (vip_flags vip) F_LRU_BYPASS) && negb flood)
             (let! p := gets pckt in
              let atime := if proto (flow p) =? IPPROTO_UDP then t else 0 in
              lru_update r (flow p) (RealPosLru key atime))
       | None => ret tt
       end ;;
       ret (true, real)) Q Q s2.
Proof.
  intros Hc Hm Hf Hk Hfl HQ. unfold dst_result, chosen_real in HQ. rewrite Hk in HQ. simpl in HQ.
  wp_step. apply wp_modify. wp_step. apply wp_gets. simpl ctl. rewrite Hc.
  destruct (reals (ctl s) !! key) as [d|] eqn:Hd; simpl in HQ; wp_step; wp_step; try done.
  2:{ by apply HQ. }
  destruct lru as [r|]; simpl in HQ; [|wp_step; wp_step; wp_step; by apply HQ].
  wp_step. unfold when. destruct (_ && _) eqn:Hb; simpl in HQ; rewrite ?Hb in HQ.
  - wp_step. wp_step. unfold wpb, lru_update.
    destruct (lru_hash_update _ _ _ _) as [t' k'] eqn:E.
    assert (get_lru r s2 = get_lru r s) as Hr by by apply get_lru_tables.
    unfold ret. apply HQ. split; [by destruct r|]. split; [by destruct r|].
    split; [done|]. split; [by destruct r|].
    exists (kern s2). rewrite get_lru_set. simpl.
    replace (flow (pckt (set_lru r t' _))) with (flow (pckt s2)) by by destruct r.
    rewrite <-Hr. transitivity (fst (t', k')); [done|]. rewrite <-E. by destruct r.
  - wp_step. wp_step. apply HQ. split_and!; try done. by apply get_lru_tables.
Qed.

Lemma wp_hash_flow {R} vip (QR : R → xstate K → Prop) (QN : unit → xstate K → Prop) s :
  QN tt (with_pckt (set_flow (hash_flow vip (flow (pckt s))) (pckt s)) s) →
  wpb (when (has_flag (vip_flags vip) F_HASH_DPORT_ONLY)
         (upd_flow (λ f, set_src addr_zero (set_sport (port16_1 f) f)))) QR QN s.
Proof.
  unfold hash_flow, when. destruct (has_flag _ _); [done|].
  by destruct s as [? [] ? ? ? ? ? ? ? ? ? ?].
Qed.

Lemma wp_get_packet_dst vip v6 lru (Q : bool * option real_definition → xstate K → Prop) s :
  (∀ flood t s0 r s', is_under_flood s = Some (flood, t, s0) →
     dst_result vip v6 flood t lru s r s' → Q r s') →
  wpf (get_packet_dst vip v6 lru) Q s.
Proof.
  intros HQ. unfold get_packet_dst. wp_step. wp_step. wp_step.
  apply wp_flood_any. intros flood t st k Hfl. wp_step. wp_step.
  apply wp_src_routing. intros st'. simpl ctl. simpl pckt.
  pose proof (λ r s', HQ flood t _ r s' Hfl) as HQ'. clear HQ Hfl.
  set (s1 := with_stats st' _). wp_step.
  destruct (src_route vip v6 flood (ctl s) (flow (pckt s))) as [key|] eqn:Hsrc.
  - wp_step. apply (wp_dst_finish vip v6 flood t lru key _ s); [done..| | |done].
    + unfold dst_key. by rewrite Hsrc.
    + unfold routed_flow. by rewrite Hsrc.
  - cbv zeta. wp_step.
    apply wp_hash_flow. wp_step. wp_step. wp_step.
    destruct (get_packet_hash_total
      (pckt (with_pckt (set_flow (hash_flow vip (flow (pckt s1))) (pckt s1)) s1)) v6) as [h Hh].
    apply (wp_or_fault _ h); [done|]. wp_step. wp_step.
    assert (ring_lookup vip v6 (ctl s) (flow (pckt s))
            = ch_rings (ctl s) !! ring_key (vip_num vip) h) as Hring.
    { unfold ring_lookup. rewrite get_packet_hash_flow in Hh. simpl in Hh. by rewrite Hh. }
    wp_step.
    + apply HQ'. split_and!; [done| |].
      * unfold routed_flow. by rewrite Hsrc.
      * unfold chosen_real, dst_key. rewrite Hsrc, Hring. simpl in *. by rewrite H2.
    + apply (wp_dst_finish vip v6 flood t lru _ _ s); [done..| | |done].
      * unfold dst_key. by rewrite Hsrc, Hring.
      * unfold routed_flow. by rewrite Hsrc.
Qed.

(** What a lookup in a local connection table does at time [t]. *)
Definition lookup_result (r : lru_ref) (t : Z) s (o : option real_definition)
    (s' : xstate K) : Prop :=
  let f := flow (pckt s) in
  ctl s' = ctl s ∧ flow (pckt s') = f ∧
  match get_lru r s !! f with
  | None => o = None ∧ get_lru r s' = get_lru r s
  | Some v =>
      if (proto f =? IPPROTO_UDP) && (LRU_UDP_TIMEOUT <? u64 (t - atime v))
      then o = None ∧ get_lru r s' = get_lru r s
      else o = reals (ctl s) !! pos v ∧ real_index (pckt s') = pos v ∧
           get_lru r s' =
             if proto f =? IPPROTO_UDP then alter (set_atime t) f (get_lru r s)
             else get_lru r s
  end.

Lemma wp_connection_lookup r (Q : option real_definition → xstate K → Prop) s :
  (∀ o s', lookup_result r (fst (bpf_ktime_get_ns (kern s))) s o s' → Q o s') →
  wpf (connection_table_lookup (ConnLocal r) false) Q s.
Proof.
  intros HQ. unfold connection_table_lookup, lookup_result in *. cbv zeta in HQ.
  wp_step. wp_step. wp_step. unfold conn_lookup. wp_step. wp_step. apply wp_gets. wp_step.
  wp_step. wp_step; destruct (get_lru r s !! flow (pckt s)) as [v|] eqn:Hv; try done.
  { by apply HQ. }
  match goal with E : _ = Some a |- _ => injection E as <- end. simpl negb. cbn [andb].
  wp_step. wp_step.
  - wp_step. apply wp_ktime. intros t k Hk Hr. rewrite Hk in HQ. cbn [fst andb] in HQ.
    rewrite H2 in HQ. cbn [andb] in HQ. wp_step. apply (wp_or_fault _ (atime v)); [done|].
    wp_step. wp_step; rewrite H3 in HQ.
    + apply HQ. by destruct r.
    + simpl conn_set_atime. unfold lru_write. apply wp_modify. wp_step. apply wp_modify.
      apply wp_gets. apply HQ. split_and!; [by destruct r|by destruct r|by destruct r|done|].
      destruct r; simpl; [by rewrite lookup_insert_eq|done].
  - wp_step. wp_step. apply wp_modify. apply wp_gets. rewrite H2 in HQ. cbn [andb] in HQ.
    apply HQ. by destruct r.
Qed.

(** C10: the routing decision.  [get_packet_dst] never faults and chooses the
    real given by [chosen_real]: the one the source address is pinned to, or
    else the one at the flow's position of the VIP's ring, provided it is
    configured.  It fails exactly when there is none, leaving the connection
    tables alone; otherwise it records the choice in the connection table,
    with the time for UDP, unless the VIP bypasses the table or connections
    come too fast. *)
Theorem get_packet_dst_spec vip v6 lru s :
  ∃ flood t s0 r s', is_under_flood s = Some (flood, t, s0) ∧
    get_packet_dst vip v6 lru s = Some (r, s') ∧
    dst_result vip v6 flood t lru s r s'.
Proof.
  assert (wpf (get_packet_dst vip v6 lru) (λ r s', ∃ flood t s0,
    is_under_flood s = Some (flood, t, s0) ∧ dst_result vip v6 flood t lru s r s') s) as Hw.
  { apply wp_get_packet_dst. intros flood t s0 r s' Hf Hr. by exists flood, t, s0. }
  apply wpf_elim in Hw as (r & s' & Hrun & flood & t & s0 & Hf & Hr).
  by exists flood, t, s0, r, s'.
Qed.

(** Lookups in the connection table.  [connection_table_lookup] on a local
    table finds the real recorded for the packet's flow, if it is still
    configured; an entry of a UDP flow that was last used more than 30 seconds
    ago does not count, a fresh one gets the current time. *)
Theorem connection_table_lookup_spec r s :
  ∃ o s', connection_table_lookup (ConnLocal r) false s = Some (o, s') ∧
    lookup_result r (fst (bpf_ktime_get_ns (kern s))) s o s'.
Proof. apply wpf_elim, wp_connection_lookup. done. Qed.

(** session affinity.  Once a new flow has been routed to a real and
    recorded, later packets of the flow go to the same real as long as the
    entry stays in the table, whatever happens to the ring in the meantime;
    for UDP, if they are not more than 30 seconds late. *)
Theorem session_affinity vip v6 r d v s s1 s2 :
  get_packet_dst vip v6 (Some r) s = Some (true, Some d, s1) →
  flow (pckt s1) = flow (pckt s) →
  get_lru r s !! flow (pckt s) = None → get_lru r s1 !! flow (pckt s) = Some v →
  flow (pckt s2) = flow (pckt s) → get_lru r s2 !! flow (pckt s) = Some v →
  reals (ctl s2) = reals (ctl s1) →
  (proto (flow (pckt s)) = IPPROTO_UDP →
     u64 (fst (bpf_ktime_get_ns (kern s2)) - atime v) ≤ LRU_UDP_TIMEOUT) →
  ∃ s3, connection_table_lookup (ConnLocal r) false s2 = Some (Some d, s3) ∧
    flow (pckt s3) = flow (pckt s) ∧ pos <$> get_lru r s3 !! flow (pckt s) = Some (pos v).
Proof.
  intros Hrun Hfl Hnew Hv Hf2 Hv2 Hreals Htime.
  assert (reals (ctl s) !! pos v = Some d ∧ ctl s1 = ctl s) as [Hd Hc1].
  { pose proof (wp_get_packet_dst vip v6 (Some r) (λ res s',
      res = (true, Some d) → flow (pckt s') = flow (pckt s) →
      get_lru r s' !! flow (pckt s) = Some v →
      reals (ctl s) !! pos v = Some d ∧ ctl s' = ctl s) s) as Hw.
    unfold wpf in Hw. rewrite Hrun in Hw. apply Hw; [|done..]. clear Hw.
    intros flood t s0 res s' _ (Hc & _ & Hres) -> Hfl' Hv'.
    unfold chosen_real in Hres. destruct (dst_key _ _ _ _ _) as [k|]; [|by destruct Hres].
    simpl in Hres. destruct (reals (ctl s) !! k) as [d'|] eqn:Hd; [|by destruct Hres].
    simpl in Hres. destruct Hres as ([= ->] & _ & Hlru). rewrite Hfl' in Hlru.
    unfold lru_effect in Hlru. destruct (_ && _); [|congruence].
    destruct Hlru as [κ Hlru]. rewrite Hlru in Hv'.
    destruct (lru_update_self (flow (pckt s))
      (RealPosLru k (if proto (flow (pckt s)) =? IPPROTO_UDP then t else 0)) (get_lru r s) κ)
      as [E|E]; rewrite E in Hv'; [|congruence]. by injection Hv' as <-. }
  enough (wpf (connection_table_lookup (ConnLocal r) false) (λ o s3, o = Some d ∧
    flow (pckt s3) = flow (pckt s) ∧ pos <$> get_lru r s3 !! flow (pckt s) = Some (pos v)) s2)
    as Hw by (apply wpf_elim in Hw as (o & s3 & Hlook & -> & Hpost); by exists s3).
  apply wp_connection_lookup. intros o s3 (Hc3 & Hf3 & Hres). cbv zeta in Hres. rewrite Hf2, Hv2 in Hres.
  destruct (proto (flow (pckt s)) =? IPPROTO_UDP) eqn:Hudp; cbn [andb] in Hres.
  - apply Z.eqb_eq in Hudp. specialize (Htime Hudp).
    rewrite (proj2 (Z.ltb_ge _ _) Htime) in Hres. destruct Hres as (-> & _ & Hl3).
    split; [congruence|]. split; [congruence|]. by rewrite Hl3, lookup_alter_eq, Hv2.
  - destruct Hres as (-> & _ & Hl3). split; [congruence|]. split; [congruence|].
    by rewrite Hl3, Hv2.
Qed.

(** VIPs hashed on the destination port only have no affinity.  The
    connection is recorded under a flow whose source address and port have
    been overwritten; the entry of the packet's own flow stays missing, so the
    next packet of the flow misses again. *)
Theorem dport_only_never_recorded vip v6 r s :
  has_flag (vip_flags vip) F_HASH_DPORT_ONLY = true →
  LPM_SRC_LOOKUP && has_flag (vip_flags vip) F_SRC_ROUTING = false →
  srcv6 (flow (pckt s)) ≠ addr_zero →
  get_lru r s !! flow (pckt s) = None →
  ∃ res s1, get_packet_dst vip v6 (Some r) s = Some (res, s1) ∧
    get_lru r s1 !! flow (pckt s) = None.
Proof.
  intros Hflag Hsrc Hne Hnone. apply wpf_elim, wp_get_packet_dst.
  intros flood t s0 res s1 _ (_ & Hfl & Hres).
  assert (flow (pckt s1) ≠ flow (pckt s)) as Hneq.
  { rewrite Hfl. unfold routed_flow, src_route. rewrite andb_assoc, Hsrc. simpl.
    unfold hash_flow. rewrite Hflag. intros E. apply Hne. by rewrite <-E. }
  assert (lru_mapping s1 = lru_mapping s ∧ fallback_cache s1 = fallback_cache s →
    get_lru r s1 !! flow (pckt s) = None) as Hsame.
  { intros [H2 H3]. by rewrite (get_lru_tables r s s1). }
  destruct (chosen_real _ _ _ _ _) as [[k d]|]; [|by destruct Hres as [_ Ht]; apply Hsame].
  destruct Hres as (_ & _ & Hlru). unfold lru_effect in Hlru.
  destruct (negb _ && negb flood); [|by rewrite Hlru]. destruct Hlru as [κ ->].
  destruct (fst _ !! flow (pckt s)) as [v|] eqn:E; [|done].
  eapply lru_update_other in E; [congruence|by apply not_eq_sym].
Qed.
End routing.


(** Ring positions.  The position of a packet lies in the part of the ring
    that belongs to its VIP, which the ring array contains; the 32-bit
    arithmetic does not wrap, and different VIPs share no position. *)
Theorem ring_key_partition vip h :
  0 ≤ vip < MAX_VIPS → 0 ≤ h →
  RING_SIZE * vip ≤ ring_key vip h < RING_SIZE * (vip + 1) ∧
  RING_SIZE * (vip + 1) ≤ CH_RINGS_SIZE ∧
  ∀ vip' h', 0 ≤ vip' < MAX_VIPS → 0 ≤ h' → ring_key vip h = ring_key vip' h' →
    vip' = vip ∧ h' mod RING_SIZE = h mod RING_SIZE.
Proof.
  assert (∀ v x, 0 ≤ v < MAX_VIPS → 0 ≤ x →
    ring_key v x = RING_SIZE * v + x mod RING_SIZE ∧ 0 ≤ x mod RING_SIZE < RING_SIZE) as Hk.
  { unfold MAX_VIPS, ring_key. intros v x Hv Hx.
    pose proof (Z.mod_pos_bound x RING_SIZE) as Hm. unfold RING_SIZE in *.
    split; [apply u32_id|]; lia. }
  intros Hv Hh. destruct (Hk vip h Hv Hh) as [-> Hm]. split; [lia|]. split.
  - unfold CH_RINGS_SIZE, RING_SIZE in *. unfold MAX_VIPS in *. lia.
  - intros v' h' Hv' Hh' E. destruct (Hk v' h' Hv' Hh') as [E' Hm']. rewrite E' in E.
    unfold RING_SIZE in *. lia.
Qed.

(** *** A concrete VIP *)

Definition tcp_flow : flow_key :=
  FlowKey (Addr 167772161 0 0 0) (Addr 167772162 0 0 0) 5000 443 IPPROTO_TCP.
Definition web_key : Z := ring_key 3 (jhash_2words 167772161 (ports tcp_flow) INIT_JHASH_SEED).
(** The ring sends the flow to the real 7, or is empty. *)
Definition web_ctl (ring : gmap Z Z) : control_maps :=
  ControlMaps ∅ ring {[7 := RealDefinition (Addr 9 0 0 0) 0]} ∅ ∅ ∅ ∅ ∅ ∅.
Definition web_state (ring : gmap Z Z) (t : gmap flow_key real_pos_lru) : xstate refk :=
  with_fallback_cache t (with_pckt (set_flow tcp_flow pckt_zero)
    (with_stats {[conn_rate_key := LbStats 0 0]} (state_with [] (web_ctl ring) [] []))).

(** The first packet of the flow is routed to the real 7 and recorded. *)
Lemma web_first :
  ∃ s1, @get_packet_dst refk ref_env cfg_full (VipMeta 0 3) false (Some LruFallback)
      (web_state {[web_key := 7]} ∅) = Some (true, Some (RealDefinition (Addr 9 0 0 0) 0), s1) ∧
    flow (pckt s1) = tcp_flow ∧ fallback_cache s1 !! tcp_flow = Some (RealPosLru 7 0) ∧
    reals (ctl s1) = {[7 := RealDefinition (Addr 9 0 0 0) 0]}.
Proof.
  set (s := web_state _ _). set (d := RealDefinition (Addr 9 0 0 0) 0).
  enough (wpf (@get_packet_dst refk ref_env cfg_full (VipMeta 0 3) false (Some LruFallback))
    (λ r s1, r = (true, Some d) ∧ flow (pckt s1) = tcp_flow ∧
       fallback_cache s1 !! tcp_flow = Some (RealPosLru 7 0) ∧
       reals (ctl s1) = {[7 := d]}) s) as Hw.
  { apply wpf_elim in Hw as (r & s1 & Hrun & -> & Hw). exists s1; split; [exact Hrun|exact Hw]. }
  apply (@wp_get_packet_dst refk ref_env ref_env_laws).
  intros flood t s0 r s1 Hfl (Hc & Hf & Hres).
  assert (@chosen_real refk ref_env cfg_full (VipMeta 0 3) false flood (ctl s) (flow (pckt s)) = Some (7, d)) as Hch
    by (destruct flood; vm_compute; reflexivity).
  rewrite Hch in Hres. destruct Hres as (-> & _ & Hl).
  assert (fst <$> is_under_flood s = Some (false, 1000000000)) as Hfl'
    by (vm_compute; reflexivity).
  rewrite Hfl in Hfl'. injection Hfl' as -> ->.
  assert (flow (pckt s1) = tcp_flow) as Hf1 by (rewrite Hf; vm_compute; reflexivity).
  rewrite Hf1 in Hl. destruct Hl as [κ Hl]. simpl in Hl.
  split_and!; [done|done| |by rewrite Hc].
  rewrite Hl. by rewrite lookup_insert_eq.
Qed.

Lemma session_affinity_witness :
  ∃ s1 s3,
    @get_packet_dst refk ref_env cfg_full (VipMeta 0 3) false (Some LruFallback)
      (web_state {[web_key := 7]} ∅) = Some (true, Some (RealDefinition (Addr 9 0 0 0) 0), s1) ∧
    @connection_table_lookup refk ref_env (ConnLocal LruFallback) false
      (web_state ∅ {[tcp_flow := RealPosLru 7 0]})
      = Some (Some (RealDefinition (Addr 9 0 0 0) 0), s3).
Proof.
  destruct web_first as (s1 & Hrun & Hf & Hl & Hr).
  destruct (@session_affinity refk ref_env ref_env_laws cfg_full (VipMeta 0 3) false LruFallback
    (RealDefinition (Addr 9 0 0 0) 0) (RealPosLru 7 0) (web_state {[web_key := 7]} ∅) s1
    (web_state ∅ {[tcp_flow := RealPosLru 7 0]})) as (s3 & Hs3 & _).
  - exact Hrun.
  - exact Hf.
  - done.
  - exact Hl.
  - done.
  - apply lookup_singleton_eq.
  - symmetry. exact Hr.
  - discriminate.
  - exists s1, s3. split; [exact Hrun|exact Hs3].
Defined.

Lemma dport_only_never_recorded_witness :
  ∃ res s1,
    @get_packet_dst refk ref_env cfg_full (VipMeta F_HASH_DPORT_ONLY 3) false (Some LruFallback)
      (web_state ∅ ∅) = Some (res, s1) ∧ get_lru LruFallback s1 !! tcp_flow = None.
Proof.
  apply (@dport_only_never_recorded refk ref_env ref_env_laws cfg_full
           (VipMeta F_HASH_DPORT_ONLY 3) false LruFallback (web_state ∅ ∅));
    [reflexivity|reflexivity|discriminate|apply lookup_empty].
Defined.


Lemma ring_key_partition_witness :
  RING_SIZE * 511 ≤ ring_key 511 4294967295 < RING_SIZE * 512.
Proof. apply (ring_key_partition 511 4294967295); [unfold MAX_VIPS|]; lia. Defined.

Lemma get_packet_dst_spec_witness :
  ∃ flood t s0 r s',
    is_under_flood (web_state {[web_key := 7]} ∅) = Some (flood, t, s0) ∧
    @get_packet_dst refk ref_env cfg_full (VipMeta 0 3) false (Some LruFallback)
      (web_state {[web_key := 7]} ∅) = Some (r, s') ∧
    @dst_result refk ref_env cfg_full (VipMeta 0 3) false flood t (Some LruFallback)
      (web_state {[web_key := 7]} ∅) r s'.
Proof. apply (@get_packet_dst_spec refk ref_env ref_env_laws cfg_full). Defined.

Lemma connection_table_lookup_spec_witness :
  ∃ o s',
    @connection_table_lookup refk ref_env (ConnLocal LruFallback) false
      (web_state ∅ {[tcp_flow := RealPosLru 7 0]}) = Some (o, s') ∧
    lookup_result LruFallback 1000000000 (web_state ∅ {[tcp_flow := RealPosLru 7 0]}) o s'.
Proof.
  apply (@connection_table_lookup_spec refk ref_env ref_env_laws LruFallback
           (web_state ∅ {[tcp_flow := RealPosLru 7 0]})).
Defined.
