(* ===== verification/Delivery.v ===== *)
(** * From the client to the real: TCP packets through the whole balancer

    [balancer_ingress] on IPv4 TCP packets to a VIP, as a function of the
    packet, the control maps and the connection table of the CPU; and the
    decapsulator of the real on what the balancer sent.  The two run on
    different hosts: they share the packet only. *)
From S2P Require Import Prelude Words Consts Structs Jhash Csum Headers Encap Parsing Balancer Frame SafetyLib RefKernel Tunnels RoundTrip TunnelSpec Flood Routing.
From S2P Require Decap.
Open Scope c_scope.

(** An IPv4 TCP segment without IP options, not a fragment and not too big. *)
Definition field (off n : nat) (m : list Z) : Z := le_val (slice off n m).
Definition tcp_frame (m : list Z) : Prop :=
  54 ≤ Z.of_nat (length m) ≤ MAX_PCKT_SIZE ∧ bytes_ok m ∧
  field 12 2 m = BE_ETH_P_IP ∧ Z.land (field 14 1 m) 15 = 5 ∧
  field 23 1 m = IPPROTO_TCP ∧ has_flag (field 20 2 m) PCKT_FRAGMENTED = false.

(** Its flow, SYN flag, TOS and IP length. *)
Definition frame_flow (m : list Z) : flow_key :=
  FlowKey (Addr (field 26 4 m) 0 0 0) (Addr (field 30 4 m) 0 0 0)
          (field 34 2 m) (field 36 2 m) IPPROTO_TCP.
Definition is_syn (m : list Z) : bool := Z.testbit (field 47 1 m) 1.
Definition frame_tos (m : list Z) : Z := field 15 1 m.
Definition frame_bytes (m : list Z) : Z := bpf_ntohs (field 16 2 m).
(** The packet description of the parsed packet. *)
Definition frame_pckt (m : list Z) : packet_description :=
  PacketDescription (frame_flow m) 0 (if is_syn m then F_SYN_SET else 0) (frame_tos m).

Section parse.
Context {K : Type} `{BpfEnvLaws K} `{BuildConfig}.
Implicit Types (s : xstate K).

Lemma wp_field {R} n off (QR : R → xstate K → Prop) (QN : Z → xstate K → Prop) s :
  0 ≤ off → off + Z.of_nat n ≤ Z.of_nat (length (pkt s)) →
  QN (field (Z.to_nat off) n (pkt s)) s → wpb (load n off) QR QN s.
Proof. intros ?? HQ. by apply wp_load. Qed.

(** One statement of a parser on a frame: a load gives a [field] of it. *)
Ltac field_step :=
  lazymatch goal with
  | |- wpb (past_end _) _ _ _ => apply wp_past_end; cbv beta
  | |- wpb (load8 _) _ _ _ => unfold load8
  | |- wpb (load16 _) _ _ _ => unfold load16
  | |- wpb (load32 _) _ _ _ => unfold load32
  | |- wpb (load _ ?off) _ _ _ =>
      apply wp_field; [katran_lia|simpl pkt; katran_lia|];
      let k := eval vm_compute in (Z.to_nat off) in change (Z.to_nat off) with k;
      cbv beta; simpl pkt
  | |- wpb (upd_pckt _) _ _ _ => apply wp_modify; cbv beta
  | |- wpb (upd_flow _) _ _ _ => apply wp_modify; cbv beta
  | |- _ => wp_step
  end.

(** Closes the branches the frame does not take. *)
Ltac field_absurd :=
  solve [ exfalso; congruence
        | match goal with
          | H : (?x =? _) = _, E : ?x = _ |- _ => rewrite E in H; discriminate H
          end
        | exfalso; unfold pkt_len in *; simpl in *; fr_bounds ].

Lemma wp_l3_tcp (Q : Z * Z → xstate K → Prop) s :
  tcp_frame (pkt s) → pckt s = pckt_zero →
  Q (FURTHER_PROCESSING, frame_bytes (pkt s))
    (with_pckt (PacketDescription (set_sport 0 (set_dport 0 (frame_flow (pkt s)))) 0 0
                  (frame_tos (pkt s))) s) →
  wpf (process_l3_headers sizeof_ethhdr false) Q s.
Proof.
  intros ((Hl&_)&_&_&Hihl&Hp&Hfrag) Hz HQ. unfold process_l3_headers. cbv zeta iota.
  repeat (field_step; try field_absurd). rewrite Hz, Hp. exact HQ.
Qed.

Lemma wp_parse_tcp (Q : bool → xstate K → Prop) s :
  tcp_frame (pkt s) →
  pckt s = PacketDescription (set_sport 0 (set_dport 0 (frame_flow (pkt s)))) 0 0
             (frame_tos (pkt s)) →
  Q true (with_pckt (frame_pckt (pkt s)) s) →
  wpf (parse_tcp false) Q s.
Proof.
  intros ((Hl&_)&_) Hz HQ. unfold parse_tcp.
  do 3 field_step. rewrite Hz. change (has_flag (pflags _) F_ICMP) with false. cbv zeta iota.
  change (calc_offset false false) with 34. unfold frame_pckt, is_syn in HQ.
  repeat (field_step; try field_absurd); cbn [pckt with_pckt]; rewrite Hz;
    destruct (Z.testbit _ 1); done.
Qed.
End parse.

(** ** What routing leaves alone

    [quiet s s'] holds when [s'] differs from [s] in the connection tables,
    the flow and real index of the packet description, the counters of no VIP,
    the event pipe and the kernel only. *)
Record quiet {K} (s s' : xstate K) : Prop := {
  q_pkt : pkt s' = pkt s;
  q_ctl : ctl s' = ctl s;
  q_tos : tos (pckt s') = tos (pckt s);
  q_pflags : pflags (pckt s') = pflags (pckt s);
  q_dom : dom (stats s') = dom (stats s);
  q_vip : ∀ v, v < MAX_VIPS → stats s' !! v = stats s !! v;
  q_reals : reals_stats s' = reals_stats s;
  q_decap : decap_counters s' = decap_counters s
}.
#[export] Instance quiet_preorder K : PreOrder (@quiet K).
Proof.
  split; [by intros s|]. intros s1 s2 s3 [] []. split; try congruence.
  intros v Hv. transitivity (stats s2 !! v); auto.
Qed.

Section quiet.
Context {K : Type} `{BpfEnvLaws K} `{BuildConfig} {R : Type}.
Implicit Types (s : xstate K) (QR : R → xstate K → Prop).

Lemma quiet_alter key f s :
  MAX_VIPS ≤ key → quiet s (with_stats (alter f key (stats s)) s).
Proof.
  intros Hk. split; try done.
  - apply dom_alter_L.
  - intros v Hv. apply lookup_alter_ne. lia.
Qed.

Lemma q_upd_stats key f QR (QN : unit → xstate K → Prop) s :
  MAX_VIPS ≤ key →
  (∀ s', quiet s s' → pckt s' = pckt s → QN tt s') → wpb (upd_stats key f) QR QN s.
Proof. intros Hk HQ. apply wp_modify, HQ; [by apply quiet_alter|done]. Qed.
Lemma q_lookup_stats key QR (QN : option lb_stats → xstate K → Prop) s :
  (∀ o, o = stats s !! key → QN o s) → wpb (lookup_stats key) QR QN s.
Proof. intros HQ. by apply wp_gets, HQ. Qed.
Lemma q_upd_flow f QR (QN : unit → xstate K → Prop) s :
  (∀ s', quiet s s' → flow (pckt s') = f (flow (pckt s)) → QN tt s') →
  wpb (upd_flow f) QR QN s.
Proof. intros HQ. by apply wp_modify, HQ. Qed.
Lemma q_upd_index k QR (QN : unit → xstate K → Prop) s :
  (∀ s', quiet s s' → flow (pckt s') = flow (pckt s) → QN tt s') →
  wpb (upd_pckt (set_real_index k)) QR QN s.
Proof. intros HQ. by apply wp_modify, HQ. Qed.
Lemma q_ktime QR (QN : Z → xstate K → Prop) s :
  (∀ t s', quiet s s' → pckt s' = pckt s → QN t s') → wpb ktime_get_ns QR QN s.
Proof. intros HQ. unfold wpb, ktime_get_ns. destruct (bpf_ktime_get_ns _). by apply HQ. Qed.
Lemma q_lru_update r f v QR (QN : unit → xstate K → Prop) s :
  (∀ s', quiet s s' → pckt s' = pckt s → QN tt s') → wpb (lru_update r f v) QR QN s.
Proof.
  intros HQ. unfold wpb, lru_update. destruct (lru_hash_update _ _ _ _) as [t k].
  by apply HQ; destruct r.
Qed.
End quiet.

(** Symbolic execution up to [quiet]. *)
Ltac q_intro :=
  let s' := fresh "s" in let Hq := fresh "Hq" in
  intros s' Hq ?; cbv beta;
  lazymatch type of Hq with
  | quiet ?s s' =>
      match goal with
      | Hq0 : quiet ?s0 s |- _ =>
          let H := fresh "Hq" in
          assert (quiet s0 s') as H by (etransitivity; eassumption); clear Hq0 Hq
      | _ => idtac
      end
  end.
Ltac q_step :=
  lazymatch goal with
  | |- wpb (upd_stats _ _) _ _ _ => apply q_upd_stats; [vm_compute; congruence|q_intro]
  | |- wpb (lookup_stats _) _ _ _ => apply q_lookup_stats; intros ? ?; cbv beta
  | |- wpb (upd_flow _) _ _ _ => apply q_upd_flow; q_intro
  | |- wpb (upd_pckt (set_real_index _)) _ _ _ => apply q_upd_index; q_intro
  | |- wpb ktime_get_ns _ _ _ => apply q_ktime; intros ?; q_intro
  | |- wpb (lru_update _ _ _) _ _ _ => apply q_lru_update; q_intro
  | |- wpb (or_fault (get_packet_hash ?p ?b)) _ _ _ =>
      let h := fresh "h" in let Hh := fresh "Hh" in
      destruct (get_packet_hash_total p b) as [h Hh]; apply (wp_or_fault _ h); [done|]
  | |- wpb (match ?x with _ => _ end) _ _ _ => destruct x eqn:?
  | |- _ => wp_step
  end.

Section route.
Context {K : Type} `{BpfEnvLaws K} `{BuildConfig}.
Implicit Types (s : xstate K).

Lemma quiet_is_under_flood s : wpf is_under_flood (λ _ s', quiet s s') s.
Proof.
  unfold is_under_flood. assert (quiet s s) as Hq by reflexivity.
  repeat q_step; try done.
Qed.
Lemma quiet_lookup_src_routing v v6 b s :
  wpf (lookup_src_routing v v6 b) (λ _ s', quiet s s') s.
Proof.
  unfold lookup_src_routing. assert (quiet s s) as Hq by reflexivity.
  repeat q_step; try done.
Qed.

Lemma quiet_get_packet_dst v v6 r s : wpf (get_packet_dst v v6 r) (λ _ s', quiet s s') s.
Proof.
  unfold get_packet_dst. assert (quiet s s) as Hq by reflexivity.
  wp_step. wp_step. wp_step. eapply wpf_mono; [apply quiet_is_under_flood|].
  intros [b t] s1 Hq1. wp_step. wp_step. eapply wpf_mono; [apply quiet_lookup_src_routing|].
  intros o s2 Hq2. cbv beta.
  assert (quiet s s2) as Hq' by (etransitivity; eassumption). clear Hq Hq1 Hq2.
  repeat q_step; try done.
Qed.

(** The counters live in an array map. *)
Definition counter_array s : Prop :=
  ∀ v, 0 ≤ v < STATS_MAP_SIZE → is_Some (stats s !! v).

Lemma counter_array_quiet s s' : quiet s s' → counter_array s → counter_array s'.
Proof.
  intros Hq Ha v Hv. apply elem_of_dom. rewrite (q_dom _ _ Hq). apply elem_of_dom. auto.
Qed.

(** *** The routing function of TCP packets

    A packet of a connection that the connection table of this CPU knows goes
    to the real recorded there, any other one to the real [chosen_real] of
    [Routing] gives. *)

(** The flow that is looked up and hashed. *)
Definition ring_flow (vip : vip_meta) (f : flow_key) : flow_key :=
  if has_flag (vip_flags vip) F_HASH_NO_SRC_PORT then set_sport 0 f else f.

(** The connection table of this CPU. *)
Definition cpu_lru s : lru_ref :=
  let cpu := bpf_get_smp_processor_id (kern s) in
  if bool_decide (lru_mapping s !! cpu = None) then LruFallback else LruCpu cpu.

(** The real recorded for flow [f], with its number. *)
Definition known_real (vip : vip_meta) (syn : bool) (f : flow_key) s :
    option (Z * real_definition) :=
  if negb syn && negb (has_flag (vip_flags vip) F_LRU_BYPASS) then
    v ← get_lru (cpu_lru s) s !! f; d ← reals (ctl s) !! pos v; Some (pos v, d)
  else None.
Definition flow_real (vip : vip_meta) (syn : bool) (f : flow_key) s :
    option (Z * real_definition) :=
  match known_real vip syn f s with
  | Some kd => Some kd
  | None => chosen_real vip false false (ctl s) f
  end.

(** Routing does not depend on the connection rate, nor on the optional ways
    to find a real. *)
Definition basic_routing (vip : vip_meta) : Prop :=
  LPM_SRC_LOOKUP && has_flag (vip_flags vip) F_SRC_ROUTING = false ∧
  TCP_SERVER_ID_ROUTING = false ∧
  GLOBAL_LRU_LOOKUP && has_flag (vip_flags vip) F_GLOBAL_LRU = false ∧
  has_flag (vip_flags vip) F_QUIC_VIP = false.

Lemma chosen_real_flood vip v6 fl c f :
  LPM_SRC_LOOKUP && has_flag (vip_flags vip) F_SRC_ROUTING = false →
  chosen_real vip v6 fl c f = chosen_real vip v6 false c f.
Proof.
  intros Hsrc. unfold chosen_real, dst_key, src_route. by rewrite !andb_assoc, Hsrc.
Qed.

Lemma q_get_packet_dst vip lru s (Q : bool * option real_definition → xstate K → Prop) :
  LPM_SRC_LOOKUP && has_flag (vip_flags vip) F_SRC_ROUTING = false →
  (∀ s', quiet s s' →
     match chosen_real vip false false (ctl s) (flow (pckt s)) with
     | None => Q (false, None) s'
     | Some (k, d) => real_index (pckt s') = k → Q (true, Some d) s'
     end) →
  wpf (get_packet_dst vip false lru) Q s.
Proof.
  intros Hsrc HQ.
  assert (wpf (get_packet_dst vip false lru) (λ r s',
    match chosen_real vip false false (ctl s) (flow (pckt s)) with
    | None => r = (false, None)
    | Some (k, d) => r = (true, Some d) ∧ real_index (pckt s') = k
    end) s) as Hw.
  { apply wp_get_packet_dst. intros flood t s0 r s' _ (_ & _ & Hres).
    rewrite chosen_real_flood in Hres by done.
    destruct (chosen_real _ _ _ _ _) as [[k d]|]; [by destruct Hres as (-> & -> & _)|].
    by destruct Hres as (-> & _). }
  eapply wpf_mono; [exact (wpf_and _ _ _ _ Hw (quiet_get_packet_dst vip false lru s))|].
  intros r s' [Hr Hq]. specialize (HQ s' Hq).
  destruct (chosen_real _ _ _ _ _) as [[k d]|]; [|by subst r]. destruct Hr as [-> Hk]. auto.
Qed.

Lemma q_conn_lookup r s (Q : option real_definition → xstate K → Prop) :
  proto (flow (pckt s)) = IPPROTO_TCP →
  (∀ s', quiet s s' → flow (pckt s') = flow (pckt s) →
     match get_lru r s !! flow (pckt s) with
     | None => Q None s'
     | Some v => real_index (pckt s') = pos v → Q (reals (ctl s) !! pos v) s'
     end) →
  wpf (connection_table_lookup (ConnLocal r) false) Q s.
Proof.
  intros Hp HQ. unfold connection_table_lookup, conn_lookup. wp_step. wp_step. wp_step.
  wp_step. wp_step. apply wp_gets. wp_step. wp_step.
  destruct (get_lru r s !! flow (pckt s)) as [v|] eqn:Hv; [|by apply HQ].
  simpl or_return. wp_step. rewrite Hp. simpl (_ && _). cbv iota.
  wp_step. wp_step. wp_step. apply wp_modify. wp_step. by apply HQ.
Qed.

Lemma q_lookup_counter {R} key (QR : R → xstate K → Prop) (QN : option lb_stats → xstate K → Prop) s :
  counter_array s → 0 ≤ key < STATS_MAP_SIZE → (∀ d, QN (Some d) s) →
  wpb (lookup_stats key) QR QN s.
Proof. intros Ha Hk HQ. apply wp_gets. destruct (Ha key Hk) as [d ->]. apply HQ. Qed.

Lemma q_choose_lru (QR : Z → xstate K → Prop) (QN : lru_ref → xstate K → Prop) s :
  counter_array s →
  (∀ st, quiet s (with_stats st s) → QN (cpu_lru s) (with_stats st s)) →
  wpb (choose_lru (bpf_get_smp_processor_id (kern s))) QR QN s.
Proof.
  intros Ha HQ. unfold choose_lru, cpu_lru in *. wp_step. wp_step. cbv zeta.
  destruct (bool_decide _).
  - wp_step. apply q_lookup_counter; [done|by split; vm_compute|]. intros d.
    wp_step. wp_step; [by bool_hyps|]. wp_step. apply wp_modify, wp_ret, HQ.
    by apply quiet_alter.
  - apply wp_ret. specialize (HQ (stats s)).
    replace (with_stats (stats s) s) with s in HQ by by destruct s. by apply HQ.
Qed.

Lemma q_report size (Q : unit → xstate K → Prop) s :
  (∀ s', quiet s s' → pckt s' = pckt s → Q tt s') → wpf (REPORT_TCP_NONSYN_LRUMISS size) Q s.
Proof.
  intros HQ. unfold REPORT_TCP_NONSYN_LRUMISS, REPORT_EVENT, submit_event. wp_step. wp_step.
  - wp_step. wp_steps; by apply HQ.
  - by apply HQ.
Qed.

Lemma q_route_ring vip lru (QR : Z → xstate K → Prop) (QN : real_definition → xstate K → Prop) s :
  LPM_SRC_LOOKUP && has_flag (vip_flags vip) F_SRC_ROUTING = false →
  counter_array s → proto (flow (pckt s)) = IPPROTO_TCP →
  (∀ s', quiet s s' →
     match chosen_real vip false false (ctl s) (flow (pckt s)) with
     | None => QR XDP_DROP s'
     | Some (k, d) => real_index (pckt s') = k → QN d s'
     end) →
  wpb (route_ring vip false lru) QR QN s.
Proof.
  intros Hsrc Ha Hp HQ. unfold route_ring. wp_step. wp_step. rewrite Hp.
  change (IPPROTO_TCP =? IPPROTO_TCP) with true. cbn [when]. cbv zeta. wp_step. wp_step.
  apply q_lookup_counter; [done|by split; vm_compute|]. intros d.
  wp_step. wp_step; [by bool_hyps|].
  assert (∀ s3, quiet s s3 → pckt s3 = pckt s →
    wpb (let! (ok, dst) := call (get_packet_dst vip false (Some lru)) in
         return_if (negb ok) XDP_DROP ;;
         upd_stats (MAX_VIPS + LRU_CNTRS) (add_v2 1) ;;
         or_fault dst) QR QN s3) as Hgo.
  { intros s3 Hq3 Hp3. wp_step. wp_step. apply q_get_packet_dst; [done|].
    intros s4 Hq4. rewrite (q_ctl _ _ Hq3), Hp3.
    assert (quiet s s4) as Hq by (etransitivity; eassumption). pose proof (HQ s4 Hq) as HQ4.
    destruct (chosen_real _ _ _ _ _) as [[k c]|].
    - intros Hk. wp_step. wp_step; [done|]. wp_step. apply wp_modify.
      apply (wp_or_fault _ c); [done|]. apply (HQ _); [|done].
      transitivity s4; [done|]. by apply quiet_alter.
    - wp_step. by wp_step. }
  wp_step.
  - apply q_upd_stats; [by vm_compute|]. exact Hgo.
  - wp_step. apply wp_gets. wp_step. wp_step. apply q_report. intros s2 Hq2 Hp2.
    apply q_upd_stats; [by vm_compute|]. intros s3 Hq3 Hp3. apply Hgo; [|congruence].
    by transitivity s2.
Qed.

Lemma wp_select_tcp vip (QR : Z → xstate K → Prop) (QN : real_definition → xstate K → Prop) s :
  basic_routing vip → counter_array s → proto (flow (pckt s)) = IPPROTO_TCP →
  (∀ s', quiet s s' →
     match flow_real vip (has_flag (pflags (pckt s)) F_SYN_SET)
             (ring_flow vip (flow (pckt s))) s with
     | None => QR XDP_DROP s'
     | Some (k, d) => real_index (pckt s') = k → QN d s'
     end) →
  wpb (select_real vip false) QR QN s.
Proof.
  intros (Hsrc & Htsid & Hglru & _) Ha Hp HQ. unfold select_real. wp_step.
  set (syn := has_flag (pflags (pckt s)) F_SYN_SET) in *.
  set (f := ring_flow vip (flow (pckt s))) in *.
  assert (wpb (when (has_flag (vip_flags vip) F_HASH_NO_SRC_PORT) (upd_flow (set_sport 0)))
    QR (λ _ s', s' = with_pckt (set_flow f (pckt s)) s) s) as Hw.
  { subst f. unfold ring_flow. wp_step; rewrite H2; [by apply wp_modify|].
    by destruct s as [? [] ? ? ? ? ? ? ? ? ? ?]. }
  eapply wpb_mono; [exact Hw|done|]. intros _ s1 ->. cbv beta. clear Hw.
  set (s1 := with_pckt _ _). assert (quiet s s1) as Hq1 by done.
  wp_step. apply wp_gets. wp_step. apply q_choose_lru; [done|]. intros st Hq2.
  set (s2 := with_stats st s1) in *. change (cpu_lru s1) with (cpu_lru s2).
  assert (quiet s s2) as Hqs by (etransitivity; eassumption). clear Hq1 Hq2.
  assert (proto (flow (pckt s2)) = IPPROTO_TCP) as Hp2.
  { simpl. subst f. unfold ring_flow. by destruct (has_flag _ F_HASH_NO_SRC_PORT). }
  assert (counter_array s2) as Ha2 by by eapply counter_array_quiet.
  unfold route_tcp_server_id, route_lru, route_global_lru. rewrite Htsid.
  wp_step. wp_step. wp_step. cbn [andb]. wp_step. wp_step. wp_step. wp_step.
  change (pflags (pckt s2)) with (pflags (pckt s)). fold syn.
  change (bool_decide (None = None)) with true. cbn [andb].
  assert (∀ o s3, quiet s s3 → flow (pckt s3) = f →
    match o with Some d => QN d s3 | None => known_real vip syn f s = None end →
    wpb (let! p := gets pckt in
         (if GLOBAL_LRU_LOOKUP &&
             (bool_decide (o = None) && negb (has_flag (pflags p) F_SYN_SET) &&
              has_flag (vip_flags vip) F_GLOBAL_LRU)
          then
            let! (result, dst) :=
              call (perform_global_lru_lookup (bpf_get_smp_processor_id (kern s1)) vip false) in
            return_if (0 <=? result) result ;; ret dst
          else ret o)) QR (λ dst s',
       wpb match dst with Some d => ret d | None => route_ring vip false (cpu_lru s2) end
         QR QN s') s3) as Hend.
  { intros o s3 Hq3 Hf3 Ho. wp_step. wp_step.
    replace (GLOBAL_LRU_LOOKUP && _) with false
      by (destruct GLOBAL_LRU_LOOKUP, (has_flag (vip_flags vip) F_GLOBAL_LRU);
          rewrite ?andb_false_r in *; done).
    wp_step. destruct o as [d|]; [by wp_step|].
    apply q_route_ring; [done|by eapply counter_array_quiet|by rewrite Hf3|].
    intros s4 Hq4. rewrite (q_ctl _ _ Hq3), Hf3.
    assert (quiet s s4) as Hq by (etransitivity; eassumption).
    specialize (HQ s4 Hq). unfold flow_real in HQ. by rewrite Ho in HQ. }
  unfold known_real in Hend. destruct (negb syn && _) eqn:Hsyn; [|wp_step; wp_step; by apply Hend].
  wp_step. apply q_conn_lookup; [done|]. intros s3 Hq3 Hf3.
  assert (quiet s s3) as Hq by (etransitivity; eassumption).
  specialize (HQ s3 Hq). unfold flow_real, known_real in HQ. rewrite Hsyn in HQ.
  change (get_lru (cpu_lru s2) s2 !! flow (pckt s2)) with (get_lru (cpu_lru s) s !! f).
  change (flow (pckt s2)) with f in Hf3. change (ctl s2) with (ctl s).
  destruct (get_lru (cpu_lru s) s !! f) as [v|]; [|wp_step; by apply Hend].
  intros Hk. wp_step. simpl in HQ, Hend.
  destruct (reals (ctl s) !! pos v) as [d|]; apply Hend; try done. by apply HQ.
Qed.

(** ** The packet on its way *)

(** One more packet of [n] bytes. *)
Definition count_packet (n : Z) (d : lb_stats) : lb_stats := add_v2 n (add_v1 1 d).

Definition is_v6_real (dst : real_definition) : bool := has_flag (real_flags dst) F_IPV6.

Lemma wp_forward_ipip vip dst cval sport n (Q : Z → xstate K → Prop) s :
  GUE_ENCAP = false →
  LOCAL_DELIVERY_OPTIMIZATION &&
    (has_flag (vip_flags vip) F_LOCAL_VIP && has_flag (real_flags dst) F_LOCAL_REAL) = false →
  ctl_array (ctl s) !! 0 = Some cval → counter_array s → 0 ≤ vip_num vip < MAX_VIPS →
  is_Some (reals_stats s !! real_index (pckt s)) →
  14 ≤ pkt_len s → bytes_ok (pkt s) → is_byte (tos (pckt s)) →
  (head_refused (- ipip_overhead (is_v6_real dst)) → ∀ s', Q XDP_DROP s') →
  (∀ s' h, pkt s' = encapsulated cval (inner_proto (is_v6_real dst)) h (pkt s) →
     ipip_header (is_v6_real dst) false (pckt s') dst n h →
     stats s' = alter (count_packet n) (vip_num vip) (stats s) →
     reals_stats s' = alter (count_packet n) (real_index (pckt s)) (reals_stats s) →
     Q XDP_TX s') →
  wpb (forward vip dst sport false n) Q Q s.
Proof.
  intros Hgue Hloc Hc Ha Hn Hr Hl Hb Ht Hdrop HQ. unfold forward. cbv zeta.
  wp_step. wp_step. rewrite Hc. wp_step. wp_step.
  { unfold or_return in *. congruence. }
  assert (a = cval) as -> by congruence.
  wp_step. apply q_lookup_counter; [done|unfold STATS_MAP_SIZE, MAX_VIPS in *; lia|]. intros d.
  wp_step. wp_step; [by bool_hyps|]. wp_step. apply wp_modify. wp_step. wp_step.
  wp_step. apply wp_gets. simpl reals_stats. destruct Hr as [dr Hr]. simpl pckt. rewrite Hr.
  wp_step. wp_step; [by bool_hyps|]. wp_step. apply wp_modify. wp_step.
  wp_step; [congruence|]. wp_step. apply wp_modify. wp_step.
  set (s1 := with_pckt _ _).
  assert (wpf (ipip_encap cval (is_v6_real dst) false dst n)
    (λ ok s', wpb (return_if (negb ok) XDP_DROP ;; ret XDP_TX) Q Q s') s1) as Hw.
  { apply wp_ipip_encap; [done|done|done|done| |].
    - intros Hrf κ. wp_step. wp_step; [by apply Hdrop|done].
    - intros κ h Hh. wp_step. wp_step; [done|]. wp_step. by apply (HQ _ h). }
  unfold PCKT_ENCAP_V4, PCKT_ENCAP_V6. rewrite Hgue. unfold is_v6_real, ipip_encap in Hw.
  destruct (has_flag (real_flags dst) F_IPV6); apply wp_call; exact Hw.
Qed.
End route.

(** The real's host takes the tunnelled packet apart. *)
Lemma wp_host_ipip {K'} `{BpfEnvLaws K'} `{BuildConfig} outer p dst n cval h m d (host : xstate K') :
  pkt host = encapsulated cval (inner_proto outer) h m →
  ipip_header outer false p dst n h → (14 ≤ length m)%nat →
  decap_counters host !! 0 = Some d →
  wpf Decap.xdpdecap
    (decap_result cval BE_ETH_P_IP m (ipip_overhead outer) (add_decap outer (Decap.add_total d))) host.
Proof.
  intros Hp Hh Hm Hd. destruct outer; simpl in Hh.
  - subst h. by apply (wp_xdpdecap_v6 cval false p dst n m d).
  - destruct Hh as (id & check & Hid & _ & ->). by eapply wp_xdpdecap_v4.
Qed.

Section delivery.
Context {K : Type} `{BpfEnvLaws K} `{BuildConfig}.
Implicit Types (s : xstate K).

(** A TCP packet to the configured VIP [vip], on a balancer that routes in the
    basic way and tunnels with IPIP to the MAC address [cval]. *)
Record tcp_service (vip : vip_meta) (cval : ctl_value) s : Prop := {
  sv_ipip : GUE_ENCAP = false;
  sv_routing : basic_routing vip;
  sv_frame : tcp_frame (pkt s);
  sv_vip : vip_map (ctl s) !!
    VipDefinition (dstv6 (frame_flow (pkt s))) (port16_1 (frame_flow (pkt s))) IPPROTO_TCP
    = Some vip;
  sv_num : 0 ≤ vip_num vip < MAX_VIPS;
  sv_local : LOCAL_DELIVERY_OPTIMIZATION && has_flag (vip_flags vip) F_LOCAL_VIP = false;
  sv_mac : ctl_array (ctl s) !! 0 = Some cval;
  sv_counters : counter_array s;
  sv_reals : ∀ k d, reals (ctl s) !! k = Some d → is_Some (reals_stats s !! k)
}.

(** The real its packet goes to. *)
Definition packet_real (vip : vip_meta) s : option (Z * real_definition) :=
  flow_real vip (is_syn (pkt s)) (ring_flow vip (frame_flow (pkt s))) s.

Lemma flow_real_reals vip syn f s k d :
  flow_real vip syn f s = Some (k, d) → reals (ctl s) !! k = Some d.
Proof.
  unfold flow_real, known_real, chosen_real.
  destruct (negb syn && _); simpl; [destruct (get_lru _ _ !! f) as [v|]; simpl|];
    [destruct (reals (ctl s) !! pos v) as [d'|] eqn:E; simpl; [by intros [= <- <-]|]|..];
    destruct (dst_key _ _ _ _ _) as [k'|]; simpl; try done;
    destruct (reals (ctl s) !! k') eqn:E'; simpl; intros; simplify_eq; done.
Qed.

(** What the balancer makes of it: without a real the packet is dropped. *)
Definition sent (vip : vip_meta) (cval : ctl_value) s (k : Z) (dst : real_definition) s' : Prop :=
  (∃ h, pkt s' = encapsulated cval (inner_proto (is_v6_real dst)) h (pkt s) ∧
    ipip_header (is_v6_real dst) false (pckt s') dst (frame_bytes (pkt s)) h) ∧
  stats s' !! vip_num vip = count_packet (frame_bytes (pkt s)) <$> stats s !! vip_num vip ∧
  reals_stats s' = alter (count_packet (frame_bytes (pkt s))) k (reals_stats s).
Definition forwarded (vip : vip_meta) (cval : ctl_value) s (r : Z) s' : Prop :=
  match packet_real vip s with
  | None => r = XDP_DROP ∧ pkt s' = pkt s
  | Some (k, dst) =>
      r = XDP_DROP ∧ head_refused (- ipip_overhead (is_v6_real dst)) ∨
      r = XDP_TX ∧ sent vip cval s k dst s'
  end.

Lemma field_byte k m : bytes_ok m → (k < length m)%nat → is_byte (field k 1 m).
Proof.
  intros Hb Hk. destruct (lookup_lt_is_Some_2 m k Hk) as [b Hbk].
  unfold field. rewrite (slice_one _ _ b) by done. simpl. rewrite Z.mul_0_r, Z.add_0_r.
  by apply (Forall_lookup_1 _ _ _ _ Hb Hbk).
Qed.

Lemma wp_process_tcp sub vip cval s :
  tcp_service vip cval s →
  wpf (process_packet sub sizeof_ethhdr false) (forwarded vip cval s) s.
Proof.
  intros [Hgue Hrt Hfr Hvip Hnum Hloc Hmac Hcnt Hrc].
  pose proof Hfr as ((Hl & Hmax) & Hb & _). pose proof Hrt as (_ & _ & _ & Hquic).
  unfold process_packet.
  wp_step. wp_step. apply wp_modify. wp_step. wp_step.
  apply wp_l3_tcp; [done|done|]. simpl pkt.
  wp_step. wp_step; [done|]. wp_step. wp_step. cbv zeta. simpl proto.
  wp_step. unfold inline_decap. change ((IPPROTO_TCP =? IPPROTO_IPIP) || _) with false.
  rewrite andb_false_r. cbn [when]. wp_step.
  wp_step. unfold parse_transport. change (IPPROTO_TCP =? IPPROTO_TCP) with true. cbv iota.
  wp_step. wp_step. apply wp_parse_tcp; [done|done|]. simpl pkt. wp_step; [done|].
  wp_step. unfold lookup_vip. wp_step. wp_step. cbv zeta. simpl flow.
  wp_step. apply wp_gets. simpl ctl.
  change (set_w0 (w0 (dstv6 (frame_flow (pkt s)))) addr_zero) with (dstv6 (frame_flow (pkt s))).
  change (proto (frame_flow (pkt s))) with IPPROTO_TCP. rewrite Hvip. wp_step.
  wp_step. unfold check_packet_size. wp_step. apply wp_gets. wp_step.
  { exfalso. unfold pkt_len in *. simpl in *. bool_hyps. lia. }
  wp_step. apply q_lookup_counter; [done|by split; vm_compute|]. intros d.
  wp_step. wp_step; [by bool_hyps|]. wp_step. apply wp_modify.
  wp_step. unfold route_quic. rewrite Hquic. wp_step. wp_step. wp_step. cbv zeta.
  set (s1 := with_stats _ _).
  assert (quiet (with_pckt (frame_pckt (pkt s)) s) s1) as Hq1 by by apply quiet_alter.
  wp_step. apply wp_select_tcp; [done|by eapply counter_array_quiet|done|].
  intros s2 Hq2.
  assert (has_flag (pflags (pckt s1)) F_SYN_SET = is_syn (pkt s)) as ->
    by (simpl; by destruct (is_syn (pkt s))).
  change (flow_real _ _ _ s1) with (packet_real vip s).
  assert (quiet (with_pckt (frame_pckt (pkt s)) s) s2) as Hq by (etransitivity; eassumption).
  pose proof (q_pkt _ _ Hq) as Ep. pose proof (q_ctl _ _ Hq) as Ec.
  pose proof (q_reals _ _ Hq) as Er. pose proof (q_tos _ _ Hq) as Et. simpl in Ep, Ec, Er, Et.
  unfold forwarded. destruct (packet_real vip s) as [[k dst]|] eqn:Hpr; [|done].
  apply flow_real_reals in Hpr. intros Hk.
  apply (wp_forward_ipip _ _ cval); try done.
  - by rewrite andb_assoc, Hloc.
  - by rewrite Ec.
  - eapply counter_array_quiet; [exact Hq|done].
  - rewrite Er, Hk. by eapply Hrc.
  - unfold pkt_len. simpl. rewrite Ep. lia.
  - by rewrite Ep.
  - rewrite Et. apply field_byte; [done|lia].
  - by left.
  - intros s' h Hp' Hh Hs' Hr'. right. split; [done|].
    split; [exists h; split; [by rewrite <-Ep|done]|]. split; [|by rewrite <-Hk, <-Er].
    rewrite Hs', lookup_alter_eq. f_equal. rewrite (q_vip _ _ Hq) by lia. done.
Qed.

Lemma wp_katran_tcp n vip cval s :
  tcp_service vip cval s → wpf (katran n) (forwarded vip cval s) s.
Proof.
  intros Hf. pose proof (sv_frame _ _ _ Hf) as ((Hl & _) & _ & Heth & _).
  assert (∀ sub, wpf (balancer_ingress sub) (forwarded vip cval s) s) as Hb.
  { intros sub. unfold balancer_ingress. cbv zeta. wp_step. wp_step.
    apply wp_past_end. wp_step. wp_step. { unfold pkt_len in *. simpl in *. fr_bounds. }
    wp_step. unfold load16. apply wp_field; [done|katran_lia|].
    change (Z.to_nat (0 + eth_h_proto)) with 12%nat. rewrite Heth.
    change (BE_ETH_P_IP =? BE_ETH_P_IP) with true. cbv iota. apply wp_call.
    by apply (wp_process_tcp sub). }
  destruct n; simpl; apply Hb.
Qed.

(** C2: What the balancer does with TCP packets.  For every build that tunnels
    with IPIP and every VIP that is routed in the basic way, a TCP packet to
    the VIP goes to the real its connection is recorded with or, for new and
    unknown connections, to the real the ring gives; it is dropped when there
    is none or when the kernel has no headroom.  Out goes the client's packet,
    byte for byte, behind an Ethernet header to the configured gateway and an
    IP header to the real, and it is counted once, with its length, for the VIP
    and for the real. *)
Theorem tcp_packet_forwarded n vip cval s :
  tcp_service vip cval s →
  ∃ r s', katran n s = Some (r, s') ∧ forwarded vip cval s r s'.
Proof. intros Hf. by apply wpf_elim, wp_katran_tcp. Qed.

(** C3: End-to-end delivery.  A packet that the balancer transmits, received by
    any host that runs [xdpdecap], is passed to that host's kernel as the
    client's own IP packet, byte for byte, behind an IPv4 Ethernet header, and
    counted there; the host drops it only when its kernel refuses to move the
    packet start.  The balancer has a result within any number of tail
    calls. *)
Theorem tcp_packet_delivered n vip cval s k dst :
  tcp_service vip cval s → packet_real vip s = Some (k, dst) →
  ∃ r s', katran n s = Some (r, s') ∧
    (r = XDP_DROP ∨
     r = XDP_TX ∧
     ∀ K' (E' : BpfEnv K') (L' : BpfEnvLaws K') (C' : BuildConfig) (host : xstate K') d,
       pkt host = pkt s' → decap_counters host !! 0 = Some d →
       ∃ r2 host', @Decap.xdpdecap K' E' C' host = Some (r2, host') ∧
         decap_result cval BE_ETH_P_IP (pkt s) (ipip_overhead (is_v6_real dst))
           (add_decap (is_v6_real dst) (Decap.add_total d)) r2 host').
Proof.
  intros Hf Hpr. apply wpf_elim. eapply wpf_mono; [by apply (wp_katran_tcp n vip cval)|].
  pose proof (sv_frame _ _ _ Hf) as ((Hl & _) & _). intros r s' Hfw.
  unfold forwarded in Hfw. rewrite Hpr in Hfw.
  destruct Hfw as [[-> _]|(-> & (h & Hp & Hh) & _)]; [by left|right]. split; [done|].
  intros K' E' L' C' host d Hhost Hd. apply wpf_elim.
  eapply wp_host_ipip; [by rewrite Hhost|exact Hh|lia|done].
Qed.

(** C6: Connections survive ring changes.  If the balancer's connection table
    has the real of a flow recorded, the packets of the flow without SYN go to
    that real, however the ring is filled. *)
Theorem established_connection_kept n vip cval s v d :
  tcp_service vip cval s → is_syn (pkt s) = false →
  has_flag (vip_flags vip) F_LRU_BYPASS = false →
  get_lru (cpu_lru s) s !! ring_flow vip (frame_flow (pkt s)) = Some v →
  reals (ctl s) !! pos v = Some d →
  ∃ r s', katran n s = Some (r, s') ∧
    (r = XDP_DROP ∧ head_refused (- ipip_overhead (is_v6_real d)) ∨
     r = XDP_TX ∧ sent vip cval s (pos v) d s').
Proof.
  intros Hf Hsyn Hby Hv Hd. apply wpf_elim.
  eapply wpf_mono; [by apply (wp_katran_tcp n vip cval)|]. intros r s' Hfw.
  unfold forwarded, packet_real, flow_real, known_real in Hfw.
  rewrite Hsyn, Hby in Hfw. simpl in Hfw. rewrite Hv in Hfw. simpl in Hfw.
  by rewrite Hd in Hfw.
Qed.
End delivery.

(** *** A concrete connection *)

Definition client_tcp (flags : Z) : list Z :=
  repeat 7 12 ++ le_bytes 2 BE_ETH_P_IP ++
  v4_hdr [1; 2] 16 167772161 167772162 40 IPPROTO_TCP 0 ++
  le_bytes 2 5000 ++ le_bytes 2 443 ++ repeat 0 9 ++ [flags] ++ repeat 0 6.
Definition web_vip : vip_meta := VipMeta 0 3.
Definition web_real (n : Z) : real_definition := RealDefinition (Addr n 0 0 0) 0.
(** The ring says real 7, the connection table 8. *)
Definition tcp_ctl : control_maps :=
  ControlMaps {[VipDefinition (Addr 167772162 0 0 0) 443 IPPROTO_TCP := web_vip]}
    {[web_key := 7]} {[7 := web_real 9; 8 := web_real 10]} ∅ ∅ ∅ {[0 := route_mac]} ∅ ∅.
Definition tcp_state (flags : Z) : xstate refk :=
  with_reals_stats {[7 := LbStats 0 0; 8 := LbStats 0 0]}
    (with_stats (map_seqZ 0 (repeat (LbStats 0 0) (Z.to_nat STATS_MAP_SIZE)))
      (with_fallback_cache {[frame_flow (client_tcp 0) := RealPosLru 8 0]}
        (state_with (client_tcp flags) tcp_ctl [] []))).

Lemma tcp_state_service flags :
  flags = 2 ∨ flags = 16 →
  @tcp_service refk cfg_default web_vip route_mac (tcp_state flags).
Proof.
  intros Hfl. split.
  - reflexivity.
  - done.
  - destruct Hfl as [-> | ->]; (split; [by vm_compute|]; split; [by repeat constructor|by vm_compute]).
  - destruct Hfl as [-> | ->]; by vm_compute.
  - by vm_compute.
  - reflexivity.
  - reflexivity.
  - intros v Hv. unfold tcp_state. cbn [stats with_stats with_reals_stats].
    rewrite lookup_map_seqZ_0 by lia. apply lookup_lt_is_Some_2. rewrite repeat_length. lia.
  - intros k d. unfold tcp_state, tcp_ctl. cbn.
    destruct (decide (k = 7)) as [->|]; [by eexists|]. rewrite lookup_insert_ne by done.
    destruct (decide (k = 8)) as [->|]; [by eexists|]. by rewrite lookup_singleton_ne.
Qed.

Lemma tcp_packet_forwarded_witness :
  ∃ r s', @katran refk ref_env cfg_default 3 (tcp_state 2) = Some (r, s') ∧
    @forwarded refk ref_env cfg_default web_vip route_mac (tcp_state 2) r s'.
Proof.
  apply (@tcp_packet_forwarded refk ref_env ref_env_laws cfg_default 3).
  apply tcp_state_service. by left.
Defined.

Lemma tcp_packet_delivered_witness :
  ∃ r s', @katran refk ref_env cfg_default 3 (tcp_state 2) = Some (r, s') ∧
    (r = XDP_DROP ∨
     r = XDP_TX ∧
     ∃ r2 host', @Decap.xdpdecap refk ref_env cfg_full
         (with_decap_counters {[0 := DecapStats 5 6 20]} s') = Some (r2, host') ∧
       decap_result route_mac BE_ETH_P_IP (client_tcp 2) 20 (DecapStats 6 6 21) r2 host').
Proof.
  destruct (@tcp_packet_delivered refk ref_env ref_env_laws cfg_default 3 web_vip route_mac
    (tcp_state 2) 7 (web_real 9)) as (r & s' & Hrun & Hr).
  { apply tcp_state_service. by left. }
  { by vm_compute. }
  exists r, s'. split; [exact Hrun|]. destruct Hr as [Hr|[Hr Hhost]]; [by left|right].
  split; [exact Hr|].
  apply (Hhost refk ref_env ref_env_laws cfg_full (with_decap_counters {[0 := DecapStats 5 6 20]} s')
    (DecapStats 5 6 20)); [reflexivity|apply lookup_singleton_eq].
Defined.

Lemma established_connection_kept_witness :
  ∃ r s', @katran refk ref_env cfg_default 3 (tcp_state 16) = Some (r, s') ∧
    (r = XDP_DROP ∧ head_refused (-20) ∨
     r = XDP_TX ∧ sent web_vip route_mac (tcp_state 16) 8 (web_real 10) s').
Proof.
  apply (@established_connection_kept refk ref_env ref_env_laws cfg_default 3 web_vip route_mac
    (tcp_state 16) (RealPosLru 8 0) (web_real 10)).
  - apply tcp_state_service. by right.
  - by vm_compute.
  - reflexivity.
  - by vm_compute.
  - reflexivity.
Defined.
