(* ===== verification/Records.v ===== *)
(** * Field updates of C structs

    [p->a.b = v] on a struct modelled as a record.  An [Eta] instance lists the
    fields of a record in the order of its constructor; the update of a field
    is computed from it, and unfolds to the constructor applied to the other
    fields. *)
From S2P Require Import Prelude.

Class Eta (T : Type) : Type := eta : T → T.
Class Update {T E : Type} (f : T → E) : Type := update : (E → E) → T → T.
Arguments update {T E} f {_} g x : rename.

(** The eta-expansion with the projection [f] abstracted. *)
Ltac solve_update f :=
  lazymatch type of f with
  | ?T → ?E =>
      let e := eval hnf in (_ : Eta T) in
      let e := eval cbv beta in e in
      lazymatch (eval pattern f in e) with
      | ?h _ => let u := eval cbv beta in (λ (g : E → E) (x : T), h (λ y, g (f y)) x) in exact u
      end
  end.
#[export] Hint Extern 0 (Update ?f) => solve_update f : typeclass_instances.

Declare Scope update_scope.
Delimit Scope update_scope with upd.
#[warnings="-postfix-notation-not-level-1"]
Notation "x <| a := v |>" := (update a (λ _, v) x)
  (at level 12, left associativity, a at next level) : update_scope.
#[warnings="-postfix-notation-not-level-1"]
Notation "x <| a ; b := v |>" := (update a (update b (λ _, v)) x)
  (at level 12, left associativity, a at next level, b at next level) : update_scope.
#[warnings="-postfix-notation-not-level-1"]
Notation "x <| a ; b ; c := v |>" := (update a (update b (update c (λ _, v))) x)
  (at level 12, left associativity, a at next level, b at next level, c at next level) : update_scope.
#[warnings="-postfix-notation-not-level-1"]
Notation "x <| a ; b ; c ; d := v |>" :=
  (update a (update b (update c (update d (λ _, v)))) x)
  (at level 12, left associativity, a at next level, b at next level, c at next level,
   d at next level) : update_scope.
#[warnings="-postfix-notation-not-level-1"]
Notation "x <| a ::= f |>" := (update a f x)
  (at level 12, left associativity, a at next level) : update_scope.
#[warnings="-postfix-notation-not-level-1"]
Notation "x <| a ; b ::= f |>" := (update a (update b f) x)
  (at level 12, left associativity, a at next level, b at next level) : update_scope.
#[warnings="-postfix-notation-not-level-1"]
Notation "x <| a ; b ; c ::= f |>" := (update a (update b (update c f)) x)
  (at level 12, left associativity, a at next level, b at next level, c at next level) : update_scope.
#[warnings="-postfix-notation-not-level-1"]
Notation "x <| a ; b ; c ; d ::= f |>" :=
  (update a (update b (update c (update d f))) x)
  (at level 12, left associativity, a at next level, b at next level, c at next level,
   d at next level) : update_scope.
#[global] Open Scope update_scope.
