(* ===== verification/LoxiDefs.v ===== *)
(** * loxilb: constants, metadata and entries of the maps

    The parts of [common/llb_dpapi.h], [common/llb_dp_mdi.h],
    [common/common_pdi.h] and [common/parsing_helpers.h] that connection
    tracking, policing, the firewall and the NAT/LB stage use, and the packet
    metadata all stages share ([LoxiTables] has the forwarding tables,
    [LoxiState] the program state).  A [__u32[4]] address is an [xaddr]; unions keep
    the members the code uses side by side (the protocol of the flow selects
    the member, [LoxiCtFrame.union_member]).  Pointers
    to map values are keys of the map: two pointers to the same entry alias. *)
From S2P Require Import Prelude Records Words Consts.
Open Scope c_scope.

(** ** Constants *)

Definition LLB_MAX_NXFRMS : Z := 16.
Definition LLB_FW4_MAP_ENTRIES : Z := 8 * 1024.
(** The entry of [pgm_tbl] the stages of the slow path meet at. *)
Definition LLB_DP_CT_PGM_ID : Z := 2.

(** [enum llb_dp_tid]: the tables these stages name. *)
Definition LL_DP_CT_MAP : Z := 5.
Definition LL_DP_CT_STATS_MAP : Z := 17.
Definition LL_DP_NAT_MAP : Z := 23.
Definition LL_DP_NAT_STATS_MAP : Z := 24.
Definition LL_DP_FW4_MAP : Z := 27.
Definition LL_DP_FW4_STATS_MAP : Z := 28.

Definition DP_SET_DROP : Z := 0.
Definition DP_SET_SNAT : Z := 1.
Definition DP_SET_DNAT : Z := 2.
Definition DP_SET_TOCP : Z := 10.
Definition DP_SET_NOP : Z := 12.
Definition DP_SET_SESS_FWD_ACT : Z := 15.
Definition DP_SET_RDR_PORT : Z := 16.
Definition DP_SET_DO_CT : Z := 20.

(** [ct_smr_t] *)
Definition CT_SMR_ERR : Z := -1.
Definition CT_SMR_INPROG : Z := 0.
Definition CT_SMR_EST : Z := 1.
Definition CT_SMR_UEST : Z := 2.
Definition CT_SMR_FIN : Z := 3.
Definition CT_SMR_CTD : Z := 4.
Definition CT_SMR_UNT : Z := 100.
Definition CT_SMR_INIT : Z := 200.

(** [ct_tcp_state_t] *)
Definition CT_TCP_CLOSED : Z := 0x0.
Definition CT_TCP_SS : Z := 0x1.
Definition CT_TCP_SA : Z := 0x2.
Definition CT_TCP_EST : Z := 0x4.
Definition CT_TCP_FINI : Z := 0x10.
Definition CT_TCP_FINI2 : Z := 0x20.
Definition CT_TCP_FINI3 : Z := 0x40.
Definition CT_TCP_CW : Z := 0x80.
Definition CT_TCP_ERR : Z := 0x100.
Definition CT_TCP_FIN_MASK : Z :=
  Z.lor (Z.lor (Z.lor CT_TCP_FINI CT_TCP_FINI2) CT_TCP_FINI3) CT_TCP_CW.
Definition CT_TCP_INIT_ACK_THRESHOLD : Z := 3.

(** [ct_udp_state_t] *)
Definition CT_UDP_CNI : Z := 0x0.
Definition CT_UDP_UEST : Z := 0x1.
Definition CT_UDP_EST : Z := 0x2.
Definition CT_UDP_CONN_THRESHOLD : Z := 4.

(** [ct_icmp_state_t] *)
Definition CT_ICMP_CLOSED : Z := 0x0.
Definition CT_ICMP_REQS : Z := 0x1.
Definition CT_ICMP_REPS : Z := 0x2.
Definition CT_ICMP_DUNR : Z := 0x8.
Definition CT_ICMP_TTL : Z := 0x10.
Definition CT_ICMP_RDR : Z := 0x20.
Definition CT_ICMP_UNK : Z := 0x40.

(** [ct_stcp_state_t] *)
Definition CT_SCTP_CLOSED : Z := 0x0.
Definition CT_SCTP_INIT : Z := 0x1.
Definition CT_SCTP_INITA : Z := 0x2.
Definition CT_SCTP_COOKIE : Z := 0x4.
Definition CT_SCTP_COOKIEA : Z := 0x10.
Definition CT_SCTP_EST : Z := 0x10.
Definition CT_SCTP_SHUT : Z := 0x20.
Definition CT_SCTP_SHUTA : Z := 0x40.
Definition CT_SCTP_SHUTC : Z := 0x80.
Definition CT_SCTP_ERR : Z := 0x100.
Definition CT_SCTP_ABRT : Z := 0x200.
Definition CT_SCTP_FIN_MASK : Z :=
  Z.lor (Z.lor (Z.lor CT_SCTP_SHUT CT_SCTP_SHUTA) CT_SCTP_SHUTC) CT_SCTP_ABRT.

(** [llb_dp_mdi.h] *)
Definition LLB_PIPE_TRAP : Z := 0x1.
Definition LLB_PIPE_DROP : Z := 0x2.
Definition LLB_PIPE_RDR_PRIO : Z := 0x20.
Definition LLB_PIPE_RC_ACL_MISS : Z := 0x2.
Definition LLB_PIPE_RC_FW_RDR : Z := 0x8.
Definition LLB_DP_ACL_HIT : Z := 0x2.
Definition LLB_DP_RES_HIT : Z := 0x40.
Definition LLB_DP_FW_HIT : Z := 0x80.
Definition LLB_TCP_FIN : Z := 0x01.
Definition LLB_TCP_SYN : Z := 0x02.
Definition LLB_TCP_RST : Z := 0x04.
Definition LLB_TCP_ACK : Z := 0x10.
Definition LLB_NAT_DST : Z := 0x01.
Definition LLB_NAT_SRC : Z := 0x02.
Definition LLB_NAT_HDST : Z := 0x04.
Definition LLB_NAT_HSRC : Z := 0x08.
Definition LLB_PIPE_COL_NONE : Z := 0.
Definition LLB_PIPE_COL_GREEN : Z := 1.
Definition LLB_PIPE_COL_YELLOW : Z := 2.
Definition LLB_PIPE_COL_RED : Z := 3.
Definition LLB_PIPE_CT_INP : Z := 1.

Definition NAT_LB_SEL_RR : Z := 0.
Definition NAT_LB_SEL_HASH : Z := 1.

(** Kernel protocol numbers and ICMP types; [ETH_P_IPV6] in network order. *)
Definition ICMP_REDIRECT : Z := 5.
Definition ICMP_TIME_EXCEEDED : Z := 11.
Definition ICMPV6_TIME_EXCEED : Z := 3.

(** [parsing_helpers.h] and the kernel's header layouts. *)
Definition SCTP_INIT_CHUNK : Z := 1.
Definition SCTP_INIT_CHUNK_ACK : Z := 2.
Definition SCTP_ABORT : Z := 6.
Definition SCTP_SHUT : Z := 7.
Definition SCTP_SHUT_ACK : Z := 8.
Definition SCTP_ERROR : Z := 9.
Definition SCTP_COOKIE_ECHO : Z := 10.
Definition SCTP_COOKIE_ACK : Z := 11.
Definition SCTP_SHUT_COMPLETE : Z := 14.
Definition sizeof_sctphdr : Z := 12.
Definition sctp_vtag : Z := 4.
Definition sizeof_sctp_dch : Z := 4.
Definition sizeof_sctp_init_ch : Z := 16.
Definition sizeof_sctp_cookie : Z := 4.
Definition tcp_seq : Z := 4.
Definition tcp_ack_seq : Z := 8.
Definition icmp_echo_sequence : Z := 6.

(** ** Structs *)

Record xaddr : Type := XAddr { xa0 : Z; xa1 : Z; xa2 : Z; xa3 : Z }.
#[export] Instance xaddr_eq_dec : EqDecision xaddr.
Proof. solve_decision. Defined.
#[export] Instance xaddr_countable : Countable xaddr.
Proof.
  apply (inj_countable' (λ a, (xa0 a, xa1 a, xa2 a, xa3 a))
           (λ '(a, b, c, d), XAddr a b c d)). by intros [].
Defined.
#[export] Instance eta_xaddr : Eta xaddr := λ a, XAddr (xa0 a) (xa1 a) (xa2 a) (xa3 a).

Definition DP_XADDR_ZR : xaddr := XAddr 0 0 0 0.
Definition DP_XADDR_ISZR (a : xaddr) : bool :=
  (xa0 a =? 0) && (xa1 a =? 0) && (xa2 a =? 0) && (xa3 a =? 0).

Record dp_ct_key : Type := CtKey {
  k_daddr : xaddr; k_saddr : xaddr; k_sport : Z; k_dport : Z;
  k_zone : Z; k_l4proto : Z; k_v6 : Z
}.
#[export] Instance eta_dp_ct_key : Eta dp_ct_key := λ k,
  CtKey (k_daddr k) (k_saddr k) (k_sport k) (k_dport k) (k_zone k) (k_l4proto k) (k_v6 k).
#[export] Instance dp_ct_key_eq_dec : EqDecision dp_ct_key.
Proof. solve_decision. Defined.
#[export] Instance dp_ct_key_countable : Countable dp_ct_key.
Proof.
  apply (inj_countable' (λ k, (k_daddr k, k_saddr k, k_sport k, k_dport k,
                               k_zone k, k_l4proto k, k_v6 k))
           (λ '(a, b, c, d, e, f, g), CtKey a b c d e f g)). by intros [].
Defined.

Record dp_cmn_act : Type := CmnAct {
  act_type : Z; ftrap : Z; oaux : Z; cidx : Z; fwrid : Z; mark : Z; record : Z
}.
#[export] Instance eta_dp_cmn_act : Eta dp_cmn_act := λ a,
  CmnAct (act_type a) (ftrap a) (oaux a) (cidx a) (fwrid a) (mark a) (record a).

Record dp_pb_stats : Type := PbStats { bytes : Z; packets : Z }.
#[export] Instance eta_dp_pb_stats : Eta dp_pb_stats := λ a, PbStats (bytes a) (packets a).

(** [ct_dir_t], and the arrays indexed by it. *)
Inductive ct_dir : Type := CT_DIR_IN | CT_DIR_OUT.
#[export] Instance ct_dir_eq_dec : EqDecision ct_dir.
Proof. solve_decision. Defined.

Record per_dir (A : Type) : Type := PerDir { at_in : A; at_out : A }.
Arguments PerDir {A}. Arguments at_in {A}. Arguments at_out {A}.
Definition at_dir {A} (d : ct_dir) (p : per_dir A) : A :=
  match d with CT_DIR_IN => at_in p | CT_DIR_OUT => at_out p end.
Definition upd_dir {A} (d : ct_dir) (f : A → A) (p : per_dir A) : per_dir A :=
  match d with
  | CT_DIR_IN => PerDir (f (at_in p)) (at_out p)
  | CT_DIR_OUT => PerDir (at_in p) (f (at_out p))
  end.
(** [dir == CT_DIR_IN ? CT_DIR_OUT : CT_DIR_IN] *)
Definition rev_dir (d : ct_dir) : ct_dir :=
  match d with CT_DIR_IN => CT_DIR_OUT | CT_DIR_OUT => CT_DIR_IN end.

Record ct_tcp_pinfd : Type := TcpPinfd {
  hstate : Z; init_acks : Z; td_seq : Z; pack : Z; pseq : Z
}.
#[export] Instance eta_ct_tcp_pinfd : Eta ct_tcp_pinfd := λ x,
  TcpPinfd (hstate x) (init_acks x) (td_seq x) (pack x) (pseq x).

Record ct_tcp_pinf : Type := TcpPinf {
  t_state : Z; t_fndir : ct_dir; tcp_cts : per_dir ct_tcp_pinfd
}.
#[export] Instance eta_ct_tcp_pinf : Eta ct_tcp_pinf := λ x,
  TcpPinf (t_state x) (t_fndir x) (tcp_cts x).

Record ct_udp_pinf : Type := UdpPinf { u_state : Z; pkts_seen : Z; rpkts_seen : Z }.
#[export] Instance eta_ct_udp_pinf : Eta ct_udp_pinf := λ x,
  UdpPinf (u_state x) (pkts_seen x) (rpkts_seen x).

Record ct_icmp_pinf : Type := IcmpPinf { i_state : Z; errs : Z; lseq : Z }.
#[export] Instance eta_ct_icmp_pinf : Eta ct_icmp_pinf := λ x,
  IcmpPinf (i_state x) (errs x) (lseq x).

Record ct_sctp_pinf : Type := SctpPinf { s_state : Z; itag : Z; otag : Z; cookie : Z }.
#[export] Instance eta_ct_sctp_pinf : Eta ct_sctp_pinf := λ x,
  SctpPinf (s_state x) (itag x) (otag x) (cookie x).

(** [ct_pinf_t]: the union members [t], [u], [i], [s], then [frag], [l3i]. *)
Record ct_pinf : Type := CtPinf {
  pi_t : ct_tcp_pinf; pi_u : ct_udp_pinf; pi_i : ct_icmp_pinf; pi_s : ct_sctp_pinf;
  frag : Z; l3i_state : Z
}.
#[export] Instance eta_ct_pinf : Eta ct_pinf := λ x,
  CtPinf (pi_t x) (pi_u x) (pi_i x) (pi_s x) (frag x) (l3i_state x).

(** [memset(&pi, 0, sizeof(ct_pinf_t))] *)
Definition tcp_zero : ct_tcp_pinf :=
  TcpPinf 0 CT_DIR_IN (PerDir (TcpPinfd 0 0 0 0 0) (TcpPinfd 0 0 0 0 0)).
Definition udp_zero : ct_udp_pinf := UdpPinf 0 0 0.
Definition icmp_zero : ct_icmp_pinf := IcmpPinf 0 0 0.
Definition sctp_zero : ct_sctp_pinf := SctpPinf 0 0 0 0.
Definition pinf_zero : ct_pinf := CtPinf tcp_zero udp_zero icmp_zero sctp_zero 0 0.

(** [struct mf_xfrm_inf], alias [nxfrm_inf_t] *)
Record nxfrm_inf : Type := NxfrmInf {
  nat_flags : Z; inactive : Z; wprio : Z; nv6 : Z; dsr : Z; nat_xport : Z;
  nat_xip : xaddr; nat_rip : xaddr
}.
#[export] Instance eta_nxfrm_inf : Eta nxfrm_inf := λ x,
  NxfrmInf (nat_flags x) (inactive x) (wprio x) (nv6 x) (dsr x) (nat_xport x)
    (nat_xip x) (nat_rip x).

Record dp_ct_dat : Type := CtDat {
  d_rid : Z; d_aid : Z; d_pi : ct_pinf; d_dir : ct_dir; d_smr : Z;
  d_xi : nxfrm_inf; d_pb : dp_pb_stats
}.
#[export] Instance eta_dp_ct_dat : Eta dp_ct_dat := λ x,
  CtDat (d_rid x) (d_aid x) (d_pi x) (d_dir x) (d_smr x) (d_xi x) (d_pb x).

Record dp_nat_act : Type := NatAct {
  na_xip : xaddr; na_rip : xaddr; na_xport : Z; na_fr : Z; na_doct : Z;
  na_rid : Z; na_aid : Z; na_nv6 : Z; na_dsr : Z
}.
#[export] Instance eta_dp_nat_act : Eta dp_nat_act := λ x,
  NatAct (na_xip x) (na_rip x) (na_xport x) (na_fr x) (na_doct x) (na_rid x)
    (na_aid x) (na_nv6 x) (na_dsr x).

Record dp_rdr_act : Type := RdrAct { rdr_oport : Z; rdr_fr : Z }.
#[export] Instance eta_dp_rdr_act : Eta dp_rdr_act := λ x, RdrAct (rdr_oport x) (rdr_fr x).

(** The members of the union of actions are separate fields: which one is
    used is determined by [act_type].  [pdr_sess_id] is the field of
    [struct dp_sess_act]. *)
Record dp_ct_tact : Type := CtTact {
  ca : dp_cmn_act; ctd : dp_ct_dat; ito : Z; lts : Z; nat_act : dp_nat_act;
  port_act : dp_rdr_act; pdr_sess_id : Z
}.
#[export] Instance eta_dp_ct_tact : Eta dp_ct_tact := λ x,
  CtTact (ca x) (ctd x) (ito x) (lts x) (nat_act x) (port_act x) (pdr_sess_id x).

Record dp_ct_ctrtact : Type := CtCtr { ctr_start : Z; ctr_counter : Z; ctr_entries : Z }.
#[export] Instance eta_dp_ct_ctrtact : Eta dp_ct_ctrtact := λ x,
  CtCtr (ctr_start x) (ctr_counter x) (ctr_entries x).

(** [struct dp_policer_act] with its [struct dp_pol_stats]. *)
Record dp_policer_act : Type := PolicerAct {
  trtcm : Z; color_aware : Z; drop_prio : Z; cbs : Z; ebs : Z; tok_c : Z; tok_e : Z;
  toksc_pus : Z; tokse_pus : Z; lastc_uts : Z; laste_uts : Z;
  drop_packets : Z; pass_packets : Z
}.
#[export] Instance eta_dp_policer_act : Eta dp_policer_act := λ x,
  PolicerAct (trtcm x) (color_aware x) (drop_prio x) (cbs x) (ebs x) (tok_c x)
    (tok_e x) (toksc_pus x) (tokse_pus x) (lastc_uts x) (laste_uts x)
    (drop_packets x) (pass_packets x).
Record dp_pol_tact : Type := PolTact { pol_ca : dp_cmn_act; pol : dp_policer_act }.
#[export] Instance eta_dp_pol_tact : Eta dp_pol_tact := λ x, PolTact (pol_ca x) (pol x).

(** [common_pdi.h]: a field of a classifier key with its mask, and a 16-bit
    field that may be a range.  [u_val_min] and [u_valid_max] are the two
    halves of the union of [struct { min; max; }] and [struct { val; valid; }]. *)
Record pdi_tup : Type := PdiTup { val : Z; valid : Z }.
Record pdi_tupr : Type := PdiTupR { has_range : Z; u_val_min : Z; u_valid_max : Z }.

Record pdi_key : Type := PdiKey {
  f_dest : pdi_tup; f_source : pdi_tup; f_dport : pdi_tupr; f_sport : pdi_tupr;
  f_inport : pdi_tup; f_zone : pdi_tup; f_bd : pdi_tup; f_protocol : pdi_tup; f_nr : pdi_tup
}.
(** [struct dp_fwv4_ent]: the key, the common action and the redirect port. *)
Record dp_fwv4_ent : Type := FwEnt { fw_k : pdi_key; fwa_ca : dp_cmn_act; fwa_oport : Z }.

Record dp_nat_key : Type := NatKey {
  nk_daddr : xaddr; nk_dport : Z; nk_zone : Z; nk_mark : Z; nk_l4proto : Z; nk_v6 : Z
}.
#[export] Instance dp_nat_key_eq_dec : EqDecision dp_nat_key.
Proof. solve_decision. Defined.
#[export] Instance dp_nat_key_countable : Countable dp_nat_key.
Proof.
  apply (inj_countable' (λ k, (nk_daddr k, nk_dport k, nk_zone k, nk_mark k,
                               nk_l4proto k, nk_v6 k))
           (λ '(a, b, c, d, e, f), NatKey a b c d e f)). by intros [].
Defined.

(** [nxfrms] is an array of [LLB_MAX_NXFRMS] elements. *)
Record dp_nat_tacts : Type := NatTacts {
  nt_ca : dp_cmn_act; nt_ito : Z; nxfrm : Z; sel_hint : Z; sel_type : Z;
  nxfrms : list nxfrm_inf
}.
#[export] Instance eta_dp_nat_tacts : Eta dp_nat_tacts := λ x,
  NatTacts (nt_ca x) (nt_ito x) (nxfrm x) (sel_hint x) (sel_type x) (nxfrms x).

(** ** Packet metadata ([struct xfi]) *)

(** [struct dp_pi_mdi] *)
Record dp_pi_mdi : Type := PiMdi {
  bd : Z; py_bytes : Z; pipe_act : Z; rcode : Z; tc : Z; l3_off : Z; nh_num : Z;
  phit : Z; pprop : Z; lkup_dmac : list Z; iport : Z; oport : Z;
  sess_id : Z; zone : Z; l4_off : Z; table_id : Z; mirr : Z; tcp_flags : Z; nf : Z;
  rule_id : Z; il3_off : Z; il4_off : Z; itcp_flags : Z; l4fin : Z; il4fin : Z;
  l3_len : Z; l3_plen : Z; il3_len : Z; il3_plen : Z; dp_mark : Z; dp_rec : Z;
  tun_off : Z; fw_mid : Z; fw_lid : Z; fw_rid : Z
}.
#[export] Instance eta_dp_pi_mdi : Eta dp_pi_mdi := λ x,
  PiMdi (bd x) (py_bytes x) (pipe_act x) (rcode x) (tc x) (l3_off x) (nh_num x)
    (phit x) (pprop x) (lkup_dmac x) (iport x) (oport x)
    (sess_id x) (zone x) (l4_off x) (table_id x) (mirr x) (tcp_flags x) (nf x)
    (rule_id x) (il3_off x) (il4_off x) (itcp_flags x) (l4fin x) (il4fin x)
    (l3_len x) (l3_plen x) (il3_len x) (il3_plen x) (dp_mark x) (dp_rec x)
    (tun_off x) (fw_mid x) (fw_lid x) (fw_rid x).

(** [struct dp_l2_mdi]: [vlan0] and [vlan1] are the array [vlan], addresses are
    byte strings. *)
Record dp_l2_mdi : Type := L2Mdi {
  vlan0 : Z; vlan1 : Z; dl_type : Z; dl_dst : list Z; dl_src : list Z; l2_valid : Z
}.
#[export] Instance eta_dp_l2_mdi : Eta dp_l2_mdi := λ x,
  L2Mdi (vlan0 x) (vlan1 x) (dl_type x) (dl_dst x) (dl_src x) (l2_valid x).

Record dp_l34_mdi : Type := L34Mdi {
  tos : Z; nw_proto : Z; l34_valid : Z; m_source : Z; m_dest : Z; m_seq : Z; m_ack : Z;
  m_saddr : xaddr; m_daddr : xaddr
}.
#[export] Instance eta_dp_l34_mdi : Eta dp_l34_mdi := λ x,
  L34Mdi (tos x) (nw_proto x) (l34_valid x) (m_source x) (m_dest x) (m_seq x) (m_ack x)
    (m_saddr x) (m_daddr x).

Record dp_tun_mdi : Type := TunMdi {
  new_tunnel_id : Z; tun_encap : Z; tun_decap : Z; tunnel_id : Z; tun_type : Z;
  tun_rip : Z; tun_sip : Z
}.
#[export] Instance eta_dp_tun_mdi : Eta dp_tun_mdi := λ x,
  TunMdi (new_tunnel_id x) (tun_encap x) (tun_decap x) (tunnel_id x) (tun_type x)
    (tun_rip x) (tun_sip x).

Record dp_nat_mdi : Type := NatMdi {
  nm_nxip : xaddr; nm_nrip : xaddr; nm_nxport : Z; ct_sts : Z; sel_aid : Z;
  nm_nv6 : Z; xlate_proto : Z; nm_dsr : Z; nm_ito : Z
}.
#[export] Instance eta_dp_nat_mdi : Eta dp_nat_mdi := λ x,
  NatMdi (nm_nxip x) (nm_nrip x) (nm_nxport x) (ct_sts x) (sel_aid x)
    (nm_nv6 x) (xlate_proto x) (nm_dsr x) (nm_ito x).

Record dp_qos_mdi : Type := QosMdi {
  icol : Z; ocol : Z; qfi : Z; ipolid : Z; opolid : Z }.
#[export] Instance eta_dp_qos_mdi : Eta dp_qos_mdi := λ x,
  QosMdi (icol x) (ocol x) (qfi x) (ipolid x) (opolid x).

(** The scratch space [skey] the way [dp_sctp_csum] uses it: a byte, two
    16-bit words and a 32-bit word. *)
Record dp_key_mdi : Type := KeyMdi {
  sk_tcall : Z; sk_off : Z; sk_rlen : Z; sk_crc : Z }.
#[export] Instance eta_dp_key_mdi : Eta dp_key_mdi := λ x,
  KeyMdi (sk_tcall x) (sk_off x) (sk_rlen x) (sk_crc x).

(** The outer headers ([l2m], [l34m]), the inner ones ([il2m], [il34m]), tunnel, NAT,
    QoS and pipeline metadata, scratch space; [fm] is not used. *)
Record xfi : Type := Xfi {
  l2m : dp_l2_mdi; l34m : dp_l34_mdi; il2m : dp_l2_mdi; il34m : dp_l34_mdi;
  tm : dp_tun_mdi; nm : dp_nat_mdi; km : dp_key_mdi; qm : dp_qos_mdi; pm : dp_pi_mdi
}.
#[export] Instance eta_xfi : Eta xfi := λ x,
  Xfi (l2m x) (l34m x) (il2m x) (il34m x) (tm x) (nm x) (km x) (qm x) (pm x).

(** [memset(xf, 0, sizeof *xf)] *)
Definition l2_zero : dp_l2_mdi := L2Mdi 0 0 0 (repeat 0 6) (repeat 0 6) 0.
Definition l34_zero : dp_l34_mdi := L34Mdi 0 0 0 0 0 0 0 DP_XADDR_ZR DP_XADDR_ZR.
Definition pm_zero : dp_pi_mdi :=
  PiMdi 0 0 0 0 0 0 0 0 0 (repeat 0 6) 0 0 0 0 0 0 0 0 0 0 0 0 0 0 0 0 0 0 0 0 0 0 0 0 0.
Definition xfi_zero : xfi :=
  Xfi l2_zero l34_zero l2_zero l34_zero (TunMdi 0 0 0 0 0 0 0)
    (NatMdi DP_XADDR_ZR DP_XADDR_ZR 0 0 0 0 0 0 0) (KeyMdi 0 0 0 0) (QosMdi 0 0 0 0 0) pm_zero.

(** The fields of [struct __sk_buff] the programs use. *)
Record sk_buff : Type := SkBuff {
  pkt_type : Z; vlan_present : Z; vlan_proto : Z; vlan_tci : Z; cb0 : Z; cb1 : Z; ifindex : Z
}.
#[export] Instance eta_sk_buff : Eta sk_buff := λ x,
  SkBuff (pkt_type x) (vlan_present x) (vlan_proto x) (vlan_tci x) (cb0 x) (cb1 x) (ifindex x).
