(* ===== verification/LoxiTables.v ===== *)
(** * loxilb: forwarding tables

    The structs of [common/llb_dpapi.h] for interfaces, MAC addresses, routes,
    next hops, sessions, mirrors and the flow cache, and the maps of
    [kernel/llb_kern_cdefs.h] that hold them.  [fwd_tables] is written by the
    control plane only; [fc_maps] by the programs. *)
From S2P Require Import Prelude Records Words Consts LoxiDefs.
Open Scope c_scope.

(** ** Actions *)

Definition DP_SET_NEIGH_L2 : Z := 3.
Definition DP_SET_RM_L2VLAN : Z := 4.
Definition DP_SET_ADD_L2VLAN : Z := 5.
Definition DP_SET_NEIGH_VXLAN : Z := 6.
Definition DP_SET_RM_VXLAN : Z := 7.
Definition DP_SET_RT_TUN_NH : Z := 8.
Definition DP_SET_L3RT_TUN_NH : Z := 9.
Definition DP_SET_IFI : Z := 11.
Definition DP_SET_L3_EN : Z := 13.
Definition DP_SET_RT_NHNUM : Z := 14.
Definition DP_SET_RM_GTP : Z := 21.
Definition DP_SET_NEIGH_IPIP : Z := 23.
Definition DP_SET_RM_IPIP : Z := 24.
Definition LLB_FCV4_MAP_ACTS : Z := DP_SET_TOCP.
Definition LLB_INTERFACES : Z := 512.
Definition LLB_PORT_NO : Z := LLB_INTERFACES - 1.
Definition FC_V4_DPTO : Z := 60000000000.

Definition cmn_zero : dp_cmn_act := CmnAct 0 0 0 0 0 0 0.

Record dp_rt_l2nh_act : Type := L2nhAct {
  l2_dmac : list Z; l2_smac : list Z; l2_bd : Z; rnh_num : Z }.
Record dp_rt_nh_act : Type := RtNhAct {
  rnh_nh_num : Z; rnh_bd : Z; rnh_tid : Z; rnh_l2nh : dp_rt_l2nh_act }.
Record dp_rt_l3tun_act : Type := L3tunAct { t_rip : Z; t_sip : Z; t_tid : Z }.
Record dp_rt_tunnh_act : Type := TunnhAct { l3t : dp_rt_l3tun_act; tun_l2nh : dp_rt_l2nh_act }.
Record dp_l2vlan_act : Type := L2vlanAct { va_vlan : Z; va_oport : Z }.

Definition l2nh_zero : dp_rt_l2nh_act := L2nhAct (repeat 0 6) (repeat 0 6) 0 0.
Definition rt_nh_zero : dp_rt_nh_act := RtNhAct 0 0 0 l2nh_zero.
Definition tunnh_zero : dp_rt_tunnh_act := TunnhAct (L3tunAct 0 0 0) l2nh_zero.

(** ** Keys and entries

    The members of a union are separate fields; [act_type] says which one is
    in use. *)
Record intf_key : Type := IntfKey { ik_ifindex : Z; ing_vid : Z }.
Record dp_intf_tact_set_ifi : Type := SetIfi {
  xdp_ifidx : Z; si_zone : Z; si_bd : Z; si_mirr : Z; si_polid : Z; si_pprop : Z }.
Record dp_intf_tact : Type := IntfTact { if_ca : dp_cmn_act; set_ifi : dp_intf_tact_set_ifi }.

Record dp_smac_key : Type := SmacKey { sk_smac : list Z; sk_bd : Z }.
Record dp_smac_tact : Type := SmacTact { sm_ca : dp_cmn_act }.
Record dp_tmac_key : Type := TmacKey { tk_mac : list Z; tk_tun_type : Z; tk_tunnel_id : Z }.
Record dp_tmac_tact : Type := TmacTact { tma_ca : dp_cmn_act; tma_rt_nh : dp_rt_nh_act }.
Record dp_dmac_key : Type := DmacKey { dk_dmac : list Z; dk_bd : Z }.
Record dp_dmac_tact : Type := DmacTact {
  dma_ca : dp_cmn_act; vlan_act : dp_l2vlan_act; dma_port_act : dp_rdr_act }.
Record dp_nh_tact : Type := NhTact {
  nha_ca : dp_cmn_act; rt_l2nh : dp_rt_l2nh_act; rt_tnh : dp_rt_tunnh_act }.
Record dp_rt_tact : Type := RtTact {
  rt_ca : dp_cmn_act; rt_port_act : dp_rdr_act; rt_nh : dp_rt_nh_act }.
Record dp_sess4_key : Type := Sess4Key { s4_daddr : Z; s4_saddr : Z; s4_teid : Z }.
Record dp_sess_tact : Type := SessTact {
  ss_ca : dp_cmn_act; ss_qfi : Z; ss_rip : Z; ss_sip : Z; ss_teid : Z }.
Record dp_mirr_tact : Type := MirrTact { mi_ca : dp_cmn_act; mi_vlan_act : dp_l2vlan_act }.

#[export] Instance intf_key_eq_dec : EqDecision intf_key.
Proof. solve_decision. Defined.
#[export] Instance intf_key_countable : Countable intf_key.
Proof.
  apply (inj_countable' (λ k, (ik_ifindex k, ing_vid k)) (λ '(a, b), IntfKey a b)).
  by intros [].
Defined.
#[export] Instance dp_smac_key_eq_dec : EqDecision dp_smac_key.
Proof. solve_decision. Defined.
#[export] Instance dp_smac_key_countable : Countable dp_smac_key.
Proof.
  apply (inj_countable' (λ k, (sk_smac k, sk_bd k)) (λ '(a, b), SmacKey a b)).
  by intros [].
Defined.
#[export] Instance dp_tmac_key_eq_dec : EqDecision dp_tmac_key.
Proof. solve_decision. Defined.
#[export] Instance dp_tmac_key_countable : Countable dp_tmac_key.
Proof.
  apply (inj_countable' (λ k, (tk_mac k, tk_tun_type k, tk_tunnel_id k))
           (λ '(a, b, c), TmacKey a b c)).
  by intros [].
Defined.
#[export] Instance dp_dmac_key_eq_dec : EqDecision dp_dmac_key.
Proof. solve_decision. Defined.
#[export] Instance dp_dmac_key_countable : Countable dp_dmac_key.
Proof.
  apply (inj_countable' (λ k, (dk_dmac k, dk_bd k)) (λ '(a, b), DmacKey a b)).
  by intros [].
Defined.
#[export] Instance dp_sess4_key_eq_dec : EqDecision dp_sess4_key.
Proof. solve_decision. Defined.
#[export] Instance dp_sess4_key_countable : Countable dp_sess4_key.
Proof.
  apply (inj_countable' (λ k, (s4_daddr k, s4_saddr k, s4_teid k))
           (λ '(a, b, c), Sess4Key a b c)).
  by intros [].
Defined.

(** The tables.  The route tables are longest-prefix-match tries of the
    kernel: they are given by their lookup function, [rt_v4_map] on the zone and
    the address, [rt_v6_map] on the address; the prefix length of the lookup
    key is the full one. *)
Record fwd_tables : Type := FwdTables {
  intf_map : gmap intf_key dp_intf_tact;
  tx_intf_map : gmap Z Z;
  smac_map : gmap dp_smac_key dp_smac_tact;
  tmac_map : gmap dp_tmac_key dp_tmac_tact;
  dmac_map : gmap dp_dmac_key dp_dmac_tact;
  nh_map : gmap Z dp_nh_tact;
  rt_v4_map : list Z → option dp_rt_tact;
  rt_v6_map : xaddr → option dp_rt_tact;
  sess_v4_map : gmap dp_sess4_key dp_sess_tact;
  mirr_map : gmap Z dp_mirr_tact;
  crc32c_map : gmap Z Z
}.
Definition no_tables : fwd_tables :=
  FwdTables ∅ ∅ ∅ ∅ ∅ ∅ (λ _, None) (λ _, None) ∅ ∅ ∅.

(** ** The flow cache *)

Record dp_fcv4_key : Type := Fcv4Key {
  fk_smac : list Z; fk_dmac : list Z; fk_in_smac : list Z; fk_in_dmac : list Z;
  fk_daddr : Z; fk_saddr : Z; fk_sport : Z; fk_dport : Z; fk_in_port : Z;
  fk_l4proto : Z; fk_in_l4proto : Z; fk_in_sport : Z; fk_in_daddr : Z;
  fk_in_saddr : Z; fk_in_dport : Z; fk_bd : Z
}.
#[export] Instance dp_fcv4_key_eq_dec : EqDecision dp_fcv4_key.
Proof. solve_decision. Defined.
#[export] Instance dp_fcv4_key_countable : Countable dp_fcv4_key.
Proof.
  apply (inj_countable'
    (λ k, ((fk_smac k, fk_dmac k, fk_in_smac k, fk_in_dmac k, fk_daddr k, fk_saddr k,
            fk_sport k, fk_dport k),
           (fk_in_port k, fk_l4proto k, fk_in_l4proto k, fk_in_sport k, fk_in_daddr k,
            fk_in_saddr k, fk_in_dport k, fk_bd k)))
    (λ '((a, b, c, d, e, f, g, h), (i, j, k, l, m, n, o, p)),
       Fcv4Key a b c d e f g h i j k l m n o p)).
  by intros [].
Defined.

Record dp_fc_tact : Type := FcTact {
  fc_ca : dp_cmn_act; nh_act : dp_rt_nh_act; fc_nat_act : dp_nat_act;
  nl2 : dp_rt_l2nh_act; ntun : dp_rt_tunnh_act; l2ov : dp_l2vlan_act }.
#[export] Instance eta_dp_fc_tact : Eta dp_fc_tact := λ x,
  FcTact (fc_ca x) (nh_act x) (fc_nat_act x) (nl2 x) (ntun x) (l2ov x).
(** [fcta] is an array of [LLB_FCV4_MAP_ACTS] elements, indexed by the action. *)
Record dp_fc_tacts : Type := FcTacts {
  fcs_ca : dp_cmn_act; its : Z; fc_zone : Z; fcta : list dp_fc_tact }.
#[export] Instance eta_dp_fc_tacts : Eta dp_fc_tacts := λ x,
  FcTacts (fcs_ca x) (its x) (fc_zone x) (fcta x).

Definition fc_tact_zero : dp_fc_tact :=
  FcTact cmn_zero rt_nh_zero (NatAct DP_XADDR_ZR DP_XADDR_ZR 0 0 0 0 0 0 0) l2nh_zero
    tunnh_zero (L2vlanAct 0 0).
Definition fc_tacts_zero : dp_fc_tacts :=
  FcTacts cmn_zero 0 0 (replicate (Z.to_nat LLB_FCV4_MAP_ACTS) fc_tact_zero).
Definition fcv4_key_zero : dp_fcv4_key :=
  Fcv4Key (repeat 0 6) (repeat 0 6) (repeat 0 6) (repeat 0 6) 0 0 0 0 0 0 0 0 0 0 0 0.

(** The cache, and the per-CPU entries [fcas] (the actions collected for the
    packet) and [xfck] (the key looked up for it). *)
Record fc_maps : Type := FcMaps {
  fc_v4_map : gmap dp_fcv4_key dp_fc_tacts; fcas : dp_fc_tacts; xfck : dp_fcv4_key }.
#[export] Instance eta_fc_maps : Eta fc_maps := λ x,
  FcMaps (fc_v4_map x) (fcas x) (xfck x).
Definition no_fc : fc_maps := FcMaps ∅ fc_tacts_zero fcv4_key_zero.
