(* ===== verification/LoxiState.v ===== *)
(** * loxilb: program state and kernel helpers

    What a program of the data path reads and changes, the helpers that all
    stages use, and the statements on them. *)
From S2P Require Import Prelude Records Words Consts LoxiDefs LoxiTables.
Open Scope c_scope.

(** ** Program state

    The packet, its buffer [skb] and metadata [xf] (the entry of [xfis]), the
    maps, the two per-CPU scratch entries of [xctk], the forwarding tables and
    the flow cache, the packets handed to the kernel ([sent]: interface, flags,
    contents, in reverse order), and [lkern], the kernel state behind the helpers.
    Spin-locked sections run without interruption.  [stats_maps] is the family
    of statistics maps, by table id. *)
Abbreviation ct_table := (gmap dp_ct_key dp_ct_tact) (only parsing).

Record lstate (K : Type) : Type := LState {
  lpkt : list Z;
  skb : sk_buff;
  xf : xfi;
  ct_map : ct_table;
  ct_ctr : option dp_ct_ctrtact;
  xctk_0 : dp_ct_tact;
  xctk_1 : dp_ct_tact;
  polx_map : gmap Z dp_pol_tact;
  fw_v4_map : gmap Z dp_fwv4_ent;
  nat_map : gmap dp_nat_key dp_nat_tacts;
  stats_maps : gmap Z (gmap Z dp_pb_stats);
  tables : fwd_tables;
  fc : fc_maps;
  sent : list (Z * Z * list Z);
  lkern : K
}.
Arguments LState {K}. Arguments lpkt {K}. Arguments skb {K}. Arguments xf {K}. Arguments ct_map {K}.
Arguments ct_ctr {K}. Arguments xctk_0 {K}. Arguments xctk_1 {K}.
Arguments polx_map {K}. Arguments fw_v4_map {K}. Arguments nat_map {K}.
Arguments stats_maps {K}. Arguments tables {K}. Arguments fc {K}. Arguments sent {K}.
Arguments lkern {K}.
#[export] Instance eta_lstate K : Eta (lstate K) := λ s,
  LState (lpkt s) (skb s) (xf s) (ct_map s) (ct_ctr s) (xctk_0 s) (xctk_1 s) (polx_map s)
    (fw_v4_map s) (nat_map s) (stats_maps s) (tables s) (fc s) (sent s) (lkern s).

#[export] Instance lstate_pkt_state K : PktState (lstate K) :=
  {| get_pkt := lpkt; set_pkt m s := s <| lpkt := m |> |}.
#[export] Instance lstate_pkt_laws K : PktStateLaws (lstate K).
Proof. split; [done..|]. by intros []. Qed.

(** ** Kernel helpers

    [lx_ktime] is [bpf_ktime_get_ns]; [lx_pkt_hash] is [bpf_get_hash_recalc];
    [lx_ct_update] is [bpf_map_update_elem(&ct_map, k, v, BPF_ANY)], which
    fails when the table is full; [lx_stats_update] the same on a statistics
    map. *)
Class LoxiEnv (K : Type) : Type := {
  lx_ktime : K → Z * K;
  lx_pkt_hash : list Z → K → Z;
  lx_ct_update : dp_ct_key → dp_ct_tact → ct_table → K → ct_table * K;
  lx_stats_update : Z → Z → dp_pb_stats → gmap Z dp_pb_stats → K →
                    gmap Z dp_pb_stats * K
}.

(** The documented behaviour: the clock and the hash are machine words, an
    update stores the value or leaves the table alone. *)
Class LoxiEnvLaws (K : Type) `{LoxiEnv K} : Prop := {
  lx_ktime_range k : 0 ≤ fst (lx_ktime k) < 2 ^ 64;
  lx_hash_range m k : 0 ≤ lx_pkt_hash m k < 2 ^ 32;
  lx_ct_update_spec key v t k :
    fst (lx_ct_update key v t k) = <[key := v]> t ∨ fst (lx_ct_update key v t k) = t
}.

Section helpers.
Context {K : Type} `{LoxiEnv K} {R : Type}.
Implicit Types s : lstate K.

Definition ktime_ns : body (lstate K) R Z :=
  λ s, let '(t, k) := lx_ktime (lkern s) in Next t (s <| lkern := k |>).

(** [xf->... ] reads and writes. *)
Definition upd_xf (f : xfi → xfi) : body (lstate K) R unit :=
  modify (λ s, s <| xf ::= f |>).
Definition LLBS_PPLN_DROP : body (lstate K) R unit :=
  upd_xf (λ x, x <| pm; pipe_act ::= Z.lor LLB_PIPE_DROP |>).
Definition LLBS_PPLN_RDR_PRIO : body (lstate K) R unit :=
  upd_xf (λ x, x <| pm; pipe_act ::= Z.lor LLB_PIPE_RDR_PRIO |>).
Definition LLBS_PPLN_TRAPC (c : Z) : body (lstate K) R unit :=
  upd_xf (λ x, x <| pm; pipe_act ::= Z.lor LLB_PIPE_TRAP |> <| pm; rcode := c |>).

(** [bpf_map_lookup_elem(&ct_map, &k)], accesses through the pointer it
    returned (a fault when the entry is gone), update and delete. *)
Definition ct_lookup (k : dp_ct_key) : body (lstate K) R (option dp_ct_tact) :=
  gets (λ s, ct_map s !! k).
Definition ct_read (k : dp_ct_key) : body (lstate K) R dp_ct_tact :=
  let! o := ct_lookup k in or_fault o.
Definition ct_write (k : dp_ct_key) (f : dp_ct_tact → dp_ct_tact) :
    body (lstate K) R unit :=
  let! o := ct_lookup k in
  let! _ := or_fault o in
  modify (λ s, s <| ct_map ::= alter f k |>).
Definition ct_update (k : dp_ct_key) (v : dp_ct_tact) : body (lstate K) R unit :=
  λ s, let '(t, κ) := lx_ct_update k v (ct_map s) (lkern s) in
       Next tt (s <| ct_map := t |> <| lkern := κ |>).
Definition ct_delete (k : dp_ct_key) : body (lstate K) R unit :=
  modify (λ s, s <| ct_map ::= delete k |>).
End helpers.
