(* ===== verification/LoxiSkb.v ===== *)
(** * loxilb: socket buffers and tail calls

    The helpers of the tc programs that change the packet or hand it on, their
    documented behaviour, and the statements of [kernel/llb_kern_cdefs.h] on
    them; tail calls. *)
From S2P Require Import Prelude Records Words Consts Csum LoxiDefs LoxiTables LoxiState.
Open Scope c_scope.

Definition TC_ACT_REDIRECT : Z := 7.
Definition DP_PASS : Z := TC_ACT_OK.
Definition DP_DROP : Z := TC_ACT_SHOT.
Definition DP_REDIRECT : Z := TC_ACT_REDIRECT.
Definition BPF_F_INGRESS : Z := 1.
Definition BPF_F_PSEUDO_HDR : Z := 16.
Definition BPF_F_ADJ_ROOM_ENCAP_L2 (len : Z) : Z := Z.shiftl (Z.land len 0xff) 56.

(** ** Helpers

    A helper that changes the packet gives [None] for an error.
    [sk_store_bytes off bs], [sk_l3_csum_replace off from to flags],
    [sk_l4_csum_replace off from to flags], [sk_change_proto proto]: the
    functions [bpf_skb_...], [bpf_l3_csum_replace] and so on;
    [sk_adjust_room delta flags] in mode [BPF_ADJ_ROOM_MAC];
    [sk_csum_diff from to seed]; [sk_redirect ifindex flags] is
    [bpf_redirect], [sk_clone_redirect] [bpf_clone_redirect];
    [sk_fc_update] is [bpf_map_update_elem(&fc_v4_map, k, v, BPF_ANY)]. *)
Class SkbEnv (K : Type) : Type := {
  sk_store_bytes : Z → list Z → list Z → K → option (list Z) * K;
  sk_l3_csum_replace : Z → Z → Z → Z → list Z → K → option (list Z) * K;
  sk_l4_csum_replace : Z → Z → Z → Z → list Z → K → option (list Z) * K;
  sk_adjust_room : Z → Z → list Z → K → option (list Z) * K;
  sk_change_proto : Z → list Z → K → option (list Z) * K;
  sk_vlan_push : Z → Z → list Z → sk_buff → K → option (list Z * sk_buff) * K;
  sk_vlan_pop : list Z → sk_buff → K → option (list Z * sk_buff) * K;
  sk_csum_diff : list Z → list Z → Z → Z;
  sk_redirect : Z → Z → K → Z * K;
  sk_clone_redirect : Z → Z → list Z → K → Z * K;
  sk_fc_update : dp_fcv4_key → dp_fc_tacts → gmap dp_fcv4_key dp_fc_tacts → K →
                 gmap dp_fcv4_key dp_fc_tacts * K
}.

(** The new checksum [c'] in place of [c] when the covered data changes by
    [to - from]: equality up to multiples of 65535. *)
Definition csum_updated (c c' from to : Z) : Prop :=
  0 ≤ c' < 2 ^ 16 ∧ c' mod 65535 = (c + from - to) mod 65535.

(** Documented behaviour.  Room is made, or taken away, right behind the
    Ethernet header; the contents of new room are not specified. *)
Class SkbEnvLaws (K : Type) `{SkbEnv K} : Prop := {
  sk_store_spec off bs m k m' k' :
    0 ≤ off → off + Z.of_nat (length bs) ≤ Z.of_nat (length m) →
    sk_store_bytes off bs m k = (Some m', k') → m' = splice (Z.to_nat off) bs m;
  sk_l3_csum_spec off from to flags m k m' k' :
    0 ≤ off → off + 2 ≤ Z.of_nat (length m) →
    sk_l3_csum_replace off from to flags m k = (Some m', k') →
    ∃ c', m' = splice (Z.to_nat off) (le_bytes 2 c') m ∧
      csum_updated (le_val (slice (Z.to_nat off) 2 m)) c' from to;
  sk_l4_csum_spec off from to flags m k m' k' :
    0 ≤ off → off + 2 ≤ Z.of_nat (length m) →
    sk_l4_csum_replace off from to flags m k = (Some m', k') →
    ∃ c', m' = splice (Z.to_nat off) (le_bytes 2 c') m ∧
      csum_updated (le_val (slice (Z.to_nat off) 2 m)) c' from to;
  sk_room_grow n flags m k m' k' :
    0 < n → 14 ≤ Z.of_nat (length m) → bytes_ok m →
    sk_adjust_room n flags m k = (Some m', k') →
    ∃ room, Z.of_nat (length room) = n ∧ bytes_ok room ∧
      m' = take 14 m ++ room ++ drop 14 m;
  sk_room_shrink n flags m k m' k' :
    0 < n → 14 + n ≤ Z.of_nat (length m) →
    sk_adjust_room (- n) flags m k = (Some m', k') →
    m' = take 14 m ++ drop (14 + Z.to_nat n) m;
  sk_redirect_spec oif flags k :
    flags = 0 ∨ flags = BPF_F_INGRESS → fst (sk_redirect oif flags k) = TC_ACT_REDIRECT;
  sk_fc_update_spec key v m k :
    fst (sk_fc_update key v m k) = <[key := v]> m ∨ fst (sk_fc_update key v m k) = m
}.

(** A private buffer with memory to spare: the calls inside the packet
    succeed.  The programs ignore most errors of these helpers. *)
Class SkbReady (K : Type) `{SkbEnv K} : Prop := {
  sk_store_ready off bs m k :
    0 ≤ off → off + Z.of_nat (length bs) ≤ Z.of_nat (length m) →
    is_Some (fst (sk_store_bytes off bs m k));
  sk_l3_csum_ready off from to flags m k :
    0 ≤ off → off + 2 ≤ Z.of_nat (length m) → Z.even off = true →
    is_Some (fst (sk_l3_csum_replace off from to flags m k));
  sk_l4_csum_ready off from to flags m k :
    0 ≤ off → off + 2 ≤ Z.of_nat (length m) → Z.even off = true →
    is_Some (fst (sk_l4_csum_replace off from to flags m k))
}.

(** The results of a program that may end in the middle by a tail call:
    [inl v] when it has, [v] being the verdict of the program called. *)
Abbreviation lfunc K := (func (lstate K)) (only parsing).
Abbreviation lbody K := (body (lstate K)) (only parsing).
Abbreviation pfunc K A := (func (lstate K) (Z + A)) (only parsing).
Abbreviation pbody K R := (body (lstate K) (Z + R)) (only parsing).

Section helpers.
Context {K : Type} `{SkbEnv K} {R : Type}.

(** A helper on the packet: whether it succeeded. *)
Definition skb_op (f : list Z → K → option (list Z) * K) : lbody K R bool :=
  λ s, match f (lpkt s) (lkern s) with
       | (Some m, κ) => Next true (s <| lpkt := m |> <| lkern := κ |>)
       | (None, κ) => Next false (s <| lkern := κ |>)
       end.
Definition bpf_skb_store_bytes (off : Z) (bs : list Z) : lbody K R bool :=
  skb_op (sk_store_bytes off bs).
Definition bpf_l3_csum_replace (off from to flags : Z) : lbody K R bool :=
  skb_op (sk_l3_csum_replace off from to flags).
Definition bpf_l4_csum_replace (off from to flags : Z) : lbody K R bool :=
  skb_op (sk_l4_csum_replace off from to flags).
Definition dp_buf_add_room (delta flags : Z) : lbody K R bool :=
  skb_op (sk_adjust_room delta flags).
Definition dp_buf_delete_room (delta flags : Z) : lbody K R bool :=
  skb_op (sk_adjust_room (- delta) flags).
Definition bpf_skb_change_proto (proto : Z) : lbody K R bool :=
  skb_op (sk_change_proto proto).

(** The VLAN helpers also change the tag in the buffer's metadata. *)
Definition skb_tag_op (f : list Z → sk_buff → K → option (list Z * sk_buff) * K) :
    lbody K R bool :=
  λ s, match f (lpkt s) (skb s) (lkern s) with
       | (Some (m, b), κ) => Next true (s <| lpkt := m |> <| skb := b |> <| lkern := κ |>)
       | (None, κ) => Next false (s <| lkern := κ |>)
       end.
Definition bpf_skb_vlan_push (proto tci : Z) : lbody K R bool :=
  skb_tag_op (sk_vlan_push proto tci).
Definition bpf_skb_vlan_pop : lbody K R bool := skb_tag_op sk_vlan_pop.

Definition bpf_redirect (oif flags : Z) : lbody K R Z :=
  λ s, let '(r, κ) := sk_redirect oif flags (lkern s) in
       Next r (s <| sent ::= λ l, if r =? TC_ACT_REDIRECT then (oif, flags, lpkt s) :: l else l |>
                 <| lkern := κ |>).
Definition bpf_clone_redirect (oif flags : Z) : lbody K R Z :=
  λ s, let '(r, κ) := sk_clone_redirect oif flags (lpkt s) (lkern s) in
       Next r (s <| sent ::= λ l, if r =? 0 then (oif, flags, lpkt s) :: l else l |>
                 <| lkern := κ |>).
End helpers.

(** ** Ports ([kernel/llb_kern_cdefs.h]) *)
Section ports.
Context {K : Type} `{SkbEnv K}.

Definition dp_redirect_port : lfunc K Z := run (
  let! key := gets (λ s, oport (pm (xf s))) in
  let! o := gets (λ s, tx_intf_map (tables s) !! key) in
  let! oif := or_return o TC_ACT_SHOT in
  bpf_redirect oif 0).

Definition dp_rewire_port : lfunc K Z := run (
  let! key := gets (λ s, oport (pm (xf s))) in
  let! o := gets (λ s, tx_intf_map (tables s) !! key) in
  let! oif := or_return o TC_ACT_SHOT in
  bpf_redirect oif BPF_F_INGRESS).

Definition dp_record_it : lfunc K Z := run (
  let! o := gets (λ s, tx_intf_map (tables s) !! LLB_PORT_NO) in
  let! oif := or_return o TC_ACT_SHOT in
  bpf_clone_redirect oif 0).
End ports.

(** ** Tail calls

    [tail idx] is the program at index [idx] of [pgm_tbl] when the kernel
    allows another tail call.  A tail call does not return; when it is not
    possible, the program goes on. *)
Section tails.
Context {K : Type} (tail : Z → option (lfunc K Z)).

Definition bpf_tail_call {R} (idx : Z) : pbody K R unit :=
  match tail idx with
  | Some prog => let! v := call prog in return_ (inl v)
  | None => ret tt
  end.

(** A call of a function that may end the program. *)
Definition call_p {A R} (f : pfunc K A) : pbody K R A :=
  let! r := call f in
  match r with inl v => return_ (inl v) | inr a => ret a end.

(** [return a;] in such a function, and its body. *)
Definition return_p {A R} (a : R) : pbody K R A := return_ (inr a).
Definition run_p {R} (m : pbody K R R) : pfunc K R := run (let! a := m in ret (inr a)).

(** The whole program. *)
Definition run_prog (f : pfunc K Z) : lfunc K Z := run (
  let! r := call f in
  match r with inl v => ret v | inr v => ret v end).
End tails.
