(* ===== verification/LoxiRef.v ===== *)
(** * loxilb: a reference kernel

    An implementation of [LoxiEnv] and [SkbEnv] with the documented behaviour,
    so that the programs can be run: the clock advances by a millisecond per
    reading, the packet hash is the sum of the packet's bytes, the tables are
    never full, the buffer is private and new room holds zeros. *)
From S2P Require Import Prelude Records Words Consts Structs LoxiDefs LoxiTables LoxiState LoxiSkb.

Record lrefk : Type := LRefK { lclock : Z }.

#[export] Instance lref_env : LoxiEnv lrefk := {
  lx_ktime k := (u64 (lclock k), LRefK (lclock k + 1000000));
  lx_pkt_hash m _ := u32 (foldr Z.add 0 m);
  lx_ct_update key v t κ := (<[key := v]> t, κ);
  lx_stats_update _ k v t κ := (<[k := v]> t, κ)
}.

#[export] Instance lref_env_laws : LoxiEnvLaws lrefk.
Proof.
  split.
  - intros k. apply u64_range.
  - intros m k. apply u32_range.
  - intros key v t k. by left.
Qed.

(** The buffer: [ref_room off n] makes or takes [n] bytes of room at [off]. *)
Definition ref_store (off : Z) (bs m : list Z) : option (list Z) :=
  if (0 <=? off) && (off + Z.of_nat (length bs) <=? Z.of_nat (length m))
  then Some (splice (Z.to_nat off) bs m) else None.
Definition ref_csum (off from to : Z) (m : list Z) : option (list Z) :=
  ref_store off
    (le_bytes 2 ((le_val (slice (Z.to_nat off) 2 m) + from - to) mod 65535)) m.
Definition ref_room (n : Z) (m : list Z) : option (list Z) :=
  if 0 <? n then
    if 14 <=? Z.of_nat (length m)
    then Some (take 14 m ++ repeat 0 (Z.to_nat n) ++ drop 14 m) else None
  else if 14 - n <=? Z.of_nat (length m)
       then Some (take 14 m ++ drop (14 + Z.to_nat (- n)) m) else None.

#[export] Instance lref_skb_env : SkbEnv lrefk := {
  sk_store_bytes off bs m κ := (ref_store off bs m, κ);
  sk_l3_csum_replace off from to _ m κ := (ref_csum off from to m, κ);
  sk_l4_csum_replace off from to _ m κ := (ref_csum off from to m, κ);
  sk_adjust_room n _ m κ := (ref_room n m, κ);
  sk_change_proto proto m κ :=
    (if proto =? bpf_htons 0x86dd then ref_room 20 m
     else if proto =? bpf_htons 0x0800 then ref_room (-20) m else None, κ);
  sk_vlan_push proto tci m b κ :=
    (Some (m, b <| vlan_present := 1 |> <| vlan_proto := proto |> <| vlan_tci := tci |>), κ);
  sk_vlan_pop m b κ := (Some (m, b <| vlan_present := 0 |>), κ);
  sk_csum_diff from to seed := (sum16 to - sum16 from + seed) mod 65535;
  sk_redirect _ _ κ := (TC_ACT_REDIRECT, κ);
  sk_clone_redirect _ _ _ κ := (0, κ);
  sk_fc_update key v m κ := (<[key := v]> m, κ)
}.

Lemma ref_store_in off bs m :
  0 ≤ off → off + Z.of_nat (length bs) ≤ Z.of_nat (length m) →
  ref_store off bs m = Some (splice (Z.to_nat off) bs m).
Proof. intros H1 H2. unfold ref_store. by rewrite !(proj2 (Z.leb_le _ _)). Qed.

Lemma ref_csum_in off from to m :
  0 ≤ off → off + 2 ≤ Z.of_nat (length m) →
  ∃ c', ref_csum off from to m = Some (splice (Z.to_nat off) (le_bytes 2 c') m) ∧
    csum_updated (le_val (slice (Z.to_nat off) 2 m)) c' from to.
Proof.
  intros H1 H2. unfold ref_csum. rewrite ref_store_in by (rewrite ?length_le_bytes; lia).
  eexists. split; [done|]. set (x := _ + from - to).
  pose proof (Z.mod_pos_bound x 65535). split; [lia|]. apply Z.mod_mod. lia.
Qed.

#[export] Instance lref_skb_ready : SkbReady lrefk.
Proof.
  split; simpl; intros.
  - by rewrite ref_store_in.
  - by destruct (ref_csum_in off from to m) as (? & -> & _).
  - by destruct (ref_csum_in off from to m) as (? & -> & _).
Qed.

#[export] Instance lref_skb_laws : SkbEnvLaws lrefk.
Proof.
  split; simpl.
  - intros off bs m k m' k' H1 H2 [= E _]. rewrite ref_store_in in E by done. by injection E.
  - intros off from to _ m k m' k' H1 H2 [= E _].
    destruct (ref_csum_in off from to m H1 H2) as (c & E' & Hc).
    rewrite E' in E. injection E as <-. by exists c.
  - intros off from to _ m k m' k' H1 H2 [= E _].
    destruct (ref_csum_in off from to m H1 H2) as (c & E' & Hc).
    rewrite E' in E. injection E as <-. by exists c.
  - intros n _ m k m' k' Hn Hl Hb [= E _]. unfold ref_room in E.
    rewrite (proj2 (Z.ltb_lt _ _)), (proj2 (Z.leb_le _ _)) in E by done. injection E as <-.
    exists (repeat 0 (Z.to_nat n)). rewrite repeat_length. split_and!; [lia| |done].
    apply Forall_forall. intros x Hx%list_elem_of_In%repeat_spec. by subst.
  - intros n _ m k m' k' Hn Hl [= E _]. unfold ref_room in E.
    rewrite (proj2 (Z.ltb_ge _ _)), (proj2 (Z.leb_le _ _)) in E by lia. injection E as <-.
    by rewrite Z.opp_involutive.
  - done.
  - intros key v m k. by left.
Qed.

(** Metadata of a packet without NAT, and a state to start from. *)
Definition ref_xf (proto : Z) (src dst sport dport : Z) : xfi :=
  xfi_zero <| l2m; dl_type := bpf_htons 0x0800 |>
    <| l34m := L34Mdi 0 proto 1 sport dport 0 0 (XAddr src 0 0 0) (XAddr dst 0 0 0) |>
    <| pm; l4_off := 34 |>.
Definition ref_skb : sk_buff := SkBuff 0 0 0 0 0 0 1.
Definition ref_xi : nxfrm_inf := NxfrmInf 0 0 0 0 0 0 DP_XADDR_ZR DP_XADDR_ZR.
Definition ref_tact : dp_ct_tact :=
  CtTact (CmnAct 0 0 0 0 0 0 0) (CtDat 0 0 pinf_zero CT_DIR_IN 0 ref_xi (PbStats 0 0)) 0 0
    (NatAct DP_XADDR_ZR DP_XADDR_ZR 0 0 0 0 0 0 0) (RdrAct 0 0) 0.
Definition ref_state (m : xfi) (p : list Z) : lstate lrefk :=
  LState p ref_skb m ∅ (Some (CtCtr 1 1 1000)) ref_tact ref_tact ∅ ∅ ∅ ∅ no_tables no_fc [] (LRefK 5).

(** A TCP segment with its header at offset 34. *)
Definition ref_segment (flags seq ack src dst sport dport : Z) : list Z * xfi :=
  (repeat 0 34 ++ le_bytes 2 sport ++ le_bytes 2 dport ++ reverse (le_bytes 4 seq) ++
     reverse (le_bytes 4 ack) ++ [80; flags] ++ repeat 0 6,
   ref_xf IPPROTO_TCP src dst sport dport <| pm; tcp_flags := flags |>).
