(* ===== verification/LoxiCt.v ===== *)
(** * loxilb: connection tracking ([kernel/llb_kern_ct.c])

    The key of a flow and of its reverse, the counter allocator, the state
    machines of TCP, UDP, ICMP, ICMPv6 and SCTP, and [dp_ct_in].

    A state machine is called with [t], the entry of the initiating
    direction, and [x], the entry of the reverse one: keys of [ct_map], which
    may be equal.  In each machine the [switch] over the state only touches the
    protocol data of [t]; it is a function on that record, in which [goto end]
    with [nstate] set is a [return_] of [nstate]. *)
From S2P Require Import Prelude Records Words Consts LoxiDefs LoxiTables LoxiState.
Open Scope c_scope.

(** ** Keys and NAT transformations *)

Definition is_dl_ipv6 (x : xfi) : Z :=
  if dl_type (l2m x) =? bpf_ntohs ETH_P_IPV6 then 1 else 0.

Definition CT_KEY_GEN (x : xfi) : dp_ct_key :=
  CtKey (m_daddr (l34m x)) (m_saddr (l34m x)) (m_source (l34m x)) (m_dest (l34m x))
        (zone (pm x)) (nw_proto (l34m x)) (is_dl_ipv6 x).

(** The four blocks of [dp_ct_proto_xfk_init], one per NAT flag, then the
    function: the new values of [*xi], [*xkey], [*xxi]. *)
Abbreviation xfk := (nxfrm_inf * dp_ct_key * nxfrm_inf)%type (only parsing).

Definition xfk_nat_dst (key : dp_ct_key) : xfk → xfk := λ '(xi, xkey, xxi),
  let xkey := xkey <| k_v6 := u8 (nv6 xi) |> <| k_saddr := nat_xip xi |> in
  let '(xkey, xxi) :=
    if negb (DP_XADDR_ISZR (nat_rip xi))
    then (xkey <| k_daddr := nat_rip xi |>, xxi <| nat_rip := k_saddr key |>)
    else (xkey, xxi) in
  let '(xi, xkey) :=
    if negb (k_l4proto key =? IPPROTO_ICMP) then
      if negb (nat_xport xi =? 0) then (xi, xkey <| k_sport := nat_xport xi |>)
      else (xi <| nat_xport := k_dport key |>, xkey)
    else (xi, xkey) in
  let xxi := xxi <| nat_flags := LLB_NAT_SRC |> <| nv6 := k_v6 key |>
                 <| nat_xip := k_daddr key |> in
  let xxi := if negb (k_l4proto key =? IPPROTO_ICMP)
             then xxi <| nat_xport := k_dport key |> else xxi in
  (xi, xkey, xxi).

Definition xfk_nat_src (key : dp_ct_key) : xfk → xfk := λ '(xi, xkey, xxi),
  let xkey := xkey <| k_v6 := nv6 xi |> <| k_daddr := nat_xip xi |> in
  let '(xkey, xxi) :=
    if negb (DP_XADDR_ISZR (nat_rip xi))
    then (xkey <| k_saddr := nat_rip xi |>, xxi <| nat_rip := k_daddr key |>)
    else (xkey, xxi) in
  let '(xi, xkey) :=
    if negb (k_l4proto key =? IPPROTO_ICMP) then
      if negb (nat_xport xi =? 0) then (xi, xkey <| k_dport := nat_xport xi |>)
      else (xi <| nat_xport := k_sport key |>, xkey)
    else (xi, xkey) in
  let xxi := xxi <| nat_flags := LLB_NAT_DST |> <| nv6 := k_v6 key |>
                 <| nat_xip := k_saddr key |> in
  let xxi := if negb (k_l4proto key =? IPPROTO_ICMP)
             then xxi <| nat_xport := k_sport key |> else xxi in
  (xi, xkey, xxi).

Definition xfk_nat_hdst (key : dp_ct_key) : xfk → xfk := λ '(xi, xkey, xxi),
  let xkey := xkey <| k_saddr := k_saddr key |> <| k_daddr := k_daddr key |> in
  let '(xi, xkey) :=
    if negb (k_l4proto key =? IPPROTO_ICMP) then
      if negb (nat_xport xi =? 0) then (xi, xkey <| k_sport := nat_xport xi |>)
      else (xi <| nat_xport := k_dport key |>, xkey)
    else (xi, xkey) in
  let xxi := xxi <| nat_flags := LLB_NAT_HSRC |> <| nv6 := k_v6 key |>
                 <| nat_xip := DP_XADDR_ZR |> in
  let xi := xi <| nat_xip := DP_XADDR_ZR |> in
  let xxi := if negb (k_l4proto key =? IPPROTO_ICMP)
             then xxi <| nat_xport := k_dport key |> else xxi in
  (xi, xkey, xxi).

Definition xfk_nat_hsrc (key : dp_ct_key) : xfk → xfk := λ '(xi, xkey, xxi),
  let xkey := xkey <| k_saddr := k_saddr key |> <| k_daddr := k_daddr key |> in
  let '(xi, xkey) :=
    if negb (k_l4proto key =? IPPROTO_ICMP) then
      if negb (nat_xport xi =? 0) then (xi, xkey <| k_dport := nat_xport xi |>)
      else (xi <| nat_xport := k_sport key |>, xkey)
    else (xi, xkey) in
  let xxi := xxi <| nat_flags := LLB_NAT_HDST |> <| nv6 := k_v6 key |>
                 <| nat_xip := DP_XADDR_ZR |> in
  let xi := xi <| nat_xip := DP_XADDR_ZR |> in
  let xxi := if negb (k_l4proto key =? IPPROTO_ICMP)
             then xxi <| nat_xport := k_sport key |> else xxi in
  (xi, xkey, xxi).

(** [if (xi->nat_flags & flag) { ... }] *)
Definition xfk_on (flag : Z) (f : xfk → xfk) (a : xfk) : xfk :=
  let '(xi, _, _) := a in if has_flag (nat_flags xi) flag then f a else a.

Definition dp_ct_proto_xfk_init (key : dp_ct_key) (xi xxi : nxfrm_inf) : xfk :=
  let xkey := CtKey (k_saddr key) (k_daddr key) (k_dport key) (k_sport key)
                    (k_zone key) (k_l4proto key) (k_v6 key) in
  if negb (dsr xi =? 0) then
    let xxi :=
      if has_flag (nat_flags xi) LLB_NAT_DST
      then xxi <| nat_flags := LLB_NAT_SRC |> <| nat_xip := k_daddr key |>
               <| nat_xport := k_dport key |> <| nv6 := nv6 xi |>
      else xxi in
    (xi, xkey, xxi <| dsr := dsr xi |>)
  else
    xfk_on LLB_NAT_HSRC (xfk_nat_hsrc key)
      (xfk_on LLB_NAT_HDST (xfk_nat_hdst key)
        (xfk_on LLB_NAT_SRC (xfk_nat_src key)
          (xfk_on LLB_NAT_DST (xfk_nat_dst key) (xi, xkey, xxi)))).

(** ** The three-packet state machine *)

(** [dp_ct3_sm]: the return value and the new [tdat->pi.l3i.state]; [None]
    for the state is the early [return -1]. *)
Definition CT_STATE_NONE : Z := 0x0.
Definition CT_STATE_REQ : Z := 0x1.
Definition CT_STATE_REP : Z := 0x2.
Definition CT_STATE_EST : Z := 0x4.

Definition dp_ct3_sm (dir : ct_dir) : func dp_ct_dat Z := run (
  let! state := gets (λ d, l3i_state (d_pi d)) in
  let! new_state :=
    (if state =? CT_STATE_NONE then
       if decide (dir = CT_DIR_IN) then ret CT_STATE_REQ else return_ (-1)
     else if state =? CT_STATE_REQ then
       ret (if decide (dir = CT_DIR_OUT) then CT_STATE_REP else state)
     else if state =? CT_STATE_REP then
       ret (if decide (dir = CT_DIR_IN) then CT_STATE_EST else state)
     else ret state) in
  modify (λ d, d <| d_pi; l3i_state := new_state |>) ;;
  return_if (new_state =? CT_STATE_EST) 1 ;;
  ret 0).

(** ** TCP *)

(** [tcp_flags & m] compared with [m]. *)
Definition all_flags (x m : Z) : bool := Z.land x m =? m.

Section tcp.
Context (is_dsr : bool) (tcp_flags seq ack : Z) (dir : ct_dir).

(** [td->seq = seq] *)
Definition td_set_seq : body ct_tcp_pinf Z unit :=
  modify (λ ts, ts <| tcp_cts ::= upd_dir dir (λ d, d <| td_seq := seq |>) |>).
Definition td : body ct_tcp_pinf Z ct_tcp_pinfd := gets (λ ts, at_dir dir (tcp_cts ts)).
Definition rtd : body ct_tcp_pinf Z ct_tcp_pinfd :=
  gets (λ ts, at_dir (rev_dir dir) (tcp_cts ts)).

Definition tcp_closed : body ct_tcp_pinf Z Z :=
  return_if is_dsr CT_TCP_EST ;;
  (if has_flag tcp_flags LLB_TCP_ACK then
     td_set_seq ;;
     let! d := td in
     let! r := rtd in
     when (negb (init_acks d =? 0))
       (return_if (u32 (td_seq r + 2) <? ack) CT_TCP_ERR) ;;
     modify (λ ts, ts <| tcp_cts ::=
       upd_dir dir (λ d, d <| init_acks ::= λ n, u16 (n + 1) |>) |>) ;;
     let! d := td in
     let! r := rtd in
     (if (CT_TCP_INIT_ACK_THRESHOLD <=? init_acks d) &&
         (CT_TCP_INIT_ACK_THRESHOLD <=? init_acks r)
      then ret CT_TCP_EST
      else return_ CT_TCP_ERR)
   else
     return_if (negb (all_flags tcp_flags LLB_TCP_SYN)) CT_TCP_ERR ;;
     return_if (negb (ack =? 0) && bool_decide (dir ≠ CT_DIR_IN)) CT_TCP_ERR ;;
     td_set_seq ;;
     ret CT_TCP_SS).

Definition tcp_ss : body ct_tcp_pinf Z Z :=
  when (bool_decide (dir ≠ CT_DIR_OUT))
    (if all_flags tcp_flags LLB_TCP_SYN
     then td_set_seq ;; return_ CT_TCP_SS
     else return_ CT_TCP_ERR) ;;
  return_if (negb (all_flags tcp_flags (Z.lor LLB_TCP_SYN LLB_TCP_ACK))) CT_TCP_ERR ;;
  let! r := rtd in
  return_if (negb (ack =? u32 (td_seq r + 1))) CT_TCP_ERR ;;
  td_set_seq ;;
  ret CT_TCP_SA.

Definition tcp_sa : body ct_tcp_pinf Z Z :=
  when (bool_decide (dir ≠ CT_DIR_IN))
    (return_if (negb (all_flags tcp_flags (Z.lor LLB_TCP_SYN LLB_TCP_ACK))) CT_TCP_ERR ;;
     let! r := rtd in
     return_if (negb (ack =? u32 (td_seq r + 1))) CT_TCP_ERR ;;
     return_ CT_TCP_SA) ;;
  when (all_flags tcp_flags LLB_TCP_SYN)
    (td_set_seq ;; return_ CT_TCP_SS) ;;
  return_if (negb (all_flags tcp_flags LLB_TCP_ACK)) CT_TCP_ERR ;;
  let! r := rtd in
  return_if (negb (ack =? u32 (td_seq r + 1))) CT_TCP_ERR ;;
  td_set_seq ;;
  ret CT_TCP_EST.

Definition tcp_est : body ct_tcp_pinf Z Z :=
  if has_flag tcp_flags LLB_TCP_FIN then
    modify (λ ts, ts <| t_fndir := dir |>) ;;
    td_set_seq ;;
    ret CT_TCP_FINI
  else ret CT_TCP_EST.

(** The initial [nstate] is 0: it is what a [break] without an assignment
    leaves. *)
Definition tcp_fini : body ct_tcp_pinf Z Z :=
  let! fndir := gets t_fndir in
  let! r := rtd in
  if decide (fndir ≠ dir) then
    if all_flags tcp_flags (Z.lor LLB_TCP_FIN LLB_TCP_ACK) then
      return_if (negb (ack =? u32 (td_seq r + 1))) CT_TCP_ERR ;;
      td_set_seq ;;
      ret CT_TCP_FINI3
    else if has_flag tcp_flags LLB_TCP_ACK then
      return_if (negb (ack =? u32 (td_seq r + 1))) CT_TCP_ERR ;;
      td_set_seq ;;
      ret CT_TCP_FINI2
    else ret 0
  else ret 0.

Definition tcp_fini2 : body ct_tcp_pinf Z Z :=
  let! fndir := gets t_fndir in
  if decide (fndir ≠ dir) then
    if has_flag tcp_flags LLB_TCP_FIN then td_set_seq ;; ret CT_TCP_FINI3
    else ret 0
  else ret 0.

Definition tcp_fini3 : body ct_tcp_pinf Z Z :=
  let! fndir := gets t_fndir in
  let! r := rtd in
  if decide (fndir = dir) then
    if has_flag tcp_flags LLB_TCP_ACK then
      return_if (negb (ack =? u32 (td_seq r + 1))) CT_TCP_ERR ;;
      ret CT_TCP_CW
    else ret 0
  else ret 0.

(** From [if (tcp_flags & LLB_TCP_RST)] to the label [end]. *)
Definition tcp_switch : func ct_tcp_pinf Z := run (
  return_if (has_flag tcp_flags LLB_TCP_RST) CT_TCP_CW ;;
  let! state := gets t_state in
  if state =? CT_TCP_CLOSED then tcp_closed
  else if state =? CT_TCP_SS then tcp_ss
  else if state =? CT_TCP_SA then tcp_sa
  else if state =? CT_TCP_EST then tcp_est
  else if state =? CT_TCP_FINI then tcp_fini
  else if state =? CT_TCP_FINI2 then tcp_fini2
  else if state =? CT_TCP_FINI3 then tcp_fini3
  else ret 0).
End tcp.

(** The [return] after [end]. *)
Definition tcp_smr (nstate : Z) : Z :=
  if nstate =? CT_TCP_EST then CT_SMR_EST
  else if has_flag nstate CT_TCP_CW then CT_SMR_CTD
  else if has_flag nstate CT_TCP_ERR then CT_SMR_ERR
  else if has_flag nstate CT_TCP_FIN_MASK then CT_SMR_FIN
  else CT_SMR_INPROG.

Section machines.
Context {K : Type} `{LoxiEnv K}.

(** [tdat->pb.bytes += xf->pm.l3_len; tdat->pb.packets += 1;] *)
Definition count_pkt {R} (k : dp_ct_key) : body (lstate K) R unit :=
  let! len := gets (λ s, l3_len (pm (xf s))) in
  ct_write k (λ a, a <| ctd; d_pb; bytes ::= λ n, u64 (n + len) |>
                     <| ctd; d_pb; packets ::= λ n, u64 (n + 1) |>).

(** A [switch] run on the protocol data of entry [t]. *)
Definition on_tcp {R} (t : dp_ct_key) (f : func ct_tcp_pinf Z) : body (lstate K) R Z :=
  let! a := ct_read t in
  match f (pi_t (d_pi (ctd a))) with
  | Some (nstate, ts) => ct_write t (λ a, a <| ctd; d_pi; pi_t := ts |>) ;; ret nstate
  | None => fault
  end.

Definition set_tcp_state (nstate : Z) (a : dp_ct_tact) : dp_ct_tact :=
  a <| ctd; d_pi; pi_t; t_state := nstate |>.
(** [pi.t.tcp_cts[0]] *)
Definition upd_tcp_cts0 (f : ct_tcp_pinfd → ct_tcp_pinfd) (a : dp_ct_tact) : dp_ct_tact :=
  a <| ctd; d_pi; pi_t; tcp_cts ::= upd_dir CT_DIR_IN f |>.

Definition dp_ct_tcp_sm (t x : dp_ct_key) (dir : ct_dir) : func (lstate K) Z := run (
  let! m := gets xf in
  let off := l4_off (pm m) in
  let! oob := past_end (off + sizeof_tcphdr) in
  when oob (LLBS_PPLN_DROP ;; return_ (-1)) ;;
  let! seq_be := load32 (off + tcp_seq) in
  let! ack_be := load32 (off + tcp_ack_seq) in
  let seq := bpf_ntohl seq_be in
  let ack := bpf_ntohl ack_be in
  let own := if decide (dir = CT_DIR_IN) then t else x in
  ct_write own (upd_tcp_cts0 (λ d, d <| pseq := seq_be |> <| pack := ack_be |>)) ;;
  count_pkt own ;;
  let! nstate := on_tcp t (tcp_switch (negb (nm_dsr (nm m) =? 0))
                             (tcp_flags (pm m)) seq ack dir) in
  ct_write t (set_tcp_state nstate) ;;
  ct_write x (set_tcp_state nstate) ;;
  when (negb (nstate =? CT_TCP_ERR) && bool_decide (dir = CT_DIR_OUT))
    (ct_write x (upd_tcp_cts0 (λ d, d <| td_seq := seq |>))) ;;
  ret (tcp_smr nstate)).

(** ** UDP *)

Definition upd_udp (f : ct_udp_pinf → ct_udp_pinf) (a : dp_ct_tact) : dp_ct_tact :=
  a <| ctd; d_pi; pi_u ::= f |>.

(** The [switch (us->state)], from the initial [nstate = us->state]. *)
Definition udp_switch (is_dsr : bool) (nstate : Z) (us : ct_udp_pinf) : Z :=
  if u_state us =? CT_UDP_CNI then
    if is_dsr then CT_UDP_EST
    else if negb (pkts_seen us =? 0) && negb (rpkts_seen us =? 0) then CT_UDP_EST
    else if CT_UDP_CONN_THRESHOLD <? pkts_seen us then CT_UDP_UEST
    else nstate
  else if u_state us =? CT_UDP_UEST then
    if negb (rpkts_seen us =? 0) then CT_UDP_EST else nstate
  else nstate.

Definition dp_ct_udp_sm (t x : dp_ct_key) (dir : ct_dir) : func (lstate K) Z := run (
  let! m := gets xf in
  let! a := ct_read t in
  let nstate := u_state (pi_u (d_pi (ctd a))) in
  (if decide (dir = CT_DIR_IN) then
     count_pkt t ;;
     ct_write t (upd_udp (λ u, u <| pkts_seen ::= λ n, u16 (n + 1) |>))
   else
     count_pkt x ;;
     ct_write t (upd_udp (λ u, u <| rpkts_seen ::= λ n, u16 (n + 1) |>))) ;;
  let! a := ct_read t in
  let nstate := udp_switch (negb (nm_dsr (nm m) =? 0)) nstate (pi_u (d_pi (ctd a))) in
  ct_write t (upd_udp (λ u, u <| u_state := u16 nstate |>)) ;;
  ct_write x (upd_udp (λ u, u <| u_state := u16 nstate |>)) ;;
  return_if (nstate =? CT_UDP_UEST) CT_SMR_UEST ;;
  return_if (nstate =? CT_UDP_EST) CT_SMR_EST ;;
  ret CT_SMR_INPROG).

(** ** ICMP and ICMPv6 *)

Definition upd_icmp (f : ct_icmp_pinf → ct_icmp_pinf) (a : dp_ct_tact) : dp_ct_tact :=
  a <| ctd; d_pi; pi_i ::= f |>.

(** [is->state |= flag; goto end;] *)
Definition icmp_mark {A} (flag nstate : Z) : body ct_icmp_pinf Z A :=
  modify (λ i, i <| i_state ::= λ s, u8 (Z.lor s flag) |>) ;; return_ nstate.

(** The [switch (is->state)] for an echo message, the same in both machines. *)
Definition icmp_echo_switch (is_dsr : bool) (type seq request reply nstate : Z) :
    body ct_icmp_pinf Z Z :=
  let! i := gets id in
  if i_state i =? CT_ICMP_CLOSED then
    return_if is_dsr CT_ICMP_REPS ;;
    when (negb (type =? request))
      (modify (λ i, i <| errs := 1 |>) ;; return_ nstate) ;;
    modify (λ i, i <| lseq := seq |>) ;;
    ret CT_ICMP_REQS
  else if i_state i =? CT_ICMP_REQS then
    if type =? request then modify (λ i, i <| lseq := seq |>) ;; ret nstate
    else if type =? reply then
      when (negb (lseq i =? seq))
        (modify (λ i, i <| errs := 1 |>) ;; return_ nstate) ;;
      modify (λ i, i <| lseq := seq |>) ;;
      ret CT_ICMP_REPS
    else ret nstate
  else ret nstate.

(** From [nstate = is->state] to the label [end]. *)
Definition icmp_switch (is_dsr : bool) (type seq : Z) : func ct_icmp_pinf Z := run (
  let! nstate := gets i_state in
  if type =? ICMP_DEST_UNREACH then icmp_mark CT_ICMP_DUNR nstate
  else if type =? ICMP_TIME_EXCEEDED then icmp_mark CT_ICMP_TTL nstate
  else if type =? ICMP_REDIRECT then icmp_mark CT_ICMP_RDR nstate
  else if (type =? ICMP_ECHOREPLY) || (type =? ICMP_ECHO)
  then icmp_echo_switch is_dsr type seq ICMP_ECHO ICMP_ECHOREPLY nstate
  else icmp_mark CT_ICMP_UNK nstate).

Definition icmp6_switch (is_dsr : bool) (type seq : Z) : func ct_icmp_pinf Z := run (
  let! nstate := gets i_state in
  if type =? ICMPV6_DEST_UNREACH then icmp_mark CT_ICMP_DUNR nstate
  else if type =? ICMPV6_TIME_EXCEED then icmp_mark CT_ICMP_TTL nstate
  else if (type =? ICMPV6_ECHO_REPLY) || (type =? ICMPV6_ECHO_REQUEST)
  then icmp_echo_switch is_dsr type seq ICMPV6_ECHO_REQUEST ICMPV6_ECHO_REPLY nstate
  else icmp_mark CT_ICMP_UNK nstate).

Definition on_icmp {R} (t : dp_ct_key) (f : func ct_icmp_pinf Z) : body (lstate K) R Z :=
  let! a := ct_read t in
  match f (pi_i (d_pi (ctd a))) with
  | Some (nstate, i) => ct_write t (upd_icmp (λ _, i)) ;; ret nstate
  | None => fault
  end.

(** The two machines differ in the [switch] on the message type only. *)
Definition icmp_sm (switch : bool → Z → Z → func ct_icmp_pinf Z)
    (t x : dp_ct_key) (dir : ct_dir) : func (lstate K) Z := run (
  let! m := gets xf in
  let off := l4_off (pm m) in
  let! oob := past_end (off + sizeof_icmphdr) in
  when oob (LLBS_PPLN_DROP ;; return_ (-1)) ;;
  let! seq_be := load16 (off + icmp_echo_sequence) in
  let seq := bpf_ntohs seq_be in
  count_pkt (if decide (dir = CT_DIR_IN) then t else x) ;;
  let! type := load8 off in
  let! nstate := on_icmp t (switch (negb (nm_dsr (nm m) =? 0)) type seq) in
  ct_write t (upd_icmp (λ i, i <| i_state := u8 nstate |>)) ;;
  ct_write x (upd_icmp (λ i, i <| i_state := u8 nstate |>)) ;;
  return_if (nstate =? CT_ICMP_REPS) CT_SMR_EST ;;
  ret CT_SMR_INPROG).

Definition dp_ct_icmp_sm := icmp_sm icmp_switch.
Definition dp_ct_icmp6_sm := icmp_sm icmp6_switch.

(** ** SCTP *)

Definition upd_sctp (f : ct_sctp_pinf → ct_sctp_pinf) (a : dp_ct_tact) : dp_ct_tact :=
  a <| ctd; d_pi; pi_s ::= f |>.
Definition sctp_get {R} (t : dp_ct_key) : body (lstate K) R ct_sctp_pinf :=
  let! a := ct_read t in ret (pi_s (d_pi (ctd a))).

(** [if (p + 1 > dend) { LLBS_PPLN_DROP(xf); goto end; }] *)
Definition sctp_bound (e nstate : Z) : body (lstate K) Z unit :=
  let! oob := past_end e in
  when oob (LLBS_PPLN_DROP ;; return_ nstate).

(** From the first [switch] to the label [end]; [s] and [c] are the offsets of
    the common header and of the first chunk.  A [goto end] is a [return_]. *)
Section sctp.
Context (is_dsr : bool) (t : dp_ct_key) (dir : ct_dir) (s c type nstate : Z).
Abbreviation is_in := (bool_decide (dir = CT_DIR_IN)).
Abbreviation is_out := (bool_decide (dir = CT_DIR_OUT)).
Let ic := c + sizeof_sctp_dch.

Definition sctp_closed : body (lstate K) Z Z :=
  return_if is_dsr CT_SCTP_EST ;;
  return_if (negb (type =? SCTP_INIT_CHUNK) && negb is_in) CT_SCTP_ERR ;;
  sctp_bound (ic + sizeof_sctp_init_ch) nstate ;;
  let! tag := load32 ic in
  ct_write t (upd_sctp (λ d, d <| itag := tag |>)) ;;
  ret CT_SCTP_INIT.

Definition sctp_init : body (lstate K) Z Z :=
  return_if ((negb (type =? SCTP_INIT_CHUNK) && negb is_in) &&
             (negb (type =? SCTP_INIT_CHUNK_ACK) && negb is_out)) CT_SCTP_ERR ;;
  sctp_bound (ic + sizeof_sctp_init_ch) nstate ;;
  let! tag := load32 ic in
  if type =? SCTP_INIT_CHUNK then
    ct_write t (upd_sctp (λ d, d <| itag := tag |> <| otag := 0 |>)) ;;
    ret CT_SCTP_INIT
  else
    let! vtag := load32 (s + sctp_vtag) in
    let! ss := sctp_get t in
    return_if (negb (vtag =? itag ss)) CT_SCTP_ERR ;;
    ct_write t (upd_sctp (λ d, d <| otag := tag |>)) ;;
    ret CT_SCTP_INITA.

Definition sctp_inita : body (lstate K) Z Z :=
  return_if ((negb (type =? SCTP_INIT_CHUNK) && negb is_in) &&
             (negb (type =? SCTP_COOKIE_ECHO) && negb is_in)) CT_SCTP_ERR ;;
  when (type =? SCTP_INIT_CHUNK)
    (sctp_bound (ic + sizeof_sctp_init_ch) nstate ;;
     let! tag := load32 ic in
     ct_write t (upd_sctp (λ d, d <| itag := tag |> <| otag := 0 |>)) ;;
     return_ CT_SCTP_INIT) ;;
  sctp_bound (ic + sizeof_sctp_cookie) nstate ;;
  let! vtag := load32 (s + sctp_vtag) in
  let! ss := sctp_get t in
  return_if (negb (otag ss =? vtag)) CT_SCTP_ERR ;;
  let! ck := load32 ic in
  ct_write t (upd_sctp (λ d, d <| cookie := ck |>)) ;;
  ret CT_SCTP_COOKIE.

Definition sctp_cookie_st : body (lstate K) Z Z :=
  return_if (negb (type =? SCTP_COOKIE_ACK) && negb is_out) CT_SCTP_ERR ;;
  let! vtag := load32 (s + sctp_vtag) in
  let! ss := sctp_get t in
  return_if (negb (itag ss =? vtag)) CT_SCTP_ERR ;;
  ret CT_SCTP_COOKIEA.

Definition sctp_switch : func (lstate K) Z := run (
  return_if (type =? SCTP_ERROR) CT_SCTP_ERR ;;
  return_if (type =? SCTP_SHUT) CT_SCTP_SHUT ;;
  return_if (type =? SCTP_ABORT) CT_SCTP_ABRT ;;
  let! ss := sctp_get t in
  let state := s_state ss in
  if state =? CT_SCTP_CLOSED then sctp_closed
  else if state =? CT_SCTP_INIT then sctp_init
  else if state =? CT_SCTP_INITA then sctp_inita
  else if state =? CT_SCTP_COOKIE then sctp_cookie_st
  else if state =? CT_SCTP_COOKIEA then ret CT_SCTP_EST
  else if state =? CT_SCTP_ABRT then ret CT_SCTP_ABRT
  else if state =? CT_SCTP_SHUT then
    return_if (negb (type =? SCTP_SHUT_ACK) && negb is_out) CT_SCTP_ERR ;;
    ret CT_SCTP_SHUTA
  else if state =? CT_SCTP_SHUTA then
    return_if (negb (type =? SCTP_SHUT_COMPLETE) && negb is_in) CT_SCTP_ERR ;;
    ret CT_SCTP_SHUTC
  else ret nstate).
End sctp.

Definition sctp_smr (nstate : Z) : Z :=
  if nstate =? CT_SCTP_COOKIEA then CT_SMR_EST
  else if has_flag nstate CT_SCTP_SHUTC then CT_SMR_CTD
  else if has_flag nstate CT_SCTP_ERR then CT_SMR_ERR
  else if has_flag nstate CT_SCTP_FIN_MASK then CT_SMR_FIN
  else CT_SMR_INPROG.

Definition dp_ct_sctp_sm (t x : dp_ct_key) (dir : ct_dir) : func (lstate K) Z := run (
  let! m := gets xf in
  let s := l4_off (pm m) in
  let! oob := past_end (s + sizeof_sctphdr) in
  when oob (LLBS_PPLN_DROP ;; return_ (-1)) ;;
  let c := s + sizeof_sctphdr in
  let! oob := past_end (c + sizeof_sctp_dch) in
  when oob (LLBS_PPLN_DROP ;; return_ (-1)) ;;
  let! ss := sctp_get t in
  let! type := load8 c in
  let! nstate := call (sctp_switch (negb (nm_dsr (nm m) =? 0)) t dir s c type (s_state ss)) in
  ct_write t (upd_sctp (λ d, d <| s_state := nstate |>)) ;;
  ct_write x (upd_sctp (λ d, d <| s_state := nstate |>)) ;;
  ret (sctp_smr nstate)).

(** ** Dispatch on the protocol *)

Definition dp_ct_sm (t x : dp_ct_key) (dir : ct_dir) : func (lstate K) Z := run (
  let! m := gets xf in
  when (l4_off (pm m) =? 0)
    (ct_write t (λ a, a <| ctd; d_pi; frag := 1 |>) ;; return_ CT_SMR_UNT) ;;
  ct_write t (λ a, a <| ctd; d_pi; frag := 0 |>) ;;
  let proto := nw_proto (l34m m) in
  if proto =? IPPROTO_TCP then call (dp_ct_tcp_sm t x dir)
  else if proto =? IPPROTO_UDP then call (dp_ct_udp_sm t x dir)
  else if proto =? IPPROTO_ICMP then call (dp_ct_icmp_sm t x dir)
  else if proto =? IPPROTO_SCTP then call (dp_ct_sctp_sm t x dir)
  else if proto =? IPPROTO_ICMPV6 then call (dp_ct_icmp6_sm t x dir)
  else ret CT_SMR_UNT).

(** ** The tracker *)

Definition dp_run_ctact_helper (m : xfi) (a : dp_ct_tact) : dp_ct_tact :=
  let at_ := act_type (ca a) in
  if (at_ =? DP_SET_NOP) || (at_ =? DP_SET_SNAT) || (at_ =? DP_SET_DNAT)
  then upd_tcp_cts0 (λ d, d <| pseq := m_seq (l34m m) |> <| pack := m_ack (l34m m) |>) a
  else a.

Definition dp_run_ct_helper : func (lstate K) Z := run (
  let! m := gets xf in
  let key := CT_KEY_GEN m in
  let! act := ct_lookup key in
  let! _ := or_return act (-1) in
  ct_write key (dp_run_ctact_helper m) ;;
  ret 0).

Definition dp_ct_get_newctr : func (lstate K) Z := run (
  let! o := gets ct_ctr in
  let! ctr := or_return o 0 in
  let v := ctr_counter ctr in
  let ctr := ctr <| ctr_counter ::= λ n, u32 (n + 2) |> in
  let ctr := if ctr_entries ctr <=? ctr_counter ctr
             then ctr <| ctr_counter := ctr_start ctr |> else ctr in
  modify (λ s, s <| ct_ctr := Some ctr |>) ;;
  ret v).

(** The [ct_in] blocks below are [dp_ct_in] in order. *)

(** The transformations before [dp_ct_proto_xfk_init]: [*xi] and [*xxi] as
    left in the scratch entries, updated from the metadata. *)
Definition ct_in_xi (m : xfi) (xi : nxfrm_inf) : nxfrm_inf :=
  let xi := xi <| nat_flags := nf (pm m) |> <| nat_xip := nm_nxip (nm m) |>
               <| nat_rip := nm_nrip (nm m) |> <| nat_xport := nm_nxport (nm m) |>
               <| nv6 := nm_nv6 (nm m) |> <| dsr := nm_dsr (nm m) |> in
  if has_flag (nf (pm m)) (Z.lor LLB_NAT_DST LLB_NAT_SRC) && DP_XADDR_ISZR (nat_xip xi) then
    if nf (pm m) =? LLB_NAT_DST then xi <| nat_flags := LLB_NAT_HDST |>
    else if nf (pm m) =? LLB_NAT_SRC then xi <| nat_flags := LLB_NAT_HSRC |>
    else xi
  else xi.
Definition ct_in_xxi (xxi : nxfrm_inf) : nxfrm_inf :=
  xxi <| nat_flags := 0 |> <| nat_xport := 0 |> <| nat_xip := DP_XADDR_ZR |>
      <| nat_rip := DP_XADDR_ZR |>.

(** The action of a new entry with transformation [xi]: [nv6'] is the value
    given to [nat_act.nv6]. *)
Definition ct_in_act (m : xfi) (xi : nxfrm_inf) (nv6' : Z) (a : dp_ct_tact) : dp_ct_tact :=
  if negb (nat_flags xi =? 0) then
    a <| ca; act_type := if has_flag (nat_flags xi) (Z.lor LLB_NAT_DST LLB_NAT_HDST)
                         then DP_SET_DNAT else DP_SET_SNAT |>
      <| nat_act; na_xip := nat_xip xi |>
      <| nat_act; na_rip := nat_rip xi |>
      <| nat_act; na_xport := nat_xport xi |>
      <| nat_act; na_doct := 1 |>
      <| nat_act; na_rid := rule_id (pm m) |>
      <| nat_act; na_aid := sel_aid (nm m) |>
      <| nat_act; na_nv6 := if negb (nv6' =? 0) then 1 else 0 |>
      <| nat_act; na_dsr := nm_dsr (nm m) |>
      <| ito := nm_ito (nm m) |>
  else a <| ito := 0 |> <| ca; act_type := DP_SET_DO_CT |>.

(** What both new entries start from. *)
Definition ct_in_common (m : xfi) (ctr : Z) (a : dp_ct_tact) : dp_ct_tact :=
  a <| ca; ftrap := 0 |> <| ca; oaux := 0 |> <| ca; cidx := ctr |>
    <| ca; fwrid := fw_rid (pm m) |> <| ca; record := dp_rec (pm m) |>
    <| ctd; d_pi := pinf_zero |>.

(** [if (atdat == NULL || axtdat == NULL) { ... }] up to the updates: the new
    contents of the scratch entries. *)
Definition ct_in_adat (m : xfi) (ctr : Z) (adat : dp_ct_tact) : dp_ct_tact :=
  ct_in_act m (d_xi (ctd adat)) (nm_nv6 (nm m)) (ct_in_common m ctr adat)
    <| ctd; d_dir := CT_DIR_IN |> <| ctd; d_rid := rule_id (pm m) |>
    <| ctd; d_aid := sel_aid (nm m) |> <| ctd; d_smr := CT_SMR_INIT |>.
Definition ct_in_axdat (m : xfi) (key : dp_ct_key) (adat axdat : dp_ct_tact) : dp_ct_tact :=
  ct_in_act m (d_xi (ctd axdat)) (k_v6 key)
      (ct_in_common m (u32 (cidx (ca adat) + 1)) axdat)
    <| lts := lts adat |> <| ctd; d_dir := CT_DIR_OUT |> <| ctd; d_smr := CT_SMR_INIT |>
    <| ctd; d_rid := d_rid (ctd adat) |> <| ctd; d_aid := d_aid (ctd adat) |>.

Definition ct_in_new (m : xfi) (key xkey : dp_ct_key) : func (lstate K) Z := run (
  let! ctr := call dp_ct_get_newctr in
  modify (λ s, s <| xctk_0 ::= ct_in_adat m ctr |>) ;;
  let! adat := gets xctk_0 in
  modify (λ s, s <| xctk_1 ::= ct_in_axdat m key adat |>) ;;
  let! axdat := gets xctk_1 in
  ct_update xkey axdat ;;
  ct_update key adat ;;
  ret 0).

(** [if (atdat != NULL && axtdat != NULL) { ... }] *)
Definition ct_in_track (m : xfi) (key xkey : dp_ct_key) : func (lstate K) Z := run (
  let! now := ktime_ns in
  ct_write key (λ a, a <| lts := now |>) ;;
  let! a := ct_read key in
  ct_write xkey (λ b, b <| lts := lts a |>) ;;
  let! smr :=
    (if decide (d_dir (ctd a) = CT_DIR_IN)
     then call (dp_ct_sm key xkey CT_DIR_IN)
     else call (dp_ct_sm xkey key CT_DIR_OUT)) in
  (if smr =? CT_SMR_EST then
     let! adat := gets xctk_0 in
     if negb (nat_flags (d_xi (ctd adat)) =? 0) then
       ct_write key (λ a, a <| nat_act; na_doct := 0 |>) ;;
       ct_write xkey (λ a, a <| nat_act; na_doct := 0 |>)
     else
       ct_write key (λ a, a <| ca; act_type := DP_SET_NOP |>) ;;
       ct_write xkey (λ a, a <| ca; act_type := DP_SET_NOP |>)
   else when ((smr =? CT_SMR_ERR) || (smr =? CT_SMR_CTD))
     (ct_delete xkey ;; ct_delete key)) ;;
  ret smr).

Definition is_tracked_proto (p : Z) : bool :=
  (p =? IPPROTO_TCP) || (p =? IPPROTO_UDP) || (p =? IPPROTO_ICMP) ||
  (p =? IPPROTO_SCTP) || (p =? IPPROTO_ICMPV6).

Definition dp_ct_in : func (lstate K) Z := run (
  let! m := gets xf in
  let key := CT_KEY_GEN m in
  return_if (negb (is_tracked_proto (k_l4proto key))) 0 ;;
  modify (λ s, s <| xctk_0; ctd; d_xi ::= ct_in_xi m |>
                 <| xctk_1; ctd; d_xi ::= ct_in_xxi |>) ;;
  let! adat := gets xctk_0 in
  let! axdat := gets xctk_1 in
  let '(xi, xkey, xxi) :=
    dp_ct_proto_xfk_init key (d_xi (ctd adat)) (d_xi (ctd axdat)) in
  modify (λ s, s <| xctk_0; ctd; d_xi := xi |> <| xctk_1; ctd; d_xi := xxi |>) ;;
  let! atdat := ct_lookup key in
  let! axtdat := ct_lookup xkey in
  (match atdat, axtdat with
   | Some _, Some _ => ret 0
   | _, _ => call (ct_in_new m key xkey)
   end) ;;
  let! atdat := ct_lookup key in
  let! axtdat := ct_lookup xkey in
  match atdat, axtdat with
  | Some _, Some _ => call (ct_in_track m key xkey)
  | _, _ => ret CT_SMR_ERR
  end).
End machines.
