(* ===== verification/LoxiCtFrame.v ===== *)
(** * loxilb: what a connection-tracking state machine may change

    Every state machine of [LoxiCt] has a result when the entries of both
    directions are in the table.  It changes the protocol data and the counters
    of these two entries, in the member of the [ct_pinf_t] union that belongs
    to the protocol of the packet, and may mark the packet to be dropped;
    nothing else. *)
From S2P Require Import Prelude Records Words Consts LoxiDefs LoxiTables LoxiState LoxiCt.
Open Scope c_scope.

(** The union [ct_pinf_t] of a flow of protocol [p] is only used through the
    member of [p]: the others are still zero. *)
Definition union_member (p : Z) (d : ct_pinf) : Prop :=
  (p ≠ IPPROTO_TCP → pi_t d = tcp_zero) ∧
  (p ≠ IPPROTO_UDP → pi_u d = udp_zero) ∧
  (p ≠ IPPROTO_ICMP → p ≠ IPPROTO_ICMPV6 → pi_i d = icmp_zero) ∧
  (p ≠ IPPROTO_SCTP → pi_s d = sctp_zero).

Lemma union_member_zero p : union_member p pinf_zero.
Proof. by repeat split. Qed.

(** One entry, before and after. *)
Definition entry_step (p : Z) (a b : dp_ct_tact) : Prop :=
  b = a <| ctd; d_pi := d_pi (ctd b) |> <| ctd; d_pb := d_pb (ctd b) |> ∧
  (union_member p (d_pi (ctd a)) → union_member p (d_pi (ctd b))).

#[export] Instance entry_step_preorder p : PreOrder (entry_step p).
Proof.
  split.
  - intros [? [] ? ? ? ? ?]. by split.
  - intros [? [] ? ? ? ? ?] [? [] ? ? ? ? ?] [? [] ? ? ? ? ?] [E1 I1] [E2 I2].
    injection E1 as -> -> -> -> -> -> -> -> -> -> ->.
    injection E2 as -> -> -> -> -> -> -> -> -> -> ->. split; [done|auto].
Qed.

(** The whole state: [t] and [x] are the two entries. *)
Definition table_step (p : Z) (t x : dp_ct_key) (m m' : ct_table) : Prop :=
  ∀ k, match m !! k, m' !! k with
       | Some a, Some b => entry_step p a b ∧ (k ≠ t → k ≠ x → b = a)
       | None, None => True
       | _, _ => False
       end.

#[export] Instance table_step_refl p t x : Reflexive (table_step p t x).
Proof. intros m k. destruct (m !! k); [|done]. by split. Qed.

#[export] Instance table_step_trans p t x : Transitive (table_step p t x).
Proof.
  intros m1 m2 m3 H1 H2 k. specialize (H1 k). specialize (H2 k).
  destruct (m1 !! k), (m2 !! k), (m3 !! k); try done.
  destruct H1 as [? H1], H2 as [? H2]. split; [by etrans|].
  intros. by rewrite H2, H1.
Qed.

Definition sm_frame {K} (p : Z) (t x : dp_ct_key) (s0 s : lstate K) : Prop :=
  s = s0 <| ct_map := ct_map s |> <| xf; pm; pipe_act := pipe_act (pm (xf s)) |> ∧
  table_step p t x (ct_map s0) (ct_map s).

Section frame.
Context {K : Type} `{LoxiEnv K}.
Context (p : Z) (t x : dp_ct_key) (s0 : lstate K).
Implicit Types s : lstate K.
Abbreviation frame := (sm_frame p t x s0).

Lemma frame_refl : frame s0.
Proof. split; [|reflexivity]. destruct s0 as [? ? x0]. by destruct x0 as [? ? ? ? ? ? ? ? []]. Qed.

Lemma frame_pkt s : frame s → lpkt s = lpkt s0.
Proof. by intros [-> _]. Qed.
Lemma frame_pkt_len s : frame s → pkt_len s = pkt_len s0.
Proof. intros Hs. unfold pkt_len. simpl. by rewrite (frame_pkt s Hs). Qed.

Lemma frame_entry s k : frame s → is_Some (ct_map s0 !! k) → is_Some (ct_map s !! k).
Proof.
  intros [_ Hm] [a Ha]. specialize (Hm k). rewrite Ha in Hm.
  by destruct (ct_map s !! k); [eexists|].
Qed.

Lemma frame_map s m :
  frame s → table_step p t x (ct_map s) m → frame (s <| ct_map := m |>).
Proof. intros [Hs Hm] Hm'. split; [by rewrite Hs|]. by etrans. Qed.

Lemma frame_drop s a : frame s → frame (s <| xf; pm; pipe_act := a |>).
Proof. intros [Hs Hm]. split; [by rewrite Hs|done]. Qed.

Lemma table_step_alter f (m : ct_table) k :
  k = t ∨ k = x → (∀ a, entry_step p a (f a)) → table_step p t x m (alter f k m).
Proof.
  intros Hk Hf k'. destruct (decide (k' = k)) as [->|Hne].
  - rewrite lookup_alter_eq. destruct (m !! k) as [a|]; simpl; [|done].
    split; [apply Hf|]. intros. by destruct Hk.
  - rewrite lookup_alter_ne by done. destruct (m !! k'); [|done]. by split.
Qed.

Section rules.
Context (Ht : is_Some (ct_map s0 !! t)) (Hx : is_Some (ct_map s0 !! x)).
Context {R : Type}.
Implicit Types QR : R → lstate K → Prop.

Lemma fr_ct_read k QR (QN : dp_ct_tact → lstate K → Prop) s :
  k = t ∨ k = x → frame s → (∀ a, ct_map s !! k = Some a → QN a s) →
  wpb (ct_read k) QR QN s.
Proof.
  intros Hk Hs HQ. apply wp_bind, wp_gets.
  assert (is_Some (ct_map s !! k)) as [a Ha]
    by (apply frame_entry; [done|destruct Hk as [-> | ->]; done]).
  apply wp_or_fault with a; [done|by apply HQ].
Qed.

Lemma fr_ct_write k f QR (QN : unit → lstate K → Prop) s :
  k = t ∨ k = x → frame s → (∀ a, entry_step p a (f a)) →
  (∀ s', frame s' → QN tt s') → wpb (ct_write k f) QR QN s.
Proof.
  intros Hk Hs Hf HQ. apply wp_bind, wp_gets.
  assert (is_Some (ct_map s !! k)) as [a Ha]
    by (apply frame_entry; [done|destruct Hk as [-> | ->]; done]).
  apply wp_bind, wp_or_fault with a; [done|]. apply wp_modify, HQ.
  by apply (frame_map s), table_step_alter.
Qed.

Lemma fr_drop QR (QN : unit → lstate K → Prop) s :
  frame s → (∀ s', frame s' → QN tt s') → wpb LLBS_PPLN_DROP QR QN s.
Proof. intros Hs HQ. apply wp_modify, HQ. by apply (frame_drop s). Qed.

Lemma entry_step_pb f a : entry_step p a (a <| ctd; d_pb ::= f |>).
Proof. by destruct a as [? [] ? ? ?]. Qed.
Lemma entry_step_frag v a : entry_step p a (a <| ctd; d_pi; frag := v |>).
Proof. by destruct a as [? [? ? [] ? ? ? ?] ? ? ?]. Qed.

Lemma fr_count_pkt k QR (QN : unit → lstate K → Prop) s :
  k = t ∨ k = x → frame s → (∀ s', frame s' → QN tt s') →
  wpb (count_pkt k) QR QN s.
Proof.
  intros. apply wp_bind, wp_gets. apply fr_ct_write; [done|done| |done].
  intros a. by destruct a as [? [] ? ? ?].
Qed.

Lemma lfr_load n off QR (QN : Z → lstate K → Prop) s :
  frame s → 0 ≤ off → off + Z.of_nat n ≤ pkt_len s0 → (∀ v, QN v s) →
  wpb (load n off) QR QN s.
Proof.
  intros Hs ? ? HQ. apply wp_load; [done|by rewrite (frame_pkt_len s)|apply HQ].
Qed.
End rules.

Lemma entry_step_tcp f a : p = IPPROTO_TCP → entry_step p a (a <| ctd; d_pi; pi_t ::= f |>).
Proof.
  intros Hp. destruct a as [? [? ? [] ? ? ? ?] ? ? ?]. split; [done|].
  intros (?&?&?&?). by split.
Qed.
Lemma entry_step_udp f a : p = IPPROTO_UDP → entry_step p a (upd_udp f a).
Proof.
  intros Hp. destruct a as [? [? ? [] ? ? ? ?] ? ? ?]. split; [done|].
  intros (?&?&?&?). by repeat split.
Qed.
Lemma entry_step_icmp f a :
  p = IPPROTO_ICMP ∨ p = IPPROTO_ICMPV6 → entry_step p a (upd_icmp f a).
Proof.
  intros Hp. destruct a as [? [? ? [] ? ? ? ?] ? ? ?]. split; [done|].
  intros (?&?&?&?). split; [done|]. split; [done|]. split; [|done]. by destruct Hp.
Qed.
Lemma entry_step_sctp f a : p = IPPROTO_SCTP → entry_step p a (upd_sctp f a).
Proof.
  intros Hp. destruct a as [? [? ? [] ? ? ? ?] ? ? ?]. split; [done|].
  intros (?&?&?&?). by repeat split.
Qed.
End frame.


(** ** The state machines *)

(** The values of [ct_smr_t] a machine returns. *)
Definition smr_ok (r : Z) : Prop :=
  r = CT_SMR_ERR ∨ r = CT_SMR_INPROG ∨ r = CT_SMR_EST ∨ r = CT_SMR_UEST ∨
  r = CT_SMR_FIN ∨ r = CT_SMR_CTD ∨ r = CT_SMR_UNT.

Ltac smr_solve := unfold smr_ok; auto 10.

Lemma tcp_switch_total is_dsr flags seq ack dir ts :
  ∃ n ts', tcp_switch is_dsr flags seq ack dir ts = Some (n, ts').
Proof.
  enough (wpf (tcp_switch is_dsr flags seq ack dir) (λ _ _, True) ts) as Hw.
  { apply wpf_elim in Hw as (n & ts' & -> & _). eauto. }
  unfold tcp_switch, tcp_closed, tcp_ss, tcp_sa, tcp_est, tcp_fini, tcp_fini2,
    tcp_fini3, td_set_seq, td, rtd.
  wp_steps; try done; destruct (decide _); wp_steps; done.
Qed.

Lemma icmp_echo_total is_dsr type seq request reply nstate i :
  wpb (icmp_echo_switch is_dsr type seq request reply nstate) (λ _ _, True) (λ _ _, True) i.
Proof. unfold icmp_echo_switch. wp_steps; done. Qed.

Lemma icmp_switch_total is_dsr type seq i :
  wpf (icmp_switch is_dsr type seq) (λ _ _, True) i.
Proof.
  unfold icmp_switch, icmp_mark. wp_steps; try done. apply icmp_echo_total.
Qed.
Lemma icmp6_switch_total is_dsr type seq i :
  wpf (icmp6_switch is_dsr type seq) (λ _ _, True) i.
Proof.
  unfold icmp6_switch, icmp_mark. wp_steps; try done. apply icmp_echo_total.
Qed.

Section sms.
Context {K : Type} `{LoxiEnv K}.
Context (t x : dp_ct_key) (s0 : lstate K).
Context (Ht : is_Some (ct_map s0 !! t)) (Hx : is_Some (ct_map s0 !! x)).
Context (Hoff : 0 ≤ l4_off (pm (xf s0))).

Definition sm_post (p r : Z) (s : lstate K) : Prop := smr_ok r ∧ sm_frame p t x s0 s.

Lemma sm_post_err p s : sm_frame p t x s0 s → sm_post p (-1) s.
Proof. split; [smr_solve|done]. Qed.

Ltac is_entry := first [left; done | right; done | by destruct (decide _); auto].
Ltac entry_step_solve :=
  intros ?;
  first [ apply entry_step_tcp; done
        | apply entry_step_udp; done
        | apply entry_step_icmp; auto
        | apply entry_step_sctp; done
        | apply entry_step_frag ].
Ltac ct_step :=
  lazymatch goal with
  | |- wpb (ct_read _) _ _ _ => eapply fr_ct_read; [exact Ht|exact Hx|is_entry|eassumption|intros ? ?]
  | |- wpb (ct_write _ _) _ _ _ =>
      eapply fr_ct_write; [exact Ht|exact Hx|is_entry|eassumption|entry_step_solve|intros ? ?]
  | |- wpb (count_pkt _) _ _ _ =>
      eapply fr_count_pkt; [exact Ht|exact Hx|is_entry|eassumption|intros ? ?]
  | |- wpb LLBS_PPLN_DROP _ _ _ => eapply fr_drop; [eassumption|intros ? ?]
  | |- wpb (past_end _) _ _ _ => apply wp_past_end; cbv beta
  | |- wpb (load32 _) _ _ _ => unfold load32
  | |- wpb (load16 _) _ _ _ => unfold load16
  | |- wpb (load8 _) _ _ _ => unfold load8
  | |- wpb (load _ _) _ _ _ =>
      eapply lfr_load; [eassumption
        |unfold sizeof_tcphdr, tcp_seq, tcp_ack_seq, sizeof_icmphdr, icmp_echo_sequence,
          sizeof_sctphdr, sctp_vtag, sizeof_sctp_dch, sizeof_sctp_init_ch, sizeof_sctp_cookie in *;
          repeat match goal with H : sm_frame _ _ _ _ _ |- _ => apply frame_pkt_len in H end; lia..
        |intros ?]
  | |- sm_post _ (-1) _ => apply sm_post_err; eassumption
  | |- sm_post _ _ _ => split; [try solve [smr_solve]|eassumption]
  | |- wpf (λ _, _) _ _ => unfold wpf
  | |- _ => wp_step
  end.
Ltac ct_steps := repeat ct_step.

Lemma tcp_sm_frame dir :
  wpf (dp_ct_tcp_sm t x dir) (sm_post IPPROTO_TCP) s0.
Proof.
  pose proof (frame_refl IPPROTO_TCP t x s0) as H0.
  unfold dp_ct_tcp_sm, on_tcp. ct_steps; try discriminate.
  destruct (tcp_switch_total (negb (nm_dsr (nm (xf s0)) =? 0)) (tcp_flags (pm (xf s0)))
    (bpf_ntohl v) (bpf_ntohl v0) dir (pi_t (d_pi (ctd a)))) as (n & ts & ->).
  ct_steps; unfold tcp_smr; repeat case_match; smr_solve.
Qed.

Lemma udp_sm_frame dir : wpf (dp_ct_udp_sm t x dir) (sm_post IPPROTO_UDP) s0.
Proof.
  pose proof (frame_refl IPPROTO_UDP t x s0) as H0.
  unfold dp_ct_udp_sm. ct_steps; destruct (decide _); ct_steps.
Qed.

Lemma icmp_sm_frame switch p dir :
  p = IPPROTO_ICMP ∨ p = IPPROTO_ICMPV6 →
  (∀ d ty sq i, wpf (switch d ty sq) (λ _ _, True) i) →
  wpf (icmp_sm switch t x dir) (sm_post p) s0.
Proof.
  intros Hp Htot. pose proof (frame_refl p t x s0) as H0.
  unfold icmp_sm, on_icmp. ct_steps; try discriminate.
  match goal with |- context [switch ?d ?ty ?sq ?i] =>
    destruct (wpf_elim _ _ _ (Htot d ty sq i)) as (n & i' & -> & _) end.
  ct_steps.
Qed.

Lemma sctp_bound_frame e n (QN : unit → lstate K → Prop) s :
  sm_frame IPPROTO_SCTP t x s0 s →
  ((pkt_len s0 <? e) = false → QN tt s) →
  wpb (sctp_bound e n) (λ _, sm_frame IPPROTO_SCTP t x s0) QN s.
Proof.
  intros Hs HQ. unfold sctp_bound. ct_steps; [done|].
  apply HQ. by rewrite <-(frame_pkt_len IPPROTO_SCTP t x s0 s Hs).
Qed.

Lemma sctp_switch_frame is_dsr dir off c type n s :
  0 ≤ off → c = off + sizeof_sctphdr → c ≤ pkt_len s0 →
  sm_frame IPPROTO_SCTP t x s0 s →
  wpf (sctp_switch is_dsr t dir off c type n) (λ _, sm_frame IPPROTO_SCTP t x s0) s.
Proof.
  intros Ho -> Hc Hs.
  unfold sctp_switch, sctp_closed, sctp_init, sctp_inita, sctp_cookie_st, sctp_get.
  repeat lazymatch goal with
  | |- wpb (sctp_bound _ _) _ _ _ => apply sctp_bound_frame; [eassumption|intros ?]
  | |- sm_frame _ _ _ _ _ => eassumption
  | |- _ => ct_step
  end.
Qed.

Lemma sctp_sm_frame dir : wpf (dp_ct_sctp_sm t x dir) (sm_post IPPROTO_SCTP) s0.
Proof.
  pose proof (frame_refl IPPROTO_SCTP t x s0) as H0.
  unfold dp_ct_sctp_sm, sctp_get. ct_steps; try discriminate.
  eapply wpf_mono; [apply sctp_switch_frame; [done|done| |eassumption]|].
  { unfold sizeof_sctp_dch in *. lia. }
  intros nstate s1 Hs1. cbv beta in *. ct_steps.
  unfold sctp_smr; repeat case_match; smr_solve.
Qed.

End sms.

(** A state machine changes the entries of the flow only, as its protocol
    allows, and returns one of the documented codes. *)
Lemma frame_trans {K} p t x (s0 s1 s2 : lstate K) :
  sm_frame p t x s0 s1 → sm_frame p t x s1 s2 → sm_frame p t x s0 s2.
Proof. intros [E1 M1] [E2 M2]. split; [by rewrite E2, E1|by etrans]. Qed.

Lemma dp_ct_sm_frame {K} `{LoxiEnv K} t x (s0 : lstate K) dir :
  is_Some (ct_map s0 !! t) → is_Some (ct_map s0 !! x) → 0 ≤ l4_off (pm (xf s0)) →
  wpf (dp_ct_sm t x dir) (sm_post t x s0 (nw_proto (l34m (xf s0)))) s0.
Proof.
  intros Ht Hx Hoff. set (p := nw_proto (l34m (xf s0))).
  pose proof (frame_refl p t x s0) as H0.
  assert (∀ s1 f q, sm_frame p t x s0 s1 → (q = p → wpf f (sm_post t x s1 q) s1) →
    p = q → wpf f (sm_post t x s0 p) s1) as Hgo.
  { intros s1 f q Hs1 Hf Hq. eapply wpf_mono; [by apply Hf|]. intros r s2 [Hr Hs2].
    split; [done|]. subst q. by eapply frame_trans. }
  unfold dp_ct_sm. wp_steps.
  - eapply (fr_ct_write p t x s0 Ht Hx); [by left|done|intros; apply entry_step_frag|].
    intros s1 Hs1. wp_steps. split; [smr_solve|done].
  - eapply (fr_ct_write p t x s0 Ht Hx); [by left|done|intros; apply entry_step_frag|].
    intros s1 Hs1. pose proof (frame_entry p t x s0 s1 t Hs1 Ht).
    pose proof (frame_entry p t x s0 s1 x Hs1 Hx).
    assert (0 ≤ l4_off (pm (xf s1))) by (by destruct Hs1 as [-> _]).
    fold p. wp_steps;
      try (split; [smr_solve|done]);
      match goal with Hp : (p =? _) = true |- _ => apply Z.eqb_eq in Hp; eapply Hgo; [done| |exact Hp] end;
      intros _;
      lazymatch goal with
      | |- wpf (dp_ct_tcp_sm _ _ _) _ _ => by apply tcp_sm_frame
      | |- wpf (dp_ct_udp_sm _ _ _) _ _ => by apply udp_sm_frame
      | |- wpf (dp_ct_sctp_sm _ _ _) _ _ => by apply sctp_sm_frame
      | |- _ => apply icmp_sm_frame; auto using icmp_switch_total, icmp6_switch_total
      end.
Qed.

Create HintDb ct_frame.
#[export] Hint Resolve frame_refl frame_drop entry_step_pb entry_step_frag
  entry_step_udp entry_step_icmp entry_step_sctp : ct_frame.
