(* ===== verification/LoxiCtSpec.v ===== *)
(** * loxilb: the connection table under [dp_ct_in]

    [dp_ct_in] has a result on every packet and in every state; it only
    touches the entries of the two directions of the flow, creates, keeps or
    deletes them together unless the kernel does not store one of them, and
    keeps the table well typed. *)
From S2P Require Import Prelude Records Words Consts LoxiDefs LoxiTables LoxiState LoxiRef LoxiCt LoxiCtFrame.
Open Scope c_scope.

(** The transformation and the two keys of a packet do not depend on what
    earlier packets left in the scratch entries. *)
Definition xi_zero : nxfrm_inf := NxfrmInf 0 0 0 0 0 0 DP_XADDR_ZR DP_XADDR_ZR.

Definition ct_xkey (m : xfi) : dp_ct_key :=
  (dp_ct_proto_xfk_init (CT_KEY_GEN m) (ct_in_xi m xi_zero) (ct_in_xxi xi_zero)).1.2.

(** The fields of a transformation that [dp_ct_proto_xfk_init] reads. *)
Definition xi_equiv (a b : nxfrm_inf) : Prop :=
  nat_flags a = nat_flags b ∧ nv6 a = nv6 b ∧ dsr a = dsr b ∧
  nat_xport a = nat_xport b ∧ nat_xip a = nat_xip b ∧ nat_rip a = nat_rip b.

#[export] Instance xi_equiv_equivalence : Equivalence xi_equiv.
Proof. split; unfold xi_equiv; repeat intro; intuition congruence. Qed.

Lemma ct_in_xi_equiv m a b : xi_equiv (ct_in_xi m a) (ct_in_xi m b).
Proof. unfold ct_in_xi. simpl. repeat case_match; done. Qed.

(** Cases on the conditions of the NAT blocks. *)
Ltac xfk_cases :=
  cbv [xfk_nat_dst xfk_nat_src xfk_nat_hdst xfk_nat_hsrc];
  split_ifs.

Definition xfk_equiv (a b : nxfrm_inf * dp_ct_key * nxfrm_inf) : Prop :=
  xi_equiv a.1.1 b.1.1 ∧ a.1.2 = b.1.2.

Lemma xfk_on_equiv flag f a b :
  (∀ a b, xfk_equiv a b → xfk_equiv (f a) (f b)) →
  xfk_equiv a b → xfk_equiv (xfk_on flag f a) (xfk_on flag f b).
Proof.
  destruct a as [[a1 a2] a3], b as [[b1 b2] b3]. intros Hf Hab. unfold xfk_on.
  assert (nat_flags a1 = nat_flags b1) as -> by apply Hab.
  destruct (has_flag _ _); auto.
Qed.

Lemma xfk_init_equiv key xi xi' xxi xxi' :
  xi_equiv xi xi' →
  xfk_equiv (dp_ct_proto_xfk_init key xi xxi) (dp_ct_proto_xfk_init key xi' xxi').
Proof.
  intros Hx. unfold dp_ct_proto_xfk_init.
  assert (dsr xi = dsr xi') as -> by apply Hx.
  destruct (negb (dsr xi' =? 0)); [by split|].
  repeat (apply xfk_on_equiv;
    [intros [[[] k1] x1] [[[] k2] x2] [(?&?&?&?&?&?) ?]; simplify_eq/=; xfk_cases; by repeat split|]).
  by split.
Qed.

Lemma ct_xkey_scratch m xi xxi :
  (dp_ct_proto_xfk_init (CT_KEY_GEN m) (ct_in_xi m xi) (ct_in_xxi xxi)).1.2 = ct_xkey m.
Proof. apply xfk_init_equiv, ct_in_xi_equiv. Qed.

(** The reverse key is of the same protocol. *)
Lemma xfk_on_l4proto flag f a p :
  (∀ a, k_l4proto a.1.2 = p → k_l4proto (f a).1.2 = p) →
  k_l4proto a.1.2 = p → k_l4proto (xfk_on flag f a).1.2 = p.
Proof. destruct a as [[a1 a2] a3]. intros Hf Ha. unfold xfk_on. destruct (has_flag _ _); auto. Qed.

Lemma xfk_l4proto key xi xxi :
  k_l4proto (dp_ct_proto_xfk_init key xi xxi).1.2 = k_l4proto key.
Proof.
  unfold dp_ct_proto_xfk_init. destruct (negb (dsr xi =? 0)); [done|].
  repeat (apply xfk_on_l4proto;
    [intros [[[] []] []] ?; simplify_eq/=; xfk_cases; by repeat split|]).
  done.
Qed.

(** ** The table invariant *)

(** Every entry only uses the union member of its protocol. *)
Definition table_typed (m : ct_table) : Prop :=
  map_Forall (λ k a, union_member (k_l4proto k) (d_pi (ctd a))) m.

Lemma table_typed_step p t x m m' :
  k_l4proto t = p → k_l4proto x = p → table_step p t x m m' →
  table_typed m → table_typed m'.
Proof.
  intros Ht Hx Hs Hm k b Hb. specialize (Hs k). rewrite Hb in Hs.
  destruct (m !! k) as [a|] eqn:Ha; [|done]. specialize (Hm k a Ha).
  destruct Hs as [[_ Hu] Heq].
  destruct (decide (k = t)) as [->|]; [rewrite Ht in *; auto|].
  destruct (decide (k = x)) as [->|]; [rewrite Hx in *; auto|].
  by rewrite Heq.
Qed.

(** ** What a call of the tracker does to the table

    [t] and [x] are the keys of the two directions. *)
Definition others_kept (t x : dp_ct_key) (m m' : ct_table) : Prop :=
  ∀ k, k ≠ t → k ≠ x → m' !! k = m !! k.

#[export] Instance others_kept_preorder t x : PreOrder (others_kept t x).
Proof.
  split; [by intros m k|]. intros m1 m2 m3 H1 H2 k Hk Hk'.
  by rewrite H2, H1.
Qed.

Lemma table_step_kept p t x m m' : table_step p t x m m' → others_kept t x m m'.
Proof.
  intros Hs k Hk Hk'. specialize (Hs k).
  destruct (m !! k), (m' !! k); try done. f_equal. by apply Hs.
Qed.
Lemma table_step_sym p t x m m' : table_step p t x m m' → table_step p x t m m'.
Proof.
  intros Hs k. specialize (Hs k). destruct (m !! k), (m' !! k); try done.
  destruct Hs. auto.
Qed.

Lemma others_kept_alter t x f k m :
  k = t ∨ k = x → others_kept t x m (alter f k m).
Proof. intros Hk k' H1 H2. apply lookup_alter_ne. by destruct Hk; congruence. Qed.
Lemma others_kept_delete t x k m :
  k = t ∨ k = x → others_kept t x m (delete k m).
Proof. intros Hk k' H1 H2. apply lookup_delete_ne. by destruct Hk; congruence. Qed.
Lemma others_kept_insert t x k v m :
  k = t ∨ k = x → others_kept t x m (<[k := v]> m).
Proof. intros Hk k' H1 H2. apply lookup_insert_ne. by destruct Hk; congruence. Qed.

(** The directions of entries do not change. *)
Definition dirs_kept (m m' : ct_table) : Prop :=
  ∀ k a, m !! k = Some a → ∃ b, m' !! k = Some b ∧ d_dir (ctd b) = d_dir (ctd a).

#[export] Instance dirs_kept_preorder : PreOrder dirs_kept.
Proof.
  split; [by intros m k a; eauto|]. intros m1 m2 m3 H1 H2 k a Ha.
  destruct (H1 k a Ha) as (b & Hb & <-). eauto.
Qed.

Lemma table_step_dirs p t x m m' : table_step p t x m m' → dirs_kept m m'.
Proof.
  intros Hs k a Ha. specialize (Hs k). rewrite Ha in Hs.
  destruct (m' !! k) as [b|]; [|done]. exists b. split; [done|]. by destruct Hs as [[-> _] _].
Qed.
Lemma dirs_kept_alter f k m :
  (∀ a, d_dir (ctd (f a)) = d_dir (ctd a)) → dirs_kept m (alter f k m).
Proof.
  intros Hf k' a Ha. destruct (decide (k' = k)) as [->|Hne].
  - exists (f a). by rewrite lookup_alter_eq, Ha.
  - exists a. by rewrite lookup_alter_ne.
Qed.
Lemma dirs_kept_is_Some m m' k : dirs_kept m m' → is_Some (m !! k) → is_Some (m' !! k).
Proof. intros Hd [a Ha]. destruct (Hd k a Ha) as (b & -> & _). by eexists. Qed.

Section tracker.
Context {K : Type} `{LoxiEnvLaws K}.
Implicit Types s : lstate K.

(** The table after a [bpf_map_update_elem] of [k] to [v], which fails when the
    kernel leaves the table as it was; [room]: no update fails. *)
Definition updated (k : dp_ct_key) (v : dp_ct_tact) (m m' : ct_table) : Prop :=
  ∃ κ : K, m' = fst (lx_ct_update k v m κ).
Definition room : Prop :=
  ∀ k v t (κ : K), fst (lx_ct_update k v t κ) = <[k := v]> t.

Lemma updated_spec k v m m' : updated k v m m' → m' = <[k := v]> m ∨ m' = m.
Proof. intros [κ ->]. apply lx_ct_update_spec. Qed.
Lemma updated_room k v m m' : room → updated k v m m' → m' = <[k := v]> m.
Proof. intros Hr [κ ->]. apply Hr. Qed.

Lemma wp_ct_update {R} k v QR (QN : unit → lstate K → Prop) s :
  (∀ m κ, updated k v (ct_map s) m → QN tt (s <| ct_map := m |> <| lkern := κ |>)) →
  wpb (R := R) (ct_update k v) QR QN s.
Proof.
  intros HQ. unfold wpb, ct_update.
  assert (updated k v (ct_map s) (fst (lx_ct_update k v (ct_map s) (lkern s)))) as Hu by by eexists.
  destruct (lx_ct_update k v (ct_map s) (lkern s)) as [t κ]. by apply HQ.
Qed.

(** The fields of the state that the tracker leaves alone. *)
Definition ct_stable (s s' : lstate K) : Prop :=
  lpkt s' = lpkt s ∧ l4_off (pm (xf s')) = l4_off (pm (xf s)) ∧
  l34m (xf s') = l34m (xf s) ∧ polx_map s' = polx_map s ∧
  fw_v4_map s' = fw_v4_map s ∧ nat_map s' = nat_map s ∧
  stats_maps s' = stats_maps s.

#[local] Instance ct_stable_preorder : PreOrder ct_stable.
Proof. split; [done|]. unfold ct_stable. repeat intro. intuition congruence. Qed.

Lemma newctr_spec s :
  wpf dp_ct_get_newctr (λ _ s', ∃ c, s' = s <| ct_ctr := c |>) s.
Proof.
  unfold dp_ct_get_newctr. wp_steps; [|by eexists].
  exists (ct_ctr s). by destruct s.
Qed.

Lemma ct_in_act_pi m xi n a : d_pi (ctd (ct_in_act m xi n a)) = d_pi (ctd a).
Proof. unfold ct_in_act. by destruct (negb _). Qed.
Lemma ct_in_adat_pi m c a : d_pi (ctd (ct_in_adat m c a)) = pinf_zero.
Proof. unfold ct_in_adat. simpl. by rewrite ct_in_act_pi. Qed.
Lemma ct_in_axdat_pi m k a b : d_pi (ctd (ct_in_axdat m k a b)) = pinf_zero.
Proof. unfold ct_in_axdat. simpl. by rewrite ct_in_act_pi. Qed.

Lemma table_typed_insert k a m :
  d_pi (ctd a) = pinf_zero → table_typed m → table_typed (<[k := a]> m).
Proof.
  intros Ha Hm. apply map_Forall_insert_2; [|done]. rewrite Ha. apply union_member_zero.
Qed.

(** An entry as the tracker creates it. *)
Definition new_entry (d : ct_dir) (a : dp_ct_tact) : Prop :=
  d_dir (ctd a) = d ∧ d_pi (ctd a) = pinf_zero ∧ d_smr (ctd a) = CT_SMR_INIT.

(** The entries of both directions are created together. *)
Definition created (key xkey : dp_ct_key) (m m' : ct_table) : Prop :=
  ∃ a b m1, new_entry CT_DIR_IN a ∧ new_entry CT_DIR_OUT b ∧
    updated xkey b m m1 ∧ updated key a m1 m'.

Lemma others_kept_updated t x k v m m' :
  k = t ∨ k = x → updated k v m m' → others_kept t x m m'.
Proof. intros Hk [-> | ->]%updated_spec; [by apply others_kept_insert|done]. Qed.
Lemma table_typed_updated k v m m' :
  d_pi (ctd v) = pinf_zero → updated k v m m' → table_typed m → table_typed m'.
Proof. intros Hv [-> | ->]%updated_spec; [by apply table_typed_insert|done]. Qed.

Lemma created_kept key xkey m m' : created key xkey m m' → others_kept key xkey m m'.
Proof.
  intros (a & b & m1 & _ & _ & Hx & Hk).
  transitivity m1; [apply (others_kept_updated _ _ xkey b)|apply (others_kept_updated _ _ key a)]; auto.
Qed.
Lemma created_typed key xkey m m' : created key xkey m m' → table_typed m → table_typed m'.
Proof.
  intros (a & b & m1 & (_ & Ha & _) & (_ & Hb & _) & Hx & Hk) Hm.
  apply (table_typed_updated key a m1); [done..|]. by apply (table_typed_updated xkey b m).
Qed.
Lemma created_room key xkey m m' :
  room → created key xkey m m' → is_Some (m' !! key) ∧ is_Some (m' !! xkey).
Proof.
  intros Hr (a & b & m1 & _ & _ & ->%updated_room & ->%updated_room); [|done..].
  rewrite lookup_insert_eq. split; [by eexists|].
  destruct (decide (xkey = key)) as [->|Hne]; [rewrite lookup_insert_eq; by eexists|].
  rewrite lookup_insert_ne, lookup_insert_eq by done. by eexists.
Qed.

Lemma ct_in_new_spec m key xkey s :
  wpf (ct_in_new m key xkey) (λ _ s',
    ct_stable s s' ∧ xf s' = xf s ∧ created key xkey (ct_map s) (ct_map s')) s.
Proof.
  unfold ct_in_new. wp_steps.
  eapply wpf_mono; [apply newctr_spec|]. intros ctr s1 [c ->]. cbv beta. wp_steps.
  apply wp_ct_update; intros m1 κ1 Hm1; wp_step; apply wp_ct_update; intros m2 κ2 Hm2; wp_step.
  split; [by repeat split|]. split; [done|]. simpl in *.
  eexists _, _, m1. split; [|split; [|split; [exact Hm1|exact Hm2]]].
  - split; [done|]. split; [apply ct_in_adat_pi|done].
  - split; [done|]. split; [apply ct_in_axdat_pi|done].
Qed.

(** The result of tracking, for the entries of the two directions. *)
Definition entries_after (key xkey : dp_ct_key) (r : Z) (m m' : ct_table) : Prop :=
  if (r =? CT_SMR_ERR) || (r =? CT_SMR_CTD)
  then m' !! key = None ∧ m' !! xkey = None
  else dirs_kept m m' ∧ is_Some (m' !! key) ∧ is_Some (m' !! xkey).

Lemma is_Some_alter {A} (f : A → A) (k k' : dp_ct_key) (m : gmap dp_ct_key A) :
  is_Some (m !! k') → is_Some (alter f k m !! k').
Proof.
  intros [a Ha]. destruct (decide (k' = k)) as [->|Hne].
  - rewrite lookup_alter_eq, Ha. by eexists.
  - rewrite lookup_alter_ne by done. by eexists.
Qed.

(** [ct_write] on an entry that is there. *)
Lemma wp_ct_write {R} k f QR (QN : unit → lstate K → Prop) s :
  is_Some (ct_map s !! k) → QN tt (s <| ct_map ::= alter f k |>) →
  wpb (R := R) (ct_write k f) QR QN s.
Proof.
  intros [a Ha] HQ. apply wp_bind, wp_gets, wp_bind, wp_or_fault with a; [done|].
  by apply wp_modify.
Qed.
Lemma wp_ct_read {R} k QR (QN : dp_ct_tact → lstate K → Prop) s a :
  ct_map s !! k = Some a → QN a s → wpb (R := R) (ct_read k) QR QN s.
Proof. intros Ha HQ. apply wp_bind, wp_gets. by apply wp_or_fault with a. Qed.

(** An update of an entry that leaves its protocol data alone. *)
Lemma table_typed_alter f k m :
  (∀ a, d_pi (ctd (f a)) = d_pi (ctd a)) → table_typed m → table_typed (alter f k m).
Proof.
  intros Hf Hm k' b Hb. destruct (decide (k' = k)) as [->|Hne].
  - rewrite lookup_alter_eq in Hb. destruct (m !! k) as [a|] eqn:Ha; [|done].
    simplify_eq/=. rewrite Hf. by apply (Hm k).
  - rewrite lookup_alter_ne in Hb by done. by apply (Hm k').
Qed.
Lemma table_typed_delete k m : table_typed m → table_typed (delete k m).
Proof. apply map_Forall_delete. Qed.

Definition track_post (key xkey : dp_ct_key) s (r : Z) s' : Prop :=
  ct_stable s s' ∧ smr_ok r ∧ others_kept key xkey (ct_map s) (ct_map s') ∧
  (table_typed (ct_map s) → table_typed (ct_map s')) ∧
  entries_after key xkey r (ct_map s) (ct_map s').

Lemma frame_stable p t x s s' : sm_frame p t x s s' → ct_stable s s'.
Proof. intros [-> _]. by repeat split. Qed.
#[local] Hint Resolve others_kept_alter others_kept_delete table_typed_alter
  table_typed_delete dirs_kept_alter : core.

(** Both entries are there, and nothing outside the flow has changed. *)
Definition tracking (key xkey : dp_ct_key) s s' : Prop :=
  ct_stable s s' ∧ others_kept key xkey (ct_map s) (ct_map s') ∧
  (table_typed (ct_map s) → table_typed (ct_map s')) ∧ dirs_kept (ct_map s) (ct_map s') ∧
  is_Some (ct_map s' !! key) ∧ is_Some (ct_map s' !! xkey).

Lemma tracking_trans key xkey s1 s2 s3 :
  tracking key xkey s1 s2 → tracking key xkey s2 s3 → tracking key xkey s1 s3.
Proof.
  intros (?&?&?&?&?) (?&?&?&?&?). split; [by etrans|]. split; [by etrans|].
  split; [auto|]. split; [by etrans|done].
Qed.

Lemma tracking_alter key xkey s s' k f :
  k = key ∨ k = xkey → (∀ a, ctd (f a) = ctd a) →
  tracking key xkey s s' → tracking key xkey s (s' <| ct_map ::= alter f k |>).
Proof.
  intros Hk Hf Ht. eapply tracking_trans; [done|].
  destruct Ht as (_&_&_&_&?&?). split; [by repeat split|]. simpl.
  split; [by apply others_kept_alter|].
  split; [apply table_typed_alter; intros; by rewrite Hf|].
  split; [apply dirs_kept_alter; intros; by rewrite Hf|].
  split; by apply is_Some_alter.
Qed.

Lemma dp_ct_sm_track key xkey t x dir s :
  (t = key ∧ x = xkey) ∨ (t = xkey ∧ x = key) →
  is_Some (ct_map s !! key) → is_Some (ct_map s !! xkey) → 0 ≤ l4_off (pm (xf s)) →
  k_l4proto key = nw_proto (l34m (xf s)) → k_l4proto xkey = nw_proto (l34m (xf s)) →
  wpf (dp_ct_sm t x dir) (λ r s', smr_ok r ∧ tracking key xkey s s') s.
Proof.
  intros Htx Hk Hxk Hoff Hp Hxp.
  eapply wpf_mono; [apply dp_ct_sm_frame; by destruct Htx as [[-> ->]|[-> ->]]|].
  intros r s' [Hr Hf]. split; [done|]. split; [by eapply frame_stable|].
  pose proof (frame_entry _ _ _ _ _ key Hf Hk). pose proof (frame_entry _ _ _ _ _ xkey Hf Hxk).
  destruct Hf as [_ Hm].
  assert (table_step (nw_proto (l34m (xf s))) key xkey (ct_map s) (ct_map s')) as Hm'.
  { destruct Htx as [[-> ->]|[-> ->]]; [done|by apply table_step_sym]. }
  split; [by eapply table_step_kept|].
  split; [by apply (table_typed_step _ key xkey _ _ Hp Hxp Hm')|].
  split; [by eapply table_step_dirs|done].
Qed.

Lemma track_live key xkey r s s' :
  smr_ok r → tracking key xkey s s' → r ≠ CT_SMR_ERR → r ≠ CT_SMR_CTD →
  track_post key xkey s r s'.
Proof.
  intros Hr (?&?&?&?) N1 N2. split; [done|]. split; [done|]. do 2 (split; [done|]).
  unfold entries_after.
  by rewrite (proj2 (Z.eqb_neq r _) N1), (proj2 (Z.eqb_neq r _) N2).
Qed.

Lemma track_gone key xkey r s s' :
  smr_ok r → tracking key xkey s s' → r = CT_SMR_ERR ∨ r = CT_SMR_CTD →
  track_post key xkey s r (s' <| ct_map := delete key (delete xkey (ct_map s')) |>).
Proof.
  intros Hr (?&?&?&_) Hd.
  split; [etrans; [done|]; by repeat split|]. split; [done|]. simpl.
  split; [etrans; [done|]; etrans; apply others_kept_delete; auto|].
  split; [auto using table_typed_delete|].
  unfold entries_after. destruct Hd as [-> | ->]; simpl;
    (split; [by rewrite lookup_delete_eq|]);
    (destruct (decide (xkey = key)) as [->|]; [by rewrite lookup_delete_eq|]);
    by rewrite lookup_delete_ne, lookup_delete_eq.
Qed.

(** The end of [ct_in_track], from the test of [smr] on. *)
Lemma track_finish key xkey r s s2 :
  smr_ok r → tracking key xkey s s2 →
  wpb ((if r =? CT_SMR_EST then
     let! adat := gets xctk_0 in
     if negb (nat_flags (d_xi (ctd adat)) =? 0) then
       ct_write key (λ a, a <| nat_act; na_doct := 0 |>) ;;
       ct_write xkey (λ a, a <| nat_act; na_doct := 0 |>)
     else
       ct_write key (λ a, a <| ca; act_type := DP_SET_NOP |>) ;;
       ct_write xkey (λ a, a <| ca; act_type := DP_SET_NOP |>)
   else when ((r =? CT_SMR_ERR) || (r =? CT_SMR_CTD))
     (ct_delete xkey ;; ct_delete key)) ;;
   ret r) (track_post key xkey s) (track_post key xkey s) s2.
Proof.
  intros Hr Ht. apply wp_bind.
  destruct (Z.eqb_spec r CT_SMR_EST) as [->|HE].
  - apply wp_bind, wp_gets.
    pose proof Ht as (_&_&_&_&Hk&Hxk).
    destruct (negb _); (apply wp_bind, wp_ct_write; [done|]);
      (apply wp_ct_write; [by apply is_Some_alter|]);
      apply wp_ret; apply track_live; try done; do 2 (apply tracking_alter; auto).
  - unfold ct_delete. apply wp_when; intros Hd; wp_steps.
    + apply (track_gone _ _ _ _ s2); [done|done|].
      apply orb_true_iff in Hd as [?%Z.eqb_eq|?%Z.eqb_eq]; auto.
    + apply orb_false_iff in Hd as [?%Z.eqb_neq ?%Z.eqb_neq]. by apply track_live.
Qed.

Lemma ct_in_track_spec m key xkey s :
  is_Some (ct_map s !! key) → is_Some (ct_map s !! xkey) → 0 ≤ l4_off (pm (xf s)) →
  k_l4proto key = nw_proto (l34m (xf s)) → k_l4proto xkey = nw_proto (l34m (xf s)) →
  wpf (ct_in_track m key xkey) (track_post key xkey s) s.
Proof.
  intros Hk Hxk Hoff Hp Hxp. unfold ct_in_track. apply wp_run, wp_bind.
  unfold ktime_ns, wpb at 1. destruct (lx_ktime (lkern s)) as [now κ].
  assert (tracking key xkey s (s <| lkern := κ |>)) as Ht0
    by (split; [by repeat split|]; by repeat (split; [done|])).
  apply wp_bind, wp_ct_write; [done|].
  apply (tracking_alter _ _ _ _ key (λ a, a <| lts := now |>)) in Ht0; [|auto..].
  pose proof Ht0 as (_&_&_&_&[a Ha]&?).
  apply wp_bind, wp_ct_read with a; [done|]. apply wp_bind, wp_ct_write; [done|].
  apply (tracking_alter _ _ _ _ xkey (λ b, b <| lts := lts a |>)) in Ht0; [|auto..].
  apply wp_bind.
  match goal with |- wpb _ _ _ ?st => set (s1 := st) in * end. clearbody s1.
  assert (∀ t x dir, (t = key ∧ x = xkey) ∨ (t = xkey ∧ x = key) →
    wpf (dp_ct_sm t x dir) (λ r s', smr_ok r ∧ tracking key xkey s s') s1) as Hsm.
  { intros t x dir Htx. pose proof Ht0 as ((_&Eo&E&_)&_&_&_&?&?).
    eapply wpf_mono; [apply (dp_ct_sm_track key xkey); rewrite ?E, ?Eo; done|].
    intros r s' [? ?]. split; [done|by eapply tracking_trans]. }
  destruct (decide _); (apply wp_call; eapply wpf_mono; [apply Hsm; auto|]);
    intros r s2 [Hr Ht2]; cbv beta; apply track_finish; done.
Qed.

(** The table [m2] that the flow is tracked in: both entries were in [m], or
    both are created. *)
Definition flow_opened (key xkey : dp_ct_key) (m m2 : ct_table) : Prop :=
  match m !! key, m !! xkey with
  | Some _, Some _ => m2 = m
  | _, _ => created key xkey m m2
  end.

(** The outcome of the tracker in [m2]: an error when the kernel refused one of
    the entries, otherwise both stay or both are removed. *)
Definition flow_outcome (key xkey : dp_ct_key) (m2 : ct_table) (r : Z) (m' : ct_table) : Prop :=
  match m2 !! key, m2 !! xkey with
  | Some _, Some _ => entries_after key xkey r m2 m'
  | _, _ => r = CT_SMR_ERR ∧ m' = m2
  end.

Lemma flow_opened_kept key xkey m m2 : flow_opened key xkey m m2 → others_kept key xkey m m2.
Proof.
  unfold flow_opened. destruct (m !! key), (m !! xkey); try apply created_kept. by intros ->.
Qed.
Lemma flow_opened_typed key xkey m m2 :
  flow_opened key xkey m m2 → table_typed m → table_typed m2.
Proof.
  unfold flow_opened. destruct (m !! key), (m !! xkey); try apply created_typed. by intros ->.
Qed.
Lemma flow_opened_room key xkey m m2 :
  room → flow_opened key xkey m m2 → is_Some (m2 !! key) ∧ is_Some (m2 !! xkey).
Proof.
  intros Hr. unfold flow_opened.
  destruct (m !! key) eqn:E1, (m !! xkey) eqn:E2; try by apply created_room.
  intros ->. rewrite E1, E2. split; by eexists.
Qed.

(** [dp_ct_in] up to the call of the state machine. *)
Lemma wp_dp_ct_in (Q : Z → lstate K → Prop) s :
  is_tracked_proto (nw_proto (l34m (xf s))) = true →
  (∀ s2, ct_stable s s2 → xf s2 = xf s →
     flow_opened (CT_KEY_GEN (xf s)) (ct_xkey (xf s)) (ct_map s) (ct_map s2) →
     match ct_map s2 !! CT_KEY_GEN (xf s), ct_map s2 !! ct_xkey (xf s) with
     | Some _, Some _ => wpf (ct_in_track (xf s) (CT_KEY_GEN (xf s)) (ct_xkey (xf s))) Q s2
     | _, _ => Q CT_SMR_ERR s2
     end) →
  wpf dp_ct_in Q s.
Proof.
  intros Hp HQ. unfold dp_ct_in. apply wp_run, wp_bind, wp_gets.
  change (k_l4proto (CT_KEY_GEN (xf s))) with (nw_proto (l34m (xf s))). rewrite Hp.
  apply wp_bind, wp_ret, wp_bind, wp_modify, wp_bind, wp_gets, wp_bind, wp_gets.
  match goal with |- context [dp_ct_proto_xfk_init ?k ?a ?b] =>
    pose proof (ct_xkey_scratch (xf s) (d_xi (ctd (xctk_0 s))) (d_xi (ctd (xctk_1 s)))) as Hx;
    change a with (ct_in_xi (xf s) (d_xi (ctd (xctk_0 s))));
    change b with (ct_in_xxi (d_xi (ctd (xctk_1 s)))) end.
  destruct (dp_ct_proto_xfk_init _ _ _) as [[xi xkey] xxi]. simpl in Hx. subst xkey.
  revert HQ. generalize (CT_KEY_GEN (xf s)) (ct_xkey (xf s)). intros key xkey HQ.
  apply wp_bind, wp_modify, wp_bind, wp_gets, wp_bind, wp_gets, wp_bind.
  match goal with |- wpb _ _ _ ?st => set (s1 := st) end.
  assert (ct_stable s s1 ∧ xf s1 = xf s ∧ ct_map s1 = ct_map s) as (Hst & Hxf & Em) by done.
  clearbody s1. rewrite <-Em in HQ.
  assert (∀ s2, ct_stable s1 s2 → xf s2 = xf s1 → flow_opened key xkey (ct_map s1) (ct_map s2) →
    wpb (let! atdat := ct_lookup key in
       let! axtdat := ct_lookup xkey in
       match atdat, axtdat with
       | Some _, Some _ => call (ct_in_track (xf s) key xkey)
       | _, _ => ret CT_SMR_ERR
       end) Q Q s2) as Hrest.
  { intros s2 Hst2 Hxf2 Ho. do 2 (apply wp_bind, wp_gets).
    specialize (HQ s2 ltac:(by etrans) ltac:(congruence) Ho).
    destruct (ct_map s2 !! key), (ct_map s2 !! xkey); [by apply wp_call|by apply wp_ret..]. }
  assert (¬ (is_Some (ct_map s1 !! key) ∧ is_Some (ct_map s1 !! xkey)) →
    wpf (ct_in_new (xf s) key xkey) (λ _ s2, wpb (let! atdat := ct_lookup key in
       let! axtdat := ct_lookup xkey in
       match atdat, axtdat with
       | Some _, Some _ => call (ct_in_track (xf s) key xkey)
       | _, _ => ret CT_SMR_ERR
       end) Q Q s2) s1) as Hnew.
  { intros Hno. eapply wpf_mono; [apply ct_in_new_spec|]. intros _ s2 (?&?&?).
    apply Hrest; [done..|]. unfold flow_opened.
    destruct (ct_map s1 !! key), (ct_map s1 !! xkey); try done. destruct Hno; split; by eexists. }
  destruct (ct_map s1 !! key) eqn:E1, (ct_map s1 !! xkey) eqn:E2;
    [|apply wp_call, Hnew; by intros [[? ?] [? ?]]..].
  apply wp_ret, Hrest; [done..|]. unfold flow_opened. by rewrite E1, E2.
Qed.

Definition ct_in_post s (r : Z) s' : Prop :=
  ct_stable s s' ∧ smr_ok r ∧ (table_typed (ct_map s) → table_typed (ct_map s')) ∧
  if is_tracked_proto (nw_proto (l34m (xf s))) then
    let key := CT_KEY_GEN (xf s) in let xkey := ct_xkey (xf s) in
    others_kept key xkey (ct_map s) (ct_map s') ∧
    ∃ m2, flow_opened key xkey (ct_map s) m2 ∧ flow_outcome key xkey m2 r (ct_map s')
  else r = 0 ∧ ct_map s' = ct_map s.

Lemma dp_ct_in_post s : 0 ≤ l4_off (pm (xf s)) → wpf dp_ct_in (ct_in_post s) s.
Proof.
  intros Hoff. destruct (is_tracked_proto (nw_proto (l34m (xf s)))) eqn:Hp.
  2:{ unfold dp_ct_in. apply wp_run, wp_bind, wp_gets.
      change (k_l4proto (CT_KEY_GEN (xf s))) with (nw_proto (l34m (xf s))). rewrite Hp.
      apply wp_bind, wp_return. split; [done|]. split; [unfold smr_ok; auto|].
      split; [done|]. by rewrite Hp. }
  apply wp_dp_ct_in; [done|]. intros s2 Hst Hxf Ho. unfold ct_in_post. rewrite Hp.
  assert (k_l4proto (CT_KEY_GEN (xf s)) = nw_proto (l34m (xf s))) as Hkp by done.
  assert (k_l4proto (ct_xkey (xf s)) = nw_proto (l34m (xf s))) as Hxp
    by (unfold ct_xkey; by rewrite xfk_l4proto).
  revert Hkp Hxp Ho. generalize (CT_KEY_GEN (xf s)) (ct_xkey (xf s)).
  intros key xkey Hkp Hxp Ho. cbv zeta.
  pose proof (flow_opened_kept _ _ _ _ Ho). pose proof (flow_opened_typed _ _ _ _ Ho).
  destruct (ct_map s2 !! key) as [a|] eqn:Ha, (ct_map s2 !! xkey) as [b|] eqn:Hb.
  { eapply wpf_mono; [apply ct_in_track_spec; rewrite ?Hxf, ?Ha, ?Hb; done|].
    intros r s3 (?&?&?&?&?). split; [by etrans|]. split; [done|]. split; [auto|].
    split; [by etrans|]. exists (ct_map s2). split; [done|]. unfold flow_outcome.
    by rewrite Ha, Hb. }
  all: split; [done|]; split; [unfold smr_ok; auto|]; split; [auto|]; split; [done|];
    exists (ct_map s2); (split; [done|]); unfold flow_outcome; by rewrite Ha, ?Hb.
Qed.
End tracker.

(** C34: The tracker has a result on every packet of a tracked protocol.  A flow
    with both entries in the table is tracked there; otherwise the entries of
    both directions are created together, each zero and marked with its
    direction.  When both are in the table the state machine decides: on an
    error or a closed connection both are removed, otherwise both stay, with
    their directions.  The only other outcome is an error because the kernel
    did not store one of the created entries; with room in the table it never
    happens.  The entries of other flows are left alone. *)
Theorem ct_entries_together {K} `{LoxiEnvLaws K} (s : lstate K) :
  0 ≤ l4_off (pm (xf s)) → is_tracked_proto (nw_proto (l34m (xf s))) = true →
  let key := CT_KEY_GEN (xf s) in
  let xkey := ct_xkey (xf s) in
  ∃ r s' m2, dp_ct_in s = Some (r, s') ∧ smr_ok r ∧
    others_kept key xkey (ct_map s) (ct_map s') ∧
    flow_opened (K := K) key xkey (ct_map s) m2 ∧
    flow_outcome key xkey m2 r (ct_map s') ∧
    (room (K := K) → entries_after key xkey r m2 (ct_map s')).
Proof.
  intros Ho Hp key xkey.
  destruct (wpf_elim _ _ _ (dp_ct_in_post s Ho)) as (r & s' & E & _ & Hr & _ & Hf).
  rewrite Hp in Hf. destruct Hf as (Hk & m2 & Hm2 & Hout). exists r, s', m2.
  do 5 (split; [done|]). intros Hroom. apply (flow_opened_room _ _ _ _ Hroom) in Hm2 as [[a Ha] [b Hb]].
  unfold flow_outcome in Hout. by rewrite Ha, Hb in Hout.
Qed.

(** A UDP packet of 10.0.0.1:1000 to 10.0.0.2:53. *)
Definition ref_udp : lstate lrefk :=
  ref_state (ref_xf IPPROTO_UDP 0x0100000a 0x0200000a 1000 53) (repeat 0 64).

Lemma ct_entries_together_witness :
  ∃ r s' m2, dp_ct_in ref_udp = Some (r, s') ∧
    flow_opened (K := lrefk) (CT_KEY_GEN (xf ref_udp)) (ct_xkey (xf ref_udp)) ∅ m2 ∧
    entries_after (CT_KEY_GEN (xf ref_udp)) (ct_xkey (xf ref_udp)) r m2 (ct_map s').
Proof.
  destruct (ct_entries_together ref_udp (proj1 (Z.leb_le 0 34) eq_refl) eq_refl)
    as (r & s' & m2 & E & _ & _ & Ho & _ & He).
  exists r, s', m2. split; [exact E|]. split; [exact Ho|]. apply He. by intros ????.
Defined.
