(* ===== verification/LoxiCtUnion.v ===== *)
(** * loxilb: the union of protocol data

    An entry of the connection table keeps the data of its state machine in a
    union with a member per protocol.  The model has the members side by side;
    here it is proved that this makes no difference: every entry only stores
    to the member of its protocol, and what the tracker does depends on no
    other member. *)
From S2P Require Import Prelude Records Words Consts LoxiDefs LoxiTables LoxiState LoxiRef LoxiCt LoxiCtFrame LoxiCtSpec.
Open Scope c_scope.

(** ** The member of the protocol *)

(** The protocol data with the members of other protocols blanked out. *)
Definition own_pinf (p : Z) (d : ct_pinf) : ct_pinf :=
  d <| pi_t := if p =? IPPROTO_TCP then pi_t d else tcp_zero |>
    <| pi_u := if p =? IPPROTO_UDP then pi_u d else udp_zero |>
    <| pi_i := if (p =? IPPROTO_ICMP) || (p =? IPPROTO_ICMPV6) then pi_i d else icmp_zero |>
    <| pi_s := if p =? IPPROTO_SCTP then pi_s d else sctp_zero |>.
Definition own_act (k : dp_ct_key) (a : dp_ct_tact) : dp_ct_tact :=
  a <| ctd; d_pi ::= own_pinf (k_l4proto k) |>.
Definition own_table (m : ct_table) : ct_table := map_imap (λ k a, Some (own_act k a)) m.
Definition own {K} (s : lstate K) : lstate K := s <| ct_map ::= own_table |>.

Lemma own_table_lookup m k : own_table m !! k = own_act k <$> m !! k.
Proof. unfold own_table. rewrite map_lookup_imap. by destruct (m !! k). Qed.
Lemma own_table_dom m : dom (own_table m) = dom m.
Proof.
  apply set_eq. intros k. rewrite !elem_of_dom, own_table_lookup.
  by rewrite fmap_is_Some.
Qed.

(** An update that leaves the members of other protocols than that of [k]
    alone, and does not read them. *)
Definition own_ok (k : dp_ct_key) (f : dp_ct_tact → dp_ct_tact) : Prop :=
  ∀ a, own_act k (f a) = f (own_act k a).

Lemma own_table_alter k f m : own_ok k f → own_table (alter f k m) = alter f k (own_table m).
Proof.
  intros Hf. apply map_eq. intros j. rewrite own_table_lookup.
  destruct (decide (j = k)) as [->|Hne].
  - rewrite !lookup_alter_eq, own_table_lookup. destruct (m !! k) as [a|]; simpl; [|done].
    by rewrite Hf.
  - by rewrite !lookup_alter_ne, own_table_lookup.
Qed.
Lemma own_table_delete k m : own_table (delete k m) = delete k (own_table m).
Proof.
  apply map_eq. intros j. rewrite own_table_lookup. destruct (decide (j = k)) as [->|Hne].
  - by rewrite !lookup_delete_eq.
  - by rewrite !lookup_delete_ne, own_table_lookup.
Qed.
Lemma own_table_insert k v m :
  own_act k v = v → own_table (<[k := v]> m) = <[k := v]> (own_table m).
Proof.
  intros Hv. apply map_eq. intros j. rewrite own_table_lookup. destruct (decide (j = k)) as [->|Hne].
  - rewrite !lookup_insert_eq. simpl. by rewrite Hv.
  - by rewrite !lookup_insert_ne, own_table_lookup.
Qed.

Lemma own_act_zero k v : d_pi (ctd v) = pinf_zero → own_act k v = v.
Proof.
  destruct v as [? [? ? d ? ? ? ?] ? ? ?]. simpl. intros ->. unfold own_act, own_pinf.
  unfold update. simpl. by repeat case_match.
Qed.

Section members.
Context (k : dp_ct_key).

Lemma own_tcp a : k_l4proto k = IPPROTO_TCP → pi_t (d_pi (ctd (own_act k a))) = pi_t (d_pi (ctd a)).
Proof. intros Hk. unfold own_act, own_pinf. simpl. by rewrite Hk. Qed.
Lemma own_udp a : k_l4proto k = IPPROTO_UDP → pi_u (d_pi (ctd (own_act k a))) = pi_u (d_pi (ctd a)).
Proof. intros Hk. unfold own_act, own_pinf. simpl. by rewrite Hk. Qed.
Lemma own_icmp a :
  k_l4proto k = IPPROTO_ICMP ∨ k_l4proto k = IPPROTO_ICMPV6 →
  pi_i (d_pi (ctd (own_act k a))) = pi_i (d_pi (ctd a)).
Proof. intros [Hk|Hk]; unfold own_act, own_pinf; simpl; by rewrite Hk. Qed.
Lemma own_sctp a : k_l4proto k = IPPROTO_SCTP → pi_s (d_pi (ctd (own_act k a))) = pi_s (d_pi (ctd a)).
Proof. intros Hk. unfold own_act, own_pinf. simpl. by rewrite Hk. Qed.

Ltac own_ok_tac Hk :=
  intros [? [? ? [] ? ? ? ?] ? ? ?]; unfold own_act, own_pinf; simpl; rewrite ?Hk; reflexivity.

Lemma own_ok_tcp f : k_l4proto k = IPPROTO_TCP → own_ok k (λ a, a <| ctd; d_pi; pi_t ::= f |>).
Proof. intros Hk. own_ok_tac Hk. Qed.
Lemma own_ok_udp f : k_l4proto k = IPPROTO_UDP → own_ok k (upd_udp f).
Proof. intros Hk. own_ok_tac Hk. Qed.
Lemma own_ok_icmp f :
  k_l4proto k = IPPROTO_ICMP ∨ k_l4proto k = IPPROTO_ICMPV6 → own_ok k (upd_icmp f).
Proof. intros [Hk|Hk]; own_ok_tac Hk. Qed.
Lemma own_ok_sctp f : k_l4proto k = IPPROTO_SCTP → own_ok k (upd_sctp f).
Proof. intros Hk. own_ok_tac Hk. Qed.
End members.

(** ** The same run on the blanked table

    [same_own m1 m2 RA s]: [m1] on the blanked [s] and [m2] on [s] end in the
    same way, with the same result, and the state of the one is that of the
    other blanked; [RA] relates the values on normal ends. *)
Definition same_own {K R A B} (m1 : body (lstate K) R A) (m2 : body (lstate K) R B)
    (RA : A → B → lstate K → Prop) (s : lstate K) : Prop :=
  match m1 (own s), m2 s with
  | Fault, Fault => True
  | Return r1 s1, Return r2 s2 => r1 = r2 ∧ s1 = own s2
  | Next a s1, Next b s2 => s1 = own s2 ∧ RA a b s2
  | _, _ => False
  end.
Definition own_fun {K R} (f : func (lstate K) R) (s : lstate K) : Prop :=
  f (own s) = prod_map id own <$> f s.

(** The kernel finds room for an update by the keys alone. *)
Class CtUpdateByKey (K : Type) `{LoxiEnv K} : Prop := ct_update_by_key k v t t' (κ : K) :
  dom t = dom t' →
  snd (lx_ct_update k v t κ) = snd (lx_ct_update k v t' κ) ∧
  (fst (lx_ct_update k v t κ) = <[k := v]> t → fst (lx_ct_update k v t' κ) = <[k := v]> t').

Section rules.
Context {K : Type} `{LoxiEnvLaws K} `{!CtUpdateByKey K} {R : Type}.
Implicit Types (s : lstate K).
Abbreviation lbody := (body (lstate K) R) (only parsing).

Lemma so_bind {A B A' B'} (m1 : lbody A) (m2 : lbody B) (k1 : A → lbody A') (k2 : B → lbody B') RA s :
  same_own m1 m2 (λ a b, same_own (k1 a) (k2 b) RA) s → same_own (bind m1 k1) (bind m2 k2) RA s.
Proof. unfold same_own, bind. destruct (m1 (own s)), (m2 s); try done. by intros [-> ?]. Qed.
Lemma so_ret {A B} (a : A) (b : B) (RA : A → B → lstate K → Prop) s :
  RA a b s → same_own (R := R) (ret a) (ret b) RA s.
Proof. done. Qed.
Lemma so_return {A B} r (RA : A → B → lstate K → Prop) s : same_own (R := R) (return_ r) (return_ r) RA s.
Proof. done. Qed.
Lemma so_return_if c r (RA : () → () → lstate K → Prop) s :
  (c = false → RA tt tt s) → same_own (R := R) (return_if c r) (return_if c r) RA s.
Proof. destruct c; [done|]. intros HRA. split; auto. Qed.
Lemma so_when c (m1 m2 : lbody ()) RA s :
  (c = true → same_own m1 m2 RA s) → (c = false → RA tt tt s) →
  same_own (when c m1) (when c m2) RA s.
Proof. destruct c; intros H1 H2; [auto|split; auto]. Qed.
Lemma so_if {A B} (c : bool) (m1 m1' : lbody A) (m2 m2' : lbody B) RA s :
  (c = true → same_own m1 m2 RA s) → (c = false → same_own m1' m2' RA s) →
  same_own (if c then m1 else m1') (if c then m2 else m2') RA s.
Proof. destruct c; auto. Qed.
Lemma so_gets {A} (f : lstate K → A) (RA : A → A → lstate K → Prop) s :
  RA (f (own s)) (f s) s → same_own (R := R) (gets f) (gets f) RA s.
Proof. done. Qed.
Lemma so_modify f (RA : () → () → lstate K → Prop) s :
  f (own s) = own (f s) → RA tt tt (f s) → same_own (R := R) (modify f) (modify f) RA s.
Proof. done. Qed.
Lemma so_past_end e (RA : bool → bool → lstate K → Prop) s :
  (let b := pkt_len s <? e in RA b b s) → same_own (R := R) (past_end e) (past_end e) RA s.
Proof. done. Qed.
Lemma so_load n off (RA : Z → Z → lstate K → Prop) s :
  (∀ v, RA v v s) → same_own (R := R) (load n off) (load n off) RA s.
Proof.
  intros HRA. unfold same_own, load, bind, load_bytes, peek, pkt_len. simpl.
  destruct ((off <? 0) || _); [done|]. split; [done|apply HRA].
Qed.
Lemma so_ktime (RA : Z → Z → lstate K → Prop) s :
  (∀ v κ, RA v v (s <| lkern := κ |>)) → same_own (R := R) ktime_ns ktime_ns RA s.
Proof. intros HRA. unfold same_own, ktime_ns. simpl. destruct (lx_ktime (lkern s)). by split. Qed.

Lemma so_lookup k (RA : option dp_ct_tact → option dp_ct_tact → lstate K → Prop) s :
  (∀ o, o = ct_map s !! k → RA (own_act k <$> o) o s) →
  same_own (R := R) (ct_lookup k) (ct_lookup k) RA s.
Proof. intros HRA. apply so_gets. simpl. rewrite own_table_lookup. by apply HRA. Qed.
Lemma so_read k (RA : dp_ct_tact → dp_ct_tact → lstate K → Prop) s :
  (∀ a, RA (own_act k a) a s) → same_own (R := R) (ct_read k) (ct_read k) RA s.
Proof.
  intros HRA. apply so_bind, so_lookup. intros [a|] _; [|done]. simpl. by apply so_ret.
Qed.
Lemma so_write k f (RA : () → () → lstate K → Prop) s :
  own_ok k f → RA tt tt (s <| ct_map ::= alter f k |>) →
  same_own (R := R) (ct_write k f) (ct_write k f) RA s.
Proof.
  intros Hf HRA. apply so_bind, so_lookup. intros [a|] _; [|done]. apply so_bind.
  split; [done|]. apply so_modify; [|done]. unfold own, update. simpl.
  by rewrite own_table_alter.
Qed.
Lemma so_delete k (RA : () → () → lstate K → Prop) s :
  RA tt tt (s <| ct_map ::= delete k |>) → same_own (R := R) (ct_delete k) (ct_delete k) RA s.
Proof.
  intros HRA. apply so_modify; [|done]. unfold own, update. simpl. by rewrite own_table_delete.
Qed.

Lemma so_update k v (RA : () → () → lstate K → Prop) s :
  own_act k v = v → (∀ m κ, RA tt tt (s <| ct_map := m |> <| lkern := κ |>)) →
  same_own (R := R) (ct_update k v) (ct_update k v) RA s.
Proof.
  intros Hv HRA. unfold same_own, ct_update. simpl.
  destruct (ct_update_by_key k v (own_table (ct_map s)) (ct_map s) (lkern s)
    (own_table_dom _)) as [Hκ Hto].
  destruct (ct_update_by_key k v (ct_map s) (own_table (ct_map s)) (lkern s)
    (eq_sym (own_table_dom _))) as [_ Hfrom].
  assert (fst (lx_ct_update k v (own_table (ct_map s)) (lkern s)) =
    own_table (fst (lx_ct_update k v (ct_map s) (lkern s)))) as Hm.
  { destruct (lx_ct_update_spec k v (ct_map s) (lkern s)) as [E|E].
    - rewrite Hfrom by done. by rewrite E, own_table_insert.
    - destruct (lx_ct_update_spec k v (own_table (ct_map s)) (lkern s)) as [E'|E'].
      + rewrite E'. by rewrite Hto, own_table_insert by done.
      + by rewrite E, E'. }
  destruct (lx_ct_update k v (own_table (ct_map s)) (lkern s)) as [t κ], (lx_ct_update k v (ct_map s) (lkern s)) as [t' κ'].
  simpl in *. subst. by split.
Qed.

Lemma so_call {T} (f : func (lstate K) T) (RA : T → T → lstate K → Prop) s :
  own_fun f s → (∀ r s', f s = Some (r, s') → RA r r s') → same_own (R := R) (call f) (call f) RA s.
Proof.
  unfold own_fun, same_own, call. intros -> HRA. destruct (f s) as [[r s']|]; [|done].
  simpl. split; [done|by apply HRA].
Qed.
End rules.

Lemma so_run {K R} (m : body (lstate K) R R) s :
  same_own m m (λ r1 r2 _, r1 = r2) s → own_fun (run m) s.
Proof.
  unfold same_own, own_fun, run. destruct (m (own s)), (m s); simpl; try done.
  - by intros [-> ->].
  - by intros [-> ->].
Qed.

(** ** The state machines *)

(** An update of the counters or of the member of the protocol. *)
Ltac own_ok_entry :=
  try match goal with |- context [decide ?P] => destruct (decide P) end;
  intros [? [? ? [] ? ? ? ?] ? ? ?]; unfold own_act, own_pinf; simpl;
  repeat match goal with Hk : k_l4proto _ = _ |- _ => rewrite Hk end; reflexivity.

Ltac so_step :=
  lazymatch goal with
  | |- own_fun (run _) _ => apply so_run
  | |- same_own (bind _ _) _ _ _ => apply so_bind
  | |- same_own (ret _) _ _ _ => apply so_ret
  | |- same_own (return_ _) _ _ _ => apply so_return
  | |- same_own (return_if _ _) _ _ _ => apply so_return_if; intros ?
  | |- same_own (when _ _) _ _ _ => apply so_when; intros ?
  | |- same_own (if _ then _ else _) _ _ _ => apply so_if; intros ?
  | |- same_own (past_end _) _ _ _ => apply so_past_end
  | |- same_own (load8 _) _ _ _ => apply so_load; intros ?
  | |- same_own (load16 _) _ _ _ => apply so_load; intros ?
  | |- same_own (load32 _) _ _ _ => apply so_load; intros ?
  | |- same_own (ct_lookup _) _ _ _ => apply so_lookup; intros ? ?
  | |- same_own (ct_read _) _ _ _ => apply so_read; intros ?
  | |- same_own (ct_write _ _) _ _ _ => apply so_write
  | |- same_own (ct_delete _) _ _ _ => apply so_delete
  | |- same_own (count_pkt _) _ _ _ => unfold count_pkt
  | |- same_own LLBS_PPLN_DROP _ _ _ => apply so_modify; [reflexivity|]
  | |- same_own (gets _) _ _ _ => apply so_gets
  | |- own_ok _ _ => own_ok_entry
  | |- _ = _ => reflexivity
  end; cbv beta zeta.

Section machines.
Context {K : Type} `{LoxiEnvLaws K} `{!CtUpdateByKey K}.
Context (t x : dp_ct_key) (p : Z) (Ht : k_l4proto t = p) (Hx : k_l4proto x = p).
Implicit Types s : lstate K.

Lemma tcp_sm_own dir s : p = IPPROTO_TCP → own_fun (dp_ct_tcp_sm t x dir) s.
Proof.
  intros Hp. rewrite Hp in Ht, Hx. unfold dp_ct_tcp_sm, on_tcp. repeat so_step.
  rewrite own_tcp by done. change (xf (own s)) with (xf s).
  destruct (tcp_switch _ _ _ _ _ _) as [[nstate ts]|]; [|done]. repeat so_step.
Qed.

Lemma udp_sm_own dir s : p = IPPROTO_UDP → own_fun (dp_ct_udp_sm t x dir) s.
Proof.
  intros Hp. rewrite Hp in Ht, Hx. unfold dp_ct_udp_sm.
  so_step. so_step. so_step. so_step. so_step. rewrite own_udp by done. so_step.
  destruct (decide _); repeat so_step; rewrite own_udp by done; repeat so_step.
Qed.

Lemma icmp_sm_own switch dir s :
  p = IPPROTO_ICMP ∨ p = IPPROTO_ICMPV6 → own_fun (icmp_sm switch t x dir) s.
Proof.
  intros Hp. unfold icmp_sm, on_icmp. destruct Hp as [Hp|Hp]; rewrite Hp in Ht, Hx; repeat so_step.
  all: rewrite own_icmp by auto; change (xf (own s)) with (xf s).
  all: destruct (switch _ _ _ _) as [[nstate i]|]; [|done]; repeat so_step.
Qed.

Lemma sctp_switch_own is_dsr dir off c type n s :
  p = IPPROTO_SCTP → own_fun (sctp_switch is_dsr t dir off c type n) s.
Proof.
  intros Hp. rewrite Hp in Ht, Hx.
  unfold sctp_switch, sctp_closed, sctp_init, sctp_inita, sctp_cookie_st, sctp_get, sctp_bound.
  repeat first [so_step | rewrite own_sctp by done].
Qed.

Lemma sctp_sm_own dir s : p = IPPROTO_SCTP → own_fun (dp_ct_sctp_sm t x dir) s.
Proof.
  intros Hp. unfold dp_ct_sctp_sm, sctp_get. pose proof Ht as Ht'. rewrite Hp in Ht'.
  pose proof Hx as Hx'. rewrite Hp in Hx'.
  repeat first [so_step | rewrite own_sctp by done].
  change (xf (own s)) with (xf s). apply so_call; [by apply sctp_switch_own|].
  intros. repeat so_step.
Qed.
End machines.

Section tracker.
Context {K : Type} `{LoxiEnvLaws K} `{!CtUpdateByKey K}.
Implicit Types s : lstate K.

Lemma dp_ct_sm_own t x dir s :
  k_l4proto t = nw_proto (l34m (xf s)) → k_l4proto x = nw_proto (l34m (xf s)) →
  own_fun (dp_ct_sm t x dir) s.
Proof.
  intros Ht Hx. unfold dp_ct_sm. repeat so_step.
  all: match goal with E : (nw_proto _ =? _) = true |- _ => apply Z.eqb_eq in E; rewrite E in * end.
  all: apply so_call; [|by intros].
  - by apply (tcp_sm_own t x IPPROTO_TCP).
  - by apply (udp_sm_own t x IPPROTO_UDP).
  - apply (icmp_sm_own t x IPPROTO_ICMP); auto.
  - by apply (sctp_sm_own t x IPPROTO_SCTP).
  - apply (icmp_sm_own t x IPPROTO_ICMPV6); auto.
Qed.

Lemma ct_in_track_own m key xkey s :
  k_l4proto key = nw_proto (l34m (xf s)) → k_l4proto xkey = nw_proto (l34m (xf s)) →
  own_fun (ct_in_track m key xkey) s.
Proof.
  intros Hk Hx. unfold ct_in_track. apply so_run, so_bind, so_ktime. intros now κ.
  do 4 so_step. change (lts (own_act key a)) with (lts a).
  change (d_dir (ctd (own_act key a))) with (d_dir (ctd a)).
  do 3 so_step.
  destruct (decide _); (apply so_call; [by apply dp_ct_sm_own|]); intros r s' _; repeat so_step.
Qed.

Lemma newctr_own s : own_fun dp_ct_get_newctr s.
Proof. unfold own_fun, dp_ct_get_newctr, run, bind, gets, or_return. simpl. by destruct (ct_ctr s). Qed.

Lemma ct_in_new_own m key xkey s : own_fun (ct_in_new m key xkey) s.
Proof.
  unfold ct_in_new. do 2 so_step. apply so_call; [apply newctr_own|]. intros ctr s1 _.
  apply so_bind, so_modify; [done|]. apply so_bind, so_gets.
  apply so_bind, so_modify; [done|]. apply so_bind, so_gets.
  apply so_bind, so_update; [apply own_act_zero, ct_in_axdat_pi|intros m1 κ1].
  apply so_bind, so_update; [apply own_act_zero, ct_in_adat_pi|intros m2 κ2]. by apply so_ret.
Qed.

Lemma dp_ct_in_own s : own_fun dp_ct_in s.
Proof.
  unfold dp_ct_in. do 4 so_step. change (xf (own s)) with (xf s). so_step.
  apply so_bind, so_modify; [done|]. do 4 so_step.
  match goal with |- same_own _ ?m ?RA ?st => change (same_own m m RA st) end.
  match goal with |- context [dp_ct_proto_xfk_init ?k ?a ?b] =>
    pose proof (xfk_l4proto k a b) as Hx end.
  destruct (dp_ct_proto_xfk_init _ _ _) as [[xi xkey] xxi]. cbn [fst snd] in Hx.
  apply so_bind, so_modify; [done|].
  match goal with |- same_own _ _ _ ?st => set (s1 := st); assert (xf s1 = xf s) as Ex1 by done end.
  clearbody s1. set (key := CT_KEY_GEN (xf s)) in *.
  assert (k_l4proto key = nw_proto (l34m (xf s))) as Hk by done. clearbody key.
  apply so_bind, so_lookup. intros o1 _. apply so_bind, so_lookup. intros o2 _. apply so_bind.
  assert (∀ s2, xf s2 = xf s → same_own (R := Z)
    (let! atdat := ct_lookup key in let! axtdat := ct_lookup xkey in
     match atdat, axtdat with
     | Some _, Some _ => call (ct_in_track (xf s) key xkey)
     | _, _ => ret CT_SMR_ERR
     end)
    (let! atdat := ct_lookup key in let! axtdat := ct_lookup xkey in
     match atdat, axtdat with
     | Some _, Some _ => call (ct_in_track (xf s) key xkey)
     | _, _ => ret CT_SMR_ERR
     end) (λ r1 r2 _, r1 = r2) s2) as Hrest.
  { intros s2 Ex2. apply so_bind, so_lookup. intros p1 _. apply so_bind, so_lookup. intros p2 _.
    destruct p1, p2; [|by apply so_ret..].
    apply so_call; [apply ct_in_track_own; congruence|by intros]. }
  destruct o1, o2; [apply so_ret; by apply Hrest|..];
    (apply so_call; [apply ct_in_new_own|]; intros r s2 E;
     destruct (wpf_result _ _ _ _ _ E (ct_in_new_spec _ _ _ _)) as (_ & Ex2 & _);
     apply Hrest; congruence).
Qed.
End tracker.

(** ** Reachable tables

    The tracker and the helper of established TCP flows (only called for TCP
    packets: [DP_RUN_CT_HELPER]) run on arbitrary packets and metadata; user
    space removes timed-out entries. *)
Inductive ct_step {K} `{LoxiEnv K} : lstate K → lstate K → Prop :=
| step_packet m x s : 0 ≤ l4_off (pm x) < 256 →
    ct_step s (s <| lpkt := m |> <| xf := x |>)
| step_track s r s' : dp_ct_in s = Some (r, s') → ct_step s s'
| step_helper s r s' : nw_proto (l34m (xf s)) = IPPROTO_TCP →
    dp_run_ct_helper s = Some (r, s') → ct_step s s'
| step_age k s : ct_step s (s <| ct_map ::= delete k |>).

Lemma ct_helper_typed {K} (s : lstate K) :
  nw_proto (l34m (xf s)) = IPPROTO_TCP → table_typed (ct_map s) →
  wpf dp_run_ct_helper (λ _ s', xf s' = xf s ∧ table_typed (ct_map s')) s.
Proof.
  intros Hp Ht. unfold dp_run_ct_helper. apply wp_run, wp_bind, wp_gets, wp_bind, wp_gets.
  apply wp_bind, wp_or_return; [done|].
  intros a Ha. apply wp_bind, wp_ct_write; [by rewrite Ha|]. apply wp_ret.
  split; [done|]. intros k b Hb. simpl in Hb.
  destruct (decide (k = CT_KEY_GEN (xf s))) as [->|Hne].
  - rewrite lookup_alter_eq, Ha in Hb. injection Hb as <-.
    destruct (Ht _ _ Ha) as (_ & Hu & Hi & Hs). simpl in *. rewrite Hp in *.
    unfold dp_run_ctact_helper. by case_match.
  - rewrite lookup_alter_ne in Hb by done. by apply (Ht k).
Qed.

(** The states differ at most in the members of other protocols of entries of
    the connection table. *)
Definition same_members {K} (s1 s2 : lstate K) : Prop := own s1 = own s2.
#[export] Instance same_members_equivalence K : Equivalence (same_members (K := K)).
Proof. split; unfold same_members; repeat intro; congruence. Qed.

(** C40: The union of protocol data is only accessed as the member of the
    protocol of the entry's key.  Stores: however packets, tracking and ageing
    interleave, the other members of every entry are as they were when the
    entry was created.  Reads: the tracker gives the same result from any two
    states that differ only in these other members (of any entries), and leads
    to two such states again. *)
Theorem ct_union_typed {K} `{LoxiEnvLaws K} `{!CtUpdateByKey K} :
  (∀ s0 s : lstate K, ct_map s0 = ∅ → 0 ≤ l4_off (pm (xf s0)) < 256 → rtc ct_step s0 s →
     ∀ k a, ct_map s !! k = Some a → union_member (k_l4proto k) (d_pi (ctd a))) ∧
  (∀ s1 s2 : lstate K, same_members s1 s2 →
     match dp_ct_in s1, dp_ct_in s2 with
     | Some (r1, s1'), Some (r2, s2') => r1 = r2 ∧ same_members s1' s2'
     | None, None => True
     | _, _ => False
     end).
Proof.
  split.
  - intros s0 s Hm Ho Hr. enough (0 ≤ l4_off (pm (xf s)) ∧ table_typed (ct_map s)) as [_ Ht]
      by exact Ht.
    assert (0 ≤ l4_off (pm (xf s0)) ∧ table_typed (ct_map s0)) as Hi.
    { split; [lia|]. rewrite Hm. apply map_Forall_empty. }
    clear Hm Ho. induction Hr as [|s1 s2 s3 Hs _ IH]; [done|]. apply IH. clear IH.
    destruct Hi as [Ho Ht]. destruct Hs as [m x s Hx|s r s' Hc|s r s' Hp Hc|k s].
    + split; [simpl; lia|done].
    + destruct (wpf_result _ _ _ _ _ Hc (dp_ct_in_post s Ho)) as ((_&Eo&_)&_&Hty&_).
      split; [by rewrite Eo|by apply Hty].
    + destruct (wpf_result _ _ _ _ _ Hc (ct_helper_typed s Hp Ht)) as [-> ?]. done.
    + split; [done|by apply table_typed_delete].
  - unfold same_members. intros s1 s2 Hs.
    pose proof (dp_ct_in_own s1) as H1. pose proof (dp_ct_in_own s2) as H2.
    unfold own_fun in *. rewrite Hs, H2 in H1.
    destruct (dp_ct_in s1) as [[r1 t1]|], (dp_ct_in s2) as [[r2 t2]|]; try done.
    apply (inj Some) in H1. apply pair_equal_spec in H1 as [Hr Ht]. by split.
Qed.

#[export] Instance lref_update_by_key : CtUpdateByKey lrefk.
Proof. by intros k v t t' κ. Qed.

Lemma same_result {S} (R : S → S → Prop) (o1 o2 : option (Z * S)) :
  match o1, o2 with
  | Some (r1, s1), Some (r2, s2) => r1 = r2 ∧ R s1 s2
  | None, None => True
  | _, _ => False
  end → fst <$> o1 = fst <$> o2.
Proof. destruct o1 as [[r1 s1]|], o2 as [[r2 s2]|]; simpl; [by intros [-> _]|done..]. Qed.

(** The first packet of a UDP flow, and its second one with garbage in the TCP
    member of an entry. *)
Lemma ct_union_typed_witness :
  let garbage := alter (λ a, a <| ctd; d_pi; pi_t; t_state := 77 |>) (CT_KEY_GEN (xf ref_udp)) in
  ∃ r s', dp_ct_in ref_udp = Some (r, s') ∧
    (∀ k a, ct_map s' !! k = Some a → union_member (k_l4proto k) (d_pi (ctd a))) ∧
    fst <$> dp_ct_in (s' <| ct_map ::= garbage |>) = fst <$> dp_ct_in s'.
Proof.
  intros garbage.
  destruct (wpf_elim _ _ _ (dp_ct_in_post ref_udp (proj1 (Z.leb_le 0 34) eq_refl)))
    as (r & s' & E & _).
  exists r, s'. split; [exact E|].
  assert (0 ≤ l4_off (pm (xf ref_udp)) < 256) as Ho by (simpl; lia).
  destruct (ct_union_typed (K := lrefk)) as [Hstores Hreads].
  split; [exact (Hstores ref_udp s' eq_refl Ho (rtc_once _ _ (step_track _ r _ E)))|].
  assert (same_members (s' <| ct_map ::= garbage |>) s') as Hs.
  { unfold same_members, own, update. simpl. f_equal. apply map_eq. intros k. unfold garbage.
    rewrite !own_table_lookup. destruct (decide (k = CT_KEY_GEN (xf ref_udp))) as [->|Hne].
    - rewrite lookup_alter_eq. by destruct (ct_map s' !! _).
    - by rewrite lookup_alter_ne. }
  exact (same_result _ _ _ (Hreads _ _ Hs)).
Defined.
