(* ===== verification/LoxiTcp.v ===== *)
(** * loxilb: TCP connections in the tracker

    Which segments the tracker takes for an established TCP connection,
    and the life of a connection through [dp_ct_in]: a three-way handshake
    establishes it, an orderly close removes both entries, for all sequence
    numbers modulo 2^32. *)
From S2P Require Import Prelude Records Words Consts LoxiDefs LoxiTables LoxiState LoxiRef LoxiCt LoxiCtFrame LoxiCtSpec.
Open Scope c_scope.

(** ** Entering the established state *)

(** The reasons for [CT_TCP_EST], when a segment of direction [dir] with
    acknowledgement number [ack] meets the protocol data [ts]: already
    established and no reset or close; the third packet of the handshake,
    acknowledging the other side's SYN; direct server return; or a connection
    picked up midway, after three plain acknowledgements of each side. *)
Definition est_reason (is_dsr : bool) (flags ack : Z) (dir : ct_dir) (ts : ct_tcp_pinf) : Prop :=
  has_flag flags LLB_TCP_RST = false ∧
  (t_state ts = CT_TCP_EST ∧ has_flag flags LLB_TCP_FIN = false ∨
   t_state ts = CT_TCP_SA ∧ dir = CT_DIR_IN ∧ all_flags flags LLB_TCP_ACK = true ∧
     all_flags flags LLB_TCP_SYN = false ∧
     ack = u32 (td_seq (at_out (tcp_cts ts)) + 1) ∨
   t_state ts = CT_TCP_CLOSED ∧ is_dsr = true ∨
   t_state ts = CT_TCP_CLOSED ∧ has_flag flags LLB_TCP_ACK = true ∧
     CT_TCP_INIT_ACK_THRESHOLD ≤ u16 (init_acks (at_dir dir (tcp_cts ts)) + 1) ∧
     CT_TCP_INIT_ACK_THRESHOLD ≤ init_acks (at_dir (rev_dir dir) (tcp_cts ts))).

Lemma tcp_switch_est is_dsr flags seq ack dir ts ts' :
  tcp_switch is_dsr flags seq ack dir ts = Some (CT_TCP_EST, ts') →
  est_reason is_dsr flags ack dir ts.
Proof.
  enough (wpf (tcp_switch is_dsr flags seq ack dir) (λ n ts', n = CT_TCP_EST →
    est_reason is_dsr flags ack dir ts) ts) as Hw.
  { intros E. by apply (wpf_result _ _ _ _ _ E Hw). }
  unfold tcp_switch, tcp_closed, tcp_ss, tcp_sa, tcp_est, tcp_fini, tcp_fini2,
    tcp_fini3, td_set_seq, td, rtd.
  wp_steps; try (intros HE; discriminate HE);
    try (destruct (decide _); wp_steps; intros HE; discriminate HE).
  all: intros _; unfold est_reason; split; [done|];
    repeat match goal with
    | Hb : (_ =? _) = true |- _ => apply Z.eqb_eq in Hb
    | Hb : _ && _ = true |- _ => apply andb_true_iff in Hb as [?%Z.leb_le ?%Z.leb_le]
    | Hb : negb _ = false |- _ => apply negb_false_iff in Hb
    | Hb : bool_decide (_ ≠ _) = false |- _ => apply bool_decide_eq_false in Hb; apply dec_stable in Hb
    end; subst; auto 10.
  1,2: do 3 right; do 2 (split; [done|]); by destruct dir.
Qed.

Lemma tcp_smr_est n : tcp_smr n = CT_SMR_EST → n = CT_TCP_EST.
Proof.
  unfold tcp_smr. destruct (Z.eqb_spec n CT_TCP_EST) as [->|_]; [done|].
  repeat case_match; discriminate.
Qed.

(** ** The life of a connection *)

(** The part of the protocol data the machine decides on: state, closing
    side, and per direction the initial acknowledgements and the last
    sequence number. *)
Record tcp_core : Type := Core {
  c_state : Z; c_fndir : ct_dir; c_acks_in : Z; c_seq_in : Z; c_acks_out : Z; c_seq_out : Z
}.
Definition core_of (ts : ct_tcp_pinf) : tcp_core :=
  Core (t_state ts) (t_fndir ts)
    (init_acks (at_in (tcp_cts ts))) (td_seq (at_in (tcp_cts ts)))
    (init_acks (at_out (tcp_cts ts))) (td_seq (at_out (tcp_cts ts))).

(** A segment of direction [dir] takes the machine from core [c] to [c']. *)
Definition core_step (flags seq ack : Z) (dir : ct_dir) (c c' : tcp_core) : Prop :=
  ∀ ts, core_of ts = c →
  ∃ ts', tcp_switch false flags seq ack dir ts = Some (c_state c', ts') ∧
    core_of (ts' <| t_state := c_state c' |>) = c'.

(** The connection with keys [k] (from the initiator) and [rk] is in core [c]. *)
Definition conn {K} (k rk : dp_ct_key) (c : tcp_core) (s : lstate K) : Prop :=
  ∃ a b, ct_map s !! k = Some a ∧ ct_map s !! rk = Some b ∧
    d_dir (ctd a) = CT_DIR_IN ∧ d_dir (ctd b) = CT_DIR_OUT ∧
    core_of (pi_t (d_pi (ctd a))) = c.

Definition rev_key (k : dp_ct_key) : dp_ct_key :=
  CtKey (k_saddr k) (k_daddr k) (k_dport k) (k_sport k) (k_zone k) (k_l4proto k) (k_v6 k).

(** A TCP segment without NAT, with its header inside the packet: packet,
    metadata, flow key, flags, sequence and acknowledgement numbers. *)
Record segment (m : list Z) (x : xfi) (k : dp_ct_key) (flags seq ack : Z) : Prop := Segment {
  sg_key : CT_KEY_GEN x = k;
  sg_proto : nw_proto (l34m x) = IPPROTO_TCP;
  sg_off : 0 < l4_off (pm x);
  sg_len : l4_off (pm x) + sizeof_tcphdr ≤ Z.of_nat (length m);
  sg_flags : tcp_flags (pm x) = flags;
  sg_nat : nf (pm x) = 0;
  sg_dsr : nm_dsr (nm x) = 0;
  sg_seq : bpf_ntohl (le_val (slice (Z.to_nat (l4_off (pm x) + tcp_seq)) 4 m)) = seq;
  sg_ack : bpf_ntohl (le_val (slice (Z.to_nat (l4_off (pm x) + tcp_ack_seq)) 4 m)) = ack
}.

Lemma segment_xkey m x k flags seq ack :
  segment m x k flags seq ack → ct_xkey x = rev_key k.
Proof.
  intros [<- _ _ _ _ Hnf Hdsr _ _]. unfold ct_xkey, ct_in_xi. rewrite Hnf. simpl.
  unfold dp_ct_proto_xfk_init. simpl. by rewrite Hdsr.
Qed.

Section sm.
Context {K : Type} `{LoxiEnvLaws K}.
Implicit Types s : lstate K.

(** The core of entry [t] in a table. *)
Definition core_at (t : dp_ct_key) (m : ct_table) (c : tcp_core) : Prop :=
  ∃ a, m !! t = Some a ∧ core_of (pi_t (d_pi (ctd a))) = c.

Lemma core_at_alter t k f m c :
  core_at t m c → (k = t → ∀ a, core_of (pi_t (d_pi (ctd (f a)))) = core_of (pi_t (d_pi (ctd a)))) →
  core_at t (alter f k m) c.
Proof.
  intros (a & Ha & Hc) Hf. destruct (decide (k = t)) as [->|Hne].
  - exists (f a). rewrite lookup_alter_eq, Ha. split; [done|by rewrite Hf].
  - exists a. by rewrite lookup_alter_ne.
Qed.

Lemma tcp_sm_core t x dir m flags seq ack c c' s :
  t ≠ x → core_at t (ct_map s) c → is_Some (ct_map s !! x) →
  segment m (xf s) (CT_KEY_GEN (xf s)) flags seq ack → lpkt s = m →
  core_step flags seq ack dir c c' →
  wpf (dp_ct_tcp_sm t x dir)
    (λ r s', r = tcp_smr (c_state c') ∧ core_at t (ct_map s') c') s.
Proof.
  intros Hne Hc Hx [_ _ Ho Hl Hfl _ Hd Hseq Hack] Hm Hstep.
  unfold dp_ct_tcp_sm. apply wp_run, wp_bind, wp_gets, wp_bind, wp_past_end.
  assert (pkt_len s = Z.of_nat (length m)) as Hlen by (unfold pkt_len; simpl; by rewrite Hm).
  unfold sizeof_tcphdr in *.
  rewrite (proj2 (Z.ltb_ge _ _)) by lia. apply wp_bind, wp_ret.
  unfold tcp_seq, tcp_ack_seq in *.
  apply wp_bind, wp_load; [lia|lia|]. apply wp_bind, wp_load; [lia|lia|].
  cbv zeta. simpl get_pkt. rewrite Hm, Hseq, Hack, Hfl, Hd. change (negb (0 =? 0)) with false. clear Hlen.
  generalize (le_val (slice (Z.to_nat (l4_off (pm (xf s)) + 4)) 4 m)).
  generalize (le_val (slice (Z.to_nat (l4_off (pm (xf s)) + 8)) 4 m)). intros ab sb.
  set (own := if decide (dir = CT_DIR_IN) then t else x).
  assert (is_Some (ct_map s !! t)) as Ht by (destruct Hc as (a & -> & _); by eexists).
  assert (is_Some (ct_map s !! own)) as Hown by (subst own; by destruct (decide _)).
  (* the counters and [tcp_cts[0]] of the own entry *)
  assert (∀ f g d, core_of (d <| tcp_cts ::= upd_dir CT_DIR_IN (λ d, d <| pseq := f |> <| pack := g |>) |>)
    = core_of d) as Hpp by (by intros ? ? [? ? []]).
  apply wp_bind, wp_ct_write; [done|].
  apply wp_bind, wp_bind, wp_gets, wp_ct_write; [by apply is_Some_alter|].
  match goal with |- wpb _ _ _ ?st => set (s1 := st) end.
  assert (core_at t (ct_map s1) c) as Hc1.
  { do 2 (apply core_at_alter; [|intros _ a; simpl; rewrite ?Hpp; done]). done. }
  assert (is_Some (ct_map s1 !! x)) as Hx1 by (by do 2 apply is_Some_alter).
  clearbody s1. clear Hc Hx Ht Hown own Hpp.
  destruct Hc1 as (a & Ha & Hca).
  destruct (Hstep _ Hca) as (ts' & Hsw & Hc').
  apply wp_bind, wp_bind, wp_ct_read with a; [done|]. rewrite Hsw.
  apply wp_bind, wp_ct_write; [by rewrite Ha|]. apply wp_ret.
  apply wp_bind, wp_ct_write; [apply is_Some_alter; by rewrite Ha|].
  match goal with |- wpb _ _ _ ?st => set (s2 := st) end.
  assert (core_at t (ct_map s2) c') as Hc2.
  { exists (set_tcp_state (c_state c') (a <| ctd; d_pi; pi_t := ts' |>)).
    simpl. by rewrite !lookup_alter_eq, Ha. }
  assert (is_Some (ct_map s2 !! x)) as Hx2 by (by do 2 apply is_Some_alter).
  clearbody s2. apply wp_bind, wp_ct_write; [done|].
  apply wp_bind, wp_when; intros _.
  - apply wp_ct_write; [by apply is_Some_alter|]. apply wp_ret. split; [done|].
    do 2 (apply core_at_alter; [|done]). done.
  - apply wp_ret. split; [done|]. apply core_at_alter; done.
Qed.

(** The acknowledgement number of the segment. *)
Definition seg_ack s : Z :=
  bpf_ntohl (le_val (slice (Z.to_nat (l4_off (pm (xf s)) + tcp_ack_seq)) 4 (lpkt s))).
(** The TCP state of entry [k]. *)
Definition state_at (k : dp_ct_key) (m : ct_table) (n : Z) : Prop :=
  ∃ a, m !! k = Some a ∧ t_state (pi_t (d_pi (ctd a))) = n.

Lemma state_at_alter k k' f m n :
  state_at k m n →
  (∀ a, t_state (pi_t (d_pi (ctd a))) = n → t_state (pi_t (d_pi (ctd (f a)))) = n) →
  state_at k (alter f k' m) n.
Proof.
  intros (a & Ha & Hn) Hf. destruct (decide (k = k')) as [->|Hne].
  - exists (f a). rewrite lookup_alter_eq, Ha. auto.
  - exists a. by rewrite lookup_alter_ne.
Qed.
Lemma state_at_set k n m : is_Some (m !! k) → state_at k (alter (set_tcp_state n) k m) n.
Proof. intros [a Ha]. exists (set_tcp_state n a). by rewrite lookup_alter_eq, Ha. Qed.

(** An established report: the header is in the packet, the reason held for
    the core [c] of entry [t], and both entries are established. *)
Definition est_reported (t x : dp_ct_key) (dir : ct_dir) (c : tcp_core) s s' : Prop :=
  l4_off (pm (xf s)) + sizeof_tcphdr ≤ pkt_len s ∧
  (∀ ts, core_of ts = c →
     est_reason (negb (nm_dsr (nm (xf s)) =? 0)) (tcp_flags (pm (xf s))) (seg_ack s) dir ts) ∧
  state_at t (ct_map s') CT_TCP_EST ∧ state_at x (ct_map s') CT_TCP_EST.

Lemma est_reason_core is_dsr flags ack dir ts ts' :
  core_of ts = core_of ts' → est_reason is_dsr flags ack dir ts → est_reason is_dsr flags ack dir ts'.
Proof.
  destruct ts as [? ? [[] []]], ts' as [? ? [[] []]]. intros [= -> -> -> -> -> ->].
  unfold est_reason. by destruct dir.
Qed.

Lemma tcp_sm_est t x dir c s :
  core_at t (ct_map s) c → is_Some (ct_map s !! x) → 0 ≤ l4_off (pm (xf s)) →
  wpf (dp_ct_tcp_sm t x dir) (λ r s', r = CT_SMR_EST → est_reported t x dir c s s') s.
Proof.
  intros Hc Hx Ho. unfold dp_ct_tcp_sm. apply wp_run, wp_bind, wp_gets, wp_bind, wp_past_end.
  unfold est_reported, seg_ack, sizeof_tcphdr, tcp_seq, tcp_ack_seq in *.
  destruct (Z.ltb_spec (pkt_len s) (l4_off (pm (xf s)) + 20)) as [Hl|Hl].
  { apply wp_bind, wp_bind, wp_modify, wp_return. intros [=]. }
  apply wp_bind, wp_ret, wp_bind, wp_load; [lia|lia|]. apply wp_bind, wp_load; [lia|lia|].
  cbv zeta. change (get_pkt s) with (lpkt s).
  set (own := if decide (dir = CT_DIR_IN) then t else x).
  assert (is_Some (ct_map s !! t)) as Ht by (destruct Hc as (a & -> & _); by eexists).
  assert (is_Some (ct_map s !! own)) as Hown by (subst own; by destruct (decide _)).
  assert (∀ f g d, core_of (d <| tcp_cts ::= upd_dir CT_DIR_IN (λ d, d <| pseq := f |> <| pack := g |>) |>)
    = core_of d) as Hpp by (by intros ? ? [? ? []]).
  apply wp_bind, wp_ct_write; [done|].
  apply wp_bind, wp_bind, wp_gets, wp_ct_write; [by apply is_Some_alter|].
  match goal with |- wpb _ _ _ ?st => set (s1 := st) end.
  assert (core_at t (ct_map s1) c) as (a & Ha & Hca).
  { do 2 (apply core_at_alter; [|intros _ a; simpl; rewrite ?Hpp; done]). done. }
  assert (is_Some (ct_map s1 !! x)) as Hx1 by (by do 2 apply is_Some_alter).
  clearbody s1. apply wp_bind, wp_bind, wp_ct_read with a; [done|].
  match goal with |- context [tcp_switch ?d ?f ?sq ?ak dir ?ts] =>
    destruct (tcp_switch_total d f sq ak dir ts) as (n & ts' & Hsw); rewrite Hsw end.
  apply wp_bind, wp_ct_write; [by rewrite Ha|]. apply wp_ret.
  apply wp_bind, wp_ct_write; [apply is_Some_alter; by rewrite Ha|].
  apply wp_bind, wp_ct_write; [by do 2 apply is_Some_alter|].
  match goal with |- wpb _ _ _ ?st => set (s2 := st) end.
  assert (state_at t (ct_map s2) n ∧ state_at x (ct_map s2) n) as [Ht2 Hx2].
  { split; [apply state_at_alter; [|done]|]; apply state_at_set; simpl;
      repeat apply is_Some_alter; [by rewrite Ha|done]. }
  clearbody s2.
  assert (∀ s3, state_at t (ct_map s3) n → state_at x (ct_map s3) n → tcp_smr n = CT_SMR_EST →
    l4_off (pm (xf s)) + 20 ≤ pkt_len s ∧
    (∀ ts, core_of ts = c → est_reason (negb (nm_dsr (nm (xf s)) =? 0)) (tcp_flags (pm (xf s)))
       (bpf_ntohl (le_val (slice (Z.to_nat (l4_off (pm (xf s)) + 8)) 4 (lpkt s)))) dir ts) ∧
    state_at t (ct_map s3) CT_TCP_EST ∧ state_at x (ct_map s3) CT_TCP_EST) as Hend.
  { intros s3 Ht3 Hx3 ->%tcp_smr_est. split; [done|]. split; [|done]. intros ts Hts.
    apply tcp_switch_est in Hsw. eapply est_reason_core; [|exact Hsw]. congruence. }
  apply wp_bind, wp_when; intros _; [apply wp_ct_write|]; [by destruct Hx2 as (? & -> & _)|..];
    apply wp_ret; apply Hend; try apply state_at_alter; done.
Qed.

Lemma sm_est t x dir c s :
  core_at t (ct_map s) c → is_Some (ct_map s !! x) → 0 ≤ l4_off (pm (xf s)) →
  nw_proto (l34m (xf s)) = IPPROTO_TCP →
  wpf (dp_ct_sm t x dir) (λ r s', r = CT_SMR_EST → est_reported t x dir c s s') s.
Proof.
  intros Hc Hx Ho Hp. assert (is_Some (ct_map s !! t)) as Ht
    by (destruct Hc as (a & -> & _); by eexists).
  unfold dp_ct_sm. apply wp_run, wp_bind, wp_gets, wp_bind, wp_when; intros _.
  { apply wp_bind, wp_ct_write; [done|]. by apply wp_return. }
  apply wp_bind, wp_ct_write; [done|]. cbv zeta. rewrite Hp. simpl (_ =? _). cbv iota.
  apply wp_call. eapply wpf_mono; [apply (tcp_sm_est t x dir c)|].
  - by apply core_at_alter.
  - by apply is_Some_alter.
  - done.
  - done.
Qed.

(** The entry of the initiator among those of a packet and of its reply. *)
Definition initiator (a b : dp_ct_tact) : dp_ct_tact :=
  if decide (d_dir (ctd a) = CT_DIR_IN) then a else b.

(** A segment that establishes the connection with entries [a] and [b]: its
    header is in the packet, there is a reason, and both entries are then in
    the established state. *)
Definition established_by (key xkey : dp_ct_key) (a b : dp_ct_tact) s s' : Prop :=
  l4_off (pm (xf s)) + sizeof_tcphdr ≤ pkt_len s ∧
  est_reason (negb (nm_dsr (nm (xf s)) =? 0)) (tcp_flags (pm (xf s))) (seg_ack s)
    (d_dir (ctd a)) (pi_t (d_pi (ctd (initiator a b)))) ∧
  state_at key (ct_map s') CT_TCP_EST ∧ state_at xkey (ct_map s') CT_TCP_EST.

Lemma ct_in_track_est m key xkey a b s :
  ct_map s !! key = Some a → ct_map s !! xkey = Some b → 0 ≤ l4_off (pm (xf s)) →
  nw_proto (l34m (xf s)) = IPPROTO_TCP →
  wpf (ct_in_track m key xkey) (λ r s', r = CT_SMR_EST → established_by key xkey a b s s') s.
Proof.
  intros Ha Hb Ho Hp. unfold ct_in_track. apply wp_run, wp_bind.
  unfold ktime_ns, wpb at 1. destruct (lx_ktime (lkern s)) as [now κ].
  apply wp_bind, wp_ct_write; [by simpl; rewrite Ha|].
  apply wp_bind, wp_ct_read with (a <| lts := now |>); [by simpl; rewrite lookup_alter_eq, Ha|].
  apply wp_bind, wp_ct_write; [apply is_Some_alter; by simpl; rewrite Hb|].
  match goal with |- wpb _ _ _ ?st => set (s1 := st) end.
  assert (∀ k e, (k = key ∧ e = a ∨ k = xkey ∧ e = b) →
    core_at k (ct_map s1) (core_of (pi_t (d_pi (ctd e)))) ∧ is_Some (ct_map s1 !! k)) as Hat.
  { intros k e Hk. assert (ct_map s !! k = Some e) as He by (by destruct Hk as [[-> ->]|[-> ->]]).
    split; [|do 2 apply is_Some_alter; by simpl; rewrite He].
    do 2 (apply core_at_alter; [|done]). by exists e. }
  assert (xf s1 = xf s ∧ lpkt s1 = lpkt s) as [Ex El] by done. clearbody s1.
  assert (∀ t x e, (t = key ∧ e = a ∧ x = xkey ∨ t = xkey ∧ e = b ∧ x = key) →
    wpf (dp_ct_sm t x (d_dir (ctd a))) (λ r s', r = CT_SMR_EST →
      est_reported t x (d_dir (ctd a)) (core_of (pi_t (d_pi (ctd e)))) s1 s') s1) as Hsm.
  { intros t x e Htx. apply sm_est.
    - apply Hat. destruct Htx as [(-> & -> & _)|(-> & -> & _)]; auto.
    - destruct Htx as [(_ & _ & ->)|(_ & _ & ->)]; [apply (Hat xkey b)|apply (Hat key a)]; auto.
    - by rewrite Ex.
    - by rewrite Ex. }
  assert (∀ t x e r s2, (t = key ∧ e = a ∧ x = xkey ∨ t = xkey ∧ e = b ∧ x = key) →
    initiator a b = e →
    (r = CT_SMR_EST → est_reported t x (d_dir (ctd a)) (core_of (pi_t (d_pi (ctd e)))) s1 s2) →
    r = CT_SMR_EST → established_by key xkey a b s s2) as Hrep.
  { intros t x e r s2 Htx He Hr HE. destruct (Hr HE) as (Hl & Hre & Ht & Hx).
    unfold established_by, seg_ack, pkt_len in *. simpl in *. rewrite Ex, El, He in *.
    split; [done|]. split; [by apply Hre|].
    by destruct Htx as [(-> & _ & ->)|(-> & _ & ->)]. }
  apply wp_bind. change (d_dir (ctd (a <| lts := now |>))) with (d_dir (ctd a)).
  assert (wpb (if decide (d_dir (ctd a) = CT_DIR_IN) then call (dp_ct_sm key xkey CT_DIR_IN)
      else call (dp_ct_sm xkey key CT_DIR_OUT))
    (λ r s', r = CT_SMR_EST → established_by key xkey a b s s')
    (λ r s', r = CT_SMR_EST → established_by key xkey a b s s') s1) as Hcall.
  { unfold initiator in Hrep. destruct (decide _) as [Hd|Hd].
    - apply wp_call. rewrite <-Hd. eapply wpf_mono; [apply (Hsm key xkey a); auto|].
      intros r s2. apply Hrep; auto.
    - apply wp_call. replace CT_DIR_OUT with (d_dir (ctd a)) by (by destruct (d_dir (ctd a))).
      eapply wpf_mono; [apply (Hsm xkey key b); auto|]. intros r s2. apply Hrep; auto. }
  eapply wpb_mono; [exact Hcall|done|]. clear. intros r s2 Hr. cbv beta in *. apply wp_bind.
  destruct (Z.eqb_spec r CT_SMR_EST) as [HE|HE].
  - destruct (Hr HE) as (Hl & Hre & Hk & Hx). apply wp_bind, wp_gets.
    assert (is_Some (ct_map s2 !! key) ∧ is_Some (ct_map s2 !! xkey)) as [? ?]
      by (by destruct Hk as (? & -> & _), Hx as (? & -> & _)).
    apply wp_if; intros _; (apply wp_bind, wp_ct_write; [done|]);
      (apply wp_ct_write; [by apply is_Some_alter|]); apply wp_ret; intros _;
      (split; [done|]); (split; [done|]); split; by do 2 (apply state_at_alter; [|done]).
  - unfold ct_delete. apply wp_when; intros _; wp_steps; by intros ?.
Qed.

Lemma sm_core t x dir m key flags seq ack c c' s :
  t ≠ x → core_at t (ct_map s) c → is_Some (ct_map s !! x) →
  segment m (xf s) key flags seq ack → lpkt s = m →
  core_step flags seq ack dir c c' →
  wpf (dp_ct_sm t x dir) (λ r s', r = tcp_smr (c_state c') ∧ core_at t (ct_map s') c' ∧
    sm_frame IPPROTO_TCP t x s s') s.
Proof.
  intros Hne Hc Hx Hsg Hm Hstep. pose proof Hsg as [_ Hp Ho _ _ _ _ _ _].
  assert (is_Some (ct_map s !! t)) as Ht by (destruct Hc as (a & -> & _); by eexists).
  eapply wpf_mono.
  - apply wpf_and; [|apply dp_ct_sm_frame; [exact Ht|exact Hx|lia]].
    instantiate (1 := λ r s', r = tcp_smr (c_state c') ∧ core_at t (ct_map s') c').
    unfold dp_ct_sm. apply wp_run, wp_bind, wp_gets. rewrite Hp.
    rewrite (proj2 (Z.eqb_neq _ 0)) by lia. apply wp_bind, wp_ret.
    apply wp_bind, wp_ct_write; [done|]. cbv zeta. simpl (_ =? _). cbv iota.
    apply wp_call, tcp_sm_core with m flags seq ack c; try done.
    + by apply core_at_alter.
    + by apply is_Some_alter.
    + by destruct Hsg.
  - intros r s' [[-> Hc'] [_ Hf]]. by rewrite Hp in Hf.
Qed.

Lemma frame_lookup t x s s' k a :
  sm_frame IPPROTO_TCP t x s s' → ct_map s !! k = Some a →
  ∃ a', ct_map s' !! k = Some a' ∧ d_dir (ctd a') = d_dir (ctd a).
Proof.
  intros [_ Hm] Ha. specialize (Hm k). rewrite Ha in Hm.
  destruct (ct_map s' !! k) as [a'|]; [|done]. exists a'. split; [done|].
  destruct Hm as [[-> _] _]. done.
Qed.

(** The action type of both entries. *)
Definition acts (k rk : dp_ct_key) (v : Z) s : Prop :=
  ∀ k', k' = k ∨ k' = rk → ∃ a, ct_map s !! k' = Some a ∧ act_type (ca a) = v.

Definition dir_keys (dir : ct_dir) (k rk : dp_ct_key) : dp_ct_key * dp_ct_key :=
  match dir with CT_DIR_IN => (k, rk) | CT_DIR_OUT => (rk, k) end.

Lemma conn_alter k rk c s k' f :
  (∀ a, d_dir (ctd (f a)) = d_dir (ctd a)) →
  (∀ a, core_of (pi_t (d_pi (ctd (f a)))) = core_of (pi_t (d_pi (ctd a)))) →
  conn k rk c s → conn k rk c (s <| ct_map ::= alter f k' |>).
Proof.
  intros Hd Hf (a & b & Ha & Hb & Da & Db & Hc).
  exists (if decide (k' = k) then f a else a), (if decide (k' = rk) then f b else b).
  simpl. do 2 case_decide; subst; rewrite ?lookup_alter_eq, ?lookup_alter_ne by done;
    rewrite ?Ha, ?Hb, ?Hd, ?Hf; simplify_eq/=; rewrite ?Hd, ?Hf; done.
Qed.

Lemma acts_alter k rk v (s : lstate K) (f : dp_ct_tact → dp_ct_tact) :
  k ≠ rk → is_Some (ct_map s !! k) → is_Some (ct_map s !! rk) →
  (∀ a, act_type (ca (f a)) = v) →
  acts k rk v (s <| ct_map ::= alter f k |> <| ct_map ::= alter f rk |>).
Proof.
  intros Hne [a Ha] [b Hb] Hf k' [-> | ->]; simpl.
  - exists (f a). by rewrite lookup_alter_ne, lookup_alter_eq, Ha.
  - exists (f b). by rewrite lookup_alter_eq, lookup_alter_ne, Hb.
Qed.

(** After a segment: the core has moved, and an established flow without NAT
    needs no further tracking. *)
Definition conn_after (k rk : dp_ct_key) (c' : tcp_core) (r : Z) s : Prop :=
  r = tcp_smr (c_state c') ∧
  (r ≠ CT_SMR_ERR → r ≠ CT_SMR_CTD → conn k rk c' s) ∧
  (r = CT_SMR_EST → acts k rk DP_SET_NOP s).

Lemma track_finish_conn dir k rk c' r (s2 : lstate K) :
  k ≠ rk → nat_flags (d_xi (ctd (xctk_0 s2))) = 0 →
  r = tcp_smr (c_state c') → conn k rk c' s2 →
  let '(key, xkey) := dir_keys dir k rk in
  wpb ((if r =? CT_SMR_EST then
     let! adat := gets xctk_0 in
     if negb (nat_flags (d_xi (ctd adat)) =? 0) then
       ct_write key (λ a, a <| nat_act; na_doct := 0 |>) ;;
       ct_write xkey (λ a, a <| nat_act; na_doct := 0 |>)
     else
       ct_write key (λ a, a <| ca; act_type := DP_SET_NOP |>) ;;
       ct_write xkey (λ a, a <| ca; act_type := DP_SET_NOP |>)
   else when ((r =? CT_SMR_ERR) || (r =? CT_SMR_CTD))
     (ct_delete xkey ;; ct_delete key)) ;;
   ret r) (conn_after k rk c') (conn_after k rk c') s2.
Proof.
  intros Hne Hnf Hr Hc.
  assert (is_Some (ct_map s2 !! k) ∧ is_Some (ct_map s2 !! rk)) as [Hk Hrk]
    by (destruct Hc as (a & b & -> & -> & _); by split; eexists).
  destruct (dir_keys dir k rk) as [key xkey] eqn:Ek.
  assert (is_Some (ct_map s2 !! key) ∧ is_Some (ct_map s2 !! xkey)) as [Hk' Hxk']
    by (by destruct dir; simplify_eq/=).
  apply wp_bind. destruct (Z.eqb_spec r CT_SMR_EST) as [HE|HE].
  - apply wp_bind, wp_gets. rewrite Hnf. simpl negb. cbv iota.
    apply wp_bind, wp_ct_write; [done|]. apply wp_ct_write; [by apply is_Some_alter|].
    apply wp_ret. split; [done|]. split.
    + intros _ _. do 2 (apply conn_alter; [done|done|]). done.
    + intros _. destruct dir; simplify_eq/=; [by apply acts_alter|].
      intros k' Hk2. apply or_comm in Hk2. revert k' Hk2. by apply acts_alter.
  - unfold ct_delete. apply wp_when; intros Hd; wp_steps.
    + apply orb_true_iff in Hd as [Hd%Z.eqb_eq|Hd%Z.eqb_eq];
        (split; [done|]); split; intros; congruence.
    + split; [done|]. split; [done|]. intros; congruence.
Qed.

Lemma track_conn dir m mx flags seq ack k rk c c' s :
  k ≠ rk → conn k rk c s → nat_flags (d_xi (ctd (xctk_0 s))) = 0 →
  segment m (xf s) (dir_keys dir k rk).1 flags seq ack → lpkt s = m →
  core_step flags seq ack dir c c' →
  wpf (ct_in_track mx (dir_keys dir k rk).1 (dir_keys dir k rk).2) (conn_after k rk c') s.
Proof.
  intros Hne Hc Hnf Hsg Hm Hstep. pose proof (track_finish_conn dir k rk c') as Hfin.
  destruct (dir_keys dir k rk) as [key xkey] eqn:Ek. simpl.
  assert (∀ s, conn k rk c s → is_Some (ct_map s !! key) ∧ is_Some (ct_map s !! xkey)) as Hsome.
  { intros s1 (a & b & Ha & Hb & _). destruct dir; simplify_eq/=; rewrite Ha, Hb; split; by eexists. }
  unfold ct_in_track. apply wp_run, wp_bind.
  unfold ktime_ns, wpb at 1. destruct (lx_ktime (lkern s)) as [now κ].
  assert (conn k rk c (s <| lkern := κ |>)) as Hc0 by done.
  apply wp_bind, wp_ct_write; [by apply Hsome in Hc as [? _]|].
  apply (conn_alter _ _ _ _ key (λ a, a <| lts := now |>)) in Hc0; [|done..].
  match goal with |- wpb _ _ _ ?st => set (s1 := st) in * end.
  assert (xctk_0 s1 = xctk_0 s ∧ xf s1 = xf s ∧ lpkt s1 = lpkt s) as (Ex1&Ef1&El1) by done.
  clearbody s1. destruct (Hsome s1 Hc0) as [[a Ha] Hxk].
  apply wp_bind, wp_ct_read with a; [done|]. apply wp_bind, wp_ct_write; [done|].
  assert (d_dir (ctd a) = dir) as Hdir.
  { destruct Hc0 as (a0 & b0 & Ha0 & Hb0 & Da & Db & _). destruct dir; simplify_eq/=; done. }
  apply (conn_alter _ _ _ _ xkey (λ b, b <| lts := lts a |>)) in Hc0; [|done..].
  match goal with |- wpb _ _ _ ?st => set (s2 := st) in * end.
  assert (xctk_0 s2 = xctk_0 s ∧ xf s2 = xf s ∧ lpkt s2 = lpkt s) as (Ex2&Ef2&El2)
    by (by rewrite <-Ex1, <-Ef1, <-El1).
  clearbody s2. clear s1 Ha Hxk Ex1 Ef1 El1.
  apply wp_bind. rewrite Hdir.
  assert (wpf (dp_ct_sm k rk dir) (λ r s', r = tcp_smr (c_state c') ∧
    conn k rk c' s' ∧ xctk_0 s' = xctk_0 s) s2) as Hsm.
  { pose proof Hc0 as (a1 & b1 & Ha1 & Hb1 & Da & Db & Hcc).
    eapply wpf_mono; [apply (sm_core k rk dir m key flags seq ack c c')|].
    - done.
    - exists a1. done.
    - by rewrite Hb1.
    - by rewrite Ef2.
    - by rewrite El2.
    - done.
    - intros r s' (-> & (a' & Ha' & Hc') & Hf). split; [done|].
      destruct (frame_lookup _ _ _ _ k a1 Hf Ha1) as (a2 & Ha2 & Da2).
      destruct (frame_lookup _ _ _ _ rk b1 Hf Hb1) as (b2 & Hb2 & Db2).
      split; [exists a2, b2; simplify_eq/=; by rewrite Da2, Db2|].
      destruct Hf as [-> _]. by rewrite <-Ex2. }
  assert (wpb (if decide (dir = CT_DIR_IN) then call (dp_ct_sm key xkey CT_DIR_IN)
      else call (dp_ct_sm xkey key CT_DIR_OUT)) (conn_after k rk c') (λ r s',
    r = tcp_smr (c_state c') ∧ conn k rk c' s' ∧ xctk_0 s' = xctk_0 s) s2) as Hcall.
  { destruct dir; simplify_eq/=; by apply wp_call. }
  eapply wpb_mono; [exact Hcall|done|].
  intros r s3 (Hr & Hc3 & Ex3). apply Hfin; [done|by rewrite Ex3|done|done].
Qed.

Lemma rev_rev_key k : rev_key (rev_key k) = k.
Proof. by destruct k. Qed.
Lemma dir_keys_rev dir k : (dir_keys dir k (rev_key k)).2 = rev_key (dir_keys dir k (rev_key k)).1.
Proof. destruct dir; [done|]. simpl. by rewrite rev_rev_key. Qed.

(** Without NAT and direct server return there is nothing to transform. *)
Lemma segment_xi m x k flags seq ack xi xxi :
  segment m x k flags seq ack →
  dp_ct_proto_xfk_init k (ct_in_xi x xi) xxi = (ct_in_xi x xi, rev_key k, xxi) ∧
  nat_flags (ct_in_xi x xi) = 0.
Proof.
  intros [_ _ _ _ _ Hnf Hdsr _ _].
  unfold dp_ct_proto_xfk_init, ct_in_xi. rewrite Hnf. simpl. rewrite Hdsr. done.
Qed.

Definition core_zero : tcp_core := Core 0 CT_DIR_IN 0 0 0 0.

Lemma wp_ct_update_room {R} k v QR (QN : unit → lstate K → Prop) s :
  room → (∀ κ, QN tt (s <| ct_map ::= <[k := v]> |> <| lkern := κ |>)) →
  wpb (R := R) (ct_update k v) QR QN s.
Proof.
  intros Hroom HQ. unfold wpb, ct_update. specialize (Hroom k v (ct_map s) (lkern s)).
  destruct (lx_ct_update k v (ct_map s) (lkern s)) as [t κ]. simpl in Hroom.
  subst t. apply HQ.
Qed.

Lemma ct_in_act_dir x xi n a : d_dir (ctd (ct_in_act x xi n a)) = d_dir (ctd a).
Proof. unfold ct_in_act. by destruct (negb _). Qed.
Lemma ct_in_act_xi x xi n a : d_xi (ctd (ct_in_act x xi n a)) = d_xi (ctd a).
Proof. unfold ct_in_act. by destruct (negb _). Qed.

Lemma ct_in_new_conn x k s :
  room → k ≠ rev_key k → nat_flags (d_xi (ctd (xctk_0 s))) = 0 →
  wpf (ct_in_new x k (rev_key k)) (λ _ s', conn k (rev_key k) core_zero s' ∧
    nat_flags (d_xi (ctd (xctk_0 s'))) = 0 ∧ xf s' = xf s ∧ lpkt s' = lpkt s) s.
Proof.
  intros Hroom Hne Hnf. unfold ct_in_new. wp_steps.
  eapply wpf_mono; [apply newctr_spec|]. intros ctr s1 [c ->]. cbv beta. wp_steps.
  apply wp_ct_update_room; [done|]. intros κ1. wp_step.
  apply wp_ct_update_room; [done|]. intros κ2. wp_step. simpl.
  split; [|split; [by rewrite ct_in_act_xi|done]].
  eexists _, _. simpl. rewrite lookup_insert_eq.
  rewrite lookup_insert_ne, lookup_insert_eq by done.
  split; [done|]. split; [done|]. simpl. split; [done|]. split; [done|].
  by rewrite ct_in_act_pi.
Qed.

(** The flow is tracked in core [c], or its first packet arrives. *)
Definition conn_before (dir : ct_dir) (k : dp_ct_key) (c : tcp_core) s : Prop :=
  conn k (rev_key k) c s ∨
  dir = CT_DIR_IN ∧ c = core_zero ∧ ct_map s !! k = None ∧ room.

Lemma ct_in_conn dir m flags seq ack k c c' s :
  k ≠ rev_key k → conn_before dir k c s →
  segment m (xf s) (dir_keys dir k (rev_key k)).1 flags seq ack → lpkt s = m →
  core_step flags seq ack dir c c' →
  wpf dp_ct_in (conn_after k (rev_key k) c') s.
Proof.
  intros Hne Hc Hsg Hm Hstep.
  unfold dp_ct_in. apply wp_run, wp_bind, wp_gets.
  pose proof (sg_key _ _ _ _ _ _ Hsg) as ->. pose proof (sg_proto _ _ _ _ _ _ Hsg) as Hp.
  pose proof (sg_key _ _ _ _ _ _ Hsg) as Hk. rewrite <-Hk at 1. simpl k_l4proto. rewrite Hp.
  apply wp_bind, wp_ret. apply wp_bind, wp_modify, wp_bind, wp_gets, wp_bind, wp_gets.
  destruct (segment_xi m _ _ _ _ _ (d_xi (ctd (xctk_0 s)))
    (ct_in_xxi (d_xi (ctd (xctk_1 s)))) Hsg) as [Hxi Hnf].
  simpl d_xi. rewrite Hxi, <-dir_keys_rev.
  apply wp_bind, wp_modify, wp_bind, wp_gets, wp_bind, wp_gets, wp_bind.
  match goal with |- wpb _ _ _ ?st => set (s1 := st) end.
  assert (ct_map s1 = ct_map s ∧ xf s1 = xf s ∧ lpkt s1 = lpkt s ∧
    nat_flags (d_xi (ctd (xctk_0 s1))) = 0) as (Em&Ef&El&En) by done.
  assert (conn_before dir k c s1) as Hc1.
  { destruct Hc as [(a&b&?)|?]; [left; exists a, b; by rewrite Em|right; by rewrite Em]. }
  clearbody s1. clear Hc. rewrite <-Ef in Hsg. rewrite <-El in Hm.
  assert (∀ s2, conn k (rev_key k) c s2 → nat_flags (d_xi (ctd (xctk_0 s2))) = 0 →
    xf s2 = xf s1 → lpkt s2 = lpkt s1 →
    wpb (let! atdat := ct_lookup (dir_keys dir k (rev_key k)).1 in
      let! axtdat := ct_lookup (dir_keys dir k (rev_key k)).2 in
      match atdat, axtdat with
      | Some _, Some _ => call (ct_in_track (xf s)
          (dir_keys dir k (rev_key k)).1 (dir_keys dir k (rev_key k)).2)
      | _, _ => ret CT_SMR_ERR
      end) (conn_after k (rev_key k) c') (conn_after k (rev_key k) c') s2) as Hrest.
  { intros s2 Hc2 Hn2 Ex El2. do 2 (apply wp_bind, wp_gets).
    assert (∃ a b, ct_map s2 !! (dir_keys dir k (rev_key k)).1 = Some a ∧
      ct_map s2 !! (dir_keys dir k (rev_key k)).2 = Some b) as (a & b & -> & ->).
    { destruct Hc2 as (a & b & Ha & Hb & _). destruct dir; simpl; eauto. }
    apply wp_call, track_conn with m flags seq ack c; try done; congruence. }
  destruct Hc1 as [Hc1|(-> & -> & Hnone & Hroom)].
  - assert (∃ a b, ct_map s1 !! (dir_keys dir k (rev_key k)).1 = Some a ∧
      ct_map s1 !! (dir_keys dir k (rev_key k)).2 = Some b) as (a & b & -> & ->).
    { destruct Hc1 as (a & b & Ha & Hb & _). destruct dir; simpl; eauto. }
    apply wp_ret. by apply Hrest.
  - simpl dir_keys. simpl fst. simpl snd. rewrite Hnone. apply wp_call.
    eapply wpf_mono; [by apply ct_in_new_conn|].
    intros _ s2 (?&?&?&?). by apply Hrest.
Qed.

(** C31: When the tracker reports a TCP packet established, the flow was in the
    table or has just been created there, the packet holds a TCP header, and its
    flags and acknowledgement number together with the connection's protocol
    data are one of the documented reasons; both entries are then in the
    established state. *)
Theorem tcp_established_only s s' :
  0 ≤ l4_off (pm (xf s)) → nw_proto (l34m (xf s)) = IPPROTO_TCP →
  dp_ct_in s = Some (CT_SMR_EST, s') →
  let key := CT_KEY_GEN (xf s) in
  let xkey := ct_xkey (xf s) in
  ∃ m2 a b, flow_opened (K := K) key xkey (ct_map s) m2 ∧
    m2 !! key = Some a ∧ m2 !! xkey = Some b ∧ established_by key xkey a b s s'.
Proof.
  intros Ho Hp E key xkey.
  enough (wpf dp_ct_in (λ r s', r = CT_SMR_EST →
    ∃ m2 a b, flow_opened (K := K) key xkey (ct_map s) m2 ∧
      m2 !! key = Some a ∧ m2 !! xkey = Some b ∧ established_by key xkey a b s s') s) as Hw
    by exact (wpf_result _ _ _ _ _ E Hw eq_refl).
  apply wp_dp_ct_in; [by rewrite Hp|]. fold key xkey. intros s2 (El & _) Ex Hopen.
  destruct (ct_map s2 !! key) as [a|] eqn:Ha, (ct_map s2 !! xkey) as [b|] eqn:Hb;
    [|discriminate..].
  eapply wpf_mono; [apply (ct_in_track_est _ _ _ a b); rewrite ?Ex; done|].
  intros r s3 Hr HE. exists (ct_map s2), a, b. do 3 (split; [done|]).
  destruct (Hr HE) as (?&?&?). unfold established_by, seg_ack, pkt_len in *. simpl in *.
  by rewrite Ex, El in *.
Qed.
End sm.

(** One step of the machine, by symbolic execution. *)
Lemma core_step_wp flags seq ack dir c c' :
  (∀ ts, core_of ts = c →
     wpf (tcp_switch false flags seq ack dir)
       (λ n ts', n = c_state c' ∧ core_of (ts' <| t_state := n |>) = c') ts) →
  core_step flags seq ack dir c c'.
Proof.
  intros Hw ts Hts. specialize (Hw ts Hts).
  apply wpf_elim in Hw as (n & ts' & E & -> & Hc). eauto.
Qed.

Ltac core_step_tac :=
  apply core_step_wp;
  intros [st fn [[h1 a1 q1 p1 r1] [h2 a2 q2 p2 r2]]] Hts;
  unfold core_of, core_zero in Hts; simplify_eq/=;
  unfold tcp_switch, tcp_closed, tcp_ss, tcp_sa, tcp_est, tcp_fini, tcp_fini2, tcp_fini3,
    td_set_seq, td, rtd;
  repeat (wp_step; simpl; rewrite ?Z.eqb_refl, ?andb_false_r in *; try discriminate);
  try done.

Definition SYNACK : Z := Z.lor LLB_TCP_SYN LLB_TCP_ACK.
Definition FINACK : Z := Z.lor LLB_TCP_FIN LLB_TCP_ACK.

Lemma core_syn x a :
  core_step LLB_TCP_SYN x a CT_DIR_IN core_zero (Core CT_TCP_SS CT_DIR_IN 0 x 0 0).
Proof. core_step_tac. Qed.
Lemma core_synack x y :
  core_step SYNACK y (u32 (x + 1)) CT_DIR_OUT
    (Core CT_TCP_SS CT_DIR_IN 0 x 0 0) (Core CT_TCP_SA CT_DIR_IN 0 x 0 y).
Proof. core_step_tac. Qed.
Lemma core_ack x y :
  core_step LLB_TCP_ACK (u32 (x + 1)) (u32 (y + 1)) CT_DIR_IN
    (Core CT_TCP_SA CT_DIR_IN 0 x 0 y) (Core CT_TCP_EST CT_DIR_IN 0 (u32 (x + 1)) 0 y).
Proof. core_step_tac. Qed.
(** The close: direction [d] sends its FIN with sequence number [f], the other
    side answers with its own, [g]. *)
Lemma core_fin d f p c :
  c_state c = CT_TCP_EST →
  core_step FINACK f p d c
    (match d with
     | CT_DIR_IN => Core CT_TCP_FINI d (c_acks_in c) f (c_acks_out c) (c_seq_out c)
     | CT_DIR_OUT => Core CT_TCP_FINI d (c_acks_in c) (c_seq_in c) (c_acks_out c) f
     end).
Proof. destruct c as [st fnd ai qi ao qo], d; simpl; intros ->; core_step_tac. Qed.
Lemma core_finack d f g ai qi ao qo :
  match d with CT_DIR_IN => qi | CT_DIR_OUT => qo end = f →
  core_step FINACK g (u32 (f + 1)) (rev_dir d) (Core CT_TCP_FINI d ai qi ao qo)
    (match d with
     | CT_DIR_IN => Core CT_TCP_FINI3 d ai qi ao g
     | CT_DIR_OUT => Core CT_TCP_FINI3 d ai g ao qo
     end).
Proof. destruct d; simpl; intros ->; core_step_tac. Qed.
Lemma core_lastack d f g ai qi ao qo :
  match d with CT_DIR_IN => qo | CT_DIR_OUT => qi end = g →
  core_step LLB_TCP_ACK f (u32 (g + 1)) d (Core CT_TCP_FINI3 d ai qi ao qo)
    (Core CT_TCP_CW d ai qi ao qo).
Proof. destruct d; simpl; intros ->; core_step_tac. Qed.

Section life.
Context {K : Type} `{LoxiEnvLaws K}.
Implicit Types s : lstate K.

(** A packet with its metadata reaches the tracker. *)
Definition receive (p : list Z * xfi) : func (lstate K) Z :=
  λ s, dp_ct_in (s <| lpkt := p.1 |> <| xf := p.2 |>).
Definition is_segment (p : list Z * xfi) := segment p.1 p.2.

Lemma receive_conn dir p flags seq ack k c c' s :
  k ≠ rev_key k → conn_before dir k c s →
  is_segment p (dir_keys dir k (rev_key k)).1 flags seq ack →
  core_step flags seq ack dir c c' →
  ∃ s', receive p s = Some (tcp_smr (c_state c'), s') ∧
    (tcp_smr (c_state c') ≠ CT_SMR_ERR → tcp_smr (c_state c') ≠ CT_SMR_CTD →
       conn_before dir k c' s' ∧ conn k (rev_key k) c' s') ∧
    (tcp_smr (c_state c') = CT_SMR_EST → acts k (rev_key k) DP_SET_NOP s').
Proof.
  intros Hne Hc Hsg Hstep.
  pose (s0 := s <| lpkt := p.1 |> <| xf := p.2 |>).
  assert (wpf dp_ct_in (conn_after k (rev_key k) c') s0) as Hw.
  { apply ct_in_conn with dir p.1 flags seq ack c; done. }
  apply wpf_elim in Hw as (r & s' & E & -> & H1 & H2).
  exists s'. split; [exact E|]. split; [|exact H2].
  intros N1 N2. specialize (H1 N1 N2). split; [by left|done].
Qed.

(** A segment after which the connection is closed removes both entries. *)
Lemma receive_ctd p key flags seq ack s s' :
  is_segment p key flags seq ack → receive p s = Some (CT_SMR_CTD, s') →
  ct_map s' !! key = None ∧ ct_map s' !! rev_key key = None.
Proof.
  intros Hsg E. pose proof (segment_xkey _ _ _ _ _ _ Hsg) as Hx.
  destruct Hsg as [Hk Hp Ho _ _ _ _ _ _].
  assert (0 ≤ l4_off (pm (xf (s <| lpkt := p.1 |> <| xf := p.2 |>)))) as Ho'
    by (simpl; apply Z.lt_le_incl, Ho).
  pose proof (wpf_result _ _ _ _ _ E (dp_ct_in_post _ Ho')) as (_ & _ & _ & Hw).
  simpl in Hw. rewrite Hp, Hk, Hx in Hw.
  destruct Hw as [_ (m2 & _ & Hw)]. unfold flow_outcome in Hw.
  destruct (m2 !! key), (m2 !! rev_key key); [exact Hw|by destruct Hw..].
Qed.

(** C35: A three-way handshake establishes the connection, for any initial
    sequence numbers modulo 2^32: the tracker reports it in progress twice,
    then established, and from then on both directions are forwarded without
    further tracking. *)
Theorem tcp_handshake_establishes k x y a p1 p2 p3 s :
  room (K := K) → k ≠ rev_key k → ct_map s !! k = None →
  is_segment p1 k LLB_TCP_SYN x a →
  is_segment p2 (rev_key k) SYNACK y (u32 (x + 1)) →
  is_segment p3 k LLB_TCP_ACK (u32 (x + 1)) (u32 (y + 1)) →
  ∃ s1 s2 s3, receive p1 s = Some (CT_SMR_INPROG, s1) ∧
    receive p2 s1 = Some (CT_SMR_INPROG, s2) ∧
    receive p3 s2 = Some (CT_SMR_EST, s3) ∧
    conn k (rev_key k) (Core CT_TCP_EST CT_DIR_IN 0 (u32 (x + 1)) 0 y) s3 ∧
    acts k (rev_key k) DP_SET_NOP s3.
Proof.
  intros Hroom Hne Hnone H1 H2 H3.
  destruct (receive_conn CT_DIR_IN p1 _ _ _ k core_zero _ s Hne (or_intror
    (conj eq_refl (conj eq_refl (conj Hnone Hroom)))) H1 (core_syn x a)) as (s1 & E1 & C1 & _).
  destruct C1 as [_ C1]; [done|done|].
  destruct (receive_conn CT_DIR_OUT p2 _ _ _ k _ _ s1 Hne (or_introl C1) H2
    (core_synack x y)) as (s2 & E2 & C2 & _).
  destruct C2 as [_ C2]; [done|done|].
  destruct (receive_conn CT_DIR_IN p3 _ _ _ k _ _ s2 Hne (or_introl C2) H3
    (core_ack x y)) as (s3 & E3 & C3 & A3).
  destruct C3 as [_ C3]; [done|done|]. exists s1, s2, s3.
  split; [exact E1|]. split; [exact E2|]. split; [exact E3|]. split; [exact C3|].
  exact (A3 eq_refl).
Qed.

(** C36: An established connection that either side closes, with the other
    side's FIN acknowledging the first and the last acknowledgement in turn,
    is reported closing twice, then closed, and neither direction is in the
    table any more. *)
Theorem tcp_close_removes d k c f g h a p1 p2 p3 s :
  k ≠ rev_key k → conn k (rev_key k) c s → c_state c = CT_TCP_EST →
  let ks := dir_keys d k (rev_key k) in
  is_segment p1 ks.1 FINACK f a →
  is_segment p2 ks.2 FINACK g (u32 (f + 1)) →
  is_segment p3 ks.1 LLB_TCP_ACK h (u32 (g + 1)) →
  ∃ s1 s2 s3, receive p1 s = Some (CT_SMR_FIN, s1) ∧
    receive p2 s1 = Some (CT_SMR_FIN, s2) ∧
    receive p3 s2 = Some (CT_SMR_CTD, s3) ∧
    ct_map s3 !! k = None ∧ ct_map s3 !! rev_key k = None.
Proof.
  intros Hne Hc Hest ks H1 H2 H3.
  destruct (receive_conn d p1 _ _ _ k c _ s Hne (or_introl Hc) H1 (core_fin d f a c Hest))
    as (s1 & E1 & C1 & _).
  destruct C1 as [_ C1]; [by destruct d|by destruct d|].
  assert (ks.2 = (dir_keys (rev_dir d) k (rev_key k)).1) as Hks by (by destruct d).
  rewrite Hks in H2.
  destruct (receive_conn (rev_dir d) p2 FINACK g (u32 (f + 1)) k _
    (match d with
     | CT_DIR_IN => Core CT_TCP_FINI3 d (c_acks_in c) f (c_acks_out c) g
     | CT_DIR_OUT => Core CT_TCP_FINI3 d (c_acks_in c) g (c_acks_out c) f
     end) s1 Hne (or_introl C1) H2) as (s2 & E2 & C2 & _).
  { destruct d; [exact (core_finack CT_DIR_IN f g _ _ _ _ eq_refl)
                |exact (core_finack CT_DIR_OUT f g _ _ _ _ eq_refl)]. }
  destruct C2 as [_ C2]; [by destruct d|by destruct d|].
  destruct (receive_conn d p3 LLB_TCP_ACK h (u32 (g + 1)) k _
    (match d with
     | CT_DIR_IN => Core CT_TCP_CW d (c_acks_in c) f (c_acks_out c) g
     | CT_DIR_OUT => Core CT_TCP_CW d (c_acks_in c) g (c_acks_out c) f
     end) s2 Hne (or_introl C2) H3) as (s3 & E3 & _ & _).
  { destruct d; [exact (core_lastack CT_DIR_IN h g _ _ _ _ eq_refl)
                |exact (core_lastack CT_DIR_OUT h g _ _ _ _ eq_refl)]. }
  exists s1, s2, s3.
  split; [by destruct d|]. split; [by destruct d|].
  assert (receive p3 s2 = Some (CT_SMR_CTD, s3)) as E3' by (by destruct d).
  split; [done|]. clear E1 E2 E3 C1 C2.
  destruct (receive_ctd _ _ _ _ _ _ _ H3 E3') as [N1 N2].
  destruct d; simpl in N1, N2; rewrite ?rev_rev_key in N2; done.
Qed.
End life.

(** The connection of 10.0.0.1:4000 to 10.0.0.2:80, with initial sequence
    numbers 2^32-1 and 1000. *)
Definition ref_fwd (flags seq ack : Z) := ref_segment flags seq ack 0x0100000a 0x0200000a 4000 80.
Definition ref_bwd (flags seq ack : Z) := ref_segment flags seq ack 0x0200000a 0x0100000a 80 4000.
Definition ref_key : dp_ct_key := CT_KEY_GEN (ref_fwd 0 0 0).2.
Definition ref_idle : lstate lrefk := ref_state (ref_fwd 0 0 0).2 [].


Ltac ref_segment_tac := split; vm_compute; first [reflexivity | done].

Lemma ref_syn_segment : is_segment (ref_fwd LLB_TCP_SYN 0xffffffff 0) ref_key LLB_TCP_SYN 0xffffffff 0.
Proof. ref_segment_tac. Qed.
Lemma ref_synack_segment :
  is_segment (ref_bwd SYNACK 1000 0) (rev_key ref_key) SYNACK 1000 (u32 (0xffffffff + 1)).
Proof. ref_segment_tac. Qed.
Lemma ref_ack_segment :
  is_segment (ref_fwd LLB_TCP_ACK 0 1001) ref_key LLB_TCP_ACK (u32 (0xffffffff + 1)) (u32 (1000 + 1)).
Proof. ref_segment_tac. Qed.
Lemma ref_room : room (K := lrefk).
Proof. done. Qed.
Lemma ref_key_rev : ref_key ≠ rev_key ref_key.
Proof. discriminate. Qed.

Lemma tcp_handshake_establishes_witness :
  ∃ s1 s2 s3, receive (ref_fwd LLB_TCP_SYN 0xffffffff 0) ref_idle = Some (CT_SMR_INPROG, s1) ∧
    receive (ref_bwd SYNACK 1000 0) s1 = Some (CT_SMR_INPROG, s2) ∧
    receive (ref_fwd LLB_TCP_ACK 0 1001) s2 = Some (CT_SMR_EST, s3) ∧
    conn ref_key (rev_key ref_key) (Core CT_TCP_EST CT_DIR_IN 0 0 0 1000) s3 ∧
    acts ref_key (rev_key ref_key) DP_SET_NOP s3.
Proof.
  exact (tcp_handshake_establishes ref_key 0xffffffff 1000 0 _ _ _ ref_idle ref_room
    ref_key_rev eq_refl ref_syn_segment ref_synack_segment ref_ack_segment).
Defined.

(** The same connection established, both entries in place; then closed by
    its initiator. *)
Definition ref_entry (d : ct_dir) : dp_ct_tact :=
  ref_tact <| ctd; d_dir := d |> <| ctd; d_pi; pi_t; t_state := CT_TCP_EST |>.
Definition ref_open : lstate lrefk :=
  ref_idle <| ct_map := <[ref_key := ref_entry CT_DIR_IN]>
                          (<[rev_key ref_key := ref_entry CT_DIR_OUT]> ∅) |>.
Lemma ref_open_conn :
  conn ref_key (rev_key ref_key) (Core CT_TCP_EST CT_DIR_IN 0 0 0 0) ref_open.
Proof. by exists (ref_entry CT_DIR_IN), (ref_entry CT_DIR_OUT). Qed.
Lemma ref_fin_segment : is_segment (ref_fwd FINACK 77 0) ref_key FINACK 77 0.
Proof. ref_segment_tac. Qed.
Lemma ref_finack_segment :
  is_segment (ref_bwd FINACK 500 78) (rev_key ref_key) FINACK 500 (u32 (77 + 1)).
Proof. ref_segment_tac. Qed.
Lemma ref_lastack_segment :
  is_segment (ref_fwd LLB_TCP_ACK 78 501) ref_key LLB_TCP_ACK 78 (u32 (500 + 1)).
Proof. ref_segment_tac. Qed.

(** The same connection after the SYN-ACK; then the last packet of the
    handshake arrives. *)
Definition ref_half_open : lstate lrefk :=
  let sa := TcpPinf CT_TCP_SA CT_DIR_IN (PerDir (TcpPinfd 0 0 0xffffffff 0 0) (TcpPinfd 0 0 1000 0 0)) in
  let entry d := ref_entry d <| ctd; d_pi; pi_t := sa |> in
  ref_state (ref_fwd LLB_TCP_ACK 0 1001).2 (ref_fwd LLB_TCP_ACK 0 1001).1
    <| ct_map := <[ref_key := entry CT_DIR_IN]> (<[rev_key ref_key := entry CT_DIR_OUT]> ∅) |>.

Lemma tcp_established_only_witness :
  ∃ s' m2 a b, dp_ct_in ref_half_open = Some (CT_SMR_EST, s') ∧
    flow_opened (K := lrefk) ref_key (rev_key ref_key) (ct_map ref_half_open) m2 ∧
    established_by ref_key (rev_key ref_key) a b ref_half_open s'.
Proof.
  assert (fst <$> dp_ct_in ref_half_open = Some CT_SMR_EST) as Hr by (vm_compute; reflexivity).
  destruct (dp_ct_in ref_half_open) as [[r s']|] eqn:E; [|discriminate].
  injection Hr as ->.
  destruct (tcp_established_only ref_half_open s' (proj1 (Z.leb_le 0 34) eq_refl) eq_refl E)
    as (m2 & a & b & Ho & _ & _ & He).
  exists s', m2, a, b. split; [reflexivity|]. split; [exact Ho|exact He].
Defined.

Lemma tcp_close_removes_witness :
  ∃ s1 s2 s3, receive (ref_fwd FINACK 77 0) ref_open = Some (CT_SMR_FIN, s1) ∧
    receive (ref_bwd FINACK 500 78) s1 = Some (CT_SMR_FIN, s2) ∧
    receive (ref_fwd LLB_TCP_ACK 78 501) s2 = Some (CT_SMR_CTD, s3) ∧
    ct_map s3 !! ref_key = None ∧ ct_map s3 !! rev_key ref_key = None.
Proof.
  exact (tcp_close_removes CT_DIR_IN ref_key _ 77 500 78 0 _ _ _ ref_open
    ref_key_rev ref_open_conn eq_refl ref_fin_segment ref_finack_segment ref_lastack_segment).
Defined.

(** Once a connection is closing, a segment that is neither a reset nor
    the next step of the close (a retransmitted FIN, data of the half that is
    still open) makes the machine forget the connection: its state is set
    back to closed and the tracker reports it in progress. *)
Theorem tcp_closing_resets is_dsr flags seq ack dir ts :
  has_flag flags LLB_TCP_RST = false →
  (t_state ts = CT_TCP_FINI ∨ t_state ts = CT_TCP_FINI2) ∧ t_fndir ts = dir ∨
  t_state ts = CT_TCP_FINI2 ∧ has_flag flags LLB_TCP_FIN = false ∨
  t_state ts = CT_TCP_FINI3 ∧ (t_fndir ts ≠ dir ∨ has_flag flags LLB_TCP_ACK = false) →
  tcp_switch is_dsr flags seq ack dir ts = Some (CT_TCP_CLOSED, ts) ∧
  tcp_smr CT_TCP_CLOSED = CT_SMR_INPROG.
Proof.
  intros Hr Hc. split; [|reflexivity].
  enough (wpf (tcp_switch is_dsr flags seq ack dir) (λ n ts', n = CT_TCP_CLOSED ∧ ts' = ts) ts)
    as Hw by (apply wpf_elim in Hw as (n & ts' & E & -> & ->); exact E).
  unfold tcp_switch. apply wp_run, wp_bind, wp_return_if; [congruence|intros _].
  apply wp_bind, wp_gets.
  destruct Hc as [[[-> | ->] Hd]|[[-> Hf]|[-> Hd]]]; simpl (_ =? _); cbv iota;
    unfold tcp_fini, tcp_fini2, tcp_fini3, rtd; repeat (apply wp_bind, wp_gets);
    rewrite ?Hd; try case_decide; rewrite ?Hf; try apply wp_ret; try done.
  destruct Hd as [Hd| ->]; [done|by apply wp_ret].
Qed.

(** The initiator's FIN, sent again. *)
Lemma tcp_closing_resets_witness :
  let ts := TcpPinf CT_TCP_FINI CT_DIR_IN (PerDir (TcpPinfd 0 0 77 0 0) (TcpPinfd 0 0 500 0 0)) in
  tcp_switch false FINACK 77 501 CT_DIR_IN ts = Some (CT_TCP_CLOSED, ts) ∧
  tcp_smr CT_TCP_CLOSED = CT_SMR_INPROG.
Proof.
  intros ts. apply (tcp_closing_resets false FINACK 77 501 CT_DIR_IN ts);
    [reflexivity|left; split; [left; reflexivity|reflexivity]].
Defined.
