(* ===== verification/LoxiNat.v ===== *)
(** * loxilb: NAT and load balancing ([kernel/llb_kern_natlbfwd.c])

    The choice of an end-point of a service ([dp_sel_nat_ep]), the service
    lookup ([dp_do_nat]), and the metadata of a packet whose flow already has
    a translation ([dp_pipe_set_nat] of [kernel/llb_kern_l3fwd.c]). *)
From S2P Require Import Prelude Records Words Consts LoxiDefs LoxiTables LoxiState LoxiRef.
Open Scope c_scope.

(** [a % b] on unsigned integers: division by zero is undefined. *)
Definition c_mod {S R} (a b : Z) : body S R Z := if b =? 0 then fault else ret (a mod b).

(** [act->nxfrms[i]] *)
Definition nxfrm_at {R} (i : Z) : body dp_nat_tacts R nxfrm_inf :=
  let! act := gets id in or_fault (if i <? 0 then None else nxfrms act !! Z.to_nat i).

(** The [while] loop of the round-robin selection, with [fuel] iterations
    left: [LLB_MAX_NXFRMS - n]. *)
Fixpoint sel_rr (fuel : nat) (i : Z) : body dp_nat_tacts Z Z :=
  match fuel with
  | O => ret (-1)
  | S fuel =>
      when ((0 <=? i) && (i <? LLB_MAX_NXFRMS))
        (let! x := nxfrm_at i in
         when (inactive x =? 0)
           (let! act := gets id in
            let! hint := c_mod (i + 1) (nxfrm act) in
            modify (λ act, act <| sel_hint := u16 hint |>) ;;
            return_ i)) ;;
      let! act := gets id in
      let! i := c_mod (u16 (i + 1)) (nxfrm act) in
      sel_rr fuel (u16 i)
  end.

(** The search for any active end-point after a dead-end of the hash. *)
Fixpoint sel_any (fuel : nat) (i sel : Z) : body dp_nat_tacts Z Z :=
  match fuel with
  | O => ret sel
  | S fuel =>
      let! x := nxfrm_at i in
      if inactive x =? 0 then ret i else sel_any fuel (i + 1) sel
  end.

Definition dp_sel_nat_ep (pkt_hash : Z) : func dp_nat_tacts Z := run (
  let! act := gets id in
  if sel_type act =? NAT_LB_SEL_RR then
    sel_rr (Z.to_nat LLB_MAX_NXFRMS) (sel_hint act)
  else if sel_type act =? NAT_LB_SEL_HASH then
    let! sel := c_mod pkt_hash (nxfrm act) in
    let sel := s32 sel in
    if (0 <=? sel) && (sel <? LLB_MAX_NXFRMS) then
      let! x := nxfrm_at sel in
      if negb (inactive x =? 0)
      then sel_any (Z.to_nat LLB_MAX_NXFRMS) 0 sel
      else ret sel
    else ret sel
  else ret (-1)).

Section nat.
Context {K : Type} `{LoxiEnv K}.

Definition nat_lookup_key (x : xfi) : dp_nat_key :=
  NatKey (m_daddr (l34m x))
    (if negb (nw_proto (l34m x) =? IPPROTO_ICMP) then m_dest (l34m x) else 0)
    (zone (pm x)) (u16 (Z.land (dp_mark (pm x)) 0xffff)) (nw_proto (l34m x))
    (if dl_type (l2m x) =? bpf_ntohs ETH_P_IPV6 then 1 else 0).

(** The metadata of a packet sent to end-point [e], number [sel], of [act]. *)
Definition nat_set_ep (act : dp_nat_tacts) (sel : Z) (e : nxfrm_inf) (x : xfi) : xfi :=
  let x := x <| nm; nm_nxip := nat_xip e |> <| nm; nm_nrip := nat_rip e |>
             <| nm; nm_nxport := nat_xport e |>
             <| nm; nm_nv6 := if negb (nv6 e =? 0) then 1 else 0 |>
             <| nm; sel_aid := u8 sel |> <| nm; nm_ito := nt_ito act |>
             <| pm; rule_id := cidx (nt_ca act) |> in
  if (xa0 (m_saddr (l34m x)) =? xa0 (nm_nxip (nm x))) && (nf (pm x) =? LLB_NAT_DST)
  then x <| nm; nm_nxip; xa0 := 0 |> else x.

Definition dp_do_nat : func (lstate K) Z := run (
  let! x := gets xf in
  let key := nat_lookup_key x in
  upd_xf (λ x, x <| pm; table_id := LL_DP_NAT_MAP |>) ;;
  let! o := gets (λ s, nat_map s !! key) in
  match o with
  | None =>
      upd_xf (λ x, x <| pm; nf ::= λ n, Z.land n (Z.lxor 0xff LLB_NAT_SRC) |>) ;;
      ret 0
  | Some act =>
      let at_ := act_type (nt_ca act) in
      (if (at_ =? DP_SET_SNAT) || (at_ =? DP_SET_DNAT) then
         let! h := gets (λ s, lx_pkt_hash (lpkt s) (lkern s)) in
         let! (sel, act) := or_fault (dp_sel_nat_ep h act) in
         modify (λ s, s <| nat_map ::= <[key := act]> |>) ;;
         upd_xf (λ x, x <| nm; nm_dsr := if negb (oaux (nt_ca act) =? 0) then 1 else 0 |>
                        <| pm; nf := if at_ =? DP_SET_SNAT then LLB_NAT_SRC else LLB_NAT_DST |>) ;;
         let sel := u32 sel in
         if sel <? LLB_MAX_NXFRMS then
           let! e := or_fault (nxfrms act !! Z.to_nat sel) in
           upd_xf (nat_set_ep act sel e)
         else upd_xf (λ x, x <| pm; nf := 0 |>)
       else LLBS_PPLN_DROP) ;;
      ret 1
  end).
End nat.

(** [dp_pipe_set_nat] *)
Definition dp_pipe_set_nat (na : dp_nat_act) (do_snat : bool) (x : xfi) : xfi :=
  x <| pm; nf := if do_snat then LLB_NAT_SRC else LLB_NAT_DST |>
    <| nm; nm_nxip := na_xip na |> <| nm; nm_nrip := na_rip na |>
    <| nm; nm_nxport := na_xport na |>
    <| nm; nm_nv6 := if negb (na_nv6 na =? 0) then 1 else 0 |>
    <| nm; nm_dsr := na_dsr na |>.

(** ** End-point selection *)

(** A service as the control plane writes it: [nxfrm] end-points in an array
    of [LLB_MAX_NXFRMS]. *)
Definition nat_tacts_ok (act : dp_nat_tacts) : Prop :=
  0 < nxfrm act ≤ LLB_MAX_NXFRMS ∧ length (nxfrms act) = Z.to_nat LLB_MAX_NXFRMS ∧
  0 ≤ sel_hint act < nxfrm act.

Definition active (act : dp_nat_tacts) (i : Z) : bool :=
  match nxfrms act !! Z.to_nat i with Some x => inactive x =? 0 | None => false end.

(** The end-points in the order the round robin tries them. *)
Definition rr_order (act : dp_nat_tacts) (start : Z) (fuel : nat) : list Z :=
  map (λ j, (start + Z.of_nat j) mod nxfrm act) (seq 0 fuel).
Definition rr_choice (act : dp_nat_tacts) : option Z :=
  List.find (active act) (rr_order act (sel_hint act) (Z.to_nat LLB_MAX_NXFRMS)).

Section selection.
Context (act : dp_nat_tacts) (Hok : nat_tacts_ok act).

Lemma nxfrm_lookup i : 0 ≤ i < LLB_MAX_NXFRMS → ∃ x, nxfrms act !! Z.to_nat i = Some x.
Proof.
  intros Hi. destruct Hok as (_ & Hl & _). apply lookup_lt_is_Some_2. rewrite Hl. lia.
Qed.

Lemma rr_order_S i fuel :
  rr_order act i (S fuel) = i mod nxfrm act :: rr_order act ((i + 1) mod nxfrm act) fuel.
Proof.
  unfold rr_order. simpl. rewrite Z.add_0_r. f_equal.
  rewrite <-seq_shift, List.map_map. apply map_ext. intros j.
  rewrite Z.add_mod_idemp_l by (destruct Hok; lia). f_equal. lia.
Qed.

(** The loop tries the end-points in that order. *)
Lemma sel_rr_spec fuel i :
  0 ≤ i < nxfrm act →
  sel_rr fuel i act =
    match List.find (active act) (rr_order act i fuel) with
    | Some j => Return j (act <| sel_hint := (j + 1) mod nxfrm act |>)
    | None => Next (-1) act
    end.
Proof.
  destruct Hok as (Hn & _ & _). unfold LLB_MAX_NXFRMS in *.
  revert i. induction fuel as [|fuel IH]; intros i Hi; [done|].
  rewrite rr_order_S, Z.mod_small by done. simpl sel_rr. simpl List.find.
  destruct (nxfrm_lookup i) as [x Hx]; [unfold LLB_MAX_NXFRMS; lia|].
  unfold active at 1. rewrite Hx.
  assert (∀ j, 0 ≤ j → j mod nxfrm act < 2 ^ 16 ∧ 0 ≤ j mod nxfrm act) as Hr.
  { intros j Hj. pose proof (Z.mod_pos_bound j (nxfrm act)). lia. }
  rewrite (proj2 (Z.leb_le 0 i)), (proj2 (Z.ltb_lt i _)) by (unfold LLB_MAX_NXFRMS; lia).
  assert (nxfrm_at (R := Z) i act = Next x act) as Hat.
  { unfold nxfrm_at, bind, gets, id. by rewrite (proj2 (Z.ltb_ge i 0)), Hx by lia. }
  assert (∀ j, c_mod (S := dp_nat_tacts) (R := Z) j (nxfrm act) = ret (j mod nxfrm act)) as Hmod.
  { intros j. unfold c_mod. by rewrite (proj2 (Z.eqb_neq (nxfrm act) 0)) by lia. }
  unfold andb, when, bind, gets, id. cbv beta iota. rewrite Hat. cbv beta iota.
  destruct (inactive x =? 0); unfold ret, modify, return_; cbv beta iota;
    rewrite Hmod; unfold ret; cbv beta iota.
  - rewrite u16_id; [done|]. specialize (Hr (i + 1)). lia.
  - rewrite (u16_id (i + 1)) by lia. rewrite u16_id by (specialize (Hr (i + 1)); lia).
    apply IH. apply Z.mod_pos_bound. lia.
Qed.

(** How many steps end-point [i] is behind [start] in that order. *)
Definition rr_dist (start i : Z) : Z := (i - start) mod nxfrm act.

Lemma rr_find fuel start i :
  0 ≤ i < nxfrm act → active act i = true → rr_dist start i < Z.of_nat fuel →
  ∃ p, 0 ≤ p ≤ rr_dist start i ∧
    List.find (active act) (rr_order act start fuel) = Some ((start + p) mod nxfrm act).
Proof.
  destruct Hok as (Hn & _ & _). unfold rr_dist.
  revert start. induction fuel as [|fuel IH]; intros start Hi Ha Hd.
  { pose proof (Z.mod_pos_bound (i - start) (nxfrm act)). lia. }
  rewrite rr_order_S. simpl List.find.
  pose proof (Z.mod_pos_bound (i - start) (nxfrm act) ltac:(lia)) as Hb.
  destruct (active act (start mod nxfrm act)) eqn:Hs.
  { exists 0. rewrite Z.add_0_r. split; [lia|done]. }
  assert ((i - start) mod nxfrm act ≠ 0) as Hne.
  { intros Hz. apply Z.mod_divide in Hz as [q Hq]; [|lia].
    replace start with (i + (- q) * nxfrm act) in Hs by lia.
    rewrite Z.mod_add, Z.mod_small in Hs by lia. congruence. }
  assert ((i - (start + 1) mod nxfrm act) mod nxfrm act = (i - start) mod nxfrm act - 1) as Hd'.
  { rewrite Zminus_mod_idemp_r.
    pose proof (Z.div_mod (i - start) (nxfrm act) ltac:(lia)) as E.
    replace (i - (start + 1)) with
      ((i - start) mod nxfrm act - 1 + (i - start) / nxfrm act * nxfrm act) by lia.
    rewrite Z.mod_add by lia. by rewrite Z.mod_small by lia. }
  destruct (IH ((start + 1) mod nxfrm act) Hi Ha) as (p & Hp & E); [lia|].
  exists (p + 1). split; [lia|]. rewrite E. f_equal.
  rewrite Z.add_mod_idemp_l by lia. f_equal. lia.
Qed.
End selection.

(** [k] selections in a row. *)
Fixpoint rr_run (k : nat) (act : dp_nat_tacts) : option (list Z) :=
  match k with
  | O => Some []
  | S k => '(sel, act) ← dp_sel_nat_ep 0 act; sels ← rr_run k act; Some (sel :: sels)
  end.

Definition is_rr (act : dp_nat_tacts) : Prop :=
  nat_tacts_ok act ∧ sel_type act = NAT_LB_SEL_RR.

Lemma sel_ep_rr h act :
  is_rr act →
  dp_sel_nat_ep h act =
    Some (match rr_choice act with
          | Some j => (j, act <| sel_hint := (j + 1) mod nxfrm act |>)
          | None => (-1, act)
          end).
Proof.
  intros [Hok Ht]. unfold dp_sel_nat_ep, run, bind, gets, id. rewrite Ht. simpl (_ =? _).
  cbv iota. rewrite sel_rr_spec by (done || apply Hok). unfold rr_choice.
  by destruct (List.find _ _).
Qed.

Lemma is_rr_hint act h : is_rr act → 0 ≤ h < nxfrm act → is_rr (act <| sel_hint := h |>).
Proof. intros [(?&?&?) ?] ?. by split; [split|]. Qed.

(** Round robin picks the next active end-point at or after the hint, in
    cyclic order, and moves the hint just past it; it fails only when no
    end-point is active. *)
Theorem rr_selects_next_active h act i :
  is_rr act → 0 ≤ i < nxfrm act → active act i = true →
  ∃ p, 0 ≤ p ≤ rr_dist act (sel_hint act) i ∧
    let j := (sel_hint act + p) mod nxfrm act in
    dp_sel_nat_ep h act = Some (j, act <| sel_hint := (j + 1) mod nxfrm act |>) ∧
    active act j = true ∧ 0 ≤ j < nxfrm act.
Proof.
  intros Hrr Hi Ha. pose proof Hrr as [Hok _]. pose proof Hok as (Hn & _ & _).
  destruct (rr_find act Hok (Z.to_nat LLB_MAX_NXFRMS) (sel_hint act) i Hi Ha) as (p & Hp & E).
  { unfold rr_dist. pose proof (Z.mod_pos_bound (i - sel_hint act) (nxfrm act)).
    unfold LLB_MAX_NXFRMS in *. lia. }
  exists p. split; [done|]. intros j. split.
  - rewrite sel_ep_rr by done. unfold rr_choice. by rewrite E.
  - split; [apply (List.find_some _ _ E)|]. apply Z.mod_pos_bound. lia.
Qed.

(** C38: No starvation: as long as an end-point stays active, it is chosen
    within as many selections as the service has end-points. *)
Theorem rr_no_starvation act i :
  is_rr act → 0 ≤ i < nxfrm act → active act i = true →
  ∃ sels, rr_run (Z.to_nat (nxfrm act)) act = Some sels ∧ i ∈ sels.
Proof.
  intros Hrr Hi Ha. pose proof Hrr as [(Hn & _) _].
  enough (∀ k act', is_rr act' → nxfrm act' = nxfrm act → nxfrms act' = nxfrms act →
    ∃ sels, rr_run k act' = Some sels ∧
      (rr_dist act' (sel_hint act') i < Z.of_nat k → i ∈ sels)) as Hk.
  { destruct (Hk (Z.to_nat (nxfrm act)) act Hrr eq_refl eq_refl) as (sels & E & Hin).
    exists sels. split; [done|]. apply Hin. unfold rr_dist.
    pose proof (Z.mod_pos_bound (i - sel_hint act) (nxfrm act)). lia. }
  clear Hrr. induction k as [|k IH]; intros act' Hrr En El.
  { exists []. split; [done|]. unfold rr_dist.
    pose proof (Z.mod_pos_bound (i - sel_hint act') (nxfrm act')). lia. }
  pose proof Hrr as [Hok _].
  assert (active act' i = true) as Ha' by (unfold active; by rewrite El).
  destruct (rr_find act' Hok (Z.to_nat LLB_MAX_NXFRMS) (sel_hint act') i ltac:(lia) Ha')
    as (p & Hp & E).
  { unfold rr_dist. pose proof (Z.mod_pos_bound (i - sel_hint act') (nxfrm act')).
    unfold LLB_MAX_NXFRMS in *. lia. }
  simpl rr_run. rewrite sel_ep_rr by done. unfold rr_choice. rewrite E. simpl.
  set (j := (sel_hint act' + p) mod nxfrm act') in *.
  pose proof (Z.mod_pos_bound (sel_hint act' + p) (nxfrm act') ltac:(lia)).
  pose proof (Z.mod_pos_bound (j + 1) (nxfrm act') ltac:(lia)).
  destruct (IH (act' <| sel_hint := (j + 1) mod nxfrm act' |>)) as (sels & -> & Hin);
    [by apply is_rr_hint|done|done|].
  exists (j :: sels). split; [done|]. intros Hd.
  rewrite elem_of_cons. destruct (decide (p = rr_dist act' (sel_hint act') i)) as [->|Hne].
  { left. subst j. unfold rr_dist. rewrite Z.add_mod_idemp_r by lia.
    replace (sel_hint act' + (i - sel_hint act')) with i by lia.
    by rewrite Z.mod_small by lia. }
  right. apply Hin. unfold rr_dist in *. simpl. subst j.
  rewrite Z.add_mod_idemp_l, Zminus_mod_idemp_r by lia.
  pose proof (Z.div_mod (i - sel_hint act') (nxfrm act') ltac:(lia)) as Ed.
  replace (i - (sel_hint act' + p + 1)) with
    ((i - sel_hint act') mod nxfrm act' - p - 1
       + (i - sel_hint act') / nxfrm act' * nxfrm act') by lia.
  pose proof (Z.mod_pos_bound (i - sel_hint act') (nxfrm act') ltac:(lia)).
  rewrite Z.mod_add by lia. rewrite Z.mod_small by lia. lia.
Qed.

(** ** The hash selection *)

Lemma sel_any_spec act fuel i sel :
  nat_tacts_ok act → 0 ≤ i → i + Z.of_nat fuel ≤ LLB_MAX_NXFRMS →
  sel_any fuel i sel act =
    Next (default sel (List.find (active act) (map (λ j, i + Z.of_nat j) (seq 0 fuel)))) act.
Proof.
  intros Hok. revert i. induction fuel as [|fuel IH]; intros i Hi Hf; [done|].
  destruct (nxfrm_lookup act Hok i) as [x Hx]; [lia|].
  simpl sel_any. unfold bind, nxfrm_at, gets, id, or_fault.
  unfold bind, gets. rewrite (proj2 (Z.ltb_ge i 0)), Hx by lia. unfold ret at 1.
  simpl seq. simpl map. rewrite Z.add_0_r. simpl List.find.
  unfold active at 1. rewrite Hx. destruct (inactive x =? 0); [done|].
  rewrite IH by lia. rewrite <-seq_shift, List.map_map. do 3 f_equal.
  apply map_ext. intros j. lia.
Qed.

(** The hash selection depends on the packet hash and the service only,
    and changes nothing: packets with the same hash go to the same end-point
    while that end-point is active; otherwise to the first slot of the array
    that is not marked inactive, whether or not it is configured. *)
Theorem hash_selection_spec h act :
  nat_tacts_ok act → sel_type act = NAT_LB_SEL_HASH → 0 ≤ h < 2 ^ 32 →
  dp_sel_nat_ep h act =
    Some (let sel := h mod nxfrm act in
          if active act sel then sel
          else default sel (List.find (active act) (map Z.of_nat (seq 0 16))), act).
Proof.
  intros Hok Ht Hh. pose proof Hok as (Hn & _ & _).
  pose proof (Z.mod_pos_bound h (nxfrm act) ltac:(lia)) as Hb.
  assert (s32 (h mod nxfrm act) = h mod nxfrm act) as Hs.
  { unfold LLB_MAX_NXFRMS, s32, signed in *. rewrite (Z.mod_small _ (2 ^ 32)) by lia.
    by rewrite (proj2 (Z.ltb_lt _ _)) by (change (2 ^ (32 - 1)) with 2147483648; lia). }
  unfold dp_sel_nat_ep, run, bind, gets, id, c_mod. rewrite Ht. simpl (_ =? _). cbv iota.
  rewrite (proj2 (Z.eqb_neq (nxfrm act) 0)) by lia. unfold ret. rewrite Hs.
  rewrite (proj2 (Z.leb_le 0 _)), (proj2 (Z.ltb_lt _ LLB_MAX_NXFRMS)) by lia. cbv beta iota zeta.
  destruct (nxfrm_lookup act Hok (h mod nxfrm act)) as [x Hx]; [lia|].
  unfold andb, nxfrm_at, bind, gets, id, or_fault.
  rewrite (proj2 (Z.ltb_ge _ 0)), Hx by lia. unfold ret. unfold active at 1. rewrite Hx.
  destruct (inactive x =? 0); [done|]. cbv beta iota delta [negb].
  by rewrite sel_any_spec by (done || (unfold LLB_MAX_NXFRMS; lia)).
Qed.

(** ** The service lookup *)

Definition nat_ok {K} (s : lstate K) : Prop :=
  map_Forall (λ _ act, nat_tacts_ok act) (nat_map s).

Lemma nat_map_update {K} f (s : lstate K) : nat_map (s <| nat_map ::= f |>) = f (nat_map s).
Proof. done. Qed.
Lemma nat_map_xf {K} f (s : lstate K) : nat_map (s <| xf ::= f |>) = nat_map s.
Proof. done. Qed.

(** Execution of the service lookup when round robin gives [j]. *)
Lemma do_nat_rr {K} `{LoxiEnv K} (s : lstate K) act j e :
  nat_map s !! nat_lookup_key (xf s) = Some act → is_rr act →
  act_type (nt_ca act) = DP_SET_DNAT → rr_choice act = Some j →
  0 ≤ j < LLB_MAX_NXFRMS → nxfrms act !! Z.to_nat j = Some e →
  wpf dp_do_nat (λ r s', r = 1 ∧
    nat_map s' = <[nat_lookup_key (xf s) := act <| sel_hint := (j + 1) mod nxfrm act |>]> (nat_map s) ∧
    ∃ y, l34m y = l34m (xf s) ∧ nf (pm y) = LLB_NAT_DST ∧ 
      xf s' = nat_set_ep (act <| sel_hint := (j + 1) mod nxfrm act |>) j e y) s.
Proof.
  intros Ha Hrr Hd E Hj He. set (x := xf s) in *. set (key := nat_lookup_key x) in *.
  unfold dp_do_nat, upd_xf. wp_steps.
  simpl nat_map. fold x key.
  rewrite Ha, Hd. change ((DP_SET_DNAT =? DP_SET_SNAT) || _) with true. cbv iota zeta.
  apply wp_bind, wp_bind, wp_gets, wp_bind.
  eapply wp_or_fault; [rewrite sel_ep_rr, E by done; reflexivity|].
  cbv beta iota. do 2 (apply wp_bind, wp_modify). rewrite u32_id by (unfold LLB_MAX_NXFRMS in *; lia).
  rewrite (proj2 (Z.ltb_lt j _)) by lia.
  apply wp_bind, wp_or_fault with e; [done|]. apply wp_modify, wp_ret.
  split; [done|]. split; [by rewrite !nat_map_xf, nat_map_update|].
  eexists. split; [|split; [|reflexivity]]; reflexivity.
Qed.

(** C39: A packet of a load-balanced service (round robin, destination NAT)
    with an active end-point is given an active, configured end-point: its
    address, port and number are in the metadata, the hint moves past it, and
    nothing but the hint of this service changes in the table.  (A packet from
    the end-point itself gets address word 0 instead: host NAT.) *)
Theorem dnat_picks_active {K} `{LoxiEnv K} (s : lstate K) act i :
  nat_ok s → nat_map s !! nat_lookup_key (xf s) = Some act →
  act_type (nt_ca act) = DP_SET_DNAT → sel_type act = NAT_LB_SEL_RR →
  0 ≤ i < nxfrm act → active act i = true →
  ∃ s' j e, dp_do_nat s = Some (1, s') ∧ 0 ≤ j < nxfrm act ∧
    nxfrms act !! Z.to_nat j = Some e ∧ inactive e = 0 ∧
    nat_map s' = <[nat_lookup_key (xf s) := act <| sel_hint := (j + 1) mod nxfrm act |>]> (nat_map s) ∧
    nf (pm (xf s')) = LLB_NAT_DST ∧
    nm_nxip (nm (xf s')) =
      (if xa0 (m_saddr (l34m (xf s))) =? xa0 (nat_xip e) then nat_xip e <| xa0 := 0 |>
       else nat_xip e) ∧
    nm_nxport (nm (xf s')) = nat_xport e ∧ sel_aid (nm (xf s')) = j.
Proof.
  intros Hok Ha Hd Ht Hi Hact.
  assert (is_rr act) as Hrr by (split; [by apply (Hok _ _ Ha)|done]).
  pose proof Hrr as [Hact_ok _]. pose proof Hact_ok as (Hn & _ & _).
  destruct (rr_find act Hact_ok (Z.to_nat LLB_MAX_NXFRMS) (sel_hint act) i Hi Hact) as (p & _ & E).
  { unfold rr_dist. pose proof (Z.mod_pos_bound (i - sel_hint act) (nxfrm act)).
    unfold LLB_MAX_NXFRMS in *. lia. }
  set (j := (sel_hint act + p) mod nxfrm act) in *.
  assert (0 ≤ j < nxfrm act) as Hj by (apply Z.mod_pos_bound; lia).
  apply List.find_some in E as E'. destruct E' as [_ Haj].
  destruct (nxfrm_lookup act Hact_ok j) as [e He]; [lia|].
  unfold active in Haj. rewrite He in Haj. apply Z.eqb_eq in Haj.
  unfold LLB_MAX_NXFRMS in *.
  destruct (wpf_elim _ _ _ (do_nat_rr s act j e Ha Hrr Hd E ltac:(unfold LLB_MAX_NXFRMS; lia) He))
    as (r & s' & E1 & -> & Em & y & Ey & En & Ex).
  exists s', j, e. do 4 (split; [done|]). split; [done|]. rewrite Ex.
  unfold nat_set_ep. simpl. rewrite Ey, En. simpl. rewrite andb_true_r.
  by destruct (_ =? _); simpl; rewrite ?En, ?u8_id by lia.
Qed.

(** ** A service with three end-points, the second inactive *)

Definition ref_ep (ip port off : Z) : nxfrm_inf :=
  NxfrmInf 0 off 0 0 0 port (XAddr ip 0 0 0) DP_XADDR_ZR.
Definition ref_service (ty hint : Z) : dp_nat_tacts :=
  NatTacts (CmnAct DP_SET_DNAT 0 0 7 0 0 0) 0 3 hint ty
    ([ref_ep 11 80 0; ref_ep 12 80 1; ref_ep 13 80 0] ++ repeat (ref_ep 0 0 0) 13).
Definition ref_nat_state : lstate lrefk :=
  let x := ref_xf IPPROTO_TCP 0x0100000a 0x0200000a 4000 80 in
  ref_state x [] <| nat_map := {[nat_lookup_key x := ref_service NAT_LB_SEL_RR 1]} |>.

Lemma ref_service_rr : is_rr (ref_service NAT_LB_SEL_RR 1).
Proof. split; [split; [done|split; done]|done]. Qed.

Lemma rr_selects_next_active_witness :
  ∃ p, 0 ≤ p ≤ rr_dist (ref_service NAT_LB_SEL_RR 1) 1 0 ∧
    let j := (1 + p) mod 3 in
    dp_sel_nat_ep 0 (ref_service NAT_LB_SEL_RR 1) =
      Some (j, ref_service NAT_LB_SEL_RR 1 <| sel_hint := (j + 1) mod 3 |>) ∧
    active (ref_service NAT_LB_SEL_RR 1) j = true ∧ 0 ≤ j < 3.
Proof.
  exact (rr_selects_next_active 0 (ref_service NAT_LB_SEL_RR 1) 0 ref_service_rr
    (conj (Z.le_refl 0) eq_refl) eq_refl).
Defined.

Lemma rr_no_starvation_witness :
  ∃ sels, rr_run 3 (ref_service NAT_LB_SEL_RR 1) = Some sels ∧ 2 ∈ sels.
Proof.
  apply (rr_no_starvation (ref_service NAT_LB_SEL_RR 1) 2 ref_service_rr); [simpl; lia|reflexivity].
Defined.

Lemma ref_service_ok : nat_tacts_ok (ref_service NAT_LB_SEL_HASH 0).
Proof. split; [done|split; done]. Qed.
Lemma hash_selection_spec_witness :
  dp_sel_nat_ep 10 (ref_service NAT_LB_SEL_HASH 0) = Some (0, ref_service NAT_LB_SEL_HASH 0).
Proof.
  etransitivity.
  - apply (hash_selection_spec 10 (ref_service NAT_LB_SEL_HASH 0) ref_service_ok); [reflexivity|lia].
  - reflexivity.
Defined.

Definition ref_act : dp_nat_tacts := ref_service NAT_LB_SEL_RR 1.
Lemma ref_nat_state_ok : nat_ok ref_nat_state.
Proof. apply map_Forall_singleton, ref_service_rr. Qed.
Lemma ref_nat_lookup : nat_map ref_nat_state !! nat_lookup_key (xf ref_nat_state) = Some ref_act.
Proof. apply lookup_singleton_eq. Qed.

Lemma dnat_picks_active_witness :
  ∃ s' j e, dp_do_nat ref_nat_state = Some (1, s') ∧ 0 ≤ j < nxfrm ref_act ∧
    nxfrms ref_act !! Z.to_nat j = Some e ∧ inactive e = 0 ∧
    nat_map s' = <[nat_lookup_key (xf ref_nat_state) :=
      ref_act <| sel_hint := (j + 1) mod nxfrm ref_act |>]> (nat_map ref_nat_state) ∧
    nf (pm (xf s')) = LLB_NAT_DST ∧
    nm_nxip (nm (xf s')) =
      (if xa0 (m_saddr (l34m (xf ref_nat_state))) =? xa0 (nat_xip e)
       then nat_xip e <| xa0 := 0 |> else nat_xip e) ∧
    nm_nxport (nm (xf s')) = nat_xport e ∧ sel_aid (nm (xf s')) = j.
Proof.
  exact (dnat_picks_active ref_nat_state ref_act 2 ref_nat_state_ok ref_nat_lookup
    eq_refl eq_refl (conj (proj1 (Z.leb_le 0 2) eq_refl) eq_refl) eq_refl).
Defined.
