(* ===== verification/LoxiReply.v ===== *)
(** * loxilb: replies of translated flows

    The two entries of a flow are each other's reverse: the metadata that the
    reverse entry gives to a reply leads the tracker back to the same pair of
    keys, whatever the translation of the flow. *)
From S2P Require Import Prelude Records Words Consts LoxiDefs LoxiTables LoxiState LoxiRef LoxiCt LoxiCtFrame LoxiCtSpec LoxiNat.
Open Scope c_scope.

(** The transformations and the reverse key that [dp_ct_in] computes for a
    packet, from clean scratch entries. *)
Definition ct_xfk (m : xfi) : nxfrm_inf * dp_ct_key * nxfrm_inf :=
  dp_ct_proto_xfk_init (CT_KEY_GEN m) (ct_in_xi m xi_zero) (ct_in_xxi xi_zero).

(** The entry of the reverse direction that [dp_ct_in] then creates (from a
    clean scratch entry), and the entry of the direction of the packet. *)
Definition reverse_entry (m : xfi) (ctr : Z) : dp_ct_tact :=
  let '(xi, _, xxi) := ct_xfk m in
  ct_in_axdat m (CT_KEY_GEN m) (ct_in_adat m ctr (ref_tact <| ctd; d_xi := xi |>))
    (ref_tact <| ctd; d_xi := xxi |>).

(** [dp_do_ctops] for an entry with a translation: its metadata on a packet. *)
Definition entry_nat (a : dp_ct_tact) (x : xfi) : xfi :=
  if act_type (ca a) =? DP_SET_SNAT then dp_pipe_set_nat (nat_act a) true x
  else if act_type (ca a) =? DP_SET_DNAT then dp_pipe_set_nat (nat_act a) false x
  else x.

Record nat_packet (m : xfi) : Prop := NatPacket {
  np_nf : nf (pm m) = 0 ∨ nf (pm m) = LLB_NAT_DST ∨ nf (pm m) = LLB_NAT_SRC;
  np_dsr : nm_dsr (nm m) = 0;
  np_saddr : m_saddr (l34m m) ≠ DP_XADDR_ZR;
  np_daddr : m_daddr (l34m m) ≠ DP_XADDR_ZR;
  np_ports : nw_proto (l34m m) = IPPROTO_ICMP ∨ m_source (l34m m) ≠ 0 ∧ m_dest (l34m m) ≠ 0
}.

Lemma iszr_false a : a ≠ DP_XADDR_ZR → DP_XADDR_ISZR a = false.
Proof.
  intros Ha. destruct (DP_XADDR_ISZR a) eqn:E; [|done]. exfalso. apply Ha.
  unfold DP_XADDR_ISZR in E. repeat setoid_rewrite andb_true_iff in E.
  destruct a; simpl in E. destruct E as [[[?%Z.eqb_eq ?%Z.eqb_eq] ?%Z.eqb_eq] ?%Z.eqb_eq].
  by subst.
Qed.

Lemma entry_nat_key a x : CT_KEY_GEN (entry_nat a x) = CT_KEY_GEN x.
Proof. unfold entry_nat. by repeat case_match. Qed.

Lemma is_dl_ipv6_cases m : is_dl_ipv6 m = 0 ∨ is_dl_ipv6 m = 1.
Proof. unfold is_dl_ipv6. destruct (_ =? _); auto. Qed.

(** Of the four blocks of [dp_ct_proto_xfk_init], the one of the flag runs. *)
Definition xfk_block (flag : Z) : dp_ct_key → nxfrm_inf * dp_ct_key * nxfrm_inf →
    nxfrm_inf * dp_ct_key * nxfrm_inf :=
  if flag =? LLB_NAT_DST then xfk_nat_dst else if flag =? LLB_NAT_SRC then xfk_nat_src
  else if flag =? LLB_NAT_HDST then xfk_nat_hdst else xfk_nat_hsrc.
Definition plain_rev (key : dp_ct_key) : dp_ct_key :=
  CtKey (k_saddr key) (k_daddr key) (k_dport key) (k_sport key)
        (k_zone key) (k_l4proto key) (k_v6 key).
Definition nat_flag (f : Z) : Prop :=
  f = LLB_NAT_DST ∨ f = LLB_NAT_SRC ∨ f = LLB_NAT_HDST ∨ f = LLB_NAT_HSRC.

Lemma xfk_block_flags flag key a :
  nat_flag flag → nat_flags (xfk_block flag key a).1.1 = nat_flags a.1.1.
Proof.
  destruct a as [[xi xk] xx]. intros [-> | [-> | [-> | ->]]];
    change (xfk_block _) with xfk_nat_dst || change (xfk_block _) with xfk_nat_src ||
    change (xfk_block _) with xfk_nat_hdst || change (xfk_block _) with xfk_nat_hsrc;
    xfk_cases; done.
Qed.

Lemma xfk_on_skip flag f a : has_flag (nat_flags a.1.1) flag = false → xfk_on flag f a = a.
Proof. destruct a as [[xi xk] xx]. unfold xfk_on. simpl. by intros ->. Qed.
Lemma xfk_on_run flag f a : has_flag (nat_flags a.1.1) flag = true → xfk_on flag f a = f a.
Proof. destruct a as [[xi xk] xx]. unfold xfk_on. simpl. by intros ->. Qed.

Lemma xfk_init_block key xi xxi :
  dsr xi = 0 → nat_flag (nat_flags xi) →
  dp_ct_proto_xfk_init key xi xxi = xfk_block (nat_flags xi) key (xi, plain_rev key, xxi).
Proof.
  intros Hd Hf. unfold dp_ct_proto_xfk_init. rewrite Hd. simpl (negb _). cbv iota zeta.
  fold (plain_rev key).
  pose proof (xfk_block_flags (nat_flags xi) key (xi, plain_rev key, xxi) Hf) as Hb. simpl in Hb.
  destruct Hf as [E|[E|[E|E]]]; rewrite E in *.
  - rewrite (xfk_on_run LLB_NAT_DST) by (simpl; by rewrite E).
    change (xfk_nat_dst key) with (xfk_block LLB_NAT_DST key).
    rewrite (xfk_on_skip LLB_NAT_SRC), (xfk_on_skip LLB_NAT_HDST), (xfk_on_skip LLB_NAT_HSRC)
      by (by rewrite Hb).
    done.
  - rewrite (xfk_on_skip LLB_NAT_DST) by (simpl; by rewrite E).
    rewrite (xfk_on_run LLB_NAT_SRC) by (simpl; by rewrite E).
    change (xfk_nat_src key) with (xfk_block LLB_NAT_SRC key).
    rewrite (xfk_on_skip LLB_NAT_HDST), (xfk_on_skip LLB_NAT_HSRC) by (by rewrite Hb).
    done.
  - rewrite (xfk_on_skip LLB_NAT_DST), (xfk_on_skip LLB_NAT_SRC) by (simpl; by rewrite E).
    rewrite (xfk_on_run LLB_NAT_HDST) by (simpl; by rewrite E).
    change (xfk_nat_hdst key) with (xfk_block LLB_NAT_HDST key).
    rewrite (xfk_on_skip LLB_NAT_HSRC) by (by rewrite Hb).
    done.
  - rewrite (xfk_on_skip LLB_NAT_DST), (xfk_on_skip LLB_NAT_SRC), (xfk_on_skip LLB_NAT_HDST)
      by (simpl; by rewrite E).
    by rewrite (xfk_on_run LLB_NAT_HSRC) by (simpl; by rewrite E).
Qed.

(** The fields of the metadata that decide the reverse key. *)
Definition nat_kind (m : xfi) : Z :=
  if DP_XADDR_ISZR (nm_nxip (nm m))
  then if nf (pm m) =? LLB_NAT_DST then LLB_NAT_HDST else LLB_NAT_HSRC
  else nf (pm m).

Lemma ct_xfk_block m :
  nm_dsr (nm m) = 0 → nf (pm m) = LLB_NAT_DST ∨ nf (pm m) = LLB_NAT_SRC →
  nat_flag (nat_kind m) ∧
  ct_xfk m = xfk_block (nat_kind m) (CT_KEY_GEN m)
    (NxfrmInf (nat_kind m) 0 0 (nm_nv6 (nm m)) 0 (nm_nxport (nm m)) (nm_nxip (nm m)) (nm_nrip (nm m)),
     plain_rev (CT_KEY_GEN m), ct_in_xxi xi_zero).
Proof.
  intros Hd Hf.
  assert (ct_in_xi m xi_zero = NxfrmInf (nat_kind m) 0 0 (nm_nv6 (nm m)) 0 (nm_nxport (nm m))
    (nm_nxip (nm m)) (nm_nrip (nm m))) as E.
  { unfold ct_in_xi, nat_kind. simpl. rewrite Hd.
    destruct Hf as [-> | ->]; simpl; by destruct (DP_XADDR_ISZR _). }
  assert (nat_flag (nat_kind m)) as Hk.
  { unfold nat_kind, nat_flag. destruct Hf as [-> | ->]; simpl; destruct (DP_XADDR_ISZR _); auto. }
  split; [done|]. unfold ct_xfk. rewrite E. by apply xfk_init_block.
Qed.

(** The metadata of the reply. *)
Lemma reply_fields m ctr r xi xkey xxi :
  ct_xfk m = (xi, xkey, xxi) → nat_flag (nat_flags xxi) → nm_dsr (nm m) = 0 →
  let r' := entry_nat (reverse_entry m ctr) r in
  nf (pm r') = (if has_flag (nat_flags xxi) (Z.lor LLB_NAT_DST LLB_NAT_HDST)
                then LLB_NAT_DST else LLB_NAT_SRC) ∧
  nm_nxip (nm r') = nat_xip xxi ∧ nm_nrip (nm r') = nat_rip xxi ∧
  nm_nxport (nm r') = nat_xport xxi ∧ nm_dsr (nm r') = 0 ∧
  nm_nv6 (nm r') = if negb (k_v6 (CT_KEY_GEN m) =? 0) then 1 else 0.
Proof.
  intros Hx Hf Hd r'. subst r'. unfold entry_nat, reverse_entry. rewrite Hx.
  unfold ct_in_axdat, ct_in_act. simpl. rewrite Hd.
  destruct Hf as [-> | [-> | [-> | ->]]]; simpl; by destruct (is_dl_ipv6 m =? 0).
Qed.

(** C32: A reply of a flow (a packet whose key is the reverse key, carrying the
    translation of the reverse entry) has the key of the flow as its own
    reverse key: tracking it uses the same two entries.  Translated ports and
    addresses must not be zero, which the code reads as "not set". *)
Theorem reply_same_entries m ctr r :
  nat_packet m → nf (pm m) ≠ 0 → CT_KEY_GEN r = ct_xkey m →
  ct_xkey (entry_nat (reverse_entry m ctr) r) = CT_KEY_GEN m.
Proof.
  intros [Hnf Hdsr Hsa Hda Hp] Hnz Hr. apply iszr_false in Hsa, Hda.
  destruct (ct_xfk_block m Hdsr) as [Hk Hx]; [tauto|].
  destruct (ct_xfk m) as [[xi xkey] xxi] eqn:E.
  assert (ct_xkey m = xkey) as Ek by (unfold ct_xkey; unfold ct_xfk in E; by rewrite E).
  pose proof (reply_fields m ctr r xi xkey xxi E) as Hf.
  change (m_daddr (l34m m)) with (k_daddr (CT_KEY_GEN m)) in Hda.
  change (m_saddr (l34m m)) with (k_saddr (CT_KEY_GEN m)) in Hsa.
  assert (k_l4proto (CT_KEY_GEN m) = IPPROTO_ICMP ∨
    k_sport (CT_KEY_GEN m) ≠ 0 ∧ k_dport (CT_KEY_GEN m) ≠ 0) as Hp' by exact Hp.
  assert (k_v6 (CT_KEY_GEN m) = 0 ∨ k_v6 (CT_KEY_GEN m) = 1) as Hv by apply is_dl_ipv6_cases.
  set (r' := entry_nat (reverse_entry m ctr) r) in *.
  assert (CT_KEY_GEN r' = xkey) as Hr' by (unfold r'; by rewrite entry_nat_key, Hr, Ek).
  clearbody r'. clear E Ek Hr Hp.
  revert Hx Hda Hsa Hp' Hv Hf. generalize (CT_KEY_GEN m). intros [kd ks sp dp z p v]. simpl.
  intros Hx Hda Hsa Hp' Hv Hf.
  (* the transformation of the reply *)
  assert (ct_xkey r' = (ct_xfk r').1.2) as -> by done.
  revert Hk Hx. unfold nat_flag, xfk_block, plain_rev.
  unfold xfk_nat_dst, xfk_nat_src, xfk_nat_hdst, xfk_nat_hsrc. simpl.
  intros Hk Hx.
  destruct (p =? IPPROTO_ICMP) eqn:Epi;
  destruct (DP_XADDR_ISZR (nm_nrip (nm m))) eqn:Erip;
  destruct (nm_nxport (nm m) =? 0) eqn:Exp;
  destruct Hk as [EK|[EK|[EK|EK]]]; rewrite EK in Hx; simpl in Hx;
  rewrite ?Epi, ?Erip, ?Exp in Hx; simpl in Hx; injection Hx as -> -> ->;
  (destruct Hf as (Hnf'&Hxip'&Hrip'&Hxp'&Hdsr'&Hnv'); [unfold nat_flag; simpl; auto|done|]);
  cbn in Hnf', Hxip', Hrip', Hxp', Hnv';
  (destruct (ct_xfk_block r') as [_ ->]; [done|rewrite Hnf'; auto|]);
  unfold nat_kind; rewrite Hnf', Hxip', Hrip', Hxp', Hnv', Hr';
  change (DP_XADDR_ISZR DP_XADDR_ZR) with true; rewrite ?Hda, ?Hsa;
  unfold xfk_block, xfk_nat_dst, xfk_nat_src, xfk_nat_hdst, xfk_nat_hsrc; simpl;
  rewrite ?Epi, ?Hda, ?Hsa;
  (destruct Hp' as [->|[Hsp%Z.eqb_neq Hdp%Z.eqb_neq]]; [try discriminate|]);
  rewrite ?Hsp, ?Hdp, ?Exp; destruct Hv as [-> | ->]; try reflexivity.
Qed.

(** A connection to 10.0.0.2:80, translated to 10.0.0.11:8080, and a reply. *)
Definition ref_dnat : xfi :=
  ref_xf IPPROTO_TCP 0x0100000a 0x0200000a 4000 80
    <| pm; nf := LLB_NAT_DST |> <| nm; nm_nxip := XAddr 0x0b00000a 0 0 0 |>
    <| nm; nm_nxport := 8080 |>.
Definition ref_reply : xfi := ref_xf IPPROTO_TCP 0x0b00000a 0x0100000a 8080 4000.

Lemma ref_dnat_packet : nat_packet ref_dnat.
Proof.
  split; [right; left; reflexivity|reflexivity|discriminate|discriminate|].
  right; split; discriminate.
Qed.

Lemma reply_same_entries_witness :
  ct_xkey (entry_nat (reverse_entry ref_dnat 1) ref_reply) = CT_KEY_GEN ref_dnat.
Proof.
  apply (reply_same_entries ref_dnat 1 ref_reply ref_dnat_packet); [discriminate|reflexivity].
Defined.
