(* ===== verification/LoxiPolicer.v ===== *)
(** * loxilb: the policer ([kernel/llb_kern_policer.c])

    [do_dp_policer] is a two-rate token bucket: a committed bucket of [cbs]
    bytes and an excess bucket of [ebs] bytes, filled with [toksc_pus] and
    [tokse_pus] bytes per microsecond.  Tokens are [__u32], the accumulated
    tokens and the time stamps [__u64]. *)
From S2P Require Import Prelude Records Words Consts LoxiDefs LoxiTables LoxiState LoxiRef.
Open Scope c_scope.

Definition NSECS_IN_USEC : Z := 1000.

(** The tokens accumulated since [ts_last], at [rate] per microsecond. *)
Definition acc_toks (rate ts_now ts_last : Z) : Z :=
  u64 (rate * (u64 (ts_now - ts_last) / NSECS_IN_USEC)).

(** The bucket of size [bs] holding [tok] after [acc] more tokens. *)
Definition add_toks (bs tok acc : Z) : Z :=
  if tok <? bs then
    let ntoks := u32 (bs - tok) in
    if ntoks <? acc then u32 (tok + ntoks) else u32 (tok + acc)
  else tok.

(** "Calculate and add tokens to CBS", then the same for EBS. *)
Definition fill_c (ts_now : Z) (p : dp_policer_act) : dp_policer_act :=
  let acc := acc_toks (toksc_pus p) ts_now (lastc_uts p) in
  if 0 <? acc
  then p <| lastc_uts := ts_now |> <| tok_c := add_toks (cbs p) (tok_c p) acc |>
  else p.
Definition fill_e (ts_now : Z) (p : dp_policer_act) : dp_policer_act :=
  let acc := acc_toks (tokse_pus p) ts_now (laste_uts p) in
  if negb (acc =? 0)
  then p <| laste_uts := ts_now |> <| tok_e := add_toks (ebs p) (tok_e p) acc |>
  else p.

Definition take_e (n : Z) (p : dp_policer_act) : dp_policer_act :=
  p <| tok_e ::= λ t, u32 (t - n) |>.
Definition take_c (n : Z) (p : dp_policer_act) : dp_policer_act :=
  p <| tok_c ::= λ t, u32 (t - n) |>.

(** From [if (pla->pol.color_aware == 0)] to the label [out]: the policer, the
    output colour and [ret]. *)
Definition mark_color (inbytes icol ocol : Z) (p : dp_policer_act) :
    dp_policer_act * Z * Z :=
  if color_aware p =? 0 then
    if tok_e p <? inbytes then (p, LLB_PIPE_COL_RED, 0)
    else if tok_c p <? inbytes then (take_e inbytes p, LLB_PIPE_COL_YELLOW, 0)
    else (take_e inbytes (take_c inbytes p), LLB_PIPE_COL_GREEN, 0)
  else if icol =? LLB_PIPE_COL_NONE then (p, ocol, -1)
  else if icol =? LLB_PIPE_COL_RED then (p, LLB_PIPE_COL_RED, 0)
  else if tok_e p <? inbytes then (p, LLB_PIPE_COL_RED, 0)
  else if tok_c p <? inbytes then
    (take_e inbytes p,
     if icol =? LLB_PIPE_COL_GREEN then LLB_PIPE_COL_YELLOW else icol, 0)
  else (take_e inbytes (take_c inbytes p), icol, 0).

(** The critical section: the policer, the colour, [ret], and whether the
    packet is dropped. *)
Definition police (ts_now inbytes icol ocol : Z) (p : dp_policer_act) :
    dp_policer_act * Z * Z * bool :=
  let p := fill_e ts_now (fill_c ts_now p) in
  let '(p, col, ret) := mark_color inbytes icol ocol p in
  if drop_prio p <? col
  then (p <| drop_packets ::= λ n, u64 (n + 1) |>, col, 1, true)
  else (p <| pass_packets ::= λ n, u64 (n + 1) |>, col, ret, false).

Section policer.
Context {K : Type} `{LoxiEnv K}.

Definition do_dp_policer (egr : bool) : func (lstate K) Z := run (
  let! now := ktime_ns in
  let! x := gets xf in
  let polid := if egr then opolid (qm x) else ipolid (qm x) in
  let! o := gets (λ s, polx_map s !! polid) in
  let! pla := or_return o 0 in
  let '(p, col, ret_, drop) := police now (l3_len (pm x)) (icol (qm x)) (ocol (qm x)) (pol pla) in
  modify (λ s, s <| polx_map ::= <[polid := pla <| pol := p |>]> |>) ;;
  upd_xf (λ x, x <| qm; ocol := col |>) ;;
  when drop LLBS_PPLN_DROP ;;
  ret ret_).
End policer.

(** ** Bucket bounds *)

(** A policer as user space writes it and the machine keeps it. *)
Definition policer_ok (p : dp_policer_act) : Prop :=
  0 ≤ tok_c p ≤ cbs p ∧ 0 ≤ tok_e p ≤ ebs p ∧ cbs p < 2 ^ 32 ∧ ebs p < 2 ^ 32 ∧
  0 ≤ toksc_pus p ∧ 0 ≤ tokse_pus p.

Lemma acc_toks_nonneg r n l : 0 ≤ acc_toks r n l.
Proof. apply u64_range. Qed.

Lemma acc_toks_le r n l :
  0 ≤ r → 0 ≤ l ≤ n → n < 2 ^ 64 → acc_toks r n l ≤ r * ((n - l) / NSECS_IN_USEC).
Proof.
  intros Hr Hl Hn. unfold acc_toks. rewrite (u64_id (n - l)) by lia.
  apply Z.mod_le; [|lia]. apply Z.mul_nonneg_nonneg; [done|].
  apply Z.div_pos; unfold NSECS_IN_USEC; lia.
Qed.

(** No wrap-around: the bucket gains at most [acc] and is never overfull. *)
Lemma add_toks_spec bs tok acc :
  0 ≤ tok ≤ bs → bs < 2 ^ 32 → 0 ≤ acc → add_toks bs tok acc = Z.min bs (tok + acc).
Proof.
  intros Ht Hb Ha. unfold add_toks. destruct (Z.ltb_spec tok bs); [|lia].
  rewrite (u32_id (bs - tok)) by lia.
  destruct (Z.ltb_spec (bs - tok) acc); rewrite u32_id by lia; lia.
Qed.

Lemma take_spec n p : 0 ≤ n ≤ tok_e p → tok_e p < 2 ^ 32 → tok_e (take_e n p) = tok_e p - n.
Proof. intros. simpl. apply u32_id. lia. Qed.

Lemma fill_c_ok t p : policer_ok p → policer_ok (fill_c t p).
Proof.
  intros (?&?&?&?&?&?). unfold fill_c. destruct (0 <? _); [|done].
  pose proof (acc_toks_nonneg (toksc_pus p) t (lastc_uts p)).
  unfold policer_ok. simpl. rewrite add_toks_spec by lia. lia.
Qed.
Lemma fill_e_ok t p : policer_ok p → policer_ok (fill_e t p).
Proof.
  intros (?&?&?&?&?&?). unfold fill_e. destruct (negb _); [|done].
  pose proof (acc_toks_nonneg (tokse_pus p) t (laste_uts p)).
  unfold policer_ok. simpl. rewrite add_toks_spec by lia. lia.
Qed.

(** The bytes a colour takes from the two buckets. *)
Definition green_bytes (col n : Z) : Z := if col =? LLB_PIPE_COL_GREEN then n else 0.
Definition passed_bytes (col n : Z) : Z :=
  if (col =? LLB_PIPE_COL_GREEN) || (col =? LLB_PIPE_COL_YELLOW) then n else 0.

(** The parameters of a policer. *)
Definition same_rates (p q : dp_policer_act) : Prop :=
  cbs q = cbs p ∧ ebs q = ebs p ∧ toksc_pus q = toksc_pus p ∧ tokse_pus q = tokse_pus p.

Lemma mark_color_ok n icol p :
  policer_ok p → 0 ≤ n →
  let '(q, col, _) := mark_color n icol LLB_PIPE_COL_NONE p in
  policer_ok q ∧ same_rates p q ∧ lastc_uts q = lastc_uts p ∧ laste_uts q = laste_uts p ∧
  tok_c q + green_bytes col n ≤ tok_c p ∧ tok_e q + passed_bytes col n ≤ tok_e p.
Proof.
  intros Hp Hn. pose proof Hp as (?&?&?&?&?&?).
  assert (∀ col, col ≠ LLB_PIPE_COL_GREEN → col ≠ LLB_PIPE_COL_YELLOW →
    green_bytes col n = 0 ∧ passed_bytes col n = 0) as Hno.
  { intros col Hg Hy. unfold green_bytes, passed_bytes.
    by rewrite (proj2 (Z.eqb_neq _ _) Hg), (proj2 (Z.eqb_neq _ _) Hy). }
  assert (∀ col, 0 ≤ green_bytes col n ≤ n ∧ 0 ≤ passed_bytes col n ≤ n) as Hle.
  { intros col. unfold green_bytes, passed_bytes. repeat case_match; lia. }
  assert (∀ col, col ≠ LLB_PIPE_COL_GREEN → green_bytes col n = 0) as Hng.
  { intros col Hg. unfold green_bytes. by rewrite (proj2 (Z.eqb_neq _ _) Hg). }
  assert (∀ q, same_rates q q) as Hsr by done.
  unfold mark_color, policer_ok, take_c, take_e.
  destruct (color_aware p =? 0).
  - destruct (Z.ltb_spec (tok_e p) n); [by (destruct (Hno LLB_PIPE_COL_RED); [done..|]; repeat split; simpl; lia)|].
    destruct (Z.ltb_spec (tok_c p) n); simpl; rewrite ?u32_id by lia.
    + specialize (Hle LLB_PIPE_COL_YELLOW). rewrite (Hng LLB_PIPE_COL_YELLOW) by done.
      repeat split; simpl; lia.
    + specialize (Hle LLB_PIPE_COL_GREEN). repeat split; simpl; lia.
  - destruct (icol =? LLB_PIPE_COL_NONE);
      [by (destruct (Hno LLB_PIPE_COL_NONE); [done..|]; repeat split; simpl; lia)|].
    destruct (icol =? LLB_PIPE_COL_RED);
      [by (destruct (Hno LLB_PIPE_COL_RED); [done..|]; repeat split; simpl; lia)|].
    destruct (Z.ltb_spec (tok_e p) n);
      [by (destruct (Hno LLB_PIPE_COL_RED); [done..|]; repeat split; simpl; lia)|].
    destruct (Z.ltb_spec (tok_c p) n); simpl; rewrite ?u32_id by lia.
    + set (col := if icol =? LLB_PIPE_COL_GREEN then LLB_PIPE_COL_YELLOW else icol).
      specialize (Hle col). rewrite (Hng col).
      { repeat split; simpl; lia. }
      subst col. by destruct (Z.eqb_spec icol LLB_PIPE_COL_GREEN).
    + specialize (Hle icol). repeat split; simpl; lia.
Qed.

(** ** Conformance *)

(** What a bucket may still give out until time [T]. *)
Definition credit_c (T : Z) (p : dp_policer_act) : Z :=
  tok_c p + toksc_pus p * ((T - lastc_uts p) / NSECS_IN_USEC).
Definition credit_e (T : Z) (p : dp_policer_act) : Z :=
  tok_e p + tokse_pus p * ((T - laste_uts p) / NSECS_IN_USEC).

Lemma elapsed_split a b T :
  a ≤ b ≤ T →
  (b - a) / NSECS_IN_USEC + (T - b) / NSECS_IN_USEC ≤ (T - a) / NSECS_IN_USEC.
Proof.
  intros H. unfold NSECS_IN_USEC. pose proof (Z.div_mod (b - a) 1000). pose proof (Z.div_mod (T - b) 1000).
  apply Z.div_le_lower_bound; [lia|].
  pose proof (Z.mod_pos_bound (b - a) 1000). pose proof (Z.mod_pos_bound (T - b) 1000). lia.
Qed.

Lemma fill_c_credit t T p :
  policer_ok p → 0 ≤ lastc_uts p ≤ t → t ≤ T → T < 2 ^ 64 →
  credit_c T (fill_c t p) ≤ credit_c T p ∧ lastc_uts p ≤ lastc_uts (fill_c t p) ≤ t.
Proof.
  intros (?&?&?&?&Hr&?) Hl HT HT64. unfold fill_c, credit_c.
  destruct (Z.ltb_spec 0 (acc_toks (toksc_pus p) t (lastc_uts p))); [|lia]. simpl.
  pose proof (acc_toks_le (toksc_pus p) t (lastc_uts p) Hr ltac:(lia) ltac:(lia)).
  rewrite add_toks_spec by lia. pose proof (elapsed_split (lastc_uts p) t T ltac:(lia)). nia.
Qed.
Lemma fill_e_credit t T p :
  policer_ok p → 0 ≤ laste_uts p ≤ t → t ≤ T → T < 2 ^ 64 →
  credit_e T (fill_e t p) ≤ credit_e T p ∧ laste_uts p ≤ laste_uts (fill_e t p) ≤ t.
Proof.
  intros (?&?&?&?&?&Hr) Hl HT HT64. unfold fill_e, credit_e.
  pose proof (acc_toks_nonneg (tokse_pus p) t (laste_uts p)).
  destruct (negb _); [|lia]. simpl.
  pose proof (acc_toks_le (tokse_pus p) t (laste_uts p) Hr ltac:(lia) ltac:(lia)).
  rewrite add_toks_spec by lia. pose proof (elapsed_split (laste_uts p) t T ltac:(lia)). nia.
Qed.

Lemma fill_c_rest t p :
  same_rates p (fill_c t p) ∧ tok_e (fill_c t p) = tok_e p ∧ laste_uts (fill_c t p) = laste_uts p.
Proof. unfold fill_c. by destruct (0 <? _). Qed.
Lemma fill_e_rest t p :
  same_rates p (fill_e t p) ∧ tok_c (fill_e t p) = tok_c p ∧ lastc_uts (fill_e t p) = lastc_uts p.
Proof. unfold fill_e. by destruct (negb _). Qed.

(** One packet: the buckets stay within bounds and pay for what passes. *)
Lemma police_step t T n icol p :
  policer_ok p → 0 ≤ lastc_uts p ≤ t → 0 ≤ laste_uts p ≤ t → t ≤ T → T < 2 ^ 64 → 0 ≤ n →
  let '(q, col, _, _) := police t n icol LLB_PIPE_COL_NONE p in
  policer_ok q ∧ 0 ≤ lastc_uts q ≤ t ∧ 0 ≤ laste_uts q ≤ t ∧
  credit_c T q + green_bytes col n ≤ credit_c T p ∧
  credit_e T q + passed_bytes col n ≤ credit_e T p.
Proof.
  intros Hp Hc He HT HT64 Hn. unfold police.
  destruct (fill_c_credit t T p Hp Hc HT HT64) as [Kc Lc].
  destruct (fill_c_rest t p) as (Sc & Ee & El). pose proof (fill_c_ok t p Hp) as Hp1.
  assert (credit_e T (fill_c t p) = credit_e T p) as Ce.
  { unfold credit_e. destruct Sc as (_&_&_&->). by rewrite Ee, El. }
  destruct (fill_e_credit t T (fill_c t p) Hp1 ltac:(lia) HT HT64) as [Ke Le].
  destruct (fill_e_rest t (fill_c t p)) as (Se & Fc & Fl).
  pose proof (fill_e_ok t _ Hp1) as Hp2.
  assert (credit_c T (fill_e t (fill_c t p)) = credit_c T (fill_c t p)) as Cc.
  { unfold credit_c. destruct Se as (_&_&->&_). by rewrite Fc, Fl. }
  pose proof (mark_color_ok n icol (fill_e t (fill_c t p)) Hp2 Hn) as Hm.
  destruct (mark_color _ _ _ _) as [[q col] ret_].
  destruct Hm as (Hq & (_&_&Rc&Re) & Lq & Leq & Gc & Ge).
  assert (policer_ok q ∧ 0 ≤ lastc_uts q ≤ t ∧ 0 ≤ laste_uts q ≤ t ∧
    credit_c T q + green_bytes col n ≤ credit_c T p ∧
    credit_e T q + passed_bytes col n ≤ credit_e T p) as Hfin.
  { split; [done|]. split; [lia|]. split; [lia|]. unfold credit_c, credit_e in *.
    rewrite Rc, Re, Lq, Leq. lia. }
  by destruct (drop_prio q <? col).
Qed.

(** Packets at a policer: arrival time, length and colour so far. *)
Record arrival : Type := Arrival { a_time : Z; a_len : Z; a_icol : Z }.

Fixpoint police_all (l : list arrival) (p : dp_policer_act) : list (Z * Z) * dp_policer_act :=
  match l with
  | [] => ([], p)
  | a :: l =>
      let '(p, col, _, _) := police (a_time a) (a_len a) (a_icol a) LLB_PIPE_COL_NONE p in
      let '(out, p) := police_all l p in ((col, a_len a) :: out, p)
  end.

Definition total (f : Z → Z → Z) (out : list (Z * Z)) : Z :=
  foldr (λ '(col, n) acc, f col n + acc) 0 out.

(** Arrivals in order, from time [t0] to time [T]. *)
Fixpoint arrivals_ok (t0 T : Z) (l : list arrival) : Prop :=
  match l with
  | [] => t0 ≤ T
  | a :: l => t0 ≤ a_time a ∧ 0 ≤ a_len a ∧ arrivals_ok (a_time a) T l
  end.

Lemma arrivals_ok_le t0 T l : arrivals_ok t0 T l → t0 ≤ T.
Proof.
  revert t0. induction l as [|a l IH]; intros t0; simpl; [done|].
  intros (?&?&?%IH). lia.
Qed.

(** C37: Policing keeps both buckets between zero and their size and never
    wraps around, and it conforms to its rates: up to time [T] the green bytes
    are at most the committed tokens plus the committed rate times the
    elapsed microseconds, and the green and yellow bytes together the same for
    the excess bucket. *)
Theorem policer_conformance p l t0 T :
  policer_ok p → 0 ≤ lastc_uts p ≤ t0 → 0 ≤ laste_uts p ≤ t0 →
  arrivals_ok t0 T l → T < 2 ^ 64 →
  let '(out, q) := police_all l p in
  policer_ok q ∧
  total green_bytes out ≤ tok_c p + toksc_pus p * ((T - lastc_uts p) / NSECS_IN_USEC) ∧
  total passed_bytes out ≤ tok_e p + tokse_pus p * ((T - laste_uts p) / NSECS_IN_USEC).
Proof.
  intros Hp Hc He Hl HT. fold (credit_c T p) (credit_e T p).
  revert p t0 Hp Hc He Hl. induction l as [|a l IH]; intros p t0 Hp Hc He Hl.
  { simpl in *. pose proof Hp as (?&?&?&?&?&?). split; [done|]. unfold credit_c, credit_e.
    assert (0 ≤ (T - lastc_uts p) / NSECS_IN_USEC) by (apply Z.div_pos; unfold NSECS_IN_USEC; lia).
    assert (0 ≤ (T - laste_uts p) / NSECS_IN_USEC) by (apply Z.div_pos; unfold NSECS_IN_USEC; lia).
    nia. }
  destruct Hl as (Ht & Hn & Hl). pose proof (arrivals_ok_le _ _ _ Hl).
  pose proof (police_step (a_time a) T (a_len a) (a_icol a) p Hp ltac:(lia) ltac:(lia)
    ltac:(lia) HT Hn) as Hs.
  simpl. destruct (police _ _ _ _ _) as [[[q col] ret_] drop].
  destruct Hs as (Hq & Lc & Le & Gc & Ge).
  specialize (IH q (a_time a) Hq Lc Le Hl). destruct (police_all l q) as [out q'].
  destruct IH as (? & ? & ?). split; [done|]. simpl. lia.
Qed.

(** The policer drops a packet exactly when its colour exceeds the drop
    priority, counts it once either way, and reports 1 for it. *)
Lemma policer_drop_accounting t n icol ocol p :
  let '(q, col, r, drop) := police t n icol ocol p in
  drop = (drop_prio p <? col) ∧
  (if drop then drop_packets q = u64 (drop_packets p + 1) ∧ pass_packets q = pass_packets p ∧ r = 1
   else drop_packets q = drop_packets p ∧ pass_packets q = u64 (pass_packets p + 1)).
Proof.
  unfold police.
  assert (∀ x, drop_prio x = drop_prio p ∧ drop_packets x = drop_packets p ∧
      pass_packets x = pass_packets p →
    let '(q, _, _) := mark_color n icol ocol x in
    drop_prio q = drop_prio p ∧ drop_packets q = drop_packets p ∧
    pass_packets q = pass_packets p) as Hm.
  { intros x Hx. unfold mark_color, take_c, take_e. by split_ifs. }
  specialize (Hm (fill_e t (fill_c t p))).
  destruct (mark_color _ _ _ _) as [[q col] r]. destruct Hm as (E1 & E2 & E3).
  { unfold fill_e, fill_c. by split_ifs. }
  rewrite E1. destruct (drop_prio p <? col) eqn:E; simpl; rewrite E, ?E2, ?E3; done.
Qed.

Definition ref_policer : dp_policer_act :=
  PolicerAct 0 0 2 1000 3000 500 3000 1 2 0 0 0 0.
Lemma policer_conformance_witness :
  let '(out, q) := police_all [Arrival 2000 500 0; Arrival 5000 1500 0] ref_policer in
  policer_ok q ∧ total green_bytes out ≤ 500 + 1 * ((9000 - 0) / NSECS_IN_USEC) ∧
  total passed_bytes out ≤ 3000 + 2 * ((9000 - 0) / NSECS_IN_USEC).
Proof.
  apply (policer_conformance ref_policer [Arrival 2000 500 0; Arrival 5000 1500 0] 0 9000);
    [unfold policer_ok; simpl; lia|simpl; lia|simpl; lia|simpl; lia|lia].
Defined.
