(* ===== verification/LoxiFw.v ===== *)
(** * loxilb: the firewall ([kernel/llb_kern_fw.c])

    Classifier keys with masks and ranges ([common/common_pdi.h]), the
    statistics update [dp_do_map_stats] ([kernel/llb_kern_cdefs.h]), the rule
    search [dp_do_fw4_main], and the part of [dp_ing_ct_main]
    ([kernel/llb_kern_devif.c]) that runs it: the two programs call each other
    by tail calls until the search is over. *)
From S2P Require Import Prelude Records Words Consts LoxiDefs LoxiTables LoxiState LoxiRef.
Open Scope c_scope.

(** ** Classifier keys *)

(** A key field matches a rule field on the bits of the rule's mask. *)
Definition PDI_MATCH (v1 v2 : pdi_tup) : bool :=
  (valid v2 =? 0) || (negb (valid v2 =? 0) && (Z.land (val v1) (valid v2) =? val v2)).

Definition PDI_RMATCH (v1 v2 : pdi_tupr) : bool :=
  (negb (has_range v2 =? 0) &&
     ((u_val_min v2 <=? u_val_min v1) && (u_val_min v1 <=? u_valid_max v2))) ||
  ((has_range v2 =? 0) &&
     ((u_valid_max v2 =? 0) ||
      (negb (u_valid_max v2 =? 0) &&
       (Z.land (u_val_min v1) (u_valid_max v2) =? u_val_min v2)))).

Definition PDI_PKEY_EQ (v1 v2 : pdi_key) : bool :=
  PDI_MATCH (f_dest v1) (f_dest v2) && PDI_MATCH (f_source v1) (f_source v2) &&
  PDI_RMATCH (f_dport v1) (f_dport v2) && PDI_RMATCH (f_sport v1) (f_sport v2) &&
  PDI_MATCH (f_inport v1) (f_inport v2) && PDI_MATCH (f_zone v1) (f_zone v2) &&
  PDI_MATCH (f_protocol v1) (f_protocol v2) && PDI_MATCH (f_bd v1) (f_bd v2).

(** The fields are [w] bits wide: the mask [-1] is all ones. *)
Definition PDI_VAL_INIT (w v : Z) : pdi_tup := PdiTup (v mod 2 ^ w) (2 ^ w - 1).
Definition PDI_RVAL_INIT (w v : Z) : pdi_tupr := PdiTupR 0 (v mod 2 ^ w) (2 ^ w - 1).

(** The key of a packet. *)
Definition fw_key (x : xfi) : pdi_key :=
  PdiKey (PDI_VAL_INIT 32 (bpf_ntohl (xa0 (m_daddr (l34m x)))))
         (PDI_VAL_INIT 32 (bpf_ntohl (xa0 (m_saddr (l34m x)))))
         (PDI_RVAL_INIT 16 (bpf_htons (m_dest (l34m x))))
         (PDI_RVAL_INIT 16 (bpf_htons (m_source (l34m x))))
         (PDI_VAL_INIT 16 (iport (pm x))) (PDI_VAL_INIT 16 (zone (pm x)))
         (PDI_VAL_INIT 16 (bd (pm x))) (PDI_VAL_INIT 8 (nw_proto (l34m x)))
         (PdiTup 0 0).

(** ** Statistics *)

Definition LL_DP_INTF_STATS_MAP : Z := 1.
Definition LL_DP_BD_STATS_MAP : Z := 2.
Definition LL_DP_TX_INTF_STATS_MAP : Z := 12.
Definition LL_DP_TX_BD_STATS_MAP : Z := 13.
Definition LL_DP_RTV4_STATS_MAP : Z := 15.
Definition LL_DP_RTV6_STATS_MAP : Z := 16.
Definition LL_DP_TMAC_STATS_MAP : Z := 18.
Definition LL_DP_SESS4_STATS_MAP : Z := 26.

(** The tables the [switch (xtbl)] knows. *)
Definition is_stats_map (xtbl : Z) : bool :=
  bool_decide (xtbl ∈ [LL_DP_RTV4_STATS_MAP; LL_DP_RTV6_STATS_MAP; LL_DP_CT_STATS_MAP;
    LL_DP_INTF_STATS_MAP; LL_DP_TX_INTF_STATS_MAP; LL_DP_BD_STATS_MAP;
    LL_DP_TX_BD_STATS_MAP; LL_DP_TMAC_STATS_MAP; LL_DP_SESS4_STATS_MAP;
    LL_DP_NAT_STATS_MAP; LL_DP_FW4_STATS_MAP]).

(** What a program of the chain does last: tail-call program [pgm], or,
    when the call fails, return. *)
Inductive fw_exit : Type := TailCall (pgm : Z) | Exit (r : Z).

Definition LLB_DP_FW_PGM_ID : Z := 3.
Definition DP_MAX_LOOPS_PER_FWLKUP : Z := 400.

Section firewall.
Context {K : Type} `{LoxiEnv K}.

(** The map of table [xtbl]: absent from [stats_maps] when empty. *)
Definition stats_map (xtbl : Z) (s : lstate K) : gmap Z dp_pb_stats :=
  default ∅ (stats_maps s !! xtbl).

Definition dp_do_map_stats (xtbl cidx : Z) : func (lstate K) unit := run (
  return_if (negb (is_stats_map xtbl)) tt ;;
  let key := cidx in
  let! x := gets xf in
  let! pb := gets (λ s, stats_map xtbl s !! key) in
  match pb with
  | Some pb =>
      let pb := pb <| bytes ::= λ n, u64 (n + py_bytes (pm x)) |>
                   <| packets ::= λ n, u64 (n + 1) |> in
      modify (λ s, s <| stats_maps ::= <[xtbl := <[key := pb]> (stats_map xtbl s)]> |>)
  | None =>
      λ s, let '(t, κ) := lx_stats_update xtbl key (PbStats (py_bytes (pm x)) 1)
                            (stats_map xtbl s) (lkern s) in
           Next tt (s <| stats_maps ::= <[xtbl := t]> |> <| lkern := κ |>)
  end).

(** ** The search *)

(** [xf->pm.fw_lid = LLB_FW4_MAP_ENTRIES] *)
Definition fw_end : body (lstate K) fw_exit unit :=
  upd_xf (λ x, x <| pm; fw_lid := LLB_FW4_MAP_ENTRIES |>).

Definition RETURN_TO_MP {A} : body (lstate K) fw_exit A := return_ (TailCall LLB_DP_CT_PGM_ID).

(** The [for] loop with [n] iterations left, at counter [i]: the rule that
    matched, or [None] when the loop ended with [i] at the maximum. *)
Fixpoint fw_loop (n : nat) (key : pdi_key) (i idx : Z) :
    body (lstate K) fw_exit (option dp_fwv4_ent) :=
  match n with
  | O => ret None
  | S n =>
      let! fwe := gets (λ s, fw_v4_map s !! idx) in
      match fwe with
      | None => fw_end ;; RETURN_TO_MP
      | Some fwe =>
          let! x := gets xf in
          let next :=
            let idx := u32 (idx + 1) in
            if negb (val (f_zone (fw_k fwe)) =? 0) && PDI_PKEY_EQ key (fw_k fwe)
            then fw_end ;; ret (Some fwe)
            else fw_loop n key (i + 1) idx in
          if idx =? 0 then
            upd_xf (λ x, x <| pm; fw_mid := val (f_nr (fw_k fwe)) |>) ;; next
          else if fw_mid (pm x) <=? i + fw_lid (pm x) then ret None
          else next
      end
  end.

(** After the search: the action of rule [fwe]. *)
Definition fw_action (fwe : dp_fwv4_ent) : body (lstate K) fw_exit fw_exit :=
  let ca := fwa_ca fwe in
  upd_xf (λ x, x <| pm; phit ::= λ h, Z.lor h LLB_DP_FW_HIT |>) ;;
  upd_xf (λ x, x <| pm; dp_mark := mark ca |> <| pm; dp_rec := record ca |>) ;;
  when (negb (act_type ca =? DP_SET_NOP))
    ((if act_type ca =? DP_SET_RDR_PORT then
        LLBS_PPLN_RDR_PRIO ;;
        upd_xf (λ x, x <| pm; oport := fwa_oport fwe |>)
      else if act_type ca =? DP_SET_TOCP then LLBS_PPLN_TRAPC LLB_PIPE_RC_FW_RDR
      else LLBS_PPLN_DROP) ;;
     upd_xf (λ x, x <| pm; phit ::= λ h, Z.lor h LLB_DP_RES_HIT |>)) ;;
  call (dp_do_map_stats LL_DP_FW4_STATS_MAP (cidx ca)) ;;
  upd_xf (λ x, x <| pm; fw_rid := u16 (cidx ca) |>) ;;
  RETURN_TO_MP.

Definition dp_do_fw4_main : func (lstate K) fw_exit := run (
  let! x := gets xf in
  let key := fw_key x in
  upd_xf (λ x, x <| pm; table_id := LL_DP_FW4_MAP |>) ;;
  let idx := fw_lid (pm x) in
  let! o := fw_loop (Z.to_nat DP_MAX_LOOPS_PER_FWLKUP) key 0 idx in
  match o with
  | None =>
      upd_xf (λ x, x <| pm; fw_lid ::= λ l, u16 (l + DP_MAX_LOOPS_PER_FWLKUP) |>) ;;
      let! x := gets xf in
      when ((LLB_FW4_MAP_ENTRIES <=? fw_lid (pm x)) || (fw_mid (pm x) <? fw_lid (pm x)))
        fw_end ;;
      RETURN_TO_MP
  | Some fwe => fw_action fwe
  end).

Definition dp_do_fw_main : func (lstate K) fw_exit := dp_do_fw4_main.

(** [dp_ing_ct_main] up to the firewall, then through the firewall program
    and back, with [calls] tail calls allowed.  The result says whether the
    program goes on to NAT and connection tracking ([true]), ends with
    [dp_pipe_check_res] ([false]), or has dropped the packet because a tail
    call of the firewall program failed ([None]). *)
Fixpoint ct_main_fw (calls : nat) : func (lstate K) (option bool) := run (
  let! x := gets xf in
  return_if (has_flag (phit (pm x)) LLB_DP_RES_HIT) (Some false) ;;
  return_if (has_flag (phit (pm x)) LLB_DP_ACL_HIT) (Some true) ;;
  if fw_lid (pm x) <? LLB_FW4_MAP_ENTRIES then
    match calls with
    | O => ret (Some true)
    | S calls =>
        let! e := call dp_do_fw_main in
        match e, calls with
        | TailCall _, S calls => call (ct_main_fw calls)
        | _, _ => ret None
        end
    end
  else ret (Some true)).
End firewall.

(** ** The rules in order *)

Section spec.
Context {K : Type} `{LoxiEnv K}.
Implicit Types s : lstate K.

(** [fw_v4_map] is an array map: every index has an entry. *)
Definition fw_array s : Prop :=
  ∀ i, 0 ≤ i < LLB_FW4_MAP_ENTRIES → is_Some (fw_v4_map s !! i).

(** The number of rules, which the control plane keeps in [nr] of rule 0. *)
Definition fw_nr s : Z :=
  match fw_v4_map s !! 0 with Some e => val (f_nr (fw_k e)) | None => 0 end.

(** Rules [a], ..., [a + n - 1]. *)
Definition fw_rules s (a n : nat) : list dp_fwv4_ent :=
  omap (λ i, fw_v4_map s !! Z.of_nat i) (seq a n).

Definition fw_hit (key : pdi_key) (e : dp_fwv4_ent) : bool :=
  negb (val (f_zone (fw_k e)) =? 0) && PDI_PKEY_EQ key (fw_k e).

(** The metadata after a search, and after the action of rule [e]. *)
Definition fw_searched s (x : xfi) : xfi :=
  x <| pm; table_id := LL_DP_FW4_MAP |> <| pm; fw_mid := fw_nr s |>
    <| pm; fw_lid := LLB_FW4_MAP_ENTRIES |>.
Definition fw_apply (e : dp_fwv4_ent) (x : xfi) : xfi :=
  let ca := fwa_ca e in
  let x := x <| pm; phit ::= λ h, Z.lor h LLB_DP_FW_HIT |>
             <| pm; dp_mark := mark ca |> <| pm; dp_rec := record ca |> in
  let x :=
    if act_type ca =? DP_SET_NOP then x
    else
      (if act_type ca =? DP_SET_RDR_PORT then
         x <| pm; pipe_act ::= Z.lor LLB_PIPE_RDR_PRIO |> <| pm; oport := fwa_oport e |>
       else if act_type ca =? DP_SET_TOCP then
         x <| pm; pipe_act ::= Z.lor LLB_PIPE_TRAP |> <| pm; rcode := LLB_PIPE_RC_FW_RDR |>
       else x <| pm; pipe_act ::= Z.lor LLB_PIPE_DROP |>)
        <| pm; phit ::= λ h, Z.lor h LLB_DP_RES_HIT |> in
  x <| pm; fw_rid := u16 (cidx ca) |>.

(** The counters change only. *)
Definition fw_ended s : lstate K := s <| xf; pm; fw_lid := LLB_FW4_MAP_ENTRIES |>.

Lemma fw_loop_tail n (key : pdi_key) (j : nat) s :
  fw_array s → fw_lid (pm (xf s)) = 0 → fw_mid (pm (xf s)) < DP_MAX_LOOPS_PER_FWLKUP →
  (1 ≤ j)%nat → (j + n = 400)%nat →
  fw_loop n key (Z.of_nat j) (Z.of_nat j) s =
  match List.find (fw_hit key) (fw_rules s j (Z.to_nat (fw_mid (pm (xf s))) - j)) with
  | None => Next None s
  | Some e => Next (Some e) (fw_ended s)
  end.
Proof.
  intros Ha Hl Hm. revert j. induction n as [|n IH]; intros j Hj Hn.
  { unfold DP_MAX_LOOPS_PER_FWLKUP in *.
    by replace (Z.to_nat (fw_mid (pm (xf s))) - j)%nat with 0%nat by lia. }
  destruct (Ha (Z.of_nat j)) as [e He]; [unfold LLB_FW4_MAP_ENTRIES; lia|].
  simpl. unfold bind, gets at 1. rewrite He. unfold gets. simpl.
  rewrite (proj2 (Z.eqb_neq (Z.of_nat j) 0)) by lia. rewrite Hl, Z.add_0_r.
  destruct (Z.leb_spec (fw_mid (pm (xf s))) (Z.of_nat j)).
  { by replace (Z.to_nat (fw_mid (pm (xf s))) - j)%nat with 0%nat by lia. }
  replace (Z.to_nat (fw_mid (pm (xf s))) - j)%nat
    with (S (Z.to_nat (fw_mid (pm (xf s))) - S j)) by lia.
  unfold fw_rules. simpl. rewrite He. simpl. unfold fw_hit at 1.
  destruct (negb _ && _); [done|].
  rewrite u32_id by lia. replace (Z.of_nat j + 1) with (Z.of_nat (S j)) by lia.
  by rewrite IH by lia.
Qed.

(** The first matching rule: rule 0 is always looked at, then the rules below
    [nr]. *)
Definition fw_first s (key : pdi_key) : option dp_fwv4_ent :=
  List.find (fw_hit key) (fw_rules s 0 (Nat.max 1 (Z.to_nat (fw_nr s)))).

Lemma fw_loop_all n (key : pdi_key) s :
  fw_array s → fw_lid (pm (xf s)) = 0 → fw_nr s < 256 → (1 + n = 400)%nat →
  let s1 := s <| xf; pm; fw_mid := fw_nr s |> in
  fw_loop (S n) key 0 0 s =
  match fw_first s key with
  | None => Next None s1
  | Some e => Next (Some e) (fw_ended s1)
  end.
Proof.
  intros Ha Hl Hn Hc s1. destruct (Ha 0) as [e He]; [done|].
  assert (val (f_nr (fw_k e)) = fw_nr s) as Enr by (unfold fw_nr; by rewrite He).
  cbn [fw_loop].
  unfold bind at 1, gets at 1. rewrite He. unfold bind at 1, gets at 1.
  change (0 =? 0) with true. cbv iota. unfold bind at 1, upd_xf, modify. rewrite Enr.
  unfold fw_first, fw_rules. replace (Nat.max 1 _) with (S (Z.to_nat (fw_nr s) - 1)) by lia.
  cbn [seq omap list_omap]. change (Z.of_nat 0) with 0. rewrite He. cbn [List.find].
  unfold fw_hit at 1. destruct (negb _ && _); [done|].
  change (u32 (0 + 1)) with (Z.of_nat 1). change (0 + 1) with (Z.of_nat 1).
  rewrite fw_loop_tail; [done|done|done|unfold DP_MAX_LOOPS_PER_FWLKUP; simpl; lia|lia|lia].
Qed.

Lemma fw_loop_max (key : pdi_key) s :
  fw_array s → fw_lid (pm (xf s)) = 0 → fw_nr s < 256 →
  fw_loop (Z.to_nat DP_MAX_LOOPS_PER_FWLKUP) key 0 0 s =
  match fw_first s key with
  | None => Next None (s <| xf; pm; fw_mid := fw_nr s |>)
  | Some e => Next (Some e) (fw_ended (s <| xf; pm; fw_mid := fw_nr s |>))
  end.
Proof.
  intros Ha Hl Hn.
  assert (Z.to_nat DP_MAX_LOOPS_PER_FWLKUP = S 399) as -> by reflexivity.
  exact (fw_loop_all 399 key s Ha Hl Hn eq_refl).
Qed.

Lemma map_stats_xf xtbl cidx s (Q : unit → lstate K → Prop) :
  (∀ t κ, Q tt (s <| stats_maps := t |> <| lkern := κ |>)) →
  wpf (dp_do_map_stats xtbl cidx) Q s.
Proof.
  intros HQ. unfold dp_do_map_stats. wp_step. wp_step. wp_step.
  { specialize (HQ (stats_maps s) (lkern s)). by destruct s. }
  do 4 wp_step. destruct (stats_map xtbl s !! cidx).
  - wp_step. specialize (HQ (<[xtbl := <[cidx := d <| bytes ::= λ n, u64 (n + py_bytes (pm (xf s))) |>
      <| packets ::= λ n, u64 (n + 1) |>]> (stats_map xtbl s)]> (stats_maps s)) (lkern s)).
    by destruct s.
  - unfold wpb. destruct (lx_stats_update _ _ _ _ _) as [t κ]. apply HQ.
Qed.

(** Updates of the metadata compose. *)
Lemma xf_xf (f g : xfi → xfi) s : s <| xf ::= f |> <| xf ::= g |> = s <| xf ::= λ x, g (f x) |>.
Proof. by destruct s. Qed.
Lemma xf_ext (f g : xfi → xfi) s : f (xf s) = g (xf s) → s <| xf ::= f |> = s <| xf ::= g |>.
Proof. destruct s. simpl. unfold update. simpl. by intros ->. Qed.
Lemma xf_stats (f g : xfi → xfi) t κ s :
  s <| xf ::= f |> <| stats_maps := t |> <| lkern := κ |> <| xf ::= g |> =
  s <| xf ::= λ x, g (f x) |> <| stats_maps := t |> <| lkern := κ |>.
Proof. by destruct s. Qed.

Lemma wp_upd_xf_xf {R} (f g : xfi → xfi) QR (QN : unit → lstate K → Prop) s :
  QN tt (s <| xf ::= λ x, g (f x) |>) →
  wpb (upd_xf g) QR QN (s <| xf ::= f |> : lstate K) (R := R).
Proof. unfold upd_xf, wpb, modify. by rewrite xf_xf. Qed.

Lemma fw_action_end e f (Q : fw_exit → lstate K → Prop) s :
  (∀ t κ, Q (TailCall LLB_DP_CT_PGM_ID)
     (s <| xf ::= λ x, f x <| pm; fw_rid := u16 (cidx (fwa_ca e)) |> |>
        <| stats_maps := t |> <| lkern := κ |>)) →
  wpb (call (dp_do_map_stats LL_DP_FW4_STATS_MAP (cidx (fwa_ca e))) ;;
       upd_xf (λ x, x <| pm; fw_rid := u16 (cidx (fwa_ca e)) |>) ;;
       RETURN_TO_MP (A := fw_exit))
    Q Q (s <| xf ::= f |>).
Proof.
  intros HQ. apply wp_bind, wp_call, map_stats_xf. intros t κ. apply wp_bind.
  unfold upd_xf, wpb, modify, RETURN_TO_MP, return_. rewrite xf_stats. apply HQ.
Qed.

Lemma fw_action_spec e s (Q : fw_exit → lstate K → Prop) :
  (∀ t κ, Q (TailCall LLB_DP_CT_PGM_ID)
            (s <| xf ::= fw_apply e |> <| stats_maps := t |> <| lkern := κ |>)) →
  wpb (fw_action e) Q Q s.
Proof.
  intros HQ. unfold fw_action, LLBS_PPLN_RDR_PRIO, LLBS_PPLN_TRAPC, LLBS_PPLN_DROP.
  apply wp_bind. unfold upd_xf at 1. apply wp_modify. apply wp_bind, wp_upd_xf_xf, wp_bind.
  assert (∀ f t κ, f (xf s) = fw_apply e (xf s) →
    Q (TailCall LLB_DP_CT_PGM_ID) (s <| xf ::= f |> <| stats_maps := t |> <| lkern := κ |>)) as HQ'.
  { intros f t κ E. rewrite (xf_ext _ _ _ E). apply HQ. }
  unfold fw_apply in HQ'.
  destruct (act_type (fwa_ca e) =? DP_SET_NOP).
  { apply wp_ret, fw_action_end. intros t κ. apply HQ'. reflexivity. }
  apply wp_bind.
  destruct (act_type (fwa_ca e) =? DP_SET_RDR_PORT);
    [apply wp_bind, wp_upd_xf_xf|destruct (act_type (fwa_ca e) =? DP_SET_TOCP)];
    apply wp_upd_xf_xf, wp_upd_xf_xf, fw_action_end; intros t κ; apply HQ'; reflexivity.
Qed.

(** The program on a fresh packet. *)
Lemma fw_main_spec s :
  fw_array s → fw_lid (pm (xf s)) = 0 → 0 ≤ fw_nr s < 256 →
  wpf dp_do_fw_main (λ r s', r = TailCall LLB_DP_CT_PGM_ID ∧
    match fw_first s (fw_key (xf s)) with
    | None => s' = s <| xf ::= fw_searched s |>
    | Some e => ∃ t κ, s' = s <| xf ::= λ x, fw_apply e (fw_searched s x) |>
                              <| stats_maps := t |> <| lkern := κ |>
    end) s.
Proof.
  intros Ha Hl Hn. unfold dp_do_fw_main, dp_do_fw4_main, upd_xf. do 4 wp_step. wp_step.
  apply wp_bind. rewrite Hl. unfold wpb at 1.
  rewrite fw_loop_max by (try done; unfold fw_nr in *; simpl; lia).
  change (fw_first (s <| xf ::= _ |>) (fw_key (xf s))) with (fw_first s (fw_key (xf s))).
  destruct (fw_first s (fw_key (xf s))) as [e|].
  - apply fw_action_spec. intros t κ. split; [done|]. exists t, κ. reflexivity.
  - unfold upd_xf, fw_end. apply wp_bind, wp_modify, wp_bind, wp_gets, wp_bind, wp_when.
    + intros _. apply wp_modify, wp_return. split; [done|]. by destruct s.
    + simpl. rewrite Hl. unfold DP_MAX_LOOPS_PER_FWLKUP. rewrite u16_id by lia.
      change (fw_nr (update xf _ s)) with (fw_nr s).
      intros [_ Hf%Z.ltb_ge]%orb_false_iff. lia.
Qed.

Lemma phit_other h m n : Z.land m n = 0 → has_flag (Z.lor h m) n = has_flag h n.
Proof. intros E. unfold has_flag. by rewrite Z.land_lor_distr_l, E, Z.lor_0_r. Qed.

Lemma phit_res h : has_flag (Z.lor h LLB_DP_RES_HIT) LLB_DP_RES_HIT = true.
Proof.
  unfold has_flag. rewrite Z.land_lor_distr_l, Z.land_diag.
  apply negb_true_iff, Z.eqb_neq. intros [_ E]%Z.lor_eq_0_iff. done.
Qed.

(** Back in [dp_ing_ct_main] after rule [e]. *)
Lemma fw_apply_phit e x :
  phit (pm (fw_apply e x)) =
  if act_type (fwa_ca e) =? DP_SET_NOP then Z.lor (phit (pm x)) LLB_DP_FW_HIT
  else Z.lor (Z.lor (phit (pm x)) LLB_DP_FW_HIT) LLB_DP_RES_HIT.
Proof. unfold fw_apply. split_ifs; reflexivity. Qed.
Lemma fw_apply_lid e x : fw_lid (pm (fw_apply e x)) = fw_lid (pm x).
Proof. unfold fw_apply. split_ifs; reflexivity. Qed.

Lemma ct_main_back e x calls s :
  xf s = fw_apply e x → fw_lid (pm x) = LLB_FW4_MAP_ENTRIES →
  has_flag (phit (pm x)) LLB_DP_RES_HIT = false →
  has_flag (phit (pm x)) LLB_DP_ACL_HIT = false →
  wpf (ct_main_fw calls) (λ r s',
    r = Some (act_type (fwa_ca e) =? DP_SET_NOP) ∧ s' = s) s.
Proof.
  intros E Hl Hr Hac. destruct calls; cbn [ct_main_fw]; apply wp_run, wp_bind, wp_gets;
    rewrite E, fw_apply_phit, fw_apply_lid, Hl; destruct (_ =? DP_SET_NOP);
    rewrite ?phit_res, ?phit_other by done; by rewrite ?Hr, ?Hac.
Qed.

(** A packet that has not been through the firewall yet. *)
Definition fw_fresh s : Prop :=
  fw_lid (pm (xf s)) = 0 ∧ has_flag (phit (pm (xf s))) LLB_DP_RES_HIT = false ∧
  has_flag (phit (pm (xf s))) LLB_DP_ACL_HIT = false.

(** What the firewall does with it. *)
Definition fw_post s (r : option bool) (s' : lstate K) : Prop :=
  match fw_first s (fw_key (xf s)) with
  | None => r = Some true ∧ s' = s <| xf ::= fw_searched s |>
  | Some e => r = Some (act_type (fwa_ca e) =? DP_SET_NOP) ∧
      ∃ t κ, s' = s <| xf ::= λ x, fw_apply e (fw_searched s x) |>
                    <| stats_maps := t |> <| lkern := κ |>
  end.

Lemma ct_main_fw_spec calls s :
  fw_array s → 0 ≤ fw_nr s < 256 → fw_fresh s → (2 ≤ calls)%nat →
  wpf (ct_main_fw calls) (fw_post s) s.
Proof.
  intros Ha Hn (Hl & Hr & Hac) Hc. unfold fw_post. destruct calls as [|[|calls]]; [lia..|].
  assert (∀ s', xf s' = fw_searched s (xf s) → wpf (ct_main_fw calls)
    (λ r s'', r = Some true ∧ s'' = s') s') as Hnone.
  { intros s' E. destruct calls; cbn [ct_main_fw]; apply wp_run, wp_bind, wp_gets;
      rewrite E; unfold fw_searched; simpl; rewrite Hr, Hac; done. }
  cbn [ct_main_fw]. apply wp_run, wp_bind, wp_gets. rewrite Hr, Hac, Hl.
  change (0 <? LLB_FW4_MAP_ENTRIES) with true. cbv iota. do 2 apply wp_bind, wp_ret.
  apply wp_bind, wp_call. eapply wpf_mono; [by apply fw_main_spec|].
  intros r s' [-> Hs']. cbv beta. apply wp_call. destruct (fw_first _ _) as [e|].
  - destruct Hs' as (t & κ & ->).
    eapply wpf_mono; [by apply (ct_main_back e (fw_searched s (xf s)))|].
    cbv beta. intros r s' [-> ->]. split; [done|]. by exists t, κ.
  - subst s'. eapply wpf_mono; [by apply Hnone|]. auto.
Qed.

(** C33: The firewall, as [dp_ing_ct_main] runs it on a new packet, applies the
    action of the first rule in table order whose key matches the packet and
    whose zone is not 0, and passes the packet on unchanged when there is
    none; the two programs need one tail call each. *)
Theorem firewall_first_match calls s :
  fw_array s → 0 ≤ fw_nr s < 256 → fw_fresh s → (2 ≤ calls)%nat →
  wpf (ct_main_fw calls) (fw_post s) s.
Proof. apply ct_main_fw_spec. Qed.

Lemma fw_first_none s key :
  (∀ i e, (i < Nat.max 1 (Z.to_nat (fw_nr s)))%nat → fw_v4_map s !! Z.of_nat i = Some e →
     fw_hit key e = false) →
  fw_first s key = None.
Proof.
  intros Hno. unfold fw_first. destruct (List.find _ _) as [e|] eqn:E; [|done].
  apply List.find_some in E as [Hin%list_elem_of_In Hhit].
  apply list_elem_of_omap in Hin as (i & Hi%elem_of_seq & He).
  rewrite (Hno i e) in Hhit by (done || lia). done.
Qed.

(** The control plane announces [n] rules in the 8-bit field [nr] of rule
    0, so only the first [n mod 256] of them are ever looked at (rule 0
    always is): a packet that matches a later rule only is passed on. *)
Theorem firewall_rule_count calls s n e0 :
  fw_array s → fw_fresh s → (2 ≤ calls)%nat →
  fw_v4_map s !! 0 = Some e0 → f_nr (fw_k e0) = PDI_VAL_INIT 8 n →
  (∀ i e, (i < Nat.max 1 (Z.to_nat (n mod 256)))%nat → fw_v4_map s !! Z.of_nat i = Some e →
     fw_hit (fw_key (xf s)) e = false) →
  wpf (ct_main_fw calls) (λ r s', r = Some true ∧ s' = s <| xf ::= fw_searched s |>) s.
Proof.
  intros Ha Hf Hc H0 Hn Hno. assert (fw_nr s = n mod 256) as E.
  { unfold fw_nr. by rewrite H0, Hn. }
  assert (0 ≤ n mod 256 < 256) by (apply Z.mod_pos_bound; lia).
  eapply wpf_mono; [apply ct_main_fw_spec; [done|lia|done|done]|].
  unfold fw_post. rewrite fw_first_none; [done|]. by rewrite E.
Qed.
End spec.

(** ** A table of one rule: TCP packets to port 80 are dropped. *)

Definition fw_blank : dp_fwv4_ent :=
  FwEnt (PdiKey (PdiTup 0 0) (PdiTup 0 0) (PdiTupR 0 0 0) (PdiTupR 0 0 0) (PdiTup 0 0)
           (PdiTup 0 0) (PdiTup 0 0) (PdiTup 0 0) (PdiTup 0 0)) (CmnAct 0 0 0 0 0 0 0) 0.
Definition ref_rule (port n : Z) : dp_fwv4_ent :=
  FwEnt (PdiKey (PdiTup 0 0) (PdiTup 0 0) (PdiTupR 0 port 0xffff) (PdiTupR 0 0 0) (PdiTup 0 0)
           (PdiTup 1 0xffff) (PdiTup 0 0) (PdiTup IPPROTO_TCP 0xff) (PDI_VAL_INIT 8 n))
    (CmnAct DP_SET_DROP 0 0 1 0 0 0) 0.
Definition ref_fw_map (rules : list dp_fwv4_ent) : gmap Z dp_fwv4_ent :=
  map_seqZ 0 (rules ++ repeat fw_blank (Z.to_nat LLB_FW4_MAP_ENTRIES - length rules)).
Definition ref_fw_state (rules : list dp_fwv4_ent) (dport : Z) : lstate lrefk :=
  ref_state (ref_xf IPPROTO_TCP 1 2 0 (bpf_htons dport) <| pm; zone := 1 |>) []
    <| fw_v4_map := ref_fw_map rules |>.

Lemma ref_fw_lookup rules i :
  (i < length rules)%nat → ref_fw_map rules !! Z.of_nat i = rules !! i.
Proof.
  intros Hi. unfold ref_fw_map. rewrite lookup_map_seqZ_0 by lia.
  by rewrite Nat2Z.id, lookup_app_l.
Qed.
Lemma ref_fw_array rules dport :
  (Z.of_nat (length rules) ≤ LLB_FW4_MAP_ENTRIES) → fw_array (ref_fw_state rules dport).
Proof.
  intros Hr i Hi. unfold ref_fw_state. simpl. unfold ref_fw_map.
  rewrite lookup_map_seqZ_0 by lia. apply lookup_lt_is_Some_2.
  rewrite length_app, repeat_length. unfold LLB_FW4_MAP_ENTRIES in *. lia.
Qed.
Lemma ref_fw_fresh rules dport : fw_fresh (ref_fw_state rules dport).
Proof. by repeat split. Qed.
Lemma ref_fw_nr rules e dport :
  rules !! 0%nat = Some e → fw_nr (ref_fw_state rules dport) = val (f_nr (fw_k e)).
Proof.
  intros He. unfold fw_nr, ref_fw_state. simpl. change 0 with (Z.of_nat 0).
  rewrite ref_fw_lookup, He; [done|]. apply lookup_lt_Some in He. lia.
Qed.

Lemma firewall_first_match_witness :
  wpf (ct_main_fw 33) (fw_post (ref_fw_state [ref_rule 80 1] 80)) (ref_fw_state [ref_rule 80 1] 80)
  ∧ fw_first (ref_fw_state [ref_rule 80 1] 80) (fw_key (xf (ref_fw_state [ref_rule 80 1] 80)))
    = Some (ref_rule 80 1)
  ∧ fw_first (ref_fw_state [ref_rule 80 1] 81) (fw_key (xf (ref_fw_state [ref_rule 80 1] 81)))
    = None.
Proof.
  split.
  - apply firewall_first_match; [by apply ref_fw_array| |apply ref_fw_fresh|lia].
    rewrite (ref_fw_nr _ (ref_rule 80 1)) by done. split; [done|reflexivity].
  - unfold fw_first, fw_rules. rewrite !(ref_fw_nr _ (ref_rule 80 1)) by done.
    change (Nat.max 1 _) with 1%nat. cbn [seq omap list_omap].
    change (fw_v4_map (ref_fw_state [ref_rule 80 1] _)) with (ref_fw_map [ref_rule 80 1]).
    rewrite !ref_fw_lookup by (simpl; lia). by split.
Defined.

(** 256 rules, of which all but the first drop packets to port 80: nothing
    does. *)
Definition ref_256 : list dp_fwv4_ent := ref_rule 443 256 :: repeat (ref_rule 80 0) 255.

Lemma firewall_rule_count_witness :
  wpf (ct_main_fw 33)
    (λ r s', r = Some true ∧ s' = ref_fw_state ref_256 80 <| xf ::= fw_searched (ref_fw_state ref_256 80) |>)
    (ref_fw_state ref_256 80).
Proof.
  apply (firewall_rule_count 33 _ 256 (ref_rule 443 256));
    [by apply ref_fw_array|apply ref_fw_fresh|lia
    |exact (ref_fw_lookup ref_256 0 (Nat.lt_0_succ _))|done|].
  intros i e Hi. change (Nat.max 1 _) with 1%nat in Hi.
  assert (i = 0)%nat as -> by lia.
  change (fw_v4_map (ref_fw_state ref_256 80)) with (ref_fw_map ref_256).
  rewrite (ref_fw_lookup ref_256 0) by apply Nat.lt_0_succ. by intros [= <-].
Defined.
