(* ===== verification/LoxiParse.v ===== *)
(** * loxilb: the packet parser ([kernel/llb_kern_compose.c])

    [dp_parse_d0] and the functions it calls: the headers of a packet, and of
    the packet inside a VXLAN, GTP or IPIP tunnel, into the metadata, in the tc
    build ([LL_TC_EBPF]).  A pointer into the packet is its offset; [struct
    parser] is passed by value, functions that move it return it. *)
From S2P Require Import Prelude Records Words Consts LoxiDefs LoxiTables LoxiState LoxiRef.
Open Scope c_scope.

(** ** Constants ([common/parsing_helpers.h], [common/llb_dp_mdi.h]) *)
Definition DP_PRET_FAIL : Z := -1.
Definition DP_PRET_OK : Z := 0.
Definition DP_PRET_TRAP : Z := 1.
Definition DP_PRET_PASS : Z := 2.
Definition VLAN_VID_MASK : Z := 0x0fff.
Definition ETH_TYPE_LLB : Z := 0x9999.
Definition VXLAN_OUDP_DPORT : Z := 4789.
Definition IP_MF : Z := 0x2000.
Definition IP_OFFSET : Z := 0x1FFF.
Definition GTPU_UDP_DPORT : Z := 2152.
Definition GTPC_UDP_DPORT : Z := 2153.
Definition GTP_HDR_LEN : Z := 8.
Definition GTP_VER_1 : Z := 0x1.
Definition GTP_EXT_FM : Z := 0x4.
Definition GTP_MAX_EXTH : nat := 2.
Definition GTP_NH_PDU_SESS : Z := 0x85.
Definition GTP_PDU_SESS_UL : Z := 1.
Definition GTP_PDU_SESS_DL : Z := 0.
Definition LLB_PIPE_RC_PARSER : Z := 0x1.
Definition LLB_PIPE_PASS : Z := 0x8.
Definition LLB_MIRR_MARK : Z := 0xdeadbeef.
Definition LLB_TCP_PSH : Z := 0x08.
Definition LLB_TCP_URG : Z := 0x20.
Definition LLB_TUN_VXLAN : Z := 1.
Definition LLB_TUN_GTP : Z := 2.
Definition LLB_TUN_IPIP : Z := 5.

(** From the kernel headers. *)
Definition ETH_P_ARP : Z := 0x0806.
Definition ETH_P_8021Q : Z := 0x8100.
Definition ETH_P_8021AD : Z := 0x88A8.
Definition IPPROTO_ESP : Z := 50.
Definition IPPROTO_AH : Z := 51.
Definition PACKET_BROADCAST : Z := 1.
Definition PACKET_MULTICAST : Z := 2.

(** Sizes and field offsets of the headers. *)
Definition sizeof_vlanhdr : Z := 4.
Definition vlan_TCI : Z := 0.
Definition vlan_encapsulated_proto : Z := 2.
Definition sizeof_arp_ethhdr : Z := 28.
Definition ar_pro : Z := 2.
Definition ar_pln : Z := 5.
Definition ar_op : Z := 6.
Definition ar_spa : Z := 14.
Definition ar_tpa : Z := 24.
Definition sizeof_vxlanhdr : Z := 8.
Definition vx_vni : Z := 4.
Definition sizeof_gtp_v1_hdr : Z := 8.
Definition gtp_teid : Z := 4.
Definition sizeof_gtp_v1_ehdr : Z := 4.
Definition gtp_next_hdr : Z := 3.
Definition sizeof_gtp_pdu_sess_cmnhdr : Z := 2.
Definition sizeof_gtp_pdu_sess_hdr : Z := 4.
Definition pdu_qfi : Z := 2.
Definition pdu_next_hdr : Z := 3.
Definition sctp_source : Z := 0.
Definition sctp_dest : Z := 2.
Definition icmp_echo_id : Z := 4.

(** [ETH_TYPE_ETH2(x)], of an ethertype as it is loaded. *)
Definition ETH_TYPE_ETH2 (x : Z) : bool := bpf_htons 1536 <=? x.
Definition proto_is_vlan (h_proto : Z) : bool :=
  (h_proto =? bpf_htons ETH_P_8021Q) || (h_proto =? bpf_htons ETH_P_8021AD).
Definition ip_is_fragment (frag_off : Z) : bool :=
  negb (Z.land frag_off (bpf_htons (Z.lor IP_MF IP_OFFSET)) =? 0).
(** [ipv6_addr_is_multicast], of the first word of the address. *)
Definition ipv6_addr_is_multicast (w : Z) : bool :=
  Z.land w (bpf_htonl 0xFF000000) =? bpf_htonl 0xFF000000.

Record parser : Type := Parser { inp : bool; skip_l2 : bool; skip_v6 : Z; dbegin : Z }.
#[export] Instance eta_parser : Eta parser := λ p,
  Parser (inp p) (skip_l2 p) (skip_v6 p) (dbegin p).

(** The members [il2m] and [il34m] of the metadata when [p->inp] is set, [l2m]
    and [l34m] otherwise. *)
Definition upd_l2 (inner : bool) (f : dp_l2_mdi → dp_l2_mdi) (x : xfi) : xfi :=
  if inner then x <| il2m ::= f |> else x <| l2m ::= f |>.
Definition upd_l34 (inner : bool) (f : dp_l34_mdi → dp_l34_mdi) (x : xfi) : xfi :=
  if inner then x <| il34m ::= f |> else x <| l34m ::= f |>.

Section parse.
Context {K : Type}.
Abbreviation lfunc := (func (lstate K)) (only parsing).
Abbreviation lbody := (body (lstate K)) (only parsing).

(** [if (off + size > p->dend) return r;] *)
Definition need {R} (e : Z) (r : R) : lbody R unit :=
  let! oob := past_end e in return_if oob r.

Definition LLBS_PPLN_TRAP {R} : lbody R unit :=
  upd_xf (λ x, x <| pm; pipe_act ::= Z.lor LLB_PIPE_TRAP |>).
Definition LLBS_PPLN_PASS {R} : lbody R unit :=
  upd_xf (λ x, x <| pm; pipe_act ::= Z.lor LLB_PIPE_PASS |>).

(** The four words of an IPv6 address. *)
Definition load_addr {R} (off : Z) : lbody R xaddr :=
  let! a := load32 off in let! b := load32 (off + 4) in
  let! c := load32 (off + 8) in let! d := load32 (off + 12) in
  ret (XAddr a b c d).

(** ** Layer 2 *)

Definition dp_parse_eth (p : parser) : lfunc (Z * parser) := run (
  let eth := dbegin p in
  need (eth + sizeof_ethhdr) (DP_PRET_FAIL, p) ;;
  let! dst := load_bytes (eth + eth_h_dest) 6 in
  let! src := load_bytes (eth + eth_h_source) 6 in
  let! h_proto := load16 (eth + eth_h_proto) in
  upd_xf (λ x, upd_l2 (inp p) (λ m, m <| l2_valid := 1 |> <| dl_dst := dst |>
            <| dl_src := src |> <| dl_type := h_proto |>) x <| pm; lkup_dmac := dst |>) ;;
  return_if (negb (ETH_TYPE_ETH2 h_proto)) (DP_PRET_PASS, p) ;;
  ret (DP_PRET_OK, p <| dbegin := eth + sizeof_ethhdr |>)).

(** The tag of the outer frame is in the buffer's metadata. *)
Definition dp_vlan_info : lfunc Z := run (
  let! b := gets skb in
  when (negb (vlan_present b =? 0))
    (upd_xf (λ x, x <| l2m; vlan0 := bpf_htons (u16 (vlan_tci b)) |>) ;; return_ 1) ;;
  ret 0).

Definition dp_parse_vlan (p : parser) : lfunc (Z * parser) := run (
  let! _ := call dp_vlan_info in ret (DP_PRET_OK, p)).

Definition dp_parse_vlan_d1 (p : parser) : lfunc (Z * parser) := run (
  let vlh := dbegin p in
  let! x := gets xf in
  if proto_is_vlan (dl_type (il2m x)) then
    need (vlh + sizeof_vlanhdr) (DP_PRET_FAIL, p) ;;
    let! proto := load16 (vlh + vlan_encapsulated_proto) in
    let! tci := load16 (vlh + vlan_TCI) in
    upd_xf (λ x, x <| il2m; dl_type := proto |>
                   <| il2m; vlan0 := Z.land tci (bpf_htons VLAN_VID_MASK) |>) ;;
    ret (DP_PRET_OK, p <| dbegin := vlh + sizeof_vlanhdr |>)
  else ret (DP_PRET_OK, p)).

Definition dp_parse_arp (p : parser) : lfunc Z := run (
  let arp := dbegin p in
  need (arp + sizeof_arp_ethhdr) DP_PRET_FAIL ;;
  let! pro := load16 (arp + ar_pro) in
  let! pln := load8 (arp + ar_pln) in
  when ((pro =? bpf_htons ETH_P_IP) && (pln =? 4))
    (let! spa := load32 (arp + ar_spa) in
     let! tpa := load32 (arp + ar_tpa) in
     upd_xf (upd_l34 (inp p) (λ m, m <| m_saddr; xa0 := spa |> <| m_daddr; xa0 := tpa |>))) ;;
  let! op := load16 (arp + ar_op) in
  upd_xf (upd_l34 (inp p) (λ m, m <| nw_proto := Z.land (bpf_ntohs op) 0xff |>)) ;;
  ret DP_PRET_TRAP).

(** ** Layer 4 *)

(** The bit of the flag byte that selects [flag]. *)
Definition flag_if (b mask flag : Z) : Z := if has_flag b mask then flag else 0.

Definition tcp_flag_bits (b : Z) : Z :=
  Z.lor (flag_if b 0x01 LLB_TCP_FIN) (Z.lor (flag_if b 0x04 LLB_TCP_RST)
    (Z.lor (flag_if b 0x02 LLB_TCP_SYN) (Z.lor (flag_if b 0x08 LLB_TCP_PSH)
      (Z.lor (flag_if b 0x10 LLB_TCP_ACK) (flag_if b 0x20 LLB_TCP_URG))))).

Definition dp_parse_tcp (p : parser) : lfunc Z := run (
  let tcp := dbegin p in
  need (tcp + sizeof_tcphdr) DP_PRET_OK ;;
  let! b := load8 (tcp + 13) in
  let tcp_flags := tcp_flag_bits b in
  when (has_flag tcp_flags (Z.lor LLB_TCP_FIN LLB_TCP_RST))
    (upd_xf (λ x, if inp p then x <| pm; il4fin := 1 |> else x <| pm; l4fin := 1 |>)) ;;
  let! source := load16 (tcp + tcp_source) in
  let! dest := load16 (tcp + tcp_dest) in
  let! seq := load32 (tcp + tcp_seq) in
  upd_xf (upd_l34 (inp p)
    (λ m, m <| m_source := source |> <| m_dest := dest |> <| m_seq := seq |>)) ;;
  upd_xf (λ x, if inp p then x <| pm; itcp_flags := tcp_flags |>
               else x <| pm; LoxiDefs.tcp_flags := tcp_flags |>) ;;
  ret DP_PRET_OK).

(** Both branches on [p->inp] store into the outer metadata. *)
Definition dp_parse_icmp (p : parser) : lfunc Z := run (
  let icmp := dbegin p in
  need (icmp + sizeof_icmphdr) DP_PRET_OK ;;
  let! type := load8 (icmp + icmp_type) in
  when ((type =? ICMP_ECHOREPLY) || (type =? ICMP_ECHO))
    (let! id := load16 (icmp + icmp_echo_id) in
     upd_xf (λ x, x <| l34m; m_source := id |> <| l34m; m_dest := id |>)) ;;
  ret DP_PRET_OK).

Definition dp_parse_iudp (p : parser) : lfunc Z := run (
  let udp := dbegin p in
  need (udp + sizeof_udphdr) DP_PRET_OK ;;
  let! source := load16 (udp + udp_source) in
  let! dest := load16 (udp + udp_dest) in
  upd_xf (λ x, x <| il34m; m_source := source |> <| il34m; m_dest := dest |>) ;;
  ret DP_PRET_OK).

Definition dp_parse_sctp (p : parser) : lfunc Z := run (
  let sctp := dbegin p in
  need (sctp + sizeof_sctphdr) DP_PRET_OK ;;
  let! source := load16 (sctp + sctp_source) in
  let! dest := load16 (sctp + sctp_dest) in
  upd_xf (upd_l34 (inp p) (λ m, m <| m_source := source |> <| m_dest := dest |>)) ;;
  let c := sctp + sizeof_sctphdr in
  need (c + sizeof_sctp_dch) DP_PRET_OK ;;
  let! type := load8 c in
  when ((type =? SCTP_ERROR) || (type =? SCTP_ABORT) || (type =? SCTP_SHUT) ||
        (type =? SCTP_SHUT_ACK) || (type =? SCTP_SHUT_COMPLETE))
    (upd_xf (λ x, if inp p then x <| pm; l4fin := 1 |> else x <| pm; il4fin := 0 |>)) ;;
  ret DP_PRET_OK).

Definition dp_parse_icmp6 (p : parser) : lfunc Z := run (
  let icmp6 := dbegin p in
  need (icmp6 + sizeof_icmp6hdr) DP_PRET_OK ;;
  let! type := load8 (icmp6 + icmp6_type) in
  if (type =? ICMPV6_ECHO_REPLY) || (type =? ICMPV6_ECHO_REQUEST) then
    let! id := load16 (icmp6 + icmp_echo_id) in
    upd_xf (upd_l34 (inp p) (λ m, m <| m_source := id |> <| m_dest := id |>)) ;;
    ret DP_PRET_OK
  else
    return_if ((133 <=? type) && (type <=? 137)) DP_PRET_PASS ;;
    ret DP_PRET_OK).

(** ** The inner packet of a tunnel *)

(** What [dp_parse_ipv4] and [dp_parse_ipv4_d1] read of the header at [iph],
    after the two length checks. *)
Definition ip_md (tos proto saddr daddr : Z) (m : dp_l34_mdi) : dp_l34_mdi :=
  m <| l34_valid := 1 |> <| LoxiDefs.tos := Z.land tos 0xfc |> <| nw_proto := proto |>
    <| m_saddr; xa0 := saddr |> <| m_daddr; xa0 := daddr |>.
(** The same for [dp_parse_ipv6] and [dp_parse_ipv6_d1]; [b0] and [b1] are the
    first two bytes of the header. *)
Definition ip6_md (b0 b1 nexthdr : Z) (saddr daddr : xaddr) (m : dp_l34_mdi) : dp_l34_mdi :=
  let tos := Z.land (Z.lor (Z.shiftl (Z.land b0 0xf) 4)
                           (Z.shiftr (Z.land b1 0xf0) 4)) 0xfc in
  m <| l34_valid := 1 |> <| LoxiDefs.tos := tos |> <| nw_proto := nexthdr |>
    <| m_saddr := saddr |> <| m_daddr := daddr |>.

(** [iph->ihl << 2] *)
Definition load_iphl {R} (iph : Z) : lbody R Z :=
  let! b := load8 (iph + ip_verihl) in ret (Z.shiftl (Z.land b 0xf) 2).

Definition dp_parse_ipv4_d1 (p : parser) : lfunc Z := run (
  let iph := dbegin p in
  let! iphl := load_iphl iph in
  need (iph + sizeof_iphdr) DP_PRET_FAIL ;;
  need (iph + iphl) DP_PRET_FAIL ;;
  let! tot_len := load16 (iph + ip_tot_len) in
  let! tos := load8 (iph + ip_tos) in
  let! proto := load8 (iph + ip_protocol) in
  let! saddr := load32 (iph + ip_saddr) in
  let! daddr := load32 (iph + ip_daddr) in
  let l3_len := bpf_ntohs tot_len in
  upd_xf (λ x, x <| pm; il3_len := l3_len |> <| pm; il3_plen := u16 (l3_len - iphl) |>
                 <| il34m ::= ip_md tos proto saddr daddr |>
                 <| pm; il4_off := u8 (iph + iphl) |>) ;;
  let p := p <| dbegin := iph + iphl |> in
  let! x := gets xf in
  let nw_proto := nw_proto (il34m x) in
  if nw_proto =? IPPROTO_TCP then call (dp_parse_tcp p)
  else if nw_proto =? IPPROTO_UDP then call (dp_parse_iudp p)
  else if nw_proto =? IPPROTO_SCTP then call (dp_parse_sctp p)
  else if nw_proto =? IPPROTO_ICMP then call (dp_parse_icmp p)
  else if (nw_proto =? IPPROTO_ESP) || (nw_proto =? IPPROTO_AH) then ret DP_PRET_PASS
  else
    let! frag_off := load16 (iph + ip_frag_off) in
    when (ip_is_fragment frag_off)
      (upd_xf (λ x, x <| il34m; m_source := 0 |> <| il34m; m_dest := 0 |>)) ;;
    ret DP_PRET_OK).

(** The test for ICMPv6 is on the protocol of the outer packet. *)
Definition dp_parse_ipv6_d1 (p : parser) : lfunc Z := run (
  let ip6 := dbegin p in
  need (ip6 + sizeof_ipv6hdr) DP_PRET_FAIL ;;
  let! daddr := load_addr (ip6 + ip6_daddr) in
  let! saddr := load_addr (ip6 + ip6_saddr) in
  return_if (ipv6_addr_is_multicast (xa0 daddr) || ipv6_addr_is_multicast (xa0 saddr))
    DP_PRET_PASS ;;
  let! payload_len := load16 (ip6 + ip6_payload_len) in
  let! b0 := load8 (ip6 + ip6_verprio) in
  let! b1 := load8 (ip6 + ip6_flow_lbl) in
  let! nexthdr := load8 (ip6 + ip6_nexthdr) in
  let plen := bpf_ntohs payload_len in
  upd_xf (λ x, x <| pm; il3_plen := plen |> <| pm; il3_len := u16 (plen + sizeof_ipv6hdr) |>
                 <| il34m ::= ip6_md b0 b1 nexthdr saddr daddr |>
                 <| pm; il4_off := u8 (ip6 + sizeof_ipv6hdr) |>) ;;
  let p := p <| dbegin := ip6 + sizeof_ipv6hdr |> in
  let! x := gets xf in
  let proto := nw_proto (il34m x) in
  if proto =? IPPROTO_TCP then call (dp_parse_tcp p)
  else if proto =? IPPROTO_UDP then call (dp_parse_iudp p)
  else if nw_proto (l34m x) =? IPPROTO_ICMPV6 then call (dp_parse_icmp6 p)
  else ret DP_PRET_OK).

Definition dp_parse_d1 (p : parser) : lfunc Z := run (
  let! p :=
    if skip_l2 p then
      let! x := gets xf in
      return_if (dl_type (il2m x) =? 0) DP_PRET_TRAP ;;
      ret p
    else
      let! (r, p) := call (dp_parse_eth p) in
      return_if (negb (r =? 0)) r ;;
      let! (r, p) := call (dp_parse_vlan_d1 p) in
      return_if (negb (r =? 0)) r ;;
      ret p in
  upd_xf (λ x, x <| pm; il3_off := u8 (dbegin p) |>) ;;
  let! x := gets xf in
  let dl_type := dl_type (il2m x) in
  if dl_type =? bpf_htons ETH_P_ARP then call (dp_parse_arp p)
  else if dl_type =? bpf_htons ETH_P_IP then call (dp_parse_ipv4_d1 p)
  else if dl_type =? bpf_htons ETH_P_IPV6 then
    if skip_v6 p =? 0 then call (dp_parse_ipv6_d1 p) else ret DP_PRET_OK
  else ret DP_PRET_OK).

(** ** Tunnels *)

(** [dp_parse_gtp_ehdr]: the length of the extension header at [nh] when
    another one follows. *)
Definition dp_parse_gtp_ehdr (nh : Z) : lfunc Z := run (
  need (nh + 1) DP_PRET_FAIL ;;
  let! b := load8 nh in
  let elen := Z.shiftl b 2 in
  need (nh + elen) DP_PRET_FAIL ;;
  let! next := load8 (nh + (elen - 1)) in
  if negb (next =? 0) then ret elen else ret DP_PRET_OK).

(** The loop over the extension headers, [n] iterations to go: the total
    header length, an 8-bit field of [struct gtp_parser] like [elen]. *)
Fixpoint gtp_ext_loop (n : nat) (nhl hlen : Z) : lbody Z Z :=
  match n with
  | O => return_ DP_PRET_PASS
  | S n =>
      need (nhl + 1) DP_PRET_FAIL ;;
      let! b := load8 nhl in
      let elen := u8 (Z.shiftl b 2) in
      let neh := nhl + (elen - 1) in
      need (neh + 1) DP_PRET_FAIL ;;
      let hlen := u8 (hlen + elen) in
      let! next := load8 neh in
      if next =? 0 then ret hlen else gtp_ext_loop n (nhl + elen) hlen
  end.

(** The extension headers of the GTP header at [gh]: the total header length,
    [hlen] being the one of the fixed part. *)
Definition gtp_extensions (gh hlen : Z) : lbody Z Z :=
  let geh := gh + sizeof_gtp_v1_hdr in
  need (geh + sizeof_gtp_v1_ehdr) DP_PRET_FAIL ;;
  let nh := geh + sizeof_gtp_v1_ehdr in
  let! next_hdr := load8 (geh + gtp_next_hdr) in
  if next_hdr =? GTP_NH_PDU_SESS then
    need (nh + sizeof_gtp_pdu_sess_cmnhdr) DP_PRET_FAIL ;;
    let! len := load8 nh in
    return_if (negb (len =? 1)) DP_PRET_FAIL ;;
    let! b := load8 (nh + 1) in
    let pdu_type := Z.shiftr b 4 in
    return_if (negb ((pdu_type =? GTP_PDU_SESS_UL) || (pdu_type =? GTP_PDU_SESS_DL)))
      DP_PRET_FAIL ;;
    need (nh + sizeof_gtp_pdu_sess_hdr) DP_PRET_FAIL ;;
    let hlen := u8 (hlen + sizeof_gtp_pdu_sess_hdr) in
    let! b := load8 (nh + pdu_qfi) in
    upd_xf (λ x, x <| qm; qfi := Z.land b 0x3f |>) ;;
    let! next_hdr := load8 (nh + pdu_next_hdr) in
    if next_hdr =? 0 then ret hlen
    else gtp_ext_loop GTP_MAX_EXTH (nh + sizeof_gtp_pdu_sess_hdr) hlen
  else gtp_ext_loop GTP_MAX_EXTH nh hlen.

(** The entry of the per-CPU array [gparser] always exists; its fields are
    written before they are read. *)
Definition dp_parse_gtp (p : parser) (gh : Z) : lfunc Z := run (
  need (gh + sizeof_gtp_v1_hdr) DP_PRET_FAIL ;;
  let! b := load8 gh in
  let espn := Z.land b 0x7 in
  return_if (negb (Z.shiftr b 5 =? GTP_VER_1)) DP_PRET_OK ;;
  let hlen := if negb (espn =? 0) then GTP_HDR_LEN + sizeof_gtp_v1_ehdr else GTP_HDR_LEN in
  let! teid := load32 (gh + gtp_teid) in
  upd_xf (λ x, x <| tm; tunnel_id := bpf_ntohl teid |> <| tm; tun_type := LLB_TUN_GTP |>) ;;
  let! hlen := if has_flag espn GTP_EXT_FM then gtp_extensions gh hlen else ret hlen in
  let gtp_next := gh + hlen in
  upd_xf (λ x, x <| pm; tun_off := u16 gtp_next |>) ;;
  need (gtp_next + 1) DP_PRET_OK ;;
  let! b := load8 gtp_next in
  let var := Z.shiftr (Z.land b 0xf0) 4 in
  let p := Parser true true (skip_v6 p) gtp_next in
  if var =? 4 then
    upd_xf (λ x, x <| il2m; dl_type := bpf_htons ETH_P_IP |>) ;; call (dp_parse_d1 p)
  else if var =? 6 then
    upd_xf (λ x, x <| il2m; dl_type := bpf_htons ETH_P_IPV6 |>) ;; call (dp_parse_d1 p)
  else ret DP_PRET_OK).

Definition dp_parse_outer_udp (p : parser) (udp_next : Z) : lfunc Z := run (
  let! x := gets xf in
  let dest := m_dest (l34m x) in
  if dest =? bpf_htons VXLAN_OUDP_DPORT then
    let vx := udp_next in
    need (vx + sizeof_vxlanhdr) DP_PRET_FAIL ;;
    let! vni := load32 (vx + vx_vni) in
    let vx_next := vx + sizeof_vxlanhdr in
    upd_xf (λ x, x <| tm; tunnel_id := Z.land (Z.shiftr (bpf_ntohl vni) 8) 0xfffffff |>
                   <| tm; tun_type := LLB_TUN_VXLAN |> <| pm; tun_off := u16 vx_next |>) ;;
    call (dp_parse_d1 (Parser true false (skip_v6 p) vx_next))
  else if (dest =? bpf_htons GTPU_UDP_DPORT) || (dest =? bpf_htons GTPC_UDP_DPORT) then
    let gh := udp_next in
    need (gh + sizeof_gtp_v1_hdr) DP_PRET_FAIL ;;
    call (dp_parse_gtp p gh)
  else ret DP_PRET_OK).

(** Only the XDP build receives frames with this header. *)
Definition dp_parse_llb (p : parser) : lfunc Z := run (ret DP_PRET_FAIL).

Definition dp_pkt_is_l2mcbc : lfunc Z := run (
  let! b := gets skb in
  return_if ((pkt_type b =? PACKET_MULTICAST) || (pkt_type b =? PACKET_BROADCAST)) 1 ;;
  ret 0).

Definition dp_parse_udp (p : parser) : lfunc Z := run (
  let udp := dbegin p in
  need (udp + sizeof_udphdr) DP_PRET_OK ;;
  let! source := load16 (udp + udp_source) in
  let! dest := load16 (udp + udp_dest) in
  upd_xf (λ x, x <| l34m; m_source := source |> <| l34m; m_dest := dest |>) ;;
  let! mcbc := call dp_pkt_is_l2mcbc in
  when (mcbc =? 1) LLBS_PPLN_TRAP ;;
  call (dp_parse_outer_udp p (udp + sizeof_udphdr))).

Definition dp_parse_ipip (p : parser) : lfunc Z := run (
  let ip := dbegin p in
  let! iphl := load_iphl ip in
  need (ip + sizeof_iphdr) DP_PRET_OK ;;
  need (ip + iphl) DP_PRET_FAIL ;;
  let! b := load8 (ip + ip_verihl) in
  return_if (negb (Z.shiftr b 4 =? 4)) DP_PRET_OK ;;
  upd_xf (λ x, x <| il2m; dl_type := bpf_htons ETH_P_IP |>
                 <| tm; tunnel_id := 1 |> <| tm; tun_type := LLB_TUN_IPIP |>) ;;
  call (dp_parse_d1 (Parser true true (skip_v6 p) ip))).

(** ** The outer packet *)

Definition dp_parse_ipv4 (p : parser) : lfunc Z := run (
  let iph := dbegin p in
  let! iphl := load_iphl iph in
  need (iph + sizeof_iphdr) DP_PRET_FAIL ;;
  need (iph + iphl) DP_PRET_FAIL ;;
  let! tot_len := load16 (iph + ip_tot_len) in
  let! tos := load8 (iph + ip_tos) in
  let! proto := load8 (iph + ip_protocol) in
  let! saddr := load32 (iph + ip_saddr) in
  let! daddr := load32 (iph + ip_daddr) in
  let len := bpf_ntohs tot_len in
  upd_xf (λ x, x <| pm; l3_len := len |> <| pm; l3_plen := u16 (len - iphl) |>
                 <| l34m ::= ip_md tos proto saddr daddr |>
                 <| pm; l4_off := u8 (iph + iphl) |>) ;;
  let p := p <| dbegin := iph + iphl |> in
  let! x := gets xf in
  let nw_proto := nw_proto (l34m x) in
  if nw_proto =? IPPROTO_TCP then call (dp_parse_tcp p)
  else if nw_proto =? IPPROTO_UDP then call (dp_parse_udp p)
  else if nw_proto =? IPPROTO_SCTP then call (dp_parse_sctp p)
  else if nw_proto =? IPPROTO_ICMP then call (dp_parse_icmp p)
  else if nw_proto =? IPPROTO_IPIP then call (dp_parse_ipip p)
  else if (nw_proto =? IPPROTO_ESP) || (nw_proto =? IPPROTO_AH) then ret DP_PRET_PASS
  else
    let! frag_off := load16 (iph + ip_frag_off) in
    when (ip_is_fragment frag_off)
      (upd_xf (λ x, x <| l34m; m_source := 0 |> <| l34m; m_dest := 0 |>)) ;;
    ret DP_PRET_OK).

Definition dp_parse_ipv6 (p : parser) : lfunc Z := run (
  let ip6 := dbegin p in
  need (ip6 + sizeof_ipv6hdr) DP_PRET_FAIL ;;
  let! daddr := load_addr (ip6 + ip6_daddr) in
  let! saddr := load_addr (ip6 + ip6_saddr) in
  return_if (ipv6_addr_is_multicast (xa0 daddr) || ipv6_addr_is_multicast (xa0 saddr))
    DP_PRET_PASS ;;
  let! payload_len := load16 (ip6 + ip6_payload_len) in
  let! b0 := load8 (ip6 + ip6_verprio) in
  let! b1 := load8 (ip6 + ip6_flow_lbl) in
  let! nexthdr := load8 (ip6 + ip6_nexthdr) in
  let plen := bpf_ntohs payload_len in
  upd_xf (λ x, x <| pm; l3_plen := plen |> <| pm; l3_len := u16 (plen + sizeof_ipv6hdr) |>
                 <| l34m ::= ip6_md b0 b1 nexthdr saddr daddr |>
                 <| pm; l4_off := u8 (ip6 + sizeof_ipv6hdr) |>) ;;
  let p := p <| dbegin := ip6 + sizeof_ipv6hdr |> in
  let! x := gets xf in
  let nw_proto := nw_proto (l34m x) in
  if nw_proto =? IPPROTO_TCP then call (dp_parse_tcp p)
  else if nw_proto =? IPPROTO_UDP then call (dp_parse_udp p)
  else if nw_proto =? IPPROTO_SCTP then call (dp_parse_sctp p)
  else if nw_proto =? IPPROTO_ICMPV6 then call (dp_parse_icmp6 p)
  else if (nw_proto =? IPPROTO_ESP) || (nw_proto =? IPPROTO_AH) then ret DP_PRET_PASS
  else ret DP_PRET_OK).

(** [handle_excp]: the pipeline action of a parser result other than OK. *)
Definition parse_excp (r : Z) : lbody Z Z :=
  (if DP_PRET_OK <? r then
     if r =? DP_PRET_PASS then LLBS_PPLN_PASS else LLBS_PPLN_TRAPC LLB_PIPE_RC_PARSER
   else when (r <? DP_PRET_OK) LLBS_PPLN_DROP) ;;
  return_ r.

Definition dp_parse_d0 (skip_v6 : Z) : lfunc Z := run (
  let p := Parser false false skip_v6 0 in
  (λ s, Next tt (s <| xf; pm; py_bytes := u16 (pkt_len s) |>)) ;;
  let! (r, p) := call (dp_parse_eth p) in
  (if negb (r =? 0) then parse_excp r else ret r) ;;
  let! b := gets skb in
  when (cb0 b =? LLB_MIRR_MARK) (upd_xf (λ x, x <| pm; mirr := u16 (cb1 b) |>)) ;;
  let! (r, p) := call (dp_parse_vlan p) in
  (if negb (r =? 0) then parse_excp r else ret r) ;;
  upd_xf (λ x, x <| pm; l3_off := u8 (dbegin p) |>) ;;
  let! x := gets xf in
  let dl_type := dl_type (l2m x) in
  let! r :=
    if dl_type =? bpf_htons ETH_P_ARP then call (dp_parse_arp p)
    else if dl_type =? bpf_htons ETH_P_IP then call (dp_parse_ipv4 p)
    else if dl_type =? bpf_htons ETH_P_IPV6 then
      return_if (skip_v6 =? 1) 0 ;; call (dp_parse_ipv6 p)
    else if dl_type =? bpf_htons ETH_TYPE_LLB then call (dp_parse_llb p)
    else ret 0 in
  (if negb (r =? 0) then parse_excp r else ret r) ;;
  let! mcbc := call dp_pkt_is_l2mcbc in
  when (mcbc =? 1) LLBS_PPLN_PASS ;;
  ret 0).
End parse.

(** ** Popping the outer headers ([kernel/llb_kern_cdefs.h])

    [dp_pop_outer_metadata]: from here on the inner packet is the packet. *)
Definition pop_l2 (x : xfi) : xfi :=
  x <| l2m := il2m x <| vlan0 := vlan0 (l2m x) |> <| vlan1 := vlan1 (l2m x) |> |>
    <| pm; lkup_dmac := dl_dst (il2m x) |> <| il2m; l2_valid := 0 |>.
Definition pop_outer (l2tun : bool) (x : xfi) : xfi :=
  let x := x <| l34m := il34m x |>
    <| pm; LoxiDefs.tcp_flags := itcp_flags (pm x) |> <| pm; l4fin := il4fin (pm x) |>
    <| pm; l3_off := il3_off (pm x) |> <| pm; l3_len := il3_len (pm x) |>
    <| pm; l3_plen := il3_plen (pm x) |> <| pm; l4_off := il4_off (pm x) |>
    <| il34m; l34_valid := 0 |> <| tm; tun_decap := 1 |> in
  if l2tun then pop_l2 x else x.

Section pop.
Context {K : Type}.
Definition dp_pop_outer_l2_metadata : func (lstate K) Z := run (upd_xf pop_l2 ;; ret 0).
Definition dp_pop_outer_metadata (l2tun : bool) : func (lstate K) Z := run (
  upd_xf (pop_outer false) ;;
  if l2tun then call dp_pop_outer_l2_metadata else ret 0).
End pop.
