(* ===== verification/LoxiParseSpec.v ===== *)
(** * loxilb: what the parser extracts

    Frames as records of header fields with their encoding; the metadata the
    parser leaves for the encoding of a frame, plain or in a VXLAN tunnel. *)
From S2P Require Import Prelude Records Words Consts LoxiDefs LoxiTables LoxiState LoxiRef LoxiCt LoxiParse.
Open Scope c_scope.

(** ** Headers and their encoding

    A packet is a concatenation of fields.  Fields kept as loaded (addresses,
    ports, sequence numbers) are little-endian words, lengths are host numbers
    encoded in network order. *)
Definition be_bytes (n : nat) (v : Z) : list Z := reverse (le_bytes n v).

Inductive l4_hdr : Type :=
| Tcp (sport dport seq ack doff flags : Z) (rest : list Z)
| Udp (sport dport len check : Z).

Inductive l3_hdr : Type :=
| V4 (tos id frag ttl check saddr daddr : Z) (opts : list Z)
| V6 (b0 b1 flow hops : Z) (saddr daddr : xaddr).

Record frame : Type := Frame {
  f_dst : list Z; f_src : list Z; f_l3 : l3_hdr; f_l4 : l4_hdr; f_data : list Z }.
#[export] Instance eta_frame : Eta frame := λ f,
  Frame (f_dst f) (f_src f) (f_l3 f) (f_l4 f) (f_data f).

Definition l4_proto (h : l4_hdr) : Z :=
  match h with Tcp _ _ _ _ _ _ _ => IPPROTO_TCP | Udp _ _ _ _ => IPPROTO_UDP end.
Definition l4_dport (h : l4_hdr) : Z :=
  match h with Tcp _ d _ _ _ _ _ => d | Udp _ d _ _ => d end.
Definition l4_fields (h : l4_hdr) : list (list Z) :=
  match h with
  | Tcp sport dport seq ack doff flags rest =>
      [le_bytes 2 sport; le_bytes 2 dport; le_bytes 4 seq; le_bytes 4 ack;
       le_bytes 1 doff; le_bytes 1 flags; rest]
  | Udp sport dport len check =>
      [le_bytes 2 sport; le_bytes 2 dport; be_bytes 2 len; le_bytes 2 check]
  end.

Definition xaddr_fields (a : xaddr) : list (list Z) :=
  [le_bytes 4 (xa0 a); le_bytes 4 (xa1 a); le_bytes 4 (xa2 a); le_bytes 4 (xa3 a)].

(** The header in front of [len] bytes of protocol [proto]. *)
Definition l3_fields (h : l3_hdr) (proto len : Z) : list (list Z) :=
  match h with
  | V4 tos id frag ttl check saddr daddr opts =>
      let ihl := 5 + Z.of_nat (length opts) / 4 in
      [le_bytes 1 (64 + ihl); le_bytes 1 tos; be_bytes 2 (4 * ihl + len);
       le_bytes 2 id; le_bytes 2 frag; le_bytes 1 ttl; le_bytes 1 proto; le_bytes 2 check;
       le_bytes 4 saddr; le_bytes 4 daddr; opts]
  | V6 b0 b1 flow hops saddr daddr =>
      [le_bytes 1 b0; le_bytes 1 b1; le_bytes 2 flow; be_bytes 2 len;
       le_bytes 1 proto; le_bytes 1 hops] ++ xaddr_fields saddr ++ xaddr_fields daddr
  end.
Definition l3_len_of (h : l3_hdr) : Z :=
  match h with V4 _ _ _ _ _ _ _ opts => 20 + Z.of_nat (length opts) | V6 _ _ _ _ _ _ => 40 end.
Definition ethertype (h : l3_hdr) : Z :=
  bpf_htons (match h with V4 _ _ _ _ _ _ _ _ => ETH_P_IP | V6 _ _ _ _ _ _ => ETH_P_IPV6 end).

Definition eth_fields (dst src : list Z) (type : Z) : list (list Z) :=
  [dst; src; le_bytes 2 type].

Definition l4_bytes (f : frame) : list Z := concat (l4_fields (f_l4 f)) ++ f_data f.
Definition l3_bytes (f : frame) : list Z :=
  concat (l3_fields (f_l3 f) (l4_proto (f_l4 f)) (Z.of_nat (length (l4_bytes f)))) ++ l4_bytes f.
Definition encode (f : frame) : list Z :=
  concat (eth_fields (f_dst f) (f_src f) (ethertype (f_l3 f))) ++ l3_bytes f.

(** Fields within their widths; IPv4 options fill whole words. *)
Definition l4_ok (h : l4_hdr) : bool :=
  match h with
  | Tcp sport dport seq ack doff flags rest =>
      bool_decide (0 ≤ sport < 2 ^ 16 ∧ 0 ≤ dport < 2 ^ 16 ∧ 0 ≤ seq < 2 ^ 32 ∧
                   0 ≤ flags < 2 ^ 8 ∧ length rest = 6%nat)
  | Udp sport dport len check => bool_decide (0 ≤ sport < 2 ^ 16 ∧ 0 ≤ dport < 2 ^ 16)
  end.
Definition xaddr_ok (a : xaddr) : Prop :=
  0 ≤ xa0 a < 2 ^ 32 ∧ 0 ≤ xa1 a < 2 ^ 32 ∧ 0 ≤ xa2 a < 2 ^ 32 ∧ 0 ≤ xa3 a < 2 ^ 32.
#[export] Instance xaddr_ok_dec a : Decision (xaddr_ok a).
Proof. unfold xaddr_ok. apply _. Defined.
Definition l3_ok (h : l3_hdr) : bool :=
  match h with
  | V4 tos id frag ttl check saddr daddr opts =>
      bool_decide (0 ≤ tos < 2 ^ 8 ∧ 0 ≤ saddr < 2 ^ 32 ∧ 0 ≤ daddr < 2 ^ 32 ∧
                   Z.of_nat (length opts) mod 4 = 0 ∧ (length opts ≤ 40)%nat)
  | V6 b0 b1 flow hops saddr daddr =>
      bool_decide (0 ≤ b0 < 2 ^ 8 ∧ 0 ≤ b1 < 2 ^ 8 ∧ xaddr_ok saddr ∧ xaddr_ok daddr) &&
      negb (ipv6_addr_is_multicast (xa0 saddr)) && negb (ipv6_addr_is_multicast (xa0 daddr))
  end.
Definition frame_ok (f : frame) : bool :=
  bool_decide (length (f_dst f) = 6%nat ∧ length (f_src f) = 6%nat ∧
               l3_len_of (f_l3 f) + Z.of_nat (length (l4_bytes f)) < 2 ^ 16) &&
  l3_ok (f_l3 f) && l4_ok (f_l4 f).

(** ** The metadata of a frame

    [outer_md f] is the metadata the parser leaves for the frame [f], [inner_md
    off f] the one it adds for a frame [f] found at offset [off]. *)
Definition l4_md (h : l4_hdr) (m : dp_l34_mdi) : dp_l34_mdi :=
  match h with
  | Tcp sport dport seq _ _ _ _ =>
      m <| m_source := sport |> <| m_dest := dport |> <| m_seq := seq |>
  | Udp sport dport _ _ => m <| m_source := sport |> <| m_dest := dport |>
  end.
Definition l3_md (h : l3_hdr) (proto : Z) : dp_l34_mdi → dp_l34_mdi :=
  match h with
  | V4 tos _ _ _ _ saddr daddr _ => ip_md tos proto saddr daddr
  | V6 b0 b1 _ _ saddr daddr => ip6_md b0 b1 proto saddr daddr
  end.
Definition l34_md (f : frame) (m : dp_l34_mdi) : dp_l34_mdi :=
  l4_md (f_l4 f) (l3_md (f_l3 f) (l4_proto (f_l4 f)) m).
Definition l2_md (f : frame) (m : dp_l2_mdi) : dp_l2_mdi :=
  m <| l2_valid := 1 |> <| dl_dst := f_dst f |> <| dl_src := f_src f |>
    <| dl_type := ethertype (f_l3 f) |>.

(** A TCP segment that closes or aborts its connection. *)
Definition is_fin (h : l4_hdr) : bool :=
  match h with Tcp _ _ _ _ _ flags _ => has_flag flags 0x05 | Udp _ _ _ _ => false end.
Definition flags_of (h : l4_hdr) (old : Z) : Z :=
  match h with Tcp _ _ _ _ _ flags _ => Z.land flags 0x3f | Udp _ _ _ _ => old end.

(** [b] is the buffer of the packet, [n] its length. *)
Definition outer_md (f : frame) (b : sk_buff) (n : Z) (x : xfi) : xfi :=
  let len := Z.of_nat (length (l4_bytes f)) in
  x <| l2m ::= l2_md f |>
    <| l2m; vlan0 ::= λ v, if vlan_present b =? 0 then v else bpf_htons (u16 (vlan_tci b)) |>
    <| l34m ::= l34_md f |>
    <| pm ::= λ m, m <| py_bytes := u16 n |> <| lkup_dmac := f_dst f |> <| l3_off := 14 |>
         <| l3_len := l3_len_of (f_l3 f) + len |> <| l3_plen := len |>
         <| l4_off := 14 + l3_len_of (f_l3 f) |>
         <| LoxiDefs.tcp_flags ::= flags_of (f_l4 f) |>
         <| l4fin ::= λ v, if is_fin (f_l4 f) then 1 else v |> |>.
Definition inner_md (off : Z) (f : frame) (x : xfi) : xfi :=
  let len := Z.of_nat (length (l4_bytes f)) in
  x <| il2m ::= l2_md f |> <| il34m ::= l34_md f |>
    <| pm ::= λ m, m <| lkup_dmac := f_dst f |> <| il3_off := u8 (off + 14) |>
         <| il3_len := l3_len_of (f_l3 f) + len |> <| il3_plen := len |>
         <| il4_off := u8 (off + 14 + l3_len_of (f_l3 f)) |>
         <| itcp_flags ::= flags_of (f_l4 f) |>
         <| il4fin ::= λ v, if is_fin (f_l4 f) then 1 else v |> |>.

(** ** VXLAN *)
Definition vxlan_fields (flags vni res : Z) : list (list Z) :=
  [le_bytes 4 flags; be_bytes 4 (256 * vni + res)].
(** [f] behind the tunnel headers of [o], a UDP packet. *)
Definition vxlan_encap (o : frame) (flags vni res : Z) (f : frame) : frame :=
  o <| f_data := concat (vxlan_fields flags vni res) ++ encode f |>.

Definition is_tunnel_port (port : Z) : bool :=
  bool_decide (port ∈ map bpf_htons [VXLAN_OUDP_DPORT; GTPU_UDP_DPORT; GTPC_UDP_DPORT]).
Definition is_udp (h : l4_hdr) : bool :=
  match h with Udp _ _ _ _ => true | _ => false end.

(** ** Execution on an encoded packet *)

Lemma le_val_le_bytes n v : 0 ≤ v < 256 ^ Z.of_nat n → le_val (le_bytes n v) = v.
Proof. intros. by rewrite le_val_bytes, Z.mod_small. Qed.

Lemma length_be_bytes n v : length (be_bytes n v) = n.
Proof. unfold be_bytes. by rewrite length_reverse, length_le_bytes. Qed.

Lemma ntohs_be_bytes v : 0 ≤ v < 2 ^ 16 → bpf_ntohs (le_val (be_bytes 2 v)) = v.
Proof.
  intros Hv. change (le_val (be_bytes 2 v)) with (bswap 2 v).
  pose proof (bpf_ntohs_htons v) as E. unfold bpf_htons, bswap16 in E.
  by rewrite !(u16_id v) in E by done.
Qed.

Lemma ntohl_be_bytes v : 0 ≤ v < 2 ^ 32 → bpf_ntohl (le_val (be_bytes 4 v)) = v.
Proof.
  intros Hv. change (le_val (be_bytes 4 v)) with (bswap 4 v).
  unfold bpf_ntohl, bswap32. rewrite u32_id by apply (bswap_range 4).
  rewrite bswap_bswap. by apply Z.mod_small.
Qed.

Lemma tcp_flag_bits_land b : 0 ≤ b < 2 ^ 8 → tcp_flag_bits b = Z.land b 0x3f.
Proof.
  intros Hb. apply Z.eqb_eq.
  apply (forall_range 256 (λ b, tcp_flag_bits b =? Z.land b 0x3f)); [by vm_compute|done].
Qed.

Section spec.
Context {K : Type}.
Implicit Types (s : lstate K) (x : xfi) (f : frame).

Lemma wp_need {R} e (r : R) QR (QN : unit → lstate K → Prop) s :
  e ≤ pkt_len s → QN tt s → wpb (need e r) QR QN s.
Proof.
  intros He HQ. apply wp_bind, wp_past_end.
  by rewrite (proj2 (Z.ltb_ge _ _)).
Qed.

Lemma skb_upd (g : xfi → xfi) s : skb (s <| xf ::= g |>) = skb s.
Proof. done. Qed.
Lemma xf_upd (g : xfi → xfi) s : xf (s <| xf ::= g |>) = g (xf s).
Proof. done. Qed.
Lemma xf_upd_upd (g h : xfi → xfi) s : s <| xf ::= g |> <| xf ::= h |> = s <| xf ::= λ x, h (g x) |>.
Proof. by destruct s. Qed.

Lemma xf_set_eq (g : xfi → xfi) v s : v = g (xf s) → s <| xf := v |> = s <| xf ::= g |>.
Proof. by intros ->. Qed.

Lemma wp_upd_xf {R} (g : xfi → xfi) (QR : R → lstate K → Prop) QN s :
  QN tt (s <| xf ::= g |>) → wpb (upd_xf g) QR QN s.
Proof. done. Qed.

#[local] Arguments le_bytes : simpl never.

(** Offsets and lengths of the fields of an encoding. *)
Ltac off_solve :=
  unfold pkt_len; cbn [get_pkt lstate_pkt_state];
  cbv [sizeof_ethhdr eth_h_dest eth_h_source eth_h_proto sizeof_iphdr ip_verihl ip_tos
       ip_tot_len ip_protocol ip_saddr ip_daddr ip_frag_off sizeof_ipv6hdr ip6_verprio
       ip6_flow_lbl ip6_payload_len ip6_nexthdr ip6_saddr ip6_daddr sizeof_tcphdr tcp_source
       tcp_dest tcp_seq sizeof_udphdr udp_source udp_dest sizeof_vxlanhdr vx_vni];
  try match goal with E : lpkt ?s = _ |- context [lpkt ?s'] =>
    change (lpkt s') with (lpkt s); rewrite E end;
  simpl; rewrite ?length_app, ?length_le_bytes, ?length_be_bytes;
  simpl; rewrite ?length_app, ?length_le_bytes, ?length_be_bytes; simpl; lia.

(** Two ways to update the metadata of [s]. *)
Ltac md_eq s :=
  apply xf_set_eq; destruct (xf s) as [[] [] [] [] ? ? ? []];
  lazy -[bpf_htons u16 u8 ip_md ip6_md ethertype l3_len_of Z.add flags_of l3_md has_flag is_fin];
  reflexivity.

(** A load of field [i] of the packet described by [E]. *)
Ltac load_field E i :=
  first [ eapply (wp_load_field _ _ _ i) | eapply (wp_load_bytes_field _ _ _ i) ];
  [ exact E | reflexivity | rewrite ?length_le_bytes, ?length_be_bytes; done || lia
  | off_solve | cbv beta; rewrite ?le_val_le_bytes by (simpl; lia) ].

Lemma wp_parse_eth p dst src ty pre post QR s :
  lpkt s = pre ++ concat (eth_fields dst src ty) ++ post →
  dbegin p = Z.of_nat (length pre) → length dst = 6%nat → length src = 6%nat →
  0 ≤ ty < 2 ^ 16 → ETH_TYPE_ETH2 ty = true →
  QR (DP_PRET_OK, p <| dbegin := Z.of_nat (length pre) + 14 |>)
     (s <| xf ::= λ x, upd_l2 (inp p) (λ m, m <| l2_valid := 1 |> <| dl_dst := dst |>
            <| dl_src := src |> <| dl_type := ty |>) x <| pm; lkup_dmac := dst |> |>) →
  wpf (dp_parse_eth p) QR s.
Proof.
  intros E Hp Hd Hs Ht H2 HQ. unfold dp_parse_eth. rewrite Hp. apply wp_run, wp_bind.
  apply wp_need.
  { unfold eth_fields in E. off_solve. }
  apply wp_bind. load_field E 0%nat.
  apply wp_bind. load_field E 1%nat.
  apply wp_bind. load_field E 2%nat.
  apply wp_bind, wp_upd_xf, wp_bind, wp_return_if; rewrite H2; [done|intros _].
  exact HQ.
Qed.

(** ** Layer 4 *)

(** What [dp_parse_tcp] adds for the segment [h]. *)
Definition tcp_xf (inner : bool) (h : l4_hdr) (x : xfi) : xfi :=
  let x := upd_l34 inner (l4_md h) x in
  if inner then
    x <| pm; il4fin ::= λ v, if is_fin h then 1 else v |> <| pm; itcp_flags ::= flags_of h |>
  else
    x <| pm; l4fin ::= λ v, if is_fin h then 1 else v |> <| pm; LoxiDefs.tcp_flags ::= flags_of h |>.

Lemma has_fin b : 0 ≤ b < 2 ^ 8 →
  has_flag (Z.land b 0x3f) (Z.lor LLB_TCP_FIN LLB_TCP_RST) = has_flag b 0x05.
Proof.
  intros Hb. apply Bool.eqb_prop.
  apply (forall_range 256 (λ b, Bool.eqb (has_flag (Z.land b 0x3f)
    (Z.lor LLB_TCP_FIN LLB_TCP_RST)) (has_flag b 0x05))); [by vm_compute|done].
Qed.

Lemma wp_dp_parse_tcp p sport dport seq ack doff flags rest pre post QR s :
  let h := Tcp sport dport seq ack doff flags rest in
  lpkt s = pre ++ concat (l4_fields h) ++ post → dbegin p = Z.of_nat (length pre) →
  l4_ok h = true → QR DP_PRET_OK (s <| xf ::= tcp_xf (inp p) h |>) →
  wpf (dp_parse_tcp p) QR s.
Proof.
  intros h E Hp (Hs & Hd & Hq & Hf & Hr)%bool_decide_eq_true HQ.
  unfold dp_parse_tcp. rewrite Hp. apply wp_run, wp_bind. subst h. unfold l4_fields in E.
  apply wp_need; [off_solve|].
  apply wp_bind. load_field E 5%nat. rewrite tcp_flag_bits_land, has_fin by done.
  apply wp_bind, wp_when; intros Hfin; [apply wp_upd_xf|].
  all: apply wp_bind; load_field E 0%nat; apply wp_bind; load_field E 1%nat.
  all: apply wp_bind; load_field E 2%nat; apply wp_bind, wp_upd_xf, wp_bind, wp_upd_xf, wp_ret.
  all: revert HQ; unfold tcp_xf, is_fin; rewrite Hfin; destruct (inp p), s as [? ? xf0];
    destruct xf0 as [? ? ? ? ? ? ? []]; exact id.
Qed.

(** The inner UDP header, and an outer one without tunnel. *)
Lemma wp_parse_iudp p sport dport len check pre post QR s :
  let h := Udp sport dport len check in
  lpkt s = pre ++ concat (l4_fields h) ++ post → dbegin p = Z.of_nat (length pre) →
  l4_ok h = true → QR DP_PRET_OK (s <| xf; il34m ::= l4_md h |>) →
  wpf (dp_parse_iudp p) QR s.
Proof.
  intros h E Hp (Hs & Hd)%bool_decide_eq_true HQ.
  unfold dp_parse_iudp. rewrite Hp. apply wp_run, wp_bind. subst h. unfold l4_fields in E.
  apply wp_need; [off_solve|].
  apply wp_bind; load_field E 0%nat; apply wp_bind; load_field E 1%nat.
  apply wp_bind, wp_upd_xf, wp_ret. exact HQ.
Qed.

(** The parser of the packets of the data plane: no broadcast. *)
Definition unicast (b : sk_buff) : bool :=
  negb ((pkt_type b =? PACKET_MULTICAST) || (pkt_type b =? PACKET_BROADCAST)).

Lemma wp_is_l2mcbc (QR : Z → lstate K → Prop) s :
  unicast (skb s) = true → QR 0 s → wpf dp_pkt_is_l2mcbc QR s.
Proof.
  unfold unicast. intros Hu HQ. apply wp_run, wp_bind, wp_gets, wp_bind, wp_return_if; [|done].
  intros Hc. by rewrite Hc in Hu.
Qed.

Lemma wp_parse_udp p sport dport len check pre post QR s :
  let h := Udp sport dport len check in
  lpkt s = pre ++ concat (l4_fields h) ++ post → dbegin p = Z.of_nat (length pre) →
  l4_ok h = true → unicast (skb s) = true →
  wpf (dp_parse_outer_udp p (dbegin p + sizeof_udphdr)) QR (s <| xf; l34m ::= l4_md h |>) →
  wpf (dp_parse_udp p) QR s.
Proof.
  intros h E Hp (Hs & Hd)%bool_decide_eq_true Hu HQ.
  unfold dp_parse_udp. rewrite Hp in *. apply wp_run, wp_bind. subst h. unfold l4_fields in E.
  apply wp_need; [off_solve|].
  apply wp_bind; load_field E 0%nat; apply wp_bind; load_field E 1%nat.
  apply wp_bind, wp_upd_xf, wp_bind, wp_call, wp_is_l2mcbc; [done|].
  apply wp_bind, wp_when; [done|intros _]. apply wp_call. exact HQ.
Qed.

(** ** Layer 3 *)

(** What the two layers 3 add for the header [h] at offset [off] in front of
    [len] bytes. *)
Definition outer_l3 (off : Z) (h : l3_hdr) (proto len : Z) (x : xfi) : xfi :=
  x <| l34m ::= l3_md h proto |> <| pm; l3_len := l3_len_of h + len |> <| pm; l3_plen := len |>
    <| pm; l4_off := u8 (off + l3_len_of h) |>.
Definition inner_l3 (off : Z) (h : l3_hdr) (proto len : Z) (x : xfi) : xfi :=
  x <| il34m ::= l3_md h proto |> <| pm; il3_len := l3_len_of h + len |>
    <| pm; il3_plen := len |> <| pm; il4_off := u8 (off + l3_len_of h) |>.

Lemma iphl_val n : 0 ≤ n ≤ 10 → Z.shiftl (Z.land (64 + (5 + n)) 0xf) 2 = 20 + 4 * n.
Proof.
  intros Hn. apply Z.eqb_eq.
  apply (forall_range 11 (λ n, Z.shiftl (Z.land (64 + (5 + n)) 0xf) 2 =? 20 + 4 * n));
    [by vm_compute|lia].
Qed.

Lemma wp_load_iphl (tos id frag ttl check saddr daddr proto len : Z) opts pre post {R}
    (QR : R → lstate K → Prop) QN s :
  let h := V4 tos id frag ttl check saddr daddr opts in
  lpkt s = pre ++ concat (l3_fields h proto len) ++ post → l3_ok h = true →
  QN (20 + Z.of_nat (length opts)) s → wpb (load_iphl (Z.of_nat (length pre))) QR QN s.
Proof.
  intros h E (_ & _ & _ & Hm & Hl)%bool_decide_eq_true HQ. subst h. unfold l3_fields in E.
  assert (0 ≤ Z.of_nat (length opts) / 4 ≤ 10) by
    (split; [apply Z.div_pos; lia|apply Z.div_le_upper_bound; lia]).
  apply wp_bind. load_field E 0%nat. apply wp_ret. rewrite iphl_val by done.
  rewrite <-Z_div_exact_full_2; done || lia.
Qed.

Lemma wp_parse_ipv4 p (tos id frag ttl check saddr daddr : Z) opts l4 len pre post QR s :
  let h := V4 tos id frag ttl check saddr daddr opts in
  let proto := l4_proto l4 in let off := dbegin p in
  let s' := s <| xf ::= outer_l3 off h proto len |> in
  let p' := p <| dbegin := off + l3_len_of h |> in
  lpkt s = pre ++ concat (l3_fields h proto len) ++ post → off = Z.of_nat (length pre) →
  l3_ok h = true → 0 ≤ len → l3_len_of h + len < 2 ^ 16 →
  match l4 with
  | Tcp _ _ _ _ _ _ _ => wpf (dp_parse_tcp p') QR s'
  | Udp _ _ _ _ => wpf (dp_parse_udp p') QR s'
  end →
  wpf (dp_parse_ipv4 p) QR s.
Proof.
  intros h proto off s' p' E Hp Hok Hlen Hl HQ. subst proto off p' s' h.
  unfold dp_parse_ipv4. rewrite Hp in *. apply wp_run, wp_bind.
  eapply wp_load_iphl; [exact E|done|]. pose proof Hok as (Ht & Hs & Hd & Hm & Ho)%bool_decide_eq_true.
  unfold l3_fields in E. cbn [l3_len_of] in *.
  assert (4 * (5 + Z.of_nat (length opts) / 4) = 20 + Z.of_nat (length opts)) as Hdiv
    by (pose proof (Z_div_exact_full_2 (Z.of_nat (length opts)) 4); lia).
  assert (0 ≤ l4_proto l4 < 2 ^ 8) by (by destruct l4).
  apply wp_bind, wp_need; [off_solve|]. apply wp_bind, wp_need; [off_solve|].
  apply wp_bind. load_field E 2%nat. rewrite ntohs_be_bytes by lia.
  apply wp_bind. load_field E 1%nat.
  apply wp_bind. load_field E 6%nat.
  apply wp_bind. load_field E 8%nat.
  apply wp_bind. load_field E 9%nat.
  apply wp_bind, wp_upd_xf, wp_bind, wp_gets.
  rewrite Hdiv, (u16_id (_ - _)) by lia.
  replace (20 + Z.of_nat (length opts) + len - (20 + Z.of_nat (length opts))) with len by lia.
  destruct l4; exact (wp_call _ _ _ _ HQ).
Qed.

Lemma wp_parse_ipv4_d1 p (tos id frag ttl check saddr daddr : Z) opts l4 len pre post QR s :
  let h := V4 tos id frag ttl check saddr daddr opts in
  let proto := l4_proto l4 in let off := dbegin p in
  let s' := s <| xf ::= inner_l3 off h proto len |> in
  let p' := p <| dbegin := off + l3_len_of h |> in
  lpkt s = pre ++ concat (l3_fields h proto len) ++ post → off = Z.of_nat (length pre) →
  l3_ok h = true → 0 ≤ len → l3_len_of h + len < 2 ^ 16 →
  match l4 with
  | Tcp _ _ _ _ _ _ _ => wpf (dp_parse_tcp p') QR s'
  | Udp _ _ _ _ => wpf (dp_parse_iudp p') QR s'
  end →
  wpf (dp_parse_ipv4_d1 p) QR s.
Proof.
  intros h proto off s' p' E Hp Hok Hlen Hl HQ. subst proto off p' s' h.
  unfold dp_parse_ipv4_d1. rewrite Hp in *. apply wp_run, wp_bind.
  eapply wp_load_iphl; [exact E|done|].
  pose proof Hok as (Ht & Hs & Hd & Hm & Ho)%bool_decide_eq_true.
  unfold l3_fields in E. cbn [l3_len_of] in *.
  assert (4 * (5 + Z.of_nat (length opts) / 4) = 20 + Z.of_nat (length opts)) as Hdiv
    by (pose proof (Z_div_exact_full_2 (Z.of_nat (length opts)) 4); lia).
  assert (0 ≤ l4_proto l4 < 2 ^ 8) by (by destruct l4).
  apply wp_bind, wp_need; [off_solve|]. apply wp_bind, wp_need; [off_solve|].
  apply wp_bind. load_field E 2%nat. rewrite ntohs_be_bytes by lia.
  apply wp_bind. load_field E 1%nat.
  apply wp_bind. load_field E 6%nat.
  apply wp_bind. load_field E 8%nat.
  apply wp_bind. load_field E 9%nat.
  apply wp_bind, wp_upd_xf, wp_bind, wp_gets.
  rewrite Hdiv, (u16_id (_ - _)) by lia.
  replace (20 + Z.of_nat (length opts) + len - (20 + Z.of_nat (length opts))) with len by lia.
  destruct l4; exact (wp_call _ _ _ _ HQ).
Qed.

(** The address at field [i] on of an IPv6 header. *)
Lemma wp_load_xaddr a fs pre post off i {R} (QR : R → lstate K → Prop) QN s :
  lpkt s = pre ++ concat fs ++ post → xaddr_ok a →
  fs !! i = Some (le_bytes 4 (xa0 a)) → fs !! (i + 1)%nat = Some (le_bytes 4 (xa1 a)) →
  fs !! (i + 2)%nat = Some (le_bytes 4 (xa2 a)) → fs !! (i + 3)%nat = Some (le_bytes 4 (xa3 a)) →
  off = Z.of_nat (length pre + length (concat (take i fs))) → QN a s →
  wpb (load_addr off) QR QN s.
Proof.
  intros E (H0 & H1 & H2 & H3) F0 F1 F2 F3 -> HQ.
  assert (∀ j v, fs !! j = Some (le_bytes 4 v) →
    length (concat (take (j + 1) fs)) = (length (concat (take j fs)) + 4)%nat) as Hstep.
  { intros j v Hj. rewrite Nat.add_1_r, (take_S_r _ _ _ Hj), concat_app, length_app.
    cbn [concat]. by rewrite app_nil_r, length_le_bytes. }
  pose proof (Hstep _ _ F0) as L1. pose proof (Hstep _ _ F1) as L2.
  pose proof (Hstep _ _ F2) as L3. rewrite <-Nat.add_assoc in L2, L3. simpl in L2, L3.
  unfold load_addr.
  apply wp_bind. eapply (wp_load_field _ _ _ i); [exact E|exact F0|apply length_le_bytes|lia|].
  rewrite le_val_le_bytes by done.
  apply wp_bind. eapply (wp_load_field _ _ _ (i + 1)); [exact E|exact F1|apply length_le_bytes|lia|].
  rewrite le_val_le_bytes by done.
  apply wp_bind. eapply (wp_load_field _ _ _ (i + 2)); [exact E|exact F2|apply length_le_bytes|lia|].
  rewrite le_val_le_bytes by done.
  apply wp_bind. eapply (wp_load_field _ _ _ (i + 3)); [exact E|exact F3|apply length_le_bytes|lia|].
  rewrite le_val_le_bytes by done. apply wp_ret. by destruct a.
Qed.

Lemma wp_parse_ipv6 p (b0 b1 flow hops : Z) (saddr daddr : xaddr) l4 len pre post QR s :
  let h := V6 b0 b1 flow hops saddr daddr in
  let proto := l4_proto l4 in let off := dbegin p in
  let s' := s <| xf ::= outer_l3 off h proto len |> in
  let p' := p <| dbegin := off + l3_len_of h |> in
  lpkt s = pre ++ concat (l3_fields h proto len) ++ post → off = Z.of_nat (length pre) →
  l3_ok h = true → 0 ≤ len → l3_len_of h + len < 2 ^ 16 →
  match l4 with
  | Tcp _ _ _ _ _ _ _ => wpf (dp_parse_tcp p') QR s'
  | Udp _ _ _ _ => wpf (dp_parse_udp p') QR s'
  end →
  wpf (dp_parse_ipv6 p) QR s.
Proof.
  intros h proto off s' p' E Hp Hok Hlen Hl HQ. subst proto off p' s' h.
  unfold dp_parse_ipv6. rewrite Hp in *. apply wp_run, wp_bind.
  apply andb_prop in Hok as [[Hok Hms%negb_true_iff]%andb_prop Hmd%negb_true_iff].
  apply bool_decide_eq_true in Hok as (Hb0 & Hb1 & Hsa & Hda).
  unfold l3_fields, xaddr_fields in E. cbn [app] in E. cbn [l3_len_of] in *.
  assert (0 ≤ l4_proto l4 < 2 ^ 8) by (by destruct l4).
  apply wp_need; [off_solve|].
  apply wp_bind. eapply (wp_load_xaddr daddr _ _ _ _ 10); [exact E|done|reflexivity..|off_solve|].
  apply wp_bind. eapply (wp_load_xaddr saddr _ _ _ _ 6); [exact E|done|reflexivity..|off_solve|].
  apply wp_bind, wp_return_if; rewrite Hms, Hmd; [done|intros _].
  apply wp_bind. load_field E 3%nat. rewrite ntohs_be_bytes by lia.
  apply wp_bind. load_field E 0%nat.
  apply wp_bind. load_field E 1%nat.
  apply wp_bind. load_field E 4%nat.
  apply wp_bind, wp_upd_xf, wp_bind, wp_gets. unfold sizeof_ipv6hdr.
  rewrite (u16_id (len + 40)), (Z.add_comm len 40) by lia.
  destruct l4; exact (wp_call _ _ _ _ HQ).
Qed.

Lemma wp_parse_ipv6_d1 p (b0 b1 flow hops : Z) (saddr daddr : xaddr) l4 len pre post QR s :
  let h := V6 b0 b1 flow hops saddr daddr in
  let proto := l4_proto l4 in let off := dbegin p in
  let s' := s <| xf ::= inner_l3 off h proto len |> in
  let p' := p <| dbegin := off + l3_len_of h |> in
  lpkt s = pre ++ concat (l3_fields h proto len) ++ post → off = Z.of_nat (length pre) →
  l3_ok h = true → 0 ≤ len → l3_len_of h + len < 2 ^ 16 →
  match l4 with
  | Tcp _ _ _ _ _ _ _ => wpf (dp_parse_tcp p') QR s'
  | Udp _ _ _ _ => wpf (dp_parse_iudp p') QR s'
  end →
  wpf (dp_parse_ipv6_d1 p) QR s.
Proof.
  intros h proto off s' p' E Hp Hok Hlen Hl HQ. subst proto off p' s' h.
  unfold dp_parse_ipv6_d1. rewrite Hp in *. apply wp_run, wp_bind.
  apply andb_prop in Hok as [[Hok Hms%negb_true_iff]%andb_prop Hmd%negb_true_iff].
  apply bool_decide_eq_true in Hok as (Hb0 & Hb1 & Hsa & Hda).
  unfold l3_fields, xaddr_fields in E. cbn [app] in E. cbn [l3_len_of] in *.
  assert (0 ≤ l4_proto l4 < 2 ^ 8) by (by destruct l4).
  apply wp_need; [off_solve|].
  apply wp_bind. eapply (wp_load_xaddr daddr _ _ _ _ 10); [exact E|done|reflexivity..|off_solve|].
  apply wp_bind. eapply (wp_load_xaddr saddr _ _ _ _ 6); [exact E|done|reflexivity..|off_solve|].
  apply wp_bind, wp_return_if; rewrite Hms, Hmd; [done|intros _].
  apply wp_bind. load_field E 3%nat. rewrite ntohs_be_bytes by lia.
  apply wp_bind. load_field E 0%nat.
  apply wp_bind. load_field E 1%nat.
  apply wp_bind. load_field E 4%nat.
  apply wp_bind, wp_upd_xf, wp_bind, wp_gets. unfold sizeof_ipv6hdr.
  rewrite (u16_id (len + 40)), (Z.add_comm len 40) by lia.
  destruct l4; exact (wp_call _ _ _ _ HQ).
Qed.

(** ** Whole frames *)

Lemma ethertype_range h : 0 ≤ ethertype h < 2 ^ 16.
Proof. apply bpf_htons_range. Qed.

Lemma frame_ok_inv f : frame_ok f = true →
  length (f_dst f) = 6%nat ∧ length (f_src f) = 6%nat ∧
  l3_len_of (f_l3 f) + Z.of_nat (length (l4_bytes f)) < 2 ^ 16 ∧
  l3_ok (f_l3 f) = true ∧ l4_ok (f_l4 f) = true.
Proof. intros [[(?&?&?)%bool_decide_eq_true ?]%andb_prop ?]%andb_prop. done. Qed.

Lemma length_l3_fields h proto len :
  l3_ok h = true → Z.of_nat (length (concat (l3_fields h proto len))) = l3_len_of h.
Proof. destruct h; intros; unfold l3_fields, xaddr_fields, l3_len_of; cbn [app]; off_solve. Qed.

Lemma l3_len_of_range h : l3_ok h = true → 20 ≤ l3_len_of h ≤ 60.
Proof. destruct h; simpl; [|lia]. intros (_ & _ & _ & _ & ?)%bool_decide_eq_true. lia. Qed.

(** Layers 3 and 4 of an outer frame at [pre]. *)
Lemma wp_outer_l34 p f pre pad QR s :
  let h := f_l3 f in let proto := l4_proto (f_l4 f) in
  let len := Z.of_nat (length (l4_bytes f)) in
  let s' := s <| xf ::= outer_l3 (dbegin p) h proto len |> in
  lpkt s = pre ++ l3_bytes f ++ pad → dbegin p = Z.of_nat (length pre) →
  frame_ok f = true → unicast (skb s) = true → inp p = false →
  (is_udp (f_l4 f) = false → QR DP_PRET_OK (s' <| xf ::= tcp_xf false (f_l4 f) |>)) →
  (is_udp (f_l4 f) = true →
   let p' := p <| dbegin := dbegin p + l3_len_of h |> in
   wpf (dp_parse_outer_udp p' (dbegin p + l3_len_of h + 8)) QR
     (s' <| xf; l34m ::= l4_md (f_l4 f) |>)) →
  wpf (match h with
       | V4 _ _ _ _ _ _ _ _ => dp_parse_ipv4 p
       | V6 _ _ _ _ _ _ => dp_parse_ipv6 p
       end) QR s.
Proof.
  intros h proto len s' E Hp (_ & _ & Hlen & H3 & H4)%frame_ok_inv Hu Hinp HT HU.
  assert (lpkt s = (pre ++ concat (l3_fields h proto len)) ++ concat (l4_fields (f_l4 f)) ++
                   (f_data f ++ pad)) as E4.
  { rewrite E. unfold l3_bytes, l4_bytes. by rewrite <-!app_assoc. }
  pose proof (length_l3_fields h proto len H3) as Hl3.
  assert (dbegin p + l3_len_of h = Z.of_nat (length (pre ++ concat (l3_fields h proto len)))) as Hp4
    by (rewrite length_app; lia).
  assert (match f_l4 f with
    | Tcp _ _ _ _ _ _ _ => wpf (dp_parse_tcp (p <| dbegin := dbegin p + l3_len_of h |>)) QR s'
    | Udp _ _ _ _ => wpf (dp_parse_udp (p <| dbegin := dbegin p + l3_len_of h |>)) QR s'
    end) as HQ.
  { destruct (f_l4 f) eqn:Ef.
    - eapply wp_dp_parse_tcp; [exact E4|exact Hp4|exact H4|]. change (inp _) with (inp p).
      rewrite Hinp. by apply HT.
    - eapply wp_parse_udp; [exact E4|exact Hp4|exact H4|exact Hu|]. by apply HU. }
  unfold l3_bytes in E. rewrite <-app_assoc in E.
  subst h. destruct (f_l3 f) eqn:Eh.
  - eapply wp_parse_ipv4; [exact E|exact Hp|done|lia|lia|exact HQ].
  - eapply wp_parse_ipv6; [exact E|exact Hp|done|lia|lia|exact HQ].
Qed.

Lemma wp_inner_l34 p f pre pad QR s :
  let h := f_l3 f in let proto := l4_proto (f_l4 f) in
  let len := Z.of_nat (length (l4_bytes f)) in
  let s' := s <| xf ::= inner_l3 (dbegin p) h proto len |> in
  lpkt s = pre ++ l3_bytes f ++ pad → dbegin p = Z.of_nat (length pre) →
  frame_ok f = true → inp p = true →
  QR DP_PRET_OK (s' <| xf ::= if is_udp (f_l4 f) then λ x, x <| il34m ::= l4_md (f_l4 f) |>
                              else tcp_xf true (f_l4 f) |>) →
  wpf (match h with
       | V4 _ _ _ _ _ _ _ _ => dp_parse_ipv4_d1 p
       | V6 _ _ _ _ _ _ => dp_parse_ipv6_d1 p
       end) QR s.
Proof.
  intros h proto len s' E Hp (_ & _ & Hlen & H3 & H4)%frame_ok_inv Hinp HT.
  assert (lpkt s = (pre ++ concat (l3_fields h proto len)) ++ concat (l4_fields (f_l4 f)) ++
                   (f_data f ++ pad)) as E4.
  { rewrite E. unfold l3_bytes, l4_bytes. by rewrite <-!app_assoc. }
  pose proof (length_l3_fields h proto len H3) as Hl3.
  assert (dbegin p + l3_len_of h = Z.of_nat (length (pre ++ concat (l3_fields h proto len)))) as Hp4
    by (rewrite length_app; lia).
  assert (match f_l4 f with
    | Tcp _ _ _ _ _ _ _ => wpf (dp_parse_tcp (p <| dbegin := dbegin p + l3_len_of h |>)) QR s'
    | Udp _ _ _ _ => wpf (dp_parse_iudp (p <| dbegin := dbegin p + l3_len_of h |>)) QR s'
    end) as HQ.
  { destruct (f_l4 f) eqn:Ef.
    - eapply wp_dp_parse_tcp; [exact E4|exact Hp4|exact H4|]. change (inp _) with (inp p).
      by rewrite Hinp.
    - eapply wp_parse_iudp; [exact E4|exact Hp4|exact H4|done]. }
  unfold l3_bytes in E. rewrite <-app_assoc in E.
  subst h. destruct (f_l3 f) eqn:Eh.
  - eapply wp_parse_ipv4_d1; [exact E|exact Hp|done|lia|lia|exact HQ].
  - eapply wp_parse_ipv6_d1; [exact E|exact Hp|done|lia|lia|exact HQ].
Qed.

Lemma ethertype_eth2 h : ETH_TYPE_ETH2 (ethertype h) = true.
Proof. by destruct h. Qed.

Lemma length_eth_fields f : frame_ok f = true →
  length (concat (eth_fields (f_dst f) (f_src f) (ethertype (f_l3 f)))) = 14%nat.
Proof.
  intros (Hd & Hs & _)%frame_ok_inv. unfold eth_fields. cbn [concat].
  rewrite !length_app, length_le_bytes, Hd, Hs. done.
Qed.

Lemma wp_parse_vlan p (QR : Z * parser → lstate K → Prop) s :
  QR (DP_PRET_OK, p) (s <| xf; l2m; vlan0 ::= λ v,
    if vlan_present (skb s) =? 0 then v else bpf_htons (u16 (vlan_tci (skb s))) |>) →
  wpf (dp_parse_vlan p) QR s.
Proof.
  intros HQ. apply wp_run, wp_bind, wp_call, wp_run, wp_bind, wp_gets, wp_bind, wp_when; intros Hv.
  - apply wp_bind, wp_upd_xf, wp_return, wp_ret. by rewrite (proj1 (negb_true_iff _) Hv) in HQ.
  - apply wp_ret, wp_ret. rewrite (proj1 (negb_false_iff _) Hv) in HQ.
    destruct s as [? ? xf0]. destruct xf0 as [[]]. exact HQ.
Qed.

(** The end of [dp_parse_d0], for a packet that is not to be passed up. *)
Lemma wp_d0_end (Q : Z → lstate K → Prop) s :
  unicast (skb s) = true → Q 0 s →
  wpb ((if negb (DP_PRET_OK =? 0) then parse_excp DP_PRET_OK else ret DP_PRET_OK) ;;
       let! mcbc := call dp_pkt_is_l2mcbc in
       when (mcbc =? 1) LLBS_PPLN_PASS ;; ret 0) Q Q s.
Proof.
  intros Hu HQ. apply wp_bind, wp_ret, wp_bind, wp_call, wp_is_l2mcbc; [done|].
  by apply wp_bind, wp_ret, wp_ret.
Qed.

(** The outer frame: [Q] is reached with the metadata of a TCP segment, or of
    a UDP datagram whose payload is parsed as a tunnel. *)
Lemma wp_parse_d0 f pad skip Q s :
  lpkt s = encode f ++ pad → frame_ok f = true → unicast (skb s) = true →
  cb0 (skb s) ≠ LLB_MIRR_MARK →
  match f_l3 f with V6 _ _ _ _ _ _ => skip ≠ 1 | _ => True end →
  let s' := s <| xf := outer_md f (skb s) (Z.of_nat (length (encode f ++ pad))) (xf s) |> in
  (is_udp (f_l4 f) = false → Q 0 s') →
  (is_udp (f_l4 f) = true →
   let off := 14 + l3_len_of (f_l3 f) in
   wpf (dp_parse_outer_udp (Parser false false skip off) (off + 8))
     (λ r s, r = DP_PRET_OK ∧ skb s = skb s' ∧ Q 0 s) s') →
  wpf (dp_parse_d0 skip) Q s.
Proof.
  intros E Hok Hu Hm Hskip s' HT HU. pose proof Hok as (Hd & Hs & Hlen & H3 & H4)%frame_ok_inv.
  pose proof (length_eth_fields f Hok) as Hle.
  apply wp_run, wp_bind. unfold wpb at 1. apply wp_bind, wp_call.
  unfold encode in E. rewrite <-app_assoc in E.
  eapply (wp_parse_eth _ _ _ _ []); [exact E|done|done|done|apply ethertype_range|
    apply ethertype_eth2|].
  apply wp_bind, wp_ret, wp_bind, wp_gets, wp_bind, wp_when.
  { by intros ?%Z.eqb_eq. }
  intros _. apply wp_bind, wp_call, wp_parse_vlan, wp_bind, wp_ret, wp_bind, wp_upd_xf.
  apply wp_bind, wp_gets, wp_bind.
  match goal with |- wpb _ ?Q1 ?Q2 ?st =>
    enough (wpf (match f_l3 f with
                 | V4 _ _ _ _ _ _ _ _ => dp_parse_ipv4 (Parser false false skip 14)
                 | V6 _ _ _ _ _ _ => dp_parse_ipv6 (Parser false false skip 14)
                 end) Q2 st) as HQ
      by (destruct (f_l3 f); [|apply wp_bind, wp_return_if; [by intros ?%Z.eqb_eq|intros _]];
          exact (wp_call _ _ _ _ HQ))
  end.
  eapply (wp_outer_l34 _ f _ pad); [exact E|rewrite Hle; done|done|done|done| |].
  all: assert (u8 (14 + l3_len_of (f_l3 f)) = 14 + l3_len_of (f_l3 f)) as Hoff.
  1, 3: pose proof (l3_len_of_range _ H3); apply u8_id; lia.
  all: assert (pkt_len s = Z.of_nat (length (encode f ++ pad))) as Hpl
    by (unfold pkt_len, encode; cbn [get_pkt lstate_pkt_state]; by rewrite E, <-app_assoc).
  - intros Ht. apply wp_d0_end; [done|]. specialize (HT Ht).
    match goal with |- Q 0 ?st => replace st with s'; [done|] end.
    subst s'. unfold outer_md, outer_l3. cbn [dbegin]. rewrite Hoff, Hpl.
    generalize (Z.of_nat (length (encode f ++ pad))) (Z.of_nat (length (l4_bytes f))).
    intros n len. rewrite !xf_upd_upd.
    unfold l34_md. destruct (f_l4 f); [|discriminate Ht].
    md_eq s.
  - intros Ht p'. subst p'. specialize (HU Ht). cbn zeta in HU. cbn [dbegin].
    match goal with |- wpf _ _ ?st => replace st with s' end.
    + eapply wpf_mono; [exact HU|]. intros r s'' (-> & Hsk & HQ).
      apply wp_d0_end; [by rewrite Hsk|done].
    + subst s'. unfold outer_md, outer_l3. cbn [dbegin]. rewrite Hoff, Hpl.
      generalize (Z.of_nat (length (encode f ++ pad))) (Z.of_nat (length (l4_bytes f))).
      intros n len. rewrite !xf_upd_upd.
      unfold l34_md. destruct (f_l4 f); [discriminate Ht|]. md_eq s.
Qed.

(** A tunnelled frame. *)
Lemma wp_parse_d1 f pre pad Q s p :
  lpkt s = pre ++ encode f ++ pad → frame_ok f = true →
  p = Parser true false 0 (Z.of_nat (length pre)) →
  Q DP_PRET_OK (s <| xf := inner_md (Z.of_nat (length pre)) f (xf s) |>) →
  wpf (dp_parse_d1 p) Q s.
Proof.
  intros E Hok -> HQ. pose proof Hok as (Hd & Hs & Hlen & H3 & H4)%frame_ok_inv.
  pose proof (length_eth_fields f Hok) as Hle.
  apply wp_run, wp_bind. cbn [skip_l2]. apply wp_bind, wp_call.
  unfold encode in E. rewrite <-app_assoc in E.
  eapply wp_parse_eth; [exact E|done|done|done|apply ethertype_range|apply ethertype_eth2|].
  apply wp_bind, wp_ret, wp_bind, wp_call, wp_run, wp_bind, wp_gets.
  match goal with |- wpb (if ?c then _ else _) _ _ _ =>
    replace c with false by (by destruct (f_l3 f)) end.
  apply wp_ret, wp_bind, wp_ret, wp_ret, wp_bind, wp_upd_xf, wp_bind, wp_gets.
  match goal with |- wpb _ ?Q1 ?Q2 ?st =>
    enough (wpf (match f_l3 f with
                 | V4 _ _ _ _ _ _ _ _ =>
                     dp_parse_ipv4_d1 (Parser true false 0 (Z.of_nat (length pre) + 14))
                 | V6 _ _ _ _ _ _ =>
                     dp_parse_ipv6_d1 (Parser true false 0 (Z.of_nat (length pre) + 14))
                 end) Q2 st) as HQ'
      by (destruct (f_l3 f); exact (wp_call _ _ _ _ HQ'))
  end.
  rewrite (app_assoc pre) in E.
  eapply (wp_inner_l34 _ f _ pad); [exact E|rewrite length_app, Hle; cbn [dbegin]; lia|done|done|].
  match goal with |- Q _ ?st =>
    replace st with (s <| xf := inner_md (Z.of_nat (length pre)) f (xf s) |>); [done|] end.
  unfold inner_md, inner_l3. cbn [dbegin]. rewrite !xf_upd_upd. unfold l34_md.
  destruct (f_l4 f); md_eq s.
Qed.

Lemma run_result (m : func (lstate K) Z) r s s' :
  wpf m (λ r' s'', r' = r ∧ s'' = s') s → m s = Some (r, s').
Proof. unfold wpf. destruct (m s) as [[? ?]|]; [|done]. by intros [-> ->]. Qed.

(** A TCP segment, or a UDP datagram outside the tunnels. *)
Lemma wp_parse_plain f pad skip (Q : Z → lstate K → Prop) s :
  lpkt s = encode f ++ pad → frame_ok f = true → unicast (skb s) = true →
  cb0 (skb s) ≠ LLB_MIRR_MARK →
  match f_l3 f with V6 _ _ _ _ _ _ => skip ≠ 1 | _ => True end →
  is_udp (f_l4 f) && is_tunnel_port (l4_dport (f_l4 f)) = false →
  Q 0 (s <| xf := outer_md f (skb s) (Z.of_nat (length (encode f ++ pad))) (xf s) |>) →
  wpf (dp_parse_d0 skip) Q s.
Proof.
  intros E Hok Hu Hm Hs Ht HQ. eapply wp_parse_d0; [done..| |].
  - intros _. exact HQ.
  - intros Hudp. rewrite Hudp in Ht. cbn zeta.
    apply bool_decide_eq_false in Ht.
    apply wp_run, wp_bind, wp_gets.
    assert (m_dest (l34m (outer_md f (skb s) (Z.of_nat (length (encode f ++ pad))) (xf s))) =
            l4_dport (f_l4 f)) as Hp by (unfold outer_md, l34_md; by destruct (f_l4 f)).
    cbn zeta. change (l34m (xf (s <| xf := ?v |>))) with (l34m v). rewrite Hp.
    cbn [map] in Ht. rewrite !elem_of_cons, elem_of_nil in Ht.
    rewrite !(proj2 (Z.eqb_neq _ _)) by tauto. by apply wp_ret.
Qed.

(** C25: [dp_parse_d0] on the encoding of a TCP or UDP packet over IPv4 (with
    options) or IPv6, possibly padded: the result is OK, nothing but the
    metadata changes, and the metadata holds the header fields of the packet,
    its lengths and the offsets of its headers ([outer_md]).  UDP to the tunnel
    ports is excepted. *)
Theorem parse_encode f pad s :
  lpkt s = encode f ++ pad → frame_ok f = true → unicast (skb s) = true →
  cb0 (skb s) ≠ LLB_MIRR_MARK →
  is_udp (f_l4 f) && is_tunnel_port (l4_dport (f_l4 f)) = false →
  dp_parse_d0 0 s =
    Some (0, s <| xf := outer_md f (skb s) (Z.of_nat (length (encode f ++ pad))) (xf s) |>).
Proof.
  intros. apply run_result. eapply wp_parse_plain; [done..|by case_match|done|done].
Qed.

(** The metadata of a TCP or UDP frame in a VXLAN tunnel. *)
Definition vxlan_md (o : frame) (vni : Z) (f : frame) (b : sk_buff) (n : Z) (x : xfi) : xfi :=
  let off := 14 + l3_len_of (f_l3 o) + 16 in
  inner_md off f (outer_md o b n x
    <| tm; tunnel_id := vni |> <| tm; tun_type := LLB_TUN_VXLAN |> <| pm; tun_off := off |>).

Lemma parse_vxlan o flags vni res f pad s :
  let p := vxlan_encap o flags vni res f in
  lpkt s = encode p ++ pad → frame_ok p = true → frame_ok f = true →
  unicast (skb s) = true → cb0 (skb s) ≠ LLB_MIRR_MARK →
  is_udp (f_l4 o) = true → l4_dport (f_l4 o) = bpf_htons VXLAN_OUDP_DPORT →
  0 ≤ vni < 2 ^ 24 → 0 ≤ res < 2 ^ 8 →
  dp_parse_d0 0 s =
    Some (0, s <| xf := vxlan_md p vni f (skb s) (Z.of_nat (length (encode p ++ pad))) (xf s) |>).
Proof.
  intros p E Hok Hokf Hu Hm Hudp Hport Hvni Hres. apply run_result.
  eapply wp_parse_d0; [done..|by case_match|by change (f_l4 p) with (f_l4 o); rewrite Hudp|].
  intros _. cbn zeta. set (x0 := outer_md _ _ _ _).
  assert (m_dest (l34m x0) = bpf_htons VXLAN_OUDP_DPORT) as Hp.
  { rewrite <-Hport. subst x0. unfold outer_md, l34_md. change (f_l4 p) with (f_l4 o).
    by destruct (f_l4 o). }
  pose proof (frame_ok_inv _ Hok) as (_ & _ & _ & H3 & H4).
  pose proof (l3_len_of_range _ H3) as Hl3.
  set (pre := concat (eth_fields (f_dst p) (f_src p) (ethertype (f_l3 p))) ++
    concat (l3_fields (f_l3 p) (l4_proto (f_l4 p)) (Z.of_nat (length (l4_bytes p)))) ++
    concat (l4_fields (f_l4 p))).
  assert (Z.of_nat (length pre) = 14 + l3_len_of (f_l3 p) + 8) as Hpre.
  { subst pre. rewrite !length_app, (length_eth_fields p Hok), !Nat2Z.inj_add.
    rewrite (length_l3_fields _ _ _ H3). change (f_l4 p) with (f_l4 o).
    destruct (f_l4 o); [done|]. unfold l4_fields. off_solve. }
  assert (lpkt s = pre ++ concat (vxlan_fields flags vni res) ++ (encode f ++ pad)) as Ev.
  { rewrite E. unfold encode at 1, l3_bytes, l4_bytes at 2. subst pre.
    change (f_data p) with (concat (vxlan_fields flags vni res) ++ encode f).
    by rewrite <-!app_assoc. }
  clear E. clearbody pre p. apply wp_run, wp_bind, wp_gets. cbn zeta.
  change (l34m (xf (s <| xf := ?v |>))) with (l34m v). rewrite Hp, Z.eqb_refl.
  unfold vxlan_fields in Ev.
  apply wp_bind, wp_need; [off_solve|].
  apply wp_bind. load_field Ev 1%nat. rewrite ntohl_be_bytes by lia.
  apply wp_bind, wp_upd_xf, wp_call.
  assert (Z.of_nat (length (pre ++ concat [le_bytes 4 flags; be_bytes 4 (256 * vni + res)])) =
          14 + l3_len_of (f_l3 p) + 8 + sizeof_vxlanhdr) as Hoff by (rewrite length_app; off_solve).
  rewrite (app_assoc pre) in Ev.
  eapply (wp_parse_d1 f _ pad); [exact Ev|done| |].
  { by rewrite Hoff. }
  rewrite Hoff.
  split; [reflexivity|]. split; [by rewrite !skb_upd|]. split; [reflexivity|].
  assert (Z.land (Z.shiftr (256 * vni + res) 8) 0xfffffff = vni) as ->.
  { change 0xfffffff with (Z.ones 28). rewrite Z.land_ones, Z.shiftr_div_pow2 by lia.
    rewrite Z.mul_comm, Z.div_add_l, (Z.div_small res), Z.add_0_r by lia. apply Z.mod_small. lia. }
  unfold sizeof_vxlanhdr. rewrite (u16_id (_ + 8 + 8)) by lia.
  replace (14 + l3_len_of (f_l3 p) + 8 + 8) with (14 + l3_len_of (f_l3 p) + 16) by lia.
  rewrite !xf_upd, !xf_upd_upd. reflexivity.
Qed.

Lemma pop_outer_metadata l2tun s :
  dp_pop_outer_metadata l2tun s = Some (0, s <| xf ::= pop_outer l2tun |>).
Proof. by destruct l2tun, s. Qed.

(** The metadata [x] describes the headers [x0] describes, found [off] bytes
    further on. *)
Definition same_headers (off : Z) (x x0 : xfi) : Prop :=
  l34m x = l34m x0 ∧
  dl_type (l2m x) = dl_type (l2m x0) ∧ dl_dst (l2m x) = dl_dst (l2m x0) ∧
  dl_src (l2m x) = dl_src (l2m x0) ∧ lkup_dmac (pm x) = lkup_dmac (pm x0) ∧
  LoxiDefs.tcp_flags (pm x) = LoxiDefs.tcp_flags (pm x0) ∧ l4fin (pm x) = l4fin (pm x0) ∧
  l3_len (pm x) = l3_len (pm x0) ∧ l3_plen (pm x) = l3_plen (pm x0) ∧
  l3_off (pm x) = off + l3_off (pm x0) ∧ l4_off (pm x) = off + l4_off (pm x0).

(** C29: a TCP or UDP packet in a VXLAN tunnel is seen by the pipeline, after
    the parser has found it and [dp_pop_outer_metadata] has made it the packet,
    exactly as the parser sees the packet by itself, at the offset of the
    tunnel's payload: headers, lengths, flags, and with them its key in the
    connection table. *)
Theorem tunnel_transparent o flags vni res f pad pad0 s :
  let p := vxlan_encap o flags vni res f in
  let s0 := s <| lpkt := encode f ++ pad0 |> in
  lpkt s = encode p ++ pad → xf s = xfi_zero → frame_ok p = true → frame_ok f = true →
  unicast (skb s) = true → cb0 (skb s) ≠ LLB_MIRR_MARK →
  is_udp (f_l4 o) = true → l4_dport (f_l4 o) = bpf_htons VXLAN_OUDP_DPORT →
  0 ≤ vni < 2 ^ 24 → 0 ≤ res < 2 ^ 8 →
  is_udp (f_l4 f) && is_tunnel_port (l4_dport (f_l4 f)) = false →
  ∃ s1 s2 s0',
    dp_parse_d0 0 s = Some (0, s1) ∧ dp_pop_outer_metadata true s1 = Some (0, s2) ∧
    dp_parse_d0 0 s0 = Some (0, s0') ∧
    same_headers (14 + l3_len_of (f_l3 o) + 16) (xf s2) (xf s0') ∧
    CT_KEY_GEN (xf s2) = CT_KEY_GEN (xf s0') ∧
    tunnel_id (tm (xf s2)) = vni ∧ tun_decap (tm (xf s2)) = 1.
Proof.
  intros p s0 E Hx Hok Hokf Hu Hm Hudp Hport Hvni Hres Ht.
  pose proof (frame_ok_inv _ Hokf) as (_ & _ & _ & H3 & _).
  pose proof (l3_len_of_range _ H3) as Hl3.
  pose proof (frame_ok_inv _ Hok) as (_ & _ & _ & H3o & _).
  pose proof (l3_len_of_range _ H3o) as Hl3o. change (f_l3 p) with (f_l3 o) in *.
  eexists _, _, _. split; [by eapply parse_vxlan|]. split; [apply pop_outer_metadata|].
  split; [by apply (parse_encode f pad0)|].
  rewrite !xf_upd. cbn [xf]. change (xf s0) with (xf s). rewrite Hx.
  unfold vxlan_md. fold p. change (f_l3 p) with (f_l3 o).
  unfold inner_md. rewrite !u8_id by lia. clearbody p s0.
  unfold same_headers, CT_KEY_GEN, is_dl_ipv6, outer_md, l34_md.
  generalize (Z.of_nat (length (encode p ++ pad))) (Z.of_nat (length (encode f ++ pad0)))
    (Z.of_nat (length (l4_bytes f))) (Z.of_nat (length (l4_bytes p))).
  intros n n0 len lenp.
  assert (∀ off, off + 14 + l3_len_of (f_l3 f) = off + (14 + l3_len_of (f_l3 f))) as -> by lia.
  generalize (14 + l3_len_of (f_l3 o) + 16). intros off.
  destruct (f_l4 f); split_and!;
    lazy -[bpf_htons u16 u8 ip_md ip6_md ethertype l3_len_of Z.add l3_md has_flag Z.land];
    reflexivity.
Qed.
End spec.

(** ** The theorems at concrete packets *)

Definition mac (n : Z) : list Z := [2; 0; 0; 0; 0; n].
(** A SYN to port 80, and the headers of a tunnel between two hosts. *)
Definition syn_frame : frame :=
  Frame (mac 1) (mac 2) (V4 0 7 0 64 0 0x0100000a 0x0200000a [])
    (Tcp 0x1234 0x5000 1 0 80 2 [0; 0; 0; 0; 0; 0]) [1; 2; 3].
Definition vtep_frame : frame :=
  Frame (mac 3) (mac 4) (V6 0x60 0 0 64 (XAddr 1 0 0 1) (XAddr 1 0 0 2))
    (Udp 0x2345 (bpf_htons VXLAN_OUDP_DPORT) 77 0) [].

Lemma parse_encode_witness :
  let s := ref_state xfi_zero (encode syn_frame ++ [0; 0]) in
  dp_parse_d0 0 s = Some (0, s <| xf := outer_md syn_frame (skb s) 59 (xf s) |>).
Proof.
  intros s. apply (parse_encode syn_frame [0; 0] s);
    first [reflexivity | vm_compute; discriminate].
Defined.

Lemma tunnel_transparent_witness :
  let p := vxlan_encap vtep_frame 8 77 0 syn_frame in
  let s := ref_state xfi_zero (encode p ++ []) in
  ∃ s1 s2 s0',
    dp_parse_d0 0 s = Some (0, s1) ∧ dp_pop_outer_metadata true s1 = Some (0, s2) ∧
    dp_parse_d0 0 (s <| lpkt := encode syn_frame ++ [] |>) = Some (0, s0') ∧
    same_headers 70 (xf s2) (xf s0') ∧
    CT_KEY_GEN (xf s2) = CT_KEY_GEN (xf s0') ∧
    tunnel_id (tm (xf s2)) = 77 ∧ tun_decap (tm (xf s2)) = 1.
Proof.
  intros p s. apply (tunnel_transparent vtep_frame 8 77 0 syn_frame [] [] s);
    first [reflexivity | lia | vm_compute; discriminate].
Defined.
