(* ===== verification/LoxiParseSafe.v ===== *)
(** * loxilb: memory safety of the parser

    Every access of the parser is inside the packet, except one: the header
    length of an IPv4 header is read before the header is known to be there. *)
From Stdlib Require Import ZifyBool.
From S2P Require Import Prelude Records Words Consts LoxiDefs LoxiTables LoxiState LoxiRef LoxiParse LoxiParseSpec.
Open Scope c_scope.

(** Totality of a function: it has a result, whatever it is. *)
Abbreviation total f s := (wpf f (λ _ _, True) s) (only parsing).

Section safety.
Context {K : Type}.
Implicit Types (s : lstate K) (p : parser).

Lemma pkt_len_upd (g : xfi → xfi) s : pkt_len (s <| xf ::= g |>) = pkt_len s.
Proof. done. Qed.
Lemma lpkt_upd (g : xfi → xfi) s : lpkt (s <| xf ::= g |>) = lpkt s.
Proof. done. Qed.
Lemma get_pkt_upd (g : xfi → xfi) s : get_pkt (s <| xf ::= g |>) = get_pkt s.
Proof. done. Qed.

Lemma iphl_range b : 0 ≤ Z.shiftl (Z.land b 0xf) 2 ≤ 60.
Proof.
  change 0xf with (Z.ones 4). rewrite Z.land_ones, Z.shiftl_mul_pow2 by lia.
  pose proof (Z.mod_pos_bound b (2 ^ 4)). lia.
Qed.

Lemma wp_iphl {R} off (QR : R → lstate K → Prop) QN s :
  0 ≤ off < pkt_len s → (∀ n, 0 ≤ n ≤ 60 → QN n s) → wpb (load_iphl off) QR QN s.
Proof.
  intros Hoff HQ. apply wp_bind, wp_load; unfold ip_verihl; [lia|lia|].
  apply wp_ret, HQ, iphl_range.
Qed.

Ltac bound :=
  rewrite ?pkt_len_upd in *;
  cbv [sizeof_ethhdr eth_h_dest eth_h_source eth_h_proto sizeof_iphdr ip_verihl ip_tos
       ip_tot_len ip_protocol ip_saddr ip_daddr ip_frag_off sizeof_ipv6hdr ip6_verprio
       ip6_flow_lbl ip6_payload_len ip6_nexthdr ip6_saddr ip6_daddr sizeof_tcphdr tcp_source
       tcp_dest tcp_seq sizeof_udphdr udp_source udp_dest sizeof_vxlanhdr vx_vni
       sizeof_vlanhdr vlan_TCI vlan_encapsulated_proto sizeof_arp_ethhdr ar_pro ar_pln ar_op
       ar_spa ar_tpa sizeof_icmphdr icmp_type icmp_echo_id sizeof_sctphdr sctp_source sctp_dest
       sizeof_sctp_dch sizeof_icmp6hdr icmp6_type sizeof_gtp_v1_hdr gtp_teid sizeof_gtp_v1_ehdr
       gtp_next_hdr sizeof_gtp_pdu_sess_cmnhdr sizeof_gtp_pdu_sess_hdr pdu_qfi pdu_next_hdr] in *;
  lia.

(** Execution of a parser: every access is covered by an earlier test. *)
Ltac total_step :=
  first
    [ apply wp_upd_xf
    | lazymatch goal with
      | |- wpb (need _ _) _ _ _ => unfold need
      | |- wpb (load8 _) _ _ _ => unfold load8
      | |- wpb (load16 _) _ _ _ => unfold load16
      | |- wpb (load32 _) _ _ _ => unfold load32
      | |- wpb (load_addr _) _ _ _ => unfold load_addr at 1
      | |- wpb (load_iphl _) _ _ _ => apply wp_iphl; [bound|intros ??; cbv beta]
      | |- wpb (parse_excp _) _ _ _ => unfold parse_excp
      | |- wpb LLBS_PPLN_TRAP _ _ _ => apply wp_upd_xf
      | |- wpb LLBS_PPLN_PASS _ _ _ => apply wp_upd_xf
      | |- wpb LLBS_PPLN_DROP _ _ _ => apply wp_upd_xf
      | |- wpb (LLBS_PPLN_TRAPC _) _ _ _ => apply wp_upd_xf
      | |- wpf dp_pkt_is_l2mcbc _ _ => unfold dp_pkt_is_l2mcbc
      end
    | wp_step
    | apply wp_past_end; cbv beta
    | apply wp_load; [bound|bound|cbv beta]
    | apply wp_load_bytes; [bound|bound|cbv beta]
    | exact I ].
Ltac total_steps := repeat total_step.

Lemma tcp_total p s : 0 ≤ dbegin p → total (dp_parse_tcp p) s.
Proof. intros. unfold dp_parse_tcp. total_steps. Qed.
Lemma icmp_total p s : 0 ≤ dbegin p → total (dp_parse_icmp p) s.
Proof. intros. unfold dp_parse_icmp. total_steps. Qed.
Lemma iudp_total p s : 0 ≤ dbegin p → total (dp_parse_iudp p) s.
Proof. intros. unfold dp_parse_iudp. total_steps. Qed.
Lemma sctp_total p s : 0 ≤ dbegin p → total (dp_parse_sctp p) s.
Proof. intros. unfold dp_parse_sctp. total_steps. Qed.
Lemma icmp6_total p s : 0 ≤ dbegin p → total (dp_parse_icmp6 p) s.
Proof. intros. unfold dp_parse_icmp6. total_steps. Qed.
Lemma arp_total p s : 0 ≤ dbegin p → total (dp_parse_arp p) s.
Proof. intros. unfold dp_parse_arp. total_steps. Qed.

Lemma dbegin_upd p v : dbegin (p <| dbegin := v |>) = v.
Proof. done. Qed.
(** The call of a parser proved total. *)
Ltac sub_total lem := apply lem; rewrite ?dbegin_upd; bound.
Ltac l4_total :=
  first [ sub_total tcp_total | sub_total icmp_total | sub_total iudp_total
        | sub_total sctp_total | sub_total icmp6_total | sub_total arp_total ].

Lemma ipv4_d1_total p s : 0 ≤ dbegin p < pkt_len s → total (dp_parse_ipv4_d1 p) s.
Proof.
  intros. unfold dp_parse_ipv4_d1.
  total_steps; l4_total.
Qed.

Lemma ipv6_d1_total p s : 0 ≤ dbegin p → total (dp_parse_ipv6_d1 p) s.
Proof. intros. unfold dp_parse_ipv6_d1. total_steps; l4_total. Qed.

(** The Ethernet frame at offset [f]: where the header behind its type starts,
    and the type; one VLAN tag is skipped. *)
Definition frame_l3 (f : Z) (m : list Z) : Z * Z :=
  let t := half_at (Z.to_nat (f + 12)) m in
  if proto_is_vlan t then (f + 18, half_at (Z.to_nat (f + 16)) m) else (f + 14, t).

(** The frame at [f] announces an IPv4 header and ends before it. *)
Definition cut_frame (f : Z) (m : list Z) : Prop :=
  frame_l3 f m = (Z.of_nat (length m), bpf_htons ETH_P_IP).

Lemma eth_total p s :
  0 ≤ dbegin p →
  wpf (dp_parse_eth p) (λ '(r, p') s', lpkt s' = lpkt s ∧
    (r = 0 → p' = p <| dbegin := dbegin p + 14 |> ∧ dbegin p + 14 ≤ pkt_len s ∧
       dl_type (if inp p then il2m (xf s') else l2m (xf s')) =
         half_at (Z.to_nat (dbegin p + 12)) (lpkt s))) s.
Proof.
  intros. unfold dp_parse_eth. total_steps.
  1, 2: split; [done|intros [=]].
  split; [done|]. intros _. split_and!; [done|bound|]. by destruct (inp p).
Qed.

Lemma vlan_d1_total f p s :
  0 ≤ f → dbegin p = f + 14 → dbegin p ≤ pkt_len s →
  dl_type (il2m (xf s)) = half_at (Z.to_nat (f + 12)) (lpkt s) →
  wpf (dp_parse_vlan_d1 p) (λ '(r, p') s', lpkt s' = lpkt s ∧
    (r = 0 → 0 ≤ dbegin p' ≤ pkt_len s ∧
       (dbegin p', dl_type (il2m (xf s'))) = frame_l3 f (lpkt s))) s.
Proof.
  intros ? Hp ? Hdl. unfold dp_parse_vlan_d1, frame_l3. rewrite <-Hdl.
  total_steps; (split; [done|]); [intros [=]|..].
  - intros _. rewrite dbegin_upd. split; [bound|].
    match goal with E : proto_is_vlan _ = true |- _ => rewrite E end.
    unfold half_at, sizeof_vlanhdr, vlan_encapsulated_proto. simpl xf. simpl il2m. simpl dl_type.
    f_equal; [lia|]. do 3 f_equal. lia.
  - intros _. split; [bound|].
    match goal with E : proto_is_vlan _ = false |- _ => rewrite E end. by rewrite Hp.
Qed.

Lemma d1_total p s :
  0 ≤ dbegin p → (skip_l2 p = true → dbegin p < pkt_len s) →
  (skip_l2 p = false → inp p = true ∧ ¬ cut_frame (dbegin p) (lpkt s)) →
  total (dp_parse_d1 p) s.
Proof.
  intros H0 Hskip Hl2. unfold dp_parse_d1. apply wp_run, wp_bind.
  destruct (skip_l2 p) eqn:Hs.
  - specialize (Hskip eq_refl). total_steps; [l4_total..| |].
    + apply ipv4_d1_total. bound.
    + apply ipv6_d1_total. bound.
  - destruct (Hl2 eq_refl) as [Hinp Hcut]. apply wp_bind, wp_call.
    eapply wpf_mono; [by apply eth_total|]. intros [r p'] s1 [Hm1 Hr]. cbv beta.
    rewrite Hinp in Hr. apply wp_bind, wp_return_if; [done|]. intros ->%negb_false_iff%Z.eqb_eq.
    destruct (Hr eq_refl) as (-> & Hl & Hdl).
    assert (pkt_len s1 = pkt_len s) as Hl1 by (unfold pkt_len; simpl; by rewrite Hm1).
    apply wp_bind, wp_call. eapply wpf_mono.
    { apply (vlan_d1_total (dbegin p)); rewrite ?dbegin_upd; [done|done|bound|]. by rewrite Hdl, Hm1. }
    intros [r2 p2] s2 [Hm2 Hr2]. apply wp_bind, wp_return_if; [done|].
    intros ->%negb_false_iff%Z.eqb_eq. destruct (Hr2 eq_refl) as (Hb & Hdl2).
    assert (pkt_len s2 = pkt_len s) as Hl2' by (unfold pkt_len; simpl; by rewrite Hm2, Hm1).
    rewrite Hl1 in Hb. rewrite Hm1 in Hdl2.
    apply wp_ret, wp_bind, wp_upd_xf, wp_bind, wp_gets. cbv zeta.
    change (il2m (xf (s2 <| xf ::= _ |>))) with (il2m (xf s2)).
    total_steps; [l4_total| |apply ipv6_d1_total; bound].
    apply ipv4_d1_total. rewrite pkt_len_upd, Hl2'. split; [lia|].
    destruct (decide (dbegin p2 = pkt_len s)) as [He|]; [|lia].
    destruct Hcut. unfold cut_frame. rewrite <-Hdl2, He. f_equal. by apply Z.eqb_eq.
Qed.

(** ** Tunnels *)

Lemma gtp_ext_loop_total n : ∀ nhl hlen s,
  0 < nhl → 0 ≤ hlen →
  wpb (gtp_ext_loop n nhl hlen) (λ _ _, True) (λ h s', lpkt s' = lpkt s ∧ 0 ≤ h) s.
Proof.
  induction n as [|n IH]; intros nhl hlen s Hn Hh; simpl gtp_ext_loop; [done|].
  apply wp_bind, wp_bind, wp_past_end, wp_return_if; [done|intros Hb].
  apply wp_bind, wp_load; [lia|lia|]. set (b := le_val _).
  pose proof (u8_range (Z.shiftl b 2)). pose proof (u8_range (hlen + u8 (Z.shiftl b 2))).
  apply wp_bind, wp_bind, wp_past_end, wp_return_if; [done|intros Hb2].
  apply wp_bind, wp_load; [lia|lia|]. apply wp_if; intros _.
  - apply wp_ret. split; [done|lia].
  - apply IH; lia.
Qed.

Lemma gtp_extensions_total gh hlen s :
  0 ≤ gh → 0 ≤ hlen →
  wpb (gtp_extensions gh hlen) (λ _ _, True) (λ h s', lpkt s' = lpkt s ∧ 0 ≤ h) s.
Proof.
  intros Hg Hh. unfold gtp_extensions. total_steps.
  - split; [done|]. apply u8_range.
  - eapply wpb_mono; [apply gtp_ext_loop_total; [bound|apply u8_range]|done|]. by intros ? ? [-> ?].
  - apply gtp_ext_loop_total; bound.
Qed.

Lemma gtp_total p gh s : 0 ≤ gh → total (dp_parse_gtp p gh) s.
Proof.
  intros Hg. unfold dp_parse_gtp. apply wp_run, wp_bind. total_step. do 10 total_step.
  do 3 total_step. set (b := le_val _). set (h0 := if negb (Z.land b 7 =? 0) then _ else _).
  assert (0 ≤ h0) by (unfold h0; by case (Z.land b 7 =? 0)).
  apply wp_bind. match goal with |- wpb (if ?c then _ else _) _ _ ?st =>
    assert (wpb (if c then gtp_extensions gh h0 else ret h0) (λ _ _, True)
      (λ h s', lpkt s' = lpkt st ∧ 0 ≤ h) st) as Hx
      by (destruct c; [by apply gtp_extensions_total|by apply wp_ret])
  end.
  eapply wpb_mono; [exact Hx|done|]. intros h s' [_ Hh]. cbv beta.
  total_steps; apply d1_total; cbn [dbegin skip_l2 inp]; bound || done.
Qed.

Lemma outer_udp_total p off s :
  0 ≤ off →
  (m_dest (l34m (xf s)) = bpf_htons VXLAN_OUDP_DPORT → ¬ cut_frame (off + 8) (lpkt s)) →
  total (dp_parse_outer_udp p off) s.
Proof.
  intros Ho Hc. unfold dp_parse_outer_udp. total_steps.
  - apply d1_total; cbn [dbegin skip_l2 inp]; [bound|done|]. split; [done|].
    apply Hc. by apply Z.eqb_eq.
  - by apply gtp_total.
Qed.

(** The UDP header at [u] is that of a VXLAN tunnel whose packet is cut. *)
Definition cut_vxlan (u : Z) (m : list Z) : Prop :=
  half_at (Z.to_nat (u + 2)) m = bpf_htons VXLAN_OUDP_DPORT ∧ cut_frame (u + 16) m.

Lemma udp_total p s :
  0 ≤ dbegin p → ¬ cut_vxlan (dbegin p) (lpkt s) → total (dp_parse_udp p) s.
Proof.
  intros Ho Hc. unfold dp_parse_udp.
  total_steps; (apply outer_udp_total; [bound|]); intros Hd Hf; apply Hc; (split; [exact Hd|]);
    unfold sizeof_udphdr in Hf; by replace (dbegin p + 16) with (dbegin p + 8 + 8) by lia.
Qed.

Lemma ipip_total p s : 0 ≤ dbegin p < pkt_len s → total (dp_parse_ipip p) s.
Proof.
  intros Ho. unfold dp_parse_ipip. total_steps.
  apply d1_total; cbn [dbegin skip_l2 inp]; bound || done.
Qed.

(** ** The outer packet *)

(** The length in the IPv4 header behind the outer Ethernet header. *)
Definition outer_iphl (m : list Z) : Z := Z.shiftl (Z.land (byte_at 14 m) 0xf) 2.

(** The offset of the UDP header, when the outer packet has one. *)
Definition udp_header (m : list Z) : option Z :=
  if (half_at 12 m =? bpf_htons ETH_P_IP) && (byte_at 23 m =? IPPROTO_UDP)
  then Some (14 + outer_iphl m)
  else if (half_at 12 m =? bpf_htons ETH_P_IPV6) && (byte_at 20 m =? IPPROTO_UDP)
  then Some 54 else None.

(** The offsets where the parser expects an IPv4 header: behind the Ethernet
    header, behind the IPv4 header of an IPIP tunnel, and behind the Ethernet
    header of the frame in a VXLAN tunnel. *)
Definition ipv4_due (m : list Z) : list Z :=
  (if half_at 12 m =? bpf_htons ETH_P_IP then
     14 :: (if byte_at 23 m =? IPPROTO_IPIP then [14 + outer_iphl m] else [])
   else []) ++
  match udp_header m with
  | Some u =>
      if half_at (Z.to_nat (u + 2)) m =? bpf_htons VXLAN_OUDP_DPORT then
        let '(o, t) := frame_l3 (u + 16) m in if t =? bpf_htons ETH_P_IP then [o] else []
      else []
  | None => []
  end.

(** The packet ends where an IPv4 header is due. *)
Definition cut_at_ipv4 (m : list Z) : Prop := Z.of_nat (length m) ∈ ipv4_due m.
#[export] Instance cut_at_ipv4_dec m : Decision (cut_at_ipv4 m).
Proof. unfold cut_at_ipv4. apply _. Defined.

Lemma not_cut_vxlan u m : ¬ cut_at_ipv4 m → udp_header m = Some u → ¬ cut_vxlan u m.
Proof.
  intros Hc Hu [Hd Hf]. apply Hc. unfold cut_at_ipv4, ipv4_due.
  apply elem_of_app. right. rewrite Hu, Hd, Z.eqb_refl, Hf, Z.eqb_refl. left.
Qed.
Lemma not_cut_outer m : ¬ cut_at_ipv4 m → half_at 12 m = bpf_htons ETH_P_IP →
  Z.of_nat (length m) ≠ 14 ∧
  (byte_at 23 m = IPPROTO_IPIP → Z.of_nat (length m) ≠ 14 + outer_iphl m).
Proof.
  unfold cut_at_ipv4, ipv4_due. intros Hc Ht. rewrite Ht, Z.eqb_refl in Hc.
  split; [intros He|intros Hp He]; apply Hc, elem_of_app; left; rewrite He; [left|].
  rewrite Hp, Z.eqb_refl. right. left.
Qed.

Lemma ipv4_total p s :
  dbegin p = 14 → 14 ≤ pkt_len s → half_at 12 (lpkt s) = bpf_htons ETH_P_IP →
  ¬ cut_at_ipv4 (lpkt s) → total (dp_parse_ipv4 p) s.
Proof.
  intros Hp Hl Ht Hc. unfold dp_parse_ipv4. rewrite Hp.
  destruct (not_cut_outer _ Hc Ht) as [Hne Hipip].
  assert (14 < pkt_len s) as Hl' by (unfold pkt_len in *; simpl in *; lia).
  apply wp_run, wp_bind, wp_bind, wp_load; [done|unfold ip_verihl; lia|].
  pose proof (iphl_range (byte_at 14 (lpkt s))) as Hr. apply wp_ret.
  change (le_val (slice (Z.to_nat (14 + ip_verihl)) 1 (get_pkt s))) with (byte_at 14 (lpkt s)).
  fold (outer_iphl (lpkt s)) in *. set (iphl := outer_iphl (lpkt s)) in *.
  total_steps; try l4_total;
    match goal with E : (_ =? _) = true |- _ => apply Z.eqb_eq in E end.
  - apply udp_total; [rewrite dbegin_upd; bound|]. apply not_cut_vxlan; [done|]. unfold udp_header.
    rewrite !lpkt_upd, Ht. by rewrite (proj2 (Z.eqb_eq (byte_at 23 _) _)) by done.
  - apply ipip_total. rewrite dbegin_upd. split; [lia|].
    assert (pkt_len s ≠ 14 + iphl) by (apply Hipip; done). bound.
Qed.

Lemma ipv6_total p s :
  dbegin p = 14 → half_at 12 (lpkt s) = bpf_htons ETH_P_IPV6 →
  ¬ cut_at_ipv4 (lpkt s) → total (dp_parse_ipv6 p) s.
Proof.
  intros Hp Ht Hc. unfold dp_parse_ipv6. rewrite Hp.
  total_steps; try l4_total; match goal with E : (_ =? _) = true |- _ => apply Z.eqb_eq in E end.
  apply udp_total; [rewrite dbegin_upd; bound|]. apply not_cut_vxlan; [done|].
  unfold udp_header. rewrite !lpkt_upd, Ht. by rewrite (proj2 (Z.eqb_eq (byte_at 20 _) _)) by done.
Qed.

Lemma excp_total (QN : Z → lstate K → Prop) r s :
  (r = 0 → QN r s) →
  wpb (if negb (r =? 0) then parse_excp r else ret r) (λ _ _, True) QN s.
Proof.
  intros HQ. apply wp_if; intros Hr.
  - unfold parse_excp. total_steps.
  - apply wp_ret, HQ. by apply negb_false_iff, Z.eqb_eq in Hr.
Qed.

Lemma vlan_total p s :
  wpf (dp_parse_vlan p) (λ '(r, p') s', r = 0 ∧ p' = p ∧ lpkt s' = lpkt s ∧
    dl_type (l2m (xf s')) = dl_type (l2m (xf s))) s.
Proof. unfold dp_parse_vlan, dp_vlan_info. total_steps; by split_and!. Qed.

(** The dispatch on the ethertype. *)
Lemma dispatch_total p (k : Z → body (lstate K) Z Z) s :
  dbegin p = 14 → 14 ≤ pkt_len s → dl_type (l2m (xf s)) = half_at 12 (lpkt s) →
  ¬ cut_at_ipv4 (lpkt s) →
  (∀ r s', wpb (k r) (λ _ _, True) (λ _ _, True) s') →
  wpb (let! r :=
         if dl_type (l2m (xf s)) =? bpf_htons ETH_P_ARP then call (dp_parse_arp p)
         else if dl_type (l2m (xf s)) =? bpf_htons ETH_P_IP then call (dp_parse_ipv4 p)
         else if dl_type (l2m (xf s)) =? bpf_htons ETH_P_IPV6 then
           return_if (skip_v6 p =? 1) 0 ;; call (dp_parse_ipv6 p)
         else if dl_type (l2m (xf s)) =? bpf_htons ETH_TYPE_LLB then call (dp_parse_llb p)
         else ret 0 in k r) (λ _ _, True) (λ _ _, True) s.
Proof.
  intros Hp Hl Hdl Hc Hk. apply wp_bind.
  assert (∀ f, total f s → wpb (R := Z) (call f) (λ _ _, True)
    (λ r s', wpb (k r) (λ _ _, True) (λ _ _, True) s') s) as Hcall.
  { intros f Hf. apply wp_call. eapply wpf_mono; [exact Hf|]. auto. }
  rewrite Hdl in *.
  repeat (apply wp_if; intros ?); try apply Hcall.
  - apply arp_total. lia.
  - apply ipv4_total; try done. by apply Z.eqb_eq.
  - apply wp_bind, wp_return_if; [done|intros _]. apply Hcall, ipv6_total; [done| |done].
    by apply Z.eqb_eq.
  - unfold dp_parse_llb. by apply wp_run, wp_ret.
  - by apply wp_ret.
Qed.

(** C30: the parser has a result on every packet, in every state, except on
    packets that end exactly at an offset where it expects an IPv4 header:
    behind the Ethernet header, behind the outer header of an IPIP tunnel, or
    behind the Ethernet header of the frame in a VXLAN tunnel.  There it reads
    the header length before it tests that the header is present. *)
Theorem parser_faults_only_when_cut v s :
  dp_parse_d0 v s = None → cut_at_ipv4 (lpkt s).
Proof.
  intros Hf. apply dec_stable. intros Hc.
  enough (total (dp_parse_d0 v) s) as Ht by (unfold wpf in Ht; by rewrite Hf in Ht).
  clear Hf. unfold dp_parse_d0. apply wp_run, wp_bind. unfold wpb at 1.
  apply wp_bind, wp_call. eapply wpf_mono; [by apply eth_total|].
  intros [r p'] s1 [Hm1 Hr]. cbv beta. apply wp_bind, excp_total. intros ->.
  destruct (Hr eq_refl) as (-> & Hl & Hdl). cbn [inp dbegin] in *.
  assert (pkt_len s1 = pkt_len s) as Hl1 by (unfold pkt_len; simpl; by rewrite Hm1).
  apply wp_bind, wp_gets, wp_bind.
  match goal with |- wpb _ _ ?QN _ =>
    enough (∀ s', lpkt s' = lpkt s → dl_type (l2m (xf s')) = half_at 12 (lpkt s) → QN tt s') as Hk
  end.
  { apply wp_when; intros _; [apply wp_upd_xf|]; by apply Hk. }
  intros s2 Hm2 Hd2. apply wp_bind, wp_call. eapply wpf_mono; [apply vlan_total|].
  intros [r p'] s3 (-> & -> & Hm3 & Hd3). cbv beta. apply wp_bind, excp_total. intros _.
  apply wp_bind, wp_upd_xf, wp_bind, wp_gets. cbv zeta.
  assert (lpkt s3 = lpkt s) as Hm by congruence.
  apply (dispatch_total (Parser false false v 14)); rewrite ?pkt_len_upd, ?lpkt_upd, ?Hm;
    try done.
  - unfold pkt_len in *. simpl in *. rewrite Hm. lia.
  - by etransitivity; [|etransitivity; [exact Hd3|exact Hd2]].
  - intros r s4. apply wp_bind, excp_total. intros ->. total_steps.
Qed.
End safety.

(** A VXLAN packet that ends behind the Ethernet header of the inner frame. *)
Definition cut_packet : list Z :=
  repeat 0 12 ++ [8; 0; 0x45] ++ repeat 0 8 ++ [17] ++ repeat 0 12 ++ [0x12; 0xb5] ++
  repeat 0 24 ++ [8; 0].
Lemma parser_faults_only_when_cut_witness :
  dp_parse_d0 0 (ref_state xfi_zero cut_packet) = None ∧ cut_at_ipv4 cut_packet.
Proof.
  split; [vm_compute; reflexivity|].
  apply (parser_faults_only_when_cut 0 (ref_state xfi_zero cut_packet)). vm_compute. reflexivity.
Defined.
