(* ===== verification/LoxiNatRw.v ===== *)
(** * loxilb: address translation of packets ([kernel/llb_kern_cdefs.h])

    The functions [dp_set_*] that rewrite one field of a packet together with
    the checksums it enters, and the translations [dp_do_dnat], [dp_do_snat],
    [dp_do_dnat6], [dp_do_snat6], [dp_do_dnat64], [dp_do_snat46]. *)
From S2P Require Import Prelude Records Words Consts LoxiDefs LoxiTables LoxiState LoxiSkb.
From S2P Require Import LoxiParse.
Open Scope c_scope.

Definition sctp_checksum : Z := 8.
Definition LLB_DP_CRC_PGM_ID1 : Z := 4.

(** The bytes of an address. *)
Definition xaddr_bytes (a : xaddr) : list Z :=
  le_bytes 4 (xa0 a) ++ le_bytes 4 (xa1 a) ++ le_bytes 4 (xa2 a) ++ le_bytes 4 (xa3 a).

Section rewrite.
Context {K : Type} `{SkbEnv K}.

(** ** Single fields

    The errors of the helpers are ignored. *)

(** [bpf_skb_store_bytes(md, xf->pm.l3_off + off, bs, len, 0)] and the like. *)
Definition store_l3 {R} (off : Z) (bs : list Z) : lbody K R unit :=
  let! x := gets xf in
  let! _ := bpf_skb_store_bytes (l3_off (pm x) + off) bs in ret tt.
Definition store_l4 {R} (off : Z) (bs : list Z) : lbody K R unit :=
  let! x := gets xf in
  let! _ := bpf_skb_store_bytes (l4_off (pm x) + off) bs in ret tt.
Definition l3_csum {R} (off from to : Z) : lbody K R unit :=
  let! x := gets xf in
  let! _ := bpf_l3_csum_replace (l3_off (pm x) + off) from to 4 in ret tt.
Definition l4_csum {R} (off from to flags : Z) : lbody K R unit :=
  let! x := gets xf in
  let! _ := bpf_l4_csum_replace (l4_off (pm x) + off) from to flags in ret tt.

Definition set_saddr4 (xip : Z) : xfi → xfi := λ x, x <| l34m; m_saddr; xa0 := xip |>.
Definition set_daddr4 (xip : Z) : xfi → xfi := λ x, x <| l34m; m_daddr; xa0 := xip |>.
Definition saddr4 (x : xfi) : Z := xa0 (m_saddr (l34m x)).
Definition daddr4 (x : xfi) : Z := xa0 (m_daddr (l34m x)).

(** The checksum of a TCP header when four words of the pseudo-header change. *)
Definition l4_csum_addr {R} (from to : xaddr) : lbody K R unit :=
  l4_csum tcp_check (xa0 from) (xa0 to) (Z.lor BPF_F_PSEUDO_HDR 4) ;;
  l4_csum tcp_check (xa1 from) (xa1 to) (Z.lor BPF_F_PSEUDO_HDR 4) ;;
  l4_csum tcp_check (xa2 from) (xa2 to) (Z.lor BPF_F_PSEUDO_HDR 4) ;;
  l4_csum tcp_check (xa3 from) (xa3 to) (Z.lor BPF_F_PSEUDO_HDR 4).

Definition dp_set_tcp_src_ip6 (xip : xaddr) : lfunc K unit := run (
  let! old_sip := gets (λ s, m_saddr (l34m (xf s))) in
  l4_csum_addr old_sip xip ;;
  store_l3 ip6_saddr (xaddr_bytes xip) ;;
  upd_xf (λ x, x <| l34m; m_saddr := xip |>)).
Definition dp_set_tcp_src_ip (xip : Z) : lfunc K unit := run (
  let! old_sip := gets (λ s, saddr4 (xf s)) in
  l4_csum tcp_check old_sip xip (Z.lor BPF_F_PSEUDO_HDR 4) ;;
  l3_csum ip_check old_sip xip ;;
  store_l3 ip_saddr (le_bytes 4 xip) ;;
  upd_xf (set_saddr4 xip)).
Definition dp_set_tcp_dst_ip6 (xip : xaddr) : lfunc K unit := run (
  let! old_dip := gets (λ s, m_daddr (l34m (xf s))) in
  l4_csum_addr old_dip xip ;;
  store_l3 ip6_daddr (xaddr_bytes xip) ;;
  upd_xf (λ x, x <| l34m; m_daddr := xip |>)).
Definition dp_set_tcp_dst_ip (xip : Z) : lfunc K unit := run (
  let! old_dip := gets (λ s, daddr4 (xf s)) in
  l4_csum tcp_check old_dip xip (Z.lor BPF_F_PSEUDO_HDR 4) ;;
  l3_csum ip_check old_dip xip ;;
  store_l3 ip_daddr (le_bytes 4 xip) ;;
  upd_xf (set_daddr4 xip)).
Definition dp_set_tcp_sport (xport : Z) : lfunc K unit := run (
  let! old_sport := gets (λ s, m_source (l34m (xf s))) in
  l4_csum tcp_check old_sport xport 2 ;;
  store_l4 tcp_source (le_bytes 2 xport) ;;
  upd_xf (λ x, x <| l34m; m_source := xport |>)).
Definition dp_set_tcp_dport (xport : Z) : lfunc K unit := run (
  let! old_dport := gets (λ s, m_dest (l34m (xf s))) in
  l4_csum tcp_check old_dport xport 2 ;;
  store_l4 tcp_dest (le_bytes 2 xport) ;;
  upd_xf (λ x, x <| l34m; m_dest := xport |>)).

(** A UDP checksum of 0 is valid over IPv4. *)
Definition dp_set_udp_src_ip6 (xip : xaddr) : lfunc K unit := run (
  store_l4 udp_check (le_bytes 2 0) ;;
  store_l3 ip6_saddr (xaddr_bytes xip) ;;
  upd_xf (λ x, x <| l34m; m_saddr := xip |>)).
Definition dp_set_udp_src_ip (xip : Z) : lfunc K unit := run (
  let! old_sip := gets (λ s, saddr4 (xf s)) in
  store_l4 udp_check (le_bytes 2 0) ;;
  l3_csum ip_check old_sip xip ;;
  store_l3 ip_saddr (le_bytes 4 xip) ;;
  upd_xf (set_saddr4 xip)).
Definition dp_set_udp_dst_ip6 (xip : xaddr) : lfunc K unit := run (
  store_l4 udp_check (le_bytes 2 0) ;;
  store_l3 ip6_daddr (xaddr_bytes xip) ;;
  upd_xf (λ x, x <| l34m; m_daddr := xip |>)).
Definition dp_set_udp_dst_ip (xip : Z) : lfunc K unit := run (
  let! old_dip := gets (λ s, daddr4 (xf s)) in
  store_l4 udp_check (le_bytes 2 0) ;;
  l3_csum ip_check old_dip xip ;;
  store_l3 ip_daddr (le_bytes 4 xip) ;;
  upd_xf (set_daddr4 xip)).
Definition dp_set_udp_sport (xport : Z) : lfunc K unit := run (
  store_l4 udp_check (le_bytes 2 0) ;;
  store_l4 udp_source (le_bytes 2 xport) ;;
  upd_xf (λ x, x <| l34m; m_source := xport |>)).
Definition dp_set_udp_dport (xport : Z) : lfunc K unit := run (
  store_l4 udp_check (le_bytes 2 0) ;;
  store_l4 udp_dest (le_bytes 2 xport) ;;
  upd_xf (λ x, x <| l34m; m_dest := xport |>)).

Definition dp_set_icmp_src_ip6 (xip : xaddr) : lfunc K unit := run (
  store_l3 ip6_saddr (xaddr_bytes xip) ;;
  upd_xf (λ x, x <| l34m; m_saddr := xip |>)).
Definition dp_set_icmp_src_ip (xip : Z) : lfunc K unit := run (
  let! old_sip := gets (λ s, saddr4 (xf s)) in
  l3_csum ip_check old_sip xip ;;
  store_l3 ip_saddr (le_bytes 4 xip) ;;
  upd_xf (set_saddr4 xip)).
Definition dp_set_icmp_dst_ip6 (xip : xaddr) : lfunc K unit := run (
  store_l3 ip6_daddr (xaddr_bytes xip) ;;
  upd_xf (λ x, x <| l34m; m_daddr := xip |>)).
Definition dp_set_icmp_dst_ip (xip : Z) : lfunc K unit := run (
  let! old_dip := gets (λ s, daddr4 (xf s)) in
  l3_csum ip_check old_dip xip ;;
  store_l3 ip_daddr (le_bytes 4 xip) ;;
  upd_xf (set_daddr4 xip)).

(** The same text in the source. *)
Definition dp_set_sctp_src_ip6 : xaddr → lfunc K unit := dp_set_icmp_src_ip6.
Definition dp_set_sctp_src_ip : Z → lfunc K unit := dp_set_icmp_src_ip.
Definition dp_set_sctp_dst_ip6 : xaddr → lfunc K unit := dp_set_icmp_dst_ip6.
Definition dp_set_sctp_dst_ip : Z → lfunc K unit := dp_set_icmp_dst_ip.
Definition dp_set_sctp_sport (xport : Z) : lfunc K unit := run (
  store_l4 sctp_checksum (le_bytes 4 0) ;;
  store_l4 sctp_source (le_bytes 2 xport) ;;
  upd_xf (λ x, x <| l34m; m_source := xport |>)).
Definition dp_set_sctp_dport (xport : Z) : lfunc K unit := run (
  store_l4 sctp_checksum (le_bytes 4 0) ;;
  store_l4 sctp_dest (le_bytes 2 xport) ;;
  upd_xf (λ x, x <| l34m; m_dest := xport |>)).

(** ** Translation within a protocol version

    Per transport protocol the code repeats the same steps with the setters of
    the protocol. *)
Context (tail : Z → option (lfunc K Z)).

(** [dp_csum_tcall]: hands the packet to the SCTP checksum program. *)
Definition dp_csum_tcall : pfunc K Z := run_p (
  upd_xf (λ x, x <| km := KeyMdi 0 (l4_off (pm x)) (l3_plen (pm x)) 0xffffffff |>) ;;
  bpf_tail_call tail LLB_DP_CRC_PGM_ID1 ;;
  ret DP_PASS).

(** [if (hdr + 1 > dend) { LLBS_PPLN_DROP(xf); return -1; }] *)
Definition need_l4 (size : Z) : pbody K Z unit :=
  let! x := gets xf in
  let! oob := past_end (l4_off (pm x) + size) in
  when oob (LLBS_PPLN_DROP ;; return_p (-1)).

Definition dnat_addrs (set_src set_dst : Z → lfunc K unit) (xip : Z) : pbody K Z unit :=
  let! x := gets xf in
  if xip =? 0 then
    let xip := saddr4 x in
    call (set_src (daddr4 x)) ;;
    call (set_dst xip)
  else
    when (negb (xa0 (nm_nrip (nm x)) =? 0)) (call (set_src (xa0 (nm_nrip (nm x))))) ;;
    call (set_dst xip).

Definition snat_addrs (set_src set_dst : Z → lfunc K unit) (xip : Z) : pbody K Z unit :=
  let! x := gets xf in
  if xip =? 0 then
    let xip := saddr4 x in
    call (set_src (daddr4 x)) ;;
    call (set_dst xip)
  else
    call (set_src xip) ;;
    when (negb (xa0 (nm_nrip (nm x)) =? 0)) (call (set_dst (xa0 (nm_nrip (nm x))))).

Definition dp_do_dnat (xip xport : Z) : pfunc K Z := run_p (
  let! x := gets xf in
  let nw_proto := nw_proto (l34m x) in
  (if nw_proto =? IPPROTO_TCP then
     need_l4 sizeof_tcphdr ;;
     dnat_addrs dp_set_tcp_src_ip dp_set_tcp_dst_ip xip ;;
     call (dp_set_tcp_dport xport)
   else if nw_proto =? IPPROTO_UDP then
     need_l4 sizeof_udphdr ;;
     dnat_addrs dp_set_udp_src_ip dp_set_udp_dst_ip xip ;;
     call (dp_set_udp_dport xport)
   else if nw_proto =? IPPROTO_SCTP then
     need_l4 sizeof_sctphdr ;;
     dnat_addrs dp_set_sctp_src_ip dp_set_sctp_dst_ip xip ;;
     call (dp_set_sctp_dport xport) ;;
     let! _ := call_p dp_csum_tcall in ret tt
   else when (nw_proto =? IPPROTO_ICMP)
     (when (negb (xa0 (nm_nrip (nm x)) =? 0))
        (call (dp_set_icmp_src_ip (xa0 (nm_nrip (nm x))))) ;;
      call (dp_set_icmp_dst_ip xip))) ;;
  ret 0).

Definition dp_do_snat (xip xport : Z) : pfunc K Z := run_p (
  let! x := gets xf in
  let nw_proto := nw_proto (l34m x) in
  (if nw_proto =? IPPROTO_TCP then
     need_l4 sizeof_tcphdr ;;
     snat_addrs dp_set_tcp_src_ip dp_set_tcp_dst_ip xip ;;
     call (dp_set_tcp_sport xport)
   else if nw_proto =? IPPROTO_UDP then
     need_l4 sizeof_udphdr ;;
     snat_addrs dp_set_udp_src_ip dp_set_udp_dst_ip xip ;;
     call (dp_set_udp_sport xport)
   else if nw_proto =? IPPROTO_SCTP then
     need_l4 sizeof_sctphdr ;;
     snat_addrs dp_set_sctp_src_ip dp_set_sctp_dst_ip xip ;;
     call (dp_set_sctp_sport xport) ;;
     let! _ := call_p dp_csum_tcall in ret tt
   else when (nw_proto =? IPPROTO_ICMP)
     (call (dp_set_icmp_src_ip xip) ;;
      when (negb (xa0 (nm_nrip (nm x)) =? 0))
        (call (dp_set_icmp_dst_ip (xa0 (nm_nrip (nm x))))))) ;;
  ret 0).

(** The IPv6 versions get the address by pointer, always to [xf->nm.nxip],
    which the hairpin case overwrites. *)
Definition hairpin6 (set_src set_dst : xaddr → lfunc K unit) : pbody K Z unit :=
  upd_xf (λ x, x <| nm; nm_nxip := m_saddr (l34m x) |>) ;;
  let! x := gets xf in
  call (set_src (m_daddr (l34m x))) ;;
  call (set_dst (nm_nxip (nm x))).

Definition dnat6_addrs (set_src set_dst : xaddr → lfunc K unit) : pbody K Z unit :=
  let! x := gets xf in
  if DP_XADDR_ISZR (nm_nxip (nm x)) then hairpin6 set_src set_dst
  else
    when (negb (DP_XADDR_ISZR (nm_nrip (nm x)))) (call (set_src (nm_nrip (nm x)))) ;;
    call (set_dst (nm_nxip (nm x))).

Definition snat6_addrs (set_src set_dst : xaddr → lfunc K unit) : pbody K Z unit :=
  let! x := gets xf in
  if DP_XADDR_ISZR (nm_nxip (nm x)) then hairpin6 set_src set_dst
  else
    call (set_src (nm_nxip (nm x))) ;;
    when (negb (DP_XADDR_ISZR (nm_nrip (nm x)))) (call (set_dst (nm_nrip (nm x)))).

Definition dp_do_dnat6 (xport : Z) : pfunc K Z := run_p (
  let! x := gets xf in
  let nw_proto := nw_proto (l34m x) in
  (if nw_proto =? IPPROTO_TCP then
     need_l4 sizeof_tcphdr ;;
     dnat6_addrs dp_set_tcp_src_ip6 dp_set_tcp_dst_ip6 ;;
     call (dp_set_tcp_dport xport)
   else if nw_proto =? IPPROTO_UDP then
     need_l4 sizeof_udphdr ;;
     dnat6_addrs dp_set_udp_src_ip6 dp_set_udp_dst_ip6 ;;
     call (dp_set_udp_dport xport)
   else if nw_proto =? IPPROTO_SCTP then
     need_l4 sizeof_sctphdr ;;
     dnat6_addrs dp_set_sctp_src_ip6 dp_set_sctp_dst_ip6 ;;
     call (dp_set_sctp_dport xport) ;;
     let! _ := call_p dp_csum_tcall in ret tt
   else when (nw_proto =? IPPROTO_ICMP)
     (when (negb (DP_XADDR_ISZR (nm_nrip (nm x))))
        (call (dp_set_icmp_src_ip6 (nm_nrip (nm x)))) ;;
      call (dp_set_icmp_dst_ip6 (nm_nxip (nm x))))) ;;
  ret 0).

Definition dp_do_snat6 (xport : Z) : pfunc K Z := run_p (
  let! x := gets xf in
  let nw_proto := nw_proto (l34m x) in
  (if nw_proto =? IPPROTO_TCP then
     need_l4 sizeof_tcphdr ;;
     snat6_addrs dp_set_tcp_src_ip6 dp_set_tcp_dst_ip6 ;;
     call (dp_set_tcp_sport xport)
   else if nw_proto =? IPPROTO_UDP then
     need_l4 sizeof_udphdr ;;
     snat6_addrs dp_set_udp_src_ip6 dp_set_udp_dst_ip6 ;;
     call (dp_set_udp_sport xport)
   else if nw_proto =? IPPROTO_SCTP then
     need_l4 sizeof_sctphdr ;;
     snat6_addrs dp_set_sctp_src_ip6 dp_set_sctp_dst_ip6 ;;
     call (dp_set_sctp_sport xport) ;;
     let! _ := call_p dp_csum_tcall in ret tt
   else when (nw_proto =? IPPROTO_ICMP)
     (call (dp_set_icmp_src_ip6 (nm_nxip (nm x))) ;;
      when (negb (DP_XADDR_ISZR (nm_nrip (nm x))))
        (call (dp_set_icmp_dst_ip6 (nm_nrip (nm x)))))) ;;
  ret 0).
End rewrite.
