(* ===== verification/LoxiDeparse.v ===== *)
(** * loxilb: deparsing ([kernel/llb_kern_cdefs.h], [kernel/llb_kern_compose.c])

    The rest of the packet rewriting: translation between IPv4 and IPv6, tags,
    insertion and removal of tunnels, and the deparser [dp_unparse_packet_always],
    [dp_unparse_packet], [dp_unparse_packet_always_slow]. *)
From S2P Require Import Prelude Records Words Consts LoxiDefs LoxiTables LoxiState LoxiSkb.
From S2P Require Import LoxiParse LoxiNatRw.
Open Scope c_scope.

Definition VXLAN_OUDP_SPORT : Z := 4788.
Definition VXLAN_VI_FLAG_ON : Z := bpf_htonl (Z.shiftl 0x08 24).
Definition GTPU_UDP_SPORT : Z := 2152.
Definition GTP_MT_TPDU : Z := 0xff.
Definition LLB_DP_SUNP_PGM_ID2 : Z := 6.
Definition LLB_PIPE_RDR : Z := 0x4.

(** [if (p + size > dend) return -1;] and the variant that also marks the
    packet. *)
Definition need_fail {K} (e : Z) : lbody K Z unit :=
  let! oob := past_end e in return_if oob (-1).
Definition need_drop {K} (e : Z) : lbody K Z unit :=
  let! oob := past_end e in when oob (LLBS_PPLN_DROP ;; return_ (-1)).

(** ** IPv4 headers *)
Section v4.
Context {S : Type} `{PktState S}.

(** The unrolled loop of [dp_ipv4_new_csum]: [n] words at [off]. *)
Fixpoint sum_words (n : nat) (off csum : Z) : body S unit Z :=
  match n with
  | O => ret csum
  | Datatypes.S n =>
      let! w := load16 off in sum_words n (off + 2) (u32 (csum + w))
  end.

Definition new_csum (csum : Z) : Z :=
  u16 (Z.lnot (u32 (Z.land csum 0xffff + Z.shiftr csum 16))).

Definition dp_ipv4_new_csum (iph : Z) : func S unit := run (
  store16 (iph + ip_check) 0 ;;
  let! csum := sum_words (Z.to_nat (Z.shiftr sizeof_iphdr 1)) iph 0 in
  store16 (iph + ip_check) (new_csum csum)).

(** The fields of an outer header; the others keep what the room contained. *)
Definition outer_ip {R} (iph tot_len protocol saddr daddr : Z) : body S R unit :=
  store8 (iph + ip_verihl) 0x45 ;;
  store16 (iph + ip_tot_len) (bpf_htons (u16 tot_len)) ;;
  store8 (iph + ip_ttl) 64 ;;
  store8 (iph + ip_protocol) protocol ;;
  store32 (iph + ip_saddr) saddr ;;
  store32 (iph + ip_daddr) daddr ;;
  call (dp_ipv4_new_csum iph).
End v4.

Section rewrite.
Context {K : Type} `{SkbEnv K}.

(** [memcpy(eth->h_dest, m.dl_dst, 2*6); eth->h_proto = m.dl_type;] *)
Definition put_macs {R} (m : dp_l2_mdi) : lbody K R unit :=
  store_bytes eth_h_dest (dl_dst m) ;; store_bytes eth_h_source (dl_src m).
Definition put_eth {R} (m : dp_l2_mdi) : lbody K R unit :=
  put_macs m ;; store16 eth_h_proto (dl_type m).

(** ** Translation between the versions *)

(** The Ethernet header after the change of the protocol. *)
Definition put_eth_proto : lbody K Z unit :=
  let! x := gets xf in
  put_macs (l2m x) ;;
  if negb (vlan0 (l2m x) =? 0) then
    let vlh := sizeof_ethhdr in
    need_drop (vlh + sizeof_vlanhdr) ;;
    store16 eth_h_proto (bpf_htons 0x8100) ;;
    store16 (vlh + vlan_encapsulated_proto) (dl_type (l2m x))
  else store16 eth_h_proto (dl_type (l2m x)).

Definition not_tcp_udp (x : xfi) : bool :=
  negb (nw_proto (l34m x) =? IPPROTO_TCP) && negb (nw_proto (l34m x) =? IPPROTO_UDP).

Definition dp_do_dnat64 : lfunc K Z := run (
  let! x := gets xf in
  when (not_tcp_udp x) (LLBS_PPLN_DROP ;; return_ (-1)) ;;
  let! ok := bpf_skb_change_proto (bpf_htons ETH_P_IP) in
  when (negb ok) (LLBS_PPLN_DROP ;; return_ (-1)) ;;
  need_drop sizeof_ethhdr ;;
  upd_xf (λ x, x <| l2m; dl_type := bpf_htons ETH_P_IP |>) ;;
  put_eth_proto ;;
  let iph := sizeof_ethhdr in
  need_drop (iph + sizeof_iphdr) ;;
  upd_xf (λ x, x <| pm; l3_len := u16 (l3_plen (pm x) + sizeof_iphdr) |>
                 <| pm; l3_off := iph |> <| pm; l4_off := iph + sizeof_iphdr |>) ;;
  let! x := gets xf in
  outer_ip iph (l3_len (pm x)) (nw_proto (l34m x)) (xa0 (nm_nrip (nm x))) (xa0 (nm_nxip (nm x))) ;;
  if nw_proto (l34m x) =? IPPROTO_TCP then
    need_drop (iph + sizeof_iphdr + sizeof_tcphdr) ;;
    let! saddr := load_bytes (iph + ip_saddr) 4 in
    let sum := u32 (sk_csum_diff (xaddr_bytes (m_saddr (l34m x))) saddr 0) in
    let! daddr := load_bytes (iph + ip_daddr) 4 in
    let sum := u32 (sk_csum_diff (xaddr_bytes (m_daddr (l34m x))) daddr sum) in
    l4_csum tcp_check 0 sum BPF_F_PSEUDO_HDR ;;
    call (dp_set_tcp_dport (nm_nxport (nm x))) ;;
    ret 0
  else
    need_drop (iph + sizeof_iphdr + sizeof_udphdr) ;;
    call (dp_set_udp_dport (nm_nxport (nm x))) ;;
    ret 0).

Definition dp_do_snat46 : lfunc K Z := run (
  let! x := gets xf in
  when (not_tcp_udp x) (LLBS_PPLN_DROP ;; return_ (-1)) ;;
  let! ok := bpf_skb_change_proto (bpf_htons ETH_P_IPV6) in
  when (negb ok) (LLBS_PPLN_DROP ;; return_ (-1)) ;;
  need_drop sizeof_ethhdr ;;
  upd_xf (λ x, x <| l2m; dl_type := bpf_htons ETH_P_IPV6 |>) ;;
  put_eth_proto ;;
  let ip6h := sizeof_ethhdr in
  need_drop (ip6h + sizeof_ipv6hdr) ;;
  upd_xf (λ x, x <| pm; l3_len := u16 (l3_plen (pm x) + sizeof_ipv6hdr) |>
                 <| pm; l3_off := ip6h |> <| pm; l4_off := ip6h + sizeof_ipv6hdr |>) ;;
  let! x := gets xf in
  let! b := load8 (ip6h + ip6_verprio) in
  store8 (ip6h + ip6_verprio) (Z.lor 0x60 (Z.land b 0x0f)) ;;
  store16 (ip6h + ip6_payload_len) (bpf_htons (l3_plen (pm x))) ;;
  store8 (ip6h + ip6_hop_limit) 64 ;;
  store_bytes (ip6h + ip6_flow_lbl) [0; 0; 0] ;;
  store8 (ip6h + ip6_nexthdr) (nw_proto (l34m x)) ;;
  store_bytes (ip6h + ip6_saddr) (xaddr_bytes (nm_nxip (nm x))) ;;
  store_bytes (ip6h + ip6_daddr) (xaddr_bytes (nm_nrip (nm x))) ;;
  if nw_proto (l34m x) =? IPPROTO_TCP then
    need_drop (ip6h + sizeof_ipv6hdr + sizeof_tcphdr) ;;
    let! saddr := load_bytes (ip6h + ip6_saddr) 16 in
    let sum := u32 (sk_csum_diff (le_bytes 4 (xa0 (m_saddr (l34m x)))) saddr 0) in
    let! daddr := load_bytes (ip6h + ip6_daddr) 16 in
    let sum := u32 (sk_csum_diff (le_bytes 4 (xa0 (m_daddr (l34m x)))) daddr sum) in
    l4_csum tcp_check 0 sum BPF_F_PSEUDO_HDR ;;
    call (dp_set_tcp_sport (nm_nxport (nm x))) ;;
    ret 0
  else
    need_drop (ip6h + sizeof_ipv6hdr + sizeof_udphdr) ;;
    call (dp_set_udp_sport (nm_nxport (nm x))) ;;
    ret 0).

(** ** VLAN tags *)

Definition dp_remove_vlan_tag : lfunc K Z := run (
  let! x := gets xf in
  let! _ := bpf_skb_vlan_pop in
  need_fail sizeof_ethhdr ;;
  put_eth (l2m x) ;;
  ret 0).

Definition dp_insert_vlan_tag (vlan : Z) : lfunc K Z := run (
  let! x := gets xf in
  let! _ := bpf_skb_vlan_push (bpf_ntohs (dl_type (l2m x))) (bpf_ntohs vlan) in
  need_fail sizeof_ethhdr ;;
  put_macs (l2m x) ;;
  ret 0).

Definition dp_swap_vlan_tag (vlan : Z) : lfunc K Z := run (
  let! _ := bpf_skb_vlan_pop in
  call (dp_insert_vlan_tag vlan)).

Definition dp_do_out_vlan : lfunc K Z := run (
  let! x := gets xf in
  let vlan := bd (pm x) in
  let! r :=
    if vlan =? 0 then
      if negb (vlan0 (l2m x) =? 0) then call dp_remove_vlan_tag
      else need_drop sizeof_ethhdr ;; put_macs (l2m x) ;; ret 0
    else if negb (vlan0 (l2m x) =? 0) then call (dp_swap_vlan_tag vlan)
    else call (dp_insert_vlan_tag vlan) in
  when (negb (r =? 0)) (LLBS_PPLN_DROP ;; return_ (-1)) ;;
  ret 0).

(** ** Tunnels *)

(** [if (dp_buf_delete_room(...) < 0) { LLBS_PPLN_DROP(xf); return -1; }], the
    same for [dp_buf_add_room]. *)
Definition or_drop (m : lbody K Z bool) : lbody K Z unit :=
  let! ok := m in when (negb ok) (LLBS_PPLN_DROP ;; return_ (-1)).

(** [memcpy(eth->h_dest, ...); eth->h_proto = ...; xf->l2m.vlan = 0;] *)
Definition recreate_eth : lbody K Z unit :=
  let! x := gets xf in
  put_eth (l2m x) ;;
  upd_xf (λ x, x <| l2m; vlan0 := 0 |> <| l2m; vlan1 := 0 |>).

Definition dp_do_strip_ipip : lfunc K Z := run (
  let olen := sizeof_iphdr in
  or_drop (dp_buf_delete_room olen BPF_F_ADJ_ROOM_FIXED_GSO) ;;
  need_drop sizeof_ethhdr ;;
  recreate_eth ;;
  ret 0).

Definition dp_do_strip_gtp (olen : Z) : lfunc K Z := run (
  when (olen <? sizeof_ethhdr) (LLBS_PPLN_DROP ;; return_ (-1)) ;;
  or_drop (dp_buf_delete_room (olen - sizeof_ethhdr) BPF_F_ADJ_ROOM_FIXED_GSO) ;;
  need_drop sizeof_ethhdr ;;
  recreate_eth ;;
  ret 0).

Definition dp_do_strip_vxlan (olen : Z) : lfunc K Z := run (
  or_drop (dp_buf_delete_room olen BPF_F_ADJ_ROOM_FIXED_GSO) ;;
  need_drop sizeof_ethhdr ;;
  let! x := gets xf in
  put_macs (il2m x) ;;
  (if negb (vlan0 (il2m x) =? 0) then
     let vlh := sizeof_ethhdr in
     need_drop (vlh + sizeof_vlanhdr) ;;
     store16 (vlh + vlan_encapsulated_proto) (dl_type (il2m x))
   else store16 eth_h_proto (dl_type (il2m x))) ;;
  ret 0).

(** The insertions are only called with [skip_md] set: the part that resets
    the metadata is not reached. *)
Definition dp_do_ins_ipip (rip sip tid : Z) : lfunc K Z := run (
  let olen := sizeof_iphdr in
  let flags := Z.lor BPF_F_ADJ_ROOM_FIXED_GSO BPF_F_ADJ_ROOM_ENCAP_L3_IPV4 in
  or_drop (dp_buf_add_room olen flags) ;;
  need_drop sizeof_ethhdr ;;
  let iph := sizeof_ethhdr in
  need_drop (iph + sizeof_iphdr) ;;
  let! x := gets xf in
  outer_ip iph (l3_len (pm x) + olen) IPPROTO_IPIP sip rip ;;
  upd_xf (λ x, x <| tm; tun_encap := 1 |>) ;;
  ret 0).

Definition outer_udp {R} (udph source dest len : Z) : lbody K R unit :=
  store16 (udph + udp_source) (u16 source) ;;
  store16 (udph + udp_dest) dest ;;
  store16 (udph + udp_check) 0 ;;
  store16 (udph + udp_len) (bpf_htons (u16 len)).

Definition dp_do_ins_vxlan (rip sip tid : Z) : lfunc K Z := run (
  let! x := gets xf in
  when (negb (vlan0 (l2m x) =? 0))
    (let! r := call dp_remove_vlan_tag in
     when (r <? 0) (LLBS_PPLN_DROP ;; return_ (-1))) ;;
  let l2_len := sizeof_ethhdr in
  let olen := sizeof_iphdr + sizeof_udphdr + sizeof_vxlanhdr + l2_len in
  let flags := Z.lor (Z.lor (Z.lor BPF_F_ADJ_ROOM_FIXED_GSO BPF_F_ADJ_ROOM_ENCAP_L3_IPV4)
                       BPF_F_ADJ_ROOM_ENCAP_L4_UDP) (BPF_F_ADJ_ROOM_ENCAP_L2 l2_len) in
  or_drop (dp_buf_add_room olen flags) ;;
  need_drop sizeof_ethhdr ;;
  let iph := sizeof_ethhdr in
  need_drop (iph + sizeof_iphdr) ;;
  let! x := gets xf in
  outer_ip iph (l3_len (pm x) + olen) IPPROTO_UDP sip rip ;;
  let udph := iph + sizeof_iphdr in
  need_drop (udph + sizeof_udphdr) ;;
  outer_udp udph (m_source (l34m x) + VXLAN_OUDP_SPORT) (bpf_htons VXLAN_OUDP_DPORT)
    (l3_len (pm x) + olen - sizeof_iphdr) ;;
  let vx := udph + sizeof_udphdr in
  need_drop (vx + sizeof_vxlanhdr) ;;
  store32 (vx + vx_vni) tid ;;
  store32 vx VXLAN_VI_FLAG_ON ;;
  let ieth := vx + sizeof_vxlanhdr in
  need_drop (ieth + sizeof_ethhdr) ;;
  store_bytes (ieth + eth_h_dest) (dl_dst (il2m x)) ;;
  store_bytes (ieth + eth_h_source) (dl_src (il2m x)) ;;
  store16 (ieth + eth_h_proto) (dl_type (il2m x)) ;;
  upd_xf (λ x, x <| tm; tun_type := LLB_TUN_VXLAN |> <| tm; tunnel_id := bpf_ntohl tid |>
                 <| pm; tun_off := sizeof_ethhdr + sizeof_iphdr + sizeof_udphdr |>
                 <| tm; tun_encap := 1 |>
                 <| l2m; vlan0 := 0 |> <| l2m; dl_type := bpf_htons ETH_P_IP |>) ;;
  ret 0).

Definition dp_do_ins_gtp (rip sip tid qfi_ : Z) : lfunc K Z := run (
  let ghlen := if negb (qfi_ =? 0)
               then sizeof_gtp_v1_hdr + sizeof_gtp_v1_ehdr + sizeof_gtp_pdu_sess_hdr
               else sizeof_gtp_v1_hdr in
  let espn := if negb (qfi_ =? 0) then GTP_EXT_FM else 0 in
  let olen := sizeof_iphdr + sizeof_udphdr + ghlen in
  let flags := Z.lor (Z.lor BPF_F_ADJ_ROOM_FIXED_GSO BPF_F_ADJ_ROOM_ENCAP_L3_IPV4)
                     BPF_F_ADJ_ROOM_ENCAP_L4_UDP in
  or_drop (dp_buf_add_room olen flags) ;;
  need_drop sizeof_ethhdr ;;
  let iph := sizeof_ethhdr in
  need_drop (iph + sizeof_iphdr) ;;
  let! x := gets xf in
  outer_ip iph (l3_len (pm x) + olen) IPPROTO_UDP sip rip ;;
  let udph := iph + sizeof_iphdr in
  need_drop (udph + sizeof_udphdr) ;;
  outer_udp udph (bpf_htons GTPU_UDP_SPORT) (bpf_htons GTPU_UDP_DPORT)
    (l3_len (pm x) + olen - sizeof_iphdr) ;;
  let gh := udph + sizeof_udphdr in
  need_drop (gh + sizeof_gtp_v1_hdr) ;;
  let! b := load8 gh in
  store8 gh (Z.lor (Z.lor (Z.shiftl GTP_VER_1 5) (Z.shiftl 1 4))
                   (Z.lor (Z.land b 0x08) espn)) ;;
  store32 (gh + gtp_teid) tid ;;
  store8 (gh + 1) GTP_MT_TPDU ;;
  store16 (gh + 2) (bpf_ntohs (u16 (l3_len (pm x) + ghlen))) ;;
  when (negb (qfi_ =? 0))
    (let geh := gh + sizeof_gtp_v1_hdr in
     need_drop (geh + sizeof_gtp_v1_ehdr) ;;
     store16 geh 0 ;;
     store8 (geh + 2) 0 ;;
     store8 (geh + gtp_next_hdr) GTP_NH_PDU_SESS ;;
     let gedh := geh + sizeof_gtp_v1_ehdr in
     need_drop (gedh + sizeof_gtp_pdu_sess_hdr) ;;
     store8 gedh 1 ;;
     let! b := load8 (gedh + 1) in
     store8 (gedh + 1) (Z.lor (Z.shiftl GTP_PDU_SESS_DL 4) (Z.land b 0x0f)) ;;
     store8 (gedh + pdu_qfi) (Z.land qfi_ 0x3f) ;;
     store8 (gedh + pdu_next_hdr) 0) ;;
  upd_xf (λ x, x <| tm; tun_type := LLB_TUN_GTP |> <| tm; tunnel_id := bpf_ntohl tid |>
                 <| pm; tun_off := sizeof_ethhdr + sizeof_iphdr + sizeof_udphdr |>
                 <| tm; tun_encap := 1 |>) ;;
  ret 0).

(** ** The deparser *)
Context (tail : Z → option (lfunc K Z)).

(** [dp_sunp_tcall]: the metadata is already the entry of [xfis]. *)
Definition dp_sunp_tcall {R} : pbody K R unit := bpf_tail_call tail LLB_DP_SUNP_PGM_ID2.

Definition RETURN_TO_MP_OUT {R} : pbody K R unit :=
  upd_xf (λ x, x <| pm; phit ::= λ h, Z.lor h LLB_DP_RES_HIT |>) ;;
  bpf_tail_call tail LLB_DP_CT_PGM_ID.

Definition is_v6 (x : xfi) : bool := dl_type (l2m x) =? bpf_ntohs ETH_P_IPV6.

Definition nxip4 (x : xfi) : Z := xa0 (nm_nxip (nm x)).

(** [if (f(...) != 0) return DP_DROP;] *)
Definition drop_if {R} (f : lbody K (Z + R) Z) (r : R) : pbody K R unit :=
  let! v := f in when (negb (v =? 0)) (return_p r).

Definition dp_unparse_packet_always_slow : pfunc K Z := run_p (
  let! x := gets xf in
  let nxport := nm_nxport (nm x) in
  (if has_flag (nf (pm x)) LLB_NAT_SRC then
     if is_v6 x then
       if negb (nm_nv6 (nm x) =? 0)
       then drop_if (call_p (dp_do_snat6 tail nxport)) DP_DROP
       else return_p DP_DROP
     else if nm_nv6 (nm x) =? 0
     then drop_if (call_p (dp_do_snat tail (nxip4 x) nxport)) DP_DROP
     else
       drop_if (call dp_do_snat46) DP_DROP ;;
       let! x := gets xf in
       when (has_flag (pipe_act (pm x)) (Z.lor LLB_PIPE_TRAP LLB_PIPE_PASS))
         (upd_xf (λ x, x <| pm; oport := iport (pm x) |>) ;;
          let! r := call dp_rewire_port in return_p r)
   else when (has_flag (nf (pm x)) LLB_NAT_DST)
     (if is_v6 x then
        if nm_nv6 (nm x) =? 1
        then drop_if (call_p (dp_do_dnat6 tail nxport)) DP_DROP
        else drop_if (call dp_do_dnat64) DP_DROP
      else if nm_nv6 (nm x) =? 0
      then drop_if (call_p (dp_do_dnat tail (nxip4 x) nxport)) DP_DROP
      else return_p DP_DROP)) ;;
  upd_xf (λ x, x <| pm; nf := 0 |>) ;;
  RETURN_TO_MP_OUT ;;
  ret DP_DROP).

Definition dp_unparse_packet_always : pfunc K Z := run_p (
  let! x := gets xf in
  let nxport := nm_nxport (nm x) in
  (if has_flag (nf (pm x)) LLB_NAT_SRC && (nm_dsr (nm x) =? 0) then
     if is_v6 x || negb (nm_nv6 (nm x) =? 0) then dp_sunp_tcall
     else drop_if (call_p (dp_do_snat tail (nxip4 x) nxport)) DP_DROP
   else when (has_flag (nf (pm x)) LLB_NAT_DST && (nm_dsr (nm x) =? 0))
     (if is_v6 x then dp_sunp_tcall
      else drop_if (call_p (dp_do_dnat tail (nxip4 x) nxport)) DP_DROP)) ;;
  let! x := gets xf in
  (if negb (tun_decap (tm x) =? 0) then
     when (tun_type (tm x) =? LLB_TUN_GTP)
       (drop_if (call (dp_do_strip_gtp (tun_off (pm x)))) DP_DROP)
   else when (negb (new_tunnel_id (tm x) =? 0))
     (when (tun_type (tm x) =? LLB_TUN_GTP)
        (drop_if (call (dp_do_ins_gtp (tun_rip (tm x)) (tun_sip (tm x))
                          (new_tunnel_id (tm x)) (qfi (qm x)))) DP_DROP))) ;;
  ret 0).

Definition dp_unparse_packet : lfunc K Z := run (
  let! x := gets xf in
  let or_shot (f : lfunc K Z) := let! v := call f in when (negb (v =? 0)) (return_ DP_DROP) in
  (if negb (tun_decap (tm x) =? 0) then
     if tun_type (tm x) =? LLB_TUN_VXLAN then or_shot (dp_do_strip_vxlan (tun_off (pm x)))
     else when (tun_type (tm x) =? LLB_TUN_IPIP) (or_shot dp_do_strip_ipip)
   else when (negb (new_tunnel_id (tm x) =? 0))
     (let ins f := or_shot (f (tun_rip (tm x)) (tun_sip (tm x)) (new_tunnel_id (tm x))) in
      if tun_type (tm x) =? LLB_TUN_VXLAN then ins dp_do_ins_vxlan
      else when (tun_type (tm x) =? LLB_TUN_IPIP) (ins dp_do_ins_ipip))) ;;
  call dp_do_out_vlan).
End rewrite.
