(* ===== verification/LoxiNatSpec.v ===== *)
(** * loxilb: what address translation does to a packet

    [dp_do_dnat] and [dp_do_snat] on TCP and UDP packets over IPv4: the
    translated packet differs from the original in the addresses, the ports
    and the checksums only, and the checksums stay valid. *)
From S2P Require Import Prelude Records Words Consts Structs Csum LoxiDefs LoxiTables LoxiState LoxiSkb.
From S2P Require Import LoxiRef LoxiCt LoxiParse LoxiParseSpec LoxiNatRw.
Open Scope c_scope.

(** ** The translated part of a packet

    Addresses, ports and checksums of a packet; [with_tup f t] is the packet
    [f] with those of [t]. *)
Record tuple : Type := Tuple {
  t_saddr : Z; t_daddr : Z; t_sport : Z; t_dport : Z; t_ipcheck : Z; t_l4check : Z }.
#[export] Instance eta_tuple : Eta tuple := λ t,
  Tuple (t_saddr t) (t_daddr t) (t_sport t) (t_dport t) (t_ipcheck t) (t_l4check t).

Definition with_tup (f : frame) (t : tuple) : frame :=
  let l3 := match f_l3 f with
            | V4 tos id frag ttl check saddr daddr opts =>
                V4 tos id frag ttl (t_ipcheck t) (t_saddr t) (t_daddr t) opts
            | h => h
            end in
  let l4 := match f_l4 f with
            | Tcp sport dport seq ack doff flags rest =>
                Tcp (t_sport t) (t_dport t) seq ack doff flags
                  (take 2 rest ++ le_bytes 2 (t_l4check t) ++ drop 4 rest)
            | Udp sport dport len check => Udp (t_sport t) (t_dport t) len (t_l4check t)
            end in
  f <| f_l3 := l3 |> <| f_l4 := l4 |>.

Definition tuple_of (f : frame) : tuple :=
  let '(c, sa, da) := match f_l3 f with
                      | V4 _ _ _ _ check saddr daddr _ => (u16 check, saddr, daddr)
                      | V6 _ _ _ _ _ _ => (0, 0, 0)
                      end in
  match f_l4 f with
  | Tcp sport dport _ _ _ _ rest => Tuple sa da sport dport c (le_val (slice 2 2 rest))
  | Udp sport dport _ check => Tuple sa da sport dport c (u16 check)
  end.

Definition is_v4 (f : frame) : bool :=
  match f_l3 f with V4 _ _ _ _ _ _ _ _ => true | _ => false end.

(** The metadata [x] of the packet [f] behind the parser. *)
Definition parsed (f : frame) (x : xfi) : Prop :=
  l3_off (pm x) = 14 ∧ l4_off (pm x) = 14 + l3_len_of (f_l3 f) ∧
  nw_proto (l34m x) = l4_proto (f_l4 f) ∧
  saddr4 x = t_saddr (tuple_of f) ∧ daddr4 x = t_daddr (tuple_of f) ∧
  m_source (l34m x) = t_sport (tuple_of f) ∧ m_dest (l34m x) = t_dport (tuple_of f).

(** ** Checksums *)

(** The sums a checksum and the fields it covers contribute, for IPv4 and TCP. *)
Definition ip_sum (t : tuple) : Z := t_ipcheck t + t_saddr t + t_daddr t.
Definition tcp_sum (t : tuple) : Z :=
  t_l4check t + t_saddr t + t_daddr t + t_sport t + t_dport t.

(** The header checksum is valid; the transport checksum is: the sum over the
    pseudo-header and the segment, or no checksum in the case of UDP. *)
Definition ip_csum_ok (f : frame) : Prop :=
  csum_ok (concat (l3_fields (f_l3 f) (l4_proto (f_l4 f)) (Z.of_nat (length (l4_bytes f))))).
Definition pseudo_hdr (f : frame) : list Z :=
  let t := tuple_of f in
  le_bytes 4 (t_saddr t) ++ le_bytes 4 (t_daddr t) ++ [0; l4_proto (f_l4 f)] ++
  be_bytes 2 (Z.of_nat (length (l4_bytes f))).
Definition l4_csum_ok (f : frame) : Prop :=
  (is_udp (f_l4 f) = true ∧ t_l4check (tuple_of f) = 0) ∨
  csum_ok (pseudo_hdr f ++ l4_bytes f).

(** ** The packet as a list of fields *)
Definition l4_nat_fields (h : l4_hdr) (t : tuple) : list (list Z) :=
  match h with
  | Tcp _ _ seq ack doff flags rest =>
      [le_bytes 2 (t_sport t); le_bytes 2 (t_dport t); le_bytes 4 seq; le_bytes 4 ack;
       le_bytes 1 doff; le_bytes 1 flags; take 2 rest; le_bytes 2 (t_l4check t); drop 4 rest]
  | Udp _ _ len _ =>
      [le_bytes 2 (t_sport t); le_bytes 2 (t_dport t); be_bytes 2 len;
       le_bytes 2 (t_l4check t)]
  end.
Definition nat_fields (f : frame) (t : tuple) : list (list Z) :=
  match f_l3 f with
  | V4 tos id frag ttl _ _ _ opts =>
      let ihl := 5 + Z.of_nat (length opts) / 4 in
      [f_dst f; f_src f; le_bytes 2 (ethertype (f_l3 f)); le_bytes 1 (64 + ihl); le_bytes 1 tos;
       be_bytes 2 (4 * ihl + Z.of_nat (length (l4_bytes f)));
       le_bytes 2 id; le_bytes 2 frag; le_bytes 1 ttl; le_bytes 1 (l4_proto (f_l4 f));
       le_bytes 2 (t_ipcheck t); le_bytes 4 (t_saddr t); le_bytes 4 (t_daddr t); opts] ++
      l4_nat_fields (f_l4 f) t
  | V6 _ _ _ _ _ _ => []
  end.

#[local] Arguments le_bytes : simpl never.

Lemma length_6 {A} (l : list A) :
  length l = 6%nat → ∃ a b c d e g, l = [a; b; c; d; e; g].
Proof. do 6 (destruct l as [|? l]; [done|]). destruct l; [|done]. eauto 10. Qed.

Section fields.
Context (f : frame) (Hok : frame_ok f = true) (Hv4 : is_v4 f = true).

Lemma tcp_rest sport dport seq ack doff flags rest :
  f_l4 f = Tcp sport dport seq ack doff flags rest → length rest = 6%nat.
Proof.
  intros E. apply andb_prop in Hok as [_ H4]. rewrite E in H4.
  apply bool_decide_eq_true in H4. tauto.
Qed.

Lemma l4_bytes_with t :
  l4_bytes (with_tup f t) = concat (l4_nat_fields (f_l4 f) t) ++ f_data f.
Proof.
  unfold l4_bytes, with_tup. simpl. f_equal. destruct (f_l4 f); simpl; [|done].
  rewrite <-!app_assoc. by rewrite ?app_nil_r, <-?app_assoc.
Qed.

Lemma length_l4_bytes_with t : length (l4_bytes (with_tup f t)) = length (l4_bytes f).
Proof.
  rewrite l4_bytes_with. unfold l4_bytes. rewrite !length_app. f_equal.
  pose proof tcp_rest as Hr. destruct (f_l4 f) as [??????? |????]; simpl; [|done].
  specialize (Hr _ _ _ _ _ _ _ eq_refl). by destruct (length_6 rest Hr) as (?&?&?&?&?&?&->).
Qed.

Lemma encode_with t pad :
  encode (with_tup f t) ++ pad = concat (nat_fields f t) ++ f_data f ++ pad.
Proof.
  pose proof Hv4 as Hv. unfold is_v4 in Hv. unfold encode, l3_bytes.
  rewrite length_l4_bytes_with, l4_bytes_with. unfold nat_fields.
  assert (l4_proto (f_l4 (with_tup f t)) = l4_proto (f_l4 f)) as ->
    by (simpl; by destruct (f_l4 f)).
  change (f_dst (with_tup f t)) with (f_dst f). change (f_src (with_tup f t)) with (f_src f).
  change (f_l3 (with_tup f t)) with
    (match f_l3 f with
     | V4 tos id frag ttl _ _ _ opts =>
         V4 tos id frag ttl (t_ipcheck t) (t_saddr t) (t_daddr t) opts
     | h => h end).
  destruct (f_l3 f) as [tos id frag ttl ? ? ? opts|]; [|done].
  rewrite concat_app, <-!app_assoc. cbn [concat eth_fields l3_fields].
  rewrite <-!app_assoc. by rewrite ?app_nil_r, <-?app_assoc.
Qed.

Lemma l4_tuple_bytes :
  bytes_ok (l4_bytes f) → l4_bytes (with_tup f (tuple_of f)) = l4_bytes f.
Proof.
  intros Hb. rewrite l4_bytes_with. unfold tuple_of, l4_bytes in *. f_equal.
  apply Forall_app in Hb as [Hb _]. pose proof Hv4 as Hv. unfold is_v4 in Hv.
  pose proof tcp_rest as Hr.
  destruct (f_l3 f) as [????????|]; [|done].
  destruct (f_l4 f) as [??????? |????]; cbn [l4_nat_fields t_sport t_dport t_l4check].
  - specialize (Hr _ _ _ _ _ _ _ eq_refl).
    cbn [l4_fields concat] in Hb. do 6 apply Forall_app in Hb as [_ Hb].
    apply Forall_app in Hb as [Hb _].
    assert (le_bytes 2 (le_val (slice 2 2 rest)) = slice 2 2 rest) as ->.
    { rewrite <-(length_slice 2 2 rest) at 1 by lia. by apply le_bytes_val, slice_ok. }
    cbn [l4_fields concat]. do 6 f_equal. rewrite !app_nil_r. symmetry. apply region_split. lia.
  - cbn [l4_fields concat]. do 3 f_equal. f_equal. symmetry. apply (le_bytes_mod 2).
Qed.

Lemma encode_tuple : bytes_ok (encode f) → encode (with_tup f (tuple_of f)) = encode f.
Proof.
  intros Hb. unfold encode, l3_bytes in *. rewrite length_l4_bytes_with.
  apply Forall_app in Hb as [_ Hb]. apply Forall_app in Hb as [_ Hb].
  rewrite l4_tuple_bytes by done.
  assert (l4_proto (f_l4 (with_tup f (tuple_of f))) = l4_proto (f_l4 f)) as ->
    by (simpl; by destruct (f_l4 f)).
  pose proof Hv4 as Hv. unfold is_v4 in Hv.
  change (f_l3 (with_tup f (tuple_of f))) with
    (match f_l3 f with
     | V4 tos id frag ttl _ _ _ opts =>
         V4 tos id frag ttl (t_ipcheck (tuple_of f)) (t_saddr (tuple_of f))
           (t_daddr (tuple_of f)) opts
     | h => h end).
  unfold tuple_of. destruct (f_l3 f) as [tos id frag ttl check ? ? opts|]; [|done].
  f_equal. f_equal. destruct (f_l4 f); cbn [l3_fields concat t_ipcheck t_saddr t_daddr];
    do 7 f_equal; f_equal; symmetry; apply (le_bytes_mod 2).
Qed.
End fields.

(** ** Helpers on a packet given by its fields *)
Section steps.
Context {K : Type} `{SkbEnvLaws K} `{!SkbReady K}.
Implicit Types (fs : list (list Z)) (s : lstate K).

(** The packet, kernel state and metadata of [s] replaced. *)
Definition at_pkt (s : lstate K) (m : list Z) (κ : K) (x : xfi) : lstate K :=
  s <| lpkt := m |> <| lkern := κ |> <| xf := x |>.

Lemma wp_skb_store {R} fs post i old new off κ x s (QR : R → lstate K → Prop) QN :
  fs !! i = Some old → length new = length old →
  off = Z.of_nat (length (concat (take i fs))) →
  (∀ κ, QN true (at_pkt s (concat (<[i := new]> fs) ++ post) κ x)) →
  wpb (bpf_skb_store_bytes off new) QR QN (at_pkt s (concat fs ++ post) κ x).
Proof.
  intros Hi Hl -> HQ. pose proof (length_field fs i old Hi) as Hf.
  unfold bpf_skb_store_bytes, skb_op, wpb. cbn [lpkt lkern at_pkt].
  set (off := Z.of_nat _). set (m := concat fs ++ post).
  change (lpkt (at_pkt s m κ x)) with m. change (lkern (at_pkt s m κ x)) with κ.
  assert (off + Z.of_nat (length new) ≤ Z.of_nat (length m)) as Hb
    by (unfold off, m; rewrite length_app; lia).
  destruct (sk_store_ready off new m κ) as [m' Hm]; [lia|done|].
  destruct (sk_store_bytes off new m κ) as [o κ'] eqn:E. simpl in Hm. subst o.
  apply sk_store_spec in E; [|lia|done]. subst m'. unfold off, m. rewrite Nat2Z.id.
  pose proof (splice_field [] fs post i old new Hi Hl) as Hs. simpl in Hs. rewrite Hs.
  exact (HQ κ').
Qed.

(** The checksum helpers, on the field [i] that holds the checksum [c]. *)
Lemma wp_skb_csum {R} (l4 : bool) fs post i c from to flags off κ x s
    (QR : R → lstate K → Prop) QN :
  fs !! i = Some (le_bytes 2 c) → off = Z.of_nat (length (concat (take i fs))) →
  Z.even off = true →
  (∀ κ c', 0 ≤ c' < 2 ^ 16 → c' ≅ u16 c + from - to →
     QN true (at_pkt s (concat (<[i := le_bytes 2 c']> fs) ++ post) κ x)) →
  wpb (if l4 then bpf_l4_csum_replace off from to flags
       else bpf_l3_csum_replace off from to flags) QR QN
    (at_pkt s (concat fs ++ post) κ x).
Proof.
  intros Hi Hoff Hev HQ. pose proof (length_field fs i _ Hi) as Hf.
  rewrite length_le_bytes in Hf. set (m := concat fs ++ post).
  assert (0 ≤ off ∧ off + 2 ≤ Z.of_nat (length m)) as [Hp Hb]
    by (unfold m; rewrite length_app; lia).
  assert (slice (Z.to_nat off) 2 m = le_bytes 2 c) as Hs.
  { rewrite Hoff, Nat2Z.id. unfold m. pose proof (slice_field [] fs post i _ Hi) as Hs.
    by rewrite length_le_bytes in Hs. }
  assert (∀ c', splice (Z.to_nat off) (le_bytes 2 c') m =
                concat (<[i := le_bytes 2 c']> fs) ++ post) as Hsp.
  { intros c'. rewrite Hoff, Nat2Z.id. apply (splice_field [] fs post i _ (le_bytes 2 c') Hi).
    by rewrite !length_le_bytes. }
  destruct l4; unfold bpf_l4_csum_replace, bpf_l3_csum_replace, skb_op, wpb;
    change (lpkt (at_pkt s m κ x)) with m; change (lkern (at_pkt s m κ x)) with κ.
  - destruct (sk_l4_csum_ready off from to flags m κ) as [m' Hm]; [done..|].
    destruct (sk_l4_csum_replace off from to flags m κ) as [o κ'] eqn:E. simpl in Hm. subst o.
    apply sk_l4_csum_spec in E as (c' & -> & Hr & Hc); [|done..].
    rewrite Hs, le_val_bytes in Hc. rewrite Hsp. exact (HQ κ' c' Hr Hc).
  - destruct (sk_l3_csum_ready off from to flags m κ) as [m' Hm]; [done..|].
    destruct (sk_l3_csum_replace off from to flags m κ) as [o κ'] eqn:E. simpl in Hm. subst o.
    apply sk_l3_csum_spec in E as (c' & -> & Hr & Hc); [|done..].
    rewrite Hs, le_val_bytes in Hc. rewrite Hsp. exact (HQ κ' c' Hr Hc).
Qed.

(** ** The setters *)
Section setters.
Context (f : frame) (Hok : frame_ok f = true) (Hv4 : is_v4 f = true) (pad : list Z).
Context (s : lstate K).

(** The state in which the packet [f] has been given the addresses, ports and
    checksums [t], and the metadata [x] agrees. *)
Definition nat_at (t : tuple) (κ : K) (x : xfi) : lstate K :=
  at_pkt s (encode (with_tup f t) ++ pad) κ x.
Definition agrees (t : tuple) (x : xfi) : Prop :=
  l3_off (pm x) = 14 ∧ l4_off (pm x) = 14 + l3_len_of (f_l3 f) ∧
  saddr4 x = t_saddr t ∧ daddr4 x = t_daddr t ∧
  m_source (l34m x) = t_sport t ∧ m_dest (l34m x) = t_dport t.

(** The rewritten fields: index in [nat_fields], offset, width, contents. *)
Inductive slot : Type := IpCheck | Saddr | Daddr | Sport | Dport | L4Check.
Definition slot_idx (c : slot) : nat :=
  match c with
  | IpCheck => 10 | Saddr => 11 | Daddr => 12 | Sport => 14 | Dport => 15
  | L4Check => if is_udp (f_l4 f) then 17 else 21
  end.
Definition slot_off (c : slot) : Z :=
  let l4 := 14 + l3_len_of (f_l3 f) in
  match c with
  | IpCheck => 14 + ip_check | Saddr => 14 + ip_saddr | Daddr => 14 + ip_daddr
  | Sport => l4 + tcp_source | Dport => l4 + tcp_dest
  | L4Check => l4 + if is_udp (f_l4 f) then udp_check else tcp_check
  end.
Definition slot_width (c : slot) : nat := match c with Saddr | Daddr => 4 | _ => 2 end.
Definition slot_get (c : slot) : tuple → Z :=
  match c with
  | IpCheck => t_ipcheck | Saddr => t_saddr | Daddr => t_daddr
  | Sport => t_sport | Dport => t_dport | L4Check => t_l4check
  end.
Definition slot_set (c : slot) (v : Z) (t : tuple) : tuple :=
  match c with
  | IpCheck => t <| t_ipcheck := v |> | Saddr => t <| t_saddr := v |>
  | Daddr => t <| t_daddr := v |> | Sport => t <| t_sport := v |>
  | Dport => t <| t_dport := v |> | L4Check => t <| t_l4check := v |>
  end.

Lemma nat_at_fields t κ x :
  nat_at t κ x = at_pkt s (concat (nat_fields f t) ++ f_data f ++ pad) κ x.
Proof. unfold nat_at. by rewrite encode_with. Qed.

Ltac v4_cases :=
  pose proof Hv4 as Hv; unfold is_v4 in Hv; unfold nat_fields, slot_off, slot_idx;
  destruct (f_l3 f) as [????????|]; [|done]; clear Hv;
  destruct (f_l4 f) eqn:El4.

Lemma slot_lookup c t :
  nat_fields f t !! slot_idx c = Some (le_bytes (slot_width c) (slot_get c t)).
Proof. v4_cases; by destruct c. Qed.

Lemma slot_insert c t v :
  <[slot_idx c := le_bytes (slot_width c) v]> (nat_fields f t) = nat_fields f (slot_set c v t).
Proof. v4_cases; by destruct c. Qed.

Lemma slot_offset c t :
  slot_off c = Z.of_nat (length (concat (take (slot_idx c) (nat_fields f t)))).
Proof.
  pose proof (frame_ok_inv f Hok) as (Hd & Hs & _). pose proof (tcp_rest f Hok) as Hr.
  v4_cases; destruct c; cbn [slot_idx is_udp];
    cbv [ip_check ip_saddr ip_daddr tcp_source tcp_dest udp_check tcp_check];
    cbn [take concat app l4_nat_fields];
    rewrite ?length_app, ?length_le_bytes, ?length_be_bytes, ?Hd, ?Hs;
    try specialize (Hr _ _ _ _ _ _ _ eq_refl); rewrite ?length_take, ?Hr;
    cbn [length l3_len_of]; lia.
Qed.

Lemma length_nat_fields t :
  Z.of_nat (length (concat (nat_fields f t))) =
    14 + l3_len_of (f_l3 f) + if is_udp (f_l4 f) then sizeof_udphdr else sizeof_tcphdr.
Proof.
  pose proof (frame_ok_inv f Hok) as (Hd & Hs & _). pose proof (tcp_rest f Hok) as Hr.
  v4_cases; cbn [concat app l4_nat_fields is_udp];
    rewrite ?length_app, ?length_le_bytes, ?length_be_bytes, ?Hd, ?Hs;
    try specialize (Hr _ _ _ _ _ _ _ eq_refl); rewrite ?length_take, ?length_drop, ?Hr;
    cbv [sizeof_udphdr sizeof_tcphdr]; cbn [length l3_len_of]; lia.
Qed.

Lemma check_off_even c : c = IpCheck ∨ c = L4Check → Z.even (slot_off c) = true.
Proof.
  pose proof (frame_ok_inv f Hok) as (_ & _ & _ & Hl3 & _).
  intros [->| ->]; unfold slot_off; [done|]. pose proof Hv4 as Hv. unfold is_v4 in Hv.
  destruct (f_l3 f); [|done]. apply bool_decide_eq_true in Hl3 as (_ & _ & _ & Hm & _).
  cbn [l3_len_of]. apply Z.mod_divide in Hm as [k ->]; [|done]. apply Z.even_spec.
  destruct (is_udp (f_l4 f)); [exists (20 + 2 * k)|exists (25 + 2 * k)];
    cbv [udp_check tcp_check]; lia.
Qed.

Lemma wp_store_slot {R} c v t κ x (QR : R → lstate K → Prop) QN :
  (∀ κ, QN true (nat_at (slot_set c v t) κ x)) →
  wpb (bpf_skb_store_bytes (slot_off c) (le_bytes (slot_width c) v)) QR QN (nat_at t κ x).
Proof.
  intros HQ. rewrite nat_at_fields.
  eapply wp_skb_store; [apply slot_lookup|by rewrite !length_le_bytes|apply slot_offset|].
  intros κ'. rewrite slot_insert, <-nat_at_fields. apply HQ.
Qed.

Lemma wp_csum_slot {R} l4 from to flags t κ x (QR : R → lstate K → Prop) QN :
  let c := if l4 : bool then L4Check else IpCheck in
  (∀ κ v, 0 ≤ v < 2 ^ 16 → v ≅ u16 (slot_get c t) + from - to →
     QN true (nat_at (slot_set c v t) κ x)) →
  wpb (if l4 then bpf_l4_csum_replace (slot_off c) from to flags
       else bpf_l3_csum_replace (slot_off c) from to flags) QR QN (nat_at t κ x).
Proof.
  intros c HQ. rewrite nat_at_fields.
  assert (slot_width c = 2%nat) as Hw by (by destruct l4).
  pose proof (slot_lookup c t) as Hi. rewrite Hw in Hi.
  eapply wp_skb_csum; [exact Hi|apply slot_offset|
    apply check_off_even; destruct l4; auto|].
  intros κ' c' Hr Hc. pose proof (slot_insert c t c') as Hs. rewrite Hw in Hs.
  rewrite Hs, <-nat_at_fields. by apply HQ.
Qed.

(** Both checksum fields hold 16-bit values, and account for a change. *)
Definition checks_ok (t : tuple) : Prop :=
  0 ≤ t_ipcheck t < 2 ^ 16 ∧ 0 ≤ t_l4check t < 2 ^ 16.
Definition sums_kept (t t' : tuple) : Prop :=
  ip_sum t' ≅ ip_sum t ∧
  if is_udp (f_l4 f) then t_l4check t' = 0 else tcp_sum t' ≅ tcp_sum t.

Definition md_set (c : slot) (v : Z) : xfi → xfi :=
  match c with
  | Saddr => set_saddr4 v | Daddr => set_daddr4 v
  | Sport => λ x, x <| l34m; m_source := v |> | Dport => λ x, x <| l34m; m_dest := v |>
  | _ => id
  end.
Definition setter (c : slot) (v : Z) : lfunc K unit :=
  match c with
  | Saddr => if is_udp (f_l4 f) then dp_set_udp_src_ip v else dp_set_tcp_src_ip v
  | Daddr => if is_udp (f_l4 f) then dp_set_udp_dst_ip v else dp_set_tcp_dst_ip v
  | Sport => if is_udp (f_l4 f) then dp_set_udp_sport v else dp_set_tcp_sport v
  | Dport => if is_udp (f_l4 f) then dp_set_udp_dport v else dp_set_tcp_dport v
  | _ => λ s, Some (tt, s)
  end.
Definition is_check (c : slot) : bool := match c with IpCheck | L4Check => true | _ => false end.

Lemma wp_l3_csum {R} from to t κ x (QR : R → lstate K → Prop) QN :
  agrees t x →
  (∀ κ v, 0 ≤ v < 2 ^ 16 → v ≅ u16 (t_ipcheck t) + from - to →
     QN tt (nat_at (t <| t_ipcheck := v |>) κ x)) →
  wpb (l3_csum ip_check from to) QR QN (nat_at t κ x).
Proof.
  intros (E & _) HQ. apply wp_bind, wp_gets, wp_bind. change (xf (nat_at t κ x)) with x.
  rewrite E. apply (wp_csum_slot false). exact HQ.
Qed.

Lemma wp_l4_csum {R} from to flags t κ x (QR : R → lstate K → Prop) QN :
  agrees t x → is_udp (f_l4 f) = false →
  (∀ κ v, 0 ≤ v < 2 ^ 16 → v ≅ u16 (t_l4check t) + from - to →
     QN tt (nat_at (t <| t_l4check := v |>) κ x)) →
  wpb (l4_csum tcp_check from to flags) QR QN (nat_at t κ x).
Proof.
  intros (_ & E & _) Hu HQ. apply wp_bind, wp_gets, wp_bind. change (xf (nat_at t κ x)) with x.
  rewrite E. pose proof (wp_csum_slot (R := R) true) as Hc. unfold slot_off in Hc.
  rewrite Hu in Hc. apply Hc. exact HQ.
Qed.

Lemma wp_store_l3 {R} (src : bool) v t κ x (QR : R → lstate K → Prop) QN :
  agrees t x →
  (∀ κ, QN tt (nat_at (slot_set (if src then Saddr else Daddr) v t) κ x)) →
  wpb (store_l3 (if src then ip_saddr else ip_daddr) (le_bytes 4 v)) QR QN (nat_at t κ x).
Proof.
  intros (E & _) HQ. apply wp_bind, wp_gets, wp_bind. change (xf (nat_at t κ x)) with x.
  rewrite E. destruct src; [apply (wp_store_slot Saddr)|apply (wp_store_slot Daddr)]; exact HQ.
Qed.

Lemma wp_store_l4 {R} c off v t κ x (QR : R → lstate K → Prop) QN :
  agrees t x → slot_off c = 14 + l3_len_of (f_l3 f) + off → slot_width c = 2%nat →
  (∀ κ, QN tt (nat_at (slot_set c v t) κ x)) →
  wpb (store_l4 off (le_bytes 2 v)) QR QN (nat_at t κ x).
Proof.
  intros (_ & E & _) Hoff Hw HQ. apply wp_bind, wp_gets, wp_bind.
  change (xf (nat_at t κ x)) with x.
  rewrite E, <-Hoff. rewrite <-Hw. apply wp_store_slot. exact HQ.
Qed.

Definition with_checks (t0 t : tuple) : tuple :=
  t <| t_ipcheck := t_ipcheck t0 |> <| t_l4check := t_l4check t0 |>.

Lemma agrees_check t t' x : agrees t x → t = with_checks t t' → agrees t' x.
Proof. destruct t, t'. intros Hx [=]. by subst. Qed.

(** The checksums account for the change. *)
Ltac sums :=
  repeat match goal with E : _ ≅ u16 _ + _ - _ |- _ =>
    cbn [update slot_set t_ipcheck t_l4check] in E; rewrite u16_id in E by done end;
  unfold sums_kept, ip_sum, tcp_sum; cbn [update slot_set t_ipcheck t_l4check t_saddr t_daddr t_sport t_dport];
  split; [|try done]; repeat match goal with E : _ ≅ _ |- _ => rewrite E; clear E end;
  apply eqm_eq; lia.

(** The steps the setters share, at the front of the goal. *)
Ltac udp_check0 :=
  match goal with Hu : is_udp _ = true |- _ =>
    apply wp_bind, (wp_store_l4 L4Check); [done|by unfold slot_off; rewrite Hu|done|] end;
  intros ?κ; cbn [slot_set].
Ltac tcp_update := apply wp_bind, wp_l4_csum; [done..|]; intros ?κ ?c ?Hc ?Ec.
Ltac ip_addr src :=
  apply wp_bind, wp_l3_csum; [done|]; intros ?κ ?c ?Hc ?Ec;
  apply wp_bind, (wp_store_l3 src); [done|]; intros ?κ; apply wp_modify.

Lemma wp_setter c v t κ x (Q : unit → lstate K → Prop) :
  is_check c = false → checks_ok t → agrees t x →
  (∀ κ t', sums_kept t t' → checks_ok t' → t' = with_checks t' (slot_set c v t) →
     Q tt (nat_at t' κ (md_set c v x))) →
  wpf (setter c v) Q (nat_at t κ x).
Proof.
  intros Hc [H3 H4] Hx HQ. unfold sums_kept in HQ. unfold setter.
  pose proof Hx as (_ & _ & Hsa & Hda & Hsp & Hdp).
  destruct (is_udp (f_l4 f)) eqn:Hu, c; try done; apply wp_run.
  - apply wp_bind, wp_gets. change (xf (nat_at t κ x)) with x. rewrite Hsa. udp_check0.
    ip_addr true. apply HQ; [sums|done|done].
  - apply wp_bind, wp_gets. change (xf (nat_at t κ x)) with x. rewrite Hda. udp_check0.
    ip_addr false. apply HQ; [sums|done|done].
  - udp_check0. apply wp_bind, (wp_store_l4 Sport); [done..|]. intros κ2.
    apply wp_modify, HQ; [sums|done|done].
  - udp_check0. apply wp_bind, (wp_store_l4 Dport); [done..|]. intros κ2.
    apply wp_modify, HQ; [sums|done|done].
  - apply wp_bind, wp_gets. change (xf (nat_at t κ x)) with x. rewrite Hsa. tcp_update.
    ip_addr true. apply HQ; [sums|done|done].
  - apply wp_bind, wp_gets. change (xf (nat_at t κ x)) with x. rewrite Hda. tcp_update.
    ip_addr false. apply HQ; [sums|done|done].
  - apply wp_bind, wp_gets. change (xf (nat_at t κ x)) with x. rewrite Hsp. tcp_update.
    apply wp_bind, (wp_store_l4 Sport); [done..|]. intros κ2.
    apply wp_modify, HQ; [sums|done|done].
  - apply wp_bind, wp_gets. change (xf (nat_at t κ x)) with x. rewrite Hdp. tcp_update.
    apply wp_bind, (wp_store_l4 Dport); [done..|]. intros κ2.
    apply wp_modify, HQ; [sums|done|done].
Qed.

(** ** Metadata *)

(** The metadata after the packet has been given [t]. *)
Definition with_a0 (v : Z) (a : xaddr) : xaddr := XAddr v (xa1 a) (xa2 a) (xa3 a).
Definition nat_l34 (t : tuple) (m : dp_l34_mdi) : dp_l34_mdi :=
  L34Mdi (tos m) (nw_proto m) (l34_valid m) (t_sport t) (t_dport t) (m_seq m) (m_ack m)
    (with_a0 (t_saddr t) (m_saddr m)) (with_a0 (t_daddr t) (m_daddr m)).
Definition nat_md (t : tuple) (x : xfi) : xfi :=
  Xfi (l2m x) (nat_l34 t (l34m x)) (il2m x) (il34m x) (tm x) (nm x) (km x) (qm x) (pm x).

Lemma nat_md_agrees t x : agrees t x → nat_md t x = x.
Proof.
  intros (_ & _ & H1 & H2 & H3 & H4). unfold saddr4, daddr4 in H1, H2.
  destruct x as [l2 l34 ? ? ? ? ? ? ?]. unfold nat_md, nat_l34. cbn [l34m] in *.
  rewrite <-H1, <-H2, <-H3, <-H4. by destruct l34 as [? ? ? ? ? ? ? [] []].
Qed.

Lemma nat_md_md t t' x : nat_md t' (nat_md t x) = nat_md t' x.
Proof. done. Qed.

Lemma md_set_nat_md c v t x :
  is_check c = false → md_set c v (nat_md t x) = nat_md (slot_set c v t) x.
Proof. by destruct c. Qed.

Context (x0 : xfi) (Hl3 : l3_off (pm x0) = 14) (Hl4 : l4_off (pm x0) = 14 + l3_len_of (f_l3 f)).
Definition tr_at (t : tuple) (κ : K) : lstate K := nat_at t κ (nat_md t x0).

Lemma tr_agrees t : agrees t (nat_md t x0).
Proof. done. Qed.

Lemma sums_kept_trans t1 t2 t3 : sums_kept t1 t2 → sums_kept t2 t3 → sums_kept t1 t3.
Proof.
  intros [E1 F1] [E2 F2]. split; [by rewrite E2|].
  destruct (is_udp (f_l4 f)); [done|by rewrite F2].
Qed.

Lemma wp_set c v t κ (Q : unit → lstate K → Prop) :
  is_check c = false → checks_ok t →
  (∀ κ t', sums_kept t t' → checks_ok t' → t' = with_checks t' (slot_set c v t) →
     Q tt (tr_at t' κ)) →
  wpf (setter c v) Q (tr_at t κ).
Proof.
  intros Hc Ht HQ. unfold tr_at. apply (wp_setter c v t κ); [exact Hc|exact Ht|apply tr_agrees|].
  intros κ' t' Hs Hk E. rewrite (md_set_nat_md c v t) by done.
  specialize (HQ κ' t' Hs Hk E). rewrite E in HQ |- *. exact HQ.
Qed.

(** ** The translations *)
Definition nat_addrs (snat : bool) (xip nrip : Z) (t : tuple) : Z * Z :=
  if xip =? 0 then (t_daddr t, t_saddr t)
  else if snat then (xip, if nrip =? 0 then t_daddr t else nrip)
  else (if nrip =? 0 then t_saddr t else nrip, xip).
Definition nat_ports (snat : bool) (xport : Z) (t : tuple) : Z * Z :=
  if snat then (xport, t_dport t) else (t_sport t, xport).
(** [t'] is [t] translated, up to the checksum fields. *)
Definition translated (snat : bool) (xip nrip xport : Z) (t t' : tuple) : Prop :=
  (t_saddr t', t_daddr t') = nat_addrs snat xip nrip t ∧
  (t_sport t', t_dport t') = nat_ports snat xport t.

Lemma with_checks_fields t t' : t' = with_checks t' t ↔
  t_saddr t' = t_saddr t ∧ t_daddr t' = t_daddr t ∧ t_sport t' = t_sport t ∧ t_dport t' = t_dport t.
Proof.
  destruct t, t'. unfold with_checks. cbn. split; [by intros [=]|].
  intros (-> & -> & -> & ->). done.
Qed.

(** Both addresses are set, in either order. *)
Lemma wp_set2 {R} c c' v v' t κ (QR : R → lstate K → Prop) QN :
  is_check c = false → is_check c' = false → checks_ok t →
  (∀ κ t', sums_kept t t' → checks_ok t' →
     t' = with_checks t' (slot_set c' v' (slot_set c v t)) → QN tt (tr_at t' κ)) →
  wpb (call (setter c v) ;; call (setter c' v')) QR QN (tr_at t κ).
Proof.
  intros Hc Hc' Ht HQ. apply wp_bind, wp_call, wp_set; [done..|]. intros κ1 t1 S1 C1 E1.
  apply wp_call, wp_set; [done..|]. intros κ2 t2 S2 C2 E2.
  apply HQ; [by eapply sums_kept_trans|done|].
  apply with_checks_fields. apply with_checks_fields in E1 as (?&?&?&?), E2 as (?&?&?&?).
  destruct c, c'; try done; cbn in *; split_and!; congruence.
Qed.

Lemma wp_set1 {R} c v t κ (QR : R → lstate K → Prop) QN :
  is_check c = false → checks_ok t →
  (∀ κ t', sums_kept t t' → checks_ok t' → t' = with_checks t' (slot_set c v t) →
     QN tt (tr_at t' κ)) →
  wpb (call (setter c v)) QR QN (tr_at t κ).
Proof. intros ???. by apply wp_call, wp_set. Qed.

Lemma wp_nat_addrs (snat : bool) xip t κ (QR : Z + Z → lstate K → Prop) QN :
  checks_ok t →
  (∀ κ t', sums_kept t t' → checks_ok t' →
     (t_saddr t', t_daddr t') = nat_addrs snat xip (xa0 (nm_nrip (nm x0))) t →
     t_sport t' = t_sport t → t_dport t' = t_dport t → QN tt (tr_at t' κ)) →
  wpb ((if snat then snat_addrs else dnat_addrs) (setter Saddr) (setter Daddr) xip)
    QR QN (tr_at t κ).
Proof.
  intros Ht HQ.
  assert (∀ κ t' u, sums_kept t t' → checks_ok t' → t' = with_checks t' u →
            (t_saddr u, t_daddr u) = nat_addrs snat xip (xa0 (nm_nrip (nm x0))) t →
            t_sport u = t_sport t → t_dport u = t_dport t → QN tt (tr_at t' κ)) as HQ'.
  { intros κ' t' u Hs Hk (E1 & E2 & E3 & E4)%with_checks_fields. rewrite <-E1, <-E2, <-E3, <-E4.
    by apply HQ. }
  clear HQ. unfold nat_addrs in HQ'. destruct snat; unfold snat_addrs, dnat_addrs;
    apply wp_bind, wp_gets; change (xf (tr_at t κ)) with (nat_md t x0);
    change (nm (nat_md t x0)) with (nm x0);
    change (daddr4 (nat_md t x0)) with (t_daddr t); change (saddr4 (nat_md t x0)) with (t_saddr t);
    (destruct (xip =? 0); [|destruct (xa0 (nm_nrip (nm x0)) =? 0)]).
  all: cbn [negb when].
  1,3,4,6: apply wp_set2; [done..|]; intros κ' t' Hs Hk E; by eapply HQ'.
  1: apply wp_bind, wp_set1; [done..|]; intros κ' t' Hs Hk E; apply wp_ret; by eapply HQ'.
  apply wp_bind, wp_ret, wp_set1; [done..|]; intros κ' t' Hs Hk E; by eapply HQ'.
Qed.

Lemma wp_need_l4 size (QR : Z + Z → lstate K → Prop) QN κ t :
  size = (if is_udp (f_l4 f) then sizeof_udphdr else sizeof_tcphdr) →
  QN tt (tr_at t κ) → wpb (need_l4 size) QR QN (tr_at t κ).
Proof.
  intros -> HQ. apply wp_bind, wp_gets, wp_bind, wp_past_end.
  change (l4_off (pm (xf (tr_at t κ)))) with (l4_off (pm x0)). rewrite Hl4.
  match goal with |- wpb (when ?c _) _ _ _ => replace c with false; [exact HQ|] end.
  symmetry. apply Z.ltb_ge. unfold pkt_len. cbn [get_pkt lstate_pkt_state].
  change (lpkt (tr_at t κ)) with (encode (with_tup f t) ++ pad).
  rewrite encode_with, length_app, Nat2Z.inj_add, length_nat_fields by done. lia.
Qed.

(** The translation by the code for TCP and UDP. *)
Lemma wp_nat (snat : bool) tail xip xport (Q : Z + Z → lstate K → Prop) :
  nw_proto (l34m x0) = l4_proto (f_l4 f) →
  ∀ t κ, checks_ok t →
  (∀ κ t', sums_kept t t' → checks_ok t' →
     translated snat xip (xa0 (nm_nrip (nm x0))) xport t t' → Q (inr 0) (tr_at t' κ)) →
  wpf ((if snat then dp_do_snat else dp_do_dnat) tail xip xport) Q (tr_at t κ).
Proof.
  intros Hp t κ Ht HQ.
  assert (∀ c, (if snat then c = Sport else c = Dport) →
     ∀ (QR : Z + Z → lstate K → Prop) κ t1, sums_kept t t1 → checks_ok t1 →
     (t_saddr t1, t_daddr t1) = nat_addrs snat xip (xa0 (nm_nrip (nm x0))) t →
     t_sport t1 = t_sport t → t_dport t1 = t_dport t →
     wpb (call (setter c xport)) QR (λ _, Q (inr 0)) (tr_at t1 κ)) as Hport.
  { intros c Ec QR κ1 t1 S1 C1 A1 P1 P2. apply wp_set1; [by destruct snat; subst c|done|].
    intros κ2 t2 S2 C2 (E1 & E2 & E3 & E4)%with_checks_fields.
    apply HQ; [by eapply sums_kept_trans|done|]. unfold translated, nat_ports. rewrite <-A1.
    destruct snat; subst c; cbn in E1, E2, E3, E4; split; congruence. }
  destruct snat; unfold dp_do_snat, dp_do_dnat; apply wp_run, wp_bind, wp_bind, wp_gets;
    change (nw_proto (l34m (xf (tr_at t κ)))) with (nw_proto (l34m x0)); rewrite Hp;
    pose proof wp_nat_addrs as Ha; pose proof wp_need_l4 as Hneed; unfold setter in Ha, Hport;
    destruct (f_l4 f) as [??????? |????]; cbn [is_udp] in *; cbn [l4_proto Z.eqb IPPROTO_TCP IPPROTO_UDP Pos.eqb].
  all: apply wp_bind, wp_bind, Hneed; [done|]; apply wp_bind.
  1,2: apply (Ha true); [done|]; intros κ1 t1 S1 C1 A1 P1 P2;
    exact (Hport Sport eq_refl _ κ1 t1 S1 C1 A1 P1 P2).
  all: apply (Ha false); [done|]; intros κ1 t1 S1 C1 A1 P1 P2;
    exact (Hport Dport eq_refl _ κ1 t1 S1 C1 A1 P1 P2).
Qed.
End setters.
End steps.

(** ** Validity of the checksums *)
Definition tuple_ok (t : tuple) : Prop :=
  0 ≤ t_saddr t < 2 ^ 32 ∧ 0 ≤ t_daddr t < 2 ^ 32 ∧
  0 ≤ t_sport t < 2 ^ 16 ∧ 0 ≤ t_dport t < 2 ^ 16 ∧
  0 ≤ t_ipcheck t < 2 ^ 16 ∧ 0 ≤ t_l4check t < 2 ^ 16.

Lemma sum16_le4 v : 0 ≤ v < 2 ^ 32 → sum16 (le_bytes 4 v) ≅ v.
Proof. intros Hv. unfold eqm. by rewrite sum16_le_bytes4, u32_id. Qed.

Lemma sum16_le2 v : 0 ≤ v < 2 ^ 16 → sum16 (le_bytes 2 v) = v.
Proof. intros Hv. by rewrite sum16_le_bytes2, u16_id. Qed.

Section checksums.
Context (f : frame) (Hok : frame_ok f = true) (Hv4 : is_v4 f = true).

Lemma tuple_of_with t : tuple_ok t → tuple_of (with_tup f t) = t.
Proof.
  intros (_ & _ & _ & _ & Hc & Hc4). pose proof (tcp_rest f Hok) as Hr.
  pose proof Hv4 as Hv. unfold is_v4 in Hv. unfold with_tup, tuple_of.
  destruct f as [dst src l3 l4 data]. cbn [f_l3 f_l4 update] in *.
  destruct l3; [|done]. destruct l4 as [??????? |????]; destruct t; cbn in Hc, Hc4 |- *;
    f_equal; try by apply u16_id.
  specialize (Hr _ _ _ _ _ _ _ eq_refl). destruct (length_6 rest Hr) as (?&?&?&?&?&?&->).
  cbn [take drop app]. match goal with |- le_val ?b = ?c => change b with (le_bytes 2 c) end.
  by apply le_val_le_bytes.
Qed.

Definition l3_hdr_bytes (f : frame) : list Z :=
  concat (l3_fields (f_l3 f) (l4_proto (f_l4 f)) (Z.of_nat (length (l4_bytes f)))).

(** The checksums as functions of the tuple. *)
Lemma ip_sum_with : ∃ c, ∀ t, tuple_ok t → sum16 (l3_hdr_bytes (with_tup f t)) ≅ c + ip_sum t.
Proof.
  pose proof Hv4 as Hv. unfold is_v4 in Hv. unfold l3_hdr_bytes.
  pose proof (length_l4_bytes_with f Hok) as Hl.
  assert (∀ t, l4_proto (f_l4 (with_tup f t)) = l4_proto (f_l4 f)) as Hp
    by (intros t; simpl; by destruct (f_l4 f)).
  unfold with_tup in *. cbn [f_l3 update eta_frame] in *.
  destruct (f_l3 f) as [tos id frag ttl ? ? ? opts|]; [|done].
  set (len := Z.of_nat (length (l4_bytes f))) in *. set (ihl := 5 + Z.of_nat (length opts) / 4).
  set (A := le_bytes 1 (64 + ihl) ++ le_bytes 1 tos ++ be_bytes 2 (4 * ihl + len) ++
    le_bytes 2 id ++ le_bytes 2 frag ++ le_bytes 1 ttl ++ le_bytes 1 (l4_proto (f_l4 f))).
  exists (sum16 A + sum16 opts). intros t (Hs & Hd & _ & _ & Hc & _). rewrite Hl, Hp.
  transitivity (sum16 (A ++ le_bytes 2 (t_ipcheck t) ++ le_bytes 4 (t_saddr t) ++
                       le_bytes 4 (t_daddr t) ++ opts)).
  { apply eqm_eq. f_equal. subst A. cbn [l3_fields concat]. rewrite <-!app_assoc.
    by rewrite app_nil_r. }
  rewrite !sum16_app by done. rewrite sum16_le2, !sum16_le4 by done.
  apply eqm_eq. unfold ip_sum. lia.
Qed.

Lemma tcp_sum_with : is_udp (f_l4 f) = false →
  ∃ c, ∀ t, tuple_ok t →
    sum16 (pseudo_hdr (with_tup f t) ++ l4_bytes (with_tup f t)) ≅ c + tcp_sum t.
Proof.
  intros Hu. pose proof (tcp_rest f Hok) as Hr.
  pose proof (length_l4_bytes_with f Hok) as Hl.
  destruct (f_l4 f) as [sport dport seq ack doff flags rest|] eqn:E4; [clear Hu|done].
  specialize (Hr _ _ _ _ _ _ _ eq_refl).
  set (P := [0; IPPROTO_TCP] ++ be_bytes 2 (Z.of_nat (length (l4_bytes f)))).
  set (B := le_bytes 4 seq ++ le_bytes 4 ack ++ le_bytes 1 doff ++ le_bytes 1 flags ++ take 2 rest).
  exists (sum16 P + sum16 B + sum16 (drop 4 rest ++ f_data f)). intros t Ht.
  transitivity (sum16 (le_bytes 4 (t_saddr t) ++ le_bytes 4 (t_daddr t) ++ P ++
    le_bytes 2 (t_sport t) ++ le_bytes 2 (t_dport t) ++ B ++ le_bytes 2 (t_l4check t) ++
    drop 4 rest ++ f_data f)).
  { apply eqm_eq. f_equal. unfold pseudo_hdr. rewrite tuple_of_with by done.
    rewrite Hl, l4_bytes_with, E4. unfold with_tup. cbn [f_l4 update eta_frame]. rewrite E4.
    cbn [l4_proto l4_nat_fields concat]. subst P B. by rewrite <-!app_assoc. }
  destruct Ht as (Hs & Hd & Hsp & Hdp & _ & Hc).
  assert (Nat.even (length B) = true) as HB.
  { subst B. destruct (length_6 rest Hr) as (?&?&?&?&?&?&->). done. }
  rewrite !sum16_app by done. rewrite !sum16_le2, !sum16_le4 by done.
  apply eqm_eq. unfold tcp_sum. lia.
Qed.

Lemma ip_csum_with t t' : tuple_ok t → tuple_ok t' → ip_sum t' ≅ ip_sum t →
  ip_csum_ok (with_tup f t) → ip_csum_ok (with_tup f t').
Proof.
  intros Ht Ht' E H. destruct ip_sum_with as [c Hc]. unfold ip_csum_ok, csum_ok in *.
  fold (l3_hdr_bytes (with_tup f t)) in H. fold (l3_hdr_bytes (with_tup f t')).
  rewrite Hc in * by done. by rewrite E.
Qed.

Lemma l4_csum_with t t' : tuple_ok t → tuple_ok t' →
  (if is_udp (f_l4 f) then t_l4check t' = 0 else tcp_sum t' ≅ tcp_sum t) →
  l4_csum_ok (with_tup f t) → l4_csum_ok (with_tup f t').
Proof.
  intros Ht Ht' E H.
  assert (∀ t, is_udp (f_l4 (with_tup f t)) = is_udp (f_l4 f)) as Hu
    by (intros u; unfold with_tup; simpl; by destruct (f_l4 f)).
  unfold l4_csum_ok in *. rewrite Hu, tuple_of_with in H |- * by done.
  destruct (is_udp (f_l4 f)) eqn:Hudp; [by left|right]. destruct H as [[? ?]|H]; [done|].
  destruct (tcp_sum_with Hudp) as [c Hc]. unfold csum_ok in *. rewrite Hc in * by done.
  by rewrite E.
Qed.

Lemma frame_ok_with t : tuple_ok t → frame_ok (with_tup f t) = true.
Proof.
  intros (Hs & Hd & Hsp & Hdp & _ & Hc). pose proof Hok as H. unfold frame_ok in H |- *.
  rewrite length_l4_bytes_with by done. pose proof (tcp_rest f Hok) as Hr.
  pose proof Hv4 as Hv. unfold is_v4 in Hv. unfold with_tup.
  destruct f as [dst src l3 l4 data]. cbn [f_l3 f_l4 f_dst f_src update eta_frame] in *.
  destruct l3; [|done]. apply andb_prop in H as [[H1 H3]%andb_prop H4].
  rewrite !andb_true_iff. split_and!; [exact H1| |].
  - unfold l3_ok in *. apply bool_decide_eq_true in H3. apply bool_decide_eq_true. tauto.
  - destruct l4 as [??????? |????]; unfold l4_ok in *; apply bool_decide_eq_true in H4;
      apply bool_decide_eq_true; [|tauto].
    specialize (Hr _ _ _ _ _ _ _ eq_refl). destruct (length_6 rest Hr) as (?&?&?&?&?&?&->). tauto.
Qed.

Lemma tuple_of_ok : bytes_ok (encode f) → tuple_ok (tuple_of f).
Proof.
  intros Hb. pose proof (tcp_rest f Hok) as Hr. pose proof (frame_ok_inv f Hok) as (_ & _ & _ & H3 & H4).
  pose proof Hv4 as Hv. unfold is_v4 in Hv. unfold encode, l3_bytes, l4_bytes, tuple_of in *.
  apply Forall_app in Hb as [_ [_ [Hb _]%Forall_app]%Forall_app].
  destruct (f_l3 f); [|done]. apply bool_decide_eq_true in H3 as (_ & Hs & Hd & _).
  destruct (f_l4 f) as [??????? |????]; apply bool_decide_eq_true in H4;
    unfold tuple_ok; cbn; split_and!; try tauto; try apply u16_range.
  all: specialize (Hr _ _ _ _ _ _ _ eq_refl); do 6 apply Forall_app in Hb as [_ Hb];
    apply Forall_app in Hb as [Hb _]; pose proof (le_val_range _ (slice_ok 2 2 _ Hb)) as Hc;
    rewrite length_slice in Hc by lia; apply Hc.
Qed.

(** The packet with its own tuple. *)
Lemma csums_tuple_of : bytes_ok (encode f) →
  (ip_csum_ok f ↔ ip_csum_ok (with_tup f (tuple_of f))) ∧
  (l4_csum_ok f ↔ l4_csum_ok (with_tup f (tuple_of f))).
Proof.
  intros Hb. pose proof (encode_tuple f Hok Hv4 Hb) as He.
  pose proof (tuple_of_with _ (tuple_of_ok Hb)) as Ht.
  assert (l4_bytes (with_tup f (tuple_of f)) = l4_bytes f) as Hl4.
  { apply (l4_tuple_bytes f Hok Hv4). unfold encode, l3_bytes in Hb.
    by apply Forall_app in Hb as [_ [_ ?]%Forall_app]. }
  assert (l4_proto (f_l4 (with_tup f (tuple_of f))) = l4_proto (f_l4 f)) as Hp
    by (simpl; by destruct (f_l4 f)).
  split.
  - unfold ip_csum_ok. fold (l3_hdr_bytes f) (l3_hdr_bytes (with_tup f (tuple_of f))).
    replace (l3_hdr_bytes (with_tup f (tuple_of f))) with (l3_hdr_bytes f); [done|].
    unfold encode, l3_bytes in He. rewrite Hl4 in He. rewrite !app_assoc in He.
    apply app_inv_tail in He. unfold l3_hdr_bytes. rewrite Hl4.
    change (f_dst (with_tup f (tuple_of f))) with (f_dst f) in He.
    change (f_src (with_tup f (tuple_of f))) with (f_src f) in He.
    assert (ethertype (f_l3 (with_tup f (tuple_of f))) = ethertype (f_l3 f)) as Hy
      by (simpl; by destruct (f_l3 f)).
    rewrite Hy in He. by apply app_inv_head in He.
  - assert (is_udp (f_l4 (with_tup f (tuple_of f))) = is_udp (f_l4 f)) as Hu
      by (simpl; by destruct (f_l4 f)).
    unfold l4_csum_ok, pseudo_hdr. by rewrite Ht, Hl4, Hp, Hu.
Qed.
End checksums.

Lemma translated_ok snat xip nrip xport t t' :
  tuple_ok t → 0 ≤ xip < 2 ^ 32 → 0 ≤ nrip < 2 ^ 32 → 0 ≤ xport < 2 ^ 16 → checks_ok t' →
  translated snat xip nrip xport t t' → tuple_ok t'.
Proof.
  intros (O1 & O2 & O3 & O4 & O5 & O6) Hx Hn Hp [C1 C2] [A P].
  unfold nat_addrs, nat_ports in A, P.
  destruct snat, (xip =? 0), (nrip =? 0); injection A as A1 A2; injection P as P3 P4;
    unfold tuple_ok; rewrite A1, A2, P3, P4; tauto.
Qed.

(** ** The theorem *)
Section translation.
Context {K : Type} `{SkbEnvLaws K} `{!SkbReady K}.

(** What a translation makes of the tuple [t] of the packet [f]. *)
Definition well_translated (snat : bool) (f : frame) (xip nrip xport : Z) (t : tuple) : Prop :=
  (t_saddr t, t_daddr t) = nat_addrs snat xip nrip (tuple_of f) ∧
  (t_sport t, t_dport t) = nat_ports snat xport (tuple_of f) ∧
  frame_ok (with_tup f t) = true ∧
  (ip_csum_ok f → ip_csum_ok (with_tup f t)) ∧ (l4_csum_ok f → l4_csum_ok (with_tup f t)).

Lemma wp_translate (snat : bool) tail f pad xip xport (s : lstate K) (Q : Z + Z → lstate K → Prop) :
  let nrip := xa0 (nm_nrip (nm (xf s))) in
  lpkt s = encode f ++ pad → frame_ok f = true → is_v4 f = true → bytes_ok (encode f) →
  parsed f (xf s) → 0 ≤ xip < 2 ^ 32 → 0 ≤ nrip < 2 ^ 32 → 0 ≤ xport < 2 ^ 16 →
  (∀ t κ, well_translated snat f xip nrip xport t →
     Q (inr 0) (s <| lpkt := encode (with_tup f t) ++ pad |> <| lkern := κ |>
                  <| xf := nat_md t (xf s) |>)) →
  wpf ((if snat then dp_do_snat else dp_do_dnat) tail xip xport) Q s.
Proof.
  intros nrip E Hok Hv4 Hb (P1 & P2 & P3 & P4 & P5 & P6 & P7) Hx Hn Hp HQ.
  pose proof (tuple_of_ok f Hok Hv4 Hb) as Hto.
  pose proof (encode_tuple f Hok Hv4 Hb) as He.
  assert (s = tr_at f pad s (xf s) (tuple_of f) (lkern s)) as Es.
  { unfold tr_at, nat_at. rewrite He, <-E, (nat_md_agrees f) by (by split_and!). by destruct s. }
  pose proof Hto as (O1 & O2 & O3 & O4 & O5 & O6). rewrite Es.
  apply (wp_nat f Hok Hv4 pad s (xf s) P1 P2 snat tail xip xport Q P3 _ _ (conj O5 O6)).
  intros κ t [S1 S2] Hc Ht. pose proof (translated_ok _ _ _ _ _ _ Hto Hx Hn Hp Hc Ht) as Ho.
  destruct Ht as [Ha Hpo]. destruct (csums_tuple_of f Hok Hv4 Hb) as [I1 I2].
  apply HQ. split_and!; [done|done|by apply frame_ok_with| |].
  - intros H1%I1. exact (ip_csum_with f Hok Hv4 _ _ Hto Ho S1 H1).
  - intros H1%I2. exact (l4_csum_with f Hok Hv4 _ _ Hto Ho S2 H1).
Qed.

(** C26: [dp_do_snat] ([snat]) and [dp_do_dnat] on a TCP or UDP packet over
    IPv4 with the address [xip], the rewritten peer address [nrip] and the port
    [xport]: the packet keeps every byte but the addresses, the ports and the
    two checksums; source translation sets source address and port, destination
    translation the destination's, [nrip], unless 0, is the address of the
    other side, and [xip] 0 exchanges the addresses (hairpin); valid checksums
    stay valid; the metadata follows the packet, nothing else changes. *)
Theorem nat_translates (snat : bool) tail f pad xip xport (s : lstate K) :
  let nrip := xa0 (nm_nrip (nm (xf s))) in
  lpkt s = encode f ++ pad → frame_ok f = true → is_v4 f = true → bytes_ok (encode f) →
  parsed f (xf s) → 0 ≤ xip < 2 ^ 32 → 0 ≤ nrip < 2 ^ 32 → 0 ≤ xport < 2 ^ 16 →
  ∃ t κ,
    (if snat then dp_do_snat else dp_do_dnat) tail xip xport s =
      Some (inr 0, s <| lpkt := encode (with_tup f t) ++ pad |> <| lkern := κ |>
                     <| xf := nat_md t (xf s) |>) ∧
    (t_saddr t, t_daddr t) = nat_addrs snat xip nrip (tuple_of f) ∧
    (t_sport t, t_dport t) = nat_ports snat xport (tuple_of f) ∧
    frame_ok (with_tup f t) = true ∧
    (ip_csum_ok f → ip_csum_ok (with_tup f t)) ∧ (l4_csum_ok f → l4_csum_ok (with_tup f t)).
Proof.
  intros nrip E Hok Hv4 Hb Hpa Hx Hn Hp.
  pose proof (wp_translate snat tail f pad xip xport s
    (λ r s', ∃ t κ, r = inr 0 ∧ well_translated snat f xip nrip xport t ∧
       s' = s <| lpkt := encode (with_tup f t) ++ pad |> <| lkern := κ |> <| xf := nat_md t (xf s) |>)
    E Hok Hv4 Hb Hpa Hx Hn Hp) as W.
  specialize (W ltac:(intros t κ Ht; by exists t, κ)). unfold wpf in W.
  destruct ((if snat then dp_do_snat else dp_do_dnat) tail xip xport s) as [[r s']|]; [|done].
  destruct W as (t & κ & -> & Ht & ->). by exists t, κ.
Qed.
End translation.

(** The SYN to 10.0.0.2:80, redirected to 10.0.0.9:8080. *)
Lemma nat_translates_witness :
  let s := ref_state (outer_md syn_frame ref_skb 57 xfi_zero) (encode syn_frame ++ []) in
  ∃ t κ,
    dp_do_dnat (λ _, None) 0x0900000a 0x901f s =
      Some (inr 0, s <| lpkt := encode (with_tup syn_frame t) ++ [] |> <| lkern := κ |>
                     <| xf := nat_md t (xf s) |>) ∧
    (t_saddr t, t_daddr t) = (0x0100000a, 0x0900000a) ∧
    (t_sport t, t_dport t) = (0x1234, 0x901f) ∧
    frame_ok (with_tup syn_frame t) = true ∧
    (ip_csum_ok syn_frame → ip_csum_ok (with_tup syn_frame t)) ∧
    (l4_csum_ok syn_frame → l4_csum_ok (with_tup syn_frame t)).
Proof.
  intros s. apply (nat_translates false (λ _, None) syn_frame [] 0x0900000a 0x901f s).
  1-3: reflexivity.
  - unfold bytes_ok. apply Forall_forall. intros b. revert b. apply Forall_forall.
    vm_compute. repeat constructor; discriminate.
  - vm_compute. repeat split.
  - lia.
  - vm_compute. split; [discriminate|reflexivity].
  - lia.
Defined.
