(* ===== verification/LoxiTunSpec.v ===== *)
(** * loxilb: tunnels, from one node to the next

    The outer headers [dp_do_ins_vxlan] writes, the IPv4 checksum of
    [dp_ipv4_new_csum], and a frame's way through a tunnel: insertion at one
    node, parser and removal at the next. *)
From S2P Require Import Prelude Records Words Consts Structs Csum LoxiDefs LoxiTables LoxiState LoxiSkb.
From S2P Require Import LoxiRef LoxiCt LoxiParse LoxiParseSpec LoxiNatRw LoxiNatSpec LoxiDeparse.
Open Scope c_scope.

#[local] Arguments le_bytes : simpl never.

(** ** The checksum of an outer header *)

(** What the single fold of [dp_ipv4_new_csum] makes of the sum [v]. *)
Lemma new_csum_spec v : 0 ≤ v ≤ 20 * 65535 →
  let u := Z.land v 0xffff + Z.shiftr v 16 in
  0 ≤ new_csum v < 2 ^ 16 ∧ (v + new_csum v ≅ 0 ↔ u < 2 ^ 16).
Proof.
  intros Hv u. assert (Z.land v 0xffff = v mod 65536) as E1
    by (change 0xffff with (Z.ones 16); by rewrite Z.land_ones by lia).
  assert (Z.shiftr v 16 = v / 65536) as E2 by (by rewrite Z.shiftr_div_pow2 by lia).
  assert (0 ≤ u ≤ 65554 ∧ v ≅ u) as [Hu Hvu].
  { subst u. rewrite E1, E2. pose proof (Z.div_mod v 65536). pose proof (Z.mod_pos_bound v 65536).
    split; [lia|]. apply (eqm_mult (v / 65536)). lia. }
  assert (new_csum v = if u <? 2 ^ 16 then 65535 - u else 131071 - u) as ->.
  { unfold new_csum. fold u. rewrite u32_id by lia. clearbody u. unfold u16, Z.lnot.
    change (2 ^ 16) with 65536 in *. destruct (Z.ltb_spec u 65536).
    - symmetry. apply (Z.mod_unique_pos _ _ (-1)); lia.
    - symmetry. apply (Z.mod_unique_pos _ _ (-2)); lia. }
  clearbody u.
  destruct (Z.ltb_spec u (2 ^ 16)) as [Hlt|Hge]; (split; [lia|]).
  - split; [done|intros _]. rewrite Hvu. apply (eqm_mult 1). lia.
  - split; [|lia]. intros Hc. rewrite Hvu in Hc.
    assert (u + (131071 - u) ≅ 1) as E by (apply (eqm_mult 2); lia). rewrite E in Hc. done.
Qed.

(** An IPv4 header without options, its checksum field kept apart. *)
Definition ip_fields (vihl tos len id frag ttl proto check saddr daddr : list Z) : list (list Z) :=
  [vihl; tos; len; id; frag; ttl; proto; check; saddr; daddr].

Section csum.
Context {S : Type} `{PktStateLaws S} {R : Type}.
Implicit Types (s : S).

Lemma wp_sum_words n off csum (QR : unit → S → Prop) (QN : Z → S → Prop) s :
  0 ≤ off → off + 2 * Z.of_nat n ≤ pkt_len s → bytes_ok (get_pkt s) →
  0 ≤ csum → csum + 65536 * Z.of_nat n < 2 ^ 32 →
  QN (csum + sum16 (slice (Z.to_nat off) (2 * n) (get_pkt s))) s →
  wpb (sum_words n off csum) QR QN s.
Proof.
  revert off csum. induction n as [|n IH]; intros off csum Ho Hl Hb Hc Hc' HQ.
  { apply wp_ret. unfold slice in HQ. simpl in HQ. by rewrite Z.add_0_r in HQ. }
  destruct (sum16_slice_succ n off (get_pkt s)) as [Hr E]; [done|unfold pkt_len in *; lia|done|].
  simpl. apply wp_bind, wp_load; [lia..|]. rewrite u32_id by lia.
  apply IH; [lia..|done|lia|lia|]. by rewrite E, Z.add_assoc in HQ.
Qed.

Context (pre post vihl tos len id frag ttl proto saddr daddr : list Z).
Definition hdr (check : list Z) : list (list Z) :=
  ip_fields vihl tos len id frag ttl proto check saddr daddr.
Definition hdr_lengths (check : list Z) : Prop :=
  map length (hdr check) = [1; 1; 2; 2; 2; 1; 1; 2; 4; 4]%nat.

(** The fold of the header's sum, checksum field excluded, does not carry. *)
Definition no_carry : Prop :=
  let v := sum16 (concat (hdr [0; 0])) in Z.land v 0xffff + Z.shiftr v 16 < 2 ^ 16.

Lemma sum16_hdr c :
  hdr_lengths (le_bytes 2 0) → 0 ≤ c < 2 ^ 16 →
  sum16 (concat (hdr (le_bytes 2 c))) = sum16 (concat (hdr [0; 0])) + c.
Proof.
  intros [= L1 L2 L3 L4 L5 L6 L7 L9 L10] Hc.
  assert (∀ x, concat (hdr x) = (vihl ++ tos ++ len ++ id ++ frag ++ ttl ++ proto) ++ x ++
                                saddr ++ daddr) as E.
  { intros x. unfold hdr, ip_fields. cbn [concat]. rewrite <-!app_assoc. by rewrite app_nil_r. }
  rewrite !E, !(sum16_app (vihl ++ _)) by (by rewrite !length_app, L1, L2, L3, L4, L5, L6, L7).
  rewrite (sum16_app (le_bytes 2 c)), (sum16_app [0; 0]) by done.
  rewrite sum16_le_bytes2, u16_id by done. cbn [sum16]. lia.
Qed.

Lemma wp_ipv4_new_csum iph check (Q : unit → S → Prop) s :
  get_pkt s = pre ++ concat (hdr check) ++ post → hdr_lengths check →
  bytes_ok (get_pkt s) → iph = Z.of_nat (length pre) →
  (∀ c, 0 ≤ c < 2 ^ 16 → csum_ok (concat (hdr (le_bytes 2 c))) ↔ no_carry →
     Q tt (set_pkt (pre ++ concat (hdr (le_bytes 2 c)) ++ post) s)) →
  wpf (dp_ipv4_new_csum iph) Q s.
Proof.
  intros E HL Hb -> HQ. pose proof HL as [= L1 L2 L3 L4 L5 L6 L7 L8 L9 L10].
  assert (hdr_lengths (le_bytes 2 0)) as HL0
    by (unfold hdr_lengths, hdr, ip_fields; cbn [map]; rewrite length_le_bytes; congruence).
  assert (∀ c, get_pkt (set_pkt (pre ++ concat (hdr c) ++ post) s) =
               pre ++ concat (hdr c) ++ post) as Eg by (intros c; apply get_set_pkt).
  assert (∀ c, length c = 2%nat → length (concat (hdr c)) = 20%nat) as Hlen.
  { intros c Hc. unfold hdr, ip_fields. cbn [concat]. rewrite !length_app.
    cbn [length]. lia. }
  apply wp_run, wp_bind, (wp_store_field pre (hdr check) post 7 check); [done..| |].
  { cbn [hdr ip_fields take concat]. rewrite !length_app. cbn [length].
    cbv [ip_check]. lia. }
  change (<[7%nat := le_bytes 2 0]> (hdr check)) with (hdr (le_bytes 2 0)).
  set (s0 := set_pkt _ s).
  assert (bytes_ok (pre ++ concat (hdr (le_bytes 2 0)) ++ post)) as Hb0.
  { rewrite E in Hb. unfold hdr, ip_fields in *. cbn [concat] in *. unfold bytes_ok in *. rewrite !Forall_app in *.
    split_and!; try tauto; by vm_compute; repeat constructor. }
  assert (slice (Z.to_nat (Z.of_nat (length pre))) (2 * 10) (get_pkt s0) =
          concat (hdr (le_bytes 2 0))) as Hsl.
  { subst s0. rewrite Eg, Nat2Z.id. rewrite <-(Nat.add_0_r (length pre)).
    rewrite slice_region by (rewrite Hlen; done || lia). unfold slice. rewrite drop_0.
    by rewrite take_ge by (rewrite Hlen; done). }
  change (Z.to_nat (Z.shiftr sizeof_iphdr 1)) with 10%nat. change ip_check with 10.
  apply wp_bind, wp_sum_words; [lia| |by subst s0; rewrite Eg|lia|lia|].
  { unfold pkt_len. subst s0. rewrite Eg, !length_app, Hlen by done. lia. }
  rewrite Hsl, Z.add_0_l. set (v := sum16 _).
  assert (v = sum16 (concat (hdr [0; 0]))) as Ev by done.
  assert (bytes_ok (concat (hdr (le_bytes 2 0)))) as Hbh
    by (by apply Forall_app in Hb0 as [_ [? _]%Forall_app]).
  pose proof (sum16_nonneg _ Hbh). pose proof (sum16_bound _ Hbh) as Hbd.
  rewrite Hlen in Hbd by done. destruct (new_csum_spec v) as [Hc Hok]; [subst v; lia|].
  eapply (wp_store_field pre (hdr (le_bytes 2 0)) post 7 (le_bytes 2 0));
    [by subst s0|done|done| |].
  { cbn [hdr ip_fields take concat]. rewrite !length_app. cbn [length]. lia. }
  change (<[7%nat := ?b]> (hdr _)) with (hdr b). subst s0. rewrite set_set_pkt.
  apply HQ; [done|]. unfold csum_ok, no_carry. rewrite sum16_hdr by done. exact Hok.
Qed.
End csum.

(** A store to field [i] of the packet of the state. *)
Ltac field_off :=
  cbv [sizeof_ethhdr sizeof_iphdr sizeof_udphdr sizeof_vxlanhdr udp_source udp_dest udp_len
       udp_check vx_vni eth_h_dest eth_h_source eth_h_proto];
  cbn [take concat app]; rewrite ?length_app, ?length_le_bytes, ?length_be_bytes;
  cbn [length]; lia.
Ltac store_field i :=
  first [eapply (wp_store_field _ _ _ i) | eapply (wp_store_bytes_field _ _ _ i)];
  [first [eassumption | apply get_set_pkt]|reflexivity
  |rewrite ?length_le_bytes, ?length_be_bytes; first [done|congruence]|field_off|];
  cbn [insert list_insert]; rewrite ?set_set_pkt.

Section outer.
Context {S : Type} `{PktStateLaws S} {R : Type}.
Implicit Types (s : S).

(** What [outer_ip] makes of an outer header. *)
Lemma wp_outer_ip pre post vihl tos len id frag ttl proto check saddr daddr
    iph tl pr sa da (QR : R → S → Prop) QN s :
  get_pkt s = pre ++ concat (ip_fields vihl tos len id frag ttl proto check saddr daddr) ++ post →
  map length (ip_fields vihl tos len id frag ttl proto check saddr daddr) =
    [1; 1; 2; 2; 2; 1; 1; 2; 4; 4]%nat →
  bytes_ok (get_pkt s) → iph = Z.of_nat (length pre) → 0 ≤ tl < 2 ^ 16 →
  let h := hdr (le_bytes 1 0x45) tos (be_bytes 2 tl) id frag (le_bytes 1 64) (le_bytes 1 pr)
             (le_bytes 4 sa) (le_bytes 4 da) in
  let ok := no_carry (le_bytes 1 0x45) tos (be_bytes 2 tl) id frag (le_bytes 1 64)
              (le_bytes 1 pr) (le_bytes 4 sa) (le_bytes 4 da) in
  (∀ c, 0 ≤ c < 2 ^ 16 → csum_ok (concat (h (le_bytes 2 c))) ↔ ok →
     QN tt (set_pkt (pre ++ concat (h (le_bytes 2 c)) ++ post) s)) →
  wpb (outer_ip iph tl pr sa da) QR QN s.
Proof.
  intros E [= L1 L2 L3 L4 L5 L6 L7 L8 L9 L10] Hb Hi Ht h ok HQ.
  unfold outer_ip, store8, store16, store32.
  cbv [ip_verihl ip_tot_len ip_ttl ip_protocol ip_saddr ip_daddr].
  unfold ip_fields in E. apply wp_bind. store_field 0%nat. apply wp_bind. store_field 2%nat.
  rewrite u16_id, le_bytes2_htons by done. fold (be_bytes 2 tl).
  apply wp_bind. store_field 5%nat. apply wp_bind. store_field 6%nat.
  apply wp_bind. store_field 8%nat. apply wp_bind. store_field 9%nat.
  apply wp_call. eapply (wp_ipv4_new_csum pre post _ _ _ _ _ _ _ _ _ _ check).
  - apply get_set_pkt.
  - unfold hdr_lengths, hdr, ip_fields. cbn [map].
    rewrite !length_le_bytes, length_be_bytes. congruence.
  - rewrite get_set_pkt. rewrite E in Hb. cbn [concat hdr ip_fields] in *.
    unfold bytes_ok in *. rewrite !Forall_app in *.
    split_and!; try tauto; try apply le_bytes_ok; apply Forall_reverse, le_bytes_ok.
  - done.
  - intros c Hc Hok. rewrite set_set_pkt. by apply HQ.
Qed.
End outer.

(** ** Insertion of a VXLAN tunnel *)

(** The tunnel headers of [dp_do_ins_vxlan] for the packet [f]: type of
    service, identification and fragment field are those found in the room. *)
Definition vtep (f : frame) (tos id frag check sip rip sport len : Z) : frame :=
  Frame (f_dst f) (f_src f) (V4 tos id frag 64 check sip rip [])
    (Udp sport (bpf_htons VXLAN_OUDP_DPORT) len 0) [].
Definition ip_len (f : frame) : Z := l3_len_of (f_l3 f) + Z.of_nat (length (l4_bytes f)).
(** [f] with the link-layer addresses of the metadata [m]. *)
Definition with_macs (f : frame) (m : dp_l2_mdi) : frame :=
  f <| f_dst := dl_dst m |> <| f_src := dl_src m |>.

Definition ins_vxlan_md (vni : Z) (x : xfi) : xfi :=
  x <| tm; tun_type := LLB_TUN_VXLAN |> <| tm; tunnel_id := 256 * vni |>
    <| pm; tun_off := sizeof_ethhdr + sizeof_iphdr + sizeof_udphdr |>
    <| tm; tun_encap := 1 |> <| l2m; vlan0 := 0 |> <| l2m; dl_type := bpf_htons ETH_P_IP |>.

Lemma length_l3_bytes f : frame_ok f = true → Z.of_nat (length (l3_bytes f)) = ip_len f.
Proof.
  intros (_ & _ & _ & H3 & _)%frame_ok_inv. unfold l3_bytes, ip_len.
  rewrite length_app, Nat2Z.inj_add. by rewrite length_l3_fields.
Qed.

Lemma l4_bytes_macs f m : l4_bytes (with_macs f m) = l4_bytes f.
Proof. done. Qed.
Lemma l3_bytes_macs f m : l3_bytes (with_macs f m) = l3_bytes f.
Proof. done. Qed.

Lemma frame_ok_macs f m :
  frame_ok f = true → length (dl_dst m) = 6%nat → length (dl_src m) = 6%nat →
  frame_ok (with_macs f m) = true.
Proof.
  intros (_ & _ & Hl & H3 & H4)%frame_ok_inv Hd Hs. unfold frame_ok.
  change (f_l3 (with_macs f m)) with (f_l3 f). change (f_l4 (with_macs f m)) with (f_l4 f).
  rewrite H3, H4, !andb_true_r. by apply bool_decide_eq_true.
Qed.

Lemma ntohl_htonl x : 0 ≤ x < 2 ^ 32 → bpf_ntohl (bpf_htonl x) = x.
Proof.
  intros Hx. unfold bpf_ntohl, bpf_htonl, bswap32. rewrite (u32_id x) by done.
  rewrite u32_id by apply (bswap_range 4). rewrite bswap_bswap. by apply Z.mod_small.
Qed.

Lemma le_bytes4_htonl x : le_bytes 4 (bpf_htonl x) = be_bytes 4 x.
Proof.
  unfold bpf_htonl, bswap32, be_bytes. rewrite le_bytes_bswap. f_equal. symmetry.
  apply (le_bytes_mod 4 x).
Qed.

Lemma length_l4_vtep f tos id frag c sip rip sport len vni m :
  frame_ok f = true → length (dl_dst m) = 6%nat → length (dl_src m) = 6%nat →
  Z.of_nat (length (l4_bytes (vxlan_encap (vtep f tos id frag c sip rip sport len)
    VXLAN_VI_FLAG_ON vni 0 (with_macs f m)))) = ip_len f + 30.
Proof.
  intros Hok Hd Hs. unfold l4_bytes. cbn [f_l4 f_data vxlan_encap vtep update eta_frame l4_fields].
  unfold encode. rewrite l3_bytes_macs, !length_app, !Nat2Z.inj_add, length_l3_bytes by done.
  unfold vxlan_fields, eth_fields. cbn [concat f_dst f_src with_macs update eta_frame].
  rewrite !length_app, !length_le_bytes, !length_be_bytes, Hd, Hs. cbn [length]. lia.
Qed.

Lemma encode_vtep f tos id frag c sip rip sport vni m pad :
  frame_ok f = true → is_v4 f = true → length (dl_dst m) = 6%nat → length (dl_src m) = 6%nat →
  encode (vxlan_encap (vtep f tos id frag c sip rip sport (ip_len f + 30))
            VXLAN_VI_FLAG_ON vni 0 (with_macs f m)) ++ pad =
  concat (eth_fields (f_dst f) (f_src f) (ethertype (f_l3 f))) ++
  concat (hdr (le_bytes 1 0x45) (le_bytes 1 tos) (be_bytes 2 (ip_len f + 50)) (le_bytes 2 id)
            (le_bytes 2 frag) (le_bytes 1 64) (le_bytes 1 IPPROTO_UDP) (le_bytes 4 sip)
            (le_bytes 4 rip) (le_bytes 2 c)) ++
  concat [le_bytes 2 sport; le_bytes 2 (bpf_htons VXLAN_OUDP_DPORT); be_bytes 2 (ip_len f + 30);
          le_bytes 2 0; le_bytes 4 VXLAN_VI_FLAG_ON; be_bytes 4 (256 * vni);
          dl_dst m; dl_src m; le_bytes 2 (ethertype (f_l3 f))] ++ l3_bytes f ++ pad.
Proof.
  intros Hok Hv4 Hd Hs. set (p := vxlan_encap _ _ _ _ _).
  assert (Z.of_nat (length (l4_bytes p)) = ip_len f + 30) as Hl by by apply length_l4_vtep.
  unfold encode at 1, l3_bytes at 1. rewrite Hl, <-!app_assoc.
  assert (ethertype (f_l3 p) = ethertype (f_l3 f)) as ->
    by (unfold is_v4 in Hv4; by destruct (f_l3 f)).
  change (f_dst p) with (f_dst f). change (f_src p) with (f_src f). f_equal.
  assert (l3_fields (f_l3 p) (l4_proto (f_l4 p)) (ip_len f + 30) =
          hdr (le_bytes 1 0x45) (le_bytes 1 tos) (be_bytes 2 (ip_len f + 50)) (le_bytes 2 id)
            (le_bytes 2 frag) (le_bytes 1 64) (le_bytes 1 IPPROTO_UDP) (le_bytes 4 sip)
            (le_bytes 4 rip) (le_bytes 2 c) ++ [[]]) as ->.
  { replace (ip_len f + 50) with (4 * 5 + (ip_len f + 30)) by lia. reflexivity. }
  rewrite concat_app. cbn [concat app]. rewrite <-!app_assoc. cbn [app]. f_equal.
  assert (l4_bytes p = concat [le_bytes 2 sport; le_bytes 2 (bpf_htons VXLAN_OUDP_DPORT);
    be_bytes 2 (ip_len f + 30); le_bytes 2 0] ++ concat (vxlan_fields VXLAN_VI_FLAG_ON vni 0) ++
    concat (eth_fields (dl_dst m) (dl_src m) (ethertype (f_l3 f))) ++ l3_bytes f) as -> by done.
  unfold vxlan_fields, eth_fields. rewrite Z.add_0_r. cbn [concat]. by rewrite <-!app_assoc.
Qed.

Section vxlan.
Context {K : Type} `{SkbEnvLaws K}.
Implicit Types (s : lstate K).

Lemma wp_add_room {R} n flags (QR : R → lstate K → Prop) QN s :
  0 < n → 14 ≤ Z.of_nat (length (lpkt s)) → bytes_ok (lpkt s) →
  (∀ κ, QN false (s <| lkern := κ |>)) →
  (∀ κ room, Z.of_nat (length room) = n → bytes_ok room →
     QN true (s <| lkern := κ |> <| lpkt := take 14 (lpkt s) ++ room ++ drop 14 (lpkt s) |>)) →
  wpb (dp_buf_add_room n flags) QR QN s.
Proof.
  intros Hn Hl Hb HF HQ. unfold wpb, dp_buf_add_room, skb_op.
  destruct (sk_adjust_room n flags (lpkt s) (lkern s)) as [[m|] κ] eqn:E; [|apply HF].
  apply sk_room_grow in E as (room & Hr & Hrb & ->); [|done..]. by apply HQ.
Qed.

Lemma wp_delete_room {R} n flags (QR : R → lstate K → Prop) QN s :
  0 < n → 14 + n ≤ Z.of_nat (length (lpkt s)) →
  (∀ κ, QN false (s <| lkern := κ |>)) →
  (∀ κ, QN true (s <| lkern := κ |>
                   <| lpkt := take 14 (lpkt s) ++ drop (14 + Z.to_nat n) (lpkt s) |>)) →
  wpb (dp_buf_delete_room n flags) QR QN s.
Proof.
  intros Hn Hl HF HQ. unfold wpb, dp_buf_delete_room, skb_op.
  destruct (sk_adjust_room (- n) flags (lpkt s) (lkern s)) as [[m|] κ] eqn:E; [|apply HF].
  apply sk_room_shrink in E as ->; [|done..]. apply HQ.
Qed.

Lemma wp_need_drop e (QR : Z → lstate K → Prop) QN s :
  e ≤ pkt_len s → QN tt s → wpb (need_drop e) QR QN s.
Proof.
  intros He HQ. apply wp_bind, wp_past_end. rewrite (proj2 (Z.ltb_ge _ _)) by done. exact HQ.
Qed.

Definition dropped s : lstate K := s <| xf ::= λ x : xfi, x <| pm; pipe_act ::= Z.lor LLB_PIPE_DROP |> |>.

Lemma wp_or_drop m (QR : Z → lstate K → Prop) QN s :
  wpb m QR (λ (ok : bool) s, if ok then QN tt s else QR (-1) (dropped s)) s → wpb (or_drop m) QR QN s.
Proof.
  intros HQ. apply wp_bind. revert HQ. unfold wpb. by destruct (m s) as [| |[] ?].
Qed.

Lemma fields_of_room ws room :
  length room = sum_list ws → bytes_ok room →
  ∃ fs, room = concat fs ∧ map length fs = ws ∧ Forall bytes_ok fs.
Proof.
  intros Hl Hb. exists (cut ws room). rewrite concat_cut, length_cut by done. split_and!; [done..|by apply cut_ok].
Qed.
Definition vxlan_widths : list nat :=
  ([1; 1; 2; 2; 2; 1; 1; 2; 4; 4] ++ [2; 2; 2; 2; 4; 4; 6; 6; 2])%nat.

(** A region of known widths as its fields. *)
Ltac cut_fields fs Hl Hb :=
  repeat (destruct fs as [|?r fs]; [discriminate Hl|];
          let H := fresh "L" in injection Hl as H Hl;
          let B := fresh "B" in apply Forall_cons in Hb as [B Hb]);
  destruct fs; [clear Hl Hb|discriminate Hl].

Definition eth_bytes (f : frame) : list Z :=
  concat (eth_fields (f_dst f) (f_src f) (ethertype (f_l3 f))).

Lemma encode_split f pad : frame_ok f = true →
  take 14 (encode f ++ pad) = eth_bytes f ∧ drop 14 (encode f ++ pad) = l3_bytes f ++ pad.
Proof.
  intros Hok. pose proof (length_eth_fields f Hok) as Hle. unfold encode, eth_bytes.
  rewrite <-app_assoc, <-Hle. by rewrite take_app_length, drop_app_length.
Qed.

Lemma eth_bytes_ok f pad :
  bytes_ok (encode f ++ pad) → bytes_ok (eth_bytes f) ∧ bytes_ok (l3_bytes f ++ pad).
Proof. unfold encode. rewrite <-app_assoc. apply Forall_app. Qed.

(** Room for the fields of widths [ws]. *)
Lemma wp_room_fields ws flags f pad (QR : Z → lstate K → Prop) QN s :
  lpkt s = encode f ++ pad → frame_ok f = true → bytes_ok (lpkt s) →
  0 < Z.of_nat (sum_list ws) →
  (∀ κ, QR (-1) (dropped (s <| lkern := κ |>))) →
  (∀ κ fs, map length fs = ws → Forall bytes_ok fs →
     QN tt (set_pkt (eth_bytes f ++ concat fs ++ l3_bytes f ++ pad) (s <| lkern := κ |>))) →
  wpb (or_drop (dp_buf_add_room (Z.of_nat (sum_list ws)) flags)) QR QN s.
Proof.
  intros E Hok Hb Hw HF HQ. destruct (encode_split f pad Hok) as [Et Ed].
  apply wp_or_drop, wp_add_room; [done| |done|exact HF|].
  { rewrite E. unfold encode. rewrite !length_app, (length_eth_fields f Hok). lia. }
  intros κ room Hr Hrb. destruct (fields_of_room ws room) as (fs & -> & Hl & Hcb); [lia|done|].
  rewrite E, Et, Ed. by apply HQ.
Qed.

Ltac long_enough :=
  unfold pkt_len; rewrite get_set_pkt;
  cbv [sizeof_ethhdr sizeof_iphdr sizeof_udphdr sizeof_vxlanhdr];
  cbn [ip_fields hdr concat app]; rewrite ?length_app, ?length_le_bytes, ?length_be_bytes;
  cbn [length]; lia.

Lemma wp_ins_vxlan f pad rip sip vni (Q : Z → lstate K → Prop) s :
  lpkt s = encode f ++ pad → frame_ok f = true → is_v4 f = true → bytes_ok (lpkt s) →
  vlan0 (l2m (xf s)) = 0 → l3_len (pm (xf s)) = ip_len f → ip_len f + 50 < 2 ^ 16 →
  length (dl_dst (il2m (xf s))) = 6%nat → length (dl_src (il2m (xf s))) = 6%nat →
  dl_type (il2m (xf s)) = ethertype (f_l3 f) → 0 ≤ vni < 2 ^ 24 →
  (∀ κ, Q (-1) (dropped (s <| lkern := κ |>))) →
  (∀ κ tos id frag c,
     let o := vtep f tos id frag c sip rip (u16 (m_source (l34m (xf s)) + VXLAN_OUDP_SPORT))
                (ip_len f + 30) in
     0 ≤ tos < 2 ^ 8 → 
     Q 0 (s <| lkern := κ |>
            <| lpkt := encode (vxlan_encap o VXLAN_VI_FLAG_ON vni 0
                                 (with_macs f (il2m (xf s)))) ++ pad |>
            <| xf := ins_vxlan_md vni (xf s) |>)) →
  wpf (dp_do_ins_vxlan rip sip (bpf_htonl (256 * vni))) Q s.
Proof.
  intros E Hok Hv4 Hb Hvl Hlen Hmax Hd Hs Hty Hvni HF HQ. apply wp_run.
  unfold dp_do_ins_vxlan. apply wp_bind, wp_gets. rewrite Hvl. cbn [negb Z.eqb when].
  apply wp_bind, wp_ret. cbn zeta. apply wp_bind.
  destruct (eth_bytes_ok f pad) as [Hbe Hbp]; [by rewrite <-E|].
  pose proof (frame_ok_inv f Hok) as (_ & _ & _ & Hl3 & _).
  pose proof (l3_len_of_range _ Hl3) as Hr3. pose proof (length_eth_fields f Hok) as Hle.
  apply (wp_room_fields vxlan_widths _ f pad); [done..|reflexivity|exact HF|].
  intros κ fs Hl Hcb. cut_fields fs Hl Hcb. fold (eth_bytes f) in Hle.
  set (eth := eth_bytes f) in *. set (post := l3_bytes f ++ pad) in *. set (s1 := s <| lkern := κ |>).
  change (concat [r; r0; r1; r2; r3; r4; r5; r6; r7; r8; r9; r10; r11; r12; r13; r14; r15; r16; r17])
    with (concat ([r; r0; r1; r2; r3; r4; r5; r6; r7; r8] ++
                  [r9; r10; r11; r12; r13; r14; r15; r16; r17])).
  rewrite concat_app, <-app_assoc. set (post1 := _ ++ post).
  match goal with |- wpb _ _ _ ?st => change st with
    (set_pkt (eth ++ concat (ip_fields r r0 r1 r2 r3 r4 r5 r6 r7 r8) ++ post1) s1) end.
  apply wp_bind, wp_need_drop; [by long_enough|].
  apply wp_bind, wp_need_drop; [by long_enough|].
  apply wp_bind, wp_gets. change (xf (set_pkt ?m s1)) with (xf s). rewrite Hlen.
  change (sizeof_iphdr + sizeof_udphdr + sizeof_vxlanhdr + sizeof_ethhdr) with 50.
  replace (ip_len f + 50 - sizeof_iphdr) with (ip_len f + 30) by (unfold sizeof_iphdr; lia).
  apply wp_bind. eapply (wp_outer_ip eth post1);
    [apply get_set_pkt|cbn [map ip_fields]; congruence| |change (14 = Z.of_nat (length eth)); lia
    |unfold ip_len in *; lia|].
  { rewrite get_set_pkt. subst post1. cbn [ip_fields concat]. unfold bytes_ok in *.
    rewrite !Forall_app. by split_and!. }
  intros c Hc _. rewrite set_set_pkt. set (ip := concat (hdr _ _ _ _ _ _ _ _ _ _)).
  assert (length ip = 20%nat) as Hip by (subst ip; unfold hdr, ip_fields; cbn [concat];
    rewrite !length_app, !length_le_bytes, ?length_be_bytes; cbn [length]; lia).
  subst post1. rewrite (app_assoc eth ip). set (pre := eth ++ ip).
  assert (length pre = 34%nat) as Hpre by (subst pre; by rewrite length_app, Hle, Hip).
  apply wp_bind, wp_need_drop; [by long_enough|]. unfold outer_udp, store16, store32.
  apply wp_bind, wp_bind. store_field 0%nat. apply wp_bind. store_field 1%nat.
  apply wp_bind. store_field 3%nat. store_field 2%nat. cbv beta.
  apply wp_bind, wp_need_drop; [by long_enough|].
  apply wp_bind. store_field 5%nat. apply wp_bind. store_field 4%nat.
  apply wp_bind, wp_need_drop; [by long_enough|].
  apply wp_bind. store_field 6%nat. apply wp_bind. store_field 7%nat. apply wp_bind. store_field 8%nat.
  apply wp_bind, wp_upd_xf, wp_ret.
  assert (le_bytes 1 (le_val r0) = r0 ∧ le_bytes 2 (le_val r2) = r2 ∧ le_bytes 2 (le_val r3) = r3)
    as (E0 & E2 & E3).
  { split_and!; [rewrite <-L0|rewrite <-L2|rewrite <-L3]; by apply le_bytes_val. }
  specialize (HQ κ (le_val r0) (le_val r2) (le_val r3) c). cbn zeta in HQ.
  rewrite encode_vtep, E0, E2, E3 in HQ by done.
  rewrite Hty, le_bytes4_htonl, ntohl_htonl, (u16_id (ip_len f + 30)) by (unfold ip_len in *; lia).
  rewrite (le_bytes2_htons (ip_len f + 30)). fold (be_bytes 2 (ip_len f + 30)). subst pre ip eth post. rewrite <-app_assoc. apply HQ.
  pose proof (le_val_range _ B0) as Hr. by rewrite L0 in Hr.
Qed.
(** *** Removal at the other end *)
Lemma wp_strip_vxlan o f flags vni res pad (Q : Z → lstate K → Prop) s :
  let p := vxlan_encap o flags vni res f in
  lpkt s = encode p ++ pad → frame_ok p = true → frame_ok f = true → is_udp (f_l4 o) = true →
  l3_len_of (f_l3 o) = 20 →
  dl_dst (il2m (xf s)) = f_dst f → dl_src (il2m (xf s)) = f_src f →
  dl_type (il2m (xf s)) = ethertype (f_l3 f) → vlan0 (il2m (xf s)) = 0 →
  (∀ κ, Q (-1) (dropped (s <| lkern := κ |>))) →
  (∀ κ, Q 0 (s <| lkern := κ |> <| lpkt := encode f ++ pad |>)) →
  wpf (dp_do_strip_vxlan 50) Q s.
Proof.
  intros p E Hokp Hok Hu Hl3 Hd Hs Hty Hvl HF HQ. apply wp_run, wp_bind, wp_or_drop.
  destruct (encode_split p pad Hokp) as [Et Ed].
  assert (encode p ++ pad = eth_bytes p ++ concat (l3_fields (f_l3 p) (l4_proto (f_l4 p)) (Z.of_nat (length (l4_bytes p)))) ++
    concat (l4_fields (f_l4 o)) ++ concat (vxlan_fields flags vni res) ++ eth_bytes f ++ l3_bytes f ++ pad) as Ep.
  { unfold encode, l3_bytes at 1, l4_bytes at 2. change (f_l4 p) with (f_l4 o).
    change (f_data p) with (concat (vxlan_fields flags vni res) ++ encode f). unfold encode, eth_bytes.
    by rewrite <-!app_assoc. }
  pose proof (length_eth_fields p Hokp) as L1. fold (eth_bytes p) in L1.
  pose proof (length_eth_fields f Hok) as L5. fold (eth_bytes f) in L5.
  pose proof (frame_ok_inv p Hokp) as (_ & _ & _ & H3 & _).
  pose proof (length_l3_fields _ (l4_proto (f_l4 p)) (Z.of_nat (length (l4_bytes p))) H3) as L2.
  change (l3_len_of (f_l3 p)) with (l3_len_of (f_l3 o)) in L2. rewrite Hl3 in L2.
  assert (length (concat (l4_fields (f_l4 o))) = 8%nat) as L3
    by (destruct (f_l4 o); [done|]; cbn [l4_fields concat];
        by rewrite !length_app, !length_le_bytes, length_be_bytes).
  assert (length (concat (vxlan_fields flags vni res)) = 8%nat) as L4 by done.
  assert (drop 64 (encode p ++ pad) = l3_bytes f ++ pad) as Edr.
  { rewrite Ep, !app_assoc, <-(app_assoc _ (l3_bytes f)). apply drop_app_length'.
    rewrite !length_app. lia. }
  apply wp_delete_room; [done| |exact HF|].
  { rewrite E, Ep, !length_app. lia. }
  intros κ. rewrite E, Et. change (14 + Z.to_nat 50)%nat with 64%nat. rewrite Edr.
  unfold eth_bytes, eth_fields.
  match goal with |- wpb _ _ _ (?s1 <| lpkt := take _ _ ++ _ |>) => idtac | |- wpb _ _ _ ?st =>
    change st with (set_pkt ([] ++ concat [f_dst p; f_src p; le_bytes 2 (ethertype (f_l3 p))] ++
                             l3_bytes f ++ pad) (s <| lkern := κ |>)) end.
  pose proof (frame_ok_inv p Hokp) as (D1 & D2 & _). pose proof (frame_ok_inv f Hok) as (D3 & D4 & _).
  apply wp_bind, wp_need_drop; [by long_enough|]. apply wp_bind, wp_gets.
  change (xf (set_pkt ?m (s <| lkern := κ |>))) with (xf s).
  rewrite Hvl. cbn [Z.eqb negb]. unfold put_macs, store16. rewrite Hd, Hs, Hty.
  apply wp_bind, wp_bind. store_field 0%nat. store_field 1%nat. apply wp_bind. store_field 2%nat.
  apply wp_ret. specialize (HQ κ). unfold encode in HQ. by rewrite <-app_assoc in HQ.
Qed.

(** The tunnelled packet is well-formed. *)
Lemma frame_ok_vtep f m tos id frag c sip rip sport vni :
  let p := vxlan_encap (vtep f tos id frag c sip rip sport (ip_len f + 30))
             VXLAN_VI_FLAG_ON vni 0 (with_macs f m) in
  frame_ok f = true → is_v4 f = true → ip_len f + 50 < 2 ^ 16 →
  length (dl_dst m) = 6%nat → length (dl_src m) = 6%nat →
  0 ≤ tos < 2 ^ 8 → 0 ≤ sip < 2 ^ 32 → 0 ≤ rip < 2 ^ 32 → 0 ≤ sport < 2 ^ 16 →
  frame_ok p = true.
Proof.
  intros p Hok Hv4 Hmax Hd Hs Ht Hsip Hrip Hsp.
  pose proof (frame_ok_inv f Hok) as (D1 & D2 & _).
  assert (Z.of_nat (length (l4_bytes p)) = ip_len f + 30) as Hl.
  { apply length_l4_vtep; done. }
  unfold frame_ok. rewrite Hl. apply andb_true_iff. split; [apply andb_true_iff; split|];
    apply bool_decide_eq_true; [|cbn [length]; split_and!; try tauto; try lia; done|by split].
  split_and!; [done..|]. change (l3_len_of (f_l3 p)) with 20. lia.
Qed.
End vxlan.

(** C28: a packet's hop through a VXLAN tunnel.  A node inserts the tunnel
    headers; the node that gets the result parses the outer headers, the tunnel
    and the packet inside, makes the inner packet the packet, and removes the
    tunnel: it knows the network identifier, and ends with the packet that
    entered the tunnel, behind the link-layer addresses the first node chose. *)
Theorem vxlan_hop {K K'} `{SkbEnvLaws K} `{SkbEnvLaws K'} f pad rip sip vni
    (s s1 : lstate K) (r : lstate K') :
  lpkt s = encode f ++ pad → frame_ok f = true → is_v4 f = true → bytes_ok (lpkt s) →
  vlan0 (l2m (xf s)) = 0 → l3_len (pm (xf s)) = ip_len f → ip_len f + 50 < 2 ^ 16 →
  length (dl_dst (il2m (xf s))) = 6%nat → length (dl_src (il2m (xf s))) = 6%nat →
  dl_type (il2m (xf s)) = ethertype (f_l3 f) →
  0 ≤ vni < 2 ^ 24 → 0 ≤ sip < 2 ^ 32 → 0 ≤ rip < 2 ^ 32 →
  dp_do_ins_vxlan rip sip (bpf_htonl (256 * vni)) s = Some (0, s1) →
  lpkt r = lpkt s1 → xf r = xfi_zero → unicast (skb r) = true → cb0 (skb r) ≠ LLB_MIRR_MARK →
  let f' := with_macs f (il2m (xf s)) in
  ∃ r1 r2 v r3,
    dp_parse_d0 0 r = Some (0, r1) ∧ dp_pop_outer_metadata true r1 = Some (0, r2) ∧
    tunnel_id (tm (xf r2)) = vni ∧
    dp_do_strip_vxlan (tun_off (pm (xf r2))) r2 = Some (v, r3) ∧
    (v = 0 ∧ lpkt r3 = encode f' ++ pad ∨ v = -1 ∧ pipe_act (pm (xf r3)) = LLB_PIPE_DROP).
Proof.
  intros E Hok Hv4 Hb Hvl Hlen Hmax Hd Hs Hty Hvni Hsip Hrip Hins Er Hx Hu Hm f'.
  set (sport := u16 (m_source (l34m (xf s)) + VXLAN_OUDP_SPORT)).
  pose (o tos id frag c := vtep f tos id frag c sip rip sport (ip_len f + 30)).
  pose proof (wp_ins_vxlan f pad rip sip vni (λ v s', v = 0 → ∃ tos id frag c, 0 ≤ tos < 2 ^ 8 ∧
    lpkt s' = encode (vxlan_encap (o tos id frag c) VXLAN_VI_FLAG_ON vni 0 f') ++ pad) s) as W.
  unfold wpf in W. rewrite Hins in W.
  destruct W as (tos & id & frag & c & Htos & Ep); [done..|by intros κ tos id frag c; exists tos, id, frag, c|done|].
  clear Hins. rewrite Ep in Er.
  assert (frame_ok f' = true) as Hok' by by apply frame_ok_macs.
  assert (frame_ok (vxlan_encap (o tos id frag c) VXLAN_VI_FLAG_ON vni 0 f') = true) as Hokp
    by (apply frame_ok_vtep; done || apply u16_range).
  eexists _, _. 
  rewrite (parse_vxlan (o tos id frag c) VXLAN_VI_FLAG_ON vni 0 f' pad r) by (done || lia).
  rewrite pop_outer_metadata, Hx. set (n := Z.of_nat _).
  set (x2 := pop_outer true (vxlan_md (vxlan_encap (o tos id frag c) VXLAN_VI_FLAG_ON vni 0 f')
               vni f' (skb r) n xfi_zero)).
  assert (dl_dst (il2m x2) = f_dst f' ∧ dl_src (il2m x2) = f_src f' ∧
          dl_type (il2m x2) = ethertype (f_l3 f') ∧ vlan0 (il2m x2) = 0 ∧
          tun_off (pm x2) = 50 ∧ pipe_act (pm x2) = 0 ∧ tunnel_id (tm x2) = vni)
    as (X1 & X2 & X3 & X4 & X5 & X6 & X7) by (split_and!; reflexivity).
  set (r2 := r <| xf := x2 |>).
  pose proof (wp_strip_vxlan (o tos id frag c) f' VXLAN_VI_FLAG_ON vni 0 pad
    (λ v r3, v = 0 ∧ lpkt r3 = encode f' ++ pad ∨ v = -1 ∧ pipe_act (pm (xf r3)) = LLB_PIPE_DROP)
    r2) as W. unfold wpf in W.
  destruct (dp_do_strip_vxlan 50 r2) as [[v r3]|] eqn:Es.
  - exists v, r3. split; [reflexivity|]. split; [reflexivity|].
    change (tunnel_id (tm x2) = vni ∧ dp_do_strip_vxlan (tun_off (pm x2)) r2 = Some (v, r3) ∧
            (v = 0 ∧ lpkt r3 = encode f' ++ pad ∨
             v = -1 ∧ pipe_act (pm (xf r3)) = LLB_PIPE_DROP)).
    rewrite X5. split; [exact X7|]. split; [exact Es|].
    apply W; [exact Er|done..| |by left].
    intros κ. right. split; [done|]. change (Z.lor LLB_PIPE_DROP (pipe_act (pm x2)) = LLB_PIPE_DROP).
    by rewrite X6.
  - exfalso. apply W; [exact Er|done..|by right|by left].
Qed.

(** [dp_ipv4_new_csum] on a header without options changes the checksum
    field only, and the header is valid then exactly when folding the sum of
    its other words once leaves no carry; otherwise every receiver that checks
    it drops the tunnelled packet. *)
Theorem outer_checksum {K} vihl tos len id frag ttl proto check saddr daddr pre post
    (s : lstate K) :
  let h := hdr vihl tos len id frag ttl proto saddr daddr in
  lpkt s = pre ++ concat (h check) ++ post → bytes_ok (lpkt s) →
  map length (h check) = [1; 1; 2; 2; 2; 1; 1; 2; 4; 4]%nat →
  ∃ c, dp_ipv4_new_csum (Z.of_nat (length pre)) s =
         Some (tt, s <| lpkt := pre ++ concat (h (le_bytes 2 c)) ++ post |>) ∧
       0 ≤ c < 2 ^ 16 ∧
       (csum_ok (concat (h (le_bytes 2 c))) ↔
        let v := sum16 (concat (h [0; 0])) in Z.land v 0xffff + Z.shiftr v 16 < 2 ^ 16).
Proof.
  intros h E Hb HL.
  pose proof (wp_ipv4_new_csum pre post vihl tos len id frag ttl proto saddr daddr
    (Z.of_nat (length pre)) check (λ _ s', ∃ c,
      s' = s <| lpkt := pre ++ concat (h (le_bytes 2 c)) ++ post |> ∧ 0 ≤ c < 2 ^ 16 ∧
      (csum_ok (concat (h (le_bytes 2 c))) ↔
       no_carry vihl tos len id frag ttl proto saddr daddr)) s) as W.
  unfold wpf in W. destruct (dp_ipv4_new_csum _ s) as [[[] s']|]; [|exfalso; apply W; eauto].
  destruct W as (c & -> & Hc); [done..|by intros c; exists c|]. by exists c.
Qed.

(** ** The theorems at concrete packets *)

Lemma vxlan_hop_witness :
  let x := outer_md syn_frame ref_skb 57 xfi_zero <| il2m ::= λ m, m <| dl_dst := mac 7 |>
             <| dl_src := mac 8 |> <| dl_type := ethertype (f_l3 syn_frame) |> |> in
  let s := ref_state x (encode syn_frame ++ []) in
  let s1 := match dp_do_ins_vxlan 0x0300000a 0x0400000a (bpf_htonl (256 * 77)) s with
            | Some (_, s1) => s1 | None => s end in
  let r := ref_state xfi_zero (lpkt s1) in
  ∃ r1 r2 v r3,
    dp_parse_d0 0 r = Some (0, r1) ∧ dp_pop_outer_metadata true r1 = Some (0, r2) ∧
    tunnel_id (tm (xf r2)) = 77 ∧ dp_do_strip_vxlan (tun_off (pm (xf r2))) r2 = Some (v, r3) ∧
    (v = 0 ∧ lpkt r3 = encode (with_macs syn_frame (il2m (xf s))) ++ [] ∨
     v = -1 ∧ pipe_act (pm (xf r3)) = LLB_PIPE_DROP).
Proof.
  intros x s s1 r.
  assert (dp_do_ins_vxlan 0x0300000a 0x0400000a (bpf_htonl (256 * 77)) s = Some (0, s1)) as Hins
    by (vm_compute; reflexivity).
  assert (lpkt r = lpkt s1) as Er by (subst r; reflexivity).
  assert (bytes_ok (lpkt s)) as Hb by (vm_compute; repeat constructor; discriminate).
  clearbody s1. apply (vxlan_hop syn_frame [] 0x0300000a 0x0400000a 77 s s1 r).
  1-3: reflexivity.
  1: exact Hb.
  1-6: vm_compute; reflexivity.
  1-3: lia.
  1: exact Hins.
  1: exact Er.
  1-2: reflexivity.
  vm_compute. discriminate.
Defined.

(** A header whose sum folds with a carry: its checksum comes out wrong. *)
Definition carry_hdr : list Z → list (list Z) :=
  hdr [0x45] [0] [0; 64] [0xff; 0xff] [0xff; 0xff] [64] [17] [0xff; 0xff; 0x11; 0x11] [0x6a; 0x9d; 0; 0].
Lemma carry_hdr_carries :
  let v := sum16 (concat (carry_hdr [0; 0])) in Z.land v 0xffff + Z.shiftr v 16 = 2 ^ 16.
Proof. reflexivity. Qed.

Lemma outer_checksum_witness :
  let s := ref_state xfi_zero (concat (carry_hdr [0; 0])) in
  ∃ c, dp_ipv4_new_csum 0 s = Some (tt, s <| lpkt := concat (carry_hdr (le_bytes 2 c)) ++ [] |>) ∧
       0 ≤ c < 2 ^ 16 ∧
       (csum_ok (concat (carry_hdr (le_bytes 2 c))) ↔
        let v := sum16 (concat (carry_hdr [0; 0])) in Z.land v 0xffff + Z.shiftr v 16 < 2 ^ 16).
Proof.
  intros s. apply (outer_checksum [0x45] [0] [0; 64] [0xff; 0xff] [0xff; 0xff] [64] [17] [0; 0]
    [0xff; 0xff; 0x11; 0x11] [0x6a; 0x9d; 0; 0] [] [] s); [by rewrite app_nil_r| |done].
  vm_compute. repeat constructor; discriminate.
Defined.
