(* ===== verification/LoxiFwd.v ===== *)
(** * loxilb: forwarding ([kernel/llb_kern_sessfwd.c], [llb_kern_l3fwd.c],
      [llb_kern_l2fwd.c])

    Session, route, next-hop and MAC lookups and the metadata they set.  The
    actions found on the way are collected in [fcas], for the flow cache. *)
From S2P Require Import Prelude Records Words Consts Headers LoxiDefs LoxiTables LoxiState LoxiSkb.
From S2P Require Import LoxiCt LoxiNat LoxiFw LoxiParse LoxiNatRw LoxiDeparse.
Open Scope c_scope.

Definition LL_DP_SMAC_MAP : Z := 3.
Definition LL_DP_TMAC_MAP : Z := 4.
Definition LL_DP_RTV4_MAP : Z := 6.
Definition LL_DP_RTV6_MAP : Z := 7.
Definition LL_DP_NH_MAP : Z := 8.
Definition LL_DP_DMAC_MAP : Z := 9.
Definition LL_DP_SESS4_MAP : Z := 25.
Definition LLB_DP_TMAC_HIT : Z := 0x1.
Definition LLB_XDP_RT_HIT : Z := 0x8.
Definition LLB_DP_FC_HIT : Z := 0x10.
Definition LLB_DP_SESS_HIT : Z := 0x20.
Definition LLB_PIPE_RDR_MASK : Z := Z.lor LLB_PIPE_RDR LLB_PIPE_RDR_PRIO.

Section fwd.
Context {K : Type} `{LoxiEnv K} `{SkbEnv K}.
Implicit Types (R : Type).

Definition LLBS_PPLN_RDR {R} : lbody K R unit :=
  upd_xf (λ x, x <| pm; pipe_act ::= Z.lor LLB_PIPE_RDR |>).

(** [xf->pm.phit |= h] *)
Definition hit {R} (h : Z) : lbody K R unit := upd_xf (λ x, x <| pm; phit ::= λ p, Z.lor p h |>).
Definition set_table {R} (t : Z) : lbody K R unit := upd_xf (λ x, x <| pm; table_id := t |>).
Definition get_table {R A} (f : fwd_tables → A) : lbody K R A := gets (λ s, f (tables s)).
Definition stats {R} (xtbl cidx : Z) : lbody K R unit := call (dp_do_map_stats xtbl cidx).

(** [fa->fcta[i]] is given the action [i] and the member written by [f]. *)
Definition set_fcta {R} (i : Z) (f : dp_fc_tact → dp_fc_tact) : lbody K R unit :=
  modify (λ s, s <| fc; fcas; fcta ::=
    alter (λ ta, f (ta <| fc_ca; act_type := i |>)) (Z.to_nat i) |>).

(** The common end of the lookups: drop, trap, or anything else. *)
Definition drop_or_trap {R} (act : Z) (other : lbody K R unit) : lbody K R unit :=
  if act =? DP_SET_DROP then LLBS_PPLN_DROP
  else if act =? DP_SET_TOCP then LLBS_PPLN_TRAP
  else other.

(** ** Sessions *)

Definition dp_pipe_set_rm_gtp_tun : lfunc K Z := run (
  let! _ := call (dp_pop_outer_metadata false) in
  upd_xf (λ x, x <| tm; tun_type := LLB_TUN_GTP |>) ;;
  ret 0).
Definition dp_pipe_set_rm_ipip_tun : lfunc K Z := run (
  let! _ := call (dp_pop_outer_metadata false) in
  upd_xf (λ x, x <| tm; tun_type := LLB_TUN_IPIP |>) ;;
  ret 0).

Definition sess4_key (x : xfi) : dp_sess4_key :=
  if negb (tunnel_id (tm x) =? 0) && negb (tun_type (tm x) =? LLB_TUN_IPIP) then
    Sess4Key (xa0 (m_daddr (il34m x))) (xa0 (m_saddr (il34m x))) (bpf_ntohl (tunnel_id (tm x)))
  else if nf (pm x) =? LLB_NAT_SRC then Sess4Key (daddr4 x) (nxip4 x) 0
  else if nf (pm x) =? LLB_NAT_DST then Sess4Key (nxip4 x) (saddr4 x) 0
  else Sess4Key (daddr4 x) (saddr4 x) 0.

Definition dp_do_sess4_lkup : lfunc K Z := run (
  let! x := gets xf in
  set_table LL_DP_SESS4_MAP ;;
  let! o := get_table (λ t, sess_v4_map t !! sess4_key x) in
  let! act := or_return o 0 in
  hit LLB_DP_SESS_HIT ;;
  stats LL_DP_SESS4_STATS_MAP (cidx (ss_ca act)) ;;
  let at_ := act_type (ss_ca act) in
  (if at_ =? DP_SET_DROP then LLBS_PPLN_DROP
   else if at_ =? DP_SET_RM_GTP then
     let! _ := call dp_pipe_set_rm_gtp_tun in
     upd_xf (λ x, x <| qm; qfi := ss_qfi act |>) ;;
     hit LLB_DP_TMAC_HIT
   else if at_ =? DP_SET_RM_IPIP then
     let! _ := call dp_pipe_set_rm_ipip_tun in
     hit LLB_DP_TMAC_HIT
   else
     upd_xf (λ x, x <| tm; new_tunnel_id := ss_teid act |> <| tm; tun_type := LLB_TUN_GTP |>
                    <| qm; qfi := ss_qfi act |>
                    <| tm; tun_rip := ss_rip act |> <| tm; tun_sip := ss_sip act |>)) ;;
  ret 0).

(** ** Layer 3 *)

Definition ip_decrease_ttl (iph : Z) : lfunc K Z := run (
  let! check := load16 (iph + ip_check) in
  let check := u32 (check + bpf_htons 0x0100) in
  store16 (iph + ip_check) (u16 (check + if 0xFFFF <=? check then 1 else 0)) ;;
  let! ttl := load8 (iph + ip_ttl) in
  store8 (iph + ip_ttl) (u8 (ttl - 1)) ;;
  ret (u8 (ttl - 1))).
Definition dp_do_rt4_fwdops : lfunc K Z := run (
  let! x := gets xf in
  let iph := l3_off (pm x) in
  need_drop (iph + sizeof_iphdr) ;;
  let! _ := call (ip_decrease_ttl iph) in
  ret 0).
Definition dp_do_rt6_fwdops : lfunc K Z := run (
  let! x := gets xf in
  let ip6h := l3_off (pm x) in
  need_drop (ip6h + sizeof_ipv6hdr) ;;
  let! hops := load8 (ip6h + ip6_hop_limit) in
  store8 (ip6h + ip6_hop_limit) (u8 (hops - 1)) ;;
  ret 0).
(** The type is compared with the constants in host order. *)
Definition dp_do_rt_fwdops : lfunc K Z := run (
  let! x := gets xf in
  if dl_type (l2m x) =? ETH_P_IP then call dp_do_rt4_fwdops
  else if dl_type (l2m x) =? ETH_P_IPV6 then call dp_do_rt6_fwdops
  else ret DP_DROP).

Definition put_l2nh (nl2 : dp_rt_l2nh_act) (x : xfi) : xfi :=
  x <| l2m; dl_dst := l2_dmac nl2 |> <| l2m; dl_src := l2_smac nl2 |>
    <| pm; lkup_dmac := l2_dmac nl2 |> <| pm; bd := l2_bd nl2 |>.

Definition dp_pipe_set_l32_tun_nh (rnh : dp_rt_nh_act) : lfunc K Z := run (
  upd_xf (λ x, put_l2nh (rnh_l2nh rnh)
                 (x <| pm; nh_num := rnh_nh_num rnh |> <| tm; new_tunnel_id := rnh_tid rnh |>)) ;;
  ret 0).

Definition dp_rtv4_get_ipkey (x : xfi) : Z :=
  if has_flag (nf (pm x)) LLB_NAT_DST then
    if negb (nxip4 x =? 0) then nxip4 x else saddr4 x
  else if has_flag (nf (pm x)) LLB_NAT_SRC then
    if negb (xa0 (nm_nrip (nm x)) =? 0) then xa0 (nm_nrip (nm x))
    else if nxip4 x =? 0 then saddr4 x else daddr4 x
  else if negb (new_tunnel_id (tm x) =? 0) && (tun_type (tm x) =? LLB_TUN_GTP)
  then tun_rip (tm x) else daddr4 x.

Definition rtv6_addr (x : xfi) : xaddr :=
  if has_flag (nf (pm x)) LLB_NAT_DST then
    if DP_XADDR_ISZR (nm_nxip (nm x)) then m_saddr (l34m x) else nm_nxip (nm x)
  else if has_flag (nf (pm x)) LLB_NAT_SRC then
    if negb (DP_XADDR_ISZR (nm_nrip (nm x))) then nm_nrip (nm x)
    else if DP_XADDR_ISZR (nm_nxip (nm x)) then m_saddr (l34m x) else m_daddr (l34m x)
  else m_daddr (l34m x).

Definition dp_do_rtops (act : dp_rt_tact) : lfunc K Z := run (
  let at_ := act_type (rt_ca act) in
  if at_ =? DP_SET_RT_NHNUM then
    upd_xf (λ x, x <| pm; nh_num := rnh_nh_num (rt_nh act) |>) ;;
    call dp_do_rt_fwdops
  else
    drop_or_trap at_
      (if at_ =? DP_SET_RDR_PORT then
         LLBS_PPLN_RDR ;; upd_xf (λ x, x <| pm; oport := rdr_oport (rt_port_act act) |>)
       else LLBS_PPLN_DROP) ;;
    ret 0).

(** After the lookup in a route table. *)
Definition route (xtbl : Z) (o : option dp_rt_tact) : lbody K Z Z :=
  match o with
  | None =>
      upd_xf (λ x, x <| pm; nf ::= λ n, Z.land n (Z.lxor 0xff LLB_NAT_SRC) |>) ;;
      ret 0
  | Some act =>
      hit LLB_XDP_RT_HIT ;;
      stats xtbl (cidx (rt_ca act)) ;;
      call (dp_do_rtops act)
  end.

Definition dp_do_rtv6 : lfunc K Z := run (
  let! x := gets xf in
  set_table LL_DP_RTV6_MAP ;;
  let! o := get_table (λ t, rt_v6_map t (rtv6_addr x)) in
  route LL_DP_RTV6_STATS_MAP o).

(** The key: the zone in network order, then the address. *)
Definition rtv4_key (x : xfi) : list Z :=
  [Z.land (Z.shiftr (zone (pm x)) 8) 0xff; Z.land (zone (pm x)) 0xff] ++
  le_bytes 4 (dp_rtv4_get_ipkey x).

Definition dp_do_rtv4 : lfunc K Z := run (
  let! x := gets xf in
  set_table LL_DP_RTV4_MAP ;;
  let! o := get_table (λ t, rt_v4_map t (rtv4_key x)) in
  route LL_DP_RTV4_STATS_MAP o).

(** ** Connections *)
Context (tail : Z → option (lfunc K Z)).

Definition dp_tail_call (idx : Z) : pfunc K Z := run_p (
  let! x := gets xf in
  when (negb (ct_sts (nm x) =? 0)) (return_p DP_PASS) ;;
  bpf_tail_call tail idx ;;
  ret DP_PASS).

(** [act] is the entry found under [key]. *)
Definition dp_do_ctops (key : dp_ct_key) (o : option dp_ct_tact) : pfunc K Z := run_p (
  let ct_trk {A} : pbody K Z A :=
    let! v := call_p (dp_tail_call LLB_DP_CT_PGM_ID) in return_p v in
  match o with
  | None => ct_trk
  | Some act =>
      hit LLB_DP_ACL_HIT ;;
      let! now := ktime_ns in
      ct_write key (λ a, a <| lts := now |>) ;;
      modify (λ s, s <| fc; fcas; fcs_ca ::= λ c, c <| cidx := cidx (ca act) |>
                                                   <| fwrid := fwrid (ca act) |> |>) ;;
      let! x := gets xf in
      let fin := negb (l4fin (pm x) =? 0) in
      let at_ := act_type (ca act) in
      let port_fin : pbody K Z unit :=
        when fin (ct_write key (λ a, a <| port_act; rdr_fr := 1 |>)) ;;
        let! a := ct_read key in
        when (rdr_fr (port_act a) =? 1) ct_trk in
      (if at_ =? DP_SET_DO_CT then ct_trk
       else if at_ =? DP_SET_NOP then port_fin
       else if at_ =? DP_SET_RDR_PORT then
         port_fin ;;
         LLBS_PPLN_RDR_PRIO ;;
         upd_xf (λ x, x <| pm; oport := rdr_oport (port_act act) |>)
       else if (at_ =? DP_SET_SNAT) || (at_ =? DP_SET_DNAT) then
         set_fcta at_ (λ ta, ta <| fc_nat_act := nat_act act |>) ;;
         when fin (ct_write key (λ a, a <| nat_act; na_fr := 1 |>)) ;;
         upd_xf (dp_pipe_set_nat (nat_act act) (at_ =? DP_SET_SNAT)) ;;
         stats LL_DP_NAT_STATS_MAP (na_rid (nat_act act)) ;;
         let! a := ct_read key in
         when ((na_fr (nat_act a) =? 1) || negb (na_doct (nat_act a) =? 0)) ct_trk
       else if at_ =? DP_SET_TOCP then LLBS_PPLN_TRAPC LLB_PIPE_RC_ACL_MISS
       else if at_ =? DP_SET_SESS_FWD_ACT then
         upd_xf (λ x, x <| pm; sess_id := pdr_sess_id act |>)
       else LLBS_PPLN_DROP) ;;
      when (nw_proto (l34m x) =? IPPROTO_TCP) (let! m := gets xf in ct_write key (dp_run_ctact_helper m)) ;;
      when (negb (fwrid (ca act) =? 0))
        (when (negb (record (ca act) =? 0))
           (let! _ := call dp_record_it in
            upd_xf (λ x, x <| pm; dp_rec := record (ca act) |>)) ;;
         stats LL_DP_FW4_STATS_MAP (fwrid (ca act))) ;;
      stats LL_DP_CT_STATS_MAP (cidx (ca act)) ;;
      ret 0
  end).

Definition dp_do_ing_ct : pfunc K Z := run_p (
  let! x := gets xf in
  let key := CT_KEY_GEN x in
  set_table LL_DP_CT_MAP ;;
  let! o := ct_lookup key in
  call_p (dp_do_ctops key o)).

Definition dp_do_ipv4_fwd : lfunc K unit := run (
  let! x := gets xf in
  when ((tunnel_id (tm x) =? 0) || negb (tun_type (tm x) =? LLB_TUN_GTP))
    (let! _ := call dp_do_sess4_lkup in ret tt) ;;
  let! x := gets xf in
  when (has_flag (phit (pm x)) LLB_DP_TMAC_HIT && negb (has_flag (pipe_act (pm x)) LLB_PIPE_RDR_MASK))
    (let! _ := call dp_do_rtv4 in ret tt)).
Definition dp_do_ipv6_fwd : lfunc K unit := run (
  let! x := gets xf in
  when (has_flag (phit (pm x)) LLB_DP_TMAC_HIT && negb (has_flag (pipe_act (pm x)) LLB_PIPE_RDR_MASK))
    (let! _ := call dp_do_rtv6 in ret tt)).

Definition dp_l3_fwd : lfunc K Z := run (
  let! x := gets xf in
  let xlate := upd_xf (λ x, x <| nm; xlate_proto := 1 |>) in
  let nat := negb (nf (pm x) =? 0) in
  (if dl_type (l2m x) =? bpf_htons ETH_P_IP then
     if nat && negb (nm_nv6 (nm x) =? 0) then xlate ;; call dp_do_ipv6_fwd
     else call dp_do_ipv4_fwd
   else when (dl_type (l2m x) =? bpf_htons ETH_P_IPV6)
     (if nat && (nm_nv6 (nm x) =? 0) then xlate ;; call dp_do_ipv4_fwd
      else call dp_do_ipv6_fwd)) ;;
  ret 0).

Definition dp_ing_l3 : pfunc K Z := run_p (
  let! x := gets xf in
  when ((dl_type (l2m x) =? bpf_htons ETH_P_IP) && negb (tunnel_id (tm x) =? 0) &&
        ((tun_type (tm x) =? LLB_TUN_GTP) || (tun_type (tm x) =? LLB_TUN_IPIP)))
    (let! _ := call dp_do_sess4_lkup in ret tt) ;;
  let! _ := call_p dp_do_ing_ct in
  let! _ := call dp_l3_fwd in
  ret 0).

(** ** Layer 2 *)

Definition dp_do_smac_lkup : lfunc K Z := run (
  let! x := gets xf in
  return_if (vlan0 (l2m x) =? 0) 0 ;;
  let key := SmacKey (dl_src (l2m x)) (bd (pm x)) in
  set_table LL_DP_SMAC_MAP ;;
  let! o := get_table (λ t, smac_map t !! key) in
  match o with
  | None => LLBS_PPLN_PASS ;; ret 0
  | Some sma =>
      drop_or_trap (act_type (sm_ca sma))
        (when (negb (act_type (sm_ca sma) =? DP_SET_NOP)) LLBS_PPLN_DROP) ;;
      ret 0
  end).

Definition dp_pipe_set_l22_tun_nh (rnh : dp_rt_nh_act) : lfunc K Z := run (
  upd_xf (λ x, x <| pm; nh_num := rnh_nh_num rnh |> <| tm; new_tunnel_id := rnh_tid rnh |>) ;;
  ret 0).

Definition dp_pipe_set_rm_vx_tun (rnh : dp_rt_nh_act) : lfunc K Z := run (
  upd_xf (λ x, x <| pm; phit ::= λ h, Z.land h (Z.lxor 0xff LLB_DP_TMAC_HIT) |>
                 <| pm; bd := rnh_bd rnh |>) ;;
  call (dp_pop_outer_metadata true)).

(** [__dp_do_tmac_lkup] *)
Definition do_tmac_lkup (tun_lkup : bool) : lfunc K Z := run (
  let! x := gets xf in
  let key := if tun_lkup then TmacKey (dl_dst (l2m x)) (tun_type (tm x)) (tunnel_id (tm x))
             else TmacKey (dl_dst (l2m x)) 0 0 in
  set_table LL_DP_TMAC_MAP ;;
  let! o := get_table (λ t, tmac_map t !! key) in
  let! tma := or_return o 0 in
  when (negb (cidx (tma_ca tma) =? 0)) (stats LL_DP_TMAC_STATS_MAP (cidx (tma_ca tma))) ;;
  let at_ := act_type (tma_ca tma) in
  if at_ =? DP_SET_RT_TUN_NH then
    set_fcta DP_SET_RT_TUN_NH (λ ta, ta <| nh_act := tma_rt_nh tma |>) ;;
    call (dp_pipe_set_l22_tun_nh (tma_rt_nh tma))
  else if at_ =? DP_SET_RM_VXLAN then
    set_fcta DP_SET_RM_VXLAN (λ ta, ta <| nh_act := tma_rt_nh tma |>) ;;
    call (dp_pipe_set_rm_vx_tun (tma_rt_nh tma))
  else
    drop_or_trap at_ (when (at_ =? DP_SET_L3_EN) (hit LLB_DP_TMAC_HIT)) ;;
    ret 0).

Definition dp_do_tmac_lkup : lfunc K Z := do_tmac_lkup false.
Definition dp_do_tun_lkup : lfunc K Z := run (
  let! x := gets xf in
  if negb (tunnel_id (tm x) =? 0) then call (do_tmac_lkup true) else ret 0).

Definition dp_set_egr_vlan (vlan oport_ : Z) : lfunc K Z := run (
  LLBS_PPLN_RDR ;;
  upd_xf (λ x, x <| pm; oport := oport_ |> <| pm; bd := vlan |>) ;;
  ret 0).

Definition dp_do_dmac_lkup : lfunc K Z := run (
  let! x := gets xf in
  let key := DmacKey (lkup_dmac (pm x)) (bd (pm x)) in
  set_table LL_DP_DMAC_MAP ;;
  let! o := get_table (λ t, dmac_map t !! key) in
  match o with
  | None => LLBS_PPLN_PASS ;; ret 0
  | Some dma =>
      let at_ := act_type (dma_ca dma) in
      if at_ =? DP_SET_RDR_PORT then
        LLBS_PPLN_RDR ;;
        upd_xf (λ x, x <| pm; oport := rdr_oport (dma_port_act dma) |>) ;;
        ret 0
      else if (at_ =? DP_SET_ADD_L2VLAN) || (at_ =? DP_SET_RM_L2VLAN) then
        let va := vlan_act dma in
        set_fcta at_ (λ ta, ta <| l2ov := va |>) ;;
        call (dp_set_egr_vlan (if at_ =? DP_SET_RM_L2VLAN then 0 else va_vlan va) (va_oport va))
      else drop_or_trap at_ (ret tt) ;; ret 0
  end).

Definition dp_do_rt_l2_nh (nl2 : dp_rt_l2nh_act) : lfunc K Z := run (
  upd_xf (put_l2nh nl2) ;;
  ret (rnh_num nl2)).

Definition dp_do_rt_tun_nh (type : Z) (n : dp_rt_tunnh_act) : lfunc K Z := run (
  upd_xf (λ x, x <| tm; tun_rip := t_rip (l3t n) |> <| tm; tun_sip := t_sip (l3t n) |>
                 <| tm; new_tunnel_id := t_tid (l3t n) |> <| tm; tun_type := type |>) ;;
  when (type =? LLB_TUN_VXLAN)
    (upd_xf (λ x, x <| il2m := l2m x <| vlan0 := 0 |> |>)) ;;
  upd_xf (put_l2nh (tun_l2nh n)) ;;
  ret 0).

(** The tunnel part of [dp_do_nh_lkup]. *)
Definition nh_tunnel (nha : dp_nh_tact) : lbody K Z Z :=
  let at_ := act_type (nha_ca nha) in
  if at_ =? DP_SET_NEIGH_VXLAN then
    set_fcta DP_SET_NEIGH_VXLAN (λ ta, ta <| ntun := rt_tnh nha |>) ;;
    call (dp_do_rt_tun_nh LLB_TUN_VXLAN (rt_tnh nha))
  else if at_ =? DP_SET_NEIGH_IPIP then call (dp_do_rt_tun_nh LLB_TUN_IPIP (rt_tnh nha))
  else ret 0.

Definition dp_do_nh_lkup : lfunc K Z := run (
  let! x := gets xf in
  set_table LL_DP_NH_MAP ;;
  let! o := get_table (λ t, nh_map t !! nh_num (pm x)) in
  match o with
  | None => LLBS_PPLN_TRAP ;; ret 0
  | Some nha =>
      let at_ := act_type (nha_ca nha) in
      if at_ =? DP_SET_NEIGH_L2 then
        set_fcta DP_SET_NEIGH_L2 (λ ta, ta <| nl2 := rt_l2nh nha |>) ;;
        let! rnh := call (dp_do_rt_l2_nh (rt_l2nh nha)) in
        if negb (rnh =? 0) then
          let! o := get_table (λ t, nh_map t !! rnh) in
          match o with
          | None => LLBS_PPLN_TRAP ;; ret 0
          | Some nha => nh_tunnel nha
          end
        else nh_tunnel nha
      else
        drop_or_trap at_ (ret tt) ;;
        nh_tunnel nha
  end).

Definition dp_eg_l2 : lfunc K Z := run (
  let! x := gets xf in
  return_if (has_flag (pipe_act (pm x)) LLB_PIPE_RDR_MASK) 0 ;;
  when (negb (nh_num (pm x) =? 0)) (let! _ := call dp_do_nh_lkup in ret tt) ;;
  let! x := gets xf in
  stats LL_DP_TX_BD_STATS_MAP (bd (pm x)) ;;
  let! _ := call dp_do_dmac_lkup in
  ret 0).

Definition dp_ing_fwd : pfunc K Z := run_p (
  let! _ := call_p dp_ing_l3 in
  call dp_eg_l2).

Definition dp_ing_l2_top : lfunc K Z := run (
  let! _ := call dp_do_smac_lkup in
  let! _ := call dp_do_tmac_lkup in
  let! _ := call dp_do_tun_lkup in
  let! x := gets xf in
  when (negb (tun_decap (tm x) =? 0))
    (let! _ := call dp_do_smac_lkup in
     let! _ := call dp_do_tmac_lkup in ret tt) ;;
  ret 0).

Definition dp_ing_l2 : pfunc K Z := run_p (
  let! _ := call dp_ing_l2_top in
  call_p dp_ing_fwd).
End fwd.
