(* ===== verification/LoxiSum.v ===== *)
(** * loxilb: SCTP checksums ([kernel/llb_kern_sum.c], [kernel/loxilb_libdp.c])

    The CRC32C of a translated SCTP packet is computed by two programs that
    call each other, 256 bytes at a time, with the table the user-space
    library writes. *)
From S2P Require Import Prelude Records Words Consts LoxiDefs LoxiTables LoxiState LoxiSkb.
From S2P Require Import LoxiRef LoxiParse LoxiNatRw LoxiDeparse.
Open Scope c_scope.

Definition DP_MAX_LOOPS_PER_TCALL : nat := 256.
Definition LLB_DP_CRC_PGM_ID2 : Z := 5.

(** ** The table ([llb_setup_crc32c_map]) *)
Definition crc32c_poly : Z := 0x82f63b78.
Fixpoint crc_bits (n : nat) (crc : Z) : Z :=
  match n with
  | O => crc
  | S n => crc_bits n (if Z.testbit crc 0 then Z.lxor (Z.shiftr crc 1) crc32c_poly
                       else Z.shiftr crc 1)
  end.
Definition crc32c_entry (i : Z) : Z := crc_bits 8 i.
Definition crc32c_table : gmap Z Z :=
  list_to_map (map (λ i, (Z.of_nat i, crc32c_entry (Z.of_nat i))) (seq 0 256)).

Section sum.
Context {K : Type} `{SkbEnv K} (tail : Z → option (lfunc K Z)).

Definition get_crc32c_map {R} (off : Z) : lbody K R Z :=
  gets (λ s, default 0 (crc32c_map (tables s) !! off)).

(** [dp_pktbuf_read] of a byte: [None] for an error. *)
Definition dp_pktbuf_read {R} (off : Z) : lbody K R (option Z) :=
  gets (λ s, if off <? 0 then None else lpkt s !! Z.to_nat off).

(** The loop, with [n] iterations left: the offset, the bytes left and the
    checksum behind it; [return_p DP_DROP] when the packet cannot be read. *)
Fixpoint crc_loop (n : nat) (off rlen crc : Z) : pbody K Z (Z * Z * Z) :=
  match n with
  | O => ret (off, rlen, crc)
  | S n =>
      if 0 <? rlen then
        let! o := dp_pktbuf_read off in
        match o with
        | None => return_p DP_DROP
        | Some pb =>
            let idx := Z.land (Z.lxor crc pb) 0xff in
            let! tbval := get_crc32c_map idx in
            crc_loop n (off + 1) (rlen - 1) (Z.lxor tbval (Z.shiftr crc 8))
        end
      else ret (off, rlen, crc)
  end.

Definition dp_sctp_csum : pfunc K Z := run_p (
  let! x := gets xf in
  let tcall := u8 (Z.lnot (sk_tcall (km x))) in
  let off := sk_off (km x) in
  let crc := if negb (off =? 0) then sk_crc (km x) else 0xffffffff in
  let! (p, crc) := crc_loop DP_MAX_LOOPS_PER_TCALL off (sk_rlen (km x)) crc in
  let '(off, rlen) := p in
  when (rlen <=? 0)
    (when (nw_proto (l34m x) =? IPPROTO_SCTP)
       (let! oob := past_end (l4_off (pm x) + sizeof_sctphdr) in
        when oob (LLBS_PPLN_DROP ;; return_p DP_DROP) ;;
        let! _ := bpf_skb_store_bytes (l4_off (pm x) + sctp_checksum)
                    (le_bytes 4 (Z.lxor crc 0xffffffff)) in
        upd_xf (λ x, x <| pm; nf := 0 |>)) ;;
     RETURN_TO_MP_OUT tail) ;;
  upd_xf (λ x, x <| km := KeyMdi tcall (u16 off) (u16 rlen) crc |>) ;;
  bpf_tail_call tail (if negb (tcall =? 0) then LLB_DP_CRC_PGM_ID2 else LLB_DP_CRC_PGM_ID1) ;;
  ret DP_DROP).
End sum.
