(* ===== verification/LoxiMain.v ===== *)
(** * loxilb: the programs ([kernel/llb_kern_devif.c], [llb_kern_fcfwd.c],
      [llb_kern_entry.c])

    Interfaces, mirrors, the verdict, the flow cache, and the tc programs with
    their tail calls. *)
From S2P Require Import Prelude Records Words Consts LoxiDefs LoxiTables LoxiState LoxiSkb.
From S2P Require Import LoxiCt LoxiNat LoxiPolicer LoxiFw LoxiParse LoxiNatRw LoxiDeparse LoxiFwd LoxiSum.
Open Scope c_scope.

Definition LL_DP_FCV4_MAP : Z := 19.
Definition LLB_PIPE_REWIRE : Z := 0x10.
Definition LLB_DP_PKT_PGM_ID : Z := 0.
Definition LLB_DP_PKT_SLOW_PGM_ID : Z := 1.

(** The packet may be cached. *)
Definition LL_PIPE_FC_CAP (x : xfi) : bool :=
  (pipe_act (pm x) =? LLB_PIPE_RDR) && has_flag (phit (pm x)) LLB_DP_ACL_HIT &&
  negb (has_flag (phit (pm x)) LLB_DP_SESS_HIT) && negb (tun_type (tm x) =? LLB_TUN_IPIP) &&
  (dl_type (l2m x) =? bpf_htons ETH_P_IP) && (ipolid (qm x) =? 0) &&
  (xlate_proto (nm x) =? 0) && (dp_rec (pm x) =? 0) && (mirr (pm x) =? 0).

Section main.
Context {K : Type} `{LoxiEnv K} `{SkbEnv K}.
Context (tail : Z → option (lfunc K Z)).

(** ** Interfaces and mirrors *)

Definition dp_do_if_lkup : lfunc K Z := run (
  let! b := gets skb in
  let! x := gets xf in
  let key := IntfKey (ifindex b) (vlan0 (l2m x)) in
  set_table LL_DP_SMAC_MAP ;;
  let! o := get_table (λ t, intf_map t !! key) in
  match o with
  | None => LLBS_PPLN_PASS ;; ret (-1)
  | Some l2a =>
      let i := set_ifi l2a in
      drop_or_trap (act_type (if_ca l2a))
        (if act_type (if_ca l2a) =? DP_SET_IFI then
           upd_xf (λ x, x <| pm; iport := xdp_ifidx i |> <| pm; zone := si_zone i |>
                          <| pm; bd := si_bd i |> <| pm; mirr := si_mirr i |>
                          <| pm; pprop := si_pprop i |> <| qm; ipolid := si_polid i |>)
         else LLBS_PPLN_DROP) ;;
      ret 0
  end).

Definition dp_do_mark_mirr : lfunc K Z := run (
  let! x := gets xf in
  let! o := get_table (λ t, tx_intf_map t !! LLB_PORT_NO) in
  let! oif := or_return o (-1) in
  modify (λ s, s <| skb; cb0 := LLB_MIRR_MARK |> <| skb; cb1 := mirr (pm x) |>) ;;
  bpf_clone_redirect oif BPF_F_INGRESS).

Definition dp_do_mirr_lkup : lfunc K Z := run (
  let! x := gets xf in
  let! o := get_table (λ t, mirr_map t !! mirr (pm x)) in
  match o with
  | Some ma =>
      let at_ := act_type (mi_ca ma) in
      let va := mi_vlan_act ma in
      if (at_ =? DP_SET_ADD_L2VLAN) || (at_ =? DP_SET_RM_L2VLAN)
      then call (dp_set_egr_vlan (if at_ =? DP_SET_RM_L2VLAN then 0 else va_vlan va) (va_oport va))
      else LLBS_PPLN_DROP ;; ret (-1)
  | None => LLBS_PPLN_DROP ;; ret (-1)
  end).

Definition dp_ing : lfunc K Z := run (
  let! _ := call dp_do_if_lkup in
  let! x := gets xf in
  stats LL_DP_BD_STATS_MAP (bd (pm x)) ;;
  when (negb (mirr (pm x) =? 0)) (let! _ := call dp_do_mark_mirr in ret tt) ;;
  when (negb (ipolid (qm x) =? 0)) (let! _ := call (do_dp_policer false) in ret tt) ;;
  ret 0).

(** ** The verdict *)

Definition dp_redir_packet : lfunc K Z := run (
  let! r := call dp_redirect_port in
  ret (if negb (r =? DP_REDIRECT) then DP_DROP else DP_REDIRECT)).
Definition dp_rewire_packet : lfunc K Z := run (
  let! r := call dp_rewire_port in
  ret (if negb (r =? DP_REDIRECT) then DP_DROP else DP_REDIRECT)).

Definition dp_pipe_check_res : pfunc K Z := run_p (
  let! x := gets xf in
  when (negb (pipe_act (pm x) =? 0))
    (when (has_flag (pipe_act (pm x)) LLB_PIPE_DROP) (return_p DP_DROP) ;;
     drop_if (call_p (dp_unparse_packet_always tail)) DP_DROP ;;
     let! x := gets xf in
     when (has_flag (pipe_act (pm x)) (Z.lor LLB_PIPE_TRAP LLB_PIPE_PASS)) (return_p DP_PASS) ;;
     when (has_flag (pipe_act (pm x)) LLB_PIPE_RDR_MASK)
       (drop_if (call dp_unparse_packet) DP_DROP ;;
        let! r := call dp_redir_packet in return_p r)) ;;
  ret DP_PASS).

(** ** The slow path *)

Definition dp_insert_fcv4 : lfunc K Z := run (
  let! x := gets xf in
  let! o := get_table (λ t, tx_intf_map t !! oport (pm x)) in
  match o with
  | Some oif => modify (λ s, s <| fc; fcas; fcs_ca; oaux := u16 oif |>)
  | None => ret tt
  end ;;
  let! key := gets (λ s, xfck (fc s)) in
  let! o := gets (λ s, fc_v4_map (fc s) !! key) in
  match o with
  | Some _ => ret 1
  | None =>
      (λ s, let '(m, κ) := sk_fc_update key (fcas (fc s)) (fc_v4_map (fc s)) (lkern s) in
            Next tt (s <| fc; fc_v4_map := m |> <| lkern := κ |>)) ;;
      ret 0
  end).

(** [fa] is set up for a new packet. *)
Definition new_fa (now : Z) (fa : dp_fc_tacts) : dp_fc_tacts :=
  fa <| fcs_ca; ftrap := 0 |> <| fcs_ca; cidx := 0 |> <| fc_zone := 0 |> <| its := now |>
     <| fcta ::= map (λ ta, ta <| fc_ca; act_type := 0 |>) |>.

Definition dp_ing_slow_main : pfunc K Z := run_p (
  let! now := ktime_ns in
  modify (λ s, s <| fc; fcas ::= new_fa now |>) ;;
  let! x := gets xf in
  (if negb (mirr (pm x) =? 0) then let! _ := call dp_do_mirr_lkup in ret tt
   else
     let! _ := call dp_ing in
     let! x := gets xf in
     when (negb (negb (pipe_act (pm x) =? 0) || (tc (pm x) =? 0)))
       (let! _ := call_p (dp_ing_l2 tail) in
        let! x := gets xf in
        when (LL_PIPE_FC_CAP x)
          (modify (λ s, s <| fc; fcas; fc_zone := zone (pm x) |>) ;;
           let! _ := call dp_insert_fcv4 in ret tt))) ;;
  hit LLB_DP_RES_HIT ;;
  bpf_tail_call tail LLB_DP_CT_PGM_ID ;;
  ret DP_PASS).

Definition dp_ing_ct_main : pfunc K Z := run_p (
  let! x := gets xf in
  let res_end {A} : pbody K Z A := let! v := call_p dp_pipe_check_res in return_p v in
  when (has_flag (phit (pm x)) LLB_DP_RES_HIT) res_end ;;
  when (negb (has_flag (phit (pm x)) LLB_DP_ACL_HIT))
    (when (fw_lid (pm x) <? LLB_FW4_MAP_ENTRIES) (bpf_tail_call tail LLB_DP_FW_PGM_ID) ;;
     when (negb (dp_rec (pm x) =? 0)) (let! _ := call dp_record_it in ret tt) ;;
     let! _ := call dp_do_nat in ret tt) ;;
  let! v := call dp_ct_in in
  when (v <? 0) (return_p DP_PASS) ;;
  upd_xf (λ x, x <| nm; ct_sts := LLB_PIPE_CT_INP |>) ;;
  let! _ := call dp_l3_fwd in
  let! _ := call dp_eg_l2 in
  res_end).

(** [dp_do_fw_main] as a program: behind its tail call it drops the packet. *)
Definition fw_prog : pfunc K Z := run_p (
  let! e := call dp_do_fw_main in
  match e with
  | TailCall idx => bpf_tail_call tail idx ;; ret DP_DROP
  | Exit r => ret r
  end).

(** ** The flow cache *)

Definition dp_mk_fcv4_key (x : xfi) : dp_fcv4_key :=
  Fcv4Key (dl_src (l2m x)) (dl_dst (l2m x)) (dl_src (il2m x)) (dl_dst (il2m x))
    (daddr4 x) (saddr4 x) (m_source (l34m x)) (m_dest (l34m x)) 0
    (nw_proto (l34m x)) (nw_proto (il34m x)) (m_source (il34m x))
    (xa0 (m_daddr (il34m x))) (xa0 (m_saddr (il34m x))) (m_dest (il34m x)) 0.

(** Element [i] of [acts->fcta], when its type is [i]. *)
Definition cached (acts : dp_fc_tacts) (i : Z) : option dp_fc_tact :=
  match fcta acts !! Z.to_nat i with
  | Some ta => if act_type (fc_ca ta) =? i then Some ta else None
  | None => None
  end.
Definition when_cached {R} (o : option dp_fc_tact) (f : dp_fc_tact → lbody K R unit)
    (other : lbody K R unit) : lbody K R unit :=
  match o with Some ta => f ta | None => other end.

Definition fc_nat (do_snat : bool) (ta : dp_fc_tact) : pbody K Z unit :=
  let na := fc_nat_act ta in
  when ((na_fr na =? 1) || negb (na_doct na =? 0)) (return_p 0) ;;
  upd_xf (dp_pipe_set_nat na do_snat) ;;
  stats LL_DP_NAT_STATS_MAP (na_rid na).

Definition ignore {R A} (m : lbody K R A) : lbody K R unit := let! _ := m in ret tt.

Definition dp_do_fcv4_lkup : pfunc K Z := run_p (
  let! x := gets xf in
  let key := dp_mk_fcv4_key x in
  let miss : pbody K Z unit := modify (λ s, s <| fc; xfck := key |>) in
  let del : pbody K Z unit := modify (λ s, s <| fc; fc_v4_map ::= delete key |>) in
  set_table LL_DP_FCV4_MAP ;;
  let! o := gets (λ s, fc_v4_map (fc s) !! key) in
  match o with
  | None => miss ;; ret 0
  | Some acts =>
      let! now := ktime_ns in
      when (FC_V4_DPTO <? u64 (now - its acts)) (miss ;; del ;; return_p 0) ;;
      when (negb (ftrap (fcs_ca acts) =? 0)) (return_p 0) ;;
      upd_xf (λ x, x <| pm; zone := u16 (fc_zone acts) |>) ;;
      when_cached (cached acts DP_SET_RM_VXLAN)
        (λ ta, ignore (call (dp_pipe_set_rm_vx_tun (nh_act ta)))) (ret tt) ;;
      when_cached (cached acts DP_SET_SNAT) (fc_nat true)
        (when_cached (cached acts DP_SET_DNAT) (fc_nat false) (ret tt)) ;;
      when_cached (cached acts DP_SET_RT_TUN_NH)
        (λ ta, ignore (call (dp_pipe_set_l22_tun_nh (nh_act ta))))
        (when_cached (cached acts DP_SET_L3RT_TUN_NH)
           (λ ta, ignore (call (dp_pipe_set_l32_tun_nh (nh_act ta)))) (ret tt)) ;;
      when_cached (cached acts DP_SET_NEIGH_L2)
        (λ ta, ignore (call (dp_do_rt_l2_nh (nl2 ta)))) (ret tt) ;;
      when_cached (cached acts DP_SET_NEIGH_VXLAN)
        (λ ta, ignore (call (dp_do_rt_tun_nh LLB_TUN_VXLAN (ntun ta)))) (ret tt) ;;
      when_cached (cached acts DP_SET_ADD_L2VLAN)
        (λ ta, ignore (call (dp_set_egr_vlan (va_vlan (l2ov ta)) (va_oport (l2ov ta)))))
        (when_cached (cached acts DP_SET_RM_L2VLAN)
           (λ ta, ignore (call (dp_set_egr_vlan 0 (va_oport (l2ov ta)))))
           (del ;; return_p 0)) ;;
      let! x := gets xf in
      when (negb (l4fin (pm x) =? 0))
        (modify (λ s, s <| fc; fc_v4_map ::= alter (λ a, a <| fcs_ca; ftrap := 1 |>) key |>) ;;
         del ;; return_p 0) ;;
      when (nw_proto (l34m x) =? IPPROTO_TCP) (ignore (call dp_run_ct_helper)) ;;
      when (negb (fwrid (fcs_ca acts) =? 0)) (stats LL_DP_FW4_STATS_MAP (fwrid (fcs_ca acts))) ;;
      stats LL_DP_CT_STATS_MAP (cidx (fcs_ca acts)) ;;
      hit LLB_DP_FC_HIT ;;
      ignore (call_p (dp_unparse_packet_always tail)) ;;
      ignore (call dp_unparse_packet) ;;
      upd_xf (λ x, x <| pm; oport := oaux (fcs_ca acts) |>) ;;
      ret 1
  end).

Definition dp_ing_fc_main : pfunc K Z := run_p (
  let! x := gets xf in
  when ((pipe_act (pm x) =? 0) && (dl_type (l2m x) =? bpf_ntohs ETH_P_IP))
    (let! r := call_p dp_do_fcv4_lkup in
     when (r =? 1)
       (let! x := gets xf in
        when (pipe_act (pm x) =? LLB_PIPE_RDR)
          (let! v := bpf_redirect (oport (pm x)) 0 in return_p v))) ;;
  bpf_tail_call tail LLB_DP_PKT_SLOW_PGM_ID ;;
  ret DP_PASS).

(** ** The programs *)

Definition dp_ing_pkt_main : pfunc K Z := run_p (
  let! _ := call (dp_parse_d0 0) in
  let! x := gets xf in
  let act := pipe_act (pm x) in
  if has_flag act LLB_PIPE_REWIRE then call dp_rewire_packet
  else if has_flag act LLB_PIPE_RDR then call dp_redir_packet
  else if has_flag act LLB_PIPE_PASS || has_flag act LLB_PIPE_TRAP then ret DP_PASS
  else call_p dp_ing_slow_main).

Definition tc_packet_func__ : pfunc K Z := run_p (
  modify (λ s, s <| xf := xfi_zero <| pm; tc := 1 |> |>) ;;
  call_p dp_ing_pkt_main).

Definition tc_packet_func_fast : pfunc K Z := run_p (
  modify (λ s, s <| xf := xfi_zero |>) ;;
  let! _ := call (dp_parse_d0 1) in
  call_p dp_ing_fc_main).
Definition tc_packet_func : pfunc K Z := tc_packet_func__.
Definition tc_packet_func_slow : pfunc K Z := dp_ing_ct_main.
Definition tc_packet_func_fw : pfunc K Z := fw_prog.
Definition tc_csum_func1 : pfunc K Z := dp_sctp_csum tail.
Definition tc_csum_func2 : pfunc K Z := dp_sctp_csum tail.
Definition tc_slow_unp_func : pfunc K Z := dp_unparse_packet_always_slow tail.

(** The entries of [pgm_tbl]. *)
Definition pgm_tbl (idx : Z) : option (pfunc K Z) :=
  nth_error [tc_packet_func_fast; tc_packet_func; tc_packet_func_slow; tc_packet_func_fw;
             tc_csum_func1; tc_csum_func2; tc_slow_unp_func] (Z.to_nat idx).
End main.

(** The programs when [calls] tail calls are allowed. *)
Fixpoint tail_calls {K} `{LoxiEnv K} `{SkbEnv K} (calls : nat) (idx : Z) : option (lfunc K Z) :=
  match calls with
  | O => None
  | S calls => run_prog <$> pgm_tbl (tail_calls calls) idx
  end.

(** The kernel allows 33 of them. *)
Definition MAX_TAIL_CALL_CNT : nat := 33.
Definition tc_main {K} `{LoxiEnv K} `{SkbEnv K} : lfunc K Z :=
  run_prog (tc_packet_func_fast (tail_calls MAX_TAIL_CALL_CNT)).
