(* ===== verification/LoxiMainSpec.v ===== *)
(** * loxilb: a packet's way through the programs

    The slow path for a packet of an established, translated connection, from
    the parser to the interface it leaves by; the flow cache entry it makes;
    and the fast path of the packets that follow. *)
From S2P Require Import Prelude Records Words Consts LoxiDefs LoxiTables LoxiState LoxiSkb LoxiRef.
From S2P Require Import LoxiCt LoxiNat LoxiFw LoxiParse LoxiParseSpec LoxiNatRw LoxiNatSpec LoxiDeparse.
From S2P Require Import LoxiTunSpec LoxiFwd LoxiMain.
Open Scope c_scope.

(** Comparisons of constants. *)
Ltac eval_eqb :=
  repeat match goal with |- context [?a =? ?b] =>
    let v := eval vm_compute in (a =? b) in
    match v with true => change (a =? b) with true | false => change (a =? b) with false end
  end; cbn [negb orb andb].

(** ** Steps *)
Section steps.
Context {K : Type} `{LoxiEnvLaws K} `{SkbEnvLaws K}.
Implicit Types (s : lstate K) (x : xfi).

(** The state [s] in the middle of a run: metadata, connection table, flow
    cache, statistics and kernel state have changed. *)
Definition mid s (x : xfi) (cm : ct_table) (fv : fc_maps) (st : gmap Z (gmap Z dp_pb_stats))
    (κ : K) : lstate K :=
  s <| xf := x |> <| ct_map := cm |> <| fc := fv |> <| stats_maps := st |> <| lkern := κ |>.

Lemma mid_eta s : s = mid s (xf s) (ct_map s) (fc s) (stats_maps s) (lkern s).
Proof. by destruct s. Qed.

Section mid.
Context (s : lstate K) {R : Type} (QR : R → lstate K → Prop).
Abbreviation M := (mid s).

Lemma wp_mid_upd g x cm fv st κ QN :
  QN tt (M (g x) cm fv st κ) → wpb (upd_xf g) QR QN (M x cm fv st κ).
Proof. done. Qed.

Lemma wp_mid_xf x cm fv st κ QN :
  QN x (M x cm fv st κ) → wpb (gets xf) QR QN (M x cm fv st κ).
Proof. done. Qed.

Lemma wp_mid_table {A} (f : fwd_tables → A) x cm fv st κ QN :
  QN (f (tables s)) (M x cm fv st κ) → wpb (get_table f) QR QN (M x cm fv st κ).
Proof. done. Qed.

Lemma wp_mid_fc g x cm fv st κ QN :
  QN tt (M x cm (g fv) st κ) → wpb (modify (λ s, s <| fc ::= g |>)) QR QN (M x cm fv st κ).
Proof. done. Qed.

Lemma wp_mid_stats t c x cm fv st κ QN :
  (∀ st κ, QN tt (M x cm fv st κ)) → wpb (stats t c) QR QN (M x cm fv st κ).
Proof.
  intros HQ. apply wp_call, wp_run, wp_bind, wp_return_if; [intros _; apply HQ|intros _].
  apply wp_bind, wp_gets, wp_bind, wp_gets.
  destruct (stats_map t (M x cm fv st κ) !! c) as [pb|].
  - apply wp_modify.
    match goal with |- QN tt ?s' => change s' with (M x cm fv (stats_maps s') κ) end. apply HQ.
  - unfold wpb. destruct (lx_stats_update _ _ _ _ _) as [t' κ'].
    match goal with |- QN tt ?s' => change s' with (M x cm fv (stats_maps s') κ') end. apply HQ.
Qed.

Lemma wp_mid_time x cm fv st κ QN :
  (∀ now κ, 0 ≤ now < 2 ^ 64 → QN now (M x cm fv st κ)) → wpb ktime_ns QR QN (M x cm fv st κ).
Proof.
  intros HQ. unfold wpb, ktime_ns. change (lkern (M x cm fv st κ)) with κ.
  pose proof (lx_ktime_range κ) as Hr. destruct (lx_ktime κ) as [now κ']. by apply HQ.
Qed.

Lemma wp_mid_ct_write k f a x cm fv st κ QN :
  cm !! k = Some a → QN tt (M x (<[k := f a]> cm) fv st κ) →
  wpb (ct_write k f) QR QN (M x cm fv st κ).
Proof.
  intros Hk HQ. apply wp_bind, wp_gets, wp_bind. change (ct_map (M x cm fv st κ)) with cm.
  apply (wp_or_fault _ a); [exact Hk|]. apply wp_modify.
  change (M x cm fv st κ <| ct_map ::= alter f k |>) with (M x (alter f k cm) fv st κ).
  replace (alter f k cm) with (<[k := f a]> cm); [done|].
  rewrite <-(insert_id cm k a Hk) at 2. by rewrite alter_insert_eq.
Qed.

Lemma wp_mid_ct_read k a x cm fv st κ QN :
  cm !! k = Some a → QN a (M x cm fv st κ) → wpb (ct_read k) QR QN (M x cm fv st κ).
Proof. intros Hk HQ. apply wp_bind, wp_gets. by apply (wp_or_fault _ a). Qed.
End mid.

(** ** Metadata along the way *)
Definition if_md (i : dp_intf_tact_set_ifi) (x : xfi) : xfi :=
  x <| pm; table_id := LL_DP_SMAC_MAP |>
    <| pm; iport := xdp_ifidx i |> <| pm; zone := si_zone i |> <| pm; bd := si_bd i |>
    <| pm; mirr := si_mirr i |> <| pm; pprop := si_pprop i |> <| qm; ipolid := si_polid i |>.
Definition tmac_md (x : xfi) : xfi :=
  x <| pm; table_id := LL_DP_TMAC_MAP |> <| pm; phit ::= λ p, Z.lor p LLB_DP_TMAC_HIT |>.
Definition ct_md (act : dp_ct_tact) (x : xfi) : xfi :=
  dp_pipe_set_nat (nat_act act) (act_type (ca act) =? DP_SET_SNAT)
    (x <| pm; table_id := LL_DP_CT_MAP |> <| pm; phit ::= λ p, Z.lor p LLB_DP_ACL_HIT |>).
Definition rt_md (rt : dp_rt_tact) (x : xfi) : xfi :=
  x <| pm; table_id := LL_DP_SESS4_MAP |> <| pm; table_id := LL_DP_RTV4_MAP |>
    <| pm; phit ::= λ p, Z.lor p LLB_XDP_RT_HIT |> <| pm; nh_num := rnh_nh_num (rt_nh rt) |>.
Definition nh_md (n : dp_nh_tact) (x : xfi) : xfi :=
  put_l2nh (rt_l2nh n) (x <| pm; table_id := LL_DP_NH_MAP |>).
Definition dmac_md (dma : dp_dmac_tact) (x : xfi) : xfi :=
  x <| pm; table_id := LL_DP_DMAC_MAP |> <| pm; pipe_act ::= Z.lor LLB_PIPE_RDR |>
    <| pm; oport := va_oport (vlan_act dma) |> <| pm; bd := 0 |>.

Section lookups.
Context (s : lstate K).
Abbreviation M := (mid s).

Lemma wp_if_lkup l2a x cm fv st κ Q :
  intf_map (tables s) !! IntfKey (ifindex (skb s)) (vlan0 (l2m x)) = Some l2a →
  act_type (if_ca l2a) = DP_SET_IFI →
  Q 0 (M (if_md (set_ifi l2a) x) cm fv st κ) → wpf dp_do_if_lkup Q (M x cm fv st κ).
Proof.
  intros Hi Ha HQ. apply wp_run, wp_bind, wp_gets, wp_bind, wp_mid_xf, wp_bind, wp_mid_upd.
  apply wp_bind, wp_mid_table. change (skb (M x cm fv st κ)) with (skb s). rewrite Hi, Ha.
  apply wp_bind, wp_mid_upd, wp_ret, HQ.
Qed.

Lemma wp_tmac_lkup tma x cm fv st κ Q :
  tmac_map (tables s) !! TmacKey (dl_dst (l2m x)) 0 0 = Some tma →
  act_type (tma_ca tma) = DP_SET_L3_EN →
  (∀ st κ, Q 0 (M (tmac_md x) cm fv st κ)) → wpf dp_do_tmac_lkup Q (M x cm fv st κ).
Proof.
  intros Ht Ha HQ. apply wp_run, wp_bind, wp_mid_xf, wp_bind, wp_mid_upd, wp_bind, wp_mid_table.
  rewrite Ht. apply wp_bind, wp_or_return; [done|intros ? [= <-]]. rewrite Ha.
  apply wp_bind, wp_when; intros _; [apply wp_mid_stats; intros st' κ'|];
    apply wp_bind, wp_mid_upd, wp_ret, HQ.
Qed.

Lemma wp_ing_l2_top tma x cm fv st κ Q :
  vlan0 (l2m x) = 0 → tunnel_id (tm x) = 0 → tun_decap (tm x) = 0 →
  tmac_map (tables s) !! TmacKey (dl_dst (l2m x)) 0 0 = Some tma →
  act_type (tma_ca tma) = DP_SET_L3_EN →
  (∀ st κ, Q 0 (M (tmac_md x) cm fv st κ)) → wpf dp_ing_l2_top Q (M x cm fv st κ).
Proof.
  intros Hv Ht Hd Hm Ha HQ. apply wp_run, wp_bind, wp_call, wp_run, wp_bind, wp_mid_xf.
  rewrite Hv. apply wp_bind, wp_return.
  apply wp_bind, wp_call, (wp_tmac_lkup tma); [done..|]. intros st' κ'.
  apply wp_bind, wp_call, wp_run, wp_bind, wp_mid_xf.
  change (tm (tmac_md x)) with (tm x). rewrite Ht. apply wp_ret.
  apply wp_bind, wp_mid_xf. change (tm (tmac_md x)) with (tm x). rewrite Hd.
  apply wp_bind, wp_ret, wp_ret, HQ.
Qed.

(** A translated connection that needs no tracking, logging or mirroring. *)
Definition nat_entry (act : dp_ct_tact) : Prop :=
  (act_type (ca act) = DP_SET_SNAT ∨ act_type (ca act) = DP_SET_DNAT) ∧
  na_fr (nat_act act) = 0 ∧ na_doct (nat_act act) = 0 ∧ fwrid (ca act) = 0 ∧
  na_nv6 (nat_act act) = 0 ∧ na_dsr (nat_act act) = 0.
(** What a packet does not change in it. *)
Definition same_conn (a a' : dp_ct_tact) : Prop := ca a' = ca a ∧ nat_act a' = nat_act a.

Lemma nat_entry_same a a' : same_conn a a' → nat_entry a → nat_entry a'.
Proof. intros [E1 E2]. unfold nat_entry. by rewrite E1, E2. Qed.

Lemma same_conn_trans a a' a'' : same_conn a a' → same_conn a' a'' → same_conn a a''.
Proof. intros [] []. split; congruence. Qed.

(** [fa->fcta[i]] is written. *)
Definition put_fcta (i : Z) (f : dp_fc_tact → dp_fc_tact) (fv : fc_maps) : fc_maps :=
  fv <| fcas; fcta ::= alter (λ ta, f (ta <| fc_ca; act_type := i |>)) (Z.to_nat i) |>.
Definition ct_fc (act : dp_ct_tact) (fv : fc_maps) : fc_maps :=
  put_fcta (act_type (ca act)) (λ ta, ta <| fc_nat_act := nat_act act |>)
    (fv <| fcas; fcs_ca ::= λ c, c <| cidx := cidx (ca act) |> <| fwrid := fwrid (ca act) |> |>).

Lemma wp_ctact_helper {R} key a x cm fv st κ (QR : R → lstate K → Prop) QN :
  cm !! key = Some a →
  (∀ a', same_conn a a' → QN tt (M x (<[key := a']> cm) fv st κ)) →
  wpb (let! m := gets xf in ct_write key (dp_run_ctact_helper m)) QR QN (M x cm fv st κ).
Proof.
  intros Hk HQ. apply wp_bind, wp_mid_xf, (wp_mid_ct_write _ _ _ _ a); [done|]. apply HQ.
  unfold same_conn, dp_run_ctact_helper. by case_match.
Qed.

Lemma wp_ing_ct tail act x cm fv st κ Q :
  cm !! CT_KEY_GEN x = Some act → nat_entry act → l4fin (pm x) = 0 →
  (∀ act' st κ, same_conn act act' →
     Q (inr 0) (M (ct_md act x) (<[CT_KEY_GEN x := act']> cm) (ct_fc act fv) st κ)) →
  wpf (dp_do_ing_ct tail) Q (M x cm fv st κ).
Proof.
  intros Hk (Ht & Hfr & Hdo & Hfw & _) Hfin HQ. apply wp_run, wp_bind, wp_bind, wp_mid_xf.
  cbv zeta. set (key := CT_KEY_GEN x) in *.
  apply wp_bind, wp_mid_upd, wp_bind, wp_gets.
  change (ct_map (M _ cm fv st κ)) with cm. rewrite Hk.
  apply wp_bind, wp_call, wp_run. cbv zeta. apply wp_bind, wp_bind, wp_mid_upd.
  apply wp_bind, wp_mid_time. intros now κ1 _.
  apply wp_bind, (wp_mid_ct_write _ _ _ _ act); [done|]. set (act1 := act <| lts := now |>).
  apply wp_bind, wp_mid_fc, wp_bind, wp_mid_xf.
  assert (l4fin (pm (x <| pm; table_id := LL_DP_CT_MAP |>
                       <| pm; phit ::= λ p, Z.lor p LLB_DP_ACL_HIT |>)) = 0) as -> by exact Hfin.
  unfold ct_md, ct_fc in HQ.
  set (x1 := x <| pm; table_id := LL_DP_CT_MAP |> <| pm; phit ::= λ p, Z.lor p LLB_DP_ACL_HIT |>) in *.
  assert (<[key := act1]> cm !! key = Some act1) as Hk1 by apply lookup_insert_eq.
  assert (same_conn act act1) as Hs1 by done. clearbody act1 x1.
  destruct Ht as [Ea|Ea]; rewrite Ea in HQ |- *; eval_eqb.
  all: apply wp_bind, wp_bind, wp_mid_fc, wp_bind, wp_ret, wp_bind, wp_mid_upd, wp_bind, wp_mid_stats.
  all: intros st2 κ2; apply wp_bind, (wp_mid_ct_read _ _ _ act1); [done|].
  all: destruct Hs1 as [Hca Hna]; rewrite Hna, Hfr, Hdo; eval_eqb; apply wp_ret, wp_bind, wp_when; intros _.
  1,3: apply (wp_ctact_helper _ act1); [done|]; intros act2 [Hca2 Hna2]; rewrite insert_insert_eq.
  all: assert (negb (fwrid (ca act) =? 0) = false) as -> by (by rewrite Hfw).
  all: apply wp_bind, wp_ret, wp_bind, wp_mid_stats; intros st3 κ3; apply wp_ret.
  all: first [exact (HQ act2 st3 κ3 ltac:(split; congruence))
             |exact (HQ act1 st3 κ3 ltac:(split; congruence))].
Qed.

Lemma wp_sess_miss x cm fv st κ Q :
  sess_v4_map (tables s) !! sess4_key x = None →
  Q 0 (M (x <| pm; table_id := LL_DP_SESS4_MAP |>) cm fv st κ) →
  wpf dp_do_sess4_lkup Q (M x cm fv st κ).
Proof.
  intros Hm HQ. apply wp_run, wp_bind, wp_mid_xf, wp_bind, wp_mid_upd, wp_bind, wp_mid_table.
  rewrite Hm. apply wp_bind, wp_or_return; [intros _; exact HQ|done].
Qed.

Lemma rt_fwdops_skip x cm fv st κ Q :
  dl_type (l2m x) = bpf_htons ETH_P_IP → Q DP_DROP (M x cm fv st κ) →
  wpf dp_do_rt_fwdops Q (M x cm fv st κ).
Proof. intros Hd HQ. apply wp_run, wp_bind, wp_mid_xf. rewrite Hd. eval_eqb. by apply wp_ret. Qed.

Lemma wp_l3_fwd rt x cm fv st κ Q :
  dl_type (l2m x) = bpf_htons ETH_P_IP → nm_nv6 (nm x) = 0 → tunnel_id (tm x) = 0 →
  has_flag (phit (pm x)) LLB_DP_TMAC_HIT = true → pipe_act (pm x) = 0 →
  sess_v4_map (tables s) !! sess4_key x = None →
  rt_v4_map (tables s) (rtv4_key x) = Some rt → act_type (rt_ca rt) = DP_SET_RT_NHNUM →
  (∀ st κ, Q 0 (M (rt_md rt x) cm fv st κ)) → wpf dp_l3_fwd Q (M x cm fv st κ).
Proof.
  intros Hd Hv6 Ht Hh Hp Hs Hr Ha HQ. apply wp_run, wp_bind, wp_mid_xf. cbv zeta.
  rewrite Hd, Hv6. eval_eqb. rewrite andb_false_r. apply wp_bind, wp_call, wp_run, wp_bind, wp_mid_xf.
  rewrite Ht. eval_eqb. apply wp_bind, wp_bind, wp_call, wp_sess_miss; [done|]. apply wp_ret.
  set (x1 := x <| pm; table_id := LL_DP_SESS4_MAP |>). apply wp_bind, wp_mid_xf.
  assert (has_flag (phit (pm x1)) LLB_DP_TMAC_HIT = true) as -> by exact Hh.
  assert (pipe_act (pm x1) = 0) as -> by exact Hp. eval_eqb.
  change (negb (has_flag 0 LLB_PIPE_RDR_MASK)) with true. cbn [when].
  apply wp_bind, wp_call, wp_run, wp_bind, wp_mid_xf, wp_bind, wp_mid_upd, wp_bind, wp_mid_table.
  assert (rt_v4_map (tables s) (rtv4_key x1) = Some rt) as -> by exact Hr. unfold route.
  apply wp_bind, wp_mid_upd, wp_bind, wp_mid_stats. intros st1 κ1.
  apply wp_call, wp_run. rewrite Ha. cbv zeta. eval_eqb.
  apply wp_bind, wp_mid_upd, wp_call, rt_fwdops_skip; [exact Hd|].
  apply wp_ret, wp_ret. apply HQ.
Qed.

Lemma wp_nh_lkup n x cm fv st κ Q :
  nh_map (tables s) !! nh_num (pm x) = Some n → act_type (nha_ca n) = DP_SET_NEIGH_L2 →
  rnh_num (rt_l2nh n) = 0 →
  Q 0 (M (nh_md n x) cm (put_fcta DP_SET_NEIGH_L2 (λ ta, ta <| nl2 := rt_l2nh n |>) fv) st κ) →
  wpf dp_do_nh_lkup Q (M x cm fv st κ).
Proof.
  intros Hn Ha Hr HQ. apply wp_run, wp_bind, wp_mid_xf, wp_bind, wp_mid_upd, wp_bind, wp_mid_table.
  rewrite Hn, Ha. cbv zeta. eval_eqb. apply wp_bind, wp_mid_fc.
  apply wp_bind, wp_call, wp_run, wp_bind, wp_mid_upd, wp_ret. rewrite Hr. eval_eqb.
  unfold nh_tunnel. rewrite Ha. eval_eqb. apply wp_ret. exact HQ.
Qed.

Lemma wp_dmac_lkup dma x cm fv st κ Q :
  dmac_map (tables s) !! DmacKey (lkup_dmac (pm x)) (bd (pm x)) = Some dma →
  act_type (dma_ca dma) = DP_SET_RM_L2VLAN →
  Q 0 (M (dmac_md dma x) cm (put_fcta DP_SET_RM_L2VLAN (λ ta, ta <| l2ov := vlan_act dma |>) fv) st κ) →
  wpf dp_do_dmac_lkup Q (M x cm fv st κ).
Proof.
  intros Hd Ha HQ. apply wp_run, wp_bind, wp_mid_xf, wp_bind, wp_mid_upd, wp_bind, wp_mid_table.
  rewrite Hd, Ha. cbv zeta. eval_eqb. apply wp_bind, wp_mid_fc.
  apply wp_call, wp_run, wp_bind, wp_mid_upd, wp_bind, wp_mid_upd, wp_ret. exact HQ.
Qed.

Definition eg_fc (n : dp_nh_tact) (dma : dp_dmac_tact) (fv : fc_maps) : fc_maps :=
  put_fcta DP_SET_RM_L2VLAN (λ ta, ta <| l2ov := vlan_act dma |>)
    (put_fcta DP_SET_NEIGH_L2 (λ ta, ta <| nl2 := rt_l2nh n |>) fv).

Lemma wp_eg_l2 n dma x cm fv st κ Q :
  pipe_act (pm x) = 0 → nh_num (pm x) ≠ 0 →
  nh_map (tables s) !! nh_num (pm x) = Some n → act_type (nha_ca n) = DP_SET_NEIGH_L2 →
  rnh_num (rt_l2nh n) = 0 →
  dmac_map (tables s) !! DmacKey (l2_dmac (rt_l2nh n)) (l2_bd (rt_l2nh n)) = Some dma →
  act_type (dma_ca dma) = DP_SET_RM_L2VLAN →
  (∀ st κ, Q 0 (M (dmac_md dma (nh_md n x)) cm (eg_fc n dma fv) st κ)) →
  wpf dp_eg_l2 Q (M x cm fv st κ).
Proof.
  intros Hp Hz Hn Ha Hr Hd Had HQ. apply wp_run, wp_bind, wp_mid_xf. rewrite Hp.
  apply wp_bind, wp_return_if; [done|intros _]. rewrite (proj2 (Z.eqb_neq _ _) Hz). cbn [negb when].
  apply wp_bind, wp_bind, wp_call, (wp_nh_lkup n); [done..|]. apply wp_ret.
  apply wp_bind, wp_mid_xf, wp_bind, wp_mid_stats. intros st1 κ1.
  apply wp_bind, wp_call, (wp_dmac_lkup dma); [exact Hd|done|]. apply wp_ret, HQ.
Qed.

Lemma wp_ing l2a x cm fv st κ Q :
  intf_map (tables s) !! IntfKey (ifindex (skb s)) (vlan0 (l2m x)) = Some l2a →
  act_type (if_ca l2a) = DP_SET_IFI →
  si_mirr (set_ifi l2a) = 0 → si_polid (set_ifi l2a) = 0 →
  (∀ st κ, Q 0 (M (if_md (set_ifi l2a) x) cm fv st κ)) → wpf dp_ing Q (M x cm fv st κ).
Proof.
  intros Hi Ha Hm Hp HQ. apply wp_run, wp_bind, wp_call, (wp_if_lkup l2a); [done..|].
  apply wp_bind, wp_mid_xf, wp_bind, wp_mid_stats. intros st1 κ1. cbn [if_md] in *.
  change (mirr (pm (if_md (set_ifi l2a) x))) with (si_mirr (set_ifi l2a)).
  change (ipolid (qm (if_md (set_ifi l2a) x))) with (si_polid (set_ifi l2a)).
  rewrite Hm, Hp. apply wp_bind, wp_ret, wp_bind, wp_ret, wp_ret, HQ.
Qed.
End lookups.
End steps.
