(* ===== verification/LoxiFlow.v ===== *)
(** * loxilb: the packets of an established connection

    A flow is a connection that is translated and in the connection table, on
    a path through the forwarding tables.  Its packets leave by the same
    interface, translated and with the link-layer addresses of the next hop,
    whether they take the slow path or the flow cache, and the cache entries
    the slow path makes are right. *)
From S2P Require Import Prelude Records Words Consts LoxiDefs LoxiTables LoxiState LoxiSkb LoxiRef.
From S2P Require Import LoxiCt LoxiNat LoxiFw LoxiParse LoxiParseSpec LoxiNatRw LoxiNatSpec LoxiDeparse.
From S2P Require Import LoxiTunSpec LoxiFwd LoxiSum LoxiMain LoxiMainSpec.
Open Scope c_scope.

(** ** Flows and their metadata *)
Record flow : Type := Flow {
  fl_dst : list Z; fl_src : list Z; fl_saddr : Z; fl_daddr : Z; fl_sport : Z; fl_dport : Z;
  fl_proto : Z }.
Definition flow_of (f : frame) : flow :=
  let t := tuple_of f in
  Flow (f_dst f) (f_src f) (t_saddr t) (t_daddr t) (t_sport t) (t_dport t) (l4_proto (f_l4 f)).

(** What the parser finds in every packet of the flow. *)
Definition flow_md (φ : flow) : xfi :=
  xfi_zero <| l2m := L2Mdi 0 0 (bpf_htons ETH_P_IP) (fl_dst φ) (fl_src φ) 1 |>
    <| l34m := L34Mdi 0 (fl_proto φ) 1 (fl_sport φ) (fl_dport φ) 0 0
                 (XAddr (fl_saddr φ) 0 0 0) (XAddr (fl_daddr φ) 0 0 0) |>.

(** What differs from packet to packet. *)
Record rest : Type := Rest {
  q_tos : Z; q_seq : Z; q_py_bytes : Z; q_l3_len : Z; q_l3_plen : Z; q_l4_off : Z;
  q_tcp_flags : Z }.
Definition flow_x (φ : flow) (q : rest) (tc_ : Z) : xfi :=
  flow_md φ <| l34m; tos := q_tos q |> <| l34m; m_seq := q_seq q |>
    <| pm ::= λ m, m <| py_bytes := q_py_bytes q |> <| lkup_dmac := fl_dst φ |> <| l3_off := 14 |>
         <| l3_len := q_l3_len q |> <| l3_plen := q_l3_plen q |> <| l4_off := q_l4_off q |>
         <| LoxiDefs.tcp_flags := q_tcp_flags q |> <| tc := tc_ |> |>.
Definition rest_of (f : frame) (n : Z) : rest :=
  let len := Z.of_nat (length (l4_bytes f)) in
  Rest (match f_l3 f with V4 tos _ _ _ _ _ _ _ => Z.land tos 0xfc | V6 _ _ _ _ _ _ => 0 end)
    (match f_l4 f with Tcp _ _ seq _ _ _ _ => seq | Udp _ _ _ _ => 0 end)
    (u16 n) (l3_len_of (f_l3 f) + len) len (14 + l3_len_of (f_l3 f)) (flags_of (f_l4 f) 0).

Lemma outer_flow f b n tc_ :
  is_v4 f = true → is_fin (f_l4 f) = false → vlan_present b = 0 →
  outer_md f b n (xfi_zero <| pm; tc := tc_ |>) = flow_x (flow_of f) (rest_of f n) tc_.
Proof.
  intros Hv Hf Hb. unfold outer_md, rest_of, flow_of, tuple_of, is_v4 in *. rewrite Hb, Hf.
  destruct f as [dst src l3 l4 data]; cbn [f_l3 f_l4 f_dst f_src] in *.
  destruct l3; [|done].
  generalize (Z.of_nat (length (l4_bytes (Frame dst src (V4 tos id frag ttl check saddr daddr opts) l4 data)))).
  intros len. destruct l4; reflexivity.
Qed.

Lemma flow_parsed f n tc_ : is_v4 f = true → parsed f (flow_x (flow_of f) (rest_of f n) tc_).
Proof. done. Qed.

Lemma parsed_same f x y :
  l3_off (pm x) = l3_off (pm y) → l4_off (pm x) = l4_off (pm y) → l34m x = l34m y →
  parsed f y → parsed f x.
Proof. unfold parsed, saddr4, daddr4. by intros -> -> ->. Qed.

(** ** Paths *)
Record path : Type := Path {
  p_intf : dp_intf_tact; p_tmac : dp_tmac_tact; p_act : dp_ct_tact; p_rt : dp_rt_tact;
  p_nh : dp_nh_tact; p_dmac : dp_dmac_tact; p_oif : Z }.

Section path.
Context (T : fwd_tables) (idx : Z) (φ : flow) (p : path).

Definition snat : bool := act_type (ca (p_act p)) =? DP_SET_SNAT.
Definition xip : Z := xa0 (na_xip (nat_act (p_act p))).
Definition nrip : Z := xa0 (na_rip (nat_act (p_act p))).
Definition xport : Z := na_xport (nat_act (p_act p)).
Definition next_hop : dp_rt_l2nh_act := rt_l2nh (p_nh p).

(** The metadata behind the interface lookup and the connection table. *)
Definition in_md (x : xfi) : xfi := tmac_md (if_md (set_ifi (p_intf p)) x).
Definition nat_x (x : xfi) : xfi := ct_md (p_act p) (in_md x).
Definition out_x (x : xfi) : xfi :=
  dmac_md (p_dmac p) (nh_md (p_nh p) (rt_md (p_rt p) (nat_x x))).

Definition ct_key : dp_ct_key := CT_KEY_GEN (in_md (flow_md φ)).
Definition fc_key : dp_fcv4_key := dp_mk_fcv4_key (flow_md φ).

(** The interface [idx] is open without mirror and policer; the packets are
    for this node's layer 3; the connection is translated; the translated
    packets are routed to a neighbour behind the interface [p_oif]. *)
Record on_path : Prop := {
  op_intf : intf_map T !! IntfKey idx 0 = Some (p_intf p);
  op_ifi : act_type (if_ca (p_intf p)) = DP_SET_IFI;
  op_mirr : si_mirr (set_ifi (p_intf p)) = 0;
  op_polid : si_polid (set_ifi (p_intf p)) = 0;
  op_tmac : tmac_map T !! TmacKey (fl_dst φ) 0 0 = Some (p_tmac p);
  op_l3 : act_type (tma_ca (p_tmac p)) = DP_SET_L3_EN;
  op_nat : nat_entry (p_act p);
  op_xip : 0 ≤ xip < 2 ^ 32; op_nrip : 0 ≤ nrip < 2 ^ 32; op_xport : 0 ≤ xport < 2 ^ 16;
  op_sess : sess_v4_map T !! sess4_key (nat_x (flow_md φ)) = None;
  op_rt : rt_v4_map T (rtv4_key (nat_x (flow_md φ))) = Some (p_rt p);
  op_nhnum : act_type (rt_ca (p_rt p)) = DP_SET_RT_NHNUM;
  op_nh0 : rnh_nh_num (rt_nh (p_rt p)) ≠ 0;
  op_nh : nh_map T !! rnh_nh_num (rt_nh (p_rt p)) = Some (p_nh p);
  op_neigh : act_type (nha_ca (p_nh p)) = DP_SET_NEIGH_L2;
  op_rnh : rnh_num next_hop = 0;
  op_dmac_len : length (l2_dmac next_hop) = 6%nat;
  op_smac_len : length (l2_smac next_hop) = 6%nat;
  op_dmac : dmac_map T !! DmacKey (l2_dmac next_hop) (l2_bd next_hop) = Some (p_dmac p);
  op_rmvlan : act_type (dma_ca (p_dmac p)) = DP_SET_RM_L2VLAN;
  op_tx : tx_intf_map T !! va_oport (vlan_act (p_dmac p)) = Some (p_oif p);
  op_oif : 0 ≤ p_oif p < 2 ^ 16
}.

(** The cache entry of the flow. *)
Definition right_entry (acts : dp_fc_tacts) : Prop :=
  ftrap (fcs_ca acts) = 0 ∧ fwrid (fcs_ca acts) = 0 ∧ oaux (fcs_ca acts) = p_oif p ∧
  cached acts DP_SET_RM_VXLAN = None ∧
  (∃ ta, fc_nat_act ta = nat_act (p_act p) ∧
     if snat then cached acts DP_SET_SNAT = Some ta
     else cached acts DP_SET_SNAT = None ∧ cached acts DP_SET_DNAT = Some ta) ∧
  cached acts DP_SET_RT_TUN_NH = None ∧ cached acts DP_SET_L3RT_TUN_NH = None ∧
  (∃ ta, nl2 ta = next_hop ∧ cached acts DP_SET_NEIGH_L2 = Some ta) ∧
  cached acts DP_SET_NEIGH_VXLAN = None ∧ cached acts DP_SET_ADD_L2VLAN = None ∧
  (∃ ta, l2ov ta = vlan_act (p_dmac p) ∧ cached acts DP_SET_RM_L2VLAN = Some ta).
End path.

(** ** The slow path *)
Section slow.
Context {K : Type} `{LoxiEnvLaws K} `{SkbEnvLaws K} `{!SkbReady K}.
Context (T : fwd_tables) (idx : Z) (φ : flow) (p : path) (Hp : on_path T idx φ p).
Context (s : lstate K) (HT : tables s = T) (Hidx : ifindex (skb s) = idx).
Abbreviation M := (mid s).

Definition slow_fc (fv : fc_maps) : fc_maps := eg_fc (p_nh p) (p_dmac p) (ct_fc (p_act p) fv).

Lemma wp_flow_l3 tail q act cm fv st κ Q :
  cm !! ct_key φ p = Some act → same_conn (p_act p) act →
  (∀ act' st κ, same_conn (p_act p) act' →
     Q (inr 0) (M (rt_md (p_rt p) (nat_x p (flow_x φ q 1))) (<[ct_key φ p := act']> cm)
                  (ct_fc (p_act p) fv) st κ)) →
  wpf (dp_ing_l3 tail) Q (M (in_md p (flow_x φ q 1)) cm fv st κ).
Proof.
  intros Hk Hs HQ. destruct Hp.
  apply wp_run, wp_bind, wp_bind, wp_mid_xf, wp_bind, wp_when; [done|intros _].
  apply wp_bind. unfold call_p. apply wp_bind, wp_call, (wp_ing_ct _ _ act); [exact Hk| |done|].
  { by eapply nat_entry_same. }
  intros act' st1 κ1 Hs'. apply wp_ret. pose proof Hs as [Hca Hna].
  assert (ct_md act = ct_md (p_act p)) as -> by (unfold ct_md; by rewrite Hca, Hna).
  assert (ct_fc act = ct_fc (p_act p)) as -> by (unfold ct_fc; by rewrite Hca, Hna).
  change (M _ _ _ _ _) with
    (M (nat_x p (flow_x φ q 1)) (<[ct_key φ p := act']> cm) (ct_fc (p_act p) fv) st1 κ1).
  apply wp_bind, wp_call, (wp_l3_fwd _ (p_rt p)); try done; try (by rewrite HT).
  - destruct op_nat0 as (_ & _ & _ & _ & Hv6 & _). unfold nat_x, ct_md, dp_pipe_set_nat.
    cbn. by rewrite Hv6.
  - intros st2 κ2. apply wp_ret, wp_ret, HQ. by eapply same_conn_trans.
Qed.

Lemma wp_flow_l2 tail q act cm fv st κ Q :
  cm !! ct_key φ p = Some act → same_conn (p_act p) act →
  (∀ act' st κ, same_conn (p_act p) act' →
     Q (inr 0) (M (out_x p (flow_x φ q 1)) (<[ct_key φ p := act']> cm) (slow_fc fv) st κ)) →
  wpf (dp_ing_l2 tail) Q (M (if_md (set_ifi (p_intf p)) (flow_x φ q 1)) cm fv st κ).
Proof.
  intros Hk Hs HQ. pose proof Hp as []. apply wp_run, wp_bind, wp_bind, wp_call.
  apply (wp_ing_l2_top _ (p_tmac p)); try done; [by rewrite HT|]. intros st1 κ1.
  change (M _ _ _ _ _) with (M (in_md p (flow_x φ q 1)) cm fv st1 κ1).
  unfold call_p. apply wp_bind, wp_call. unfold dp_ing_fwd. apply wp_run, wp_bind, wp_bind.
  unfold call_p. apply wp_bind, wp_call, (wp_flow_l3 _ _ act); [done..|]. intros act' st2 κ2 Hs'.
  apply wp_ret, wp_call, (wp_eg_l2 _ (p_nh p) (p_dmac p)); try done; try (by rewrite HT).
  intros st3 κ3. apply wp_ret, wp_ret, HQ, Hs'.
Qed.

(** The cache entry the slow path collects. *)
Definition new_entry (now : Z) (fv : fc_maps) : dp_fc_tacts :=
  fcas (slow_fc (fv <| fcas ::= new_fa now |>)) <| fc_zone := si_zone (set_ifi (p_intf p)) |>
    <| fcs_ca; oaux := u16 (p_oif p) |>.

Lemma new_entry_right now fv :
  length (fcta (fcas fv)) = 10%nat → right_entry p (new_entry now fv).
Proof.
  intros Hl. pose proof Hp as []. destruct op_nat0 as (Ht & _ & _ & Hfw & _).
  unfold new_entry, slow_fc, eg_fc, ct_fc, right_entry, snat.
  destruct fv as [m [c its z l] k]. cbn [fcta fcas] in Hl.
  do 10 (destruct l as [|? l]; [discriminate Hl|]). destruct l; [|discriminate Hl].
  assert (u16 (p_oif p) = p_oif p) as Ho by (by apply u16_id).
  destruct Ht as [E|E]; rewrite E; split_and!; try done; try exact Hfw; try exact Ho.
  all: eexists; split; cycle 1; [first [reflexivity | split; reflexivity]|reflexivity].
Qed.

(** The cache has the entry of the flow, or none. *)
Definition cache_ok (fv : fc_maps) : Prop :=
  length (fcta (fcas fv)) = 10%nat ∧
  ∀ acts, fc_v4_map fv !! fc_key φ = Some acts → right_entry p acts.

Lemma wp_insert_fcv4 now x cm fv st κ Q :
  oport (pm x) = va_oport (vlan_act (p_dmac p)) →
  length (fcta (fcas fv)) = 10%nat → xfck fv = fc_key φ → fc_v4_map fv !! fc_key φ = None →
  let fv1 := slow_fc (fv <| fcas ::= new_fa now |>)
               <| fcas; fc_zone := si_zone (set_ifi (p_intf p)) |> in
  (∀ r fv' κ, cache_ok fv' → Q r (M x cm fv' st κ)) →
  wpf dp_insert_fcv4 Q (M x cm fv1 st κ).
Proof.
  intros Ho Hl Hx Hm fv1 HQ. apply wp_run, wp_bind, wp_mid_xf, wp_bind, wp_mid_table.
  rewrite Ho, HT, (op_tx _ _ _ _ Hp). apply wp_bind, wp_mid_fc.
  set (fv2 := fv1 <| fcas; fcs_ca; oaux := u16 (p_oif p) |>).
  assert (fcas fv2 = new_entry now fv) as Hf by done.
  assert (length (fcta (fcas fv2)) = 10%nat) as Hl2.
  { unfold fv2, fv1, slow_fc, eg_fc, ct_fc, put_fcta. cbn.
    by rewrite !length_alter, length_map. }
  assert (xfck fv2 = fc_key φ) as Hk by exact Hx.
  assert (fc_v4_map fv2 !! fc_key φ = None) as Hn by exact Hm.
  clearbody fv2. apply wp_bind, wp_gets, wp_bind, wp_gets.
  change (fc (M x cm fv2 st κ)) with fv2. cbv beta. rewrite Hk, Hn. apply wp_bind.
  unfold wpb. change (lkern (M x cm fv2 st κ)) with κ.
  change (fc (M x cm fv2 st κ)) with fv2.
  pose proof (sk_fc_update_spec (fc_key φ) (fcas fv2) (fc_v4_map fv2) κ) as Hu.
  destruct (sk_fc_update _ _ _ _) as [m κ']. cbn [fst] in Hu.
  change (wpb (ret 0) Q Q (M x cm (fv2 <| fc_v4_map := m |>) st κ')).
  apply wp_ret, HQ. split; [exact Hl2|]. intros acts. cbn [fc_v4_map update eta_fc_maps].
  destruct Hu as [->| ->]; [|by rewrite Hn].
  rewrite lookup_insert_eq. intros [= <-]. rewrite Hf. by apply new_entry_right.
Qed.

(** The packet's metadata at the end of the slow path. *)
Definition res_md (x : xfi) : xfi := x <| pm; phit ::= λ h, Z.lor h LLB_DP_RES_HIT |>.

Lemma fc_cap_intro x :
  pipe_act (pm x) = LLB_PIPE_RDR → phit (pm x) = 0xb → tun_type (tm x) = 0 →
  dl_type (l2m x) = bpf_htons ETH_P_IP → ipolid (qm x) = 0 → xlate_proto (nm x) = 0 →
  dp_rec (pm x) = 0 → mirr (pm x) = 0 → LL_PIPE_FC_CAP x = true.
Proof. unfold LL_PIPE_FC_CAP. by intros -> -> -> -> -> -> -> ->. Qed.

Lemma out_x_fc_cap q : LL_PIPE_FC_CAP (out_x p (flow_x φ q 1)) = true.
Proof.
  pose proof Hp as []. apply fc_cap_intro; [| | | |exact op_polid0| | |exact op_mirr0]; reflexivity.
Qed.

Lemma wp_flow_slow tail prog q act cm fv st κ Q :
  tail LLB_DP_CT_PGM_ID = Some prog →
  cm !! ct_key φ p = Some act → same_conn (p_act p) act →
  length (fcta (fcas fv)) = 10%nat → xfck fv = fc_key φ → fc_v4_map fv !! fc_key φ = None →
  (∀ act' fv' st κ, same_conn (p_act p) act' → cache_ok fv' →
     wpf prog (λ v, Q (inl v))
       (M (res_md (out_x p (flow_x φ q 1))) (<[ct_key φ p := act']> cm) fv' st κ)) →
  wpf (dp_ing_slow_main tail) Q (M (flow_x φ q 1) cm fv st κ).
Proof.
  intros Htail Hk Hs Hl Hx Hm HQ. pose proof Hp as []. apply wp_run, wp_bind, wp_bind, wp_mid_time.
  intros now κ1 _. apply wp_bind, wp_mid_fc, wp_bind, wp_mid_xf, wp_bind.
  change (mirr (pm (flow_x φ q 1)) =? 0) with true. cbn [negb].
  apply wp_bind, wp_call, (wp_ing _ (p_intf p)); [by rewrite HT, Hidx|done..|]. intros st2 κ2.
  apply wp_bind, wp_mid_xf, wp_when; [intros _|done].
  unfold call_p. apply wp_bind, wp_bind, wp_call, (wp_flow_l2 _ _ act); [done..|].
  intros act' st3 κ3 Hs'. apply wp_ret, wp_bind, wp_mid_xf. rewrite out_x_fc_cap. cbn [when].
  apply wp_bind, wp_mid_fc, wp_bind, wp_call.
  eapply wp_insert_fcv4; [reflexivity|exact Hl|exact Hx|exact Hm|].
  intros r fv' κ4 Hc. apply wp_ret, wp_bind, wp_mid_upd, wp_bind. unfold bpf_tail_call.
  rewrite Htail. apply wp_bind, wp_call. eapply wpf_mono; [by apply HQ|].
  intros v s' HQ'. by apply wp_return.
Qed.
End slow.

(** ** The deparser *)
Section deparse.
Context {K : Type} `{LoxiEnvLaws K} `{SkbEnvLaws K} `{!SkbReady K}.
Implicit Types (s : lstate K).

(** A packet to be translated within IPv4, outside of tunnels. *)
Record to_translate (p : path) (x : xfi) : Prop := {
  tt_nf : nf (pm x) = if snat p then LLB_NAT_SRC else LLB_NAT_DST;
  tt_xip : nxip4 x = xip p; tt_nrip : xa0 (nm_nrip (nm x)) = nrip p;
  tt_xport : nm_nxport (nm x) = xport p;
  tt_dsr : nm_dsr (nm x) = 0; tt_nv6 : nm_nv6 (nm x) = 0;
  tt_ip : dl_type (l2m x) = bpf_htons ETH_P_IP;
  tt_decap : tun_decap (tm x) = 0; tt_tid : new_tunnel_id (tm x) = 0 }.

Lemma wp_unparse_always p tail f pad s (Q : Z + Z → lstate K → Prop) :
  lpkt s = encode f ++ pad → frame_ok f = true → is_v4 f = true → bytes_ok (encode f) →
  parsed f (xf s) → to_translate p (xf s) →
  0 ≤ xip p < 2 ^ 32 → 0 ≤ nrip p < 2 ^ 32 → 0 ≤ xport p < 2 ^ 16 →
  (∀ t κ, well_translated (snat p) f (xip p) (nrip p) (xport p) t →
     Q (inr 0) (s <| lpkt := encode (with_tup f t) ++ pad |> <| lkern := κ |>
                  <| xf := nat_md t (xf s) |>)) →
  wpf (dp_unparse_packet_always tail) Q s.
Proof.
  intros E Hok Hv4 Hb Hpa [] Hx Hn Hpo HQ. apply wp_run, wp_bind, wp_bind, wp_gets.
  cbv zeta. rewrite tt_nf0, tt_dsr0, tt_nv7, tt_xip0, tt_xport0.
  unfold is_v6. rewrite tt_ip0. eval_eqb. rewrite andb_true_r.
  apply wp_bind.
  match goal with |- wpb ?c ?QR ?QN s => assert
    (wpb (drop_if (call_p ((if snat p then dp_do_snat else dp_do_dnat) tail (xip p) (xport p))) DP_DROP)
       QR QN s) as W; [|by destruct (snat p)] end.
  apply wp_bind, wp_bind, wp_call. eapply (wp_translate (snat p) tail f pad (xip p) (xport p)); try done.
  { by rewrite tt_nrip0. }
  rewrite tt_nrip0. intros t κ Ht. apply wp_ret, wp_ret, wp_bind, wp_gets.
  match goal with |- wpb _ _ _ ?s' => change (xf s') with (nat_md t (xf s)) end.
  change (tm (nat_md t (xf s))) with (tm (xf s)). rewrite tt_decap0, tt_tid0.
  apply wp_bind, wp_ret, wp_ret, wp_ret. by apply HQ.
Qed.

(** [f] with the link-layer addresses of the metadata. *)
Lemma wp_put_macs f pad m {R} (QR : R → lstate K → Prop) QN s :
  lpkt s = encode f ++ pad → frame_ok f = true →
  length (dl_dst m) = 6%nat → length (dl_src m) = 6%nat →
  QN tt (s <| lpkt := encode (with_macs f m) ++ pad |>) → wpb (put_macs m) QR QN s.
Proof.
  intros E (Hd & Hs & _)%frame_ok_inv Hmd Hms HQ. unfold encode in E, HQ. rewrite <-app_assoc in E, HQ.
  unfold eth_fields in E.
  apply wp_bind. eapply (wp_store_bytes_field [] _ _ 0 (f_dst f)); [exact E|done|congruence|done|].
  set (s1 := set_pkt _ s).
  assert (lpkt s1 = concat [dl_dst m; f_src f; le_bytes 2 (ethertype (f_l3 f))] ++ l3_bytes f ++ pad)
    as E1 by done.
  eapply (wp_store_bytes_field [] _ _ 1 (f_src f)); [exact E1|done|congruence| |exact HQ].
  cbn [take concat]. rewrite length_app, Hmd. done.
Qed.

Lemma wp_unparse_packet f pad (Q : Z → lstate K → Prop) s :
  lpkt s = encode f ++ pad → frame_ok f = true →
  tun_decap (tm (xf s)) = 0 → new_tunnel_id (tm (xf s)) = 0 →
  bd (pm (xf s)) = 0 → vlan0 (l2m (xf s)) = 0 →
  length (dl_dst (l2m (xf s))) = 6%nat → length (dl_src (l2m (xf s))) = 6%nat →
  Q 0 (s <| lpkt := encode (with_macs f (l2m (xf s))) ++ pad |>) →
  wpf dp_unparse_packet Q s.
Proof.
  intros E Hok Hd Ht Hb Hv Hl1 Hl2 HQ. apply wp_run, wp_bind, wp_gets. cbv zeta. rewrite Hd, Ht.
  apply wp_bind, wp_ret, wp_call, wp_run, wp_bind, wp_gets. cbv zeta. rewrite Hb, Hv. eval_eqb.
  apply wp_bind, wp_bind, wp_need_drop.
  { unfold pkt_len. cbn [get_pkt lstate_pkt_state]. rewrite E. unfold encode.
    rewrite !length_app, length_eth_fields by done. unfold sizeof_ethhdr. lia. }
  apply wp_bind, (wp_put_macs f pad); [done..|]. apply wp_ret. by apply wp_bind, wp_ret, wp_ret.
Qed.

(** ** Sending *)
Definition hop_md (p : path) : dp_l2_mdi :=
  l2_zero <| dl_dst := l2_dmac (next_hop p) |> <| dl_src := l2_smac (next_hop p) |>.
(** What leaves for the packet [f]: translated, for the next hop. *)
Definition sent_as (p : path) (f : frame) (pad m : list Z) : Prop :=
  ∃ t, well_translated (snat p) f (xip p) (nrip p) (xport p) t ∧
    m = encode (with_macs (with_tup f t) (hop_md p)) ++ pad.

Lemma wp_bpf_redirect {R} oif (QR : R → lstate K → Prop) QN s :
  (∀ κ, QN TC_ACT_REDIRECT (s <| sent ::= cons (oif, 0, lpkt s) |> <| lkern := κ |>)) →
  wpb (bpf_redirect oif 0) QR QN s.
Proof.
  intros HQ. unfold wpb, bpf_redirect.
  pose proof (sk_redirect_spec oif 0 (lkern s) (or_introl eq_refl)) as E.
  destruct (sk_redirect oif 0 (lkern s)) as [r κ]. cbn [fst] in E. subst r. apply HQ.
Qed.

(** Metadata with which a packet is sent along the path. *)
Record to_send (p : path) (x : xfi) : Prop := {
  ts_nat : to_translate p x; ts_bd : bd (pm x) = 0; ts_vlan : vlan0 (l2m x) = 0;
  ts_dst : dl_dst (l2m x) = l2_dmac (next_hop p); ts_src : dl_src (l2m x) = l2_smac (next_hop p) }.

(** The second part of the deparser, behind the translation. *)
Lemma wp_unparse_rest T idx φ p f pad t κ s (Q : Z → lstate K → Prop) :
  let s1 := s <| lpkt := encode (with_tup f t) ++ pad |> <| lkern := κ |>
              <| xf := nat_md t (xf s) |> in
  on_path T idx φ p → well_translated (snat p) f (xip p) (nrip p) (xport p) t →
  to_send p (xf s) → (∀ m, sent_as p f pad m → Q 0 (s1 <| lpkt := m |>)) →
  wpf dp_unparse_packet Q s1.
Proof.
  intros s1 Hp Ht [[] ????] HQ. pose proof Ht as (_ & _ & Hok & _).
  apply (wp_unparse_packet (with_tup f t) pad); [done|done|done|done|done|done| | |].
  - change (dl_dst (l2m (xf s1))) with (dl_dst (l2m (xf s))). rewrite ts_dst0. apply Hp.
  - change (dl_src (l2m (xf s1))) with (dl_src (l2m (xf s))). rewrite ts_src0. apply Hp.
  - apply HQ. exists t. split; [done|]. unfold with_macs.
    change (dl_dst (l2m (xf s1))) with (dl_dst (l2m (xf s))).
    change (dl_src (l2m (xf s1))) with (dl_src (l2m (xf s))). by rewrite ts_dst0, ts_src0.
Qed.

Lemma wp_check_res T idx φ p tail f pad s (Q : Z + Z → lstate K → Prop) :
  on_path T idx φ p → tables s = T →
  lpkt s = encode f ++ pad → frame_ok f = true → is_v4 f = true → bytes_ok (encode f) →
  parsed f (xf s) → to_send p (xf s) →
  pipe_act (pm (xf s)) = LLB_PIPE_RDR → oport (pm (xf s)) = va_oport (vlan_act (p_dmac p)) →
  (∀ m κ x, sent_as p f pad m →
     Q (inr TC_ACT_REDIRECT)
       (s <| lpkt := m |> <| sent ::= cons (p_oif p, 0, m) |> <| lkern := κ |> <| xf := x |>)) →
  wpf (dp_pipe_check_res tail) Q s.
Proof.
  intros Hp HT E Hok Hv4 Hb Hpa Hs Ha Ho HQ. pose proof Hs as [Htt ????]. pose proof Hp as [].
  apply wp_run, wp_bind, wp_bind, wp_gets. rewrite Ha. apply wp_bind, wp_when; [intros _|done].
  apply wp_bind, wp_when; [done|intros _].
  apply wp_bind, wp_bind, wp_bind, wp_call, (wp_unparse_always p tail f pad); [done..|].
  intros t κ Ht. apply wp_ret, wp_ret, wp_bind, wp_gets.
  match goal with |- wpb _ _ _ ?s' => set (s1 := s') end.
  assert (pipe_act (pm (xf s1)) = LLB_PIPE_RDR) as -> by exact Ha.
  apply wp_bind, wp_when; [done|intros _]. apply wp_when; [intros _|done].
  apply wp_bind, wp_bind, wp_call. eapply (wp_unparse_rest T idx φ p f pad t κ s); [done..|].
  intros m Hm. fold s1. apply wp_ret. apply wp_bind, wp_call, wp_run, wp_bind, wp_call, wp_run.
  apply wp_bind, wp_gets.
  match goal with |- wpb _ _ _ ?s' => set (s2 := s') end.
  assert (oport (pm (xf s2)) = va_oport (vlan_act (p_dmac p))) as -> by exact Ho.
  apply wp_bind, wp_gets. assert (tables s2 = T) as -> by exact HT. rewrite op_tx0.
  apply wp_bind, wp_or_return; [done|intros ? [= <-]]. apply wp_bpf_redirect. intros κ'.
  apply wp_ret, wp_return. exact (HQ m κ' _ Hm).
Qed.
End deparse.

(** ** The flow cache *)
Section fast.
Context {K : Type} `{LoxiEnvLaws K} `{SkbEnvLaws K} `{!SkbReady K}.
Context (T : fwd_tables) (idx : Z) (f : frame) (pad : list Z) (p : path).
Context (Hp : on_path T idx (flow_of f) p).
Context (Hok : frame_ok f = true) (Hv4 : is_v4 f = true) (Hb : bytes_ok (encode f)).
Context (s : lstate K) (E : lpkt s = encode f ++ pad).
Abbreviation M := (mid s).

(** The metadata when the entry [acts] of the cache is applied. *)
Definition fast_md (p : path) (acts : dp_fc_tacts) (x : xfi) : xfi :=
  put_l2nh (next_hop p)
    (dp_pipe_set_nat (nat_act (p_act p)) (snat p)
       (x <| pm; table_id := LL_DP_FCV4_MAP |> <| pm; zone := u16 (fc_zone acts) |>))
    <| pm; pipe_act ::= Z.lor LLB_PIPE_RDR |> <| pm; oport := va_oport (vlan_act (p_dmac p)) |>
    <| pm; bd := 0 |> <| pm; phit ::= λ h, Z.lor h LLB_DP_FC_HIT |>.

Lemma fast_to_send acts n : to_send p (fast_md p acts (flow_x (flow_of f) (rest_of f n) 0)).
Proof.
  pose proof Hp as []. destruct op_nat0 as (_ & _ & _ & _ & Hv6 & Hd).
  split; try done. split; try done. unfold fast_md, dp_pipe_set_nat. cbn.
  by rewrite Hv6.
Qed.

Lemma fast_md_same acts x : let y := fast_md p acts x in
  l3_off (pm y) = l3_off (pm x) ∧ l4_off (pm y) = l4_off (pm x) ∧ l34m y = l34m x ∧
  pipe_act (pm y) = Z.lor LLB_PIPE_RDR (pipe_act (pm x)).
Proof. destruct x. split_and!; reflexivity. Qed.

Lemma fast_parsed acts n : parsed f (fast_md p acts (flow_x (flow_of f) (rest_of f n) 0)).
Proof.
  destruct (fast_md_same acts (flow_x (flow_of f) (rest_of f n) 0)) as (? & ? & ? & _).
  eapply parsed_same; [done..|exact (flow_parsed f n 0 Hv4)].
Qed.
Lemma fast_pipe_act acts n :
  pipe_act (pm (fast_md p acts (flow_x (flow_of f) (rest_of f n) 0))) = LLB_PIPE_RDR.
Proof.
  destruct (fast_md_same acts (flow_x (flow_of f) (rest_of f n) 0)) as (_ & _ & _ & ->).
  reflexivity.
Qed.

(** What the packets of other connections may rely on. *)
Definition entries_kept (cm cm' : ct_table) : Prop :=
  ∀ k a, cm !! k = Some a → ∃ a', cm' !! k = Some a' ∧ same_conn a a'.

Lemma entries_kept_insert cm k a a' :
  cm !! k = Some a → same_conn a a' → entries_kept cm (<[k := a']> cm).
Proof.
  intros Hk Hs j b Hj. destruct (decide (j = k)) as [->|Hne].
  - rewrite lookup_insert_eq. assert (b = a) as -> by congruence. eauto.
  - rewrite lookup_insert_ne by done. by exists b.
Qed.
Lemma entries_kept_refl cm : entries_kept cm cm.
Proof. intros k a Hk. by exists a. Qed.

Lemma wp_ct_helper x cm fv st κ (Q : Z → lstate K → Prop) :
  (∀ r cm', entries_kept cm cm' → Q r (M x cm' fv st κ)) →
  wpf dp_run_ct_helper Q (M x cm fv st κ).
Proof.
  intros HQ. apply wp_run, wp_bind, wp_mid_xf. cbv zeta. apply wp_bind, wp_gets.
  change (ct_map (M x cm fv st κ)) with cm. apply wp_bind, wp_or_return.
  - intros _. apply HQ, entries_kept_refl.
  - intros a Hk. apply wp_bind, (wp_mid_ct_write _ _ _ _ a); [done|]. apply wp_ret, HQ.
    apply (entries_kept_insert _ _ a); [done|]. unfold same_conn, dp_run_ctact_helper. by case_match.
Qed.

Lemma wp_fc_nat do_snat ta x cm fv st κ QR QN :
  fc_nat_act ta = nat_act (p_act p) →
  (∀ st κ, QN tt (M (dp_pipe_set_nat (nat_act (p_act p)) do_snat x) cm fv st κ)) →
  wpb (fc_nat do_snat ta) QR QN (M x cm fv st κ).
Proof.
  intros Hta HQ. pose proof (op_nat _ _ _ _ Hp) as (_ & Hfr & Hdo & _).
  unfold fc_nat. rewrite Hta, Hfr, Hdo. apply wp_bind, wp_when; [done|intros _].
  apply wp_bind, wp_mid_upd, wp_mid_stats, HQ.
Qed.

Lemma wp_fc_send tail acts x cm fv st κ (QR : Z + Z → lstate K → Prop) QN :
  to_send p x → parsed f x → pipe_act (pm x) = LLB_PIPE_RDR →
  (∀ x' κ m, sent_as p f pad m → oport (pm x') = oaux (fcs_ca acts) →
     pipe_act (pm x') = LLB_PIPE_RDR → QN 1 (M x' cm fv st κ <| lpkt := m |>)) →
  wpb (ignore (call_p (dp_unparse_packet_always tail)) ;; ignore (call dp_unparse_packet) ;;
       upd_xf (λ x, x <| pm; oport := oaux (fcs_ca acts) |>) ;; ret 1) QR QN (M x cm fv st κ).
Proof.
  intros Hs Hpa Ha HQ. apply wp_bind, wp_bind, wp_bind, wp_call.
  apply (wp_unparse_always p tail f pad);
    [exact E|done|done|done|exact Hpa|exact (ts_nat _ _ Hs)|apply Hp|apply Hp|apply Hp|].
  intros t κ1 Ht. apply wp_ret, wp_ret, wp_bind, wp_bind, wp_call.
  eapply (wp_unparse_rest T idx _ p f pad t κ1 (M x cm fv st κ)); [exact Hp|done|exact Hs|].
  intros m Hm. apply wp_ret, wp_bind, wp_modify, wp_ret.
  exact (HQ (nat_md t x <| pm; oport := oaux (fcs_ca acts) |>) κ1 m Hm eq_refl Ha).
Qed.

Lemma wp_ct_helper_if {R} c x cm fv st κ (QR : R → lstate K → Prop) QN :
  (∀ cm', entries_kept cm cm' → QN tt (M x cm' fv st κ)) →
  wpb (when c (ignore (call dp_run_ct_helper))) QR QN (M x cm fv st κ).
Proof.
  intros HQ. apply wp_when; intros _; [|apply HQ, entries_kept_refl].
  apply wp_bind, wp_call, wp_ct_helper. intros _ cm' Hcm. by apply wp_ret, HQ.
Qed.

(** A hit is sent at once; a miss and an expired entry leave the key for the
    slow path. *)
Lemma wp_fcv4_lkup tail n cm fv st κ (Q : Z + Z → lstate K → Prop) :
  cache_ok (flow_of f) p fv →
  (∀ x fv' st κ, cache_ok (flow_of f) p fv' → xfck fv' = fc_key (flow_of f) →
     fc_v4_map fv' !! fc_key (flow_of f) = None → Q (inr 0) (M x cm fv' st κ)) →
  (∀ x cm' st κ m, sent_as p f pad m → entries_kept cm cm' → oport (pm x) = p_oif p →
     pipe_act (pm x) = LLB_PIPE_RDR → Q (inr 1) (M x cm' fv st κ <| lpkt := m |>)) →
  wpf (dp_do_fcv4_lkup tail) Q (M (flow_x (flow_of f) (rest_of f n) 0) cm fv st κ).
Proof.
  intros [Hl Hc] HM HH. pose proof Hp as []. set (x := flow_x _ _ _).
  apply wp_run, wp_bind, wp_bind, wp_mid_xf. cbv zeta.
  change (dp_mk_fcv4_key x) with (fc_key (flow_of f)).
  apply wp_bind, wp_mid_upd, wp_bind, wp_gets. change (fc (M _ cm fv st κ)) with fv.
  destruct (fc_v4_map fv !! fc_key (flow_of f)) as [acts|] eqn:Ea.
  2: { apply wp_bind, wp_mid_fc, wp_ret, wp_ret. apply HM; [|done|exact Ea].
    split; [exact Hl|]. intros acts Ha. cbn in Ha. congruence. }
  specialize (Hc acts eq_refl) as (Hft & Hfw & Hox & Hrv & Hnat & Hrt & Hl3 & Hnh & Hvx & Hav & Hrm).
  apply wp_bind, wp_mid_time. intros now κ1 _.
  apply wp_bind, wp_when.
  { intros _. apply wp_bind, wp_mid_fc, wp_bind, wp_mid_fc, wp_return. apply HM; [|done|].
    - split; [done|]. intros acts' Ha'. cbn in Ha'. by rewrite lookup_delete_eq in Ha'.
    - cbn. by rewrite lookup_delete_eq. }
  intros _. rewrite Hft. apply wp_bind, wp_when; [done|intros _].
  apply wp_bind, wp_mid_upd. rewrite Hrv, Hrt, Hl3, Hvx, Hav.
  destruct Hnat as (ta & Hta & Hnat), Hnh as (tn & Htn & ->), Hrm as (tv & Htv & ->).
  apply wp_bind, wp_ret, wp_bind. cbn [when_cached].
  match goal with |- wpb ?c ?QR ?QN ?s0 => assert (wpb (fc_nat (snat p) ta) QR QN s0) as W;
    [|destruct (snat p); [by rewrite Hnat|by destruct Hnat as [-> ->]]] end.
  apply wp_fc_nat; [done|]. intros st2 κ2. apply wp_bind, wp_ret, wp_bind, wp_bind, wp_call.
  apply wp_run, wp_bind, wp_mid_upd, wp_ret, wp_ret, wp_bind, wp_ret, wp_bind, wp_bind, wp_call.
  apply wp_run, wp_bind, wp_mid_upd, wp_bind, wp_mid_upd, wp_ret, wp_ret, wp_bind, wp_mid_xf.
  rewrite Htn, Htv. apply wp_bind, wp_when; [done|intros _].
  apply wp_bind, wp_ct_helper_if. intros cm' Hcm.
  apply wp_bind, wp_when; [by rewrite Hfw|intros _]. apply wp_bind, wp_mid_stats. intros st3 κ3.
  apply wp_bind, wp_mid_upd. apply (wp_fc_send tail acts (fast_md p acts x));
    [apply fast_to_send|apply fast_parsed|apply fast_pipe_act|]. intros x' κ4 m Hm Ho Ha.
  apply wp_ret, HH; [done|done|by rewrite Ho|done].
Qed.
End fast.

(** ** The programs *)
Lemma wp_call_p {K A R} (f : pfunc K A) (QR : Z + R → lstate K → Prop) QN s :
  wpf f (λ r s', match r with inl v => QR (inl v) s' | inr a => QN a s' end) s →
  wpb (call_p f) QR QN s.
Proof.
  intros Hf. apply wp_bind, wp_call. eapply wpf_mono; [exact Hf|]. intros [v|a] s' HQ.
  - by apply wp_return.
  - by apply wp_ret.
Qed.
Lemma wp_run_prog {K} (f : pfunc K Z) (Q : Z → lstate K → Prop) s :
  wpf f (λ r s', Q (match r with inl v | inr v => v end) s') s → wpf (run_prog f) Q s.
Proof.
  intros Hf. apply wp_run, wp_bind, wp_call. eapply wpf_mono; [exact Hf|].
  intros [v|v] s' HQ; by apply wp_ret.
Qed.

Section programs.
Context {K : Type} `{LoxiEnvLaws K} `{SkbEnvLaws K} `{!SkbReady K}.
Context (T : fwd_tables) (idx : Z) (φ : flow) (p : path) (Hp : on_path T idx φ p).

(** The result of the slow path is left to the next program. *)
Definition sent_x (q : rest) : xfi := res_md (out_x p (flow_x φ q 1)).

Lemma sent_to_send q : to_send p (sent_x q).
Proof.
  pose proof Hp as []. destruct op_nat0 as (_ & _ & _ & _ & Hv6 & Hd).
  split; try done. split; try done. unfold sent_x, nat_x, ct_md, dp_pipe_set_nat. cbn.
  by rewrite Hv6.
Qed.

Lemma out_md_same x : let y := res_md (out_x p x) in
  l3_off (pm y) = l3_off (pm x) ∧ l4_off (pm y) = l4_off (pm x) ∧ l34m y = l34m x.
Proof. destruct x. split_and!; reflexivity. Qed.

Lemma sent_parsed f n : is_v4 f = true → flow_of f = φ → parsed f (sent_x (rest_of f n)).
Proof.
  intros Hv Hφ. assert (parsed f (flow_x φ (rest_of f n) 1)) as Hy.
  { rewrite <-Hφ. exact (flow_parsed f n 1 Hv). }
  unfold sent_x. revert Hy. generalize (flow_x φ (rest_of f n) 1). intros y Hy.
  destruct (out_md_same y) as (? & ? & ?). by eapply parsed_same.
Qed.

Lemma sent_act q : pipe_act (pm (sent_x q)) = LLB_PIPE_RDR.
Proof. reflexivity. Qed.
Lemma sent_oport q : oport (pm (sent_x q)) = va_oport (vlan_act (p_dmac p)).
Proof. reflexivity. Qed.
Lemma sent_res_hit q : has_flag (phit (pm (sent_x q))) LLB_DP_RES_HIT = true.
Proof. reflexivity. Qed.

(** A packet of the flow in a buffer the interface [idx] received. *)
Record of_flow (f : frame) (b : sk_buff) : Prop := {
  fl_flow : flow_of f = φ; fl_ok : frame_ok f = true; fl_v4 : is_v4 f = true;
  fl_bytes : bytes_ok (encode f); fl_fin : is_fin (f_l4 f) = false;
  fl_tun : is_udp (f_l4 f) && is_tunnel_port (l4_dport (f_l4 f)) = false;
  fl_uni : unicast b = true; fl_mirr : cb0 b ≠ LLB_MIRR_MARK; fl_idx : ifindex b = idx;
  fl_vlan : vlan_present b = 0 }.

Section packet.
Context (f : frame) (pad : list Z) (s : lstate K).
Context (HT : tables s = T) (E : lpkt s = encode f ++ pad) (Hf : of_flow f (skb s)).
Abbreviation M := (mid s).
Let n := Z.of_nat (length (encode f ++ pad)).

Lemma mid_set_xf x y cm fv st κ : M x cm fv st κ <| xf := y |> = M y cm fv st κ.
Proof. reflexivity. Qed.

Lemma wp_flow_parse skip tc_ cm fv st κ (Q : Z → lstate K → Prop) :
  Q 0 (M (flow_x φ (rest_of f n) tc_) cm fv st κ) →
  wpf (dp_parse_d0 skip) Q (M (xfi_zero <| pm; tc := tc_ |>) cm fv st κ).
Proof.
  intros HQ. destruct Hf as [Hφ ? ? ? ? ? ? ? ? ?]. apply (wp_parse_plain f pad); try done.
  { unfold is_v4 in *. by destruct (f_l3 f). }
  change (skb (M (xfi_zero <| pm; tc := tc_ |>) cm fv st κ)) with (skb s).
  change (xf (M (xfi_zero <| pm; tc := tc_ |>) cm fv st κ)) with (xfi_zero <| pm; tc := tc_ |>).
  rewrite outer_flow, Hφ, mid_set_xf by done. exact HQ.
Qed.

Lemma wp_ct_main tail cm fv st κ (Q : Z + Z → lstate K → Prop) :
  (∀ m κ x, sent_as p f pad m →
     Q (inr TC_ACT_REDIRECT)
       (M x cm fv st κ <| lpkt := m |> <| sent ::= cons (p_oif p, 0, m) |>)) →
  wpf (dp_ing_ct_main tail) Q (M (sent_x (rest_of f n)) cm fv st κ).
Proof.
  intros HQ. destruct Hf as [Hφ ? ? ? ? ? ? ? ? ?]. pose proof (sent_to_send (rest_of f n)) as Hs.
  pose proof (sent_parsed f n fl_v5 Hφ) as Hpa. pose proof (sent_act (rest_of f n)) as Ha.
  pose proof (sent_oport (rest_of f n)) as Ho. pose proof (sent_res_hit (rest_of f n)) as Hr.
  revert Hs Hpa Ha Ho Hr. generalize (sent_x (rest_of f n)). intros x Hs Hpa Ha Ho Hr.
  apply wp_run, wp_bind, wp_bind, wp_mid_xf. cbv zeta. apply wp_bind, wp_when; [intros _|by rewrite Hr].
  unfold call_p. apply wp_bind, wp_bind, wp_call.
  apply (wp_check_res T idx φ p tail f pad); [done..|]. intros m κ1 x1 Hm.
  apply wp_ret, wp_return. exact (HQ m κ1 x1 Hm).
Qed.

(** The state of the flow, and what happens to a packet in it. *)
Definition in_table (cm : ct_table) : Prop :=
  ∃ a, cm !! ct_key φ p = Some a ∧ same_conn (p_act p) a.

Lemma wp_slow_prog c x cm fv st κ (Q : Z → lstate K → Prop) :
  in_table cm → length (fcta (fcas fv)) = 10%nat → xfck fv = fc_key φ →
  fc_v4_map fv !! fc_key φ = None →
  (∀ x cm' fv' st κ m, in_table cm' → cache_ok φ p fv' → sent_as p f pad m →
     Q TC_ACT_REDIRECT (M x cm' fv' st κ <| lpkt := m |> <| sent ::= cons (p_oif p, 0, m) |>)) →
  wpf (run_prog (tc_packet_func (tail_calls (S c)))) Q (M x cm fv st κ).
Proof.
  intros (a & Ha & Hsa) Hl Hx Hm HQ. apply wp_run_prog, wp_run, wp_bind, wp_bind, wp_modify.
  rewrite mid_set_xf. apply wp_call_p, wp_run, wp_bind, wp_bind, wp_call.
  apply wp_flow_parse, wp_bind, wp_mid_xf. cbv zeta.
  change (pipe_act (pm (flow_x φ (rest_of f n) 1))) with 0.
  pose (prog := run_prog (tc_packet_func_slow (tail_calls c))).
  apply wp_call_p, (wp_flow_slow T idx φ p Hp s HT (fl_idx _ _ Hf) _ prog _ a); [reflexivity|done..|].
  intros a' fv' st1 κ1 Hs' Hc. apply wp_run_prog, wp_ct_main. intros m κ2 x' Hm'.
  apply HQ; [|done..]. exists a'. by rewrite lookup_insert_eq.
Qed.

Lemma wp_fc_main tail prog cm fv st κ (Q : Z + Z → lstate K → Prop) :
  in_table cm → cache_ok φ p fv → tail LLB_DP_PKT_SLOW_PGM_ID = Some prog →
  (∀ x fv' st κ, cache_ok φ p fv' → xfck fv' = fc_key φ → fc_v4_map fv' !! fc_key φ = None →
     wpf prog (λ v, Q (inl v)) (M x cm fv' st κ)) →
  (∀ x cm' st κ m, in_table cm' → sent_as p f pad m →
     Q (inr TC_ACT_REDIRECT) (M x cm' fv st κ <| lpkt := m |> <| sent ::= cons (p_oif p, 0, m) |>)) →
  wpf (dp_ing_fc_main tail) Q (M (flow_x φ (rest_of f n) 0) cm fv st κ).
Proof.
  intros (a & Ha & Hsa) Hc Htail HS HF. apply wp_run, wp_bind, wp_bind, wp_mid_xf.
  change (pipe_act (pm (flow_x φ (rest_of f n) 0))) with 0.
  change (dl_type (l2m (flow_x φ (rest_of f n) 0))) with (bpf_htons ETH_P_IP).
  apply wp_bind, wp_when; [intros _|done]. apply wp_bind, wp_call_p.
  pose proof Hf as [Hφ ? ? ? ? ? ? ? ? ?].
  assert (on_path T idx (flow_of f) p) as Hp' by (by rewrite Hφ).
  pose proof (wp_fcv4_lkup T idx f pad p Hp' fl_ok0 fl_v5 fl_bytes0 s E) as W. rewrite Hφ in W.
  apply W; [done| |]; clear W Hp'.
  - intros x1 fv1 st1 κ1 Hc1 Hx1 Hn1. apply wp_when; [done|intros _]. unfold bpf_tail_call.
    rewrite Htail. apply wp_bind, wp_bind, wp_call. eapply wpf_mono; [by apply HS|].
    intros v s' HQ. by apply wp_return.
  - intros x1 cm1 st1 κ1 m Hm Hk Ho Ha1. apply wp_when; [intros _|done]. apply wp_bind, wp_gets.
    apply wp_when; [intros _|].
    2: { intros Hne. exfalso. revert Hne. cbn. by rewrite Ha1. }
    apply wp_bind, wp_bpf_redirect. intros κ2. apply wp_return. cbn. rewrite Ho.
    apply (HF x1 cm1 st1 κ2 m); [|done]. destruct (Hk _ _ Ha) as (a' & Ha' & Hs').
    exists a'. split; [done|]. by eapply same_conn_trans.
Qed.

Lemma wp_fast_prog c x cm fv st κ (Q : Z → lstate K → Prop) :
  in_table cm → cache_ok φ p fv →
  (∀ x cm' fv' st κ m, in_table cm' → cache_ok φ p fv' → sent_as p f pad m →
     Q TC_ACT_REDIRECT (M x cm' fv' st κ <| lpkt := m |> <| sent ::= cons (p_oif p, 0, m) |>)) →
  wpf (run_prog (tc_packet_func_fast (tail_calls (S (S c))))) Q (M x cm fv st κ).
Proof.
  intros Ht Hc HQ. apply wp_run_prog, wp_run, wp_bind, wp_bind, wp_modify.
  rewrite mid_set_xf. apply wp_bind, wp_call, wp_flow_parse, wp_call_p.
  eapply wp_fc_main; [done|done|reflexivity| |].
  - intros x1 fv1 st1 κ1 Hc1 Hx1 Hn1. apply wp_slow_prog; [done|apply Hc1|done..].
  - intros x1 cm1 st1 κ1 m Ht1 Hm. by apply wp_ret, HQ.
Qed.
End packet.

(** ** Traffic *)

(** The flow is set up: the tables hold its path, the connection table its
    entry, and the flow cache nothing wrong about it. *)
Definition flow_inv (s : lstate K) : Prop :=
  tables s = T ∧ in_table (ct_map s) ∧ cache_ok φ p (fc s).

Lemma wp_tc_main f pad s (Q : Z → lstate K → Prop) :
  flow_inv s → lpkt s = encode f ++ pad → of_flow f (skb s) → sent s = [] →
  (∀ s' m, flow_inv s' → sent_as p f pad m → sent s' = [(p_oif p, 0, m)] → Q TC_ACT_REDIRECT s') →
  wpf tc_main Q s.
Proof.
  intros (HT & Hin & Hc) E Hf Hs HQ. rewrite (mid_eta s).
  unfold tc_main. change MAX_TAIL_CALL_CNT with (S (S 31)).
  apply (wp_fast_prog f pad s HT E Hf 31 _ _ _ _ _ _ Hin Hc).
  intros x cm fv st κ m Hin' Hc' Hm. apply (HQ _ m); [by split_and!|done|].
  match goal with |- sent ?s' = _ => change (sent s') with ((p_oif p, 0, m) :: sent s) end.
  by rewrite Hs.
Qed.
End programs.

Section traffic.
Context {K : Type} `{LoxiEnv K} `{SkbEnv K}.

(** A packet arrives, some time after the one before it: [e_before] is what
    other packets and user space did to the state meanwhile. *)
Record event : Type := Event {
  e_before : lstate K → lstate K; e_skb : sk_buff; e_frame : frame; e_pad : list Z }.
Definition arrive (e : event) (s : lstate K) : lstate K :=
  e_before e s <| skb := e_skb e |> <| lpkt := encode (e_frame e) ++ e_pad e |> <| sent := [] |>.

(** The verdict on each packet and what was sent for it. *)
Fixpoint traffic (es : list event) (s : lstate K)
    : option (list (Z * list (Z * Z * list Z)) * lstate K) :=
  match es with
  | [] => Some ([], s)
  | e :: es =>
      match tc_main (arrive e s) with
      | Some (v, s1) =>
          match traffic es s1 with
          | Some (outs, s2) => Some ((v, sent s1) :: outs, s2)
          | None => None
          end
      | None => None
      end
  end.
End traffic.
Arguments event K : clear implicits.

(** C7: Once a connection is translated and in the connection table, on a path
    through the forwarding tables (the interface, the router's address, the
    route of the translated packet, the neighbour, the interface behind it),
    every packet of it is sent, and only once: by the interface of the path,
    translated (with valid checksums kept valid), with the link-layer addresses
    of the neighbour, and nothing else changed.  This holds in any sequence of
    packets and whether a packet takes the slow path or the flow cache, misses
    the cache, or finds an entry expired; the slow path only makes right
    entries.  In between, other packets and user space may do whatever leaves
    the connection set up. *)
Theorem flow_forwarded {K} `{LoxiEnvLaws K} `{SkbEnvLaws K} `{!SkbReady K}
    T idx φ p (es : list (event K)) s :
  on_path T idx φ p → flow_inv T φ p s →
  Forall (λ e, of_flow idx φ (e_frame e) (e_skb e) ∧
               ∀ s, flow_inv T φ p s → flow_inv T φ p (e_before e s)) es →
  ∃ outs s', traffic es s = Some (outs, s') ∧ flow_inv T φ p s' ∧
    Forall2 (λ e o, ∃ m, o = (TC_ACT_REDIRECT, [(p_oif p, 0, m)]) ∧
                         sent_as p (e_frame e) (e_pad e) m) es outs.
Proof.
  intros Hp Hs Hes. revert s Hs. induction Hes as [|e es [He Hb] _ IH]; intros s Hs.
  { by exists [], s. }
  assert (wpf tc_main (λ v s', v = TC_ACT_REDIRECT ∧ flow_inv T φ p s' ∧
    ∃ m, sent s' = [(p_oif p, 0, m)] ∧ sent_as p (e_frame e) (e_pad e) m) (arrive e s)) as W.
  { apply (wp_tc_main T idx φ p Hp (e_frame e) (e_pad e)); [exact (Hb s Hs)|done|exact He|done|].
    intros s' m Hs' Hm Ho. eauto. }
  cbn [traffic]. unfold wpf in W. destruct (tc_main (arrive e s)) as [[v s1]|]; [|done].
  destruct W as (-> & Hs1 & m & Ho & Hm). destruct (IH s1 Hs1) as (outs & s2 & -> & Hs2 & Hall).
  rewrite Ho. exists ((TC_ACT_REDIRECT, [(p_oif p, 0, m)]) :: outs), s2. split_and!; [done..|].
  constructor; [by exists m|done].
Qed.

(** ** An example: acknowledgements to a service, for its end-point 10.0.0.9 *)
Definition ack_frame : frame := syn_frame <| f_l4 := Tcp 0x1234 0x5000 1 5 80 0x10 [0;0;0;0;0;0] |>.
Definition ca_of (act : Z) : dp_cmn_act := CmnAct act 0 0 3 0 0 0.
Definition service_path : path :=
  Path (IntfTact (ca_of DP_SET_IFI) (SetIfi 1 5 100 0 0 0))
    (TmacTact (ca_of DP_SET_L3_EN) rt_nh_zero)
    (ref_tact <| ca := ca_of DP_SET_DNAT |>
       <| nat_act := NatAct (XAddr 0x0900000a 0 0 0) DP_XADDR_ZR 0x901f 0 0 4 0 0 0 |>)
    (RtTact (ca_of DP_SET_RT_NHNUM) (RdrAct 0 0) (RtNhAct 7 0 0 l2nh_zero))
    (NhTact (ca_of DP_SET_NEIGH_L2) (L2nhAct (mac 9) (mac 8) 200 0) tunnh_zero)
    (DmacTact (ca_of DP_SET_RM_L2VLAN) (L2vlanAct 200 2) (RdrAct 0 0)) 22.
Definition service_tables : fwd_tables :=
  FwdTables {[ IntfKey 1 0 := p_intf service_path ]} {[ 2 := 22 ]} ∅
    {[ TmacKey (mac 1) 0 0 := p_tmac service_path ]} {[ DmacKey (mac 9) 200 := p_dmac service_path ]}
    {[ 7 := p_nh service_path ]} (λ _, Some (p_rt service_path)) (λ _, None) ∅ ∅ ∅.
Definition service_state : lstate lrefk :=
  ref_state xfi_zero [] <| tables := service_tables |>
    <| ct_map := {[ ct_key (flow_of ack_frame) service_path := p_act service_path ]} |>.
Definition an_ack (before : lstate lrefk → lstate lrefk) : event lrefk :=
  Event before ref_skb ack_frame [0; 0].
(** The cache entry is evicted. *)
Definition evict (s : lstate lrefk) : lstate lrefk :=
  s <| fc; fc_v4_map ::= delete (fc_key (flow_of ack_frame)) |>.

Lemma service_on_path : on_path service_tables 1 (flow_of ack_frame) service_path.
Proof. split; first [reflexivity | by split_and!; eauto | vm_compute; split; congruence | done]. Qed.

Lemma an_ack_ok before :
  of_flow 1 (flow_of ack_frame) (e_frame (an_ack before)) (e_skb (an_ack before)).
Proof.
  split; first [reflexivity | by apply (bool_decide_unpack _) | done].
Qed.

Lemma flow_forwarded_witness :
  ∃ outs s',
    traffic [an_ack id; an_ack id; an_ack evict] service_state = Some (outs, s') ∧
    flow_inv service_tables (flow_of ack_frame) service_path s' ∧
    Forall2 (λ e o, ∃ m, o = (TC_ACT_REDIRECT, [(22, 0, m)]) ∧
                         sent_as service_path (e_frame e) (e_pad e) m)
      [an_ack id; an_ack id; an_ack evict] outs.
Proof.
  apply (flow_forwarded service_tables 1 (flow_of ack_frame) service_path).
  - exact service_on_path.
  - split; [reflexivity|]. split; [by exists (p_act service_path)|by split].
  - assert (∀ s, flow_inv service_tables (flow_of ack_frame) service_path s →
                 flow_inv service_tables (flow_of ack_frame) service_path (evict s)) as He.
    { intros s (HT & Hin & Hl & Hc). split; [exact HT|]. split; [exact Hin|]. split; [exact Hl|].
      intros acts Ha. cbn in Ha. by rewrite lookup_delete_eq in Ha. }
    do 3 (constructor; [split; [apply an_ack_ok|done]|]). constructor.
Defined.
