(* ===== verification/LoxiCrc.v ===== *)
(** * loxilb: the checksum of translated SCTP packets

    The two programs of [kernel/llb_kern_sum.c], which compute a CRC32c with a
    table, 256 bytes per tail call, against the bit by bit definition
    (RFC 3309, appendix B). *)
From S2P Require Import Prelude Records Words Consts LoxiDefs LoxiTables LoxiState LoxiSkb LoxiRef.
From S2P Require Import LoxiParse LoxiParseSpec LoxiNatRw LoxiDeparse LoxiSum LoxiMain.
Open Scope c_scope.

(** ** The reference: a shift register, fed with the bits of the message *)
Definition shift1 (crc : Z) (b : bool) : Z :=
  let t := Z.shiftr crc 1 in if xorb (Z.testbit crc 0) b then Z.lxor t crc32c_poly else t.
Definition byte_bits (v : Z) : list bool := map (λ i, Z.testbit v (Z.of_nat i)) (seq 0 8).
Definition crc_bytes (crc : Z) (bs : list Z) : Z := foldl shift1 crc (bs ≫= byte_bits).
Definition crc32c (bs : list Z) : Z := Z.lxor (crc_bytes 0xffffffff bs) 0xffffffff.

(** The checksum in bytes 8 to 11 is that of the packet with zeros there. *)
Definition sctp_csum_ok (p : list Z) : Prop :=
  slice 8 4 p = le_bytes 4 (crc32c (splice 8 (le_bytes 4 0) p)).

Lemma splice_csum_ok p :
  (12 ≤ length p)%nat → slice 8 4 p = le_bytes 4 0 →
  sctp_csum_ok (splice 8 (le_bytes 4 (crc32c p)) p).
Proof.
  intros Hl Hz. unfold sctp_csum_ok.
  change (slice 8 4) with (slice 8 (length (le_bytes 4 (crc32c p)))).
  rewrite slice_splice_eq by (rewrite length_le_bytes; lia). do 2 f_equal.
  pose proof (region_split 8 4 p ltac:(lia)) as Hp. rewrite Hz in Hp.
  set (a := take 8 p) in *. set (b := drop (8 + 4) p) in *.
  assert (length a = 8%nat) as Ha by (unfold a; rewrite length_take; lia).
  assert (∀ u v, length u = 4%nat → length v = 4%nat → splice 8 u (a ++ v ++ b) = a ++ u ++ b) as W.
  { intros u v Hu Hv. rewrite <-Ha, splice_app by (rewrite length_app; lia).
    by rewrite Hu, <-Hv, drop_app_length. }
  rewrite Hp at 1. set (c := crc32c p). rewrite Hp. by rewrite !W.
Qed.

Example crc32c_check : crc32c [0x31;0x32;0x33;0x34;0x35;0x36;0x37;0x38;0x39] = 0xe3069283.
Proof. reflexivity. Qed.

(** ** The table *)
Lemma crc_bits_high n : ∀ x y,
  crc_bits n (Z.lxor x (Z.shiftl y (Z.of_nat n))) = Z.lxor (crc_bits n x) y.
Proof.
  induction n as [|n IH]; intros x y; cbn [crc_bits]; [by rewrite Z.shiftl_0_r|].
  rewrite Nat2Z.inj_succ, Z.lxor_spec, (Z.shiftl_spec_low y) by lia. rewrite xorb_false_r.
  assert (Z.shiftr (Z.lxor x (Z.shiftl y (Z.succ (Z.of_nat n)))) 1 =
          Z.lxor (Z.shiftr x 1) (Z.shiftl y (Z.of_nat n))) as ->.
  { rewrite Z.shiftr_lxor, Z.shiftr_shiftl_l by lia. do 2 f_equal. lia. }
  destruct (Z.testbit x 0); [|apply IH]. rewrite <-IH. f_equal.
  rewrite !Z.lxor_assoc. f_equal. apply Z.lxor_comm.
Qed.

Lemma crc_bits_fold n : ∀ crc b, 
  crc_bits n (Z.lxor crc b) =
  Z.lxor (foldl shift1 crc (map (λ i, Z.testbit b (Z.of_nat i)) (seq 0 n)))
    (Z.shiftr b (Z.of_nat n)).
Proof.
  induction n as [|n IH]; intros crc b; [by rewrite Z.shiftr_0_r|].
  cbn [crc_bits seq map foldl]. rewrite Z.lxor_spec, <-seq_shift, map_map.
  assert (Z.shiftr (Z.lxor crc b) 1 = Z.lxor (Z.shiftr crc 1) (Z.shiftr b 1)) as ->
    by apply Z.shiftr_lxor.
  set (c' := shift1 crc _).
  assert ((if xorb (Z.testbit crc 0) (Z.testbit b 0)
           then Z.lxor (Z.lxor (Z.shiftr crc 1) (Z.shiftr b 1)) crc32c_poly
           else Z.lxor (Z.shiftr crc 1) (Z.shiftr b 1)) = Z.lxor c' (Z.shiftr b 1)) as ->.
  { unfold c', shift1. cbn [Z.of_nat]. destruct (xorb _ _); [|done].
    rewrite !Z.lxor_assoc. f_equal. apply Z.lxor_comm. }
  rewrite IH. f_equal.
  - f_equal. apply map_ext. intros i. rewrite Z.shiftr_spec, Nat2Z.inj_succ by lia. done.
  - rewrite Z.shiftr_shiftr by lia. f_equal. lia.
Qed.

(** One byte through the table is eight bits through the register. *)
Lemma table_step crc v :
  0 ≤ v < 2 ^ 8 →
  Z.lxor (crc32c_entry (Z.land (Z.lxor crc v) 0xff)) (Z.shiftr crc 8) = crc_bytes crc [v].
Proof.
  intros Hv. assert (Z.shiftr v 8 = 0) as Hz by (rewrite Z.shiftr_div_pow2, Z.div_small by lia; done).
  unfold crc_bytes. cbn [mbind list_bind app]. rewrite app_nil_r.
  pose proof (crc_bits_fold 8 crc v) as E. change (Z.of_nat 8) with 8 in E. rewrite Hz, Z.lxor_0_r in E.
  unfold byte_bits. rewrite <-E. clear E. set (x := Z.lxor crc v).
  assert (Z.shiftr crc 8 = Z.shiftr x 8) as ->.
  { unfold x. by rewrite Z.shiftr_lxor, Hz, Z.lxor_0_r. }
  unfold crc32c_entry. rewrite <-crc_bits_high. f_equal. apply Z.bits_inj'. intros i Hi.
  rewrite Z.lxor_spec, Z.land_spec, Z.shiftl_spec by lia. change 0xff with (Z.ones 8).
  change (Z.of_nat 8) with 8.
  destruct (decide (i < 8)) as [Hl|Hl].
  - rewrite Z.ones_spec_low, (Z.testbit_neg_r _ (i - 8)) by lia.
    by rewrite andb_true_r, xorb_false_r.
  - rewrite Z.ones_spec_high, Z.shiftr_spec by lia. rewrite andb_false_r, xorb_false_l.
    f_equal. lia.
Qed.

Lemma crc_bytes_app crc bs bs' : crc_bytes crc (bs ++ bs') = crc_bytes (crc_bytes crc bs) bs'.
Proof. unfold crc_bytes. by rewrite bind_app, foldl_app. Qed.

Lemma table_lookup i : 0 ≤ i < 256 → crc32c_table !! i = Some (crc32c_entry i).
Proof.
  intros Hi. unfold crc32c_table. apply elem_of_list_to_map_1.
  - rewrite map_map. apply NoDup_fmap_2_strong; [|apply NoDup_seq].
    intros x y _ _ E. by apply Nat2Z.inj.
  - apply list_elem_of_fmap. exists (Z.to_nat i). rewrite Z2Nat.id by lia. split; [done|].
    apply elem_of_seq. lia.
Qed.

(** ** The programs *)
Section programs.
Context {K : Type} `{SkbEnvLaws K} `{!SkbReady K}.

Lemma crc_loop_eq n : ∀ pre bs post crc (s : lstate K),
  crc32c_map (tables s) = crc32c_table → lpkt s = pre ++ bs ++ post → bytes_ok bs →
  crc_loop n (Z.of_nat (length pre)) (Z.of_nat (length bs)) crc s =
    Next (Z.of_nat (length (pre ++ take n bs)), Z.of_nat (length (drop n bs)),
          crc_bytes crc (take n bs)) s.
Proof.
  induction n as [|n IH]; intros pre bs post crc s HT E Hb.
  { cbn [crc_loop take drop]. by rewrite app_nil_r. }
  destruct bs as [|v bs]; [cbn; by rewrite app_nil_r|]. apply Forall_cons in Hb as [Hv Hb].
  cbn [crc_loop]. rewrite (proj2 (Z.ltb_lt 0 _)) by (cbn [length]; lia).
  unfold bind, dp_pktbuf_read, gets. rewrite (proj2 (Z.ltb_ge _ 0)) by lia.
  rewrite Nat2Z.id, E, lookup_app_r, Nat.sub_diag by done. cbn [app lookup list_lookup].
  unfold get_crc32c_map, gets. rewrite HT, table_lookup.
  2: { change 0xff with (Z.ones 8). rewrite Z.land_ones by lia. apply Z.mod_pos_bound. lia. }
  change (default 0 (Some ?x)) with x. rewrite table_step by done.
  replace (Z.of_nat (length pre) + 1) with (Z.of_nat (length (pre ++ [v])))
    by (rewrite length_app; cbn; lia).
  replace (Z.of_nat (length (v :: bs)) - 1) with (Z.of_nat (length bs)) by (cbn; lia).
  rewrite (IH (pre ++ [v]) bs post) by (done || by rewrite E, <-app_assoc).
  cbn [take drop]. rewrite <-!app_assoc. cbn [app].
  by rewrite <-(crc_bytes_app crc [v] (take n bs)).
Qed.

(** The checksum program in the middle of the packet: [pre] is behind it, [bs]
    before it. *)
Record at_bytes (t : Z) (pre bs post : list Z) (crc : Z) (s : lstate K) : Prop := {
  ab_tab : crc32c_map (tables s) = crc32c_table;
  ab_pkt : lpkt s = pre ++ bs ++ post;
  ab_ok : bytes_ok bs;
  ab_pre : pre ≠ [];
  ab_small : Z.of_nat (length (pre ++ bs)) < 2 ^ 16;
  ab_km : km (xf s) = KeyMdi t (Z.of_nat (length pre)) (Z.of_nat (length bs)) crc }.

Definition next_crc (t : Z) : Z := if negb (t =? 0) then LLB_DP_CRC_PGM_ID2 else LLB_DP_CRC_PGM_ID1.
(** A tail call as the last statement, and [DP_DROP] when it is not possible. *)
Definition tail_or_drop (tail : Z → option (lfunc K Z)) (idx : Z) (s s' : lstate K) : option (Z * lstate K) :=
  match tail idx with Some prog => prog s | None => Some (DP_DROP, s') end.

Lemma tail_call_eq {R} tail idx (s : lstate K) :
  bpf_tail_call (R:=R) tail idx s =
    match tail idx with
    | Some prog => match prog s with Some (v, s') => Return (inl v) s' | None => Fault end
    | None => Next tt s
    end.
Proof.
  unfold bpf_tail_call. destruct (tail idx) as [prog|]; [|done]. unfold bind, call.
  by destruct (prog s) as [[v s']|].
Qed.

Lemma csum_more tail t pre bs post crc s :
  at_bytes t pre bs post crc s → 256 < Z.of_nat (length bs) →
  let t' := u8 (Z.lnot t) in
  let s' := s <| xf; km := KeyMdi t' (Z.of_nat (length (pre ++ take 256 bs)))
                   (Z.of_nat (length (drop 256 bs))) (crc_bytes crc (take 256 bs)) |> in
  run_prog (dp_sctp_csum tail) s = tail_or_drop tail (next_crc t') s' s'.
Proof.
  intros [HT E Hb Hp Hs Hk] Hl t' s'.
  assert (0 < length pre)%nat as Hp0 by (by destruct pre; [|cbn; lia]).
  assert (Z.of_nat (length (pre ++ bs)) = Z.of_nat (length (pre ++ take 256 bs)) +
          Z.of_nat (length (drop 256 bs))) as Hsum
    by (rewrite !length_app, length_take, length_drop; lia).
  assert (0 < Z.of_nat (length (drop 256 bs))) as Hd by (rewrite length_drop; lia).
  unfold run_prog, dp_sctp_csum, run_p, run, bind, call, gets. rewrite Hk.
  cbn [sk_tcall sk_off sk_rlen sk_crc]. rewrite (proj2 (Z.eqb_neq (Z.of_nat (length pre)) 0)) by lia.
  cbn [negb]. rewrite (crc_loop_eq _ _ _ post) by done. cbv beta iota zeta.
  rewrite (proj2 (Z.leb_gt _ 0)) by exact Hd. cbn [when].
  unfold ret at 1. cbv beta iota. unfold upd_xf, modify, bpf_tail_call, tail_or_drop.
  change DP_MAX_LOOPS_PER_TCALL with 256%nat. rewrite !u16_id by lia.
  match goal with |- context [s <| xf ::= ?g |>] => change (s <| xf ::= g |>) with s' end.
  fold t' (next_crc t'). destruct (tail (next_crc t')) as [prog|]; [|done].
  unfold bind, call. by destruct (prog s') as [[v s2]|].
Qed.

(** The checksum is in the packet, and the translation is done. *)
Definition summed (crc : Z) (s : lstate K) : lstate K :=
  s <| lpkt ::= splice (Z.to_nat (l4_off (pm (xf s)) + sctp_checksum)) (le_bytes 4 (Z.lxor crc 0xffffffff)) |>
    <| xf; pm; nf := 0 |> <| xf; pm; phit ::= λ h, Z.lor h LLB_DP_RES_HIT |>.

Lemma csum_last tail t pre bs post crc s :
  at_bytes t pre bs post crc s → Z.of_nat (length bs) ≤ 256 →
  nw_proto (l34m (xf s)) = IPPROTO_SCTP → 0 ≤ l4_off (pm (xf s)) →
  l4_off (pm (xf s)) + sizeof_sctphdr ≤ Z.of_nat (length (lpkt s)) →
  ∃ κ s', run_prog (dp_sctp_csum tail) s =
    match tail LLB_DP_CT_PGM_ID with
    | Some prog => prog (summed (crc_bytes crc bs) s <| lkern := κ |>)
    | None => tail_or_drop tail (next_crc (u8 (Z.lnot t))) s' s'
    end.
Proof.
  intros [HT E Hb Hp Hs Hk] Hl Hn Hof Hlen.
  assert (0 < length pre)%nat as Hp0 by (by destruct pre; [|cbn; lia]).
  destruct (sk_store_ready (l4_off (pm (xf s)) + sctp_checksum)
    (le_bytes 4 (Z.lxor (crc_bytes crc bs) 0xffffffff)) (lpkt s) (lkern s)) as [m Hm].
  { unfold sctp_checksum. lia. }
  { unfold sctp_checksum, sizeof_sctphdr in *. cbn [length le_bytes]. lia. }
  unfold run_prog, dp_sctp_csum, run_p, run, bind, call, gets. rewrite Hk.
  cbn [sk_tcall sk_off sk_rlen sk_crc]. rewrite (proj2 (Z.eqb_neq (Z.of_nat (length pre)) 0)) by lia.
  cbn [negb]. rewrite (crc_loop_eq _ _ _ post) by done. cbv beta iota zeta.
  change DP_MAX_LOOPS_PER_TCALL with 256%nat. rewrite drop_ge, take_ge by lia. cbn [length].
  change (Z.of_nat 0 <=? 0) with true. rewrite Hn. change (IPPROTO_SCTP =? IPPROTO_SCTP) with true.
  cbn [when]. unfold past_end, gets. change (pkt_len s) with (Z.of_nat (length (lpkt s))).
  rewrite (proj2 (Z.ltb_ge _ _)) by exact Hlen. cbn [when]. unfold ret at 1. cbv beta iota.
  unfold bpf_skb_store_bytes, skb_op.
  destruct (sk_store_bytes _ _ _ _) as [o κ] eqn:Ho. cbn [fst] in Hm. subst o.
  apply sk_store_spec in Ho; [subst m|unfold sctp_checksum; lia|].
  2: { unfold sctp_checksum, sizeof_sctphdr in *. rewrite length_le_bytes. lia. }
  unfold upd_xf, modify, RETURN_TO_MP_OUT, bind. exists κ.
  set (s1 := summed (crc_bytes crc bs) s <| lkern := κ |>).
  eexists. unfold upd_xf, modify.
  match goal with |- context [bpf_tail_call tail LLB_DP_CT_PGM_ID ?s0] =>
    change s0 with s1 end.
  rewrite !tail_call_eq. destruct (tail LLB_DP_CT_PGM_ID) as [prog|].
  { by destruct (prog s1) as [[v s2]|]. }
  unfold tail_or_drop. rewrite tail_call_eq. fold (next_crc (u8 (Z.lnot t))).
  destruct (tail (next_crc (u8 (Z.lnot t)))) as [prog|]; [|reflexivity].
  match goal with |- context [prog ?s0] => by destruct (prog s0) as [[v s2]|] end.
Qed.

Context `{LoxiEnv K}.

(** Passes over 256 bytes. *)
Definition passes (bs : list Z) : nat := Nat.div (length bs + 255) 256.

Lemma passes_more bs : 256 < Z.of_nat (length bs) → passes bs = S (passes (drop 256 bs)).
Proof.
  intros Hl. unfold passes. rewrite length_drop.
  replace (length bs + 255)%nat with (length bs - 256 + 255 + 1 * 256)%nat by lia.
  rewrite Nat.div_add by done. lia.
Qed.
Lemma passes_last bs : bs ≠ [] → Z.of_nat (length bs) ≤ 256 → passes bs = 1%nat.
Proof.
  intros Hne Hl. assert (0 < length bs)%nat by (by destruct bs; [|cbn; lia]).
  unfold passes. symmetry. apply (Nat.div_unique _ _ _ (length bs - 1)); lia.
Qed.

(** The index of either program stands for the same one. *)
Lemma crc_prog c t : 
  tail_calls (K:=K) (S c) (next_crc t) = Some (run_prog (dp_sctp_csum (tail_calls c))).
Proof. unfold next_crc. by case_match. Qed.

Lemma csum_passes c : ∀ t pre bs post crc (s : lstate K),
  at_bytes t pre bs post crc s → bs ≠ [] →
  nw_proto (l34m (xf s)) = IPPROTO_SCTP → 0 ≤ l4_off (pm (xf s)) →
  l4_off (pm (xf s)) + sizeof_sctphdr ≤ Z.of_nat (length (lpkt s)) →
  if (passes bs <=? c)%nat then ∃ km' κ,
    run_prog (dp_sctp_csum (tail_calls c)) s =
    run_prog (tc_packet_func_slow (tail_calls (c - passes bs)))
      (summed (crc_bytes crc bs) s <| xf; km := km' |> <| lkern := κ |>)
  else ∃ s', run_prog (dp_sctp_csum (tail_calls c)) s = Some (DP_DROP, s').
Proof.
  induction c as [|c IH]; intros t pre bs post crc s Hat Hne Hn Hof Hlen;
    destruct (decide (256 < Z.of_nat (length bs))) as [Hl|Hl].
  - rewrite (passes_more bs) by done. rewrite (csum_more _ _ _ _ _ _ _ Hat Hl). by eexists.
  - rewrite (passes_last bs) by (done || lia).
    destruct (csum_last (tail_calls 0) _ _ _ _ _ _ Hat ltac:(lia) Hn Hof Hlen) as (κ & s' & ->). by eexists.
  - rewrite (passes_more bs), (csum_more _ _ _ _ _ _ _ Hat Hl) by done. unfold tail_or_drop.
    rewrite crc_prog. destruct Hat as [HT E Hb Hp Hs Hk].
    rewrite <-(take_drop 256 bs) in E, Hs, Hb. apply Forall_app in Hb as [Hb1 Hb2].
    match goal with |- context [run_prog (dp_sctp_csum (tail_calls c)) ?s0] => set (s1 := s0) end.
    specialize (IH (u8 (Z.lnot t)) (pre ++ take 256 bs) (drop 256 bs) post
                  (crc_bytes crc (take 256 bs)) s1).
    rewrite <-crc_bytes_app, take_drop in IH. cbn [Nat.leb]. apply IH; try done.
    + split; [done| |done|by destruct pre|by rewrite <-app_assoc|done].
      change (lpkt s = (pre ++ take 256 bs) ++ drop 256 bs ++ post). by rewrite E, <-!app_assoc.
    + intros Hd. apply (f_equal length) in Hd. rewrite length_drop in Hd. cbn in Hd. lia.
  - rewrite (passes_last bs) by (done || lia).
    destruct (csum_last (tail_calls (S c)) _ _ _ _ _ _ Hat ltac:(lia) Hn Hof Hlen) as (κ & s' & ->).
    cbn [Nat.leb]. rewrite Nat.sub_succ, Nat.sub_0_r. exists (km (xf s)), κ.
    unfold summed. destruct s as [? ? x]. by destruct x.
Qed.

(** C27: An SCTP packet is translated (its checksum cleared) and handed to the
    checksum programs: when there are tail calls left for its length, 256 bytes
    each, and one more, the program behind them sees the packet with the right
    CRC32c, nothing else in it changed, and no translation left to do; when
    there are not, the packet is dropped. *)
Theorem sctp_checksum_done c (hdr sctp post : list Z) (s : lstate K) :
  let x := xf s in
  crc32c_map (tables s) = crc32c_table → lpkt s = hdr ++ sctp ++ post → bytes_ok sctp →
  nw_proto (l34m x) = IPPROTO_SCTP → sizeof_sctphdr ≤ Z.of_nat (length sctp) →
  slice 8 4 sctp = le_bytes 4 0 →
  l4_off (pm x) = Z.of_nat (length hdr) → hdr ≠ [] → l3_plen (pm x) = Z.of_nat (length sctp) →
  Z.of_nat (length (hdr ++ sctp)) < 2 ^ 16 →
  if (passes sctp <=? c)%nat then ∃ csum km' κ,
    length csum = 4%nat ∧ sctp_csum_ok (splice 8 csum sctp) ∧
    run_prog (dp_csum_tcall (tail_calls (S c))) s =
    run_prog (tc_packet_func_slow (tail_calls (c - passes sctp)))
      (s <| lpkt := hdr ++ splice 8 csum sctp ++ post |> <| lkern := κ |>
         <| xf := x <| km := km' |> <| pm; nf := 0 |> <| pm; phit ::= λ h, Z.lor h LLB_DP_RES_HIT |> |>)
  else ∃ s', run_prog (dp_csum_tcall (tail_calls (S c))) s = Some (DP_DROP, s').
Proof.
  intros x HT E Hb Hn Hlen Hz Hof Hne Hpl Hs.
  set (s0 := s <| xf; km := KeyMdi 0 (l4_off (pm x)) (l3_plen (pm x)) 0xffffffff |>).
  assert (run_prog (dp_csum_tcall (tail_calls (S c))) s =
          run_prog (dp_sctp_csum (tail_calls c)) s0) as ->.
  { unfold run_prog at 1, dp_csum_tcall, run_p, run, bind, call, upd_xf, modify.
    rewrite tail_call_eq. change LLB_DP_CRC_PGM_ID1 with (next_crc 0). rewrite crc_prog.
    match goal with |- context [run_prog _ ?s1] => change s1 with s0 end.
    by destruct (run_prog (dp_sctp_csum (tail_calls c)) s0) as [[v s']|]. }
  assert (at_bytes 0 hdr sctp post 0xffffffff s0) as Hat.
  { split; [done|done|done|done|done|]. change (km (xf s0)) with
      (KeyMdi 0 (l4_off (pm x)) (l3_plen (pm x)) 0xffffffff). by rewrite Hof, Hpl. }
  pose proof (csum_passes c 0 hdr sctp post _ s0 Hat) as P. fold x in P.
  unfold sizeof_sctphdr in *.
  assert (sctp ≠ []) as Hsn by (intros ->; cbn in Hlen; lia).
  specialize (P Hsn Hn). change (l4_off (pm (xf s0))) with (l4_off (pm x)) in P.
  change (lpkt s0) with (lpkt s) in P. rewrite E, Hof, !length_app in P.
  specialize (P ltac:(lia) ltac:(lia)). destruct (passes sctp <=? c)%nat; [|exact P].
  destruct P as (km' & κ & ->). exists (le_bytes 4 (crc32c sctp)), km', κ.
  split; [done|]. split; [by apply splice_csum_ok; [lia|]|]. do 2 f_equal.
  assert (splice (Z.to_nat (l4_off (pm (xf s0)) + sctp_checksum)) (le_bytes 4 (crc32c sctp)) (lpkt s0)
          = hdr ++ splice 8 (le_bytes 4 (crc32c sctp)) sctp ++ post) as Hm.
  { change (l4_off (pm (xf s0))) with (l4_off (pm x)). change (lpkt s0) with (lpkt s).
    rewrite E, Hof. unfold sctp_checksum.
    replace (Z.to_nat (Z.of_nat (length hdr) + 8)) with (length hdr + 8)%nat by lia.
    apply splice_region. rewrite length_le_bytes. lia. }
  rewrite <-Hm. reflexivity.
Qed.
End programs.

(** A packet of 312 bytes takes two passes. *)
Definition sctp_packet : list Z := [0x12; 0x34; 0x0b; 0x59; 1; 2; 3; 4; 0; 0; 0; 0] ++ repeat 7 300.
Definition sctp_state : lstate lrefk :=
  ref_state (xfi_zero <| l34m; nw_proto := IPPROTO_SCTP |> <| pm; l4_off := 34 |> <| pm; l3_plen := 312 |>)
    (repeat 0 34 ++ sctp_packet ++ [9]) <| tables := FwdTables ∅ ∅ ∅ ∅ ∅ ∅ (λ _, None) (λ _, None) ∅ ∅ crc32c_table |>.

Lemma sctp_checksum_done_witness :
  ∃ csum km' κ,
    length csum = 4%nat ∧ sctp_csum_ok (splice 8 csum sctp_packet) ∧
    run_prog (dp_csum_tcall (tail_calls 4)) sctp_state =
    run_prog (tc_packet_func_slow (tail_calls 1))
      (sctp_state <| lpkt := repeat 0 34 ++ splice 8 csum sctp_packet ++ [9] |> <| lkern := κ |>
         <| xf := xf sctp_state <| km := km' |> <| pm; nf := 0 |>
                    <| pm; phit ::= λ h, Z.lor h LLB_DP_RES_HIT |> |>).
Proof.
  apply (sctp_checksum_done 3 (repeat 0 34) sctp_packet [9] sctp_state);
    first [reflexivity | by apply (bool_decide_unpack _) | done].
Defined.
