(* ===== verification/RateLimit.v ===== *)
(** * The connection rate limiter ([ebpf-ratelimiter-main/])

    [ratelimiting_kern.c] (XDP) and [transformed/ratelimiting_kern-TC.c], the
    tc program that the extraction tool's transformation made of it: both count
    the SYN packets they let through per second of the monotonic clock.
    [ratelimiting_user.c]: the periodic removal of old counters. *)
From Stdlib Require Import ZifyBool.
From stdpp Require Import sorting.
From S2P Require Import Prelude Records Words Consts.
Open Scope c_scope.

Definition TCP_FLAGS : Z := 247.
Definition NANO : Z := 1000000000.
Definition MULTIPLIER : Z := 100.
(** [rl_window_map.max_elem] *)
Definition rl_window_max_elem : nat := 100.

Record rl_state (K : Type) : Type := RlState {
  rl_pkt : mem;
  (** [skb->protocol], which the tc program reads. *)
  rl_protocol : Z;
  rl_config_map : gmap Z Z;
  rl_window_map : gmap Z Z;
  rl_recv_count_map : gmap Z Z;
  rl_drop_count_map : gmap Z Z;
  rl_ports_map : gmap Z Z;
  rl_kern : K
}.
Arguments RlState {K}.
Arguments rl_pkt {K}. Arguments rl_protocol {K}. Arguments rl_config_map {K}.
Arguments rl_window_map {K}. Arguments rl_recv_count_map {K}.
Arguments rl_drop_count_map {K}. Arguments rl_ports_map {K}. Arguments rl_kern {K}.
#[export] Instance eta_rl_state K : Eta (rl_state K) := λ s,
  RlState (rl_pkt s) (rl_protocol s) (rl_config_map s) (rl_window_map s)
    (rl_recv_count_map s) (rl_drop_count_map s) (rl_ports_map s) (rl_kern s).
#[export] Instance rl_pkt_state K : PktState (rl_state K) :=
  {| get_pkt := rl_pkt; set_pkt m s := s <| rl_pkt := m |> |}.
#[export] Instance rl_pkt_laws K : PktStateLaws (rl_state K).
Proof. split; [done..|]. by intros []. Qed.

(** The kernel: [rl_ktime] is [bpf_ktime_get_ns], [rl_window_insert k v] is
    [bpf_map_update_elem(&rl_window_map, &k, &v, BPF_NOEXIST)], [rl_order] the
    order in which [bpf_map_get_next_key] walks a hash map. *)
Class RlEnv (K : Type) : Type := {
  rl_ktime : K → Z * K;
  rl_window_insert : Z → Z → gmap Z Z → K → gmap Z Z * K;
  rl_order : gmap Z Z → list Z
}.
Class RlEnvLaws (K : Type) `{RlEnv K} : Prop := {
  rl_ktime_range k : 0 ≤ fst (rl_ktime k) < 2 ^ 64;
  (** An insertion only fails when the map is full. *)
  rl_window_insert_spec k v m κ : m !! k = None →
    fst (rl_window_insert k v m κ) = <[k := v]> m ∨
    fst (rl_window_insert k v m κ) = m ∧ (rl_window_max_elem ≤ size m)%nat;
  (** A walk meets every key once; a removal leaves the other keys in order. *)
  rl_order_keys m k : k ∈ rl_order m ↔ is_Some (m !! k);
  rl_order_NoDup m : NoDup (rl_order m);
  rl_order_delete m k : rl_order (delete k m) = filter (λ j, j ≠ k) (rl_order m)
}.

Section program.
Context {K : Type} `{RlEnv K}.
Implicit Types s : rl_state K.

Definition rl_now : body (rl_state K) Z Z :=
  λ s, let '(t, k) := rl_ktime (rl_kern s) in Next t (s <| rl_kern := k |>).
Definition window_insert (k v : Z) : body (rl_state K) Z unit :=
  λ s, let '(m, κ) := rl_window_insert k v (rl_window_map s) (rl_kern s) in
       Next tt (s <| rl_window_map := m |> <| rl_kern := κ |>).

(** Reads through a pointer into [rl_window_map]. *)
Definition window_read (k : Z) : body (rl_state K) Z Z :=
  let! o := gets (λ s, rl_window_map s !! k) in or_fault o.

(** [cw_count] is a [uint32_t *] to a [uint64_t]. *)
Definition incr32 (v : Z) : Z := v - u32 v + u32 (u32 v + 1).
Definition incr64 (v : Z) : Z := u64 (v + 1).

Section verdicts.
(** The verdicts of the hook, and what the weighted count is compared with. *)
Context (DROP PASS : Z) (limit : Z → Z).

(** Up to the destination port; anything but a SYN is let through. *)
Definition syn_filter (eth_type : body (rl_state K) Z Z) : body (rl_state K) Z Z :=
  let! oob := past_end sizeof_ethhdr in
  return_if oob DROP ;;
  let! eth_type := eth_type in
  return_if (negb (bpf_ntohs eth_type =? ETH_P_IP)) PASS ;;
  let iph := sizeof_ethhdr in
  let! oob := past_end (iph + sizeof_iphdr) in
  return_if oob PASS ;;
  let! protocol := load8 (iph + ip_protocol) in
  return_if (negb (protocol =? IPPROTO_TCP)) PASS ;;
  let tcph := iph + sizeof_iphdr in
  let! oob := past_end (tcph + sizeof_tcphdr) in
  return_if oob PASS ;;
  let! flags := load8 (tcph + tcp_flags) in
  let syn := Z.land (Z.shiftr flags 1) 1 in
  let ack := Z.land (Z.shiftr flags 4) 1 in
  return_if (Z.land syn TCP_FLAGS =? 0) PASS ;;
  return_if (negb (Z.land ack TCP_FLAGS =? 0)) PASS ;;
  let! dest := load16 (tcph + tcp_dest) in
  ret (bpf_ntohs dest).

Definition cw_key_of (tnow : Z) : Z := u64 (tnow / NANO * NANO).
Definition pw_key_of (tnow : Z) : Z := u64 (cw_key_of tnow - NANO).

(** [total_count], from the counts of the previous and the current window. *)
Definition weighted_count (tnow pw_count cw_count : Z) : Z :=
  let pw_weight := u64 (MULTIPLIER - u64 (u64 (tnow - cw_key_of tnow) * MULTIPLIER) / NANO) in
  u64 (u64 (pw_weight * pw_count) + u64 (cw_count * MULTIPLIER)).

(** The decision, on the pointers [pw_count] ([no_pw]: it is null) and
    [cw_count]. *)
Definition rl_decide (rate tnow : Z) (no_pw : bool) : body (rl_state K) Z Z :=
  let cw_key := cw_key_of tnow in
  let! cw := window_read cw_key in
  let cw := u32 cw in
  let dropped := modify (λ s, s <| rl_drop_count_map ::= alter incr64 0 |>) ;; ret DROP in
  let allowed := modify (λ s, s <| rl_window_map ::= alter incr32 cw_key |>) ;; ret PASS in
  if no_pw then
    if rate <=? cw then dropped else allowed
  else
    let! pw := window_read (pw_key_of tnow) in
    if limit rate <? weighted_count tnow pw cw then dropped else allowed.

(** From the lookup of the rate to the end. *)
Definition rl_count : body (rl_state K) Z Z :=
  let rkey := 0 in
  let! rate := gets (λ s, rl_config_map s !! rkey) in
  let! rate := or_return rate PASS in
  let! tnow := rl_now in
  let cw_key := cw_key_of tnow in
  let pw_key := pw_key_of tnow in
  let! pw_count := gets (λ s, rl_window_map s !! pw_key) in
  let! cw_count := gets (λ s, rl_window_map s !! cw_key) in
  let! in_count := gets (λ s, rl_recv_count_map s !! rkey) in
  let! drop_count := gets (λ s, rl_drop_count_map s !! rkey) in
  return_if (bool_decide (in_count = None) || bool_decide (drop_count = None)) PASS ;;
  modify (λ s, s <| rl_recv_count_map ::= alter incr64 rkey |>) ;;
  when (bool_decide (cw_count = None)) (
    window_insert cw_key 0 ;;
    let! cw_count := gets (λ s, rl_window_map s !! cw_key) in
    return_if (bool_decide (cw_count = None)) PASS) ;;
  rl_decide rate tnow (bool_decide (pw_count = None)).
End verdicts.
End program.

(** ** [ratelimiting_kern.c] *)
Module Xdp.
Section xdp.
Context {K : Type} `{RlEnv K}.

(** The weighted count is scaled by [MULTIPLIER], the rate is not. *)
Definition limit (rate : Z) : Z := rate.

Definition _xdp_ratelimit : func (rl_state K) Z := run (
  let! dstport := syn_filter XDP_DROP XDP_PASS (load16 eth_h_proto) in
  rl_count XDP_DROP XDP_PASS limit).

Definition _xdp_ratelimiting : func (rl_state K) Z := run (
  let! rc := call _xdp_ratelimit in
  return_if (rc =? XDP_DROP) XDP_DROP ;;
  ret XDP_PASS).
End xdp.
End Xdp.

(** ** [ratelimiting_kern-TC.c] *)
Module Tc.
Section tc.
Context {K : Type} `{RlEnv K}.
(** [xdp_rl_ingress_next_prog]: [None] when the tail call fails. *)
Context (next_prog : option (func (rl_state K) Z)).

Definition limit (rate : Z) : Z := u64 (rate * MULTIPLIER).

Definition _xdp_ratelimit : func (rl_state K) Z := run (
  let! dstport := syn_filter TC_ACT_SHOT TC_ACT_OK (gets rl_protocol) in
  let! port := gets (λ s, rl_ports_map s !! dstport) in
  return_if (bool_decide (port = None)) TC_ACT_OK ;;
  rl_count TC_ACT_SHOT TC_ACT_OK limit).

Definition _xdp_ratelimiting : func (rl_state K) Z := run (
  let! rc := call _xdp_ratelimit in
  return_if (rc =? TC_ACT_SHOT) TC_ACT_SHOT ;;
  match next_prog with
  | Some prog => call prog
  | None => ret TC_ACT_OK
  end).
End tc.
End Tc.

(** ** [ratelimiting_user.c] *)
Section sweep.
Context {K : Type} `{RlEnv K}.

Definition buffer_time : Z := 10.

(** The key after the first occurrence of [k], the first key when [k] is not
    in the map, [None] at the end. *)
Fixpoint next_after (k : Z) (l : list Z) : option (option Z) :=
  match l with
  | [] => None
  | j :: l => if j =? k then Some (head l) else next_after k l
  end.
Definition bpf_map_get_next_key (m : gmap Z Z) (k : Z) : option Z :=
  match next_after k (rl_order m) with
  | Some o => o
  | None => head (rl_order m)
  end.

(** The [while] loop; [None] when it has not ended after [n] iterations. *)
Fixpoint delete_stale_loop (n : nat) (first_key curr_time : Z) (m : gmap Z Z) :
    option (gmap Z Z) :=
  match n with
  | O => None
  | S n =>
      match bpf_map_get_next_key m first_key with
      | None => Some m
      | Some next_key =>
          let m := if next_key <? u64 (curr_time - buffer_time) then delete next_key m else m in
          delete_stale_loop n next_key curr_time m
      end
  end.
Definition delete_stale_entries (n : nat) (curr_time : Z) (m : gmap Z Z) : option (gmap Z Z) :=
  delete_stale_loop n 0 curr_time m.
End sweep.

(** ** What the programs compute *)


(** The packets [syn_filter] hands on: IPv4 TCP packets with SYN and without
    ACK, their headers without IP options. *)
Definition is_syn (eth_type : Z) (m : mem) : bool :=
  (54 <=? Z.of_nat (length m)) && (bpf_ntohs eth_type =? ETH_P_IP) &&
  (byte_at 23 m =? IPPROTO_TCP) &&
  Z.testbit (byte_at 47 m) 1 && negb (Z.testbit (byte_at 47 m) 4).
Definition dst_port (m : mem) : Z := bpf_ntohs (le_val (slice 36 2 m)).

(** Whether a connection is admitted at [t], from the counts of the previous
    window, if it has one, and of the current window. *)
Definition lets_in (limit : Z → Z) (rate t : Z) (pw : option Z) (cw : Z) : bool :=
  match pw with
  | None => cw <? rate
  | Some p => weighted_count t p cw <=? limit rate
  end.

Lemma flag_bit (x i : Z) :
  0 ≤ i → Z.land (Z.land (Z.shiftr x i) 1) TCP_FLAGS = if Z.testbit x i then 1 else 0.
Proof.
  intros Hi. change 1 with (Z.ones 1) at 1. rewrite Z.land_ones by lia.
  change (2 ^ 1) with 2. rewrite <-Z.bit0_mod, Z.shiftr_spec, Z.add_0_l by lia.
  by destruct (Z.testbit x i).
Qed.

Lemma cw_pw_keys t : pw_key_of t ≠ cw_key_of t.
Proof.
  unfold pw_key_of, NANO. pose proof (u64_range (t / 1000000000 * 1000000000)) as Hr.
  unfold cw_key_of, NANO. intros E. unfold u64 at 1 in E.
  set (c := u64 _) in *. Z.div_mod_to_equations. lia.
Qed.

(** The time, the windows and the kernel after the counter of the current
    window has been created where it was missing. *)
Definition rl_opened {K} `{RlEnv K} (s : rl_state K) : Z * gmap Z Z * K :=
  let '(t, κ) := rl_ktime (rl_kern s) in
  let '(w, κ') :=
    match rl_window_map s !! cw_key_of t with
    | Some _ => (rl_window_map s, κ)
    | None => rl_window_insert (cw_key_of t) 0 (rl_window_map s) κ
    end in
  (t, w, κ').

(** The limiter has been set up by user space. *)
Definition configured {K} (rate : Z) (s : rl_state K) : Prop :=
  rl_config_map s !! 0 = Some rate ∧
  is_Some (rl_recv_count_map s !! 0) ∧ is_Some (rl_drop_count_map s !! 0).

Section specs.
Context {K : Type} `{RlEnvLaws K}.
Implicit Types s : rl_state K.

Lemma wp_rl_now (QR QN : Z → rl_state K → Prop) s t κ :
  rl_ktime (rl_kern s) = (t, κ) → QN t (s <| rl_kern := κ |>) → wpb rl_now QR QN s.
Proof. intros E HQ. unfold wpb, rl_now. by rewrite E. Qed.

Lemma wp_window_read k v (QR QN : Z → rl_state K → Prop) s :
  rl_window_map s !! k = Some v → QN v s → wpb (window_read k) QR QN s.
Proof. intros E HQ. apply wp_bind, wp_gets. by eapply wp_or_fault. Qed.

Lemma wp_syn_filter DROP PASS eth (e : rl_state K → Z) (QR QN : Z → rl_state K → Prop) s :
  (∀ QN', sizeof_ethhdr ≤ pkt_len s → QN' (e s) s → wpb eth QR QN' s) →
  (is_syn (e s) (rl_pkt s) = false →
     QR (if pkt_len s <? sizeof_ethhdr then DROP else PASS) s) →
  (is_syn (e s) (rl_pkt s) = true → QN (dst_port (rl_pkt s)) s) →
  wpb (syn_filter DROP PASS eth) QR QN s.
Proof.
  intros He Hno Hyes. unfold syn_filter, is_syn, byte_at, dst_port in *.
  change (length (rl_pkt s)) with (length (get_pkt s)) in *. fold (pkt_len s) in *.
  change (rl_pkt s) with (get_pkt s) in *.
  assert (∀ r, r = (if pkt_len s <? sizeof_ethhdr then DROP else PASS) →
    (54 <=? pkt_len s) && (bpf_ntohs (e s) =? ETH_P_IP) &&
      (le_val (slice 23 1 (get_pkt s)) =? IPPROTO_TCP) &&
      Z.testbit (le_val (slice 47 1 (get_pkt s))) 1 &&
      negb (Z.testbit (le_val (slice 47 1 (get_pkt s))) 4) = false → QR r s) as Hno'
    by (intros ? ->; exact Hno).
  assert (∀ c : bool, ((if c then 1 else 0) =? 0) = negb c) as Hbit by by intros [].
  wp_step. apply wp_past_end. wp_step.
  destruct (Z.ltb_spec (pkt_len s) sizeof_ethhdr) as [Hl|Hl]; wp_step.
  all: try (apply Hno'; [done|autounfold with katran in *; lia]); try done.
  wp_step. apply He; [done|]. wp_step. wp_step; [apply Hno'; [done|lia]|].
  cbv zeta. wp_step. apply wp_past_end. wp_step.
  wp_step; [apply Hno'; [done|autounfold with katran in *; lia]|].
  autounfold with katran in *.
  wp_step. apply wp_load; [lia..|]. wp_step. wp_step; [apply Hno'; [done|]|].
  { change (Z.to_nat (14 + 9)) with 23%nat in *. lia. }
  wp_step. apply wp_past_end. wp_step. wp_step; [apply Hno'; [done|lia]|].
  wp_step. apply wp_load; [lia..|]. cbv zeta. wp_step. rewrite !flag_bit, !Hbit by lia.
  change (Z.to_nat (14 + 9)) with 23%nat in *. change (Z.to_nat (14 + 20 + 13)) with 47%nat.
  wp_step; [apply Hno'; [done|lia]|]. wp_step.
  wp_step; [apply Hno'; [done|lia]|]. wp_step.
  apply wp_load; [lia..|]. wp_step. apply Hyes. lia.
Qed.

Lemma rl_opened_spec s t w κ :
  rl_opened s = (t, w, κ) →
  t = fst (rl_ktime (rl_kern s)) ∧ 0 ≤ t < 2 ^ 64 ∧
  (∀ k, k ≠ cw_key_of t → w !! k = rl_window_map s !! k) ∧
  (∀ v, rl_window_map s !! cw_key_of t = Some v → w = rl_window_map s) ∧
  (rl_window_map s !! cw_key_of t = None →
     w = <[cw_key_of t := 0]> (rl_window_map s) ∨
     w = rl_window_map s ∧ (rl_window_max_elem ≤ size (rl_window_map s))%nat).
Proof.
  unfold rl_opened. pose proof (rl_ktime_range (rl_kern s)) as Ht.
  destruct (rl_ktime (rl_kern s)) as [t' κ1]. simpl in Ht.
  destruct (rl_window_map s !! cw_key_of t') as [v|] eqn:Ev.
  - intros [= <- <- <-]. split_and!; [done|lia..|done|done|by rewrite Ev].
  - pose proof (rl_window_insert_spec (cw_key_of t') 0 _ κ1 Ev) as Hw.
    destruct (rl_window_insert _ _ _ _) as [w' κ2]. simpl in Hw.
    intros [= <- <- <-]. split_and!; [done|lia..| |by rewrite Ev|done].
    intros k Hk. destruct Hw as [->|[-> _]]; [by rewrite lookup_insert_ne|done].
Qed.

Lemma wp_rl_decide DROP PASS limit rate t o v (Q : Z → rl_state K → Prop) s :
  rl_window_map s !! cw_key_of t = Some v → rl_window_map s !! pw_key_of t = o →
  (if lets_in limit rate t o (u32 v)
   then Q PASS (s <| rl_window_map ::= alter incr32 (cw_key_of t) |>)
   else Q DROP (s <| rl_drop_count_map ::= alter incr64 0 |>)) →
  wpb (rl_decide DROP PASS limit rate t (bool_decide (o = None))) Q Q s.
Proof.
  intros Hv Ho HQ. unfold rl_decide. cbv zeta. apply wp_bind. eapply wp_window_read; [exact Hv|].
  destruct o as [p|]; simpl in HQ.
  - rewrite bool_decide_eq_false_2 by done. apply wp_bind. eapply wp_window_read; [exact Ho|].
    rewrite Z.leb_antisym in HQ. by destruct (limit rate <? _).
  - rewrite bool_decide_eq_true_2 by done.
    rewrite Z.ltb_antisym in HQ. by destruct (rate <=? _).
Qed.

Lemma wp_rl_count DROP PASS limit rate (Q : Z → rl_state K → Prop) s :
  configured rate s →
  (∀ t w κ, rl_opened s = (t, w, κ) →
     let s1 := s <| rl_recv_count_map ::= alter incr64 0 |>
                 <| rl_window_map := w |> <| rl_kern := κ |> in
     match w !! cw_key_of t with
     | None => Q PASS s1
     | Some v =>
         if lets_in limit rate t (rl_window_map s !! pw_key_of t) (u32 v)
         then Q PASS (s1 <| rl_window_map ::= alter incr32 (cw_key_of t) |>)
         else Q DROP (s1 <| rl_drop_count_map ::= alter incr64 0 |>)
     end) →
  wpb (rl_count DROP PASS limit) Q Q s.
Proof.
  intros (Hrate & [nr Hr] & [nd Hd]) HQ. unfold rl_count.
  pose proof (rl_opened_spec s) as Ho. unfold rl_opened in *.
  destruct (rl_ktime (rl_kern s)) as [t κ] eqn:Ek.
  destruct s as [p pr cf wm rc dc po kn]; simpl in *.
  apply wp_bind, wp_gets. simpl. rewrite Hrate. apply wp_bind, wp_ret.
  apply wp_bind. eapply wp_rl_now; [exact Ek|].
  apply wp_bind, wp_gets, wp_bind, wp_gets, wp_bind, wp_gets, wp_bind, wp_gets. simpl.
  rewrite Hr, Hd. rewrite !bool_decide_eq_false_2 by done.
  apply wp_bind, wp_ret, wp_bind, wp_modify, wp_bind. simpl.
  destruct (wm !! cw_key_of t) as [v|] eqn:Ev.
  - rewrite bool_decide_eq_false_2 by done. apply wp_ret.
    specialize (HQ t wm κ eq_refl). simpl in HQ. rewrite Ev in HQ.
    by eapply wp_rl_decide.
  - rewrite bool_decide_eq_true_2 by done.
    destruct (rl_window_insert (cw_key_of t) 0 wm κ) as [w κ'] eqn:Ew.
    destruct (Ho t w κ' eq_refl) as (_ & _ & Hne & _). specialize (HQ t w κ' eq_refl). simpl in HQ.
    apply wp_bind. unfold wpb at 1, window_insert. simpl. rewrite Ew.
    apply wp_bind, wp_gets. simpl. destruct (w !! cw_key_of t) as [v|] eqn:Ewv.
    + rewrite bool_decide_eq_false_2 by done. apply wp_ret.
      eapply wp_rl_decide; [exact Ewv|apply Hne, cw_pw_keys|exact HQ].
    + rewrite bool_decide_eq_true_2 by done. exact HQ.
Qed.
End specs.

(** ** Runs of the limiter

    A run is a sequence of packets, each with the time at which it was looked
    at and its verdict, and of removals of window counters by user space, at
    any moment. *)
Inductive rl_event : Type :=
| Packet (p : mem) (proto t verdict : Z)
| Removed (k : Z).

Definition arrive {K} (p : mem) (proto : Z) (κ : K) (s : rl_state K) : rl_state K :=
  s <| rl_pkt := p |> <| rl_protocol := proto |> <| rl_kern := κ |>.

Inductive rl_run {K} `{RlEnv K} (prog : func (rl_state K) Z) :
    rl_state K → list rl_event → rl_state K → Prop :=
| run_nil s : rl_run prog s [] s
| run_packet s p proto κ t r s' l s'' :
    t = fst (rl_ktime κ) →
    prog (arrive p proto κ s) = Some (r, s') →
    rl_run prog s' l s'' →
    rl_run prog s (Packet p proto t r :: l) s''
| run_removed s k l s'' :
    rl_run prog (s <| rl_window_map ::= delete k |>) l s'' →
    rl_run prog s (Removed k :: l) s''.

(** The connections admitted among those [syn] selects, and the removals. *)
Fixpoint admitted (DROP : Z) (syn : mem → Z → bool) (l : list rl_event) : Z :=
  match l with
  | [] => 0
  | Packet p proto _ r :: l =>
      (if syn p proto && negb (r =? DROP) then 1 else 0) + admitted DROP syn l
  | Removed _ :: l => admitted DROP syn l
  end.
Fixpoint removals (l : list rl_event) : Z :=
  match l with
  | [] => 0
  | Packet _ _ _ _ :: l => removals l
  | Removed _ :: l => 1 + removals l
  end.

(** All packets are looked at in the second that starts at [w]; removed keys
    satisfy [D]. *)
Definition in_second (w : Z) (D : Z → Prop) (l : list rl_event) : Prop :=
  Forall (λ e, match e with Packet _ _ t _ => cw_key_of t = w | Removed k => D k end) l.

(** What a program does to the windows. *)
Definition limiter {K} `{RlEnv K} (DROP : Z) (limit : Z → Z) (rate : Z) (I : rl_state K → Prop)
    (syn : mem → Z → bool) (prog : func (rl_state K) Z) : Prop :=
  ∀ s, configured rate s → I s →
  wpf prog (λ r s', configured rate s' ∧ I s' ∧
    if syn (rl_pkt s) (rl_protocol s) then
      ∃ t w κ, rl_opened s = (t, w, κ) ∧
        match w !! cw_key_of t with
        | None => rl_window_map s' = w
        | Some v =>
            if lets_in limit rate t (rl_window_map s !! pw_key_of t) (u32 v)
            then rl_window_map s' = alter incr32 (cw_key_of t) w
            else r = DROP ∧ rl_window_map s' = w
        end
    else rl_window_map s' = rl_window_map s) s.

Lemma u32_incr32 v : u32 (incr32 v) = u32 (u32 v + 1).
Proof. unfold incr32, u32. Z.div_mod_to_equations. lia. Qed.

Lemma map_size_alter' (f : Z → Z) k (m : gmap Z Z) : size (alter f k m) = size m.
Proof. rewrite <-!size_dom. by rewrite dom_alter_L. Qed.

Section bound.
Context {K : Type} `{RlEnvLaws K}.
Implicit Types s : rl_state K.
Context (DROP : Z) (limit : Z → Z) (rate : Z) (I : rl_state K → Prop)
  (syn : mem → Z → bool) (prog : func (rl_state K) Z).
Context (Hprog : limiter DROP limit rate I syn prog).
Context (HI : ∀ s p proto κ k, I s →
  I (arrive p proto κ s) ∧ I (s <| rl_window_map ::= delete k |>)).
Context (w : Z) (P : option Z → Prop) (D : Z → Prop) (L : Z).
Context (HL : 0 ≤ L < 2 ^ 32).
Context (Hadm : ∀ t pw cw, 0 ≤ t < 2 ^ 64 → cw_key_of t = w → P pw → 0 ≤ cw < 2 ^ 32 →
  lets_in limit rate t pw cw = true → cw < L).
Context (HD : ∀ (m : gmap Z Z) k, D k → P (m !! u64 (w - NANO)) →
  P (delete k m !! u64 (w - NANO))).

Definition count_in s : Z :=
  match rl_window_map s !! w with Some v => u32 v | None => 0 end.
Definition run_inv s : Prop :=
  configured rate s ∧ I s ∧ P (rl_window_map s !! u64 (w - NANO)) ∧
  (size (rl_window_map s) ≤ rl_window_max_elem)%nat ∧
  (rl_window_map s !! w = None → (size (rl_window_map s) < rl_window_max_elem)%nat).

(** One packet: its connection is admitted only below the bound. *)
Lemma packet_step s p proto κ r s' :
  run_inv s → cw_key_of (fst (rl_ktime κ)) = w →
  prog (arrive p proto κ s) = Some (r, s') →
  run_inv s' ∧
  (if syn p proto && negb (r =? DROP) then 1 else 0) + Z.min (count_in s) L ≤
    Z.min (count_in s') L.
Proof.
  intros (Hc & Hi & HP & Hmax & Hsz) Ht Hrun.
  pose proof (wpf_result _ _ _ _ _ Hrun
    (Hprog (arrive p proto κ s) Hc (proj1 (HI s p proto κ 0 Hi)))) as (Hc' & Hi' & Hw).
  simpl in Hw. destruct (syn p proto); simpl.
  2:{ unfold run_inv, count_in. rewrite Hw. split; [by split_and!|lia]. }
  destruct Hw as (t & m & κ' & Ho & Hw).
  pose proof (rl_opened_spec _ _ _ _ Ho) as (-> & Hr & Hne & Hsome & Hnone). simpl in *.
  pose proof (cw_pw_keys (fst (rl_ktime κ))) as Hpw. unfold pw_key_of in *.
  rewrite !Ht in *.
  assert (m !! w = Some (default 0 (rl_window_map s !! w)) ∧
    (size m ≤ rl_window_max_elem)%nat) as [Hmw Hm].
  { destruct (rl_window_map s !! w) as [v|] eqn:Ev; simpl.
    - by rewrite (Hsome v) by done.
    - specialize (Hsz eq_refl). destruct Hnone as [->|[_ ?]]; [done| |lia].
      rewrite lookup_insert_eq, map_size_insert_None by done. split; [done|lia]. }
  rewrite Hmw in Hw.
  assert (count_in s = u32 (default 0 (rl_window_map s !! w))) as Hcnt.
  { unfold count_in. by destruct (rl_window_map s !! w). }
  pose proof (u32_range (default 0 (rl_window_map s !! w))) as Hv.
  destruct (lets_in _ _ _ _ _) eqn:Ea.
  - apply Hadm in Ea; [|done..]. unfold run_inv. rewrite Hw, lookup_alter_ne, Hne by done.
    split; [split_and!; [done..|by rewrite map_size_alter'|by rewrite lookup_alter_eq, Hmw]|].
    unfold count_in at 2. rewrite Hw, lookup_alter_eq, Hmw, Hcnt. simpl.
    rewrite u32_incr32, (u32_id (u32 _ + 1)) by lia. destruct (negb _); lia.
  - destruct Hw as [-> Hw]. unfold run_inv. rewrite Hw, Hne by done.
    split; [split_and!; [done..|by rewrite Hmw]|].
    unfold count_in at 2. rewrite Hw, Hmw, Hcnt, Z.eqb_refl. simpl. lia.
Qed.

Lemma removal_step s k :
  run_inv s → D k →
  run_inv (s <| rl_window_map ::= delete k |>) ∧
  Z.min (count_in s) L ≤ L + Z.min (count_in (s <| rl_window_map ::= delete k |>)) L.
Proof.
  intros (Hc & Hi & HP & Hmax & Hsz) Hk.
  pose proof (map_size_delete k (rl_window_map s)) as Hdel.
  destruct (rl_window_map s !! k) as [u|] eqn:Eu.
  2:{ assert (s <| rl_window_map ::= delete k |> = s) as ->; [|split; [by split_and!|lia]].
      destruct s; simpl in *. unfold update. by rewrite delete_id. }
  assert (0 < size (rl_window_map s))%nat.
  { apply Nat.neq_0_lt_0, map_size_non_empty_iff. intros E. by rewrite E, lookup_empty in Eu. }
  split; [split_and!; simpl|].
  - done.
  - by apply (HI s [] 0 (rl_kern s)).
  - by apply HD.
  - lia.
  - lia.
  - unfold count_in. simpl. destruct (decide (k = w)) as [->|Hne].
    + rewrite lookup_delete_eq. lia.
    + rewrite lookup_delete_ne by done. lia.
Qed.

(** At most [L] connections between two removals. *)
Lemma admitted_bound s l s' :
  rl_run prog s l s' → run_inv s → in_second w D l →
  admitted DROP syn l + Z.min (count_in s) L ≤ (1 + removals l) * L.
Proof.
  induction 1 as [s|s p proto κ t r s' l s'' -> Hrun _ IH|s k l s'' _ IH];
    intros Hinv Hsec; simpl.
  - lia.
  - apply Forall_cons in Hsec as [Ht Hsec].
    destruct (packet_step _ _ _ _ _ _ Hinv Ht Hrun) as [Hinv' Hstep].
    specialize (IH Hinv' Hsec). lia.
  - apply Forall_cons in Hsec as [Hk Hsec].
    destruct (removal_step _ _ Hinv Hk) as [Hinv' Hstep].
    specialize (IH Hinv' Hsec). lia.
Qed.
End bound.

(** ** The two programs are limiters *)

(** The Ethernet type the XDP program reads. *)
Definition eth_type_of (m : mem) : Z := le_val (slice 12 2 m).
Definition xdp_syn (p : mem) (_ : Z) : bool := is_syn (eth_type_of p) p.
Definition tc_syn (ports : gmap Z Z) (p : mem) (proto : Z) : bool :=
  is_syn proto p && bool_decide (is_Some (ports !! dst_port p)).

Section programs.
Context {K : Type} `{RlEnvLaws K}.
Implicit Types s : rl_state K.

Lemma wp_rl_count_limiter DROP PASS limit rate (I : rl_state K → Prop) s :
  DROP ≠ PASS → configured rate s → I s →
  (∀ c w d κ, I s → I (s <| rl_recv_count_map := c |> <| rl_window_map := w |>
     <| rl_drop_count_map := d |> <| rl_kern := κ |>)) →
  let Q := λ r s', configured rate s' ∧ I s' ∧
    ∃ t w κ, rl_opened s = (t, w, κ) ∧
      match w !! cw_key_of t with
      | None => rl_window_map s' = w
      | Some v =>
          if lets_in limit rate t (rl_window_map s !! pw_key_of t) (u32 v)
          then rl_window_map s' = alter incr32 (cw_key_of t) w
          else r = DROP ∧ rl_window_map s' = w
      end in
  wpb (rl_count DROP PASS limit) Q Q s.
Proof.
  intros Hne Hc Hi HI Q. apply wp_rl_count with (rate := rate); [done|].
  intros t w κ Ho. subst Q. pose proof Hc as (Hr & Hrc & Hd).
  assert (∀ i, is_Some (alter incr64 0 (rl_recv_count_map s) !! i) ↔
               is_Some (rl_recv_count_map s !! i)) as Hrc'
    by (intros; apply lookup_alter_is_Some).
  assert (∀ i, is_Some (alter incr64 0 (rl_drop_count_map s) !! i) ↔
               is_Some (rl_drop_count_map s !! i)) as Hd'
    by (intros; apply lookup_alter_is_Some).
  assert (∀ w' d', is_Some (d' !! 0) →
    let s' := s <| rl_recv_count_map ::= alter incr64 0 |> <| rl_window_map := w' |>
                <| rl_drop_count_map := d' |> <| rl_kern := κ |> in
    configured rate s' ∧ I s') as Hs'.
  { intros w' d' Hd2. split; [|by apply HI]. split_and!; [done|by apply Hrc'|done]. }
  destruct (w !! cw_key_of t) as [v|] eqn:Ev; [|].
  - destruct (lets_in _ _ _ _ _) eqn:Ea.
    + destruct (Hs' (alter incr32 (cw_key_of t) w) (rl_drop_count_map s) Hd) as [? ?].
      split_and!; [done..|]. exists t, w, κ. split; [done|]. by rewrite Ev, Ea.
    + destruct (Hs' w (alter incr64 0 (rl_drop_count_map s))) as [? ?]; [by apply Hd'|].
      split_and!; [done..|]. exists t, w, κ. split; [done|]. by rewrite Ev, Ea.
  - destruct (Hs' w (rl_drop_count_map s) Hd) as [? ?].
    split_and!; [done..|]. exists t, w, κ. split; [done|]. by rewrite Ev.
Qed.

Lemma xdp_limiter rate :
  limiter XDP_DROP Xdp.limit rate (λ _ : rl_state K, True) xdp_syn Xdp._xdp_ratelimiting.
Proof.
  intros s Hc _. unfold Xdp._xdp_ratelimiting, Xdp._xdp_ratelimit, xdp_syn.
  wp_step. apply wp_bind, wp_call, wp_run, wp_bind.
  apply wp_syn_filter with (e := λ s, eth_type_of (rl_pkt s)).
  - intros QN' Hl HQ. apply wp_load; [done|autounfold with katran in *; lia|exact HQ].
  - intros ->. wp_steps; by destruct (pkt_len s <? _).
  - intros ->. pose proof (wp_rl_count_limiter XDP_DROP XDP_PASS Xdp.limit rate
      (λ _, True) s ltac:(done) Hc I (λ _ _ _ _ _, I)) as Hcount.
    eapply wpb_mono; [exact Hcount|..].
    all: intros r s' (Hc' & _ & t & w & κ & Ho & Hw); apply wp_bind, wp_return_if; intros Hr.
    all: split; [exact Hc'|split; [done|]]; exists t, w, κ; split; [exact Ho|].
    all: destruct (w !! cw_key_of t) as [v|]; [|done]; destruct (lets_in _ _ _ _ _); [done|].
    all: destruct Hw as [-> Hw]; done.
Qed.

Lemma tc_limiter rate ports :
  limiter TC_ACT_SHOT Tc.limit rate (λ s : rl_state K, rl_ports_map s = ports) (tc_syn ports)
    Tc._xdp_ratelimit.
Proof.
  intros s Hc Hports. unfold Tc._xdp_ratelimit, tc_syn.
  wp_step. apply wp_bind, wp_syn_filter with (e := rl_protocol).
  - intros QN' Hl HQ. by apply wp_gets.
  - intros ->. by destruct (pkt_len s <? _).
  - intros ->. apply wp_bind, wp_gets. rewrite Hports. simpl.
    destruct (ports !! dst_port (rl_pkt s)) as [p|].
    + rewrite bool_decide_eq_false_2, bool_decide_eq_true_2 by eauto.
      apply wp_bind, wp_ret.
      by apply (wp_rl_count_limiter TC_ACT_SHOT TC_ACT_OK Tc.limit rate
                  (λ s, rl_ports_map s = ports)).
    + rewrite bool_decide_eq_true_2, bool_decide_eq_false_2 by (done || by intros [??]).
      by apply wp_bind, wp_return.
Qed.
End programs.

(** ** The rate limit *)

(** A count that the programs have written. *)
Definition small_count (o : option Z) : Prop := ∀ p, o = Some p → 0 ≤ p < 2 ^ 32.

Lemma weighted_count_spec t p cw :
  0 ≤ t < 2 ^ 64 → 0 ≤ p < 2 ^ 32 → 0 ≤ cw < 2 ^ 32 →
  ∃ wt, 1 ≤ wt ≤ MULTIPLIER ∧ weighted_count t p cw = wt * p + cw * MULTIPLIER.
Proof.
  intros Ht Hp Hcw. unfold weighted_count, cw_key_of, NANO, MULTIPLIER.
  pose proof (Z.mul_div_le t 1000000000 ltac:(lia)).
  pose proof (Z.mod_pos_bound t 1000000000 ltac:(lia)) as Hm.
  rewrite Z.mod_eq in Hm by lia.
  rewrite (u64_id (t / 1000000000 * 1000000000)), (u64_id (t - _)) by lia.
  set (d := t - t / 1000000000 * 1000000000) in *. assert (0 ≤ d < 1000000000) by lia.
  rewrite (u64_id (d * 100)) by lia.
  assert (0 ≤ d * 100 / 1000000000 < 100).
  { split; [apply Z.div_pos; lia|apply Z.div_lt_upper_bound; lia]. }
  rewrite (u64_id (100 - _)) by lia.
  exists (100 - d * 100 / 1000000000). split; [lia|].
  set (wt := 100 - d * 100 / 1000000000) in *.
  rewrite (u64_id (wt * p)), (u64_id (cw * 100)), u64_id by nia. done.
Qed.

Lemma xdp_admit rate t pw cw :
  0 ≤ rate → 0 ≤ t < 2 ^ 64 → small_count pw → 0 ≤ cw < 2 ^ 32 →
  lets_in Xdp.limit rate t pw cw = true →
  match pw with None => cw < rate | Some _ => cw < rate / 100 + 1 end.
Proof.
  intros Hr Ht Hp Hcw. unfold lets_in, Xdp.limit. destruct pw as [p|]; [|lia].
  destruct (weighted_count_spec t p cw Ht (Hp p eq_refl) Hcw) as (wt & Hwt & ->).
  specialize (Hp p eq_refl). unfold MULTIPLIER in *. intros Ha.
  pose proof (Z.div_le_lower_bound rate 100 cw). nia.
Qed.

Lemma tc_admit rate t pw cw :
  0 ≤ rate < 2 ^ 32 → 0 ≤ t < 2 ^ 64 → small_count pw → 0 ≤ cw < 2 ^ 32 →
  lets_in Tc.limit rate t pw cw = true → cw < rate + 1.
Proof.
  intros Hr Ht Hp Hcw. unfold lets_in, Tc.limit. destruct pw as [p|]; [|lia].
  destruct (weighted_count_spec t p cw Ht (Hp p eq_refl) Hcw) as (wt & Hwt & ->).
  specialize (Hp p eq_refl). unfold MULTIPLIER in *. rewrite u64_id by lia. nia.
Qed.

Lemma small_count_delete (m : gmap Z Z) k i :
  small_count (m !! i) → small_count (delete k m !! i).
Proof. intros Hs p [_ Hp]%lookup_delete_Some. by apply Hs. Qed.

(** C12: in a second of the clock the XDP program admits at most [rate] new
    connections (one when the rate is 0), the tc program at most [rate + 1],
    whatever packets arrive in it, and as many again for every counter that user
    space removes meanwhile: when the table of counters is not full, and the
    count of the second before fits in the 32 bits the programs write. *)
Theorem rate_limit_bound {K} `{RlEnvLaws K} w rate (s s' : rl_state K) l :
  0 ≤ rate < 2 ^ 32 - 1 → configured rate s →
  (size (rl_window_map s) < rl_window_max_elem)%nat →
  small_count (rl_window_map s !! u64 (w - NANO)) →
  in_second w (λ _, True) l →
  (rl_run Xdp._xdp_ratelimiting s l s' →
     admitted XDP_DROP xdp_syn l ≤ (1 + removals l) * Z.max rate 1) ∧
  (rl_run Tc._xdp_ratelimit s l s' →
     admitted TC_ACT_SHOT (tc_syn (rl_ports_map s)) l ≤ (1 + removals l) * (rate + 1)).
Proof.
  intros Hr Hc Hsz Hsm Hsec.
  assert (∀ c, 0 ≤ c → ∀ x y, x + Z.min (count_in w s) c ≤ y → x ≤ y) as Hmin.
  { unfold count_in. intros c ?. destruct (rl_window_map s !! w) as [v|];
      [pose proof (u32_range v)|]; lia. }
  split; intros Hrun.
  - eapply (Hmin (Z.max rate 1)); [lia|].
    eapply (admitted_bound _ _ _ _ _ _ (xdp_limiter rate) ltac:(done) w small_count
              (λ _, True)); [lia| |by intros; apply small_count_delete|exact Hrun| |done].
    + intros t pw cw Ht _ Hp Hcw Ha. apply xdp_admit in Ha; [|lia|done..].
      destruct pw; [|lia]. pose proof (Z.div_lt_upper_bound rate 100 (Z.max rate 1)). lia.
    + split_and!; [done..|lia|lia].
  - eapply (Hmin (rate + 1)); [lia|].
    eapply (admitted_bound _ _ _ _ _ _ (tc_limiter rate (rl_ports_map s)) ltac:(done) w
              small_count (λ _, True)); [lia| |by intros; apply small_count_delete|exact Hrun| |done].
    + intros t pw cw Ht _ Hp Hcw Ha. by apply tc_admit in Ha; [|lia|done..].
    + split_and!; [done..|lia|lia].
Qed.

(** The XDP program compares a count scaled by 100 with the unscaled rate.
    In a second that follows one with a counter it admits at most
    [rate / 100 + 1] connections, as long as user space does not remove that
    counter. *)
Theorem busy_second_admits_hundredth {K} `{RlEnvLaws K} w rate p (s s' : rl_state K) l :
  0 ≤ rate < 2 ^ 32 - 1 → configured rate s →
  (size (rl_window_map s) < rl_window_max_elem)%nat →
  rl_window_map s !! u64 (w - NANO) = Some p → 0 ≤ p < 2 ^ 32 →
  in_second w (λ k, k ≠ u64 (w - NANO)) l →
  rl_run Xdp._xdp_ratelimiting s l s' →
  admitted XDP_DROP xdp_syn l ≤ (1 + removals l) * (rate / 100 + 1).
Proof.
  intros Hr Hc Hsz Hp Hpr Hsec Hrun.
  assert (0 ≤ rate / 100 ≤ rate).
  { split; [apply Z.div_pos; lia|apply Z.div_le_upper_bound; lia]. }
  pose proof (admitted_bound _ _ _ _ _ _ (xdp_limiter rate) ltac:(done) w (λ o, o = Some p)
    (λ k, k ≠ u64 (w - NANO)) (rate / 100 + 1) ltac:(lia)) as Hb.
  specialize (Hb ltac:(intros t pw cw Ht _ -> Hcw Ha;
    by apply xdp_admit in Ha; [|lia|done|intros ? [= <-]|done])).
  specialize (Hb ltac:(intros; by rewrite lookup_delete_ne) s l s' Hrun).
  assert (0 ≤ count_in w s).
  { unfold count_in. destruct (rl_window_map s !! w) as [v|]; [apply u32_range|done]. }
  specialize (Hb ltac:(split_and!; [done..|lia|lia]) Hsec). lia.
Qed.

(** ** The transformation *)

(** The start of the second of [t], and the connections of the 10^9 ns before
    [t], times 100: [p] were counted in the second before, [c] in this one. *)
Definition second (t : Z) : Z := t / NANO * NANO.
Definition recent (t p c : Z) : Z :=
  ((100 - t mod NANO * 100 / NANO) * p + 100 * c) mod 2 ^ 64.

(** What a limiter does with a packet, [selected] or not; [bound rate] is what
    [recent] may reach. *)
Definition limiter_step {K} `{RlEnv K} (DROP PASS : Z) (bound : Z → Z) (selected : bool)
    (s : rl_state K) : Z * rl_state K :=
  if negb selected then (if pkt_len s <? 14 then DROP else PASS, s) else
  match rl_config_map s !! 0 with
  | None => (PASS, s)
  | Some rate =>
      match rl_recv_count_map s !! 0, rl_drop_count_map s !! 0 with
      | Some n, Some d =>
          let '(t, w, κ) := rl_opened s in
          let s1 := s <| rl_recv_count_map := <[0 := u64 (n + 1)]> (rl_recv_count_map s) |>
                      <| rl_window_map := w |> <| rl_kern := κ |> in
          match w !! second t with
          | None => (PASS, s1)
          | Some v =>
              if match rl_window_map s !! ((second t - NANO) mod 2 ^ 64) with
                 | None => u32 v <? rate
                 | Some p => recent t p (u32 v) <=? bound rate
                 end
              then (PASS, s1 <| rl_window_map := <[second t := v - u32 v + u32 (v + 1)]> w |>)
              else (DROP, s1 <| rl_drop_count_map := <[0 := u64 (d + 1)]> (rl_drop_count_map s) |>)
          end
      | _, _ => (PASS, s <| rl_kern := snd (rl_ktime (rl_kern s)) |>)
      end
  end.

(** A SYN whose recent connections lie between the limits of the two programs. *)
Definition between_limits {K} `{RlEnv K} (s : rl_state K) : Prop :=
  let '(t, w, _) := rl_opened s in
  ∃ rate v p, configured rate s ∧ w !! second t = Some v ∧
    rl_window_map s !! ((second t - NANO) mod 2 ^ 64) = Some p ∧
    (rate < recent t p (u32 v) ≤ (rate * 100) mod 2 ^ 64 ∨
     (rate * 100) mod 2 ^ 64 < recent t p (u32 v) ≤ rate).

(** The verdicts of the two hooks correspond. *)
Definition verdicts (x t : Z) : Prop :=
  x = XDP_DROP ∧ t = TC_ACT_SHOT ∨ x = XDP_PASS ∧ t = TC_ACT_OK.
Definition same_outcome {K} (x t : option (Z * rl_state K)) : Prop :=
  match x, t with
  | Some (x, s1), Some (t, s2) => verdicts x t ∧ s1 = s2
  | None, None => True
  | _, _ => False
  end.

Lemma cw_key_second t : 0 ≤ t < 2 ^ 64 → cw_key_of t = second t.
Proof.
  intros Ht. unfold cw_key_of, second, NANO. apply u64_id.
  pose proof (Z.mul_div_le t 1000000000). pose proof (Z.div_pos t 1000000000). lia.
Qed.

Lemma weighted_count_recent t p c :
  0 ≤ t < 2 ^ 64 → weighted_count t p c = recent t p c.
Proof.
  intros Ht. unfold weighted_count, recent. rewrite cw_key_second by done.
  unfold second, MULTIPLIER. rewrite (Z.mul_comm _ NANO), <-Z.mod_eq by done.
  assert (0 ≤ t mod NANO < NANO) as Hm by (by apply Z.mod_pos_bound).
  unfold NANO in *. rewrite (u64_id (t mod _)), (u64_id (_ * 100)) by lia.
  assert (0 ≤ t mod 1000000000 * 100 / 1000000000 < 100).
  { split; [apply Z.div_pos; lia|apply Z.div_lt_upper_bound; lia]. }
  rewrite (u64_id (100 - _)) by lia. unfold u64.
  by rewrite <-Z.add_mod, (Z.mul_comm c) by done.
Qed.

Lemma alter_present {A} (f : A → A) k (m : gmap Z A) a :
  m !! k = Some a → alter f k m = <[k := f a]> m.
Proof.
  intros Ha. apply map_eq. intros j. destruct (decide (j = k)) as [->|Hne].
  - by rewrite lookup_alter_eq, lookup_insert_eq, Ha.
  - by rewrite lookup_alter_ne, lookup_insert_ne.
Qed.

Section transformation.
Context {K : Type} `{RlEnvLaws K}.
Implicit Types s : rl_state K.

Lemma rl_count_uncounted DROP PASS limit rate (Q : Z → rl_state K → Prop) s :
  rl_config_map s !! 0 = Some rate →
  rl_recv_count_map s !! 0 = None ∨ rl_drop_count_map s !! 0 = None →
  Q PASS (s <| rl_kern := snd (rl_ktime (rl_kern s)) |>) →
  wpb (rl_count DROP PASS limit) Q Q s.
Proof.
  intros Er Hnone HQ. unfold rl_count. cbv zeta. destruct (rl_ktime (rl_kern s)) as [t κ] eqn:Ek.
  apply wp_bind, wp_gets. rewrite Er. apply wp_bind, wp_ret.
  apply wp_bind. eapply wp_rl_now; [exact Ek|]. do 4 apply wp_bind, wp_gets. simpl.
  replace (bool_decide _ || bool_decide _) with true; [by apply wp_bind, wp_return|].
  symmetry. apply orb_true_iff. rewrite !bool_decide_eq_true. done.
Qed.

Lemma rl_count_step DROP PASS limit s :
  let Q r s' := (r, s') = limiter_step DROP PASS limit true s in
  wpb (rl_count DROP PASS limit) Q Q s.
Proof.
  intros Q. destruct (rl_config_map s !! 0) as [rate|] eqn:Er.
  2:{ unfold rl_count. apply wp_bind, wp_gets, wp_bind. rewrite Er.
      apply wp_return. subst Q. unfold limiter_step. simpl. by rewrite Er. }
  destruct (rl_recv_count_map s !! 0) as [n|] eqn:En;
    [destruct (rl_drop_count_map s !! 0) as [d|] eqn:Ed|].
  - apply wp_rl_count with rate; [split_and!; [done|by eexists..]|].
    intros t w κ Ho. cbv zeta. subst Q. unfold limiter_step. simpl. rewrite Er, En, Ed, Ho.
    destruct (rl_opened_spec _ _ _ _ Ho) as (_ & Ht & _).
    unfold pw_key_of. rewrite (cw_key_second t Ht).
    destruct (w !! second t) as [v|] eqn:Ev.
    2:{ simpl. unfold update. by rewrite (alter_present _ _ _ _ En). }
    change (u64 (second t - NANO)) with ((second t - NANO) mod 2 ^ 64).
    unfold lets_in. destruct (rl_window_map s !! _) as [p|];
      [rewrite weighted_count_recent by done|]; case_match;
      simpl; unfold update; rewrite (alter_present _ _ _ _ En), ?(alter_present _ _ _ _ Ev),
        ?(alter_present _ _ _ _ Ed); try done.
    all: unfold incr32, u32; by rewrite Z.add_mod_idemp_l.
  - apply rl_count_uncounted with rate; [done|by rewrite Ed; right|].
    subst Q. unfold limiter_step. simpl. by rewrite Er, En, Ed.
  - apply rl_count_uncounted with rate; [done|by left|].
    subst Q. unfold limiter_step. simpl. by rewrite Er, En.
Qed.

Lemma xdp_step s :
  Xdp._xdp_ratelimit s = Some (limiter_step XDP_DROP XDP_PASS (λ rate, rate)
    (xdp_syn (rl_pkt s) (rl_protocol s)) s).
Proof.
  enough (wpf Xdp._xdp_ratelimit (λ r s', (r, s') = limiter_step XDP_DROP XDP_PASS (λ rate, rate)
    (xdp_syn (rl_pkt s) (rl_protocol s)) s) s) as Hw
    by (apply wpf_elim in Hw as (r & s' & -> & <-); done).
  unfold Xdp._xdp_ratelimit, xdp_syn. apply wp_run, wp_bind.
  apply wp_syn_filter with (e := λ s, eth_type_of (rl_pkt s)).
  - intros QN' Hl HQ. apply wp_load; [done|autounfold with katran in *; lia|exact HQ].
  - by intros ->.
  - intros ->. apply rl_count_step.
Qed.

Lemma tc_step s :
  Tc._xdp_ratelimit s = Some (limiter_step TC_ACT_SHOT TC_ACT_OK (λ rate, (rate * 100) mod 2 ^ 64)
    (tc_syn (rl_ports_map s) (rl_pkt s) (rl_protocol s)) s).
Proof.
  enough (wpf Tc._xdp_ratelimit (λ r s', (r, s') = limiter_step TC_ACT_SHOT TC_ACT_OK
    (λ rate, (rate * 100) mod 2 ^ 64) (tc_syn (rl_ports_map s) (rl_pkt s) (rl_protocol s)) s) s) as Hw
    by (apply wpf_elim in Hw as (r & s' & -> & <-); done).
  unfold Tc._xdp_ratelimit, tc_syn. apply wp_run, wp_bind, wp_syn_filter with (e := rl_protocol).
  - intros QN' Hl HQ. by apply wp_gets.
  - by intros ->.
  - intros Hsyn. rewrite Hsyn. apply wp_bind, wp_gets, wp_bind, wp_return_if; intros Hp.
    + apply bool_decide_eq_true in Hp. rewrite Hp, bool_decide_eq_false_2 by (by intros []).
      unfold limiter_step, is_syn in *. change (length (rl_pkt s)) with (length (get_pkt s)) in Hsyn.
      fold (pkt_len s) in Hsyn. simpl. by rewrite (proj2 (Z.ltb_ge _ _)) by lia.
    + apply bool_decide_eq_false, not_eq_None_Some in Hp. rewrite bool_decide_eq_true_2 by done.
      apply rl_count_step.
Qed.

Lemma limiter_steps_agree selected s :
  let x := limiter_step XDP_DROP XDP_PASS (λ rate, rate) selected s in
  let t := limiter_step TC_ACT_SHOT TC_ACT_OK (λ rate, (rate * 100) mod 2 ^ 64) selected s in
  same_outcome (Some x) (Some t) ↔ (selected = true → ¬ between_limits s).
Proof.
  (* the same verdict, and no gap *)
  assert (∀ (P : Prop) (s' : rl_state K) x t, verdicts x t → ¬ P →
    verdicts x t ∧ s' = s' ↔ (true = true → ¬ P)) as Hno by done.
  assert (verdicts XDP_DROP TC_ACT_SHOT ∧ verdicts XDP_PASS TC_ACT_OK ∧
    ¬ verdicts XDP_DROP TC_ACT_OK ∧ ¬ verdicts XDP_PASS TC_ACT_SHOT) as (Hd & Hp & Hdp & Hpd)
    by (unfold verdicts; split_and!; [by left|by right|by intros [[] | []]..]).
  intros x t. subst x t. destruct selected.
  2:{ unfold limiter_step. simpl. split; [done|]. intros _. by destruct (_ <? 14). }
  unfold limiter_step, between_limits, configured. simpl.
  destruct (rl_opened s) as [[t w] κ].
  destruct (rl_config_map s !! 0) as [rate|]; [|apply Hno; [done|intros (? & ? & ? & ([=] & _) & _)]].
  destruct (rl_recv_count_map s !! 0) as [n|];
    [|apply Hno; [done|intros (? & ? & ? & (? & [? [=]] & ?) & ?)]].
  destruct (rl_drop_count_map s !! 0) as [d|];
    [|apply Hno; [done|intros (? & ? & ? & (? & ? & [? [=]]) & ?)]].
  destruct (w !! second t) as [v|]; [|apply Hno; [done|by intros (? & ? & ? & _ & [=] & _)]].
  destruct (rl_window_map s !! _) as [p|].
  2:{ destruct (u32 v <? rate); (apply Hno; [done|by intros (? & ? & ? & _ & _ & [=] & _)]). }
  set (b := (rate * 100) mod 2 ^ 64).
  assert ((∃ rate' v' p' : Z, (Some rate = Some rate' ∧ is_Some (Some n) ∧ is_Some (Some d)) ∧
    Some v = Some v' ∧ Some p = Some p' ∧
    (rate' < recent t p' (u32 v') ≤ (rate' * 100) mod 2 ^ 64 ∨
     (rate' * 100) mod 2 ^ 64 < recent t p' (u32 v') ≤ rate')) ↔
    (rate < recent t p (u32 v) ≤ b ∨ b < recent t p (u32 v) ≤ rate)) as ->.
  { split; [intros (? & ? & ? & ([= <-] & _) & [= <-] & [= <-] & ?); done|].
    intros. by exists rate, v, p. }
  destruct (Z.leb_spec (recent t p (u32 v)) rate), (Z.leb_spec (recent t p (u32 v)) b);
    try (apply Hno; [done|lia]).
  - split; [by intros []|]. intros Hg. destruct (Hg eq_refl). lia.
  - split; [by intros []|]. intros Hg. destruct (Hg eq_refl). lia.
Qed.

(** C15: what the XDP program and the tc program that the transformation made
    of it do with every packet, counters and clock included.  In a second that
    follows one with connections the tc program drops when the weighted count
    of the last second exceeds the rate, the XDP program already at a hundredth
    of the rate.  On packets to the listed ports this is the only difference:
    the two give the same verdict and leave the same maps exactly when the
    weighted count is not between these limits.  (The buffer of the tc program
    must carry the packet's Ethernet type.) *)
Theorem transformation_agrees s :
  rl_protocol s = eth_type_of (rl_pkt s) →
  let listed := bool_decide (is_Some (rl_ports_map s !! dst_port (rl_pkt s))) in
  let syn := is_syn (eth_type_of (rl_pkt s)) (rl_pkt s) in
  Xdp._xdp_ratelimit s =
    Some (limiter_step XDP_DROP XDP_PASS (λ rate, rate) syn s) ∧
  Tc._xdp_ratelimit s =
    Some (limiter_step TC_ACT_SHOT TC_ACT_OK (λ rate, (rate * 100) mod 2 ^ 64) (syn && listed) s) ∧
  (listed = true →
     same_outcome (Xdp._xdp_ratelimit s) (Tc._xdp_ratelimit s) ↔ (syn = true → ¬ between_limits s)).
Proof.
  intros Hproto listed syn. rewrite xdp_step, tc_step. unfold xdp_syn, tc_syn. rewrite Hproto.
  split; [done|]. split; [done|]. fold syn listed. intros ->. rewrite andb_true_r. apply limiter_steps_agree.
Qed.
End transformation.

(** ** The sweep *)

Lemma next_after_notin k l : k ∉ l → next_after k l = None.
Proof.
  induction l as [|j l IH]; intros Hk; simpl; [done|].
  apply not_elem_of_cons in Hk as [Hne Hk]. destruct (Z.eqb_spec j k); [done|by apply IH].
Qed.
Lemma next_after_in k pre post :
  k ∉ pre → next_after k (pre ++ k :: post) = Some (head post).
Proof.
  induction pre as [|j pre IH]; intros Hk; simpl; [by rewrite Z.eqb_refl|].
  apply not_elem_of_cons in Hk as [Hne Hk]. destruct (Z.eqb_spec j k); [done|by apply IH].
Qed.

Lemma filter_ne_id (k : Z) (l : list Z) : k ∉ l → filter (λ j, j ≠ k) l = l.
Proof.
  induction l as [|j l IH]; intros Hk; [done|]. apply not_elem_of_cons in Hk as [Hne Hk].
  rewrite filter_cons_True by done. by rewrite IH.
Qed.

Section sweep_spec.
Context {K : Type} `{RlEnvLaws K}.
Context (t : Z).

Definition threshold : Z := u64 (t - buffer_time).
(** The keys below the threshold are gone, the others as they were. *)
Definition swept (m r : gmap Z Z) : Prop :=
  ∀ k, r !! k = if k <? threshold then None else m !! k.
Definition stale (m : gmap Z Z) : nat := length (filter (λ k, k < threshold) (rl_order m)).
(** Every removal starts the walk again. *)
Definition sweep_fuel (m : gmap Z Z) : nat :=
  ((stale m + 1) * (length (rl_order m) + 2))%nat.

Lemma swept_delete k m r : k < threshold → swept (delete k m) r → swept m r.
Proof.
  intros Hk Hr j. rewrite Hr. destruct (Z.ltb_spec j threshold); [done|].
  by rewrite lookup_delete_ne by lia.
Qed.

Lemma order_split m pre k post :
  rl_order m = pre ++ k :: post →
  (k ∉ pre) ∧ rl_order (delete k m) = pre ++ post ∧ (k ∉ rl_order (delete k m)).
Proof.
  intros E. pose proof (rl_order_NoDup m) as Hnd. rewrite E in Hnd.
  apply NoDup_app in Hnd as (_ & Hpre & [Hpost _]%NoDup_cons).
  assert (k ∉ pre) as Hk by (intros Hin; apply (Hpre k Hin); left).
  split; [done|]. rewrite rl_order_delete, E, filter_app, filter_cons_False by auto.
  rewrite !filter_ne_id by done. split; [done|]. by rewrite elem_of_app; intros [].
Qed.

Lemma stale_delete m pre k post :
  rl_order m = pre ++ k :: post → k < threshold → stale m = S (stale (delete k m)).
Proof.
  intros E Hk. destruct (order_split _ _ _ _ E) as (_ & Ed & _). unfold stale.
  rewrite E, Ed, !filter_app, filter_cons_True, !length_app by done. simpl. lia.
Qed.

(** The walk from [first] on, when no key up to it is stale; [IH]: the walk
    from the start, after the next removal. *)
Lemma walk_from m :
  (∀ k, k ∈ rl_order m → k < threshold →
     ∀ fuel, (sweep_fuel (delete k m) ≤ fuel)%nat →
     ∃ r, delete_stale_loop fuel k t (delete k m) = Some r ∧ swept m r) →
  ∀ post pre first fuel,
    rl_order m = pre ++ first :: post → Forall (λ k, threshold ≤ k) (pre ++ [first]) →
    (length post + 1 + stale m * (length (rl_order m) + 2) ≤ fuel)%nat →
    ∃ r, delete_stale_loop fuel first t m = Some r ∧ swept m r.
Proof.
  intros IH. induction post as [|k post IHpost]; intros pre first fuel E Hold Hfuel;
    (destruct fuel as [|fuel]; [lia|]); simpl; unfold bpf_map_get_next_key;
    rewrite E, next_after_in by apply (order_split _ _ _ _ E); simpl.
  - exists m. split; [done|]. intros k. destruct (Z.ltb_spec k threshold); [|done].
    destruct (m !! k) as [v|] eqn:Ek; [|done].
    assert (k ∈ rl_order m) as Hin by (apply rl_order_keys; eauto).
    rewrite E in Hin. rewrite Forall_forall in Hold. specialize (Hold k Hin). lia.
  - fold threshold. assert (rl_order m = (pre ++ [first]) ++ k :: post) as E'
      by (by rewrite E, <-app_assoc).
    destruct (Z.ltb_spec k threshold) as [Hk|Hk].
    + destruct (order_split _ _ _ _ E') as (_ & Ed & _).
      pose proof (stale_delete _ _ _ _ E' Hk) as Hst.
      apply IH; [|done|].
      * rewrite E'. apply elem_of_app. right. left.
      * unfold sweep_fuel. rewrite Ed. rewrite E' in Hfuel. rewrite !length_app in *.
        simpl in *. nia.
    + apply (IHpost (pre ++ [first]) k); [done| |simpl in Hfuel; lia].
      apply Forall_app. split; [done|by apply Forall_singleton].
Qed.

Lemma walk_restarted c : ∀ m first fuel,
  stale m = c → first ∉ rl_order m → (sweep_fuel m ≤ fuel)%nat →
  ∃ r, delete_stale_loop fuel first t m = Some r ∧ swept m r.
Proof.
  induction c as [c IH] using lt_wf_ind. intros m first fuel Hc Hfirst Hfuel.
  assert (∀ k, k ∈ rl_order m → k < threshold → ∀ fuel, (sweep_fuel (delete k m) ≤ fuel)%nat →
    ∃ r, delete_stale_loop fuel k t (delete k m) = Some r ∧ swept m r) as IH'.
  { intros k (pre & post & E)%list_elem_of_split Hk fuel' Hf.
    destruct (order_split _ _ _ _ E) as (_ & _ & Hnotin).
    pose proof (stale_delete _ _ _ _ E Hk).
    edestruct (IH (stale (delete k m))) as (r & Hr & Hsw); [lia|done|exact Hnotin|exact Hf|].
    exists r. split; [done|]. by eapply swept_delete. }
  unfold sweep_fuel in Hfuel. destruct fuel as [|fuel]; [lia|]. simpl.
  unfold bpf_map_get_next_key. rewrite next_after_notin by done. fold threshold.
  destruct (rl_order m) as [|k post] eqn:E; simpl.
  - exists m. split; [done|]. intros k. destruct (Z.ltb_spec k threshold); [|done].
    apply eq_None_not_Some. intros Hin%rl_order_keys. rewrite E in Hin. by apply elem_of_nil in Hin.
  - destruct (Z.ltb_spec k threshold) as [Hk|Hk].
    + destruct (order_split m [] k post E) as (_ & Ed & _).
      pose proof (stale_delete m [] k post E Hk). apply IH'; [left|done|].
      unfold sweep_fuel. rewrite Ed. simpl in *. nia.
    + rewrite <-E in *. apply (walk_from m IH' post [] k); [done|by apply Forall_singleton|].
      rewrite E in *. simpl in *. nia.
Qed.
End sweep_spec.

(** C18: a sweep at time [t] ends, after a number of iterations bounded by the
    number of counters, and has removed exactly the counters whose key is below
    [t - 10]: keys are nanoseconds, so from 11 ns after the start of a second
    on, the counter of the running second is among them. *)
Theorem sweep_removes {K} `{RlEnvLaws K} t (m : gmap Z Z) :
  m !! 0 = None → 10 ≤ t < 2 ^ 64 →
  ∃ r, (∀ fuel, (sweep_fuel t m ≤ fuel)%nat → delete_stale_entries fuel t m = Some r) ∧
    (∀ k, r !! k = if k <? t - 10 then None else m !! k) ∧
    (10 < t mod NANO → r !! cw_key_of t = None).
Proof.
  intros H00 Ht. assert (0 ∉ rl_order m) as Hnotin.
  { intros Hin%rl_order_keys. rewrite H00 in Hin. by destruct Hin. }
  destruct (walk_restarted t _ m 0 (sweep_fuel t m) eq_refl Hnotin ltac:(lia)) as (r & _ & Hsw).
  exists r. split.
  - intros fuel Hf. unfold delete_stale_entries. destruct (walk_restarted t _ m 0 fuel eq_refl Hnotin Hf) as (r' & -> & Hsw').
    f_equal. apply map_eq. intros k. by rewrite Hsw, Hsw'.
  - unfold swept, threshold, buffer_time in Hsw. rewrite u64_id in Hsw by lia.
    split; [done|]. intros Hmod. rewrite Hsw. rewrite Z.mod_eq in Hmod by done.
    unfold cw_key_of, NANO in *. pose proof (Z.mul_div_le t 1000000000 ltac:(lia)).
    pose proof (Z.div_pos t 1000000000). rewrite u64_id by lia.
    by rewrite (proj2 (Z.ltb_lt _ _)) by lia.
Qed.

(** ** A reference kernel *)
Record rlk : Type := RlK { rl_clock : Z }.
Definition sorted_keys (m : gmap Z Z) : list Z := merge_sort Z.le (elements (dom m)).

#[export] Instance rlk_env : RlEnv rlk := {
  rl_ktime k := (u64 (rl_clock k), k);
  rl_window_insert k v m κ := (if (size m <? rl_window_max_elem)%nat then <[k := v]> m else m, κ);
  rl_order := sorted_keys
}.

Lemma filter_sorted (P : Z → Prop) `{∀ x, Decision (P x)} l :
  StronglySorted Z.le l → StronglySorted Z.le (filter P l).
Proof.
  induction 1 as [|x l Hs IH Hall]; [constructor|].
  destruct (decide (P x)); [rewrite filter_cons_True by done|by rewrite filter_cons_False by done].
  constructor; [done|]. rewrite Forall_forall in *.
  intros y [_ Hy]%list_elem_of_filter. by apply Hall.
Qed.

#[export] Instance rlk_laws : RlEnvLaws rlk.
Proof.
  assert (∀ m, rl_order m ≡ₚ elements (dom m)) as Hperm by (intros; apply merge_sort_Permutation).
  split.
  - intros k. apply u64_range.
  - intros k v m κ _. simpl. destruct (Nat.ltb_spec (size m) rl_window_max_elem); auto.
  - intros m k. by rewrite Hperm, elem_of_elements, elem_of_dom.
  - intros m. rewrite Hperm. apply NoDup_elements.
  - intros m k. apply (StronglySorted_unique Z.le).
    + apply (StronglySorted_merge_sort Z.le).
    + apply filter_sorted, (StronglySorted_merge_sort Z.le).
    + rewrite Hperm. apply NoDup_Permutation.
      * apply NoDup_elements.
      * apply NoDup_filter. rewrite Hperm. apply NoDup_elements.
      * intros j. rewrite list_elem_of_filter, Hperm, !elem_of_elements, !elem_of_dom.
        rewrite lookup_delete_is_Some. split; intros []; auto.
Qed.

(** A SYN to port 80, and limiters set up with the given counters. *)
Definition syn_packet : list Z :=
  repeat 0 12 ++ [8; 0; 69] ++ repeat 0 8 ++ [6] ++ repeat 0 12 ++ [0; 80] ++ repeat 0 9 ++
    [2] ++ repeat 0 6.
Definition rl_ready (rate : Z) (w : gmap Z Z) : rl_state rlk :=
  RlState syn_packet 8 {[0 := rate]} w {[0 := 0]} {[0 := 0]} {[80 := 1]} (RlK 5000000020).

Ltac run_packets :=
  repeat (eapply (run_packet _ _ syn_packet 8 (RlK 5000000020)); [reflexivity|vm_compute; reflexivity|]);
  apply run_nil.

Definition two_syns : list rl_event :=
  [Packet syn_packet 8 5000000020 XDP_PASS; Packet syn_packet 8 5000000020 XDP_DROP].

Lemma rate_limit_bound_witness :
  (∃ s', rl_run Xdp._xdp_ratelimiting (rl_ready 1 ∅) two_syns s') ∧
  admitted XDP_DROP xdp_syn two_syns ≤ 1.
Proof.
  assert (∃ s', rl_run Xdp._xdp_ratelimiting (rl_ready 1 ∅) two_syns s') as [s' Hrun]
    by (eexists; run_packets).
  split; [by exists s'|].
  refine (proj1 (rate_limit_bound 5000000000 1 (rl_ready 1 ∅) s' two_syns _ _ _ _ _) Hrun).
  - lia.
  - split_and!; [done|by eexists|by eexists].
  - vm_compute. lia.
  - by intros ?.
  - by repeat constructor.
Defined.

Lemma busy_second_admits_hundredth_witness :
  (∃ s', rl_run Xdp._xdp_ratelimiting (rl_ready 99 {[4000000000 := 1]})
     [Packet syn_packet 8 5000000020 XDP_DROP] s') ∧
  admitted XDP_DROP xdp_syn [Packet syn_packet 8 5000000020 XDP_DROP] ≤ 1.
Proof.
  assert (∃ s', rl_run Xdp._xdp_ratelimiting (rl_ready 99 {[4000000000 := 1]})
     [Packet syn_packet 8 5000000020 XDP_DROP] s') as [s' Hrun] by (eexists; run_packets).
  split; [by exists s'|].
  apply (busy_second_admits_hundredth 5000000000 99 1 (rl_ready 99 {[4000000000 := 1]}) s');
    [lia|split_and!; [done|by eexists|by eexists]|vm_compute; lia|done|lia|by repeat constructor|done].
Defined.

Lemma sweep_removes_witness :
  ∃ r, r !! 5000000000 = None ∧
    delete_stale_entries (K := rlk) 12 5000000020 {[4000000000 := 7; 5000000000 := 3]} = Some r.
Proof.
  destruct (sweep_removes (K := rlk) 5000000020 {[4000000000 := 7; 5000000000 := 3]})
    as (r & Hr & _ & Hcw); [done|lia|].
  exists r. split; [by apply Hcw|]. apply Hr. vm_compute. lia.
Defined.

(** A rate of 5: one connection in this second and one in the second before
    are too many for the XDP program, which lets in 0.05 connections. *)
Lemma transformation_agrees_witness :
  let s := rl_ready 5 {[4000000000 := 1; 5000000000 := 1]} in
  between_limits s ∧ ¬ same_outcome (Xdp._xdp_ratelimit s) (Tc._xdp_ratelimit s).
Proof.
  intros s. destruct (transformation_agrees s) as (_ & _ & Hiff); [vm_compute; reflexivity|].
  assert (between_limits s) as Hb.
  { unfold between_limits. destruct (rl_opened s) as [[t w] κ] eqn:Ho.
    assert (t = 5000000020 ∧ w = rl_window_map s) as [-> ->] by (by injection Ho).
    exists 5, 1, 1. split; [split_and!; [done|by eexists|by eexists]|].
    split; [reflexivity|]. split; [reflexivity|]. left. vm_compute. done. }
  split; [exact Hb|]. intros Hs. by apply Hiff in Hs; [|vm_compute; reflexivity..].
Defined.
