(* ===== verification/IngressFw.v ===== *)
(** * The ingress node firewall ([ingress-node-firewall-master/bpf/])

    [ingress_node_firewall_kernel.c]: an XDP firewall.  The source address and
    the interface of a packet select a list of rules, by longest prefix match;
    the first rule that matches the packet's transport header decides. *)
From Stdlib Require Import ZifyBool.
From S2P Require Import Prelude Records Words Consts.
Open Scope c_scope.

(** ** [ingress_node_firewall.h] *)
Definition UNDEF : Z := 0.
Definition DENY : Z := XDP_DROP.
Definition ALLOW : Z := XDP_PASS.
Definition MAX_TARGETS : Z := 1024.
Definition MAX_RULES_PER_TARGET : nat := 100.
Definition MAX_EVENT_DATA : Z := 256.
Definition INVALID_RULE_ID : Z := 0.

Definition GET_ACTION (a : Z) : Z := u8 (Z.land a 0xFF).
Definition SET_ACTION (a : Z) : Z := u32 (Z.land (u32 a) 0xFF).
Definition GET_RULE_ID (r : Z) : Z := u16 (Z.land (Z.shiftr r 8) 0xFFFFFF).
Definition SET_ACTIONRULE_RESPONSE (a r : Z) : Z :=
  u32 (Z.lor (u32 (Z.shiftl (Z.land (u32 r) 0xFFFFFF) 8)) (Z.land a 0xFF)).

Record ruleCounters : Type := RuleCounters { packets : Z; bytes : Z }.
Record ruleStatistics_st : Type := RuleStatistics {
  allow_stats : ruleCounters; deny_stats : ruleCounters }.
Record event_hdr_st : Type := EventHdr {
  hdr_ifId : Z; hdr_ruleId : Z; hdr_action : Z; hdr_pktLength : Z }.
Record ruleType_st : Type := RuleType {
  ruleId : Z; protocol : Z; dstPortStart : Z; dstPortEnd : Z;
  icmpType : Z; icmpCode : Z; action : Z }.
Record lpm_ip_key_st : Type := LpmIpKey {
  prefixLen : Z; ingress_ifindex : Z; ip_data : list Z }.
(** [struct rulesVal_st]: [MAX_RULES_PER_TARGET] rules. *)
Definition rulesVal_st : Type := list ruleType_st.

#[export] Instance eta_ruleCounters : Eta ruleCounters := λ x, RuleCounters (packets x) (bytes x).
#[export] Instance eta_ruleStatistics : Eta ruleStatistics_st :=
  λ x, RuleStatistics (allow_stats x) (deny_stats x).

#[export] Instance lpm_ip_key_eq_dec : EqDecision lpm_ip_key_st.
Proof. solve_decision. Defined.
#[export] Instance lpm_ip_key_countable : Countable lpm_ip_key_st.
Proof.
  refine (inj_countable' (λ k, (prefixLen k, ingress_ifindex k, ip_data k))
    (λ '(a, b, c), LpmIpKey a b c) _). by intros [].
Defined.

(** ** Program state and maps *)
Record infw_state : Type := InfwState {
  infw_pkt : mem;
  (** [ctx->ingress_ifindex] *)
  ctx_ifindex : Z;
  table_map : gmap lpm_ip_key_st rulesVal_st;
  statistics_map : gmap Z ruleStatistics_st;
  (** The events written to the perf buffer, with the bytes of packet sent
      along. *)
  events_map : list (event_hdr_st * Z)
}.
#[export] Instance eta_infw_state : Eta infw_state := λ s,
  InfwState (infw_pkt s) (ctx_ifindex s) (table_map s) (statistics_map s) (events_map s).
#[export] Instance infw_pkt_state : PktState infw_state :=
  {| get_pkt := infw_pkt; set_pkt m s := s <| infw_pkt := m |> |}.
#[export] Instance infw_pkt_laws : PktStateLaws infw_state.
Proof. split; [done..|]. by intros []. Qed.

(** The bits a trie compares, from the most significant of each byte on. *)
Definition byte_bits (b : Z) : list bool := (λ i, Z.testbit b (7 - Z.of_nat i)) <$> seq 0 8.
Definition key_bits (k : lpm_ip_key_st) : list bool :=
  mjoin (byte_bits <$> (le_bytes 4 (ingress_ifindex k) ++ ip_data k)).
(** The prefix [e] covers the key [q]. *)
Definition covers (e q : lpm_ip_key_st) : Prop :=
  prefixLen e ≤ prefixLen q ∧
  take (Z.to_nat (prefixLen e)) (key_bits e) = take (Z.to_nat (prefixLen e)) (key_bits q).
#[export] Instance covers_dec e q : Decision (covers e q).
Proof. unfold covers. apply _. Defined.

(** [bpf_map_lookup_elem] on a [BPF_MAP_TYPE_LPM_TRIE]: the value of a longest
    prefix that covers the key. *)
Class LpmTrie : Type :=
  lpm_lookup : gmap lpm_ip_key_st rulesVal_st → lpm_ip_key_st → option rulesVal_st.
Class LpmTrieLaws `{LpmTrie} : Prop := {
  lpm_lookup_Some t q v : lpm_lookup t q = Some v →
    ∃ e, t !! e = Some v ∧ covers e q ∧
      ∀ e', is_Some (t !! e') → covers e' q → prefixLen e' ≤ prefixLen e;
  lpm_lookup_None t q e : lpm_lookup t q = None → is_Some (t !! e) → ¬ covers e q
}.

(** ** [ip_extract_l4info] *)
Record l4info : Type := L4Info {
  l4_proto : Z; l4_dstPort : Z; l4_icmpType : Z; l4_icmpCode : Z }.

Definition ip_extract_l4info (dataStart : Z) (is_v4 : bool) : func infw_state (Z * l4info) := run (
  let size := if is_v4 then sizeof_iphdr else sizeof_ipv6hdr in
  let l4 := dataStart + size in
  let! oob := past_end l4 in
  return_if oob (-1, L4Info 0 0 0 0) ;;
  let! proto := load8 (dataStart + (if is_v4 then ip_protocol else ip6_nexthdr)) in
  let fail := L4Info proto 0 0 0 in
  if proto =? IPPROTO_TCP then
    let! oob := past_end (l4 + sizeof_tcphdr) in
    return_if oob (-1, fail) ;;
    let! dest := load16 (l4 + tcp_dest) in
    ret (0, L4Info proto dest 0 0)
  else if proto =? IPPROTO_UDP then
    let! oob := past_end (l4 + sizeof_udphdr) in
    return_if oob (-1, fail) ;;
    let! dest := load16 (l4 + udp_dest) in
    ret (0, L4Info proto dest 0 0)
  else if proto =? IPPROTO_SCTP then
    (** [struct sctphdr]: 12 bytes, [dest] at 2. *)
    let! oob := past_end (l4 + 12) in
    return_if oob (-1, fail) ;;
    let! dest := load16 (l4 + 2) in
    ret (0, L4Info proto dest 0 0)
  else if proto =? IPPROTO_ICMP then
    let! oob := past_end (l4 + sizeof_icmphdr) in
    return_if oob (-1, fail) ;;
    let! type := load8 (l4 + icmp_type) in
    let! code := load8 (l4 + icmp_code) in
    ret (0, L4Info proto 0 type code)
  else if proto =? IPPROTO_ICMPV6 then
    let! oob := past_end (l4 + sizeof_icmp6hdr) in
    return_if oob (-1, fail) ;;
    let! type := load8 (l4 + icmp6_type) in
    let! code := load8 (l4 + icmp6_code) in
    ret (0, L4Info proto 0 type code)
  else return_ (-1, fail)).

Section firewall.
Context `{LpmTrie}.

(** ** The rules of a source, in order

    One iteration of the loop of [ipv4_firewall_lookup] ([icmp] is
    [IPPROTO_ICMP]) and of [ipv6_firewall_lookup] ([IPPROTO_ICMPV6]). *)
Definition rule_step (icmp : Z) (rule : ruleType_st) (l4 : l4info) : body infw_state Z unit :=
  let response := SET_ACTIONRULE_RESPONSE (action rule) (ruleId rule) in
  let dstPort := bpf_ntohs (l4_dstPort l4) in
  if ruleId rule =? INVALID_RULE_ID then ret tt else
  when (negb (protocol rule =? 0) && (protocol rule =? l4_proto l4)) (
    when ((protocol rule =? IPPROTO_TCP) || (protocol rule =? IPPROTO_UDP) ||
          (protocol rule =? IPPROTO_SCTP)) (
      if dstPortEnd rule =? 0 then
        return_if (dstPortStart rule =? dstPort) response
      else
        return_if ((dstPortStart rule <=? dstPort) && (dstPort <? dstPortEnd rule)) response) ;;
    when (protocol rule =? icmp) (
      return_if ((icmpType rule =? l4_icmpType l4) && (icmpCode rule =? l4_icmpCode l4)) response)) ;;
  return_if (protocol rule =? 0) response.

(** [n] iterations to go, from index [i] on. *)
Fixpoint rules_loop (n i : nat) (icmp : Z) (rulesVal : rulesVal_st) (l4 : l4info) :
    body infw_state Z unit :=
  match n with
  | O => ret tt
  | S n =>
      let! rule := or_fault (rulesVal !! i) in
      rule_step icmp rule l4 ;;
      rules_loop n (S i) icmp rulesVal l4
  end.

Definition ipv4_firewall_lookup (dataStart ifId : Z) : func infw_state Z := run (
  let! srcAddr := load32 (dataStart + ip_saddr) in
  let! (err, l4) := call (ip_extract_l4info dataStart true) in
  return_if (err <? 0) (SET_ACTION UNDEF) ;;
  let key := LpmIpKey 64 ifId (le_bytes 4 srcAddr ++ repeat 0 12) in
  let! rulesVal := gets (λ s, lpm_lookup (table_map s) key) in
  match rulesVal with
  | Some rulesVal => rules_loop MAX_RULES_PER_TARGET 0 IPPROTO_ICMP rulesVal l4
  | None => ret tt
  end ;;
  ret (SET_ACTION UNDEF)).

Definition ipv6_firewall_lookup (dataStart ifId : Z) : func infw_state Z := run (
  let! (err, l4) := call (ip_extract_l4info dataStart false) in
  return_if (err <? 0) (SET_ACTION UNDEF) ;;
  let! srcAddr := load_bytes (dataStart + ip6_saddr) 16 in
  let key := LpmIpKey 160 ifId srcAddr in
  let! rulesVal := gets (λ s, lpm_lookup (table_map s) key) in
  match rulesVal with
  | Some rulesVal => rules_loop MAX_RULES_PER_TARGET 0 IPPROTO_ICMPV6 rulesVal l4
  | None => ret tt
  end ;;
  ret (SET_ACTION UNDEF)).

(** ** Statistics and events

    A lookup in the per-CPU array fails when the index is not below
    [MAX_TARGETS]; then the update fails as well. *)
Definition count_bytes (n : Z) (c : ruleCounters) : ruleCounters :=
  c <| packets ::= λ p, u64 (p + 1) |> <| bytes ::= λ b, u64 (b + n) |>.

Definition generate_event_and_update_statistics (packet_len act rule : Z) (generateEvent : bool)
    (ifId : Z) : func infw_state unit := run (
  let hdr := EventHdr (u16 ifId) rule act (u16 packet_len) in
  let key := rule in
  let! statistics := gets (λ s, statistics_map s !! key) in
  match statistics with
  | Some _ =>
      if act =? ALLOW then
        modify (λ s, s <| statistics_map ::= alter (λ c, c <| allow_stats ::= count_bytes packet_len |>) key |>)
      else when (act =? DENY)
        (modify (λ s, s <| statistics_map ::= alter (λ c, c <| deny_stats ::= count_bytes packet_len |>) key |>))
  | None =>
      when (key <? MAX_TARGETS)
        (modify (λ s, s <| statistics_map ::=
           <[key := RuleStatistics (RuleCounters 0 0) (RuleCounters 0 0)]> |>))
  end ;;
  when generateEvent (
    let headerSize := if packet_len <? MAX_EVENT_DATA then packet_len else MAX_EVENT_DATA in
    modify (λ s, s <| events_map ::= λ l, l ++ [(hdr, headerSize)] |>))).

Definition ingress_node_firewall_main : func infw_state Z := run (
  let dataStart := sizeof_ethhdr in
  let! ifId := gets ctx_ifindex in
  let! oob := past_end dataStart in
  return_if oob XDP_DROP ;;
  let! h_proto := load16 eth_h_proto in
  let! result :=
    if h_proto =? bpf_htons 0x0800 then call (ipv4_firewall_lookup dataStart ifId)
    else if h_proto =? bpf_htons 0x86DD then call (ipv6_firewall_lookup dataStart ifId)
    else return_ XDP_PASS in
  let rule := GET_RULE_ID result in
  let act := GET_ACTION result in
  let! len := gets (λ s, u16 (pkt_len s)) in
  if act =? DENY then
    call (generate_event_and_update_statistics len DENY rule true ifId) ;; ret XDP_DROP
  else if act =? ALLOW then
    call (generate_event_and_update_statistics len ALLOW rule false ifId) ;; ret XDP_PASS
  else ret XDP_PASS).

Definition ingress_node_firewall_process : func infw_state Z := ingress_node_firewall_main.
End firewall.

(** ** The response word *)
Lemma land_ones8 a : Z.land a 0xFF = a mod 256.
Proof. change 0xFF with (Z.ones 8). by rewrite Z.land_ones. Qed.
Lemma land_ones24 a : Z.land a 0xFFFFFF = a mod 2 ^ 24.
Proof. change 0xFFFFFF with (Z.ones 24). by rewrite Z.land_ones. Qed.

Lemma shiftl_lor_add x y : 0 ≤ y < 256 → Z.lor (Z.shiftl x 8) y = x * 256 + y.
Proof.
  intros Hy. change 256 with (2 ^ 8) at 1. rewrite <-Z.shiftl_mul_pow2 by lia.
  assert (Z.land (Z.shiftl x 8) y = 0) as Hd.
  { apply Z.bits_inj'. intros n Hn. rewrite Z.land_spec, Z.shiftl_spec, Z.bits_0 by lia.
    destruct (Z.ltb_spec n 8); [by rewrite Z.testbit_neg_r by lia|].
    rewrite andb_comm, <-(Z.mod_small y (2 ^ 8)) by lia.
    by rewrite Z.mod_pow2_bits_high by lia. }
  by rewrite Z.add_nocarry_lxor, Z.lxor_lor.
Qed.

Lemma response_fields a r :
  GET_ACTION (SET_ACTIONRULE_RESPONSE a r) = u8 a ∧
  GET_RULE_ID (SET_ACTIONRULE_RESPONSE a r) = u16 r.
Proof.
  unfold GET_ACTION, GET_RULE_ID, SET_ACTIONRULE_RESPONSE.
  rewrite !land_ones8, !land_ones24, Z.shiftr_div_pow2, Z.shiftl_mul_pow2 by lia.
  pose proof (Z.mod_pos_bound a 256 ltac:(lia)). pose proof (Z.mod_pos_bound (u32 r) (2 ^ 24) ltac:(lia)).
  rewrite (u32_id (_ * _)) by lia. rewrite <-Z.shiftl_mul_pow2, shiftl_lor_add by lia.
  rewrite u32_id by lia. split.
  - rewrite Z.add_comm, Z.mod_add by lia. unfold u8. by rewrite !Z.mod_mod.
  - change (2 ^ 8) with 256. rewrite Z.div_add_l, (Z.div_small (a mod 256)), Z.add_0_r by lia.
    unfold u16, u32. clear. Z.div_mod_to_equations. lia.
Qed.

(** ** What the firewall decides *)


(** The transport information of an IP packet behind an Ethernet header:
    [None] when it is cut short or of another protocol. *)
Definition transport (is_v4 : bool) (m : mem) : option l4info :=
  let l4 := if is_v4 then 34%nat else 54%nat in
  let proto := byte_at (if is_v4 then 23 else 20)%nat m in
  let long n := Z.of_nat l4 + n <=? Z.of_nat (length m) in
  if long 0 then
    if (proto =? IPPROTO_TCP) && long 20 || (proto =? IPPROTO_UDP) && long 8 ||
       (proto =? IPPROTO_SCTP) && long 12 then Some (L4Info proto (half_at (l4 + 2) m) 0 0)
    else if ((proto =? IPPROTO_ICMP) || (proto =? IPPROTO_ICMPV6)) && long 8 then
      Some (L4Info proto 0 (byte_at l4 m) (byte_at (l4 + 1) m))
    else None
  else None.

(** The trie key of a packet from interface [ifId]. *)
Definition packet_key (is_v4 : bool) (ifId : Z) (m : mem) : lpm_ip_key_st :=
  if is_v4 then LpmIpKey 64 ifId (slice 26 4 m ++ repeat 0 12)
  else LpmIpKey 160 ifId (slice 22 16 m).

Definition port_protocol (p : Z) : bool :=
  (p =? IPPROTO_TCP) || (p =? IPPROTO_UDP) || (p =? IPPROTO_SCTP).
Definition rule_matches (icmp : Z) (l4 : l4info) (r : ruleType_st) : bool :=
  let dstPort := bpf_ntohs (l4_dstPort l4) in
  negb (ruleId r =? INVALID_RULE_ID) &&
  ((protocol r =? 0) ||
   (protocol r =? l4_proto l4) &&
   (port_protocol (protocol r) &&
      (if dstPortEnd r =? 0 then dstPortStart r =? dstPort
       else (dstPortStart r <=? dstPort) && (dstPort <? dstPortEnd r)) ||
    (protocol r =? icmp) && (icmpType r =? l4_icmpType l4) && (icmpCode r =? l4_icmpCode l4))).

(** The rule for a packet whose source has the rules [rules]. *)
Definition chosen_rule (is_v4 : bool) (rules : option rulesVal_st) (m : mem) : option ruleType_st :=
  l4 ← transport is_v4 m;
  rs ← rules;
  List.find (rule_matches (if is_v4 then IPPROTO_ICMP else IPPROTO_ICMPV6) l4) rs.

(** Decides the length tests of a goal. *)
Ltac decide_lengths s :=
  repeat match goal with
  | |- context [?a <=? pkt_len s] =>
      first [replace (a <=? pkt_len s) with true by lia
            |replace (a <=? pkt_len s) with false by lia]
  end; simpl.

Lemma wp_extract is_v4 s :
  wpf (ip_extract_l4info sizeof_ethhdr is_v4) (λ r s', s' = s ∧
    match transport is_v4 (infw_pkt s) with
    | Some l4 => r = (0, l4)
    | None => fst r = -1
    end) s.
Proof.
  unfold ip_extract_l4info, transport.
  change (length (infw_pkt s)) with (length (get_pkt s)). fold (pkt_len s).
  unfold byte_at, half_at. change (infw_pkt s) with (get_pkt s).
  destruct is_v4; cbv zeta; wp_step; apply wp_bind, wp_past_end; wp_step; wp_step.
  all: autounfold with katran in *.
  1: replace (Z.of_nat 34 + 0 <=? pkt_len s) with false by lia; done.
  2: replace (Z.of_nat 54 + 0 <=? pkt_len s) with false by lia; done.
  1: replace (Z.of_nat 34 + 0 <=? pkt_len s) with true by lia.
  2: replace (Z.of_nat 54 + 0 <=? pkt_len s) with true by lia.
  all: wp_step; apply wp_load; [lia..|]; cbv zeta.
  1: change (slice (Z.to_nat (14 + 9)) 1) with (slice 23 1).
  2: change (slice (Z.to_nat (14 + 6)) 1) with (slice 20 1).
  all: set (p := le_val (slice _ 1 _)); clearbody p.
  all: unfold IPPROTO_TCP, IPPROTO_UDP, IPPROTO_SCTP, IPPROTO_ICMP, IPPROTO_ICMPV6 in *.
  all: repeat match goal with
    | |- wpb (if ?p =? ?n then _ else _) _ _ _ =>
        destruct (Z.eqb_spec p n) as [->|?]; simpl;
        [wp_step; apply wp_past_end; wp_step; wp_step; decide_lengths s; [done|];
         wp_step; apply wp_load; [lia..|]; try (wp_step; apply wp_load; [lia..|]); done|]
    end.
  all: done.
Qed.

Lemma wp_rule_step icmp rule l4 (QR : Z → infw_state → Prop) QN s :
  (if rule_matches icmp l4 rule
   then QR (SET_ACTIONRULE_RESPONSE (action rule) (ruleId rule)) s else QN tt s) →
  wpb (rule_step icmp rule l4) QR QN s.
Proof.
  unfold rule_step, rule_matches, port_protocol. cbv zeta.
  destruct (ruleId rule =? INVALID_RULE_ID); [done|].
  destruct (protocol rule =? 0); simpl; [done|].
  destruct (protocol rule =? l4_proto l4); simpl; [|done].
  set (ports := (_ || _ || _)). set (port := bpf_ntohs _).
  intros HQ. apply wp_bind, wp_bind. unfold when.
  destruct ports, (dstPortEnd rule =? 0), (dstPortStart rule =? port),
    (dstPortStart rule <=? port), (port <? dstPortEnd rule), (protocol rule =? icmp),
    (icmpType rule =? l4_icmpType l4), (icmpCode rule =? l4_icmpCode l4); exact HQ.
Qed.

Lemma wp_rules_loop n i icmp rules l4 (QR : Z → infw_state → Prop) QN s :
  (i + n = length rules)%nat →
  match List.find (rule_matches icmp l4) (drop i rules) with
  | Some rule => QR (SET_ACTIONRULE_RESPONSE (action rule) (ruleId rule)) s
  | None => QN tt s
  end →
  wpb (rules_loop n i icmp rules l4) QR QN s.
Proof.
  unfold rulesVal_st in *. revert i. induction n as [|n IH]; intros i Hlen HQ; simpl.
  { by rewrite drop_ge in HQ by lia. }
  destruct (lookup_lt_is_Some_2 rules i) as [rule Hrule]; [lia|].
  rewrite (drop_S _ _ _ Hrule) in HQ. simpl in HQ.
  apply wp_bind. eapply wp_or_fault; [exact Hrule|]. apply wp_bind, wp_rule_step.
  destruct (rule_matches icmp l4 rule); [done|]. apply IH; [lia|done].
Qed.

(** Every value of the table is a whole [struct rulesVal_st]. *)
Definition table_ok (t : gmap lpm_ip_key_st rulesVal_st) : Prop :=
  map_Forall (λ _ rules, length rules = MAX_RULES_PER_TARGET) t.

(** The rules of the source [q]: those of the longest prefix that covers it. *)
Inductive source_rules (t : gmap lpm_ip_key_st rulesVal_st) (q : lpm_ip_key_st) :
    option rulesVal_st → Prop :=
| covered e rules :
    t !! e = Some rules → covers e q →
    (∀ e', is_Some (t !! e') → covers e' q → e' = e ∨ prefixLen e' < prefixLen e) →
    source_rules t q (Some rules)
| uncovered : (∀ e, is_Some (t !! e) → ¬ covers e q) → source_rules t q None.

Section firewall_spec.
Context `{LpmTrieLaws}.
Implicit Types s : infw_state.

Lemma lpm_lookup_source t q o : source_rules t q o → lpm_lookup t q = o.
Proof.
  intros [e rules He Hc Hmax|Hno]; destruct (lpm_lookup t q) as [v|] eqn:E.
  - apply lpm_lookup_Some in E as (e' & He' & Hc' & Hmax').
    destruct (Hmax e') as [->|Hlt]; [by eexists|done| |].
    + congruence.
    + specialize (Hmax' e ltac:(by eexists) Hc). lia.
  - by destruct (lpm_lookup_None _ _ e E).
  - apply lpm_lookup_Some in E as (e' & He' & Hc' & _). by destruct (Hno e').
  - done.
Qed.

Lemma lpm_lookup_length t q rules :
  table_ok t → lpm_lookup t q = Some rules → length rules = MAX_RULES_PER_TARGET.
Proof. intros Ht (e & He & _)%lpm_lookup_Some. by apply (Ht e). Qed.

(** The word a lookup returns. *)
Definition response (o : option ruleType_st) : Z :=
  match o with
  | Some rule => SET_ACTIONRULE_RESPONSE (action rule) (ruleId rule)
  | None => SET_ACTION UNDEF
  end.

Lemma wp_rules_of is_v4 l4 o s :
  table_ok (table_map s) → o = lpm_lookup (table_map s) (packet_key is_v4 (ctx_ifindex s) (infw_pkt s)) →
  transport is_v4 (infw_pkt s) = Some l4 →
  let Q := λ r s', s' = s ∧ r = response (chosen_rule is_v4 o (infw_pkt s)) in
  wpb (match o with
       | Some rulesVal => rules_loop MAX_RULES_PER_TARGET 0
           (if is_v4 then IPPROTO_ICMP else IPPROTO_ICMPV6) rulesVal l4
       | None => ret tt
       end ;; ret (SET_ACTION UNDEF)) Q Q s.
Proof.
  intros Ht Ho Htr Q. subst Q. unfold chosen_rule. rewrite Htr.
  apply wp_bind. destruct o as [rules|]; [|by apply wp_ret].
  apply (wp_rules_loop MAX_RULES_PER_TARGET 0); [by erewrite (lpm_lookup_length _ _ _ Ht)|].
  rewrite drop_0. cbn [mbind option_bind]. by destruct (List.find _ rules).
Qed.

(** The bytes of the address go through a word. *)
Lemma v4_key s :
  bytes_ok (infw_pkt s) → 34 ≤ pkt_len s →
  LpmIpKey 64 (ctx_ifindex s)
    (le_bytes 4 (le_val (slice (Z.to_nat (sizeof_ethhdr + ip_saddr)) 4 (get_pkt s))) ++ repeat 0 12) =
  packet_key true (ctx_ifindex s) (infw_pkt s).
Proof.
  intros Hb Hl. change (Z.to_nat (sizeof_ethhdr + ip_saddr)) with 26%nat.
  change (get_pkt s) with (infw_pkt s). unfold packet_key.
  assert (length (slice 26 4 (infw_pkt s)) = 4%nat) as Hs.
  { apply length_slice. unfold pkt_len in Hl. simpl in Hl. lia. }
  pose proof (le_bytes_val (slice 26 4 (infw_pkt s)) ltac:(by apply slice_ok)) as E.
  rewrite Hs in E. by rewrite E.
Qed.

Lemma wp_lookup (is_v4 : bool) s :
  bytes_ok (infw_pkt s) → table_ok (table_map s) →
  (if is_v4 then 30 ≤ pkt_len s else 14 ≤ pkt_len s) →
  wpf (if is_v4 then ipv4_firewall_lookup sizeof_ethhdr (ctx_ifindex s)
       else ipv6_firewall_lookup sizeof_ethhdr (ctx_ifindex s))
    (λ r s', s' = s ∧ r = response (chosen_rule is_v4
       (lpm_lookup (table_map s) (packet_key is_v4 (ctx_ifindex s) (infw_pkt s))) (infw_pkt s))) s.
Proof.
  intros Hb Ht Hl. pose proof (wp_extract is_v4 s) as Hx.
  assert (transport is_v4 (infw_pkt s) = None → ∀ o, chosen_rule is_v4 o (infw_pkt s) = None) as Hnone.
  { intros Htr o. unfold chosen_rule. by rewrite Htr. }
  assert (∀ l4, transport is_v4 (infw_pkt s) = Some l4 →
    (if is_v4 then 34 else 54) ≤ pkt_len s) as Hlen.
  { intros l4 Htr. unfold transport in Htr.
    change (length (infw_pkt s)) with (length (get_pkt s)) in Htr. fold (pkt_len s) in Htr.
    destruct is_v4; (destruct (_ + 0 <=? pkt_len s) eqn:E; [lia|done]). }
  pose proof (v4_key s Hb) as Hkey.
  destruct is_v4; unfold ipv4_firewall_lookup, ipv6_firewall_lookup; wp_step.
  - apply wp_bind, wp_load; [autounfold with katran; lia..|].
    apply wp_bind, wp_call. eapply wpf_mono; [exact Hx|]. intros [err l4] s' [-> Hl4].
    destruct (transport true (infw_pkt s)) as [l4'|] eqn:Etr.
    + injection Hl4 as -> ->. apply wp_bind, wp_ret. cbv zeta. apply wp_bind, wp_gets.
      rewrite Hkey by (by apply (Hlen l4')). by apply (wp_rules_of true).
    + simpl in Hl4. subst err. apply wp_bind, wp_return. by rewrite Hnone.
  - apply wp_bind, wp_call. eapply wpf_mono; [exact Hx|]. intros [err l4] s' [-> Hl4].
    destruct (transport false (infw_pkt s)) as [l4'|] eqn:Etr.
    + injection Hl4 as -> ->. specialize (Hlen _ eq_refl). simpl in Hlen.
      apply wp_bind, wp_ret, wp_bind, wp_load_bytes; [autounfold with katran; lia..|].
      cbv zeta. apply wp_bind, wp_gets. by apply (wp_rules_of false).
    + simpl in Hl4. subst err. apply wp_bind, wp_return. by rewrite Hnone.
Qed.

(** The statistics of [rule] after a packet of [len] bytes. *)
Definition count_rule (act len rule : Z) (m : gmap Z ruleStatistics_st) : gmap Z ruleStatistics_st :=
  match m !! rule with
  | Some _ =>
      alter (λ c, if act =? ALLOW then c <| allow_stats ::= count_bytes len |>
                  else c <| deny_stats ::= count_bytes len |>) rule m
  | None =>
      if rule <? MAX_TARGETS
      then <[rule := RuleStatistics (RuleCounters 0 0) (RuleCounters 0 0)]> m else m
  end.

(** The verdict and the final state, when [o] is the rule for the packet. *)
Definition decision (o : option ruleType_st) s : Z * infw_state :=
  match o with
  | None => (XDP_PASS, s)
  | Some r =>
      let act := u8 (action r) in
      let id := u16 (ruleId r) in
      let len := u16 (pkt_len s) in
      if act =? DENY then
        (XDP_DROP, s <| statistics_map ::= count_rule DENY len id |>
                     <| events_map ::= λ l, l ++ [(EventHdr (u16 (ctx_ifindex s)) id DENY len,
                                                   Z.min len MAX_EVENT_DATA)] |>)
      else if act =? ALLOW then (XDP_PASS, s <| statistics_map ::= count_rule ALLOW len id |>)
      else (XDP_PASS, s)
  end.

Lemma wp_generate act rule (ev : bool) ifId (Q : unit → infw_state → Prop) s :
  act = ALLOW ∨ act = DENY →
  (let s1 := s <| statistics_map ::= count_rule act (u16 (pkt_len s)) rule |> in
   Q tt (if ev then s1 <| events_map ::= λ l, l ++ [(EventHdr (u16 ifId) rule act (u16 (pkt_len s)),
                     Z.min (u16 (pkt_len s)) MAX_EVENT_DATA)] |> else s1)) →
  wpf (generate_event_and_update_statistics (u16 (pkt_len s)) act rule ev ifId) Q s.
Proof.
  intros Hact HQ. unfold generate_event_and_update_statistics. wp_step. cbv zeta.
  apply wp_bind, wp_gets, wp_bind. unfold count_rule in HQ.
  set (len := u16 (pkt_len s)) in *.
  assert (u16 len = len) as Hlen by (apply u16_id, u16_range).
  assert ((if len <? MAX_EVENT_DATA then len else MAX_EVENT_DATA) = Z.min len MAX_EVENT_DATA) as Hmin.
  { destruct (Z.ltb_spec len MAX_EVENT_DATA); lia. }
  rewrite Hlen, Hmin. destruct s as [p i t st e]; simpl in *.
  destruct (st !! rule) as [v|] eqn:Ev.
  - destruct Hact as [->| ->]; unfold update in HQ; simpl in *; rewrite Ev in HQ; by destruct ev.
  - unfold update in HQ; simpl in HQ; rewrite Ev in HQ. unfold when.
    destruct (rule <? MAX_TARGETS); by destruct ev.
Qed.

Lemma wp_process (is_v4 : bool) s :
  bytes_ok (infw_pkt s) → table_ok (table_map s) →
  half_at 12 (infw_pkt s) = (if is_v4 then BE_ETH_P_IP else BE_ETH_P_IPV6) →
  (if is_v4 then 30 ≤ pkt_len s else 14 ≤ pkt_len s) →
  ingress_node_firewall_process s = Some (decision (chosen_rule is_v4
    (lpm_lookup (table_map s) (packet_key is_v4 (ctx_ifindex s) (infw_pkt s))) (infw_pkt s)) s).
Proof.
  intros Hb Ht Hproto Hl. pose proof (wp_lookup is_v4 s Hb Ht Hl) as Hlook.
  set (o := chosen_rule _ _ _) in *.
  enough (wpf ingress_node_firewall_process (λ r s', (r, s') = decision o s) s) as Hw.
  { apply wpf_elim in Hw as (r & s' & -> & <-). done. }
  unfold ingress_node_firewall_process, ingress_node_firewall_main. wp_step. cbv zeta.
  assert (14 ≤ pkt_len s) by (destruct is_v4; lia).
  apply wp_bind, wp_gets, wp_bind, wp_past_end, wp_bind.
  rewrite (proj2 (Z.ltb_ge _ _)) by (autounfold with katran; lia). apply wp_ret.
  apply wp_bind, wp_load; [autounfold with katran; lia..|]. apply wp_bind.
  change (slice (Z.to_nat eth_h_proto) 2 (get_pkt s)) with (slice 12 2 (infw_pkt s)).
  fold (half_at 12 (infw_pkt s)). rewrite Hproto.
  assert (∀ (Q : Z → infw_state → Prop),
    wpb (if is_v4 then call (ipv4_firewall_lookup sizeof_ethhdr (ctx_ifindex s))
         else call (ipv6_firewall_lookup sizeof_ethhdr (ctx_ifindex s))) Q
      (λ r s', s' = s ∧ r = response o) s) as Hcall.
  { intros Q. destruct is_v4; by apply wp_call. }
  replace (if (if is_v4 then BE_ETH_P_IP else BE_ETH_P_IPV6) =? bpf_htons 0x0800 then _ else _)
    with (if is_v4 then call (R := Z) (ipv4_firewall_lookup sizeof_ethhdr (ctx_ifindex s))
          else call (ipv6_firewall_lookup sizeof_ethhdr (ctx_ifindex s))) by by destruct is_v4.
  eapply wpb_mono; [apply (Hcall (λ _ _, False))|done|]. intros r s' [-> ->].
  apply wp_bind, wp_gets. unfold decision, response. destruct o as [rule|]; [|done].
  destruct (response_fields (action rule) (ruleId rule)) as [-> ->].
  destruct (Z.eqb_spec (u8 (action rule)) DENY); [|destruct (Z.eqb_spec (u8 (action rule)) ALLOW)].
  - apply wp_bind, wp_call, wp_generate; [by right|]. by apply wp_ret.
  - apply wp_bind, wp_call, wp_generate; [by left|]. by apply wp_ret.
  - by apply wp_ret.
Qed.

(** C14: the firewall decides by the first matching rule of the most specific
    source.  Among the prefixes of the table that cover the packet's interface
    and source address, the longest one gives the rules; the first of them, in
    order, that matches the packet's protocol and its port or ICMP type decides
    the verdict, is counted and, when it denies, reported; without one the
    packet passes and nothing changes. *)
Theorem first_rule_of_longest_prefix (is_v4 : bool) rules s :
  bytes_ok (infw_pkt s) → table_ok (table_map s) →
  half_at 12 (infw_pkt s) = (if is_v4 then BE_ETH_P_IP else BE_ETH_P_IPV6) →
  (if is_v4 then 30 ≤ pkt_len s else 14 ≤ pkt_len s) →
  source_rules (table_map s) (packet_key is_v4 (ctx_ifindex s) (infw_pkt s)) rules →
  ingress_node_firewall_process s = Some (decision (chosen_rule is_v4 rules (infw_pkt s)) s).
Proof. intros Hb Ht Hp Hl <-%lpm_lookup_source. by apply wp_process. Qed.

(** C16: the firewall fails open.  A packet whose transport header is cut short
    or not TCP, UDP, SCTP, ICMP or ICMPv6 passes unseen, whatever the rules of
    its source, rules without a protocol that deny everything included. *)
Theorem unknown_transport_passes (is_v4 : bool) s :
  bytes_ok (infw_pkt s) → table_ok (table_map s) →
  half_at 12 (infw_pkt s) = (if is_v4 then BE_ETH_P_IP else BE_ETH_P_IPV6) →
  (if is_v4 then 30 ≤ pkt_len s else 14 ≤ pkt_len s) →
  transport is_v4 (infw_pkt s) = None →
  ingress_node_firewall_process s = Some (XDP_PASS, s).
Proof.
  intros Hb Ht Hp Hl Htr. rewrite (wp_process is_v4) by done.
  unfold chosen_rule. by rewrite Htr.
Qed.

Lemma load_in n off s :
  0 ≤ off → off + Z.of_nat n ≤ pkt_len s →
  load (R := Z) n off s = Next (le_val (slice (Z.to_nat off) n (get_pkt s))) s.
Proof.
  intros H1 H2. unfold load, bind, load_bytes, peek. unfold pkt_len in *.
  by rewrite (proj2 (Z.ltb_ge off 0)), (proj2 (Z.ltb_ge _ _)) by lia.
Qed.
Lemma load_out n off s :
  pkt_len s < off + Z.of_nat n → load (R := Z) n off s = Fault.
Proof.
  intros Hl. unfold load, bind, load_bytes, peek. unfold pkt_len in *.
  by rewrite (proj2 (Z.ltb_lt (Z.of_nat _) _)), orb_true_r by lia.
Qed.

(** A fault after statements that fall through. *)
Lemma fault_next {A B} (m : body infw_state Z A) (k : A → body infw_state Z B) s a s' :
  m s = Next a s' → k a s' = Fault → bind m k s = Fault.
Proof. unfold bind. by intros ->. Qed.
Lemma fault_run (m : body infw_state Z Z) s : m s = Fault → run m s = None.
Proof. unfold run. by intros ->. Qed.
Lemma fault_first {A B} (m : body infw_state Z A) (k : A → body infw_state Z B) s :
  m s = Fault → bind m k s = Fault.
Proof. unfold bind. by intros ->. Qed.

(** C17: the firewall is memory safe except on cut-off IPv4 packets:
    [ipv4_firewall_lookup] reads the source address before the length of the
    header has been checked. *)
Theorem faults_on_short_ipv4 s :
  bytes_ok (infw_pkt s) → table_ok (table_map s) →
  ingress_node_firewall_process s = None ↔
  half_at 12 (infw_pkt s) = BE_ETH_P_IP ∧ 14 ≤ pkt_len s < 30.
Proof.
  intros Hb Ht.
  assert (∀ s, wpf ingress_node_firewall_process (λ _ _, True) s →
    ingress_node_firewall_process s ≠ None) as Hwp.
  { intros s' Hw. apply wpf_elim in Hw as (? & ? & -> & _). done. }
  split.
  - intros Hnone. destruct (decide (half_at 12 (infw_pkt s) = BE_ETH_P_IPV6 ∧ 14 ≤ pkt_len s))
      as [[E ?]|N6]; [by rewrite (wp_process false) in Hnone|].
    destruct (decide (half_at 12 (infw_pkt s) = BE_ETH_P_IP ∧ 30 ≤ pkt_len s))
      as [[E ?]|N4]; [by rewrite (wp_process true) in Hnone|].
    destruct (decide (half_at 12 (infw_pkt s) = BE_ETH_P_IP ∧ 14 ≤ pkt_len s < 30)); [done|].
    exfalso. revert Hnone. apply Hwp.
    unfold ingress_node_firewall_process, ingress_node_firewall_main. wp_step. cbv zeta.
    wp_step. wp_step. wp_step. apply wp_past_end. wp_step. autounfold with katran.
    wp_step; [done|]. wp_step. apply wp_load; [lia..|]. wp_step.
    change (le_val (slice (Z.to_nat 12) 2 (get_pkt s))) with (half_at 12 (infw_pkt s)).
    change (bpf_htons 2048) with BE_ETH_P_IP. change (bpf_htons 34525) with BE_ETH_P_IPV6.
    rewrite !(proj2 (Z.eqb_neq _ _)) by (intros ?; lia). done.
  - intros [Hp Hl]. apply fault_run. cbv zeta.
    eapply fault_next; [done|]. eapply fault_next; [done|]. autounfold with katran.
    rewrite (proj2 (Z.ltb_ge _ _)) by lia. eapply fault_next; [done|].
    eapply fault_next; [apply load_in; lia|].
    change (le_val (slice (Z.to_nat 12) 2 (get_pkt s))) with (half_at 12 (infw_pkt s)).
    rewrite Hp. change (BE_ETH_P_IP =? bpf_htons 2048) with true.
    apply fault_first. unfold call, ipv4_firewall_lookup.
    rewrite fault_run; [done|]. apply fault_first, load_out. autounfold with katran. lia.
Qed.
End firewall_spec.

(** ** A reference trie *)
Definition longest (l : list (lpm_ip_key_st * rulesVal_st)) : option (lpm_ip_key_st * rulesVal_st) :=
  foldr (λ kv best, match best with
                    | Some b => if prefixLen kv.1 <=? prefixLen b.1 then Some b else Some kv
                    | None => Some kv
                    end) None l.
#[export] Instance ref_trie : LpmTrie := λ t q,
  snd <$> longest (filter (λ kv, covers kv.1 q) (map_to_list t)).

Lemma longest_Some l b :
  longest l = Some b → b ∈ l ∧ ∀ x, x ∈ l → prefixLen x.1 ≤ prefixLen b.1.
Proof.
  revert b. induction l as [|kv l IH]; intros b E; [done|]. simpl in E.
  destruct (longest l) as [b'|] eqn:El.
  - destruct (IH b' eq_refl) as [Hin Hmax].
    destruct (Z.leb_spec (prefixLen kv.1) (prefixLen b'.1)); injection E as <-.
    + split; [by right|]. intros x [->|Hx]%elem_of_cons; [done|by apply Hmax].
    + split; [by left|]. intros x [->|Hx]%elem_of_cons; [done|]. specialize (Hmax x Hx). lia.
  - injection E as <-. split; [left|]. intros x [->|Hx]%elem_of_cons; [done|].
    destruct l as [|kv' l]; [by apply elem_of_nil in Hx|]. simpl in El.
    destruct (longest l); [by destruct (_ <=? _)|done].
Qed.
Lemma longest_None l : longest l = None → l = [].
Proof. destruct l; [done|]. simpl. destruct (longest l); [by destruct (_ <=? _)|done]. Qed.

#[export] Instance ref_trie_laws : LpmTrieLaws.
Proof.
  assert (∀ (t : gmap lpm_ip_key_st rulesVal_st) q kv,
    kv ∈ filter (λ kv, covers kv.1 q) (map_to_list t) ↔ t !! kv.1 = Some kv.2 ∧ covers kv.1 q) as Hin.
  { intros t q [k v]. rewrite list_elem_of_filter, elem_of_map_to_list. simpl. tauto. }
  split; unfold lpm_lookup, ref_trie.
  - intros t q v E. destruct (longest _) as [[e v']|] eqn:El; [|done]. injection E as ->.
    apply longest_Some in El as [[He Hc]%Hin Hmax]. exists e. split_and!; [done..|].
    intros e' [v' Hv'] Hc'. apply (Hmax (e', v')), Hin. done.
  - intros t q e E [v Hv] Hc. destruct (longest _) as [kv|] eqn:El; [done|].
    apply longest_None in El. apply (not_elem_of_nil (e, v)). rewrite <-El. by apply Hin.
Qed.

(** Interface 2, sources 10.0.0.0/8: TCP port 80 denied, everything else
    allowed; all other sources: everything denied. *)
Definition no_rule : ruleType_st := RuleType 0 0 0 0 0 0 0.
Definition rules_10 : rulesVal_st :=
  RuleType 1 6 80 0 0 0 DENY :: RuleType 2 0 0 0 0 0 ALLOW :: repeat no_rule 98.
Definition rules_any : rulesVal_st := RuleType 1 0 0 0 0 0 DENY :: repeat no_rule 99.
Definition prefix_10 : lpm_ip_key_st := LpmIpKey 40 2 (10 :: repeat 0 15).
Definition prefix_any : lpm_ip_key_st := LpmIpKey 32 2 (repeat 0 16).
Definition ref_ipv4 (proto : Z) (rest : list Z) : list Z :=
  repeat 0 12 ++ [8; 0; 69] ++ repeat 0 8 ++ [proto; 0; 0; 10; 0; 0; 1; 10; 0; 0; 2] ++ rest.
Definition ref_table : gmap lpm_ip_key_st rulesVal_st :=
  {[prefix_10 := rules_10; prefix_any := rules_any]}.
Definition ref_infw (m : list Z) : infw_state :=
  InfwState m 2 ref_table
    {[1 := RuleStatistics (RuleCounters 0 0) (RuleCounters 0 0)]} [].

Lemma ref_table_entries k v :
  ref_table !! k = Some v → k = prefix_10 ∧ v = rules_10 ∨ k = prefix_any ∧ v = rules_any.
Proof.
  unfold ref_table.
  intros [[<- <-]|[_ [<- <-]%lookup_singleton_Some]]%lookup_insert_Some; auto.
Qed.
Lemma ref_table_ok : table_ok ref_table.
Proof. by intros k v [[-> ->]|[-> ->]]%ref_table_entries. Qed.

Lemma first_rule_of_longest_prefix_witness :
  (fst <$> ingress_node_firewall_process
     (ref_infw (ref_ipv4 6 ([0; 1; 0; 80] ++ repeat 0 16)))) = Some XDP_DROP.
Proof.
  rewrite (first_rule_of_longest_prefix true (Some rules_10)).
  - vm_compute. reflexivity.
  - apply (bool_decide_unpack _). reflexivity.
  - apply ref_table_ok.
  - reflexivity.
  - vm_compute. discriminate.
  - apply (covered _ _ prefix_10); [reflexivity|apply (bool_decide_unpack _); reflexivity|].
    intros e' [v [[-> _]|[-> _]]%ref_table_entries] _; [by left|right; reflexivity].
Defined.

Lemma unknown_transport_passes_witness :
  ingress_node_firewall_process (ref_infw (ref_ipv4 47 (repeat 0 20))) =
    Some (XDP_PASS, ref_infw (ref_ipv4 47 (repeat 0 20))).
Proof.
  apply (unknown_transport_passes true);
    [apply (bool_decide_unpack _); reflexivity|apply ref_table_ok|reflexivity|vm_compute; discriminate|reflexivity].
Defined.

Lemma faults_on_short_ipv4_witness :
  ingress_node_firewall_process (ref_infw (take 29 (ref_ipv4 6 []))) = None.
Proof.
  apply faults_on_short_ipv4; [apply (bool_decide_unpack _); reflexivity|apply ref_table_ok|].
  split; [reflexivity|vm_compute; split; [discriminate|reflexivity]].
Defined.
