(* ===== verification/Netobserv.v ===== *)
(** * The netobserv flow agent ([netobserv-bpf-main/])

    [flows.c]: a tc program on both directions of an interface that counts the
    packets and bytes of every flow in a hash map, which user space empties,
    and hands a flow to user space through a ring buffer when the map is
    full. *)
From Stdlib Require Import ZifyBool.
From S2P Require Import Prelude Records Words Consts.
Open Scope c_scope.

Definition DISCARD : Z := 1.
Definition SUBMIT : Z := 0.
Definition INGRESS : Z := 0.
Definition EGRESS : Z := 1.
Definition FIN_FLAG : Z := 0x01.
Definition SYN_FLAG : Z := 0x02.
Definition RST_FLAG : Z := 0x04.
Definition PSH_FLAG : Z := 0x08.
Definition URG_FLAG : Z := 0x20.
Definition ECE_FLAG : Z := 0x40.
Definition CWR_FLAG : Z := 0x80.
Definition SYN_ACK_FLAG : Z := 0x100.
Definition FIN_ACK_FLAG : Z := 0x200.
Definition RST_ACK_FLAG : Z := 0x400.

(** ** [flow.h] *)
Record flow_metrics : Type := FlowMetrics {
  packets : Z; bytes : Z; start_mono_time_ts : Z; end_mono_time_ts : Z;
  flags : Z; errno : Z }.
Record flow_id : Type := FlowId {
  eth_protocol : Z; direction : Z; src_mac : list Z; dst_mac : list Z;
  src_ip : list Z; dst_ip : list Z; src_port : Z; dst_port : Z;
  transport_protocol : Z; if_index : Z }.
Record flow_record : Type := FlowRecord { id : flow_id; metrics : flow_metrics }.

#[export] Instance eta_flow_metrics : Eta flow_metrics := λ x,
  FlowMetrics (packets x) (bytes x) (start_mono_time_ts x) (end_mono_time_ts x) (flags x) (errno x).
#[export] Instance eta_flow_id : Eta flow_id := λ x,
  FlowId (eth_protocol x) (direction x) (src_mac x) (dst_mac x) (src_ip x) (dst_ip x)
    (src_port x) (dst_port x) (transport_protocol x) (if_index x).
#[export] Instance flow_id_eq_dec : EqDecision flow_id.
Proof. solve_decision. Defined.
#[export] Instance flow_id_countable : Countable flow_id.
Proof.
  refine (inj_countable'
    (λ x, [[eth_protocol x]; [direction x]; src_mac x; dst_mac x; src_ip x; dst_ip x;
           [src_port x]; [dst_port x]; [transport_protocol x]; [if_index x]])
    (λ l, match l with
          | [[a]; [b]; c; d; e; f; [g]; [h]; [i]; [j]] => FlowId a b c d e f g h i j
          | _ => FlowId 0 0 [] [] [] [] 0 0 0 0
          end) _). by intros [].
Defined.

(** ** Program state and kernel *)
Abbreviation flow_map := (gmap flow_id flow_metrics) (only parsing).
Record nb_state (K : Type) : Type := NbState {
  nb_pkt : mem;
  skb_len : Z;
  skb_ifindex : Z;
  (** The values of this CPU. *)
  aggregated_flows : flow_map;
  direct_flows : list flow_record;
  nb_kern : K
}.
Arguments NbState {K}. Arguments nb_pkt {K}. Arguments skb_len {K}. Arguments skb_ifindex {K}.
Arguments aggregated_flows {K}. Arguments direct_flows {K}. Arguments nb_kern {K}.
#[export] Instance eta_nb_state K : Eta (nb_state K) := λ s,
  NbState (nb_pkt s) (skb_len s) (skb_ifindex s) (aggregated_flows s) (direct_flows s) (nb_kern s).
#[export] Instance nb_pkt_state K : PktState (nb_state K) :=
  {| get_pkt := nb_pkt; set_pkt m s := s <| nb_pkt := m |> |}.
#[export] Instance nb_pkt_laws K : PktStateLaws (nb_state K).
Proof. split; [done..|]. by intros []. Qed.

(** [nb_random] is [bpf_get_prandom_u32], [nb_ktime] is [bpf_ktime_get_ns],
    [nb_update] is [bpf_map_update_elem(&aggregated_flows, ..., BPF_ANY)] with
    its result, [nb_reserve] tells whether [bpf_ringbuf_reserve] succeeds. *)
Class NbEnv (K : Type) : Type := {
  nb_random : K → Z * K;
  nb_ktime : K → Z * K;
  nb_update : flow_id → flow_metrics → flow_map → K → Z * flow_map * K;
  nb_reserve : K → bool * K
}.
(** An update stores the value, or fails with an error code and leaves the map
    alone. *)
Class NbEnvLaws (K : Type) `{NbEnv K} : Prop := {
  nb_update_spec i v m κ r m' κ' : nb_update i v m κ = (r, m', κ') →
    r = 0 ∧ m' = <[i := v]> m ∨ r ≠ 0 ∧ m' = m
}.

Section program.
Context {K : Type} `{NbEnv K}.
(** [sampling], set when the program is loaded. *)
Context (sampling : Z).

Definition nb_now {R} : body (nb_state K) R Z :=
  λ s, let '(t, κ) := nb_ktime (nb_kern s) in Next t (s <| nb_kern := κ |>).
Definition nb_prandom {R} : body (nb_state K) R Z :=
  λ s, let '(x, κ) := nb_random (nb_kern s) in Next x (s <| nb_kern := κ |>).
Definition nb_map_update {R} (i : flow_id) (v : flow_metrics) : body (nb_state K) R Z :=
  λ s, let '(r, m, κ) := nb_update i v (aggregated_flows s) (nb_kern s) in
       Next r (s <| aggregated_flows := m |> <| nb_kern := κ |>).
Definition nb_ringbuf_reserve {R} : body (nb_state K) R bool :=
  λ s, let '(ok, κ) := nb_reserve (nb_kern s) in Next ok (s <| nb_kern := κ |>).

(** ** Parsing

    The out-parameters [id] and [flags] are returned with the result. *)
Abbreviation parsed := (Z * flow_id * Z)%type (only parsing).

(** Bits of byte 13 of the TCP header. *)
Definition set_flags (th : Z) (fl : Z) : Z :=
  let fin := Z.testbit th 0 in let syn := Z.testbit th 1 in
  let rst := Z.testbit th 2 in let psh := Z.testbit th 3 in
  let ack := Z.testbit th 4 in let urg := Z.testbit th 5 in
  let ece := Z.testbit th 6 in let cwr := Z.testbit th 7 in
  if ack && syn then Z.lor fl SYN_ACK_FLAG
  else if ack && fin then Z.lor fl FIN_ACK_FLAG
  else if ack && rst then Z.lor fl RST_ACK_FLAG
  else if fin then Z.lor fl FIN_FLAG
  else if syn then Z.lor fl SYN_FLAG
  else if rst then Z.lor fl RST_FLAG
  else if psh then Z.lor fl PSH_FLAG
  else if urg then Z.lor fl URG_FLAG
  else if ece then Z.lor fl ECE_FLAG
  else if cwr then Z.lor fl CWR_FLAG
  else fl.

(** The [switch] on the transport protocol, with the header at [l4]. *)
Definition fill_ports (proto l4 : Z) (i : flow_id) (fl : Z) : body (nb_state K) parsed parsed :=
  if proto =? IPPROTO_TCP then
    let! short := past_end (l4 + sizeof_tcphdr) in
    if short then ret (SUBMIT, i, fl) else
    let! source := load16 (l4 + tcp_source) in
    let! dest := load16 (l4 + tcp_dest) in
    let! th := load8 (l4 + tcp_flags) in
    ret (SUBMIT, i <| src_port := bpf_ntohs source |> <| dst_port := bpf_ntohs dest |>, set_flags th fl)
  else if proto =? IPPROTO_UDP then
    let! short := past_end (l4 + sizeof_udphdr) in
    if short then ret (SUBMIT, i, fl) else
    let! source := load16 (l4 + udp_source) in
    let! dest := load16 (l4 + udp_dest) in
    ret (SUBMIT, i <| src_port := bpf_ntohs source |> <| dst_port := bpf_ntohs dest |>, fl)
  else ret (SUBMIT, i, fl).

Definition ip4in6 : list Z := repeat 0 10 ++ [0xff; 0xff].

Definition fill_iphdr (ip : Z) (i : flow_id) (fl : Z) : func (nb_state K) parsed := run (
  let! oob := past_end (ip + sizeof_iphdr) in
  return_if oob (DISCARD, i, fl) ;;
  let! saddr := load_bytes (ip + ip_saddr) 4 in
  let! daddr := load_bytes (ip + ip_daddr) 4 in
  let! proto := load8 (ip + ip_protocol) in
  let i := i <| src_ip := ip4in6 ++ saddr |> <| dst_ip := ip4in6 ++ daddr |>
             <| transport_protocol := proto |> <| src_port := 0 |> <| dst_port := 0 |> in
  fill_ports proto (ip + sizeof_iphdr) i fl).

Definition fill_ip6hdr (ip : Z) (i : flow_id) (fl : Z) : func (nb_state K) parsed := run (
  let! oob := past_end (ip + sizeof_ipv6hdr) in
  return_if oob (DISCARD, i, fl) ;;
  let! saddr := load_bytes (ip + ip6_saddr) 16 in
  let! daddr := load_bytes (ip + ip6_daddr) 16 in
  let! nexthdr := load8 (ip + ip6_nexthdr) in
  let i := i <| src_ip := saddr |> <| dst_ip := daddr |>
             <| transport_protocol := nexthdr |> <| src_port := 0 |> <| dst_port := 0 |> in
  fill_ports nexthdr (ip + sizeof_ipv6hdr) i fl).

Definition fill_ethhdr (i : flow_id) (fl : Z) : func (nb_state K) parsed := run (
  let! oob := past_end sizeof_ethhdr in
  return_if oob (DISCARD, i, fl) ;;
  let! h_dest := load_bytes eth_h_dest ETH_ALEN in
  let! h_source := load_bytes eth_h_source ETH_ALEN in
  let! h_proto := load16 eth_h_proto in
  let i := i <| dst_mac := h_dest |> <| src_mac := h_source |>
             <| eth_protocol := bpf_ntohs h_proto |> in
  if eth_protocol i =? ETH_P_IP then call (fill_iphdr sizeof_ethhdr i fl)
  else if eth_protocol i =? ETH_P_IPV6 then call (fill_ip6hdr sizeof_ethhdr i fl)
  else
    ret (SUBMIT, i <| src_ip := repeat 0 16 |> <| dst_ip := repeat 0 16 |>
                   <| transport_protocol := 0 |> <| src_port := 0 |> <| dst_port := 0 |>, fl)).

(** ** Accounting *)

(** [flow_id id;]: every field is written before it is used. *)
Definition uninit_id : flow_id := FlowId 0 0 [] [] [] [] 0 0 0 0.

(** One more packet of a known flow. *)
Definition add_packet (len time fl : Z) (f : flow_metrics) : flow_metrics :=
  let f := f <| packets ::= λ n, u32 (n + 1) |> <| bytes ::= λ n, u64 (n + len) |>
             <| end_mono_time_ts := time |> in
  let f := if start_mono_time_ts f =? 0 then f <| start_mono_time_ts := time |> else f in
  f <| flags ::= Z.lor fl |>.

(** [flow_monitor] after the sampling. *)
Definition account_packet (dir : Z) : body (nb_state K) Z Z :=
  let! current_time := nb_now in
  let! (r, fl) := call (fill_ethhdr uninit_id 0) in
  let! (code, i) := ret r in
  return_if (code =? DISCARD) TC_ACT_OK ;;
  let! ifindex := gets skb_ifindex in
  let i := i <| if_index := ifindex |> <| direction := dir |> in
  let! len := gets skb_len in
  let! aggregate_flow := gets (λ s, aggregated_flows s !! i) in
  match aggregate_flow with
  | Some _ =>
      modify (λ s, s <| aggregated_flows ::= alter (add_packet len current_time fl) i |>) ;;
      let! v := gets (λ s, aggregated_flows s !! i) in
      let! v := or_fault v in
      let! r := nb_map_update i v in
      ret TC_ACT_OK
  | None =>
      let new_flow := FlowMetrics 1 len current_time current_time fl 0 in
      let! r := nb_map_update i new_flow in
      when (negb (r =? 0)) (
        let! record := nb_ringbuf_reserve in
        return_if (negb record) TC_ACT_OK ;;
        modify (λ s, s <| direct_flows ::= λ l, l ++ [FlowRecord i (new_flow <| errno := u8 (- r) |>)] |>)) ;;
      ret TC_ACT_OK
  end.

Definition flow_monitor (dir : Z) : func (nb_state K) Z := run (
  when (negb (sampling =? 0)) (
    let! x := nb_prandom in
    return_if (negb (x mod sampling =? 0)) TC_ACT_OK) ;;
  account_packet dir).

Definition ingress_flow_parse : func (nb_state K) Z := flow_monitor INGRESS.
Definition egress_flow_parse : func (nb_state K) Z := flow_monitor EGRESS.
End program.

(** ** The flow of a packet *)

(** Source port, destination port and TCP flags: zero when the transport header
    is missing, cut short or of another protocol. *)
Definition ports_of (proto : Z) (l4 : nat) (m : mem) : Z * Z * Z :=
  let long n := Z.of_nat l4 + n <=? Z.of_nat (length m) in
  let source := bpf_ntohs (half_at l4 m) in
  let dest := bpf_ntohs (half_at (l4 + 2) m) in
  if (proto =? IPPROTO_TCP) && long 20 then (source, dest, set_flags (byte_at (l4 + 13) m) 0)
  else if (proto =? IPPROTO_UDP) && long 8 then (source, dest, 0)
  else (0, 0, 0).

(** The flow a packet is counted for, with its flags; [None]: cut short. *)
Definition packet_flow (dir ifindex : Z) (m : mem) : option (flow_id * Z) :=
  let len := Z.of_nat (length m) in
  let proto := bpf_ntohs (half_at 12 m) in
  let dmac := slice 0 6 m in
  let smac := slice 6 6 m in
  if len <? 14 then None
  else if proto =? ETH_P_IP then
    if len <? 34 then None else
    let '(sp, dp, fl) := ports_of (byte_at 23 m) 34 m in
    Some (FlowId proto dir smac dmac (ip4in6 ++ slice 26 4 m) (ip4in6 ++ slice 30 4 m)
            sp dp (byte_at 23 m) ifindex, fl)
  else if proto =? ETH_P_IPV6 then
    if len <? 54 then None else
    let '(sp, dp, fl) := ports_of (byte_at 20 m) 54 m in
    Some (FlowId proto dir smac dmac (slice 22 16 m) (slice 38 16 m)
            sp dp (byte_at 20 m) ifindex, fl)
  else Some (FlowId proto dir smac dmac (repeat 0 16) (repeat 0 16) 0 0 0 ifindex, 0).

Section parsing_spec.
Context {K : Type}.
Implicit Types s : nb_state K.

Lemma wp_fill_ports proto l4 (l4n : nat) i (QR : Z * flow_id * Z → nb_state K → Prop) QN s :
  l4 = Z.of_nat l4n → src_port i = 0 → dst_port i = 0 → l4 ≤ pkt_len s →
  (let '(sp, dp, fl) := ports_of proto l4n (nb_pkt s) in
   QN (SUBMIT, i <| src_port := sp |> <| dst_port := dp |>, fl) s) →
  wpb (fill_ports proto l4 i 0) QR QN s.
Proof.
  intros -> Hs Hd Hl. unfold fill_ports, ports_of, half_at, byte_at.
  change (length (nb_pkt s)) with (length (get_pkt s)). fold (pkt_len s).
  change (nb_pkt s) with (get_pkt s). autounfold with katran.
  assert (i <| src_port := 0 |> <| dst_port := 0 |> = i) as Hi.
  { destruct i; unfold update in *; simpl in *. by subst. }
  assert (Z.to_nat (Z.of_nat l4n + 0) = l4n) as H0 by lia.
  assert (Z.to_nat (Z.of_nat l4n + 2) = (l4n + 2)%nat) as H2 by lia.
  assert (Z.to_nat (Z.of_nat l4n + 13) = (l4n + 13)%nat) as H13 by lia.
  unfold IPPROTO_TCP, IPPROTO_UDP. destruct (Z.eqb_spec proto 6) as [->|]; simpl.
  - intros HQ. apply wp_bind, wp_past_end.
    destruct (Z.ltb_spec (pkt_len s) (Z.of_nat l4n + 20)).
    + replace (Z.of_nat l4n + 20 <=? pkt_len s) with false in HQ by lia. rewrite Hi in HQ. exact HQ.
    + replace (Z.of_nat l4n + 20 <=? pkt_len s) with true in HQ by lia.
      apply wp_bind, wp_load; [lia..|]. apply wp_bind, wp_load; [lia..|].
      apply wp_bind, wp_load; [lia..|]. rewrite H0, H2, H13. exact HQ.
  - destruct (Z.eqb_spec proto 17) as [->|]; simpl; [|by rewrite Hi].
    intros HQ. apply wp_bind, wp_past_end.
    destruct (Z.ltb_spec (pkt_len s) (Z.of_nat l4n + 8)).
    + replace (Z.of_nat l4n + 8 <=? pkt_len s) with false in HQ by lia. rewrite Hi in HQ. exact HQ.
    + replace (Z.of_nat l4n + 8 <=? pkt_len s) with true in HQ by lia.
      apply wp_bind, wp_load; [lia..|]. apply wp_bind, wp_load; [lia..|].
      rewrite H0, H2. exact HQ.
Qed.

Lemma wp_fill_ethhdr dir ifindex s :
  wpf (fill_ethhdr uninit_id 0) (λ r s', s' = s ∧
    match packet_flow dir ifindex (nb_pkt s) with
    | None => fst (fst r) = DISCARD
    | Some (j, fl) =>
        fst (fst r) = SUBMIT ∧ snd (fst r) <| if_index := ifindex |> <| direction := dir |> = j ∧
        snd r = fl
    end) s.
Proof.
  unfold fill_ethhdr, packet_flow. change (Z.of_nat (length (nb_pkt s))) with (pkt_len s).
  autounfold with katran.
  wp_step. apply wp_bind, wp_past_end, wp_bind, wp_return_if; intros Hl; [by rewrite Hl|].
  rewrite Hl. apply Z.ltb_ge in Hl.
  apply wp_bind, wp_load_bytes; [lia..|]. apply wp_bind, wp_load_bytes; [lia..|].
  apply wp_bind, wp_load; [lia..|]. cbv zeta. simpl eth_protocol.
  change (get_pkt s) with (nb_pkt s).
  change (le_val (slice (Z.to_nat 12) 2 (nb_pkt s))) with (half_at 12 (nb_pkt s)).
  set (proto := bpf_ntohs (half_at 12 (nb_pkt s))).
  change (slice (Z.to_nat 0) 6) with (slice 0 6). change (slice (Z.to_nat 6) 6) with (slice 6 6).
  destruct (proto =? ETH_P_IP).
  - apply wp_call. unfold fill_iphdr. autounfold with katran.
    wp_step. apply wp_bind, wp_past_end, wp_bind, wp_return_if; intros Hl2.
    { change (14 + 20) with 34 in Hl2. by rewrite Hl2. }
    change (14 + 20) with 34 in Hl2. rewrite Hl2. apply Z.ltb_ge in Hl2.
    apply wp_bind, wp_load_bytes; [lia..|]. apply wp_bind, wp_load_bytes; [lia..|].
    apply wp_bind, wp_load; [lia..|]. cbv zeta.
    apply (wp_fill_ports _ _ 34); [done..|lia|].
    change (le_val (slice (Z.to_nat (14 + 9)) 1 (get_pkt s))) with (byte_at 23 (nb_pkt s)).
    destruct (ports_of _ _ _) as [[sp dp] fl]. done.
  - destruct (proto =? ETH_P_IPV6); [|done].
    apply wp_call. unfold fill_ip6hdr. autounfold with katran.
    wp_step. apply wp_bind, wp_past_end, wp_bind, wp_return_if; intros Hl2.
    { change (14 + 40) with 54 in Hl2. by rewrite Hl2. }
    change (14 + 40) with 54 in Hl2. rewrite Hl2. apply Z.ltb_ge in Hl2.
    apply wp_bind, wp_load_bytes; [lia..|]. apply wp_bind, wp_load_bytes; [lia..|].
    apply wp_bind, wp_load; [lia..|]. cbv zeta.
    apply (wp_fill_ports _ _ 54); [done..|lia|].
    change (le_val (slice (Z.to_nat (14 + 6)) 1 (get_pkt s))) with (byte_at 20 (nb_pkt s)).
    destruct (ports_of _ _ _) as [[sp dp] fl]. done.
Qed.
End parsing_spec.

(** ** Accounting *)

(** What the agent does with a packet. *)
Inductive nb_event : Type :=
| Skipped
| Counted (i : flow_id) (len : Z)
| Lost (i : flow_id) (len : Z)
| Exported.

(** Packets the sampling leaves out and packets cut short are skipped; a packet
    of a new flow is lost when neither the map nor the ring buffer has room. *)
Definition account_event {K} `{NbEnv K} (dir : Z) (s : nb_state K) : nb_event :=
  let '(t, κ) := nb_ktime (nb_kern s) in
  match packet_flow dir (skb_ifindex s) (nb_pkt s) with
  | None => Skipped
  | Some (i, fl) =>
      match aggregated_flows s !! i with
      | Some _ => Counted i (skb_len s)
      | None =>
          let '(r, _, κ) := nb_update i (FlowMetrics 1 (skb_len s) t t fl 0) (aggregated_flows s) κ in
          if r =? 0 then Counted i (skb_len s)
          else if fst (nb_reserve κ) then Counted i (skb_len s) else Lost i (skb_len s)
      end
  end.
Definition event_of {K} `{NbEnv K} (sampling dir : Z) (s : nb_state K) : nb_event :=
  if sampling =? 0 then account_event dir s else
  let '(x, κ) := nb_random (nb_kern s) in
  if x mod sampling =? 0 then account_event dir (s <| nb_kern := κ |>) else Skipped.

(** Sums over the records of a flow, and over what the maps hold of it. *)
Fixpoint recorded (f : flow_metrics → Z) (j : flow_id) (l : list flow_record) : Z :=
  match l with
  | [] => 0
  | r :: l => (if bool_decide (id r = j) then f (metrics r) else 0) + recorded f j l
  end.
Definition held {K} (f : flow_metrics → Z) (j : flow_id) (s : nb_state K) : Z :=
  (match aggregated_flows s !! j with Some v => f v | None => 0 end) + recorded f j (direct_flows s).
(** The packets of [j] that an event counts, each with the weight [d]. *)
Definition weight (d : Z → Z) (j : flow_id) (e : nb_event) : Z :=
  match e with
  | Counted i len => if bool_decide (i = j) then d len else 0
  | _ => 0
  end.
Definition counted (d : Z → Z) (j : flow_id) (l : list nb_event) : Z :=
  foldr (λ e n, weight d j e + n) 0 l.

Lemma recorded_app f j l1 l2 : recorded f j (l1 ++ l2) = recorded f j l1 + recorded f j l2.
Proof. induction l1 as [|r l1 IH]; simpl; lia. Qed.

Section accounting.
Context {K : Type} `{NbEnvLaws K}.
Implicit Types s : nb_state K.
Context (sampling : Z).
(** A measure of flows, kept modulo [M], that grows by [d len] with a packet:
    [packets] and [bytes]. *)
Context (f : flow_metrics → Z) (d : Z → Z) (M : Z).
Context (HM : 0 < M).
Context (Hadd : ∀ len t fl v, f (add_packet len t fl v) mod M = (f v + d len) mod M).
Context (Hnew : ∀ len t fl e, f (FlowMetrics 1 len t t fl e) = d len).

Definition accounts s s' (e : nb_event) : Prop :=
  ∀ j, held f j s' mod M = (held f j s + weight d j e) mod M.

Lemma accounts_same s s' e :
  aggregated_flows s' = aggregated_flows s → direct_flows s' = direct_flows s →
  (∀ j, weight d j e = 0) → accounts s s' e.
Proof. intros Ha Hd He j. unfold held. by rewrite Ha, Hd, He, Z.add_0_r. Qed.

Lemma accounts_map s s' i len v :
  aggregated_flows s' = <[i := v]> (aggregated_flows s) → direct_flows s' = direct_flows s →
  f v mod M = ((match aggregated_flows s !! i with Some v => f v | None => 0 end) + d len) mod M →
  accounts s s' (Counted i len).
Proof.
  intros Ha Hd Hv j. unfold held. rewrite Ha, Hd. simpl. case_bool_decide as Hij.
  - subst j. rewrite lookup_insert_eq, Z.add_mod, Hv, <-Z.add_mod by lia. f_equal. lia.
  - rewrite lookup_insert_ne by done. f_equal. lia.
Qed.

Lemma accounts_record s s' i len m :
  aggregated_flows s' = aggregated_flows s →
  direct_flows s' = direct_flows s ++ [FlowRecord i m] → f m = d len →
  accounts s s' (Counted i len).
Proof.
  intros Ha Hd Hm j. unfold held. rewrite Ha, Hd, recorded_app. simpl.
  case_bool_decide; f_equal; lia.
Qed.

(** The update of a known flow stores back what is there. *)
Lemma wp_store_back i v v' (Q : Z → nb_state K → Prop) s :
  aggregated_flows s !! i = Some v' →
  (∀ s', aggregated_flows s' = <[i := v]> (aggregated_flows s) → direct_flows s' = direct_flows s →
     Q TC_ACT_OK s') →
  v = v' →
  wpb (let! r := nb_map_update i v in ret TC_ACT_OK) Q Q s.
Proof.
  intros Hv HQ <-. apply wp_bind. unfold wpb at 1, nb_map_update.
  destruct (nb_update i v (aggregated_flows s) (nb_kern s)) as [[r m] κ] eqn:E.
  apply nb_update_spec in E as [[_ ->]|[_ ->]]; apply wp_ret, HQ; try done.
  simpl. by rewrite insert_id.
Qed.

Lemma wp_account_packet dir s0 s :
  aggregated_flows s = aggregated_flows s0 → direct_flows s = direct_flows s0 →
  let Q := λ r s', r = TC_ACT_OK ∧ accounts s0 s' (account_event dir s) in
  wpb (account_packet dir) Q Q s.
Proof.
  intros Ha Hd Q. unfold account_packet. apply wp_bind. unfold wpb at 1, nb_now.
  subst Q. unfold account_event. destruct (nb_ktime (nb_kern s)) as [t κ].
  apply wp_bind, wp_call. eapply wpf_mono; [apply (wp_fill_ethhdr dir (skb_ifindex s))|].
  intros [[code i0] fl] s' [-> Hflow]. apply wp_bind, wp_ret. simpl in Hflow.
  destruct (packet_flow dir (skb_ifindex s) (nb_pkt s)) as [[i fl']|].
  2:{ subst code. apply wp_bind, wp_return. split; [done|]. by apply accounts_same. }
  destruct Hflow as (-> & Hi & <-). apply wp_bind, wp_ret, wp_bind, wp_gets. cbv zeta.
  simpl skb_ifindex. rewrite Hi. apply wp_bind, wp_gets, wp_bind, wp_gets. simpl aggregated_flows.
  simpl skb_len. destruct (aggregated_flows s !! i) as [v|] eqn:Ev.
  - apply wp_bind, wp_modify, wp_bind, wp_gets, wp_bind. simpl aggregated_flows.
    rewrite lookup_alter_eq, Ev. apply wp_ret.
    eapply (wp_store_back i (add_packet (skb_len s) t fl v));
      [simpl; by rewrite lookup_alter_eq, Ev| |done].
    intros s' Ha' Hd'. split; [done|].
    eapply accounts_map; [|by rewrite Hd'|by rewrite <-Ha, Ev, Hadd].
    rewrite Ha', <-Ha. simpl. apply map_eq. intros j. destruct (decide (j = i)) as [->|].
    + by rewrite !lookup_insert_eq.
    + by rewrite !lookup_insert_ne, lookup_alter_ne by done.
  - apply wp_bind. unfold wpb at 1, nb_map_update. simpl.
    destruct (nb_update _ _ _ _) as [[r m] κ'] eqn:E.
    apply nb_update_spec in E as [[-> ->]|[Hr ->]].
    + apply wp_bind, wp_ret, wp_ret. split; [done|].
      apply (accounts_map _ _ _ _ (FlowMetrics 1 (skb_len s) t t fl 0)); simpl;
        [by rewrite Ha|done|]. by rewrite <-Ha, Ev, Hnew.
    + rewrite (proj2 (Z.eqb_neq _ _) Hr). apply wp_bind, wp_bind. unfold wpb at 1, nb_ringbuf_reserve.
      simpl. destruct (nb_reserve κ') as [[] κ''].
      * apply wp_bind, wp_ret, wp_modify, wp_ret. split; [done|].
        eapply accounts_record; simpl; [done|by rewrite Hd|]. apply Hnew.
      * apply wp_bind, wp_return. split; [done|]. by apply accounts_same.
Qed.

Lemma wp_flow_monitor dir s :
  wpf (flow_monitor sampling dir) (λ r s', r = TC_ACT_OK ∧
    accounts s s' (event_of sampling dir s)) s.
Proof.
  unfold flow_monitor, event_of. wp_step. apply wp_bind.
  destruct (sampling =? 0); simpl; [by apply wp_account_packet|].
  apply wp_bind. unfold wpb at 1, nb_prandom. destruct (nb_random (nb_kern s)) as [x κ].
  apply wp_return_if; intros Hx.
  - replace (x mod sampling =? 0) with false by lia. split; [done|]. by apply accounts_same.
  - replace (x mod sampling =? 0) with true by lia. by apply wp_account_packet.
Qed.
End accounting.

(** Packets in both directions, with arbitrary contents and kernel states, and
    user space, which takes flows out of the map and records out of the ring
    buffer, in any order; [out] is what it has taken. *)
Definition nb_arrive {K} (m : mem) (len ifindex : Z) (κ : K) (s : nb_state K) : nb_state K :=
  s <| nb_pkt := m |> <| skb_len := len |> <| skb_ifindex := ifindex |> <| nb_kern := κ |>.

Inductive nb_run {K} `{NbEnv K} (sampling : Z) :
    nb_state K → list flow_record → list nb_event → nb_state K → list flow_record → Prop :=
| nb_nil s out : nb_run sampling s out [] s out
| nb_packet s out dir m len ifindex κ e r s' l s'' out' :
    e = event_of sampling dir (nb_arrive m len ifindex κ s) →
    flow_monitor sampling dir (nb_arrive m len ifindex κ s) = Some (r, s') →
    nb_run sampling s' out l s'' out' →
    nb_run sampling s out (e :: l) s'' out'
| nb_evict s out i v l s'' out' :
    aggregated_flows s !! i = Some v →
    nb_run sampling (s <| aggregated_flows ::= delete i |>) (out ++ [FlowRecord i v]) l s'' out' →
    nb_run sampling s out (Exported :: l) s'' out'
| nb_drain s out l s'' out' :
    nb_run sampling (s <| direct_flows := [] |>) (out ++ direct_flows s) l s'' out' →
    nb_run sampling s out (Exported :: l) s'' out'.

Section conservation.
Context {K : Type} `{NbEnvLaws K}.
Implicit Types s : nb_state K.

Lemma run_accounts sampling (f : flow_metrics → Z) (d : Z → Z) M s out l s' out' :
  0 < M →
  (∀ len t fl v, f (add_packet len t fl v) mod M = (f v + d len) mod M) →
  (∀ len t fl e, f (FlowMetrics 1 len t t fl e) = d len) →
  nb_run sampling s out l s' out' →
  ∀ j, (held f j s' + recorded f j out') mod M =
       (held f j s + recorded f j out + counted d j l) mod M.
Proof.
  intros HM Hadd Hnew Hrun j.
  induction Hrun as [s out|s out dir m len ifindex κ e r s' l s'' out' -> Hrun _ IH
                    |s out i v l s'' out' Hv _ IH|s out l s'' out' _ IH]; simpl.
  - f_equal. lia.
  - rewrite IH.
    pose proof (wpf_result _ _ _ _ _ Hrun (wp_flow_monitor sampling f d M HM Hadd Hnew dir _))
      as [_ Hacc]. specialize (Hacc j).
    change (held f j (nb_arrive m len ifindex κ s)) with (held f j s) in Hacc.
    set (e := event_of sampling dir _) in *. fold (counted d j l).
    rewrite <-Z.add_assoc, Z.add_mod, Hacc, <-Z.add_mod by lia. f_equal. lia.
  - rewrite IH. f_equal. unfold held. simpl. rewrite recorded_app. simpl.
    case_bool_decide as Hij; [subst i|].
    + rewrite lookup_delete_eq, Hv. lia.
    + rewrite lookup_delete_ne by done. lia.
  - rewrite IH. f_equal. unfold held. simpl. rewrite recorded_app. lia.
Qed.

Lemma add_packet_counts len t fl v :
  packets (add_packet len t fl v) = u32 (packets v + 1) ∧
  bytes (add_packet len t fl v) = u64 (bytes v + len).
Proof. unfold add_packet. destruct v; unfold update; simpl. by destruct (_ =? 0). Qed.

(** C13: no packet is miscounted.  Over any run of the agent and of user space,
    what the map, the ring buffer and user space hold together of a flow grows
    by exactly the packets of that flow, and by their bytes, up to the width of
    the counters; packets left out by the sampling or cut short, and packets of
    a new flow that find the map and the ring buffer full, are not counted.
    Every packet is passed on. *)
Theorem flow_conservation sampling s out l s' out' :
  nb_run sampling s out l s' out' →
  (∀ j, (held packets j s' + recorded packets j out') mod 2 ^ 32 =
          (held packets j s + recorded packets j out + counted (λ _, 1) j l) mod 2 ^ 32 ∧
        (held bytes j s' + recorded bytes j out') mod 2 ^ 64 =
          (held bytes j s + recorded bytes j out + counted (λ len, len) j l) mod 2 ^ 64) ∧
  ∀ dir s, ∃ s', flow_monitor sampling dir s = Some (TC_ACT_OK, s').
Proof.
  intros Hrun.
  assert (∀ len t fl v, packets (add_packet len t fl v) mod 2 ^ 32 = (packets v + 1) mod 2 ^ 32) as Hp.
  { intros. rewrite (proj1 (add_packet_counts _ _ _ _)). unfold u32. by rewrite Z.mod_mod. }
  assert (∀ len t fl v, bytes (add_packet len t fl v) mod 2 ^ 64 = (bytes v + len) mod 2 ^ 64) as Hb.
  { intros. rewrite (proj2 (add_packet_counts _ _ _ _)). unfold u64. by rewrite Z.mod_mod. }
  split; [intros j; split|].
  - by apply (run_accounts sampling packets (λ _, 1)).
  - by apply (run_accounts sampling bytes (λ len, len)).
  - intros dir s1.
    pose proof (wp_flow_monitor sampling packets (λ _, 1) (2 ^ 32) ltac:(lia) Hp ltac:(done) dir s1)
      as Hw. apply wpf_elim in Hw as (r & s2 & -> & -> & _). by exists s2.
Qed.
End conservation.

(** ** A reference kernel *)
Record nbk : Type := NbK { nb_clock : Z; nb_room : bool }.
#[export] Instance nbk_env : NbEnv nbk := {
  nb_random κ := (nb_clock κ mod 2 ^ 32, κ);
  nb_ktime κ := (nb_clock κ, κ);
  nb_update i v m κ := if nb_room κ then (0, <[i := v]> m, κ) else (-7, m, κ);
  nb_reserve κ := (true, κ)
}.
#[export] Instance nbk_laws : NbEnvLaws nbk.
Proof.
  split. intros i v m κ r m' κ'. simpl. destruct (nb_room κ); intros [= <- <- <-]; [by left|by right].
Qed.

(** Two packets of one flow: the map has room for the first, not for a new
    entry afterwards; user space takes the flow out in between. *)
Definition udp_frame : list Z :=
  repeat 1 6 ++ repeat 2 6 ++ [8; 0; 69] ++ repeat 0 8 ++ [17; 0; 0; 10; 0; 0; 1; 10; 0; 0; 2;
    0; 53; 0; 54; 0; 8; 0; 0].
Definition nb_empty : nb_state nbk := NbState udp_frame 0 2 ∅ [] (NbK 5 true).
Definition udp_flow : flow_id :=
  match packet_flow INGRESS 2 udp_frame with Some (i, _) => i | None => uninit_id end.

Definition nb_after (s : nb_state nbk) : nb_state nbk :=
  match flow_monitor 0 INGRESS s with Some (_, s') => s' | None => s end.
Definition nb_first : nb_state nbk := nb_after (nb_arrive udp_frame 42 2 (NbK 5 true) nb_empty).
Definition udp_metrics : flow_metrics := FlowMetrics 1 42 5 5 0 0.
Definition nb_second : nb_state nbk :=
  nb_after (nb_arrive udp_frame 42 2 (NbK 6 false)
    (nb_first <| aggregated_flows ::= delete udp_flow |>)).
Definition nb_events : list nb_event := [Counted udp_flow 42; Exported; Counted udp_flow 42].

Lemma nb_first_runs :
  flow_monitor 0 INGRESS (nb_arrive udp_frame 42 2 (NbK 5 true) nb_empty) =
    Some (TC_ACT_OK, nb_first).
Proof. vm_compute. reflexivity. Qed.
Lemma nb_first_event :
  Counted udp_flow 42 = event_of 0 INGRESS (nb_arrive udp_frame 42 2 (NbK 5 true) nb_empty).
Proof. vm_compute. reflexivity. Qed.
Lemma nb_first_holds : aggregated_flows nb_first !! udp_flow = Some udp_metrics.
Proof. vm_compute. reflexivity. Qed.
Definition nb_evicted : nb_state nbk := nb_first <| aggregated_flows ::= delete udp_flow |>.
Lemma nb_second_runs :
  flow_monitor 0 INGRESS (nb_arrive udp_frame 42 2 (NbK 6 false) nb_evicted) =
    Some (TC_ACT_OK, nb_second).
Proof. vm_compute. reflexivity. Qed.
Lemma nb_second_event :
  Counted udp_flow 42 = event_of 0 INGRESS (nb_arrive udp_frame 42 2 (NbK 6 false) nb_evicted).
Proof. vm_compute. reflexivity. Qed.

Lemma nb_example_run :
  nb_run 0 nb_empty [] nb_events nb_second [FlowRecord udp_flow udp_metrics].
Proof.
  eapply nb_packet; [exact nb_first_event|exact nb_first_runs|].
  eapply nb_evict; [exact nb_first_holds|]. fold nb_evicted.
  eapply nb_packet; [exact nb_second_event|exact nb_second_runs|]. apply nb_nil.
Qed.

Lemma flow_conservation_witness :
  (held packets udp_flow nb_second + 1) mod 2 ^ 32 = 2 ∧
  (held bytes udp_flow nb_second + 42) mod 2 ^ 64 = 84.
Proof.
  pose proof (proj1 (flow_conservation 0 _ _ _ _ _ nb_example_run) udp_flow) as [Hp Hb].
  split; [etransitivity; [etransitivity; [|exact Hp]|]|etransitivity; [etransitivity; [|exact Hb]|]];
    vm_compute; reflexivity.
Defined.
