(* ===== verification/Suricata.v ===== *)
(** * Suricata's packet filters ([suricata-master/ebpf/])

    [xdp_filter.c]: packets of bypassed flows are counted and dropped or sent
    to a peer interface, the others spread over CPUs.  [xdp_lb.c] only spreads,
    inside GRE and ERSPAN tunnels too.  [lb.c], [bypass_filter.c], [filter.c]
    and [vlan_filter.c] are socket filters.  All maps are in one state. *)
From S2P Require Import Prelude Records Words Consts.
Open Scope c_scope.

Definition XDP_ABORTED : Z := 0.
Definition XDP_REDIRECT : Z := 4.
Definition VLAN_8021Q : Z := 0x8100.
Definition VLAN_8021AD : Z := 0x88A8.
Definition sizeof_vlan_hdr : Z := 4.
Definition h_vlan_TCI : Z := 0.
Definition h_vlan_encapsulated_proto : Z := 2.

(** ** Data *)
Record pair : Type := Pair { packets : Z; bytes : Z }.
#[export] Instance eta_pair : Eta pair := λ p, Pair (packets p) (bytes p).

(** [struct flowv4_keys], [struct flowv6_keys]: addresses of type [A]. *)
Record flow_keys (A : Type) : Type := FlowKeys {
  k_src : A; k_dst : A; port16_0 : Z; port16_1 : Z; k_proto : Z; k_vlan0 : Z; k_vlan1 : Z }.
Arguments FlowKeys {A}. Arguments k_src {A}. Arguments k_dst {A}. Arguments port16_0 {A}.
Arguments port16_1 {A}. Arguments k_proto {A}. Arguments k_vlan0 {A}. Arguments k_vlan1 {A}.
Definition flow_keys_tuple {A} (k : flow_keys A) :=
  (k_src k, k_dst k, port16_0 k, port16_1 k, k_proto k, k_vlan0 k, k_vlan1 k).
#[export] Instance flow_keys_eq_dec {A} `{EqDecision A} : EqDecision (flow_keys A).
Proof. solve_decision. Defined.
#[export] Instance flow_keys_countable {A} `{Countable A} : Countable (flow_keys A).
Proof.
  apply (inj_countable' flow_keys_tuple (λ '(a, b, c, d, e, f, g), FlowKeys a b c d e f g)).
  by intros [].
Defined.
(** [__u32 addr[4]] *)
Definition addr6 : Type := (Z * Z * Z * Z)%type.

(** The targets of [bpf_redirect_map]. *)
Inductive su_map := cpu_map | tx_peer.

Record su_state (K : Type) : Type := SuState {
  su_pkt : mem;
  vlan_tci : Z; cb0 : Z;
  flow_table_v4 : gmap (flow_keys Z) pair;
  flow_table_v6 : gmap (flow_keys addr6) pair;
  (** Arrays: the lookup of an index inside succeeds. *)
  cpus_available : list Z; cpus_count : list Z; tx_peer_int : list Z;
  tls_bypass_count : list Z;
  ipv4_drop : gmap Z Z;
  rx_queue_index : Z;
  (** The calls of [bpf_redirect_map]. *)
  redirected : list (su_map * Z);
  su_kern : K
}.
Arguments SuState {K}. Arguments su_pkt {K}. Arguments vlan_tci {K}. Arguments cb0 {K}.
Arguments flow_table_v4 {K}. Arguments flow_table_v6 {K}. Arguments cpus_available {K}.
Arguments cpus_count {K}. Arguments tx_peer_int {K}. Arguments tls_bypass_count {K}.
Arguments ipv4_drop {K}. Arguments rx_queue_index {K}. Arguments redirected {K}.
Arguments su_kern {K}.
#[export] Instance eta_su_state K : Eta (su_state K) := λ s,
  SuState (su_pkt s) (vlan_tci s) (cb0 s) (flow_table_v4 s) (flow_table_v6 s) (cpus_available s)
    (cpus_count s) (tx_peer_int s) (tls_bypass_count s) (ipv4_drop s) (rx_queue_index s)
    (redirected s) (su_kern s).
#[export] Instance su_pkt_state K : PktState (su_state K) :=
  {| get_pkt := su_pkt; set_pkt m s := s <| su_pkt := m |> |}.
#[export] Instance su_pkt_laws K : PktStateLaws (su_state K).
Proof. split; [done..|]. by intros []. Qed.

(** The kernel: [bpf_redirect_map(map, key, flags)] and
    [bpf_xdp_adjust_head(ctx, delta)] ([None] when it fails). *)
Class SuEnv (K : Type) : Type := {
  su_redirect_map : su_map → Z → Z → K → Z * K;
  su_adjust_head : Z → mem → K → option mem * K
}.
Class SuEnvLaws (K : Type) `{SuEnv K} : Prop := {
  su_redirect_spec map key k :
    fst (su_redirect_map map key 0 k) = XDP_REDIRECT ∨ fst (su_redirect_map map key 0 k) = XDP_ABORTED;
  (** An Ethernet header must be left. *)
  su_adjust_head_spec n m k : 0 ≤ n →
    fst (su_adjust_head n m k) =
      if n + sizeof_ethhdr <=? Z.of_nat (length m) then Some (drop (Z.to_nat n) m) else None
}.

(** ** [hash_func01.h] *)
Definition schar (b : Z) : Z := if b <? 128 then b else b - 256.
Definition get16bits (d : list Z) : Z := le_val (take 2 d).

Definition sfh_step (data : list Z) (hash : Z) : Z :=
  let hash := u32 (hash + get16bits data) in
  let tmp := Z.lxor (Z.shiftl (get16bits (drop 2 data)) 11) hash in
  let hash := Z.lxor (u32 (Z.shiftl hash 16)) tmp in
  u32 (hash + Z.shiftr hash 11).
(** The main loop over [n] blocks; the rest of the data. *)
Fixpoint sfh_loop (n : nat) (data : list Z) (hash : Z) : list Z * Z :=
  match n with
  | O => (data, hash)
  | S n => sfh_loop n (drop 4 data) (sfh_step data hash)
  end.
Definition sfh_rest (rem : Z) (data : list Z) (hash : Z) : Z :=
  if rem =? 3 then
    let hash := u32 (hash + get16bits data) in
    let hash := Z.lxor hash (u32 (Z.shiftl hash 16)) in
    let hash := Z.lxor hash (u32 (Z.shiftl (schar (nth 2 data 0)) 18)) in
    u32 (hash + Z.shiftr hash 11)
  else if rem =? 2 then
    let hash := u32 (hash + get16bits data) in
    let hash := Z.lxor hash (u32 (Z.shiftl hash 11)) in
    u32 (hash + Z.shiftr hash 17)
  else if rem =? 1 then
    let hash := u32 (hash + schar (nth 0 data 0)) in
    let hash := Z.lxor hash (u32 (Z.shiftl hash 10)) in
    u32 (hash + Z.shiftr hash 1)
  else hash.
Definition sfh_avalanche (hash : Z) : Z :=
  let hash := Z.lxor hash (u32 (Z.shiftl hash 3)) in
  let hash := u32 (hash + Z.shiftr hash 5) in
  let hash := Z.lxor hash (u32 (Z.shiftl hash 4)) in
  let hash := u32 (hash + Z.shiftr hash 17) in
  let hash := Z.lxor hash (u32 (Z.shiftl hash 25)) in
  u32 (hash + Z.shiftr hash 6).
Definition SuperFastHash (data : list Z) (initval : Z) : Z :=
  let len := Z.of_nat (length data) in
  if len <=? 0 then 0
  else
    let '(rest, hash) := sfh_loop (Z.to_nat (Z.shiftr len 2)) data initval in
    sfh_avalanche (sfh_rest (Z.land len 3) rest hash).

(** The hash of a 32-bit variable. *)
Definition hash32 (v initval : Z) : Z := SuperFastHash (le_bytes 4 v) initval.
Definition INITVAL : Z := 15485863.

(** ** Common parts of the XDP programs *)
Definition array_lookup (a : list Z) (i : Z) : option Z := a !! Z.to_nat i.

Section helpers.
Context {K : Type} `{SuEnv K} {R : Type}.

Definition bpf_redirect_map (map : su_map) (key flags : Z) : body (su_state K) R Z :=
  λ s, let '(v, κ) := su_redirect_map map key flags (su_kern s) in
       Next v (s <| redirected ::= cons (map, key) |> <| su_kern := κ |>).

(** Whether it succeeds. *)
Definition bpf_xdp_adjust_head (delta : Z) : body (su_state K) R bool :=
  λ s, match su_adjust_head delta (su_pkt s) (su_kern s) with
       | (Some m, κ) => Next true (s <| su_pkt := m |> <| su_kern := κ |>)
       | (None, κ) => Next false (s <| su_kern := κ |>)
       end.
End helpers.

Section common.
Context {K : Type} `{SuEnv K}.
Abbreviation sbody := (body (su_state K) Z).

(** From the hash to the end; [cpu_max] is the entry of [cpus_count]. *)
Definition to_cpu (cpu_max : option Z) (cpu_hash : Z) : sbody Z :=
  match cpu_max with
  | Some n =>
      if negb (n =? 0) then
        let cpu_dest := cpu_hash mod n in
        let! cpu_selected := gets (λ s, array_lookup (cpus_available s) cpu_dest) in
        let! cpu_dest := or_return cpu_selected XDP_ABORTED in
        bpf_redirect_map cpu_map cpu_dest 0
      else ret XDP_PASS
  | None => ret XDP_PASS
  end.

Definition is_vlan (h_proto : Z) : bool :=
  (h_proto =? bpf_htons VLAN_8021Q) || (h_proto =? bpf_htons VLAN_8021AD).

(** The block for a VLAN header; also the tag, 0 when there is none. *)
Definition vlan_block (h_proto nh_off : Z) : sbody (Z * Z * Z) :=
  if is_vlan h_proto then
    let vhdr := nh_off in
    let nh_off := nh_off + sizeof_vlan_hdr in
    let! oob := past_end nh_off in
    return_if oob XDP_PASS ;;
    let! h_proto := load16 (vhdr + h_vlan_encapsulated_proto) in
    let! tci := load16 (vhdr + h_vlan_TCI) in
    ret (h_proto, nh_off, Z.land tci 0x0fff)
  else ret (h_proto, nh_off, 0).

Definition load_addr6 (off : Z) : sbody addr6 :=
  let! a := load32 off in let! b := load32 (off + 4) in
  let! c := load32 (off + 8) in let! d := load32 (off + 12) in ret (a, b, c, d).
Definition sum_addr6 (src dst : addr6) : Z :=
  let '(a, b, c, d) := src in let '(a', b', c', d') := dst in
  u32 (u32 (u32 (u32 (a + a') + u32 (b + b')) + u32 (c + c')) + u32 (d + d')).
End common.

(** ** [xdp_filter.c] *)

(** The build options at the head of the file. *)
Class FilterBuild : Type := {
  BUILD_CPUMAP : bool; ENCRYPTED_TLS_BYPASS : bool; USE_PERCPU_HASH : bool;
  GOT_TX_PEER : bool; RSS_QUEUE_NUMBERS : Z; VLAN_TRACKING : bool }.

Module Filter.
Section filter.
Context {K : Type} `{SuEnv K} `{FilterBuild}.
Abbreviation sbody := (body (su_state K) Z).

Definition get_sport (trans_data protocol : Z) : func (su_state K) Z := run (
  if protocol =? IPPROTO_TCP then
    let! oob := past_end (trans_data + sizeof_tcphdr) in
    return_if oob (-1) ;; load16 (trans_data + tcp_source)
  else if protocol =? IPPROTO_UDP then
    let! oob := past_end (trans_data + sizeof_udphdr) in
    return_if oob (-1) ;; load16 (trans_data + udp_source)
  else ret 0).
Definition get_dport (trans_data protocol : Z) : func (su_state K) Z := run (
  if protocol =? IPPROTO_TCP then
    let! oob := past_end (trans_data + sizeof_tcphdr) in
    return_if oob (-1) ;; load16 (trans_data + tcp_dest)
  else if protocol =? IPPROTO_UDP then
    let! oob := past_end (trans_data + sizeof_udphdr) in
    return_if oob (-1) ;; load16 (trans_data + udp_dest)
  else ret 0).

Definition count (len : Z) (p : pair) : pair :=
  p <| packets := u64 (packets p + 1) |> <| bytes := u64 (bytes p + len) |>.

(** What is done with a bypassed packet. *)
Definition to_peer : sbody Z :=
  if GOT_TX_PEER then
    let! iface_peer := gets (λ s, array_lookup (tx_peer_int s) 0) in
    match iface_peer with
    | None => ret XDP_DROP
    | Some _ => bpf_redirect_map tx_peer 0 0
    end
  else ret XDP_DROP.

(** [__sync_fetch_and_add(tls_count, 1)]: a [__u32 *] to a value of 64 bits. *)
Definition incr_u32 (v : Z) : Z := v - u32 v + u32 (u32 v + 1).

(** [#if ENCRYPTED_TLS_BYPASS]: with per-CPU tables [tls_count++] moves the
    pointer. *)
Definition tls_bypass (sport dport nh_off : Z) : sbody unit :=
  when ((dport =? bpf_htons 443) || (sport =? bpf_htons 443)) (
    let nh_off := nh_off + sizeof_iphdr + sizeof_tcphdr in
    let! short := gets (λ s, pkt_len s <=? nh_off + 4) in
    when (negb short) (
      let! a0 := load8 nh_off in
      let! a1 := if a0 =? 0x17 then load8 (nh_off + 1) else ret 0 in
      let! a2 := if (a0 =? 0x17) && (a1 =? 0x3) then load8 (nh_off + 2) else ret 0 in
      when ((a0 =? 0x17) && (a1 =? 0x3) && (a2 =? 0x3)) (
        when (negb USE_PERCPU_HASH)
          (modify (λ s, s <| tls_bypass_count ::= alter incr_u32 0%nat |>)) ;;
        let! v := to_peer in return_ v))).

Definition filter_ipv4 (nh_off vlan0 vlan1 : Z) : func (su_state K) Z := run (
  let iph := nh_off in
  let! cpu_max := gets (λ s, array_lookup (cpus_count s) 0) in
  let! oob := past_end (iph + sizeof_iphdr) in
  return_if oob XDP_PASS ;;
  let! protocol := load8 (iph + ip_protocol) in
  let! src := load32 (iph + ip_saddr) in
  let! dst := load32 (iph + ip_daddr) in
  let! dport := call (get_dport (iph + sizeof_iphdr) protocol) in
  return_if (dport =? -1) XDP_PASS ;;
  let! sport := call (get_sport (iph + sizeof_iphdr) protocol) in
  return_if (sport =? -1) XDP_PASS ;;
  let tuple := FlowKeys src dst sport dport (if protocol =? IPPROTO_TCP then 1 else 0) vlan0 vlan1 in
  let! value := gets (λ s, flow_table_v4 s !! tuple) in
  when (bool_decide (is_Some value)) (
    modify (λ s, s <| flow_table_v4 ::= alter (count (pkt_len s)) tuple |>) ;;
    let! v := to_peer in return_ v) ;;
  when ENCRYPTED_TLS_BYPASS (tls_bypass sport dport nh_off) ;;
  let cpu_hash := hash32 (u32 (src + dst)) (INITVAL + protocol) in
  if BUILD_CPUMAP then to_cpu cpu_max cpu_hash
  else
    when (negb (RSS_QUEUE_NUMBERS =? 0))
      (modify (λ s, s <| rx_queue_index := cpu_hash mod RSS_QUEUE_NUMBERS |>)) ;;
    ret XDP_PASS).

Definition filter_ipv6 (nh_off vlan0 vlan1 : Z) : func (su_state K) Z := run (
  let ip6h := nh_off in
  let! cpu_max := gets (λ s, array_lookup (cpus_count s) 0) in
  let! oob := past_end (ip6h + sizeof_ipv6hdr) in
  return_if oob 0 ;;
  let! nexthdr := load8 (ip6h + ip6_nexthdr) in
  return_if (negb ((nexthdr =? IPPROTO_UDP) || (nexthdr =? IPPROTO_TCP))) XDP_PASS ;;
  let! dport := call (get_dport (ip6h + sizeof_ipv6hdr) nexthdr) in
  return_if (dport =? -1) XDP_PASS ;;
  let! sport := call (get_sport (ip6h + sizeof_ipv6hdr) nexthdr) in
  return_if (sport =? -1) XDP_PASS ;;
  let! src := load_addr6 (ip6h + ip6_saddr) in
  let! dst := load_addr6 (ip6h + ip6_daddr) in
  let tuple := FlowKeys src dst sport dport (if nexthdr =? IPPROTO_TCP then 1 else 0) vlan0 vlan1 in
  let! value := gets (λ s, flow_table_v6 s !! tuple) in
  when (bool_decide (is_Some value)) (
    modify (λ s, s <| flow_table_v6 ::= alter (count (pkt_len s)) tuple |>) ;;
    let! v := to_peer in return_ v) ;;
  let cpu_hash := hash32 (sum_addr6 src dst) INITVAL in
  if BUILD_CPUMAP then to_cpu cpu_max cpu_hash
  else
    when (negb (RSS_QUEUE_NUMBERS =? 0))
      (modify (λ s, s <| rx_queue_index := cpu_hash mod RSS_QUEUE_NUMBERS |>)) ;;
    ret XDP_PASS).

Definition xdp_hashfilter : func (su_state K) Z := run (
  let nh_off := sizeof_ethhdr in
  let! oob := past_end nh_off in
  return_if oob XDP_PASS ;;
  let! h_proto := load16 eth_h_proto in
  let! (p, vlan0) := vlan_block h_proto nh_off in
  let '(h_proto, nh_off) := p in
  let! (p, vlan1) := vlan_block h_proto nh_off in
  let '(h_proto, nh_off) := p in
  let vlan0 := if VLAN_TRACKING then vlan0 else 0 in
  let vlan1 := if VLAN_TRACKING then vlan1 else 0 in
  if h_proto =? bpf_htons ETH_P_IP then call (filter_ipv4 nh_off vlan0 vlan1)
  else if h_proto =? bpf_htons ETH_P_IPV6 then call (filter_ipv6 nh_off vlan0 vlan1)
  else ret XDP_PASS).
End filter.
End Filter.

(** ** [xdp_lb.c] *)
Definition GRE_CSUM : Z := bpf_htons 0x8000.
Definition GRE_ROUTING : Z := bpf_htons 0x4000.
Definition GRE_KEY : Z := bpf_htons 0x2000.
Definition GRE_SEQ : Z := bpf_htons 0x1000.
Definition GRE_VERSION : Z := bpf_htons 0x0007.
Definition ETH_P_ERSPAN : Z := 0x88BE.
Definition IPPROTO_GRE : Z := 47.
Definition sizeof_gre_hdr : Z := 4.
Definition gre_flags : Z := 0.
Definition gre_proto : Z := 2.

Module Lb.
Section lb.
Context {K : Type} `{SuEnv K}.

Definition hash_ipv4 (iph : Z) : func (su_state K) Z := run (
  let! oob := past_end (iph + sizeof_iphdr) in
  return_if oob XDP_PASS ;;
  let! cpu_max := gets (λ s, array_lookup (cpus_count s) 0) in
  let! saddr := load32 (iph + ip_saddr) in
  let! daddr := load32 (iph + ip_daddr) in
  to_cpu cpu_max (hash32 (u32 (saddr + daddr)) INITVAL)).

Definition hash_ipv6 (ip6h : Z) : func (su_state K) Z := run (
  let! oob := past_end (ip6h + sizeof_ipv6hdr) in
  return_if oob XDP_PASS ;;
  let! cpu_max := gets (λ s, array_lookup (cpus_count s) 0) in
  let! saddr := load_addr6 (ip6h + ip6_saddr) in
  let! daddr := load_addr6 (ip6h + ip6_daddr) in
  to_cpu cpu_max (hash32 (sum_addr6 saddr daddr) INITVAL)).

(** The length of the tunnel headers behind the IP header. *)
Definition gre_len (flags proto : Z) : Z :=
  4 + (if has_flag flags GRE_CSUM then 4 else 0) + (if has_flag flags GRE_KEY then 4 else 0)
  + (if has_flag flags GRE_SEQ then 4 else 0) + (if proto =? bpf_htons ETH_P_ERSPAN then 8 else 0).

Definition filter_gre (nh_off : Z) : func (su_state K) Z := run (
  let grhdr := nh_off + sizeof_iphdr in
  let! oob := past_end (grhdr + sizeof_gre_hdr) in
  return_if oob XDP_PASS ;;
  let! flags := load16 (grhdr + gre_flags) in
  return_if (has_flag flags (Z.lor GRE_VERSION GRE_ROUTING)) XDP_PASS ;;
  let! proto := load16 (grhdr + gre_proto) in
  let nh_off := nh_off + sizeof_iphdr + gre_len flags proto in
  let! oob := past_end nh_off in
  return_if oob XDP_PASS ;;
  let! done := bpf_xdp_adjust_head nh_off in
  return_if (negb done) XDP_PASS ;;
  let! proto := load16 eth_h_proto in
  let nh_off := sizeof_ethhdr in
  let! oob := past_end nh_off in
  return_if oob XDP_PASS ;;
  let! p :=
    if proto =? bpf_htons VLAN_8021Q then
      let vhdr := nh_off in
      let! oob := past_end (vhdr + sizeof_vlan_hdr) in
      return_if oob XDP_PASS ;;
      let! proto := load16 (vhdr + h_vlan_encapsulated_proto) in
      ret (proto, nh_off + sizeof_vlan_hdr)
    else ret (proto, nh_off) in
  let '(proto, nh_off) := p in
  let! oob := past_end nh_off in
  return_if oob XDP_PASS ;;
  if proto =? bpf_htons ETH_P_IP then call (hash_ipv4 nh_off)
  else if proto =? bpf_htons ETH_P_IPV6 then call (hash_ipv6 nh_off)
  else ret XDP_PASS).

Definition filter_ipv4 (nh_off : Z) : func (su_state K) Z := run (
  let iph := nh_off in
  let! oob := past_end (iph + sizeof_iphdr) in
  return_if oob XDP_PASS ;;
  let! protocol := load8 (iph + ip_protocol) in
  if protocol =? IPPROTO_GRE then call (filter_gre nh_off) else call (hash_ipv4 nh_off)).

Definition filter_ipv6 (nh_off : Z) : func (su_state K) Z := hash_ipv6 nh_off.

Definition xdp_loadfilter : func (su_state K) Z := run (
  let nh_off := sizeof_ethhdr in
  let! oob := past_end nh_off in
  return_if oob XDP_PASS ;;
  let! h_proto := load16 eth_h_proto in
  let! (p, _) := vlan_block h_proto nh_off in
  let '(h_proto, nh_off) := p in
  let! (p, _) := vlan_block h_proto nh_off in
  let '(h_proto, nh_off) := p in
  if h_proto =? bpf_htons ETH_P_IP then call (filter_ipv4 nh_off)
  else if h_proto =? bpf_htons ETH_P_IPV6 then call (filter_ipv6 nh_off)
  else ret XDP_PASS).
End lb.
End Lb.

(** ** The socket filters

    [load_byte], [load_half] and [load_word] convert from network order; an
    access outside the packet ends the program with result 0. *)
Section loads.
Context {K : Type}.
Abbreviation sbody := (body (su_state K) Z).
Definition load_be (n : nat) (off : Z) : sbody Z :=
  λ s, match peek off n (su_pkt s) with
       | Some bs => Next (le_val (reverse bs)) s
       | None => Return 0 s
       end.
Definition load_byte : Z → sbody Z := load_be 1.
Definition load_half : Z → sbody Z := load_be 2.
Definition load_word : Z → sbody Z := load_be 4.
End loads.

Definition is_vlan_host (proto : Z) : bool := (proto =? VLAN_8021AD) || (proto =? VLAN_8021Q).
Definition ETH_HLEN : Z := 14.
Definition ETH_TLEN : Z := 2.

(** [lb.c] *)
Module Fanout.
Section fanout.
Context {K : Type}.
Abbreviation sbody := (body (su_state K) Z).

Definition ipv4_hash : sbody Z :=
  let! nhoff := gets cb0 in
  let! src := load_word (nhoff + ip_saddr) in
  let! dst := load_word (nhoff + ip_daddr) in
  ret (u32 (src + dst)).

Definition ipv6_addr_hash (off : Z) : sbody Z :=
  let! w0 := load_word off in
  let! w1 := load_word (off + 4) in
  let! w2 := load_word (off + 8) in
  let! w3 := load_word (off + 12) in
  ret (Z.lxor (Z.lxor (Z.lxor w0 w1) w2) w3).

Definition ipv6_hash : sbody Z :=
  let! nhoff := gets cb0 in
  let! src_hash := ipv6_addr_hash (nhoff + ip6_saddr) in
  let! dst_hash := ipv6_addr_hash (nhoff + ip6_daddr) in
  ret (u32 (src_hash + dst_hash)).

(** The hashes are [int]; [ret_] is a [__u16]. *)
Definition lb : func (su_state K) Z := run (
  let nhoff := ETH_HLEN in
  let! proto := load_half (ETH_HLEN - ETH_TLEN) in
  let ret_ := proto in
  if is_vlan_host proto then
    let! vproto := load_half (nhoff + h_vlan_encapsulated_proto) in
    let! p :=
      if is_vlan_host vproto then
        let nhoff := nhoff + sizeof_vlan_hdr in
        let! proto := load_half (nhoff + h_vlan_encapsulated_proto) in
        ret (proto, nhoff)
      else ret (vproto, nhoff) in
    let '(proto, nhoff) := p in
    let nhoff := nhoff + sizeof_vlan_hdr in
    modify (λ s, s <| cb0 := nhoff |>) ;;
    if proto =? ETH_P_IP then let! h := ipv4_hash in ret (u16 h)
    else if proto =? ETH_P_IPV6 then let! h := ipv6_hash in ret (u16 h)
    else ret ret_
  else if proto =? ETH_P_IP then let! h := ipv4_hash in ret (u16 h)
  else if proto =? ETH_P_IPV6 then let! h := ipv6_hash in ret (u16 h)
  else ret ret_).
End fanout.
End Fanout.

(** [bypass_filter.c]: 0 drops the packet, -1 accepts it. *)
Module Bypass.
Section bypass.
Context {K : Type}.
Abbreviation sbody := (body (su_state K) Z).

(** [tuple.ports] is read as one word, whose halves are then swapped. *)
Definition load_ports (off : Z) : sbody (Z * Z) :=
  let! ports := load_word off in
  let port16_0 := u16 ports in
  let port16_1 := Z.shiftr ports 16 in
  ret (port16_1, port16_0).

Definition ipv4_filter (vlan0 vlan1 : Z) : func (su_state K) Z := run (
  let! nhoff := gets cb0 in
  let! proto := load_byte (nhoff + ip_protocol) in
  return_if (negb ((proto =? IPPROTO_TCP) || (proto =? IPPROTO_UDP))) (-1) ;;
  let! src := load_word (nhoff + ip_saddr) in
  let! dst := load_word (nhoff + ip_daddr) in
  let! verlen := load_byte (nhoff + 0) in
  let nhoff := nhoff + Z.shiftl (Z.land verlen 0xF) 2 in
  let! (port0, port1) := load_ports nhoff in
  let tuple := FlowKeys src dst port0 port1 (if proto =? IPPROTO_TCP then 1 else 0) vlan0 vlan1 in
  let! value := gets (λ s, flow_table_v4 s !! tuple) in
  when (bool_decide (is_Some value)) (
    modify (λ s, s <| flow_table_v4 ::= alter (Filter.count (pkt_len s)) tuple |>) ;;
    return_ 0) ;;
  ret (-1)).

Definition load_addr6_be (off : Z) : sbody addr6 :=
  let! a := load_word off in let! b := load_word (off + 4) in
  let! c := load_word (off + 8) in let! d := load_word (off + 12) in ret (a, b, c, d).

Definition ipv6_filter (vlan0 vlan1 : Z) : func (su_state K) Z := run (
  let! nhoff := gets cb0 in
  let! nhdr := load_byte (nhoff + ip6_nexthdr) in
  return_if (negb ((nhdr =? IPPROTO_TCP) || (nhdr =? IPPROTO_UDP))) (-1) ;;
  let! src := load_addr6_be (nhoff + ip6_saddr) in
  let! dst := load_addr6_be (nhoff + ip6_daddr) in
  let! (port0, port1) := load_ports (nhoff + 40) in
  let tuple := FlowKeys src dst port0 port1 (if nhdr =? IPPROTO_TCP then 1 else 0) vlan0 vlan1 in
  let! value := gets (λ s, flow_table_v6 s !! tuple) in
  when (bool_decide (is_Some value)) (
    modify (λ s, s <| flow_table_v6 ::= alter (Filter.count (pkt_len s)) tuple |>) ;;
    return_ 0) ;;
  ret (-1)).

Definition hashfilter : func (su_state K) Z := run (
  let nhoff := ETH_HLEN in
  let! proto := load_half eth_h_proto in
  let! tci := gets vlan_tci in
  let vlan0 := Z.land tci 0x0fff in
  let! p :=
    if is_vlan_host proto then
      let! proto := load_half (nhoff + h_vlan_encapsulated_proto) in
      let! tci := load_half (nhoff + h_vlan_TCI) in
      ret (proto, Z.land tci 0x0fff, nhoff + sizeof_vlan_hdr)
    else ret (proto, 0, nhoff) in
  let '(proto, vlan1, nhoff) := p in
  modify (λ s, s <| cb0 := nhoff |>) ;;
  if proto =? ETH_P_IP then call (ipv4_filter vlan0 vlan1)
  else if proto =? ETH_P_IPV6 then call (ipv6_filter vlan0 vlan1)
  else ret (-1)).
End bypass.
End Bypass.

(** [filter.c] *)
Module Drop.
Section drop.
Context {K : Type}.

(** The lookup of an address; [value] is a [__u32]. *)
Definition drop_listed (ip : Z) : body (su_state K) Z unit :=
  let! value := gets (λ s, ipv4_drop s !! ip) in
  when (bool_decide (is_Some value)) (
    modify (λ s, s <| ipv4_drop ::= alter (λ v, u32 (v + 1)) ip |>) ;; return_ 0).

Definition ipv4_filter : func (su_state K) Z := run (
  let! nhoff := gets cb0 in
  let! ip := load_word (nhoff + ip_saddr) in
  drop_listed ip ;;
  let! ip := load_word (nhoff + ip_daddr) in
  drop_listed ip ;;
  ret (-1)).
Definition ipv6_filter : func (su_state K) Z := run (ret (-1)).

Definition hashfilter : func (su_state K) Z := run (
  let nhoff := ETH_HLEN in
  let! proto := load_half eth_h_proto in
  let! p :=
    if is_vlan_host proto then
      let! proto := load_half (nhoff + h_vlan_encapsulated_proto) in
      ret (proto, nhoff + sizeof_vlan_hdr)
    else ret (proto, nhoff) in
  let '(proto, nhoff) := p in
  modify (λ s, s <| cb0 := nhoff |>) ;;
  if proto =? ETH_P_IP then call ipv4_filter
  else if proto =? ETH_P_IPV6 then call ipv6_filter
  else ret (-1)).
End drop.
End Drop.

(** [vlan_filter.c] *)
Module Vlan.
Definition hashfilter {K} : func (su_state K) Z := run (
  let! tci := gets vlan_tci in
  let vlan_id := Z.land tci 0x0fff in
  if (vlan_id =? 2) || (vlan_id =? 4) then ret (-1) else ret 0).
End Vlan.
