(* ===== verification/SuricataSpec.v ===== *)
(** * Suricata's packet filters: load balancing and safety

    Packets as values, with VLAN tags and in GRE and ERSPAN tunnels; which CPU
    [xdp_lb.c] sends them to; memory safety of the XDP programs. *)
From S2P Require Import Prelude Records Words Consts Suricata.
Open Scope c_scope.

(** ** Packets *)
Record tag : Type := Tag { tpid : Z; tci : Z }.
(** The header of IP version 4, without options, or 6. *)
Inductive ip_hdr := Ip4 (h : list Z) | Ip6 (h : list Z).
Record packet : Type := Packet {
  macs : list Z; tags : list tag; ip : ip_hdr; payload : list Z }.

Definition ip_bytes (h : ip_hdr) : list Z := match h with Ip4 h | Ip6 h => h end.
Definition ethertype (h : ip_hdr) : Z := match h with Ip4 _ => ETH_P_IP | Ip6 _ => ETH_P_IPV6 end.
Definition tag_bytes (t : tag) : list Z := le_bytes 2 (tpid t) ++ le_bytes 2 (tci t).
Definition l2_bytes (p : packet) : list Z :=
  macs p ++ concat (map tag_bytes (tags p)) ++ le_bytes 2 (bpf_htons (ethertype (ip p))).
Definition encode (p : packet) : list Z := l2_bytes p ++ ip_bytes (ip p) ++ payload p.

Definition ip_ok (h : ip_hdr) : Prop :=
  match h with
  | Ip4 h => length h = 20%nat ∧ bytes_ok h
  | Ip6 h => length h = 40%nat ∧ bytes_ok h
  end.
Definition tag_ok (t : tag) : Prop := is_vlan (tpid t) = true ∧ 0 ≤ tci t < 2 ^ 16.
Record packet_ok (p : packet) : Prop := {
  pk_macs : length (macs p) = 12%nat; pk_tags : (length (tags p) ≤ 2)%nat;
  pk_tag : Forall tag_ok (tags p); pk_ip : ip_ok (ip p); pk_bytes : bytes_ok (payload p) }.

(** Fields of the headers, as the code loads them. *)
Definition field (off n : nat) (h : list Z) : Z := le_val (slice off n h).
Definition addr6_at (off : nat) (h : list Z) : addr6 :=
  (field off 4 h, field (off + 4) 4 h, field (off + 8) 4 h, field (off + 12) 4 h).
Definition protocol (h : ip_hdr) : Z :=
  match h with Ip4 h => field 9 1 h | Ip6 h => field 6 1 h end.

(** The addresses. *)
Inductive hosts := Hosts4 (a b : Z) | Hosts6 (a b : addr6).
Definition hosts_of (h : ip_hdr) : hosts :=
  match h with
  | Ip4 h => Hosts4 (field 12 4 h) (field 16 4 h)
  | Ip6 h => Hosts6 (addr6_at 8 h) (addr6_at 24 h)
  end.
Definition swap_hosts (h : hosts) : hosts :=
  match h with Hosts4 a b => Hosts4 b a | Hosts6 a b => Hosts6 b a end.
Definition hosts_sum (h : hosts) : Z :=
  match h with Hosts4 a b => u32 (a + b) | Hosts6 a b => sum_addr6 a b end.

Lemma hosts_sum_swap h : hosts_sum (swap_hosts h) = hosts_sum h.
Proof.
  destruct h as [a b|[[[a1 a2] a3] a4] [[[b1 b2] b3] b4]]; cbn; [by rewrite Z.add_comm|].
  by rewrite (Z.add_comm b1), (Z.add_comm b2), (Z.add_comm b3), (Z.add_comm b4).
Qed.

(** ** Loads *)
Section loads.
Context {K : Type}.
Implicit Types (s : su_state K) (QR : Z → su_state K → Prop).

Lemma wp_load_at {R} n off pre h post (QR : R → su_state K → Prop) (QN : Z → su_state K → Prop) s k :
  su_pkt s = pre ++ h ++ post → off = Z.of_nat (length pre + k) → (k + n ≤ length h)%nat →
  QN (field k n h) s → wpb (load n off) QR QN s.
Proof.
  intros E -> Hk HQ. apply wp_load; [lia| |].
  - unfold pkt_len. change (get_pkt s) with (su_pkt s). rewrite E, !length_app. lia.
  - change (get_pkt s) with (su_pkt s). rewrite E, Nat2Z.id, slice_region by done. exact HQ.
Qed.

Lemma not_past_end e s pre h post :
  su_pkt s = pre ++ h ++ post → e ≤ Z.of_nat (length (pre ++ h)) → (pkt_len s <? e) = false.
Proof.
  intros E He. apply Z.ltb_ge. unfold pkt_len. change (get_pkt s) with (su_pkt s).
  rewrite E, !length_app in *. lia.
Qed.

(** The Ethernet header and the VLAN tags. *)
Definition first_proto (p : packet) : Z :=
  match tags p with [] => bpf_htons (ethertype (ip p)) | t :: _ => tpid t end.
Definition vlan_of (p : packet) (i : nat) : Z :=
  match tags p !! i with Some t => Z.land (tci t) 0x0fff | None => 0 end.

Lemma ethertype_not_vlan h : is_vlan (bpf_htons (ethertype h)) = false.
Proof. by destruct h. Qed.
Lemma su_ethertype_range h : 0 ≤ bpf_htons (ethertype h) < 2 ^ 16.
Proof. by destruct h. Qed.
Lemma tpid_range t : tag_ok t → 0 ≤ tpid t < 2 ^ 16.
Proof.
  intros [Ht _]. unfold is_vlan in Ht. apply orb_true_iff in Ht as [E%Z.eqb_eq|E%Z.eqb_eq]; by rewrite E.
Qed.
Lemma field_le n v : 0 ≤ v < 256 ^ Z.of_nat n → field 0 n (le_bytes n v) = v.
Proof.
  intros Hv. unfold field, slice. rewrite drop_0, take_ge by (by rewrite length_le_bytes).
  rewrite le_val_bytes. by apply Z.mod_small.
Qed.

Lemma wp_no_vlan h nh (QR : Z → su_state K → Prop) QN s :
  is_vlan h = false → QN (h, nh, 0) s → wpb (vlan_block h nh) QR QN s.
Proof. intros Hv HQ. unfold vlan_block. rewrite Hv. by apply wp_ret. Qed.

Lemma wp_vlan t pre next post nh (QR : Z → su_state K → Prop) QN s :
  su_pkt s = pre ++ tag_bytes t ++ le_bytes 2 next ++ post → tag_ok t → 0 ≤ next < 2 ^ 16 →
  nh = Z.of_nat (length pre) + 2 → QN (next, nh + 4, Z.land (tci t) 0x0fff) s →
  wpb (vlan_block (tpid t) nh) QR QN s.
Proof.
  intros E [Hv Ht] Hn -> HQ. unfold vlan_block. rewrite Hv. unfold tag_bytes in E.
  rewrite <-!app_assoc in E. apply wp_bind, wp_past_end, wp_bind, wp_return_if.
  { unfold pkt_len. change (get_pkt s) with (su_pkt s). rewrite E, !length_app.
    rewrite !length_le_bytes. unfold sizeof_vlan_hdr. intros Hl%Z.ltb_lt. lia. }
  intros _. apply wp_bind.
  assert (su_pkt s = (pre ++ le_bytes 2 (tpid t) ++ le_bytes 2 (tci t)) ++ le_bytes 2 next ++ post) as E1
    by (by rewrite E, <-!app_assoc).
  eapply (wp_load_at 2 _ _ _ _ _ _ s 0 E1);
    [rewrite !length_app, !length_le_bytes; unfold h_vlan_encapsulated_proto; lia|done|].
  rewrite field_le by done. apply wp_bind.
  assert (su_pkt s = (pre ++ le_bytes 2 (tpid t)) ++ le_bytes 2 (tci t) ++ le_bytes 2 next ++ post) as E2
    by (by rewrite E, <-!app_assoc).
  eapply (wp_load_at 2 _ _ _ _ _ _ s 0 E2);
    [rewrite !length_app, !length_le_bytes; unfold h_vlan_TCI; lia|done|].
  rewrite field_le by done. apply wp_ret, HQ.
Qed.

Lemma wp_tags {A} p post (k : Z → Z → Z → Z → body (su_state K) Z A) QR QN s :
  su_pkt s = l2_bytes p ++ post → packet_ok p →
  wpb (k (bpf_htons (ethertype (ip p))) (Z.of_nat (length (l2_bytes p))) (vlan_of p 0) (vlan_of p 1)) QR QN s →
  wpb (let! (q, v0) := vlan_block (first_proto p) sizeof_ethhdr in
       let '(h, n) := q in
       let! (q, v1) := vlan_block h n in
       let '(h, n) := q in k h n v0 v1) QR QN s.
Proof.
  intros E [Hm Hl Ht _ _] HQ. pose proof (ethertype_not_vlan (ip p)) as Hv.
  pose proof (su_ethertype_range (ip p)) as Hr.
  unfold l2_bytes, first_proto, vlan_of in *. rewrite !length_app, length_le_bytes, Hm in HQ.
  destruct (tags p) as [|t [|u [|]]]; cbn in Hl; try lia; cbn [map concat lookup list_lookup] in *.
  - apply wp_bind, wp_no_vlan; [done|]. apply wp_bind, wp_no_vlan; [done|]. exact HQ.
  - inversion_clear Ht as [|?? Ht1 _]. rewrite app_nil_r in *. apply wp_bind.
    eapply (wp_vlan _ (macs p)); [by rewrite E, <-!app_assoc|done|done|by rewrite Hm|].
    apply wp_bind, wp_no_vlan; [done|]. exact HQ.
  - inversion_clear Ht as [|?? Ht1 Ht2]. inversion_clear Ht2 as [|?? Ht3 _].
    pose proof (tpid_range u Ht3). rewrite app_nil_r in *. apply wp_bind.
    eapply (wp_vlan _ (macs p) (tpid u)); [rewrite E; unfold tag_bytes; by rewrite <-!app_assoc|done|done|by rewrite Hm|].
    apply wp_bind. eapply (wp_vlan _ (macs p ++ tag_bytes t)); [by rewrite E, <-!app_assoc|done|done|by rewrite length_app, Hm|].
    exact HQ.
Qed.

Lemma wp_h_proto {R} p post (QR : R → su_state K → Prop) QN s :
  su_pkt s = l2_bytes p ++ post → packet_ok p → QN (first_proto p) s →
  wpb (load16 eth_h_proto) QR QN s.
Proof.
  intros E [Hm _ Ht _ _] HQ.
  assert (∃ post', su_pkt s = macs p ++ le_bytes 2 (first_proto p) ++ post' ∧
            0 ≤ first_proto p < 2 ^ 16) as (post' & E' & Hr).
  { unfold first_proto, l2_bytes in *. destruct (tags p) as [|t ts]; cbn [map concat] in E.
    - exists post. split; [by rewrite E, <-!app_assoc|apply su_ethertype_range].
    - inversion_clear Ht as [|?? Ht1 _]. unfold tag_bytes at 1 in E. rewrite <-!app_assoc in E.
      eexists. split; [exact E|by apply tpid_range]. }
  eapply (wp_load_at 2 _ _ _ _ _ _ s 0 E'); [by rewrite Hm|done|]. by rewrite field_le.
Qed.

Lemma length_l2 p : packet_ok p → (14 ≤ length (l2_bytes p))%nat.
Proof. intros [Hm _ _ _ _]. unfold l2_bytes. rewrite !length_app, length_le_bytes, Hm. lia. Qed.
End loads.

(** ** Tunnels *)
Record gre : Type := Gre { g_flags : Z; g_proto : Z; g_opts : list Z }.
Definition gre_bytes (g : gre) : list Z := le_bytes 2 (g_flags g) ++ le_bytes 2 (g_proto g) ++ g_opts g.
Record gre_ok (g : gre) : Prop := {
  gr_flags : 0 ≤ g_flags g < 2 ^ 16; gr_proto : 0 ≤ g_proto g < 2 ^ 16;
  gr_plain : has_flag (g_flags g) (Z.lor GRE_VERSION GRE_ROUTING) = false;
  gr_len : 4 + Z.of_nat (length (g_opts g)) = Lb.gre_len (g_flags g) (g_proto g) }.

Definition is_gre (h : ip_hdr) : bool :=
  match h with Ip4 h => field 9 1 h =? IPPROTO_GRE | Ip6 _ => false end.
(** The load balancer skips one 802.1Q tag inside a tunnel. *)
Definition inner_ok (p : packet) : Prop :=
  packet_ok p ∧ (length (tags p) ≤ 1)%nat ∧ Forall (λ t, tpid t = bpf_htons VLAN_8021Q) (tags p).

(** The bytes [m] carry the packet [p]: as it is, or in a GRE tunnel. *)
Inductive carries : list Z → packet → Prop :=
| carries_plain p : packet_ok p → is_gre (ip p) = false → carries (encode p) p
| carries_gre o g p : packet_ok o → is_gre (ip o) = true → gre_ok g → inner_ok p →
    payload o = gre_bytes g ++ encode p → carries (encode o) p.

(** ** The CPU of a packet *)
Definition hosts_hash (h : hosts) : Z := hash32 (hosts_sum h) INITVAL.
Definition cpu_for {K} (s : su_state K) (hash : Z) : option Z :=
  match array_lookup (cpus_count s) 0 with
  | Some n => if n =? 0 then None else array_lookup (cpus_available s) (hash mod n)
  | None => None
  end.
Definition verdict_for {K} (s : su_state K) (hash v : Z) : Prop :=
  match cpu_for s hash with
  | Some _ => v = XDP_REDIRECT ∨ v = XDP_ABORTED
  | None => v = match array_lookup (cpus_count s) 0 with
                | Some n => if n =? 0 then XDP_PASS else XDP_ABORTED
                | None => XDP_PASS
                end
  end.
Definition sent_to (cpu : option Z) : list (su_map * Z) :=
  match cpu with Some c => [(cpu_map, c)] | None => [] end.

#[local] Opaque hash32.

Section lb.
Context {K : Type} `{SuEnvLaws K}.
Implicit Types (s : su_state K) (Q : Z → su_state K → Prop).

Lemma wp_to_cpu hash QR (QN : Z → su_state K → Prop) s :
  (∀ v κ, verdict_for s hash v →
     let s' := s <| redirected ::= app (sent_to (cpu_for s hash)) |> <| su_kern := κ |> in
     QN v s' ∧ QR v s') →
  wpb (to_cpu (array_lookup (cpus_count s) 0) hash) QR QN s.
Proof.
  intros HQ. unfold to_cpu, verdict_for, cpu_for in *.
  assert (s = s <| redirected ::= app [] |> <| su_kern := su_kern s |>) as Es by (by destruct s).
  destruct (array_lookup (cpus_count s) 0) as [n|].
  2: { apply wp_ret. rewrite Es. by apply HQ. }
  destruct (n =? 0); cbn [negb].
  { apply wp_ret. rewrite Es. by apply HQ. }
  apply wp_bind, wp_gets, wp_bind. destruct (array_lookup (cpus_available s) (hash mod n)) as [c|].
  - apply (wp_or_return (Some c)); [done|]. intros ? [= <-]. unfold wpb, bpf_redirect_map.
    pose proof (su_redirect_spec cpu_map c (su_kern s)) as Hv.
    destruct (su_redirect_map cpu_map c 0 (su_kern s)) as [v κ]. by apply (HQ v κ).
  - apply wp_or_return; [intros _|done]. rewrite Es. by apply HQ.
Qed.

Lemma wp_load_addr6 off pre h post k QR (QN : addr6 → su_state K → Prop) s :
  su_pkt s = pre ++ h ++ post → off = Z.of_nat (length pre + k) → (k + 16 ≤ length h)%nat →
  QN (addr6_at k h) s → wpb (load_addr6 off) QR QN s.
Proof.
  intros E -> Hk HQ. unfold load_addr6.
  apply wp_bind, (wp_load_at 4 _ _ _ _ _ _ s k E); [lia|lia|].
  apply wp_bind, (wp_load_at 4 _ _ _ _ _ _ s (k + 4) E); [lia|lia|].
  apply wp_bind, (wp_load_at 4 _ _ _ _ _ _ s (k + 8) E); [lia|lia|].
  apply wp_bind, (wp_load_at 4 _ _ _ _ _ _ s (k + 12) E); [lia|lia|]. by apply wp_ret.
Qed.

(** The verdict and the calls of [bpf_redirect_map] for a packet to [h]. *)
Definition sent_by_hash s (h : hosts) Q : Prop :=
  ∀ v κ, verdict_for s (hosts_hash h) v →
    Q v (s <| redirected ::= app (sent_to (cpu_for s (hosts_hash h))) |> <| su_kern := κ |>).

Lemma wp_hash_ip h off pre post Q s :
  su_pkt s = pre ++ ip_bytes h ++ post → ip_ok h → off = Z.of_nat (length pre) →
  sent_by_hash s (hosts_of h) Q →
  wpf (match h with Ip4 _ => Lb.hash_ipv4 off | Ip6 _ => Lb.hash_ipv6 off end) Q s.
Proof.
  intros E Hh -> HQ. destruct h as [h|h]; destruct Hh as [Hl _];
    apply wp_run, wp_bind, wp_past_end, wp_bind, wp_return_if; cbn [ip_bytes] in E;
    rewrite (not_past_end _ _ _ _ _ E) by (rewrite length_app, Hl; unfold sizeof_iphdr, sizeof_ipv6hdr; lia);
    try done; intros _; apply wp_bind, wp_gets.
  - apply wp_bind, (wp_load_at 4 _ _ _ _ _ _ s 12 E); [unfold ip_saddr; lia|lia|].
    apply wp_bind, (wp_load_at 4 _ _ _ _ _ _ s 16 E); [unfold ip_daddr; lia|lia|].
    apply wp_to_cpu. intros v κ Hv. split; by apply HQ.
  - apply wp_bind, (wp_load_addr6 _ _ _ _ 8 _ _ s E); [unfold ip6_saddr; lia|lia|].
    apply wp_bind, (wp_load_addr6 _ _ _ _ 24 _ _ s E); [unfold ip6_daddr; lia|lia|].
    apply wp_to_cpu. intros v κ Hv. split; by apply HQ.
Qed.

Lemma wp_dispatch h (f4 f6 : func (su_state K) Z) (QR QN : Z → su_state K → Prop) s :
  wpf (match h with Ip4 _ => f4 | Ip6 _ => f6 end) QN s →
  wpb (if bpf_htons (ethertype h) =? bpf_htons ETH_P_IP then call f4
       else if bpf_htons (ethertype h) =? bpf_htons ETH_P_IPV6 then call f6
       else ret XDP_PASS) QR QN s.
Proof. intros Hf. destruct h; by apply wp_call. Qed.

Lemma wp_pop_head n m post Q (k : bool → body (su_state K) Z Z) s :
  su_pkt s = m ++ post → n = Z.of_nat (length m) → (14 ≤ length post)%nat →
  (∀ κ, wpb (k true) Q Q (s <| su_pkt := post |> <| su_kern := κ |>)) →
  wpb (let! d := bpf_xdp_adjust_head n in k d) Q Q s.
Proof.
  intros E -> Hl HQ. apply wp_bind. unfold wpb, bpf_xdp_adjust_head.
  pose proof (su_adjust_head_spec (Z.of_nat (length m)) (su_pkt s) (su_kern s) ltac:(lia)) as Ha.
  rewrite (proj2 (Z.leb_le _ _)) in Ha
    by (rewrite E, length_app; unfold sizeof_ethhdr; lia).
  rewrite E, Nat2Z.id, drop_app_length in Ha. rewrite E.
  destruct (su_adjust_head _ _ _) as [o κ]. cbn [fst] in Ha. subst o. apply HQ.
Qed.

(** The packet at the beginning of [k]'s frame: Ethernet, a tag, IP. *)
Lemma wp_inner p Q s :
  su_pkt s = encode p → inner_ok p → sent_by_hash s (hosts_of (ip p)) Q →
  wpb (
    let! proto := load16 eth_h_proto in
    let nh_off := sizeof_ethhdr in
    let! oob := past_end nh_off in
    return_if oob XDP_PASS ;;
    let! p :=
      if proto =? bpf_htons VLAN_8021Q then
        let vhdr := nh_off in
        let! oob := past_end (vhdr + sizeof_vlan_hdr) in
        return_if oob XDP_PASS ;;
        let! proto := load16 (vhdr + h_vlan_encapsulated_proto) in
        ret (proto, nh_off + sizeof_vlan_hdr)
      else ret (proto, nh_off) in
    let '(proto, nh_off) := p in
    let! oob := past_end nh_off in
    return_if oob XDP_PASS ;;
    if proto =? bpf_htons ETH_P_IP then call (Lb.hash_ipv4 nh_off)
    else if proto =? bpf_htons ETH_P_IPV6 then call (Lb.hash_ipv6 nh_off)
    else ret XDP_PASS) Q Q s.
Proof.
  intros E (Hok & Hl & Hq) HQ. pose proof (length_l2 p Hok) as H14. pose proof Hok as [Hm _ Ht Hip _].
  apply wp_bind, (wp_h_proto p _ _ _ _ E Hok). cbv zeta.
  assert (pkt_len s = Z.of_nat (length (l2_bytes p)) + Z.of_nat (length (ip_bytes (ip p) ++ payload p))) as Hlen.
  { unfold pkt_len. change (get_pkt s) with (su_pkt s). rewrite E. unfold encode. rewrite length_app. lia. }
  apply wp_bind, wp_past_end, wp_bind, wp_return_if.
  { rewrite Hlen. unfold sizeof_ethhdr. intros Hlt%Z.ltb_lt. lia. }
  intros _.
  assert (∀ n, n = Z.of_nat (length (l2_bytes p)) → wpb (
    let! oob := past_end n in return_if oob XDP_PASS ;;
    if bpf_htons (ethertype (ip p)) =? bpf_htons ETH_P_IP then call (Lb.hash_ipv4 n)
    else if bpf_htons (ethertype (ip p)) =? bpf_htons ETH_P_IPV6 then call (Lb.hash_ipv6 n)
    else ret XDP_PASS) Q Q s) as W.
  { intros n ->. apply wp_bind, wp_past_end, wp_bind, wp_return_if.
    { rewrite Hlen. intros Hlt%Z.ltb_lt. lia. }
    intros _. apply wp_dispatch. by eapply wp_hash_ip. }
  unfold encode, l2_bytes, first_proto in *. rewrite <-!app_assoc in E.
  destruct (tags p) as [|t [|]]; cbn in Hl; [| |lia]; cbn [map concat] in *.
  - assert ((bpf_htons (ethertype (ip p)) =? bpf_htons VLAN_8021Q) = false) as -> by (by destruct (ip p)).
    apply wp_bind, wp_ret, W. rewrite !length_app, Hm. done.
  - apply Forall_cons in Hq as [Hq _]. rewrite Hq, Z.eqb_refl. apply wp_bind, wp_bind, wp_past_end.
    apply wp_bind, wp_return_if.
    { rewrite Hlen, !length_app, Hm. cbn. unfold sizeof_ethhdr, sizeof_vlan_hdr. intros Hlt%Z.ltb_lt. lia. }
    intros _. rewrite app_nil_r in E. apply wp_bind.
    assert (su_pkt s = (macs p ++ tag_bytes t) ++ le_bytes 2 (bpf_htons (ethertype (ip p))) ++
      ip_bytes (ip p) ++ payload p) as E1 by (by rewrite E, <-!app_assoc).
    apply (wp_load_at 2 _ _ _ _ _ _ s 0 E1);
      [rewrite length_app, Hm; cbn; done|done|].
    rewrite field_le by apply su_ethertype_range. apply wp_ret, W.
    rewrite !length_app, Hm. done.
Qed.

Lemma sent_by_hash_pkt s m κ h Q :
  sent_by_hash (s <| su_pkt := m |> <| su_kern := κ |>) h Q ↔
  ∀ v κ', verdict_for s (hosts_hash h) v →
    Q v (s <| su_pkt := m |> <| redirected ::= app (sent_to (cpu_for s (hosts_hash h))) |>
           <| su_kern := κ' |>).
Proof. split; intros HQ v κ' Hv; exact (HQ v κ' Hv). Qed.

Lemma wp_gre o g p Q s :
  su_pkt s = encode o → packet_ok o → is_gre (ip o) = true → gre_ok g → inner_ok p →
  payload o = gre_bytes g ++ encode p →
  (∀ κ, sent_by_hash (s <| su_pkt := encode p |> <| su_kern := κ |>) (hosts_of (ip p)) Q) →
  wpf (Lb.filter_gre (Z.of_nat (length (l2_bytes o)))) Q s.
Proof.
  intros E [_ _ _ Hip _] Hg [Hf Hp Hpl Hlen] Hin Epl HQ. destruct (ip o) as [h|h] eqn:Eo; [|done].
  destruct Hip as [Hh _]. unfold encode in E. rewrite Eo, Epl in E. cbn [ip_bytes] in E.
  unfold gre_bytes in E. rewrite <-!app_assoc in E.
  set (nh := Z.of_nat (length (l2_bytes o))).
  assert (pkt_len s = nh + 24 + Z.of_nat (length (g_opts g ++ encode p))) as Hl.
  { unfold pkt_len. change (get_pkt s) with (su_pkt s). rewrite E, !length_app, !length_le_bytes, Hh. lia. }
  assert (14 ≤ length (encode p))%nat as H14.
  { pose proof (length_l2 p (proj1 Hin)). unfold encode. rewrite length_app. lia. }
  rewrite length_app in Hl. unfold sizeof_iphdr, sizeof_gre_hdr in *.
  apply wp_run. cbv zeta. apply wp_bind, wp_past_end, wp_bind, wp_return_if.
  { rewrite Hl. unfold sizeof_iphdr, sizeof_gre_hdr. intros Hlt%Z.ltb_lt. lia. }
  intros _. apply wp_bind.
  assert (su_pkt s = (l2_bytes o ++ h) ++ le_bytes 2 (g_flags g) ++ le_bytes 2 (g_proto g) ++
            g_opts g ++ encode p) as E1 by (by rewrite E, <-!app_assoc).
  eapply (wp_load_at 2 _ _ _ _ _ _ s 0 E1);
    [rewrite length_app, Hh; unfold gre_flags, sizeof_iphdr; lia|done|]. rewrite field_le by done.
  apply wp_bind, wp_return_if; [by rewrite Hpl|intros _]. apply wp_bind.
  assert (su_pkt s = (l2_bytes o ++ h ++ le_bytes 2 (g_flags g)) ++ le_bytes 2 (g_proto g) ++
            g_opts g ++ encode p) as E2 by (by rewrite E, <-!app_assoc).
  eapply (wp_load_at 2 _ _ _ _ _ _ s 0 E2);
    [rewrite !length_app, Hh; unfold gre_proto, sizeof_iphdr; cbn; lia|done|]. rewrite field_le by done.
  rewrite <-Hlen. apply wp_bind, wp_past_end, wp_bind, wp_return_if.
  { rewrite Hl. unfold sizeof_iphdr. intros Hlt%Z.ltb_lt. lia. }
  intros _.
  eapply (wp_pop_head _ (l2_bytes o ++ h ++ le_bytes 2 (g_flags g) ++ le_bytes 2 (g_proto g) ++ g_opts g)
            (encode p)); [by rewrite E, <-!app_assoc| |done|].
  { rewrite !length_app, !length_le_bytes, Hh. unfold sizeof_iphdr. lia. }
  intros κ. apply wp_bind, wp_return_if; [done|intros _]. by apply (wp_inner p).
Qed.

(** Behind the Ethernet header and the tags of the outer packet. *)
Lemma wp_filter_ip o Q s :
  su_pkt s = encode o → packet_ok o →
  (is_gre (ip o) = true → wpf (Lb.filter_gre (Z.of_nat (length (l2_bytes o)))) Q s) →
  (is_gre (ip o) = false → sent_by_hash s (hosts_of (ip o)) Q) →
  wpf (match ip o with Ip4 _ => Lb.filter_ipv4 (Z.of_nat (length (l2_bytes o)))
       | Ip6 _ => Lb.filter_ipv6 (Z.of_nat (length (l2_bytes o))) end) Q s.
Proof.
  intros E [_ _ _ Hip _] HG HP. unfold encode in E.
  pose proof (wp_hash_ip (ip o) _ _ _ Q s E Hip eq_refl) as W. unfold is_gre in *.
  destruct (ip o) as [h|h]; [|by apply W, HP]. destruct Hip as [Hh _]. cbn [ip_bytes] in E.
  apply wp_run, wp_bind, wp_past_end, wp_bind, wp_return_if.
  { rewrite (not_past_end _ _ _ _ _ E) by (rewrite length_app, Hh; unfold sizeof_iphdr; lia). done. }
  intros _. apply wp_bind, (wp_load_at 1 _ _ _ _ _ _ s 9 E); [unfold ip_protocol; lia|lia|].
  destruct (field 9 1 h =? IPPROTO_GRE); apply wp_call; [by apply HG|by apply W, HP].
Qed.

Lemma wp_load_outer o Q s :
  su_pkt s = encode o → packet_ok o →
  (is_gre (ip o) = true → wpf (Lb.filter_gre (Z.of_nat (length (l2_bytes o)))) Q s) →
  (is_gre (ip o) = false → sent_by_hash s (hosts_of (ip o)) Q) →
  wpf Lb.xdp_loadfilter Q s.
Proof.
  intros E Hok HG HP. pose proof (length_l2 o Hok). apply wp_run. cbv zeta.
  apply wp_bind, wp_past_end, wp_bind, wp_return_if.
  { unfold pkt_len. change (get_pkt s) with (su_pkt s). rewrite E. unfold encode.
    rewrite length_app. unfold sizeof_ethhdr. intros Hlt%Z.ltb_lt. lia. }
  intros _. apply wp_bind, (wp_h_proto o _ _ _ _ E Hok).
  eapply (wp_tags o _ (λ h n _ _, if h =? bpf_htons ETH_P_IP then call (Lb.filter_ipv4 n)
    else if h =? bpf_htons ETH_P_IPV6 then call (Lb.filter_ipv6 n) else ret XDP_PASS)); [exact E|done|].
  apply wp_dispatch, wp_filter_ip; done.
Qed.

Definition lb_result (p : packet) s Q : Prop :=
  ∀ v κ, verdict_for s (hosts_hash (hosts_of (ip p))) v →
    Q v (s <| su_pkt := encode p |>
           <| redirected ::= app (sent_to (cpu_for s (hosts_hash (hosts_of (ip p))))) |>
           <| su_kern := κ |>).

Lemma wp_loadfilter p Q s : carries (su_pkt s) p → lb_result p s Q → wpf Lb.xdp_loadfilter Q s.
Proof.
  intros Hc HQ. remember (su_pkt s) as m eqn:Em. symmetry in Em.
  destruct Hc as [p Hok Hg|o g p Hok Hg Hgr Hin Epl]; apply (wp_load_outer _ _ _ Em Hok);
    rewrite Hg; try done; intros _.
  - intros v κ Hv. specialize (HQ v κ Hv). rewrite <-Em in HQ. by destruct s.
  - eapply wp_gre; [done..|]. intros κ0. by apply sent_by_hash_pkt.
Qed.
End lb.

(** C19: [xdp_lb.c] sends all packets of two hosts to the same CPU: both
    directions, whatever the ports and the payload, with and without VLAN tags,
    and inside a GRE or ERSPAN tunnel as outside.  The CPU is the entry of
    [cpus_available] at the hash of the unordered pair of addresses modulo the
    number of CPUs; without such an entry nothing is redirected.  A tunnel is
    taken off. *)
Theorem connection_one_cpu {K} `{SuEnvLaws K} (s : su_state K) m m' p p' :
  carries m p → carries m' p' →
  hosts_of (ip p') = hosts_of (ip p) ∨ hosts_of (ip p') = swap_hosts (hosts_of (ip p)) →
  let hash := hosts_hash (hosts_of (ip p)) in
  let sent p κ := s <| su_pkt := encode p |> <| redirected ::= app (sent_to (cpu_for s hash)) |>
                    <| su_kern := κ |> in
  ∃ v κ v' κ',
    Lb.xdp_loadfilter (s <| su_pkt := m |>) = Some (v, sent p κ) ∧ verdict_for s hash v ∧
    Lb.xdp_loadfilter (s <| su_pkt := m' |>) = Some (v', sent p' κ') ∧ verdict_for s hash v'.
Proof.
  intros Hc Hc' Hh hash sent.
  assert (∀ m p, carries m p → hosts_hash (hosts_of (ip p)) = hash → ∃ v κ,
    Lb.xdp_loadfilter (s <| su_pkt := m |>) = Some (v, sent p κ) ∧ verdict_for s hash v) as W.
  { intros m0 p0 Hc0 Hp0.
    assert (wpf Lb.xdp_loadfilter (λ v s', ∃ κ, s' = sent p0 κ ∧ verdict_for s hash v)
      (s <| su_pkt := m0 |>)) as Hw.
    { apply (wp_loadfilter p0); [exact Hc0|]. unfold lb_result. rewrite Hp0.
      intros v κ Hv. exists κ. by split. }
    destruct (wpf_elim _ _ _ Hw) as (v & s' & E & κ & -> & Hv). eauto. }
  destruct (W m p Hc eq_refl) as (v & κ & E & Hv). destruct (W m' p' Hc') as (v' & κ' & E' & Hv').
  { unfold hash, hosts_hash. destruct Hh as [->| ->]; [done|]. by rewrite hosts_sum_swap. }
  by exists v, κ, v', κ'.
Qed.

(** ** Memory safety *)
Section total.
Context {K : Type} `{SuEnvLaws K} `{FilterBuild}.
Implicit Types (s : su_state K).
Abbreviation any := (λ _ _, True).

Lemma total_to_cpu cpu_max hash s : wpb (to_cpu (K:=K) cpu_max hash) any any s.
Proof.
  unfold to_cpu. destruct cpu_max as [n|]; [|by apply wp_ret]. apply wp_if; intros _; [|by apply wp_ret].
  wp_steps; try done. unfold wpb, bpf_redirect_map. by destruct (su_redirect_map _ _ _ _).
Qed.
Lemma total_to_peer s : wpb (Filter.to_peer (K:=K)) any any s.
Proof.
  unfold Filter.to_peer. apply wp_if; intros _; [|by apply wp_ret]. wp_steps.
  destruct (array_lookup _ _); [|by apply wp_ret]. unfold wpb, bpf_redirect_map.
  by destruct (su_redirect_map _ _ _ _).
Qed.

End total.

(** A load behind the test of its bound. *)
Ltac in_packet :=
  repeat match goal with Hb : (_ <? _) = false |- _ => apply Z.ltb_ge in Hb end;
  repeat match goal with Hb : negb (_ <=? _) = true |- _ => apply negb_true_iff, Z.leb_gt in Hb end;
  unfold sizeof_tcphdr, sizeof_udphdr, sizeof_iphdr, sizeof_ipv6hdr, sizeof_vlan_hdr, sizeof_ethhdr,
    tcp_source, tcp_dest, udp_source, udp_dest, ip_protocol, ip_saddr, ip_daddr, ip6_nexthdr, ip6_saddr,
    ip6_daddr, h_vlan_TCI, h_vlan_encapsulated_proto, eth_h_proto, sizeof_gre_hdr, gre_flags, gre_proto in *;
  lia.
Ltac su_step :=
  match goal with
  | |- wpb (past_end _) _ _ _ => apply wp_past_end
  | |- wpb (load8 _) _ _ _ => apply wp_load; [in_packet|in_packet|]
  | |- wpb (load16 _) _ _ _ => apply wp_load; [in_packet|in_packet|]
  | |- wpb (load32 _) _ _ _ => apply wp_load; [in_packet|in_packet|]
  | |- wpb (load_addr6 _) _ _ _ => unfold load_addr6
  | |- wpb (to_cpu _ _) _ _ _ => apply total_to_cpu
  | |- True => done
  | _ => wp_step
  end.
Ltac su_steps := repeat su_step.

Section safety.
Context {K : Type} `{SuEnvLaws K} `{FilterBuild}.
Implicit Types (s : su_state K).
Abbreviation any := (λ _ _, True).

Lemma total_get_port (g : Z → Z → func (su_state K) Z) off proto s (QN : Z → su_state K → Prop) :
  g = Filter.get_sport ∨ g = Filter.get_dport → 0 ≤ off → (∀ v, QN v s) → wpf (g off proto) QN s.
Proof. intros [->| ->] Ho HQ; unfold Filter.get_sport, Filter.get_dport; su_steps; apply HQ. Qed.

Lemma total_vlan h nh s QN :
  0 ≤ nh → (∀ h' nh' v, 0 ≤ nh' → QN (h', nh', v) s) →
  wpb (vlan_block (K:=K) h nh) any QN s.
Proof. intros Hn HQ. unfold vlan_block. su_steps; apply HQ; in_packet. Qed.

Lemma total_tls sport dport nh s QN :
  0 ≤ nh → QN tt s → wpb (Filter.tls_bypass (K:=K) sport dport nh) any QN s.
Proof.
  intros Hn HQ. unfold Filter.tls_bypass. su_steps; try done;
    (eapply wpb_mono; [apply total_to_peer|done|]; intros v s' _; by apply wp_return).
Qed.

Ltac su_calls :=
  repeat first
    [ su_step
    | match goal with
      | |- wpf (Filter.get_dport _ _) _ _ => apply total_get_port; [by right|in_packet|intros ?]
      | |- wpf (Filter.get_sport _ _) _ _ => apply total_get_port; [by left|in_packet|intros ?]
      | |- wpb Filter.to_peer _ _ _ =>
          eapply wpb_mono; [apply total_to_peer|done|]; intros ? ? _
      | |- wpb (Filter.tls_bypass _ _ _) _ _ _ => apply total_tls; [done|]
      | |- wpb (vlan_block _ _) _ _ _ => apply total_vlan; [done|intros ? ? ? ?]
      end ].

Lemma total_filter4 nh v0 v1 s : 0 ≤ nh → wpf (Filter.filter_ipv4 (K:=K) nh v0 v1) any s.
Proof. intros Hn. unfold Filter.filter_ipv4. su_calls. Qed.
Lemma total_filter6 nh v0 v1 s : 0 ≤ nh → wpf (Filter.filter_ipv6 (K:=K) nh v0 v1) any s.
Proof. intros Hn. unfold Filter.filter_ipv6. su_calls. Qed.
Lemma total_hash4 off s : 0 ≤ off → wpf (Lb.hash_ipv4 (K:=K) off) any s.
Proof. intros Ho. unfold Lb.hash_ipv4. su_calls. Qed.
Lemma total_hash6 off s : 0 ≤ off → wpf (Lb.hash_ipv6 (K:=K) off) any s.
Proof. intros Ho. unfold Lb.hash_ipv6. su_calls. Qed.

Lemma total_hashfilter s : wpf (Filter.xdp_hashfilter (K:=K)) any s.
Proof.
  unfold Filter.xdp_hashfilter. su_calls; try done; first [by apply total_filter4|by apply total_filter6].
Qed.
Lemma total_adjust_head n s (QN : bool → su_state K → Prop) :
  0 ≤ n → (∀ s', sizeof_ethhdr ≤ pkt_len s' → QN true s') → (∀ s', QN false s') →
  wpb (bpf_xdp_adjust_head (K:=K) (R:=Z) n) any QN s.
Proof.
  intros Hn HT HF. unfold wpb, bpf_xdp_adjust_head.
  pose proof (su_adjust_head_spec n (su_pkt s) (su_kern s) Hn) as Ha.
  destruct (su_adjust_head _ _ _) as [[m|] κ]; [|apply HF]. cbn [fst] in Ha. apply HT.
  destruct (_ <=? _) eqn:El in Ha; [|done]. injection Ha as ->. apply Z.leb_le in El.
  unfold pkt_len. cbn. rewrite length_drop. unfold sizeof_ethhdr in *. lia.
Qed.

Lemma total_gre nh s : 0 ≤ nh → wpf (Lb.filter_gre (K:=K) nh) any s.
Proof.
  intros Hn. unfold Lb.filter_gre. su_calls. apply total_adjust_head.
  - unfold Lb.gre_len. repeat case_match; in_packet.
  - intros s' Hs'. su_calls; try done; first [by apply total_hash4|by apply total_hash6].
  - intros s'. by apply wp_bind, wp_return.
Qed.

Lemma total_loadfilter s : wpf (Lb.xdp_loadfilter (K:=K)) any s.
Proof.
  unfold Lb.xdp_loadfilter. su_calls; try done; [|by apply total_hash6].
  unfold Lb.filter_ipv4. su_calls; [by apply total_gre|by apply total_hash4].
Qed.
End safety.

(** C22: The XDP programs are memory safe and total: in every state, for every
    packet and every build of [xdp_filter.c], they return without an access
    outside the packet. *)
Theorem suricata_safe {K} `{SuEnvLaws K} `{FilterBuild} (s : su_state K) :
  is_Some (Filter.xdp_hashfilter s) ∧ is_Some (Lb.xdp_loadfilter s).
Proof.
  split; [destruct (wpf_elim _ _ _ (total_hashfilter s)) as (v & s' & E & _)
         |destruct (wpf_elim _ _ _ (total_loadfilter s)) as (v & s' & E & _)]; by rewrite E.
Qed.

(** ** An example kernel, and packets between 10.0.0.1 and 10.0.0.2 *)
#[export] Instance su_ref_env : SuEnv unit := {
  su_redirect_map _ _ _ κ := (XDP_REDIRECT, κ);
  su_adjust_head n m κ :=
    (if n + sizeof_ethhdr <=? Z.of_nat (length m) then Some (drop (Z.to_nat n) m) else None, κ)
}.
#[export] Instance su_ref_laws : SuEnvLaws unit.
Proof. split; [by left|done]. Qed.
#[export] Instance default_build : FilterBuild := {
  BUILD_CPUMAP := true; ENCRYPTED_TLS_BYPASS := false; USE_PERCPU_HASH := true;
  GOT_TX_PEER := true; RSS_QUEUE_NUMBERS := 32; VLAN_TRACKING := true }.

Definition host_a : list Z := [10; 0; 0; 1].
Definition host_b : list Z := [10; 0; 0; 2].
Definition v4_header (proto : Z) (src dst : list Z) : ip_hdr :=
  Ip4 ([0x45; 0; 0; 40; 0; 0; 0; 0; 64; proto; 0; 0] ++ src ++ dst).
Definition su_packet (tags : list tag) (ip : ip_hdr) (payload : list Z) : packet :=
  Packet (repeat 2 12) tags ip payload.
Definition request : packet :=
  su_packet [] (v4_header IPPROTO_TCP host_a host_b) ([0x12; 0x34; 0; 80] ++ repeat 0 16).
(** The answer, on a VLAN, in an ERSPAN tunnel with a key. *)
Definition answer : packet :=
  su_packet [Tag (bpf_htons VLAN_8021Q) 0x500] (v4_header IPPROTO_TCP host_b host_a)
    ([0; 80; 0x12; 0x34] ++ repeat 1 20).
Definition tunnel : gre := Gre GRE_KEY (bpf_htons ETH_P_ERSPAN) (repeat 9 12).
Definition tunnelled : packet :=
  su_packet [Tag (bpf_htons VLAN_8021AD) 7] (v4_header IPPROTO_GRE [192; 0; 2; 1] [192; 0; 2; 2])
    (gre_bytes tunnel ++ encode answer).
Definition su_example : su_state unit :=
  SuState (encode request) 0 0 ∅ ∅ [5; 6; 7] [3] [1] [0] ∅ 0 [] tt.

Lemma su_packet_ok tags ip payload :
  (length tags ≤ 2)%nat → Forall tag_ok tags → ip_ok ip → bytes_ok payload →
  packet_ok (su_packet tags ip payload).
Proof. by split. Qed.
Lemma request_ok : packet_ok request.
Proof. apply su_packet_ok; [by vm_compute; lia|done|by split; [done|apply (bool_decide_unpack _)]|by apply (bool_decide_unpack _)]. Qed.
Lemma answer_ok : packet_ok answer.
Proof.
  apply su_packet_ok; [by vm_compute; lia| |by split; [done|apply (bool_decide_unpack _)]|by apply (bool_decide_unpack _)].
  by repeat constructor.
Qed.
Lemma tunnelled_carries : carries (encode tunnelled) answer.
Proof.
  apply (carries_gre tunnelled tunnel answer); [|done|by split|split; [exact answer_ok|]|done].
  - apply su_packet_ok; [by vm_compute; lia| |by split; [done|apply (bool_decide_unpack _)]|by apply (bool_decide_unpack _)].
    by repeat constructor.
  - split; [by vm_compute|by repeat constructor].
Qed.

Lemma connection_one_cpu_witness :
  let hash := hosts_hash (hosts_of (ip request)) in
  let sent p κ := su_example <| su_pkt := encode p |>
    <| redirected ::= app (sent_to (cpu_for su_example hash)) |> <| su_kern := κ |> in
  ∃ v κ v' κ',
    Lb.xdp_loadfilter (su_example <| su_pkt := encode request |>) = Some (v, sent request κ) ∧
    verdict_for su_example hash v ∧
    Lb.xdp_loadfilter (su_example <| su_pkt := encode tunnelled |>) = Some (v', sent answer κ') ∧
    verdict_for su_example hash v'.
Proof.
  apply (connection_one_cpu su_example (encode request) (encode tunnelled) request answer).
  - by apply carries_plain; [exact request_ok|].
  - exact tunnelled_carries.
  - by right.
Defined.
Lemma suricata_safe_witness :
  is_Some (Filter.xdp_hashfilter su_example) ∧ is_Some (Lb.xdp_loadfilter su_example).
Proof. exact (suricata_safe su_example). Defined.
