(* ===== verification/SuricataBypass.v ===== *)
(** * Suricata's packet filters: bypassed flows

    The accounting of the flow tables by [xdp_filter.c] over any traffic, and
    its agreement with [bypass_filter.c]. *)
From S2P Require Import Prelude Records Words Consts Suricata SuricataSpec.
Open Scope c_scope.
#[local] Opaque hash32.

(** ** Bypassed flows *)
Definition th_len (proto : Z) : Z :=
  if proto =? IPPROTO_TCP then sizeof_tcphdr else if proto =? IPPROTO_UDP then sizeof_udphdr else 0.
(** Source and destination port; [None] when the header is cut short. *)
Definition ports_at (proto : Z) (m : list Z) : option (Z * Z) :=
  if th_len proto =? 0 then Some (0, 0)
  else if Z.of_nat (length m) <? th_len proto then None
  else Some (field 0 2 m, field 2 2 m).
Definition ports_of (p : packet) : option (Z * Z) := ports_at (protocol (ip p)) (payload p).

Section bypass.
Context {K : Type} `{SuEnvLaws K} `{FilterBuild}.
Implicit Types (s : su_state K) (p : packet).

Definition vlan_id p (i : nat) : Z := if VLAN_TRACKING then vlan_of p i else 0.
Definition key_with {A} p (a b : A) (ports : Z * Z) : flow_keys A :=
  FlowKeys a b ports.1 ports.2 (if protocol (ip p) =? IPPROTO_TCP then 1 else 0)
    (vlan_id p 0) (vlan_id p 1).
(** The key of a packet in the flow tables. *)
Definition su_flow_key p : option (flow_keys Z + flow_keys addr6) :=
  match hosts_of (ip p), ports_of p with
  | _, None => None
  | Hosts4 a b, Some ports => Some (inl (key_with p a b ports))
  | Hosts6 a b, Some ports =>
      if th_len (protocol (ip p)) =? 0 then None else Some (inr (key_with p a b ports))
  end.
Definition flow_hash p : Z :=
  match ip p with
  | Ip4 _ => hash32 (hosts_sum (hosts_of (ip p))) (INITVAL + protocol (ip p))
  | Ip6 _ => hosts_hash (hosts_of (ip p))
  end.
Definition bypassed p s : bool :=
  match su_flow_key p with
  | Some (inl k) => bool_decide (is_Some (flow_table_v4 s !! k))
  | Some (inr k) => bool_decide (is_Some (flow_table_v6 s !! k))
  | None => false
  end.
Definition len_of p : Z := Z.of_nat (length (encode p)).
(** The packet is counted for its flow, if the flow is in the table. *)
Definition counted p s : su_state K :=
  match su_flow_key p with
  | Some (inl k) => s <| flow_table_v4 ::= alter (Filter.count (len_of p)) k |>
  | Some (inr k) => s <| flow_table_v6 ::= alter (Filter.count (len_of p)) k |>
  | None => s
  end.

(** What happens to a packet: the verdict and the redirections. *)
Definition treated p s (v : Z) (r : list (su_map * Z)) : Prop :=
  if bypassed p s then
    if GOT_TX_PEER then r = [(tx_peer, 0)] ∧ (v = XDP_REDIRECT ∨ v = XDP_ABORTED)
    else r = [] ∧ v = XDP_DROP
  else ENCRYPTED_TLS_BYPASS = false →
    match su_flow_key p with
    | None => r = [] ∧ v = XDP_PASS
    | Some _ =>
        if BUILD_CPUMAP then r = sent_to (cpu_for s (flow_hash p)) ∧ verdict_for s (flow_hash p) v
        else r = [] ∧ v = XDP_PASS
    end.
Definition step_ok p s (v : Z) (s' : su_state K) : Prop :=
  flow_table_v4 s' = flow_table_v4 (counted p s) ∧ flow_table_v6 s' = flow_table_v6 (counted p s) ∧
  tx_peer_int s' = tx_peer_int s ∧ cpus_count s' = cpus_count s ∧ cpus_available s' = cpus_available s ∧
  ∃ r, redirected s' = r ++ redirected s ∧ treated p s v r.

Lemma wp_get_port (src : bool) off pre post proto s (QN : Z → su_state K → Prop) :
  su_pkt s = pre ++ post → off = Z.of_nat (length pre) →
  QN (if th_len proto =? 0 then 0 else if Z.of_nat (length post) <? th_len proto then -1
      else field (if src then 0 else 2) 2 post) s →
  wpf ((if src then Filter.get_sport else Filter.get_dport) off proto) QN s.
Proof.
  intros E -> HQ. unfold th_len in HQ.
  assert (su_pkt s = pre ++ post ++ []) as E1 by (by rewrite app_nil_r).
  assert (pkt_len s = Z.of_nat (length pre) + Z.of_nat (length post)) as Hl.
  { unfold pkt_len. change (get_pkt s) with (su_pkt s). rewrite E, length_app. lia. }
  destruct src; apply wp_run.
  all: destruct (proto =? IPPROTO_TCP); [|destruct (proto =? IPPROTO_UDP); [|by apply wp_ret]].
  all: unfold sizeof_tcphdr, sizeof_udphdr in *; cbn [Z.eqb] in HQ; apply wp_bind, wp_past_end, wp_bind.
  all: rewrite Hl; destruct (Z.of_nat (length post) <? _) eqn:El.
  all: (apply wp_return_if; [intros Hs%Z.ltb_lt|intros Hs%Z.ltb_ge]).
  all: try (apply Z.ltb_lt in El); try (apply Z.ltb_ge in El); try lia; try exact HQ.
  all: unfold tcp_source, tcp_dest, udp_source, udp_dest.
  all: first [eapply (wp_load_at 2 _ _ _ _ _ _ s 0 E1); [lia|lia|exact HQ]
             |eapply (wp_load_at 2 _ _ _ _ _ _ s 2 E1); [lia|lia|exact HQ]].
Qed.

Lemma wp_to_peer QR (QN : Z → su_state K → Prop) s :
  is_Some (array_lookup (tx_peer_int s) 0) →
  (∀ v κ r, (if GOT_TX_PEER then r = [(tx_peer, 0)] ∧ (v = XDP_REDIRECT ∨ v = XDP_ABORTED)
             else r = [] ∧ v = XDP_DROP) →
     QN v (s <| redirected ::= app r |> <| su_kern := κ |>)) →
  wpb Filter.to_peer QR QN s.
Proof.
  intros [x Hx] HQ. unfold Filter.to_peer. apply wp_if; intros Hp.
  - apply wp_bind, wp_gets. rewrite Hx. unfold wpb, bpf_redirect_map.
    pose proof (su_redirect_spec tx_peer 0 (su_kern s)) as Hv.
    destruct (su_redirect_map tx_peer 0 0 (su_kern s)) as [v κ].
    apply (HQ v κ [(tx_peer, 0)]). by rewrite Hp.
  - apply wp_ret. assert (s = s <| redirected ::= app [] |> <| su_kern := su_kern s |>) as -> by (by destruct s).
    apply HQ. by rewrite Hp.
Qed.

(** A packet of a bypassed flow. *)
Lemma wp_bypassed p s : bypassed p s = true → is_Some (array_lookup (tx_peer_int s) 0) →
  wpb (let! v := Filter.to_peer in return_ v) (step_ok p s) (λ (_ : unit) _, False) (counted p s).
Proof.
  intros Hb Ht. apply wp_bind, wp_to_peer.
  { unfold counted. by repeat case_match. }
  intros v κ r Hr. apply wp_return. split; [done|]. split; [done|].
  unfold treated. rewrite Hb.
  split_and!; [unfold counted; by repeat case_match..|]. exists r.
  split; [unfold counted; by repeat case_match|exact Hr].
Qed.

(** The others are spread over the CPUs. *)
Lemma counted_id p s : bypassed p s = false → counted p s = s.
Proof.
  unfold bypassed, counted. destruct (su_flow_key p) as [[k|k]|]; [| |done];
    intros Hb%bool_decide_eq_false; apply eq_None_not_Some in Hb;
    destruct s; unfold update; cbn in *; f_equal; apply alter_id; intros x Hx; congruence.
Qed.

(** Only the redirections, the queue and the kernel change. *)
Lemma step_sent p s v r q κ : bypassed p s = false → treated p s v r →
  step_ok p s v (s <| redirected ::= app r |> <| rx_queue_index := q |> <| su_kern := κ |>).
Proof.
  intros Hb Ht. unfold step_ok. rewrite (counted_id p s Hb). split_and!; try done. by exists r.
Qed.
Lemma step_plain p s v : bypassed p s = false → treated p s v [] → step_ok p s v s.
Proof.
  intros Hb Ht. pose proof (step_sent p s v [] (rx_queue_index s) (su_kern s) Hb Ht) as W. by destruct s.
Qed.

Lemma wp_spread p s :
  bypassed p s = false → su_flow_key p ≠ None →
  wpb (if BUILD_CPUMAP then to_cpu (array_lookup (cpus_count s) 0) (flow_hash p)
       else when (negb (RSS_QUEUE_NUMBERS =? 0))
              (modify (λ s, s <| rx_queue_index := flow_hash p mod RSS_QUEUE_NUMBERS |>)) ;;
            ret XDP_PASS) (step_ok p s) (step_ok p s) s.
Proof.
  intros Hb Hk. assert (∀ v r, (if BUILD_CPUMAP
      then r = sent_to (cpu_for s (flow_hash p)) ∧ verdict_for s (flow_hash p) v
      else r = [] ∧ v = XDP_PASS) → treated p s v r) as Ht.
  { intros v r Hr. unfold treated. rewrite Hb. intros _. by destruct (su_flow_key p). }
  apply wp_if; intros Hc; rewrite Hc in Ht.
  - apply wp_to_cpu. intros v κ Hv. 
    pose proof (step_sent p s v _ (rx_queue_index s) κ Hb (Ht v _ (conj eq_refl Hv))) as W.
    by destruct s.
  - apply wp_bind, wp_when; intros _; [apply wp_modify|]; apply wp_ret.
    + pose proof (step_sent p s XDP_PASS [] (flow_hash p mod RSS_QUEUE_NUMBERS) (su_kern s) Hb
        (Ht _ _ (conj eq_refl eq_refl))) as W. by destruct s.
    + apply step_plain; [done|]. by apply Ht.
Qed.

Lemma no_key_passes p s : su_flow_key p = None → step_ok p s XDP_PASS s.
Proof.
  intros Hk. apply step_plain; unfold bypassed, treated, bypassed; rewrite Hk; done.
Qed.

Lemma field_nonneg k n h : bytes_ok h → 0 ≤ field k n h.
Proof. intros Hh. unfold field. apply le_val_range. by apply slice_ok. Qed.

(** With TLS bypass on, an encrypted packet may also leave by the peer. *)
Lemma wp_tls sport dport nh p s :
  bypassed p s = false → is_Some (array_lookup (tx_peer_int s) 0) → 0 ≤ nh →
  wpb (when ENCRYPTED_TLS_BYPASS (Filter.tls_bypass sport dport nh)) (step_ok p s) (λ _ s', s' = s) s.
Proof.
  intros Hb Hp Hn. apply wp_when; [intros Htls|done]. unfold Filter.tls_bypass.
  assert (∀ s', flow_table_v4 s' = flow_table_v4 s → flow_table_v6 s' = flow_table_v6 s →
    tx_peer_int s' = tx_peer_int s → cpus_count s' = cpus_count s → cpus_available s' = cpus_available s →
    redirected s' = redirected s →
    wpb Filter.to_peer (step_ok p s) (step_ok p s) s') as W.
  { intros s' E4 E6 Ep Ec Ea Er. apply wp_to_peer; [by rewrite Ep|]. intros v κ r _.
    unfold step_ok. rewrite (counted_id p s Hb). split_and!; try done.
    exists r. split; [by rewrite <-Er|]. unfold treated. rewrite Hb, Htls. done. }
  su_steps; try done;
    (eapply wpb_mono; [by apply W|done|]; intros v s' Hv; by apply wp_return).
Qed.

Lemma wp_ports off pre m proto (k : Z → Z → body (su_state K) Z Z) QR QN s :
  su_pkt s = pre ++ m → off = Z.of_nat (length pre) → bytes_ok m →
  (ports_at proto m = None → QR XDP_PASS s) →
  (∀ sport dport, ports_at proto m = Some (sport, dport) → wpb (k sport dport) QR QN s) →
  wpb (let! dport := call (Filter.get_dport off proto) in
       return_if (dport =? -1) XDP_PASS ;;
       let! sport := call (Filter.get_sport off proto) in
       return_if (sport =? -1) XDP_PASS ;; k sport dport) QR QN s.
Proof.
  intros E Ho Hm HN HS. unfold ports_at in *.
  pose proof (field_nonneg 0 2 m Hm). pose proof (field_nonneg 2 2 m Hm).
  apply wp_bind, wp_call, (wp_get_port false _ _ _ _ _ _ E Ho).
  destruct (th_len proto =? 0) eqn:Et; [|destruct (Z.of_nat (length m) <? th_len proto) eqn:El].
  2: { apply wp_bind, wp_return. by apply HN. }
  all: apply wp_bind, wp_return_if; [intros Hd%Z.eqb_eq; lia|intros _].
  all: apply wp_bind, wp_call, (wp_get_port true _ _ _ _ _ _ E Ho); rewrite Et, ?El.
  all: apply wp_bind, wp_return_if; [intros Hd%Z.eqb_eq; lia|intros _].
  all: by apply HS.
Qed.

Lemma pkt_len_encode p s : su_pkt s = encode p → pkt_len s = len_of p.
Proof. intros E. unfold pkt_len, len_of. change (get_pkt s) with (su_pkt s). by rewrite E. Qed.

Lemma wp_filter4 p h s :
  su_pkt s = encode p → packet_ok p → ip p = Ip4 h → is_Some (array_lookup (tx_peer_int s) 0) →
  wpf (Filter.filter_ipv4 (Z.of_nat (length (l2_bytes p))) (vlan_id p 0) (vlan_id p 1)) (step_ok p s) s.
Proof.
  intros E [_ _ _ Hip Hpl] Ei Hp. pose proof E as E0. rewrite Ei in Hip. destruct Hip as [Hh Hhb].
  assert (su_flow_key p = match ports_of p with Some ports => Some (inl (key_with p (field 12 4 h) (field 16 4 h) ports)) | None => None end) as Hk.
  { unfold su_flow_key. rewrite Ei. cbn [hosts_of]. by destruct (ports_of p). }
  assert (flow_hash p = hash32 (u32 (field 12 4 h + field 16 4 h)) (INITVAL + field 9 1 h)) as Hhash
    by (unfold flow_hash; by rewrite Ei).
  unfold key_with, ports_of in Hk. unfold encode in E. rewrite Ei in E, Hk. cbn [ip_bytes protocol] in E, Hk.
  apply wp_run. cbv zeta. apply wp_bind, wp_gets, wp_bind, wp_past_end, wp_bind, wp_return_if.
  { rewrite (not_past_end _ _ _ _ _ E) by (rewrite length_app, Hh; unfold sizeof_iphdr; lia). done. }
  intros _. apply wp_bind, (wp_load_at 1 _ _ _ _ _ _ s 9 E); [unfold ip_protocol; lia|lia|].
  apply wp_bind, (wp_load_at 4 _ _ _ _ _ _ s 12 E); [unfold ip_saddr; lia|lia|].
  apply wp_bind, (wp_load_at 4 _ _ _ _ _ _ s 16 E); [unfold ip_daddr; lia|lia|].
  assert (su_pkt s = (l2_bytes p ++ h) ++ payload p) as E1 by (by rewrite E, <-app_assoc).
  set (proto := field 9 1 h) in *.
  apply (wp_ports _ _ _ _ (λ sport dport, _) _ _ _ E1); [rewrite length_app, Hh; unfold sizeof_iphdr; lia|done| |].
  { intros Hn. rewrite Hn in Hk. by apply no_key_passes. }
  intros sport dport Hs. rewrite Hs in Hk. cbn [fst snd] in Hk.
  set (k := FlowKeys _ _ _ _ _ _ _) in *. apply wp_bind, wp_gets, wp_bind, wp_when; intros Hv.
  - apply wp_bind, wp_modify. rewrite (pkt_len_encode p s E0).
    assert (s <| flow_table_v4 ::= alter (Filter.count (len_of p)) k |> = counted p s) as ->
      by (unfold counted; by rewrite Hk).
    eapply wpb_mono; [apply wp_bypassed; [unfold bypassed; by rewrite Hk|done]|done|done].
  - assert (bypassed p s = false) as Hb by (unfold bypassed; by rewrite Hk).
    apply wp_bind. eapply wpb_mono; [apply (wp_tls _ _ _ p s Hb Hp); lia|done|]. intros _ s' ->.
    rewrite <-Hhash. apply wp_spread; [done|by rewrite Hk].
Qed.

Lemma wp_filter6 p h s :
  su_pkt s = encode p → packet_ok p → ip p = Ip6 h → is_Some (array_lookup (tx_peer_int s) 0) →
  wpf (Filter.filter_ipv6 (Z.of_nat (length (l2_bytes p))) (vlan_id p 0) (vlan_id p 1)) (step_ok p s) s.
Proof.
  intros E [_ _ _ Hip Hpl] Ei Hp. pose proof E as E0. rewrite Ei in Hip. destruct Hip as [Hh Hhb].
  assert (su_flow_key p = match ports_of p with
    | Some ports => if th_len (protocol (ip p)) =? 0 then None
                    else Some (inr (key_with p (addr6_at 8 h) (addr6_at 24 h) ports))
    | None => None end) as Hk.
  { unfold su_flow_key. rewrite Ei. cbn [hosts_of]. by destruct (ports_of p). }
  assert (flow_hash p = hash32 (sum_addr6 (addr6_at 8 h) (addr6_at 24 h)) INITVAL) as Hhash
    by (unfold flow_hash, hosts_hash; by rewrite Ei).
  unfold key_with, ports_of in Hk. unfold encode in E. rewrite Ei in E, Hk. cbn [ip_bytes protocol] in E, Hk.
  apply wp_run. cbv zeta. apply wp_bind, wp_gets, wp_bind, wp_past_end, wp_bind, wp_return_if.
  { rewrite (not_past_end _ _ _ _ _ E) by (rewrite length_app, Hh; unfold sizeof_ipv6hdr; lia). done. }
  intros _. apply wp_bind, (wp_load_at 1 _ _ _ _ _ _ s 6 E); [unfold ip6_nexthdr; lia|lia|].
  assert (su_pkt s = (l2_bytes p ++ h) ++ payload p) as E1 by (by rewrite E, <-app_assoc).
  set (proto := field 6 1 h) in *.
  assert (negb ((proto =? IPPROTO_UDP) || (proto =? IPPROTO_TCP)) = (th_len proto =? 0)) as ->.
  { unfold th_len. destruct (proto =? IPPROTO_TCP); [by rewrite orb_true_r|].
    by destruct (proto =? IPPROTO_UDP). }
  apply wp_bind, wp_return_if; intros Ht; rewrite Ht in Hk.
  { apply no_key_passes. rewrite Hk. by case_match. }
  apply (wp_ports _ _ _ _ (λ sport dport, _) _ _ _ E1); [rewrite length_app, Hh; unfold sizeof_ipv6hdr; lia|done| |].
  { intros Hn. rewrite Hn in Hk. by apply no_key_passes. }
  intros sport dport Hs. rewrite Hs in Hk. cbn [fst snd] in Hk.
  apply wp_bind, (wp_load_addr6 _ _ _ _ 8 _ _ s E); [unfold ip6_saddr; lia|lia|].
  apply wp_bind, (wp_load_addr6 _ _ _ _ 24 _ _ s E); [unfold ip6_daddr; lia|lia|].
  set (k := FlowKeys _ _ _ _ _ _ _) in *. apply wp_bind, wp_gets, wp_bind, wp_when; intros Hv.
  - apply wp_bind, wp_modify. rewrite (pkt_len_encode p s E0).
    assert (s <| flow_table_v6 ::= alter (Filter.count (len_of p)) k |> = counted p s) as ->
      by (unfold counted; by rewrite Hk).
    eapply wpb_mono; [apply wp_bypassed; [unfold bypassed; by rewrite Hk|done]|done|done].
  - assert (bypassed p s = false) as Hb by (unfold bypassed; by rewrite Hk).
    rewrite <-Hhash. apply wp_spread; [done|by rewrite Hk].
Qed.

Lemma wp_hashfilter p s :
  su_pkt s = encode p → packet_ok p → is_Some (array_lookup (tx_peer_int s) 0) →
  wpf Filter.xdp_hashfilter (step_ok p s) s.
Proof.
  intros E Hok Hp. pose proof (length_l2 p Hok). apply wp_run. cbv zeta.
  apply wp_bind, wp_past_end, wp_bind, wp_return_if.
  { rewrite (pkt_len_encode p s E). unfold len_of, encode. rewrite length_app.
    unfold sizeof_ethhdr. intros Hlt%Z.ltb_lt. lia. }
  intros _. apply wp_bind, (wp_h_proto p _ _ _ _ E Hok).
  eapply (wp_tags p _ (λ h n v0 v1,
    if h =? bpf_htons ETH_P_IP then call (Filter.filter_ipv4 n (if VLAN_TRACKING then v0 else 0) (if VLAN_TRACKING then v1 else 0))
    else if h =? bpf_htons ETH_P_IPV6 then call (Filter.filter_ipv6 n (if VLAN_TRACKING then v0 else 0) (if VLAN_TRACKING then v1 else 0))
    else ret XDP_PASS)); [exact E|done|].
  apply wp_dispatch. destruct (ip p) as [h|h] eqn:Ei; [by eapply wp_filter4|by eapply wp_filter6].
Qed.


(** ** Traffic *)

(** The verdicts and redirections of packets that arrive one after the other. *)
Fixpoint filter_run (ps : list packet) (s : su_state K) :
    option (list (Z * list (su_map * Z)) * su_state K) :=
  match ps with
  | [] => Some ([], s)
  | p :: ps =>
      match Filter.xdp_hashfilter (s <| su_pkt := encode p |> <| redirected := [] |>) with
      | Some (v, s1) =>
          match filter_run ps s1 with
          | Some (outs, s2) => Some ((v, redirected s1) :: outs, s2)
          | None => None
          end
      | None => None
      end
  end.

(** An entry after the packets [ps] of its flow. *)
Definition grown (ps : list packet) (e : pair) : pair :=
  Pair (u64 (packets e + Z.of_nat (length ps)))
       (u64 (bytes e + foldr (λ p n, len_of p + n) 0 ps)).
Definition pair_ok (e : pair) : Prop := 0 ≤ packets e < 2 ^ 64 ∧ 0 ≤ bytes e < 2 ^ 64.

Lemma grown_nil e : pair_ok e → grown [] e = e.
Proof.
  intros [Hp Hb]. destruct e as [n m]. unfold grown. cbn in *.
  by rewrite !Z.add_0_r, !u64_id.
Qed.
Lemma grown_cons p ps e : grown ps (Filter.count (len_of p) e) = grown (p :: ps) e.
Proof.
  destruct e as [n m]. unfold grown, Filter.count, u64. cbn.
  rewrite !Zplus_mod_idemp_l. f_equal; f_equal; lia.
Qed.
Lemma count_ok len e : pair_ok (Filter.count len e).
Proof. destruct e as [n m]. split; cbn; apply u64_range. Qed.

(** The accounting of one table: [keys] are those of the packets. *)
Lemma grown_step {A} `{Countable A} (t : gmap A pair) k k' p (ps : list packet) :
  map_Forall (λ _, pair_ok) t →
  grown ps <$> alter (Filter.count (len_of p)) k t !! k' =
    grown (if decide (k = k') then p :: ps else ps) <$> t !! k'.
Proof.
  intros Ht. destruct (decide (k = k')) as [->|Hne].
  - rewrite lookup_alter_eq, <-option_fmap_compose. destruct (t !! k') as [e|]; cbn; [|done].
    by rewrite grown_cons.
  - by rewrite lookup_alter_ne.
Qed.

Definition tables_ok s : Prop :=
  map_Forall (λ _, pair_ok) (flow_table_v4 s) ∧ map_Forall (λ _, pair_ok) (flow_table_v6 s) ∧
  is_Some (array_lookup (tx_peer_int s) 0).
(** The packets of the flow [k]. *)
Definition of_key (k : flow_keys Z + flow_keys addr6) (ps : list packet) : list packet :=
  filter (λ p, su_flow_key p = Some k) ps.

Lemma of_key_cons k p ps :
  of_key k (p :: ps) = if decide (su_flow_key p = Some k) then p :: of_key k ps else of_key k ps.
Proof. unfold of_key. by rewrite filter_cons. Qed.

Lemma counted_tables p ps s : tables_ok s →
  (∀ k, grown (of_key (inl k) ps) <$> flow_table_v4 (counted p s) !! k =
        grown (of_key (inl k) (p :: ps)) <$> flow_table_v4 s !! k) ∧
  (∀ k, grown (of_key (inr k) ps) <$> flow_table_v6 (counted p s) !! k =
        grown (of_key (inr k) (p :: ps)) <$> flow_table_v6 s !! k).
Proof.
  intros (H4 & H6 & _). split; intros k; rewrite of_key_cons; unfold counted;
    destruct (su_flow_key p) as [[k'|k']|]; cbn -[alter lookup].
  1: rewrite grown_step by done. 5: rewrite grown_step by done.
  all: repeat case_decide; try done; congruence.
Qed.

Lemma counted_ok p s : tables_ok s → tables_ok (counted p s).
Proof.
  intros (H4 & H6 & Hp). unfold tables_ok, counted.
  destruct (su_flow_key p) as [[k|k]|]; (split_and!; [| |done]); try done;
    intros j e He; cbn -[alter lookup] in He; destruct (decide (j = k)) as [->|Hne].
  all: try (rewrite lookup_alter_eq in He; apply fmap_Some in He as (e0 & _ & ->); apply count_ok).
  all: rewrite lookup_alter_ne in He by done; eauto.
Qed.

(** What is in the tables decides the treatment, not the counts. *)
Definition same_flows s s' : Prop :=
  (∀ k, is_Some (flow_table_v4 s' !! k) ↔ is_Some (flow_table_v4 s !! k)) ∧
  (∀ k, is_Some (flow_table_v6 s' !! k) ↔ is_Some (flow_table_v6 s !! k)) ∧
  cpus_count s' = cpus_count s ∧ cpus_available s' = cpus_available s.
Lemma treated_same p s s' v r : same_flows s s' → treated p s' v r → treated p s v r.
Proof.
  intros (H4 & H6 & Hc & Ha). unfold treated, bypassed, cpu_for, verdict_for, cpu_for. rewrite Hc, Ha.
  destruct (su_flow_key p) as [[k|k]|]; try done.
  - by rewrite (bool_decide_ext _ _ (H4 k)).
  - by rewrite (bool_decide_ext _ _ (H6 k)).
Qed.
Lemma counted_flows p s :
  (∀ k, is_Some (flow_table_v4 (counted p s) !! k) ↔ is_Some (flow_table_v4 s !! k)) ∧
  (∀ k, is_Some (flow_table_v6 (counted p s) !! k) ↔ is_Some (flow_table_v6 s !! k)).
Proof.
  unfold counted. split; intros j; destruct (su_flow_key p) as [[k|k]|]; cbn -[alter lookup]; try done;
    by rewrite lookup_alter_is_Some.
Qed.
End bypass.

(** C20: [xdp_filter.c] accounts for bypassed flows exactly: over any sequence
    of packets every entry of the two flow tables grows by the number and the
    bytes of the packets of its flow and no entry appears or goes.  A packet of
    a flow in a table leaves by the peer interface, or is dropped when there is
    no peer, and never reaches a CPU; every other packet that has ports is sent
    to the CPU of its addresses and protocol (with the TLS bypass off). *)
Theorem bypassed_flow_accounted {K} `{SuEnvLaws K} `{FilterBuild} (ps : list packet) (s : su_state K) :
  Forall packet_ok ps → tables_ok s →
  ∃ outs s', filter_run ps s = Some (outs, s') ∧
    (∀ k, flow_table_v4 s' !! k = grown (of_key (inl k) ps) <$> flow_table_v4 s !! k) ∧
    (∀ k, flow_table_v6 s' !! k = grown (of_key (inr k) ps) <$> flow_table_v6 s !! k) ∧
    Forall2 (λ p o, treated p s o.1 o.2) ps outs.
Proof.
  intros Hps. revert s. induction Hps as [|p ps Hp Hps IH]; intros s Hs.
  { exists [], s. split_and!; [done| | |done]; intros k; cbn; destruct Hs as (H4 & H6 & _);
      [destruct (flow_table_v4 s !! k) eqn:E|destruct (flow_table_v6 s !! k) eqn:E]; cbn; try done;
      rewrite grown_nil; eauto. }
  cbn [filter_run]. set (s0 := s <| su_pkt := encode p |> <| redirected := [] |>).
  destruct (wpf_elim _ _ _ (wp_hashfilter p s0 eq_refl Hp ltac:(apply Hs))) as (v & s1 & -> & E4 & E6 & Ep & Ec & Ea & r & Er & Ht).
  pose proof (counted_ok p s0 Hs) as Hok. pose proof (counted_tables p ps s0 Hs) as [C4 C6].
  pose proof (counted_flows p s0) as [F4 F6].
  assert (tables_ok s1) as Hs1 by (unfold tables_ok; rewrite E4, E6, Ep; destruct Hok as (? & ? & _);
    by split_and!; [..|apply Hs]).
  destruct (IH s1 Hs1) as (outs & s' & -> & G4 & G6 & Hall). eexists _, s'. split; [done|].
  split_and!; [intros k; by rewrite G4, E4, C4|intros k; by rewrite G6, E6, C6|].
  constructor.
  - cbn. rewrite Er. change (redirected s0) with (@nil (su_map * Z)). by rewrite app_nil_r.
  - eapply Forall2_impl; [exact Hall|]. intros q o. apply (treated_same q s s1).
    unfold same_flows. rewrite E4, E6. by split_and!.
Qed.

(** ** The two bypass filters *)

(** The socket filter keeps its keys in host order. *)
Definition host_key4 (k : flow_keys Z) : flow_keys Z :=
  FlowKeys (bpf_ntohl (k_src k)) (bpf_ntohl (k_dst k)) (bpf_ntohs (port16_0 k)) (bpf_ntohs (port16_1 k))
    (k_proto k) (k_vlan0 k) (k_vlan1 k).
Definition ntohl6 (a : addr6) : addr6 :=
  let '(w, x, y, z) := a in (bpf_ntohl w, bpf_ntohl x, bpf_ntohl y, bpf_ntohl z).
Definition host_key6 (k : flow_keys addr6) : flow_keys addr6 :=
  FlowKeys (ntohl6 (k_src k)) (ntohl6 (k_dst k)) (bpf_ntohs (port16_0 k)) (bpf_ntohs (port16_1 k))
    (k_proto k) (k_vlan0 k) (k_vlan1 k).
Definition word (n v : Z) : Prop := 0 ≤ v < 2 ^ n.
Definition addr6_ok (a : addr6) : Prop :=
  let '(w, x, y, z) := a in word 32 w ∧ word 32 x ∧ word 32 y ∧ word 32 z.
Definition key4_ok (k : flow_keys Z) : Prop :=
  word 32 (k_src k) ∧ word 32 (k_dst k) ∧ word 16 (port16_0 k) ∧ word 16 (port16_1 k).
Definition key6_ok (k : flow_keys addr6) : Prop :=
  addr6_ok (k_src k) ∧ addr6_ok (k_dst k) ∧ word 16 (port16_0 k) ∧ word 16 (port16_1 k).

Lemma bswap_inj n v w :
  0 ≤ v < 256 ^ Z.of_nat n → 0 ≤ w < 256 ^ Z.of_nat n → bswap n v = bswap n w → v = w.
Proof.
  intros Hv Hw E. apply (f_equal (bswap n)) in E. rewrite !bswap_bswap in E.
  by rewrite !Z.mod_small in E.
Qed.
Lemma ntohl_inj v w : word 32 v → word 32 w → bpf_ntohl v = bpf_ntohl w → v = w.
Proof.
  unfold word, bpf_ntohl, bswap32. intros Hv Hw E. rewrite !u32_id in E by done.
  by apply (bswap_inj 4).
Qed.
Lemma ntohs_inj v w : word 16 v → word 16 w → bpf_ntohs v = bpf_ntohs w → v = w.
Proof.
  unfold word, bpf_ntohs, bswap16. intros Hv Hw E. rewrite !u16_id in E by done.
  by apply (bswap_inj 2).
Qed.
Lemma host_key4_inj k l : key4_ok k → key4_ok l → host_key4 k = host_key4 l → k = l.
Proof.
  destruct k, l. unfold key4_ok, host_key4. cbn. intros (?&?&?&?) (?&?&?&?) [= ? ? ? ? ? ? ?].
  f_equal; auto using ntohl_inj, ntohs_inj.
Qed.
Lemma host_key6_inj k l : key6_ok k → key6_ok l → host_key6 k = host_key6 l → k = l.
Proof.
  destruct k as [[[[? ?] ?] ?] [[[? ?] ?] ?]], l as [[[[? ?] ?] ?] [[[? ?] ?] ?]].
  unfold key6_ok, host_key6. cbn. intros ((?&?&?&?)&(?&?&?&?)&?&?) ((?&?&?&?)&(?&?&?&?)&?&?) [= ].
  repeat f_equal; auto using ntohl_inj, ntohs_inj.
Qed.

(** The tables hold the same entries. *)
Definition tables_agree {K} (s s' : su_state K) : Prop :=
  (∀ k, key4_ok k → flow_table_v4 s' !! host_key4 k = flow_table_v4 s !! k) ∧
  (∀ k, key6_ok k → flow_table_v6 s' !! host_key6 k = flow_table_v6 s !! k).

Section agree.
Context {K : Type} `{SuEnvLaws K} `{FilterBuild}.
Implicit Types (s : su_state K) (p : packet).

(** An untagged TCP or UDP packet, with the IPv4 header length of 20. *)
Record plain p : Prop := {
  pl_ok : packet_ok p; pl_tags : tags p = [];
  pl_th : th_len (protocol (ip p)) ≠ 0;
  pl_len : th_len (protocol (ip p)) ≤ Z.of_nat (length (payload p));
  pl_ihl : match ip p with Ip4 h => Z.land (field 0 1 h) 0xF = 5 | Ip6 _ => True end }.

Lemma be_field n k h : bytes_ok h → (k + n ≤ length h)%nat →
  le_val (reverse (slice k n h)) = bswap n (field k n h).
Proof.
  intros Hh Hk. unfold field, bswap. pose proof (le_bytes_val (slice k n h) ltac:(by apply slice_ok)) as E.
  rewrite length_slice in E by lia. by rewrite E.
Qed.
Lemma field_range k n h : bytes_ok h → (k + n ≤ length h)%nat → 0 ≤ field k n h < 256 ^ Z.of_nat n.
Proof.
  intros Hh Hk. unfold field. pose proof (le_val_range (slice k n h) ltac:(by apply slice_ok)) as E.
  by rewrite length_slice in E by lia.
Qed.

Lemma wp_load_be n off pre h post k (QR : Z → su_state K → Prop) QN s :
  su_pkt s = pre ++ h ++ post → bytes_ok h → off = Z.of_nat (length pre + k) → (k + n ≤ length h)%nat →
  QN (bswap n (field k n h)) s → wpb (load_be n off) QR QN s.
Proof.
  intros E Hh -> Hk HQ. unfold wpb, load_be, peek. rewrite E, !length_app.
  rewrite (proj2 (Z.ltb_ge _ 0)), (proj2 (Z.ltb_ge _ _)) by lia.
  cbn [orb]. rewrite Nat2Z.id, slice_region by done. by rewrite be_field.
Qed.

(** The ports, read as one word. *)
Lemma wp_load_ports off pre m (QR : Z → su_state K → Prop) QN s :
  su_pkt s = pre ++ m → bytes_ok m → off = Z.of_nat (length pre) → (4 ≤ length m)%nat →
  QN (bpf_ntohs (field 0 2 m), bpf_ntohs (field 2 2 m)) s → wpb (Bypass.load_ports off) QR QN s.
Proof.
  intros E Hm -> Hl HQ. unfold Bypass.load_ports.
  assert (su_pkt s = pre ++ m ++ []) as E1 by (by rewrite app_nil_r).
  apply wp_bind, (wp_load_be 4 _ _ _ _ 0 _ _ s E1 Hm); [lia|lia|]. apply wp_ret.
  assert (bswap 4 (field 0 4 m) = bpf_ntohs (field 2 2 m) + 2 ^ 16 * bpf_ntohs (field 0 2 m)) as ->.
  { unfold bpf_ntohs. rewrite (u16_id (field 0 2 m)), (u16_id (field 2 2 m))
      by (apply (field_range _ 2); [done|lia]).
    unfold bswap16. rewrite <-!be_field by (done || lia).
    destruct m as [|a [|b [|c [|d m]]]]; cbn in Hl; try lia. cbn. rewrite take_0. cbn. lia. }
  assert (0 ≤ bpf_ntohs (field 2 2 m) < 2 ^ 16) by apply bpf_ntohs_range.
  assert (0 ≤ bpf_ntohs (field 0 2 m) < 2 ^ 16) by apply bpf_ntohs_range.
  rewrite Z.shiftr_div_pow2 by lia. unfold u16.
  rewrite (Z.mul_comm (2 ^ 16)), Z.mod_add, Z.mod_small, Z.div_add, Z.div_small by lia. exact HQ.
Qed.

Lemma l2_plain p : packet_ok p → tags p = [] → length (l2_bytes p) = 14%nat.
Proof. intros [Hm _ _ _ _] Ht. unfold l2_bytes. by rewrite Ht, !length_app, Hm. Qed.

(** The first steps of the socket filter. *)
Lemma wp_bypass_start p Q s' (f4 f6 : Z → Z → func (su_state K) Z) :
  su_pkt s' = encode p → packet_ok p → tags p = [] → vlan_tci s' = 0 →
  wpf (match ip p with Ip4 _ => f4 0 0 | Ip6 _ => f6 0 0 end) Q (s' <| cb0 := 14 |>) →
  wpf (run (
    let! proto := load_half eth_h_proto in
    let! tci := gets vlan_tci in
    let vlan0 := Z.land tci 0x0fff in
    let! q :=
      if is_vlan_host proto then
        let! proto := load_half (ETH_HLEN + h_vlan_encapsulated_proto) in
        let! tci := load_half (ETH_HLEN + h_vlan_TCI) in
        ret (proto, Z.land tci 0x0fff, ETH_HLEN + sizeof_vlan_hdr)
      else ret (proto, 0, ETH_HLEN) in
    let '(proto, vlan1, nhoff) := q in
    modify (λ s, s <| cb0 := nhoff |>) ;;
    if proto =? ETH_P_IP then call (f4 vlan0 vlan1)
    else if proto =? ETH_P_IPV6 then call (f6 vlan0 vlan1)
    else ret (-1))) Q s'.
Proof.
  intros E [Hm _ _ _ _] Ht Hv HQ. unfold encode, l2_bytes in E. rewrite Ht in E.
  cbn [map concat app] in E. rewrite <-!app_assoc in E. apply wp_run, wp_bind.
  apply (wp_load_be 2 _ _ _ _ 0 _ _ s' E); [apply le_bytes_ok|by rewrite Hm|done|].
  rewrite field_le by apply su_ethertype_range. apply wp_bind, wp_gets. rewrite Hv. cbv zeta.
  destruct (ip p); apply wp_bind, wp_ret, wp_bind, wp_modify, wp_call; exact HQ.
Qed.

Lemma bswap1 v : 0 ≤ v < 256 → bswap 1 v = v.
Proof. intros Hv. unfold bswap. cbn. rewrite Z.mod_small; lia. Qed.
Lemma bswap4_ntohl v : 0 ≤ v < 2 ^ 32 → bswap 4 v = bpf_ntohl v.
Proof. intros Hv. unfold bpf_ntohl, bswap32. by rewrite u32_id. Qed.

Lemma wp_load_byte off pre h post k (QR : Z → su_state K → Prop) QN s :
  su_pkt s = pre ++ h ++ post → bytes_ok h → off = Z.of_nat (length pre + k) → (k < length h)%nat →
  QN (field k 1 h) s → wpb (load_byte off) QR QN s.
Proof.
  intros E Hh Ho Hk HQ. apply (wp_load_be 1 _ _ _ _ k _ _ s E Hh Ho); [lia|].
  by rewrite bswap1 by (apply (field_range _ 1); [done|lia]).
Qed.
Lemma wp_load_word off pre h post k (QR : Z → su_state K → Prop) QN s :
  su_pkt s = pre ++ h ++ post → bytes_ok h → off = Z.of_nat (length pre + k) → (k + 4 ≤ length h)%nat →
  QN (bpf_ntohl (field k 4 h)) s → wpb (load_word off) QR QN s.
Proof.
  intros E Hh Ho Hk HQ. apply (wp_load_be 4 _ _ _ _ k _ _ s E Hh Ho Hk).
  by rewrite bswap4_ntohl by (apply (field_range _ 4); [done|lia]).
Qed.

Lemma plain_ports p : plain p → ports_of p = Some (field 0 2 (payload p), field 2 2 (payload p)).
Proof.
  intros [_ _ Ht Hl _]. unfold ports_of, ports_at. rewrite (proj2 (Z.eqb_neq _ _)) by done.
  by rewrite (proj2 (Z.ltb_ge _ _)).
Qed.
Lemma plain_vlan p i : plain p → vlan_id p i = 0.
Proof. intros [_ Ht _ _ _]. unfold vlan_id, vlan_of. rewrite Ht. by case_match. Qed.
Lemma th_len_tcp_udp proto :
  th_len proto ≠ 0 → negb ((proto =? IPPROTO_TCP) || (proto =? IPPROTO_UDP)) = false.
Proof. unfold th_len. by destruct (proto =? IPPROTO_TCP), (proto =? IPPROTO_UDP). Qed.
Lemma th_len_8 proto : th_len proto ≠ 0 → 8 ≤ th_len proto.
Proof. unfold th_len, sizeof_tcphdr, sizeof_udphdr. by repeat case_match. Qed.

(** The entry in one table, counted; and the verdict. *)
Lemma wp_bypass4 p h s :
  su_pkt s = encode p → plain p → ip p = Ip4 h → cb0 s = 14 →
  let k := host_key4 (key_with p (field 12 4 h) (field 16 4 h)
             (field 0 2 (payload p), field 2 2 (payload p))) in
  wpf (Bypass.ipv4_filter 0 0) (λ v s1,
    v = (if bool_decide (is_Some (flow_table_v4 s !! k)) then 0 else -1) ∧
    flow_table_v4 s1 = alter (Filter.count (len_of p)) k (flow_table_v4 s) ∧
    flow_table_v6 s1 = flow_table_v6 s) s.
Proof.
  intros E Hpl Ei Hc k. pose proof Hpl as [Hok Ht Hth Hl Hihl]. pose proof Hok as [_ _ _ Hip Hb].
  pose proof (pkt_len_encode p s E) as Hlen. pose proof (l2_plain p Hok Ht) as H14.
  rewrite Ei in Hip, Hth, Hl, Hihl. destruct Hip as [Hh Hhb]. unfold encode in E. rewrite Ei in E.
  cbn [ip_bytes] in E. cbn [protocol] in *. pose proof (th_len_8 _ Hth).
  apply wp_run, wp_bind, wp_gets. rewrite Hc.
  apply wp_bind, (wp_load_byte _ _ _ _ 9 _ _ s E Hhb); [by rewrite H14|lia|].
  apply wp_bind, wp_return_if; [by rewrite th_len_tcp_udp|intros _].
  apply wp_bind, (wp_load_word _ _ _ _ 12 _ _ s E Hhb); [by rewrite H14|lia|].
  apply wp_bind, (wp_load_word _ _ _ _ 16 _ _ s E Hhb); [by rewrite H14|lia|].
  apply wp_bind, (wp_load_byte _ _ _ _ 0 _ _ s E Hhb); [by rewrite H14|lia|]. rewrite Hihl.
  assert (su_pkt s = (l2_bytes p ++ h) ++ payload p) as E1 by (by rewrite E, <-app_assoc).
  apply wp_bind, (wp_load_ports _ _ _ _ _ s E1 Hb); [by rewrite length_app, H14, Hh|lia|].
  apply wp_bind, wp_gets.
  assert (FlowKeys (bpf_ntohl (field 12 4 h)) (bpf_ntohl (field 16 4 h)) (bpf_ntohs (field 0 2 (payload p)))
    (bpf_ntohs (field 2 2 (payload p))) (if field 9 1 h =? IPPROTO_TCP then 1 else 0) 0 0 = k) as ->.
  { unfold k, key_with. rewrite !plain_vlan by done. by rewrite Ei. }
  apply wp_bind, wp_when; intros Hk.
  - apply wp_bind, wp_modify, wp_return. rewrite Hlen. by rewrite Hk.
  - apply wp_ret. rewrite Hk. split_and!; [done| |done]. symmetry.
    apply bool_decide_eq_false, eq_None_not_Some in Hk. apply alter_id. intros x Hx. congruence.
Qed.

Lemma wp_load_addr6_be off pre h post k (QR : Z → su_state K → Prop) QN s :
  su_pkt s = pre ++ h ++ post → bytes_ok h → off = Z.of_nat (length pre + k) → (k + 16 ≤ length h)%nat →
  QN (ntohl6 (addr6_at k h)) s → wpb (Bypass.load_addr6_be off) QR QN s.
Proof.
  intros E Hh -> Hk HQ. unfold Bypass.load_addr6_be.
  apply wp_bind, (wp_load_word _ _ _ _ k _ _ s E Hh); [lia|lia|].
  apply wp_bind, (wp_load_word _ _ _ _ (k + 4) _ _ s E Hh); [lia|lia|].
  apply wp_bind, (wp_load_word _ _ _ _ (k + 8) _ _ s E Hh); [lia|lia|].
  apply wp_bind, (wp_load_word _ _ _ _ (k + 12) _ _ s E Hh); [lia|lia|]. by apply wp_ret.
Qed.

Lemma wp_bypass6 p h s :
  su_pkt s = encode p → plain p → ip p = Ip6 h → cb0 s = 14 →
  let k := host_key6 (key_with p (addr6_at 8 h) (addr6_at 24 h)
             (field 0 2 (payload p), field 2 2 (payload p))) in
  wpf (Bypass.ipv6_filter 0 0) (λ v s1,
    v = (if bool_decide (is_Some (flow_table_v6 s !! k)) then 0 else -1) ∧
    flow_table_v6 s1 = alter (Filter.count (len_of p)) k (flow_table_v6 s) ∧
    flow_table_v4 s1 = flow_table_v4 s) s.
Proof.
  intros E Hpl Ei Hc k. pose proof Hpl as [Hok Ht Hth Hl _]. pose proof Hok as [_ _ _ Hip Hb].
  pose proof (pkt_len_encode p s E) as Hlen. pose proof (l2_plain p Hok Ht) as H14.
  rewrite Ei in Hip, Hth, Hl. destruct Hip as [Hh Hhb]. unfold encode in E. rewrite Ei in E.
  cbn [ip_bytes] in E. cbn [protocol] in *. pose proof (th_len_8 _ Hth).
  apply wp_run, wp_bind, wp_gets. rewrite Hc.
  apply wp_bind, (wp_load_byte _ _ _ _ 6 _ _ s E Hhb); [by rewrite H14|lia|].
  apply wp_bind, wp_return_if; [by rewrite th_len_tcp_udp|intros _].
  apply wp_bind, (wp_load_addr6_be _ _ _ _ 8 _ _ s E Hhb); [by rewrite H14|lia|].
  apply wp_bind, (wp_load_addr6_be _ _ _ _ 24 _ _ s E Hhb); [by rewrite H14|lia|].
  assert (su_pkt s = (l2_bytes p ++ h) ++ payload p) as E1 by (by rewrite E, <-app_assoc).
  apply wp_bind, (wp_load_ports _ _ _ _ _ s E1 Hb); [by rewrite length_app, H14, Hh|lia|].
  apply wp_bind, wp_gets.
  assert (FlowKeys (ntohl6 (addr6_at 8 h)) (ntohl6 (addr6_at 24 h)) (bpf_ntohs (field 0 2 (payload p)))
    (bpf_ntohs (field 2 2 (payload p))) (if field 6 1 h =? IPPROTO_TCP then 1 else 0) 0 0 = k) as ->.
  { unfold k, key_with. rewrite !plain_vlan by done. by rewrite Ei. }
  apply wp_bind, wp_when; intros Hk.
  - apply wp_bind, wp_modify, wp_return. rewrite Hlen. by rewrite Hk.
  - apply wp_ret. rewrite Hk. split_and!; [done| |done]. symmetry.
    apply bool_decide_eq_false, eq_None_not_Some in Hk. apply alter_id. intros x Hx. congruence.
Qed.

(** Two tables with the same entries, up to the representation of keys, still
    have them when the entries of a key are counted. *)
Lemma alter_agree {A} `{Countable A} (t t' : gmap A pair) (conv : A → A) (ok : A → Prop) f k :
  (∀ a b, ok a → ok b → conv a = conv b → a = b) → ok k →
  (∀ a, ok a → t' !! conv a = t !! a) →
  ∀ a, ok a → alter f (conv k) t' !! conv a = alter f k t !! a.
Proof.
  intros Hinj Hk Hag a Ha. destruct (decide (a = k)) as [->|Hne].
  - by rewrite !lookup_alter_eq, Hag.
  - rewrite !lookup_alter_ne by (try done; intros E; apply Hne; symmetry; by apply Hinj). by apply Hag.
Qed.

Lemma wp_bypass p s s' :
  su_pkt s' = encode p → plain p → vlan_tci s' = 0 → tables_agree s s' →
  wpf Bypass.hashfilter (λ v s1', v = (if bypassed p s then 0 else -1) ∧ tables_agree (counted p s) s1') s'.
Proof.
  intros E Hpl Hv [A4 A6]. pose proof Hpl as [Hok Ht Hth Hl _]. pose proof (th_len_8 _ Hth).
  pose proof Hok as [_ _ _ Hip Hb]. apply (wp_bypass_start p _ _ _ _ E Hok Ht Hv).
  pose proof (field_range 0 2 (payload p) Hb ltac:(lia)) as R0.
  pose proof (field_range 2 2 (payload p) Hb ltac:(lia)) as R2.
  unfold bypassed, counted, su_flow_key. rewrite (plain_ports p Hpl).
  destruct (ip p) as [h|h] eqn:Ei; destruct Hip as [Hh Hhb]; cbn [hosts_of].
  - eapply wpf_mono; [by apply (wp_bypass4 p h)|]. intros v s1 (-> & E4 & E6).
    set (k := key_with p (field 12 4 h) (field 16 4 h) _) in *.
    assert (key4_ok k) as Hk.
    { split_and!; [apply (field_range _ 4); [done|lia]..|exact R0|exact R2]. }
    split; [change (flow_table_v4 (s' <| cb0 := 14 |>)) with (flow_table_v4 s'); by rewrite A4|].
    unfold tables_agree. rewrite E4, E6. split; [|exact A6].
    exact (alter_agree _ _ _ _ _ _ host_key4_inj Hk A4).
  - rewrite (proj2 (Z.eqb_neq _ _)) by exact Hth.
    eapply wpf_mono; [by apply (wp_bypass6 p h)|]. intros v s1 (-> & E6 & E4).
    set (k := key_with p (addr6_at 8 h) (addr6_at 24 h) _) in *.
    assert (key6_ok k) as Hk.
    { split_and!; [..|exact R0|exact R2]; repeat split; apply (field_range _ 4); (done || lia). }
    split; [change (flow_table_v6 (s' <| cb0 := 14 |>)) with (flow_table_v6 s'); by rewrite A6|].
    unfold tables_agree. rewrite E4, E6. split; [exact A4|].
    exact (alter_agree _ _ _ _ _ _ host_key6_inj Hk A6).
Qed.
End agree.

(** C21: The socket filter [bypass_filter.c] and the XDP filter agree: when
    their tables hold the same flows, one in host and one in network order, an
    untagged TCP or UDP packet without IP options is dropped by the first
    exactly if it is bypassed by the second, and both count it the same, so
    that the tables still agree. *)
Theorem bypass_filters_agree {K} `{SuEnvLaws K} `{FilterBuild} p (s s' : su_state K) :
  plain p → tables_ok s → su_pkt s = encode p → su_pkt s' = encode p → vlan_tci s' = 0 →
  tables_agree s s' →
  ∃ v s1 v' s1', Filter.xdp_hashfilter s = Some (v, s1) ∧ Bypass.hashfilter s' = Some (v', s1') ∧
    v' = (if bypassed p s then 0 else -1) ∧ tables_agree s1 s1'.
Proof.
  intros Hpl (_ & _ & Hp) E E' Hv Ha.
  destruct (wpf_elim _ _ _ (wp_hashfilter p s E (pl_ok _ Hpl) Hp)) as (v & s1 & E1 & T4 & T6 & _).
  destruct (wpf_elim _ _ _ (wp_bypass p s s' E' Hpl Hv Ha)) as (v' & s1' & E1' & -> & A).
  exists v, s1. eexists _, s1'. split_and!; [done..|]. unfold tables_agree. by rewrite T4, T6.
Qed.

(** ** Examples *)
Definition request_key : flow_keys Z :=
  FlowKeys (le_val host_a) (le_val host_b) (le_val [0x12; 0x34]) (le_val [0; 80]) 1 0 0.
Definition bypass_example : su_state unit :=
  su_example <| flow_table_v4 := {[ request_key := Pair 3 100 ]} |>.
Definition bypass_host : su_state unit :=
  su_example <| flow_table_v4 := {[ host_key4 request_key := Pair 3 100 ]} |>.

Lemma bypass_example_ok : tables_ok bypass_example.
Proof.
  split_and!; [|done|done]. apply map_Forall_singleton. by split.
Qed.
Lemma request_plain : plain request.
Proof. split; [exact request_ok|done|done|done|done]. Qed.

Lemma bypassed_flow_accounted_witness :
  ∃ outs s', filter_run [request; answer; request] bypass_example = Some (outs, s') ∧
    (∀ k, flow_table_v4 s' !! k =
      grown (of_key (inl k) [request; answer; request]) <$> flow_table_v4 bypass_example !! k) ∧
    (∀ k, flow_table_v6 s' !! k =
      grown (of_key (inr k) [request; answer; request]) <$> flow_table_v6 bypass_example !! k) ∧
    Forall2 (λ p o, treated p bypass_example o.1 o.2) [request; answer; request] outs.
Proof.
  apply (bypassed_flow_accounted [request; answer; request] bypass_example).
  - do 3 (apply Forall_cons; split; [first [exact request_ok|exact answer_ok]|]). done.
  - exact bypass_example_ok.
Defined.

Lemma bypass_filters_agree_witness :
  ∃ v s1 v' s1', Filter.xdp_hashfilter bypass_example = Some (v, s1) ∧
    Bypass.hashfilter bypass_host = Some (v', s1') ∧ v' = 0 ∧ tables_agree s1 s1'.
Proof.
  assert (bypassed request bypass_example = true) as Hb by (vm_compute; reflexivity).
  pose proof (bypass_filters_agree request bypass_example bypass_host request_plain bypass_example_ok
    eq_refl eq_refl eq_refl) as W. rewrite Hb in W. apply W.
  split; [|done]. intros k Hk.
  change ((({[ host_key4 request_key := Pair 3 100 ]} : gmap (flow_keys Z) pair) !! host_key4 k) =
          ({[ request_key := Pair 3 100 ]} : gmap (flow_keys Z) pair) !! k).
  destruct (decide (k = request_key)) as [->|Hne]; [by rewrite !lookup_singleton_eq|].
  rewrite !lookup_singleton_ne; [done|congruence|].
  intros E. apply Hne. symmetry. by apply (host_key4_inj request_key k ltac:(by vm_compute) Hk).
Defined.
