(* ===== verification/SkAccel.v ===== *)
(** * Acceleration of local sockets ([sk-accelerate-main/src/])

    [sockops.c] records the sockets of local TCP connections and, when a
    service address stands between the two ends, which key each end has to look
    up for the other ([sockops.h]); [sockmap_redir.c] hands the messages of one
    socket directly to the other. *)
From S2P Require Import Prelude Records Words.
Open Scope c_scope.

Definition BPF_SOCK_OPS_ACTIVE_ESTABLISHED_CB : Z := 4.
Definition BPF_SOCK_OPS_PASSIVE_ESTABLISHED_CB : Z := 5.
Definition BPF_SOCK_OPS_STATE_CB : Z := 10.
Definition BPF_SOCK_OPS_STATE_CB_FLAG : Z := Z.shiftl 1 2.
Definition BPF_TCP_CLOSE : Z := 7.
Definition BPF_TCP_CLOSE_WAIT : Z := 8.
Definition BPF_TCP_LAST_ACK : Z := 9.
Definition SK_PASS : Z := 1.

(** ** Data *)

(** The union of [ip4] and [ip6]: [ip4] is the first word, and the programs
    clear a key before they write it. *)
Definition sk_addr : Type := (Z * Z * Z * Z)%type.
Definition set_ip4 (a : Z) : sk_addr := (a, 0, 0, 0).
Definition ip4 (a : sk_addr) : Z := let '(w, _, _, _) := a in w.

Record sock_key : Type := SockKey {
  src : sk_addr; dst : sk_addr; family : Z; sport : Z; dport : Z }.
Definition sock_key_tuple (k : sock_key) := (src k, dst k, family k, sport k, dport k).
#[export] Instance sock_key_eq_dec : EqDecision sock_key.
Proof. solve_decision. Defined.
#[export] Instance sock_key_countable : Countable sock_key.
Proof.
  apply (inj_countable' sock_key_tuple (λ '(a, b, c, d, e), SockKey a b c d e)). by intros [].
Defined.

(** [struct bpf_sock_ops] and [struct sk_msg_md], as far as they are read;
    [o_sk] is the socket itself. *)
Record bpf_sock_ops : Type := SockOps {
  o_op : Z; o_args1 : Z; o_family : Z; o_remote_ip4 : Z; o_local_ip4 : Z;
  o_remote_ip6 : sk_addr; o_local_ip6 : sk_addr; o_remote_port : Z; o_local_port : Z; o_sk : Z }.
Record sk_msg_md : Type := SkMsg {
  m_family : Z; m_remote_ip4 : Z; m_local_ip4 : Z;
  m_remote_ip6 : sk_addr; m_local_ip6 : sk_addr; m_remote_port : Z; m_local_port : Z }.

Record sk_state (K : Type) : Type := SkState {
  (** Sockets by the key of their own end. *)
  sock_ops_map : gmap sock_key Z;
  (** Address and port of an end-point, to those of its service. *)
  endpoints_to_service_map : gmap (Z * Z) (Z * Z);
  sock_ops_aux_map : gmap sock_key sock_key;
  (** The callbacks switched on for a socket. *)
  cb_flags : gmap Z Z;
  (** The socket the current message is redirected to. *)
  msg_redirect : option Z;
  sk_kern : K }.
Arguments SkState {K}. Arguments sock_ops_map {K}. Arguments endpoints_to_service_map {K}.
Arguments sock_ops_aux_map {K}. Arguments cb_flags {K}. Arguments msg_redirect {K}.
Arguments sk_kern {K}.
#[export] Instance eta_sk_state K : Eta (sk_state K) := λ s,
  SkState (sock_ops_map s) (endpoints_to_service_map s) (sock_ops_aux_map s) (cb_flags s)
    (msg_redirect s) (sk_kern s).

(** The kernel: [bpf_map_update_elem] on [sock_ops_aux_map],
    [bpf_sock_hash_update] and [bpf_sock_ops_cb_flags_set], with their results. *)
Class SkEnv (K : Type) : Type := {
  sk_aux_update : sock_key → sock_key → gmap sock_key sock_key → K →
    Z * gmap sock_key sock_key * K;
  sk_hash_update : sock_key → Z → gmap sock_key Z → K → Z * gmap sock_key Z * K;
  sk_cb_flags_set : Z → Z → K → Z * K }.
(** Updates with [BPF_ANY] succeed while the table has room; callbacks the
    kernel knows can be switched on. *)
Class SkEnvLaws (K : Type) `{SkEnv K} : Prop := {
  sk_aux_update_spec k v m κ : Z.of_nat (size m) < 1024 → fst (sk_aux_update k v m κ) = (0, <[k := v]> m);
  sk_hash_update_spec k v m κ : Z.of_nat (size m) < 65535 → fst (sk_hash_update k v m κ) = (0, <[k := v]> m);
  sk_cb_flags_set_spec sk κ : fst (sk_cb_flags_set sk BPF_SOCK_OPS_STATE_CB_FLAG κ) = 0 }.

Section program.
Context {K : Type} `{SkEnv K}.
Abbreviation sbody := (body (sk_state K) Z).

Definition aux_update (k v : sock_key) : sbody unit :=
  λ s, let '(_, m, κ) := sk_aux_update k v (sock_ops_aux_map s) (sk_kern s) in
       Next tt (s <| sock_ops_aux_map := m |> <| sk_kern := κ |>).
Definition aux_delete (k : sock_key) : sbody unit :=
  modify (λ s, s <| sock_ops_aux_map ::= delete k |>).
Definition bpf_sock_hash_update (sk : Z) (k : sock_key) : sbody Z :=
  λ s, let '(r, m, κ) := sk_hash_update k sk (sock_ops_map s) (sk_kern s) in
       Next r (s <| sock_ops_map := m |> <| sk_kern := κ |>).
Definition bpf_sock_ops_cb_flags_set (sk flags : Z) : sbody Z :=
  λ s, let '(r, κ) := sk_cb_flags_set sk flags (sk_kern s) in
       Next r (s <| cb_flags ::= (if r =? 0 then <[sk := flags]> else id) |> <| sk_kern := κ |>).
(** The message goes to the socket of the key; without one the helper fails
    and the message takes its normal way. *)
Definition bpf_msg_redirect_hash (k : sock_key) : sbody unit :=
  modify (λ s, s <| msg_redirect := sock_ops_map s !! k |>).

(** ** [sockops.c] *)
Definition sk_extractv4_key (ops : bpf_sock_ops) : sock_key :=
  SockKey (set_ip4 (o_local_ip4 ops)) (set_ip4 (o_remote_ip4 ops)) 2
    (Z.shiftr (bpf_htonl (o_local_port ops)) 16) (Z.shiftr (o_remote_port ops) 16).
Definition sk_extractv6_key (ops : bpf_sock_ops) : sock_key :=
  SockKey (o_local_ip6 ops) (o_remote_ip6 ops) 10
    (Z.shiftr (bpf_htonl (o_local_port ops)) 16) (Z.shiftr (o_remote_port ops) 16).

Definition is_endpoint (key : sock_key) : sbody (option (Z * Z)) :=
  gets (λ s, endpoints_to_service_map s !! (ip4 (src key), sport key)).

(** The three entries for a connection of an end-point. *)
Definition add_service (key : sock_key) (service : Z * Z) : sbody unit :=
  let key1 := SockKey (set_ip4 (ip4 (dst key))) (set_ip4 (ip4 (src key))) (family key) (dport key) (sport key) in
  let value1 := SockKey (set_ip4 (ip4 (dst key))) (set_ip4 (fst service)) (family key) (dport key) (snd service) in
  aux_update key1 value1 ;;
  let key1 := SockKey (set_ip4 (fst service)) (set_ip4 (ip4 (dst key))) (family key) (snd service) (dport key) in
  let value1 := SockKey (set_ip4 (ip4 (src key))) (set_ip4 (ip4 (dst key))) (family key) (sport key) (dport key) in
  aux_update key1 value1 ;;
  let key1 := SockKey (set_ip4 (ip4 (dst key))) (set_ip4 0) 0 (dport key) 0 in
  let value1 := SockKey (set_ip4 (ip4 (src key))) (set_ip4 0) 0 (sport key) 0 in
  aux_update key1 value1.

Definition bpf_sock_ops_ipv4 (skops : bpf_sock_ops) : sbody unit :=
  let key := sk_extractv4_key skops in
  let! service := is_endpoint key in
  match service with Some service => add_service key service | None => ret tt end ;;
  let! _ := bpf_sock_hash_update (o_sk skops) key in
  let! _ := bpf_sock_ops_cb_flags_set (o_sk skops) BPF_SOCK_OPS_STATE_CB_FLAG in
  ret tt.

Definition bpf_sock_ops_ipv4_cleanup (skops : bpf_sock_ops) : sbody unit :=
  let key := sk_extractv4_key skops in
  let! value := gets (λ s, sock_ops_aux_map s !! key) in
  match value with
  | None =>
      let key1 := SockKey (set_ip4 (ip4 (src key))) (set_ip4 0) 0 (sport key) 0 in
      let! value1 := gets (λ s, sock_ops_aux_map s !! key1) in
      match value1 with
      | Some value1 =>
          let key2 := SockKey (set_ip4 (ip4 (src key))) (set_ip4 (ip4 (src value1))) (family key)
                        (sport key) (sport value1) in
          aux_delete key2 ;;
          let key3 := SockKey (set_ip4 (ip4 (dst key))) (set_ip4 (ip4 (src key))) (family key)
                        (dport key) (sport key) in
          aux_delete key3 ;; aux_delete key1
      | None => ret tt
      end
  | Some value =>
      let key1 := SockKey (set_ip4 (ip4 (dst value))) (set_ip4 (ip4 (src value))) (family value)
                    (dport value) (sport value) in
      aux_delete key ;; aux_delete key1 ;;
      let key2 := SockKey (set_ip4 (ip4 (src key))) (set_ip4 0) 0 (sport key) 0 in
      aux_delete key2
  end.

Definition bpf_sock_ops_ipv6 (skops : bpf_sock_ops) : sbody unit :=
  let! _ := bpf_sock_hash_update (o_sk skops) (sk_extractv6_key skops) in ret tt.

Definition bpf_sockops (skops : bpf_sock_ops) : func (sk_state K) Z := run (
  let family := o_family skops in
  let op := o_op skops in
  (if (op =? BPF_SOCK_OPS_PASSIVE_ESTABLISHED_CB) || (op =? BPF_SOCK_OPS_ACTIVE_ESTABLISHED_CB) then
     if family =? 2 then bpf_sock_ops_ipv4 skops
     else if family =? 10 then
       if negb (o_remote_ip4 skops =? 0) && negb (o_remote_ip4 skops =? 0x600007f)
       then bpf_sock_ops_ipv4 skops else bpf_sock_ops_ipv6 skops
     else ret tt
   else if op =? BPF_SOCK_OPS_STATE_CB then
     if (o_args1 skops =? BPF_TCP_CLOSE) || (o_args1 skops =? BPF_TCP_CLOSE_WAIT)
        || (o_args1 skops =? BPF_TCP_LAST_ACK)
     then when (family =? 2) (bpf_sock_ops_ipv4_cleanup skops)
     else ret tt
   else ret tt) ;;
  ret 0).

(** ** [sockmap_redir.c] *)
Definition sk_msg_extract4_key (msg : sk_msg_md) : sock_key :=
  SockKey (set_ip4 (m_remote_ip4 msg)) (set_ip4 (m_local_ip4 msg)) 2
    (Z.shiftr (m_remote_port msg) 16) (Z.shiftr (bpf_htonl (m_local_port msg)) 16).
Definition sk_msg_extract6_key (msg : sk_msg_md) : sock_key :=
  SockKey (m_remote_ip6 msg) (m_local_ip6 msg) 10
    (Z.shiftr (m_remote_port msg) 16) (Z.shiftr (bpf_htonl (m_local_port msg)) 16).

Definition bpf_tcpip_bypass (msg : sk_msg_md) : func (sk_state K) Z := run (
  let! key :=
    if m_family msg =? 2 then ret (sk_msg_extract4_key msg)
    else if m_family msg =? 10 then
      ret (if negb (m_remote_ip4 msg =? 0) then sk_msg_extract4_key msg else sk_msg_extract6_key msg)
    else return_ SK_PASS in
  let! aux_key := gets (λ s, sock_ops_aux_map s !! key) in
  match aux_key with
  | Some aux_key => bpf_msg_redirect_hash aux_key
  | None => bpf_msg_redirect_hash key
  end ;;
  ret SK_PASS).
End program.
