(* ===== verification/SkAccelSpec.v ===== *)
(** * Acceleration of local sockets: messages reach the other end

    A connection is opened by a client to the address of a service, behind
    which the socket of an end-point takes it.  The events of any number of
    such connections, in any order, are run through the programs. *)
From S2P Require Import Prelude Records Words SkAccel.
Open Scope c_scope.

(** ** Connections and their events *)

(** Address and port, in network order; the sockets of the two ends. *)
Definition host : Type := (Z * Z)%type.
Record conn : Type := Conn { cl : host; sv : host; ep : host; cl_sk : Z; ep_sk : Z }.
#[export] Instance conn_eq_dec : EqDecision conn.
Proof. solve_decision. Defined.

Definition port_ok (a : host) : Prop := 0 ≤ a.2 < 2 ^ 16.
(** [E] is [endpoints_to_service_map]: the end-point is one of the service;
    clients are neither end-points nor services. *)
Definition conn_ok (E : gmap host host) (c : conn) : Prop :=
  port_ok (cl c) ∧ port_ok (sv c) ∧ port_ok (ep c) ∧
  E !! ep c = Some (sv c) ∧ E !! cl c = None ∧ E !! sv c = None ∧
  map_Forall (λ _ v, v ≠ cl c) E.

Definition established (op : Z) (loc rem : host) (sk : Z) : bpf_sock_ops :=
  SockOps op 0 2 rem.1 loc.1 (set_ip4 0) (set_ip4 0) (Z.shiftl rem.2 16) (bpf_ntohs loc.2) sk.
Definition state_change (st : Z) (loc rem : host) (sk : Z) : bpf_sock_ops :=
  SockOps BPF_SOCK_OPS_STATE_CB st 2 rem.1 loc.1 (set_ip4 0) (set_ip4 0) (Z.shiftl rem.2 16)
    (bpf_ntohs loc.2) sk.
Definition message (loc rem : host) : sk_msg_md :=
  SkMsg 2 rem.1 loc.1 (set_ip4 0) (set_ip4 0) (Z.shiftl rem.2 16) (bpf_ntohs loc.2).

Inductive event : Type :=
| ClientUp (c : conn)
| EndpointUp (c : conn)
(** The state of the socket changes to [st]. *)
| ClientState (st : Z) (c : conn)
| EndpointState (st : Z) (c : conn)
(** The kernel removes a closed socket. *)
| Gone (k : sock_key).

Definition closing (st : Z) : bool :=
  (st =? BPF_TCP_CLOSE) || (st =? BPF_TCP_CLOSE_WAIT) || (st =? BPF_TCP_LAST_ACK).

Definition pair_key (a b : host) : sock_key := SockKey (set_ip4 a.1) (set_ip4 b.1) 2 a.2 b.2.
Definition host_key (a : host) : sock_key := SockKey (set_ip4 a.1) (set_ip4 0) 0 a.2 0.

(** What an open connection has in [sock_ops_aux_map]. *)
Definition entries (c : conn) : list (sock_key * sock_key) :=
  [(pair_key (cl c) (ep c), pair_key (cl c) (sv c));
   (pair_key (sv c) (cl c), pair_key (ep c) (cl c));
   (host_key (cl c), host_key (ep c))].

(** The connections of the moment by their clients, with whether the end-point
    is established too, and the sockets the kernel knows. *)
Record conns : Type := Conns { open : gmap host (conn * bool); known : gmap sock_key Z }.

Definition max_conns : nat := 340.

Inductive conn_step (E : gmap host host) : conns → event → conns → Prop :=
| step_client_up o h c :
    conn_ok E c → o !! cl c = None → (size o < max_conns)%nat → Z.of_nat (size h) < 65535 →
    conn_step E (Conns o h) (ClientUp c)
      (Conns (<[cl c := (c, false)]> o) (<[pair_key (cl c) (sv c) := cl_sk c]> h))
| step_endpoint_up o h c :
    o !! cl c = Some (c, false) → Z.of_nat (size h) < 65535 →
    conn_step E (Conns o h) (EndpointUp c)
      (Conns (<[cl c := (c, true)]> o) (<[pair_key (ep c) (cl c) := ep_sk c]> h))
| step_client_other o h st c :
    conn_ok E c → closing st = false → conn_step E (Conns o h) (ClientState st c) (Conns o h)
| step_client_closing o h st c :
    conn_ok E c → closing st = true → (∀ p, o !! cl c = Some p → p.1 = c) →
    conn_step E (Conns o h) (ClientState st c) (Conns (delete (cl c) o) h)
| step_endpoint_state o h st c :
    conn_ok E c → conn_step E (Conns o h) (EndpointState st c) (Conns o h)
| step_gone o h k :
    (∀ c b, o !! cl c = Some (c, b) → k ≠ pair_key (cl c) (sv c) ∧ k ≠ pair_key (ep c) (cl c)) →
    conn_step E (Conns o h) (Gone k) (Conns o (delete k h)).

Inductive conn_steps (E : gmap host host) : conns → list event → conns → Prop :=
| steps_nil x : conn_steps E x [] x
| steps_snoc x y z l e : conn_steps E x l y → conn_step E y e z → conn_steps E x (l ++ [e]) z.

(** ** Keys *)
Lemma bswap32_half y : 0 ≤ y < 2 ^ 16 → bswap32 y = bswap16 y * 2 ^ 16.
Proof.
  intros Hy. unfold bswap32, bswap16, bswap. rewrite (le_bytes_app 2 2).
  rewrite (Z.div_small y) by exact Hy. rewrite reverse_app, le_val_app.
  change (le_val (reverse (le_bytes 2 0))) with 0. change (length (reverse (le_bytes 2 0))) with 2%nat.
  change (256 ^ Z.of_nat 2) with (2 ^ 16). lia.
Qed.
Lemma htonl_ntohs n : 0 ≤ n < 2 ^ 16 → Z.shiftr (bpf_htonl (bpf_ntohs n)) 16 = n.
Proof.
  intros Hn. pose proof (bpf_ntohs_range n) as Hr. unfold bpf_htonl.
  rewrite u32_id by lia. rewrite bswap32_half by done.
  rewrite Z.shiftr_div_pow2, Z.div_mul by lia.
  unfold bpf_ntohs, bswap16. rewrite bswap_bswap, u16_id by done. by apply Z.mod_small.
Qed.
Lemma shiftr_port n : Z.shiftr (Z.shiftl n 16) 16 = n.
Proof. rewrite Z.shiftr_shiftl_l by done. apply Z.shiftl_0_r. Qed.

(** ** The table of a set of connections *)
Definition conns_ok (E : gmap host host) (o : gmap host (conn * bool)) : Prop :=
  ∀ a c b, o !! a = Some (c, b) → cl c = a ∧ conn_ok E c.
Definition aux_ok (o : gmap host (conn * bool)) (m : gmap sock_key sock_key) : Prop :=
  ∀ k v, m !! k = Some v ↔ ∃ a c, o !! a = Some (c, true) ∧ (k, v) ∈ entries c.

Definition keys (c : conn) : list sock_key := (entries c).*1.

Lemma pair_key_inj a b a' b' : pair_key a b = pair_key a' b' → a = a' ∧ b = b'.
Proof. destruct a, b, a', b'. unfold pair_key. intros Hk. injection Hk. intros. by simpl in *; subst. Qed.
Lemma host_key_inj a b : host_key a = host_key b → a = b.
Proof. destruct a, b. unfold host_key. intros Hk. injection Hk. intros. by simpl in *; subst. Qed.
Lemma pair_host_key a b c : pair_key a b ≠ host_key c.
Proof. done. Qed.
Lemma elem_of_keys k c :
  k ∈ keys c ↔ k = pair_key (cl c) (ep c) ∨ k = pair_key (sv c) (cl c) ∨ k = host_key (cl c).
Proof. unfold keys. simpl. rewrite !elem_of_cons, elem_of_nil. tauto. Qed.
Lemma elem_of_entries k v c :
  (k, v) ∈ entries c ↔
    k = pair_key (cl c) (ep c) ∧ v = pair_key (cl c) (sv c) ∨
    k = pair_key (sv c) (cl c) ∧ v = pair_key (ep c) (cl c) ∨
    k = host_key (cl c) ∧ v = host_key (ep c).
Proof. unfold entries. rewrite !elem_of_cons, elem_of_nil, !pair_equal_spec. tauto. Qed.
Lemma entries_keys k v c : (k, v) ∈ entries c → k ∈ keys c.
Proof. rewrite elem_of_entries, elem_of_keys. tauto. Qed.

Section tables.
Context (E : gmap host host).

Lemma client_not_service c c' : conn_ok E c → conn_ok E c' → cl c ≠ sv c'.
Proof. intros (_ & _ & _ & _ & _ & _ & Hc) (_ & _ & _ & He & _) Heq. by apply (Hc _ _ He). Qed.
Lemma client_not_endpoint c c' : conn_ok E c → conn_ok E c' → cl c ≠ ep c'.
Proof. intros (_ & _ & _ & _ & Hc & _) (_ & _ & _ & He & _) Heq. rewrite Heq in Hc. congruence. Qed.
Lemma endpoint_not_service c c' : conn_ok E c → conn_ok E c' → ep c ≠ sv c'.
Proof. intros (_ & _ & _ & He & _) (_ & _ & _ & _ & _ & Hs & _) Heq. rewrite Heq in He. congruence. Qed.

(** The keys of two connections tell their clients. *)
Lemma keys_client k c c' : conn_ok E c → conn_ok E c' → k ∈ keys c → k ∈ keys c' → cl c = cl c'.
Proof.
  intros Hc Hc'. rewrite !elem_of_keys. pose proof (client_not_service c c' Hc Hc').
  pose proof (client_not_service c' c Hc' Hc).
  intros [->|[->| ->]] [Hk|[Hk|Hk]];
    try apply pair_key_inj in Hk as [??]; try apply host_key_inj in Hk; try done; congruence.
Qed.
Lemma entries_fun k v v' c : conn_ok E c → (k, v) ∈ entries c → (k, v') ∈ entries c → v = v'.
Proof.
  intros Hc. rewrite !elem_of_entries. pose proof (client_not_service c c Hc Hc).
  intros [[-> ->]|[[-> ->]|[-> ->]]] [[Hk ->]|[[Hk ->]|[Hk ->]]]; try done;
    try (apply pair_key_inj in Hk as [??]; congruence).
Qed.
(** What the ends of a connection look up that is not there. *)
Lemma not_in_keys c c' : conn_ok E c → conn_ok E c' →
  (pair_key (cl c) (sv c) ∉ keys c') ∧ (pair_key (ep c) (cl c) ∉ keys c') ∧ (host_key (ep c) ∉ keys c').
Proof.
  intros Hc Hc'. rewrite !elem_of_keys. pose proof (client_not_service c c' Hc Hc').
  pose proof (client_not_endpoint c' c Hc' Hc). pose proof (endpoint_not_service c c' Hc Hc').
  pose proof (endpoint_not_service c' c Hc' Hc).
  split_and!; intros [Hk|[Hk|Hk]];
    try discriminate Hk; try apply pair_key_inj in Hk as [??]; try apply host_key_inj in Hk; congruence.
Qed.

Definition add_entries (c : conn) (m : gmap sock_key sock_key) : gmap sock_key sock_key :=
  <[host_key (cl c) := host_key (ep c)]>
    (<[pair_key (sv c) (cl c) := pair_key (ep c) (cl c)]>
      (<[pair_key (cl c) (ep c) := pair_key (cl c) (sv c)]> m)).
Definition del_entries (c : conn) (m : gmap sock_key sock_key) : gmap sock_key sock_key :=
  delete (host_key (cl c)) (delete (pair_key (sv c) (cl c)) (delete (pair_key (cl c) (ep c)) m)).

Lemma lookup_add_entries c m k v : conn_ok E c →
  add_entries c m !! k = Some v ↔ (k, v) ∈ entries c ∨ ((k ∉ keys c) ∧ m !! k = Some v).
Proof.
  intros Hc. rewrite elem_of_entries, elem_of_keys. unfold add_entries.
  pose proof (client_not_service c c Hc Hc).
  assert (pair_key (sv c) (cl c) ≠ pair_key (cl c) (ep c)) as H12 by (intros [??]%pair_key_inj; congruence).
  pose proof (pair_host_key (sv c) (cl c) (cl c)) as H2. pose proof (pair_host_key (cl c) (ep c) (cl c)) as H1.
  rewrite !lookup_insert_Some. revert H12 H2 H1.
  generalize (pair_key (sv c) (cl c)) (host_key (cl c)) (pair_key (cl c) (ep c)).
  generalize (pair_key (cl c) (sv c)) (host_key (ep c)) (pair_key (ep c) (cl c)). intros. intuition congruence.
Qed.
Lemma lookup_del_entries c m k v :
  del_entries c m !! k = Some v ↔ (k ∉ keys c) ∧ m !! k = Some v.
Proof.
  rewrite elem_of_keys. unfold del_entries. rewrite !lookup_delete_Some.
  generalize (pair_key (sv c) (cl c)) (host_key (cl c)) (pair_key (cl c) (ep c)). intros. intuition congruence.
Qed.

Lemma aux_ok_add o c m : conns_ok E o → o !! cl c = Some (c, false) → aux_ok o m →
  aux_ok (<[cl c := (c, true)]> o) (add_entries c m).
Proof.
  intros Ho Hc Hm k v. destruct (Ho _ _ _ Hc) as [_ Hok]. rewrite lookup_add_entries by done.
  rewrite (Hm k v). split.
  - intros [He|[Hk (a & c' & Ha & He)]]; [exists (cl c), c; by rewrite lookup_insert_eq|].
    exists a, c'. split; [|done]. rewrite lookup_insert_ne; [done|].
    intros <-. rewrite Hc in Ha. done.
  - intros (a & c' & [[<- [= <-]]|[Hne Ha]]%lookup_insert_Some & He); [by left|].
    right. destruct (Ho _ _ _ Ha) as [<- Hok']. split; [|by eauto].
    intros Hk. apply Hne. by apply (keys_client k); eauto using entries_keys.
Qed.
Lemma aux_ok_del o c m : conns_ok E o → conn_ok E c → (∀ p, o !! cl c = Some p → p.1 = c) → aux_ok o m →
  aux_ok (delete (cl c) o) (del_entries c m).
Proof.
  intros Ho Hok Hc Hm k v. rewrite lookup_del_entries, (Hm k v). split.
  - intros [Hk (a & c' & Ha & He)]. exists a, c'. split; [|done]. rewrite lookup_delete_ne; [done|].
    intros <-. specialize (Hc _ Ha). simpl in Hc. subst c'. by apply Hk, (entries_keys k v).
  - intros (a & c' & [Hne Ha]%lookup_delete_Some & He). destruct (Ho _ _ _ Ha) as [<- Hok'].
    split; [|by eauto]. intros Hk. apply Hne. by apply (keys_client k); eauto using entries_keys.
Qed.
Lemma aux_ok_idle o c m : aux_ok o m → o !! cl c = None → aux_ok (<[cl c := (c, false)]> o) m.
Proof.
  intros Hm Hc k v. rewrite (Hm k v). split; intros (a & c' & Ha & He); exists a, c'; (split; [|done]).
  - rewrite lookup_insert_ne; [done|]. intros <-. congruence.
  - by apply lookup_insert_Some in Ha as [[_ [=]]|[_ Ha]].
Qed.

(** Three entries for each connection. *)
Lemma length_entries (l : list (host * (conn * bool))) :
  length (l ≫= λ p, entries p.2.1) = (3 * length l)%nat.
Proof. induction l as [|p l IH]; [done|]. cbn [mbind list_bind]. rewrite length_app, IH. simpl. lia. Qed.
Lemma aux_size o m : aux_ok o m → (size m ≤ 3 * size o)%nat.
Proof.
  intros Hm. rewrite <-!length_map_to_list, <-length_entries. apply submseteq_length.
  apply NoDup_submseteq; [apply NoDup_map_to_list|]. intros [k v].
  rewrite elem_of_map_to_list, (Hm k v), list_elem_of_bind. intros (a & c & Ha & He).
  exists (a, (c, true)). split; [done|]. by apply elem_of_map_to_list.
Qed.
Lemma aux_absent o m k : conns_ok E o → aux_ok o m → (∀ c, conn_ok E c → k ∉ keys c) → m !! k = None.
Proof.
  intros Ho Hm Hk. destruct (m !! k) as [v|] eqn:Ev; [|done]. exfalso.
  apply (Hm k v) in Ev as (a & c & Ha & He). destruct (Ho _ _ _ Ha) as [_ Hok].
  by apply (Hk c Hok), (entries_keys k v).
Qed.
End tables.

(** ** The programs on the events *)
Section runs.
Context {K : Type} `{SkEnvLaws K} (E : gmap host host).
Implicit Types (s : sk_state K).

Definition run_event (e : event) : func (sk_state K) Z :=
  match e with
  | ClientUp c => bpf_sockops (established BPF_SOCK_OPS_ACTIVE_ESTABLISHED_CB (cl c) (sv c) (cl_sk c))
  | EndpointUp c => bpf_sockops (established BPF_SOCK_OPS_PASSIVE_ESTABLISHED_CB (ep c) (cl c) (ep_sk c))
  | ClientState st c => bpf_sockops (state_change st (cl c) (sv c) (cl_sk c))
  | EndpointState st c => bpf_sockops (state_change st (ep c) (cl c) (ep_sk c))
  | Gone k => λ s, Some (0, s <| sock_ops_map ::= delete k |>)
  end.
Fixpoint run_events (l : list event) (s : sk_state K) : option (sk_state K) :=
  match l with
  | [] => Some s
  | e :: l => match run_event e s with Some (_, s) => run_events l s | None => None end
  end.

(** A message is handed to the socket [sk]. *)
Definition sent_to_socket s (m : sk_msg_md) (sk : Z) : Prop :=
  ∃ s', bpf_tcpip_bypass m s = Some (SK_PASS, s') ∧ msg_redirect s' = Some sk.

Lemma extract_established op loc rem sk : port_ok loc →
  sk_extractv4_key (established op loc rem sk) = pair_key loc rem.
Proof. intros Hp. unfold sk_extractv4_key, pair_key. simpl. by rewrite htonl_ntohs, shiftr_port. Qed.
Lemma extract_state st loc rem sk : port_ok loc →
  sk_extractv4_key (state_change st loc rem sk) = pair_key loc rem.
Proof. intros Hp. unfold sk_extractv4_key, pair_key. simpl. by rewrite htonl_ntohs, shiftr_port. Qed.
Lemma extract_message loc rem : port_ok loc →
  sk_msg_extract4_key (message loc rem) = pair_key rem loc.
Proof. intros Hp. unfold sk_msg_extract4_key, pair_key. simpl. by rewrite htonl_ntohs, shiftr_port. Qed.

(** The helpers, while there is room. *)
Lemma wp_aux_update k v (QR : Z → sk_state K → Prop) QN s :
  Z.of_nat (size (sock_ops_aux_map s)) < 1024 →
  (∀ κ, QN tt (s <| sock_ops_aux_map := <[k := v]> (sock_ops_aux_map s) |> <| sk_kern := κ |>)) →
  wpb (aux_update k v) QR QN s.
Proof.
  intros Hs HQ. unfold wpb, aux_update.
  pose proof (sk_aux_update_spec k v (sock_ops_aux_map s) (sk_kern s) Hs) as Hu.
  destruct (sk_aux_update _ _ _ _) as [[r m] κ]. injection Hu as -> ->. apply HQ.
Qed.
Lemma wp_hash_update sk k (QR : Z → sk_state K → Prop) QN s :
  Z.of_nat (size (sock_ops_map s)) < 65535 →
  (∀ κ, QN 0 (s <| sock_ops_map := <[k := sk]> (sock_ops_map s) |> <| sk_kern := κ |>)) →
  wpb (bpf_sock_hash_update sk k) QR QN s.
Proof.
  intros Hs HQ. unfold wpb, bpf_sock_hash_update.
  pose proof (sk_hash_update_spec k sk (sock_ops_map s) (sk_kern s) Hs) as Hu.
  destruct (sk_hash_update _ _ _ _) as [[r m] κ]. injection Hu as -> ->. apply HQ.
Qed.
Lemma wp_cb_flags sk (QR : Z → sk_state K → Prop) QN s :
  (∀ κ, QN 0 (s <| cb_flags := <[sk := BPF_SOCK_OPS_STATE_CB_FLAG]> (cb_flags s) |> <| sk_kern := κ |>)) →
  wpb (bpf_sock_ops_cb_flags_set sk BPF_SOCK_OPS_STATE_CB_FLAG) QR QN s.
Proof.
  intros HQ. unfold wpb, bpf_sock_ops_cb_flags_set.
  pose proof (sk_cb_flags_set_spec sk (sk_kern s)) as Hu.
  destruct (sk_cb_flags_set _ _ _) as [r κ]. simpl in Hu. subst r. apply HQ.
Qed.

(** A socket is recorded; that of an end-point with its service. *)
Definition recorded s loc rem sk (m : gmap sock_key sock_key) (κ : K) : sk_state K :=
  SkState (<[pair_key loc rem := sk]> (sock_ops_map s)) (endpoints_to_service_map s) m
    (<[sk := BPF_SOCK_OPS_STATE_CB_FLAG]> (cb_flags s)) (msg_redirect s) κ.

Lemma sockops_established op loc rem sk s :
  op = BPF_SOCK_OPS_ACTIVE_ESTABLISHED_CB ∨ op = BPF_SOCK_OPS_PASSIVE_ESTABLISHED_CB →
  bpf_sockops (established op loc rem sk) s =
    run (bpf_sock_ops_ipv4 (established op loc rem sk) ;; ret 0) s.
Proof. by intros [->| ->]. Qed.

Lemma wp_is_endpoint loc rem x (QR : Z → sk_state K → Prop) QN s :
  endpoints_to_service_map s !! loc = x → QN x s → wpb (is_endpoint (pair_key loc rem)) QR QN s.
Proof. destruct loc. by intros <-. Qed.

Lemma wp_client_up c s (Q : Z → sk_state K → Prop) :
  conn_ok E c → endpoints_to_service_map s = E → Z.of_nat (size (sock_ops_map s)) < 65535 →
  (∀ κ, Q 0 (recorded s (cl c) (sv c) (cl_sk c) (sock_ops_aux_map s) κ)) →
  wpf (run_event (ClientUp c)) Q s.
Proof.
  intros (Hp & _ & _ & _ & Hn & _) HE Hs HQ. unfold run_event, wpf.
  rewrite sockops_established by by left. apply wp_run, wp_bind. unfold bpf_sock_ops_ipv4.
  rewrite extract_established by done. apply wp_bind, (wp_is_endpoint _ _ None); [by rewrite HE|].
  apply wp_bind, wp_ret, wp_bind, wp_hash_update; [done|]. intros κ.
  apply wp_bind, wp_cb_flags. intros κ'. apply wp_ret, wp_ret, HQ.
Qed.
Lemma wp_endpoint_up c s (Q : Z → sk_state K → Prop) :
  conn_ok E c → endpoints_to_service_map s = E → Z.of_nat (size (sock_ops_map s)) < 65535 →
  (size (sock_ops_aux_map s) ≤ 1020)%nat →
  (∀ κ, Q 0 (recorded s (ep c) (cl c) (ep_sk c) (add_entries c (sock_ops_aux_map s)) κ)) →
  wpf (run_event (EndpointUp c)) Q s.
Proof.
  intros (_ & _ & Hp & Hn & _) HE Hs Ha HQ. unfold run_event, wpf.
  rewrite sockops_established by by right. apply wp_run, wp_bind. unfold bpf_sock_ops_ipv4.
  rewrite extract_established by done. apply wp_bind, (wp_is_endpoint _ _ (Some (sv c))); [by rewrite HE|].
  apply wp_bind. unfold add_service.
  assert (∀ k v (m : gmap sock_key sock_key), (size (<[k := v]> m) ≤ S (size m))%nat) as Hins.
  { intros k v m. destruct (m !! k) eqn:Ek; [rewrite map_size_insert_Some by eauto|rewrite map_size_insert_None by done]; lia. }
  set (m := sock_ops_aux_map s) in *.
  apply wp_bind, wp_aux_update; [fold m; lia|]. intros κ1.
  apply wp_bind, wp_aux_update; [cbn; fold m; match goal with |- context [<[?k:=?v]> m] => pose proof (Hins k v m) end; lia|].
  intros κ2. apply wp_aux_update.
  { cbn. fold m. match goal with |- context [<[?k:=?v]> (<[?k':=?v']> m)] =>
      pose proof (Hins k' v' m); pose proof (Hins k v (<[k':=v']> m)) end. lia. }
  intros κ3. apply wp_bind, wp_hash_update; [done|]. intros κ4.
  apply wp_bind, wp_cb_flags. intros κ5. apply wp_ret, wp_ret, HQ.
Qed.

Lemma sockops_state st loc rem sk s :
  bpf_sockops (state_change st loc rem sk) s =
    run ((if closing st then bpf_sock_ops_ipv4_cleanup (state_change st loc rem sk) else ret tt) ;; ret 0) s.
Proof. done. Qed.

(** The state of a socket changes: with the entries of its connection in the
    table, those are removed when the client closes; otherwise nothing is. *)
Lemma wp_state_other st loc rem sk s (Q : Z → sk_state K → Prop) :
  port_ok loc →
  closing st = false ∨
    sock_ops_aux_map s !! pair_key loc rem = None ∧ sock_ops_aux_map s !! host_key loc = None →
  Q 0 s → wpf (bpf_sockops (state_change st loc rem sk)) Q s.
Proof.
  intros Hp Hc HQ. unfold wpf. rewrite sockops_state. apply wp_run, wp_bind.
  destruct Hc as [->|[Hk Hh]]; [by apply wp_ret, wp_ret|]. destruct (closing st); [|by apply wp_ret, wp_ret].
  unfold bpf_sock_ops_ipv4_cleanup. rewrite extract_state by done.
  apply wp_bind, wp_gets. rewrite Hk. apply wp_bind, wp_gets. unfold host_key, pair_key in *.
  simpl. rewrite Hh. by apply wp_ret, wp_ret.
Qed.
Lemma wp_client_closing st c s (Q : Z → sk_state K → Prop) :
  port_ok (cl c) → closing st = true →
  sock_ops_aux_map s !! pair_key (cl c) (sv c) = None →
  sock_ops_aux_map s !! host_key (cl c) = Some (host_key (ep c)) →
  Q 0 (s <| sock_ops_aux_map := del_entries c (sock_ops_aux_map s) |>) →
  wpf (run_event (ClientState st c)) Q s.
Proof.
  intros Hp Hc Hk Hh HQ. unfold wpf, run_event. rewrite sockops_state, Hc. apply wp_run, wp_bind.
  unfold bpf_sock_ops_ipv4_cleanup. rewrite extract_state by done.
  apply wp_bind, wp_gets. rewrite Hk. apply wp_bind, wp_gets.
  change (SockKey (set_ip4 (ip4 (src (pair_key (cl c) (sv c))))) (set_ip4 0) 0
            (sport (pair_key (cl c) (sv c))) 0) with (host_key (cl c)).
  rewrite Hh. apply wp_bind, wp_modify, wp_bind, wp_modify, wp_modify, wp_ret, HQ.
Qed.

Lemma message_sent s loc rem k sk : port_ok loc →
  default (pair_key rem loc) (sock_ops_aux_map s !! pair_key rem loc) = k →
  sock_ops_map s !! k = Some sk → sent_to_socket s (message loc rem) sk.
Proof.
  intros Hp Hk Hs. eexists. unfold bpf_tcpip_bypass, run, bind. simpl.
  rewrite extract_message by done. unfold gets, ret. cbv beta.
  destruct (sock_ops_aux_map s !! pair_key rem loc) as [k'|]; simpl in Hk; subst k;
    (split; [reflexivity|done]).
Qed.

(** ** The state of the programs and the connections *)
Record agrees (x : conns) (s : sk_state K) : Prop := {
  ag_service : endpoints_to_service_map s = E;
  ag_known : sock_ops_map s = known x;
  ag_aux : aux_ok (open x) (sock_ops_aux_map s);
  ag_ok : conns_ok E (open x);
  ag_size : (size (open x) ≤ max_conns)%nat;
  ag_client a c b : open x !! a = Some (c, b) →
    known x !! pair_key (cl c) (sv c) = Some (cl_sk c) ∧
    cb_flags s !! cl_sk c = Some BPF_SOCK_OPS_STATE_CB_FLAG;
  ag_endpoint a c : open x !! a = Some (c, true) →
    known x !! pair_key (ep c) (cl c) = Some (ep_sk c) ∧
    cb_flags s !! ep_sk c = Some BPF_SOCK_OPS_STATE_CB_FLAG }.

Lemma flag_insert (a b f : Z) (m : gmap Z Z) : m !! b = Some f → <[a := f]> m !! b = Some f.
Proof. intros Hb. destruct (decide (a = b)) as [->|]; [by rewrite lookup_insert_eq|by rewrite lookup_insert_ne]. Qed.

Lemma agrees_client_up o h c s κ :
  conn_ok E c → o !! cl c = None → (size o < max_conns)%nat → agrees (Conns o h) s →
  agrees (Conns (<[cl c := (c, false)]> o) (<[pair_key (cl c) (sv c) := cl_sk c]> h))
    (recorded s (cl c) (sv c) (cl_sk c) (sock_ops_aux_map s) κ).
Proof.
  intros Hc Hn Hs [HE Hk Ha Ho _ Hcl Hep]. simpl in *. split; simpl.
  - done.
  - by rewrite Hk.
  - by apply aux_ok_idle.
  - intros a c' b [[<- [= <- <-]]|[_ Ha']]%lookup_insert_Some; [done|by apply (Ho a c' b)].
  - by rewrite map_size_insert_None.
  - intros a c' b [[<- [= <- <-]]|[Hne Ha']]%lookup_insert_Some; [by rewrite !lookup_insert_eq|].
    destruct (Ho _ _ _ Ha') as [<- Hc']. destruct (Hcl _ _ _ Ha') as [H1 H2]. split.
    + rewrite lookup_insert_ne by (intros [??]%pair_key_inj; congruence). done.
    + by apply flag_insert.
  - intros a c' [[_ [=]]|[Hne Ha']]%lookup_insert_Some.
    destruct (Ho _ _ _ Ha') as [<- Hc']. destruct (Hep _ _ Ha') as [H1 H2]. split.
    + pose proof (client_not_endpoint E c c' Hc Hc').
      rewrite lookup_insert_ne by (intros [??]%pair_key_inj; congruence). done.
    + by apply flag_insert.
Qed.
Lemma agrees_endpoint_up o h c s κ :
  o !! cl c = Some (c, false) → agrees (Conns o h) s →
  agrees (Conns (<[cl c := (c, true)]> o) (<[pair_key (ep c) (cl c) := ep_sk c]> h))
    (recorded s (ep c) (cl c) (ep_sk c) (add_entries c (sock_ops_aux_map s)) κ).
Proof.
  intros Hn [HE Hk Ha Ho Hs Hcl Hep]. simpl in *. destruct (Ho _ _ _ Hn) as [_ Hc].
  assert (∀ a c' b, <[cl c := (c, true)]> o !! a = Some (c', b) → ∃ b', o !! a = Some (c', b')) as Hold.
  { intros a c' b [[<- [= <- <-]]|[_ Ha']]%lookup_insert_Some; eauto. }
  split; simpl.
  - done.
  - by rewrite Hk.
  - by apply (aux_ok_add E).
  - intros a c' b [b' Ha']%Hold. by apply (Ho a c' b').
  - by rewrite map_size_insert_Some by eauto.
  - intros a c' b [b' Ha']%Hold. destruct (Ho _ _ _ Ha') as [<- Hc'].
    destruct (Hcl _ _ _ Ha') as [H1 H2]. pose proof (client_not_endpoint E c' c Hc' Hc).
    rewrite lookup_insert_ne by (intros [??]%pair_key_inj; congruence). split; [done|by apply flag_insert].
  - intros a c' [[<- [= <-]]|[Hne Ha']]%lookup_insert_Some; [by rewrite !lookup_insert_eq|].
    destruct (Ho _ _ _ Ha') as [<- Hc']. destruct (Hep _ _ Ha') as [H1 H2].
    rewrite lookup_insert_ne by (intros [??]%pair_key_inj; congruence). split; [done|by apply flag_insert].
Qed.

Lemma agrees_closed o h c m s :
  conn_ok E c → agrees (Conns o h) s → aux_ok (delete (cl c) o) m →
  agrees (Conns (delete (cl c) o) h) (s <| sock_ops_aux_map := m |>).
Proof.
  intros Hc [HE Hk Ha Ho Hs Hcl Hep] Hm. simpl in *. split; simpl; try done.
  - intros a c' b [_ Ha']%lookup_delete_Some. by apply (Ho a c' b).
  - rewrite map_size_delete. case_match; simpl; lia.
  - intros a c' b [_ Ha']%lookup_delete_Some. by apply (Hcl a c' b).
  - intros a c' [_ Ha']%lookup_delete_Some. by apply (Hep a c').
Qed.
Lemma agrees_gone o h k s :
  (∀ c b, o !! cl c = Some (c, b) → k ≠ pair_key (cl c) (sv c) ∧ k ≠ pair_key (ep c) (cl c)) →
  agrees (Conns o h) s →
  agrees (Conns o (delete k h)) (s <| sock_ops_map ::= delete k |>).
Proof.
  intros Hk' [HE Hk Ha Ho Hs Hcl Hep]. simpl in *. split; simpl; try done.
  - by rewrite <-Hk.
  - intros a c b Ha'. destruct (Ho _ _ _ Ha') as [<- _]. destruct (Hk' _ _ Ha').
    rewrite lookup_delete_ne by done. by apply (Hcl (cl c) c b).
  - intros a c Ha'. destruct (Ho _ _ _ Ha') as [<- _]. destruct (Hk' _ _ Ha').
    rewrite lookup_delete_ne by done. by apply (Hep (cl c)).
Qed.

Lemma agrees_absent x s c : conn_ok E c → agrees x s →
  sock_ops_aux_map s !! pair_key (cl c) (sv c) = None ∧
  sock_ops_aux_map s !! pair_key (ep c) (cl c) = None ∧
  sock_ops_aux_map s !! host_key (ep c) = None.
Proof.
  intros Hc Hx. split_and!; eapply (aux_absent E); try apply Hx; intros c' Hc';
    by destruct (not_in_keys E c c' Hc Hc') as (? & ? & ?).
Qed.
(** A client without established connection has no entries. *)
Lemma agrees_idle x s c : conn_ok E c → agrees x s → (∀ c', open x !! cl c ≠ Some (c', true)) →
  sock_ops_aux_map s !! host_key (cl c) = None ∧ aux_ok (delete (cl c) (open x)) (sock_ops_aux_map s).
Proof.
  intros Hc Hx Hn. pose proof (ag_ok _ _ Hx) as Ho. pose proof (ag_aux _ _ Hx) as Ha. split.
  - destruct (_ !! host_key (cl c)) as [v|] eqn:Ev; [|done]. exfalso.
    apply (Ha _ v) in Ev as (a & c' & Ha' & He). destruct (Ho _ _ _ Ha') as [<- Hc'].
    apply (Hn c'). rewrite (keys_client E (host_key (cl c)) c c'); eauto using entries_keys.
    rewrite elem_of_keys. auto.
  - intros k v. rewrite (Ha k v). split; intros (a & c' & Ha' & He); exists a, c'; (split; [|done]).
    + rewrite lookup_delete_ne; [done|]. intros <-. by apply (Hn c').
    + by apply lookup_delete_Some in Ha' as [_ ?].
Qed.

Lemma wp_client_close o h st c s :
  conn_ok E c → closing st = true → (∀ p, o !! cl c = Some p → p.1 = c) → agrees (Conns o h) s →
  wpf (run_event (ClientState st c)) (λ _ s', agrees (Conns (delete (cl c) o) h) s') s.
Proof.
  intros Hc Hst Hp Hx. destruct (agrees_absent _ _ _ Hc Hx) as (Hk & _ & _).
  destruct (decide (o !! cl c = Some (c, true))) as [Eo|Hno].
  - apply wp_client_closing; [apply Hc|done|done| |].
    + apply (ag_aux _ _ Hx). exists (cl c), c. split; [done|]. rewrite elem_of_entries. auto.
    + apply (agrees_closed _ _ c); [done|done|]. by apply (aux_ok_del E); [apply Hx| | |apply Hx].
  - destruct (agrees_idle _ _ _ Hc Hx) as [Hh Ha].
    { simpl. intros c' Ec'. apply Hno. by rewrite Ec', <-(Hp _ Ec'). }
    apply wp_state_other; [apply Hc|by right|].
    pose proof (agrees_closed _ _ _ _ _ Hc Hx Ha). by destruct s.
Qed.

Lemma step_agrees x e y s : conn_step E x e y → agrees x s →
  wpf (run_event e) (λ _ s', agrees y s') s.
Proof.
  intros Hstep Hx. destruct Hstep as [o h c Hc Ho Hs Hh|o h c Ho Hh|o h st c Hc Hst|o h st c Hc Hst Hp|o h st c Hc|o h k Hk].
  - apply wp_client_up; [done|apply Hx|by rewrite (ag_known _ _ Hx)|]. intros κ. by apply agrees_client_up.
  - apply wp_endpoint_up; [by apply (ag_ok _ _ Hx _ _ _ Ho)|apply Hx|by rewrite (ag_known _ _ Hx)| |].
    + pose proof (aux_size _ _ (ag_aux _ _ Hx)). pose proof (ag_size _ _ Hx). unfold max_conns in *. simpl in *. lia.
    + intros κ. by apply agrees_endpoint_up.
  - apply wp_state_other; [apply Hc|by left|done].
  - by apply wp_client_close.
  - destruct (agrees_absent _ _ _ Hc Hx) as (_ & Hk & Hh).
    apply wp_state_other; [apply Hc|by right|done].
  - unfold wpf. simpl. by apply agrees_gone.
Qed.

Lemma run_events_app l l' s :
  run_events (l ++ l') s = match run_events l s with Some s => run_events l' s | None => None end.
Proof. revert s. induction l as [|e l IH]; intros s; [done|]. simpl. by destruct (run_event e s) as [[? ?]|]. Qed.

Lemma steps_agree x l y s : conn_steps E x l y → agrees x s →
  ∃ s', run_events l s = Some s' ∧ agrees y s'.
Proof.
  intros Hl Hx. induction Hl as [x|x y z l e Hl IH He]; [by exists s|].
  destruct (IH Hx) as (s1 & E1 & Hy). destruct (wpf_elim _ _ _ (step_agrees _ _ _ _ He Hy)) as (r & s2 & E2 & Hz).
  exists s2. split; [|done]. rewrite run_events_app, E1. simpl. by rewrite E2.
Qed.

Lemma agrees_init s :
  endpoints_to_service_map s = E → sock_ops_map s = ∅ → sock_ops_aux_map s = ∅ → agrees (Conns ∅ ∅) s.
Proof.
  intros HE Hs Ha. split; simpl; try done.
  - intros k v. rewrite Ha, lookup_empty. split; [done|]. intros (a & c & Hn & _). by rewrite lookup_empty in Hn.
  - unfold max_conns. rewrite map_size_empty. lia.
Qed.

Lemma agrees_messages x s c : agrees x s → open x !! cl c = Some (c, true) →
  sent_to_socket s (message (cl c) (sv c)) (ep_sk c) ∧ sent_to_socket s (message (ep c) (cl c)) (cl_sk c).
Proof.
  intros Hx Ho. destruct (ag_ok _ _ Hx _ _ _ Ho) as [_ Hc].
  destruct (ag_client _ _ Hx _ _ _ Ho) as [Hcl _]. destruct (ag_endpoint _ _ Hx _ _ Ho) as [Hep _].
  split; eapply message_sent; try apply Hc; try (rewrite (ag_known _ _ Hx); eassumption).
  - rewrite (proj2 (ag_aux _ _ Hx _ (pair_key (ep c) (cl c)))); [done|].
    exists (cl c), c. split; [done|]. rewrite elem_of_entries. auto.
  - rewrite (proj2 (ag_aux _ _ Hx _ (pair_key (cl c) (sv c)))); [done|].
    exists (cl c), c. split; [done|]. rewrite elem_of_entries. auto.
Qed.
End runs.

(** C23: Sockets of connections through a service are joined, and no entry is
    left behind: after any sequence of events of any number of connections
    with different clients (up to 340 open at a time) [sock_ops_aux_map] holds
    exactly the three entries of each connection whose two ends are
    established and whose client has not closed; on such a connection a
    message of either end is handed to the socket of the other, and the kernel
    reports the state changes of both. *)
Theorem sockets_joined {K} `{SkEnvLaws K} E l x (s : sk_state K) :
  conn_steps E (Conns ∅ ∅) l x →
  endpoints_to_service_map s = E → sock_ops_map s = ∅ → sock_ops_aux_map s = ∅ →
  ∃ s', run_events l s = Some s' ∧ aux_ok (open x) (sock_ops_aux_map s') ∧
    ∀ c, open x !! cl c = Some (c, true) →
      sent_to_socket s' (message (cl c) (sv c)) (ep_sk c) ∧
      sent_to_socket s' (message (ep c) (cl c)) (cl_sk c) ∧
      cb_flags s' !! cl_sk c = Some BPF_SOCK_OPS_STATE_CB_FLAG ∧
      cb_flags s' !! ep_sk c = Some BPF_SOCK_OPS_STATE_CB_FLAG.
Proof.
  intros Hl HE Hs Ha. destruct (steps_agree E _ _ _ s Hl) as (s' & -> & Hx); [by apply agrees_init|].
  exists s'. split_and!; [done|apply Hx|]. intros c Hc. destruct (agrees_messages E x s' c Hx Hc).
  destruct (ag_client _ _ _ Hx _ _ _ Hc), (ag_endpoint _ _ _ Hx _ _ Hc). done.
Qed.

(** ** Examples *)
#[export] Instance sk_ref_env : SkEnv unit := {
  sk_aux_update k v m κ := if Z.of_nat (size m) <? 1024 then (0, <[k := v]> m, κ) else (-7, m, κ);
  sk_hash_update k v m κ := if Z.of_nat (size m) <? 65535 then (0, <[k := v]> m, κ) else (-7, m, κ);
  sk_cb_flags_set _ _ κ := (0, κ) }.
#[export] Instance sk_ref_laws : SkEnvLaws unit.
Proof.
  split; [intros k v m κ Hm|intros k v m κ Hm|done];
    simpl; by rewrite (proj2 (Z.ltb_lt _ _)).
Qed.

(** The addresses of the comment in [sockops.h]: pods 1 and 2, service 9; a
    second service 8 with pod 3. *)
Definition services : gmap host host := <[(2, 80) := (9, 8080)]> {[ (3, 80) := (8, 8080) ]}.
Definition conn_12 : conn := Conn (1, 4000) (9, 8080) (2, 80) 101 102.
Definition conn_13 : conn := Conn (1, 4001) (8, 8080) (3, 80) 103 104.
Definition sk_example : sk_state unit := SkState ∅ services ∅ ∅ None tt.
Definition sk_events : list event :=
  [ClientUp conn_12; EndpointUp conn_12; ClientUp conn_13; EndpointUp conn_13;
   EndpointState BPF_TCP_CLOSE_WAIT conn_12; ClientState BPF_TCP_CLOSE conn_12;
   Gone (pair_key (cl conn_12) (sv conn_12))].
Definition sk_after : conns :=
  Conns
    (delete (cl conn_12) (<[cl conn_13 := (conn_13, true)]> (<[cl conn_13 := (conn_13, false)]>
      (<[cl conn_12 := (conn_12, true)]> (<[cl conn_12 := (conn_12, false)]> ∅)))))
    (delete (pair_key (cl conn_12) (sv conn_12))
      (<[pair_key (ep conn_13) (cl conn_13) := 104]> (<[pair_key (cl conn_13) (sv conn_13) := 103]>
        (<[pair_key (ep conn_12) (cl conn_12) := 102]> (<[pair_key (cl conn_12) (sv conn_12) := 101]> ∅))))).

Lemma conn_12_ok : conn_ok services conn_12.
Proof. by split_and!; first [by split | vm_compute; reflexivity | apply (bool_decide_unpack _); vm_compute]. Qed.
Lemma conn_13_ok : conn_ok services conn_13.
Proof. by split_and!; first [by split | vm_compute; reflexivity | apply (bool_decide_unpack _); vm_compute]. Qed.
Lemma sk_events_ok : conn_steps services (Conns ∅ ∅) sk_events sk_after.
Proof.
  change sk_events with (([] ++ [ClientUp conn_12]) ++ [EndpointUp conn_12] ++ [ClientUp conn_13]
    ++ [EndpointUp conn_13] ++ [EndpointState BPF_TCP_CLOSE_WAIT conn_12]
    ++ [ClientState BPF_TCP_CLOSE conn_12] ++ [Gone (pair_key (cl conn_12) (sv conn_12))]).
  rewrite !app_assoc. eapply steps_snoc; [eapply steps_snoc; [eapply steps_snoc; [eapply steps_snoc;
    [eapply steps_snoc; [eapply steps_snoc; [eapply steps_snoc; [constructor|]|]|]|]|]|]|].
  - apply step_client_up; [apply conn_12_ok|done|by vm_compute; lia|done].
  - apply step_endpoint_up; done.
  - apply step_client_up; [apply conn_13_ok|done|by vm_compute; lia|done].
  - apply step_endpoint_up; done.
  - apply step_endpoint_state, conn_12_ok.
  - apply step_client_closing; [apply conn_12_ok|done|]. vm_compute. by intros p [= <-].
  - apply step_gone. intros c b [Hd Hc]%lookup_delete_Some.
    repeat (apply lookup_insert_Some in Hc as [[? [= <- <-]]|[_ Hc]]; [by first [split; discriminate | destruct Hd]|]).
    done.
Qed.

(** Where messages go after some events. *)
Definition redirects (l : list event) (ms : list sk_msg_md) : option (list (option Z)) :=
  (λ s, map (λ m, match bpf_tcpip_bypass m s with Some (_, s') => msg_redirect s' | None => None end) ms)
    <$> run_events l sk_example.

(** A connection made directly to the pod of a service: the pod's messages are
    looked up under the service address and not handed over. *)
Example direct_connection_one_way :
  let direct := Conn (1, 4000) (2, 80) (2, 80) 101 102 in
  redirects [ClientUp direct; EndpointUp direct]
    [message (1, 4000) (2, 80); message (2, 80) (1, 4000)] = Some [Some 102; None].
Proof. by vm_compute. Qed.
(** One client port used for two services: closing the first connection takes
    entries of the second. *)
Example shared_client_port :
  let other := Conn (1, 4000) (8, 8080) (3, 80) 103 104 in
  let events := [ClientUp conn_12; EndpointUp conn_12; ClientUp other; EndpointUp other] in
  let answer := message (3, 80) (1, 4000) in
  redirects events [answer] = Some [Some 103] ∧
  redirects (events ++ [ClientState BPF_TCP_CLOSE conn_12]) [answer] = Some [None].
Proof. by vm_compute. Qed.

Lemma sockets_joined_witness :
  ∃ s', run_events sk_events sk_example = Some s' ∧ aux_ok (open sk_after) (sock_ops_aux_map s') ∧
    ∀ c, open sk_after !! cl c = Some (c, true) →
      sent_to_socket s' (message (cl c) (sv c)) (ep_sk c) ∧
      sent_to_socket s' (message (ep c) (cl c)) (cl_sk c) ∧
      cb_flags s' !! cl_sk c = Some BPF_SOCK_OPS_STATE_CB_FLAG ∧
      cb_flags s' !! ep_sk c = Some BPF_SOCK_OPS_STATE_CB_FLAG.
Proof. apply (sockets_joined services); [exact sk_events_ok|done|done|done]. Defined.
