(* ===== verification/HxdpFw.v ===== *)
(** * A stateful firewall ([hxdp_xdp_progs/xdp_fw_kern.c])

    Packets from the inside open a flow and leave by port [B_PORT]; packets
    that come in there pass only when their flow is open. *)
From Stdlib Require Import ZifyBool.
From S2P Require Import Prelude Records Words Consts.
Open Scope c_scope.

(** ** [xdp_fw_common.h] *)
Definition A_PORT : Z := 6.
Definition B_PORT : Z := 7.
Record flow_ctx_table_key : Type := FlowCtxKey {
  ip_proto : Z; l4_src : Z; l4_dst : Z; ip_src : Z; ip_dst : Z }.
Record flow_ctx_table_leaf : Type := FlowCtxLeaf { out_port : Z; in_port : Z }.
Definition fw_key_tuple (k : flow_ctx_table_key) := (ip_proto k, l4_src k, l4_dst k, ip_src k, ip_dst k).
#[export] Instance fw_key_eq_dec : EqDecision flow_ctx_table_key.
Proof. solve_decision. Defined.
#[export] Instance fw_key_countable : Countable flow_ctx_table_key.
Proof.
  apply (inj_countable' fw_key_tuple (λ '(a, b, c, d, e), FlowCtxKey a b c d e)). by intros [].
Defined.

(** ** State and kernel *)
Abbreviation flow_table := (gmap flow_ctx_table_key flow_ctx_table_leaf) (only parsing).
Record hx_state (K : Type) : Type := HxState {
  hx_pkt : mem;
  ingress_ifindex : Z;
  flow_ctx_table : flow_table;
  (** The entries of [tx_port] packets were redirected to. *)
  tx_port : list Z;
  hx_kern : K }.
Arguments HxState {K}. Arguments hx_pkt {K}. Arguments ingress_ifindex {K}.
Arguments flow_ctx_table {K}. Arguments tx_port {K}. Arguments hx_kern {K}.
#[export] Instance eta_hx_state K : Eta (hx_state K) := λ s,
  HxState (hx_pkt s) (ingress_ifindex s) (flow_ctx_table s) (tx_port s) (hx_kern s).
#[export] Instance hx_pkt_state K : PktState (hx_state K) :=
  {| get_pkt := hx_pkt; set_pkt m s := s <| hx_pkt := m |> |}.
#[export] Instance hx_pkt_laws K : PktStateLaws (hx_state K).
Proof. split; [done..|]. by intros []. Qed.

(** [bpf_redirect_map(&tx_port, key, 0)], and [bpf_map_update_elem] on the flow
    table with [BPF_ANY]. *)
Class HxEnv (K : Type) : Type := {
  hx_redirect : Z → K → Z * K;
  hx_update : flow_ctx_table_key → flow_ctx_table_leaf → flow_table → K → flow_table * K }.
(** A redirection never answers [XDP_DROP]; an update succeeds while the table
    has room. *)
Class HxEnvLaws (K : Type) `{HxEnv K} : Prop := {
  hx_redirect_spec key κ : fst (hx_redirect key κ) ≠ XDP_DROP;
  hx_update_spec k v m κ : Z.of_nat (size m) < 1024 → fst (hx_update k v m κ) = <[k := v]> m }.

(** ** The program *)
Definition biflow (k : flow_ctx_table_key) : flow_ctx_table_key :=
  let '(s, d) := if ip_dst k <? ip_src k then (ip_dst k, ip_src k) else (ip_src k, ip_dst k) in
  let '(sp, dp) := if l4_dst k <? l4_src k then (l4_dst k, l4_src k) else (l4_src k, l4_dst k) in
  FlowCtxKey (ip_proto k) sp dp s d.

Section program.
Context {K : Type} `{HxEnv K}.
Abbreviation sbody := (body (hx_state K) Z).

Definition fw_redirect_map (key : Z) : sbody Z :=
  λ s, let '(v, κ) := hx_redirect key (hx_kern s) in
       Next v (s <| tx_port ::= cons key |> <| hx_kern := κ |>).
Definition fw_map_update (k : flow_ctx_table_key) (v : flow_ctx_table_leaf) : sbody unit :=
  λ s, let '(m, κ) := hx_update k v (flow_ctx_table s) (hx_kern s) in
       Next tt (s <| flow_ctx_table := m |> <| hx_kern := κ |>).

Definition xdp_fw_prog : func (hx_state K) Z := run (
  let nh_off := sizeof_ethhdr in
  let! oob := past_end nh_off in
  return_if oob XDP_DROP ;;
  let! ingress_ifindex := gets ingress_ifindex in
  let! h_proto := load16 eth_h_proto in
  return_if (negb (bpf_ntohs h_proto =? ETH_P_IP)) XDP_DROP ;;
  let ip := nh_off in
  let nh_off := nh_off + sizeof_iphdr in
  let! oob := past_end nh_off in
  return_if oob XDP_DROP ;;
  let! protocol := load8 (ip + ip_protocol) in
  return_if (negb ((protocol =? IPPROTO_TCP) || (protocol =? IPPROTO_UDP))) XDP_DROP ;;
  let l4 := nh_off in
  let nh_off := nh_off + sizeof_udphdr in
  let! oob := past_end nh_off in
  return_if oob XDP_DROP ;;
  let! saddr := load32 (ip + ip_saddr) in
  let! daddr := load32 (ip + ip_daddr) in
  let! source := load16 (l4 + udp_source) in
  let! dest := load16 (l4 + udp_dest) in
  let flow_key := biflow (FlowCtxKey protocol source dest saddr daddr) in
  if ingress_ifindex =? B_PORT then
    let! flow_leaf := gets (λ s, flow_ctx_table s !! flow_key) in
    match flow_leaf with
    | Some flow_leaf => fw_redirect_map (out_port flow_leaf)
    | None => ret XDP_DROP
    end
  else
    let! flow_leaf := gets (λ s, flow_ctx_table s !! flow_key) in
    when (bool_decide (flow_leaf = None)) (fw_map_update flow_key (FlowCtxLeaf A_PORT B_PORT)) ;;
    fw_redirect_map B_PORT).
End program.

(** ** Specification *)
Record packet : Type := Packet { ifindex : Z; frame : mem }.

(** A well-formed TCP or UDP packet, and what identifies its flow. *)
Record flow : Type := Flow { proto : Z; hosts : Z * Z; ports : Z * Z }.
Definition flow_of (m : mem) : option flow :=
  if (42 <=? Z.of_nat (length m)) && (bpf_ntohs (half_at 12 m) =? ETH_P_IP)
     && ((byte_at 23 m =? IPPROTO_TCP) || (byte_at 23 m =? IPPROTO_UDP))
  then Some (Flow (byte_at 23 m) (le_val (slice 26 4 m), le_val (slice 30 4 m)) (half_at 34 m, half_at 36 m))
  else None.
(** The same protocol, the same two addresses and the same two ports, each
    in either order. *)
Definition unordered (p q : Z * Z) : Prop := p = q ∨ p = (q.2, q.1).
Definition same_flow (f g : flow) : Prop :=
  proto f = proto g ∧ unordered (hosts f) (hosts g) ∧ unordered (ports f) (ports g).
(** Some packet from the inside is of the flow. *)
Definition opened (f : flow) (ps : list packet) : Prop :=
  ∃ p g, p ∈ ps ∧ ifindex p ≠ B_PORT ∧ flow_of (frame p) = Some g ∧ same_flow f g.

Definition key_of (f : flow) : flow_ctx_table_key :=
  biflow (FlowCtxKey (proto f) (ports f).1 (ports f).2 (hosts f).1 (hosts f).2).

Lemma unordered_sorted a b c d :
  (if b <? a then (b, a) else (a, b)) = (if d <? c then (d, c) else (c, d)) ↔ unordered (a, b) (c, d).
Proof.
  unfold unordered. simpl. destruct (Z.ltb_spec b a), (Z.ltb_spec d c);
    rewrite !pair_equal_spec; lia.
Qed.
Lemma key_of_same f g : key_of f = key_of g ↔ same_flow f g.
Proof.
  destruct f as [p [a b] [c d]], g as [p' [a' b'] [c' d']]. unfold key_of, same_flow, biflow. simpl.
  rewrite <-!unordered_sorted.
  destruct (b <? a), (b' <? a'), (d <? c), (d' <? c'); rewrite !pair_equal_spec;
    (split; [intros Hk; injection Hk; auto|intros (-> & [-> ->] & [-> ->]); done]).
Qed.
#[export] Instance same_flow_dec f g : Decision (same_flow f g).
Proof. refine (cast_if (decide (key_of f = key_of g))); by rewrite <-key_of_same. Defined.

Section theorems.
Context {K : Type} `{HxEnvLaws K}.
Implicit Types (s : hx_state K).

(** The packets one after the other, each with the verdict and the entries of
    [tx_port] it was redirected to. *)
Fixpoint fw_run (ps : list packet) s : option (list (Z * list Z) * hx_state K) :=
  match ps with
  | [] => Some ([], s)
  | p :: ps =>
      match xdp_fw_prog (s <| hx_pkt := frame p |> <| ingress_ifindex := ifindex p |> <| tx_port := [] |>) with
      | Some (v, s) =>
          match fw_run ps s with
          | Some (outs, s') => Some ((v, tx_port s) :: outs, s')
          | None => None
          end
      | None => None
      end
  end.

(** What is done with a packet that comes after the packets [before]. *)
Definition handled (before : list packet) (p : packet) (v : Z) (r : list Z) : Prop :=
  match flow_of (frame p) with
  | None => v = XDP_DROP ∧ r = []
  | Some f =>
      if ifindex p =? B_PORT then
        opened f before ∧ v ≠ XDP_DROP ∧ r = [A_PORT] ∨ ¬ opened f before ∧ v = XDP_DROP ∧ r = []
      else v ≠ XDP_DROP ∧ r = [B_PORT]
  end.

Definition table_ok (before : list packet) (m : flow_table) : Prop :=
  (size m ≤ length before)%nat ∧
  ∀ k v, m !! k = Some v ↔
    v = FlowCtxLeaf A_PORT B_PORT ∧
    ∃ p g, p ∈ before ∧ ifindex p ≠ B_PORT ∧ flow_of (frame p) = Some g ∧ key_of g = k.

Lemma table_opened before m f : table_ok before m →
  (opened f before → m !! key_of f = Some (FlowCtxLeaf A_PORT B_PORT)) ∧
  (¬ opened f before → m !! key_of f = None).
Proof.
  intros [_ Hm]. split.
  - intros (p & g & Hp & Hi & Hg & Hs). apply Hm. split; [done|]. exists p, g. split_and!; try done.
    symmetry. by apply key_of_same.
  - intros Hn. destruct (m !! key_of f) as [v|] eqn:Ev; [|done]. exfalso.
    apply Hm in Ev as (_ & p & g & Hp & Hi & Hg & Hk). apply Hn. exists p, g. split_and!; try done.
    by apply key_of_same.
Qed.
Lemma opened_keys f before :
  opened f before ↔ Exists (λ p, ifindex p ≠ B_PORT ∧ key_of <$> flow_of (frame p) = Some (key_of f)) before.
Proof.
  unfold opened. rewrite Exists_exists. split.
  - intros (p & g & Hp & Hi & Hg & Hs%key_of_same). exists p. rewrite Hg. simpl. by rewrite Hs.
  - intros (p & Hp & Hi & (g & Hk & Hg)%fmap_Some). exists p, g. split_and!; try done. by apply key_of_same.
Qed.
#[export] Instance opened_dec f before : Decision (opened f before).
Proof.
  destruct (decide (Exists (λ p, ifindex p ≠ B_PORT ∧ key_of <$> flow_of (frame p) = Some (key_of f)) before));
    [left|right]; by rewrite opened_keys.
Defined.

(** A packet that opens no flow. *)
Lemma table_ok_skip before p m :
  ifindex p = B_PORT ∨ flow_of (frame p) = None ∨ (∃ f, flow_of (frame p) = Some f ∧ opened f before) →
  table_ok before m → table_ok (before ++ [p]) m.
Proof.
  intros Hp [Hs Hm]. split; [rewrite length_app; lia|]. intros k v. rewrite (Hm k v). apply and_iff_compat_l.
  split.
  - intros (q & g & Hq & Hr). exists q, g. rewrite elem_of_app. auto.
  - intros (q & g & [Hq|<-%list_elem_of_singleton]%elem_of_app & Hi & Hg & Hk); [by exists q, g|].
    destruct Hp as [Hp|[Hp|(f & Hf & (q' & g' & Hq & Hi' & Hg' & Hsf))]]; [done|congruence|].
    exists q', g'. split_and!; try done. rewrite <-Hk. symmetry. apply key_of_same. by simplify_eq.
Qed.
Lemma table_ok_add before p f m :
  ifindex p ≠ B_PORT → flow_of (frame p) = Some f → ¬ opened f before → table_ok before m →
  table_ok (before ++ [p]) (<[key_of f := FlowCtxLeaf A_PORT B_PORT]> m).
Proof.
  intros Hi Hf Hn Ht. destruct (table_opened before m f Ht) as [_ Hk]. specialize (Hk Hn).
  destruct Ht as [Hs Hm]. split; [rewrite map_size_insert_None, length_app by done; simpl; lia|].
  intros k v. rewrite lookup_insert_Some, (Hm k v). split.
  - intros [[<- <-]|(_ & -> & q & g & Hq & Hr)]; (split; [done|]).
    + exists p, f. rewrite elem_of_app, list_elem_of_singleton. auto.
    + exists q, g. rewrite elem_of_app. auto.
  - intros (-> & q & g & [Hq|<-%list_elem_of_singleton]%elem_of_app & Hqi & Hg & <-).
    + destruct (decide (key_of f = key_of g)); [by left|right]. eauto 10.
    + left. by simplify_eq.
Qed.

(** The program after the headers. *)
Definition fw_decide (ingress_ifindex : Z) (f : flow) : body (hx_state K) Z Z :=
  if ingress_ifindex =? B_PORT then
    let! flow_leaf := gets (λ s, flow_ctx_table s !! key_of f) in
    match flow_leaf with
    | Some flow_leaf => fw_redirect_map (out_port flow_leaf)
    | None => ret XDP_DROP
    end
  else
    let! flow_leaf := gets (λ s, flow_ctx_table s !! key_of f) in
    when (bool_decide (flow_leaf = None)) (fw_map_update (key_of f) (FlowCtxLeaf A_PORT B_PORT)) ;;
    fw_redirect_map B_PORT.

Lemma wp_fw_parse s (Q : Z → hx_state K → Prop) :
  (flow_of (hx_pkt s) = None → Q XDP_DROP s) →
  (∀ f, flow_of (hx_pkt s) = Some f → wpb (fw_decide (ingress_ifindex s) f) Q Q s) → wpf xdp_fw_prog Q s.
Proof.
  unfold flow_of. set (m := hx_pkt s). set (b := _ && _ && _). intros HN HS.
  assert (b = false → Q XDP_DROP s) as HD by (intros Hb; apply HN; by rewrite Hb).
  assert (pkt_len s = Z.of_nat (length m)) as Hl by done. clear HN.
  apply wp_run, wp_bind, wp_past_end, wp_bind, wp_return_if; unfold sizeof_ethhdr; rewrite Hl; intros H1.
  { apply HD. subst b. lia. }
  apply wp_bind, wp_gets, wp_bind, wp_load; [done|rewrite Hl; unfold eth_h_proto; lia|].
  change (le_val _) with (half_at 12 m).
  apply wp_bind, wp_return_if; intros H2; [apply HD; subst b; lia|].
  apply wp_bind, wp_past_end, wp_bind, wp_return_if; rewrite Hl; unfold sizeof_iphdr; intros H3.
  { apply HD. subst b. lia. }
  apply wp_bind, wp_load; [done|rewrite Hl; unfold ip_protocol; lia|].
  change (le_val _) with (byte_at 23 m).
  apply wp_bind, wp_return_if; intros H4; [apply HD; subst b; lia|].
  apply wp_bind, wp_past_end, wp_bind, wp_return_if; rewrite Hl; unfold sizeof_udphdr; intros H5.
  { apply HD. subst b. lia. }
  do 4 (apply wp_bind, wp_load; [done|rewrite Hl; unfold ip_saddr, ip_daddr, udp_source, udp_dest; lia|]).
  assert (b = true) as Hb by (subst b; lia). rewrite Hb in HS.
  exact (HS _ eq_refl).
Qed.

Lemma wp_fw_redirect key (QR : Z → hx_state K → Prop) QN s :
  (∀ v κ, v ≠ XDP_DROP → QN v (s <| tx_port ::= cons key |> <| hx_kern := κ |>)) →
  wpb (fw_redirect_map key) QR QN s.
Proof.
  intros HQ. unfold wpb, fw_redirect_map. pose proof (hx_redirect_spec key (hx_kern s)) as Hr.
  destruct (hx_redirect _ _). by apply HQ.
Qed.

Lemma wp_fw before p s :
  hx_pkt s = frame p → ingress_ifindex s = ifindex p → tx_port s = [] →
  table_ok before (flow_ctx_table s) → Z.of_nat (length before) < 1024 →
  wpf xdp_fw_prog (λ v s', handled before p v (tx_port s') ∧ table_ok (before ++ [p]) (flow_ctx_table s')) s.
Proof.
  intros Hp Hi Hr Ht Hlen. apply wp_fw_parse; rewrite Hp; unfold handled.
  { intros Hn. rewrite Hn. split; [done|]. apply table_ok_skip; auto. }
  intros f Hf. rewrite Hf, Hi. destruct (table_opened _ _ f Ht) as [Ho Hc]. unfold fw_decide.
  destruct (Z.eqb_spec (ifindex p) B_PORT) as [Hb|Hb]; apply wp_bind, wp_gets.
  - destruct (decide (opened f before)) as [Hop|Hop]; [rewrite Ho by done|rewrite Hc by done].
    + apply wp_fw_redirect. intros v κ Hv. cbn. rewrite Hr. split; [by left|]. apply table_ok_skip; auto.
    + apply wp_ret. rewrite Hr. split; [by right|]. apply table_ok_skip; auto.
  - destruct (decide (opened f before)) as [Hop|Hop]; [rewrite Ho by done|rewrite Hc by done]; apply wp_bind.
    + apply wp_ret, wp_fw_redirect. intros v κ Hv. cbn. rewrite Hr. split; [done|].
      apply table_ok_skip; [|done]. right; right. by exists f.
    + rewrite bool_decide_true by done. unfold wpb at 1, when, fw_map_update.
      pose proof (hx_update_spec (key_of f) (FlowCtxLeaf A_PORT B_PORT) (flow_ctx_table s) (hx_kern s)) as Hu.
      destruct (hx_update _ _ _ _) as [m κ]. simpl in Hu. rewrite Hu by (destruct Ht; lia).
      apply wp_fw_redirect. intros v κ' Hv. cbn. rewrite Hr. split; [done|]. by apply table_ok_add.
Qed.

Lemma fw_run_ok ps before s :
  table_ok before (flow_ctx_table s) → Z.of_nat (length (before ++ ps)) ≤ 1024 →
  ∃ outs s', fw_run ps s = Some (outs, s') ∧
    ∀ i p, ps !! i = Some p → ∃ v r, outs !! i = Some (v, r) ∧ handled (before ++ take i ps) p v r.
Proof.
  revert before s. induction ps as [|p ps IH]; intros before s Ht Hlen; [by exists [], s|].
  set (s0 := s <| hx_pkt := frame p |> <| ingress_ifindex := ifindex p |> <| tx_port := [] |>).
  destruct (wpf_elim _ _ _ (wp_fw before p s0 eq_refl eq_refl eq_refl Ht
    ltac:(rewrite length_app in Hlen; simpl in Hlen; lia))) as (v & s1 & E1 & Hv & Ht1).
  destruct (IH (before ++ [p]) s1 Ht1) as (outs & s2 & E2 & Hrest); [by rewrite <-app_assoc|].
  exists ((v, tx_port s1) :: outs), s2. split; [simpl; fold s0; by rewrite E1, E2|].
  intros [|i] q Hq; simpl in Hq.
  - injection Hq as <-. exists v, (tx_port s1). by rewrite app_nil_r.
  - destruct (Hrest i q Hq) as (v' & r' & Hi & Hh). exists v', r'. split; [done|].
    by rewrite <-app_assoc in Hh.
Qed.
End theorems.

(** C24: The firewall is stateful: in any sequence of up to 1024 packets, one
    that comes in at the outside port passes exactly if an earlier packet from
    the inside had the same protocol, the same two addresses and the same two
    ports (each pair in either order); packets from the inside all leave by the
    outside port, and whatever is not TCP or UDP over IPv4 is dropped. *)
Theorem firewall_stateful {K} `{HxEnvLaws K} ps (s : hx_state K) :
  flow_ctx_table s = ∅ → Z.of_nat (length ps) ≤ 1024 →
  ∃ outs s', fw_run ps s = Some (outs, s') ∧
    ∀ i p, ps !! i = Some p → ∃ v r, outs !! i = Some (v, r) ∧ handled (take i ps) p v r.
Proof.
  intros Ht Hlen. apply (fw_run_ok ps [] s); [|done]. rewrite Ht. split; [by rewrite map_size_empty|].
  intros k v. rewrite lookup_empty. split; [done|]. by intros (_ & p & g & Hp%not_elem_of_nil & _).
Qed.

(** ** Example: a request from 10.0.0.1:4660 to 10.0.0.2:80, and its answer *)
#[export] Instance hx_ref_env : HxEnv unit := {
  hx_redirect _ κ := (4, κ);
  hx_update k v m κ := ((if Z.of_nat (size m) <? 1024 then <[k := v]> m else m), κ) }.
#[export] Instance hx_ref_laws : HxEnvLaws unit.
Proof. split; [done|]. intros k v m κ Hm. simpl. by rewrite (proj2 (Z.ltb_lt _ _) Hm). Qed.

Definition fw_frame (src dst sport dport : list Z) : mem :=
  repeat 0 12 ++ [8; 0; 0x45; 0; 0; 28; 0; 0; 0; 0; 64; 17; 0; 0] ++ src ++ dst ++ sport ++ dport ++ [0; 8; 0; 0].
Definition fw_request : packet :=
  Packet A_PORT (fw_frame [10; 0; 0; 1] [10; 0; 0; 2] [0x12; 0x34] [0; 80]).
Definition fw_answer : packet :=
  Packet B_PORT (fw_frame [10; 0; 0; 2] [10; 0; 0; 1] [0; 80] [0x12; 0x34]).
(** From port 4660 of the server to port 80 of the client. *)
Definition fw_other : packet :=
  Packet B_PORT (fw_frame [10; 0; 0; 2] [10; 0; 0; 1] [0x12; 0x34] [0; 80]).
Definition hx_example : hx_state unit := HxState [] 0 ∅ [] tt.

(** Addresses and ports are ordered separately, so that packets of another
    flow between the two hosts pass too. *)
Example other_flow_passes :
  fst <$> fw_run [fw_answer; fw_request; fw_answer; fw_other] hx_example =
    Some [(XDP_DROP, []); (4, [B_PORT]); (4, [A_PORT]); (4, [A_PORT])].
Proof. by vm_compute. Qed.

Lemma firewall_stateful_witness :
  let ps := [fw_answer; fw_request; fw_answer] in
  ∃ outs s', fw_run ps hx_example = Some (outs, s') ∧
    ∀ i p, ps !! i = Some p → ∃ v r, outs !! i = Some (v, r) ∧ handled (take i ps) p v r.
Proof. intros ps. apply (firewall_stateful ps hx_example); [done|by vm_compute]. Defined.
