(* ===== verification/BpfFilter.v ===== *)
(** * A filter for spoofed packets ([bpf-filter-master/ebpf/drop.c])

    A tc program on the interface of a pod: what comes from the pod has to bear
    the addresses of the interface. *)
From Stdlib Require Import ZifyBool.
From S2P Require Import Prelude Records Words Consts.
Open Scope c_scope.

Definition MAXELEM : Z := 2000.
Record pkt_count : Type := PktCount { drop_cnt : Z; pass_cnt : Z }.
#[export] Instance eta_pkt_count : Eta pkt_count := λ c, PktCount (drop_cnt c) (pass_cnt c).

(** Map values are stored as they are in memory: 6 bytes, and a word in
    network order. *)
Record bf_state : Type := BfState {
  bf_pkt : mem;
  bf_ifindex : Z;
  iface_map : gmap Z (list Z);
  iface_ip_map : gmap Z Z;
  iface_stat_map : gmap Z pkt_count }.
#[export] Instance eta_bf_state : Eta bf_state := λ s,
  BfState (bf_pkt s) (bf_ifindex s) (iface_map s) (iface_ip_map s) (iface_stat_map s).
#[export] Instance bf_pkt_state : PktState bf_state :=
  {| get_pkt := bf_pkt; set_pkt m s := s <| bf_pkt := m |> |}.
#[export] Instance bf_pkt_laws : PktStateLaws bf_state.
Proof. split; [done..|]. by intros []. Qed.

Definition compare_mac (mac1 mac2 : list Z) : bool :=
  forallb (λ i, nth i mac1 0 =? nth i mac2 0) [0; 1; 2; 3; 4; 5]%nat.
(** ['0xff'] is a character constant of four characters, whose last byte is
    that of ['f']. *)
Definition is_broadcast_mac (m : list Z) : bool :=
  forallb (λ i, nth i m 0 =? 0x66) [0; 1; 2; 3; 4; 5]%nat.

Section filter.
Abbreviation sbody := (body bf_state Z).
Definition ADD_DROP_STAT (idx : Z) : sbody unit :=
  when (idx <? MAXELEM)
    (modify (λ s, s <| iface_stat_map ::= alter (λ c, c <| drop_cnt := u32 (drop_cnt c + 1) |>) idx |>)).
Definition ADD_PASS_STAT (idx : Z) : sbody unit :=
  when (idx <? MAXELEM)
    (modify (λ s, s <| iface_stat_map ::= alter (λ c, c <| pass_cnt := u32 (pass_cnt c + 1) |>) idx |>)).

Definition filter : func bf_state Z := run (
  let! idx := gets bf_ifindex in
  let l3_offset := sizeof_ethhdr in
  let! oob := past_end l3_offset in
  return_if oob TC_ACT_SHOT ;;
  let! h_proto := load16 eth_h_proto in
  return_if (negb (h_proto =? 0x0008)) TC_ACT_OK ;;
  let ip := l3_offset in
  let! oob := past_end (ip + sizeof_iphdr) in
  return_if oob TC_ACT_OK ;;
  let! inf := gets (λ s, iface_stat_map s !! idx) in
  let! inf := or_return inf TC_ACT_OK in
  let! bytes := gets (λ s, iface_map s !! idx) in
  let! iface_mac := or_return bytes TC_ACT_OK in
  let! bytes := gets (λ s, iface_ip_map s !! idx) in
  let! iface_ip := or_return bytes TC_ACT_OK in
  let! h_source := load_bytes eth_h_source ETH_ALEN in
  let! h_dest := load_bytes eth_h_dest ETH_ALEN in
  return_if (is_broadcast_mac h_source || is_broadcast_mac h_dest) TC_ACT_OK ;;
  return_if (compare_mac h_dest iface_mac) TC_ACT_OK ;;
  let pkt_mac := h_source in
  let! pkt_ip := load32 (ip + ip_saddr) in
  when (negb (compare_mac pkt_mac iface_mac)) (ADD_DROP_STAT idx ;; return_ TC_ACT_SHOT) ;;
  when (negb (iface_ip =? pkt_ip)) (ADD_DROP_STAT idx ;; return_ TC_ACT_SHOT) ;;
  ADD_PASS_STAT idx ;;
  ret TC_ACT_OK).
Definition bpf_filter : func bf_state Z := filter.
End filter.

(** ** What is let through *)

(** An IPv4 packet; its addresses as the bytes have them. *)
Definition is_ip (m : mem) : bool := (34 <=? Z.of_nat (length m)) && (half_at 12 m =? 0x0008).
Definition src_mac (m : mem) : list Z := slice 6 6 m.
Definition dst_mac (m : mem) : list Z := slice 0 6 m.
Definition src_ip (m : mem) : Z := le_val (slice 26 4 m).

Lemma compare_mac_eq a b : length a = 6%nat → length b = 6%nat → compare_mac a b = bool_decide (a = b).
Proof.
  intros Ha Hb. do 7 (destruct a as [|? a]; try discriminate Ha). do 7 (destruct b as [|? b]; try discriminate Hb).
  unfold compare_mac. simpl. rewrite andb_true_r. case_bool_decide as Hab.
  - injection Hab as -> -> -> -> -> ->. by rewrite !Z.eqb_refl.
  - apply not_true_iff_false. intros Hn. apply Hab. rewrite !andb_true_iff, !Z.eqb_eq in Hn.
    by destruct Hn as (-> & -> & -> & -> & -> & ->).
Qed.
Lemma is_broadcast_mac_eq a : length a = 6%nat → is_broadcast_mac a = bool_decide (a = repeat 0x66 6).
Proof. intros Ha. by apply (compare_mac_eq a (repeat 0x66 6)). Qed.

Lemma wpf_exact {S R} (f : func S R) s r s' : wpf f (λ x y, x = r ∧ y = s') s → f s = Some (r, s').
Proof. intros Hf. by destruct (wpf_elim _ _ _ Hf) as (x & y & E & -> & ->). Qed.

Definition counted_pass s : bf_state :=
  s <| iface_stat_map ::= alter (λ c, c <| pass_cnt := u32 (pass_cnt c + 1) |>) (bf_ifindex s) |>.
Definition counted_drop s : bf_state :=
  s <| iface_stat_map ::= alter (λ c, c <| drop_cnt := u32 (drop_cnt c + 1) |>) (bf_ifindex s) |>.

Lemma wp_filter s mac ip c (Q : Z → bf_state → Prop) :
  let m := bf_pkt s in
  is_ip m = true → 0 ≤ bf_ifindex s < MAXELEM →
  iface_map s !! bf_ifindex s = Some mac →
  iface_ip_map s !! bf_ifindex s = Some ip → iface_stat_map s !! bf_ifindex s = Some c →
  (if is_broadcast_mac (src_mac m) || is_broadcast_mac (dst_mac m) || compare_mac (dst_mac m) mac
   then Q TC_ACT_OK s
   else if compare_mac (src_mac m) mac && (ip =? src_ip m)
   then Q TC_ACT_OK (counted_pass s) else Q TC_ACT_SHOT (counted_drop s)) →
  wpf bpf_filter Q s.
Proof.
  intros m Hip Hidx Hmac Hi Hst HQ.
  assert (34 ≤ Z.of_nat (length m) ∧ half_at 12 m = 8) as [Hl Hh] by (unfold is_ip in Hip; lia).
  assert (pkt_len s = Z.of_nat (length m)) as Hpl by done.
  assert ((bf_ifindex s <? MAXELEM) = true) as Hx by lia.
  apply wp_run, wp_bind, wp_gets, wp_bind, wp_past_end, wp_bind, wp_return_if;
    rewrite Hpl; unfold sizeof_ethhdr; intros H1; [lia|].
  apply wp_bind, wp_load; [done|rewrite Hpl; unfold eth_h_proto; lia|]. change (le_val _) with (half_at 12 m).
  rewrite Hh. apply wp_bind, wp_return_if; [done|intros _].
  apply wp_bind, wp_past_end, wp_bind, wp_return_if; rewrite Hpl; unfold sizeof_iphdr; intros H2; [lia|].
  apply wp_bind, wp_gets, wp_bind. rewrite Hst. apply wp_ret, wp_bind, wp_gets, wp_bind. rewrite Hmac.
  apply wp_ret, wp_bind, wp_gets, wp_bind. rewrite Hi.
  apply wp_ret, wp_bind, wp_load_bytes; [done|rewrite Hpl; unfold eth_h_source, ETH_ALEN; lia|].
  apply wp_bind, wp_load_bytes; [done|rewrite Hpl; unfold eth_h_dest, ETH_ALEN; lia|].
  change (slice (Z.to_nat eth_h_source) ETH_ALEN (get_pkt s)) with (src_mac m).
  change (slice (Z.to_nat eth_h_dest) ETH_ALEN (get_pkt s)) with (dst_mac m).
  apply wp_bind, wp_return_if; intros H3; rewrite H3 in HQ; [done|]. simpl in HQ.
  apply wp_bind, wp_return_if; intros H4; rewrite H4 in HQ; [done|].
  apply wp_bind, wp_load; [done|rewrite Hpl; unfold ip_saddr; lia|]. change (le_val _) with (src_ip m).
  unfold ADD_DROP_STAT, ADD_PASS_STAT. rewrite Hx.
  apply wp_bind, wp_when; intros H5; [apply wp_bind, wp_modify, wp_return|];
    rewrite ?negb_true_iff, ?negb_false_iff in H5; rewrite H5 in HQ; [done|]. simpl in HQ.
  apply wp_bind, wp_when; intros H6; [apply wp_bind, wp_modify, wp_return|];
    rewrite ?negb_true_iff, ?negb_false_iff in H6; rewrite H6 in HQ; [done|].
  apply wp_bind, wp_modify, wp_ret, HQ.
Qed.

(** Every IPv4 packet on an interface the maps know: one to the interface and
    one from or to the address taken for the broadcast address pass, uncounted;
    of the others exactly those with both addresses of the interface pass, and
    all of them are counted.  Nothing else changes. *)
Theorem no_spoofing s mac ip c :
  is_ip (bf_pkt s) = true → 0 ≤ bf_ifindex s < MAXELEM →
  iface_map s !! bf_ifindex s = Some mac → length mac = 6%nat →
  iface_ip_map s !! bf_ifindex s = Some ip → iface_stat_map s !! bf_ifindex s = Some c →
  let m := bf_pkt s in
  let free := src_mac m = repeat 0x66 6 ∨ dst_mac m = repeat 0x66 6 ∨ dst_mac m = mac in
  let own := src_mac m = mac ∧ src_ip m = ip in
  (free → bpf_filter s = Some (TC_ACT_OK, s)) ∧
  (¬ free → own → bpf_filter s = Some (TC_ACT_OK, counted_pass s)) ∧
  (¬ free → ¬ own → bpf_filter s = Some (TC_ACT_SHOT, counted_drop s)).
Proof.
  intros Hip Hidx Hmac Hlm Hi Hst m free own.
  assert (34 ≤ Z.of_nat (length m)) as Hl by (unfold is_ip in Hip; fold m in Hip; lia).
  pose proof (λ Q, wp_filter s mac ip c Q Hip Hidx Hmac Hi Hst) as W. fold m in W.
  rewrite !is_broadcast_mac_eq, !compare_mac_eq in W
    by first [done | unfold src_mac, dst_mac; rewrite length_slice; lia].
  set (fr := _ || _ || _) in W. set (ow := _ && _) in W.
  assert (fr = true ↔ free) as Hfr
    by (subst fr free; rewrite !orb_true_iff, !bool_decide_eq_true; tauto).
  assert (ow = true ↔ own) as Hown
    by (subst ow own; rewrite andb_true_iff, bool_decide_eq_true, Z.eqb_eq; intuition congruence).
  clearbody free own fr ow.
  split_and!; intros; apply wpf_exact, W; destruct fr, ow; try done; exfalso; intuition discriminate.
Qed.

(** ** Example: pod 10.0.0.1 on interface 5 *)
Definition pod_mac : list Z := [2; 0; 0; 0; 0; 1].
Definition bf_frame (dst src ip : list Z) : mem := dst ++ src ++ [8; 0] ++ repeat 0 12 ++ ip ++ repeat 0 4.
Definition bf_example (m : mem) : bf_state :=
  BfState m 5 {[ 5 := pod_mac ]} {[ 5 := le_val [10; 0; 0; 1] ]} {[ 5 := PktCount 0 0 ]}.
Definition bf_verdict (m : mem) : option (Z * option pkt_count) :=
  (λ '(v, s), (v, iface_stat_map s !! 5)) <$> bpf_filter (bf_example m).

(** The pod's own address passes, another does not; a broadcast of somebody
    else is dropped, although the filter means to pass broadcasts. *)
Example filter_own : bf_verdict (bf_frame (repeat 1 6) pod_mac [10; 0; 0; 1]) = Some (TC_ACT_OK, Some (PktCount 0 1)).
Proof. by vm_compute. Qed.
Example filter_spoofed : bf_verdict (bf_frame (repeat 1 6) pod_mac [10; 0; 0; 9]) = Some (TC_ACT_SHOT, Some (PktCount 1 0)).
Proof. by vm_compute. Qed.
Example filter_broadcast : bf_verdict (bf_frame (repeat 0xff 6) (repeat 3 6) [10; 0; 0; 9]) = Some (TC_ACT_SHOT, Some (PktCount 1 0)).
Proof. by vm_compute. Qed.
Lemma no_spoofing_witness :
  let m := bf_frame (repeat 1 6) pod_mac [10; 0; 0; 1] in
  bpf_filter (bf_example m) = Some (TC_ACT_OK, counted_pass (bf_example m)).
Proof.
  intros m.
  destruct (no_spoofing (bf_example m) pod_mac (le_val [10; 0; 0; 1]) (PktCount 0 0)) as (_ & Ho & _);
    [by vm_compute|by split|by vm_compute..|].
  apply Ho; vm_compute; intuition discriminate.
Defined.
