(* ===== verification/Kpng.v ===== *)
(** * Service translation at connect ([kpng-master/backends/ebpf/bpf/])

    [cgroup_connect4.c]: a program that runs when a socket connects and
    replaces the address of a service by that of one of its backends. *)
From S2P Require Import Prelude Records Words Consts.
Open Scope c_scope.

Definition SYS_PROCEED : Z := 1.
Definition ENXIO : Z := 6.
Definition ENOENT : Z := 2.

Record V4_key : Type := V4Key { address : Z; dport : Z; backend_slot : Z }.
Definition V4_key_tuple (k : V4_key) := (address k, dport k, backend_slot k).
#[export] Instance V4_key_eq_dec : EqDecision V4_key.
Proof. solve_decision. Defined.
#[export] Instance V4_key_countable : Countable V4_key.
Proof. apply (inj_countable' V4_key_tuple (λ '(a, b, c), V4Key a b c)). by intros []. Defined.
(** [backend_id] is the union, which the program only reads as that. *)
Record lb4_service : Type := Lb4Service {
  backend_id : Z; count : Z; rev_nat_index : Z; svc_flags : Z; svc_flags2 : Z }.
Record lb4_backend : Type := Lb4Backend { b_address : Z; b_port : Z; b_flags : Z }.

Record kp_state (K : Type) : Type := KpState {
  (** [struct bpf_sock_addr] *)
  user_ip4 : Z; user_port : Z; sk_protocol : Z;
  v4_svc_map : gmap V4_key lb4_service;
  v4_backend_map : gmap Z lb4_backend;
  kp_kern : K }.
Arguments KpState {K}. Arguments user_ip4 {K}. Arguments user_port {K}. Arguments sk_protocol {K}.
Arguments v4_svc_map {K}. Arguments v4_backend_map {K}. Arguments kp_kern {K}.
#[export] Instance eta_kp_state K : Eta (kp_state K) := λ s,
  KpState (user_ip4 s) (user_port s) (sk_protocol s) (v4_svc_map s) (v4_backend_map s) (kp_kern s).

(** [bpf_get_prandom_u32] *)
Class KpEnv (K : Type) : Type := { kp_random : K → Z * K }.
Class KpEnvLaws (K : Type) `{KpEnv K} : Prop := {
  kp_random_spec κ : 0 ≤ fst (kp_random κ) < 2 ^ 32 }.

Section program.
Context {K : Type} `{KpEnv K}.
Abbreviation sbody := (body (kp_state K) Z).

Definition lb4_lookup_service (key : V4_key) : sbody (option lb4_service) :=
  gets (λ s, v4_svc_map s !! key).
Definition ctx_dst_port : sbody Z := gets (λ s, u16 (user_port s)).
Definition sock_select_slot : sbody Z :=
  λ s, if sk_protocol s =? IPPROTO_TCP then
         let '(r, κ) := kp_random (kp_kern s) in Next r (s <| kp_kern := κ |>)
       else Next 0 s.
Definition __lb4_lookup_backend (id : Z) : sbody (option lb4_backend) :=
  gets (λ s, v4_backend_map s !! id).
Definition __lb4_lookup_backend_slot (key : V4_key) : sbody (option lb4_service) :=
  gets (λ s, v4_svc_map s !! key).
(** [BPF_HAVE_SOCKET_LOOKUP] is not defined. *)
Definition sock4_skip_xlate_if_same_netns (backend : lb4_backend) : sbody bool := ret false.
Definition ctx_set_port (dport : Z) : sbody unit := modify (λ s, s <| user_port := dport |>).

Definition __sock4_fwd : func (kp_state K) Z := run (
  let! ip := gets user_ip4 in
  let! port := ctx_dst_port in
  let key := V4Key ip port 0 in
  let! svc := lb4_lookup_service key in
  let! svc := or_return svc (- ENXIO) in
  let! slot := sock_select_slot in
  let! slot := or_fault (if count svc =? 0 then None else Some (slot mod count svc)) in
  let key := V4Key ip port (u16 (slot + 1)) in
  let! backend_slot := __lb4_lookup_backend_slot key in
  let! backend_slot := or_return backend_slot (- ENOENT) in
  let! backend := __lb4_lookup_backend (backend_id backend_slot) in
  let! backend := or_return backend (- ENOENT) in
  let! skip := sock4_skip_xlate_if_same_netns backend in
  return_if skip (- ENXIO) ;;
  modify (λ s, s <| user_ip4 := b_address backend |>) ;;
  ctx_set_port (b_port backend) ;;
  ret 0).

Definition sock4_connect : func (kp_state K) Z := run (
  let! _ := call __sock4_fwd in ret SYS_PROCEED).
End program.

(** ** What a connect becomes *)
Section theorems.
Context {K : Type} `{KpEnvLaws K}.
Implicit Types (s : kp_state K).

Definition service_of s : option lb4_service := v4_svc_map s !! V4Key (user_ip4 s) (u16 (user_port s)) 0.
(** The backend in a slot of the service, from 1. *)
Definition backend_at s (i : Z) : option lb4_backend :=
  e ← v4_svc_map s !! V4Key (user_ip4 s) (u16 (user_port s)) i; v4_backend_map s !! backend_id e.
Definition chosen_slot s (n : Z) : Z :=
  (if sk_protocol s =? IPPROTO_TCP then fst (kp_random (kp_kern s)) mod n else 0) + 1.
Definition connect_to s (dst : option lb4_backend) (s' : kp_state K) : Prop :=
  ∃ κ, s' = match dst with
            | Some b => s <| user_ip4 := b_address b |> <| user_port := b_port b |> <| kp_kern := κ |>
            | None => s <| kp_kern := κ |>
            end.

Lemma chosen_slot_range s n : 0 < n < 2 ^ 16 → 1 ≤ chosen_slot s n ≤ n.
Proof. intros Hn. unfold chosen_slot. case_match; [|lia]. pose proof (Z.mod_pos_bound (fst (kp_random (kp_kern s))) n). lia. Qed.

Lemma wp_select s (Q : Z → kp_state K → Prop) (QN : Z → kp_state K → Prop) :
  (∀ κ, QN (if sk_protocol s =? IPPROTO_TCP then fst (kp_random (kp_kern s)) else 0) (s <| kp_kern := κ |>)) →
  wpb sock_select_slot Q QN s.
Proof.
  intros HQ. unfold wpb, sock_select_slot. destruct (_ =? _).
  - destruct (kp_random (kp_kern s)) as [r κ]. apply HQ.
  - specialize (HQ (kp_kern s)). by destruct s.
Qed.

(** A connect to the address of a service is sent on to the backend in the
    chosen slot, any other address is left as it is, and so is a service
    whose slot or backend is missing; the connect always proceeds. *)
Theorem service_connect s :
  (∀ svc, service_of s = Some svc → 0 < count svc < 2 ^ 16) →
  ∃ s', sock4_connect s = Some (SYS_PROCEED, s') ∧
    connect_to s (svc ← service_of s; backend_at s (chosen_slot s (count svc))) s'.
Proof.
  intros Hn.
  assert (wpf sock4_connect (λ r s', r = SYS_PROCEED ∧
    connect_to s (svc ← service_of s; backend_at s (chosen_slot s (count svc))) s') s) as W.
  { apply wp_run, wp_bind, wp_call, wp_run, wp_bind, wp_gets, wp_bind, wp_gets, wp_bind, wp_gets, wp_bind.
    change (v4_svc_map s !! _) with (service_of s).
    apply wp_or_return; [intros ->; apply wp_ret; split; [done|exists (kp_kern s); by destruct s]|].
    intros svc Hsvc. specialize (Hn svc Hsvc). rewrite Hsvc. simpl.
    pose proof (chosen_slot_range s (count svc) Hn) as Hr.
    apply wp_bind, wp_select. intros κ. rewrite (proj2 (Z.eqb_neq _ _)) by lia.
    apply wp_bind, wp_ret, wp_bind, wp_gets.
    assert (u16 ((if sk_protocol s =? IPPROTO_TCP then fst (kp_random (kp_kern s)) else 0) mod count svc + 1) =
      chosen_slot s (count svc)) as ->.
    { rewrite <-(u16_id (chosen_slot s (count svc))) by lia. unfold chosen_slot. by destruct (_ =? IPPROTO_TCP). }
    unfold backend_at. apply wp_bind. cbn.
    destruct (v4_svc_map s !! _) as [e|]; simpl; [|apply wp_return, wp_ret; split; [done|by exists κ]].
    apply wp_ret, wp_bind, wp_gets, wp_bind. cbn.
    destruct (v4_backend_map s !! _) as [b|]; simpl; [|apply wp_return, wp_ret; split; [done|by exists κ]].
    apply wp_ret, wp_bind, wp_ret, wp_bind, wp_ret, wp_bind, wp_modify, wp_bind, wp_modify, wp_ret, wp_ret.
    split; [done|]. by exists κ. }
  by destruct (wpf_elim _ _ _ W) as (r & s' & E & -> & Hs); eauto.
Qed.
End theorems.

(** ** Example: service 10.96.0.1:443 with two backends *)
#[export] Instance kp_ref_env : KpEnv Z := { kp_random κ := (u32 κ, κ + 1) }.
#[export] Instance kp_ref_laws : KpEnvLaws Z.
Proof. split. intros κ. apply u32_range. Qed.
Definition kp_example (protocol κ : Z) : kp_state Z :=
  KpState 0x0100600a 0xbb01 protocol
    (<[V4Key 0x0100600a 0xbb01 0 := Lb4Service 0 2 1 0 0]> (<[V4Key 0x0100600a 0xbb01 1 := Lb4Service 5 0 1 0 0]>
      {[ V4Key 0x0100600a 0xbb01 2 := Lb4Service 6 0 1 0 0 ]}))
    (<[5 := Lb4Backend 0x0200000a 0x901f 0]> {[ 6 := Lb4Backend 0x0300000a 0x901f 0 ]}) κ.
Definition kp_target (s : kp_state Z) : option (Z * Z) :=
  (λ '(_, s'), (user_ip4 s', user_port s')) <$> sock4_connect s.
(** Both backends are chosen for TCP, only the first for UDP. *)
Example kp_targets :
  map kp_target [kp_example IPPROTO_TCP 8; kp_example IPPROTO_TCP 9; kp_example IPPROTO_UDP 9] =
    [Some (0x0200000a, 0x901f); Some (0x0300000a, 0x901f); Some (0x0200000a, 0x901f)].
Proof. by vm_compute. Qed.
Lemma service_connect_witness :
  ∃ s', sock4_connect (kp_example IPPROTO_TCP 9) = Some (SYS_PROCEED, s') ∧
    connect_to (kp_example IPPROTO_TCP 9) (Some (Lb4Backend 0x0300000a 0x901f 0)) s'.
Proof.
  destruct (service_connect (kp_example IPPROTO_TCP 9)) as (s' & E & Hs).
  - intros svc Hs. vm_compute in Hs. by injection Hs as <-.
  - exists s'. split; [done|]. revert Hs. by replace (_ ≫= _) with (Some (Lb4Backend 0x0300000a 0x901f 0)) by (by vm_compute).
Defined.
